(* ===== verification/_CoqProject ===== *)
-Q . S2P
Prelude.v
Ring.v
Float64.v
Device.v
XdmaDesc.v
XdmaEngine.v
XdmaAperture.v
XdmaAsync.v
CdevSgdma.v
MultiSend.v
Gate.v
UserSched.v
Sim.v
AlinxArch.v
Ptp.v
Qos.v
Sched.v
Meta.v
Netdev.v
QdmaList.v
Resource.v
FreeList.v
Fields.v
Indirect.v
CtxtRegs.v
Context.v
Csr.v
RegTable.v
RegDump.v
CtxtDump.v
ErrTable.v
HwErr.v
Bytes.v
Parser.v
MboxMsg.v
MboxHw.v
MboxPf.v
MboxPfOk.v
MboxCtxt.v
Sorting.v
BufferPool.v
GptpClock.v
Gptp.v
Sender.v
