(* ===== verification/Prelude.v ===== *)
(** * The TSN network driver and its QDMA access layer

    A verification library for the C code of the repository that decides when a
    frame is sent and which hardware it is sent through: the XDMA network driver
    with time-sensitive networking, the QDMA access layer, and the sample
    application, a TSN end station in user space.  Paths are below src/driver; X
    stands for XDMA/linux-kernel/xdma, S for XDMA/linux-kernel/sample and Q for
    QDMA/linux-kernel/driver/libqdma/qdma_access.

    ** The program and the files

    - [Prelude] (this file): C integers at their width, checked arrays ([aget],
      [aset]), loops, the result type [outcome] whose [Fault] is a C operation
      without a defined result, and the commands [cmd S A] of stateful functions.
    - [Float64]: the [double]s the driver computes with.
    - [Device], [Sim]: the structures of X/alinx_arch.h, X/xdma_netdev.h and X/tsn.h;
      the kernel and the registers as type classes over a world [W] with their
      documented laws; a concrete world on which the witnesses run.
    - [Gate], [Qos]: X/tsn.c, the schedules.  A traffic-control request
      ([tsn_set_qbv], [tsn_set_qav], [tsn_set_mqprio]) changes the configuration,
      and [bake_qos_config] compiles it to one gate list per class.  [Gate] is the
      abstract schedule the two are compared in.
    - [Sched]: X/tsn.c, the placement of a frame ([get_timestamps]), the credit of
      the shaper ([spend_qav_credit]) and the tracker of the hardware queue.
    - [AlinxArch], [Ptp]: X/alinx_arch.c and X/alinx_ptp.c, registers, counters and
      the PTP clock.
    - [Meta]: X/tsn.c, the header in front of a frame, byte by byte, and
      [tsn_fill_metadata], which classifies, places, stamps and accounts a frame.
    - [Netdev]: X/xdma_netdev.c and the interrupt handler of X/libxdma.c:
      transmission, the time-stamp work item, completion and reception.
      [xdma_netdev_start_xmit] calls [tsn_fill_metadata] and starts the engine;
      [xdma_isr] frees the frame; [do_tx_work] reports its time stamp.
    - [XdmaDesc], [XdmaEngine], [XdmaAperture], [XdmaAsync]: the transfer engine
      of X/libxdma.c.  In [XdmaDesc] a request cuts a scatter list into pieces, and
      [transfer_init] makes the next of them a chain of descriptors; [XdmaEngine] queues, starts and services transfers,
      and waits for them and cleans up in [xdma_xfer_submit]; [XdmaAperture] has the
      transfers through a window of the card, [XdmaAsync] those nobody waits for.
    - [CdevSgdma]: X/cdev_sgdma.c, the device files of an engine: the pages of a
      program's buffer are pinned, listed and handed to [XdmaEngine], and given back.
      [MultiSend] is about the ioctl with which the sample application sends frames.
    - [QdmaList]: Q/qdma_list.c, the circular list, on a heap of nodes.
    - [Resource], [FreeList]: Q/qdma_resource_mgmt.c, which divides the hardware
      queues among the functions.  In [Resource] the free list is the list of its
      chunks; [FreeList] has the same functions on the nodes of [QdmaList], and
      shows that they do what [Resource] says.
    - [Fields], [Indirect], [CtxtRegs], [Context]: the fields of
      Q/qdma_access_common.h, the indirect accesses and the seven queue contexts of
      Q/eqdma_soft_access/eqdma_soft_access.c, on any device that satisfies
      [IndCtxtOk]; [ind_hw] is such a device.
    - [Csr]: the capabilities, the global register arrays, the writeback interval and
      the clearing of all context memory, of the same file, on any device that
      satisfies [RegFileOk] too.
    - [RegTable], [RegDump]: the table of registers of
      Q/eqdma_soft_access/eqdma_soft_reg_dump.c, and reading and printing the
      registers in it, the text byte by byte, of the same file as [Csr].
    - [CtxtDump], [ErrTable], [HwErr]: of the same file, reading and printing the
      contexts of a queue, and enabling and processing hardware errors, over the table
      of errors, on any device that satisfies [ErrRegsOk] too.
    - [Bytes], [MboxMsg], [MboxHw], [MboxPf]: Q/qdma_mbox_protocol.c, over which a
      virtual function asks its physical function for queues and contexts.  A message
      is the bytes of a union ([Bytes]); [MboxMsg] composes and reads messages,
      [MboxHw] moves them through the mailbox registers, and [MboxPf] is the handler
      of the physical function, which calls [Resource], [Context], [Csr] and
      [RegDump].  [MboxPfOk] and [MboxCtxt] have the theorems about the handler.
    - [Sorting], [BufferPool]: quickSort and the two buffer stacks of
      S/buffer_handler.c.
    - [Ring], [UserSched]: arrays used as queues, and S/tsn.c, the scheduler of the
      sample application on eight of them: gates, shapers, weighted round robin.
    - [GptpClock], [Gptp]: S/gptp.c, the clock, the election of the grandmaster and
      the statistics; the messages it sends, in buffers of [BufferPool].
    - [Parser]: S/parser_thread.c and S/icmp.c, the answers to ARP requests, ICMP echo
      requests and UDP frames, made in the buffer of the frame, byte by byte.
    - [Sender]: S/sender_thread.c and the circular queues of S/receiver_thread.c and
      S/parser_thread.c.  [sender_round] moves parsed frames to the rings of
      [UserSched], sends what [tsn_select_queue] picks and gives the buffers back;
      [periodic_process_ptp] sends the messages of [Gptp].

    A C function is the definition of the same name.  A function that changes
    shared state is a command on that state ([xdma_dev W] for the driver, [rm] for
    the resource manager, [xdma] for an engine and its transfers, [chardev]
    for a device file, [pool], [sched], [gptp], [app] and [sender] for the parts of
    the sample application, [W] for register accesses); one
    that only fills a structure returns it as an [outcome].  Large functions are
    cut into definitions along their blocks.  Socket buffers are objects in a map,
    with their reference counts; using a freed one is a fault.  Locks are not
    modelled: the code between lock and unlock is one step.

    ** What the theorems show

    - Schedules: the baked gate lists equal the configured schedule at every
      instant ([Qos.bake_qos_config_correct]), after any sequence of requests
      ([Qos.config_always_consistent]); each request on every branch.
    - Placement: the window of a frame is open until its last bit is sent
      ([Sched.get_timestamps_correct], [Meta.fill_metadata_places]); the credit is
      exact ([Sched.spend_qav_exact]) and the tracker never underestimates the
      queue ([Sched.tracker_bounds_queue]).
    - Clock: conversions are inverse to each other, and what each adjustment does.
    - Transmission, work item and interrupt: every outcome with its conditions and the
      frame's ownership ([Netdev.xmit_frees_or_arms], [Netdev.do_tx_work_cases],
      [Netdev.xdma_isr_cases]).
    - Transfers: a chain does what the pieces of the request say
      ([XdmaDesc.transfer_describes_pieces]); reading and writing a
      device file moves each byte of the buffer to its place, on a device that does as it
      is told ([CdevSgdma.read_write_moves_buffer], from [XdmaEngine.submit_moves_request]),
      and whatever the device and the kernel do, everything is given back and an engine that
      does not flush at the end of a packet is stopped ([CdevSgdma.read_write_cleans_up], from [XdmaEngine.submit_cleans_up]); the frames of a
      burst are sent one by one as they are ([MultiSend.ioctl_sends_frames]).  Through a window the first chain is right
      ([XdmaAperture.aperture_covers]), the others are not.
    - Queues: none is free and owned, or with two functions, whatever is run and whatever
      the allocations answer, and none is lost while they succeed
      ([Resource.queues_partitioned]); what a request does, a failed allocation included
      ([Resource.dev_update_correct]); both for numbers below 2^31.  The pointers of the free list do the same
      without touching freed memory ([FreeList.request_q_resource_refines],
      [QdmaList.list_ops_refine], [QdmaList.for_each_safe_visits_all]).
    - Contexts: what is read back is what was written ([Context]); what a device
      that is too slow leaves behind ([Indirect.slow_device_times_out]); clearing the
      context memory ([Csr.init_ctxt_memory_clears]).
    - Global registers: the checks of their parameters, and that they read back as
      written, but the writeback interval ([Csr]).
    - Registers as text: the table is well formed but for the registers it names
      ([RegDump.config_regs_well_formed]); the dump has a line per register and fits
      its buffer ([RegDump.dump_config_regs_fits]); which registers a group gives
      ([RegDump.read_reg_list_spec]); when the dump of a list ends
      ([RegDump.dump_reg_list_ends]).  The dump of a queue shows the contexts in the
      device ([CtxtDump.read_dump_shows_contexts]).
    - Hardware errors: the table is well formed but for the errors it names
      ([HwErr.err_table_well_formed]); exactly the reported errors are named and their
      reports cleared, and the contexts stay as they are ([HwErr.error_process_reports]); which errors are enabled
      ([HwErr.error_enable_correct]).
    - Mailbox: a request is read as it was composed ([MboxMsg.request_roundtrip]) and
      arrives over any [Channel] with the sender the hardware reports
      ([MboxHw.message_delivered], [MboxHw.request_delivered]); on any device the
      handler returns, answers, and gives no queue to two functions, nor loses one
      while no allocation fails ([MboxPfOk.pf_handler_sound]); what the answer to a request for queues says
      ([MboxPfOk.queue_request_answered]); that a queue is programmed with
      each member of its configuration at its bits and no other is touched ([MboxCtxt.queue_contexts_written]).
    - Buffers: the pools are an allocator that loses and duplicates nothing
      ([BufferPool.pool_accounts_buffers]); quickSort sorts within its range,
      while its indices fit an [int] ([Sorting.quickSort_sorts], [Sorting.quickSort_overflows]).
    - Scheduler of the sample application: the rings are queues
      ([UserSched.rings_are_fifos]); what is selected, and when the array of rings is
      left ([UserSched.select_queue_picks]); queue 0 is drained
      ([UserSched.queue_0_drains]).
    - gPTP: the clock is exact below a bound ([GptpClock.clock_is_exact]); a Sync and its
      Follow-Up set it ([GptpClock.followup_syncs_clock]); the best clock is elected
      ([GptpClock.announces_elect_best]); a delay request is answered
      ([Gptp.delay_request_answered]).
    - Path of a frame: no buffer is lost or in two places in a round of the sender
      ([Sender.sender_round_conserves]) or by the periodic messages
      ([Sender.gptp_messages_conserve]), but when a ring is full
      ([Sender.refused_frame_freed_twice]); an echo request is answered with a right
      checksum ([Parser.icmp_echo_answered]).
    - A last group states defects as theorems: the conditions under which a function
      overflows, divides by zero, reads past an array or does not do what its
      comment says.

    ** Bounds and fuel

    Loops over arrays run over the array's own length.  [Sorting.quickSort] and
    [Sorting.partition] have fuel, the length of the range, which the theorem shows
    to be enough.  The loop of [XdmaEngine.xdma_xfer_submit] has the number of pieces and
    one, since each turn takes a piece; servicing has the length of the transfer list.
    [XdmaAperture.cut_entry] has the number of free descriptors; the loop of
    [XdmaAperture.xdma_xfer_aperture] has its fuel as an argument, since it need not end.
    Those of [XdmaAsync] have more than the two transfers of a request, behind which
    they fault.
    The walks over the free list have the number of its chunks and four
    ([FreeList.request_q_resource_refines]).  [Indirect.hw_monitor_reg] polls as often as the source (50000
    times for the default times).  [RegDump.eqdma_dump_config_reg_list] has fuel,
    more than the number of elements, which the theorem shows to be enough where the
    call ends; where it does not, no fuel is.  A message has 152 bytes, of which the
    mailbox moves 128; [MboxPf] has one ring in an interrupt message, as the arrays
    do.  [double] arithmetic is exact below 2^53; the
    theorems that need it bound the clock by [Ptp.uptime_ok] (104 days).  Queue ids
    are below 4096, the width of the command's field.

    ** What is not modelled

    Interleavings inside a locked section and the memory model; of X/libxdma.c
    the performance test and probing; the device files for
    registers and events, and asynchronous reads and writes; the QDMA queues and
    interrupts, its other hardware variants and the default values of the global
    registers; the modes of the sample application for performance measurements, its start-up and the
    printing of its counters; the Rust and Python wrappers.  The threads of the sample
    application interleave at the operations of its queues and pools, each of which is
    one step; the theorems about a round of the sender and about an answer have no other
    thread in between, but for [Gptp.follow_up_race].  The handler of the mailbox has
    its two messages in different objects, as its caller does.
    Next in the plan: the default values of eqdma_soft_access.c and its dispatch by
    hardware version, the other hardware variants. *)

From Stdlib Require Export ZArith Lia.
From stdpp Require Export base option list.

Open Scope Z_scope.

(** ** Faults

    A C statement that has no defined result (a division by zero, an access
    outside an array, a floating value that does not fit the integer type it is
    converted to, a signed sum or product that does not fit its type, a null
    pointer, an object read before it is written) ends the
    evaluation with the fault; it never yields a made-up value.  [OutOfFuel] is no
    fault of the code: a definition with fuel ends with it when the fuel was too
    little, and a theorem about it says which fuel is enough. *)
Inductive fault : Type :=
  | DivByZero
  | OutOfBounds
  | BadConversion
  | NullDeref
  | UseAfterFree
  | Uninitialized
  | SignedOverflow
  | OutOfFuel.

#[export] Instance fault_eq_dec : EqDecision fault.
Proof. solve_decision. Defined.

Inductive outcome (A : Type) : Type :=
  | Ok (a : A)
  | Fault (f : fault).
Arguments Ok {A} a.
Arguments Fault {A} f.

#[export] Instance outcome_ret : MRet outcome := fun A a => Ok a.
#[export] Instance outcome_bind : MBind outcome := fun A B f x =>
  match x with Ok a => f a | Fault e => Fault e end.

Definition is_ok {A} (x : outcome A) : bool :=
  match x with Ok _ => true | Fault _ => false end.

Lemma bind_ok {A B} (x : outcome A) (k : A -> outcome B) (b : B) :
  x ≫= k = Ok b -> exists a, x = Ok a /\ k a = Ok b.
Proof. destruct x as [a|e]; cbn; [eauto | discriminate]. Qed.

(** ** Machine integers

    An unsigned w-bit integer is the [Z] in [0, 2^w); [wrap w] is the conversion
    to it.  A signed one is the two's complement reading of the same bits. *)
Definition wrap (w x : Z) : Z := x mod 2 ^ w.
Definition u8 (x : Z) : Z := x mod 256.
Definition u16 (x : Z) : Z := x mod 65536.
Definition u32 (x : Z) : Z := x mod 4294967296.
Definition u64 (x : Z) : Z := x mod 18446744073709551616.
Definition s32 (x : Z) : Z := (x + 2147483648) mod 4294967296 - 2147483648.
Definition s64 (x : Z) : Z :=
  (x + 9223372036854775808) mod 18446744073709551616 - 9223372036854775808.

Definition fits_u32 (x : Z) : Prop := 0 <= x < 4294967296.
Definition fits_u64 (x : Z) : Prop := 0 <= x < 18446744073709551616.
Definition fits_s32 (x : Z) : Prop := -2147483648 <= x < 2147483648.

(** The result of a signed operation on [int] and on [int64_t]. *)
Definition sint (x : Z) : outcome Z :=
  if decide (-2147483648 <= x < 2147483648) then Ok x else Fault SignedOverflow.
Definition slong (x : Z) : outcome Z :=
  if decide (-9223372036854775808 <= x < 9223372036854775808) then Ok x else Fault SignedOverflow.

Lemma sint_run x : fits_s32 x -> sint x = Ok x.
Proof. intros H. unfold sint. by rewrite decide_True by exact H. Qed.

(** [int_lia] decides linear goals over the wrap-around operations. *)
Ltac wunfold :=
  unfold fits_u32, fits_u64, fits_s32, u8, u16, u32, u64, s32, s64 in *.
Ltac int_lia := wunfold; Z.div_mod_to_equations; lia.

Lemma u32_range x : fits_u32 (u32 x).
Proof. int_lia. Qed.
Lemma u64_range x : fits_u64 (u64 x).
Proof. int_lia. Qed.
Lemma s32_range x : fits_s32 (s32 x).
Proof. int_lia. Qed.
Lemma u32_small x : fits_u32 x -> u32 x = x.
Proof. int_lia. Qed.
Lemma u64_small x : fits_u64 x -> u64 x = x.
Proof. int_lia. Qed.
Lemma s32_small x : fits_s32 x -> s32 x = x.
Proof. int_lia. Qed.

Lemma u64_add_l x y : u64 (u64 x + y) = u64 (x + y).
Proof. unfold u64. apply Zplus_mod_idemp_l. Qed.
Lemma u64_add_r x y : u64 (x + u64 y) = u64 (x + y).
Proof. unfold u64. apply Zplus_mod_idemp_r. Qed.
Lemma u64_sub_l x y : u64 (u64 x - y) = u64 (x - y).
Proof. unfold u64. apply Zminus_mod_idemp_l. Qed.
Lemma u64_sub_r x y : u64 (x - u64 y) = u64 (x - y).
Proof. unfold u64. apply Zminus_mod_idemp_r. Qed.
Lemma u64_idem x : u64 (u64 x) = u64 x.
Proof. unfold u64. apply Zmod_mod. Qed.
Lemma u32_add_l x y : u32 (u32 x + y) = u32 (x + y).
Proof. unfold u32. apply Zplus_mod_idemp_l. Qed.
Lemma u32_sub_l x y : u32 (u32 x - y) = u32 (x - y).
Proof. unfold u32. apply Zminus_mod_idemp_l. Qed.

Create HintDb cint.
Create Rewrite HintDb cint.
#[export] Hint Resolve u32_range u64_range s32_range : cint.
#[export] Hint Rewrite u64_add_l u64_add_r u64_sub_l u64_sub_r u64_idem
  u32_add_l u32_sub_l : cint.

(** ** Arrays

    A C array is the list of its elements; an index outside it is a fault. *)
Definition aget {A} (l : list A) (i : Z) : outcome A :=
  if decide (0 <= i) then
    match l !! Z.to_nat i with Some a => Ok a | None => Fault OutOfBounds end
  else Fault OutOfBounds.

Definition aset {A} (l : list A) (i : Z) (a : A) : outcome (list A) :=
  if decide (0 <= i < Z.of_nat (length l)) then Ok (<[Z.to_nat i := a]> l)
  else Fault OutOfBounds.

Lemma aget_ok {A} (l : list A) i a :
  aget l i = Ok a <-> 0 <= i /\ l !! Z.to_nat i = Some a.
Proof.
  unfold aget. case_decide; [|split; [discriminate | lia]].
  destruct (l !! Z.to_nat i); naive_solver.
Qed.

Lemma aget_nat {A} (l : list A) (i : nat) a :
  l !! i = Some a -> aget l (Z.of_nat i) = Ok a.
Proof. intros H. apply aget_ok. rewrite Nat2Z.id. auto with lia. Qed.

Lemma aget_some {A} (l : list A) i :
  0 <= i < Z.of_nat (length l) -> exists a, aget l i = Ok a.
Proof.
  intros H. destruct (lookup_lt_is_Some_2 l (Z.to_nat i)) as [a Ha]; [lia|].
  exists a. apply aget_ok. auto with lia.
Qed.

Lemma aset_nat {A} (l : list A) (i : nat) a :
  (i < length l)%nat -> aset l (Z.of_nat i) a = Ok (<[i := a]> l).
Proof. intros H. unfold aset. rewrite decide_True by lia. by rewrite Nat2Z.id. Qed.

Lemma aset_ok {A} (l l' : list A) i a :
  aset l i a = Ok l' <->
  0 <= i < Z.of_nat (length l) /\ l' = <[Z.to_nat i := a]> l.
Proof. unfold aset. case_decide; naive_solver. Qed.

Lemma aset_run {A} (l : list A) i a :
  0 <= i < Z.of_nat (length l) -> aset l i a = Ok (<[Z.to_nat i := a]> l).
Proof. intros H. by apply aset_ok. Qed.

(** ** Loops

    [for_loop n f s] runs [f] on the counter values [0 .. n-1], the C loop
    [for (i = 0; i < n; i++)] whose body is [f] and whose locals are [s]. *)
Fixpoint for_from {T} (i n : nat) (f : nat -> T -> outcome T) (s : T) : outcome T :=
  match n with
  | O => Ok s
  | S n' => s' ← f i s; for_from (S i) n' f s'
  end.

Definition for_loop {T} (n : nat) (f : nat -> T -> outcome T) (s : T) : outcome T :=
  for_from 0 n f s.

Lemma for_from_snoc {T} (n i : nat) (f : nat -> T -> outcome T) s :
  for_from i (S n) f s = (s' ← for_from i n f s; f (i + n)%nat s').
Proof.
  revert i s. induction n as [|n IH]; intros i s.
  - cbn. rewrite Nat.add_0_r. by destruct (f i s).
  - transitivity (s' ← f i s; for_from (S i) (S n) f s'); [done|].
    cbn [for_from]. destruct (f i s) as [s'|e]; [|done].
    change (for_from (S i) (S n) f s' = (s'' ← for_from (S i) n f s'; f (i + S n)%nat s'')).
    rewrite IH. by replace (S i + n)%nat with (i + S n)%nat by lia.
Qed.

(** The loop rule: an invariant indexed by the counter. *)
Lemma for_loop_inv {T} (Inv : nat -> T -> Prop) n f (s : T) :
  Inv 0%nat s ->
  (forall i s, (i < n)%nat -> Inv i s ->
     exists s', f i s = Ok s' /\ Inv (S i) s') ->
  exists s', for_loop n f s = Ok s' /\ Inv n s'.
Proof.
  unfold for_loop. intros H0 Hstep.
  enough (forall m, (m <= n)%nat -> exists s', for_from 0 m f s = Ok s' /\ Inv m s')
    as H by (apply H; lia).
  induction m as [|m IH]; intros Hm; [by exists s|].
  destruct IH as (s1 & E1 & I1); [lia|].
  destruct (Hstep m s1) as (s2 & E2 & I2); [lia|done|].
  exists s2. by rewrite for_from_snoc, E1.
Qed.

(** A loop over the elements of a fixed-size array that rewrites each element
    on its own is the pointwise map. *)
Lemma for_loop_pointwise {A} (g : nat -> A -> outcome A) (h : nat -> A -> A)
    (l : list A) :
  (forall i a, l !! i = Some a -> g i a = Ok (h i a)) ->
  for_loop (length l) (fun i l' => a ← aget l' (Z.of_nat i); b ← g i a;
                                   aset l' (Z.of_nat i) b) l = Ok (imap h l).
Proof.
  intros Hg.
  destruct (for_loop_inv
    (fun i l' => length l' = length l /\
       forall j, l' !! j = if decide (j < i)%nat then h j <$> l !! j else l !! j)
    (length l) (fun i l' => a ← aget l' (Z.of_nat i); b ← g i a;
                            aset l' (Z.of_nat i) b) l) as (r & E & Hlen & Hr).
  - split; [done|]. intros j. by case_decide; [lia|].
  - intros i s Hi [Hl Hs].
    destruct (lookup_lt_is_Some_2 l i Hi) as [a Ha].
    assert (s !! i = Some a) as Hsi by (rewrite Hs, decide_False by lia; done).
    exists (<[i := h i a]> s). rewrite (aget_nat _ _ _ Hsi). cbn.
    rewrite (Hg _ _ Ha). cbn. rewrite aset_nat by lia. split; [done|].
    split; [by rewrite length_insert|]. intros j.
    destruct (decide (i = j)) as [->|Hne].
    + rewrite list_lookup_insert_eq by lia. rewrite decide_True by lia. by rewrite Ha.
    + rewrite list_lookup_insert_ne, Hs by done. repeat case_decide; done || lia.
  - rewrite E. f_equal. apply list_eq. intros j. rewrite Hr, list_lookup_imap.
    case_decide; [done|]. rewrite lookup_ge_None_2 by lia. done.
Qed.

(** The same when the body may fault: a loop in which no element's step faults
    runs, and each element has been replaced by its step's result. *)
Lemma for_loop_each {A} (g : nat -> A -> outcome A) (l : list A) :
  (forall i a, l !! i = Some a -> exists b, g i a = Ok b) ->
  exists l', for_loop (length l) (fun i l' => a ← aget l' (Z.of_nat i); b ← g i a;
                                              aset l' (Z.of_nat i) b) l = Ok l' /\
    length l' = length l /\
    forall i a, l !! i = Some a -> exists b, l' !! i = Some b /\ g i a = Ok b.
Proof.
  intros Hg. set (h := fun i a => match g i a with Ok b => b | Fault _ => a end).
  exists (imap h l). split; [|split; [apply length_imap|]].
  - apply for_loop_pointwise. intros i a Ha. unfold h. by destruct (Hg i a Ha) as [b ->].
  - intros i a Ha. destruct (Hg i a Ha) as [b Hb]. exists b.
    rewrite list_lookup_imap, Ha. cbn. unfold h. by rewrite Hb.
Qed.

(** ** Commands

    A stateful C function is a command: it maps the state it runs in to its
    result and the state it leaves, or to the fault it runs into. *)
Definition cmd (S A : Type) : Type := S -> outcome (A * S).

#[export] Instance cmd_ret {S} : MRet (cmd S) := fun A a s => Ok (a, s).
#[export] Instance cmd_bind {S} : MBind (cmd S) := fun A B k c s =>
  match c s with Ok (a, s') => k a s' | Fault f => Fault f end.

Definition get {S} : cmd S S := fun s => Ok (s, s).
Definition gets {S A} (f : S -> A) : cmd S A := fun s => Ok (f s, s).
Definition modify {S} (f : S -> S) : cmd S unit := fun s => Ok (tt, f s).
Definition lift {S A} (x : outcome A) : cmd S A := fun s =>
  match x with Ok a => Ok (a, s) | Fault f => Fault f end.
Definition fail {S A} (f : fault) : cmd S A := fun _ => Fault f.
Definition when {S} (b : bool) (c : cmd S unit) : cmd S unit :=
  if b then c else mret tt.

Lemma cmd_bind_ok {S A B} (c : cmd S A) (k : A -> cmd S B) s b s' :
  (c ≫= k) s = Ok (b, s') <->
  exists a s1, c s = Ok (a, s1) /\ k a s1 = Ok (b, s').
Proof.
  unfold mbind, cmd_bind. split.
  - destruct (c s) as [[a s1]|e]; [eauto | discriminate].
  - by intros (a & s1 & -> & ->).
Qed.

Lemma cmd_bind_run {S A B} (c : cmd S A) (k : A -> cmd S B) s a s1 :
  c s = Ok (a, s1) -> (c ≫= k) s = k a s1.
Proof. unfold mbind, cmd_bind. by intros ->. Qed.

Lemma lift_ok {S A} (x : outcome A) (s s' : S) a :
  lift x s = Ok (a, s') <-> x = Ok a /\ s' = s.
Proof. unfold lift. destruct x; naive_solver. Qed.

Lemma lift_run {S A} (x : outcome A) (s : S) a : x = Ok a -> lift x s = Ok (a, s).
Proof. by intros ->. Qed.

(** [returns P c]: from every state [c] ends without a fault with a result in [P]. *)
Definition returns {S A} (P : A -> Prop) (c : cmd S A) : Prop := forall s, exists a s', c s = Ok (a, s') /\ P a.

Lemma returns_ret {S A} (P : A -> Prop) (a : A) : P a -> returns (S := S) P (mret a).
Proof. intros H s. by exists a, s. Qed.
Lemma returns_bind {S A B} (Q : A -> Prop) (P : B -> Prop) (c : cmd S A) (k : A -> cmd S B) :
  returns Q c -> (forall a, Q a -> returns P (k a)) -> returns P (c ≫= k).
Proof.
  intros Hc Hk s. destruct (Hc s) as (a & s1 & E & Ha). destruct (Hk a Ha s1) as (b & s2 & E2 & Hb).
  exists b, s2. by rewrite (cmd_bind_run _ _ _ _ _ E).
Qed.
Lemma returns_weaken {S A} (P Q : A -> Prop) (c : cmd S A) : returns P c -> (forall a, P a -> Q a) -> returns Q c.
Proof. intros Hc H s. destruct (Hc s) as (a & s' & E & Ha). exists a, s'. auto. Qed.
Lemma returns_lift {S A} (P : A -> Prop) (x : outcome A) a : x = Ok a -> P a -> returns (S := S) P (lift x).
Proof. intros -> H s. by exists a, s. Qed.

(** [cstep] runs the first command of a sequence in the goal when it runs by
    computation; [cstep_by tac] when [tac] proves what it returns. *)
Ltac cstep := erewrite cmd_bind_run by reflexivity.
Tactic Notation "cstep_by" tactic3(tac) := erewrite cmd_bind_run; [|solve [tac]].

Lemma get_ok {S} (s s' a : S) : get s = Ok (a, s') <-> a = s /\ s' = s.
Proof. unfold get. naive_solver. Qed.
Lemma gets_ok {S A} (f : S -> A) (s s' : S) a :
  gets f s = Ok (a, s') <-> a = f s /\ s' = s.
Proof. unfold gets. naive_solver. Qed.
Lemma modify_ok {S} (f : S -> S) (s s' : S) a :
  modify f s = Ok (a, s') <-> a = tt /\ s' = f s.
Proof. unfold modify. naive_solver. Qed.
Lemma ret_ok {S A} (x a : A) (s s' : S) :
  (mret x : cmd S A) s = Ok (a, s') <-> a = x /\ s' = s.
Proof. unfold mret, cmd_ret. naive_solver. Qed.

(** [use_eq H] substitutes a variable equal to a result, drops a trivial equation
    and keeps any other. *)
Ltac use_eq H :=
  lazymatch type of H with
  | ?x = ?y => first [is_var x; subst x | constr_eq x y; clear H | idtac]
  end.

(** [inv_cmd H] splits a successful run [H] into the runs of its parts. *)
Ltac inv_cmd H :=
  let ends lem := (let Ha := fresh "Ha" in apply lem in H as [Ha ->]; use_eq Ha) in
  lazymatch type of H with
  | (mbind _ _) _ = Ok (_, _) =>
      let a := fresh "v" in let s := fresh "st" in let E := fresh "E" in
      apply cmd_bind_ok in H as (a & s & E & H); inv_cmd E; inv_cmd H
  | lift _ _ = Ok (_, _) => apply lift_ok in H as [H ->]
  | get _ = Ok (_, _) => ends (@get_ok)
  | gets _ _ = Ok (_, _) => ends (@gets_ok)
  | modify _ _ = Ok (_, _) => ends (@modify_ok)
  | mret _ _ = Ok (_, _) => ends (@ret_ok)
  | _ => idtac
  end.

(** ** Bit fields

    [bits x lo n] is the unsigned field of [n] bits of [x] that starts at bit
    [lo]. *)
Definition bits (x lo n : Z) : Z := Z.land (Z.shiftr x lo) (Z.ones n).

Lemma bits_spec x lo n : 0 <= lo -> 0 <= n ->
  bits x lo n = (x / 2 ^ lo) mod 2 ^ n.
Proof. intros. unfold bits. by rewrite Z.land_ones, Z.shiftr_div_pow2 by lia. Qed.

Definition hi32 (x : Z) : Z := u32 (Z.shiftr x 32).
Definition lo32 (x : Z) : Z := u32 x.

Lemma hi_lo_join x : fits_u64 x -> Z.lor (Z.shiftl (hi32 x) 32) (lo32 x) = x.
Proof.
  intros Hx. unfold hi32, lo32.
  replace (u32 x) with (Z.land x (Z.ones 32)) by (rewrite Z.land_ones by lia; done).
  replace (u32 (Z.shiftr x 32)) with (Z.shiftr x 32)
    by (rewrite Z.shiftr_div_pow2 by lia; change (2 ^ 32) with 4294967296; int_lia).
  rewrite <- (Z.ldiff_ones_r x 32) by lia.
  apply Z.bits_inj'. intros i Hi.
  rewrite Z.lor_spec, Z.ldiff_spec, Z.land_spec.
  destruct (decide (i < 32)).
  - rewrite Z.ones_spec_low by lia. by destruct (Z.testbit x i).
  - rewrite Z.ones_spec_high by lia. by destruct (Z.testbit x i).
Qed.

Lemma land_shiftl_low a b n : 0 <= n -> 0 <= b < 2 ^ n -> Z.land (Z.shiftl a n) b = 0.
Proof.
  intros Hn Hb. apply Z.bits_inj'. intros i Hi. rewrite Z.land_spec, Z.bits_0.
  destruct (decide (i < n)).
  - by rewrite Z.shiftl_spec_low by lia.
  - rewrite <- (Z.mod_small b (2 ^ n)) by lia.
    by rewrite Z.mod_pow2_bits_high, andb_false_r by lia.
Qed.

Lemma lor_shiftl_add a b n : 0 <= n -> 0 <= b < 2 ^ n ->
  Z.lor (Z.shiftl a n) b = a * 2 ^ n + b.
Proof.
  intros Hn Hb. pose proof (land_shiftl_low a b n Hn Hb) as H0.
  by rewrite <- Z.lxor_lor, <- Z.add_nocarry_lxor, Z.shiftl_mul_pow2 by done.
Qed.

(** ** Lists *)
Lemma filter_of_fmap {A B} (f : A -> B) (P : B -> Prop) `{!forall x, Decision (P x)} (l : list A) :
  filter P (f <$> l) = f <$> filter (fun x => P (f x)) l.
Proof.
  induction l as [|x l IH]; [done|]. rewrite fmap_cons, !filter_cons, IH.
  by destruct (decide (P (f x))).
Qed.

Lemma filter_keeps_all {A} (P : A -> Prop) `{!forall x, Decision (P x)} (l : list A) :
  Forall P l -> filter P l = l.
Proof. induction 1 as [|x l Hx _ IH]; [done|]. by rewrite filter_cons_True, IH. Qed.

Lemma filter_same {A} (P Q : A -> Prop) `{!forall x, Decision (P x), !forall x, Decision (Q x)} (l : list A) :
  (forall x, P x <-> Q x) -> filter P l = filter Q l.
Proof.
  intros HPQ. induction l as [|x l IH]; [done|]. rewrite !filter_cons, IH.
  destruct (decide (P x)), (decide (Q x)); naive_solver.
Qed.
