(* ===== verification/Ring.v ===== *)
(** * Rings: arrays used as queues

    The queues of the sample application are arrays with the index of the oldest
    element and a count.  This file says what such a ring holds, and that writing
    behind the last element and stepping over the first are the operations of a queue. *)

From S2P Require Import Prelude.

Open Scope Z_scope.

Section ring.
Context {A : Type} `{!Inhabited A} (n : Z) (Hn : 0 < n).

(** The elements, the oldest first. *)
Definition ring (els : list A) (tail count : Z) : list A :=
  (fun k => els !!! Z.to_nat ((tail + k) mod n)) <$> seqZ 0 count.

Definition ring_ok (els : list A) (tail count : Z) : Prop :=
  Z.of_nat (length els) = n /\ 0 <= count <= n /\ 0 <= tail < n.

Lemma ring_length els tail count : ring_ok els tail count -> Z.of_nat (length (ring els tail count)) = count.
Proof. intros (_ & H & _). unfold ring. rewrite length_fmap, length_seqZ. lia. Qed.

Lemma ring_empty els tail count : ring_ok els tail count -> count = 0 <-> ring els tail count = [].
Proof. intros H. rewrite <- length_zero_iff_nil. pose proof (ring_length els tail count H). lia. Qed.

Lemma slots_differ tail count k : 0 <= tail < n -> 0 <= k < count -> count < n ->
  Z.to_nat ((tail + k) mod n) <> Z.to_nat ((tail + count) mod n).
Proof.
  intros Ht Hk Hc. pose proof (Z.mod_pos_bound (tail + k) n Hn). pose proof (Z.mod_pos_bound (tail + count) n Hn).
  intros E. apply Z2Nat.inj in E; [|lia|lia].
  assert ((count - k) mod n = 0) as Hz.
  { replace (count - k) with ((tail + count) - (tail + k)) by ring. rewrite Zminus_mod, E, Z.sub_diag. by apply Zmod_0_l. }
  rewrite Z.mod_small in Hz by lia. lia.
Qed.

Lemma ring_push els tail count b : ring_ok els tail count -> count < n -> exists els',
  aset els ((tail + count) mod n) b = Ok els' /\ ring_ok els' tail (count + 1) /\
  ring els' tail (count + 1) = ring els tail count ++ [b].
Proof.
  intros (Hl & Hc & Ht) Hlt. pose proof (Z.mod_pos_bound (tail + count) n Hn).
  eexists. split; [apply aset_ok; split; [lia|reflexivity]|]. split.
  - split; [by rewrite length_insert|]. lia.
  - unfold ring. replace (seqZ 0 (count + 1)) with (seqZ 0 count ++ [count])
      by (rewrite seqZ_app by lia; f_equal; by rewrite Z.add_0_l).
    rewrite fmap_app. f_equal.
    + apply list_fmap_ext. intros i k Hk%lookup_seqZ. rewrite list_lookup_total_insert_ne; [done|].
      apply not_eq_sym, slots_differ; cbn in Hk; lia.
    + cbn [fmap list_fmap]. rewrite list_lookup_total_insert_eq by lia. done.
Qed.

Lemma ring_pop els tail count b l : ring_ok els tail count -> ring els tail count = b :: l ->
  aget els tail = Ok b /\ count <> 0 /\ ring_ok els ((tail + 1) mod n) (count - 1) /\
  ring els ((tail + 1) mod n) (count - 1) = l.
Proof.
  intros Hq E. pose proof (ring_length _ _ _ Hq) as Hlen. rewrite E in Hlen. cbn [length] in Hlen.
  destruct Hq as (Hl & Hc & Ht). unfold ring in E. rewrite seqZ_cons in E by lia.
  rewrite fmap_cons in E. injection E as E1 E2. rewrite Z.add_0_r, Z.mod_small in E1 by lia.
  split; [|split; [lia|split]].
  - apply aget_ok. split; [lia|]. rewrite <- E1. apply list_lookup_lookup_total_lt. lia.
  - pose proof (Z.mod_pos_bound (tail + 1) n Hn). split_and!; lia.
  - unfold ring. rewrite <- E2.
    replace (seqZ (Z.succ 0) (Z.pred count)) with (Z.add 1 <$> seqZ 0 (count - 1))
      by (rewrite fmap_add_seqZ; f_equal; lia).
    rewrite <- list_fmap_compose. apply list_fmap_ext. intros i k _. cbn.
    rewrite Zplus_mod_idemp_l. do 3 f_equal. lia.
Qed.
End ring.
