(* ===== verification/Float64.v ===== *)
(** * IEEE-754 binary64 arithmetic as the driver uses it

    The driver computes with C [double]s: the clock scale, the conversion
    between hardware ticks and nanoseconds, and the CBS credit.  The model of a
    [double] is the executable specification of binary64 in the Standard Library
    ([SpecFloat] at precision 53 and exponent bound 1024, rounding to nearest
    even).  This file adds the conversions from and to the C integer types and
    proves that integers below 2^53 are computed with exactly. *)

From S2P Require Import Prelude.
From Stdlib Require Import SpecFloat.

Open Scope Z_scope.

Definition f64 : Type := spec_float.
Definition f64_of_Z (z : Z) : f64 := binary_normalize 53 1024 z 0 false.
Definition f64_mul : f64 -> f64 -> f64 := SFmul 53 1024.
Definition f64_div : f64 -> f64 -> f64 := SFdiv 53 1024.
Definition f64_add : f64 -> f64 -> f64 := SFadd 53 1024.
Definition f64_sub : f64 -> f64 -> f64 := SFsub 53 1024.
Definition f64_sqrt : f64 -> f64 := SFsqrt 53 1024.
Definition f64_lt : f64 -> f64 -> bool := SFltb.
Definition f64_opp : f64 -> f64 := SFopp.

(** The value of a finite double with its fractional part discarded. *)
Definition f64_trunc (x : f64) : option Z :=
  match x with
  | S754_zero _ => Some 0
  | S754_finite s m e => Some (cond_Zopp s (Z.shiftl (Zpos m) e))
  | _ => None
  end.

(** Conversion to an integer type of range [lo .. hi]: a value that does not fit
    has no defined result (C17 6.3.1.4). *)
Definition f64_convert (lo hi : Z) (x : f64) : outcome Z :=
  match f64_trunc x with
  | Some z => if decide (lo <= z <= hi) then Ok z else Fault BadConversion
  | None => Fault BadConversion
  end.
Definition f64_to_u64 : f64 -> outcome Z := f64_convert 0 18446744073709551615.
Definition f64_to_u32 : f64 -> outcome Z := f64_convert 0 4294967295.
Definition f64_to_s64 : f64 -> outcome Z := f64_convert (-9223372036854775808) 9223372036854775807.
Definition f64_to_s32 : f64 -> outcome Z := f64_convert (-2147483648) 2147483647.

(** ** Digits and shifts *)

Lemma digits2_pos_bounds p :
  2 ^ (Zpos (digits2_pos p) - 1) <= Zpos p < 2 ^ Zpos (digits2_pos p).
Proof.
  induction p as [p IH|p IH|]; cbn [digits2_pos]; [| |cbn; lia].
  all: rewrite Pos2Z.inj_succ;
    replace (Z.succ (Zpos (digits2_pos p)) - 1) with (Z.succ (Zpos (digits2_pos p) - 1)) by lia;
    rewrite !Z.pow_succ_r by lia; lia.
Qed.

Lemma digits2_pos_unique p n :
  2 ^ (n - 1) <= Zpos p < 2 ^ n -> 0 < n -> Zpos (digits2_pos p) = n.
Proof.
  intros Hp Hn. pose proof (digits2_pos_bounds p) as Hd.
  destruct (Z.lt_trichotomy (Zpos (digits2_pos p)) n) as [H|[H|H]]; [|done|]; exfalso.
  - assert (2 ^ Zpos (digits2_pos p) <= 2 ^ (n - 1)) by (apply Z.pow_le_mono_r; lia). lia.
  - assert (2 ^ n <= 2 ^ (Zpos (digits2_pos p) - 1)) by (apply Z.pow_le_mono_r; lia). lia.
Qed.

Lemma Zdigits2_unique z n : 2 ^ (n - 1) <= z < 2 ^ n -> 0 < n -> Zdigits2 z = n.
Proof.
  intros Hz Hn. assert (0 < 2 ^ (n - 1)) by (apply Z.pow_pos_nonneg; lia).
  destruct z; try lia. by apply digits2_pos_unique.
Qed.

Lemma Zdigits2_bounds z : 0 < z -> 2 ^ (Zdigits2 z - 1) <= z < 2 ^ Zdigits2 z /\ 0 < Zdigits2 z.
Proof. destruct z as [|p|p]; try lia. split; [apply digits2_pos_bounds | done]. Qed.

Lemma Zdigits2_shift z k : 0 < z -> 0 <= k -> Zdigits2 (z * 2 ^ k) = Zdigits2 z + k.
Proof.
  intros Hz Hk. destruct (Zdigits2_bounds z Hz) as [Hb Hd].
  assert (0 < 2 ^ k) by (apply Z.pow_pos_nonneg; lia).
  apply Zdigits2_unique; [|lia].
  replace (Zdigits2 z + k - 1) with (Zdigits2 z - 1 + k) by lia.
  rewrite !Z.pow_add_r by lia. nia.
Qed.

Lemma Zdigits2_le z n : 0 < z < 2 ^ n -> 0 <= n -> Zdigits2 z <= n.
Proof.
  intros Hz Hn. destruct (Zdigits2_bounds z) as [Hb Hd]; [lia|].
  destruct (Z.le_gt_cases (Zdigits2 z) n); [done|].
  assert (2 ^ n <= 2 ^ (Zdigits2 z - 1)) by (apply Z.pow_le_mono_r; lia). lia.
Qed.

Lemma Zdigits2_mul a b : 0 < a -> 0 < b ->
  Zdigits2 a + Zdigits2 b - 1 <= Zdigits2 (a * b).
Proof.
  intros Ha Hb. destruct (Zdigits2_bounds a Ha) as [Ba Da].
  destruct (Zdigits2_bounds b Hb) as [Bb Db].
  destruct (Zdigits2_bounds (a * b)) as [Bc Dc]; [nia|].
  assert (2 ^ (Zdigits2 a - 1 + (Zdigits2 b - 1)) < 2 ^ Zdigits2 (a * b)) as H.
  { rewrite Z.pow_add_r by lia. nia. }
  apply Z.pow_lt_mono_r_iff in H; lia.
Qed.

Lemma iter_pos_shr_1 (n : positive) m :
  iter_pos shr_1 n (Build_shr_record (m * 2 ^ Zpos n) false false)
  = Build_shr_record m false false.
Proof.
  assert (forall z, shr_1 (Build_shr_record (z * 2) false false)
                    = Build_shr_record z false false) as H1.
  { intros z. rewrite Z.mul_comm. by destruct z. }
  assert (forall p, 2 ^ (2 * Zpos p) = 2 ^ Zpos p * 2 ^ Zpos p) as H2.
  { intros p. rewrite <- Z.pow_add_r by lia. f_equal; lia. }
  revert m. induction n as [n IH|n IH|]; intros m; cbn [iter_pos].
  - replace (m * 2 ^ Zpos n~1) with (m * 2 ^ Zpos n * 2 ^ Zpos n * 2)
      by (rewrite (Pos2Z.inj_xI n), Z.pow_add_r, H2 by lia; ring).
    by rewrite H1, !IH.
  - replace (m * 2 ^ Zpos n~0) with (m * 2 ^ Zpos n * 2 ^ Zpos n)
      by (rewrite (Pos2Z.inj_xO n), H2; ring).
    by rewrite !IH.
  - apply H1.
Qed.

Lemma shr_exact m e n : 0 <= n ->
  shr (Build_shr_record (m * 2 ^ n) false false) e n
  = (Build_shr_record m false false, e + n).
Proof.
  intros Hn. destruct n as [|n|n]; cbn [shr]; [|by rewrite iter_pos_shr_1|lia].
  f_equal; [f_equal|]; lia.
Qed.

(** ** Canonical floats

    [mkf s z e] is the binary64 number (-1)^s * z * 2^e for [0 < z < 2^53]: the
    mantissa is shifted to 53 digits. *)
Definition mkf (s : bool) (z e : Z) : f64 :=
  S754_finite s (Z.to_pos (z * 2 ^ (53 - Zdigits2 z))) (e - (53 - Zdigits2 z)).

Lemma round_aux_exact s m e k :
  0 < m -> Zdigits2 m = 53 -> 0 <= k -> -1074 <= e + k <= 971 ->
  binary_round_aux 53 1024 s (m * 2 ^ k) e loc_Exact
  = S754_finite s (Z.to_pos m) (e + k).
Proof.
  intros Hpos Hm Hk He.
  unfold binary_round_aux, shr_fexp. cbn [shr_record_of_loc].
  rewrite Zdigits2_shift, Hm by lia.
  replace (fexp 53 1024 (53 + k + e) - e) with k by (unfold fexp, emin; lia).
  rewrite shr_exact by lia. cbn [shr_m loc_of_shr_record round_nearest_even].
  rewrite Hm.
  replace (fexp 53 1024 (53 + (e + k)) - (e + k)) with 0 by (unfold fexp, emin; lia).
  cbn [shr shr_m]. destruct m as [|m|m]; try lia.
  replace (e + k <=? 1024 - 53) with true by lia. done.
Qed.

Lemma Pos_iter_xO m (d : positive) : Zpos (Pos.iter xO m d) = Zpos m * 2 ^ Zpos d.
Proof.
  induction d as [|d IH] using Pos.peano_ind; [cbn; lia|].
  rewrite Pos.iter_succ, (Pos2Z.inj_xO (Pos.iter xO m d)), IH, Pos2Z.inj_succ,
    Z.pow_succ_r by lia. ring.
Qed.

Lemma shl_align_spec m e e' :
  fst (shl_align m e e') = Z.to_pos (Zpos m * 2 ^ (e - Z.min e e')) /\
  snd (shl_align m e e') = Z.min e e'.
Proof.
  unfold shl_align. destruct (e' - e) as [|d|d] eqn:Hd; cbn [fst snd].
  1, 2: replace (Z.min e e') with e by lia; rewrite Z.sub_diag, Z.mul_1_r; done.
  replace (Z.min e e') with e' by lia. split; [|done].
  replace (e - e') with (Zpos d) by lia. by rewrite <- Pos_iter_xO.
Qed.

Lemma mkf_mantissa z : 0 < z < 2 ^ 53 -> Zdigits2 (z * 2 ^ (53 - Zdigits2 z)) = 53.
Proof.
  intros Hz. pose proof (Zdigits2_le z 53 Hz ltac:(lia)). rewrite Zdigits2_shift by lia. lia.
Qed.

(** Rounding a dyadic number whose odd part has at most 53 digits is exact,
    whatever the exponent it is presented with. *)
Lemma binary_round_exact s z e k :
  0 < z < 2 ^ 53 -> 0 <= k -> -1000 <= e <= 900 ->
  binary_round 53 1024 s (Z.to_pos (z * 2 ^ k)) (e - k) = mkf s z e.
Proof.
  intros Hz Hk He. pose proof (Zdigits2_le z 53 Hz ltac:(lia)) as Hle.
  pose proof (Zdigits2_bounds z ltac:(lia)) as [Hb Hd].
  assert (0 < 2 ^ k) by (apply Z.pow_pos_nonneg; lia).
  assert (Zpos (Z.to_pos (z * 2 ^ k)) = z * 2 ^ k) as Hp by (apply Z2Pos.id; nia).
  unfold binary_round.
  set (p := Z.to_pos (z * 2 ^ k)) in *.
  destruct (shl_align p (e - k) (fexp 53 1024 (Zpos (digits2_pos p) + (e - k))))
    as [mz ez] eqn:Ea.
  pose proof (shl_align_spec p (e - k) (fexp 53 1024 (Zpos (digits2_pos p) + (e - k))))
    as [H1 H2].
  rewrite Ea in H1, H2. cbn [fst snd] in H1, H2.
  change (Zpos (digits2_pos p)) with (Zdigits2 (Zpos p)) in H1, H2.
  rewrite Hp, Zdigits2_shift in H1, H2 by lia.
  replace (fexp 53 1024 (Zdigits2 z + k + (e - k))) with (e - (53 - Zdigits2 z)) in H1, H2
    by (unfold fexp, emin; lia).
  set (j := 53 - Zdigits2 z) in *.
  assert (Zpos mz = (z * 2 ^ j) * 2 ^ (Z.max j k - j) /\ ez = e - Z.max j k) as [Hmz ->].
  { split; [|lia]. rewrite H1, Z2Pos.id.
    - rewrite <- !Z.mul_assoc, <- !Z.pow_add_r by lia. f_equal; f_equal; lia.
    - apply Z.mul_pos_pos; [nia|]. apply Z.pow_pos_nonneg; lia. }
  rewrite Hmz, round_aux_exact.
  - unfold mkf. fold j. f_equal. lia.
  - nia.
  - by apply mkf_mantissa.
  - lia.
  - lia.
Qed.

(** ** Exact integers

    [is_int x z]: the double [x] is the integer [z] (a zero of either sign is
    the integer 0). *)
Definition of_int (z : Z) : f64 :=
  match z with
  | Z0 => S754_zero false
  | Zpos p => mkf false (Zpos p) 0
  | Zneg p => mkf true (Zpos p) 0
  end.

Definition is_int (x : f64) (z : Z) : Prop :=
  x = of_int z \/ (z = 0 /\ exists s, x = S754_zero s).

Definition exact53 (z : Z) : Prop := - 2 ^ 53 < z < 2 ^ 53.

Lemma binary_normalize_exact z k :
  exact53 z -> 0 <= k ->
  binary_normalize 53 1024 (z * 2 ^ k) (0 - k) false = of_int z \/ 900 < k.
Proof.
  intros Hz Hk. destruct (Z.le_gt_cases k 900) as [Hk'|]; [left|by right].
  assert (0 < 2 ^ k) by (apply Z.pow_pos_nonneg; lia).
  unfold exact53 in Hz. destruct z as [|p|p]; [done| |]; cbn [of_int].
  - destruct (Zpos p * 2 ^ k) as [|q|q] eqn:E; try lia. cbn [binary_normalize].
    rewrite <- (binary_round_exact false (Zpos p) 0 k) by lia. by rewrite E.
  - destruct (Zneg p * 2 ^ k) as [|q|q] eqn:E; try lia. cbn [binary_normalize].
    rewrite <- (binary_round_exact true (Zpos p) 0 k) by lia.
    replace (Zpos p * 2 ^ k) with (Zpos q) by lia. done.
Qed.

Lemma f64_of_Z_int z : exact53 z -> f64_of_Z z = of_int z.
Proof.
  intros Hz. destruct (binary_normalize_exact z 0 Hz) as [H|H]; [lia| |lia].
  by rewrite Z.mul_1_r in H.
Qed.

Lemma f64_of_Z_is_int z : exact53 z -> is_int (f64_of_Z z) z.
Proof. intros Hz. left. by apply f64_of_Z_int. Qed.

Lemma mkf_trunc s z e : 0 < z < 2 ^ 53 ->
  f64_trunc (mkf s z e) = Some (cond_Zopp s (Z.shiftl z e)).
Proof.
  intros Hz. unfold mkf, f64_trunc.
  pose proof (Zdigits2_le z 53 Hz ltac:(lia)).
  assert (0 < 2 ^ (53 - Zdigits2 z)) by (apply Z.pow_pos_nonneg; lia).
  rewrite Z2Pos.id by nia. do 2 f_equal.
  rewrite <- (Z.shiftl_mul_pow2 z) by lia. rewrite Z.shiftl_shiftl by lia. f_equal. lia.
Qed.

Lemma is_int_trunc x z : exact53 z -> is_int x z -> f64_trunc x = Some z.
Proof.
  unfold exact53. intros Hz [->|[-> [s ->]]]; [|done].
  destruct z as [|p|p]; [done| |]; cbn [of_int];
    rewrite mkf_trunc by lia; cbn [cond_Zopp]; rewrite Z.shiftl_0_r; done.
Qed.

Lemma mkf_mul s1 a e1 s2 b e2 :
  0 < a -> 0 < b -> a * b < 2 ^ 53 -> -1000 <= e1 + e2 <= 900 ->
  f64_mul (mkf s1 a e1) (mkf s2 b e2) = mkf (xorb s1 s2) (a * b) (e1 + e2).
Proof.
  intros Ha Hb Hab He.
  assert (a < 2 ^ 53 /\ b < 2 ^ 53) as [Ha' Hb'] by nia.
  pose proof (Zdigits2_le a 53 ltac:(lia) ltac:(lia)).
  pose proof (Zdigits2_le b 53 ltac:(lia) ltac:(lia)).
  pose proof (Zdigits2_le (a * b) 53 ltac:(nia) ltac:(lia)).
  pose proof (Zdigits2_mul a b Ha Hb).
  pose proof (Zdigits2_bounds (a * b) ltac:(nia)) as [_ Hd].
  assert (0 < 2 ^ (53 - Zdigits2 a)) by (apply Z.pow_pos_nonneg; lia).
  assert (0 < 2 ^ (53 - Zdigits2 b)) by (apply Z.pow_pos_nonneg; lia).
  unfold f64_mul, mkf, SFmul.
  set (ja := 53 - Zdigits2 a) in *. set (jb := 53 - Zdigits2 b) in *.
  set (j := 53 - Zdigits2 (a * b)) in *.
  replace (Zpos (Z.to_pos (a * 2 ^ ja) * Z.to_pos (b * 2 ^ jb)))
    with (a * b * 2 ^ j * 2 ^ (ja + jb - j)).
  - rewrite round_aux_exact; [f_equal; lia| | |lia|lia].
    + apply Z.mul_pos_pos; [nia|]. apply Z.pow_pos_nonneg; lia.
    + apply mkf_mantissa. nia.
  - rewrite <- Z.mul_assoc, <- Z.pow_add_r by lia.
    replace (j + (ja + jb - j)) with (ja + jb) by lia. rewrite Z.pow_add_r by lia.
    rewrite Pos2Z.inj_mul, !Z2Pos.id by nia. ring.
Qed.

(** An integer product that fits 53 bits is computed exactly. *)
Lemma is_int_mul x y a b :
  exact53 a -> exact53 b -> exact53 (a * b) ->
  is_int x a -> is_int y b -> is_int (f64_mul x y) (a * b).
Proof.
  unfold exact53. intros Ha Hb Hab Hx Hy.
  destruct (decide (a = 0)) as [->|Na].
  { right. split; [lia|]. destruct Hx as [->|[_ [s ->]]];
      (destruct Hy as [->|[-> [s' ->]]]; [destruct b|]); cbn; eauto. }
  destruct (decide (b = 0)) as [->|Nb].
  { right. split; [lia|]. destruct Hx as [->|[-> _]]; [|done].
    destruct Hy as [->|[_ [s ->]]]; destruct a; try done; cbn; eauto. }
  left. destruct Hx as [->|[-> _]]; [|done]. destruct Hy as [->|[-> _]]; [|done].
  destruct a as [|a|a], b as [|b|b]; try done; cbn [of_int];
    rewrite mkf_mul by lia; done.
Qed.

(** Signed view of a canonical float, shared by the addition lemma. *)
Lemma of_int_nonzero z : z <> 0 ->
  of_int z = mkf (z <? 0) (Z.abs z) 0.
Proof. by destruct z. Qed.

Lemma mkf_align s z ez : 0 < z < 2 ^ 53 -> ez <= - (53 - Zdigits2 z) ->
  cond_Zopp s (Zpos (fst (shl_align (Z.to_pos (z * 2 ^ (53 - Zdigits2 z)))
                                    (0 - (53 - Zdigits2 z)) ez)))
  = cond_Zopp s z * 2 ^ (- ez).
Proof.
  intros Hz Hez. pose proof (Zdigits2_le z 53 Hz ltac:(lia)).
  set (j := 53 - Zdigits2 z) in *.
  assert (0 < 2 ^ j) by (apply Z.pow_pos_nonneg; lia).
  destruct (shl_align_spec (Z.to_pos (z * 2 ^ j)) (0 - j) ez) as [-> _].
  rewrite (Z2Pos.id (z * 2 ^ j)) by nia.
  replace (Z.min (0 - j) ez) with ez by lia.
  assert (z * 2 ^ j * 2 ^ (0 - j - ez) = z * 2 ^ (- ez)) as ->.
  { rewrite <- Z.mul_assoc, <- Z.pow_add_r by lia. do 2 f_equal. lia. }
  assert (0 < 2 ^ (- ez)) by (apply Z.pow_pos_nonneg; lia).
  rewrite Z2Pos.id by nia. destruct s; cbn [cond_Zopp]; ring.
Qed.

(** An integer sum that fits 53 bits is computed exactly. *)
Lemma is_int_add x y a b :
  exact53 a -> exact53 b -> exact53 (a + b) ->
  is_int x a -> is_int y b -> is_int (f64_add x y) (a + b).
Proof.
  intros Ha Hb Hab Hx Hy.
  destruct (decide (a = 0)) as [->|Na].
  { assert (exists s, x = S754_zero s) as [s ->]
      by (destruct Hx as [->|[_ Hs]]; [by exists false|done]).
    rewrite Z.add_0_l. destruct Hy as [->|[-> [s' ->]]].
    - destruct b; [|by left|by left]. right. split; [done|].
      destruct s; cbn; eauto.
    - right. split; [done|]. destruct s, s'; cbn; eauto. }
  destruct (decide (b = 0)) as [->|Nb].
  { assert (exists s, y = S754_zero s) as [s ->]
      by (destruct Hy as [->|[_ Hs]]; [by exists false|done]).
    rewrite Z.add_0_r. destruct Hx as [->|[-> _]]; [|done].
    left. rewrite of_int_nonzero by done. done. }
  destruct Hx as [->|[-> _]]; [|done]. destruct Hy as [->|[-> _]]; [|done].
  left. unfold exact53 in *.
  pose proof (Zdigits2_le (Z.abs a) 53 ltac:(lia) ltac:(lia)).
  pose proof (Zdigits2_le (Z.abs b) 53 ltac:(lia) ltac:(lia)).
  pose proof (Zdigits2_bounds (Z.abs a) ltac:(lia)) as [_ Da].
  pose proof (Zdigits2_bounds (Z.abs b) ltac:(lia)) as [_ Db].
  rewrite (of_int_nonzero a), (of_int_nonzero b) by done.
  unfold f64_add, mkf, SFadd.
  set (ez := Z.min (0 - (53 - Zdigits2 (Z.abs a))) (0 - (53 - Zdigits2 (Z.abs b)))).
  rewrite !mkf_align by lia.
  replace (cond_Zopp (a <? 0) (Z.abs a)) with a by (unfold cond_Zopp; case_match; lia).
  replace (cond_Zopp (b <? 0) (Z.abs b)) with b by (unfold cond_Zopp; case_match; lia).
  rewrite <- Z.mul_add_distr_r.
  destruct (binary_normalize_exact (a + b) (- ez)) as [H1|H1]; [done|lia| |lia].
  replace (0 - - ez) with ez in H1 by lia. done.
Qed.

(** ** Division by the nominal scale

    Dividing an integer below 2^53 by 8.0 only lowers the exponent. *)
Lemma mkf_div_8 z : 0 < z < 2 ^ 53 ->
  f64_div (mkf false z 0) (f64_of_Z 8) = mkf false z (-3).
Proof.
  intros Hz. pose proof (Zdigits2_le z 53 Hz ltac:(lia)).
  pose proof (Zdigits2_bounds z ltac:(lia)) as [_ Dz].
  pose proof (mkf_mantissa z Hz) as Hm.
  change (f64_of_Z 8) with (S754_finite false 4503599627370496 (-49)).
  unfold f64_div, mkf, SFdiv, SFdiv_core_binary.
  set (j := 53 - Zdigits2 z) in *.
  assert (0 < 2 ^ j) by (apply Z.pow_pos_nonneg; lia).
  rewrite (Z2Pos.id (z * 2 ^ j)) by nia. rewrite Hm.
  change (Zdigits2 4503599627370496) with 53.
  replace (Z.min (fexp 53 1024 (53 + (0 - j) - (53 + -49))) (0 - j - -49))
    with (- j - 4) by (unfold fexp, emin; lia).
  replace (0 - j - -49 - (- j - 4)) with 53 by lia.
  rewrite Z.shiftl_mul_pow2 by lia.
  destruct (Z.div_eucl (z * 2 ^ j * 2 ^ 53) 4503599627370496) as [q r] eqn:E.
  assert (q = z * 2 ^ j * 2 ^ 1 /\ r = 0) as [-> ->].
  { pose proof (Z_div_mod (z * 2 ^ j * 2 ^ 53) 4503599627370496 ltac:(lia)) as Hdm.
    rewrite E in Hdm. change (2 ^ 53) with (4503599627370496 * 2) in Hdm. lia. }
  change (new_location 4503599627370496 0) with loc_Exact.
  rewrite round_aux_exact; [f_equal; lia|nia|done|lia|lia].
Qed.

Lemma f64_div_8_trunc n : 0 <= n < 2 ^ 53 ->
  f64_trunc (f64_div (f64_of_Z n) (f64_of_Z 8)) = Some (n / 8).
Proof.
  intros Hn. destruct (decide (n = 0)) as [->|]; [done|].
  rewrite f64_of_Z_int by (unfold exact53; lia).
  rewrite of_int_nonzero by done.
  replace (n <? 0) with false by lia. rewrite Z.abs_eq by lia.
  rewrite mkf_div_8, mkf_trunc by lia. cbn [cond_Zopp].
  f_equal. change (-3) with (- (3)). rewrite <- Z.shiftr_opp_r, Z.opp_involutive.
  by rewrite Z.shiftr_div_pow2 by lia.
Qed.

Lemma f64_convert_ok lo hi x z :
  f64_trunc x = Some z -> lo <= z <= hi -> f64_convert lo hi x = Ok z.
Proof. intros Hx Hz. unfold f64_convert. by rewrite Hx, decide_True by lia. Qed.

Lemma f64_convert_range lo hi x z : f64_convert lo hi x = Ok z -> lo <= z <= hi.
Proof. unfold f64_convert. repeat case_match; naive_solver. Qed.

Lemma f64_to_u64_fits x z : f64_to_u64 x = Ok z -> fits_u64 z.
Proof. intros H. apply f64_convert_range in H. unfold fits_u64. lia. Qed.
