(* ===== verification/Device.v ===== *)
(** * The device: C structures of the TSN network driver

    The structures of [alinx_arch.h], [xdma_netdev.h] and [tsn.h], as records
    whose fields carry the names of the C members, with one updater per member
    the driver writes; the constants of those headers; and the kernel services
    the driver calls, which live outside the repository, as type classes.

    One [xdma_dev] is the state reached from a [struct pci_dev]: the [xdma_dev]
    found by [xdev_find_by_pdev], its [tsn_config], the [xdma_private] of its
    network device and the PTP data of its [xdma_pci_dev].  The last field is the
    world outside the driver (registers, network core, clock). *)

From S2P Require Import Prelude Float64.
From stdpp Require Import gmap.

Open Scope Z_scope.

(** ** Constants of alinx_arch.h, tsn.h, xdma_netdev.h and libxdma.h *)
Definition NS_IN_1S : Z := 1000000000.
Definition TC_COUNT : nat := 8.
Definition TSN_PRIO_COUNT : nat := 8.
Definition MAX_QBV_SLOTS : nat := 20.
Definition HW_QUEUE_SIZE : Z := 128.
Definition BE_QUEUE_SIZE : Z := HW_QUEUE_SIZE - 20.
Definition TSN_QUEUE_SIZE : Z := HW_QUEUE_SIZE - 2.
Definition HW_QUEUE_SIZE_PAD : Z := 20.
Definition PHY_DELAY_CLOCKS : Z := 13.
Definition TX_ADJUST_NS : Z := 100 + 200.
Definition RX_ADJUST_NS : Z := 188 + 324.
Definition H2C_LATENCY_NS : Z := 30000.
Definition RESERVED_CYCLE : Z := 125000000.
Definition TICKS_SCALE : f64 := f64_of_Z 8.
Definition TX_QUEUE_COUNT : nat := 8.

Inductive tsn_timestamp_id :=
  | TSN_TIMESTAMP_ID_NONE | TSN_TIMESTAMP_ID_GPTP | TSN_TIMESTAMP_ID_NORMAL.
Definition tsn_timestamp_id_val (i : tsn_timestamp_id) : Z :=
  match i with
  | TSN_TIMESTAMP_ID_NONE => 0 | TSN_TIMESTAMP_ID_GPTP => 1
  | TSN_TIMESTAMP_ID_NORMAL => 2
  end.
Definition TSN_TIMESTAMP_ID_MAX : nat := 5.

Inductive tsn_prio := TSN_PRIO_GPTP | TSN_PRIO_VLAN | TSN_PRIO_BE.
Definition tsn_prio_val (p : tsn_prio) : Z :=
  match p with TSN_PRIO_GPTP => 3 | TSN_PRIO_VLAN => 5 | TSN_PRIO_BE => 7 end.

Inductive tsn_fail_policy := TSN_FAIL_POLICY_DROP | TSN_FAIL_POLICY_RETRY.
Definition tsn_fail_policy_val (p : tsn_fail_policy) : Z :=
  match p with TSN_FAIL_POLICY_DROP => 0 | TSN_FAIL_POLICY_RETRY => 1 end.

#[export] Instance tsn_prio_eq_dec : EqDecision tsn_prio.
Proof. solve_decision. Defined.
#[export] Instance tsn_fail_policy_eq_dec : EqDecision tsn_fail_policy.
Proof. solve_decision. Defined.

(** ** Time-aware shaper (Qbv) and credit-based shaper (Qav) state *)
Record qbv_slot := mkSlot { qs_duration_ns : Z; qs_opened_prios : list bool }.

Record qbv_config := mkQbv {
  qbv_enabled : bool; qbv_start : Z; qbv_slots : list qbv_slot; qbv_slot_count : Z }.

Record qbv_baked_prio_slot := mkBakedSlot { bs_duration_ns : Z; bs_opened : bool }.

Record qbv_baked_prio := mkBakedPrio {
  bp_slots : list qbv_baked_prio_slot; bp_slot_count : Z }.

Record qbv_baked_config := mkBaked {
  bk_cycle_ns : Z; bk_prios : list qbv_baked_prio }.

Record qav_state := mkQav {
  qav_enabled : bool; idle_slope : Z; send_slope : Z; hi_credit : Z; lo_credit : Z;
  credit : Z; last_update : Z; available_at : Z }.

Record buffer_tracker := mkTracker { pending_packets : Z; last_tx_count : Z }.

Record tsn_config := mkTsn {
  tc_qbv : qbv_config; tc_qbv_baked : qbv_baked_config; tc_qav : list qav_state;
  tc_buffer_tracker : buffer_tracker;
  queue_available_at : list Z; total_available_at : Z }.

Definition set_tc_qbv (v : qbv_config) (c : tsn_config) : tsn_config :=
  mkTsn v (tc_qbv_baked c) (tc_qav c) (tc_buffer_tracker c) (queue_available_at c)
    (total_available_at c).
Definition set_tc_qbv_baked (v : qbv_baked_config) (c : tsn_config) : tsn_config :=
  mkTsn (tc_qbv c) v (tc_qav c) (tc_buffer_tracker c) (queue_available_at c)
    (total_available_at c).
Definition set_tc_qav (v : list qav_state) (c : tsn_config) : tsn_config :=
  mkTsn (tc_qbv c) (tc_qbv_baked c) v (tc_buffer_tracker c) (queue_available_at c)
    (total_available_at c).
Definition set_tc_buffer_tracker (v : buffer_tracker) (c : tsn_config) : tsn_config :=
  mkTsn (tc_qbv c) (tc_qbv_baked c) (tc_qav c) v (queue_available_at c)
    (total_available_at c).
Definition set_queue_available_at (v : list Z) (c : tsn_config) : tsn_config :=
  mkTsn (tc_qbv c) (tc_qbv_baked c) (tc_qav c) (tc_buffer_tracker c) v
    (total_available_at c).
Definition set_total_available_at (v : Z) (c : tsn_config) : tsn_config :=
  mkTsn (tc_qbv c) (tc_qbv_baked c) (tc_qav c) (tc_buffer_tracker c)
    (queue_available_at c) v.

(** The zeroed structures, as [memset] leaves them. *)
Definition zero_slot : qbv_slot := mkSlot 0 (replicate TC_COUNT false).
Definition zero_qbv : qbv_config := mkQbv false 0 (replicate MAX_QBV_SLOTS zero_slot) 0.
Definition zero_baked_prio : qbv_baked_prio :=
  mkBakedPrio (replicate MAX_QBV_SLOTS (mkBakedSlot 0 false)) 0.
Definition zero_baked : qbv_baked_config :=
  mkBaked 0 (replicate TC_COUNT zero_baked_prio).
Definition zero_qav : qav_state := mkQav false 0 0 0 0 0 0 0.
Definition zero_tsn_config : tsn_config :=
  mkTsn zero_qbv zero_baked (replicate TC_COUNT zero_qav) (mkTracker 0 0)
    (replicate TSN_PRIO_COUNT 0) 0.

(** ** Frame metadata *)
Record tick_count := mkTick { tick : Z; priority : Z }.

Record tx_metadata := mkMeta {
  md_from : tick_count; md_to : tick_count;
  md_delay_from : tick_count; md_delay_to : tick_count;
  md_frame_length : Z; md_timestamp_id : Z; md_fail_policy : Z }.

Definition TX_METADATA_SIZE : Z := 32.
Definition RX_METADATA_SIZE : Z := 10.

Definition zero_tick : tick_count := mkTick 0 0.
Definition zero_metadata : tx_metadata :=
  mkMeta zero_tick zero_tick zero_tick zero_tick 0 0 0.

(** ** DMA descriptor *)
Definition DESC_MAGIC : Z := 0xAD4B0000.
Definition XDMA_DESC_STOPPED : Z := Z.shiftl 1 0.
Definition XDMA_DESC_COMPLETED : Z := Z.shiftl 1 1.
Definition XDMA_DESC_EOP : Z := Z.shiftl 1 4.
Definition LS_BYTE_MASK : Z := 0xFF.

Definition PCI_DMA_H (addr : Z) : Z := u32 (Z.shiftr (Z.shiftr addr 16) 16).
Definition PCI_DMA_L (addr : Z) : Z := Z.land addr 0xffffffff.

Record xdma_desc := mkDesc {
  control : Z; bytes : Z; src_addr_lo : Z; src_addr_hi : Z;
  dst_addr_lo : Z; dst_addr_hi : Z; next_lo : Z; next_hi : Z }.

(** ** struct xdma_private

    The members are grouped by what they serve: the packet counters, the
    transmit-timestamp work items (arrays indexed by timestamp id), the DMA
    resources and the [hwtstamp_config]. *)
Record priv_counters := mkCounters {
  total_tx_count : Z; total_tx_drop_count : Z; last_normal_timeout : Z;
  last_to_overflow_popped : Z; last_to_overflow_timeout : Z }.

Record priv_work := mkWork {
  tx_work_skb : list (option nat);
  tx_work_start_after : list Z;
  tx_work_wait_until : list Z;
  last_tx_tstamp : list Z;
  tstamp_retry : list Z;
  state : Z }.

Record priv_dma := mkDma {
  tx_engine_regs : Z; rx_engine_regs : Z; rx_engine_sgdma_regs : Z;
  tx_desc : xdma_desc; rx_desc : xdma_desc;
  tx_bus_addr : Z; tx_dma_addr : Z; rx_bus_addr : Z; rx_dma_addr : Z;
  res_dma_addr : Z; tx_skb : option nat }.

Inductive hwtstamp_tx_type := HWTSTAMP_TX_OFF | HWTSTAMP_TX_ON | HWTSTAMP_TX_OTHER.
#[export] Instance hwtstamp_tx_type_eq_dec : EqDecision hwtstamp_tx_type.
Proof. solve_decision. Defined.

Inductive hwtstamp_rx_filter :=
  | HWTSTAMP_FILTER_NONE | HWTSTAMP_FILTER_ALL
  | HWTSTAMP_FILTER_PTP_V2_EVENT | HWTSTAMP_FILTER_PTP_V2_L2_EVENT
  | HWTSTAMP_FILTER_PTP_V2_SYNC | HWTSTAMP_FILTER_PTP_V2_L2_SYNC
  | HWTSTAMP_FILTER_PTP_V2_DELAY_REQ | HWTSTAMP_FILTER_PTP_V2_L2_DELAY_REQ
  | HWTSTAMP_FILTER_OTHER.

Record hwtstamp_config := mkTstampConfig {
  tx_type : hwtstamp_tx_type; rx_filter : hwtstamp_rx_filter }.

Record xdma_private := mkPriv {
  pv_counters : priv_counters; pv_work : priv_work; pv_dma : priv_dma;
  tstamp_config : hwtstamp_config }.

(** ** struct ptp_device_data *)
Record ptp_device_data := mkPtp { ticks_scale : f64; offset : Z }.

(** ** Socket buffers

    An skb is a shared object: the network core, the transmit slot [tx_skb] and
    a timestamp work item may each hold a reference.  [skb_data] is its linear
    area from [skb->data]; [skb_len] is [skb->len], which the driver also writes
    by itself. *)
Record sk_buff := mkSkb {
  skb_data : list Z; skb_len : Z; skb_queue_mapping : Z;
  skb_hw_tstamp : bool; skb_in_progress : bool; skb_refs : Z }.

(** ** The device *)
Record xdma_dev (W : Type) := mkDev {
  bar0 : Z; bar1 : Z; irq_count : Z;
  tsn : tsn_config; priv : xdma_private; ptp : ptp_device_data;
  skbs : gmap nat sk_buff; world : W }.
Arguments mkDev {W} _ _ _ _ _ _ _ _.
Arguments bar0 {W} _.
Arguments bar1 {W} _.
Arguments irq_count {W} _.
Arguments tsn {W} _.
Arguments priv {W} _.
Arguments ptp {W} _.
Arguments skbs {W} _.
Arguments world {W} _.

Section updaters.
Context {W : Type}.
Implicit Types d : xdma_dev W.

Definition set_tsn v d := mkDev (bar0 d) (bar1 d) (irq_count d) v (priv d) (ptp d) (skbs d) (world d).
Definition set_priv v d := mkDev (bar0 d) (bar1 d) (irq_count d) (tsn d) v (ptp d) (skbs d) (world d).
Definition set_ptp v d := mkDev (bar0 d) (bar1 d) (irq_count d) (tsn d) (priv d) v (skbs d) (world d).
Definition set_skbs v d := mkDev (bar0 d) (bar1 d) (irq_count d) (tsn d) (priv d) (ptp d) v (world d).
Definition set_world v d : xdma_dev W :=
  mkDev (bar0 d) (bar1 d) (irq_count d) (tsn d) (priv d) (ptp d) (skbs d) v.

Definition set_irq_count v d :=
  mkDev (bar0 d) (bar1 d) v (tsn d) (priv d) (ptp d) (skbs d) (world d).

Definition set_counters v d :=
  set_priv (mkPriv v (pv_work (priv d)) (pv_dma (priv d)) (tstamp_config (priv d))) d.
Definition set_work v d :=
  set_priv (mkPriv (pv_counters (priv d)) v (pv_dma (priv d)) (tstamp_config (priv d))) d.
Definition set_dma v d :=
  set_priv (mkPriv (pv_counters (priv d)) (pv_work (priv d)) v (tstamp_config (priv d))) d.
Definition set_tstamp_config v d :=
  set_priv (mkPriv (pv_counters (priv d)) (pv_work (priv d)) (pv_dma (priv d)) v) d.
End updaters.

(** ** Kernel services

    What the driver calls outside the repository.  [IoMem] is register access;
    the law states that a 32-bit read returns a 32-bit value. *)
Class IoMem (W : Type) := {
  ioread32 : Z -> W -> Z * W;
  iowrite32 : Z -> Z -> W -> W }.

Class IoMemOk (W : Type) `{IoMem W} : Prop :=
  ioread32_u32 : forall addr w, fits_u32 (fst (ioread32 addr w)).

(** The multi-queue state of the [net_device]: number of traffic classes and the
    priority map.  The setters return the kernel's error code. *)
Class NetDevTc (W : Type) := {
  netdev_get_num_tc : W -> Z;
  netdev_get_prio_tc_map : Z -> W -> Z;
  netdev_set_num_tc : Z -> W -> Z * W;
  netdev_set_tc_queue : Z -> Z -> Z -> W -> Z * W;
  netdev_set_prio_tc_map : Z -> Z -> W -> Z * W }.
