(* ===== verification/XdmaDesc.v ===== *)
(** * libxdma.c: requests and chains of descriptors

    A transfer of user memory starts as a scatter-gather list.  [xdma_init_request]
    cuts its entries into pieces a descriptor can hold; [transfer_init] writes as many
    of them as fit behind [desc_idx] into the array of descriptors of an engine, links
    them by bus address, and tells the engine how many descriptors it may fetch at
    once.  A pointer into an array of the engine is the index it points to.

    The theorems: the pieces are the bytes of the list, in order, and stay in the
    array allocated for them; a walk over the descriptors as the engine does it, from
    the bus address of the first to the one with the stop bit, meets exactly the
    pieces, with consecutive addresses on the other side; no block that is fetched at
    once crosses a boundary of 64 descriptors or leaves the chain. *)

From S2P Require Import Prelude Device.

Open Scope Z_scope.

(** ** Constants of libxdma.h *)
Definition XDMA_MAX_ADJ_BLOCK_SIZE : Z := 0x40.
Definition XDMA_PAGE_SIZE : Z := 0x1000.
Definition XDMA_ENGINE_XFER_MAX_DESC : Z := 0x800.
Definition XDMA_DESC_BLEN_MAX : Z := 4096.
Definition sizeof_xdma_desc : Z := 32.
Definition sizeof_xdma_result : Z := 32.
Definition sizeof_sw_desc : Z := 16.

Inductive dma_data_direction := DMA_TO_DEVICE | DMA_FROM_DEVICE.
#[export] Instance dma_data_direction_eq_dec : EqDecision dma_data_direction.
Proof. solve_decision. Defined.

(** ** Requests *)

(** An entry of the list as the kernel has mapped it. *)
Record scatterlist := mkSg { sg_dma_address : Z; sg_dma_len : Z }.

Record sw_desc := mkSw { sw_addr : Z; sw_len : Z }.

Record xdma_request_cb := mkReq {
  ep_addr : Z; total_len : Z; sw_desc_idx : Z; sw_desc_cnt : Z; sdesc : list sw_desc }.

Section request.
(** The module parameter, and the size of [struct xdma_request_cb] without its pieces,
    which depends on the kernel. *)
Context (desc_blen_max sizeof_xdma_request_cb : Z).

Fixpoint extra_descs (sgl : list scatterlist) (extra : Z) : outcome Z :=
  match sgl with
  | [] => Ok extra
  | sg :: sgl =>
      let len := sg_dma_len sg in
      if decide (len > desc_blen_max) then
        if decide (desc_blen_max = 0) then Fault DivByZero else
        extra_descs sgl (s32 (extra + u32 (len + desc_blen_max - 1) / desc_blen_max))
      else extra_descs sgl extra
  end.

(** How many pieces the memory holds; [None]: no memory. *)
Definition xdma_request_alloc (sdesc_nr : Z) (mem : bool) : option (list sw_desc) :=
  let size := u32 (sizeof_xdma_request_cb + u32 sdesc_nr * sizeof_sw_desc) in
  if mem then Some (replicate (Z.to_nat ((size - sizeof_xdma_request_cb) / sizeof_sw_desc)) (mkSw 0 0)) else None.

(** The loop over one entry. *)
Fixpoint split_entry (fuel : nat) (addr tlen : Z) (sdesc : list sw_desc) (j : Z) : outcome (list sw_desc * Z) :=
  match fuel with
  | O => Fault OutOfFuel
  | S fuel =>
      if decide (tlen = 0) then Ok (sdesc, j) else
      if decide (tlen > desc_blen_max) then
        sdesc ← aset sdesc j (mkSw addr desc_blen_max);
        split_entry fuel (u64 (addr + desc_blen_max)) (tlen - desc_blen_max) sdesc (j + 1)
      else
        sdesc ← aset sdesc j (mkSw addr tlen);
        split_entry fuel addr 0 sdesc (j + 1)
  end.

Definition split_fuel (tlen : Z) : nat := Z.to_nat (tlen / desc_blen_max + 2).

Fixpoint split_entries (sgl : list scatterlist) (sdesc : list sw_desc) (j total_len : Z) :
    outcome (list sw_desc * Z * Z) :=
  match sgl with
  | [] => Ok (sdesc, j, total_len)
  | sg :: sgl =>
      let tlen := sg_dma_len sg in
      '(sdesc, j) ← split_entry (split_fuel tlen) (sg_dma_address sg) tlen sdesc j;
      split_entries sgl sdesc j (u32 (total_len + tlen))
  end.

Definition xdma_init_request (sgl : list scatterlist) (ep_addr : Z) (mem : bool) : outcome (option xdma_request_cb) :=
  extra ← extra_descs sgl 0;
  max ← sint (Z.of_nat (length sgl) + extra);
  match xdma_request_alloc max mem with
  | None => Ok None
  | Some sdesc =>
      '(sdesc, j, total_len) ← split_entries sgl sdesc 0 0;
      if decide (j > max) then Ok None else Ok (Some (mkReq ep_addr total_len 0 j sdesc))
  end.
End request.

(** ** Descriptors *)

(** A store through a pointer to a descriptor. *)
Definition upd (descs : list xdma_desc) (i : Z) (f : xdma_desc -> xdma_desc) : outcome (list xdma_desc) :=
  d ← aget descs i; aset descs i (f d).

Definition init_desc (next : Z) (d : xdma_desc) : xdma_desc :=
  mkDesc DESC_MAGIC 0 (src_addr_lo d) (src_addr_hi d) (dst_addr_lo d) (dst_addr_hi d) (PCI_DMA_L next) (PCI_DMA_H next).

Fixpoint link_descs (n : nat) (descs : list xdma_desc) (i desc_bus : Z) : outcome (list xdma_desc) :=
  match n with
  | O => upd descs i (init_desc 0)
  | S n => let desc_bus := u64 (desc_bus + sizeof_xdma_desc) in
           descs ← upd descs i (init_desc desc_bus); link_descs n descs (i + 1) desc_bus
  end.

Definition transfer_desc_init (descs : list xdma_desc) (desc_virt desc_bus count : Z) : outcome (list xdma_desc) :=
  link_descs (Z.to_nat (count - 1)) descs desc_virt desc_bus.

Definition set_control (v : Z) (d : xdma_desc) : xdma_desc :=
  mkDesc v (bytes d) (src_addr_lo d) (src_addr_hi d) (dst_addr_lo d) (dst_addr_hi d) (next_lo d) (next_hi d).

Definition xdma_desc_adjacent (next_adjacent : Z) (d : xdma_desc) : xdma_desc :=
  set_control (u32 (Z.lor (Z.land (control d) 0xf0ff) (Z.lor DESC_MAGIC (Z.shiftl next_adjacent 8)))) d.

(** The callers do not look at the result, -EINVAL. *)
Definition xdma_desc_control_set (control_field : Z) (d : xdma_desc) : xdma_desc :=
  if decide (Z.land control_field (Z.lnot LS_BYTE_MASK) <> 0) then d
  else set_control (Z.lor (Z.land (control d) (Z.lnot LS_BYTE_MASK)) control_field) d.

Definition xdma_desc_link (second_bus : option Z) (d : xdma_desc) : xdma_desc :=
  let next := default 0 second_bus in
  mkDesc (Z.lor (Z.land (control d) 0x00FFC0ff) DESC_MAGIC) (bytes d) (src_addr_lo d) (src_addr_hi d)
    (dst_addr_lo d) (dst_addr_hi d) (PCI_DMA_L next) (PCI_DMA_H next).

Definition xdma_desc_done (descs : list xdma_desc) (desc_virt count : Z) : outcome (list xdma_desc) :=
  for_loop (Z.to_nat count) (fun i descs => aset descs (desc_virt + Z.of_nat i) (mkDesc 0 0 0 0 0 0 0 0)) descs.

Definition xdma_desc_set (rc_bus_addr ep_addr len : Z) (dir : dma_data_direction) (d : xdma_desc) : xdma_desc :=
  if decide (dir = DMA_TO_DEVICE)
  then mkDesc (control d) len (PCI_DMA_L rc_bus_addr) (PCI_DMA_H rc_bus_addr) (PCI_DMA_L ep_addr) (PCI_DMA_H ep_addr)
         (next_lo d) (next_hi d)
  else mkDesc (control d) len (PCI_DMA_L ep_addr) (PCI_DMA_H ep_addr) (PCI_DMA_L rc_bus_addr) (PCI_DMA_H rc_bus_addr)
         (next_lo d) (next_hi d).

Definition set_src (bus : Z) (d : xdma_desc) : xdma_desc :=
  mkDesc (control d) (bytes d) (PCI_DMA_L bus) (PCI_DMA_H bus) (dst_addr_lo d) (dst_addr_hi d) (next_lo d) (next_hi d).

Definition xdma_get_next_adj (remaining next_lo : Z) : Z :=
  if decide (remaining <= 1) then 0 else
  let next_index := Z.shiftr (Z.land next_lo (XDMA_PAGE_SIZE - 1)) 5 mod XDMA_MAX_ADJ_BLOCK_SIZE in
  Z.min (XDMA_MAX_ADJ_BLOCK_SIZE - next_index - 1) (remaining - 1).

(** ** Transfers and the engine *)
Inductive transfer_state :=
  | TRANSFER_STATE_NEW | TRANSFER_STATE_SUBMITTED | TRANSFER_STATE_COMPLETED
  | TRANSFER_STATE_FAILED | TRANSFER_STATE_ABORTED.
#[export] Instance transfer_state_eq_dec : EqDecision transfer_state.
Proof. solve_decision. Defined.

(** What the device writes for a descriptor of a stream from the device. *)
Record xdma_result := mkResult { result_status : Z; result_length : Z }.

(** [t_desc_virt] and [t_res_virt] are indices into the arrays of the engine; [t_cb] tells
    whether there is a callback. *)
Record xdma_transfer := mkXfer {
  t_desc_virt : Z; t_res_virt : Z; t_res_bus : Z; t_desc_bus : Z; t_desc_adjacent : Z;
  t_desc_num : Z; t_desc_index : Z; t_desc_cmpl : Z; t_desc_cmpl_th : Z;
  t_dir : dma_data_direction; t_state : transfer_state; t_flags : Z; t_cyclic : bool;
  t_last_in_request : bool; t_len : Z; t_cb : bool }.

(** The members of [struct xdma_engine] that the transfers use: what the driver found out
    about the engine, its arrays of descriptors and results, and what changes. *)
Record engine_config := mkEngCfg {
  ec_dir : dma_data_direction; ec_streaming : bool; ec_non_incr_addr : bool; ec_eop_flush : bool;
  ec_desc_max : Z; ec_desc_bus : Z; ec_cyclic_result_bus : Z }.

Record xdma_engine := mkEngine {
  e_config : engine_config; e_desc : list xdma_desc; e_cyclic_result : list xdma_result;
  e_desc_idx : Z; e_desc_used : Z; e_desc_dequeued : Z;
  e_running : bool; e_shutdown : Z; e_status : Z; e_transfer_list : list Z }.

Definition e_dir e := ec_dir (e_config e).
Definition e_streaming e := ec_streaming (e_config e).
Definition e_non_incr_addr e := ec_non_incr_addr (e_config e).
Definition e_eop_flush e := ec_eop_flush (e_config e).
Definition e_desc_max e := ec_desc_max (e_config e).
Definition e_desc_bus e := ec_desc_bus (e_config e).
Definition e_cyclic_result_bus e := ec_cyclic_result_bus (e_config e).

Definition set_arrays (descs : list xdma_desc) (results : list xdma_result) (e : xdma_engine) : xdma_engine :=
  mkEngine (e_config e) descs results (e_desc_idx e) (e_desc_used e) (e_desc_dequeued e)
    (e_running e) (e_shutdown e) (e_status e) (e_transfer_list e).
Definition set_indices (idx used : Z) (e : xdma_engine) : xdma_engine :=
  mkEngine (e_config e) (e_desc e) (e_cyclic_result e) idx used (e_desc_dequeued e)
    (e_running e) (e_shutdown e) (e_status e) (e_transfer_list e).

(** A stream from the device: the source address of a descriptor is that of its result. *)
Definition st_c2h (c : engine_config) : bool := ec_streaming c && bool_decide (ec_dir c = DMA_FROM_DEVICE).

(** The variables of the loop of [transfer_build]. *)
Record build := mkBuild {
  b_desc : list xdma_desc; b_res : list xdma_result; b_ep_addr : Z; b_len : Z; b_bus : Z }.

Definition build_one (c : engine_config) (sdesc : list sw_desc) (idx v rv : Z) (i : nat) (b : build) : outcome build :=
  sd ← aget sdesc (idx + Z.of_nat i);
  descs ← upd (b_desc b) (v + Z.of_nat i) (xdma_desc_set (sw_addr sd) (b_ep_addr b) (sw_len sd) (ec_dir c));
  let len := u32 (b_len b + sw_len sd) in
  let ep := if ec_non_incr_addr c then b_ep_addr b else u64 (b_ep_addr b + sw_len sd) in
  if st_c2h c then
    results ← aset (b_res b) (rv + Z.of_nat i) (mkResult 0 0);
    descs ← upd descs (v + Z.of_nat i) (set_src (b_bus b));
    Ok (mkBuild descs results ep len (u64 (b_bus b + sizeof_xdma_result)))
  else Ok (mkBuild descs (b_res b) ep len (b_bus b)).

Definition transfer_build (c : engine_config) (req : xdma_request_cb) (v rv desc_max : Z) (b : build) : outcome build :=
  for_loop (Z.to_nat desc_max) (build_one c (sdesc req) (sw_desc_idx req) v rv) b.

Definition transfer_control (dir : dma_data_direction) (v last : Z) (descs : list xdma_desc) : outcome (list xdma_desc) :=
  descs ← upd descs (v + last)
    (xdma_desc_control_set (Z.lor (Z.lor XDMA_DESC_STOPPED XDMA_DESC_EOP) XDMA_DESC_COMPLETED));
  if decide (dir = DMA_TO_DEVICE)
  then for_loop (Z.to_nat last) (fun i descs => upd descs (v + Z.of_nat i) (xdma_desc_control_set XDMA_DESC_EOP)) descs
  else Ok descs.

Definition fill_adjacent (v desc_num : Z) (descs : list xdma_desc) : outcome (list xdma_desc) :=
  for_loop (Z.to_nat desc_num) (fun i descs =>
    d ← aget descs (v + Z.of_nat i);
    upd descs (v + Z.of_nat i) (xdma_desc_adjacent (xdma_get_next_adj (desc_num - Z.of_nat i - 1) (next_lo d)))) descs.

(** How many descriptors the transfer gets: what is left of the request, at most up to the
    end of the array. *)
Definition transfer_desc_max (e : xdma_engine) (req : xdma_request_cb) : Z :=
  let desc_max := Z.min (u32 (sw_desc_cnt req - sw_desc_idx req)) (e_desc_max e) in
  if decide (u32 (e_desc_idx e + desc_max) >= e_desc_max e) then e_desc_max e - e_desc_idx e else desc_max.

Definition transfer_init (e : xdma_engine) (req : xdma_request_cb) :
    outcome (xdma_transfer * xdma_engine * xdma_request_cb) :=
  let v := e_desc_idx e in
  let desc_bus := u64 (e_desc_bus e + sizeof_xdma_desc * v) in
  let res_bus := u64 (e_cyclic_result_bus e + sizeof_xdma_result * v) in
  let n := transfer_desc_max e req in
  descs ← transfer_desc_init (e_desc e) v desc_bus n;
  b ← transfer_build (e_config e) req v v n (mkBuild descs (e_cyclic_result e) (ep_addr req) 0 res_bus);
  descs ← transfer_control (e_dir e) v (n - 1) (b_desc b);
  descs ← fill_adjacent v n descs;
  let xfer := mkXfer v v res_bus desc_bus n n v 0 n (e_dir e) TRANSFER_STATE_NEW 0 false false (b_len b) false in
  let e := set_indices (Z.rem (v + n) (e_desc_max e)) (s32 (e_desc_used e + n)) (set_arrays descs (b_res b) e) in
  Ok (xfer, e, mkReq (b_ep_addr b) (total_len req) (sw_desc_idx req + n) (sw_desc_cnt req) (sdesc req)).

(** ** The pieces of a request *)

Definition piece_bytes (p : sw_desc) : list Z := seqZ (sw_addr p) (sw_len p).
Definition sg_bytes (sg : scatterlist) : list Z := seqZ (sg_dma_address sg) (sg_dma_len sg).

(** The pieces that are still to be transferred. *)
Definition pieces_left (req : xdma_request_cb) : list sw_desc :=
  drop (Z.to_nat (sw_desc_idx req)) (take (Z.to_nat (sw_desc_cnt req)) (sdesc req)).

Lemma take_insert_last {A} (l : list A) (j : Z) a : 0 <= j < Z.of_nat (length l) ->
  take (Z.to_nat (j + 1)) (<[Z.to_nat j := a]> l) = take (Z.to_nat j) l ++ [a].
Proof.
  intros Hj. replace (Z.to_nat (j + 1)) with (S (Z.to_nat j)) by lia.
  rewrite (take_S_r _ _ a) by (apply list_lookup_insert_eq; lia). by rewrite take_insert_ge by lia.
Qed.

Section pieces.
Context (desc_blen_max sizeof_xdma_request_cb : Z).
Context (Hblen : 0 < desc_blen_max <= XDMA_DESC_BLEN_MAX) (Hsize : 0 <= sizeof_xdma_request_cb < 1048576).

Definition entry_descs (len : Z) : Z := (len + desc_blen_max - 1) / desc_blen_max.

(** The number of pieces the memory is allocated for. *)
Definition request_size (sgl : list scatterlist) : Z :=
  foldr (fun sg n => 1 + (if decide (sg_dma_len sg > desc_blen_max) then entry_descs (sg_dma_len sg) else 0) + n) 0 sgl.

Definition sg_ok (sg : scatterlist) : Prop :=
  0 <= sg_dma_address sg /\ 0 <= sg_dma_len sg /\ sg_dma_address sg + sg_dma_len sg < 2 ^ 64 /\
  sg_dma_len sg + desc_blen_max <= 2 ^ 32.

Definition piece_ok (p : sw_desc) : Prop :=
  0 <= sw_addr p /\ 0 < sw_len p <= desc_blen_max /\ sw_addr p + sw_len p < 2 ^ 64.

Lemma entry_descs_small len : 0 <= len <= desc_blen_max -> entry_descs len <= 1.
Proof. intros H. unfold entry_descs. apply Z.lt_succ_r, Z.div_lt_upper_bound; lia. Qed.
Lemma entry_descs_step len : desc_blen_max < len -> entry_descs len = entry_descs (len - desc_blen_max) + 1.
Proof.
  intros H. unfold entry_descs. replace (len + desc_blen_max - 1) with (len - desc_blen_max + desc_blen_max - 1 + 1 * desc_blen_max) by lia.
  by rewrite Z.div_add by lia.
Qed.
Lemma entry_descs_pos len : 0 < len -> 1 <= entry_descs len.
Proof. intros H. unfold entry_descs. apply Z.div_le_lower_bound; lia. Qed.

Lemma split_entry_covers fuel : forall addr tlen sdesc j, 0 <= addr -> 0 <= tlen -> addr + tlen < 2 ^ 64 -> 0 <= j ->
  (Z.to_nat (tlen / desc_blen_max + 2) <= fuel)%nat -> j + entry_descs tlen <= Z.of_nat (length sdesc) ->
  exists sdesc' ps, split_entry desc_blen_max fuel addr tlen sdesc j = Ok (sdesc', j + entry_descs tlen) /\
    length sdesc' = length sdesc /\
    take (Z.to_nat (j + entry_descs tlen)) sdesc' = take (Z.to_nat j) sdesc ++ ps /\
    concat (piece_bytes <$> ps) = seqZ addr tlen /\ Forall piece_ok ps.
Proof.
  induction fuel as [|fuel IH]; intros addr tlen sdesc j Ha Ht Hend Hj Hf Hcap.
  { pose proof (Z.div_pos tlen desc_blen_max). lia. }
  cbn [split_entry]. destruct (decide (tlen = 0)) as [->|Hne].
  { exists sdesc, []. assert (entry_descs 0 = 0) as -> by (unfold entry_descs; apply Z.div_small; lia).
    rewrite Z.add_0_r, app_nil_r. repeat split; constructor. }
  pose proof (entry_descs_pos tlen ltac:(lia)) as Hpos.
  destruct (decide (tlen > desc_blen_max)) as [Hgt|Hle].
  - rewrite entry_descs_step in * by lia. pose proof (entry_descs_pos (tlen - desc_blen_max) ltac:(lia)).
    rewrite aset_run by lia. cbn [mbind outcome_bind].
    rewrite u64_small by (unfold fits_u64; lia).
    destruct (IH (addr + desc_blen_max) (tlen - desc_blen_max) (<[Z.to_nat j := mkSw addr desc_blen_max]> sdesc) (j + 1))
      as (s' & ps & E & Hl & Htk & Hb & Hok); [lia..| |rewrite length_insert; lia|].
    { replace tlen with (tlen - desc_blen_max + 1 * desc_blen_max) in Hf by lia. rewrite Z.div_add in Hf by lia.
      pose proof (Z.div_pos (tlen - desc_blen_max) desc_blen_max). lia. }
    exists s', (mkSw addr desc_blen_max :: ps). rewrite E. split; [do 2 f_equal; lia|].
    split; [by rewrite Hl, length_insert|]. split; [|split].
    + replace (j + (entry_descs (tlen - desc_blen_max) + 1)) with (j + 1 + entry_descs (tlen - desc_blen_max)) by lia.
      rewrite Htk, take_insert_last by lia. by rewrite <- app_assoc.
    + cbn [fmap list_fmap concat]. rewrite Hb. unfold piece_bytes. cbn.
      replace tlen with (desc_blen_max + (tlen - desc_blen_max)) at 2 by lia. by rewrite seqZ_app by lia.
    + constructor; [split; cbn; lia|done].
  - pose proof (entry_descs_small tlen ltac:(lia)). replace (entry_descs tlen) with 1 by lia.
    rewrite aset_run by lia. cbn [mbind outcome_bind].
    exists (<[Z.to_nat j := mkSw addr tlen]> sdesc), [mkSw addr tlen].
    split; [|split; [apply length_insert|split; [apply take_insert_last; lia|split]]].
    + destruct fuel; [|done]. pose proof (Z.div_pos tlen desc_blen_max). lia.
    + cbn. by rewrite app_nil_r.
    + repeat constructor; cbn; lia.
Qed.

Lemma entry_descs_size sg : 0 <= sg_dma_len sg ->
  entry_descs (sg_dma_len sg) <= 1 + (if decide (sg_dma_len sg > desc_blen_max) then entry_descs (sg_dma_len sg) else 0).
Proof. intros H. case_decide; [lia|]. pose proof (entry_descs_small (sg_dma_len sg)). lia. Qed.

Lemma request_size_nonneg sgl : Forall sg_ok sgl -> 0 <= request_size sgl.
Proof.
  induction 1 as [|sg sgl (_ & Hl & _) _ IH]; cbn -[decide]; [lia|]. fold (request_size sgl).
  case_decide; [|lia]. pose proof (entry_descs_pos (sg_dma_len sg)). lia.
Qed.

Lemma split_entries_covers sgl : forall sdesc j total, Forall sg_ok sgl -> 0 <= j ->
  j + request_size sgl <= Z.of_nat (length sdesc) ->
  exists sdesc' j' ps, split_entries desc_blen_max sgl sdesc j total =
      Ok (sdesc', j', foldl (fun n sg => u32 (n + sg_dma_len sg)) total sgl) /\
    length sdesc' = length sdesc /\ j <= j' <= j + request_size sgl /\
    take (Z.to_nat j') sdesc' = take (Z.to_nat j) sdesc ++ ps /\
    concat (piece_bytes <$> ps) = concat (sg_bytes <$> sgl) /\ Forall piece_ok ps.
Proof.
  induction sgl as [|sg sgl IH]; intros sdesc j total Hok Hj Hcap.
  { exists sdesc, j, []. cbn. rewrite app_nil_r. repeat split; (lia || constructor). }
  apply Forall_cons in Hok as [(Ha & Hl & Hend & Hbig) Hok]. pose proof (request_size_nonneg _ Hok).
  pose proof (entry_descs_size sg Hl) as Hsz. cbn [request_size foldr] in Hcap |- *. fold (request_size sgl) in Hcap |- *.
  assert (0 <= entry_descs (sg_dma_len sg)) by (apply Z.div_pos; lia).
  destruct (split_entry_covers (split_fuel desc_blen_max (sg_dma_len sg)) (sg_dma_address sg) (sg_dma_len sg) sdesc j)
    as (s1 & ps1 & E1 & L1 & T1 & B1 & O1); [lia..|done|lia|].
  destruct (IH s1 (j + entry_descs (sg_dma_len sg)) (u32 (total + sg_dma_len sg)) Hok) as (s2 & j2 & ps2 & E2 & L2 & J2 & T2 & B2 & O2);
    [lia|lia|].
  exists s2, j2, (ps1 ++ ps2). cbn [split_entries]. rewrite E1. cbn [mbind outcome_bind]. rewrite E2.
  split; [done|]. split; [lia|]. split; [lia|]. split; [|split].
  - by rewrite T2, T1, app_assoc.
  - cbn [fmap list_fmap concat]. rewrite fmap_app, concat_app, B1, B2. done.
  - by apply Forall_app.
Qed.

Lemma extra_descs_run sgl : forall extra, Forall sg_ok sgl -> 0 <= extra -> extra + request_size sgl < 2 ^ 27 ->
  extra_descs desc_blen_max sgl extra = Ok (extra + request_size sgl - Z.of_nat (length sgl)).
Proof.
  induction sgl as [|sg sgl IH]; intros extra Hok He Hmax; cbn -[decide]; [f_equal; lia|].
  fold (request_size sgl). cbn -[decide] in Hmax. fold (request_size sgl) in Hmax.
  apply Forall_cons in Hok as [(_ & Hl & _ & Hbig) Hok]. pose proof (request_size_nonneg _ Hok).
  destruct (decide (sg_dma_len sg > desc_blen_max)); [|rewrite IH by (done || lia); f_equal; lia].
  rewrite decide_False by lia. rewrite u32_small by (unfold fits_u32; lia). fold (entry_descs (sg_dma_len sg)).
  pose proof (entry_descs_pos (sg_dma_len sg)). rewrite s32_small by (unfold fits_s32; lia).
  rewrite IH by (done || lia). f_equal. lia.
Qed.

(** A request is the bytes of its list.  For a list with fewer than 2^27 pieces whose
    entries do not wrap around, the request has, cut into pieces that fit a descriptor,
    exactly the bytes of the entries in their order; no piece is written outside the
    memory allocated for them; without memory there is no request. *)
Lemma init_request_run sgl ep : Forall sg_ok sgl -> request_size sgl < 2 ^ 27 ->
  xdma_init_request desc_blen_max sizeof_xdma_request_cb sgl ep false = Ok None /\
  exists req, xdma_init_request desc_blen_max sizeof_xdma_request_cb sgl ep true = Ok (Some req) /\
    ep_addr req = ep /\ sw_desc_idx req = 0 /\ 0 <= sw_desc_cnt req <= Z.of_nat (length (sdesc req)) /\ sw_desc_cnt req <= request_size sgl /\
    concat (piece_bytes <$> pieces_left req) = concat (sg_bytes <$> sgl) /\ Forall piece_ok (pieces_left req) /\
    total_len req = foldl (fun n sg => u32 (n + sg_dma_len sg)) 0 sgl.
Proof.
  intros Hok Hmax. pose proof (request_size_nonneg _ Hok). unfold xdma_init_request.
  rewrite extra_descs_run by (done || lia). cbn [mbind outcome_bind].
  replace (Z.of_nat (length sgl) + (0 + request_size sgl - Z.of_nat (length sgl))) with (request_size sgl) by lia.
  unfold sint. rewrite decide_True by lia. cbn [mbind outcome_bind]. split; [done|].
  unfold xdma_request_alloc, sizeof_sw_desc. rewrite (u32_small (request_size sgl)) by (unfold fits_u32; lia).
  rewrite u32_small by (unfold fits_u32; lia).
  replace (sizeof_xdma_request_cb + request_size sgl * 16 - sizeof_xdma_request_cb) with (request_size sgl * 16) by lia.
  rewrite Z.div_mul by lia.
  destruct (split_entries_covers sgl (replicate (Z.to_nat (request_size sgl)) (mkSw 0 0)) 0 0 Hok)
    as (s & j & ps & E & L & J & T & B & O); [lia|rewrite length_replicate; lia|].
  rewrite E. cbn [mbind outcome_bind]. rewrite decide_False by lia. eexists. split; [done|].
  rewrite length_replicate in L. unfold pieces_left. cbn [ep_addr sw_desc_idx sw_desc_cnt sdesc total_len].
  change (Z.to_nat 0) with 0%nat in *. rewrite drop_0, T, take_0. cbn [app].
  repeat split; (done || lia).
Qed.

End pieces.

(** ** What the engine does with a chain

    The engine reads the descriptor at a bus address, moves as many bytes as it says from
    its source to its destination address, and goes on with the next one unless the stop
    bit is set. *)
Definition addr64 (lo hi : Z) : Z := hi * 2 ^ 32 + lo.
Definition move_of (d : xdma_desc) : Z * Z * Z :=
  (addr64 (src_addr_lo d) (src_addr_hi d), addr64 (dst_addr_lo d) (dst_addr_hi d), bytes d).
Definition next_of (d : xdma_desc) : Z := addr64 (next_lo d) (next_hi d).

(** The descriptor at a bus address, in an array that starts at [base]. *)
Definition desc_at (base : Z) (descs : list xdma_desc) (bus : Z) : option xdma_desc :=
  if decide (base <= bus /\ (bus - base) mod sizeof_xdma_desc = 0)
  then descs !! Z.to_nat ((bus - base) / sizeof_xdma_desc) else None.

Fixpoint chain (fuel : nat) (base : Z) (descs : list xdma_desc) (bus : Z) : option (list (Z * Z * Z)) :=
  match fuel with
  | O => None
  | S fuel =>
      d ← desc_at base descs bus;
      if Z.testbit (control d) 0 then Some [move_of d]
      else l ← chain fuel base descs (next_of d); Some (move_of d :: l)
  end.

(** The number of descriptors fetched with the next one. *)
Definition adjacent (d : xdma_desc) : Z := bits (control d) 8 6.

(** Fetching the descriptor at [bus] and [adj] more meets descriptors of a chain that ends
    at [last], in one block of 64. *)
Definition fetch_ok (bus adj last : Z) : Prop :=
  0 <= adj < XDMA_MAX_ADJ_BLOCK_SIZE /\ bus + sizeof_xdma_desc * adj <= last /\
  bus / 2048 = (bus + sizeof_xdma_desc * adj + sizeof_xdma_desc - 1) / 2048.

(** The moves of a list of pieces; [res_bus] and [ep] belong to the first. *)
Definition ep_after (c : engine_config) (ep : Z) (ps : list sw_desc) : Z :=
  if ec_non_incr_addr c then ep else u64 (ep + foldr (fun p n => sw_len p + n) 0 ps).
Definition move (c : engine_config) (res_bus ep : Z) (p : sw_desc) : Z * Z * Z :=
  if decide (ec_dir c = DMA_TO_DEVICE) then (sw_addr p, ep, sw_len p)
  else ((if ec_streaming c then res_bus else ep), sw_addr p, sw_len p).
Definition moves (c : engine_config) (res_bus ep : Z) (ps : list sw_desc) : list (Z * Z * Z) :=
  imap (fun k p => move c (u64 (res_bus + sizeof_xdma_result * Z.of_nat k)) (ep_after c ep (take k ps)) p) ps.

(** ** Arrays changed in a range *)
Definition mapped {A} (v n : nat) (f : nat -> A -> A) (l : list A) : list A :=
  imap (fun j a => if decide (v <= j < v + n)%nat then f (j - v)%nat a else a) l.

Lemma mapped_length {A} v n (f : nat -> A -> A) l : length (mapped v n f l) = length l.
Proof. apply length_imap. Qed.

Lemma mapped_lookup {A} v n (f : nat -> A -> A) l j :
  mapped v n f l !! j = (fun a => if decide (v <= j < v + n)%nat then f (j - v)%nat a else a) <$> l !! j.
Proof. apply list_lookup_imap. Qed.

Lemma mapped_in {A} v n (f : nat -> A -> A) l k : (k < n)%nat -> mapped v n f l !! (v + k)%nat = f k <$> l !! (v + k)%nat.
Proof.
  intros Hk. rewrite mapped_lookup. destruct (l !! (v + k)%nat); [|done]. cbn -[decide]. rewrite decide_True by lia.
  do 2 f_equal. lia.
Qed.

Lemma mapped_0 {A} v (f : nat -> A -> A) l : mapped v 0 f l = l.
Proof.
  apply list_eq. intros j. rewrite mapped_lookup. destruct (l !! j); [|done]. cbn -[decide]. by rewrite decide_False by lia.
Qed.

Lemma mapped_S {A} v n (f : nat -> A -> A) l a : l !! (v + n)%nat = Some a ->
  mapped v (S n) f l = <[(v + n)%nat := f n a]> (mapped v n f l).
Proof.
  intros Ha. pose proof (lookup_lt_Some _ _ _ Ha). apply list_eq. intros j. destruct (decide (j = v + n)%nat) as [->|Hne].
  - rewrite list_lookup_insert_eq by (rewrite mapped_length; lia). rewrite mapped_in by lia. by rewrite Ha.
  - rewrite list_lookup_insert_ne by done. rewrite !mapped_lookup. destruct (l !! j); [|done]. cbn -[decide]. f_equal.
    by repeat case_decide; try lia.
Qed.

Lemma mapped_mapped {A} v n (f g : nat -> A -> A) l :
  mapped v n f (mapped v n g l) = mapped v n (fun k a => f k (g k a)) l.
Proof.
  apply list_eq. intros j. rewrite !mapped_lookup. destruct (l !! j); [|done]. cbn -[decide]. f_equal. by case_decide.
Qed.

Lemma mapped_ext {A} v n (f g : nat -> A -> A) l :
  (forall k a, (k < n)%nat -> l !! (v + k)%nat = Some a -> f k a = g k a) -> mapped v n f l = mapped v n g l.
Proof.
  intros H. apply list_eq. intros j. rewrite !mapped_lookup. destruct (l !! j) as [a|] eqn:E; [|done]. cbn -[decide]. f_equal.
  case_decide; [|done]. apply H; [lia|]. by replace (v + (j - v))%nat with j by lia.
Qed.

Lemma upd_run l (i : nat) f d : l !! i = Some d -> upd l (Z.of_nat i) f = Ok (<[i := f d]> l).
Proof.
  intros Hd. unfold upd. rewrite (aget_nat _ _ _ Hd). cbn. apply aset_nat. by eapply lookup_lt_Some.
Qed.

(** A loop that changes each descriptor of a range. *)
Lemma upd_loop (v n : nat) (body : nat -> list xdma_desc -> outcome (list xdma_desc)) f l : (v + n <= length l)%nat ->
  (forall i l' d, (i < n)%nat -> l' !! (v + i)%nat = Some d -> body i l' = Ok (<[(v + i)%nat := f i d]> l')) ->
  for_loop n body l = Ok (mapped v n f l).
Proof.
  intros Hl Hbody. destruct (for_loop_inv (fun i l' => l' = mapped v i f l) n body l) as (r & E & ->); [by rewrite mapped_0| |done].
  intros i l' Hi ->. destruct (lookup_lt_is_Some_2 l (v + i)%nat) as [d Hd]; [lia|].
  exists (<[(v + i)%nat := f i d]> (mapped v i f l)). rewrite <- mapped_S by done. split; [|done].
  rewrite (mapped_S _ _ _ _ _ Hd). apply Hbody; [done|]. rewrite mapped_lookup, Hd. cbn -[decide]. by rewrite decide_False by lia.
Qed.

Lemma mapped_cons {A} v n (f : nat -> A -> A) l a : l !! v = Some a ->
  mapped v (S n) f l = mapped (S v) n (fun k => f (S k)) (<[v := f 0%nat a]> l).
Proof.
  intros Ha. pose proof (lookup_lt_Some _ _ _ Ha). apply list_eq. intros j. rewrite !mapped_lookup.
  destruct (decide (j = v)) as [->|Hne].
  - rewrite list_lookup_insert_eq, Ha by lia. cbn -[decide]. rewrite decide_True, decide_False by lia. by rewrite Nat.sub_diag.
  - rewrite list_lookup_insert_ne by done. destruct (l !! j); [|done]. cbn -[decide]. f_equal.
    destruct (decide (v <= j < v + S n)%nat) as [?|?]; [rewrite decide_True by lia|by rewrite decide_False by lia].
    f_equal. lia.
Qed.

Lemma link_descs_run m : forall l v bus, (v + m < length l)%nat ->
  link_descs m l (Z.of_nat v) bus =
  Ok (mapped v (S m) (fun k => init_desc (if decide (k < m)%nat then u64 (bus + 32 * (Z.of_nat k + 1)) else 0)) l).
Proof.
  induction m as [|m IH]; intros l v bus Hl; cbn [link_descs].
  all: destruct (lookup_lt_is_Some_2 l v) as [d Hd]; [lia|]; rewrite (upd_run _ _ _ _ Hd); cbn [mbind outcome_bind].
  - f_equal. rewrite (mapped_cons _ _ _ _ _ Hd), mapped_0. done.
  - replace (Z.of_nat v + 1) with (Z.of_nat (S v)) by lia. rewrite IH by (rewrite length_insert; lia). f_equal.
    rewrite (mapped_cons v (S m) _ _ _ Hd). rewrite decide_True by lia.
    replace (32 * (Z.of_nat 0 + 1)) with 32 by lia. apply mapped_ext. intros k a Hk _. unfold sizeof_xdma_desc. f_equal.
    destruct (decide (k < m)%nat); [|by rewrite decide_False by lia]. rewrite decide_True by lia. rewrite u64_add_l. f_equal. lia.
Qed.

Definition with_move (m : Z * Z * Z) (d : xdma_desc) : xdma_desc :=
  let '(src, dst, len) := m in
  mkDesc (control d) len (PCI_DMA_L src) (PCI_DMA_H src) (PCI_DMA_L dst) (PCI_DMA_H dst) (next_lo d) (next_hi d).

Lemma ep_after_next c ep ps k p : ps !! k = Some p ->
  (if ec_non_incr_addr c then ep_after c ep (take k ps) else u64 (ep_after c ep (take k ps) + sw_len p)) =
  ep_after c ep (take (S k) ps).
Proof.
  intros Hp. unfold ep_after. destruct (ec_non_incr_addr c); [done|]. rewrite u64_add_l. f_equal.
  rewrite (take_S_r _ _ _ Hp), foldr_app. cbn [foldr].
  assert (forall l x, foldr (fun q n => sw_len q + n) x l = foldr (fun q n => sw_len q + n) 0 l + x) as H
    by (induction l as [|q l IH]; intros x; cbn; rewrite ?(IH x); lia).
  rewrite (H _ (sw_len p + 0)). lia.
Qed.

Definition len_of (ps : list sw_desc) : Z := foldr (fun p n => sw_len p + n) 0 ps.
Lemma len_of_app ps qs : len_of (ps ++ qs) = len_of ps + len_of qs.
Proof. induction ps as [|p ps IH]; cbn; [done|]. fold (len_of ps) (len_of (ps ++ qs)). lia. Qed.

(** What [transfer_build] leaves after [i] pieces. *)
Definition built (c : engine_config) (v : nat) (ps : list sw_desc) (b : build) (i : nat) : build :=
  mkBuild (mapped v i (fun k => with_move (default (0, 0, 0) (moves c (b_bus b) (b_ep_addr b) ps !! k))) (b_desc b))
    (if st_c2h c then mapped v i (fun _ _ => mkResult 0 0) (b_res b) else b_res b)
    (ep_after c (b_ep_addr b) (take i ps)) (u32 (b_len b + len_of (take i ps)))
    (if st_c2h c then u64 (b_bus b + 32 * Z.of_nat i) else b_bus b).

Lemma build_one_run c sdesc idx v ps b i : 0 <= idx -> ps = drop (Z.to_nat idx) sdesc ->
  (v + i < length (b_desc b))%nat -> (i < length ps)%nat -> (st_c2h c = true -> v + i < length (b_res b))%nat ->
  build_one c sdesc idx (Z.of_nat v) (Z.of_nat v) i (built c v ps b i) = Ok (built c v ps b (S i)).
Proof.
  intros Hidx -> Hv Hi Hr. destruct (lookup_lt_is_Some_2 _ _ Hi) as [p Hp]. destruct (lookup_lt_is_Some_2 _ _ Hv) as [d Hd].
  unfold build_one. rewrite lookup_drop in Hp. replace (idx + Z.of_nat i) with (Z.of_nat (Z.to_nat idx + i)) by lia.
  rewrite (aget_nat _ _ _ Hp). cbn [mbind outcome_bind]. rewrite <- lookup_drop in Hp.
  replace (Z.of_nat v + Z.of_nat i) with (Z.of_nat (v + i)) by lia.
  assert (b_desc (built c v (drop (Z.to_nat idx) sdesc) b i) !! (v + i)%nat = Some d) as Hd'.
  { cbn [built b_desc]. rewrite mapped_lookup, Hd. cbn -[decide]. by rewrite decide_False by lia. }
  rewrite (upd_run _ _ _ _ Hd'). cbn [mbind outcome_bind].
  assert (moves c (b_bus b) (b_ep_addr b) (drop (Z.to_nat idx) sdesc) !! i =
    Some (move c (u64 (b_bus b + 32 * Z.of_nat i)) (ep_after c (b_ep_addr b) (take i (drop (Z.to_nat idx) sdesc))) p)) as Hm.
  { unfold moves. rewrite list_lookup_imap, Hp. done. }
  unfold built. cbn [b_desc b_res b_bus b_len b_ep_addr].
  rewrite (ep_after_next _ _ _ _ _ Hp).
  assert (u32 (u32 (b_len b + len_of (take i (drop (Z.to_nat idx) sdesc))) + sw_len p) =
    u32 (b_len b + len_of (take (S i) (drop (Z.to_nat idx) sdesc)))) as ->.
  { rewrite u32_add_l, (take_S_r _ _ _ Hp), len_of_app. cbn. f_equal. lia. }
  rewrite (mapped_S _ _ _ _ _ Hd), Hm. cbn [default].
  destruct (st_c2h c) eqn:Est.
  - destruct (lookup_lt_is_Some_2 (b_res b) (v + i)%nat (Hr eq_refl)) as [r Hrr].
    rewrite (aset_nat) by (rewrite mapped_length; auto). cbn [mbind outcome_bind].
    erewrite upd_run by (apply list_lookup_insert_eq; rewrite mapped_length; lia). cbn [mbind outcome_bind].
    rewrite (mapped_S _ _ _ (b_res b) _ Hrr), list_insert_insert_eq. unfold sizeof_xdma_result.
    do 2 f_equal; [f_equal| rewrite u64_add_l; f_equal; lia].
    unfold st_c2h in Est. apply andb_true_iff in Est as [Es Ed%bool_decide_eq_true]. unfold move, with_move, xdma_desc_set. by rewrite Ed, Es.
  - do 2 f_equal. f_equal. unfold st_c2h in Est. unfold move, with_move, xdma_desc_set.
    destruct (ec_dir c), (ec_streaming c); done.
Qed.

Lemma transfer_build_run c req v n b : 0 <= sw_desc_idx req -> (v + n <= length (b_desc b))%nat ->
  (n <= length (drop (Z.to_nat (sw_desc_idx req)) (sdesc req)))%nat -> (st_c2h c = true -> v + n <= length (b_res b))%nat ->
  fits_u64 (b_ep_addr b) -> fits_u64 (b_bus b) -> fits_u32 (b_len b) ->
  transfer_build c req (Z.of_nat v) (Z.of_nat v) (Z.of_nat n) b =
  Ok (built c v (drop (Z.to_nat (sw_desc_idx req)) (sdesc req)) b n).
Proof.
  intros Hidx Hv Hn Hr Hep Hbus Hlen. unfold transfer_build. rewrite Nat2Z.id.
  destruct (for_loop_inv (fun i x => x = built c v (drop (Z.to_nat (sw_desc_idx req)) (sdesc req)) b i) n
    (build_one c (sdesc req) (sw_desc_idx req) (Z.of_nat v) (Z.of_nat v)) b) as (r & E & ->); [| |done].
  - unfold built. rewrite !mapped_0, take_0. unfold ep_after, len_of. cbn [foldr]. rewrite !Z.add_0_r.
    rewrite !u64_small, u32_small by done. destruct b; cbn. by destruct (st_c2h c), (ec_non_incr_addr c).
  - intros i x Hi ->. eexists. split; [|done]. apply build_one_run; (done || lia || (intros; specialize (Hr ltac:(done)); lia)).
Qed.

(** ** [transfer_init] *)
Definition LAST_CONTROL : Z := Z.lor (Z.lor XDMA_DESC_STOPPED XDMA_DESC_EOP) XDMA_DESC_COMPLETED.

(** The control bits of the [k]-th of [n] descriptors. *)
Definition control_bits (dir : dma_data_direction) (n k : nat) : Z :=
  if decide (S k = n) then LAST_CONTROL else if decide (dir = DMA_TO_DEVICE) then XDMA_DESC_EOP else 0.

Lemma control_set_0 d : control d = DESC_MAGIC -> xdma_desc_control_set 0 d = d.
Proof. destruct d. cbn. by intros ->. Qed.

Lemma transfer_control_run dir v n l : (0 < n)%nat -> (v + n <= length l)%nat ->
  (forall k d, (k < n)%nat -> l !! (v + k)%nat = Some d -> control d = DESC_MAGIC) ->
  transfer_control dir (Z.of_nat v) (Z.of_nat n - 1) l =
  Ok (mapped v n (fun k => xdma_desc_control_set (control_bits dir n k)) l).
Proof.
  intros Hn Hl Hmag. unfold transfer_control. replace (Z.of_nat n - 1) with (Z.of_nat (n - 1)) by lia.
  replace (Z.of_nat v + Z.of_nat (n - 1)) with (Z.of_nat (v + (n - 1))) by lia.
  destruct (lookup_lt_is_Some_2 l (v + (n - 1))) as [d Hd]; [lia|]. rewrite (upd_run _ _ _ _ Hd). cbn [mbind outcome_bind].
  fold LAST_CONTROL. rewrite Nat2Z.id.
  assert (forall m, m = mapped v (n - 1) (fun _ => xdma_desc_control_set (if decide (dir = DMA_TO_DEVICE) then XDMA_DESC_EOP else 0)) l ->
    <[(v + (n - 1))%nat := xdma_desc_control_set LAST_CONTROL d]> m = mapped v n (fun k => xdma_desc_control_set (control_bits dir n k)) l) as Hall.
  { intros m ->. destruct n as [|n]; [lia|]. replace (S n - 1)%nat with n in * by lia. rewrite (mapped_S _ _ _ _ _ Hd).
    unfold control_bits at 1. rewrite (decide_True (P := S n = S n)) by done. f_equal. apply mapped_ext. intros k a Hk _. unfold control_bits.
    by rewrite (decide_False (P := S k = S n)) by lia. }
  destruct (decide (dir = DMA_TO_DEVICE)) as [Hd1|Hd1].
  - rewrite (upd_loop v (n - 1) _ (fun _ => xdma_desc_control_set XDMA_DESC_EOP)); [|rewrite length_insert; lia|].
    + f_equal. rewrite <- (Hall _ eq_refl). apply list_eq. intros j. rewrite mapped_lookup.
      destruct (decide (j = v + (n - 1))%nat) as [->|Hne].
      * rewrite !list_lookup_insert_eq by (rewrite ?mapped_length; lia). cbn -[decide]. by rewrite decide_False by lia.
      * by rewrite !list_lookup_insert_ne, mapped_lookup by done.
    + intros i l' d' Hi Hd'. replace (Z.of_nat v + Z.of_nat i) with (Z.of_nat (v + i)) by lia. by apply upd_run.
  - f_equal. apply Hall. apply list_eq. intros j. rewrite mapped_lookup. destruct (l !! j) as [a|] eqn:E; [|done].
    cbn -[decide]. case_decide; [|done]. f_equal. symmetry. apply control_set_0. apply (Hmag (j - v)%nat); [lia|].
    by replace (v + (j - v))%nat with j by lia.
Qed.

Lemma fill_adjacent_run v n l : (v + n <= length l)%nat ->
  fill_adjacent (Z.of_nat v) (Z.of_nat n) l =
  Ok (mapped v n (fun k d => xdma_desc_adjacent (xdma_get_next_adj (Z.of_nat n - Z.of_nat k - 1) (next_lo d)) d) l).
Proof.
  intros Hl. unfold fill_adjacent. rewrite Nat2Z.id. apply upd_loop; [done|]. intros i l' d Hi Hd.
  replace (Z.of_nat v + Z.of_nat i) with (Z.of_nat (v + i)) by lia. rewrite (aget_nat _ _ _ Hd). cbn [mbind outcome_bind].
  by rewrite (upd_run _ _ _ _ Hd).
Qed.

Lemma next_adj_range remaining lo : 0 <= lo ->
  0 <= xdma_get_next_adj remaining lo < 64 /\ (0 < xdma_get_next_adj remaining lo -> xdma_get_next_adj remaining lo <= remaining - 1).
Proof.
  intros Hlo. unfold xdma_get_next_adj, XDMA_MAX_ADJ_BLOCK_SIZE. case_decide; [lia|].
  pose proof (Z.mod_pos_bound (Z.shiftr (Z.land lo (XDMA_PAGE_SIZE - 1)) 5) 64). lia.
Qed.

(** A block that [xdma_get_next_adj] allows is one the engine can fetch. *)
Lemma next_adj_fetch remaining bus : 0 <= bus -> bus mod 32 = 0 -> 1 <= remaining ->
  fetch_ok bus (xdma_get_next_adj remaining (PCI_DMA_L bus)) (bus + 32 * (remaining - 1)).
Proof.
  intros Hbus Hal Hr. unfold PCI_DMA_L. change 0xffffffff with (Z.ones 32). rewrite Z.land_ones by lia.
  assert (0 <= bus mod 2 ^ 32) as Hlo by (apply Z.mod_pos_bound; lia).
  pose proof (next_adj_range remaining _ Hlo) as [H1 H2]. unfold fetch_ok, sizeof_xdma_desc, XDMA_MAX_ADJ_BLOCK_SIZE.
  split; [done|]. split; [lia|].
  assert (xdma_get_next_adj remaining (bus mod 2 ^ 32) <= 63 - bus mod 2048 / 32) as Hmax.
  { unfold xdma_get_next_adj, XDMA_MAX_ADJ_BLOCK_SIZE, XDMA_PAGE_SIZE.
    case_decide; [Z.div_mod_to_equations; lia|].
    change (0x1000 - 1) with (Z.ones 12). rewrite Z.land_ones, Z.shiftr_div_pow2 by lia.
    change (2 ^ 32) with 4294967296. change (2 ^ 12) with 4096. change (2 ^ 5) with 32.
    assert ((bus mod 4294967296) mod 4096 / 32 mod 64 = bus mod 2048 / 32) as -> by (clear -Hbus; Z.div_mod_to_equations; lia). lia. }
  generalize dependent (xdma_get_next_adj remaining (bus mod 2 ^ 32)). intros adj **. clear -Hbus Hal Hmax H1. Z.div_mod_to_equations; lia.
Qed.

(** The control word: magic, adjacent descriptors, control bits. *)
Lemma control_word adj low d : 0 <= adj < 64 -> 0 <= low < 256 -> control d = DESC_MAGIC ->
  control (xdma_desc_adjacent adj (xdma_desc_control_set low d)) = DESC_MAGIC + adj * 256 + low.
Proof.
  intros Ha Hlow Hm. unfold xdma_desc_control_set. assert (Z.land low (Z.lnot LS_BYTE_MASK) = 0) as Hz.
  { apply Z.bits_inj'. intros i Hi. change LS_BYTE_MASK with (Z.ones 8). rewrite <- Z.ldiff_land, Z.ldiff_ones_r, Z.shiftr_div_pow2 by lia.
    change (2 ^ 8) with 256. by rewrite Z.div_small by lia. }
  rewrite decide_False by (rewrite Hz; lia). unfold xdma_desc_adjacent. cbn [set_control control]. rewrite Hm.
  change (Z.land DESC_MAGIC (Z.lnot LS_BYTE_MASK)) with DESC_MAGIC.
  rewrite Z.land_lor_distr_l. change (Z.land DESC_MAGIC 0xf0ff) with 0. rewrite Z.lor_0_l.
  assert (Z.land low 0xf0ff = low) as ->.
  { change 0xf0ff with (Z.lor (Z.shiftl 0xf0 8) (Z.ones 8)). rewrite Z.land_lor_distr_r, (Z.land_comm low), land_shiftl_low, Z.land_ones by lia.
    rewrite Z.lor_0_l. apply Z.mod_small. lia. }
  change DESC_MAGIC with (Z.shiftl 0xAD4B00 8) at 1. rewrite <- Z.shiftl_lor, Z.lor_comm.
  assert (Z.lor 0xAD4B00 adj = 0xAD4B00 + adj) as ->.
  { change 0xAD4B00 with (Z.shiftl 0xAD4B 8). rewrite lor_shiftl_add by lia. done. }
  rewrite lor_shiftl_add by lia. unfold DESC_MAGIC. rewrite u32_small by (unfold fits_u32; lia). lia.
Qed.

Record engine_ok (e : xdma_engine) : Prop := {
  eo_max : 0 < e_desc_max e <= XDMA_ENGINE_XFER_MAX_DESC;
  eo_desc : Z.of_nat (length (e_desc e)) = e_desc_max e;
  eo_res : st_c2h (e_config e) = true -> Z.of_nat (length (e_cyclic_result e)) = e_desc_max e;
  eo_idx : 0 <= e_desc_idx e < e_desc_max e;
  eo_bus : 0 <= e_desc_bus e /\ e_desc_bus e mod 32 = 0 /\ e_desc_bus e + 32 * e_desc_max e < 2 ^ 64 }.

Record req_ok (r : xdma_request_cb) : Prop := {
  ro_idx : 0 <= sw_desc_idx r < sw_desc_cnt r;
  ro_cnt : sw_desc_cnt r <= Z.of_nat (length (sdesc r)) /\ sw_desc_cnt r < 2 ^ 27;
  ro_ep : fits_u64 (ep_addr r);
  ro_pieces : Forall (piece_ok XDMA_DESC_BLEN_MAX) (pieces_left r) }.

(** The bus address of the [k]-th descriptor of a transfer. *)
Definition bus_at (e : xdma_engine) (k : Z) : Z := e_desc_bus e + 32 * (e_desc_idx e + k).

(** The [k]-th of [n] descriptors, as [transfer_init] leaves it. *)
Definition next_bus (e : xdma_engine) (n k : nat) : Z := if decide (S k < n)%nat then bus_at e (Z.of_nat k + 1) else 0.
Definition final_desc (e : xdma_engine) (ms : list (Z * Z * Z)) (n k : nat) (d : xdma_desc) : xdma_desc :=
  xdma_desc_adjacent (xdma_get_next_adj (Z.of_nat n - Z.of_nat k - 1) (PCI_DMA_L (next_bus e n k)))
    (xdma_desc_control_set (control_bits (e_dir e) n k) (with_move (default (0, 0, 0) (ms !! k)) (init_desc (next_bus e n k) d))).

Lemma addr64_split x : fits_u64 x -> addr64 (PCI_DMA_L x) (PCI_DMA_H x) = x.
Proof.
  intros Hx. unfold addr64, PCI_DMA_L, PCI_DMA_H. change 0xffffffff with (Z.ones 32). rewrite Z.land_ones, Z.shiftr_shiftr, Z.shiftr_div_pow2 by lia.
  change (2 ^ 32) with 4294967296. change (2 ^ (16 + 16)) with 4294967296. int_lia.
Qed.

Lemma next_bus_fits e n k : engine_ok e -> e_desc_idx e + Z.of_nat n <= e_desc_max e -> fits_u64 (next_bus e n k) /\ next_bus e n k mod 32 = 0.
Proof.
  intros He Hn. destruct (eo_bus e He) as (H1 & H2 & H3). pose proof (eo_idx e He). unfold next_bus, bus_at, fits_u64.
  case_decide; [|by split]. split; [lia|]. clear -H2. Z.div_mod_to_equations; lia.
Qed.

Lemma control_bits_range dir n k : 0 <= control_bits dir n k < 256.
Proof. unfold control_bits, LAST_CONTROL. repeat case_decide; vm_compute; split; congruence. Qed.

Lemma final_desc_control e ms n k d : 0 <= PCI_DMA_L (next_bus e n k) ->
  control (final_desc e ms n k d) =
  DESC_MAGIC + xdma_get_next_adj (Z.of_nat n - Z.of_nat k - 1) (PCI_DMA_L (next_bus e n k)) * 256 + control_bits (e_dir e) n k.
Proof.
  intros H. unfold final_desc. destruct (default (0, 0, 0) (ms !! k)) as [[src dst] len] eqn:E.
  apply control_word; [by apply next_adj_range|apply control_bits_range|done].
Qed.

Lemma final_desc_stop e ms n k d : 0 <= PCI_DMA_L (next_bus e n k) ->
  Z.testbit (control (final_desc e ms n k d)) 0 = bool_decide (S k = n).
Proof.
  intros H. rewrite final_desc_control, Z.bit0_odd by done. rewrite !Z.odd_add, Z.odd_mul, andb_false_r.
  unfold control_bits, LAST_CONTROL. case_decide as E; [by rewrite bool_decide_eq_true_2|].
  rewrite bool_decide_eq_false_2 by done. by case_decide.
Qed.

Lemma final_desc_adjacent e ms n k d : 0 <= PCI_DMA_L (next_bus e n k) ->
  adjacent (final_desc e ms n k d) = xdma_get_next_adj (Z.of_nat n - Z.of_nat k - 1) (PCI_DMA_L (next_bus e n k)).
Proof.
  intros H. unfold adjacent. rewrite final_desc_control, bits_spec by (done || lia).
  pose proof (next_adj_range (Z.of_nat n - Z.of_nat k - 1) _ H) as [Hr _]. pose proof (control_bits_range (e_dir e) n k).
  unfold DESC_MAGIC. change (2 ^ 8) with 256. change (2 ^ 6) with 64. revert Hr. generalize (xdma_get_next_adj (Z.of_nat n - Z.of_nat k - 1) (PCI_DMA_L (next_bus e n k))).
  intros a Ha. Z.div_mod_to_equations; lia.
Qed.

Lemma final_desc_next e ms n k d : fits_u64 (next_bus e n k) -> next_of (final_desc e ms n k d) = next_bus e n k.
Proof.
  intros H. unfold final_desc, xdma_desc_control_set. destruct (default (0, 0, 0) (ms !! k)) as [[src dst] len].
  case_decide; by apply addr64_split.
Qed.

Definition move_fits (m : Z * Z * Z) : Prop := fits_u64 (fst (fst m)) /\ fits_u64 (snd (fst m)).

Lemma final_desc_move e ms n k d m : ms !! k = Some m -> move_fits m -> move_of (final_desc e ms n k d) = m.
Proof.
  intros Hm [H1 H2]. unfold final_desc, xdma_desc_control_set. rewrite Hm. destruct m as [[src dst] len]. cbn in H1, H2.
  unfold move_of. case_decide; cbn; by rewrite !addr64_split.
Qed.

Lemma moves_length c res ep ps : length (moves c res ep ps) = length ps.
Proof. apply length_imap. Qed.

Lemma moves_fit c res ep ps : Forall (piece_ok XDMA_DESC_BLEN_MAX) ps -> fits_u64 ep -> Forall move_fits (moves c res ep ps).
Proof.
  intros Hps Hep. apply Forall_lookup_2. intros k m Hm. unfold moves in Hm. rewrite list_lookup_imap in Hm.
  destruct (ps !! k) as [p|] eqn:E; [|done]. injection Hm as <-. pose proof (Forall_lookup_1 _ _ _ _ Hps E) as (H1 & H2 & H3).
  unfold move, move_fits, ep_after. assert (fits_u64 (sw_addr p)) by (unfold fits_u64; lia).
  destruct (ec_non_incr_addr c); case_decide; destruct (ec_streaming c); cbn; auto using u64_range.
Qed.

(** The number of pieces the next transfer takes. *)
Definition transfer_size (e : xdma_engine) (req : xdma_request_cb) : Z :=
  Z.min (sw_desc_cnt req - sw_desc_idx req) (e_desc_max e - e_desc_idx e).

Lemma transfer_desc_max_run e req : engine_ok e -> req_ok req -> transfer_desc_max e req = transfer_size e req.
Proof.
  intros He Hr. destruct (eo_max e He) as [M1 M2], (eo_idx e He), (ro_idx req Hr), (ro_cnt req Hr).
  unfold XDMA_ENGINE_XFER_MAX_DESC in M2. unfold transfer_desc_max, transfer_size.
  rewrite !u32_small; unfold fits_u32; [case_decide; lia|lia|rewrite u32_small by (unfold fits_u32; lia); lia].
Qed.

(** What is left of the request is left behind its index. *)
Lemma pieces_left_drop req n : req_ok req -> 0 <= n <= sw_desc_cnt req - sw_desc_idx req ->
  take (Z.to_nat n) (drop (Z.to_nat (sw_desc_idx req)) (sdesc req)) = take (Z.to_nat n) (pieces_left req) /\
  length (take (Z.to_nat n) (pieces_left req)) = Z.to_nat n.
Proof.
  intros Hr Hn. destruct (ro_idx req Hr), (ro_cnt req Hr). unfold pieces_left. rewrite skipn_firstn_comm, take_take, Nat.min_l by lia.
  split; [done|]. rewrite length_take, length_drop. lia.
Qed.

Lemma moves_take c res ep ps qs n k : (k < n)%nat -> take n ps = take n qs -> moves c res ep ps !! k = moves c res ep (take n qs) !! k.
Proof.
  intros Hk Ht. unfold moves. rewrite !list_lookup_imap.
  rewrite <- (lookup_take_lt ps n k) by done. rewrite Ht. destruct (take n qs !! k); [|done]. cbn. do 2 f_equal.
  rewrite <- Ht, take_take. by rewrite Nat.min_l by lia.
Qed.

Definition result_bus (e : xdma_engine) : Z := u64 (e_cyclic_result_bus e + sizeof_xdma_result * e_desc_idx e).
Definition new_moves (e : xdma_engine) (req : xdma_request_cb) : list (Z * Z * Z) :=
  moves (e_config e) (result_bus e) (ep_addr req) (take (Z.to_nat (transfer_size e req)) (pieces_left req)).

(** The transfer, the engine and the request after [transfer_init]. *)
Definition new_transfer (e : xdma_engine) (req : xdma_request_cb) : xdma_transfer :=
  let n := transfer_size e req in
  mkXfer (e_desc_idx e) (e_desc_idx e) (result_bus e) (bus_at e 0) n n (e_desc_idx e) 0 n (e_dir e) TRANSFER_STATE_NEW 0
    false false (u32 (len_of (take (Z.to_nat n) (pieces_left req)))) false.
Definition after_init (e : xdma_engine) (req : xdma_request_cb) : xdma_engine :=
  let n := Z.to_nat (transfer_size e req) in
  set_indices ((e_desc_idx e + transfer_size e req) mod e_desc_max e) (s32 (e_desc_used e + transfer_size e req))
    (set_arrays (mapped (Z.to_nat (e_desc_idx e)) n (final_desc e (new_moves e req) n) (e_desc e))
       (if st_c2h (e_config e) then mapped (Z.to_nat (e_desc_idx e)) n (fun _ _ => mkResult 0 0) (e_cyclic_result e)
        else e_cyclic_result e) e).
Definition req_after (e : xdma_engine) (req : xdma_request_cb) : xdma_request_cb :=
  mkReq (ep_after (e_config e) (ep_addr req) (take (Z.to_nat (transfer_size e req)) (pieces_left req))) (total_len req)
    (sw_desc_idx req + transfer_size e req) (sw_desc_cnt req) (sdesc req).

Lemma transfer_size_pos e req : engine_ok e -> req_ok req ->
  0 < transfer_size e req /\ e_desc_idx e + transfer_size e req <= e_desc_max e /\
  transfer_size e req <= sw_desc_cnt req - sw_desc_idx req.
Proof. intros He Hr. destruct (eo_idx e He), (ro_idx req Hr). unfold transfer_size. lia. Qed.

Lemma transfer_init_run e req : engine_ok e -> req_ok req ->
  transfer_init e req = Ok (new_transfer e req, after_init e req, req_after e req).
Proof.
  intros He Hr. destruct (transfer_size_pos e req He Hr) as (Hn & Hvn & Hcnt). destruct (eo_idx e He) as [Hv Hvm].
  destruct (eo_bus e He) as (B1 & B2 & B3). pose proof (eo_desc e He) as Hlen. destruct (eo_max e He) as [M1 M2].
  unfold transfer_init. rewrite transfer_desc_max_run by done.
  destruct (pieces_left_drop req (transfer_size e req) Hr) as [Htk Htl]; [lia|].
  set (n := Z.to_nat (transfer_size e req)) in *. set (v := Z.to_nat (e_desc_idx e)).
  replace (transfer_size e req) with (Z.of_nat n) by lia. replace (e_desc_idx e) with (Z.of_nat v) by lia.
  assert (u64 (e_desc_bus e + sizeof_xdma_desc * Z.of_nat v) = bus_at e 0) as ->
    by (unfold bus_at, sizeof_xdma_desc; rewrite u64_small; unfold fits_u64; lia).
  unfold transfer_desc_init. replace (Z.to_nat (Z.of_nat n - 1)) with (n - 1)%nat by lia.
  rewrite link_descs_run by lia. cbn [mbind outcome_bind]. replace (S (n - 1)) with n by lia.
  rewrite transfer_build_run; cbn [b_desc b_res b_ep_addr b_len b_bus];
    [|apply Hr|rewrite mapped_length; lia| |intros E; pose proof (eo_res e He E); lia|apply Hr|apply u64_range|unfold fits_u32; lia].
  2: { rewrite length_drop. destruct (ro_cnt req Hr). pose proof (ro_idx req Hr). lia. }
  cbn [mbind outcome_bind built b_desc b_res b_ep_addr b_len b_bus]. rewrite Htk.
  rewrite transfer_control_run by (rewrite ?mapped_length; lia || (intros k d Hk Hd; rewrite mapped_in, mapped_in in Hd by done;
    destruct (e_desc e !! (v + k)%nat); [|done]; injection Hd as <-; by destruct (default _ _) as [[??]?])).
  cbn [mbind outcome_bind]. rewrite fill_adjacent_run by (rewrite !mapped_length; lia). cbn [mbind outcome_bind].
  unfold new_transfer, after_init, req_after. replace (transfer_size e req) with (Z.of_nat n) by lia.
  rewrite Z.rem_mod_nonneg by lia. rewrite Nat2Z.id. replace (e_desc_idx e) with (Z.of_nat v) by lia.
  rewrite Nat2Z.id, !mapped_mapped. do 4 f_equal.
  - unfold result_bus. by replace (e_desc_idx e) with (Z.of_nat v) by lia.
  - f_equal. apply mapped_ext. intros k d Hk Hd. unfold final_desc.
    assert ((if decide (k < n - 1)%nat then u64 (bus_at e 0 + 32 * (Z.of_nat k + 1)) else 0) = next_bus e n k) as ->.
    { unfold next_bus, bus_at. repeat case_decide; try lia. rewrite u64_small; unfold fits_u64; lia. }
    rewrite (moves_take _ _ _ _ (pieces_left req) n k Hk Htk).
    assert (new_moves e req = moves (e_config e) (result_bus e) (ep_addr req) (take n (pieces_left req))) as -> by done.
    unfold result_bus. replace (e_desc_idx e) with (Z.of_nat v) by lia.
    f_equal. f_equal. unfold xdma_desc_control_set. destruct (default _ _) as [[??]?]. by case_decide.
Qed.

(** ** Descriptors that are complete *)
Section described.
(** [n] descriptors from [desc_idx] on, with the moves [ms]. *)
Context (e : xdma_engine) (ms : list (Z * Z * Z)) (descs : list xdma_desc) (n : nat).
Context (He : engine_ok e) (Hn : (0 < n)%nat) (Hvn : e_desc_idx e + Z.of_nat n <= e_desc_max e).
Context (Hlen : Z.of_nat (length descs) = e_desc_max e) (Hms : length ms = n) (Hfit : Forall move_fits ms).
Local Notation descs' := (mapped (Z.to_nat (e_desc_idx e)) n (final_desc e ms n) descs).

Lemma described_at k : (k < n)%nat -> exists d, desc_at (e_desc_bus e) descs' (bus_at e (Z.of_nat k)) = Some (final_desc e ms n k d).
Proof using He Hn Hvn Hlen.
  clear Hms Hfit.
  intros Hk. pose proof (eo_idx e He).
  destruct (lookup_lt_is_Some_2 descs (Z.to_nat (e_desc_idx e) + k)) as [d Hd]; [lia|]. exists d.
  unfold desc_at, bus_at, sizeof_xdma_desc. replace (e_desc_bus e + 32 * (e_desc_idx e + Z.of_nat k) - e_desc_bus e)
    with ((e_desc_idx e + Z.of_nat k) * 32) by lia. rewrite Z.mod_mul, Z.div_mul by lia. rewrite decide_True by lia.
  replace (Z.to_nat (e_desc_idx e + Z.of_nat k)) with (Z.to_nat (e_desc_idx e) + k)%nat by lia.
  rewrite mapped_in by done. by rewrite Hd.
Qed.

Lemma next_low_nonneg k : 0 <= PCI_DMA_L (next_bus e n k).
Proof using He Hn Hvn.
  clear Hms Hfit Hlen.
  destruct (next_bus_fits e n k He) as [H _]; [lia|].
  unfold PCI_DMA_L. change 0xffffffff with (Z.ones 32). rewrite Z.land_ones by lia. by apply Z.mod_pos_bound.
Qed.

Lemma chain_S fuel base descs0 bus : chain (S fuel) base descs0 bus =
  (d ← desc_at base descs0 bus; if Z.testbit (control d) 0 then Some [move_of d]
   else l ← chain fuel base descs0 (next_of d); Some (move_of d :: l)).
Proof. done. Qed.

Lemma described_chain m : forall k, (k + S m = n)%nat ->
  chain (S m) (e_desc_bus e) descs' (bus_at e (Z.of_nat k)) = Some (drop k ms).
Proof using He Hn Hvn Hlen Hms Hfit.
  induction m as [|m IH]; intros k Hk; rewrite chain_S; destruct (described_at k) as [d ->]; [lia| |lia|]; cbn [mbind option_bind];
    rewrite final_desc_stop by apply next_low_nonneg;
    destruct (lookup_lt_is_Some_2 ms k) as [mv Hmv]; [lia| |lia|];
    rewrite (drop_S _ _ _ Hmv), (final_desc_move _ _ _ _ _ mv Hmv) by exact (Forall_lookup_1 _ _ _ _ Hfit Hmv).
  - rewrite bool_decide_eq_true_2 by lia. rewrite drop_ge; [done|lia].
  - rewrite bool_decide_eq_false_2 by lia. rewrite final_desc_next by (apply next_bus_fits; [done|lia]).
    unfold next_bus. rewrite decide_True by lia. replace (Z.of_nat k + 1) with (Z.of_nat (S k)) by lia.
    rewrite IH by lia. done.
Qed.

Lemma described_all : chain n (e_desc_bus e) descs' (bus_at e 0) = Some ms.
Proof using He Hn Hvn Hlen Hms Hfit. pose proof (described_chain (n - 1) 0) as E. replace (S (n - 1)) with n in E by lia. apply E. lia. Qed.

Lemma described_fetch k d : (S k < n)%nat -> desc_at (e_desc_bus e) descs' (bus_at e (Z.of_nat k)) = Some d ->
  fetch_ok (next_of d) (adjacent d) (bus_at e (Z.of_nat n - 1)).
Proof using He Hn Hvn Hlen.
  clear Hms Hfit.
  intros Hk Hd. destruct (described_at k) as [d0 E]; [lia|].
  rewrite E in Hd. injection Hd as <-. destruct (next_bus_fits e n k He) as [H1 H2]; [lia|].
  rewrite final_desc_next, final_desc_adjacent by (done || apply next_low_nonneg).
  replace (bus_at e (Z.of_nat n - 1)) with (next_bus e n k + 32 * (Z.of_nat n - Z.of_nat k - 1 - 1)).
  - apply next_adj_fetch; [unfold fits_u64 in H1; lia|done|lia].
  - unfold next_bus. rewrite decide_True by lia. unfold bus_at. lia.
Qed.

Lemma first_fetch : fetch_ok (bus_at e 0) (xdma_get_next_adj (Z.of_nat n) (PCI_DMA_L (bus_at e 0))) (bus_at e (Z.of_nat n - 1)).
Proof using He Hn Hvn.
  clear Hms Hfit Hlen.
  destruct (eo_bus e He) as (B1 & B2 & B3). pose proof (eo_idx e He).
  replace (bus_at e (Z.of_nat n - 1)) with (bus_at e 0 + 32 * (Z.of_nat n - 1)) by (unfold bus_at; lia).
  apply next_adj_fetch; [unfold bus_at; lia|unfold bus_at; clear -B2; Z.div_mod_to_equations; lia|lia].
Qed.
End described.

Section chain_facts.
Context (e : xdma_engine) (req : xdma_request_cb) (He : engine_ok e) (Hr : req_ok req).
Local Notation n := (Z.to_nat (transfer_size e req)).
Local Notation e' := (after_init e req).

Lemma transfer_size_nat : (0 < n)%nat /\ e_desc_idx e + Z.of_nat n <= e_desc_max e.
Proof. destruct (transfer_size_pos e req He Hr) as (Hn & Hvn & _). lia. Qed.

Lemma new_moves_ok : length (new_moves e req) = n /\ Forall move_fits (new_moves e req).
Proof.
  unfold new_moves. rewrite moves_length. destruct (transfer_size_pos e req He Hr) as (Hn & _ & Hc). split.
  - by apply pieces_left_drop; [|lia].
  - apply moves_fit; [apply Forall_take, ro_pieces, Hr|apply (ro_ep _ Hr)].
Qed.

Lemma chain_all : chain n (e_desc_bus e) (e_desc e') (bus_at e 0) = Some (new_moves e req).
Proof.
  destruct transfer_size_nat, new_moves_ok. apply described_all; try done. by apply eo_desc.
Qed.

Lemma engine_after : engine_ok e'.
Proof.
  destruct He as [M D R I B].
  constructor; cbn [after_init set_indices set_arrays e_desc_max e_desc_bus e_config e_desc e_cyclic_result e_desc_idx];
    try done.
  - by rewrite mapped_length.
  - intros E. rewrite E, mapped_length. auto.
  - apply Z.mod_pos_bound, M.
Qed.
End chain_facts.

(** C13. A transfer is the next pieces of its request.  Whatever was in the descriptors before,
    [transfer_init] takes as many pieces as are left and fit behind [desc_idx]; the engine, when
    started at the bus address of the transfer, does exactly the moves of these pieces, to or from
    consecutive addresses on the card, and stops; what it fetches at once stays in the
    chain and in one block of 64 descriptors; no other descriptor has changed, and what
    is left of the request is the rest. *)
Theorem transfer_describes_pieces e req : engine_ok e -> req_ok req ->
  let n := transfer_size e req in
  exists xfer e' req', transfer_init e req = Ok (xfer, e', req') /\ engine_ok e' /\
    0 < n /\ t_desc_num xfer = n /\
    pieces_left req = take (Z.to_nat n) (pieces_left req) ++ pieces_left req' /\
    ep_addr req' = ep_after (e_config e) (ep_addr req) (take (Z.to_nat n) (pieces_left req)) /\
    chain (Z.to_nat n) (e_desc_bus e) (e_desc e') (t_desc_bus xfer) =
      Some (moves (e_config e) (t_res_bus xfer) (ep_addr req) (take (Z.to_nat n) (pieces_left req))) /\
    fetch_ok (t_desc_bus xfer) (xdma_get_next_adj n (PCI_DMA_L (t_desc_bus xfer))) (t_desc_bus xfer + 32 * (n - 1)) /\
    (forall k d, 0 <= k < n - 1 -> desc_at (e_desc_bus e) (e_desc e') (t_desc_bus xfer + 32 * k) = Some d ->
       fetch_ok (next_of d) (adjacent d) (t_desc_bus xfer + 32 * (n - 1))) /\
    (forall j, Z.of_nat j < e_desc_idx e \/ e_desc_idx e + n <= Z.of_nat j -> e_desc e' !! j = e_desc e !! j).
Proof.
  intros He Hr n. destruct (transfer_size_pos e req He Hr) as (Hn & Hvn & Hc). fold n in Hn, Hvn, Hc. pose proof (eo_idx e He).
  exists (new_transfer e req), (after_init e req), (req_after e req). rewrite transfer_init_run by done.
  assert (forall k, bus_at e 0 + 32 * k = bus_at e k) as Hbus by (intros; unfold bus_at; lia).
  split; [done|]. split; [by apply engine_after|]. split; [done|]. split; [done|]. split; [|split; [done|split; [|split; [|split]]]].
  - unfold pieces_left. cbn [req_after sw_desc_idx sw_desc_cnt sdesc]. fold n.
    replace (Z.to_nat (sw_desc_idx req + n)) with (Z.to_nat (sw_desc_idx req) + Z.to_nat n)%nat by (pose proof (ro_idx req Hr); lia).
    by rewrite <- drop_drop, take_drop.
  - by apply chain_all.
  - pose proof (first_fetch e (Z.to_nat n) He ltac:(lia) ltac:(lia)) as F. rewrite Z2Nat.id in F by lia. cbn [new_transfer t_desc_bus]. by rewrite Hbus.
  - intros k d Hk Hd. cbn [new_transfer t_desc_bus] in *. rewrite Hbus in *.
    pose proof (described_fetch e (new_moves e req) (e_desc e) (Z.to_nat n) He ltac:(lia) ltac:(lia) (eo_desc e He) (Z.to_nat k) d) as F.
    rewrite !Z2Nat.id in F by lia. apply F; [lia|done].
  - intros j Hj. cbn [after_init set_indices set_arrays e_desc]. rewrite mapped_lookup. destruct (e_desc e !! j); [|done].
    cbn -[decide]. rewrite decide_False; [done|]. fold n. lia.
Qed.

(** ** Examples and witnesses *)

(** An entry whose length is close to 2^32 wraps the count of pieces around; the
    second piece is written behind the memory. *)
Lemma big_entry_overruns : xdma_init_request 4096 400 [mkSg 0 (2 ^ 32 - 1)] 0 true = Fault OutOfBounds.
Proof.
  unfold xdma_init_request. change (extra_descs 4096 [mkSg 0 (2 ^ 32 - 1)] 0) with (@Ok Z 0). cbn [mbind outcome_bind].
  change (sint (Z.of_nat (length [mkSg 0 (2 ^ 32 - 1)]) + 0)) with (@Ok Z 1). cbn [mbind outcome_bind].
  change (xdma_request_alloc 400 1 true) with (Some [mkSw 0 0]). cbn [split_entries sg_dma_len sg_dma_address].
  assert (exists k, split_fuel 4096 (2 ^ 32 - 1) = S (S k)) as [k ->].
  { exists (Z.to_nat 1048575). unfold split_fuel. change ((2 ^ 32 - 1) / 4096 + 2) with (Z.succ (Z.succ 1048575)).
    by rewrite !Z2Nat.inj_succ by lia. }
  reflexivity.
Qed.

(** The module parameter may be zero. *)
Example zero_length_pieces : xdma_init_request 0 400 [mkSg 4096 64] 0 true = Fault DivByZero.
Proof. reflexivity. Qed.

Definition sample_sgl : list scatterlist := [mkSg 0x10000 5000; mkSg 0x30000 0; mkSg 0x40000 4096].
Definition sample_req : xdma_request_cb :=
  mkReq 0x1000 9096 0 3 [mkSw 0x10000 4096; mkSw 0x11000 904; mkSw 0x40000 4096; mkSw 0 0].
Definition sample_engine : xdma_engine :=
  mkEngine (mkEngCfg DMA_TO_DEVICE false false false 4 0x200000 0) (replicate 4 (mkDesc 0 0 0 0 0 0 0 0)) [] 2 0 0
    false 0 0 [].

Example sample_request : xdma_init_request 4096 400 sample_sgl 0x1000 true =
  Ok (Some (mkReq 0x1000 9096 0 3 [mkSw 0x10000 4096; mkSw 0x11000 904; mkSw 0x40000 4096; mkSw 0 0; mkSw 0 0])).
Proof. vm_compute. reflexivity. Qed.

Lemma sample_engine_ok : engine_ok sample_engine.
Proof. by repeat constructor. Qed.
Lemma sample_req_ok : req_ok sample_req.
Proof. repeat constructor; unfold piece_ok; vm_compute; repeat split; congruence. Qed.

Lemma transfer_describes_pieces_witness : exists xfer e' req',
  transfer_init sample_engine sample_req = Ok (xfer, e', req') /\ t_desc_num xfer = 2 /\
  chain 2 0x200000 (e_desc e') (t_desc_bus xfer) = Some [(0x10000, 0x1000, 4096); (0x11000, 0x2000, 904)].
Proof.
  destruct (transfer_describes_pieces sample_engine sample_req sample_engine_ok sample_req_ok)
    as (x & e' & r' & E & _ & _ & Hn & _ & _ & Hc & _).
  exists x, e', r'. split; [exact E|]. split; [exact Hn|]. vm_compute in E. injection E as <- <- <-. exact Hc.
Defined.
