(* ===== verification/XdmaEngine.v ===== *)
(** * libxdma.c: the engine and the transfers on it

    Transfers are queued on an engine ([transfer_queue]) and started one after the other
    ([engine_start]); when the device reports that it has stopped, [engine_service]
    finds out which transfers are complete, tells who waits for them and restarts the
    engine.  [xdma_xfer_submit] moves a scatter-gather list: it splits it into
    transfers, queues each one and waits.

    A transfer is found by its address: the list of the engine, the thread that waits
    and the callback have the same object.  Registers are written to a trace, with
    the descriptors as they are at that time, since the device reads them; what is
    read from a register is an argument, and dummy reads are left out.  The performance
    test is not running ([xdma_perf] is NULL) and no transfer is cyclic but where the
    code asks.  Waiting is what the device makes the interrupt handler do, a list of
    events; after it the transfer is complete, failed, or has timed out.

    The theorems: on any device, [xdma_xfer_submit] returns, unmaps the list exactly
    once, and leaves no pointer to its transfer, which is freed, on the engine; on a
    device that does what it is told, the engine has done the moves of the whole request,
    in order.  The examples at the end show what the code gets wrong. *)

From stdpp Require Import gmap.
From S2P Require Import Prelude Device XdmaDesc.

Open Scope Z_scope.

(** ** Constants of libxdma.h *)
Definition XDMA_CTRL_RUN_STOP : Z := Z.shiftl 1 0.
Definition XDMA_CTRL_IE_DESC_STOPPED : Z := Z.shiftl 1 1.
Definition XDMA_CTRL_IE_DESC_COMPLETED : Z := Z.shiftl 1 2.
Definition XDMA_CTRL_IE_DESC_ALIGN_MISMATCH : Z := Z.shiftl 1 3.
Definition XDMA_CTRL_IE_MAGIC_STOPPED : Z := Z.shiftl 1 4.
Definition XDMA_CTRL_IE_READ_ERROR : Z := Z.shiftl 0x1F 9.
Definition XDMA_CTRL_IE_DESC_ERROR : Z := Z.shiftl 0x1F 19.
Definition XDMA_CTRL_NON_INCR_ADDR : Z := Z.shiftl 1 25.
Definition XDMA_CTRL_POLL_MODE_WB : Z := Z.shiftl 1 26.
Definition XDMA_STAT_BUSY : Z := Z.shiftl 1 0.
Definition XDMA_STAT_ALIGN_MISMATCH : Z := Z.shiftl 1 3.
Definition XDMA_STAT_MAGIC_STOPPED : Z := Z.shiftl 1 4.
Definition XDMA_STAT_INVALID_LEN : Z := Z.shiftl 1 5.
Definition XDMA_STAT_COMMON_ERR_MASK : Z :=
  Z.lor (Z.lor XDMA_STAT_ALIGN_MISMATCH XDMA_STAT_MAGIC_STOPPED) XDMA_STAT_INVALID_LEN.
Definition XDMA_STAT_DESC_ERR_MASK : Z := Z.shiftl 0x1F 19.
Definition XDMA_STAT_H2C_R_ERR_MASK : Z := Z.shiftl 0x1F 9.
Definition XDMA_STAT_H2C_W_ERR_MASK : Z := Z.shiftl 3 14.
Definition XDMA_STAT_C2H_R_ERR_MASK : Z := Z.shiftl 3 9.
Definition XDMA_STAT_H2C_ERR_MASK : Z :=
  Z.lor (Z.lor (Z.lor XDMA_STAT_COMMON_ERR_MASK XDMA_STAT_DESC_ERR_MASK) XDMA_STAT_H2C_R_ERR_MASK) XDMA_STAT_H2C_W_ERR_MASK.
Definition XDMA_STAT_C2H_ERR_MASK : Z :=
  Z.lor (Z.lor XDMA_STAT_COMMON_ERR_MASK XDMA_STAT_DESC_ERR_MASK) XDMA_STAT_C2H_R_ERR_MASK.
Definition WB_COUNT_MASK : Z := 0x00ffffff.
Definition WB_ERR_MASK : Z := Z.shiftl 1 31.
Definition RX_STATUS_EOP : Z := 1.
Definition XFER_FLAG_NEED_UNMAP : Z := 0x1.
Definition XFER_FLAG_ST_C2H_EOP_RCVED : Z := 0x2.
Definition ENGINE_SHUTDOWN_NONE : Z := 0.
Definition ENGINE_SHUTDOWN_REQUEST : Z := 1.
Definition ENGINE_SHUTDOWN_IDLE : Z := 2.
Definition EBUSY : Z := 16.
Definition EIO : Z := 5.
Definition ERESTARTSYS : Z := 512.

(** The registers that are written. *)
Inductive engine_reg :=
  | R_control | R_first_desc_lo | R_first_desc_hi | R_first_desc_adjacent | R_credits | R_interrupt_enable_mask_w1s.
#[export] Instance engine_reg_eq_dec : EqDecision engine_reg.
Proof. solve_decision. Defined.

(** The engine, the transfers by their addresses, the trace, the callbacks that were called,
    whether the device is offline, the entries of the list that are mapped, and the calls
    of [dma_unmap_sg]. *)
Record xdma := mkXdma {
  x_engine : xdma_engine; x_xfers : gmap Z xdma_transfer; x_writes : list (engine_reg * Z * list xdma_desc);
  x_done : list Z; x_offline : bool; x_sgt_nents : Z; x_unmaps : list Z }.

Definition set_engine v s := mkXdma v (x_xfers s) (x_writes s) (x_done s) (x_offline s) (x_sgt_nents s) (x_unmaps s).
Definition set_xfers v s := mkXdma (x_engine s) v (x_writes s) (x_done s) (x_offline s) (x_sgt_nents s) (x_unmaps s).
Definition set_writes v s := mkXdma (x_engine s) (x_xfers s) v (x_done s) (x_offline s) (x_sgt_nents s) (x_unmaps s).
Definition set_done v s := mkXdma (x_engine s) (x_xfers s) (x_writes s) v (x_offline s) (x_sgt_nents s) (x_unmaps s).
Definition set_mapping nents unmaps s :=
  mkXdma (x_engine s) (x_xfers s) (x_writes s) (x_done s) (x_offline s) nents unmaps.

Definition on_engine (f : xdma_engine -> xdma_engine) : cmd xdma unit := modify (fun s => set_engine (f (x_engine s)) s).

Definition set_running v e := mkEngine (e_config e) (e_desc e) (e_cyclic_result e) (e_desc_idx e) (e_desc_used e)
  (e_desc_dequeued e) v (e_shutdown e) (e_status e) (e_transfer_list e).
Definition set_shutdown v e := mkEngine (e_config e) (e_desc e) (e_cyclic_result e) (e_desc_idx e) (e_desc_used e)
  (e_desc_dequeued e) (e_running e) v (e_status e) (e_transfer_list e).
Definition set_e_status v e := mkEngine (e_config e) (e_desc e) (e_cyclic_result e) (e_desc_idx e) (e_desc_used e)
  (e_desc_dequeued e) (e_running e) (e_shutdown e) v (e_transfer_list e).
Definition set_transfer_list v e := mkEngine (e_config e) (e_desc e) (e_cyclic_result e) (e_desc_idx e) (e_desc_used e)
  (e_desc_dequeued e) (e_running e) (e_shutdown e) (e_status e) v.
Definition set_dequeued v e := mkEngine (e_config e) (e_desc e) (e_cyclic_result e) (e_desc_idx e) (e_desc_used e)
  v (e_running e) (e_shutdown e) (e_status e) (e_transfer_list e).

Definition write_register (r : engine_reg) (v : Z) : cmd xdma unit :=
  modify (fun s => set_writes (x_writes s ++ [(r, v, e_desc (x_engine s))]) s).

Definition deref (t : Z) : cmd xdma xdma_transfer :=
  s ← get; match x_xfers s !! t with Some x => mret x | None => fail UseAfterFree end.
Definition update (t : Z) (f : xdma_transfer -> xdma_transfer) : cmd xdma unit :=
  x ← deref t; modify (fun s => set_xfers (<[t := f x]> (x_xfers s)) s).

Definition set_t_state v x := mkXfer (t_desc_virt x) (t_res_virt x) (t_res_bus x) (t_desc_bus x) (t_desc_adjacent x)
  (t_desc_num x) (t_desc_index x) (t_desc_cmpl x) (t_desc_cmpl_th x) (t_dir x) v (t_flags x) (t_cyclic x)
  (t_last_in_request x) (t_len x) (t_cb x).
Definition set_t_flags v x := mkXfer (t_desc_virt x) (t_res_virt x) (t_res_bus x) (t_desc_bus x) (t_desc_adjacent x)
  (t_desc_num x) (t_desc_index x) (t_desc_cmpl x) (t_desc_cmpl_th x) (t_dir x) (t_state x) v (t_cyclic x)
  (t_last_in_request x) (t_len x) (t_cb x).
Definition set_t_desc_cmpl v x := mkXfer (t_desc_virt x) (t_res_virt x) (t_res_bus x) (t_desc_bus x) (t_desc_adjacent x)
  (t_desc_num x) (t_desc_index x) v (t_desc_cmpl_th x) (t_dir x) (t_state x) (t_flags x) (t_cyclic x)
  (t_last_in_request x) (t_len x) (t_cb x).
Definition set_t_last v x := mkXfer (t_desc_virt x) (t_res_virt x) (t_res_bus x) (t_desc_bus x) (t_desc_adjacent x)
  (t_desc_num x) (t_desc_index x) (t_desc_cmpl x) (t_desc_cmpl_th x) (t_dir x) (t_state x) (t_flags x) (t_cyclic x)
  v (t_len x) (t_cb x).

Section driver.
(** Module parameters. *)
Context (poll_mode enable_st_c2h_credit : bool).

(** ** Starting and stopping *)
Definition completion_bits : Z :=
  if poll_mode then XDMA_CTRL_POLL_MODE_WB else Z.lor XDMA_CTRL_IE_DESC_STOPPED XDMA_CTRL_IE_DESC_COMPLETED.
Definition error_bits : Z :=
  Z.lor (Z.lor (Z.lor XDMA_CTRL_IE_DESC_ALIGN_MISMATCH XDMA_CTRL_IE_MAGIC_STOPPED) XDMA_CTRL_IE_READ_ERROR) XDMA_CTRL_IE_DESC_ERROR.

Definition xdma_engine_stop : cmd xdma unit :=
  e ← gets x_engine;
  _ ← when (enable_st_c2h_credit && st_c2h (e_config e)) (write_register R_credits 0);
  _ ← write_register R_control (Z.lor error_bits completion_bits);
  on_engine (set_running false).

Definition engine_start_mode_config : cmd xdma unit :=
  e ← gets x_engine;
  write_register R_control
    (Z.lor (Z.lor (Z.lor XDMA_CTRL_RUN_STOP error_bits) completion_bits)
       (if e_non_incr_addr e then XDMA_CTRL_NON_INCR_ADDR else 0)).

(** The transfer that was started. *)
Definition engine_start : cmd xdma (option Z) :=
  e ← gets x_engine;
  if e_running e then mret None else
  match e_transfer_list e with
  | [] => mret None
  | t :: _ =>
      x ← deref t;
      _ ← on_engine (set_shutdown ENGINE_SHUTDOWN_NONE);
      _ ← when (enable_st_c2h_credit && st_c2h (e_config e)) (write_register R_credits (u32 (e_desc_used e)));
      _ ← on_engine (set_dequeued 0);
      _ ← write_register R_first_desc_lo (PCI_DMA_L (t_desc_bus x));
      _ ← write_register R_first_desc_hi (PCI_DMA_H (t_desc_bus x));
      _ ← write_register R_first_desc_adjacent (xdma_get_next_adj (t_desc_adjacent x) (PCI_DMA_L (t_desc_bus x)));
      _ ← engine_start_mode_config;
      _ ← on_engine (set_running true);
      mret (Some t)
  end.

(** ** Service *)
Definition engine_service_shutdown : cmd xdma unit := xdma_engine_stop.

(** The task that waits for the transfer looks at its state; a callback is told. *)
Definition engine_transfer_completion (t : Z) : cmd xdma unit :=
  x ← deref t;
  when (t_cb x && t_last_in_request x) (modify (fun s => set_done (x_done s ++ [t]) s)).

Definition head_transfer : cmd xdma (option Z) :=
  e ← gets x_engine; mret (head (e_transfer_list e)).
Definition list_del_head : cmd xdma unit := on_engine (fun e => set_transfer_list (tail (e_transfer_list e)) e).
Definition add_dequeued (n : Z) : cmd xdma unit :=
  e ← gets x_engine; v ← lift (sint (e_desc_dequeued e + n)); on_engine (set_dequeued v).

(** All but the last transfer that is complete; the first that is not, and what is left of
    the count.  The fuel is the length of the list, and one. *)
Fixpoint service_transfers (fuel : nat) (transfer : option Z) (desc_completed : Z) : cmd xdma (option Z * Z) :=
  match fuel with
  | O => fail OutOfFuel
  | S fuel =>
      match transfer with
      | None => mret (None, desc_completed)
      | Some t =>
          x ← deref t;
          if decide (t_cyclic x = false /\ desc_completed > u32 (t_desc_num x)) then
            _ ← list_del_head;
            _ ← add_dequeued (t_desc_num x);
            _ ← update t (set_t_state TRANSFER_STATE_COMPLETED);
            _ ← engine_transfer_completion t;
            next ← head_transfer;
            service_transfers fuel next (u32 (desc_completed - t_desc_num x))
          else mret (Some t, desc_completed)
      end
  end.

Definition engine_service_transfer_list (transfer : option Z) (desc_completed : Z) : cmd xdma (option Z * Z) :=
  e ← gets x_engine; service_transfers (S (length (e_transfer_list e))) transfer desc_completed.

Definition engine_err_handle (t : Z) : cmd xdma unit :=
  _ ← update t (set_t_state TRANSFER_STATE_FAILED); xdma_engine_stop.

(** Whether one of the first [n] results from [i] on has the end-of-packet bit. *)
Fixpoint eop_received (results : list xdma_result) (i : Z) (n : nat) : outcome bool :=
  match n with
  | O => Ok false
  | S n => r ← aget results i;
           if decide (Z.land (result_status r) RX_STATUS_EOP <> 0) then Ok true else eop_received results (i + 1) n
  end.

Definition status_error (e : xdma_engine) : bool :=
  bool_decide (e_dir e = DMA_FROM_DEVICE /\ Z.land (e_status e) XDMA_STAT_C2H_ERR_MASK <> 0 \/
               e_dir e = DMA_TO_DEVICE /\ Z.land (e_status e) XDMA_STAT_H2C_ERR_MASK <> 0).

Definition transfer_del (t : Z) : cmd xdma unit := _ ← list_del_head; engine_transfer_completion t.

(** The engine stopped on this transfer, and not all of its descriptors are done. *)
Definition stopped_half_way (t : Z) (x : xdma_transfer) (desc_completed : Z) : cmd xdma unit :=
  e ← gets x_engine;
  if e_eop_flush e then
    eop ← lift (eop_received (e_cyclic_result e) (t_res_virt x) (Z.to_nat (s32 desc_completed)));
    _ ← when eop (update t (fun x => set_t_flags (Z.lor (t_flags x) XFER_FLAG_ST_C2H_EOP_RCVED) x));
    _ ← update t (fun x => set_t_desc_cmpl (s32 (t_desc_cmpl x + desc_completed)) x);
    x ← deref t;
    if decide (Z.land (t_flags x) XFER_FLAG_ST_C2H_EOP_RCVED = 0) then mret tt else
    _ ← engine_service_shutdown;
    _ ← update t (set_t_state TRANSFER_STATE_COMPLETED);
    _ ← add_dequeued (t_desc_cmpl x);
    transfer_del t
  else
    _ ← update t (set_t_state TRANSFER_STATE_FAILED);
    _ ← add_dequeued (t_desc_num x);
    _ ← update t (set_t_desc_cmpl (s32 desc_completed));
    transfer_del t.

Definition engine_service_final_transfer (transfer : option Z) (desc_completed : Z) : cmd xdma unit :=
  match transfer with
  | None => mret tt
  | Some t =>
      x ← deref t;
      e ← gets x_engine;
      if status_error e then _ ← engine_err_handle t; transfer_del t
      else if decide (desc_completed < u32 (t_desc_num x)) then stopped_half_way t x desc_completed
      else
        _ ← update t (fun x => set_t_desc_cmpl (t_desc_num x) (set_t_state TRANSFER_STATE_COMPLETED x));
        _ ← add_dequeued (t_desc_num x);
        transfer_del t
  end.

Definition engine_service_resume : cmd xdma unit :=
  e ← gets x_engine;
  if negb (e_running e) then
    match e_transfer_list e with
    | _ :: _ => _ ← engine_start; mret tt
    | [] => if decide (Z.land (e_shutdown e) ENGINE_SHUTDOWN_REQUEST <> 0)
            then on_engine (fun e => set_shutdown (Z.lor (e_shutdown e) ENGINE_SHUTDOWN_IDLE) e) else mret tt
    end
  else match e_transfer_list e with [] => engine_service_shutdown | _ :: _ => mret tt end.

(** [status] and [completed] are what the registers [status_rc] and [completed_desc_count]
    hold. *)
Definition engine_service (desc_writeback status completed : Z) : cmd xdma Z :=
  let desc_count := Z.land (u32 desc_writeback) WB_COUNT_MASK in
  let err_flag := Z.land (u32 desc_writeback) WB_ERR_MASK in
  let rv := if decide (err_flag <> 0) then -1 else 0 in
  e ← gets x_engine;
  if negb (e_running e) then _ ← on_engine (set_e_status status); mret 0 else
  _ ← when (bool_decide (desc_count = 0 \/ err_flag <> 0)) (on_engine (set_e_status status));
  e ← gets x_engine;
  _ ← when (bool_decide (Z.land (e_status e) XDMA_STAT_BUSY = 0) || negb (e_eop_flush e) && bool_decide (desc_count <> 0))
        engine_service_shutdown;
  let desc_count := if decide (desc_count = 0) then completed else desc_count in
  if decide (desc_count = 0) then mret rv else
  transfer ← head_transfer;
  e ← gets x_engine;
  '(transfer, desc_count) ← engine_service_transfer_list transfer (u32 (desc_count - e_desc_dequeued e));
  _ ← engine_service_final_transfer transfer desc_count;
  _ ← engine_service_resume;
  mret rv.

(** ** Queueing and waiting *)
Definition transfer_queue (t : Z) : cmd xdma Z :=
  s ← get;
  if x_offline s then mret (- EBUSY) else
  if decide (Z.land (e_shutdown (x_engine s)) ENGINE_SHUTDOWN_REQUEST <> 0) then mret (- EBUSY) else
  _ ← update t (set_t_state TRANSFER_STATE_SUBMITTED);
  _ ← on_engine (fun e => set_transfer_list (e_transfer_list e ++ [t]) e);
  if e_running (x_engine s) then mret 0 else _ ← engine_start; mret 0.

Definition transfer_abort (t : Z) : cmd xdma Z :=
  x ← deref t;
  if decide (t_desc_num x = 0) then mret (-22) else
  h ← head_transfer;
  _ ← when (bool_decide (h = Some t)) list_del_head;
  _ ← when (bool_decide (t_state x = TRANSFER_STATE_SUBMITTED)) (update t (set_t_state TRANSFER_STATE_ABORTED));
  mret 0.

Definition dma_unmap_sg (nents : Z) : cmd xdma unit := modify (fun s => set_mapping 0 (x_unmaps s ++ [nents]) s).

Definition transfer_destroy (t : Z) : cmd xdma unit :=
  x ← deref t;
  e ← gets x_engine;
  descs ← lift (xdma_desc_done (e_desc e) (t_desc_virt x) (t_desc_num x));
  _ ← on_engine (fun e => set_arrays descs (e_cyclic_result e) e);
  s ← get;
  when (t_last_in_request x && bool_decide (Z.land (t_flags x) XFER_FLAG_NEED_UNMAP <> 0 /\ x_sgt_nents s <> 0))
    (dma_unmap_sg (x_sgt_nents s)).

(** The values that [engine_service_wb_monitor] reads from the writeback location, the last
    one when the time is over. *)
Fixpoint engine_service_wb_monitor (expected_wb : Z) (polls : list Z) : Z :=
  match polls with
  | [] => 0
  | desc_wb :: polls =>
      if decide (expected_wb = 0) then 0 else
      if decide (Z.land desc_wb WB_ERR_MASK <> 0 \/ desc_wb >= expected_wb) then desc_wb else
      match polls with
      | [] => if decide (Z.land desc_wb WB_COUNT_MASK > expected_wb) then Z.lor expected_wb WB_ERR_MASK else desc_wb
      | _ :: _ => engine_service_wb_monitor expected_wb polls
      end
  end.

(** What happens while a thread waits: the device writes results, and raises an interrupt,
    for which [engine_service_work] runs, or, in poll mode, writes back its count, which
    [engine_service_poll] looks at. *)
Record event := mkEvent {
  ev_results : list (nat * xdma_result); ev_expected : Z; ev_polls : list Z; ev_status : Z; ev_completed : Z }.

Definition dma_write (rs : list (nat * xdma_result)) (e : xdma_engine) : xdma_engine :=
  set_arrays (e_desc e) (foldl (fun l '(i, r) => <[i := r]> l) (e_cyclic_result e) rs) e.

Context (interrupt_enable_mask_value : Z).
Definition engine_service_work (status completed : Z) : cmd xdma unit :=
  rv ← engine_service 0 status completed;
  if decide (rv < 0) then mret tt else write_register R_interrupt_enable_mask_w1s interrupt_enable_mask_value.

Definition engine_service_poll (expected : Z) (polls : list Z) (status completed : Z) : cmd xdma Z :=
  let desc_wb := engine_service_wb_monitor expected polls in
  if decide (desc_wb = 0) then mret 0 else engine_service desc_wb status completed.

Definition service_event (ev : event) : cmd xdma unit :=
  if poll_mode then _ ← engine_service_poll (ev_expected ev) (ev_polls ev) (ev_status ev) (ev_completed ev); mret tt
  else engine_service_work (ev_status ev) (ev_completed ev).

Fixpoint wait (evs : list event) : cmd xdma unit :=
  match evs with
  | [] => mret tt
  | ev :: evs => _ ← on_engine (dma_write (ev_results ev)); _ ← service_event ev; wait evs
  end.

(** The device while a transfer is waited for: what happens, and its status afterwards. *)
Record reaction := mkReaction { re_events : list event; re_status : Z }.

(** ** Transferring a list *)
Definition sum_results (results : list xdma_result) (i n : Z) (done : Z) : outcome Z :=
  for_loop (Z.to_nat n) (fun k d => r ← aget results (i + Z.of_nat k); Ok (d + result_length r)) done.

(** After waiting: the value returned, the bytes done and what is left to do. *)
Definition wait_result (t status nents done : Z) : cmd xdma (Z * Z * Z) :=
  x ← deref t;
  e ← gets x_engine;
  match t_state x with
  | TRANSFER_STATE_COMPLETED =>
      if st_c2h (e_config e) then
        done ← lift (sum_results (e_cyclic_result e) (t_res_virt x) (t_desc_cmpl x) done);
        mret (0, done, if e_eop_flush e then 0 else nents)
      else mret (0, done + t_len x, nents)
  | TRANSFER_STATE_FAILED => mret (- EIO, done, nents)
  | _ =>
      _ ← on_engine (set_e_status status);
      rv ← transfer_abort t;
      _ ← when (bool_decide (rv = 0)) xdma_engine_stop;
      mret (- ERESTARTSYS, done, nents)
  end.

(** One transfer: built at the address [t], queued and waited for.  [None]: it could not
    be queued. *)
Definition submit_one (t : Z) (dma_mapped : bool) (dev : xdma -> reaction) (req : xdma_request_cb) (nents done : Z) :
    cmd xdma (Z * option (Z * Z * xdma_request_cb)) :=
  s ← get;
  '(xfer, e, req) ← lift (transfer_init (x_engine s) req);
  nents ← lift (sint (nents - t_desc_num xfer));
  let xfer := set_t_flags (if dma_mapped then t_flags xfer else XFER_FLAG_NEED_UNMAP) xfer in
  _ ← modify (fun s => set_xfers (<[t := set_t_last (bool_decide (nents = 0)) xfer]> (x_xfers s)) (set_engine e s));
  rv ← transfer_queue t;
  if decide (rv < 0) then mret (rv, None) else
  s ← get;
  _ ← wait (re_events (dev s));
  '(rv, done, nents) ← wait_result t (re_status (dev s)) nents done;
  used ← (e ← gets x_engine; x ← deref t; lift (sint (e_desc_used e - t_desc_num x)));
  _ ← on_engine (fun e => set_indices (e_desc_idx e) used e);
  _ ← transfer_destroy t;
  mret (rv, Some (nents, done, req)).

(** The loop, with fuel; the value returned and the bytes done. *)
Fixpoint submit_loop (fuel : nat) (t : Z) (dma_mapped : bool) (dev : nat -> xdma -> reaction) (tfer_idx : nat)
    (req : xdma_request_cb) (nents done rv : Z) : cmd xdma (Z * Z) :=
  match fuel with
  | O => fail OutOfFuel
  | S fuel =>
      if decide (nents = 0) then mret (rv, done) else
      r ← submit_one t dma_mapped (dev tfer_idx) req nents done;
      match r with
      | (rv, None) => mret (rv, done)
      | (rv, Some (nents, done, req)) =>
          if decide (rv < 0) then mret (rv, done) else submit_loop fuel t dma_mapped dev (S tfer_idx) req nents done rv
      end
  end.

(** The request and the transfer in it are freed. *)
Definition xdma_request_free (t : Z) : cmd xdma unit := modify (fun s => set_xfers (delete t (x_xfers s)) s).

(** What [xdma_xfer_submit] does with the engine it has found: [orig_nents] is
    the length of the list, [sgl] the entries that are mapped and [nents] their number, which
    [dma_map_sg] returns; [t] is the address of the transfer in the request. *)
Definition xdma_xfer_submit (desc_blen_max sizeof_req : Z) (dev : nat -> xdma -> reaction) (t : Z)
    (write dma_mapped mem : bool) (ep_addr orig_nents nents : Z) (sgl : list scatterlist) : cmd xdma Z :=
  s ← get;
  if x_offline s then mret (- EBUSY) else
  if decide (e_dir (x_engine s) <> if write then DMA_TO_DEVICE else DMA_FROM_DEVICE) then mret (-22) else
  if decide (nents = 0) then mret (- EIO) else
  _ ← modify (fun s => set_mapping nents (x_unmaps s) s);
  req ← lift (xdma_init_request desc_blen_max sizeof_req sgl ep_addr mem);
  '(rv, done) ← match req with
                | None => mret (-12, 0)
                | Some req => submit_loop (S (Z.to_nat (sw_desc_cnt req))) t dma_mapped dev 0 req (sw_desc_cnt req) 0 0
                end;
  s ← get;
  _ ← when (negb dma_mapped && bool_decide (x_sgt_nents s <> 0)) (dma_unmap_sg orig_nents);
  _ ← xdma_request_free t;
  mret (if decide (done = 0) then rv else done).

(** ** What a service keeps *)

(** What only the thread that submits changes. *)
Definition core (s : xdma) :=
  let e := x_engine s in
  (e_config e, e_desc e, e_desc_idx e, e_desc_used e, length (e_cyclic_result e), x_offline s, x_sgt_nents s, x_unmaps s).
Definition keeps (t : Z) (s s' : xdma) : Prop := core s' = core s /\ delete t (x_xfers s') = delete t (x_xfers s).

Lemma keeps_refl t s : keeps t s s.
Proof. done. Qed.
Lemma keeps_trans t s1 s2 s3 : keeps t s1 s2 -> keeps t s2 s3 -> keeps t s1 s3.
Proof. intros [H1 H2] [H3 H4]. split; congruence. Qed.

(** The members of a transfer that do not change while it is waited for. *)
Definition shape (x : xdma_transfer) :=
  (t_desc_virt x, t_res_virt x, t_desc_bus x, t_desc_adjacent x, t_desc_num x, t_cyclic x, t_last_in_request x, t_len x,
   t_cb x, t_flags x).

Lemma xfer_deref_run t s x : x_xfers s !! t = Some x -> deref t s = Ok (x, s).
Proof. intros H. unfold deref. cstep. by rewrite H. Qed.
Lemma xfer_update_run t f s x : x_xfers s !! t = Some x -> update t f s = Ok (tt, set_xfers (<[t := f x]> (x_xfers s)) s).
Proof. intros H. unfold update. by rewrite (cmd_bind_run _ _ _ _ _ (xfer_deref_run _ _ _ H)). Qed.

Definition notified (t : Z) (x : xdma_transfer) (s : xdma) : xdma :=
  set_done (if t_cb x && t_last_in_request x then x_done s ++ [t] else x_done s) s.
Lemma completion_run t s x : x_xfers s !! t = Some x -> engine_transfer_completion t s = Ok (tt, notified t x s).
Proof.
  intros H. unfold engine_transfer_completion, notified. rewrite (cmd_bind_run _ _ _ _ _ (xfer_deref_run _ _ _ H)).
  destruct (t_cb x && t_last_in_request x); [done|]. by destruct s.
Qed.

Definition stop_writes (e : xdma_engine) : list (engine_reg * Z * list xdma_desc) :=
  (if enable_st_c2h_credit && st_c2h (e_config e) then [(R_credits, 0, e_desc e)] else []) ++
  [(R_control, Z.lor error_bits completion_bits, e_desc e)].

Lemma stop_run s : xdma_engine_stop s =
  Ok (tt, set_engine (set_running false (x_engine s)) (set_writes (x_writes s ++ stop_writes (x_engine s)) s)).
Proof.
  unfold xdma_engine_stop, stop_writes. cstep. destruct (enable_st_c2h_credit && st_c2h (e_config (x_engine s))).
  - unfold when. cstep. cstep. unfold on_engine, modify. cbn. by rewrite <- app_assoc.
  - unfold when. cstep. cstep. done.
Qed.

Definition start_writes (e : xdma_engine) (x : xdma_transfer) : list (engine_reg * Z * list xdma_desc) :=
  (if enable_st_c2h_credit && st_c2h (e_config e) then [(R_credits, u32 (e_desc_used e), e_desc e)] else []) ++
  [(R_first_desc_lo, PCI_DMA_L (t_desc_bus x), e_desc e); (R_first_desc_hi, PCI_DMA_H (t_desc_bus x), e_desc e);
   (R_first_desc_adjacent, xdma_get_next_adj (t_desc_adjacent x) (PCI_DMA_L (t_desc_bus x)), e_desc e);
   (R_control, Z.lor (Z.lor (Z.lor XDMA_CTRL_RUN_STOP error_bits) completion_bits)
       (if e_non_incr_addr e then XDMA_CTRL_NON_INCR_ADDR else 0), e_desc e)].

Definition started (e : xdma_engine) : xdma_engine := set_running true (set_dequeued 0 (set_shutdown ENGINE_SHUTDOWN_NONE e)).

Lemma start_run s t l x : e_running (x_engine s) = false -> e_transfer_list (x_engine s) = t :: l -> x_xfers s !! t = Some x ->
  engine_start s = Ok (Some t, set_engine (started (x_engine s)) (set_writes (x_writes s ++ start_writes (x_engine s) x) s)).
Proof.
  intros Hr Hl Hx. unfold engine_start, start_writes, engine_start_mode_config. cstep. rewrite Hr, Hl.
  rewrite (cmd_bind_run _ _ _ _ _ (xfer_deref_run _ _ _ Hx)). cstep.
  destruct (enable_st_c2h_credit && st_c2h (e_config (x_engine s))); unfold when; repeat cstep;
    cbn; unfold mret, cmd_ret; rewrite <- ?app_assoc; reflexivity.
Qed.

(** After the last transfer the engine is stopped. *)
Lemma resume_empty t s : e_transfer_list (x_engine s) = [] -> exists s',
  engine_service_resume s = Ok (tt, s') /\ keeps t s s' /\ x_xfers s' = x_xfers s /\
  e_transfer_list (x_engine s') = [] /\ e_running (x_engine s') = false.
Proof.
  intros Hl. unfold engine_service_resume. cstep. rewrite Hl. destruct (e_running (x_engine s)) eqn:Hr; cbn [negb].
  - unfold engine_service_shutdown. rewrite stop_run. eexists. by repeat split.
  - case_decide; eexists; by repeat split.
Qed.

Lemma resume_head t s x : e_transfer_list (x_engine s) = [t] -> x_xfers s !! t = Some x -> exists s',
  engine_service_resume s = Ok (tt, s') /\ keeps t s s' /\ x_xfers s' = x_xfers s /\
  e_transfer_list (x_engine s') = [t] /\ (e_desc_dequeued (x_engine s) = 0 -> e_desc_dequeued (x_engine s') = 0).
Proof.
  intros Hl Hx. unfold engine_service_resume. cstep. rewrite Hl. destruct (e_running (x_engine s)) eqn:Hr; cbn [negb].
  - eexists. by repeat split.
  - rewrite (cmd_bind_run _ _ _ _ _ (start_run _ _ _ _ Hr Hl Hx)). eexists. by repeat split.
Qed.

(** A transfer [t] that is waited for: on the engine, or done and off it. *)
Definition waiting (t : Z) (x0 : xdma_transfer) (s : xdma) : Prop := exists x, x_xfers s !! t = Some x /\ shape x = shape x0 /\
  0 <= t_desc_cmpl x <= t_desc_num x /\ 0 <= t_desc_num x <= XDMA_ENGINE_XFER_MAX_DESC /\ t_cyclic x = false /\
  (t_state x = TRANSFER_STATE_SUBMITTED /\ e_transfer_list (x_engine s) = [t] /\ e_desc_dequeued (x_engine s) = 0 \/
   (t_state x = TRANSFER_STATE_COMPLETED \/ t_state x = TRANSFER_STATE_FAILED) /\ e_transfer_list (x_engine s) = [] /\
     e_running (x_engine s) = false).

(** [serves c]: from a state in which [t] is alone on the engine, [c] takes it off it or leaves it. *)
Definition gone (t : Z) (x0 : xdma_transfer) (s s' : xdma) : Prop := keeps t s s' /\ exists x, x_xfers s' !! t = Some x /\
  shape x = shape x0 /\ 0 <= t_desc_cmpl x <= t_desc_num x /\
  (t_state x = TRANSFER_STATE_COMPLETED \/ t_state x = TRANSFER_STATE_FAILED) /\ e_transfer_list (x_engine s') = [].

Lemma transfer_del_run t s x : x_xfers s !! t = Some x ->
  transfer_del t s = Ok (tt, notified t x (set_engine (set_transfer_list (tail (e_transfer_list (x_engine s))) (x_engine s)) s)).
Proof. intros Hx. unfold transfer_del, list_del_head, on_engine. cstep. by apply completion_run. Qed.

Lemma add_dequeued_run n s : e_desc_dequeued (x_engine s) = 0 -> 0 <= n <= XDMA_ENGINE_XFER_MAX_DESC ->
  add_dequeued n s = Ok (tt, set_engine (set_dequeued n (x_engine s)) s).
Proof.
  intros H Hn. unfold XDMA_ENGINE_XFER_MAX_DESC in Hn. unfold add_dequeued. cstep. rewrite H. unfold sint. rewrite decide_True by lia.
  cstep. by rewrite Z.add_0_l.
Qed.


Section alone.
(** A state in which [t] is alone on the engine. *)
Context (t : Z) (s : xdma) (x : xdma_transfer).
Context (Hl : e_transfer_list (x_engine s) = [t]) (Hx : x_xfers s !! t = Some x) (Hd : e_desc_dequeued (x_engine s) = 0).
Context (Hn : 0 <= t_desc_num x <= XDMA_ENGINE_XFER_MAX_DESC) (Hc : 0 <= t_desc_cmpl x <= t_desc_num x) (Hcyc : t_cyclic x = false).

Lemma num_u32 : u32 (t_desc_num x) = t_desc_num x.
Proof. unfold XDMA_ENGINE_XFER_MAX_DESC in Hn. apply u32_small. unfold fits_u32. lia. Qed.

Lemma transfers_alone c :
  (exists s' c', engine_service_transfer_list (Some t) c s = Ok ((None, c'), s') /\ gone t x s s') \/
  (engine_service_transfer_list (Some t) c s = Ok ((Some t, c), s) /\ c <= t_desc_num x).
Proof.
  unfold engine_service_transfer_list. erewrite cmd_bind_run by reflexivity. rewrite Hl. cbn [length service_transfers].
  rewrite (cmd_bind_run _ _ _ _ _ (xfer_deref_run _ _ _ Hx)). rewrite num_u32. case_decide as E; [left|right; split; [done|]].
  2: { rewrite Hcyc in E. destruct (decide (c <= t_desc_num x)); [done|]. contradict E. split; [done|lia]. }
  unfold list_del_head, on_engine. cstep. rewrite Hl. cbn [tail].
  erewrite cmd_bind_run by (apply add_dequeued_run; [exact Hd|exact Hn]).
  erewrite cmd_bind_run by (apply xfer_update_run; exact Hx).
  erewrite cmd_bind_run by (apply completion_run; apply lookup_insert_eq).
  erewrite cmd_bind_run by reflexivity. cbn. eexists _, _. split; [reflexivity|]. split; [split; [done|]; cbn; by rewrite delete_insert_eq|].
  eexists. split; [apply lookup_insert_eq|]. split; [done|]. cbn. auto.
Qed.

Lemma final_alone c : e_eop_flush (x_engine s) = false -> 0 <= c <= t_desc_num x ->
  exists s', engine_service_final_transfer (Some t) c s = Ok (tt, s') /\ gone t x s s'.
Proof.
  intros He Hcn. unfold engine_service_final_transfer. rewrite (cmd_bind_run _ _ _ _ _ (xfer_deref_run _ _ _ Hx)). cstep. rewrite num_u32.
  assert (s32 c = c) as Hs32 by (apply s32_small; unfold fits_s32; unfold XDMA_ENGINE_XFER_MAX_DESC in Hn; lia).
  destruct (status_error (x_engine s)) eqn:Est; [|case_decide as Elt].
  - unfold engine_err_handle. erewrite cmd_bind_run.
    2: { erewrite cmd_bind_run by (apply xfer_update_run; exact Hx). apply stop_run. }
    erewrite transfer_del_run by apply lookup_insert_eq. eexists. split; [reflexivity|].
    split; [split; [done|]; cbn; by rewrite delete_insert_eq|]. eexists. split; [apply lookup_insert_eq|]. cbn. rewrite Hl. by auto.
  - unfold stopped_half_way. cstep. rewrite He. erewrite cmd_bind_run by (apply xfer_update_run; exact Hx).
    erewrite cmd_bind_run by (apply add_dequeued_run; [exact Hd|exact Hn]).
    erewrite cmd_bind_run by (apply xfer_update_run; apply lookup_insert_eq). rewrite Hs32.
    erewrite transfer_del_run by apply lookup_insert_eq. eexists. split; [reflexivity|].
    split; [split; [done|]; cbn; by rewrite !delete_insert_eq|]. eexists. split; [apply lookup_insert_eq|]. cbn. rewrite Hl.
    split; [done|]. split; [lia|]. by auto.
  - erewrite cmd_bind_run by (apply xfer_update_run; exact Hx).
    erewrite cmd_bind_run by (apply add_dequeued_run; [exact Hd|exact Hn]).
    erewrite transfer_del_run by apply lookup_insert_eq. eexists. split; [reflexivity|].
    split; [split; [done|]; cbn; by rewrite delete_insert_eq|]. eexists. split; [apply lookup_insert_eq|]. cbn. rewrite Hl.
    split; [done|]. split; [lia|]. by auto.
Qed.
End alone.

Lemma gone_waiting t x0 x s s' : gone t x s s' -> shape x = shape x0 -> 0 <= t_desc_num x <= XDMA_ENGINE_XFER_MAX_DESC -> t_cyclic x = false ->
  e_running (x_engine s') = false -> waiting t x0 s'.
Proof.
  intros (_ & x' & Hx & Hsh & Hc & Hst & Hl) Hsh0 Hn Hcyc Hr. exists x'. split; [done|]. split; [congruence|].
  assert (t_desc_num x' = t_desc_num x) as E by (unfold shape in Hsh; congruence). split; [done|]. rewrite E.
  split; [done|]. split; [unfold shape in Hsh; congruence|]. by right.
Qed.

(** Whatever the device reports, a service does not fault, and takes the transfer off the engine
    when it is done with it. *)
Lemma service_waiting t x0 s wb status completed : waiting t x0 s -> e_eop_flush (x_engine s) = false ->
  exists rv s', engine_service wb status completed s = Ok (rv, s') /\ keeps t s s' /\ waiting t x0 s'.
Proof.
  intros (x & Hx & Hsh & Hc & Hn & Hcyc & Hst) He. unfold engine_service. cstep.
  destruct (e_running (x_engine s)) eqn:Hr; cbn [negb].
  2: { cstep. eexists _, _. split; [reflexivity|]. split; [done|]. exists x. cbn. rewrite Hr. done. }
  destruct Hst as [(Hst & Hl & Hd)|(_ & _ & ?)]; [|congruence].
  set (rv := if decide (Z.land (u32 wb) WB_ERR_MASK <> 0) then -1 else 0). clearbody rv.
  set (c1 := bool_decide (_ \/ _)). assert (exists s1, when c1 (on_engine (set_e_status status)) s = Ok (tt, s1) /\ x_xfers s1 = x_xfers s /\
    keeps t s s1 /\ e_transfer_list (x_engine s1) = [t] /\ e_desc_dequeued (x_engine s1) = 0) as (s1 & E1 & Hx1 & K1 & Hl1 & Hd1).
  { destruct c1; eexists; (split; [reflexivity|]); by repeat split. }
  rewrite (cmd_bind_run _ _ _ _ _ E1). cstep. set (c2 := orb _ _).
  assert (exists s2, when c2 engine_service_shutdown s1 = Ok (tt, s2) /\ x_xfers s2 = x_xfers s /\
    keeps t s s2 /\ e_transfer_list (x_engine s2) = [t] /\ e_desc_dequeued (x_engine s2) = 0) as (s2 & E2 & Hx2 & K2 & Hl2 & Hd2).
  { destruct c2; unfold when, engine_service_shutdown; [rewrite stop_run|]; eexists; (split; [reflexivity|]); cbn; repeat split; try done; apply K1. }
  rewrite (cmd_bind_run _ _ _ _ _ E2). rewrite <- Hx2 in Hx.
  assert (waiting t x0 s2) as Hw2 by (exists x; repeat (split; [done|]); left; done).
  set (cnt := if decide _ then completed else Z.land (u32 wb) WB_COUNT_MASK). case_decide as Ez; [by eexists _, _|].
  unfold head_transfer. erewrite cmd_bind_run by (erewrite cmd_bind_run by reflexivity; reflexivity). rewrite Hl2. cbn [head]. cstep.
  assert (e_eop_flush (x_engine s2) = false) as He2.
  { destruct K2 as [K2 _]. unfold core in K2. unfold e_eop_flush in *. congruence. }
  assert (forall s' : xdma, gone t x s2 s' -> exists s'', (_ ← engine_service_resume; mret rv) s' = Ok (rv, s'') /\ keeps t s s'' /\ waiting t x0 s'') as Hend.
  { intros s' Hg. destruct Hg as (K & x' & Hx' & Hg'). destruct (resume_empty t s' ltac:(apply Hg')) as (s'' & E & K' & Hxx & Hl' & Hr').
    rewrite (cmd_bind_run _ _ _ _ _ E). exists s''. split; [done|]. pose proof (keeps_trans _ _ _ _ K2 (keeps_trans _ _ _ _ K K')) as K3. split; [done|].
    apply (gone_waiting t x0 x s2); try done. split; [by eapply keeps_trans|]. exists x'. rewrite Hxx. by destruct Hg' as (? & ? & ? & ?). }
  destruct (transfers_alone t s2 x Hl2 Hx Hd2 Hn Hc Hcyc (u32 (cnt - e_desc_dequeued (x_engine s2)))) as [(s' & c' & E & Hg)|[E Hle]];
    rewrite (cmd_bind_run _ _ _ _ _ E).
  - rewrite (cmd_bind_run (engine_service_final_transfer None c') _ s' tt s') by done. destruct (Hend s' Hg) as (s'' & ? & ? & ?). by eexists _, _.
  - destruct (final_alone t s2 x Hl2 Hx Hd2 Hn Hc (u32 (cnt - e_desc_dequeued (x_engine s2))) He2) as (s' & E' & Hg); [split; [apply u32_range|done]|].
    rewrite (cmd_bind_run _ _ _ _ _ E'). destruct (Hend s' Hg) as (s'' & ? & ? & ?). by eexists _, _.
Qed.

Lemma dma_write_keeps t s rs : keeps t s (set_engine (dma_write rs (x_engine s)) s).
Proof.
  split; [|done]. unfold core. cbn. f_equal. f_equal. f_equal. f_equal.
  generalize (e_cyclic_result (x_engine s)). induction rs as [|[i r] rs IH]; intros l; cbn; [done|]. by rewrite IH, length_insert.
Qed.

Lemma eop_flush_keeps t s s' : keeps t s s' -> e_eop_flush (x_engine s') = e_eop_flush (x_engine s).
Proof. intros [H _]. unfold core in H. unfold e_eop_flush. congruence. Qed.

Lemma service_event_waiting t x0 s ev : waiting t x0 s -> e_eop_flush (x_engine s) = false ->
  exists s', service_event ev s = Ok (tt, s') /\ keeps t s s' /\ waiting t x0 s'.
Proof.
  intros Hw He. unfold service_event, engine_service_poll, engine_service_work. destruct poll_mode.
  - case_decide; [by eexists|]. destruct (service_waiting t x0 s (engine_service_wb_monitor (ev_expected ev) (ev_polls ev))
      (ev_status ev) (ev_completed ev) Hw He) as (rv & s' & E & K & Hw').
    rewrite (cmd_bind_run _ _ _ _ _ E). by exists s'.
  - destruct (service_waiting t x0 s 0 (ev_status ev) (ev_completed ev) Hw He) as (rv & s' & E & K & Hw').
    rewrite (cmd_bind_run _ _ _ _ _ E). case_decide; [by exists s'|]. by eexists.
Qed.

Lemma wait_waiting t x0 evs : forall s, waiting t x0 s -> e_eop_flush (x_engine s) = false ->
  exists s', wait evs s = Ok (tt, s') /\ keeps t s s' /\ waiting t x0 s'.
Proof.
  induction evs as [|ev evs IH]; intros s Hw He; cbn [wait]; [by exists s|]. unfold on_engine. cstep.
  pose proof (dma_write_keeps t s (ev_results ev)) as K0. set (s1 := set_engine _ s) in *.
  destruct (service_event_waiting t x0 s1 ev) as (s2 & E & K & Hw2); [done|by rewrite (eop_flush_keeps _ _ _ K0)|].
  rewrite (cmd_bind_run _ _ _ _ _ E). pose proof (keeps_trans _ _ _ _ K0 K) as K2.
  destruct (IH s2 Hw2) as (s3 & E3 & K3 & Hw3); [by rewrite (eop_flush_keeps _ _ _ K2)|].
  exists s3. split; [done|]. split; [by eapply keeps_trans|done].
Qed.

(** ** Submitting *)

(** No transfer is on the engine, and it is not running. *)
Record idle (s : xdma) : Prop := {
  id_engine : engine_ok (x_engine s);
  id_list : e_transfer_list (x_engine s) = [];
  id_running : e_running (x_engine s) = false;
  id_used : 0 <= e_desc_used (x_engine s) < 2 ^ 30 }.

Lemma engine_ok_core s s' : engine_ok (x_engine s) -> e_config (x_engine s') = e_config (x_engine s) ->
  length (e_desc (x_engine s')) = length (e_desc (x_engine s)) -> length (e_cyclic_result (x_engine s')) = length (e_cyclic_result (x_engine s)) ->
  e_desc_idx (x_engine s') = e_desc_idx (x_engine s) -> engine_ok (x_engine s').
Proof.
  intros [M D R I B] Hc Hd Hr Hi. unfold e_desc_max, e_desc_bus in *.
  constructor; unfold e_desc_max, e_desc_bus; rewrite ?Hc, ?Hd, ?Hr, ?Hi; done.
Qed.

Lemma desc_done_run descs (v n : Z) : 0 <= v -> 0 <= n -> v + n <= Z.of_nat (length descs) ->
  exists descs', xdma_desc_done descs v n = Ok descs' /\ length descs' = length descs.
Proof.
  intros Hv Hn Hl. unfold xdma_desc_done.
  apply (for_loop_inv (fun _ l => length l = length descs)); [done|]. intros i l Hi Hlen.
  rewrite aset_run by lia. eexists. split; [done|]. by rewrite length_insert.
Qed.

Lemma sum_results_run results i n done : 0 <= i -> i + n <= Z.of_nat (length results) -> exists d, sum_results results i n done = Ok d.
Proof.
  intros Hi Hl. unfold sum_results. destruct (for_loop_inv (fun _ (_ : Z) => True) (Z.to_nat n)
    (fun k d => r ← aget results (i + Z.of_nat k); Ok (d + result_length r)) done) as (d & E & _); [done| |by exists d].
  intros k d Hk _. destruct (aget_some results (i + Z.of_nat k)) as [r Hr]; [lia|]. rewrite Hr. by eexists.
Qed.

Lemma abort_run t s x : x_xfers s !! t = Some x -> e_transfer_list (x_engine s) = [t] -> t_desc_num x <> 0 ->
  t_state x = TRANSFER_STATE_SUBMITTED ->
  transfer_abort t s = Ok (0, set_xfers (<[t := set_t_state TRANSFER_STATE_ABORTED x]> (x_xfers s))
    (set_engine (set_transfer_list [] (x_engine s)) s)).
Proof.
  intros Hx Hl Hn Hst. unfold transfer_abort. rewrite (cmd_bind_run _ _ _ _ _ (xfer_deref_run _ _ _ Hx)). rewrite decide_False by done.
  unfold head_transfer. erewrite cmd_bind_run by (erewrite cmd_bind_run by reflexivity; reflexivity). rewrite Hl, Hst. cbn [head].
  rewrite !bool_decide_eq_true_2 by done. unfold when, list_del_head, on_engine. cstep. rewrite Hl. cbn [tail].
  erewrite cmd_bind_run by (apply xfer_update_run; exact Hx). done.
Qed.

(** The transfer after it was waited for: off the engine. *)
Lemma wait_result_run t x0 s status nents done : waiting t x0 s -> engine_ok (x_engine s) -> e_eop_flush (x_engine s) = false ->
  0 < t_desc_num x0 -> 0 <= t_res_virt x0 -> t_res_virt x0 + t_desc_num x0 <= e_desc_max (x_engine s) ->
  exists rv done' s', wait_result t status nents done s = Ok (rv, done', nents, s') /\ keeps t s s' /\
    e_transfer_list (x_engine s') = [] /\ e_running (x_engine s') = false /\
    exists x, x_xfers s' !! t = Some x /\ shape x = shape x0 /\
      (rv = 0 /\ t_state x = TRANSFER_STATE_COMPLETED /\ (st_c2h (e_config (x_engine s)) = false -> done' = done + t_len x) \/ rv < 0 /\ done' = done).
Proof.
  intros (x & Hx & Hsh & Hc & Hn & Hcyc & Hst) He Heop Hpos Hv Hmax. unfold wait_result.
  rewrite (cmd_bind_run _ _ _ _ _ (xfer_deref_run _ _ _ Hx)). cstep.
  assert (t_desc_num x = t_desc_num x0 /\ t_res_virt x = t_res_virt x0) as [En Ev] by (unfold shape in Hsh; split; congruence).
  destruct Hst as [(Hst & Hl & Hd)|([Hst|Hst] & Hl & Hr)]; rewrite Hst.
  - unfold on_engine. cstep. erewrite cmd_bind_run by (apply abort_run; [exact Hx|exact Hl|lia|exact Hst]).
    rewrite bool_decide_eq_true_2 by done. unfold when. rewrite (cmd_bind_run _ _ _ _ _ (stop_run _)).
    eexists _, _, _. split; [reflexivity|]. split; [split; [done|]; cbn; by rewrite delete_insert_eq|].
    cbn. split; [done|]. split; [done|]. eexists. split; [apply lookup_insert_eq|]. split; [done|]. right. done.
  - destruct (st_c2h (e_config (x_engine s))) eqn:Est.
    + destruct (sum_results_run (e_cyclic_result (x_engine s)) (t_res_virt x) (t_desc_cmpl x) done) as [d Ed];
        [lia|rewrite (eo_res _ He Est); lia|].
      rewrite Ed. unfold lift. cstep. rewrite Heop. eexists _, _, _. split; [reflexivity|]. repeat (split; [done|]).
      exists x. repeat (split; [done|]). by left.
    + eexists _, _, _. split; [reflexivity|]. repeat (split; [done|]). exists x. repeat (split; [done|]). by left.
  - eexists _, _, _. split; [reflexivity|]. repeat (split; [done|]). exists x. repeat (split; [done|]). by right.
Qed.

(** The transfer that is put on the engine, and the state in which it is queued. *)
Definition flagged (dma_mapped last : bool) (x : xdma_transfer) : xdma_transfer :=
  set_t_last last (set_t_flags (if dma_mapped then t_flags x else XFER_FLAG_NEED_UNMAP) x).
Definition placed (t : Z) (x : xdma_transfer) (e : xdma_engine) (s : xdma) : xdma := set_xfers (<[t := x]> (x_xfers s)) (set_engine e s).
Definition queued (t : Z) (x : xdma_transfer) (s : xdma) : xdma :=
  let x := set_t_state TRANSFER_STATE_SUBMITTED x in
  let e := set_transfer_list [t] (x_engine s) in
  set_engine (started e) (set_writes (x_writes s ++ start_writes e x) (set_xfers (<[t := x]> (x_xfers s)) s)).

Lemma queue_run t s x : x_xfers s !! t = Some x -> e_transfer_list (x_engine s) = [] -> e_running (x_engine s) = false ->
  transfer_queue t s = Ok (- EBUSY, s) \/
  x_offline s = false /\ transfer_queue t s = Ok (0, queued t x s).
Proof.
  intros Hx Hl Hr. unfold transfer_queue. cstep. destruct (x_offline s); [by left|]. case_decide; [by left|]. right. split; [done|].
  erewrite cmd_bind_run by (apply xfer_update_run; exact Hx). unfold on_engine. cstep. rewrite Hr.
  erewrite cmd_bind_run by (eapply (start_run _ t []); [exact Hr|cbn; by rewrite Hl|apply lookup_insert_eq]). unfold queued. cbn. by rewrite Hl.
Qed.

Lemma queued_waiting t x s : t_cyclic x = false -> 0 <= t_desc_num x <= XDMA_ENGINE_XFER_MAX_DESC -> t_desc_cmpl x = 0 ->
  waiting t x (queued t x s).
Proof.
  intros Hc Hn Hz. exists (set_t_state TRANSFER_STATE_SUBMITTED x). split; [apply lookup_insert_eq|]. split; [done|].
  cbn. rewrite Hz. repeat (split; [done || lia|]). by left.
Qed.

(** What is mapped while a request is on its way, and what has been unmapped. *)
Definition mapping (s : xdma) := (x_sgt_nents s, x_unmaps s).

Lemma destroy_run t s x : x_xfers s !! t = Some x -> 0 <= t_desc_virt x -> 0 <= t_desc_num x ->
  t_desc_virt x + t_desc_num x <= Z.of_nat (length (e_desc (x_engine s))) -> exists descs s',
  transfer_destroy t s = Ok (tt, s') /\ length descs = length (e_desc (x_engine s)) /\
  x_engine s' = set_arrays descs (e_cyclic_result (x_engine s)) (x_engine s) /\ x_xfers s' = x_xfers s /\ x_offline s' = x_offline s /\
  x_writes s' = x_writes s /\
  mapping s' = if t_last_in_request x && bool_decide (Z.land (t_flags x) XFER_FLAG_NEED_UNMAP <> 0 /\ x_sgt_nents s <> 0)
               then (0, x_unmaps s ++ [x_sgt_nents s]) else mapping s.
Proof.
  intros Hx Hv Hn Hl. unfold transfer_destroy. rewrite (cmd_bind_run _ _ _ _ _ (xfer_deref_run _ _ _ Hx)). cstep.
  destruct (desc_done_run _ _ _ Hv Hn Hl) as (descs & E & Hlen). rewrite E. unfold lift, on_engine. cstep. cstep. cstep.
  exists descs. cbn [x_sgt_nents set_engine]. destruct (t_last_in_request x && _); eexists; (split; [reflexivity|]); by repeat split.
Qed.

Lemma new_transfer_shape e req : shape (new_transfer e req) =
  (e_desc_idx e, e_desc_idx e, bus_at e 0, transfer_size e req, transfer_size e req, false, false,
   u32 (len_of (take (Z.to_nat (transfer_size e req)) (pieces_left req))), false, 0).
Proof. done. Qed.

(** What a step that succeeds or fails leaves; [r] is its result. *)
Definition stepped (t : Z) (dma_mapped : bool) (req : xdma_request_cb) (nents done : Z) (s s' : xdma)
    (r : Z * option (Z * Z * xdma_request_cb)) : Prop :=
  let n := transfer_size (x_engine s) req in
  engine_ok (x_engine s') /\ e_transfer_list (x_engine s') = [] /\ e_running (x_engine s') = false /\
  e_config (x_engine s') = e_config (x_engine s) /\ delete t (x_xfers s') = delete t (x_xfers s) /\ x_offline s' = x_offline s /\
  match r with
  | (rv, None) => rv < 0 /\ mapping s' = mapping s
  | (rv, Some (nents', done', req')) =>
      e_desc_used (x_engine s') = e_desc_used (x_engine s) /\ nents' = nents - n /\ req' = req_after (x_engine s) req /\
      (0 <= rv -> st_c2h (e_config (x_engine s)) = false ->
        done' = done + u32 (len_of (take (Z.to_nat n) (pieces_left req)))) /\
      mapping s' = if negb dma_mapped && bool_decide (nents' = 0 /\ x_sgt_nents s <> 0)
                   then (0, x_unmaps s ++ [x_sgt_nents s]) else mapping s
  end.

Lemma submit_one_steps t dma_mapped dev req nents done s : idle s -> req_ok req -> e_eop_flush (x_engine s) = false ->
  nents = sw_desc_cnt req - sw_desc_idx req -> exists r s', submit_one t dma_mapped dev req nents done s = Ok (r, s') /\
  stepped t dma_mapped req nents done s s' r.
Proof.
  intros [He Hl Hr Hu] Hq Heop Hne. destruct (transfer_size_pos _ _ He Hq) as (Hn & Hvn & Hcnt).
  pose proof (eo_idx _ He) as Hv. pose proof (eo_max _ He) as HM. pose proof (ro_cnt _ Hq) as [_ Hc27].
  pose proof (eo_desc _ He) as Hdl. unfold XDMA_ENGINE_XFER_MAX_DESC in HM.
  unfold submit_one. cstep. erewrite cmd_bind_run by (apply lift_run, transfer_init_run; done). cbv beta iota.
  erewrite cmd_bind_run by (apply lift_run, sint_run; pose proof (ro_idx _ Hq); unfold fits_s32; cbn; lia).
  cbn [t_desc_num new_transfer].
  set (n := transfer_size (x_engine s) req) in *. fold (flagged dma_mapped (bool_decide (nents - n = 0)) (new_transfer (x_engine s) req)).
  set (x := flagged _ _ _).
  assert (t_desc_num x = n /\ t_desc_virt x = e_desc_idx (x_engine s) /\ t_res_virt x = e_desc_idx (x_engine s)) as (Xn & Xv & Xr) by done.
  rewrite (cmd_bind_run _ _ s tt (placed t x (after_init (x_engine s) req) s)) by done. set (s1 := placed _ _ _ _).
  pose proof (engine_after _ req He) as He1.
  destruct (queue_run t s1 x) as [Eq|[Hoff Eq]]; [apply lookup_insert_eq|done|done| |]; rewrite (cmd_bind_run _ _ _ _ _ Eq).
  { eexists _, _. split; [reflexivity|]. split; [exact He1|]. repeat (split; [done|]). split; [apply delete_insert_eq|]. done. }
  rewrite decide_False by lia. cstep. set (s2 := queued t x s1).
  assert (waiting t x s2) as Hw2 by (apply queued_waiting; [done|unfold XDMA_ENGINE_XFER_MAX_DESC; lia|done]).
  destruct (wait_waiting t x (re_events (dev s2)) s2 Hw2 Heop) as (s3 & E3 & K3 & Hw3). rewrite (cmd_bind_run _ _ _ _ _ E3).
  assert (engine_ok (x_engine s2)) as He2 by (apply (engine_ok_core s1); done || exact He1).
  destruct K3 as [K3 X3]. unfold core in K3.
  assert (engine_ok (x_engine s3)) as He3 by (apply (engine_ok_core s2); congruence).
  assert (e_config (x_engine s3) = e_config (x_engine s)) as Hcfg by (transitivity (e_config (x_engine s2)); [congruence|done]).
  destruct (wait_result_run t x s3 (re_status (dev s2)) (nents - n) done Hw3 He3) as (rv & done' & s4 & E4 & [K4 X4] & Hl4 & Hr4 & x4 & Hx4 & Hsh & Hres);
    [unfold e_eop_flush in *; congruence|lia|lia|unfold e_desc_max in *; rewrite Hcfg; lia|].
  rewrite (cmd_bind_run _ _ _ _ _ E4). unfold core in K4.
  assert (shape x4 = shape x) as Hsh4 by done. unfold shape in Hsh4. injection Hsh4 as V4 R4 B4 A4 N4 C4 L4 T4 B5 F4.
  assert (t_desc_num x4 = n) as Hn4 by exact N4. assert (t_desc_virt x4 = e_desc_idx (x_engine s)) as Hv4 by exact V4.
  assert (e_desc_used (x_engine s4) = e_desc_used (x_engine s) + n) as Hu4.
  { transitivity (e_desc_used (x_engine s2)); [congruence|]. cbn. fold n. rewrite s32_small; unfold fits_s32; lia. }
  erewrite cmd_bind_run.
  2: { cstep. erewrite cmd_bind_run by (apply xfer_deref_run; exact Hx4). rewrite Hn4, Hu4. apply lift_run, sint_run. unfold fits_s32. lia. }
  unfold on_engine. cstep. set (s5 := set_engine _ s4).
  assert (length (e_desc (x_engine s4)) = length (e_desc (x_engine s1))) as Hdl4 by (transitivity (length (e_desc (x_engine s2))); [congruence|done]).
  destruct (destroy_run t s5 x4) as (descs & s6 & E6 & Hdl6 & Heng6 & X6 & O6 & _ & M6);
    [exact Hx4|lia|lia|cbn; rewrite Hdl4; cbn; rewrite mapped_length; lia|].
  rewrite (cmd_bind_run _ _ _ _ _ E6). eexists _, s6. split; [reflexivity|].
  unfold stepped. fold n. rewrite Heng6. cbn [s5 x_engine set_engine set_arrays set_indices e_transfer_list e_running e_config e_desc_used].
  split; [|split; [done|split; [done|split; [congruence|split; [|split; [|split; [|split; [done|split; [done|split]]]]]]]]].
  - apply (engine_ok_core s4 (set_engine (set_arrays descs (e_cyclic_result (x_engine s4)) (set_indices (e_desc_idx (x_engine s4)) (e_desc_used (x_engine s) + n - n) (x_engine s4))) s4));
      [apply (engine_ok_core s3); congruence|done|cbn; rewrite Hdl6; done|done|done].
  - rewrite X6. change (delete t (x_xfers s4) = delete t (x_xfers s)). rewrite X4, X3. cbn. by rewrite insert_insert_eq, delete_insert_eq.
  - rewrite O6. change (x_offline s4 = x_offline s). transitivity (x_offline s2); [congruence|done].
  - lia.
  - intros Hrv Hst. destruct Hres as [(_ & _ & Hd)|[? _]]; [|lia]. rewrite Hd, T4 by congruence. done.
  - rewrite M6. cbn [x_sgt_nents x_unmaps set_engine]. rewrite L4, F4. unfold mapping. cbn [x_sgt_nents x_unmaps s5 set_engine].
    assert (x_sgt_nents s4 = x_sgt_nents s /\ x_unmaps s4 = x_unmaps s) as [-> ->].
    { split; [transitivity (x_sgt_nents s2)|transitivity (x_unmaps s2)]; congruence || done. }
    cbn [x flagged set_t_last set_t_flags t_last_in_request t_flags].
    destruct dma_mapped; cbn [negb andb]; [rewrite andb_comm, bool_decide_eq_false_2 by (intros [H _]; by apply H); done|].
    assert (bool_decide (nents - n = 0) && bool_decide (Z.land XFER_FLAG_NEED_UNMAP XFER_FLAG_NEED_UNMAP <> 0 /\ x_sgt_nents s <> 0) =
      bool_decide (nents - n = 0 /\ x_sgt_nents s <> 0)) as ->; [|done].
    apply eq_true_iff_eq. rewrite andb_true_iff, !bool_decide_eq_true. change (Z.land XFER_FLAG_NEED_UNMAP XFER_FLAG_NEED_UNMAP) with 1. lia.
Qed.

Lemma pieces_left_after e req : 0 <= sw_desc_idx req -> 0 <= transfer_size e req ->
  pieces_left (req_after e req) = drop (Z.to_nat (transfer_size e req)) (pieces_left req).
Proof.
  intros Hi Hn. unfold pieces_left. cbn [req_after sw_desc_idx sw_desc_cnt sdesc]. rewrite drop_drop. f_equal. lia.
Qed.

Lemma req_after_ok e req : engine_ok e -> req_ok req -> transfer_size e req <> sw_desc_cnt req - sw_desc_idx req -> req_ok (req_after e req).
Proof.
  intros He Hq Hne. destruct (transfer_size_pos e req He Hq) as (Hn & _ & Hc). pose proof (ro_idx _ Hq). constructor.
  - cbn. lia.
  - apply (ro_cnt _ Hq).
  - cbn. unfold ep_after. destruct (ec_non_incr_addr (e_config e)); [apply (ro_ep _ Hq)|apply u64_range].
  - rewrite pieces_left_after by lia. apply Forall_drop, (ro_pieces _ Hq).
Qed.

(** What is left of a request; it may be done. *)
Definition rest_ok (req : xdma_request_cb) (nents : Z) : Prop := nents = sw_desc_cnt req - sw_desc_idx req /\ (nents <> 0 -> req_ok req).

Lemma rest_after e req : engine_ok e -> req_ok req ->
  rest_ok (req_after e req) (sw_desc_cnt req - sw_desc_idx req - transfer_size e req).
Proof. intros He Hq. split; [cbn; lia|]. intros Hne. apply req_after_ok; [done..|lia]. Qed.

Definition unmapped_once (dma_mapped : bool) (s s' : xdma) : Prop :=
  mapping s' = mapping s \/ dma_mapped = false /\ mapping s' = (0, x_unmaps s ++ [x_sgt_nents s]).

Lemma submit_loop_returns t dma_mapped dev fuel : forall i req nents done rv s, idle s -> rest_ok req nents -> e_eop_flush (x_engine s) = false ->
  nents < Z.of_nat fuel -> exists rv' done' s', submit_loop fuel t dma_mapped dev i req nents done rv s = Ok ((rv', done'), s') /\
  engine_ok (x_engine s') /\ e_transfer_list (x_engine s') = [] /\ e_running (x_engine s') = false /\
  delete t (x_xfers s') = delete t (x_xfers s) /\ unmapped_once dma_mapped s s'.
Proof.
  induction fuel as [|fuel IH]; intros i req nents done rv s Hid [Hne Hq] Heop Hf; cbn [submit_loop].
  { exfalso. destruct (decide (nents = 0)); [lia|]. pose proof (ro_idx _ (Hq ltac:(done))). lia. }
  case_decide as Hz.
  { exists rv, done, s. split; [done|]. destruct Hid. repeat (split; [done|]). by left. }
  specialize (Hq Hz). destruct (transfer_size_pos _ _ (id_engine _ Hid) Hq) as (Hn & _ & Hc).
  destruct (submit_one_steps t dma_mapped (dev i) req nents done s Hid Hq Heop Hne) as (r & s1 & E & He1 & Hl1 & Hr1 & Hcf & Hx1 & Ho1 & Hres).
  rewrite (cmd_bind_run _ _ _ _ _ E). destruct r as [rv1 [[[nents1 done1] req1]|]].
  2: { destruct Hres as [_ HM]. exists rv1, done, s1. split; [done|]. repeat (split; [done|]). by left. }
  destruct Hres as (Hu1 & -> & -> & _ & HM).
  assert (unmapped_once dma_mapped s s1) as Hun.
  { unfold unmapped_once. rewrite HM. destruct dma_mapped; cbn [negb andb]; [by left|]. case_bool_decide; [by right|by left]. }
  destruct (decide (rv1 < 0)) as [Hneg|Hpos].
  { exists rv1, done1, s1. split; [done|]. by repeat (split; [done|]). }
  destruct (IH (S i) (req_after (x_engine s) req) (nents - transfer_size (x_engine s) req) done1 rv1 s1) as (rv2 & done2 & s2 & E2 & He2 & Hl2 & Hr2 & Hx2 & Hun2).
  - constructor; try done. rewrite Hu1. apply Hid.
  - rewrite Hne. apply rest_after; [apply Hid|done].
  - unfold e_eop_flush in *. congruence.
  - lia.
  - exists rv2, done2, s2. rewrite E2. split; [done|]. repeat (split; [done || congruence|]).
    destruct (decide (nents - transfer_size (x_engine s) req = 0)) as [Hend|Hmore].
    + destruct fuel; cbn [submit_loop] in E2; [done|]. rewrite decide_True in E2 by done. injection E2 as -> -> ->. done.
    + assert (mapping s1 = mapping s) as Em.
      { rewrite HM. rewrite bool_decide_eq_false_2 by tauto. by rewrite andb_false_r. }
      unfold mapping in Em. injection Em as E1 E3. unfold unmapped_once, mapping in *. by rewrite E1, E3 in Hun2.
Qed.

(** Submitting cleans up, whatever the device does.  From an engine without transfers,
    for any interrupts, time-outs, status words and counts, [xdma_xfer_submit] returns; the engine
    is stopped and has no transfer, so nothing points to the transfer that is freed with the
    request; all other transfers are as they were; and the list that was mapped is unmapped
    exactly once, a list the caller had mapped never.  Streams that are flushed at
    the end of a packet are excluded. *)
Theorem submit_cleans_up blen sz dev t (write dma_mapped mem : bool) ep orig_nents nents sgl s :
  0 < blen <= XDMA_DESC_BLEN_MAX -> 0 <= sz < 1048576 -> Forall (sg_ok blen) sgl -> request_size blen sgl < 2 ^ 27 ->
  fits_u64 ep -> nents <> 0 -> idle s -> e_eop_flush (x_engine s) = false ->
  x_offline s = false -> e_dir (x_engine s) = (if write then DMA_TO_DEVICE else DMA_FROM_DEVICE) ->
  exists rv s', xdma_xfer_submit blen sz dev t write dma_mapped mem ep orig_nents nents sgl s = Ok (rv, s') /\
    engine_ok (x_engine s') /\ e_transfer_list (x_engine s') = [] /\ e_running (x_engine s') = false /\
    x_xfers s' = delete t (x_xfers s) /\
    (if dma_mapped then mapping s' = (nents, x_unmaps s)
     else mapping s' = (0, x_unmaps s ++ [nents]) \/ mapping s' = (0, x_unmaps s ++ [orig_nents])).
Proof.
  intros Hb Hsz Hsg Hrs Hep Hne Hid Heop Hoff Hdir. unfold xdma_xfer_submit. cstep. rewrite Hoff.
  rewrite decide_False by (intros ?; congruence). rewrite decide_False by done. cstep. set (s0 := set_mapping nents (x_unmaps s) s).
  assert (idle s0) as Hid0 by (destruct Hid; by constructor).
  destruct (init_request_run blen sz Hb Hsz sgl ep Hsg Hrs) as (Enone & req & Ereq & Hrep & Hri & Hrc & Hsmall & _ & Hpieces & _).
  assert (exists r, xdma_init_request blen sz sgl ep mem = Ok r /\ (r = None \/ r = Some req)) as (r & Er & Hr) by (destruct mem; eauto).
  erewrite cmd_bind_run by (apply lift_run; exact Er).
  assert (exists rv done s1, (match r return cmd xdma (Z * Z) with None => mret (-12, 0) | Some req => submit_loop (S (Z.to_nat (sw_desc_cnt req))) t dma_mapped dev 0 req (sw_desc_cnt req) 0 0 end) s0
      = Ok ((rv, done), s1) /\ engine_ok (x_engine s1) /\ e_transfer_list (x_engine s1) = [] /\ e_running (x_engine s1) = false /\
      delete t (x_xfers s1) = delete t (x_xfers s0) /\ unmapped_once dma_mapped s0 s1) as (rv & done & s1 & E & He1 & Hl1 & Hr1 & Hx1 & Hun).
  { destruct Hr as [->| ->]; [eexists _, _, s0; split; [reflexivity|]; destruct Hid0; repeat (split; [done|]); by left|].
    apply submit_loop_returns; [done| |done|lia]. split; [lia|]. intros Hnz. constructor; [lia| |congruence|].
    - lia.
    - eapply Forall_impl; [exact Hpieces|]. intros p (H1 & H2 & H3). repeat split; lia. }
  rewrite (cmd_bind_run _ _ _ _ _ E). cbv beta iota. cstep. unfold unmapped_once, mapping in Hun. cbn [s0 x_unmaps x_sgt_nents set_mapping] in Hun.
  destruct dma_mapped; cbn [negb andb].
  - unfold when, xdma_request_free. cstep. cstep. eexists _, _. split; [reflexivity|]. cbn.
    repeat (split; [done|]). destruct Hun as [H|[? _]]; [|done]. exact H.
  - destruct Hun as [H|[_ H]]; injection H as H1 H2; rewrite H1.
    + rewrite bool_decide_eq_true_2 by done. unfold when, dma_unmap_sg, xdma_request_free. cstep. cstep. eexists _, _. split; [reflexivity|]. cbn.
      repeat (split; [done|]). right. unfold mapping. cbn. by rewrite H2.
    + rewrite bool_decide_eq_false_2 by tauto. unfold when, xdma_request_free. cstep. cstep. eexists _, _. split; [reflexivity|]. cbn.
      repeat (split; [done|]). left. unfold mapping. cbn. by rewrite H1, H2.
Qed.

(** ** A device that does what it is told *)

(** The chains that are started by register writes: where they start, and the descriptors at
    that time; [lo] and [hi] are what the address registers hold. *)
Fixpoint starts (lo hi : Z) (ws : list (engine_reg * Z * list xdma_desc)) : list (Z * list xdma_desc) :=
  match ws with
  | [] => []
  | (r, v, d) :: ws =>
      match r with
      | R_first_desc_lo => starts v hi ws
      | R_first_desc_hi => starts lo v ws
      | R_control => if Z.testbit v 0 then (addr64 lo hi, d) :: starts lo hi ws else starts lo hi ws
      | _ => starts lo hi ws
      end
  end.

(** The moves an engine makes when it carries out the chains. *)
Definition engine_moves (base : Z) (starts : list (Z * list xdma_desc)) : option (list (Z * Z * Z)) :=
  l ← mapM (fun '(bus, d) => chain (length d) base d bus) starts; Some (concat l).

(** The interrupt of a device that has carried out a transfer. *)
Definition finished (e : xdma_engine) (x : xdma_transfer) (ev : event) : Prop :=
  ev_results ev = [] /\ ev_completed ev = t_desc_num x /\ Z.land (ev_status ev) XDMA_STAT_BUSY = 0 /\
  Z.land (ev_status ev) (if decide (e_dir e = DMA_FROM_DEVICE) then XDMA_STAT_C2H_ERR_MASK else XDMA_STAT_H2C_ERR_MASK) = 0.
Definition obedient (dev : nat -> xdma -> reaction) : Prop := forall i s t x,
  e_transfer_list (x_engine s) = [t] -> x_xfers s !! t = Some x ->
  exists ev, re_events (dev i s) = [ev] /\ finished (x_engine s) x ev.

Lemma chain_more base descs fuel : forall bus l more, chain fuel base descs bus = Some l -> chain (fuel + more) base descs bus = Some l.
Proof.
  induction fuel as [|fuel IH]; intros bus l more; [done|]. cbn [Nat.add]. rewrite !chain_S.
  destruct (desc_at base descs bus) as [d|]; [|done]. cbn [mbind option_bind]. destruct (Z.testbit (control d) 0); [done|].
  destruct (chain fuel base descs (next_of d)) as [l'|] eqn:E; [|done]. by rewrite (IH _ _ more E).
Qed.

Lemma moves_app c ep ps qs : st_c2h c = false -> fits_u64 ep ->
  moves c 0 ep (ps ++ qs) = moves c 0 ep ps ++ moves c 0 (ep_after c ep ps) qs.
Proof.
  intros Hst Hep. unfold moves. rewrite imap_app. f_equal.
  - apply imap_ext. intros k p Hk. by rewrite take_app_le by (apply Nat.lt_le_incl; by eapply lookup_lt_Some).
  - apply imap_ext. intros k p _. cbn. rewrite take_app_add. unfold move, st_c2h, ep_after in *.
    destruct (decide (ec_dir c = DMA_TO_DEVICE)); [|destruct (ec_dir c), (ec_streaming c); try done].
    all: destruct (ec_non_incr_addr c); [done|]; rewrite u64_add_l; fold (len_of (ps ++ take k qs)) (len_of ps) (len_of (take k qs));
      rewrite len_of_app; by rewrite Z.add_assoc.
Qed.

Lemma moves_res c r r' ep ps : st_c2h c = false -> moves c r ep ps = moves c r' ep ps.
Proof.
  intros Hst. unfold moves. apply imap_ext. intros k p _. unfold move, st_c2h in *. destruct (decide (ec_dir c = DMA_TO_DEVICE)); [done|].
  destruct (ec_dir c), (ec_streaming c); done.
Qed.

Section obedient.
Context (Hpoll : poll_mode = false).

Lemma starts_step lo hi e e' x d rest : st_c2h (e_config e) = false -> st_c2h (e_config e') = false -> fits_u64 (t_desc_bus x) ->
  exists lo' hi', starts lo hi (start_writes e x ++ stop_writes e' ++ [(R_interrupt_enable_mask_w1s, interrupt_enable_mask_value, d)] ++ rest) =
  (t_desc_bus x, e_desc e) :: starts lo' hi' rest.
Proof.
  intros H1 H2 Hb. unfold start_writes, stop_writes. rewrite H1, H2, andb_false_r. cbn [app starts].
  assert (Z.testbit (Z.lor (Z.lor (Z.lor XDMA_CTRL_RUN_STOP error_bits) completion_bits) (if e_non_incr_addr e then XDMA_CTRL_NON_INCR_ADDR else 0)) 0 = true) as ->
    by (rewrite !Z.lor_spec; done).
  assert (Z.testbit (Z.lor error_bits completion_bits) 0 = false) as -> by (unfold completion_bits; rewrite Hpoll; done).
  rewrite addr64_split by done. eauto.
Qed.

(** The service of a finished transfer. *)
Lemma service_finished t s x ev : e_transfer_list (x_engine s) = [t] -> x_xfers s !! t = Some x -> e_running (x_engine s) = true ->
  e_desc_dequeued (x_engine s) = 0 -> e_shutdown (x_engine s) = 0 -> 0 < t_desc_num x <= XDMA_ENGINE_XFER_MAX_DESC -> t_cyclic x = false ->
  finished (x_engine s) x ev -> exists s', service_event ev s = Ok (tt, s') /\
    x_xfers s' !! t = Some (set_t_desc_cmpl (t_desc_num x) (set_t_state TRANSFER_STATE_COMPLETED x)) /\
    e_shutdown (x_engine s') = 0 /\
    x_writes s' = x_writes s ++ stop_writes (x_engine s) ++ [(R_interrupt_enable_mask_w1s, interrupt_enable_mask_value, e_desc (x_engine s))].
Proof.
  intros Hl Hx Hr Hd Hsh Hn Hc (_ & Hcomp & Hbusy & Herr). unfold XDMA_ENGINE_XFER_MAX_DESC in Hn.
  assert (exists s1, engine_service 0 (ev_status ev) (ev_completed ev) s = Ok (0, s1) /\
    x_xfers s1 !! t = Some (set_t_desc_cmpl (t_desc_num x) (set_t_state TRANSFER_STATE_COMPLETED x)) /\
    e_shutdown (x_engine s1) = 0 /\ x_writes s1 = x_writes s ++ stop_writes (x_engine s) /\ e_desc (x_engine s1) = e_desc (x_engine s))
    as (s1 & E & H1 & H2 & H3 & H4).
  { eexists. unfold engine_service. change (u32 0) with 0. rewrite !Z.land_0_l.
    change (if decide (0 <> 0) then -1 else 0) with 0. split.
  { cstep. rewrite Hr. cbn [negb]. rewrite (bool_decide_eq_true_2 (0 = 0 \/ 0 <> 0)) by (by left). cstep. cstep.
    cbn [x_engine set_engine set_e_status e_status]. rewrite bool_decide_eq_true_2 by done. cbn [orb]. unfold engine_service_shutdown.
    erewrite cmd_bind_run by apply stop_run. rewrite (decide_True (P := 0 = 0)) by done.
    rewrite (decide_False (P := ev_completed ev = 0)) by lia.
    unfold head_transfer at 1. erewrite cmd_bind_run by (erewrite cmd_bind_run by reflexivity; reflexivity). cstep.
    cbn [x_engine set_engine set_running set_e_status set_writes e_transfer_list e_desc_dequeued]. rewrite Hl, Hd, Z.sub_0_r, Hcomp. cbn [head].
    rewrite (u32_small (t_desc_num x)) by (unfold fits_u32; lia).
    erewrite cmd_bind_run.
    2: { unfold engine_service_transfer_list. erewrite cmd_bind_run by reflexivity. cbn [x_engine set_engine set_running set_e_status e_transfer_list]. rewrite Hl.
         cbn [length service_transfers]. erewrite cmd_bind_run by (apply xfer_deref_run; exact Hx).
         rewrite decide_False by (rewrite u32_small by (unfold fits_u32; lia); lia). reflexivity. }
    cbv beta iota. unfold engine_service_final_transfer.
    erewrite cmd_bind_run.
    2: { erewrite cmd_bind_run by (apply xfer_deref_run; exact Hx). cstep.
      assert (status_error (set_running false (set_e_status (ev_status ev) (x_engine s))) = false) as Hse.
      { unfold status_error. apply bool_decide_eq_false_2. unfold e_dir in *. cbn. intros [[Hdir ?]|[Hdir ?]]; rewrite Hdir in Herr; cbn in Herr; contradiction. }
      cbn [x_engine set_engine]. rewrite Hse. rewrite decide_False by (rewrite u32_small by (unfold fits_u32; lia); lia).
      erewrite cmd_bind_run by (apply xfer_update_run; exact Hx).
      erewrite cmd_bind_run by (apply add_dequeued_run; [exact Hd|unfold XDMA_ENGINE_XFER_MAX_DESC; lia]).
      apply transfer_del_run; apply lookup_insert_eq. }
    unfold engine_service_resume. erewrite cmd_bind_run.
    2: { cstep. cbn. rewrite Hl. cbn [tail]. rewrite Hsh. rewrite decide_False by (intros H; by apply H). reflexivity. }
    reflexivity. }
    cbn. rewrite lookup_insert_eq. by repeat split. }
  unfold service_event, engine_service_work. rewrite Hpoll, (cmd_bind_run _ _ _ _ _ E). rewrite decide_False by lia.
  eexists. split; [reflexivity|]. cbn. split; [exact H1|]. split; [exact H2|]. by rewrite H3, H4, <- app_assoc.
Qed.

Lemma submit_one_obeys t dma_mapped dev i req nents done s : idle s -> req_ok req -> e_eop_flush (x_engine s) = false ->
  st_c2h (e_config (x_engine s)) = false -> x_offline s = false -> Z.land (e_shutdown (x_engine s)) ENGINE_SHUTDOWN_REQUEST = 0 ->
  nents = sw_desc_cnt req - sw_desc_idx req -> obedient dev ->
  exists r s' e x d, submit_one t dma_mapped (dev i) req nents done s = Ok ((0, Some r), s') /\
  stepped t dma_mapped req nents done s s' (0, Some r) /\ e_shutdown (x_engine s') = 0 /\
  x_writes s' = x_writes s ++ start_writes (after_init (x_engine s) req) x ++ stop_writes e ++
    [(R_interrupt_enable_mask_w1s, interrupt_enable_mask_value, d)] /\ e_config e = e_config (x_engine s) /\ t_desc_bus x = bus_at (x_engine s) 0.
Proof.
  intros Hid Hq Heop Hst Hoff Hshut Hne Hob.
  destruct (submit_one_steps t dma_mapped (dev i) req nents done s Hid Hq Heop Hne) as (r0 & s' & E & Hstep).
  destruct Hid as [He Hl Hr Hu]. destruct (transfer_size_pos _ _ He Hq) as (Hn & Hvn & Hcnt). pose proof (eo_idx _ He) as Hv.
  pose proof (eo_max _ He) as HM. unfold XDMA_ENGINE_XFER_MAX_DESC in HM. pose proof (eo_desc _ He) as Hdl. pose proof (ro_cnt _ Hq) as [_ Hc27].
  pose proof E as E'. revert E. unfold submit_one. cstep. erewrite cmd_bind_run by (apply lift_run, transfer_init_run; done). cbv beta iota.
  erewrite cmd_bind_run by (apply lift_run, sint_run; pose proof (ro_idx _ Hq); unfold fits_s32; cbn; lia).
  cbn [t_desc_num new_transfer]. set (n := transfer_size (x_engine s) req) in *.
  fold (flagged dma_mapped (bool_decide (nents - n = 0)) (new_transfer (x_engine s) req)). set (x := flagged _ _ _).
  rewrite (cmd_bind_run _ _ s tt (placed t x (after_init (x_engine s) req) s)) by done. set (s1 := placed _ _ _ _).
  assert (transfer_queue t s1 = Ok (0, queued t x s1)) as Eq.
  { unfold transfer_queue. cstep. change (x_offline s1) with (x_offline s). rewrite Hoff.
    change (e_shutdown (x_engine s1)) with (e_shutdown (x_engine s)). rewrite Hshut. rewrite decide_False by (intros H; by apply H).
    erewrite cmd_bind_run by (apply xfer_update_run; apply lookup_insert_eq). unfold on_engine. cstep.
    change (e_running (x_engine s1)) with (e_running (x_engine s)). rewrite Hr.
    erewrite cmd_bind_run by (eapply (start_run _ t []); [exact Hr|cbn; by rewrite Hl|apply lookup_insert_eq]). unfold queued. cbn. by rewrite Hl. }
  rewrite (cmd_bind_run _ _ _ _ _ Eq). rewrite decide_False by lia. cstep. set (s2 := queued t x s1).
  set (x' := set_t_state TRANSFER_STATE_SUBMITTED x).
  assert (x_xfers s2 !! t = Some x') as Hx2 by apply lookup_insert_eq.
  destruct (Hob i s2 t x' eq_refl Hx2) as (ev & Eev & Hfin). rewrite Eev. cbn [wait].
  assert (dma_write (ev_results ev) (x_engine s2) = x_engine s2) as Hdw by (destruct Hfin as (-> & _); by destruct (x_engine s2)).
  destruct (service_finished t s2 x' ev eq_refl Hx2 eq_refl eq_refl eq_refl) as (s3 & E3 & Hx3 & Hsh3 & W3);
    [change (t_desc_num x') with n; unfold XDMA_ENGINE_XFER_MAX_DESC; lia|done|done|].
  erewrite cmd_bind_run.
  2: { unfold on_engine. cstep. rewrite Hdw. change (set_engine (x_engine s2) s2) with s2. rewrite (cmd_bind_run _ _ _ _ _ E3). reflexivity. }
  assert (waiting t x s2) as Hw2 by (apply queued_waiting; [done|change (t_desc_num x) with n; unfold XDMA_ENGINE_XFER_MAX_DESC; lia|done]).
  destruct (service_event_waiting t x s2 ev Hw2 Heop) as (s3' & E3' & [K3 _] & _). rewrite E3 in E3'. injection E3' as <-. unfold core in K3.
  assert (st_c2h (e_config (x_engine s3)) = false) as Hst3 by (transitivity (st_c2h (e_config (x_engine s2))); [congruence|exact Hst]).
  assert (wait_result t (re_status (dev i s2)) (nents - n) done s3 = Ok (0, done + t_len x, nents - n, s3)) as Ew.
  { unfold wait_result. rewrite (cmd_bind_run _ _ _ _ _ (xfer_deref_run _ _ _ Hx3)). cstep. cbn [t_state set_t_desc_cmpl set_t_state]. by rewrite Hst3. }
  rewrite (cmd_bind_run _ _ _ _ _ Ew). cbv beta iota.
  assert (e_desc_used (x_engine s3) = e_desc_used (x_engine s) + n) as Hu3.
  { transitivity (e_desc_used (x_engine s2)); [congruence|]. cbn. fold n. rewrite s32_small; unfold fits_s32; lia. }
  erewrite cmd_bind_run.
  2: { cstep. erewrite cmd_bind_run by (apply xfer_deref_run; exact Hx3). cbn [t_desc_num set_t_desc_cmpl set_t_state]. change (t_desc_num x') with n.
    rewrite Hu3. apply lift_run, sint_run. unfold fits_s32. lia. }
  unfold on_engine. cstep. set (s5 := set_engine _ s3).
  assert (length (e_desc (x_engine s3)) = length (e_desc (x_engine s1))) as Hdl3 by (transitivity (length (e_desc (x_engine s2))); [congruence|done]).
  destruct (destroy_run t s5 _ Hx3) as (descs & s6 & E6 & _ & Heng6 & _ & _ & W6 & _);
    [cbn; lia|cbn; fold n; lia|cbn; rewrite Hdl3; cbn; rewrite mapped_length; fold n; lia|].
  rewrite (cmd_bind_run _ _ _ _ _ E6). intros E. injection E as <- <-.
  eexists _, s6, (x_engine s2), x', (e_desc (x_engine s2)). split; [reflexivity|]. split; [exact Hstep|].
  split; [rewrite Heng6; exact Hsh3|]. split; [|by split].
  rewrite W6. change (x_writes s5) with (x_writes s3). rewrite W3.
  change (x_writes s2) with (x_writes s ++ start_writes (set_transfer_list [t] (x_engine s1)) x'). rewrite <- !app_assoc. done.
Qed.

Lemma len_of_bound ps : Forall (piece_ok XDMA_DESC_BLEN_MAX) ps -> 0 <= len_of ps <= 4096 * Z.of_nat (length ps).
Proof.
  induction 1 as [|p ps (_ & Hp & _) _ IH]; cbn [len_of foldr length]; [lia|]. fold (len_of ps). unfold XDMA_DESC_BLEN_MAX in Hp. lia.
Qed.

Lemma engine_moves_cons base bus d rest : engine_moves base ((bus, d) :: rest) =
  (l ← chain (length d) base d bus; l' ← engine_moves base rest; Some (l ++ l')).
Proof.
  unfold engine_moves. cbn [mapM]. destruct (chain (length d) base d bus); [|done]. cbn [mbind option_bind].
  by destruct (mapM _ rest).
Qed.

(** A request on a device that does what it is told: the moves of all that is left. *)
Lemma submit_loop_obeys t dma_mapped dev fuel : forall i req nents done s, idle s -> rest_ok req nents -> e_eop_flush (x_engine s) = false ->
  st_c2h (e_config (x_engine s)) = false -> x_offline s = false -> Z.land (e_shutdown (x_engine s)) ENGINE_SHUTDOWN_REQUEST = 0 ->
  obedient dev -> nents < Z.of_nat fuel -> exists s' (ws : list (engine_reg * Z * list xdma_desc)), submit_loop fuel t dma_mapped dev i req nents done 0 s =
    Ok ((0, done + len_of (pieces_left req)), s') /\ x_writes s' = x_writes s ++ ws /\
    forall lo hi, engine_moves (e_desc_bus (x_engine s)) (starts lo hi ws) =
      Some (moves (e_config (x_engine s)) 0 (ep_addr req) (pieces_left req)).
Proof.
  induction fuel as [|fuel IH]; intros i req nents done s Hid [Hne Hq] Heop Hst Hoff Hshut Hob Hf; cbn [submit_loop].
  { exfalso. destruct (decide (nents = 0)); [lia|]. pose proof (ro_idx _ (Hq ltac:(done))). lia. }
  case_decide as Hz.
  { exists s, []. rewrite app_nil_r. assert (pieces_left req = []) as ->.
    { unfold pieces_left. apply drop_ge. rewrite length_take. lia. }
    cbn. rewrite Z.add_0_r. done. }
  specialize (Hq Hz). pose proof (id_engine _ Hid) as He. destruct (transfer_size_pos _ _ He Hq) as (Hn & Hvn & Hc).
  destruct (submit_one_obeys t dma_mapped dev i req nents done s Hid Hq Heop Hst Hoff Hshut Hne Hob)
    as ([[nents1 done1] req1] & s1 & e & x & d & E & Hstep & Hsh1 & W1 & Hce & Hbus).
  rewrite (cmd_bind_run _ _ _ _ _ E). rewrite decide_False by lia. clear E.
  destruct Hstep as (He1 & Hl1 & Hr1 & Hcf & _ & Ho1 & Hu1 & -> & -> & Hdone & _). specialize (Hdone ltac:(lia) Hst).
  set (n := transfer_size (x_engine s) req) in *. set (ps := take (Z.to_nat n) (pieces_left req)) in *.
  assert (0 <= len_of ps < 2 ^ 32) as Hlen.
  { assert (length ps = Z.to_nat n) as Hl by (apply pieces_left_drop; [done|lia]). pose proof (eo_max _ He) as HM.
    pose proof (eo_idx _ He). unfold XDMA_ENGINE_XFER_MAX_DESC in HM.
    destruct (len_of_bound ps) as [L1 L2]; [apply Forall_take, ro_pieces, Hq|]. split; [done|]. rewrite Hl in L2. lia. }
  destruct (IH (S i) (req_after (x_engine s) req) (nents - n) done1 s1) as (s2 & ws & E2 & W2 & M2).
  - constructor; try done. rewrite Hu1. apply Hid.
  - rewrite Hne. by apply rest_after.
  - unfold e_eop_flush in *. congruence.
  - congruence.
  - congruence.
  - by rewrite Hsh1.
  - done.
  - lia.
  - assert (pieces_left req = ps ++ pieces_left (req_after (x_engine s) req)) as Hsplit.
    { rewrite pieces_left_after by (pose proof (ro_idx _ Hq); lia). symmetry. apply take_drop. }
    exists s2. eexists. rewrite E2. split; [|split; [rewrite W2, W1, <- !app_assoc; reflexivity|]].
    + rewrite Hsplit, len_of_app, Hdone, u32_small by (unfold fits_u32; lia). do 3 f_equal. lia.
    + intros lo hi. destruct (starts_step lo hi (after_init (x_engine s) req) e x d ws Hst ltac:(by rewrite Hce)) as (lo' & hi' & ->).
      { rewrite Hbus. destruct (eo_bus _ He). unfold fits_u64, bus_at. pose proof (eo_idx _ He). lia. }
      pose proof (chain_all _ req He Hq) as Hch. fold n in Hch.
      apply (chain_more _ _ _ _ _ (length (e_desc (after_init (x_engine s) req)) - Z.to_nat n)) in Hch.
      rewrite Nat.add_comm, Nat.sub_add in Hch by (cbn; rewrite mapped_length; pose proof (eo_desc _ He); pose proof (eo_idx _ He); lia).
      rewrite Hbus.
      rewrite engine_moves_cons, Hch. cbn [mbind option_bind]. rewrite Hcf in M2.
      replace (e_desc_bus (x_engine s1)) with (e_desc_bus (x_engine s)) in M2 by (unfold e_desc_bus; by rewrite Hcf).
      rewrite M2. cbn [mbind option_bind]. unfold new_moves. fold n. fold ps.
      rewrite (moves_res _ _ 0 _ _ Hst), Hsplit, moves_app by (done || apply (ro_ep _ Hq)). done.
Qed.

Lemma piece_bytes_length ps : Forall (piece_ok XDMA_DESC_BLEN_MAX) ps -> Z.of_nat (length (concat (piece_bytes <$> ps))) = len_of ps.
Proof.
  induction 1 as [|p ps (_ & Hp & _) _ IH]; [done|]. cbn [fmap list_fmap concat len_of foldr]. fold (len_of ps).
  rewrite length_app, Nat2Z.inj_add, IH. unfold piece_bytes. rewrite length_seqZ. lia.
Qed.

(** The request of a list and the loop over it. *)
Lemma submit_loop_moves blen sz dev t (dma_mapped : bool) ep nents sgl s :
  0 < blen <= XDMA_DESC_BLEN_MAX -> 0 <= sz < 1048576 -> Forall (sg_ok blen) sgl -> request_size blen sgl < 2 ^ 27 ->
  fits_u64 ep -> idle s -> e_eop_flush (x_engine s) = false -> st_c2h (e_config (x_engine s)) = false ->
  x_offline s = false -> Z.land (e_shutdown (x_engine s)) ENGINE_SHUTDOWN_REQUEST = 0 -> obedient dev ->
  let s0 := set_mapping nents (x_unmaps s) s in let total := Z.of_nat (length (concat (sg_bytes <$> sgl))) in
  exists req s1 ws, let ps := pieces_left req in xdma_init_request blen sz sgl ep true = Ok (Some req) /\ idle s0 /\ rest_ok req (sw_desc_cnt req) /\
    submit_loop (S (Z.to_nat (sw_desc_cnt req))) t dma_mapped dev 0 req (sw_desc_cnt req) 0 0 s0 = Ok ((0, total), s1) /\
    Forall (piece_ok XDMA_DESC_BLEN_MAX) ps /\ concat (piece_bytes <$> ps) = concat (sg_bytes <$> sgl) /\ x_writes s1 = x_writes s ++ ws /\
    engine_moves (e_desc_bus (x_engine s)) (starts 0 0 ws) = Some (moves (e_config (x_engine s)) 0 ep ps).
Proof.
  intros Hb Hsz Hsg Hrs Hep Hid Heop Hst Hoff Hshut Hob s0 total.
  assert (idle s0) as Hid0 by (destruct Hid; by constructor).
  destruct (init_request_run blen sz Hb Hsz sgl ep Hsg Hrs) as (_ & req & Ereq & Hrep & Hri & Hrc & Hsmall & Hbytes & Hpieces & _).
  assert (Forall (piece_ok XDMA_DESC_BLEN_MAX) (pieces_left req)) as Hp4
    by (eapply Forall_impl; [exact Hpieces|]; intros p (H1 & H2 & H3); repeat split; lia).
  assert (rest_ok req (sw_desc_cnt req)) as Hrest.
  { split; [lia|]. intros Hnz. constructor; [lia|lia|congruence|done]. }
  destruct (submit_loop_obeys t dma_mapped dev (S (Z.to_nat (sw_desc_cnt req))) 0 req (sw_desc_cnt req) 0 s0 Hid0 Hrest Heop Hst Hoff Hshut Hob)
    as (s1 & ws & E & W & M); [lia|]. exists req, s1, ws. rewrite Z.add_0_l in E.
  unfold total. rewrite <- Hbytes, piece_bytes_length by done. repeat (split; [done|]). rewrite <- Hrep. apply M.
Qed.

(** A list is transferred.  On a memory-mapped engine or one to the device, which is idle,
    with a device that carries out each transfer it is started on and interrupts, the chains
    that are started make, one after the other, the moves of pieces that are exactly the
    bytes of the list, in order, to or from consecutive addresses on the card; the value
    returned is the number of bytes. *)
Theorem submit_moves_request blen sz dev t (write dma_mapped : bool) ep orig_nents nents sgl s :
  0 < blen <= XDMA_DESC_BLEN_MAX -> 0 <= sz < 1048576 -> Forall (sg_ok blen) sgl -> request_size blen sgl < 2 ^ 27 ->
  fits_u64 ep -> nents <> 0 -> idle s -> e_eop_flush (x_engine s) = false -> st_c2h (e_config (x_engine s)) = false ->
  x_offline s = false -> Z.land (e_shutdown (x_engine s)) ENGINE_SHUTDOWN_REQUEST = 0 ->
  e_dir (x_engine s) = (if write then DMA_TO_DEVICE else DMA_FROM_DEVICE) -> obedient dev ->
  exists ps s' ws, xdma_xfer_submit blen sz dev t write dma_mapped true ep orig_nents nents sgl s =
      Ok (Z.of_nat (length (concat (sg_bytes <$> sgl))), s') /\
    Forall (piece_ok XDMA_DESC_BLEN_MAX) ps /\ concat (piece_bytes <$> ps) = concat (sg_bytes <$> sgl) /\
    x_writes s' = x_writes s ++ ws /\
    engine_moves (e_desc_bus (x_engine s)) (starts 0 0 ws) = Some (moves (e_config (x_engine s)) 0 ep ps).
Proof.
  intros Hb Hsz Hsg Hrs Hep Hne Hid Heop Hst Hoff Hshut Hdir Hob. unfold xdma_xfer_submit. cstep. rewrite Hoff.
  rewrite decide_False by (intros ?; congruence). rewrite decide_False by done. cstep.
  destruct (submit_loop_moves blen sz dev t dma_mapped ep nents sgl s) as (req & s1 & ws & Ereq & _ & _ & E & Hps & Hbytes & W & M); [done..|].
  set (ps := pieces_left req) in *.
  erewrite cmd_bind_run by (apply lift_run; exact Ereq). rewrite (cmd_bind_run _ _ _ _ _ E). cbv beta iota. cstep.
  set (total := Z.of_nat _) in *. assert ((if decide (total = 0) then 0 else total) = total) as -> by (case_decide; lia).
  destruct (negb dma_mapped && bool_decide (x_sgt_nents s1 <> 0)); unfold when, dma_unmap_sg, xdma_request_free; cstep; cstep;
    eexists ps, _, ws; by repeat (split; [done|]).
Qed.
End obedient.
End driver.

(** ** Witnesses and examples *)
Definition idle_system (e : xdma_engine) : xdma := mkXdma e ∅ [] [] false 0 [].
Definition h2c_engine : xdma_engine :=
  mkEngine (mkEngCfg DMA_TO_DEVICE false false false 4 0x200000 0) (replicate 4 (mkDesc 0 0 0 0 0 0 0 0)) [] 2 0 0 false 0 0 [].

Lemma h2c_idle : idle (idle_system h2c_engine).
Proof. repeat constructor; vm_compute; (done || (repeat split; congruence)). Qed.
Lemma sample_sgl_ok : Forall (sg_ok 4096) sample_sgl /\ request_size 4096 sample_sgl < 2 ^ 27.
Proof. split; [repeat constructor; vm_compute; congruence|reflexivity]. Qed.

(** A device that does nothing, and one that carries out the transfer at the head of the list. *)
Definition dead (i : nat) (s : xdma) : reaction := mkReaction [] 0.
Definition prompt (i : nat) (s : xdma) : reaction :=
  mkReaction (match head (e_transfer_list (x_engine s)) with
              | Some t => match x_xfers s !! t with
                          | Some x => [mkEvent [] 0 [] 0 (t_desc_num x)]
                          | None => []
                          end
              | None => []
              end) 0.

Lemma prompt_obedient : obedient prompt.
Proof.
  intros i s t x Hl Hx. unfold prompt. rewrite Hl. cbn [head]. rewrite Hx. eexists. split; [reflexivity|].
  repeat split.
Qed.

Lemma submit_cleans_up_witness : exists rv s',
  xdma_xfer_submit false false 0 4096 400 dead 7 true false true 0x1000 3 3 sample_sgl (idle_system h2c_engine) = Ok (rv, s') /\
  e_transfer_list (x_engine s') = [] /\ x_xfers s' = ∅ /\ mapping s' = (0, [3]).
Proof.
  destruct sample_sgl_ok as [H1 H2].
  destruct (submit_cleans_up false false 0 4096 400 dead 7 true false true 0x1000 3 3 sample_sgl (idle_system h2c_engine))
    as (rv & s' & E & _ & Hl & _ & Hx & Hm);
    [vm_compute; split; congruence|lia|exact H1|exact H2|vm_compute; split; congruence|lia|exact h2c_idle|reflexivity|reflexivity|reflexivity|].
  exists rv, s'. split; [exact E|]. split; [exact Hl|]. split; [rewrite Hx; apply delete_empty|]. destruct Hm as [Hm|Hm]; exact Hm.
Defined.

Lemma submit_moves_request_witness : exists ps s' ws,
  xdma_xfer_submit false false 0 4096 400 prompt 7 true false true 0x1000 3 3 sample_sgl (idle_system h2c_engine) = Ok (9096, s') /\
  concat (piece_bytes <$> ps) = concat (sg_bytes <$> sample_sgl) /\ x_writes s' = ws /\
  engine_moves 0x200000 (starts 0 0 ws) = Some (moves (e_config h2c_engine) 0 0x1000 ps).
Proof.
  destruct sample_sgl_ok as [H1 H2].
  destruct (submit_moves_request false false 0 eq_refl 4096 400 prompt 7 true false 0x1000 3 3 sample_sgl (idle_system h2c_engine))
    as (ps & s' & ws & E & _ & Hb & Hw & Hm);
    [vm_compute; split; congruence|lia|exact H1|exact H2|vm_compute; split; congruence|lia|exact h2c_idle|reflexivity..|exact prompt_obedient|].
  assert (Z.of_nat (length (concat (sg_bytes <$> sample_sgl))) = 9096) as L by (vm_compute; reflexivity). rewrite L in E.
  exists ps, s', ws. split; [exact E|]. split; [exact Hb|]. split; [exact Hw|exact Hm].
Defined.

(** The transfer in two chains: the second starts at the beginning of the array. *)
Example two_chains :
  match xdma_xfer_submit false false 0 4096 400 prompt 7 true false true 0x1000 3 3 sample_sgl (idle_system h2c_engine) with
  | Ok (_, s') => engine_moves 0x200000 (starts 0 0 (x_writes s')) =
      Some [(0x10000, 0x1000, 4096); (0x11000, 0x2000, 904); (0x40000, 0x2388, 4096)]
  | Fault _ => False
  end.
Proof. vm_compute. reflexivity. Qed.

(** ** Transfers into several buffers

    [xdma_multi_buffer_xfer_submit], which the sample application reads and writes
    through, tells the length of each buffer, [bd]; otherwise it is [xdma_xfer_submit] without its
    checks, but for what it does after waiting. *)
Section multi.
Context (poll_mode enable_st_c2h_credit : bool) (interrupt_enable_mask_value : Z).

(** The lengths of the first [n] results, from the [i]-th on. *)
Definition take_results (results : list xdma_result) (i n : Z) (done : Z) (bd : list Z) : outcome (Z * list Z) :=
  for_loop (Z.to_nat n) (fun k '(d, bd) =>
    r ← aget results (i + Z.of_nat k);
    bd ← aset bd (Z.of_nat k) (result_length r);
    Ok (d + result_length r, bd)) (done, bd).

Definition clear_lengths (first bd_num : Z) (bd : list Z) : outcome (list Z) :=
  for_loop (Z.to_nat (bd_num - first)) (fun k bd => aset bd (first + Z.of_nat k) 0) bd.

Definition multi_wait_result (t nents done bd_num : Z) (bd : list Z) : cmd xdma (Z * Z * Z * list Z) :=
  x ← deref t;
  e ← gets x_engine;
  match t_state x with
  | TRANSFER_STATE_COMPLETED =>
      if st_c2h (e_config e) then
        '(done, bd) ← lift (take_results (e_cyclic_result e) (t_res_virt x) (t_desc_cmpl x) done bd);
        mret (0, done, (if e_eop_flush e then 0 else nents), bd)
      else mret (0, done + t_len x, nents, bd)
  | TRANSFER_STATE_FAILED => mret (- EIO, done, nents, bd)
  | _ =>
      rv ← transfer_abort t;
      _ ← when (bool_decide (rv = 0)) (xdma_engine_stop poll_mode enable_st_c2h_credit);
      if st_c2h (e_config e) && bool_decide (t_desc_cmpl x = 0) then
        '(done, bd) ← lift (take_results (e_cyclic_result e) (t_res_virt x) (t_desc_cmpl x) done bd);
        bd ← lift (clear_lengths (t_desc_cmpl x) bd_num bd);
        mret (0, done, nents, bd)
      else mret (- ERESTARTSYS, done, nents, bd)
  end.

Definition multi_one (t : Z) (dma_mapped : bool) (dev : xdma -> reaction) (req : xdma_request_cb) (nents done bd_num : Z)
    (bd : list Z) : cmd xdma (Z * list Z * option (Z * Z * xdma_request_cb)) :=
  s ← get;
  '(xfer, e, req) ← lift (transfer_init (x_engine s) req);
  nents ← lift (sint (nents - t_desc_num xfer));
  let xfer := set_t_flags (if dma_mapped then t_flags xfer else XFER_FLAG_NEED_UNMAP) xfer in
  _ ← modify (fun s => set_xfers (<[t := set_t_last (bool_decide (nents = 0)) xfer]> (x_xfers s)) (set_engine e s));
  rv ← transfer_queue poll_mode enable_st_c2h_credit t;
  if decide (rv < 0) then mret (rv, bd, None) else
  s ← get;
  _ ← wait poll_mode enable_st_c2h_credit interrupt_enable_mask_value (re_events (dev s));
  '(rv, done, nents, bd) ← multi_wait_result t nents done bd_num bd;
  used ← (e ← gets x_engine; x ← deref t; lift (sint (e_desc_used e - t_desc_num x)));
  _ ← on_engine (fun e => set_indices (e_desc_idx e) used e);
  _ ← transfer_destroy t;
  mret (rv, bd, Some (nents, done, req)).

Fixpoint multi_loop (fuel : nat) (t : Z) (dma_mapped : bool) (dev : nat -> xdma -> reaction) (tfer_idx : nat)
    (req : xdma_request_cb) (nents done rv bd_num : Z) (bd : list Z) : cmd xdma (Z * Z * list Z) :=
  match fuel with
  | O => fail OutOfFuel
  | S fuel =>
      if decide (nents = 0) then mret (rv, done, bd) else
      r ← multi_one t dma_mapped (dev tfer_idx) req nents done bd_num bd;
      match r with
      | (rv, bd, None) => mret (rv, done, bd)
      | (rv, bd, Some (nents, done, req)) =>
          if decide (rv < 0) then mret (rv, done, bd)
          else multi_loop fuel t dma_mapped dev (S tfer_idx) req nents done rv bd_num bd
      end
  end.

Definition xdma_multi_buffer_xfer_submit (desc_blen_max sizeof_req : Z) (dev : nat -> xdma -> reaction) (t : Z)
    (dma_mapped mem : bool) (ep_addr orig_nents nents : Z) (sgl : list scatterlist) (bd_num : Z) (bd : list Z) :
    cmd xdma (Z * list Z) :=
  s ← get;
  if x_offline s then mret (- EBUSY, bd) else
  if decide (nents = 0) then mret (- EIO, bd) else
  _ ← modify (fun s => set_mapping nents (x_unmaps s) s);
  req ← lift (xdma_init_request desc_blen_max sizeof_req sgl ep_addr mem);
  '(rv, done, bd) ← match req with
                    | None => mret (-12, 0, bd)
                    | Some req => multi_loop (S (Z.to_nat (sw_desc_cnt req))) t dma_mapped dev 0 req (sw_desc_cnt req) 0 0 bd_num bd
                    end;
  s ← get;
  _ ← when (negb dma_mapped && bool_decide (x_sgt_nents s <> 0)) (dma_unmap_sg orig_nents);
  _ ← xdma_request_free t;
  mret (if decide (done = 0) then rv else done, bd).
End multi.

(** ** What goes wrong *)

(** A memory-mapped engine with two transfers of two descriptors. *)
Definition two_xfer (bus : Z) : xdma_transfer :=
  mkXfer 0 0 0 bus 2 2 0 0 2 DMA_TO_DEVICE TRANSFER_STATE_SUBMITTED 0 false false 64 false.
Definition busy_system (l : list Z) : xdma :=
  mkXdma (mkEngine (mkEngCfg DMA_TO_DEVICE false false false 4 0x200000 0) (replicate 4 (mkDesc 0 0 0 0 0 0 0 0)) [] 0 4 0 true 0 0 l)
    {[7 := two_xfer 0x200000; 9 := two_xfer 0x200040]} [] [] false 0 [].
Definition state_after (t : Z) (r : outcome (Z * xdma)) : option (option transfer_state * list Z * bool) :=
  match r with Ok (_, s) => Some (t_state <$> x_xfers s !! t, e_transfer_list (x_engine s), e_running (x_engine s)) | Fault _ => None end.

(** An interrupt after the first of two descriptors, while the engine is busy: the transfer is
    reported as failed and taken off the engine, which goes on with it. *)
Example busy_transfer_failed :
  state_after 7 (engine_service false false 0 XDMA_STAT_BUSY 1 (busy_system [7])) = Some (Some TRANSFER_STATE_FAILED, [], false).
Proof. reflexivity. Qed.

(** An error before the first descriptor is complete: the engine is stopped, but the transfer stays
    on it and nobody is told. *)
Example first_error_ignored :
  state_after 7 (engine_service false false 0 XDMA_STAT_MAGIC_STOPPED 0 (busy_system [7])) =
  Some (Some TRANSFER_STATE_SUBMITTED, [7], false).
Proof. reflexivity. Qed.

(** A transfer behind another one is not taken off the engine when it is aborted; its memory is
    freed afterwards. *)
Lemma abort_behind_stays t u l s x : e_transfer_list (x_engine s) = u :: l -> t ∈ l -> t <> u -> x_xfers s !! t = Some x ->
  t_desc_num x <> 0 -> exists s', transfer_abort t s = Ok (0, s') /\ t ∈ e_transfer_list (x_engine s').
Proof.
  intros Hl Hin Hne Hx Hn. unfold transfer_abort. rewrite (cmd_bind_run _ _ _ _ _ (xfer_deref_run _ _ _ Hx)). rewrite decide_False by done.
  unfold head_transfer. erewrite cmd_bind_run by (erewrite cmd_bind_run by reflexivity; reflexivity). rewrite Hl. cbn [head].
  rewrite (bool_decide_eq_false_2 (Some u = Some t)) by congruence. cstep. unfold when. destruct (bool_decide _).
  - erewrite cmd_bind_run by (apply xfer_update_run; exact Hx). eexists. split; [reflexivity|]. cbn. rewrite Hl. by right.
  - cstep. eexists. split; [reflexivity|]. rewrite Hl. by right.
Qed.

(** A stream from the device, flushed at the end of a packet. *)
Definition stream_engine (eop : bool) : xdma_engine :=
  mkEngine (mkEngCfg DMA_FROM_DEVICE true false eop 4 0x200000 0x300000) (replicate 4 (mkDesc 0 0 0 0 0 0 0 0))
    (replicate 4 (mkResult 0 0)) 2 0 0 false 0 0 [].

(** Two interrupts, with two and with three of four descriptors so far; the packet ends with the third.
    The first two are counted twice, and the results of five descriptors are read. *)
Definition two_interrupts (i : nat) (s : xdma) : reaction :=
  mkReaction [mkEvent [(0%nat, mkResult 0 64); (1%nat, mkResult 0 64)] 0 [] XDMA_STAT_BUSY 2;
              mkEvent [(2%nat, mkResult RX_STATUS_EOP 64)] 0 [] XDMA_STAT_BUSY 3] 0.
Definition three_pages : list scatterlist := [mkSg 0x10000 4096; mkSg 0x20000 4096].

Example eop_flush_counts_twice :
  xdma_xfer_submit false false 0 4096 400 two_interrupts 7 false false true 0 4 4 [mkSg 0x10000 16384]
    (idle_system (mkEngine (mkEngCfg DMA_FROM_DEVICE true false true 4 0x200000 0x300000) (replicate 4 (mkDesc 0 0 0 0 0 0 0 0))
       (replicate 4 (mkResult 0 0)) 0 0 0 false 0 0 [])) = Fault OutOfBounds.
Proof. vm_compute. reflexivity. Qed.

(** Reading from a stream on which nothing arrives: after the time-out the read succeeds, with no
    bytes and empty buffers. *)
Example stream_timeout_succeeds :
  match xdma_multi_buffer_xfer_submit false false 0 4096 400 dead 7 false true 0 2 2 three_pages 2 [4096; 4096]
      (idle_system (stream_engine false)) with
  | Ok (r, s) => r = (0, [0; 0]) /\ e_transfer_list (x_engine s) = []
  | Fault _ => False
  end.
Proof. vm_compute. split; reflexivity. Qed.
