(* ===== verification/XdmaAperture.v ===== *)
(** * libxdma.c: transfers through an aperture

    [xdma_xfer_aperture] moves a list through a window of the card, [aperture] bytes
    from [ep_addr] on, over and over: byte [i] of the list goes to or comes from
    [ep_addr + i mod aperture].  It makes its descriptors itself, a chain at a time;
    queueing, waiting and cleaning up are those of [XdmaEngine].

    The theorem is about the first chain, [aperture_covers]: it does what is meant, as far as
    the array of descriptors reaches.  What the second chain does is shown by examples: the
    request never moves on in the list, so that it starts again with the first entry. *)

From stdpp Require Import gmap.
From S2P Require Import Prelude Device XdmaDesc XdmaEngine.

Open Scope Z_scope.

(** The members of the request that are used; [ap_sg] is the entry to start with. *)
Record ap_request := mkApReq {
  ap_ep_addr : Z; ap_aperture : Z; ap_total_len : Z; ap_offset : Z; ap_sg_idx : Z; ap_sg_offset : Z;
  ap_sg : list scatterlist }.

(** The variables of the loops that cut the entries. *)
Record ap_cut := mkCut {
  c_desc : list xdma_desc; c_idx : Z; c_cnt : Z; c_ep : Z; c_offset : Z; c_len : Z; c_sg_offset : Z }.
Definition set_c_sg_offset v c := mkCut (c_desc c) (c_idx c) (c_cnt c) (c_ep c) (c_offset c) (c_len c) v.

Section aperture.
(** The engine, the module parameter, and the window. *)
Context (dir : dma_data_direction) (desc_max desc_blen_max ep_addr aperture : Z).

Definition ap_maxlen : Z := Z.min aperture desc_blen_max.
Definition ep_addr_max : Z := u64 (ep_addr + aperture - 1).

(** One descriptor: how many bytes, and the variables afterwards. *)
Definition cut_one (addr tlen : Z) (c : ap_cut) : outcome (Z * ap_cut) :=
  let ep := if decide (c_ep c > ep_addr_max) then ep_addr else c_ep c in
  let len := Z.min tlen ap_maxlen in
  let len := if decide (u64 (ep + len) > ep_addr_max) then u32 (ep_addr_max - ep + 1) else len in
  descs ← upd (c_desc c) (c_idx c) (xdma_desc_set addr ep len dir);
  Ok (len, mkCut descs (c_idx c + 1) (u32 (c_cnt c + 1)) (u64 (ep + len)) (u32 (c_offset c + len)) (u32 (c_len c + len))
             (u32 (c_sg_offset c + len))).

(** One entry; what is left of it.  The fuel is the number of descriptors that are left, and one. *)
Fixpoint cut_entry (fuel : nat) (addr tlen : Z) (c : ap_cut) : outcome (Z * ap_cut) :=
  match fuel with
  | O => Fault OutOfFuel
  | S fuel =>
      if decide (tlen = 0) then Ok (tlen, c) else
      '(len, c) ← cut_one addr tlen c;
      let tlen := u32 (tlen - len) in
      if decide (c_idx c = desc_max) then Ok (tlen, c) else cut_entry fuel (u64 (addr + len)) tlen c
  end.

(** The entries, with the index [i] of the next; [sg_max] is their number. *)
Fixpoint cut_entries (sg : list scatterlist) (sg_max i : Z) (c : ap_cut) : outcome (Z * ap_cut) :=
  if decide (i < sg_max /\ c_idx c < desc_max) then
    match sg with
    | [] => Fault NullDeref
    | s :: sg =>
        let tlen := u32 (sg_dma_len s - c_sg_offset c) in
        let addr := u64 (sg_dma_address s + c_sg_offset c) in
        '(tlen, c) ← cut_entry (S (Z.to_nat (desc_max - c_idx c))) addr tlen c;
        if decide (tlen = 0) then cut_entries sg sg_max (i + 1) (set_c_sg_offset 0 c) else Ok (i, c)
    end
  else Ok (i, c).
End aperture.

Definition link_to (control next : Z) (d : xdma_desc) : xdma_desc :=
  mkDesc control (bytes d) (src_addr_lo d) (src_addr_hi d) (dst_addr_lo d) (dst_addr_hi d) (PCI_DMA_L next) (PCI_DMA_H next).

(** The linked list; [last] is [desc_cnt - 1], of type [unsigned int].  The fuel is the number
    of descriptors, and one: behind the array a store is a fault. *)
Fixpoint ap_link (fuel : nat) (descs : list xdma_desc) (desc_virt desc_bus i last : Z) : outcome (list xdma_desc) :=
  match fuel with
  | O => Fault OutOfFuel
  | S fuel =>
      if decide (i < last) then
        let desc_bus := u64 (desc_bus + sizeof_xdma_desc) in
        descs ← upd descs desc_virt (link_to DESC_MAGIC desc_bus);
        ap_link fuel descs (desc_virt + 1) desc_bus (i + 1) last
      else upd descs desc_virt
        (link_to (Z.lor DESC_MAGIC (Z.lor (Z.lor XDMA_DESC_STOPPED XDMA_DESC_EOP) XDMA_DESC_COMPLETED)) 0)
  end.

(** One chain: the transfer, and the engine and the request afterwards. *)
Definition aperture_chain (desc_blen_max sg_max : Z) (dma_mapped : bool) (e : xdma_engine) (r : ap_request) :
    outcome (xdma_transfer * xdma_engine * ap_request) :=
  let v := e_desc_idx e in
  let desc_bus := u64 (e_desc_bus e + sizeof_xdma_desc * v) in
  let res_bus := u64 (e_cyclic_result_bus e + sizeof_xdma_result * v) in
  let ep := u64 (ap_ep_addr r + Z.land (ap_offset r) (u32 (ap_aperture r - 1))) in
  '(i, c) ← cut_entries (e_dir e) (e_desc_max e) desc_blen_max (ap_ep_addr r) (ap_aperture r) (ap_sg r) sg_max (ap_sg_idx r)
    (mkCut (e_desc e) v 0 ep (ap_offset r) 0 (ap_sg_offset r));
  let n := c_cnt c in
  descs ← ap_link (S (length (c_desc c))) (c_desc c) v desc_bus 0 (u32 (n - 1));
  descs ← fill_adjacent v n descs;
  let xfer := mkXfer v v res_bus desc_bus n n v 0 n (e_dir e) TRANSFER_STATE_NEW
    (if dma_mapped then 0 else XFER_FLAG_NEED_UNMAP) false (bool_decide (c_offset c = ap_total_len r)) (c_len c) false in
  let e := set_indices (Z.rem (v + n) (e_desc_max e)) (s32 (e_desc_used e + n)) (set_arrays descs (e_cyclic_result e) e) in
  Ok (xfer, e, mkApReq (ap_ep_addr r) (ap_aperture r) (ap_total_len r) (c_offset c) i (c_sg_offset c) (ap_sg r)).

Section driver.
Context (poll_mode enable_st_c2h_credit : bool) (interrupt_enable_mask_value : Z).

(** After waiting: the value returned and the bytes done. *)
Definition aperture_result (t status done : Z) : cmd xdma (Z * Z) :=
  x ← deref t;
  match t_state x with
  | TRANSFER_STATE_COMPLETED => mret (0, done + t_len x)
  | TRANSFER_STATE_FAILED => mret (- EIO, done)
  | _ =>
      _ ← on_engine (set_e_status status);
      rv ← transfer_abort t;
      _ ← when (bool_decide (rv = 0)) (xdma_engine_stop poll_mode enable_st_c2h_credit);
      mret (- ERESTARTSYS, done)
  end.

(** One turn of the loop.  [None]: the transfer could not be queued. *)
Definition aperture_one (desc_blen_max sg_max t : Z) (dma_mapped : bool) (dev : xdma -> reaction) (r : ap_request) (done : Z) :
    cmd xdma (Z * option (Z * ap_request)) :=
  s ← get;
  '(xfer, e, r) ← lift (aperture_chain desc_blen_max sg_max dma_mapped (x_engine s) r);
  _ ← modify (fun s => set_xfers (<[t := xfer]> (x_xfers s)) (set_engine e s));
  rv ← transfer_queue poll_mode enable_st_c2h_credit t;
  if decide (rv < 0) then mret (rv, None) else
  s ← get;
  _ ← wait poll_mode enable_st_c2h_credit interrupt_enable_mask_value (re_events (dev s));
  '(rv, done) ← aperture_result t (re_status (dev s)) done;
  used ← (e ← gets x_engine; x ← deref t; lift (sint (e_desc_used e - t_desc_num x)));
  _ ← on_engine (fun e => set_indices (e_desc_idx e) used e);
  _ ← transfer_destroy t;
  mret (rv, Some (done, r)).

Fixpoint aperture_loop (fuel : nat) (desc_blen_max sg_max t : Z) (dma_mapped : bool) (dev : nat -> xdma -> reaction) (k : nat)
    (r : ap_request) (done rv : Z) : cmd xdma (Z * Z) :=
  match fuel with
  | O => fail OutOfFuel
  | S fuel =>
      if decide (ap_offset r < ap_total_len r) then
        one ← aperture_one desc_blen_max sg_max t dma_mapped (dev k) r done;
        match one with
        | (rv, None) => mret (rv, done)
        | (rv, Some (done, r)) =>
            if decide (rv < 0) then mret (rv, done) else aperture_loop fuel desc_blen_max sg_max t dma_mapped dev (S k) r done rv
        end
      else mret (rv, done)
  end.

(** [orig_nents] is the length of the list, [sgl] the entries that are mapped and [nents] their number;
    [mem]: there is memory for the request. *)
Definition xdma_xfer_aperture (fuel : nat) (desc_blen_max : Z) (dev : nat -> xdma -> reaction) (t : Z)
    (write : bool) (ep_addr aperture : Z) (dma_mapped mem : bool) (orig_nents nents : Z) (sgl : list scatterlist) : cmd xdma Z :=
  s ← get;
  if x_offline s then mret (- EBUSY) else
  if decide (e_dir (x_engine s) <> if write then DMA_TO_DEVICE else DMA_FROM_DEVICE) then mret (-22) else
  if e_streaming (x_engine s) then mret (-22) else
  if decide (nents = 0) then mret (- EIO) else
  _ ← modify (fun s => set_mapping nents (x_unmaps s) s);
  '(rv, done) ←
    (if mem then
       aperture_loop fuel desc_blen_max nents t dma_mapped dev 0
         (mkApReq ep_addr aperture (foldl (fun n sg => u32 (n + sg_dma_len sg)) 0 sgl) 0 0 0 sgl) 0 0
     else mret (-12, 0));
  s ← get;
  _ ← when (negb dma_mapped && bool_decide (x_sgt_nents s <> 0)) (dma_unmap_sg orig_nents);
  _ ← when mem (xdma_request_free t);
  mret (if decide (done = 0) then rv else done).
End driver.

(** ** What the first chain does *)

(** The bytes a move transfers: the address in memory, and the address on the card. *)
Definition byte_pairs (dir : dma_data_direction) (m : Z * Z * Z) : list (Z * Z) :=
  let '(src, dst, len) := m in
  if decide (dir = DMA_TO_DEVICE) then zip (seqZ src len) (seqZ dst len) else zip (seqZ dst len) (seqZ src len).

(** The addresses in memory, and where in the window each of them belongs. *)
Definition in_window (ep_addr aperture : Z) (bs : list Z) : list (Z * Z) :=
  imap (fun i a => (a, ep_addr + Z.of_nat i mod aperture)) bs.

(** The list is in memory, and the addresses of its bytes. *)
Definition in_memory (sg : scatterlist) : Prop :=
  0 <= sg_dma_address sg /\ 0 <= sg_dma_len sg /\ sg_dma_address sg + sg_dma_len sg < 2 ^ 64.
Definition list_bytes (sgl : list scatterlist) : list Z := concat (sg_bytes <$> sgl).

Definition card_move (dir : dma_data_direction) (addr ep len : Z) : Z * Z * Z :=
  if decide (dir = DMA_TO_DEVICE) then (addr, ep, len) else (ep, addr, len).

Lemma desc_set_move addr ep len dir d : xdma_desc_set addr ep len dir d = with_move (card_move dir addr ep len) d.
Proof. unfold xdma_desc_set, card_move. by case_decide. Qed.

Lemma byte_pairs_card dir addr ep len : byte_pairs dir (card_move dir addr ep len) = zip (seqZ addr len) (seqZ ep len).
Proof. unfold byte_pairs, card_move. by case_decide. Qed.

Lemma seqZ_length_of a n : 0 <= n -> Z.of_nat (length (seqZ a n)) = n.
Proof. intros H. rewrite length_seqZ. lia. Qed.

Lemma in_window_app ep ap bs addr len : 0 < ap -> 0 < len -> Z.of_nat (length bs) mod ap + len <= ap ->
  in_window ep ap (bs ++ seqZ addr len) = in_window ep ap bs ++ zip (seqZ addr len) (seqZ (ep + Z.of_nat (length bs) mod ap) len).
Proof.
  intros Ha Hl Hf. unfold in_window. rewrite imap_app. f_equal. apply list_eq. intros i.
  rewrite list_lookup_imap. destruct (decide (Z.of_nat i < len)) as [Hi|Hi].
  - rewrite lookup_seqZ_lt by lia. cbn [fmap option_fmap option_map].
    symmetry. apply lookup_zip_with_Some. eexists _, _. rewrite !lookup_seqZ_lt by lia. split; [|done].
    cbn. f_equal. rewrite <- Z.add_assoc. f_equal. rewrite Nat2Z.inj_add. set (o := Z.of_nat (length bs)) in *.
    pose proof (Z.mod_pos_bound o ap Ha). rewrite Z.add_mod, (Z.mod_small (Z.of_nat i) ap) by lia. apply Z.mod_small. lia.
  - rewrite lookup_seqZ_ge by lia. symmetry. apply lookup_ge_None. rewrite length_zip_with, !length_seqZ. lia.
Qed.

Section cutting.
(** The window and the array, on the engine [e] before the chain. *)
Context (e : xdma_engine) (blen ep ap : Z).
Context (He : engine_ok e) (Hblen : 0 < blen) (Hap : 0 < ap) (Hep : 0 <= ep) (Hfits : ep + 2 * ap <= 2 ^ 64).
Local Notation one := (cut_one (e_dir e) blen ep ap).
Local Notation entry := (cut_entry (e_dir e) (e_desc_max e) blen ep ap).
Local Notation entries := (cut_entries (e_dir e) (e_desc_max e) blen ep ap).

(** The bytes [bs] are described by the moves [ms]. *)
Record cut_inv (bs : list Z) (ms : list (Z * Z * Z)) (c : ap_cut) : Prop := {
  ci_desc : c_desc c = mapped (Z.to_nat (e_desc_idx e)) (length ms) (fun k => with_move (default (0, 0, 0) (ms !! k))) (e_desc e);
  ci_idx : c_idx c = e_desc_idx e + Z.of_nat (length ms);
  ci_cnt : c_cnt c = Z.of_nat (length ms);
  ci_room : c_idx c <= e_desc_max e;
  ci_offset : c_offset c = Z.of_nat (length bs);
  ci_len : c_len c = Z.of_nat (length bs);
  ci_ep : c_ep c = ep + Z.of_nat (length bs) mod ap \/ Z.of_nat (length bs) mod ap = 0 /\ c_ep c = ep + ap;
  ci_pairs : concat (byte_pairs (e_dir e) <$> ms) = in_window ep ap bs;
  ci_fit : Forall move_fits ms }.

Lemma mapped_snoc v ms m l : (v + length ms < length l)%nat -> exists d, mapped v (length ms) (fun k => with_move (default (0, 0, 0) (ms !! k))) l !! (v + length ms)%nat = Some d /\
  mapped v (length (ms ++ [m])) (fun k => with_move (default (0, 0, 0) ((ms ++ [m]) !! k))) l =
  <[(v + length ms)%nat := with_move m d]> (mapped v (length ms) (fun k => with_move (default (0, 0, 0) (ms !! k))) l).
Proof.
  intros Hl. destruct (lookup_lt_is_Some_2 l _ Hl) as [d Hd]. exists d. split.
  - rewrite mapped_lookup, Hd. cbn -[decide]. by rewrite decide_False by lia.
  - rewrite length_app, Nat.add_1_r, (mapped_S _ _ _ _ _ Hd), lookup_app_r, Nat.sub_diag by lia. cbn [lookup list_lookup default].
    f_equal. apply mapped_ext. intros k a Hk _. by rewrite lookup_app_l.
Qed.

Lemma cut_one_run addr tlen bs ms c : cut_inv bs ms c -> c_idx c < e_desc_max e -> 0 <= addr -> 0 < tlen -> addr + tlen < 2 ^ 64 ->
  Z.of_nat (length bs) + tlen < 2 ^ 32 -> 0 <= c_sg_offset c -> c_sg_offset c + tlen < 2 ^ 32 -> exists len c' m,
  one addr tlen c = Ok (len, c') /\ 0 < len <= tlen /\ cut_inv (bs ++ seqZ addr len) (ms ++ [m]) c' /\
  c_sg_offset c' = c_sg_offset c + len /\ c_idx c' = c_idx c + 1.
Proof.
  intros [D I C R O L E P F] Hi Ha Ht Hat Hbs Hs0 Hs. pose proof (eo_desc e He) as Hdl. pose proof (eo_idx e He) as Hv.
  pose proof (eo_max e He) as HM. unfold XDMA_ENGINE_XFER_MAX_DESC in HM.
  set (o := Z.of_nat (length bs) mod ap) in *. assert (0 <= o < ap) as Ho by (apply Z.mod_pos_bound; lia).
  unfold cut_one, ep_addr_max. rewrite (u64_small (ep + ap - 1)) by (unfold fits_u64; lia).
  assert ((if decide (c_ep c > ep + ap - 1) then ep else c_ep c) = ep + o) as -> by (case_decide; lia).
  assert (0 < ap_maxlen blen ap <= ap) as Hmax by (unfold ap_maxlen; lia).
  set (l0 := Z.min tlen (ap_maxlen blen ap)). assert (0 < l0 <= ap /\ l0 <= tlen) as [Hl0 Hl0t] by lia. clearbody l0.
  set (len := if decide (u64 (ep + o + l0) > ep + ap - 1) then _ else _).
  assert (len = Z.min l0 (ap - o)) as Elen.
  { unfold len. rewrite u64_small by (unfold fits_u64; lia). case_decide; [rewrite u32_small by (unfold fits_u32; lia)|]; lia. }
  clearbody len. rewrite D, I. set (v := Z.to_nat (e_desc_idx e)). set (m := card_move (e_dir e) addr (ep + o) len).
  replace (e_desc_idx e + Z.of_nat (length ms)) with (Z.of_nat (v + length ms)) by lia.
  destruct (mapped_snoc v ms m (e_desc e)) as (d & Hd & Hm); [lia|]. rewrite (upd_run _ _ _ _ Hd). cbn [mbind outcome_bind].
  rewrite desc_set_move. fold m. rewrite <- Hm. eexists len, _, m. split; [reflexivity|]. split; [lia|]. cbn [c_sg_offset c_idx].
  split; [|rewrite u32_small by (unfold fits_u32; lia); split; [done|lia]]. constructor; cbn [c_desc c_idx c_cnt c_offset c_len c_ep].
  - done.
  - rewrite length_app. cbn [length]. lia.
  - rewrite C, length_app, u32_small by (unfold fits_u32; lia). cbn [length]. lia.
  - lia.
  - rewrite O, length_app, length_seqZ, u32_small by (unfold fits_u32; lia). lia.
  - rewrite L, length_app, length_seqZ, u32_small by (unfold fits_u32; lia). lia.
  - rewrite length_app, length_seqZ, u64_small, Nat2Z.inj_add, Z2Nat.id by (unfold fits_u64; lia).
    rewrite <- Z.add_mod_idemp_l by lia. fold o. destruct (decide (o + len = ap)) as [El|].
    + right. rewrite El, Z.mod_same by lia. lia.
    + left. rewrite Z.mod_small by lia. lia.
  - rewrite fmap_app, concat_app, P. cbn [fmap list_fmap concat]. rewrite app_nil_r. unfold m. rewrite byte_pairs_card.
    symmetry. apply in_window_app; [done|lia|fold o; lia].
  - apply Forall_app. split; [done|]. constructor; [|constructor]. unfold m, card_move, move_fits, fits_u64. case_decide; cbn; lia.
Qed.

Lemma cut_entry_run fuel : forall addr tlen bs ms c, cut_inv bs ms c -> c_idx c < e_desc_max e -> 0 <= addr -> 0 <= tlen ->
  addr + tlen < 2 ^ 64 -> Z.of_nat (length bs) + tlen < 2 ^ 32 -> 0 <= c_sg_offset c -> c_sg_offset c + tlen < 2 ^ 32 ->
  (Z.to_nat (e_desc_max e - c_idx c) < fuel)%nat -> exists left c' ms',
  entry fuel addr tlen c = Ok (left, c') /\ 0 <= left <= tlen /\ cut_inv (bs ++ seqZ addr (tlen - left)) ms' c' /\
  (left = 0 \/ c_idx c' = e_desc_max e) /\ (length ms <= length ms')%nat /\ (0 < tlen -> (length ms < length ms')%nat).
Proof.
  induction fuel as [|fuel IH]; intros addr tlen bs ms c Hc Hi Ha Ht Hat Hbs Hs0 Hs Hf; [lia|]. cbn [cut_entry].
  case_decide as Hz.
  { exists tlen, c, ms. rewrite Hz, Z.sub_diag. cbn [seqZ]. rewrite app_nil_r. repeat (split; [done || lia|]). lia. }
  destruct (cut_one_run addr tlen bs ms c Hc Hi) as (len & c1 & m & E & Hlen & Hc1 & Hsg & Hi1); [lia..|].
  rewrite E. cbn [mbind outcome_bind]. rewrite (u32_small (tlen - len)) by (unfold fits_u32; lia).
  case_decide as Hend.
  { exists (tlen - len), c1, (ms ++ [m]). rewrite length_app. cbn [length]. split; [done|]. split; [lia|].
    split; [by replace (tlen - (tlen - len)) with len by lia|]. split; [by right|]. lia. }
  rewrite u64_small by (unfold fits_u64; lia). pose proof (ci_room _ _ _ Hc1).
  destruct (IH (addr + len) (tlen - len) (bs ++ seqZ addr len) (ms ++ [m]) c1) as (left & c2 & ms2 & E2 & Hl & Hc2 & Hd & Hms & _);
    [done|lia..| | | | |]; try (rewrite length_app, length_seqZ); [lia..|].
  exists left, c2, ms2. rewrite E2. split; [done|]. split; [lia|]. rewrite <- app_assoc, <- seqZ_app in Hc2 by lia.
  replace (len + (tlen - len - left)) with (tlen - left) in Hc2 by lia. split; [done|]. split; [done|]. rewrite length_app in Hms. cbn in Hms. lia.
Qed.
End cutting.

Section chain.
Context (e : xdma_engine) (blen ep ap : Z).
Context (He : engine_ok e) (Hblen : 0 < blen) (Hap : 0 < ap) (Hep : 0 <= ep) (Hfits : ep + 2 * ap <= 2 ^ 64).
Local Notation entries := (cut_entries (e_dir e) (e_desc_max e) blen ep ap).
Local Notation cut_inv := (cut_inv e ep ap).

Lemma sg_bytes_length sg : in_memory sg -> Z.of_nat (length (sg_bytes sg)) = sg_dma_len sg.
Proof. intros (_ & H & _). unfold sg_bytes. by apply seqZ_length_of. Qed.

Lemma cut_entries_run sg_max sgl : forall i bs ms c, cut_inv bs ms c -> c_sg_offset c = 0 -> sg_max = i + Z.of_nat (length sgl) ->
  Forall in_memory sgl -> Z.of_nat (length bs + length (list_bytes sgl)) < 2 ^ 32 -> exists i' c' ms' pre,
  entries sgl sg_max i c = Ok (i', c') /\ cut_inv (bs ++ pre) ms' c' /\ pre `prefix_of` list_bytes sgl /\
  (pre = list_bytes sgl \/ c_idx c' = e_desc_max e).
Proof.
  induction sgl as [|sg sgl IH]; intros i bs ms c Hc Hs Hm Hok Hl; cbn [cut_entries].
  { rewrite decide_False by (cbn in Hm; lia). exists i, c, ms, []. rewrite app_nil_r. repeat (split; [done|]). by left. }
  apply Forall_cons in Hok as [Hsg Hok]. unfold list_bytes in *. cbn [fmap list_fmap concat length] in *.
  pose proof (sg_bytes_length sg Hsg) as Hb. rewrite length_app in Hl. destruct Hsg as (S1 & S2 & S3).
  case_decide as Hroom.
  2: { exists i, c, ms, []. rewrite app_nil_r. split; [done|]. split; [done|]. split; [apply prefix_nil|]. right.
       pose proof (ci_room _ _ _ _ _ _ Hc). lia. }
  rewrite Hs, Z.sub_0_r, Z.add_0_r, u32_small, u64_small by (unfold fits_u32, fits_u64; lia).
  destruct (cut_entry_run e blen ep ap He Hblen Hap Hep Hfits (S (Z.to_nat (e_desc_max e - c_idx c))) (sg_dma_address sg) (sg_dma_len sg) bs ms c Hc)
    as (left & c1 & ms1 & E & Hleft & Hc1 & Hend & _); [lia..|]. rewrite E. cbn [mbind outcome_bind].
  assert (forall n, n <= sg_dma_len sg -> seqZ (sg_dma_address sg) n `prefix_of` sg_bytes sg) as Hpre.
  { intros n Hn. destruct (decide (n <= 0)) as [?|?]; [rewrite seqZ_nil by done; apply prefix_nil|]. unfold sg_bytes.
    replace (sg_dma_len sg) with (n + (sg_dma_len sg - n)) by lia. rewrite seqZ_app by lia. by apply prefix_app_r. }
  case_decide as Hz.
  - rewrite Hz, Z.sub_0_r in Hc1. fold (sg_bytes sg) in Hc1.
    destruct (IH (i + 1) (bs ++ sg_bytes sg) ms1 (set_c_sg_offset 0 c1)) as (i2 & c2 & ms2 & pre & E2 & Hc2 & Hp & Hd);
      [by destruct Hc1|done|lia|done|rewrite length_app; lia|].
    exists i2, c2, ms2, (sg_bytes sg ++ pre). rewrite E2, app_assoc. repeat (split; [done || by apply prefix_app|]).
    destruct Hd as [->|?]; [by left|by right].
  - exists i, c1, ms1, (seqZ (sg_dma_address sg) (sg_dma_len sg - left)). repeat (split; [done|]). split.
    + apply prefix_app_r, Hpre. lia.
    + right. destruct Hend; done.
Qed.

Lemma ap_link_run m : forall fuel l v bus i, (v + m < length l)%nat -> (m < fuel)%nat ->
  ap_link fuel l (Z.of_nat v) bus i (i + Z.of_nat m) =
  Ok (mapped v (S m) (fun k => link_to (if decide (k < m)%nat then DESC_MAGIC else Z.lor DESC_MAGIC LAST_CONTROL)
                                  (if decide (k < m)%nat then u64 (bus + 32 * (Z.of_nat k + 1)) else 0)) l).
Proof.
  induction m as [|m IH]; intros [|fuel] l v bus i Hl Hf; try lia; cbn [ap_link];
    destruct (lookup_lt_is_Some_2 l v) as [d Hd]; try lia; rewrite ?(upd_run _ _ _ _ Hd); cbn [mbind outcome_bind].
  - rewrite decide_False by lia. rewrite (mapped_cons _ _ _ _ _ Hd), mapped_0. done.
  - rewrite decide_True by lia. replace (Z.of_nat v + 1) with (Z.of_nat (S v)) by lia. replace (i + Z.of_nat (S m)) with (i + 1 + Z.of_nat m) by lia.
    rewrite IH by (rewrite ?length_insert; lia). f_equal. rewrite (mapped_cons v (S m) _ _ _ Hd). rewrite !decide_True by lia.
    replace (32 * (Z.of_nat 0 + 1)) with 32 by lia. apply mapped_ext. intros k a Hk _. unfold sizeof_xdma_desc.
    destruct (decide (k < m)%nat).
    + rewrite !decide_True by lia. f_equal. rewrite u64_add_l. f_equal. lia.
    + by rewrite !decide_False by lia.
Qed.
End chain.

(** The same engine, whose descriptors have no bits but in the last. *)
Definition reading (e : xdma_engine) : xdma_engine :=
  let c := e_config e in
  mkEngine (mkEngCfg DMA_FROM_DEVICE (ec_streaming c) (ec_non_incr_addr c) (ec_eop_flush c) (ec_desc_max c) (ec_desc_bus c) (ec_cyclic_result_bus c))
    (e_desc e) (e_cyclic_result e) (e_desc_idx e) (e_desc_used e) (e_desc_dequeued e) (e_running e) (e_shutdown e) (e_status e)
    (e_transfer_list e).

Lemma reading_ok e : engine_ok e -> e_streaming e = false -> engine_ok (reading e).
Proof. intros [M D R I B] Hs. constructor; try done. unfold st_c2h, reading. cbn. unfold e_streaming in Hs. by rewrite Hs. Qed.

(** The descriptors that are cut, linked and filled are complete. *)
Lemma aperture_descs e ms descs : engine_ok e -> (0 < length ms)%nat -> e_desc_idx e + Z.of_nat (length ms) <= e_desc_max e ->
  Z.of_nat (length descs) = e_desc_max e ->
  (descs1 ← ap_link (S (length (mapped (Z.to_nat (e_desc_idx e)) (length ms) (fun k => with_move (default (0, 0, 0) (ms !! k))) descs)))
      (mapped (Z.to_nat (e_desc_idx e)) (length ms) (fun k => with_move (default (0, 0, 0) (ms !! k))) descs)
      (e_desc_idx e) (bus_at e 0) 0 (Z.of_nat (length ms) - 1);
   fill_adjacent (e_desc_idx e) (Z.of_nat (length ms)) descs1) =
  Ok (mapped (Z.to_nat (e_desc_idx e)) (length ms) (final_desc (reading e) ms (length ms)) descs).
Proof.
  intros He Hn Hvn Hl. pose proof (eo_idx e He) as Hv. destruct (eo_bus e He) as (B1 & B2 & B3).
  set (v := Z.to_nat (e_desc_idx e)). set (n := length ms) in *. replace (e_desc_idx e) with (Z.of_nat v) by lia.
  pose proof (ap_link_run (n - 1) (S (length (mapped v n (fun k => with_move (default (0, 0, 0) (ms !! k))) descs)))
    (mapped v n (fun k => with_move (default (0, 0, 0) (ms !! k))) descs) v (bus_at e 0) 0) as L.
  replace (0 + Z.of_nat (n - 1)) with (Z.of_nat n - 1) in L by lia. replace (S (n - 1)) with n in L by lia.
  rewrite L by (rewrite mapped_length; lia). cbn [mbind outcome_bind].
  rewrite fill_adjacent_run by (rewrite !mapped_length; lia). rewrite !mapped_mapped. f_equal. apply mapped_ext. intros k d Hk _.
  unfold final_desc. destruct (default (0, 0, 0) (ms !! k)) as [[src dst] len].
  assert ((if decide (k < n - 1)%nat then u64 (bus_at e 0 + 32 * (Z.of_nat k + 1)) else 0) = next_bus (reading e) n k) as ->.
  { unfold next_bus, bus_at. cbn [reading e_desc_idx]. unfold e_desc_bus in *. cbn [reading e_config ec_desc_bus].
    repeat case_decide; try lia. rewrite u64_small; unfold fits_u64; lia. }
  unfold control_bits. destruct (decide (S k = n)) as [E|E].
  - rewrite decide_False by lia. done.
  - rewrite decide_True by lia. done.
Qed.

(** The first chain of a transfer through an aperture is right.  The bytes of the list, in order, go
    to or come from the window, byte [i] at [i mod aperture], all of them or as many as
    the array has descriptors for; the transfer counts what it moves, and is marked as the
    last one if that is all. *)
Theorem aperture_covers blen ep ap (dma_mapped : bool) e sgl : engine_ok e -> e_streaming e = false ->
  0 < blen -> 0 < ap -> 0 <= ep -> ep + 2 * ap <= 2 ^ 64 -> Forall in_memory sgl ->
  0 < Z.of_nat (length (list_bytes sgl)) < 2 ^ 32 ->
  exists x e' r' ms k, aperture_chain blen (Z.of_nat (length sgl)) dma_mapped e
      (mkApReq ep ap (Z.of_nat (length (list_bytes sgl))) 0 0 0 sgl) = Ok (x, e', r') /\ engine_ok e' /\
    t_desc_num x = Z.of_nat (length ms) /\ (0 < length ms)%nat /\
    chain (length ms) (e_desc_bus e) (e_desc e') (t_desc_bus x) = Some ms /\
    concat (byte_pairs (e_dir e) <$> ms) = in_window ep ap (take k (list_bytes sgl)) /\
    t_len x = Z.of_nat k /\ ap_offset r' = Z.of_nat k /\ t_last_in_request x = bool_decide (k = length (list_bytes sgl)) /\
    (k = length (list_bytes sgl) \/ e_desc_idx e + t_desc_num x = e_desc_max e).
Proof.
  intros He Hst Hb Hap Hep Hf Hsg Htot. pose proof (eo_idx e He) as Hv. destruct (eo_bus e He) as (B1 & B2 & B3). pose proof (eo_max e He) as HM.
  unfold XDMA_ENGINE_XFER_MAX_DESC in HM. set (total := length (list_bytes sgl)) in *. unfold aperture_chain.
  cbn [ap_ep_addr ap_offset ap_aperture ap_sg ap_sg_idx ap_sg_offset ap_total_len]. rewrite Z.land_0_l, Z.add_0_r, (u64_small ep) by (unfold fits_u64; lia).
  destruct (cut_entries_run e blen ep ap He Hb Hap Hep Hf (Z.of_nat (length sgl)) sgl 0 [] [] (mkCut (e_desc e) (e_desc_idx e) 0 ep 0 0 0))
    as (i & c & ms & pre & E & Hc & Hpre & Hall); [|done|done|done|cbn [length]; fold total; lia|].
  { constructor; cbn [c_desc c_idx c_cnt c_offset c_len c_ep length fmap list_fmap concat]; try done; try lia; [by rewrite mapped_0|]. left. change (Z.of_nat 0) with 0. rewrite Z.mod_0_l by lia. lia. }
  rewrite E. cbn [mbind outcome_bind]. clear E. cbn [app] in Hc. destruct Hc as [D I C R O L P1 P F].
  destruct Hpre as [post Hpre]. set (k := length pre) in *. assert (take k (list_bytes sgl) = pre) as Hk by (rewrite Hpre; apply take_app_length).
  assert (0 < length ms)%nat as Hn.
  { destruct ms; [|cbn; lia]. exfalso. cbn in P. destruct Hall as [Hall|Hall]; [|cbn in I; lia].
    assert (length (in_window ep ap pre) = 0%nat) as Z by (by rewrite <- P). unfold in_window in Z. rewrite length_imap, Hall in Z. fold total in Z. lia. }
  assert (u64 (e_desc_bus e + sizeof_xdma_desc * e_desc_idx e) = bus_at e 0) as ->
    by (unfold bus_at, sizeof_xdma_desc; rewrite u64_small; unfold fits_u64; lia).
  rewrite C, (u32_small (Z.of_nat (length ms) - 1)) by (unfold fits_u32; lia). rewrite D.
  pose proof (aperture_descs e ms (e_desc e) He Hn ltac:(lia) (eo_desc e He)) as Ed.
  destruct (ap_link _ _ _ _ _ _) as [descs1|]; [|done]. cbn [mbind outcome_bind] in *. rewrite Ed. cbn [mbind outcome_bind].
  eexists _, _, _, ms, k. split; [reflexivity|]. cbn [t_desc_num t_len ap_offset]. split; [|do 2 (split; [done|]); split; [|split; [|do 2 (split; [done|]); split]]].
  - pose proof (eo_res e He) as Hr. destruct He as [M Dl Rs I' B].
    constructor; cbn [set_indices set_arrays e_desc_max e_desc_bus e_config e_desc e_cyclic_result e_desc_idx]; try done.
    + by rewrite mapped_length.
    + rewrite Z.rem_mod_nonneg by lia. apply Z.mod_pos_bound, M.
  - cbn [set_indices set_arrays e_desc t_desc_bus].
    refine (described_all (reading e) ms (e_desc e) (length ms) (reading_ok e He Hst) Hn _ (eo_desc e He) eq_refl F).
    change (e_desc_idx e + Z.of_nat (length ms) <= e_desc_max e). lia.
  - by rewrite Hk.
  - cbn [t_last_in_request]. rewrite O. apply bool_decide_ext. lia.
  - cbn [t_desc_num]. destruct Hall as [Hall|Hall]; [left; unfold k; by rewrite Hall|right; lia].
Qed.

(** ** Examples and the witness *)
Definition ap_engine : xdma_engine :=
  mkEngine (mkEngCfg DMA_TO_DEVICE false false false 4 0x200000 0) (replicate 4 (mkDesc 0 0 0 0 0 0 0 0)) [] 0 0 0 false 0 0 [].

Lemma ap_engine_ok : engine_ok ap_engine.
Proof. by repeat constructor. Qed.

(** A list of 9096 bytes through a window of 8192: the last 904 go to its beginning. *)
Lemma aperture_covers_witness : exists x e' r' ms,
  aperture_chain 4096 3 true ap_engine (mkApReq 0x1000 8192 9096 0 0 0 sample_sgl) = Ok (x, e', r') /\
  t_desc_num x = 4 /\ t_last_in_request x = true /\
  ms = [(0x10000, 0x1000, 4096); (0x11000, 0x2000, 904); (0x40000, 0x2388, 3192); (0x40c78, 0x1000, 904)] /\
  chain 4 0x200000 (e_desc e') (t_desc_bus x) = Some ms /\
  concat (byte_pairs DMA_TO_DEVICE <$> ms) = in_window 0x1000 8192 (list_bytes sample_sgl).
Proof.
  assert (Z.of_nat (length (list_bytes sample_sgl)) = 9096) as L by (vm_compute; reflexivity).
  assert (Forall in_memory sample_sgl) as Hs by (repeat constructor; vm_compute; congruence).
  destruct (aperture_covers 4096 0x1000 8192 true ap_engine sample_sgl ap_engine_ok eq_refl ltac:(lia) ltac:(lia) ltac:(lia) ltac:(lia) Hs ltac:(lia))
    as (x & e' & r' & ms & k & E & _ & Hn & _ & Hc & Hp & Hk & _ & Hlast & _).
  rewrite L in E. assert (t_len x = 9096 /\ t_desc_num x = 4) as [Hx Hx4].
  { vm_compute in E. injection E as <- _ _. split; reflexivity. }
  rewrite Hx4 in Hn. assert (length ms = 4%nat) as Hl by lia. rewrite Hl in Hc.
  assert (k = length (list_bytes sample_sgl)) as Hk' by lia.
  rewrite Hk', take_ge in Hp by lia. exists x, e', r', ms. split; [exact E|]. split; [exact Hx4|].
  split; [rewrite Hlast; apply bool_decide_eq_true_2; exact Hk'|].
  split; [|split; [exact Hc|exact Hp]]. vm_compute in E. injection E as <- <- _. vm_compute in Hc. injection Hc as <-. reflexivity.
Defined.

(** What is submitted, the value returned and the moves that were made. *)
Definition ap_submit (aperture : Z) (sgl : list scatterlist) : outcome (Z * option (list (Z * Z * Z))) :=
  '(v, s) ← xdma_xfer_aperture false false 0 20 4096 prompt 7 true 0x1000 aperture false true
    (Z.of_nat (length sgl)) (Z.of_nat (length sgl)) sgl (idle_system ap_engine);
  Ok (v, engine_moves 0x200000 (starts 0 0 (x_writes s))).

(** Five pages and four descriptors: instead of the fifth page the first one is sent once more. *)
Example second_chain_starts_over :
  ap_submit 4096 [mkSg 0x10000 4096; mkSg 0x20000 4096; mkSg 0x30000 4096; mkSg 0x40000 4096; mkSg 0x50000 4096] =
  Ok (20480, Some [(0x10000, 0x1000, 4096); (0x20000, 0x1000, 4096); (0x30000, 0x1000, 4096); (0x40000, 0x1000, 4096);
                   (0x10000, 0x1000, 4096)]).
Proof. vm_compute. reflexivity. Qed.

(** An entry that is interrupted after 192 bytes: the second chain goes on 192 bytes behind the
    first entry, which has 64, in memory that is not part of the list; 512 bytes of 464 are reported. *)
Example second_chain_leaves_the_list :
  ap_submit 64 [mkSg 0x10000 64; mkSg 0x20000 400] =
  Ok (512, Some [(0x10000, 0x1000, 64); (0x20000, 0x1000, 64); (0x20040, 0x1000, 64); (0x20080, 0x1000, 64);
                 (0x100c0, 0x1000, 64); (0x10100, 0x1000, 64); (0x10140, 0x1000, 64); (0x10180, 0x1000, 64)]).
Proof. vm_compute. reflexivity. Qed.

(** A third chain without an entry left: the list of no descriptors is linked, [desc_cnt - 1] being
    4294967295, and the stores leave the array. *)
Example empty_chain_overruns :
  ap_submit 4096 [mkSg 0x10000 64; mkSg 0x20000 64; mkSg 0x30000 64; mkSg 0x40000 64; mkSg 0x50000 100] = Fault OutOfBounds.
Proof. vm_compute. reflexivity. Qed.

(** An empty window: the descriptors move no bytes, and the loop goes on. *)
Example empty_window_goes_on : ap_submit 0 [mkSg 0x10000 64] = Fault OutOfFuel.
Proof. vm_compute. reflexivity. Qed.
