(* ===== verification/XdmaAsync.v ===== *)
(** * libxdma.c: transfers without waiting

    [xdma_xfer_submit_nowait] builds and queues all chains of a request at once;
    [xdma_xfer_completion] is called when the last one is complete, adds up what was moved
    and frees the request.  The two transfers of a request are at the addresses [t] and
    [t + 1].  The examples show a request from its submission to its
    completion, and what is missing: room for a third transfer, and a test whether the
    descriptors are still in use. *)

From stdpp Require Import gmap.
From S2P Require Import Prelude Device XdmaDesc XdmaEngine.

Open Scope Z_scope.

Definition EIOCBQUEUED : Z := 529.

(** The members of [tfer] of a request. *)
Definition tfer_count : nat := 2.
Definition tfer (t : Z) (idx : nat) : outcome Z :=
  if decide (idx < tfer_count)%nat then Ok (t + Z.of_nat idx) else Fault OutOfBounds.

Definition set_t_cb v x := mkXfer (t_desc_virt x) (t_res_virt x) (t_res_bus x) (t_desc_bus x) (t_desc_adjacent x)
  (t_desc_num x) (t_desc_index x) (t_desc_cmpl x) (t_desc_cmpl_th x) (t_dir x) (t_state x) (t_flags x) (t_cyclic x)
  (t_last_in_request x) (t_len x) v.

(** The request and its transfers are freed. *)
Definition async_request_free (t : Z) : cmd xdma unit :=
  modify (fun s => set_xfers (delete t (delete (t + 1) (x_xfers s))) s).

Section async.
Context (poll_mode enable_st_c2h_credit : bool).

(** The loop, with fuel: [inl] the error of queueing, or all is queued. *)
Fixpoint nowait_loop (fuel : nat) (t : Z) (dma_mapped : bool) (tfer_idx : nat) (req : xdma_request_cb) (nents : Z) : cmd xdma (option Z) :=
  match fuel with
  | O => fail OutOfFuel
  | S fuel =>
      if decide (nents = 0) then mret None else
      p ← lift (tfer t tfer_idx);
      s ← get;
      '(xfer, e, req) ← lift (transfer_init (x_engine s) req);
      nents ← lift (sint (nents - t_desc_num xfer));
      let xfer := set_t_flags (if dma_mapped then t_flags xfer else XFER_FLAG_NEED_UNMAP) (set_t_cb true xfer) in
      _ ← modify (fun s => set_xfers (<[p := set_t_last (bool_decide (nents = 0)) xfer]> (x_xfers s)) (set_engine e s));
      rv ← transfer_queue poll_mode enable_st_c2h_credit p;
      if decide (rv < 0) then mret (Some rv) else nowait_loop fuel t dma_mapped (S tfer_idx) req nents
  end.

(** The result, and the request, which is kept in the callback's structure. *)
Definition xdma_xfer_submit_nowait (desc_blen_max sizeof_req t : Z) (write dma_mapped mem : bool) (ep_addr orig_nents nents : Z)
    (sgl : list scatterlist) : cmd xdma (Z * option xdma_request_cb) :=
  s ← get;
  if x_offline s then mret (- EBUSY, None) else
  if decide (e_dir (x_engine s) <> if write then DMA_TO_DEVICE else DMA_FROM_DEVICE) then mret (-22, None) else
  if decide (nents = 0) then mret (- EIO, None) else
  _ ← modify (fun s => set_mapping nents (x_unmaps s) s);
  req ← lift (xdma_init_request desc_blen_max sizeof_req sgl ep_addr mem);
  rv ← match req with
       | None => mret (Some (-12))
       | Some req => nowait_loop (S (Z.to_nat (sw_desc_cnt req))) t dma_mapped 0 req (sw_desc_cnt req)
       end;
  match rv with
  | None => mret (- EIOCBQUEUED, req)
  | Some rv =>
      s ← get;
      _ ← when (negb dma_mapped && bool_decide (x_sgt_nents s <> 0)) (dma_unmap_sg orig_nents);
      _ ← async_request_free t;
      mret (rv, None)
  end.

(** One transfer of the request: the value returned, the bytes done and what is left. *)
Definition completion_one (p status nents done : Z) : cmd xdma (Z * Z * Z) :=
  x ← deref p;
  nents ← lift (sint (nents - t_desc_num x));
  e ← gets x_engine;
  '(rv, done) ←
    match t_state x with
    | TRANSFER_STATE_COMPLETED =>
        if st_c2h (e_config e)
        then done ← lift (sum_results (e_cyclic_result e) (t_res_virt x) (t_desc_num x) done); mret (0, done)
        else mret (0, done + t_len x)
    | TRANSFER_STATE_FAILED => mret (- EIO, done)
    | _ =>
        _ ← on_engine (set_e_status status);
        _ ← transfer_abort p;
        _ ← xdma_engine_stop poll_mode enable_st_c2h_credit;
        mret (- ERESTARTSYS, done)
    end;
  _ ← transfer_destroy p;
  used ← (e ← gets x_engine; x ← deref p; lift (sint (e_desc_used e - t_desc_num x)));
  _ ← on_engine (fun e => set_indices (e_desc_idx e) used e);
  mret (rv, done, nents).

(** The bytes done; with fuel. *)
Fixpoint completion_loop (fuel : nat) (t status : Z) (tfer_idx : nat) (nents done : Z) : cmd xdma Z :=
  match fuel with
  | O => fail OutOfFuel
  | S fuel =>
      if decide (nents = 0) then mret done else
      p ← lift (tfer t tfer_idx);
      '(rv, done, nents) ← completion_one p status nents done;
      if decide (rv < 0) then mret done else completion_loop fuel t status (S tfer_idx) nents done
  end.

(** [status] is what the status register holds.  [done] is returned even if it is an error. *)
Definition xdma_xfer_completion (t status : Z) (dma_mapped : bool) (orig_nents : Z) (req : xdma_request_cb) : cmd xdma Z :=
  done ← completion_loop (S (S tfer_count)) t status 0 (sw_desc_cnt req) 0;
  s ← get;
  _ ← when (negb dma_mapped && bool_decide (x_sgt_nents s <> 0)) (dma_unmap_sg orig_nents);
  _ ← async_request_free t;
  mret done.
End async.

(** ** Examples *)
Definition nowait (t : Z) (sgl : list scatterlist) : cmd xdma (Z * option xdma_request_cb) :=
  xdma_xfer_submit_nowait false false 4096 400 t true false true 0x1000 (Z.of_nat (length sgl)) (Z.of_nat (length sgl)) sgl.
Definition interrupt (completed : Z) : cmd xdma unit := service_event false false 0 (mkEvent [] 0 [] 0 completed).
Definition async_engine : xdma_engine :=
  mkEngine (mkEngCfg DMA_TO_DEVICE false false false 4 0x200000 0) (replicate 4 (mkDesc 0 0 0 0 0 0 0 0)) [] 0 0 0 false 0 0 [].

(** A request of one chain: the callback is told, the completion returns the bytes, and nothing is left. *)
Example nowait_completes :
  (r ← nowait 7 sample_sgl; _ ← interrupt 3;
   s ← get; done ← xdma_xfer_completion false false 7 0 false 3 (default sample_req (snd r));
   s' ← get; mret (fst r, x_done s, done, engine_moves 0x200000 (starts 0 0 (x_writes s')), e_transfer_list (x_engine s'), mapping s'))
  (idle_system async_engine) ≫= (fun '(a, _) => Ok a) =
  Ok (-529, [7], 9096, Some [(0x10000, 0x1000, 4096); (0x11000, 0x2000, 904); (0x40000, 0x2388, 4096)], [], (0, [3])).
Proof. vm_compute. reflexivity. Qed.

(** Two chains: the second is started when the first is done, and the callback told after the second. *)
Example nowait_two_chains :
  (r ← nowait 7 [mkSg 0x10000 (6 * 4096)]; _ ← interrupt 4; _ ← interrupt 2;
   s ← get; done ← xdma_xfer_completion false false 7 0 false 1 (default sample_req (snd r)); mret (x_done s, done))
  (idle_system async_engine) ≫= (fun '(a, _) => Ok a) = Ok ([8], 6 * 4096).
Proof. vm_compute. reflexivity. Qed.

(** A third chain has no transfer in the request: what is behind the two is overwritten. *)
Example third_chain_overruns : nowait 7 [mkSg 0x10000 (9 * 4096)] (idle_system async_engine) = Fault OutOfBounds.
Proof. vm_compute. reflexivity. Qed.

(** A second request while the first is under way: nothing tests [desc_used], and its second chain overwrites the
    descriptors the engine is working on.  The engine was started for three pages from 0x10000 and
    now finds two from 0x51000. *)
Example descriptors_overwritten :
  (_ ← nowait 7 [mkSg 0x10000 (3 * 4096)]; _ ← nowait 17 [mkSg 0x50000 (3 * 4096)]; s ← get;
   mret (e_desc_used (x_engine s), chain 4 0x200000 (e_desc (x_engine s)) 0x200000)) (idle_system async_engine)
  ≫= (fun '(a, _) => Ok a) = Ok (6, Some [(0x51000, 0x2000, 4096); (0x52000, 0x3000, 4096)]).
Proof. vm_compute. reflexivity. Qed.
