(* ===== verification/CdevSgdma.v ===== *)
(** * cdev_sgdma.c: reading and writing through the device files

    A program reads and writes the card through a device file of an engine.
    [char_sgdma_read_write] pins the pages of the program's buffer, makes a list of
    them and moves it with [xdma_xfer_submit]; [ioctl_do_burst_read_write], which the
    sample application receives and sends frames with, does so for several buffers, each
    in a page of its own.

    The state counts what must be given back: the pins of each page, the lists and
    the arrays of pages that are allocated.  What the kernel answers is a parameter:
    [get_user_pages_fast], [dma_map_sg], and whether there is memory.

    The theorems compose the files of the engine with this one: on any device and
    with any answers of the kernel, a read or write returns, leaves no page pinned and the engine
    stopped; and on a device that does what it is told it moves exactly the bytes of the
    program's buffer.  The examples at the end are about the ioctl and about long
    buffers. *)

From stdpp Require Import gmap.
From S2P Require Import Prelude Device XdmaDesc XdmaEngine XdmaAperture.

Open Scope Z_scope.

Definition PAGE_SIZE : Z := 4096.
Definition PAGE_SHIFT : Z := 12.

(** An entry of the list: a page, and the bytes of it. *)
Record sg_page := mkSgPage { sgp_page : Z; sgp_offset : Z; sgp_length : Z }.

(** The members of [struct xdma_io_cb] that are used; [None] is a null pointer, or a list
    that is not allocated. *)
Record io_cb := mkCb { cb_buf : Z; cb_len : Z; cb_pages_nr : Z; cb_sgt : option (list sg_page); cb_pages : option (list (option Z)) }.
Definition set_pages_nr v c := mkCb (cb_buf c) (cb_len c) v (cb_sgt c) (cb_pages c).
Definition set_sgt v c := mkCb (cb_buf c) (cb_len c) (cb_pages_nr c) v (cb_pages c).
Definition set_pages v c := mkCb (cb_buf c) (cb_len c) (cb_pages_nr c) (cb_sgt c) v.

(** The engine; how often each page is pinned by the driver; the pages that were marked as dirty; the
    arrays and the lists that are allocated; and [device_open]. *)
Record chardev := mkChar {
  ch_xdma : xdma; ch_pins : gmap Z positive; ch_dirty : list Z; ch_arrays : Z; ch_tables : Z; ch_device_open : bool }.
Definition set_ch_xdma v s := mkChar v (ch_pins s) (ch_dirty s) (ch_arrays s) (ch_tables s) (ch_device_open s).
Definition set_pins v s := mkChar (ch_xdma s) v (ch_dirty s) (ch_arrays s) (ch_tables s) (ch_device_open s).
Definition set_dirty v s := mkChar (ch_xdma s) (ch_pins s) v (ch_arrays s) (ch_tables s) (ch_device_open s).
Definition set_allocs arrays tables s := mkChar (ch_xdma s) (ch_pins s) (ch_dirty s) arrays tables (ch_device_open s).
Definition set_device_open v s := mkChar (ch_xdma s) (ch_pins s) (ch_dirty s) (ch_arrays s) (ch_tables s) v.

Definition on_xdma {A} (c : cmd xdma A) : cmd chardev A := fun s =>
  match c (ch_xdma s) with Ok (a, x) => Ok (a, set_ch_xdma x s) | Fault f => Fault f end.

(** ** Pages *)
Definition pin (p : Z) (m : gmap Z positive) : gmap Z positive :=
  <[p := match m !! p with Some n => Pos.succ n | None => 1%positive end]> m.

Definition put_page (p : Z) : cmd chardev unit :=
  s ← get;
  match ch_pins s !! p with
  | None => fail UseAfterFree
  | Some 1%positive => modify (set_pins (delete p (ch_pins s)))
  | Some n => modify (set_pins (<[p := Pos.pred n]> (ch_pins s)))
  end.

Definition set_page_dirty_lock (p : Z) : cmd chardev unit := modify (fun s => set_dirty (ch_dirty s ++ [p]) s).

Definition sg_free_table (cb : io_cb) : cmd chardev io_cb :=
  match cb_sgt cb with
  | None => mret cb
  | Some _ => _ ← modify (fun s => set_allocs (ch_arrays s) (ch_tables s - 1) s); mret (set_sgt None cb)
  end.

(** The pages from the [i]-th on; a null pointer ends the loop. *)
Fixpoint put_pages (n : nat) (i : Z) (pages : list (option Z)) (write : bool) : cmd chardev unit :=
  match n with
  | O => mret tt
  | S n =>
      p ← lift (aget pages i);
      match p with
      | None => mret tt
      | Some p => _ ← when (negb write) (set_page_dirty_lock p); _ ← put_page p; put_pages n (i + 1) pages write
      end
  end.

Definition char_sgdma_unmap_user_buf (cb : io_cb) (write : bool) : cmd chardev io_cb :=
  cb ← sg_free_table cb;
  match cb_pages cb with
  | None => mret cb
  | Some pages =>
      if decide (cb_pages_nr cb = 0) then mret cb else
      _ ← put_pages (Z.to_nat (cb_pages_nr cb)) 0 pages write;
      _ ← modify (fun s => set_allocs (ch_arrays s - 1) (ch_tables s) s);
      mret (set_pages None cb)
  end.

Section kernel.
(** The kernel: pinning [n] pages from an address on gives an error or the pages; whether there is
    memory for the list, and for the array. *)
Context (get_user_pages_fast : Z -> Z -> Z + list Z) (sg_mem pages_mem : bool).

(** The number of pages that are pinned, or an error, and the pages. *)
Definition pin_user_pages (start n : Z) : cmd chardev (Z * list Z) :=
  match get_user_pages_fast start n with
  | inl e => mret (e, [])
  | inr ps => _ ← modify (fun s => set_pins (foldr pin (ch_pins s) ps) s); mret (Z.of_nat (length ps), ps)
  end.

Definition sg_alloc_table (n : Z) (cb : io_cb) : cmd chardev (option io_cb) :=
  if decide (n = 0) then mret None else
  if sg_mem then
    _ ← modify (fun s => set_allocs (ch_arrays s) (ch_tables s + 1) s); mret (Some (set_sgt (Some []) cb))
  else mret None.

(** An array of null pointers. *)
Definition kcalloc_pages (n : Z) (cb : io_cb) : cmd chardev (option io_cb) :=
  if pages_mem then
    _ ← modify (fun s => set_allocs (ch_arrays s + 1) (ch_tables s) s);
    mret (Some (set_pages (Some (replicate (Z.to_nat n) None)) cb))
  else mret None.

(** Whether two neighbours are the same page. *)
Fixpoint duplicate_pages (ps : list Z) : bool :=
  match ps with
  | p :: ((q :: _) as ps) => bool_decide (p = q) || duplicate_pages ps
  | _ => false
  end.

(** The entries of the list, and the length that is left. *)
Fixpoint fill_entries (ps : list Z) (buf len : Z) : list sg_page * Z :=
  match ps with
  | [] => ([], len)
  | p :: ps =>
      let offset := Z.land buf (PAGE_SIZE - 1) in
      let nbytes := Z.min (PAGE_SIZE - offset) (u32 len) in
      let '(l, rest) := fill_entries ps (u64 (buf + nbytes)) (len - nbytes) in
      (mkSgPage p offset nbytes :: l, rest)
  end.

Definition user_pages (buf len : Z) : Z :=
  u32 (Z.shiftr (u64 (u64 (buf + len + PAGE_SIZE - 1) - Z.land buf (Z.lnot (PAGE_SIZE - 1)))) PAGE_SHIFT).

(** After pinning; the pages are stored in the array. *)
Definition store_pages (ps : list Z) (cb : io_cb) : io_cb :=
  match cb_pages cb with
  | Some a => set_pages (Some ((Some <$> ps) ++ drop (length ps) a)) cb
  | None => cb
  end.

Definition char_sgdma_map_user_buf_to_sgl (cb : io_cb) (write : bool) : cmd chardev (Z * io_cb) :=
  let err_out rv cb := cb ← char_sgdma_unmap_user_buf cb write; mret (rv, cb) in
  let pages_nr := user_pages (cb_buf cb) (cb_len cb) in
  if decide (pages_nr = 0) then mret (-22, cb) else
  t ← sg_alloc_table pages_nr cb;
  match t with
  | None => mret (-12, cb)
  | Some cb =>
      a ← kcalloc_pages pages_nr cb;
      match a with
      | None => err_out (-12) cb
      | Some cb =>
          '(rv, ps) ← pin_user_pages (cb_buf cb) pages_nr;
          let cb := store_pages ps cb in
          if decide (rv < 0) then err_out rv cb else
          if decide (rv <> pages_nr) then err_out (-14) (set_pages_nr rv cb) else
          if duplicate_pages ps then err_out (-14) (set_pages_nr pages_nr cb) else
          let '(l, rest) := fill_entries ps (cb_buf cb) (cb_len cb) in
          let cb := set_sgt (Some l) cb in
          if decide (rest <> 0) then mret (-22, cb) else mret (0, set_pages_nr pages_nr cb)
      end
  end.

(** One page for each buffer: an error, or all pages; what was stored in the array, and [pages_nr]. *)
Fixpoint pin_each (n : nat) (id : Z) (bd : list (Z * Z)) (cb : io_cb) : cmd chardev (option Z * io_cb) :=
  match n with
  | O => mret (None, cb)
  | S n =>
      b ← lift (aget bd id);
      '(rv, ps) ← pin_user_pages (fst b) 1;
      if decide (rv < 0) then mret (Some rv, cb) else
      if decide (rv <> 1) then mret (Some (-14), set_pages_nr (u32 (id + 1)) cb) else
      pages ← lift (match cb_pages cb with Some a => aset a id (head ps) | None => Fault NullDeref end);
      pin_each n (id + 1) bd (set_pages (Some pages) cb)
  end.

Fixpoint fill_buffers (ps : list Z) (bd : list (Z * Z)) : outcome (list sg_page) :=
  match ps, bd with
  | [], _ => Ok []
  | p :: ps, b :: bd => l ← fill_buffers ps bd; Ok (mkSgPage p (Z.land (fst b) (PAGE_SIZE - 1)) (u32 (snd b)) :: l)
  | _ :: _, [] => Fault OutOfBounds
  end.

(** [bd] are the addresses and lengths of the buffers. *)
Definition char_sgdma_multi_map_user_buf_to_sgl (cb : io_cb) (write : bool) (bd_num : Z) (bd : list (Z * Z)) :
    cmd chardev (Z * io_cb) :=
  let err_out rv cb := cb ← char_sgdma_unmap_user_buf cb write; mret (rv, cb) in
  let pages_nr := u32 bd_num in
  t ← sg_alloc_table pages_nr cb;
  match t with
  | None => mret (-12, cb)
  | Some cb =>
      a ← kcalloc_pages pages_nr cb;
      match a with
      | None => err_out (-12) cb
      | Some cb =>
          '(e, cb) ← pin_each (Z.to_nat pages_nr) 0 bd cb;
          match e with
          | Some rv => err_out rv cb
          | None =>
              let ps := omap id (default [] (cb_pages cb)) in
              if duplicate_pages ps then err_out (-14) (set_pages_nr pages_nr cb) else
              l ← lift (fill_buffers ps bd);
              mret (0, set_pages_nr pages_nr (set_sgt (Some l) cb))
          end
      end
  end.

Section file.
(** The module parameters of libxdma.c and what the engine has been found to need; [dma_map_sg]
    gives the entries for the engine, none when it fails; [req_mem]: there is memory for the request. *)
Context (poll_mode enable_st_c2h_credit : bool) (interrupt_enable_mask_value desc_blen_max sizeof_req : Z).
Context (addr_align len_granularity : Z).
Context (dma_map_sg : list sg_page -> list scatterlist) (req_mem : bool).

Definition check_transfer_align (e : xdma_engine) (buf count pos : Z) (sync : bool) : Z :=
  let buf_lsb := Z.land (s32 buf) (addr_align - 1) in
  let pos_lsb := Z.land (s32 pos) (addr_align - 1) in
  if e_non_incr_addr e then
    let len_lsb := Z.land count (u64 (len_granularity - 1)) in
    if decide (buf_lsb <> 0) then -22 else
    if decide (pos_lsb <> 0 /\ sync = true) then -22 else
    if decide (len_lsb <> 0) then -22 else 0
  else if decide (buf_lsb <> pos_lsb) then -22 else 0.

(** [dev] is the device, [t] the address of the transfer. *)
Definition char_sgdma_read_write (dev : nat -> xdma -> reaction) (t buf count pos : Z) (write : bool) : cmd chardev Z :=
  e ← gets (fun s => x_engine (ch_xdma s));
  if decide (write = true /\ e_dir e <> DMA_TO_DEVICE \/ write = false /\ e_dir e <> DMA_FROM_DEVICE) then mret (-22) else
  let rv := check_transfer_align e buf count pos true in
  if decide (rv <> 0) then mret rv else
  '(rv, cb) ← char_sgdma_map_user_buf_to_sgl (mkCb buf count 0 None None) write;
  if decide (rv < 0) then mret rv else
  let l := default [] (cb_sgt cb) in
  let sgl := dma_map_sg l in
  res ← on_xdma (xdma_xfer_submit poll_mode enable_st_c2h_credit interrupt_enable_mask_value desc_blen_max sizeof_req dev t
          write false req_mem pos (Z.of_nat (length l)) (Z.of_nat (length sgl)) sgl);
  _ ← char_sgdma_unmap_user_buf cb write;
  mret res.

Definition char_sgdma_write dev t buf count pos : cmd chardev Z := char_sgdma_read_write dev t buf count pos true.
Definition char_sgdma_read dev t buf count pos : cmd chardev Z := char_sgdma_read_write dev t buf count pos false.

(** The structure of the ioctl: the number of buffers, the error, the bytes done, the buffers. *)
Record multi_ioctl := mkMulti { io_bd_num : Z; io_error : Z; io_done : Z; io_bd : list (Z * Z) }.

(** [io] is what was copied from the program, what is copied back comes with the result.  The failure
    of a copy is not noticed, as the functions never return a negative number. *)
Definition ioctl_do_burst_read_write (dev : nat -> xdma -> reaction) (t : Z) (io : multi_ioctl) (write : bool) :
    cmd chardev (Z * option multi_ioctl) :=
  e ← gets (fun s => x_engine (ch_xdma s));
  if decide (write = true /\ e_dir e <> DMA_TO_DEVICE \/ write = false /\ e_dir e <> DMA_FROM_DEVICE) then mret (-22, None) else
  b0 ← lift (aget (io_bd io) 0);
  '(rv, cb) ← char_sgdma_multi_map_user_buf_to_sgl (mkCb (fst b0) (io_done io) 0 None None) write (io_bd_num io) (io_bd io);
  if decide (rv < 0) then mret (rv, None) else
  let l := default [] (cb_sgt cb) in
  let sgl := dma_map_sg l in
  '(res, lens) ← on_xdma (xdma_multi_buffer_xfer_submit poll_mode enable_st_c2h_credit interrupt_enable_mask_value desc_blen_max
          sizeof_req dev t false req_mem 0 (Z.of_nat (length l)) (Z.of_nat (length sgl)) sgl (io_bd_num io) (snd <$> io_bd io));
  let bd := zip_with (fun b len => (fst b, len)) (io_bd io) lens in
  let io := if decide (res < 0) then mkMulti (io_bd_num io) (s32 res) 0 bd else mkMulti (io_bd_num io) 0 res bd in
  _ ← char_sgdma_unmap_user_buf cb write;
  mret (s32 res, Some io).

Record aperture_ioctl := mkApIo { ai_ep_addr : Z; ai_aperture : Z; ai_buffer : Z; ai_len : Z; ai_error : Z; ai_done : Z }.

(** The fuel is that of [xdma_xfer_aperture]. *)
Definition ioctl_do_aperture_dma (fuel : nat) (dev : nat -> xdma -> reaction) (t : Z) (io : aperture_ioctl) (write : bool) :
    cmd chardev (Z * option aperture_ioctl) :=
  e ← gets (fun s => x_engine (ch_xdma s));
  if decide (write = true /\ e_dir e <> DMA_TO_DEVICE \/ write = false /\ e_dir e <> DMA_FROM_DEVICE) then mret (-22, None) else
  let rv := check_transfer_align e (ai_buffer io) (ai_len io) (ai_ep_addr io) true in
  if decide (rv <> 0) then mret (rv, None) else
  '(rv, cb) ← char_sgdma_map_user_buf_to_sgl (mkCb (ai_buffer io) (ai_len io) 0 None None) write;
  if decide (rv < 0) then mret (rv, None) else
  let l := default [] (cb_sgt cb) in
  let sgl := dma_map_sg l in
  res ← on_xdma (xdma_xfer_aperture poll_mode enable_st_c2h_credit interrupt_enable_mask_value fuel desc_blen_max dev t
          write (ai_ep_addr io) (ai_aperture io) false req_mem (Z.of_nat (length l)) (Z.of_nat (length sgl)) sgl);
  _ ← char_sgdma_unmap_user_buf cb write;
  let io := mkApIo (ai_ep_addr io) (ai_aperture io) (ai_buffer io) (ai_len io)
    (if decide (res < 0) then s32 res else 0) (if decide (res < 0) then ai_done io else res) in
  mret (ai_error io, Some io).
End file.
End kernel.

(** ** Opening, closing and seeking *)
Definition set_eop_flush (v : bool) (e : xdma_engine) : xdma_engine :=
  let c := e_config e in
  mkEngine (mkEngCfg (ec_dir c) (ec_streaming c) (ec_non_incr_addr c) v (ec_desc_max c) (ec_desc_bus c) (ec_cyclic_result_bus c))
    (e_desc e) (e_cyclic_result e) (e_desc_idx e) (e_desc_used e) (e_desc_dequeued e) (e_running e) (e_shutdown e) (e_status e)
    (e_transfer_list e).

Definition char_sgdma_open (o_trunc : bool) : cmd chardev Z :=
  e ← gets (fun s => x_engine (ch_xdma s));
  if st_c2h (e_config e) then
    s ← get;
    if ch_device_open s then mret (- EBUSY) else
    _ ← modify (set_device_open true);
    _ ← on_xdma (on_engine (set_eop_flush o_trunc));
    mret 0
  else mret 0.

Definition char_sgdma_close : cmd chardev Z :=
  e ← gets (fun s => x_engine (ch_xdma s));
  _ ← when (st_c2h (e_config e)) (modify (set_device_open false));
  mret 0.

(** The result, and the position of the file afterwards. *)
Definition char_sgdma_llseek (f_pos off whence : Z) : outcome (Z * Z) :=
  let seek newpos := if decide (newpos < 0) then Ok (-22, f_pos) else Ok (newpos, newpos) in
  if decide (whence = 0) then seek off else
  if decide (whence = 1) then n ← slong (f_pos + off); seek n else
  if decide (whence = 2) then n ← slong (4294967295 + off); seek n else Ok (-22, f_pos).

(** ** Pins *)
Lemma put_pinned p m s : ch_pins s = pin p m -> put_page p s = Ok (tt, set_pins m s).
Proof.
  intros Hp. unfold put_page. cstep. rewrite Hp. unfold pin. rewrite lookup_insert_eq. destruct (m !! p) as [n|] eqn:E.
  - assert (Pos.pred (Pos.succ n) = n) as Hn by apply Pos.pred_succ. destruct (Pos.succ n) eqn:En; [..|by destruct n];
      rewrite Hn, insert_insert_eq, insert_id by done; done.
  - by rewrite delete_insert_id.
Qed.

Definition dirtied (write : bool) (ps : list Z) (s : chardev) : chardev :=
  set_dirty (if write then ch_dirty s else ch_dirty s ++ ps) s.

Lemma put_pages_run write m ps : forall pre post s, ch_pins s = foldr pin m ps ->
  put_pages (length ps) (Z.of_nat (length pre)) (pre ++ (Some <$> ps) ++ post) write s = Ok (tt, set_pins m (dirtied write ps s)).
Proof.
  induction ps as [|p ps IH]; intros pre post s Hp; cbn [put_pages length].
  { cbn in Hp. unfold dirtied. rewrite app_nil_r. unfold mret, cmd_ret. subst m. by destruct write, s. }
  erewrite cmd_bind_run.
  2: { apply lift_run. apply aget_nat. rewrite lookup_app_r, Nat.sub_diag by done. reflexivity. }
  cbn [foldr] in Hp. set (s1 := dirtied write [p] s).
  assert (when (negb write) (set_page_dirty_lock p) s = Ok (tt, s1)) as E1 by (unfold s1, dirtied; destruct write; by destruct s).
  cbn [fmap list_fmap]. cbv beta iota. rewrite (cmd_bind_run _ _ _ _ _ E1). erewrite cmd_bind_run.
  2: { apply (put_pinned p (foldr pin m ps)). unfold s1, dirtied. by destruct write. }
  specialize (IH (pre ++ [Some p]) post (set_pins (foldr pin m ps) s1) eq_refl).
  rewrite length_app, Nat2Z.inj_add, <- app_assoc in IH. cbn [length app] in IH. change (Z.of_nat 1) with 1 in IH.
  cbn [fmap list_fmap app]. rewrite IH. unfold s1, dirtied. destruct write; cbn; [done|]. by rewrite <- app_assoc.
Qed.

(** Giving everything back. *)
Lemma unmap_run buf len l write ps nones m s : ch_pins s = foldr pin m ps -> ps <> [] ->
  char_sgdma_unmap_user_buf (mkCb buf len (Z.of_nat (length ps)) (Some l) (Some ((Some <$> ps) ++ nones))) write s =
  Ok (mkCb buf len (Z.of_nat (length ps)) None None,
      set_allocs (ch_arrays s - 1) (ch_tables s - 1) (set_pins m (dirtied write ps s))).
Proof.
  intros Hp Hne. unfold char_sgdma_unmap_user_buf, sg_free_table. cbn [cb_sgt]. erewrite cmd_bind_run by (cstep; reflexivity).
  cbn [cb_pages set_sgt cb_pages_nr]. rewrite decide_False by (destruct ps; [done|cbn; lia]). rewrite Nat2Z.id.
  erewrite cmd_bind_run by (apply (put_pages_run write m ps [] nones); exact Hp). cstep. destruct write; done.
Qed.

(** Without a page pinned, the array is not freed. *)
Lemma unmap_none buf len l write a s :
  char_sgdma_unmap_user_buf (mkCb buf len 0 (Some l) a) write s =
  Ok (mkCb buf len 0 None a, set_allocs (ch_arrays s) (ch_tables s - 1) s).
Proof.
  unfold char_sgdma_unmap_user_buf, sg_free_table. cbn [cb_sgt]. erewrite cmd_bind_run by (cstep; reflexivity). by destruct a.
Qed.

(** ** Mapping a buffer *)

(** Where the bytes of a buffer are: [page_of] is the page table. *)
Definition phys (page_of : Z -> Z) (a : Z) : Z := PAGE_SIZE * page_of (a / PAGE_SIZE) + a mod PAGE_SIZE.
Definition page_bytes (e : sg_page) : list Z := seqZ (PAGE_SIZE * sgp_page e + sgp_offset e) (sgp_length e).
Definition entry_in_page (e : sg_page) : Prop :=
  0 <= sgp_offset e /\ 0 <= sgp_length e /\ sgp_offset e + sgp_length e <= PAGE_SIZE.

(** The numbers of the pages of physical memory. *)
Definition frame_ok (p : Z) : Prop := 0 <= p < 2 ^ 40.
Definition entry_ok (e : sg_page) : Prop := frame_ok (sgp_page e) /\ entry_in_page e.

Lemma land_page a : Z.land a (PAGE_SIZE - 1) = a mod PAGE_SIZE.
Proof. change (PAGE_SIZE - 1) with (Z.ones 12). rewrite Z.land_ones by lia. done. Qed.

(** The number of pages a buffer touches. *)
Definition pages_of (buf len : Z) : Z := (buf mod PAGE_SIZE + len + PAGE_SIZE - 1) / PAGE_SIZE.

Lemma user_pages_run buf len : 0 <= buf -> 0 <= len < 2 ^ 32 -> buf + len + PAGE_SIZE <= 2 ^ 64 -> user_pages buf len = pages_of buf len.
Proof.
  unfold PAGE_SIZE. intros Hb Hl Hf. unfold user_pages, pages_of, PAGE_SHIFT, PAGE_SIZE. rewrite (u64_small (buf + _ + _ - 1)) by (unfold fits_u64; lia).
  change (Z.lnot (4096 - 1)) with (Z.lnot (Z.ones 12)). rewrite <- Z.ldiff_land, Z.ldiff_ones_r by lia.
  rewrite Z.shiftl_mul_pow2, !Z.shiftr_div_pow2 by lia. change (2 ^ 12) with 4096.
  assert (buf = 4096 * (buf / 4096) + buf mod 4096) as Hd by (apply Z.div_mod; lia). pose proof (Z.mod_pos_bound buf 4096).
  rewrite u64_small by (unfold fits_u64; lia). replace (buf + len + 4096 - 1 - buf / 4096 * 4096) with (buf mod 4096 + len + 4096 - 1) by lia.
  rewrite u32_small; [done|]. unfold fits_u32. split; [apply Z.div_pos; lia|apply Z.div_lt_upper_bound; lia].
Qed.

Lemma phys_seq page_of a n : 0 <= n -> a mod PAGE_SIZE + n <= PAGE_SIZE ->
  seqZ (PAGE_SIZE * page_of (a / PAGE_SIZE) + a mod PAGE_SIZE) n = phys page_of <$> seqZ a n.
Proof.
  unfold PAGE_SIZE. intros Hn Hf. apply list_eq. intros i. rewrite list_lookup_fmap. destruct (decide (Z.of_nat i < n)) as [Hi|Hi].
  - rewrite !lookup_seqZ_lt by lia. cbn. unfold phys, PAGE_SIZE. f_equal.
    assert ((a + Z.of_nat i) / 4096 = a / 4096 /\ (a + Z.of_nat i) mod 4096 = a mod 4096 + Z.of_nat i) as [-> ->] by (Z.div_mod_to_equations; lia). lia.
  - by rewrite !lookup_seqZ_ge by lia.
Qed.

Lemma fill_entries_run page_of n : forall buf len, 0 <= buf -> 0 <= len < 2 ^ 32 -> buf + len + PAGE_SIZE <= 2 ^ 64 -> pages_of buf len = Z.of_nat n ->
  exists l, fill_entries (page_of <$> seqZ (buf / PAGE_SIZE) (Z.of_nat n)) buf len = (l, 0) /\ length l = n /\
    concat (page_bytes <$> l) = phys page_of <$> seqZ buf len /\ Forall entry_in_page l.
Proof.
  induction n as [|n IH]; intros buf len Hb Hl Hf Hn.
  { assert (len = 0) as -> by (unfold pages_of, PAGE_SIZE in Hn; Z.div_mod_to_equations; lia). by exists []. }
  rewrite (seqZ_cons _ (Z.of_nat (S n))) by lia. cbn [fmap list_fmap fill_entries]. rewrite land_page.
  pose proof (Z.mod_pos_bound buf PAGE_SIZE ltac:(done)) as Hm. rewrite u32_small by (unfold fits_u32; lia).
  set (nb := Z.min (PAGE_SIZE - buf mod PAGE_SIZE) len). assert (0 <= nb <= len /\ nb <= PAGE_SIZE - buf mod PAGE_SIZE) as [Hnb1 Hnb2] by lia.
  assert (exists l, fill_entries (page_of <$> seqZ (Z.succ (buf / PAGE_SIZE)) (Z.pred (Z.of_nat (S n)))) (u64 (buf + nb)) (len - nb) = (l, 0) /\
    length l = n /\ concat (page_bytes <$> l) = phys page_of <$> seqZ (buf + nb) (len - nb) /\ Forall entry_in_page l) as (l & E & Hlen & Hc & Hin).
  { rewrite u64_small by (unfold fits_u64, PAGE_SIZE in *; lia). destruct (decide (nb = len)) as [Enb|Enb].
    - assert (n = 0%nat) as -> by (unfold pages_of, PAGE_SIZE in *; Z.div_mod_to_equations; lia). rewrite Enb, Z.sub_diag. by exists [].
    - assert (nb = PAGE_SIZE - buf mod PAGE_SIZE) as E' by lia.
      replace (Z.succ (buf / PAGE_SIZE)) with ((buf + nb) / PAGE_SIZE) by (rewrite E'; unfold PAGE_SIZE in *; Z.div_mod_to_equations; lia).
      replace (Z.pred (Z.of_nat (S n))) with (Z.of_nat n) by lia. apply IH; [lia..|].
      unfold pages_of in *. rewrite E'. unfold PAGE_SIZE in *. Z.div_mod_to_equations; lia. }
  rewrite E.
  eexists. split; [reflexivity|]. split; [cbn; lia|]. split.
  - cbn [fmap list_fmap concat]. rewrite Hc. unfold page_bytes at 1. cbn [sgp_page sgp_offset sgp_length].
    rewrite phys_seq by lia. rewrite <- fmap_app, <- seqZ_app by lia. by replace (nb + (len - nb)) with len by lia.
  - constructor; [|done]. unfold entry_in_page. cbn. lia.
Qed.

Lemma fill_frames ps : forall buf len, Forall frame_ok ps -> Forall (fun e => frame_ok (sgp_page e)) (fst (fill_entries ps buf len)).
Proof.
  induction ps as [|p ps IH]; intros buf len Hf; [done|]. apply Forall_cons in Hf as [Hp Hf]. cbn [fill_entries].
  specialize (IH (u64 (buf + Z.min (PAGE_SIZE - Z.land buf (PAGE_SIZE - 1)) (u32 len))) (len - Z.min (PAGE_SIZE - Z.land buf (PAGE_SIZE - 1)) (u32 len)) Hf).
  destruct (fill_entries ps _ _) as [l rest]. by constructor.
Qed.

#[local] Ltac cb_cbn := unfold store_pages, set_sgt, set_pages, set_pages_nr; cbn [cb_buf cb_len cb_pages_nr cb_sgt cb_pages].

Section mapping.
Context (get_user_pages_fast : Z -> Z -> Z + list Z).
Local Notation gup := get_user_pages_fast.

(** The kernel gives an error, or at most as many pages as it is asked for, which are in memory. *)
Definition pages_answer : Prop := forall start n, 0 <= n -> match gup start n with inl e => e < 0 | inr ps => Z.of_nat (length ps) <= n /\ Forall frame_ok ps end.
Definition nothing_pinned (start n : Z) : Prop := match gup start n with inl _ => True | inr ps => ps = [] end.

(** What a call that fails leaves; the array of pages may stay allocated when no page was pinned. *)
Definition given_back (buf len : Z) (s s' : chardev) : Prop :=
  ch_pins s' = ch_pins s /\ ch_tables s' = ch_tables s /\ ch_device_open s' = ch_device_open s /\
  (ch_arrays s' = ch_arrays s \/ ch_arrays s' = ch_arrays s + 1 /\ nothing_pinned buf (pages_of buf len)).

Definition buffer_ok (buf len : Z) : Prop := 0 <= buf /\ 0 <= len < 2 ^ 32 /\ buf + len + PAGE_SIZE <= 2 ^ 64.

(** The state with the pages [ps] pinned for a buffer. *)
Definition pinned (ps : list Z) (s : chardev) : chardev :=
  set_pins (foldr pin (ch_pins s) ps) (set_allocs (ch_arrays s + 1) (ch_tables s + 1) s).

Lemma map_start sg_mem pages_mem buf len write s : buffer_ok buf len -> pages_of buf len <> 0 -> sg_mem = true -> pages_mem = true ->
  char_sgdma_map_user_buf_to_sgl gup sg_mem pages_mem (mkCb buf len 0 None None) write s =
  ('(rv, ps) ← pin_user_pages gup buf (pages_of buf len);
   let cb := store_pages ps (mkCb buf len 0 (Some []) (Some (replicate (Z.to_nat (pages_of buf len)) None))) in
   let err_out rv cb := cb ← char_sgdma_unmap_user_buf cb write; mret (rv, cb) in
   if decide (rv < 0) then err_out rv cb else
   if decide (rv <> pages_of buf len) then err_out (-14) (set_pages_nr rv cb) else
   if duplicate_pages ps then err_out (-14) (set_pages_nr (pages_of buf len) cb) else
   let '(l, rest) := fill_entries ps buf len in
   let cb := set_sgt (Some l) cb in
   if decide (rest <> 0) then mret (-22, cb) else mret (0, set_pages_nr (pages_of buf len) cb))
  (set_allocs (ch_arrays s + 1) (ch_tables s + 1) s).
Proof.
  intros (H1 & H2 & H3) Hn -> ->. unfold char_sgdma_map_user_buf_to_sgl. cbn [cb_buf cb_len]. rewrite user_pages_run by done. rewrite decide_False by done.
  unfold sg_alloc_table. rewrite decide_False by done. erewrite cmd_bind_run by (cstep; reflexivity).
  unfold kcalloc_pages. erewrite cmd_bind_run by (cstep; reflexivity). reflexivity.
Qed.

Lemma pages_table v (ps : list Z) : exists f, ps = f <$> seqZ v (Z.of_nat (length ps)).
Proof.
  exists (fun a => default 0 (ps !! Z.to_nat (a - v))). apply list_eq. intros i. rewrite list_lookup_fmap.
  destruct (decide (i < length ps)%nat) as [Hi|Hi].
  - rewrite lookup_seqZ_lt by lia. cbn. replace (Z.to_nat (v + Z.of_nat i - v)) with i by lia. by destruct (lookup_lt_is_Some_2 ps i Hi) as [p ->].
  - rewrite lookup_seqZ_ge by lia. by apply lookup_ge_None_2; lia.
Qed.

(** When all pages are pinned and no two neighbours are the same. *)
Lemma map_ok buf len write s page_of : buffer_ok buf len -> pages_of buf len <> 0 ->
  let ps := page_of <$> seqZ (buf / PAGE_SIZE) (pages_of buf len) in
  gup buf (pages_of buf len) = inr ps -> duplicate_pages ps = false ->
  exists l, char_sgdma_map_user_buf_to_sgl gup true true (mkCb buf len 0 None None) write s =
      Ok ((0, mkCb buf len (Z.of_nat (length ps)) (Some l) (Some (Some <$> ps))), pinned ps s) /\
    Z.of_nat (length l) = pages_of buf len /\ concat (page_bytes <$> l) = phys page_of <$> seqZ buf len /\ Forall entry_in_page l /\ l = fst (fill_entries ps buf len).
Proof.
  intros Hb Hn ps Hg Hd. rewrite map_start by done. unfold pin_user_pages. rewrite Hg.
  assert (0 <= pages_of buf len) as Hn0 by (destruct Hb; unfold pages_of, PAGE_SIZE in *; apply Z.div_pos; [pose proof (Z.mod_pos_bound buf 4096)|]; lia).
  assert (Z.of_nat (length ps) = pages_of buf len) as Hl by (unfold ps; rewrite length_fmap, length_seqZ; lia).
  erewrite cmd_bind_run by (cstep; reflexivity). cbv beta iota zeta. rewrite decide_False by lia. rewrite decide_False by lia. rewrite Hd.
  destruct Hb as (H1 & H2 & H3). destruct (fill_entries_run page_of (Z.to_nat (pages_of buf len)) buf len) as (l & E & L & B & I); [done..|lia|].
  rewrite Z2Nat.id in E by done. fold ps in E. rewrite E. rewrite decide_False by (intros H; by apply H).
  exists l. split; [|split; [lia|split; [done|by split]]].
  unfold mret, cmd_ret. cb_cbn.
  rewrite drop_ge, app_nil_r, <- Hl by (rewrite length_replicate; lia). done.
Qed.

(** Whatever the kernel answers: an error, and everything is given back, or the list of the buffer. *)
Lemma map_cases sg_mem pages_mem buf len write s : pages_answer -> buffer_ok buf len ->
  exists rv cb s', char_sgdma_map_user_buf_to_sgl gup sg_mem pages_mem (mkCb buf len 0 None None) write s = Ok ((rv, cb), s') /\
    ch_xdma s' = ch_xdma s /\
    (rv < 0 /\ given_back buf len s s' \/
     rv = 0 /\ exists ps l, ps <> [] /\ cb = mkCb buf len (Z.of_nat (length ps)) (Some l) (Some (Some <$> ps)) /\ s' = pinned ps s /\
       Z.of_nat (length l) = pages_of buf len /\ (exists page_of, concat (page_bytes <$> l) = phys page_of <$> seqZ buf len) /\
       Forall entry_ok l).
Proof.
  intros Hk Hb. assert (0 <= pages_of buf len) as Hn0 by (destruct Hb; unfold pages_of, PAGE_SIZE in *; apply Z.div_pos; [pose proof (Z.mod_pos_bound buf 4096)|]; lia).
  destruct (decide (pages_of buf len = 0)) as [Hz|Hnz].
  { unfold char_sgdma_map_user_buf_to_sgl. cbn [cb_buf cb_len]. destruct Hb as (H1 & H2 & H3). rewrite user_pages_run by done. rewrite decide_True by done.
    eexists _, _, s. split; [reflexivity|]. split; [done|]. left. split; [lia|]. repeat split. by left. }
  destruct sg_mem.
  2: { unfold char_sgdma_map_user_buf_to_sgl. cbn [cb_buf cb_len]. destruct Hb as (H1 & H2 & H3). rewrite user_pages_run by done.
    rewrite decide_False by done. unfold sg_alloc_table. rewrite decide_False by done. cstep.
    eexists _, _, s. split; [reflexivity|]. split; [done|]. left. split; [lia|]. repeat split. by left. }
  destruct pages_mem.
  2: { unfold char_sgdma_map_user_buf_to_sgl. cbn [cb_buf cb_len]. destruct Hb as (H1 & H2 & H3). rewrite user_pages_run by done.
    rewrite decide_False by done. unfold sg_alloc_table. rewrite decide_False by done. erewrite cmd_bind_run by (cstep; reflexivity).
    cbv beta iota zeta. cstep. cbv beta iota zeta. cb_cbn. rewrite (cmd_bind_run _ _ _ _ _ (unmap_none _ _ _ _ _ _)).
    eexists _, _, _. split; [reflexivity|]. split; [done|]. left. split; [lia|]. repeat split; cbn; lia. }
  pose proof (Hk buf (pages_of buf len) Hn0) as Ha. destruct (gup buf (pages_of buf len)) as [e|ps] eqn:Hg.
  { rewrite map_start by done. unfold pin_user_pages. rewrite Hg. cstep. cbv beta iota zeta. rewrite decide_True by done.
    cb_cbn. rewrite (cmd_bind_run _ _ _ _ _ (unmap_none _ _ _ _ _ _)).
    eexists _, _, _. split; [reflexivity|]. split; [done|]. left. split; [done|]. repeat split; cbn; [lia|]. right. split; [done|].
    unfold nothing_pinned. by rewrite Hg. }
  assert (forall nr, ps <> [] -> exists nones, set_pages_nr nr (store_pages ps (mkCb buf len 0 (Some []) (Some (replicate (Z.to_nat (pages_of buf len)) None)))) =
    mkCb buf len nr (Some []) (Some ((Some <$> ps) ++ nones))) as Hst by (intros; eexists; reflexivity).
  assert (forall s1, ps <> [] -> ch_pins s1 = foldr pin (ch_pins s) ps -> ch_xdma s1 = ch_xdma s -> ch_device_open s1 = ch_device_open s ->
    ch_arrays s1 = ch_arrays s + 1 -> ch_tables s1 = ch_tables s + 1 ->
    given_back buf len s (set_allocs (ch_arrays s1 - 1) (ch_tables s1 - 1) (set_pins (ch_pins s) (dirtied write ps s1)))) as Hgb.
  { intros s1 _ _ _ Ho HA HT. repeat split; cbn; [lia|done|left; lia]. }
  destruct (decide (Z.of_nat (length ps) = pages_of buf len)) as [Hlen|Hlen].
  2: { rewrite map_start by done. unfold pin_user_pages. rewrite Hg. erewrite cmd_bind_run by (cstep; reflexivity). cbv beta iota zeta.
    rewrite decide_False by lia. rewrite decide_True by lia. destruct (decide (ps = [])) as [->|Hps].
    - cb_cbn. cbn [length]. change (Z.of_nat 0) with 0.
      rewrite (cmd_bind_run _ _ _ _ _ (unmap_none _ _ _ _ _ _)). eexists _, _, _. split; [reflexivity|]. split; [done|]. left. split; [lia|].
      repeat split; cbn; [lia|]. right. split; [lia|]. unfold nothing_pinned. by rewrite Hg.
    - destruct (Hst (Z.of_nat (length ps)) Hps) as [nones ->].
      erewrite cmd_bind_run by (apply (unmap_run _ _ _ _ ps nones (ch_pins s)); [reflexivity|done]).
      eexists _, _, _. split; [reflexivity|]. split; [by destruct write|]. left. split; [lia|]. by apply Hgb. }
  assert (ps <> []) as Hps by (destruct ps; [cbn in Hlen; lia|done]).
  destruct (duplicate_pages ps) eqn:Hd.
  { rewrite map_start by done. unfold pin_user_pages. rewrite Hg. erewrite cmd_bind_run by (cstep; reflexivity). cbv beta iota zeta.
    rewrite decide_False by lia. rewrite decide_False by lia. rewrite Hd. destruct (Hst (pages_of buf len) Hps) as [nones ->]. rewrite <- Hlen.
    erewrite cmd_bind_run by (apply (unmap_run _ _ _ _ ps nones (ch_pins s)); [reflexivity|done]).
    eexists _, _, _. split; [reflexivity|]. split; [by destruct write|]. left. split; [lia|]. by apply Hgb. }
  destruct (pages_table (buf / PAGE_SIZE) ps) as [f Hf]. rewrite Hlen in Hf. rewrite Hf in Hg, Hd.
  destruct (map_ok buf len write s f Hb Hnz Hg Hd) as (l & E & L & B & I & Hfst). rewrite <- Hf in E, Hfst.
  eexists _, _, _. split; [exact E|]. split; [done|]. right. split; [done|]. exists ps, l. repeat (split; [done|]). split; [by exists f|].
  assert (Forall (fun e => frame_ok (sgp_page e)) l) as Hfr by (rewrite Hfst; apply fill_frames; by destruct Ha).
  apply Forall_forall. intros e Hin. split; [by eapply (proj1 (Forall_forall _ _) Hfr)|by eapply (proj1 (Forall_forall _ _) I)].
Qed.
End mapping.

(** ** Reading and writing *)

(** The kernel maps a list for the engine: it fails, or gives at most as many entries, for the same
    bytes, whose addresses for the engine [bus] tells. *)
Definition dma_answer (bus : Z -> Z) (dma_map_sg : list sg_page -> list scatterlist) : Prop := forall l, Forall entry_ok l ->
  dma_map_sg l = [] \/
  (length (dma_map_sg l) <= length l)%nat /\ Forall in_memory (dma_map_sg l) /\
  list_bytes (dma_map_sg l) = bus <$> concat (page_bytes <$> l).

Lemma request_size_bound blen sgl : 0 < blen -> Forall in_memory sgl ->
  request_size blen sgl <= Z.of_nat (length sgl + length (list_bytes sgl)).
Proof.
  intros Hb. induction 1 as [|sg sgl Hsg _ IH]; [cbn; lia|]. unfold list_bytes in *. cbn [request_size foldr fmap list_fmap concat length].
  fold (request_size blen sgl). rewrite length_app. pose proof (sg_bytes_length sg Hsg). destruct Hsg as (_ & Hl & _).
  assert ((if decide (sg_dma_len sg > blen) then entry_descs blen (sg_dma_len sg) else 0) <= sg_dma_len sg); [|lia].
  case_decide; [|lia]. unfold entry_descs. apply Z.div_le_upper_bound; [lia|]. nia.
Qed.

Lemma in_memory_sg_ok blen sgl : blen <= XDMA_DESC_BLEN_MAX -> Forall in_memory sgl -> Z.of_nat (length (list_bytes sgl)) < 2 ^ 26 ->
  Forall (sg_ok blen) sgl.
Proof.
  intros Hb. unfold XDMA_DESC_BLEN_MAX in Hb. induction 1 as [|sg sgl Hsg _ IH]; intros Hl; [done|]. unfold list_bytes in *.
  cbn [fmap list_fmap concat] in Hl. rewrite length_app in Hl. pose proof (sg_bytes_length sg Hsg). destruct Hsg as (S1 & S2 & S3).
  constructor; [|apply IH; lia]. repeat split; lia.
Qed.

(** What the list for the engine satisfies. *)
Lemma mapped_list blen bus dma_map_sg l page_of buf count : 0 < blen <= XDMA_DESC_BLEN_MAX -> dma_answer bus dma_map_sg ->
  Forall entry_ok l -> 0 <= buf -> 0 <= count < 2 ^ 26 -> Z.of_nat (length l) = pages_of buf count ->
  concat (page_bytes <$> l) = phys page_of <$> seqZ buf count -> dma_map_sg l = [] \/
  Forall (sg_ok blen) (dma_map_sg l) /\ request_size blen (dma_map_sg l) < 2 ^ 27 /\
  list_bytes (dma_map_sg l) = (fun a => bus (phys page_of a)) <$> seqZ buf count.
Proof.
  intros Hb Hdma Hl Hbuf Hc Hn Hbytes. destruct (Hdma l Hl) as [|(Hlen & Hmem & Hlb)]; [by left|right].
  rewrite Hbytes, <- list_fmap_compose in Hlb. assert (Z.of_nat (length (list_bytes (dma_map_sg l))) = count) as Hcount
    by (rewrite Hlb, length_fmap, length_seqZ; lia).
  split; [apply in_memory_sg_ok; [lia|done|lia]|]. split; [|exact Hlb].
  pose proof (request_size_bound blen _ ltac:(lia) Hmem). assert (pages_of buf count < 2 ^ 20); [|lia].
  unfold pages_of, PAGE_SIZE. pose proof (Z.mod_pos_bound buf 4096 ltac:(lia)). apply Z.div_lt_upper_bound; lia.
Qed.

(** The bytes of the moves of pieces, one after the other on the card. *)
Lemma moves_pairs c ps : ec_non_incr_addr c = false -> st_c2h c = false -> Forall (piece_ok XDMA_DESC_BLEN_MAX) ps ->
  forall ep, 0 <= ep -> ep + len_of ps < 2 ^ 64 ->
  concat (byte_pairs (ec_dir c) <$> moves c 0 ep ps) = zip (concat (piece_bytes <$> ps)) (seqZ ep (len_of ps)).
Proof.
  intros Hni Hst. induction 1 as [|p ps Hp Hps IH]; intros ep Hep Hf; [done|]. pose proof (len_of_bound ps Hps) as [Hl0 _].
  destruct Hp as (P1 & P2 & P3). cbn [len_of foldr] in *. fold (len_of ps) in *.
  change (p :: ps) with ([p] ++ ps). rewrite moves_app by (done || unfold fits_u64; lia). rewrite fmap_app, concat_app.
  assert (ep_after c ep [p] = ep + sw_len p) as ->.
  { unfold ep_after. rewrite Hni. cbn. rewrite Z.add_0_r, u64_small by (unfold fits_u64; lia). done. }
  rewrite IH by lia. rewrite fmap_app, concat_app, seqZ_app by lia.
  cbn [fmap list_fmap concat]. rewrite !app_nil_r. rewrite zip_with_app by (unfold piece_bytes; by rewrite !length_seqZ). f_equal.
  unfold moves. cbn [imap fmap list_fmap concat]. rewrite app_nil_r. unfold move, st_c2h, byte_pairs, piece_bytes in *.
  assert (ep_after c ep (take 0 [p]) = ep) as -> by (unfold ep_after; rewrite Hni; cbn; rewrite Z.add_0_r, u64_small by (unfold fits_u64; lia); done).
  destruct (decide (ec_dir c = DMA_TO_DEVICE)) as [Hd|Hd]; [done|]. destruct (ec_dir c), (ec_streaming c); done.
Qed.

Lemma on_xdma_run {A} (c : cmd xdma A) s a x : c (ch_xdma s) = Ok (a, x) -> on_xdma c s = Ok (a, set_ch_xdma x s).
Proof. intros H. unfold on_xdma. by rewrite H. Qed.

Section reading.
Context (poll_mode enable_st_c2h_credit : bool) (interrupt_enable_mask_value blen sizeof_req : Z).
Context (addr_align len_granularity : Z) (gup : Z -> Z -> Z + list Z) (bus : Z -> Z) (dma_map_sg : list sg_page -> list scatterlist).
Context (Hblen : 0 < blen <= XDMA_DESC_BLEN_MAX) (Hsz : 0 <= sizeof_req < 1048576) (Hdma : dma_answer bus dma_map_sg).
Local Notation submit := (xdma_xfer_submit poll_mode enable_st_c2h_credit interrupt_enable_mask_value blen sizeof_req).
Local Notation read_write sg_mem pages_mem req_mem :=
  (char_sgdma_read_write gup sg_mem pages_mem poll_mode enable_st_c2h_credit interrupt_enable_mask_value blen sizeof_req
     addr_align len_granularity dma_map_sg req_mem).

(** The engine has no transfer and is not running; other transfers are as they were; and the list that
    was mapped, if one was, is unmapped exactly once. *)
Definition cleaned_up (t : Z) (x x' : xdma) : Prop :=
  engine_ok (x_engine x') /\ e_transfer_list (x_engine x') = [] /\ e_running (x_engine x') = false /\
  delete t (x_xfers x') = delete t (x_xfers x) /\
  (mapping x' = mapping x \/ exists n, mapping x' = (0, x_unmaps x ++ [n])).

Lemma cleaned_up_same t x : idle x -> cleaned_up t x x.
Proof. intros [E L R U]. repeat (split; [done|]). by left. Qed.

(** Submitting any list that the kernel has mapped. *)
Lemma submit_any dev t (write mem : bool) pos orig sgl x : idle x -> e_eop_flush (x_engine x) = false -> fits_u64 pos ->
  e_dir (x_engine x) = (if write then DMA_TO_DEVICE else DMA_FROM_DEVICE) ->
  (sgl = [] \/ Forall (sg_ok blen) sgl /\ request_size blen sgl < 2 ^ 27) ->
  exists rv x', submit dev t write false mem pos orig (Z.of_nat (length sgl)) sgl x = Ok (rv, x') /\ cleaned_up t x x'.
Proof.
  intros Hid He Hpos Hdir Hsgl. destruct (x_offline x) eqn:Hoff.
  { unfold xdma_xfer_submit. cstep. rewrite Hoff. eexists _, x. split; [reflexivity|]. by apply cleaned_up_same. }
  destruct (decide (sgl = [])) as [->|Hne].
  { unfold xdma_xfer_submit. cstep. rewrite Hoff, decide_False by (intros H; by apply H). rewrite decide_True by done.
    eexists _, x. split; [reflexivity|]. by apply cleaned_up_same. }
  destruct Hsgl as [|[H1 H2]]; [done|].
  destruct (submit_cleans_up poll_mode enable_st_c2h_credit interrupt_enable_mask_value blen sizeof_req dev t write false mem pos orig
    (Z.of_nat (length sgl)) sgl x) as (rv & x' & E & A & B & C & D & M); try done; [by destruct sgl|].
  exists rv, x'. split; [done|]. repeat (split; [done|]). split; [rewrite D; by rewrite delete_delete_eq|].
  right. destruct M as [M|M]; eauto.
Qed.

(** C9. Reading and writing cleans up.  On an engine that is idle at the start and does not
    flush at the end of a packet, for a buffer of less than 2^26 bytes below the end of the
    address space: whatever the kernel answers (an error or some of the pages, a list or
    none, memory or not) and whatever the device does, [char_sgdma_read_write]
    returns; no page stays pinned and no list allocated; the array of pages stays allocated only
    when the kernel pinned no page; the engine is stopped and has no transfer, those of others are as they
    were, and the list that was mapped for the engine, if one was, is unmapped exactly once. *)
Theorem read_write_cleans_up (sg_mem pages_mem req_mem : bool) dev t buf count pos (write : bool) s :
  pages_answer gup -> idle (ch_xdma s) -> e_eop_flush (x_engine (ch_xdma s)) = false -> fits_u64 pos ->
  0 <= buf -> 0 <= count < 2 ^ 26 -> buf + count + PAGE_SIZE <= 2 ^ 64 ->
  exists rv s', read_write sg_mem pages_mem req_mem dev t buf count pos write s = Ok (rv, s') /\
    given_back gup buf count s s' /\ cleaned_up t (ch_xdma s) (ch_xdma s').
Proof.
  intros Hk Hid He Hpos Hb Hc Hf. unfold char_sgdma_read_write. cstep.
  assert (given_back gup buf count s s) as Hsame by (repeat split; by left).
  case_decide as Hdir; [exists (-22), s; by auto using cleaned_up_same|].
  assert (e_dir (x_engine (ch_xdma s)) = (if write then DMA_TO_DEVICE else DMA_FROM_DEVICE)) as Hdir' 
    by (destruct write, (e_dir (x_engine (ch_xdma s))) eqn:Ed; try done; exfalso; apply Hdir; [by left|by right]).
  case_decide; [eexists _, s; by auto using cleaned_up_same|].
  destruct (map_cases gup sg_mem pages_mem buf count write s Hk) as (rv & cb & s1 & E & Hx & Hres); [repeat split; lia|].
  rewrite (cmd_bind_run _ _ _ _ _ E). cbv beta iota.
  destruct Hres as [[Hneg Hgb]|(-> & ps & l & Hps & -> & -> & Hl & [f Hbytes] & Hok)].
  { rewrite decide_True by done. exists rv, s1. split; [done|]. split; [done|]. rewrite Hx. by apply cleaned_up_same. }
  rewrite decide_False by lia. cbn [cb_sgt default].
  destruct (submit_any dev t write req_mem pos (Z.of_nat (length l)) (dma_map_sg l) (ch_xdma s) Hid He Hpos Hdir') as (rv & x' & E2 & Hcl).
  { destruct (mapped_list blen bus dma_map_sg l f buf count) as [|(H1 & H2 & _)]; auto. }
  rewrite (cmd_bind_run _ _ _ _ _ (on_xdma_run _ (pinned ps s) _ _ E2)).
  erewrite cmd_bind_run by (rewrite <- (app_nil_r (Some <$> ps)); apply (unmap_run _ _ _ _ ps [] (ch_pins s)); [reflexivity|done]).
  eexists rv, _. split; [reflexivity|]. split; [|by destruct write]. destruct write; repeat split; cbn; lia.
Qed.
End reading.

Section moving.
Context (enable_st_c2h_credit : bool) (interrupt_enable_mask_value blen sizeof_req : Z).
Context (addr_align len_granularity : Z) (gup : Z -> Z -> Z + list Z) (bus page_of : Z -> Z) (dma_map_sg : list sg_page -> list scatterlist).
Local Notation read_write :=
  (char_sgdma_read_write gup true true false enable_st_c2h_credit interrupt_enable_mask_value blen sizeof_req
     addr_align len_granularity dma_map_sg true).

(** C7. A buffer is transferred.  With memory, a buffer whose pages are all there, and an idle memory-mapped
    or streaming engine that does what it is told, a write moves byte [i] of the program's buffer
    to the address [pos + i] of the card, a read from there, for all bytes in order; the number of bytes is
    returned; a read marks the pages as dirty; and everything that was taken from the kernel is given back. *)
Theorem read_write_moves_buffer dev t buf count pos (write : bool) s :
  0 < blen <= XDMA_DESC_BLEN_MAX -> 0 <= sizeof_req < 1048576 -> dma_answer bus dma_map_sg ->
  idle (ch_xdma s) -> e_eop_flush (x_engine (ch_xdma s)) = false -> st_c2h (e_config (x_engine (ch_xdma s))) = false ->
  e_non_incr_addr (x_engine (ch_xdma s)) = false -> x_offline (ch_xdma s) = false ->
  Z.land (e_shutdown (x_engine (ch_xdma s))) ENGINE_SHUTDOWN_REQUEST = 0 ->
  e_dir (x_engine (ch_xdma s)) = (if write then DMA_TO_DEVICE else DMA_FROM_DEVICE) -> obedient dev ->
  check_transfer_align addr_align len_granularity (x_engine (ch_xdma s)) buf count pos true = 0 ->
  0 <= buf -> 0 < count < 2 ^ 26 -> buf + count + PAGE_SIZE <= 2 ^ 64 -> 0 <= pos -> pos + count < 2 ^ 64 ->
  let ps := page_of <$> seqZ (buf / PAGE_SIZE) (pages_of buf count) in
  gup buf (pages_of buf count) = inr ps -> Forall frame_ok ps -> duplicate_pages ps = false ->
  (forall l, l <> [] -> dma_map_sg l <> []) ->
  exists ms s' ws, read_write dev t buf count pos write s = Ok (count, s') /\
    x_writes (ch_xdma s') = x_writes (ch_xdma s) ++ ws /\
    engine_moves (e_desc_bus (x_engine (ch_xdma s))) (starts 0 0 ws) = Some ms /\
    concat (byte_pairs (e_dir (x_engine (ch_xdma s))) <$> ms) =
      zip ((fun a => bus (phys page_of a)) <$> seqZ buf count) (seqZ pos count) /\
    ch_pins s' = ch_pins s /\ ch_arrays s' = ch_arrays s /\ ch_tables s' = ch_tables s /\
    ch_dirty s' = ch_dirty s ++ (if write then [] else ps).
Proof.
  intros Hb Hsz Hdma Hid He Hst Hni Hoff Hshut Hdir Hob Hal Hbuf Hc Hf Hp Hpc ps Hg Hfr Hdup Hdn.
  unfold char_sgdma_read_write. cstep. rewrite decide_False by (rewrite Hdir; destruct write; intros [[? H]|[? H]]; by try apply H).
  rewrite Hal. rewrite (decide_False (P := 0 <> 0)) by lia.
  assert (0 < pages_of buf count) as Hn by (unfold pages_of, PAGE_SIZE; pose proof (Z.mod_pos_bound buf 4096 ltac:(lia)); apply Z.div_str_pos; lia).
  destruct (map_ok gup buf count write s page_of) as (l & E & L & B & I & Hfst); [repeat split; lia|lia|exact Hg|exact Hdup|].
  rewrite (cmd_bind_run _ _ _ _ _ E). cbv beta iota. rewrite (decide_False (P := 0 < 0)) by lia. cbn [cb_sgt default]. fold ps in E, Hfst.
  assert (Forall entry_ok l) as Hok.
  { apply Forall_forall. intros e Hin. split; [|by eapply (proj1 (Forall_forall _ _) I)]. pose proof (fill_frames ps buf count Hfr) as F.
    rewrite <- Hfst in F. by eapply (proj1 (Forall_forall _ _) F). }
  assert (l <> []) as Hlne by (intros ->; cbn in L; lia).
  destruct (mapped_list blen bus dma_map_sg l page_of buf count Hb Hdma Hok Hbuf ltac:(lia) L B) as [Hz|(H1 & H2 & Hbytes)]; [by apply Hdn in Hz|].
  destruct (submit_moves_request false enable_st_c2h_credit interrupt_enable_mask_value eq_refl blen sizeof_req dev t write false pos
    (Z.of_nat (length l)) (Z.of_nat (length (dma_map_sg l))) (dma_map_sg l) (ch_xdma s)) as (qs & x' & ws & E2 & Hqs & Hq & Hw & Hm); try done.
  { unfold fits_u64. lia. }
  { intros Hz. apply (Hdn l Hlne). by destruct (dma_map_sg l). }
  fold (list_bytes (dma_map_sg l)) in E2, Hq. rewrite Hbytes, length_fmap, length_seqZ, Z2Nat.id in E2 by lia.
  rewrite (cmd_bind_run _ _ _ _ _ (on_xdma_run _ (pinned ps s) _ _ E2)).
  erewrite cmd_bind_run by (rewrite <- (app_nil_r (Some <$> ps)); apply (unmap_run _ _ _ _ ps [] (ch_pins s)); [reflexivity|];
    intros Hz; apply (f_equal length) in Hz; unfold ps in Hz; rewrite length_fmap, length_seqZ in Hz; cbn in Hz; lia).
  eexists _, _, ws. split; [reflexivity|]. split; [destruct write; exact Hw|]. split; [exact Hm|]. split.
  2: { destruct write; cbn; rewrite ?app_nil_r; repeat split; lia. }
  assert (len_of qs = count) as Hlen by (rewrite <- piece_bytes_length, Hq, Hbytes, length_fmap, length_seqZ by done; lia).
  unfold e_dir. rewrite moves_pairs by (done || lia). by rewrite Hq, Hbytes, Hlen.
Qed.
End moving.

(** ** Witnesses and examples *)

(** A program whose page [v] is frame [0x80 + v], and a card that sees physical addresses. *)
Definition frame (v : Z) : Z := 0x80 + v mod 2 ^ 30.
Definition all_pages (start n : Z) : Z + list Z := inr (frame <$> seqZ (start / PAGE_SIZE) n).
Definition same_address (l : list sg_page) : list scatterlist :=
  (fun e => mkSg (PAGE_SIZE * sgp_page e + sgp_offset e) (sgp_length e)) <$> l.
Definition idle_file : chardev := mkChar (idle_system h2c_engine) ∅ [] 0 0 false.

Lemma frame_frame_ok v : frame_ok (frame v).
Proof. unfold frame_ok, frame. pose proof (Z.mod_pos_bound v (2 ^ 30) ltac:(lia)). lia. Qed.
Lemma frames_ok_all v n : Forall frame_ok (frame <$> seqZ v n).
Proof. apply Forall_fmap, Forall_true. intros. apply frame_frame_ok. Qed.

Lemma all_pages_answer : pages_answer all_pages.
Proof. intros start n Hn. cbn. rewrite length_fmap, length_seqZ. split; [lia|apply frames_ok_all]. Qed.

Lemma same_address_answer : dma_answer id same_address.
Proof.
  intros l Hl. right. split; [unfold same_address; by rewrite length_fmap|]. split.
  - unfold same_address. apply Forall_fmap. eapply Forall_impl; [exact Hl|]. intros e (H & H1 & H2 & H3). unfold frame_ok in H. unfold PAGE_SIZE in *.
    repeat split; cbn -[Z.mul Z.add]; lia.
  - rewrite list_fmap_id. unfold list_bytes, same_address. by rewrite <- list_fmap_compose.
Qed.

Lemma read_write_cleans_up_witness : exists rv s',
  char_sgdma_read_write all_pages true true false false 0 4096 400 1 1 same_address true dead 7 0x10ff0 5000 0x1000 true idle_file = Ok (rv, s') /\
  ch_pins s' = ∅ /\ e_transfer_list (x_engine (ch_xdma s')) = [] /\ x_xfers (ch_xdma s') !! 8 = None.
Proof.
  destruct (read_write_cleans_up false false 0 4096 400 1 1 all_pages id same_address ltac:(unfold XDMA_DESC_BLEN_MAX; lia) ltac:(lia) same_address_answer
    true true true dead 7 0x10ff0 5000 0x1000 true idle_file all_pages_answer h2c_idle eq_refl ltac:(unfold fits_u64; lia)
    ltac:(lia) ltac:(lia) ltac:(unfold PAGE_SIZE; lia)) as (rv & s' & E & (Hp & _) & (_ & Hl & _ & Hx & _)).
  exists rv, s'. split; [exact E|]. split; [exact Hp|]. split; [exact Hl|].
  apply (f_equal (fun m : gmap Z xdma_transfer => m !! 8)) in Hx. rewrite lookup_delete_ne in Hx by lia. exact Hx.
Defined.

(** A hundred bytes over the end of a page. *)
Lemma read_write_moves_buffer_witness : exists ms s' ws,
  char_sgdma_read_write all_pages true true false false 0 4096 400 1 1 same_address true prompt 7 0x10ff0 100 0x1000 true idle_file = Ok (100, s') /\
  x_writes (ch_xdma s') = ws /\ engine_moves 0x200000 (starts 0 0 ws) = Some ms /\
  concat (byte_pairs DMA_TO_DEVICE <$> ms) = zip (phys frame <$> seqZ 0x10ff0 100) (seqZ 0x1000 100) /\ ch_pins s' = ∅.
Proof.
  destruct (read_write_moves_buffer false 0 4096 400 1 1 all_pages id frame same_address prompt 7 0x10ff0 100 0x1000 true idle_file)
    as (ms & s' & ws & E & Hw & Hm & Hp & Hpins & _).
  - unfold XDMA_DESC_BLEN_MAX. lia.
  - lia.
  - exact same_address_answer.
  - exact h2c_idle.
  - reflexivity.
  - reflexivity.
  - reflexivity.
  - reflexivity.
  - reflexivity.
  - reflexivity.
  - exact prompt_obedient.
  - reflexivity.
  - lia.
  - lia.
  - unfold PAGE_SIZE. lia.
  - lia.
  - lia.
  - reflexivity.
  - apply frames_ok_all.
  - vm_compute. reflexivity.
  - intros [|e l]; [intros []; reflexivity|discriminate].
  - exists ms, s', ws. split; [exact E|]. split; [exact Hw|]. split; [exact Hm|]. split; [exact Hp|exact Hpins].
Defined.

(** ** What goes wrong *)

(** Submitting the ioctl for writing several buffers, with the card as above; the value, the moves, and the pages
    that are still pinned and the arrays that are still allocated. *)
Definition ioctl_write (gup : Z -> Z -> Z + list Z) (io : multi_ioctl) : outcome (Z * option (list (Z * Z * Z)) * list (Z * positive) * Z) :=
  '(r, s) ← ioctl_do_burst_read_write gup true true false false 0 4096 400 same_address true prompt 7 io true idle_file;
  Ok (fst r, engine_moves 0x200000 (starts 0 0 (x_writes (ch_xdma s))), map_to_list (ch_pins s), ch_arrays s).
Definition write_io (bd_num : Z) (bd : list (Z * Z)) : multi_ioctl := mkMulti bd_num 0 0 (bd ++ replicate (8 - length bd) (0, 0)).

(** Two buffers, as they are meant to be. *)
Example two_buffers_sent : ioctl_write all_pages (write_io 2 [(0x10000, 64); (0x20100, 100)]) =
  Ok (164, Some [(0x90000, 0, 64); (0xa0100, 64, 100)], [], 0).
Proof. vm_compute. reflexivity. Qed.

(** A buffer over the end of its page: 48 bytes of the next frame of physical memory are sent to the card,
    which no page of the program needs to be. *)
Example buffer_over_page_end : ioctl_write all_pages (write_io 1 [(0x10ff0, 64)]) = Ok (64, Some [(0x90ff0, 0, 64)], [], 0).
Proof. vm_compute. reflexivity. Qed.

(** The number of buffers is not compared with the size of the array. *)
Example nine_buffers : ioctl_write all_pages (write_io 9 (replicate 8 (0x10000, 64))) = Fault OutOfBounds.
Proof. vm_compute. reflexivity. Qed.

(** When the page of the second buffer is not there, that of the first stays pinned, and the array
    allocated. *)
Definition one_page (start n : Z) : Z + list Z := if decide (start = 0x10000) then inr [frame 0x10] else inl (-14).
Example first_page_stays_pinned : ioctl_write one_page (write_io 2 [(0x10000, 64); (0x20000, 64)]) = Ok (-14, Some [], [(0x90, 1%positive)], 1).
Proof. vm_compute. reflexivity. Qed.

(** A length with more than 32 bits: the number of pages is cut to 32 bits and the length of an entry too; what
    is pinned stays so. *)
Definition map_buffer (gup : Z -> Z -> Z + list Z) (buf len : Z) : outcome (Z * list (Z * positive) * Z * Z) :=
  '(r, s) ← char_sgdma_map_user_buf_to_sgl gup true true (mkCb buf len 0 None None) true idle_file;
  Ok (fst r, map_to_list (ch_pins s), ch_arrays s, ch_tables s).
Example long_buffer_stays_pinned : map_buffer all_pages 0x10000 (2 ^ 44 + 64) = Ok (-22, [(0x90, 1%positive)], 1, 1).
Proof. vm_compute. reflexivity. Qed.

(** Nothing could be pinned: the array stays allocated. *)
Example array_stays_allocated : map_buffer one_page 0x20000 64 = Ok (-14, [], 1, 0).
Proof. vm_compute. reflexivity. Qed.
