(* ===== verification/MultiSend.v ===== *)
(** * Sending several frames with one ioctl

    The sample application sends frames by [ioctl_do_burst_read_write], up to eight
    buffers at a time, each with a metadata header and a frame.  This file has the
    theorem that the ioctl moves the bytes of these buffers, one after the other: the
    loop of [xdma_multi_buffer_xfer_submit] is that of [xdma_xfer_submit] on an engine that is not a stream from the
    device, and the pages of the buffers are pinned and listed one by one. *)

From stdpp Require Import gmap.
From S2P Require Import Prelude Device XdmaDesc XdmaEngine XdmaAperture CdevSgdma.

Open Scope Z_scope.

(** ** The loop *)
Section loop.
Context (poll_mode enable_st_c2h_credit : bool) (iemv : Z).
Local Notation one := (submit_one poll_mode enable_st_c2h_credit iemv).
Local Notation mone := (multi_one poll_mode enable_st_c2h_credit iemv).

Lemma deref_state t s x s' : deref t s = Ok (x, s') -> s' = s.
Proof. unfold deref. intros E. inv_cmd E. by destruct (x_xfers _ !! t); inv_cmd E. Qed.

Lemma wait_result_done t status nents done s rv done' nents' s' : st_c2h (e_config (x_engine s')) = false ->
  wait_result poll_mode enable_st_c2h_credit t status nents done s = Ok ((rv, done', nents'), s') -> 0 <= rv ->
  rv = 0 /\ forall bd_num bd, multi_wait_result poll_mode enable_st_c2h_credit t nents done bd_num bd s = Ok ((0, done', nents', bd), s').
Proof.
  intros Hst E Hrv. unfold wait_result in E. apply cmd_bind_ok in E as (x & s1 & E1 & E).
  rewrite (cmd_bind_run (gets x_engine) _ s1 (x_engine s1) s1 eq_refl) in E.
  assert (rv = 0) as -> by (destruct (t_state x); [..|destruct (st_c2h (e_config (x_engine s1)))| |];
    repeat (let v := fresh in apply cmd_bind_ok in E as (v & ? & ? & E)); apply ret_ok in E as [E _]; injection E; intros; subst; done).
  split; [done|]. intros bd_num bd. unfold multi_wait_result. rewrite (cmd_bind_run _ _ _ _ _ E1). cstep.
  destruct (t_state x); try (inv_cmd E; done).
  destruct (st_c2h (e_config (x_engine s1))) eqn:Es; [|apply ret_ok in E as [E ->]; injection E as -> ->; done].
  exfalso. inv_cmd E. congruence.
Qed.

(** A transfer that succeeds is the same with the lengths of the buffers, which stay as they are. *)
Lemma multi_one_same t dma_mapped dev req nents done s rv r s' bd_num bd : st_c2h (e_config (x_engine s')) = false ->
  one t dma_mapped dev req nents done s = Ok ((rv, Some r), s') -> 0 <= rv ->
  rv = 0 /\ mone t dma_mapped dev req nents done bd_num bd s = Ok ((0, bd, Some r), s').
Proof.
  intros Hst E Hrv. unfold submit_one in E. unfold multi_one.
  rewrite (cmd_bind_run get _ s s s eq_refl) in E. cstep.
  apply cmd_bind_ok in E as ([[xfer e] req'] & s1 & E1 & E). rewrite (cmd_bind_run _ _ _ _ _ E1).
  apply cmd_bind_ok in E as (n' & s2 & E2 & E). rewrite (cmd_bind_run _ _ _ _ _ E2). cbv zeta in *.
  apply cmd_bind_ok in E as ([] & s3 & E3 & E). rewrite (cmd_bind_run _ _ _ _ _ E3).
  apply cmd_bind_ok in E as (q & s4 & E4 & E). rewrite (cmd_bind_run _ _ _ _ _ E4). case_decide; [inv_cmd E; done|].
  rewrite (cmd_bind_run get _ s4 s4 s4 eq_refl) in E. cstep.
  apply cmd_bind_ok in E as ([] & s5 & E5 & E). rewrite (cmd_bind_run _ _ _ _ _ E5).
  apply cmd_bind_ok in E as ([[rv6 done6] n6] & s6 & E6 & E).
  apply cmd_bind_ok in E as (used & s7 & E7 & E). apply cmd_bind_ok in E as ([] & s8 & E8 & E).
  apply cmd_bind_ok in E as ([] & s9 & E9 & E). apply ret_ok in E as [Er ->]. injection Er as -> ->.
  assert (st_c2h (e_config (x_engine s6)) = false) as Hst6.
  { assert (e_config (x_engine s9) = e_config (x_engine s8)) as C9.
    { unfold transfer_destroy, on_engine in E9. apply cmd_bind_ok in E9 as (x & s0 & E0 & E9). apply deref_state in E0 as ->.
      inv_cmd E9. unfold when in E9. destruct (_ && _); unfold dma_unmap_sg in E9; inv_cmd E9; done. }
    assert (e_config (x_engine s8) = e_config (x_engine s7)) as C8 by (unfold on_engine in E8; inv_cmd E8; done).
    assert (s7 = s6) as C7.
    { apply cmd_bind_ok in E7 as (e7 & s0 & E0 & E7). apply gets_ok in E0 as [_ ->].
      apply cmd_bind_ok in E7 as (x & s0 & E0 & E7). apply deref_state in E0 as ->. by apply lift_ok in E7 as [_ ->]. }
    congruence. }
  destruct (wait_result_done _ _ _ _ _ _ _ _ _ Hst6 E6 Hrv) as [-> Ew]. split; [done|]. rewrite (cmd_bind_run _ _ _ _ _ (Ew bd_num bd)).
  rewrite (cmd_bind_run _ _ _ _ _ E7), (cmd_bind_run _ _ _ _ _ E8), (cmd_bind_run _ _ _ _ _ E9). done.
Qed.

Lemma multi_loop_same t dma_mapped dev bd_num bd fuel : forall i req nents done s d s', idle s -> rest_ok req nents ->
  e_eop_flush (x_engine s) = false -> st_c2h (e_config (x_engine s)) = false ->
  submit_loop poll_mode enable_st_c2h_credit iemv fuel t dma_mapped dev i req nents done 0 s = Ok ((0, d), s') ->
  multi_loop poll_mode enable_st_c2h_credit iemv fuel t dma_mapped dev i req nents done 0 bd_num bd s = Ok ((0, d, bd), s').
Proof.
  induction fuel as [|fuel IH]; intros i req nents dn s d s' Hid [Hne Hq] Heop Hst E; cbn [submit_loop multi_loop] in *; [done|].
  case_decide as Hz; [apply ret_ok in E as [E ->]; by injection E as ->|]. specialize (Hq Hz).
  destruct (submit_one_steps poll_mode enable_st_c2h_credit iemv t dma_mapped (dev i) req nents dn s Hid Hq Heop Hne)
    as (r & s1 & E1 & He1 & Hl1 & Hr1 & Hcf & _ & _ & Hres). rewrite (cmd_bind_run _ _ _ _ _ E1) in E.
  destruct r as [rv [[[nents1 done1] req1]|]]; [|destruct Hres; apply ret_ok in E as [E ->]; injection E as <- _; lia].
  case_decide as Hneg; [apply ret_ok in E as [E ->]; injection E as <- _; lia|].
  destruct (multi_one_same t dma_mapped (dev i) req nents dn s rv (nents1, done1, req1) s1 bd_num bd) as [-> E2]; [congruence|exact E1|lia|].
  rewrite (cmd_bind_run _ _ _ _ _ E2). rewrite decide_False by lia. destruct Hres as (Hu & -> & -> & _).
  apply IH; [| |unfold e_eop_flush in *; congruence|congruence|done].
  - constructor; try done. rewrite Hu. apply Hid.
  - rewrite Hne. by apply rest_after; [apply Hid|].
Qed.
End loop.

(** ** A request of short entries *)

(** Entries that fit in a descriptor are pieces as they are. *)
Definition short (blen : Z) (sg : scatterlist) : Prop := in_memory sg /\ 0 < sg_dma_len sg <= blen.
Definition piece_of (sg : scatterlist) : sw_desc := mkSw (sg_dma_address sg) (sg_dma_len sg).

Lemma split_short blen sgl : 0 < blen -> forall sdesc j total, Forall (short blen) sgl -> 0 <= j -> j + Z.of_nat (length sgl) <= Z.of_nat (length sdesc) ->
  exists sdesc' total', split_entries blen sgl sdesc j total = Ok (sdesc', j + Z.of_nat (length sgl), total') /\ length sdesc' = length sdesc /\
    take (Z.to_nat (j + Z.of_nat (length sgl))) sdesc' = take (Z.to_nat j) sdesc ++ (piece_of <$> sgl).
Proof.
  intros Hb. induction sgl as [|sg sgl IH]; intros sdesc j total Hs Hj Hl; cbn [split_entries length fmap list_fmap] in *.
  { exists sdesc, total. rewrite Z.add_0_r, app_nil_r. done. }
  apply Forall_cons in Hs as [(Hm & H1 & H2) Hs].
  assert (exists k, split_fuel blen (sg_dma_len sg) = S (S k)) as [k ->].
  { exists (Z.to_nat (sg_dma_len sg / blen)). unfold split_fuel. pose proof (Z.div_pos (sg_dma_len sg) blen). lia. }
  cbn [split_entry]. rewrite decide_False by lia. rewrite decide_False by lia. rewrite aset_run by lia. cbn [mbind outcome_bind].
  rewrite decide_True by done. cbn [mbind outcome_bind].
  destruct (IH (<[Z.to_nat j := mkSw (sg_dma_address sg) (sg_dma_len sg)]> sdesc) (j + 1) (u32 (total + sg_dma_len sg)) Hs) as (sd & tt' & E & L & T);
    [lia|rewrite length_insert; lia|].
  exists sd, tt'. rewrite E. split; [do 3 f_equal; lia|]. split; [by rewrite L, length_insert|].
  replace (j + Z.of_nat (S (length sgl))) with (j + 1 + Z.of_nat (length sgl)) by lia. rewrite T, take_insert_last by lia. by rewrite <- app_assoc.
Qed.

Lemma request_size_short blen sgl : Forall (short blen) sgl -> request_size blen sgl = Z.of_nat (length sgl).
Proof.
  induction 1 as [|sg sgl (_ & H1 & H2) _ IH]; [done|]. cbn [request_size foldr length]. fold (request_size blen sgl).
  rewrite decide_False by lia. lia.
Qed.

Lemma short_sg_ok blen sgl : blen <= XDMA_DESC_BLEN_MAX -> Forall (short blen) sgl -> Forall (sg_ok blen) sgl.
Proof.
  unfold XDMA_DESC_BLEN_MAX. intros Hb Hs. eapply Forall_impl; [exact Hs|]. intros sg ((H1 & H2 & H3) & H4). repeat split; lia.
Qed.

Lemma short_pieces blen sz sgl ep req : 0 < blen <= XDMA_DESC_BLEN_MAX -> 0 <= sz < 1048576 -> Forall (short blen) sgl ->
  Z.of_nat (length sgl) < 2 ^ 27 -> xdma_init_request blen sz sgl ep true = Ok (Some req) -> pieces_left req = piece_of <$> sgl.
Proof.
  intros Hb Hsz Hs Hl E. pose proof (short_sg_ok blen sgl ltac:(lia) Hs) as Hok.
  assert (extra_descs blen sgl 0 = Ok 0) as Hx.
  { clear -Hs. generalize 0. induction Hs as [|sg sgl (_ & H1 & H2) _ IH]; intros z; cbn [extra_descs]; [done|]. by rewrite decide_False by lia. }
  unfold xdma_init_request in E. rewrite Hx in E. cbn [mbind outcome_bind] in E.
  rewrite Z.add_0_r, sint_run in E by (unfold fits_s32; lia). cbn [mbind outcome_bind] in E. unfold xdma_request_alloc in E.
  rewrite (u32_small (Z.of_nat (length sgl))) in E by (unfold fits_u32; lia). unfold sizeof_sw_desc in E.
  rewrite u32_small in E by (unfold fits_u32; lia). replace (sz + Z.of_nat (length sgl) * 16 - sz) with (Z.of_nat (length sgl) * 16) in E by lia.
  rewrite Z.div_mul, Nat2Z.id in E by lia.
  destruct (split_short blen sgl ltac:(lia) (replicate (length sgl) (mkSw 0 0)) 0 0 Hs) as (sd & tt' & Es & L & T); [lia|rewrite length_replicate; lia|].
  rewrite Es in E. cbn [mbind outcome_bind] in E. rewrite decide_False in E by lia. injection E as <-.
  unfold pieces_left. cbn [sw_desc_idx sw_desc_cnt sdesc]. by rewrite T.
Qed.

(** ** Submitting *)
Section submit.
Context (enable_st_c2h_credit : bool) (iemv : Z).

(** The value returned is the number of bytes; the lengths of the buffers stay. *)
Lemma multi_submit_moves blen sz dev t orig sgl bd_num bd s :
  0 < blen <= XDMA_DESC_BLEN_MAX -> 0 <= sz < 1048576 -> Forall (short blen) sgl -> sgl <> [] -> Z.of_nat (length sgl) < 2 ^ 27 ->
  idle s -> e_eop_flush (x_engine s) = false -> st_c2h (e_config (x_engine s)) = false ->
  x_offline s = false -> Z.land (e_shutdown (x_engine s)) ENGINE_SHUTDOWN_REQUEST = 0 -> obedient dev ->
  exists s' ws, xdma_multi_buffer_xfer_submit false enable_st_c2h_credit iemv blen sz dev t false true 0 orig (Z.of_nat (length sgl)) sgl bd_num bd s =
      Ok ((len_of (piece_of <$> sgl), bd), s') /\ x_writes s' = x_writes s ++ ws /\
    engine_moves (e_desc_bus (x_engine s)) (starts 0 0 ws) = Some (moves (e_config (x_engine s)) 0 0 (piece_of <$> sgl)).
Proof.
  intros Hb Hsz Hs Hne Hl Hid Heop Hst Hoff Hshut Hob. unfold xdma_multi_buffer_xfer_submit. cstep. rewrite Hoff.
  assert (Z.of_nat (length sgl) <> 0) as Hnz by (by destruct sgl). rewrite decide_False by done. cstep.
  destruct (submit_loop_moves false enable_st_c2h_credit iemv eq_refl blen sz dev t false 0 (Z.of_nat (length sgl)) sgl s)
    as (req & s1 & ws & Ereq & Hid0 & Hrest & E & Hps & Hbytes & W & M); try done;
    [by apply short_sg_ok; [lia|]|by rewrite request_size_short|].
  rewrite (short_pieces blen sz sgl 0 req Hb Hsz Hs Hl Ereq) in *.
  assert (Z.of_nat (length (concat (sg_bytes <$> sgl))) = len_of (piece_of <$> sgl)) as Et by (rewrite <- Hbytes; by apply piece_bytes_length).
  rewrite Et in E. erewrite cmd_bind_run by (apply lift_run; exact Ereq).
  rewrite (cmd_bind_run _ _ _ _ _ (multi_loop_same _ _ _ t false dev bd_num bd _ _ _ _ _ _ _ _ Hid0 Hrest Heop Hst E)). cbv beta iota. cstep.
  set (total := len_of _) in *. assert ((if decide (total = 0) then 0 else total) = total) as -> by (case_decide; lia).
  destruct (negb false && bool_decide (x_sgt_nents s1 <> 0)); unfold when, dma_unmap_sg, xdma_request_free; cstep; cstep;
    eexists _, ws; by repeat (split; [done|]).
Qed.
End submit.

(** ** The pages of the buffers *)
Lemma pin_comm p q m : pin p (pin q m) = pin q (pin p m).
Proof.
  destruct (decide (p = q)) as [->|Hne]; [done|]. unfold pin. rewrite !lookup_insert_ne by congruence. by rewrite insert_insert_ne.
Qed.
Lemma pin_foldr p ps : forall m, foldr pin (pin p m) ps = pin p (foldr pin m ps).
Proof. induction ps as [|q ps IH]; intros m; cbn; [done|]. by rewrite IH, pin_comm. Qed.
Lemma pin_foldl ps : forall m, foldl (fun m p => pin p m) m ps = foldr pin m ps.
Proof. induction ps as [|p ps IH]; intros m; cbn; [done|]. by rewrite IH, pin_foldr. Qed.

Section buffers.
Context (gup : Z -> Z -> Z + list Z) (page_of : Z -> Z).
Definition buffer_page (b : Z * Z) : Z := page_of (fst b / PAGE_SIZE).
(** A frame in a page of its own that is there. *)
Definition frame_buffer (b : Z * Z) : Prop :=
  0 <= fst b /\ 0 < snd b /\ fst b mod PAGE_SIZE + snd b <= PAGE_SIZE /\ gup (fst b) 1 = inr [buffer_page b] /\ frame_ok (buffer_page b).
Definition buffer_entry (b : Z * Z) : sg_page := mkSgPage (buffer_page b) (fst b mod PAGE_SIZE) (snd b).

Lemma pin_each_run bufs : forall pre post got k cbuf clen nr sgt s, Forall frame_buffer bufs -> length got = length pre -> (length bufs <= k)%nat ->
  pin_each gup (length bufs) (Z.of_nat (length pre)) (pre ++ bufs ++ post) (mkCb cbuf clen nr sgt (Some (got ++ replicate k None))) s =
  Ok ((None, mkCb cbuf clen nr sgt (Some (got ++ (Some <$> (buffer_page <$> bufs)) ++ replicate (k - length bufs) None))),
      set_pins (foldl (fun m p => pin p m) (ch_pins s) (buffer_page <$> bufs)) s).
Proof.
  induction bufs as [|b bufs IH]; intros pre post got k cbuf clen nr sgt s Hb Hg Hk; cbn [pin_each length].
  { rewrite Nat.sub_0_r. cbn. by destruct s. }
  apply Forall_cons in Hb as [(B1 & B2 & B3 & Hgup & Hfr) Hb]. destruct k as [|k]; [cbn in Hk; lia|].
  erewrite cmd_bind_run by (apply lift_run, aget_nat; rewrite lookup_app_r, Nat.sub_diag by done; reflexivity).
  unfold pin_user_pages at 1. rewrite Hgup. erewrite cmd_bind_run by (cstep; reflexivity). cbv beta iota.
  cbn [length head]. rewrite (decide_False (P := Z.of_nat 1 < 0)) by lia. rewrite (decide_False (P := Z.of_nat 1 <> 1)) by lia.
  cbn [cb_pages]. erewrite cmd_bind_run.
  2: { apply lift_run. rewrite <- Hg. apply aset_nat. rewrite length_app, length_replicate. lia. }
  rewrite insert_app_r_alt, Nat.sub_diag by lia. cbn [replicate insert list_insert].
  unfold set_pages. cbn [cb_buf cb_len cb_pages_nr cb_sgt].
  specialize (IH (pre ++ [b]) post (got ++ [Some (buffer_page b)]) k cbuf clen nr sgt
    (set_pins (foldr pin (ch_pins s) [buffer_page b]) s) Hb ltac:(rewrite !length_app; cbn; lia) ltac:(cbn in Hk; lia)).
  rewrite length_app, Nat2Z.inj_add, <- !app_assoc in IH. cbn [app length] in IH. change (Z.of_nat 1) with 1 in IH.
  cbn [app]. rewrite IH. done.
Qed.

Lemma fill_buffers_run bufs post : Forall frame_buffer bufs ->
  fill_buffers (buffer_page <$> bufs) (bufs ++ post) = Ok (buffer_entry <$> bufs).
Proof.
  induction 1 as [|b bufs (B1 & B2 & B3 & _) _ IH]; cbn [fmap list_fmap fill_buffers app]; [done|]. rewrite IH. cbn [mbind outcome_bind].
  rewrite land_page. pose proof (Z.mod_pos_bound (fst b) PAGE_SIZE ltac:(done)). unfold PAGE_SIZE in *. rewrite u32_small by (unfold fits_u32; lia). done.
Qed.

Lemma omap_somes (ps : list Z) : omap id (Some <$> ps) = ps.
Proof. induction ps as [|p ps IH]; [done|]. cbn. by rewrite IH. Qed.

Lemma multi_map_ok bufs post cbuf clen write s : Forall frame_buffer bufs -> bufs <> [] -> Z.of_nat (length bufs) < 2 ^ 31 ->
  duplicate_pages (buffer_page <$> bufs) = false ->
  char_sgdma_multi_map_user_buf_to_sgl gup true true (mkCb cbuf clen 0 None None) write (Z.of_nat (length bufs)) (bufs ++ post) s =
  Ok ((0, mkCb cbuf clen (Z.of_nat (length bufs)) (Some (buffer_entry <$> bufs)) (Some (Some <$> (buffer_page <$> bufs)))),
      pinned (buffer_page <$> bufs) s).
Proof.
  intros Hb Hne Hl Hd. unfold char_sgdma_multi_map_user_buf_to_sgl. rewrite u32_small by (unfold fits_u32; lia).
  assert (Z.of_nat (length bufs) <> 0) as Hnz by (by destruct bufs). unfold sg_alloc_table. rewrite decide_False by done.
  erewrite cmd_bind_run by (cstep; reflexivity). unfold kcalloc_pages. erewrite cmd_bind_run by (cstep; reflexivity).
  unfold set_sgt, set_pages. cbn [cb_buf cb_len cb_pages_nr cb_sgt]. rewrite Nat2Z.id.
  erewrite cmd_bind_run.
  2: { refine (pin_each_run bufs [] post [] (length bufs) cbuf clen 0 (Some []) _ Hb eq_refl _). done. }
  cbv beta iota zeta. cbn [app cb_pages default]. rewrite Nat.sub_diag. cbn [replicate]. rewrite app_nil_r.
  match goal with |- context [omap id ?x] => change (omap id x) with (omap id (Some <$> (buffer_page <$> bufs))) end. rewrite omap_somes, Hd.
  erewrite cmd_bind_run by (apply lift_run, fill_buffers_run; exact Hb). unfold set_pages_nr. cbn [cb_buf cb_len cb_pages_nr cb_sgt cb_pages].
  rewrite pin_foldl. done.
Qed.
End buffers.

(** ** The ioctl *)
Section sending.
Context (enable_st_c2h_credit : bool) (iemv blen sizeof_req : Z).
Context (gup : Z -> Z -> Z + list Z) (page_of bus : Z -> Z) (dma_map_sg : list sg_page -> list scatterlist).
(** The kernel maps each entry to one entry, at the address [bus] tells. *)
Definition one_to_one : Prop := forall l, Forall entry_ok l ->
  dma_map_sg l = (fun e => mkSg (bus (PAGE_SIZE * sgp_page e + sgp_offset e)) (sgp_length e)) <$> l.

(** C8. The frames of a burst are sent as they are.  On an idle engine to the device that does what it is told,
    with buffers of which each is in a page that is there, the ioctl makes one move for each buffer, of exactly its
    bytes, in order; it returns the number of bytes, leaves the lengths as they were, and gives
    everything back. *)
Theorem ioctl_sends_frames dev t bufs rest err len s :
  0 < blen <= XDMA_DESC_BLEN_MAX -> 0 <= sizeof_req < 1048576 -> one_to_one ->
  idle (ch_xdma s) -> e_dir (x_engine (ch_xdma s)) = DMA_TO_DEVICE -> e_eop_flush (x_engine (ch_xdma s)) = false ->
  x_offline (ch_xdma s) = false -> Z.land (e_shutdown (x_engine (ch_xdma s))) ENGINE_SHUTDOWN_REQUEST = 0 -> obedient dev ->
  bufs <> [] -> (length bufs <= 8)%nat -> Forall (frame_buffer gup page_of) bufs ->
  Forall (fun b => snd b <= blen /\ 0 <= bus (phys page_of (fst b)) < 2 ^ 63) bufs ->
  duplicate_pages (buffer_page page_of <$> bufs) = false ->
  let total := foldr (fun b n => snd b + n) 0 bufs in
  exists ms s' ws, ioctl_do_burst_read_write gup true true false enable_st_c2h_credit iemv blen sizeof_req dma_map_sg true dev t
      (mkMulti (Z.of_nat (length bufs)) err len (bufs ++ rest)) true s =
      Ok ((total, Some (mkMulti (Z.of_nat (length bufs)) 0 total (bufs ++ rest))), s') /\
    x_writes (ch_xdma s') = x_writes (ch_xdma s) ++ ws /\
    engine_moves (e_desc_bus (x_engine (ch_xdma s))) (starts 0 0 ws) = Some ms /\
    (fun m => (fst (fst m), snd m)) <$> ms = (fun b => (bus (phys page_of (fst b)), snd b)) <$> bufs /\
    ch_pins s' = ch_pins s /\ ch_arrays s' = ch_arrays s /\ ch_tables s' = ch_tables s /\ ch_dirty s' = ch_dirty s.
Proof.
  intros Hb Hsz Hone Hid Hdir He Hoff Hshut Hob Hne Hlen Hfb Hfit Hdup total.
  unfold ioctl_do_burst_read_write. cstep. rewrite decide_False by (rewrite Hdir; intros [[_ H]|[? _]]; [by apply H|done]).
  cbn [io_bd io_bd_num io_done]. assert (exists b0 bufs0, bufs = b0 :: bufs0) as (b0 & bufs0 & Eb) by (destruct bufs; [done|eauto]).
  erewrite cmd_bind_run by (apply lift_run; rewrite Eb; reflexivity).
  erewrite cmd_bind_run by (apply (multi_map_ok gup page_of bufs rest); try done; lia). cbv beta iota. rewrite (decide_False (P := 0 < 0)) by lia.
  cbn [cb_sgt default]. set (l := buffer_entry page_of <$> bufs).
  assert (Forall entry_ok l) as Hl.
  { unfold l. apply Forall_fmap. eapply Forall_impl; [exact Hfb|]. intros b (B1 & B2 & B3 & _ & B4). split; [exact B4|].
    pose proof (Z.mod_pos_bound (fst b) PAGE_SIZE ltac:(done)). repeat split; cbn; lia. }
  set (sgl := dma_map_sg l).
  assert (sgl = (fun b => mkSg (bus (phys page_of (fst b))) (snd b)) <$> bufs) as Hsgl.
  { unfold sgl. rewrite (Hone l Hl). unfold l. rewrite <- list_fmap_compose. done. }
  assert (Forall (short blen) sgl) as Hs.
  { rewrite Hsgl. apply Forall_fmap, Forall_forall. intros b Hin. pose proof (proj1 (Forall_forall _ _) Hfb b Hin) as (B1 & B2 & B3 & _).
    pose proof (proj1 (Forall_forall _ _) Hfit b Hin) as [F1 F2].
    pose proof (Z.mod_pos_bound (fst b) PAGE_SIZE ltac:(done)). unfold PAGE_SIZE in *. repeat split; cbn; lia. }
  assert (st_c2h (e_config (x_engine (ch_xdma s))) = false) as Hst.
  { unfold st_c2h. unfold e_dir in Hdir. rewrite Hdir. apply andb_false_r. }
  destruct (multi_submit_moves enable_st_c2h_credit iemv blen sizeof_req dev t (Z.of_nat (length l)) sgl (Z.of_nat (length bufs)) (snd <$> (bufs ++ rest)) (ch_xdma s))
    as (x' & ws & E & W & M); try done; [by rewrite Hsgl, Eb|rewrite Hsgl, length_fmap; lia|].
  rewrite (cmd_bind_run _ _ _ _ _ (on_xdma_run _ (pinned (buffer_page page_of <$> bufs) s) _ _ E)). cbv beta iota zeta.
  erewrite cmd_bind_run.
  2: { rewrite <- (app_nil_r (Some <$> _)). rewrite <- (length_fmap (buffer_page page_of) bufs).
       apply (unmap_run _ _ _ _ (buffer_page page_of <$> bufs) [] (ch_pins s)); [reflexivity|by rewrite Eb]. }
  assert (len_of (piece_of <$> sgl) = total) as Ht.
  { rewrite Hsgl. unfold total. clear. induction bufs as [|b bufs IH]; [done|]. cbn [fmap list_fmap foldr]. rewrite <- IH. reflexivity. }
  assert (0 <= total <= 4096 * Z.of_nat (length bufs)) as Htot.
  { unfold total. clear -Hfb. induction Hfb as [|b bufs (B1 & B2 & B3 & _) _ IH]; [cbn; lia|]. cbn [foldr length].
    pose proof (Z.mod_pos_bound (fst b) PAGE_SIZE ltac:(done)). unfold PAGE_SIZE in *. lia. }
  rewrite Ht. rewrite decide_False by lia. rewrite s32_small by (unfold fits_s32; lia).
  assert (zip_with (fun b len => (fst b, len)) (bufs ++ rest) (snd <$> (bufs ++ rest)) = bufs ++ rest) as Hz.
  { generalize (bufs ++ rest). clear. intros q. induction q as [|[a n] q IH]; [done|]. cbn. by rewrite IH. }
  rewrite Hz. eexists _, _, ws. split; [reflexivity|]. split; [exact W|]. split; [exact M|]. split; [|cbn; repeat split; lia].
  rewrite Hsgl, <- list_fmap_compose. unfold moves. rewrite fmap_imap. apply list_eq. intros i. rewrite list_lookup_imap, !list_lookup_fmap.
  destruct (bufs !! i) as [b|]; [|done]. cbn. unfold move. unfold e_dir in Hdir. rewrite Hdir. by rewrite decide_True.
Qed.
End sending.

(** Two frames with their headers, on the program and the card of [CdevSgdma]. *)
Lemma ioctl_sends_frames_witness : exists ms s' ws,
  ioctl_do_burst_read_write all_pages true true false false 0 4096 400 same_address true prompt 7
    (mkMulti 2 0 0 [(0x10000, 64); (0x20100, 100)]) true idle_file =
    Ok ((164, Some (mkMulti 2 0 164 [(0x10000, 64); (0x20100, 100)])), s') /\
  engine_moves 0x200000 (starts 0 0 ws) = Some ms /\ x_writes (ch_xdma s') = ws /\
  (fun m => (fst (fst m), snd m)) <$> ms = [(0x90000, 64); (0xa0100, 100)] /\ ch_pins s' = ∅.
Proof.
  destruct (ioctl_sends_frames false 0 4096 400 all_pages frame id same_address prompt 7 [(0x10000, 64); (0x20100, 100)] [] 0 0 idle_file)
    as (ms & s' & ws & E & Hw & Hm & Hf & Hp & _).
  - unfold XDMA_DESC_BLEN_MAX. lia.
  - lia.
  - intros l _. reflexivity.
  - exact h2c_idle.
  - reflexivity.
  - reflexivity.
  - reflexivity.
  - reflexivity.
  - exact prompt_obedient.
  - discriminate.
  - cbn. lia.
  - repeat constructor; (reflexivity || vm_compute; congruence).
  - repeat constructor; vm_compute; congruence.
  - reflexivity.
  - exists ms, s', ws. split; [exact E|]. split; [exact Hm|]. split; [exact Hw|]. split; [exact Hf|exact Hp].
Defined.
