(* ===== verification/Gate.v ===== *)
(** * Gate schedules

    The abstract view of a time-aware shaper: a list of (duration, open?) pairs
    read from the start of the cycle.  [gate l t] tells whether the gate is open
    [t] nanoseconds into the cycle.  Two schedules are equivalent when they have
    the same length in time and the same gate at every instant; baking the
    configuration preserves this equivalence. *)

From Stdlib Require Import Setoid Morphisms.
From S2P Require Import Prelude.

Open Scope Z_scope.

Notation schedule := (list (Z * bool)).

Fixpoint span (l : schedule) : Z :=
  match l with [] => 0 | p :: l' => fst p + span l' end.

Fixpoint gate (l : schedule) (t : Z) : bool :=
  match l with
  | [] => false
  | (d, o) :: l' => if t <? d then o else gate l' (t - d)
  end.

Definition nonneg (l : schedule) : Prop := Forall (fun p => 0 <= fst p) l.

Lemma span_app l1 l2 : span (l1 ++ l2) = span l1 + span l2.
Proof. induction l1 as [|[d o] l1 IH]; cbn in *; lia. Qed.

Lemma span_nonneg l : nonneg l -> 0 <= span l.
Proof. induction 1; cbn; lia. Qed.

Lemma gate_app l1 l2 t : nonneg l1 -> 0 <= t ->
  gate (l1 ++ l2) t = if t <? span l1 then gate l1 t else gate l2 (t - span l1).
Proof.
  intros H. revert t. induction H as [|[d o] l Hd Hl IH]; intros t Ht; cbn in *.
  - replace (t <? 0) with false by lia. by rewrite Z.sub_0_r.
  - pose proof (span_nonneg l Hl). destruct (t <? d) eqn:E.
    + by replace (t <? d + span l) with true by lia.
    + rewrite IH by lia. replace (t - d <? span l) with (t <? d + span l) by lia.
      by replace (t - d - span l) with (t - (d + span l)) by lia.
Qed.

(** ** Equivalence of schedules *)
Definition same_gate (l l' : schedule) : Prop :=
  nonneg l /\ nonneg l' /\ span l = span l' /\
  forall t, 0 <= t < span l -> gate l t = gate l' t.

#[export] Instance same_gate_sym : Symmetric same_gate.
Proof. intros l l' (H1 & H2 & H3 & H4). repeat split; [done..|]. intros. symmetry. apply H4. lia. Qed.

#[export] Instance same_gate_trans : Transitive same_gate.
Proof.
  intros l1 l2 l3 (H1 & H2 & H3 & H4) (_ & K2 & K3 & K4).
  repeat split; [done|done|lia|]. intros t Ht. rewrite H4 by done. apply K4. lia.
Qed.

Lemma same_gate_refl l : nonneg l -> same_gate l l.
Proof. by repeat split. Qed.

Lemma same_gate_app l1 l1' l2 l2' :
  same_gate l1 l1' -> same_gate l2 l2' -> same_gate (l1 ++ l2) (l1' ++ l2').
Proof.
  intros (H1 & H2 & H3 & H4) (K1 & K2 & K3 & K4).
  pose proof (span_nonneg _ H1). pose proof (span_nonneg _ K1).
  repeat split; [by apply Forall_app|by apply Forall_app| |].
  - rewrite !span_app. lia.
  - intros t Ht. rewrite span_app in Ht. rewrite !gate_app by (done || lia).
    rewrite <- H3. destruct (t <? span l1) eqn:E; [apply H4 | apply K4]; lia.
Qed.

#[export] Instance app_same_gate_proper :
  Proper (same_gate ==> same_gate ==> same_gate) (@app (Z * bool)).
Proof. intros l1 l1' H1 l2 l2' H2. by apply same_gate_app. Qed.

#[export] Instance same_gate_per : RelationClasses.PER same_gate.
Proof. split; apply _. Qed.

Lemma same_gate_merge d d' o : 0 <= d -> 0 <= d' ->
  same_gate [(d + d', o)] [(d, o); (d', o)].
Proof.
  intros Hd Hd'. repeat split; [by repeat constructor; cbn; lia..|cbn; lia|].
  cbn. intros t Ht. replace (t <? d + d') with true by lia.
  destruct (t <? d) eqn:E; [done|]. by replace (t - d <? d') with true by lia.
Qed.

Lemma same_gate_empty o : same_gate [(0, o)] [].
Proof. repeat split; [by repeat constructor|constructor|]. cbn. lia. Qed.

(** ** Run-length compression: extend the last slot or open a new one. *)
Definition push (l : schedule) (p : Z * bool) : schedule :=
  match last l with
  | Some (d0, o0) =>
      if Bool.eqb o0 (snd p) then take (length l - 1) l ++ [(d0 + fst p, o0)]
      else l ++ [p]
  | None => [p]
  end.

(** Consecutive slots of a compressed schedule alternate. *)
Definition alternates (l : schedule) : Prop :=
  forall i p q, l !! i = Some p -> l !! S i = Some q -> snd q = negb (snd p).

Lemma push_snoc l0 d0 o0 p :
  push (l0 ++ [(d0, o0)]) p =
    if Bool.eqb o0 (snd p) then l0 ++ [(d0 + fst p, o0)]
    else (l0 ++ [(d0, o0)]) ++ [p].
Proof.
  unfold push. rewrite last_snoc. destruct (Bool.eqb o0 (snd p)); [|done].
  rewrite length_app. cbn. replace (length l0 + 1 - 1)%nat with (length l0) by lia.
  by rewrite take_app_length.
Qed.

Lemma push_same_gate l p : nonneg l -> 0 <= fst p -> same_gate (push l p) (l ++ [p]).
Proof.
  intros Hl Hp. destruct l as [|[d0 o0] l0 _] using rev_ind.
  - apply same_gate_refl. by repeat constructor.
  - rewrite push_snoc. apply Forall_app in Hl as [Hl0 Hd0].
    rewrite Forall_singleton in Hd0. cbn in Hd0.
    destruct (Bool.eqb o0 (snd p)) eqn:E.
    + apply Bool.eqb_prop in E. rewrite <- app_assoc.
      apply same_gate_app; [by apply same_gate_refl|].
      destruct p as [d o]. cbn in *. subst. by apply same_gate_merge.
    + apply same_gate_refl. unfold nonneg. by rewrite !Forall_app, !Forall_singleton.
Qed.

Lemma push_alternates l p : alternates l -> alternates (push l p).
Proof.
  intros Hl. destruct l as [|[d0 o0] l0 _] using rev_ind.
  { intros i a b _ Hb. by destruct i. }
  rewrite push_snoc. destruct (Bool.eqb o0 (snd p)) eqn:E; intros i a b Ha Hb.
  - assert (forall j c, (l0 ++ [(d0 + fst p, o0)]) !! j = Some c ->
      exists c', (l0 ++ [(d0, o0)]) !! j = Some c' /\ snd c' = snd c) as K.
    { intros j c Hc. apply lookup_app_Some in Hc as [Hc|[Hj Hc]].
      - exists c. split; [by apply lookup_app_l_Some|done].
      - exists (d0, o0). apply list_lookup_singleton_Some in Hc as [Hj0 <-].
        split; [|done]. rewrite lookup_app_r by done. by rewrite Hj0. }
    apply K in Ha as (a' & Ha & <-). apply K in Hb as (b' & Hb & <-). by eapply Hl.
  - apply Bool.eqb_false_iff in E.
    apply lookup_app_Some in Hb as [Hb|[Hj Hb]].
    + rewrite lookup_app_l in Ha; [by eapply Hl|]. apply lookup_lt_Some in Hb. lia.
    + apply list_lookup_singleton_Some in Hb as [Hj0 <-].
      rewrite length_app in Hj, Hj0. cbn in Hj, Hj0.
      rewrite lookup_app_l in Ha by (rewrite length_app; cbn; lia).
      rewrite lookup_app_r in Ha by lia.
      replace (i - length l0)%nat with 0%nat in Ha by lia. injection Ha as <-. cbn.
      by destruct o0, (snd p).
Qed.

Lemma push_length l p : (length l <= length (push l p) <= S (length l))%nat.
Proof.
  destruct l as [|[d0 o0] l0 _] using rev_ind; [cbn; lia|].
  rewrite push_snoc. case_match; rewrite ?length_app; cbn; lia.
Qed.

Lemma push_nonneg l p : nonneg l -> 0 <= fst p -> nonneg (push l p).
Proof. intros. by destruct (push_same_gate l p). Qed.

Lemma foldl_push_same_gate xs l :
  nonneg l -> nonneg xs -> same_gate (foldl push l xs) (l ++ xs).
Proof.
  intros Hl Hxs. revert l Hl. induction Hxs as [|p xs Hp Hxs IH]; intros l Hl; cbn.
  - rewrite app_nil_r. by apply same_gate_refl.
  - rewrite IH by (by apply push_nonneg).
    replace (l ++ p :: xs) with ((l ++ [p]) ++ xs) by (by rewrite <- app_assoc).
    apply same_gate_app; [by apply push_same_gate | by apply same_gate_refl].
Qed.

Lemma foldl_push_alternates xs l : alternates l -> alternates (foldl push l xs).
Proof. revert l. induction xs as [|p xs IH]; intros l Hl; [done|]. by apply IH, push_alternates. Qed.

Lemma foldl_push_length xs l : (1 <= length l)%nat ->
  (1 <= length (foldl push l xs) <= length l + length xs)%nat.
Proof.
  revert l. induction xs as [|p xs IH]; intros l Hl; cbn; [lia|].
  pose proof (push_length l p). specialize (IH (push l p)). lia.
Qed.

(** Starting from an empty slot of the first polarity costs no slot. *)
Lemma foldl_push_seed_length d o xs :
  (length (foldl push [(0%Z, o)] ((d, o) :: xs)) <= S (length xs))%nat.
Proof.
  cbn [foldl]. replace (push [(0, o)] (d, o)) with [(d, o)].
  - pose proof (foldl_push_length xs [(d, o)]). cbn in *. lia.
  - change [(0, o)] with ([] ++ [(0, o)]). rewrite push_snoc. cbn.
    by rewrite Bool.eqb_reflx.
Qed.

Lemma foldl_push_seed xs o : nonneg xs ->
  same_gate (foldl push [(0, o)] xs) xs.
Proof.
  intros Hxs. rewrite foldl_push_same_gate by (done || by repeat constructor).
  change xs with ([] ++ xs) at 2. apply same_gate_app; [|by apply same_gate_refl].
  apply same_gate_empty.
Qed.

Lemma same_gate_pad l l' o : same_gate l l' -> same_gate (l ++ [(0, o)]) l'.
Proof.
  intros H. rewrite <- (app_nil_r l'). apply same_gate_app; [done|]. apply same_gate_empty.
Qed.

Lemma alternates_snoc l d0 o0 d :
  alternates (l ++ [(d0, o0)]) -> alternates ((l ++ [(d0, o0)]) ++ [(d, negb o0)]).
Proof.
  intros H. pose proof (push_alternates _ (d, negb o0) H) as Hp.
  rewrite push_snoc in Hp. cbn in Hp. by destruct o0.
Qed.

(** ** The periodic schedule

    The schedule repeated for ever: slot [j] of the repetition is slot
    [j mod n] of the cycle and starts [slot_start j] after the start of the
    first cycle. *)
Lemma gate_slot l r d o y : nonneg l -> l !! r = Some (d, o) ->
  span (take r l) <= y < span (take r l) + d -> gate l y = o.
Proof.
  intros Hl Hr Hy. rewrite <- (take_drop_middle _ _ _ Hr).
  assert (nonneg (take r l)) as Ht by (by apply Forall_take).
  pose proof (span_nonneg _ Ht). rewrite gate_app by (done || lia).
  replace (y <? span (take r l)) with false by lia. cbn.
  by replace (y - span (take r l) <? d) with true by lia.
Qed.

Lemma span_take_S l r d o : l !! r = Some (d, o) ->
  span (take (S r) l) = span (take r l) + d.
Proof. intros H. rewrite (take_S_r _ _ _ H), span_app. cbn. lia. Qed.

Lemma span_take_le l r : nonneg l -> span (take r l) <= span l.
Proof.
  intros H. pose proof (span_app (take r l) (drop r l)) as Hs. rewrite take_drop in Hs.
  assert (nonneg (drop r l)) as Hd by (by apply Forall_drop).
  pose proof (span_nonneg _ Hd). lia.
Qed.

Definition slot_at (l : schedule) (j : nat) : Z * bool :=
  default (0, false) (l !! (j `mod` length l)%nat).

Definition slot_start (l : schedule) (j : nat) : Z :=
  Z.of_nat (j / length l) * span l + span (take (j `mod` length l) l).

Section periodic.
Context (l : schedule) (Hl : nonneg l) (Hne : (0 < length l)%nat).

Lemma slot_at_lookup j : l !! (j `mod` length l)%nat = Some (slot_at l j).
Proof.
  unfold slot_at. destruct (lookup_lt_is_Some_2 l (j `mod` length l)) as [p ->]; [|done].
  apply Nat.mod_upper_bound. lia.
Qed.

Lemma slot_at_nonneg j : 0 <= fst (slot_at l j).
Proof. exact (proj1 (Forall_lookup _ _) Hl _ _ (slot_at_lookup j)). Qed.

Lemma slot_start_S j : slot_start l (S j) = slot_start l j + fst (slot_at l j).
Proof.
  unfold slot_start. pose proof (slot_at_lookup j) as Hj.
  set (n := length l) in *. set (r := (j `mod` n)%nat) in *.
  assert (r < n)%nat as Hr by (apply Nat.mod_upper_bound; lia).
  pose proof (Nat.div_mod_eq j n) as Hdm. fold r in Hdm.
  destruct (decide (S r < n)%nat) as [Hlt|Hge].
  - assert (S j `div` n = j `div` n /\ S j `mod` n = S r)%nat as [-> ->].
    { replace (S j) with (S r + (j `div` n) * n)%nat by lia.
      rewrite Nat.div_add, Nat.Div0.mod_add by lia.
      rewrite (Nat.div_small (S r)), (Nat.mod_small (S r)) by lia. lia. }
    destruct (slot_at l j) as [d o]. rewrite (span_take_S _ _ _ _ Hj). cbn. lia.
  - assert (S j `div` n = S (j `div` n) /\ S j `mod` n = 0)%nat as [-> ->].
    { replace (S j) with (0 + (S (j `div` n)) * n)%nat by lia.
      rewrite Nat.div_add, Nat.Div0.mod_add by lia.
      rewrite (Nat.div_small 0), (Nat.mod_small 0) by lia. lia. }
    destruct (slot_at l j) as [d o]. pose proof (span_take_S _ _ _ _ Hj) as Hs.
    rewrite take_ge in Hs by (fold n; lia). rewrite Nat2Z.inj_succ, take_0. cbn [span fst]. lia.
Qed.

Lemma slot_start_le j k : (j <= k)%nat -> slot_start l j <= slot_start l k.
Proof.
  induction 1 as [|k _ IH]; [lia|]. rewrite slot_start_S.
  pose proof (slot_at_nonneg k). lia.
Qed.

Lemma slot_start_first j : (j < length l)%nat -> slot_start l j = span (take j l).
Proof. intros H. unfold slot_start. rewrite Nat.div_small, Nat.mod_small by done. lia. Qed.

Lemma slot_start_bound j m : (j <= m * length l)%nat -> slot_start l j <= Z.of_nat m * span l.
Proof.
  intros H. etransitivity; [by apply slot_start_le|]. unfold slot_start.
  rewrite Nat.div_mul, Nat.Div0.mod_mul, take_0 by lia. cbn [span]. lia.
Qed.

(** Throughout slot [j] the gate is the polarity of the slot. *)
Lemma gate_periodic j x : 0 < span l ->
  slot_start l j <= x < slot_start l (S j) -> gate l (x `mod` span l) = snd (slot_at l j).
Proof.
  intros Hs Hx. rewrite slot_start_S in Hx. unfold slot_start in Hx.
  pose proof (slot_at_lookup j) as Hj. set (r := (j `mod` length l)%nat) in *.
  destruct (slot_at l j) as [d o] eqn:E. cbn [fst snd] in *.
  pose proof (span_take_S _ _ _ _ Hj) as HS.
  assert (span (take (S r) l) <= span l) as Hle by (by apply span_take_le).
  assert (nonneg (take r l)) as Ht by (by apply Forall_take).
  pose proof (span_nonneg _ Ht).
  set (q := Z.of_nat (j `div` length l)) in *.
  replace (x `mod` span l) with (x - q * span l).
  - eapply gate_slot; [done|done|]. lia.
  - apply Z.mod_unique_pos with q; lia.
Qed.

Lemma alternates_parity p0 i p : alternates l -> l !! 0%nat = Some p0 -> l !! i = Some p ->
  snd p = xorb (Nat.odd i) (snd p0).
Proof.
  intros Ha H0. revert p. induction i as [|i IH]; intros p Hi.
  - rewrite H0 in Hi. injection Hi as <-. by destruct (snd p0).
  - destruct (lookup_lt_is_Some_2 l i) as [p' Hp']; [apply lookup_lt_Some in Hi; lia|].
    rewrite (Ha i p' p Hp' Hi), (IH p' Hp'), Nat.odd_succ, <- Nat.negb_odd.
    by destruct (Nat.odd i), (snd p0).
Qed.

Lemma slot_at_alternates j : alternates l -> Nat.even (length l) = true ->
  snd (slot_at l (S j)) = negb (snd (slot_at l j)).
Proof.
  intros Ha Hev. destruct (lookup_lt_is_Some_2 l 0) as [p0 H0]; [done|].
  assert (forall k, snd (slot_at l k) = xorb (Nat.odd k) (snd p0)) as Hk.
  { intros k. rewrite (alternates_parity p0 _ _ Ha H0 (slot_at_lookup k)). f_equal.
    apply Nat.even_spec in Hev as [m Hm]. pose proof (Nat.div_mod_eq k (length l)) as Hdm.
    rewrite Hdm at 2. rewrite Hm, Nat.odd_add, <- Nat.mul_assoc, Nat.odd_mul. cbn.
    by destruct (Nat.odd _). }
  rewrite !Hk, Nat.odd_succ, <- Nat.negb_odd. by destruct (Nat.odd j), (snd p0).
Qed.
End periodic.
