(* ===== verification/UserSched.v ===== *)
(** * sample/tsn.c: the scheduler of the sample application

    The sample application has a scheduler of its own: eight rings of frames, a gate
    schedule, credit-based shapers, and [tsn_select_queue], which picks the queue to
    send from.  A frame is the address of its buffer, NULL is 0; the lengths of the
    frames are read from the memory behind the addresses, a parameter.  [int] is 32
    bits wide and an operation on signed integers that overflows is a fault.  The
    shift of a negative limit of the credit is the multiplication the compilers make
    of it.

    The theorems: the rings are queues; what is selected, and when a read outside an
    array is what happens; the gates are those of the abstract schedule of [Gate]; the
    queue without priority is drained, and no other queue is served unless gates are
    enabled. *)

From S2P Require Import Prelude Gate Ring.

Open Scope Z_scope.

(** ** tsn.h, api.h *)
Definition TSN_QUEUE_COUNT : Z := 8.
Definition TSN_QUEUE_SIZE : Z := 40.
Definition MAX_TAS_SCHEDULES : Z := 20.
Definition PRIO_QUEUE_COUNT : Z := TSN_QUEUE_COUNT - 1.
Definition CONNECTION_SPEED : Z := 100000000.
Definition CBS_FRACTION_BITS : Z := 48.

Record tsn_tx_queue := mkTxq { tq_count : Z; tq_head : Z; tq_tail : Z; tq_packets : list Z }.

Record api_tas_entry := mkTasEntry { gates_bit : Z; te_duration_ns : Z }.

(** The members the file uses; a time is its seconds and nanoseconds. *)
Record api_tas_schedules := mkTas {
  gate_enabled : bool; admin_gate_states : Z; oper_gate_states : Z;
  admin_control_list_length : Z; oper_control_list_length : Z;
  admin_control_list : list api_tas_entry; oper_control_list : list api_tas_entry;
  admin_cycle_time : Z; oper_cycle_time : Z;
  admin_cycle_time_extention : Z; oper_cycle_time_extention : Z;
  admin_base_time : Z * Z; oper_base_time : Z * Z; config_change : bool; config_change_time : Z * Z;
  supported_list_max : Z }.

Record api_cbs_entry := mkCbs {
  is_enabled : bool; idleslope : Z; sendslope : Z; hicredit : Z; locredit : Z;
  last_update_time : Z; current_credit : Z }.

(** The static objects of the file, those of [tsn_select_queue] included. *)
Record sched := mkSched {
  tx_queues : list tsn_tx_queue; tas_schedules : api_tas_schedules; cbs_configs : list api_cbs_entry;
  wrr_current : Z; wrr_count : Z }.

Definition set_tx_queues (v : list tsn_tx_queue) (s : sched) : sched :=
  mkSched v (tas_schedules s) (cbs_configs s) (wrr_current s) (wrr_count s).
Definition set_tas (v : api_tas_schedules) (s : sched) : sched :=
  mkSched (tx_queues s) v (cbs_configs s) (wrr_current s) (wrr_count s).
Definition set_cbs (v : list api_cbs_entry) (s : sched) : sched :=
  mkSched (tx_queues s) (tas_schedules s) v (wrr_current s) (wrr_count s).
Definition set_wrr (cur count : Z) (s : sched) : sched :=
  mkSched (tx_queues s) (tas_schedules s) (cbs_configs s) cur count.

(** Static objects start as zeros; the round robin starts at the highest queue. *)
Definition zero_queue : tsn_tx_queue := mkTxq 0 0 0 (replicate 40 0).
Definition zero_tas : api_tas_schedules :=
  mkTas false 0 0 0 0 (replicate 20 (mkTasEntry 0 0)) (replicate 20 (mkTasEntry 0 0)) 0 0 0 0 (0, 0) (0, 0)
    false (0, 0) 0.
Definition zero_cbs : api_cbs_entry := mkCbs false 0 0 0 0 0 0.
Definition sched0 : sched :=
  mkSched (replicate 8 zero_queue) zero_tas (replicate 8 zero_cbs) (PRIO_QUEUE_COUNT - 1) 0.

(** ** Start-up *)
Definition tsn_init_queue : cmd sched Z :=
  _ ← modify (fun s => set_tx_queues ((fun q => mkTxq 0 0 0 (tq_packets q)) <$> tx_queues s) s);
  mret 0.

(** [memcpy] of the first [n] elements. *)
Definition copy_entries (n : Z) (src dst : list api_tas_entry) : outcome (list api_tas_entry) :=
  for_loop (Z.to_nat n) (fun i l => e ← aget src (Z.of_nat i); aset l (Z.of_nat i) e) dst.

Definition tsn_init_configs : cmd sched Z :=
  t ← gets tas_schedules;
  l1 ← lift (aset (admin_control_list t) 0 (mkTasEntry 0x00 500000000));
  l2 ← lift (aset l1 1 (mkTasEntry 0xff 500000000));
  ext ← lift (for_loop 2 (fun i ext => e ← aget l2 (Z.of_nat i); Ok (u32 (ext + te_duration_ns e)))
                (admin_cycle_time_extention t));
  let cycle := ext / 1000000000 in
  let ext := ext mod 1000000000 in
  l3 ← lift (copy_entries 2 l2 (oper_control_list t));
  _ ← modify (set_tas (mkTas false 0xff 0xff 2 2 l2 l3 cycle cycle ext ext (0, 0) (0, 0) false (0, 0)
        MAX_TAS_SCHEDULES));
  _ ← modify (fun s => set_cbs ((fun c => mkCbs false (idleslope c) (sendslope c) (hicredit c) (locredit c)
        (last_update_time c) (current_credit c)) <$> cbs_configs s) s);
  mret 0.

(** ** Gates *)

(** [{true,}]: the first element is true and the others are false. *)
Definition gates0 : list bool := true :: replicate 7 false.

(** The loop over the schedule, [n] entries from [index] on. *)
Fixpoint find_schedule (l : list api_tas_entry) (index : Z) (n : nat) (mod_time : Z) (gates : list bool) :
    outcome (list bool) :=
  match n with
  | O => Ok gates
  | S n =>
      schedule ← aget l index;
      if decide (mod_time >= te_duration_ns schedule)
      then find_schedule l (index + 1) n (mod_time - te_duration_ns schedule) gates
      else for_loop 8 (fun i g => aset g (Z.of_nat i) (Z.testbit (gates_bit schedule) (Z.of_nat i))) gates
  end.

Definition get_qbv_status (t : api_tas_schedules) (timestamp : Z) (gates : list bool) : outcome (list bool) :=
  if negb (gate_enabled t) then Ok gates else
  let cycle_time := u64 (oper_cycle_time t * 1000000000 + oper_cycle_time_extention t) in
  if decide (cycle_time = 0) then Fault DivByZero else
  find_schedule (oper_control_list t) 0 (Z.to_nat (oper_control_list_length t)) (timestamp mod cycle_time) gates.

(** ** Shapers *)

(** [((int64_t)1 << CBS_FRACTION_BITS) / 1000000000]. *)
Definition credit_per_ns : Z := 2 ^ CBS_FRACTION_BITS / 1000000000.

Definition clamp_credit (c : api_cbs_entry) (credit : Z) : outcome Z :=
  hi ← slong (hicredit c * 2 ^ CBS_FRACTION_BITS);
  if decide (credit > hi) then Ok hi else
  lo ← slong (locredit c * 2 ^ CBS_FRACTION_BITS);
  Ok (if decide (credit < lo) then lo else credit).

Definition set_credit (credit time : Z) (c : api_cbs_entry) : api_cbs_entry :=
  mkCbs (is_enabled c) (idleslope c) (sendslope c) (hicredit c) (locredit c) time credit.

(** One round of the loop: [qav_enabled[i]], [qav_credits[i]] (left unset for a queue
    without shaper) and the configuration. *)
Definition qav_status (timestamp : Z) (c : api_cbs_entry) : outcome (bool * option Z * api_cbs_entry) :=
  if negb (is_enabled c) then Ok (false, None, c) else
  if decide (timestamp < last_update_time c)
  then Ok (true, Some (Z.shiftr (current_credit c) CBS_FRACTION_BITS), c) else
  let time_delta := s64 (timestamp - last_update_time c) in
  d ← slong (idleslope c * time_delta);
  delta ← slong (d * credit_per_ns);
  sum ← slong (current_credit c + delta);
  credit ← clamp_credit c sum;
  Ok (true, Some (Z.shiftr credit CBS_FRACTION_BITS),
      if decide (0 <= credit) then set_credit credit timestamp c else c).

Fixpoint get_qav_status (timestamp : Z) (l : list api_cbs_entry) :
    outcome (list bool * list (option Z) * list api_cbs_entry) :=
  match l with
  | [] => Ok ([], [], [])
  | c :: l =>
      '(e, v, c') ← qav_status timestamp c;
      '(es, vs, l') ← get_qav_status timestamp l;
      Ok (e :: es, v :: vs, c' :: l')
  end.

(** ** Selection *)

(** The loop over the shaped queues: [n] rounds, down from queue [n - 1]. *)
Fixpoint best_shaped (gates enabled : list bool) (credits : list (option Z)) (n : nat) (selected highest : Z) :
    outcome Z :=
  match n with
  | O => Ok selected
  | S n =>
      let i := Z.of_nat n in
      g ← aget gates i;
      if negb g then best_shaped gates enabled credits n selected highest else
      e ← aget enabled i;
      if negb e then best_shaped gates enabled credits n selected highest else
      v ← aget credits i;
      match v with
      | None => Fault Uninitialized
      | Some token =>
          if decide (token < 0) then best_shaped gates enabled credits n selected highest else
          if decide (token > highest) then best_shaped gates enabled credits n i token
          else best_shaped gates enabled credits n selected highest
      end
  end.

(** The round robin: [n] rounds from [i] on; the queue that is selected.  The
    remainder has the sign of the dividend. *)
Fixpoint round_robin (gates : list bool) (qs : list tsn_tx_queue) (current i : Z) (n : nat) : outcome (option Z) :=
  match n with
  | O => Ok None
  | S n =>
      let index := Z.rem (current - i) PRIO_QUEUE_COUNT + 1 in
      g ← aget gates index;
      if negb g then round_robin gates qs current (i + 1) n else
      q ← aget qs index;
      if decide (tq_count q = 0) then round_robin gates qs current (i + 1) n else Ok (Some index)
  end.

(** [wrr_count] is counted up, and the round robin moves on once it has reached the
    weight of the queue. *)
Definition wrr_move (index : Z) : cmd sched unit :=
  s ← get;
  count ← lift (sint (wrr_count s + 1));
  modify (set_wrr (if decide (count >= index) then Z.rem (index - 1) PRIO_QUEUE_COUNT else wrr_current s) count).

Definition tsn_select_queue (timestamp : Z) : cmd sched Z :=
  s ← get;
  gates ← lift (get_qbv_status (tas_schedules s) timestamp gates0);
  '(enabled, credits, cbs) ← lift (get_qav_status timestamp (cbs_configs s));
  _ ← modify (set_cbs cbs);
  selected ← lift (best_shaped gates enabled credits (Z.to_nat TSN_QUEUE_COUNT) (-1) (-1));
  if decide (0 <= selected) then mret selected else
  s ← get;
  r ← lift (round_robin gates (tx_queues s) (wrr_current s) 0 (Z.to_nat PRIO_QUEUE_COUNT));
  match r with
  | Some index => _ ← wrr_move index; mret index
  | None =>
      g ← lift (aget gates 0);
      e ← lift (aget enabled 0);
      q ← lift (aget (tx_queues s) 0);
      mret (if g && negb e && bool_decide (0 < tq_count q) then 0 else -1)
  end.

Definition tsn_get_next_tx_time (timestamp : Z) : Z := 0.

(** ** The rings *)
Definition tsn_queue_peek (queue_index : Z) : cmd sched Z :=
  if decide (queue_index < 0 \/ queue_index >= TSN_QUEUE_COUNT) then mret 0 else
  s ← get;
  q ← lift (aget (tx_queues s) queue_index);
  if decide (tq_count q = 0) then mret 0 else lift (aget (tq_packets q) (tq_tail q)).

Section memory.
(** [metadata.frame_length] of the frame in a buffer, 16 bits. *)
Context (frame_length : Z -> Z).

(** The shaper of a queue a frame was taken from. *)
Definition spend_credit (frame : Z) (c : api_cbs_entry) : outcome api_cbs_entry :=
  let packet_size_bits := frame_length frame * 8 in
  x ← sint (packet_size_bits * 1000000000);
  let delta_time_ns := Z.quot x CONNECTION_SPEED in
  d ← slong (delta_time_ns * sendslope c);
  delta_credit ← slong (d * credit_per_ns);
  sum ← slong (current_credit c + delta_credit);
  credit ← clamp_credit c sum;
  Ok (set_credit credit (u64 (last_update_time c + delta_time_ns)) c).

Definition tsn_queue_dequeue (queue_index : Z) : cmd sched Z :=
  result ← tsn_queue_peek queue_index;
  if decide (result = 0) then mret 0 else
  s ← get;
  q ← lift (aget (tx_queues s) queue_index);
  qs ← lift (aset (tx_queues s) queue_index
        (mkTxq (tq_count q - 1) (tq_head q) (Z.rem (tq_tail q + 1) TSN_QUEUE_SIZE) (tq_packets q)));
  _ ← modify (set_tx_queues qs);
  c ← lift (aget (cbs_configs s) queue_index);
  if negb (is_enabled c) then mret result else
  c' ← lift (spend_credit result c);
  cbs ← lift (aset (cbs_configs s) queue_index c');
  _ ← modify (set_cbs cbs);
  mret result.
End memory.

Definition tsn_queue_enqueue (tx_buffer queue_index : Z) : cmd sched Z :=
  if decide (queue_index < 0 \/ queue_index >= TSN_QUEUE_COUNT) then mret 0 else
  s ← get;
  q ← lift (aget (tx_queues s) queue_index);
  if decide (tq_count q = TSN_QUEUE_SIZE) then mret 0 else
  ps ← lift (aset (tq_packets q) (tq_head q) tx_buffer);
  qs ← lift (aset (tx_queues s) queue_index
        (mkTxq (tq_count q + 1) (Z.rem (tq_head q + 1) TSN_QUEUE_SIZE) (tq_tail q) ps));
  _ ← modify (set_tx_queues qs);
  mret 1.

(** ** The rings are queues *)

(** The frames in a ring, the oldest first. *)
Definition contents (q : tsn_tx_queue) : list Z := ring TSN_QUEUE_SIZE (tq_packets q) (tq_tail q) (tq_count q).
Definition queue_ok (q : tsn_tx_queue) : Prop :=
  ring_ok TSN_QUEUE_SIZE (tq_packets q) (tq_tail q) (tq_count q) /\
  tq_head q = (tq_tail q + tq_count q) mod TSN_QUEUE_SIZE.

Lemma contents_length q : queue_ok q -> Z.of_nat (length (contents q)) = tq_count q.
Proof. intros [H _]. by apply ring_length. Qed.

Lemma contents_empty q : queue_ok q -> tq_count q = 0 <-> contents q = [].
Proof. intros [H _]. by apply ring_empty. Qed.

Lemma ring_size : 0 < TSN_QUEUE_SIZE.
Proof. reflexivity. Qed.

(** One frame more behind the others. *)
Lemma queue_push q b : queue_ok q -> tq_count q < TSN_QUEUE_SIZE -> exists ps,
  aset (tq_packets q) (tq_head q) b = Ok ps /\
  let q' := mkTxq (tq_count q + 1) (Z.rem (tq_head q + 1) TSN_QUEUE_SIZE) (tq_tail q) ps in
  queue_ok q' /\ contents q' = contents q ++ [b].
Proof.
  intros [Hr Hh] Hlt. destruct (ring_push TSN_QUEUE_SIZE ring_size _ _ _ b Hr Hlt) as (ps & E & Hr' & Ec).
  exists ps. rewrite Hh. split; [exact E|]. cbv zeta. split; [|exact Ec]. split; [exact Hr'|].
  cbn [tq_head tq_tail tq_count]. pose proof (Z.mod_pos_bound (tq_tail q + tq_count q) TSN_QUEUE_SIZE ring_size).
  rewrite Z.rem_mod_nonneg, Zplus_mod_idemp_l by (unfold TSN_QUEUE_SIZE in *; lia). f_equal. lia.
Qed.

(** The oldest frame is at the tail. *)
Lemma queue_pop q b l : queue_ok q -> contents q = b :: l ->
  aget (tq_packets q) (tq_tail q) = Ok b /\ tq_count q <> 0 /\
  let q' := mkTxq (tq_count q - 1) (tq_head q) (Z.rem (tq_tail q + 1) TSN_QUEUE_SIZE) (tq_packets q) in
  queue_ok q' /\ contents q' = l.
Proof.
  intros [Hr Hh] E. destruct (ring_pop TSN_QUEUE_SIZE ring_size _ _ _ b l Hr E) as (Eg & Hn & Hr' & Ec).
  pose proof Hr as (_ & _ & Ht). split; [done|]. split; [done|].
  cbv zeta. rewrite Z.rem_mod_nonneg by (unfold TSN_QUEUE_SIZE in *; lia).
  split; [|exact Ec]. split; [exact Hr'|]. cbn [tq_head tq_tail tq_count]. rewrite Zplus_mod_idemp_l, Hh. f_equal. lia.
Qed.

(** *** The operations on a scheduler *)
Definition durations_ok (l : list api_tas_entry) : Prop := Forall (fun e => 0 <= te_duration_ns e) l.
Record tas_ok (t : api_tas_schedules) : Prop := {
  to_length : Z.of_nat (length (oper_control_list t)) = MAX_TAS_SCHEDULES /\
    0 <= oper_control_list_length t <= MAX_TAS_SCHEDULES;
  to_durations : durations_ok (oper_control_list t) }.

Record sched_ok (s : sched) : Prop := {
  so_queues : length (tx_queues s) = 8%nat /\ Forall queue_ok (tx_queues s);
  so_cbs : length (cbs_configs s) = 8%nat;
  so_tas : tas_ok (tas_schedules s);
  so_wrr : -1 <= wrr_current s < PRIO_QUEUE_COUNT }.

(** The frames waiting, queue by queue. *)
Definition waiting (s : sched) : list (list Z) := contents <$> tx_queues s.
Definition no_shapers (s : sched) : Prop := Forall (fun c => is_enabled c = false) (cbs_configs s).

(** Nothing but the rings is different. *)
Definition same_but_queues (s s' : sched) : Prop := set_tx_queues (tx_queues s') s = s'.

Lemma queue_at s i : sched_ok s -> 0 <= i < TSN_QUEUE_COUNT -> exists q,
  aget (tx_queues s) i = Ok q /\ queue_ok q /\ waiting s !! Z.to_nat i = Some (contents q) /\
  tx_queues s !! Z.to_nat i = Some q.
Proof.
  intros [[Hl Hq] _ _ _] Hi. unfold TSN_QUEUE_COUNT in Hi.
  destruct (aget_some (tx_queues s) i) as [q Ea]; [lia|]. exists q.
  pose proof Ea as [_ E]%aget_ok. split; [done|]. rewrite Forall_lookup in Hq. split; [by eapply Hq|].
  unfold waiting. by rewrite list_lookup_fmap, E.
Qed.

Lemma set_queue_ok s i q : sched_ok s -> queue_ok q -> sched_ok (set_tx_queues (<[i := q]> (tx_queues s)) s).
Proof.
  intros [[Hl Hq] Hc Ht Hw] Hok. split; try done. cbn [tx_queues set_tx_queues].
  rewrite length_insert. split; [done|]. by apply Forall_insert.
Qed.

Lemma enqueue_run s b i l : sched_ok s -> 0 <= i < TSN_QUEUE_COUNT -> waiting s !! Z.to_nat i = Some l ->
  if decide (Z.of_nat (length l) = TSN_QUEUE_SIZE) then tsn_queue_enqueue b i s = Ok (0, s)
  else exists s', tsn_queue_enqueue b i s = Ok (1, s') /\ sched_ok s' /\ same_but_queues s s' /\
    waiting s' = <[Z.to_nat i := l ++ [b]]> (waiting s).
Proof.
  intros Hs Hi Hl. destruct (queue_at s i Hs Hi) as (q & Ea & Hq & Hw & Eq). rewrite Hl in Hw. injection Hw as ->.
  unfold tsn_queue_enqueue. rewrite (decide_False (P := _ \/ _)) by lia. rewrite (cmd_bind_run get _ s s s) by done.
  rewrite (cmd_bind_run _ _ _ _ _ (lift_run _ s _ Ea)). rewrite contents_length by done.
  case_decide as Hf; [done|]. pose proof Hq as [(_ & Hc & _) _].
  destruct (queue_push q b Hq) as (ps & Eps & Hq' & Ec); [lia|].
  rewrite (cmd_bind_run _ _ _ _ _ (lift_run _ s _ Eps)).
  erewrite cmd_bind_run by (apply lift_run, aset_ok; split; [rewrite (proj1 (so_queues _ Hs)); unfold TSN_QUEUE_COUNT in Hi; lia|reflexivity]).
  cstep. eexists. split; [reflexivity|]. split; [by apply set_queue_ok|]. split; [done|].
  unfold waiting. cbn [tx_queues set_tx_queues]. by rewrite list_fmap_insert, Ec.
Qed.

Lemma ring_peek_run s i l : sched_ok s -> 0 <= i < TSN_QUEUE_COUNT -> waiting s !! Z.to_nat i = Some l ->
  tsn_queue_peek i s = Ok (default 0 (head l), s).
Proof.
  intros Hs Hi Hl. destruct (queue_at s i Hs Hi) as (q & Ea & Hq & Hw & Eq). rewrite Hl in Hw. injection Hw as ->.
  unfold tsn_queue_peek. rewrite decide_False by lia. rewrite (cmd_bind_run get _ s s s) by done.
  rewrite (cmd_bind_run _ _ _ _ _ (lift_run _ s _ Ea)).
  destruct (contents q) as [|b r] eqn:Ec.
  - by rewrite decide_True by (by apply contents_empty).
  - destruct (queue_pop q b r Hq Ec) as (Ep & Hn & _). rewrite decide_False by done. exact (lift_run _ s _ Ep).
Qed.

(** A queue index that is out of range. *)
Lemma bad_queue b i s : ~ 0 <= i < TSN_QUEUE_COUNT ->
  tsn_queue_enqueue b i s = Ok (0, s) /\ tsn_queue_peek i s = Ok (0, s) /\
  forall len, tsn_queue_dequeue len i s = Ok (0, s).
Proof.
  intros Hi. assert (tsn_queue_peek i s = Ok (0, s)) as Hp
    by (unfold tsn_queue_peek; by rewrite decide_True by lia).
  split; [unfold tsn_queue_enqueue; by rewrite decide_True by lia|]. split; [done|].
  intros len. unfold tsn_queue_dequeue. by rewrite (cmd_bind_run _ _ _ _ _ Hp).
Qed.

Lemma dequeue_empty len s i : sched_ok s -> 0 <= i < TSN_QUEUE_COUNT -> waiting s !! Z.to_nat i = Some [] ->
  tsn_queue_dequeue len i s = Ok (0, s).
Proof. intros Hs Hi Hl. unfold tsn_queue_dequeue. by rewrite (cmd_bind_run _ _ _ _ _ (ring_peek_run s i _ Hs Hi Hl)). Qed.

(** The oldest frame is taken; a shaped queue then pays for it. *)
Lemma dequeue_run len s i b l : sched_ok s -> 0 <= i < TSN_QUEUE_COUNT -> waiting s !! Z.to_nat i = Some (b :: l) ->
  b <> 0 -> exists s' c, sched_ok s' /\ same_but_queues s s' /\ waiting s' = <[Z.to_nat i := l]> (waiting s) /\
    aget (cbs_configs s) i = Ok c /\
    tsn_queue_dequeue len i s =
      if is_enabled c then
        match spend_credit len b c with
        | Ok c' => Ok (b, set_cbs (<[Z.to_nat i := c']> (cbs_configs s')) s')
        | Fault f => Fault f
        end
      else Ok (b, s').
Proof.
  intros Hs Hi Hl Hb. destruct (queue_at s i Hs Hi) as (q & Ea & Hq & Hw & Eq). rewrite Hl in Hw. injection Hw as Ec.
  destruct (queue_pop q b l Hq (eq_sym Ec)) as (Ep & Hn & Hq' & Ec').
  pose proof Hi as Hi'. unfold TSN_QUEUE_COUNT in Hi'. destruct (aget_some (cbs_configs s) i) as [c Hc];
    [rewrite (so_cbs _ Hs); lia|].
  eexists _, c. split; [exact (set_queue_ok s (Z.to_nat i) _ Hs Hq')|]. split; [done|].
  split; [unfold waiting; cbn [tx_queues set_tx_queues]; by rewrite list_fmap_insert, Ec'|]. split; [done|].
  unfold tsn_queue_dequeue. rewrite (cmd_bind_run _ _ _ _ _ (ring_peek_run s i _ Hs Hi Hl)). change (default 0 (head (b :: l))) with b. rewrite decide_False by done. rewrite (cmd_bind_run get _ s s s) by done.
  rewrite (cmd_bind_run _ _ _ _ _ (lift_run _ s _ Ea)).
  erewrite cmd_bind_run by (apply lift_run, aset_ok; split; [rewrite (proj1 (so_queues _ Hs)); lia|reflexivity]).
  cstep. rewrite (cmd_bind_run _ _ _ _ _ (lift_run _ _ _ Hc)).
  destruct (is_enabled c); cbn [negb]; [|reflexivity].
  destruct (spend_credit len b c) as [c'|f]; [|reflexivity].
  cstep.
  assert (aset (cbs_configs s) i c' = Ok (<[Z.to_nat i := c']> (cbs_configs s))) as Ecbs
    by (apply aset_ok; rewrite (so_cbs _ Hs); split; [lia|done]).
  by rewrite (cmd_bind_run _ _ _ _ _ (lift_run _ _ _ Ecbs)).
Qed.

Lemma no_shaper_at s i c : no_shapers s -> aget (cbs_configs s) i = Ok c -> is_enabled c = false.
Proof. intros Hn [_ Hc]%aget_ok. unfold no_shapers in Hn. rewrite Forall_lookup in Hn. by eapply Hn. Qed.

(** *** Sequences of operations *)
Inductive ring_op := OpEnqueue (b i : Z) | OpPeek (i : Z) | OpDequeue (i : Z).

Definition run_ring_op (len : Z -> Z) (op : ring_op) : cmd sched Z :=
  match op with
  | OpEnqueue b i => tsn_queue_enqueue b i
  | OpPeek i => tsn_queue_peek i
  | OpDequeue i => tsn_queue_dequeue len i
  end.
Fixpoint run_ring_ops (len : Z -> Z) (ops : list ring_op) : cmd sched (list Z) :=
  match ops with
  | [] => mret []
  | op :: ops => r ← run_ring_op len op; rs ← run_ring_ops len ops; mret (r :: rs)
  end.

(** Eight queues of forty frames: the answer of an operation and what waits then. *)
Definition fifo_op (op : ring_op) (w : list (list Z)) : Z * list (list Z) :=
  let at_ i := if decide (0 <= i < TSN_QUEUE_COUNT) then w !! Z.to_nat i else None in
  match op with
  | OpEnqueue b i =>
      match at_ i with
      | Some l => if decide (Z.of_nat (length l) = TSN_QUEUE_SIZE) then (0, w) else (1, <[Z.to_nat i := l ++ [b]]> w)
      | None => (0, w)
      end
  | OpPeek i => match at_ i with Some (b :: _) => (b, w) | _ => (0, w) end
  | OpDequeue i => match at_ i with Some (b :: l) => (b, <[Z.to_nat i := l]> w) | _ => (0, w) end
  end.
Fixpoint fifo_ops (ops : list ring_op) (w : list (list Z)) : list Z * list (list Z) :=
  match ops with
  | [] => ([], w)
  | op :: ops => let '(r, w) := fifo_op op w in let '(rs, w) := fifo_ops ops w in (r :: rs, w)
  end.

(** No frame is NULL. *)
Definition frames_ok (w : list (list Z)) : Prop := Forall (Forall (fun b => b <> 0)) w.
Definition op_frame_ok (op : ring_op) : Prop := match op with OpEnqueue b _ => b <> 0 | _ => True end.

Lemma frames_ok_at w i l : frames_ok w -> w !! i = Some l -> Forall (fun b => b <> 0) l.
Proof. intros H Hl. unfold frames_ok in H. rewrite Forall_lookup in H. by eapply H. Qed.

Lemma waiting_at s i : sched_ok s -> 0 <= i < TSN_QUEUE_COUNT -> exists l, waiting s !! Z.to_nat i = Some l.
Proof. intros Hs Hi. destruct (queue_at s i Hs Hi) as (q & _ & _ & H & _). by eexists. Qed.

Lemma ring_op_run len op s : sched_ok s -> no_shapers s -> frames_ok (waiting s) -> op_frame_ok op -> exists s',
  run_ring_op len op s = Ok (fst (fifo_op op (waiting s)), s') /\ waiting s' = snd (fifo_op op (waiting s)) /\
  sched_ok s' /\ same_but_queues s s' /\ frames_ok (waiting s').
Proof.
  intros Hs Hn Hf Ho.
  assert (same_but_queues s s) as Hrefl by (by destruct s).
  destruct op as [b i|i|i]; cbn [run_ring_op fifo_op op_frame_ok] in *;
    (destruct (decide (0 <= i < TSN_QUEUE_COUNT)) as [Hi|Hi];
      [destruct (waiting_at s i Hs Hi) as [l Hl]; rewrite Hl|
       destruct (bad_queue 0 i s Hi) as (_ & H2 & H3); exists s; cbn [fst snd]; try by split_and!]).
  - pose proof (enqueue_run s b i l Hs Hi Hl) as H. case_decide; [by exists s|].
    destruct H as (s' & E & Hs' & Hb & Hw). exists s'. cbn [fst snd]. split_and!; try done. rewrite Hw.
    apply Forall_insert; [done|]. apply Forall_app. split; [by eapply frames_ok_at|by apply Forall_singleton].
  - split_and!; try done. by apply bad_queue.
  - exists s. rewrite (ring_peek_run s i l Hs Hi Hl). by destruct l; cbn [fst snd]; split_and!.
  - destruct l as [|b l]; [exists s; rewrite (dequeue_empty len s i Hs Hi Hl); by split_and!|].
    pose proof (frames_ok_at _ _ _ Hf Hl) as [Hb Hfl]%Forall_cons.
    destruct (dequeue_run len s i b l Hs Hi Hl Hb) as (s' & c & Hs' & Hsame & Hw & Hc & E).
    rewrite (no_shaper_at s i c Hn Hc) in E. exists s'. cbn [fst snd]. split_and!; try done.
    rewrite Hw. by apply Forall_insert.
Qed.

Lemma same_queues_trans s1 s2 s3 : same_but_queues s1 s2 -> same_but_queues s2 s3 -> same_but_queues s1 s3.
Proof. unfold same_but_queues. destruct s1, s2, s3. cbn. by intros [= <- <- <- <-] [= <- <- <- <-]. Qed.
Lemma same_queues_shapers s s' : same_but_queues s s' -> no_shapers s -> no_shapers s'.
Proof. unfold same_but_queues, no_shapers. destruct s, s'. cbn. by intros [= <- <- <- <-]. Qed.

(** The rings are queues.  Whatever sequence of frames is put into, looked at and
    taken from the rings of a scheduler without shapers, each answer, and what is
    waiting in the end, is that of eight queues of at most forty frames, first in,
    first out: a frame is refused when its queue is full or does not exist, and NULL is
    the answer when nothing is waiting.  Nothing else of the scheduler changes. *)
Theorem rings_are_fifos len ops s : sched_ok s -> no_shapers s -> frames_ok (waiting s) -> Forall op_frame_ok ops ->
  exists s', run_ring_ops len ops s = Ok (fst (fifo_ops ops (waiting s)), s') /\
    waiting s' = snd (fifo_ops ops (waiting s)) /\ sched_ok s' /\ same_but_queues s s'.
Proof.
  intros Hs Hn Hf Ho. revert s Hs Hn Hf. induction Ho as [|op ops Hop _ IH]; intros s Hs Hn Hf.
  { exists s. split_and!; try done. by destruct s. }
  destruct (ring_op_run len op s Hs Hn Hf Hop) as (s1 & E1 & W1 & Hs1 & B1 & F1).
  destruct (IH s1 Hs1 (same_queues_shapers _ _ B1 Hn) F1) as (s2 & E2 & W2 & Hs2 & B2).
  exists s2. cbn [run_ring_ops fifo_ops]. rewrite (cmd_bind_run _ _ _ _ _ E1), (cmd_bind_run _ _ _ _ _ E2), W2, W1.
  destruct (fifo_op op (waiting s)) as [r w]. cbn [fst snd].
  destruct (fifo_ops ops w) as [rs w']. split_and!; try done. by eapply same_queues_trans.
Qed.

(** ** The gates follow the schedule *)

(** The gate of queue [i] over a cycle, as a schedule of [Gate]. *)
Definition gate_schedule (t : api_tas_schedules) (i : nat) : schedule :=
  (fun e => (te_duration_ns e, Z.testbit (gates_bit e) (Z.of_nat i))) <$>
  take (Z.to_nat (oper_control_list_length t)) (oper_control_list t).
Definition oper_cycle (t : api_tas_schedules) : Z :=
  u64 (oper_cycle_time t * 1000000000 + oper_cycle_time_extention t).

Lemma bits_run b gates : length gates = 8%nat ->
  for_loop 8 (fun i g => aset g (Z.of_nat i) (Z.testbit b (Z.of_nat i))) gates =
    Ok ((fun i => Z.testbit b (Z.of_nat i)) <$> seq 0 8).
Proof. intros Hl. do 8 (destruct gates as [|? gates]; [done|]). by destruct gates. Qed.

Definition gates_of (es : list api_tas_entry) (i : nat) : schedule :=
  (fun e => (te_duration_ns e, Z.testbit (gates_bit e) (Z.of_nat i))) <$> es.

Lemma gates_of_cons e es i :
  gates_of (e :: es) i = (te_duration_ns e, Z.testbit (gates_bit e) (Z.of_nat i)) :: gates_of es i.
Proof. done. Qed.
Lemma gates_of_nonneg es i : durations_ok es -> 0 <= span (gates_of es i).
Proof. intros H. apply span_nonneg, Forall_fmap. exact H. Qed.

Lemma find_schedule_run l k n m gates : (k + n <= length l)%nat -> length gates = 8%nat -> 0 <= m ->
  durations_ok (take n (drop k l)) ->
  find_schedule l (Z.of_nat k) n m gates =
    Ok (if decide (m < span (gates_of (take n (drop k l)) 0))
        then (fun i => gate (gates_of (take n (drop k l)) i) m) <$> seq 0 8 else gates).
Proof.
  revert k m. induction n as [|n IH]; intros k m Hn Hl Hm Hd; cbn [find_schedule].
  { change (gates_of (take 0 (drop k l)) 0) with (@nil (Z * bool)). cbn [span]. by rewrite decide_False by lia. }
  destruct (lookup_lt_is_Some_2 l k) as [e He]; [lia|]. rewrite (aget_nat _ _ _ He). cbn [mbind outcome_bind].
  rewrite (drop_S _ _ _ He) in Hd |- *. cbn [take] in Hd |- *. apply Forall_cons in Hd as [Hd0 Hd].
  pose proof (gates_of_nonneg _ 0 Hd). rewrite gates_of_cons. cbn [span fst].
  destruct (decide (m >= te_duration_ns e)) as [Hge|Hlt].
  - replace (Z.of_nat k + 1) with (Z.of_nat (S k)) by lia. rewrite IH by (done || lia). f_equal.
    destruct (decide (m - te_duration_ns e < _)), (decide (m < _ + _)); try lia; [|done].
    apply list_fmap_ext. intros j i _. rewrite gates_of_cons. cbn [gate].
    by rewrite (proj2 (Z.ltb_ge _ _)) by lia.
  - rewrite decide_True by lia. rewrite (bits_run _ gates Hl). f_equal. apply list_fmap_ext. intros j i _.
    rewrite gates_of_cons. cbn [gate]. by rewrite (proj2 (Z.ltb_lt _ _)) by lia.
Qed.

Lemma qbv_status_run t timestamp gates : tas_ok t -> length gates = 8%nat ->
  get_qbv_status t timestamp gates =
    if negb (gate_enabled t) then Ok gates else
    if decide (oper_cycle t = 0) then Fault DivByZero else
    let m := timestamp mod oper_cycle t in
    Ok (if decide (m < span (gate_schedule t 0)) then (fun i => gate (gate_schedule t i) m) <$> seq 0 8 else gates).
Proof.
  intros [[Hl Hn] Hd] Hg. unfold get_qbv_status. destruct (gate_enabled t); cbn [negb]; [|done].
  fold (oper_cycle t). case_decide as Hc; [done|].
  assert (0 < oper_cycle t) as Hpos by (unfold oper_cycle in *; pose proof (u64_range
    (oper_cycle_time t * 1000000000 + oper_cycle_time_extention t)) as H; unfold fits_u64 in H; lia).
  pose proof (Z.mod_pos_bound timestamp _ Hpos). change 0 with (Z.of_nat 0) at 1.
  rewrite find_schedule_run; [|lia|done|lia|apply Forall_take; exact Hd]. done.
Qed.

(** The gates follow the schedule.  When gates are enabled, the gate of each queue at
    any time is that of its schedule at this point of the cycle, if the entries reach
    that far; behind the last entry, and when gates are not enabled, queue 0 is open
    and all others are closed.  A cycle of length zero is a division by zero. *)
Theorem gates_follow_schedule t timestamp : tas_ok t ->
  if decide (gate_enabled t = true /\ oper_cycle t = 0)
  then get_qbv_status t timestamp gates0 = Fault DivByZero
  else exists g, get_qbv_status t timestamp gates0 = Ok g /\ length g = 8%nat /\
    forall i, (i < 8)%nat ->
      let m := timestamp mod oper_cycle t in
      g !! i = Some (if decide (gate_enabled t = true /\ m < span (gate_schedule t i))
                     then gate (gate_schedule t i) m else (i =? 0)%nat).
Proof.
  intros Ht. rewrite qbv_status_run by done.
  assert (forall i, span (gate_schedule t i) = span (gate_schedule t 0)) as Hspan.
  { intros i. unfold gate_schedule. induction (take _ _) as [|e l IH]; [done|]. cbn [fmap list_fmap span fst]. f_equal. exact IH. }
  assert (forall i, (i < 8)%nat -> gates0 !! i = Some (i =? 0)%nat) as H0.
  { intros i Hi. do 8 (destruct i as [|i]; [done|]). lia. }
  destruct (gate_enabled t); cbn [negb].
  2: { rewrite decide_False by (intros [? _]; discriminate). exists gates0. split_and!; [done..|]. intros i Hi.
       rewrite decide_False by (intros [? _]; discriminate). by apply H0. }
  destruct (decide (oper_cycle t = 0)) as [Hz|Hz]; [by rewrite decide_True|]. rewrite decide_False by tauto.
  eexists. split; [reflexivity|]. case_decide as Hm; (split; [done|]; intros i Hi).
  - rewrite decide_True by (by rewrite Hspan). rewrite list_lookup_fmap, lookup_seq_lt by lia. done.
  - rewrite decide_False by (rewrite Hspan; tauto). by apply H0.
Qed.

(** ** Selection *)

(** A shaped queue that may send: its gate is open and its credit [v] not negative.
    The best has the most credit and, among equals, the highest number. *)
Definition candidate (g en : list bool) (cr : list (option Z)) (i : nat) (v : Z) : Prop :=
  g !! i = Some true /\ en !! i = Some true /\ cr !! i = Some (Some v) /\ 0 <= v.
Definition best (g en : list bool) (cr : list (option Z)) (i : nat) : Prop :=
  exists v, candidate g en cr i v /\ forall j w, candidate g en cr j w -> w <= v /\ (w = v -> (j <= i)%nat).

(** The credits of the shaped queues are set. *)
Definition credits_set (en : list bool) (cr : list (option Z)) : Prop :=
  length en = 8%nat /\ length cr = 8%nat /\ forall i, en !! i = Some true -> exists v, cr !! i = Some (Some v).

Lemma lookup_bool (l : list bool) i : (i < length l)%nat -> exists b, l !! i = Some b.
Proof. apply lookup_lt_is_Some_2. Qed.

Lemma best_shaped_run g en cr n sel hi : length g = 8%nat -> credits_set en cr -> (n <= 8)%nat -> -1 <= hi ->
  exists r, best_shaped g en cr n sel hi = Ok r /\
    ((r = sel /\ forall i v, (i < n)%nat -> candidate g en cr i v -> v <= hi) \/
     (exists i v, r = Z.of_nat i /\ (i < n)%nat /\ candidate g en cr i v /\ hi < v /\
       forall j w, (j < n)%nat -> candidate g en cr j w -> w <= v /\ (w = v -> (j <= i)%nat))).
Proof.
  intros Hg (Hen & Hcr & Hset). revert sel hi. induction n as [|n IH]; intros sel hi Hn Hhi; cbn [best_shaped].
  { exists sel. split; [done|]. left. split; [done|]. lia. }
  destruct (lookup_bool g n) as [b Eb]; [lia|]. destruct (lookup_bool en n) as [e Ee]; [lia|].
  rewrite (aget_nat _ _ _ Eb). cbn [mbind outcome_bind].
  assert ((forall v, candidate g en cr n v -> v <= hi) -> exists r, best_shaped g en cr n sel hi = Ok r /\
    ((r = sel /\ forall i v, (i < S n)%nat -> candidate g en cr i v -> v <= hi) \/
     (exists i v, r = Z.of_nat i /\ (i < S n)%nat /\ candidate g en cr i v /\ hi < v /\
       forall j w, (j < S n)%nat -> candidate g en cr j w -> w <= v /\ (w = v -> (j <= i)%nat)))) as Hskip.
  { intros Hno. destruct (IH sel hi ltac:(lia) Hhi) as (r & E & [[-> H]|(i & v & -> & Hi & Hc & Hv & H)]).
    - exists sel. split; [done|]. left. split; [done|]. intros i v Hi Hc. destruct (decide (i = n)) as [->|]; [by apply Hno|].
      apply (H i); [lia|done].
    - exists (Z.of_nat i). split; [done|]. right. exists i, v. split_and!; try done; [lia|]. intros j w Hj Hw.
      destruct (decide (j = n)) as [->|]; [|apply H; [lia|done]]. pose proof (Hno w Hw). lia. }
  destruct b; cbn [negb]; [|apply Hskip; intros v (H & _); congruence].
  rewrite (aget_nat _ _ _ Ee). cbn [mbind outcome_bind].
  destruct e; cbn [negb]; [|apply Hskip; intros v (_ & H & _); congruence].
  destruct (Hset n Ee) as [token Et]. rewrite (aget_nat _ _ _ Et). cbn [mbind outcome_bind].
  assert (forall v, candidate g en cr n v -> v = token /\ 0 <= token) as Htok
    by (intros v (_ & _ & H & H0); rewrite Et in H; injection H as ->; done).
  destruct (decide (token < 0)); [apply Hskip; intros v Hv; apply Htok in Hv; lia|].
  destruct (decide (token > hi)) as [Hgt|]; [|apply Hskip; intros v Hv; apply Htok in Hv; lia].
  assert (candidate g en cr n token) as Hcand by (split_and!; done || lia).
  destruct (IH (Z.of_nat n) token ltac:(lia) ltac:(lia)) as (r & E & [[-> H]|(i & v & -> & Hi & Hc & Hv & H)]).
  - exists (Z.of_nat n). split; [done|]. right. exists n, token. split_and!; try done; [lia|lia|]. intros j w Hj Hw.
    destruct (decide (j = n)) as [->|]; [apply Htok in Hw as [-> _]; lia|].
    pose proof (H j w ltac:(lia) Hw). lia.
  - exists (Z.of_nat i). split; [done|]. right. exists i, v. split_and!; try done; [lia|lia|]. intros j w Hj Hw.
    destruct (decide (j = n)) as [->|]; [|apply H; [lia|done]]. apply Htok in Hw as [-> _]. lia.
Qed.

(** The queues the round robin looks at: with an open gate and a frame, from the one
    above [wrr_current] downwards. *)
Definition ready (g : list bool) (s : sched) (i : nat) : Prop :=
  g !! i = Some true /\ exists l, waiting s !! i = Some l /\ l <> [].
Definition lowest_looked (cur : Z) : Z := if decide (cur = 6) then 1 else 0.
Definition first_ready (g : list bool) (s : sched) (top : Z) (j : nat) : Prop :=
  lowest_looked (wrr_current s) <= Z.of_nat j <= top /\ ready g s j /\
  forall k, (j < k)%nat -> Z.of_nat k <= top -> ~ ready g s k.

Lemma rem_index cur i : -1 <= cur <= 6 -> 0 <= i < 7 -> cur - i > -7 -> Z.rem (cur - i) PRIO_QUEUE_COUNT + 1 = cur + 1 - i.
Proof.
  intros. unfold PRIO_QUEUE_COUNT, TSN_QUEUE_COUNT. change (8 - 1) with 7.
  destruct (decide (0 <= cur - i)); [rewrite Z.rem_small by lia; lia|].
  replace (cur - i) with (- (i - cur)) by lia. rewrite Z.rem_opp_l, Z.rem_small by lia. lia.
Qed.

Lemma round_robin_run g s i n : length g = 8%nat -> sched_ok s -> 0 <= i -> i + Z.of_nat n = 7 ->
  i <= wrr_current s + 2 ->
  let top := wrr_current s + 1 - i in
  (forall j, first_ready g s top j -> round_robin g (tx_queues s) (wrr_current s) i n = Ok (Some (Z.of_nat j))) /\
  ((forall k, lowest_looked (wrr_current s) <= Z.of_nat k <= top -> ~ ready g s k) ->
   round_robin g (tx_queues s) (wrr_current s) i n =
     if decide (wrr_current s < 5) then Fault OutOfBounds else Ok None).
Proof.
  intros Hg Hs. pose proof (so_wrr _ Hs) as Hw. unfold PRIO_QUEUE_COUNT, TSN_QUEUE_COUNT in Hw.
  revert i. induction n as [|n IH]; intros i Hi Hn Hle top.
  { split.
    - intros j (Hj & _). unfold lowest_looked in Hj. destruct (decide (wrr_current s = 6)); lia.
    - intros _. cbn. by rewrite decide_False by lia. }
  assert (top = wrr_current s + 1 - i) as Htop by done. cbn [round_robin]. rewrite rem_index by lia. fold top.
  destruct (decide (top < 0)) as [Hneg|Hpos].
  { assert (aget g top = Fault OutOfBounds) as -> by (unfold aget; by rewrite decide_False by lia). split.
    - intros j (Hj & _). unfold lowest_looked in Hj. destruct (decide (wrr_current s = 6)); lia.
    - intros _. cbn. by rewrite decide_True by lia. }
  specialize (IH (i + 1) ltac:(lia) ltac:(lia) ltac:(lia)). cbv zeta in IH.
  replace (wrr_current s + 1 - (i + 1)) with (top - 1) in IH by lia.
  destruct (lookup_bool g (Z.to_nat top)) as [b Eb]; [lia|].
  destruct (queue_at s top Hs ltac:(unfold TSN_QUEUE_COUNT; lia)) as (q & Eq & Hq & Hwt & _).
  assert (aget g top = Ok b) as -> by (apply aget_ok; split; [lia|done]). cbn [mbind outcome_bind].
  assert (ready g s (Z.to_nat top) <-> b = true /\ tq_count q <> 0) as Hready.
  { unfold ready. rewrite Eb, Hwt. split.
    - intros [[= ->] (l & [= <-] & Hl)]. split; [done|]. by rewrite contents_empty.
    - intros [-> Hc]. split; [done|]. exists (contents q). split; [done|]. by rewrite <- contents_empty. }
  assert (~ ready g s (Z.to_nat top) ->
    (forall j, first_ready g s top j -> first_ready g s (top - 1) j) /\
    ((forall k, lowest_looked (wrr_current s) <= Z.of_nat k <= top -> ~ ready g s k) ->
     forall k, lowest_looked (wrr_current s) <= Z.of_nat k <= top - 1 -> ~ ready g s k)) as Hskip.
  { intros Hno. split.
    - intros j (Hj & Hr & Hmax). split_and!; [lia| |done|intros k Hk Hk'; apply Hmax; lia].
      destruct (decide (Z.of_nat j = top)) as [E|]; [|lia]. exfalso. apply Hno. by rewrite <- E, Nat2Z.id.
    - intros H k Hk. apply H. lia. }
  assert (ready g s (Z.to_nat top) ->
    (forall j, first_ready g s top j -> j = Z.to_nat top) /\
    ~ (forall k, lowest_looked (wrr_current s) <= Z.of_nat k <= top -> ~ ready g s k)) as Hhit.
  { intros Hr. split.
    - intros j (Hj & _ & Hmax). destruct (decide (Z.of_nat j = top)); [lia|].
      exfalso. apply (Hmax (Z.to_nat top)); [lia|lia|done].
    - intros H. apply (H (Z.to_nat top)); [|done]. unfold lowest_looked. destruct (decide (wrr_current s = 6)); lia. }
  destruct b; cbn [negb].
  - rewrite Eq. cbn [mbind outcome_bind]. destruct (decide (tq_count q = 0)) as [Hz|Hz].
    + destruct Hskip as [H1 H2]; [rewrite Hready; tauto|]. split; [intros j Hj; by apply IH, H1|intros H; apply IH; by apply H2].
    + destruct Hhit as [H1 H2]; [rewrite Hready; tauto|]. split; [|tauto]. intros j Hj. rewrite (H1 j Hj). f_equal. f_equal. lia.
  - destruct Hskip as [H1 H2]; [rewrite Hready; intros [? _]; discriminate|].
    split; [intros j Hj; by apply IH, H1|intros H; apply IH; by apply H2].
Qed.

Lemma qav_status_run timestamp c r : qav_status timestamp c = Ok r ->
  fst (fst r) = is_enabled c /\ (is_enabled c = true -> exists v, snd (fst r) = Some v) /\
  is_enabled (snd r) = is_enabled c.
Proof.
  unfold qav_status. destruct (is_enabled c) eqn:E; cbn [negb]; [|by intros [= <-]].
  destruct (decide (timestamp < _)); [intros [= <-]; cbn; rewrite E; split_and!; eauto|].
  destruct (slong _) as [d|]; cbn [mbind outcome_bind]; [|done].
  destruct (slong _) as [delta|]; cbn [mbind outcome_bind]; [|done].
  destruct (slong _) as [sum|]; cbn [mbind outcome_bind]; [|done].
  destruct (clamp_credit _ _) as [credit|]; cbn [mbind outcome_bind]; [|done].
  intros [= <-]. cbn. split_and!; eauto. by case_decide.
Qed.

Lemma qav_run timestamp l en cr l' : get_qav_status timestamp l = Ok (en, cr, l') ->
  en = is_enabled <$> l /\ length cr = length l /\ (forall i, en !! i = Some true -> exists v, cr !! i = Some (Some v)) /\
  is_enabled <$> l' = is_enabled <$> l.
Proof.
  revert en cr l'. induction l as [|c l IH]; intros en cr l'; cbn [get_qav_status]; [intros [= <- <- <-]; by split_and!|].
  destruct (qav_status timestamp c) as [[[e v] c']|] eqn:Ec; cbn [mbind outcome_bind]; [|done].
  destruct (get_qav_status timestamp l) as [[[es vs] l1]|]; cbn [mbind outcome_bind]; [|done].
  intros [= <- <- <-]. destruct (IH _ _ _ eq_refl) as (-> & Hl & Hv & Hl'). apply qav_status_run in Ec as (E1 & E2 & E3).
  cbn [fst snd] in *. subst e. split; [done|]. split; [cbn; by rewrite Hl|]. split.
  - intros [|i] H; [|by apply Hv]. cbn in H. injection H as H. destruct (E2 H) as [w ->]. by exists w.
  - cbn [fmap list_fmap]. by rewrite E3, <- Hl'.
Qed.

(** Shapers that are off are left alone. *)
Lemma qav_off timestamp l : Forall (fun c => is_enabled c = false) l ->
  get_qav_status timestamp l = Ok (const false <$> l, const None <$> l, l).
Proof.
  induction 1 as [|c l Hc _ IH]; [done|]. cbn [get_qav_status]. unfold qav_status. rewrite Hc. cbn [negb mbind outcome_bind].
  by rewrite IH.
Qed.

Lemma qbv_length t timestamp g : tas_ok t -> get_qbv_status t timestamp gates0 = Ok g -> length g = 8%nat.
Proof.
  intros Ht. rewrite qbv_status_run by done. destruct (negb _); [by intros [= <-]|]. destruct (decide (_ = _)); [done|].
  cbv zeta. destruct (decide (_ < _)); intros [= <-]; done.
Qed.

Lemma set_cbs_ok s cbs : sched_ok s -> length cbs = 8%nat -> sched_ok (set_cbs cbs s).
Proof. by intros [? ? ? ?]. Qed.

(** What is left of [tsn_select_queue] after the shaped queues. *)
Definition unshaped (g en : list bool) (s : sched) : cmd sched Z :=
  r ← lift (round_robin g (tx_queues s) (wrr_current s) 0 (Z.to_nat PRIO_QUEUE_COUNT));
  match r with
  | Some index => _ ← wrr_move index; mret index
  | None => g ← lift (aget g 0); e ← lift (aget en 0); q ← lift (aget (tx_queues s) 0);
            mret (if g && negb e && bool_decide (0 < tq_count q) then 0 else -1)
  end.

(** The prefix of [tsn_select_queue], up to the round robin. *)
Lemma select_run s timestamp g en cr cbs : sched_ok s ->
  get_qbv_status (tas_schedules s) timestamp gates0 = Ok g ->
  get_qav_status timestamp (cbs_configs s) = Ok (en, cr, cbs) ->
  length g = 8%nat /\ length en = 8%nat /\ sched_ok (set_cbs cbs s) /\
  ((exists i, best g en cr i /\ tsn_select_queue timestamp s = Ok (Z.of_nat i, set_cbs cbs s)) \/
   (forall i v, ~ candidate g en cr i v) /\
   tsn_select_queue timestamp s = unshaped g en s (set_cbs cbs s)).
Proof.
  intros Hs Eg Ev. pose proof (qbv_length _ _ _ (so_tas _ Hs) Eg) as Hg.
  destruct (qav_run _ _ _ _ _ Ev) as (Hen & Hcr & Hv & Hcbs). rewrite (so_cbs _ Hs) in Hcr.
  assert (length en = 8%nat) as Hlen by (rewrite Hen; etrans; [apply length_fmap|apply (so_cbs _ Hs)]).
  assert (sched_ok (set_cbs cbs s)) as Hs1.
  { apply set_cbs_ok; [done|]. apply (f_equal length) in Hcbs. rewrite !length_fmap in Hcbs. rewrite Hcbs. apply Hs. }
  split_and!; try done.
  destruct (best_shaped_run g en cr 8 (-1) (-1) Hg (conj Hlen (conj Hcr Hv)) ltac:(lia) ltac:(lia)) as (r & Er & Hr).
  assert (forall k, (tsn_select_queue timestamp s) = k <->
    (if decide (0 <= r) then mret r else s ← get; unshaped g en s) (set_cbs cbs s) = k) as Erun.
  { intros k. unfold tsn_select_queue. rewrite (cmd_bind_run get _ s s s) by done.
    rewrite (cmd_bind_run _ _ _ _ _ (lift_run _ s _ Eg)), (cmd_bind_run _ _ _ _ _ (lift_run _ s _ Ev)). cstep.
    rewrite (cmd_bind_run _ _ _ _ _ (lift_run _ _ _ Er)). done. }
  destruct Hr as [[-> Hno]|(i & v & -> & Hi & Hc & Hv' & Hmax)].
  - right. split; [intros i v Hc; pose proof Hc as (H1%lookup_lt_Some & _ & _ & H2); pose proof (Hno i v ltac:(lia) Hc); lia|].
    apply Erun. rewrite decide_False by lia. by rewrite (cmd_bind_run get _ _ _ _ eq_refl).
  - left. exists i. split; [|apply Erun; by rewrite decide_True by lia]. exists v. split; [done|].
    intros j w Hw. apply Hmax; [|done]. pose proof Hw as (H1%lookup_lt_Some & _). lia.
Qed.

(** The queue [tsn_select_queue] takes when no shaped queue may send. *)
Definition fallback (g en : list bool) (s : sched) : Z :=
  match g !! 0%nat, en !! 0%nat, waiting s !! 0%nat with
  | Some true, Some false, Some (_ :: _) => 0
  | _, _, _ => -1
  end.

Lemma fallback_run g en s s' : length g = 8%nat -> length en = 8%nat -> sched_ok s ->
  round_robin g (tx_queues s) (wrr_current s) 0 7 = Ok None ->
  unshaped g en s s' = Ok (fallback g en s, s').
Proof.
  intros Hg He Hs Hrr. unfold unshaped. rewrite (cmd_bind_run _ _ _ _ _ (lift_run _ s' _ Hrr)). destruct (lookup_bool g 0) as [b Eb]; [lia|]. destruct (lookup_bool en 0) as [e Ee]; [lia|].
  destruct (queue_at s 0 Hs ltac:(done)) as (q & Eq & Hq & Hw & _).
  rewrite (cmd_bind_run _ _ _ _ _ (lift_run _ s' _ (aget_nat g 0 b Eb))).
  rewrite (cmd_bind_run _ _ _ _ _ (lift_run _ s' _ (aget_nat en 0 e Ee))).
  rewrite (cmd_bind_run _ _ _ _ _ (lift_run _ s' _ Eq)). unfold fallback. change (Z.to_nat 0) with 0%nat in Hw.
  rewrite Eb, Ee, Hw. pose proof (contents_length q Hq) as Hl.
  destruct b, e; cbn [andb negb]; try reflexivity. destruct (contents q); cbn [length] in Hl.
  - by rewrite bool_decide_eq_false_2 by lia.
  - by rewrite bool_decide_eq_true_2 by lia.
Qed.

(** C33. What is selected.  A shaped queue with an open gate and the most credit, if one
    has a credit that is not negative - whether a frame waits in it or not.  Otherwise
    the round robin takes the highest queue that is open and has a frame, of those not
    above [wrr_current + 1]; it counts the selection, and moves on to just below this queue
    once the count has reached the number of the queue: it never moves up.  When there is no
    such queue, the index runs below zero if [wrr_current] is less than five; else queue 0 is
    selected if it is open, has no shaper and has a frame, and else none. *)
Theorem select_queue_picks s timestamp g en cr cbs : sched_ok s -> 0 <= wrr_count s < 2147483647 ->
  get_qbv_status (tas_schedules s) timestamp gates0 = Ok g ->
  get_qav_status timestamp (cbs_configs s) = Ok (en, cr, cbs) ->
  let s1 := set_cbs cbs s in
  let top := wrr_current s + 1 in
  (exists i, best g en cr i /\ tsn_select_queue timestamp s = Ok (Z.of_nat i, s1)) \/
  (forall i v, ~ candidate g en cr i v) /\
  (forall j, first_ready g s top j ->
    let count := wrr_count s + 1 in
    tsn_select_queue timestamp s =
      Ok (Z.of_nat j, set_wrr (if decide (count >= Z.of_nat j) then Z.of_nat j - 1 else wrr_current s) count s1)) /\
  ((forall k, lowest_looked (wrr_current s) <= Z.of_nat k <= top -> ~ ready g s k) ->
    tsn_select_queue timestamp s =
      if decide (wrr_current s < 5) then Fault OutOfBounds else Ok (fallback g en s, s1)).
Proof.
  intros Hs Hcount Eg Ev s1 top. destruct (select_run s timestamp g en cr cbs Hs Eg Ev) as (Hg & He & Hs1 & H).
  destruct H as [H|[Hno E]]; [by left|]. right. split; [done|].
  pose proof (so_wrr _ Hs) as Hw. unfold PRIO_QUEUE_COUNT, TSN_QUEUE_COUNT in Hw.
  pose proof (round_robin_run g s 0 7 Hg Hs ltac:(lia) ltac:(lia) ltac:(lia)) as Hrr. cbv zeta in Hrr.
  rewrite Z.sub_0_r in Hrr. fold top in Hrr. destruct Hrr as [Hhit Hmiss]. split.
  - intros j Hj. pose proof Hj as (Hr & _). rewrite E. unfold unshaped.
    rewrite (cmd_bind_run _ _ _ _ _ (lift_run _ _ _ (Hhit j Hj))).
    unfold wrr_move. assert (sint (wrr_count s1 + 1) = Ok (wrr_count s + 1)) as Ei
      by (unfold s1, sint; cbn [wrr_count set_cbs]; by rewrite decide_True by lia).
    erewrite cmd_bind_run; [reflexivity|]. rewrite (cmd_bind_run get _ s1 s1 s1) by done.
    rewrite (cmd_bind_run _ _ _ _ _ (lift_run _ s1 _ Ei)). unfold modify. f_equal. f_equal. f_equal.
    destruct (decide (_ >= _)) as [Hge|]; [|done]. unfold PRIO_QUEUE_COUNT, TSN_QUEUE_COUNT.
    unfold lowest_looked in Hr. destruct (decide (j = 0%nat)) as [->|]; [done|].
    change (8 - 1) with 7. apply Z.rem_small. unfold top in Hr. lia.
  - intros Hk. rewrite E. specialize (Hmiss Hk). destruct (decide (wrr_current s < 5)).
    + unfold unshaped, mbind, cmd_bind, lift. change (Z.to_nat PRIO_QUEUE_COUNT) with 7%nat. by rewrite Hmiss.
    + by apply fallback_run.
Qed.

(** ** sender_thread.c: the frame to send next *)
Definition dequeue (len : Z -> Z) (now : Z) : cmd sched Z :=
  queue_index ← tsn_select_queue now;
  if decide (queue_index < 0) then mret 0 else tsn_queue_dequeue len queue_index.

(** As [tsn_init_configs] leaves it: gates and shapers are off. *)
Record default_config (s : sched) : Prop := {
  dc_ok : sched_ok s; dc_gates : gate_enabled (tas_schedules s) = false; dc_shapers : no_shapers s;
  dc_wrr : wrr_current s = PRIO_QUEUE_COUNT - 1 }.

Lemma no_candidate g cr (l : list api_cbs_entry) i v : ~ candidate g (const false <$> l) cr i v.
Proof. intros (_ & H & _). rewrite list_lookup_fmap in H. by destruct (l !! i). Qed.

(** Queue 0 is selected when it has a frame, and nothing changes. *)
Lemma select_default s now l : default_config s -> waiting s !! 0%nat = Some l ->
  tsn_select_queue now s = Ok (match l with [] => -1 | _ => 0 end, s).
Proof.
  intros [Hs Hgate Hno Hw] Hl. unfold PRIO_QUEUE_COUNT, TSN_QUEUE_COUNT in Hw.
  assert (get_qbv_status (tas_schedules s) now gates0 = Ok gates0) as Eg by (unfold get_qbv_status; by rewrite Hgate).
  pose proof (qav_off now _ Hno) as Ev. destruct (select_run s now _ _ _ _ Hs Eg Ev) as (Hg & He & Hs1 & H).
  destruct H as [(i & (v & Hc & _) & _)|[_ E]]; [by apply no_candidate in Hc|].
  replace (set_cbs (cbs_configs s) s) with s in E by (by destruct s). rewrite E.
  rewrite fallback_run; try done.
  - unfold fallback. rewrite Hl. pose proof (so_cbs _ Hs) as Hc. destruct (cbs_configs s); [done|]. by destruct l.
  - pose proof (round_robin_run gates0 s 0 7 Hg Hs ltac:(lia) ltac:(lia) ltac:(lia)) as [_ Hm]. rewrite Hm.
    + by rewrite Hw.
    + intros k Hk (Hr & _). unfold lowest_looked in Hk. rewrite Hw in Hk. rewrite decide_True in Hk by done.
      do 8 (destruct k as [|k]; [first [lia|discriminate Hr]|]). lia.
Qed.

Lemma same_queues_default s s' : same_but_queues s s' -> sched_ok s' -> default_config s -> default_config s'.
Proof.
  intros Hb Hs' [_ Hg Hn Hw]. split; [done| |by eapply same_queues_shapers|];
    unfold same_but_queues in Hb; destruct s, s'; cbn in *; by injection Hb as <- <- <- <-.
Qed.

Lemma dequeue_default len s now b l : default_config s -> waiting s !! 0%nat = Some (b :: l) -> b <> 0 -> exists s',
  dequeue len now s = Ok (b, s') /\ default_config s' /\ same_but_queues s s' /\ waiting s' = <[0%nat := l]> (waiting s).
Proof.
  intros Hd Hl Hb. pose proof (dc_ok _ Hd) as Hs.
  destruct (dequeue_run len s 0 b l Hs ltac:(done) Hl Hb) as (s' & c & Hs' & Hsame & Hw & Hc & E).
  rewrite (no_shaper_at s 0 c (dc_shapers _ Hd) Hc) in E. exists s'.
  split_and!; [|by eapply same_queues_default|done|done].
  unfold dequeue. by rewrite (cmd_bind_run _ _ _ _ _ (select_default s now _ Hd Hl)).
Qed.

Fixpoint run_dequeues (len : Z -> Z) (times : list Z) : cmd sched (list Z) :=
  match times with
  | [] => mret []
  | now :: times => b ← dequeue len now; bs ← run_dequeues len times; mret (b :: bs)
  end.

(** C38. The queue without priority is drained.  With gates and shapers off, as they are
    after start-up, calls of [dequeue] at any times give the frames that wait in queue 0 in
    their order, and then NULL; as many calls as there are frames empty the queue.  The frames
    that wait in the other queues are left there, whatever their number. *)
Theorem queue_0_drains len times s l : default_config s -> frames_ok (waiting s) ->
  waiting s !! 0%nat = Some l -> exists s',
    run_dequeues len times s = Ok (take (length times) (l ++ replicate (length times) 0), s') /\
    waiting s' = <[0%nat := drop (length times) l]> (waiting s) /\ same_but_queues s s'.
Proof.
  revert s l. induction times as [|now times IH]; intros s l Hd Hf Hl; cbn [run_dequeues length].
  { exists s. split; [done|]. split; [by rewrite list_insert_id|by destruct s]. }
  destruct l as [|b l].
  - destruct (IH s [] Hd Hf Hl) as (s' & E & Hw & Hb). exists s'.
    assert (dequeue len now s = Ok (0, s)) as Ed
      by (unfold dequeue; by rewrite (cmd_bind_run _ _ _ _ _ (select_default s now _ Hd Hl))).
    rewrite (cmd_bind_run _ _ _ _ _ Ed), (cmd_bind_run _ _ _ _ _ E). rewrite drop_nil in *. by split_and!.
  - pose proof (frames_ok_at _ _ _ Hf Hl) as [Hb Hfl]%Forall_cons.
    destruct (dequeue_default len s now b l Hd Hl Hb) as (s1 & E1 & Hd1 & Hb1 & Hw1).
    assert (frames_ok (waiting s1)) as Hf1 by (rewrite Hw1; by apply Forall_insert).
    assert (waiting s1 !! 0%nat = Some l) as Hl1 by (rewrite Hw1; apply list_lookup_insert_eq; by eapply lookup_lt_Some).
    destruct (IH s1 l Hd1 Hf1 Hl1) as (s' & E & Hw & Hb').
    exists s'. rewrite (cmd_bind_run _ _ _ _ _ E1), (cmd_bind_run _ _ _ _ _ E).
    split_and!; [|by rewrite Hw, Hw1, list_insert_insert_eq|by eapply same_queues_trans].
    cbn [app take]. rewrite replicate_S_end, app_assoc, (take_app_le (l ++ _)); [done|].
    rewrite length_app, length_replicate. lia.
Qed.

(** ** Witnesses and concrete runs *)

(** The state after start-up. *)
Definition sched1 : sched :=
  match (_ ← tsn_init_queue; tsn_init_configs) sched0 with Ok (_, s) => s | Fault _ => sched0 end.

Lemma zero_queue_ok : queue_ok zero_queue.
Proof. by vm_compute. Qed.

Lemma sched1_ok : sched_ok sched1.
Proof.
  split; [split; [done|]|done| |by vm_compute].
  - change (tx_queues sched1) with (replicate 8 zero_queue). apply Forall_replicate, zero_queue_ok.
  - split; [by vm_compute|]. repeat (apply Forall_cons; split; [done|]). done.
Qed.

Lemma sched1_off : no_shapers sched1.
Proof. repeat (apply Forall_cons; split; [done|]). apply Forall_nil. done. Qed.

Lemma rings_are_fifos_witness :
  let ops := [OpEnqueue 4096 0; OpEnqueue 8192 9; OpEnqueue 8192 0; OpPeek 0; OpDequeue 0; OpDequeue 3] in
  exists s', run_ring_ops (const 64) ops sched1 = Ok ([1; 0; 1; 4096; 4096; 0], s') /\
    waiting s' = [8192] :: replicate 7 [] /\ sched_ok s' /\ same_but_queues sched1 s'.
Proof.
  intros ops. apply (rings_are_fifos (const 64) ops sched1 sched1_ok sched1_off);
    repeat (apply Forall_cons; split; [repeat constructor; done|]); constructor.
Defined.

(** All gates are open in the second half of the cycle of start-up, and closed in the first. *)
Definition sched_gates : sched := set_tas (mkTas true 0xff 0xff 2 2 (admin_control_list (tas_schedules sched1))
  (oper_control_list (tas_schedules sched1)) 1 1 0 0 (0, 0) (0, 0) false (0, 0) 20) sched1.

Lemma sched_gates_ok : sched_ok sched_gates.
Proof. by pose proof sched1_ok as [? ? [? ?] ?]. Qed.

Lemma gates_follow_schedule_witness : exists g,
  get_qbv_status (tas_schedules sched_gates) 1700000000 gates0 = Ok g /\ length g = 8%nat /\
  forall i, (i < 8)%nat ->
    let m := 1700000000 mod oper_cycle (tas_schedules sched_gates) in
    g !! i = Some (if decide (gate_enabled (tas_schedules sched_gates) = true /\
                              m < span (gate_schedule (tas_schedules sched_gates) i))
                   then gate (gate_schedule (tas_schedules sched_gates) i) m else (i =? 0)%nat).
Proof. exact (gates_follow_schedule (tas_schedules sched_gates) 1700000000 (so_tas _ sched_gates_ok)). Defined.

Definition after {A} (r : outcome (A * sched)) : sched := match r with Ok (_, s) => s | Fault _ => sched0 end.

(** A frame in queue 1, with all gates open. *)
Definition sched_one : sched := after (tsn_queue_enqueue 4096 1 sched_gates).

Lemma sched_one_ok : sched_ok sched_one.
Proof.
  destruct (enqueue_run sched_gates 4096 1 [] sched_gates_ok ltac:(done) ltac:(done)) as (s' & E & Hs' & _).
  unfold sched_one. by rewrite E.
Qed.

Lemma select_queue_picks_witness :
  tsn_select_queue 1700000000 sched_one = Ok (1, set_wrr 0 1 sched_one).
Proof.
  destruct (select_queue_picks sched_one 1700000000 (replicate 8 true) (replicate 8 false) (replicate 8 None)
    (cbs_configs sched_one) sched_one_ok ltac:(done) ltac:(done) ltac:(done)) as [(i & (v & Hc & _) & _)|(_ & H & _)].
  - by apply (no_candidate _ _ (cbs_configs sched_one)) in Hc.
  - assert (set_cbs (cbs_configs sched_one) sched_one = sched_one) as <- by (by destruct sched_one).
    apply (H 1%nat). split; [done|]. split.
    + split; [done|]. by exists [4096].
    + intros k Hk Hk' (_ & l & Hl & Hne). do 8 (destruct k as [|k]; [first [lia|injection Hl as <-; done]|]).
      change (wrr_current sched_one) with 6 in Hk'. lia.
Defined.

(** Sending this frame is the end of the sender: the round robin has moved to queue 1, and the
    next selection reads in front of the array of gates. *)
Example one_frame_then_out_of_bounds :
  (b ← dequeue (const 64) 1700000000; _ ← tsn_select_queue 1700001000; mret b) sched_one = Fault OutOfBounds.
Proof. by vm_compute. Qed.

(** Taking any frame of at least one byte from a shaped queue overflows an [int]. *)
Lemma shaped_dequeue_overflows frame len c : 1 <= len frame < 65536 -> spend_credit len frame c = Fault SignedOverflow.
Proof. intros H. unfold spend_credit, sint. by rewrite decide_False by lia. Qed.

Lemma default_config_init : default_config sched1.
Proof. split; [apply sched1_ok|done|apply sched1_off|done]. Qed.

(** Two frames without priority and one of priority 5. *)
Definition sched_three : sched := 
  after ((_ ← tsn_queue_enqueue 4096 0; _ ← tsn_queue_enqueue 8192 5; tsn_queue_enqueue 12288 0) sched1).

Lemma sched_three_default : default_config sched_three.
Proof.
  pose proof default_config_init as H.
  destruct (enqueue_run sched1 4096 0 [] (dc_ok _ H) ltac:(done) ltac:(done)) as (s1 & E1 & Hs1 & Hb1 & W1).
  pose proof (same_queues_default _ _ Hb1 Hs1 H) as H1.
  destruct (enqueue_run s1 8192 5 [] Hs1 ltac:(done)) as (s2 & E2 & Hs2 & Hb2 & W2); [by rewrite W1|].
  pose proof (same_queues_default _ _ Hb2 Hs2 H1) as H2.
  destruct (enqueue_run s2 12288 0 [4096] Hs2 ltac:(done)) as (s3 & E3 & Hs3 & Hb3 & W3); [by rewrite W2, W1|].
  pose proof (same_queues_default _ _ Hb3 Hs3 H2) as H3.
  unfold sched_three. by rewrite (cmd_bind_run _ _ _ _ _ E1), (cmd_bind_run _ _ _ _ _ E2), E3.
Qed.

Lemma queue_0_drains_witness : exists s',
  run_dequeues (const 64) [5; 1; 7] sched_three = Ok ([4096; 12288; 0], s') /\
  waiting s' = [[]; []; []; []; []; [8192]; []; []] /\ same_but_queues sched_three s'.
Proof.
  apply (queue_0_drains (const 64) [5; 1; 7] sched_three [4096; 12288] sched_three_default); [|done].
  repeat (apply Forall_cons; split; [repeat constructor; done|]). constructor.
Defined.
