(* ===== verification/Sim.v ===== *)
(** * A concrete world

    The development is parametric in the world outside the driver.  This file
    instantiates it: a register file as a finite map (unwritten registers read
    as zero), and the traffic-class state of a network device whose setters
    always succeed.  The witnesses of the conditional theorems run the driver on
    it. *)

From S2P Require Import Prelude Float64 Device.
From stdpp Require Import gmap.

Open Scope Z_scope.

Record sim := mkSim { regs : gmap Z Z; num_tc : Z; prio_tc : gmap Z Z }.

#[export] Instance sim_iomem : IoMem sim := {|
  ioread32 a w := (u32 (default 0 (regs w !! a)), w);
  iowrite32 v a w := mkSim (<[a := v]> (regs w)) (num_tc w) (prio_tc w) |}.

#[export] Instance sim_iomem_ok : IoMemOk sim.
Proof. intros a w. cbn. apply u32_range. Qed.

#[export] Instance sim_netdev : NetDevTc sim := {|
  netdev_get_num_tc w := num_tc w;
  netdev_get_prio_tc_map p w := default 0 (prio_tc w !! p);
  netdev_set_num_tc n w := (0, mkSim (regs w) n (prio_tc w));
  netdev_set_tc_queue _ _ _ w := (0, w);
  netdev_set_prio_tc_map p t w := (0, mkSim (regs w) (num_tc w) (<[p := t]> (prio_tc w))) |}.

Definition sim0 : sim := mkSim ∅ 0 ∅.

Definition zero_desc : xdma_desc := mkDesc 0 0 0 0 0 0 0 0.
Definition zero_priv : xdma_private :=
  mkPriv (mkCounters 0 0 0 0 0)
    (mkWork (replicate TSN_TIMESTAMP_ID_MAX None) (replicate TSN_TIMESTAMP_ID_MAX 0)
       (replicate TSN_TIMESTAMP_ID_MAX 0) (replicate TSN_TIMESTAMP_ID_MAX 0)
       (replicate TSN_TIMESTAMP_ID_MAX 0) 0)
    (mkDma 0x11000 0x12000 0x13000 zero_desc zero_desc 0 0 0 0 0 None)
    (mkTstampConfig HWTSTAMP_TX_OFF HWTSTAMP_FILTER_NONE).

Definition sim_dev (w : sim) : xdma_dev sim :=
  mkDev 0x10000 0x20000 0 zero_tsn_config zero_priv (mkPtp TICKS_SCALE 0) ∅ w.
