(* ===== verification/AlinxArch.v ===== *)
(** * alinx_arch.c: device registers and packet counters *)

From S2P Require Import Prelude Float64 Device.
From stdpp Require Import gmap.

Open Scope Z_scope.

(** ** Register map (alinx_arch.h) *)
Definition REG_NEXT_PULSE_AT_HI : Z := 0x002c.
Definition REG_NEXT_PULSE_AT_LO : Z := 0x0030.
Definition REG_CYCLE_1S : Z := 0x0034.
Definition REG_SYS_CLOCK_HI : Z := 0x0380.
Definition REG_SYS_CLOCK_LO : Z := 0x0384.
Definition REG_TX_TIMESTAMP1_HIGH : Z := 0x0310.
Definition REG_TX_TIMESTAMP1_LOW : Z := 0x0314.
Definition REG_TX_TIMESTAMP2_HIGH : Z := 0x0320.
Definition REG_TX_TIMESTAMP2_LOW : Z := 0x0324.
Definition REG_TX_TIMESTAMP3_HIGH : Z := 0x0330.
Definition REG_TX_TIMESTAMP3_LOW : Z := 0x0334.
Definition REG_TX_TIMESTAMP4_HIGH : Z := 0x0340.
Definition REG_TX_TIMESTAMP4_LOW : Z := 0x0344.
Definition REG_TX_PACKETS : Z := 0x0200.
Definition REG_TX_DROP_PACKETS : Z := 0x0220.
Definition REG_NORMAL_TIMEOUT_COUNT : Z := 0x041c.
Definition REG_TO_OVERFLOW_POPPED_COUNT : Z := 0x0420.
Definition REG_TO_OVERFLOW_TIMEOUT_COUNT : Z := 0x0424.

(** A hardware counter that keeps counting modulo 2^32, folded into a 64-bit
    sum. *)
Definition add_u32_counter (sum value : Z) : Z :=
  let diff := u32 (value - u32 sum) in
  u64 (sum + diff).

Section arch.
Context {W : Type} `{io : IoMem W}.
Notation dev := (xdma_dev W).

Definition read32 (addr : Z) : cmd dev Z := fun d =>
  let '(v, w) := ioread32 addr (world d) in Ok (v, set_world w d).

Definition write32 (val addr : Z) : cmd dev unit := fun d =>
  Ok (tt, set_world (iowrite32 val addr (world d)) d).

(** Most registers are reached as [xdev->bar[0] + REG]. *)
Definition read_bar0 (reg : Z) : cmd dev Z :=
  base ← gets bar0; read32 (base + reg).
Definition write_bar0 (val reg : Z) : cmd dev unit :=
  base ← gets bar0; write32 val (base + reg).

Definition alinx_set_pulse_at (time : Z) : cmd dev unit :=
  _ ← write_bar0 (u32 (Z.shiftr time 32)) REG_NEXT_PULSE_AT_HI;
  write_bar0 (u32 time) REG_NEXT_PULSE_AT_LO.

Definition alinx_get_sys_clock : cmd dev Z :=
  hi ← read_bar0 REG_SYS_CLOCK_HI;
  lo ← read_bar0 REG_SYS_CLOCK_LO;
  mret (Z.lor (Z.shiftl hi 32) lo).

Definition alinx_set_cycle_1s (cycle_1s : Z) : cmd dev unit :=
  write_bar0 cycle_1s REG_CYCLE_1S.

Definition alinx_get_cycle_1s : cmd dev Z :=
  ret ← read_bar0 REG_CYCLE_1S;
  mret (if decide (ret = 0) then RESERVED_CYCLE else ret).

Definition read_pair (hi_reg lo_reg : Z) : cmd dev Z :=
  hi ← read_bar0 hi_reg;
  lo ← read_bar0 lo_reg;
  mret (Z.lor (Z.shiftl hi 32) lo).

Definition alinx_read_tx_timestamp (tx_id : Z) : cmd dev Z :=
  match tx_id with
  | 1 => read_pair REG_TX_TIMESTAMP1_HIGH REG_TX_TIMESTAMP1_LOW
  | 2 => read_pair REG_TX_TIMESTAMP2_HIGH REG_TX_TIMESTAMP2_LOW
  | 3 => read_pair REG_TX_TIMESTAMP3_HIGH REG_TX_TIMESTAMP3_LOW
  | 4 => read_pair REG_TX_TIMESTAMP4_HIGH REG_TX_TIMESTAMP4_LOW
  | _ => mret 0
  end.

Definition counters (d : dev) : priv_counters := pv_counters (priv d).

(** Registers cleared by the read: their value is added. *)
Definition alinx_get_tx_packets : cmd dev Z :=
  regval ← read_bar0 REG_TX_PACKETS;
  c ← gets counters;
  let v := u64 (total_tx_count c + regval) in
  _ ← modify (set_counters (mkCounters v (total_tx_drop_count c)
         (last_normal_timeout c) (last_to_overflow_popped c) (last_to_overflow_timeout c)));
  mret v.

Definition alinx_get_tx_drop_packets : cmd dev Z :=
  regval ← read_bar0 REG_TX_DROP_PACKETS;
  c ← gets counters;
  let v := u64 (total_tx_drop_count c + regval) in
  _ ← modify (set_counters (mkCounters (total_tx_count c) v
         (last_normal_timeout c) (last_to_overflow_popped c) (last_to_overflow_timeout c)));
  mret v.

(** Registers that keep their value. *)
Definition alinx_get_normal_timeout_packets : cmd dev Z :=
  regval ← read_bar0 REG_NORMAL_TIMEOUT_COUNT;
  c ← gets counters;
  let v := add_u32_counter (last_normal_timeout c) regval in
  _ ← modify (set_counters (mkCounters (total_tx_count c) (total_tx_drop_count c)
         v (last_to_overflow_popped c) (last_to_overflow_timeout c)));
  mret v.

Definition alinx_get_to_overflow_popped_packets : cmd dev Z :=
  regval ← read_bar0 REG_TO_OVERFLOW_POPPED_COUNT;
  c ← gets counters;
  let v := add_u32_counter (last_to_overflow_popped c) regval in
  _ ← modify (set_counters (mkCounters (total_tx_count c) (total_tx_drop_count c)
         (last_normal_timeout c) v (last_to_overflow_timeout c)));
  mret v.

Definition alinx_get_to_overflow_timeout_packets : cmd dev Z :=
  regval ← read_bar0 REG_TO_OVERFLOW_TIMEOUT_COUNT;
  c ← gets counters;
  let v := add_u32_counter (last_to_overflow_timeout c) regval in
  _ ← modify (set_counters (mkCounters (total_tx_count c) (total_tx_drop_count c)
         (last_normal_timeout c) (last_to_overflow_popped c) v));
  mret v.

(** The operands of the C sum may be evaluated in any order; each one touches
    its own register and counter, and the model takes them left to right. *)
Definition alinx_get_total_tx_drop_packets : cmd dev Z :=
  a ← alinx_get_tx_drop_packets;
  b ← alinx_get_normal_timeout_packets;
  c ← alinx_get_to_overflow_popped_packets;
  e ← alinx_get_to_overflow_timeout_packets;
  mret (u64 (a + b + c + e)).
End arch.

(** ** Properties *)

Lemma add_u32_counter_step sum n delta :
  0 <= delta < 4294967296 -> u32 sum = u32 n ->
  add_u32_counter sum (u32 (n + delta)) = u64 (sum + delta).
Proof. unfold add_u32_counter. intros Hd Hs. f_equal. int_lia. Qed.

Lemma u32_u64 x : u32 (u64 x) = u32 x.
Proof. int_lia. Qed.

(** The successive readings of a free-running 32-bit counter that advances by
    [deltas], folded into the sum the way the driver does. *)
Fixpoint poll_counter (sum n : Z) (deltas : list Z) : Z :=
  match deltas with
  | [] => sum
  | d :: ds => poll_counter (add_u32_counter sum (u32 (n + d))) (n + d) ds
  end.

(** The 64-bit software counter follows a 32-bit hardware counter across any
    number of wrap-arounds: as long as the hardware advances by less than 2^32
    between two polls, the sum advances by exactly the number of events. *)
Theorem poll_counter_exact sum n deltas :
  Forall (fun d => 0 <= d < 4294967296) deltas ->
  u32 sum = u32 n ->
  poll_counter (u64 sum) n deltas = u64 (sum + foldr Z.add 0 deltas).
Proof.
  intros Hd. revert sum n. induction Hd as [|d ds Hd _ IH]; intros sum n Hs.
  - cbn. by rewrite Z.add_0_r.
  - cbn [poll_counter foldr]. rewrite add_u32_counter_step by (rewrite ?u32_u64; done).
    rewrite u64_add_l, IH; [f_equal; lia | int_lia].
Qed.

Theorem poll_counter_exact_witness :
  poll_counter (u64 7) 7 [4294967290; 4294967295; 12] = u64 (7 + 8589934597).
Proof.
  apply (poll_counter_exact 7 7 [4294967290; 4294967295; 12]).
  - repeat constructor; lia.
  - reflexivity.
Defined.

Section arch_props.
Context {W : Type} `{io : IoMem W} {io_ok : IoMemOk W}.
Implicit Types d : xdma_dev W.

Lemma read_bar0_run reg d :
  read_bar0 reg d = Ok (fst (ioread32 (bar0 d + reg) (world d)),
                        set_world (snd (ioread32 (bar0 d + reg) (world d))) d).
Proof. cbv [read_bar0 read32 gets mbind cmd_bind]. by destruct (ioread32 _ _). Qed.

Lemma read_bar0_inv reg d v d' : read_bar0 reg d = Ok (v, d') ->
  fits_u32 v /\ exists w, d' = set_world w d.
Proof. rewrite read_bar0_run. intros [= <- <-]. split; [apply ioread32_u32 | eauto]. Qed.

(** A 64-bit register pair reads as the 64-bit number of its halves. *)
Lemma read_pair_spec hi_reg lo_reg d v d' :
  read_pair hi_reg lo_reg d = Ok (v, d') ->
  fits_u64 v /\ exists w, d' = set_world w d.
Proof.
  unfold read_pair. intros E. inv_cmd E.
  apply read_bar0_inv in E0 as [Hhi [w ->]]. apply read_bar0_inv in E1 as [Hlo [w' ->]].
  unfold fits_u32 in *. rewrite lor_shiftl_add by lia. split; [|by exists w'].
  unfold fits_u64. change (2 ^ 32) with 4294967296. lia.
Qed.

Lemma alinx_get_sys_clock_spec d v d' : alinx_get_sys_clock d = Ok (v, d') ->
  fits_u64 v /\ exists w, d' = set_world w d.
Proof. apply read_pair_spec. Qed.

Lemma alinx_get_sys_clock_total d : exists v d', alinx_get_sys_clock d = Ok (v, d').
Proof.
  unfold alinx_get_sys_clock. erewrite cmd_bind_run by apply read_bar0_run.
  erewrite cmd_bind_run by apply read_bar0_run. eauto.
Qed.

Lemma alinx_set_pulse_at_run time d :
  alinx_set_pulse_at time d =
  Ok (tt, set_world
    (iowrite32 (lo32 time) (bar0 d + REG_NEXT_PULSE_AT_LO)
      (iowrite32 (hi32 time) (bar0 d + REG_NEXT_PULSE_AT_HI) (world d))) d).
Proof. reflexivity. Qed.
End arch_props.
