(* ===== verification/Ptp.v ===== *)
(** * alinx_ptp.c: the PTP hardware clock

    Hardware ticks are turned into nanoseconds by a [double] scale (nominally 8
    ns per tick) and a 64-bit offset.  The file models every operation of the
    PTP clock and proves what a caller can rely on: the conversions are exact
    and inverse to each other at the nominal scale, adjustments move the time by
    what they say, and the pulse register is set to the next full second. *)

From S2P Require Import Prelude Float64 Device Sim AlinxArch.
From stdpp Require Import gmap.

Open Scope Z_scope.

(** [timestamp_t timestamp = ticks_scale * sys_count; return timestamp + offset;] *)
Definition alinx_get_timestamp (sys_count : Z) (scale : f64) (off : Z) : outcome Z :=
  timestamp ← f64_to_u64 (f64_mul scale (f64_of_Z sys_count));
  Ok (u64 (timestamp + off)).

(** The start of the next second after [current_ns]. *)
Definition next_pulse (current_ns : Z) : Z :=
  u64 (u64 (current_ns - current_ns `mod` NS_IN_1S) + NS_IN_1S).

Record timespec64 := mkTimespec { tv_sec : Z; tv_nsec : Z }.

(** [TICKS_SCALE * (double)scaled_ppm / (double)(1000000ULL << 16)] *)
Definition adjfine_diff (scaled_ppm : Z) : f64 :=
  f64_div (f64_mul TICKS_SCALE (f64_of_Z scaled_ppm)) (f64_of_Z (Z.shiftl 1000000 16)).

Section ptp.
Context {W : Type} `{io : IoMem W}.
Notation dev := (xdma_dev W).

Definition timestamp_at (sys_count : Z) (d : dev) : outcome Z :=
  alinx_get_timestamp sys_count (ticks_scale (ptp d)) (offset (ptp d)).

Definition set_pulse_at (sys_count : Z) : cmd dev unit :=
  d ← get;
  current_ns ← lift (timestamp_at sys_count d);
  let next_pulse_ns := next_pulse current_ns in
  next_pulse_sysclock ← lift (f64_to_u64
    (f64_div (f64_of_Z (u64 (next_pulse_ns - offset (ptp d)))) (ticks_scale (ptp d))));
  alinx_set_pulse_at next_pulse_sysclock.

Definition set_cycle_1s (cycle_1s : Z) : cmd dev unit := alinx_set_cycle_1s cycle_1s.

Definition alinx_timestamp_to_sysclock (timestamp : Z) : cmd dev Z :=
  p ← gets ptp;
  lift (f64_to_u64 (f64_div (f64_of_Z (u64 (timestamp - offset p))) (ticks_scale p))).

Definition alinx_sysclock_to_timestamp (sysclock : Z) : cmd dev Z :=
  d ← get; lift (timestamp_at sysclock d).

Definition alinx_get_rx_timestamp (sysclock : Z) : cmd dev Z :=
  t ← alinx_sysclock_to_timestamp sysclock; mret (u64 (t - RX_ADJUST_NS)).

Definition alinx_get_tx_timestamp (tx_id : Z) : cmd dev Z :=
  sysclock ← alinx_read_tx_timestamp tx_id;
  t ← alinx_sysclock_to_timestamp sysclock; mret (u64 (t + TX_ADJUST_NS)).

Definition alinx_sysclock_to_txtstamp (sysclock : Z) : cmd dev Z :=
  t ← alinx_sysclock_to_timestamp sysclock; mret (u64 (t + TX_ADJUST_NS)).

Definition alinx_get_ticks_scale : cmd dev f64 := p ← gets ptp; mret (ticks_scale p).

Definition alinx_set_ticks_scale (scale : f64) : cmd dev unit :=
  _ ← modify (fun d => set_ptp (mkPtp scale (offset (ptp d))) d);
  cycle ← lift (f64_to_u32 (f64_div (f64_of_Z NS_IN_1S) scale));
  alinx_set_cycle_1s cycle.

Definition set_ticks_scale (scale : f64) : cmd dev unit := alinx_set_ticks_scale scale.

Definition set_offset (off : Z) : cmd dev unit :=
  modify (fun d => set_ptp (mkPtp (ticks_scale (ptp d)) off) d).

Definition alinx_ptp_gettimex : cmd dev (Z * timespec64) :=
  clock ← alinx_get_sys_clock;
  d ← get;
  timestamp ← lift (timestamp_at clock d);
  mret (0, mkTimespec (timestamp / NS_IN_1S) (timestamp `mod` NS_IN_1S)).

Definition alinx_ptp_settime (ts : timespec64) : cmd dev Z :=
  let host_timestamp := u64 (u64 (tv_sec ts) * NS_IN_1S + tv_nsec ts) in
  _ ← modify (fun d => set_ptp (mkPtp TICKS_SCALE (offset (ptp d))) d);
  sys_clock ← alinx_get_sys_clock;
  d ← get;
  hw_timestamp ← lift (timestamp_at sys_clock d);
  _ ← set_offset (u64 (host_timestamp - hw_timestamp));
  _ ← set_cycle_1s RESERVED_CYCLE;
  _ ← set_pulse_at sys_clock;
  mret 0.

Definition alinx_ptp_adjtime (delta : Z) : cmd dev Z :=
  d ← get;
  _ ← set_offset (u64 (offset (ptp d) + delta));
  sys_clock ← alinx_get_sys_clock;
  _ ← set_pulse_at sys_clock;
  mret 0.

Definition alinx_ptp_adjfine (scaled_ppm : Z) : cmd dev Z :=
  sys_clock ← alinx_get_sys_clock;
  if decide (scaled_ppm = 0) then mret 0 else
  d ← get;
  cur_timestamp ← lift (timestamp_at sys_clock d);
  let is_negative := bool_decide (scaled_ppm < 0) in
  let ppm := if is_negative then s64 (- scaled_ppm) else scaled_ppm in
  let diff := adjfine_diff ppm in
  let scale := f64_add TICKS_SCALE (if is_negative then f64_opp diff else diff) in
  _ ← modify (fun d => set_ptp (mkPtp scale (offset (ptp d))) d);
  d ← get;
  new_timestamp ← lift (timestamp_at sys_clock d);
  _ ← set_offset (u64 (offset (ptp d) + u64 (cur_timestamp - new_timestamp)));
  _ ← set_ticks_scale scale;
  sys_clock ← alinx_get_sys_clock;
  _ ← set_pulse_at sys_clock;
  mret 0.

(** [ptp_device_init]: the allocation and the registration are the kernel's;
    [kzalloc_ok] and [register_ok] say whether they succeed, [now] is the
    host's time.  The result tells whether a clock was made. *)
Definition ptp_device_init (kzalloc_ok register_ok : bool) (now : timespec64) : cmd dev bool :=
  if negb kzalloc_ok then mret false else
  if negb register_ok then mret false else
  _ ← modify (set_ptp (mkPtp TICKS_SCALE 0));
  _ ← alinx_ptp_settime now;
  mret true.
End ptp.

(** ** The nominal scale

    At 8 ns per tick every count below 2^50 (about 104 days of uptime in
    nanoseconds, 285 years of epoch time in the offset) converts exactly. *)
Definition nominal_count (c : Z) : Prop := 0 <= c /\ 8 * c < 2 ^ 53.

Lemma nominal_mul c : nominal_count c ->
  f64_to_u64 (f64_mul TICKS_SCALE (f64_of_Z c)) = Ok (8 * c).
Proof.
  intros [H0 H1]. apply f64_convert_ok; [|lia].
  apply is_int_trunc; [unfold exact53; lia|].
  apply is_int_mul; unfold exact53; try lia; apply f64_of_Z_is_int; unfold exact53; lia.
Qed.

Lemma nominal_timestamp c off : nominal_count c ->
  alinx_get_timestamp c TICKS_SCALE off = Ok (u64 (8 * c + off)).
Proof. intros Hc. unfold alinx_get_timestamp. by rewrite nominal_mul. Qed.

Lemma nominal_div n : 0 <= n < 2 ^ 53 ->
  f64_to_u64 (f64_div (f64_of_Z n) TICKS_SCALE) = Ok (n / 8).
Proof.
  intros Hn. apply f64_convert_ok; [by apply f64_div_8_trunc|].
  change (2 ^ 53) with 9007199254740992 in Hn. Z.div_mod_to_equations. lia.
Qed.

Section ptp_props.
Context {W : Type} `{io : IoMem W} {io_ok : IoMemOk W}.
Implicit Types d : xdma_dev W.

Lemma timestamp_at_nominal c d : nominal_count c -> ticks_scale (ptp d) = TICKS_SCALE ->
  timestamp_at c d = Ok (u64 (8 * c + offset (ptp d))).
Proof. intros Hc Hs. unfold timestamp_at. rewrite Hs. by apply nominal_timestamp. Qed.

Lemma timestamp_to_sysclock_nominal t d :
  ticks_scale (ptp d) = TICKS_SCALE -> u64 (t - offset (ptp d)) < 2 ^ 53 ->
  alinx_timestamp_to_sysclock t d = Ok (u64 (t - offset (ptp d)) / 8, d).
Proof.
  intros Hs Ht. unfold alinx_timestamp_to_sysclock, gets, mbind, cmd_bind. cbn.
  rewrite Hs, nominal_div; [done|]. pose proof (u64_range (t - offset (ptp d))).
  unfold fits_u64 in *. lia.
Qed.

(** The clock register is read from the world alone. *)
Lemma alinx_get_sys_clock_world d d2 c d1 :
  world d = world d2 -> bar0 d = bar0 d2 ->
  alinx_get_sys_clock d = Ok (c, d1) ->
  alinx_get_sys_clock d2 = Ok (c, set_world (world d1) d2).
Proof.
  intros Hw Hb. unfold alinx_get_sys_clock.
  erewrite cmd_bind_run by apply read_bar0_run.
  erewrite cmd_bind_run by apply read_bar0_run.
  intros [= <- <-].
  erewrite cmd_bind_run by apply read_bar0_run.
  erewrite cmd_bind_run by apply read_bar0_run.
  cbn. rewrite Hw, Hb. done.
Qed.

(** [set_pulse_at] at the nominal scale: the register gets the tick of the next
    full second. *)
Lemma set_pulse_at_nominal c d :
  nominal_count c -> ticks_scale (ptp d) = TICKS_SCALE ->
  let now := u64 (8 * c + offset (ptp d)) in
  u64 (next_pulse now - offset (ptp d)) < 2 ^ 53 ->
  set_pulse_at c d
  = alinx_set_pulse_at (u64 (next_pulse now - offset (ptp d)) / 8) d.
Proof.
  intros Hc Hs now Hn. unfold set_pulse_at. cstep.
  cstep_by (by apply lift_run, timestamp_at_nominal). fold now. rewrite Hs.
  pose proof (u64_range (next_pulse now - offset (ptp d))). unfold fits_u64 in *.
  cstep_by (apply lift_run, nominal_div; lia). done.
Qed.
End ptp_props.

Lemma next_pulse_distance now off c :
  0 <= c -> 8 * c + NS_IN_1S < 2 ^ 53 -> now = u64 (8 * c + off) ->
  u64 (next_pulse now - off) = 8 * c + (NS_IN_1S - now `mod` NS_IN_1S).
Proof.
  intros Hc Hlt ->. unfold next_pulse, NS_IN_1S in *.
  set (t := u64 (8 * c + off)).
  assert (0 <= t `mod` 1000000000 < 1000000000) as Hm by (apply Z.mod_pos_bound; lia).
  rewrite u64_add_l, u64_sub_l.
  replace (t - t `mod` 1000000000 + 1000000000 - off)
    with (t + (1000000000 - t `mod` 1000000000 - off)) by lia.
  set (x := 1000000000 - t `mod` 1000000000) in *.
  unfold t at 1. rewrite u64_add_l.
  replace (8 * c + off + (x - off)) with (8 * c + x) by lia.
  apply u64_small. unfold fits_u64. lia.
Qed.

(** The next pulse is a full second, ahead of the current time by at most one
    second. *)
Lemma next_pulse_spec now :
  0 <= now -> now + NS_IN_1S < 18446744073709551616 ->
  next_pulse now `mod` NS_IN_1S = 0 /\ now < next_pulse now <= now + NS_IN_1S.
Proof. unfold next_pulse, NS_IN_1S. intros. int_lia. Qed.

(** ** Properties of the clock operations *)

Definition host_ns (ts : timespec64) : Z := u64 (u64 (tv_sec ts) * NS_IN_1S + tv_nsec ts).

(** The clock can be read at [c] and a pulse programmed: below 104 days of
    uptime. *)
Definition uptime_ok (c : Z) : Prop := 0 <= c /\ 8 * c + NS_IN_1S < 2 ^ 53.

Lemma uptime_nominal c : uptime_ok c -> nominal_count c.
Proof. unfold uptime_ok, nominal_count, NS_IN_1S. lia. Qed.

Section ptp_theorems.
Context {W : Type} `{io : IoMem W} {io_ok : IoMemOk W}.
Implicit Types d : xdma_dev W.

Lemma pulse_run c d : uptime_ok c -> ticks_scale (ptp d) = TICKS_SCALE ->
  set_pulse_at c d
  = alinx_set_pulse_at
      (c + (NS_IN_1S - u64 (8 * c + offset (ptp d)) `mod` NS_IN_1S) / 8) d.
Proof.
  intros [H0 H1] Hs. pose proof (uptime_nominal c (conj H0 H1)) as Hc.
  assert (0 <= u64 (8 * c + offset (ptp d)) `mod` NS_IN_1S < NS_IN_1S)
    by (apply Z.mod_pos_bound; done).
  rewrite set_pulse_at_nominal; [|done..|].
  - rewrite (next_pulse_distance _ _ c) by done.
    f_equal. replace (8 * c) with (c * 8) by lia. by rewrite Z.div_add_l by lia.
  - rewrite (next_pulse_distance _ _ c) by done. lia.
Qed.

(** [set_pulse_at] programs the tick of the next full second: the pulse lies
    strictly ahead of the current tick and at most a second away, and the time at
    that tick is the full second up to the 8 ns resolution of a tick. *)
Theorem set_pulse_at_next_second c d :
  uptime_ok c -> ticks_scale (ptp d) = TICKS_SCALE ->
  8 * c + offset (ptp d) + NS_IN_1S < 18446744073709551616 -> 0 <= offset (ptp d) ->
  exists p, set_pulse_at c d = alinx_set_pulse_at p d /\
    c <= p /\ 8 * (p - c) <= NS_IN_1S /\
    exists s, s `mod` NS_IN_1S = 0 /\ 8 * c + offset (ptp d) < s /\
      s - 8 < 8 * p + offset (ptp d) <= s.
Proof.
  intros Hc Hs Hlt Hoff. rewrite pulse_run by done. eexists. split; [done|].
  destruct Hc as [H0 H1]. unfold NS_IN_1S in *.
  rewrite (u64_small (8 * c + _)) by (unfold fits_u64; lia).
  set (t := 8 * c + offset (ptp d)) in *.
  split; [Z.div_mod_to_equations; lia|]. split; [Z.div_mod_to_equations; lia|].
  exists (t - t `mod` 1000000000 + 1000000000). unfold t in *.
  Z.div_mod_to_equations. lia.
Qed.

(** [alinx_ptp_settime] returns 0, restores the nominal scale and sets the
    clock so that, at the tick it read, the time is the requested one minus the
    offset that was in force before; it is the requested time exactly when that
    offset was zero. *)
Theorem settime_reading ts d c d1 :
  alinx_get_sys_clock d = Ok (c, d1) -> uptime_ok c -> fits_u64 (offset (ptp d)) ->
  exists d', alinx_ptp_settime ts d = Ok (0, d') /\
    ticks_scale (ptp d') = TICKS_SCALE /\
    timestamp_at c d' = Ok (u64 (host_ns ts - offset (ptp d))) /\
    (timestamp_at c d' = Ok (host_ns ts) <-> offset (ptp d) = 0).
Proof.
  intros Hclk Hc Hoff. pose proof (uptime_nominal c Hc) as Hn.
  set (d0 := set_ptp (mkPtp TICKS_SCALE (offset (ptp d))) d).
  pose proof (alinx_get_sys_clock_world d d0 c d1 eq_refl eq_refl Hclk) as Hclk0.
  unfold alinx_ptp_settime. cstep. fold d0. cstep_by (exact Hclk0). cstep.
  cstep_by (by apply lift_run, timestamp_at_nominal). cstep. cstep.
  cstep_by (rewrite pulse_run by done; apply alinx_set_pulse_at_run).
  eexists. split; [done|]. split; [done|].
  assert (forall x, Ok (u64 (8 * c + u64 (u64 (u64 (tv_sec ts) * NS_IN_1S + tv_nsec ts)
            - u64 (8 * c + offset (ptp d))))) = Ok x <->
          u64 (host_ns ts - offset (ptp d)) = x) as E.
  { intros x. fold (host_ns ts). autorewrite with cint.
    replace (8 * c + (host_ns ts - (8 * c + offset (ptp d))))
      with (host_ns ts - offset (ptp d)) by lia. naive_solver. }
  rewrite timestamp_at_nominal by done. cbn -[u64]. split; [by apply E|].
  rewrite E. pose proof (u64_range (u64 (tv_sec ts) * NS_IN_1S + tv_nsec ts)).
  fold (host_ns ts) in *. int_lia.
Qed.

Lemma timestamp_at_shift c' scale off off' v delta (d d' : xdma_dev W) :
  ptp d = mkPtp scale off -> ptp d' = mkPtp scale off' ->
  u64 (off' - off) = u64 delta ->
  timestamp_at c' d = Ok v -> timestamp_at c' d' = Ok (u64 (v + delta)).
Proof.
  unfold timestamp_at, alinx_get_timestamp. intros -> -> Hd. cbn [ticks_scale offset].
  destruct (f64_to_u64 _) as [t|f]; [|discriminate]. cbn. intros [= <-].
  f_equal. rewrite u64_add_l, <- (u64_add_r _ delta), <- Hd, u64_add_r. f_equal. lia.
Qed.

(** [alinx_ptp_adjtime delta] returns 0 and moves the time read at every tick
    by exactly [delta] nanoseconds (modulo 2^64, so negative steps too). *)
Theorem adjtime_shifts_clock delta d c d1 :
  alinx_get_sys_clock d = Ok (c, d1) -> uptime_ok c ->
  ticks_scale (ptp d) = TICKS_SCALE ->
  exists d', alinx_ptp_adjtime delta d = Ok (0, d') /\
    forall c' v, timestamp_at c' d = Ok v -> timestamp_at c' d' = Ok (u64 (v + delta)).
Proof.
  intros Hclk Hc Hs. unfold alinx_ptp_adjtime. cstep. cstep.
  set (off' := u64 (offset (ptp d) + delta)).
  set (d0 := set_ptp (mkPtp (ticks_scale (ptp d)) off') d).
  pose proof (alinx_get_sys_clock_world d d0 c d1 eq_refl eq_refl Hclk) as Hclk0.
  fold d0. cstep_by (exact Hclk0).
  cstep_by (rewrite pulse_run by done; apply alinx_set_pulse_at_run).
  eexists. split; [done|]. intros c' v.
  apply (timestamp_at_shift c' (ticks_scale (ptp d)) (offset (ptp d)) off' v delta);
    [by destruct (ptp d)|done|].
  unfold off'. rewrite u64_sub_l. f_equal. lia.
Qed.

Lemma set_pulse_at_inv c d r d' :
  set_pulse_at c d = Ok (r, d') -> exists w, d' = set_world w d.
Proof.
  unfold set_pulse_at. intros E. inv_cmd E.
  rewrite alinx_set_pulse_at_run in E. injection E as _ <-. eauto.
Qed.

Lemma set_ticks_scale_inv scale d r d' :
  set_ticks_scale scale d = Ok (r, d') ->
  exists w, d' = set_world w (set_ptp (mkPtp scale (offset (ptp d))) d).
Proof.
  unfold set_ticks_scale, alinx_set_ticks_scale. intros E. inv_cmd E.
  injection E as _ <-. eauto.
Qed.

(** The scale a request of [ppm] scaled parts per million sets. *)
Definition adjfine_scale (ppm : Z) : f64 :=
  f64_add TICKS_SCALE
    (if bool_decide (ppm < 0)
     then f64_opp (adjfine_diff (if bool_decide (ppm < 0) then s64 (- ppm) else ppm))
     else adjfine_diff (if bool_decide (ppm < 0) then s64 (- ppm) else ppm)).

(** A frequency adjustment is continuous: whatever the requested parts per
    million and whatever rounding the floating-point scale undergoes, the time at
    the tick the adjustment read is the same before and after it, and the scale
    is the nominal one corrected by the request. *)
Theorem adjfine_continuous ppm d c d1 r d' :
  ppm <> 0 -> alinx_get_sys_clock d = Ok (c, d1) ->
  alinx_ptp_adjfine ppm d = Ok (r, d') ->
  r = 0 /\ timestamp_at c d' = timestamp_at c d /\
  ticks_scale (ptp d') = adjfine_scale ppm.
Proof.
  intros Hppm Hclk E. pose proof (alinx_get_sys_clock_spec _ _ _ Hclk) as [_ [w ->]].
  unfold alinx_ptp_adjfine, set_offset in E. rewrite (cmd_bind_run _ _ _ _ _ Hclk) in E.
  rewrite decide_False in E by done. inv_cmd E. fold (adjfine_scale ppm) in *.
  apply set_ticks_scale_inv in E2 as [w2 ->].
  apply alinx_get_sys_clock_spec in E3 as [_ [w3 ->]].
  apply set_pulse_at_inv in E4 as [w4 ->].
  split; [done|]. split; [|done].
  unfold timestamp_at, alinx_get_timestamp in *.
  cbn [ptp set_world set_ptp ticks_scale offset] in *.
  destruct (f64_to_u64 (f64_mul (ticks_scale (ptp d)) (f64_of_Z c))) as [a|f];
    [|discriminate].
  destruct (f64_to_u64 (f64_mul (adjfine_scale ppm) (f64_of_Z c))) as [b|f];
    [|discriminate].
  injection E0 as <-. injection E1 as <-. apply (f_equal Ok).
  autorewrite with cint. rewrite Z.add_assoc. autorewrite with cint. f_equal. lia.
Qed.

(** A request of zero parts per million leaves the clock as it was, a scale
    set by an earlier request included. *)
Theorem adjfine_zero_keeps_scale d :
  exists d', alinx_ptp_adjfine 0 d = Ok (0, d') /\ ptp d' = ptp d.
Proof.
  destruct (alinx_get_sys_clock_total d) as (c & d1 & E).
  pose proof (alinx_get_sys_clock_spec _ _ _ E) as [_ [w ->]].
  exists (set_world w d). unfold alinx_ptp_adjfine. by rewrite (cmd_bind_run _ _ _ _ _ E).
Qed.

(** Reading the clock splits the time into seconds and nanoseconds without
    loss. *)
Theorem gettimex_splits d c d1 v :
  alinx_get_sys_clock d = Ok (c, d1) -> timestamp_at c d = Ok v ->
  exists ts d', alinx_ptp_gettimex d = Ok ((0, ts), d') /\ ptp d' = ptp d /\
    0 <= tv_nsec ts < NS_IN_1S /\ tv_sec ts * NS_IN_1S + tv_nsec ts = v.
Proof.
  intros Hclk Hv. pose proof (alinx_get_sys_clock_spec _ _ _ Hclk) as [_ [w ->]].
  unfold alinx_ptp_gettimex. rewrite (cmd_bind_run _ _ _ _ _ Hclk). cstep.
  cstep_by (apply lift_run, Hv). do 2 eexists. split; [done|]. split; [done|].
  cbn [tv_sec tv_nsec]. unfold NS_IN_1S. Z.div_mod_to_equations. lia.
Qed.

(** At the nominal scale the conversion of a tick count to a time and back
    is the identity, whatever the offset; and the conversion of a time to ticks
    loses less than the 8 ns of a tick. *)
Theorem clock_conversion_roundtrip c d :
  nominal_count c -> ticks_scale (ptp d) = TICKS_SCALE ->
  exists t, alinx_sysclock_to_timestamp c d = Ok (t, d) /\
    alinx_timestamp_to_sysclock t d = Ok (c, d) /\
    forall e, 0 <= e < 8 -> 8 * c + e < 2 ^ 53 ->
      alinx_timestamp_to_sysclock (t + e) d = Ok (c, d).
Proof.
  intros Hc Hs. exists (u64 (8 * c + offset (ptp d))).
  assert (forall e, 0 <= e < 8 -> 8 * c + e < 2 ^ 53 ->
    alinx_timestamp_to_sysclock (u64 (8 * c + offset (ptp d)) + e) d = Ok (c, d)) as Hback.
  { intros e He Hlt. destruct Hc as [Hc0 Hc1].
    assert (u64 (u64 (8 * c + offset (ptp d)) + e - offset (ptp d)) = 8 * c + e) as E.
    { replace (u64 (8 * c + offset (ptp d)) + e - offset (ptp d))
        with (u64 (8 * c + offset (ptp d)) + (e - offset (ptp d))) by lia.
      rewrite u64_add_l.
      replace (8 * c + offset (ptp d) + (e - offset (ptp d))) with (8 * c + e) by lia.
      apply u64_small. unfold fits_u64. lia. }
    rewrite timestamp_to_sysclock_nominal; rewrite ?E; [|done|lia].
    replace ((8 * c + e) / 8) with c by (Z.div_mod_to_equations; lia). done. }
  split.
  - unfold alinx_sysclock_to_timestamp. cstep. by apply lift_run, timestamp_at_nominal.
  - split; [|exact Hback]. destruct Hc as [Hc0 Hc1].
    pose proof (Hback 0 ltac:(lia) ltac:(lia)) as Hb. by rewrite Z.add_0_r in Hb.
Qed.
End ptp_theorems.

(** ** Witnesses, on the concrete world *)

Definition dev_at (ticks off : Z) : xdma_dev sim :=
  set_ptp (mkPtp TICKS_SCALE off)
    (sim_dev (mkSim {[ (0x10000 + REG_SYS_CLOCK_LO) := ticks ]} 0 ∅)).

Lemma dev_at_clock ticks off : fits_u32 ticks ->
  alinx_get_sys_clock (dev_at ticks off) = Ok (ticks, dev_at ticks off).
Proof.
  intros H. transitivity (Ok (u32 ticks, dev_at ticks off)); [reflexivity|].
  by rewrite u32_small.
Qed.

Lemma set_pulse_at_next_second_witness :
  exists p, set_pulse_at 1000 (dev_at 1000 5) = alinx_set_pulse_at p (dev_at 1000 5) /\
    1000 <= p /\ 8 * (p - 1000) <= NS_IN_1S /\
    exists s, s `mod` NS_IN_1S = 0 /\ 8 * 1000 + 5 < s /\ s - 8 < 8 * p + 5 <= s.
Proof.
  apply (set_pulse_at_next_second 1000 (dev_at 1000 5)); try done.
Defined.

Lemma settime_reading_witness :
  exists d', alinx_ptp_settime (mkTimespec 1700000000 0) (dev_at 1000 77) = Ok (0, d') /\
    ticks_scale (ptp d') = TICKS_SCALE /\
    timestamp_at 1000 d' = Ok (1700000000000000000 - 77) /\
    (timestamp_at 1000 d' = Ok 1700000000000000000 <-> 77 = 0).
Proof.
  apply (settime_reading (mkTimespec 1700000000 0) (dev_at 1000 77) 1000 (dev_at 1000 77));
    [by apply dev_at_clock|done|done].
Defined.

Lemma adjtime_shifts_clock_witness :
  exists d', alinx_ptp_adjtime (-250) (dev_at 1000 77) = Ok (0, d') /\
    forall c' v, timestamp_at c' (dev_at 1000 77) = Ok v ->
      timestamp_at c' d' = Ok (u64 (v + -250)).
Proof.
  apply (adjtime_shifts_clock (-250) (dev_at 1000 77) 1000 (dev_at 1000 77));
    [by apply dev_at_clock|done|done].
Defined.

Definition adjfine_result : xdma_dev sim :=
  match alinx_ptp_adjfine 65536 (dev_at 1000000 77) with
  | Ok (_, d') => d' | Fault _ => dev_at 0 0 end.

Lemma adjfine_continuous_witness :
  0 = 0 /\ timestamp_at 1000000 adjfine_result = timestamp_at 1000000 (dev_at 1000000 77) /\
  ticks_scale (ptp adjfine_result) = adjfine_scale 65536.
Proof.
  apply (adjfine_continuous 65536 (dev_at 1000000 77) 1000000 (dev_at 1000000 77) 0);
    [done|by apply dev_at_clock|vm_compute; reflexivity].
Defined.

Lemma adjfine_zero_keeps_scale_witness :
  exists d', alinx_ptp_adjfine 0 (dev_at 1000 77) = Ok (0, d') /\ ptp d' = mkPtp TICKS_SCALE 77.
Proof. apply (adjfine_zero_keeps_scale (dev_at 1000 77)). Defined.

Lemma gettimex_splits_witness :
  exists ts d', alinx_ptp_gettimex (dev_at 1000 2000000003) = Ok ((0, ts), d') /\
    ptp d' = ptp (dev_at 1000 2000000003) /\ 0 <= tv_nsec ts < NS_IN_1S /\
    tv_sec ts * NS_IN_1S + tv_nsec ts = 2000008003.
Proof.
  apply (gettimex_splits (dev_at 1000 2000000003) 1000 (dev_at 1000 2000000003));
    [by apply dev_at_clock|vm_compute; reflexivity].
Defined.

Lemma clock_conversion_roundtrip_witness :
  exists t, alinx_sysclock_to_timestamp 1000 (dev_at 0 77) = Ok (t, dev_at 0 77) /\
    alinx_timestamp_to_sysclock t (dev_at 0 77) = Ok (1000, dev_at 0 77) /\
    forall e, 0 <= e < 8 -> 8 * 1000 + e < 2 ^ 53 ->
      alinx_timestamp_to_sysclock (t + e) (dev_at 0 77) = Ok (1000, dev_at 0 77).
Proof. apply (clock_conversion_roundtrip 1000 (dev_at 0 77)); done. Defined.
