(* ===== verification/Qos.v ===== *)
(** * tsn.c, first half: the QoS configuration

    [bake_qos_config] turns the configured Qbv slots into one run-length
    compressed gate list per traffic class; [tsn_init_configs], [tsn_set_qbv],
    [tsn_set_qav] and [tsn_set_mqprio] are the entry points that change the
    configuration, and all of them bake it again. *)

From S2P Require Import Prelude Float64 Device Gate Sim.
From stdpp Require Import gmap.

Open Scope Z_scope.

(** Linux error numbers. *)
Definition EINVAL : Z := 22.
Definition EOPNOTSUPP : Z := 95.
Definition ENOTSUPP : Z := 524.

(** ** bake_qos_config *)

(** [for (tc_id ...) slots[0].opened_prios[tc_id] = true;] *)
Definition open_all (prios : list bool) : outcome (list bool) :=
  for_loop TC_COUNT (fun tc_id l => aset l (Z.of_nat tc_id) true) prios.

(** With neither Qbv nor Qav enabled, an always-open schedule is installed. *)
Definition default_open_qbv (q : qbv_config) : outcome qbv_config :=
  slot0 ← aget (qbv_slots q) 0;
  prios ← open_all (qs_opened_prios slot0);
  slots ← aset (qbv_slots q) 0 (mkSlot 1000000000 prios);
  Ok (mkQbv true 0 slots 1).

Definition qav_disabled (c : tsn_config) : bool := forallb (fun q => negb (qav_enabled q)) (tc_qav c).

(** First slot of every class. *)
Definition bake_first (slot0 : qbv_slot) (tc_id : nat) (prio : qbv_baked_prio) : outcome qbv_baked_prio :=
  opened ← aget (qs_opened_prios slot0) (Z.of_nat tc_id);
  s0 ← aget (bp_slots prio) 0;
  slots ← aset (bp_slots prio) 0 (mkBakedSlot (bs_duration_ns s0) opened);
  Ok (mkBakedPrio slots 1).

(** One configured slot, for one class. *)
Definition bake_slot (slot : qbv_slot) (tc_id : nat) (prio : qbv_baked_prio) : outcome qbv_baked_prio :=
  let slot_duration := qs_duration_ns slot in
  last ← aget (bp_slots prio) (bp_slot_count prio - 1);
  opened ← aget (qs_opened_prios slot) (Z.of_nat tc_id);
  if Bool.eqb (bs_opened last) opened then
    slots ← aset (bp_slots prio) (bp_slot_count prio - 1)
              (mkBakedSlot (u64 (bs_duration_ns last + slot_duration)) (bs_opened last));
    Ok (mkBakedPrio slots (bp_slot_count prio))
  else
    slots ← aset (bp_slots prio) (bp_slot_count prio) (mkBakedSlot slot_duration opened);
    Ok (mkBakedPrio slots (bp_slot_count prio + 1)).

(** Open-close pairs: make the slot count even. *)
Definition bake_even (tc_id : nat) (prio : qbv_baked_prio) : outcome qbv_baked_prio :=
  if decide (bp_slot_count prio `mod` 2 = 1) then
    last ← aget (bp_slots prio) (bp_slot_count prio - 1);
    slots ← aset (bp_slots prio) (bp_slot_count prio) (mkBakedSlot 0 (negb (bs_opened last)));
    Ok (mkBakedPrio slots (bp_slot_count prio + 1))
  else Ok prio.

(** [for (tc_id = 0; tc_id < TC_COUNT; tc_id += 1) prios[tc_id] = f(prios[tc_id])] *)
Definition for_each_tc (f : nat -> qbv_baked_prio -> outcome qbv_baked_prio)
    (prios : list qbv_baked_prio) : outcome (list qbv_baked_prio) :=
  for_loop TC_COUNT (fun tc_id l =>
    a ← aget l (Z.of_nat tc_id); b ← f tc_id a; aset l (Z.of_nat tc_id) b) prios.

Definition bake_slots (q : qbv_config) (baked : qbv_baked_config) : outcome qbv_baked_config :=
  for_loop (Z.to_nat (qbv_slot_count q)) (fun slot_id bk =>
    slot ← aget (qbv_slots q) (Z.of_nat slot_id);
    prios ← for_each_tc (bake_slot slot) (bk_prios bk);
    Ok (mkBaked (u64 (bk_cycle_ns bk + qs_duration_ns slot)) prios)) baked.

Definition bake_qbv (q : qbv_config) : outcome qbv_baked_config :=
  slot0 ← aget (qbv_slots q) 0;
  prios ← for_each_tc (bake_first slot0) (bk_prios zero_baked);
  baked ← bake_slots q (mkBaked 0 prios);
  prios' ← for_each_tc bake_even (bk_prios baked);
  Ok (mkBaked (bk_cycle_ns baked) prios').

Definition bake_qos_config (c : tsn_config) : outcome tsn_config :=
  q ← (if qbv_enabled (tc_qbv c) then Ok (tc_qbv c)
       else if qav_disabled c then default_open_qbv (tc_qbv c) else Ok (tc_qbv c));
  baked ← bake_qbv q;
  Ok (set_tc_qbv_baked baked (set_tc_qbv q c)).

(** ** Entry points *)

(** [tsn_init_configs]: the two example configurations are under [if (false)]. *)
Definition tsn_init_configs : outcome tsn_config := bake_qos_config zero_tsn_config.

Record tc_cbs_qopt_offload := mkCbs {
  cbs_enable : Z; cbs_queue : Z;
  cbs_hicredit : Z; cbs_locredit : Z; cbs_idleslope : Z; cbs_sendslope : Z }.

(** The credits and slopes are [int32_t]: the products wrap, the quotients
    truncate. *)
Definition tsn_set_qav (o : tc_cbs_qopt_offload) (c : tsn_config) : outcome (Z * tsn_config) :=
  if decide (cbs_queue o < 0 \/ Z.of_nat TC_COUNT <= cbs_queue o) then Ok (- EINVAL, c) else
  q ← aget (tc_qav c) (cbs_queue o);
  let q' := mkQav (negb (cbs_enable o =? 0)) (Z.quot (cbs_idleslope o) 1000)
              (Z.quot (cbs_sendslope o) 1000) (s32 (cbs_hicredit o * 1000))
              (s32 (cbs_locredit o * 1000)) (credit q) (last_update q) (available_at q) in
  qavs ← aset (tc_qav c) (cbs_queue o) q';
  c' ← bake_qos_config (set_tc_qav qavs c);
  Ok (0, c').

Inductive taprio_cmd := TAPRIO_CMD_REPLACE | TAPRIO_CMD_DESTROY | TAPRIO_CMD_OTHER.

Record taprio_entry := mkEntry { gate_mask : Z; interval : Z }.

Record tc_taprio_qopt_offload := mkTaprio {
  tap_cmd : taprio_cmd; base_time : Z; num_entries : Z; entries : list taprio_entry }.

(** [opened_prios[j] = gate_mask & (1 << j)] *)
Definition gate_prios (mask : Z) (prios : list bool) : outcome (list bool) :=
  for_loop TC_COUNT (fun j l => aset l (Z.of_nat j) (Z.testbit mask (Z.of_nat j))) prios.

Definition load_slots (o : tc_taprio_qopt_offload) (n : nat) (slots : list qbv_slot) :
    outcome (list qbv_slot) :=
  for_loop n (fun i l =>
    e ← aget (entries o) (Z.of_nat i);
    s ← aget l (Z.of_nat i);
    prios ← gate_prios (gate_mask e) (qs_opened_prios s);
    aset l (Z.of_nat i) (mkSlot (u32 (interval e)) prios)) slots.

(** The variant for Linux 6.4 and later, which has [offload->cmd]. *)
Definition tsn_set_qbv (o : tc_taprio_qopt_offload) (c : tsn_config) : outcome (Z * tsn_config) :=
  if decide (Z.of_nat MAX_QBV_SLOTS < num_entries o) then Ok (- EINVAL, c) else
  let q := tc_qbv c in
  match tap_cmd o with
  | TAPRIO_CMD_OTHER => Ok (- EOPNOTSUPP, c)
  | TAPRIO_CMD_REPLACE =>
      let slot_count := u32 (num_entries o) in
      slots ← load_slots o (Z.to_nat slot_count) (qbv_slots q);
      c' ← bake_qos_config
             (set_tc_qbv (mkQbv true (u64 (base_time o)) slots slot_count) c);
      Ok (0, c')
  | TAPRIO_CMD_DESTROY =>
      c' ← bake_qos_config
             (set_tc_qbv (mkQbv false (qbv_start q) (qbv_slots q) (qbv_slot_count q)) c);
      Ok (0, c')
  end.

(** Kernel limits of [struct tc_mqprio_qopt]. *)
Definition TC_QOPT_MAX_QUEUE : Z := 16.
Definition TC_QOPT_BITMASK : Z := 15.

Inductive mqprio_mode := TC_MQPRIO_MODE_DCB | TC_MQPRIO_MODE_OTHER.

Record tc_mqprio_qopt_offload := mkMqprio {
  mq_mode : mqprio_mode; mq_num_tc : Z; mq_prio_tc_map : list Z;
  mq_count : list Z; mq_offset : list Z }.

Section mqprio.
Context {W : Type} `{nd : NetDevTc W}.
Notation dev := (xdma_dev W).

(** A loop whose body is a command. *)
Fixpoint for_cmd (i n : nat) (f : nat -> cmd dev unit) : cmd dev unit :=
  match n with O => mret tt | S n' => _ ← f i; for_cmd (S i) n' f end.

Definition net_set_num_tc (n : Z) : cmd dev Z := fun d =>
  let '(r, w) := netdev_set_num_tc n (world d) in Ok (r, set_world w d).
Definition net_set_tc_queue (tc count off : Z) : cmd dev Z := fun d =>
  let '(r, w) := netdev_set_tc_queue tc count off (world d) in Ok (r, set_world w d).
Definition net_set_prio_tc_map (prio tc : Z) : cmd dev Z := fun d =>
  let '(r, w) := netdev_set_prio_tc_map prio tc (world d) in Ok (r, set_world w d).

(** Failures of the two loops are only logged. *)
Definition tsn_set_mqprio (o : tc_mqprio_qopt_offload) : cmd dev Z :=
  match mq_mode o with
  | TC_MQPRIO_MODE_OTHER => mret (- ENOTSUPP)
  | TC_MQPRIO_MODE_DCB =>
      if decide (TC_QOPT_MAX_QUEUE <= mq_num_tc o) then mret (- EINVAL) else
      ret ← net_set_num_tc (mq_num_tc o);
      if decide (ret < 0) then mret ret else
      if decide (mq_num_tc o = 0) then mret 0 else
      _ ← for_cmd 0 (Z.to_nat (mq_num_tc o)) (fun i =>
            count ← lift (aget (mq_count o) (Z.of_nat i));
            off ← lift (aget (mq_offset o) (Z.of_nat i));
            _ ← net_set_tc_queue (Z.of_nat i) count off; mret tt);
      _ ← for_cmd 0 (Z.to_nat TC_QOPT_BITMASK) (fun i =>
            tc ← lift (aget (mq_prio_tc_map o) (Z.of_nat i));
            _ ← net_set_prio_tc_map (Z.of_nat i) tc; mret tt);
      mret 0
  end.
End mqprio.

(** ** Well-formed data

    The types of the C members: array lengths and integer ranges. *)
Definition wf_slot (s : qbv_slot) : Prop :=
  fits_u32 (qs_duration_ns s) /\ length (qs_opened_prios s) = TC_COUNT.

Record wf_qbv (q : qbv_config) : Prop := {
  wf_slots_len : length (qbv_slots q) = MAX_QBV_SLOTS;
  wf_slots : Forall wf_slot (qbv_slots q);
  wf_count : 0 <= qbv_slot_count q <= Z.of_nat MAX_QBV_SLOTS }.

(** The configured schedule of a class, and the live part of a baked one. *)
Definition slot_gate (tc_id : nat) (s : qbv_slot) : Z * bool :=
  (qs_duration_ns s, default false (qs_opened_prios s !! tc_id)).

Definition config_schedule (q : qbv_config) (tc_id : nat) : schedule :=
  slot_gate tc_id <$> take (Z.to_nat (qbv_slot_count q)) (qbv_slots q).

Definition baked_slot_gate (s : qbv_baked_prio_slot) : Z * bool :=
  (bs_duration_ns s, bs_opened s).

Definition live (p : qbv_baked_prio) : schedule :=
  baked_slot_gate <$> take (Z.to_nat (bp_slot_count p)) (bp_slots p).

(** A baked class between two steps of the baking loop: an array of 20 slots, at
    least one of them live. *)
Record wf_prio (p : qbv_baked_prio) : Prop := {
  wp_len : length (bp_slots p) = MAX_QBV_SLOTS;
  wp_count : bp_slot_count p = Z.of_nat (length (live p));
  wp_bound : (1 <= length (live p))%nat }.

(** ** One class, one slot *)

Lemma live_length p : 0 <= bp_slot_count p <= Z.of_nat (length (bp_slots p)) ->
  length (live p) = Z.to_nat (bp_slot_count p).
Proof. intros H. unfold live. rewrite length_fmap, length_take. lia. Qed.

Lemma live_last p : wf_prio p ->
  exists s, aget (bp_slots p) (bp_slot_count p - 1) = Ok s /\
    live p = take (length (live p) - 1) (live p) ++ [baked_slot_gate s].
Proof.
  intros [Hl Hc Hb1].
  set (k := (length (live p) - 1)%nat).
  assert (length (live p) = S k) as Hk by lia.
  assert (exists x, live p !! k = Some x) as [x Hx] by (apply lookup_lt_is_Some_2; lia).
  pose proof Hx as Hx'. unfold live in Hx. rewrite list_lookup_fmap in Hx.
  destruct (take (Z.to_nat (bp_slot_count p)) (bp_slots p) !! k) as [s|] eqn:E; [|done].
  injection Hx as <-. exists s. split.
  - apply aget_ok. rewrite lookup_take_Some in E. destruct E as [E _].
    split; [lia|]. by replace (Z.to_nat (bp_slot_count p - 1)) with k by lia.
  - rewrite <- (take_drop_middle _ _ _ Hx') at 1. f_equal. f_equal.
    apply drop_ge. lia.
Qed.

Lemma live_write slots k x : (k < length slots)%nat ->
  live (mkBakedPrio (<[k := x]> slots) (Z.of_nat (S k)))
  = take k (baked_slot_gate <$> slots) ++ [baked_slot_gate x].
Proof.
  intros Hk. unfold live. cbn [bp_slots bp_slot_count]. rewrite Nat2Z.id.
  erewrite take_S_r by (by apply list_lookup_insert_eq).
  rewrite take_insert_ge, fmap_app, fmap_take by lia. done.
Qed.

Lemma take_live p k : (k <= Z.to_nat (bp_slot_count p))%nat ->
  take k (live p) = take k (baked_slot_gate <$> bp_slots p).
Proof.
  intros Hk. unfold live. rewrite <- fmap_take, take_take, Nat.min_l by done.
  by rewrite fmap_take.
Qed.

Lemma wf_prio_write p k x :
  length (bp_slots p) = MAX_QBV_SLOTS -> (k < MAX_QBV_SLOTS)%nat ->
  wf_prio (mkBakedPrio (<[k := x]> (bp_slots p)) (Z.of_nat (S k))).
Proof.
  intros Hl Hk.
  assert (length (live (mkBakedPrio (<[k:=x]> (bp_slots p)) (Z.of_nat (S k)))) = S k) as E.
  { rewrite live_write by lia. rewrite length_app, length_take, length_fmap. cbn. lia. }
  split; cbn [bp_slots bp_slot_count]; [by rewrite length_insert|by rewrite E|lia].
Qed.

Lemma span_last_le l p : nonneg (l ++ [p]) -> fst p <= span (l ++ [p]).
Proof.
  intros H. apply Forall_app in H as [H _]. rewrite span_app. cbn.
  pose proof (span_nonneg l H). lia.
Qed.

Lemma bake_slot_spec s tc_id p :
  wf_prio p -> wf_slot s -> (tc_id < TC_COUNT)%nat -> nonneg (live p) ->
  span (live p) + qs_duration_ns s < 18446744073709551616 ->
  (length (push (live p) (slot_gate tc_id s)) <= MAX_QBV_SLOTS)%nat ->
  exists p', bake_slot s tc_id p = Ok p' /\ wf_prio p' /\
    live p' = push (live p) (slot_gate tc_id s).
Proof.
  intros Hp [Hd Hlen] Htc Hnn Htot Hroom.
  destruct (live_last p Hp) as (l & Hget & Hlive).
  pose proof Hp as [Hl Hc Hb1].
  set (k := (length (live p) - 1)%nat) in *.
  destruct (lookup_lt_is_Some_2 (qs_opened_prios s) tc_id) as [o Ho]; [lia|].
  unfold bake_slot. rewrite Hget. cbn [mbind outcome_bind].
  rewrite (aget_nat _ _ _ Ho). cbn [mbind outcome_bind].
  assert (slot_gate tc_id s = (qs_duration_ns s, o)) as Hsg by (unfold slot_gate; by rewrite Ho).
  rewrite Hsg in *.
  assert (push (live p) (qs_duration_ns s, o) =
    if Bool.eqb (bs_opened l) o then take k (live p) ++ [(bs_duration_ns l + qs_duration_ns s, bs_opened l)]
    else live p ++ [(qs_duration_ns s, o)]) as Hpush.
  { rewrite Hlive at 1. unfold baked_slot_gate at 1. rewrite push_snoc. cbn [snd fst].
    destruct (Bool.eqb _ _); [done|]. by rewrite Hlive at 2. }
  rewrite Hpush in *. destruct (Bool.eqb (bs_opened l) o) eqn:E.
  - rewrite length_app, length_take in Hroom. cbn in Hroom.
    replace (bp_slot_count p - 1) with (Z.of_nat k) by lia.
    rewrite aset_nat by lia. cbn [mbind outcome_bind]. eexists. split; [done|].
    replace (bp_slot_count p) with (Z.of_nat (S k)) by lia.
    split; [apply wf_prio_write; lia|].
    rewrite live_write by lia. rewrite take_live by lia. do 2 f_equal.
    unfold baked_slot_gate. cbn. rewrite u64_small; [done|].
    rewrite Hlive in Hnn, Htot. pose proof (span_last_le _ _ Hnn) as Hle. cbn in Hle.
    apply Forall_app in Hnn as [_ Hnn]. rewrite Forall_singleton in Hnn. cbn in Hnn.
    unfold fits_u32, fits_u64 in *. lia.
  - rewrite length_app in Hroom. cbn in Hroom.
    replace (bp_slot_count p) with (Z.of_nat (length (live p))) by lia.
    rewrite aset_nat by (rewrite Hl; lia). cbn [mbind outcome_bind]. eexists. split; [done|].
    replace (Z.of_nat (length (live p)) + 1) with (Z.of_nat (S (length (live p)))) by lia.
    split; [apply wf_prio_write; lia|].
    rewrite live_write by lia. f_equal.
    rewrite <- take_live by lia. by rewrite take_ge by lia.
Qed.

(** ** The loops *)

Lemma for_each_tc_spec f prios (R : nat -> qbv_baked_prio -> Prop) :
  length prios = TC_COUNT ->
  (forall tc p, prios !! tc = Some p -> exists p', f tc p = Ok p' /\ R tc p') ->
  exists prios', for_each_tc f prios = Ok prios' /\ length prios' = TC_COUNT /\
    forall tc, (tc < TC_COUNT)%nat -> exists p', prios' !! tc = Some p' /\ R tc p'.
Proof.
  intros Hlen Hf.
  destruct (for_loop_each f prios) as (l' & E & Hl' & Hr).
  { intros i a Ha. destruct (Hf i a Ha) as (p' & Hp & _). eauto. }
  rewrite Hlen in E. exists l'. split; [exact E|]. split; [congruence|]. intros tc Htc.
  destruct (lookup_lt_is_Some_2 prios tc) as [p Hp]; [lia|].
  destruct (Hr tc p Hp) as (b & Hb & Hfb). destruct (Hf tc p Hp) as (p' & Hp' & HR).
  exists b. split; [done|]. congruence.
Qed.

Definition first_open (q : qbv_config) (tc : nat) : bool :=
  match qbv_slots q !! 0%nat with Some s => default false (qs_opened_prios s !! tc) | None => false end.

Definition gates_upto (q : qbv_config) (tc k : nat) : schedule :=
  slot_gate tc <$> take k (qbv_slots q).

Lemma config_schedule_upto q tc :
  config_schedule q tc = gates_upto q tc (Z.to_nat (qbv_slot_count q)).
Proof. done. Qed.

Lemma gates_nonneg q tc k : wf_qbv q -> nonneg (gates_upto q tc k).
Proof.
  intros [_ Hs _]. unfold nonneg, gates_upto. apply Forall_fmap, Forall_take.
  eapply Forall_impl; [exact Hs|]. intros s [[H _] _]. exact H.
Qed.

Lemma gates_span_bound q tc k : wf_qbv q ->
  span (gates_upto q tc k) <= Z.of_nat k * 4294967295.
Proof.
  intros [_ Hs _]. unfold gates_upto. revert k.
  induction Hs as [|s l [[H0 H1] _] _ IH]; intros k; destruct k as [|k]; cbn; try lia.
  specialize (IH k). lia.
Qed.

Lemma gates_span_tc q tc tc' k : span (gates_upto q tc k) = span (gates_upto q tc' k).
Proof.
  unfold gates_upto. revert k. induction (qbv_slots q) as [|s l IH]; intros k;
    destruct k; cbn; [done..|]. by rewrite IH.
Qed.

Lemma gates_upto_S q tc k s : qbv_slots q !! k = Some s ->
  gates_upto q tc (S k) = gates_upto q tc k ++ [slot_gate tc s].
Proof. intros H. unfold gates_upto. rewrite (take_S_r _ _ _ H), fmap_app. done. Qed.

Lemma gates_upto_length q tc k : (k <= length (qbv_slots q))%nat ->
  length (gates_upto q tc k) = k.
Proof. intros H. unfold gates_upto. rewrite length_fmap, length_take. lia. Qed.

(** The seeded compression of the first [k] slots never needs more than
    [max 1 k] slots. *)
Lemma seeded_length q tc k : (k <= length (qbv_slots q))%nat ->
  (1 <= length (foldl push [(0%Z, first_open q tc)] (gates_upto q tc k)) <= Nat.max 1 k)%nat.
Proof.
  intros Hk. split; [apply foldl_push_length; cbn; lia|].
  destruct k as [|k]; [exact (le_n 1)|].
  pose proof (gates_upto_length q tc (S k) Hk) as Hlen.
  destruct (qbv_slots q) as [|s l] eqn:Es; [cbn in Hk; lia|].
  assert (gates_upto q tc (S k) = slot_gate tc s :: (slot_gate tc <$> take k l)) as E
    by (unfold gates_upto; by rewrite Es).
  assert (first_open q tc = snd (slot_gate tc s)) as -> by (unfold first_open; by rewrite Es).
  rewrite E in *. cbn [length] in Hlen.
  pose proof (foldl_push_seed_length (qs_duration_ns s) (snd (slot_gate tc s))
    (slot_gate tc <$> take k l)) as H.
  change (qs_duration_ns s, snd (slot_gate tc s)) with (slot_gate tc s) in H. lia.
Qed.

Record baked_upto (q : qbv_config) (k : nat) (bk : qbv_baked_config) : Prop := {
  bu_len : length (bk_prios bk) = TC_COUNT;
  bu_cycle : bk_cycle_ns bk = span (gates_upto q 0 k);
  bu_prio : forall tc, (tc < TC_COUNT)%nat -> exists p, bk_prios bk !! tc = Some p /\
    wf_prio p /\ live p = foldl push [(0, first_open q tc)] (gates_upto q tc k) }.

Lemma bake_first_upto q : wf_qbv q ->
  exists slot0 prios, aget (qbv_slots q) 0 = Ok slot0 /\
    for_each_tc (bake_first slot0) (bk_prios zero_baked) = Ok prios /\
    baked_upto q 0 (mkBaked 0 prios).
Proof.
  intros [Hlen Hs _].
  destruct (lookup_lt_is_Some_2 (qbv_slots q) 0) as [slot0 H0]; [rewrite Hlen; unfold MAX_QBV_SLOTS; lia|].
  pose proof (proj1 (Forall_lookup _ _) Hs 0%nat slot0 H0) as [_ Hpr].
  destruct (for_each_tc_spec (bake_first slot0) (bk_prios zero_baked)
    (fun tc p => wf_prio p /\ live p = [(0, first_open q tc)])) as (prios & E & Hl & Hp);
    [done| |].
  - intros tc p Hp.
    assert (tc < TC_COUNT)%nat as Htc by (by apply lookup_lt_Some in Hp).
    cbn [bk_prios zero_baked] in Hp. apply lookup_replicate in Hp as [-> _].
    destruct (lookup_lt_is_Some_2 (qs_opened_prios slot0) tc) as [o Ho]; [lia|].
    unfold bake_first. rewrite (aget_nat _ _ _ Ho). eexists. split; [reflexivity|].
    unfold first_open. rewrite H0, Ho. split; [split; [done|done|exact (le_n 1)]|done].
  - exists slot0, prios. split; [by apply (aget_nat _ 0)|]. split; [done|].
    by split.
Qed.

Lemma bake_slot_upto q k s bk : wf_qbv q -> (k < Z.to_nat (qbv_slot_count q))%nat ->
  qbv_slots q !! k = Some s -> baked_upto q k bk ->
  exists prios, for_each_tc (bake_slot s) (bk_prios bk) = Ok prios /\
    baked_upto q (S k) (mkBaked (u64 (bk_cycle_ns bk + qs_duration_ns s)) prios).
Proof.
  intros Hq Hk Hs [Hlen Hcyc Hpr]. pose proof Hq as [Hl Hsl Hcnt].
  pose proof (proj1 (Forall_lookup _ _) Hsl k s Hs) as Hws. unfold MAX_QBV_SLOTS in *.
  destruct (for_each_tc_spec (bake_slot s) (bk_prios bk)
    (fun tc p => wf_prio p /\ live p = foldl push [(0, first_open q tc)] (gates_upto q tc (S k))))
    as (prios & E & Hl' & Hp'); [done| |].
  - intros tc p Hp. assert (tc < TC_COUNT)%nat as Htc by (rewrite <- Hlen; by eapply lookup_lt_Some).
    destruct (Hpr tc Htc) as (p0 & Hp0 & Hwf & Hlive). simplify_eq.
    pose proof (gates_nonneg q tc k Hq) as Hnn.
    destruct (foldl_push_seed (gates_upto q tc k) (first_open q tc) Hnn) as (Hn1 & _ & Hsp & _).
    pose proof (seeded_length q tc (S k) ltac:(lia)) as Hsl'.
    rewrite (gates_upto_S _ _ _ _ Hs), foldl_snoc in *. rewrite <- Hlive in *.
    apply bake_slot_spec; [done..| |unfold MAX_QBV_SLOTS; lia].
    rewrite Hsp. pose proof (gates_span_bound q tc k Hq). destruct Hws as [[_ Hd] _]. lia.
  - exists prios. split; [done|]. split; cbn [bk_prios bk_cycle_ns]; [done| |done].
    rewrite Hcyc, (gates_upto_S _ _ _ _ Hs), span_app. cbn.
    pose proof (gates_span_bound q 0 k Hq). pose proof (span_nonneg _ (gates_nonneg q 0 k Hq)).
    destruct Hws as [[Hd0 Hd] _]. rewrite u64_small; [lia|]. unfold fits_u64. lia.
Qed.

Lemma live_alternates q tc k : alternates (foldl push [(0, first_open q tc)] (gates_upto q tc k)).
Proof. apply foldl_push_alternates. intros i a b Ha Hb. by destruct i. Qed.

Lemma bake_even_spec tc p : wf_prio p -> (length (live p) <= MAX_QBV_SLOTS)%nat ->
  exists p', bake_even tc p = Ok p' /\ wf_prio p' /\
    Z.even (bp_slot_count p') = true /\
    (live p' = live p \/
     exists l d o, live p = l ++ [(d, o)] /\ live p' = (l ++ [(d, o)]) ++ [(0, negb o)]).
Proof.
  intros Hp Hle. pose proof Hp as [Hl Hc Hb]. unfold bake_even. case_decide as Hodd.
  - destruct (live_last p Hp) as (s & Hget & Hlive). rewrite Hget. cbn [mbind outcome_bind].
    unfold MAX_QBV_SLOTS in *.
    assert (length (live p) < 20)%nat.
    { destruct (decide (length (live p) = 20%nat)); [|lia]. rewrite Hc, e in Hodd. done. }
    rewrite Hc, aset_nat by lia. cbn [mbind outcome_bind]. eexists. split; [done|].
    replace (Z.of_nat (length (live p)) + 1) with (Z.of_nat (S (length (live p)))) by lia.
    split; [apply wf_prio_write; unfold MAX_QBV_SLOTS; lia|]. split.
    + cbn [bp_slot_count]. rewrite Hc in Hodd. rewrite Zeven_mod.
      apply Z.eqb_eq. Z.div_mod_to_equations. lia.
    + right. exists (take (length (live p) - 1) (live p)), (bs_duration_ns s), (bs_opened s).
      split; [exact Hlive|]. rewrite live_write by lia. rewrite <- take_live by lia.
      rewrite take_ge by lia. by rewrite Hlive at 1.
  - exists p. split; [done|]. split; [done|]. split; [|by left].
    rewrite Zeven_mod. apply Z.eqb_eq.
    pose proof (Z.mod_pos_bound (bp_slot_count p) 2). lia.
Qed.

(** ** What baking promises

    For one class: an array of 20 slots of which an even number between 2 and 20
    is live, open and closed slots alternating, with the gate of the configured
    schedule at every instant of the cycle. *)
Record baked_prio_ok (q : qbv_config) (tc : nat) (p : qbv_baked_prio) : Prop := {
  bpo_wf : wf_prio p;
  bpo_even : Z.even (bp_slot_count p) = true;
  bpo_range : 2 <= bp_slot_count p <= Z.of_nat MAX_QBV_SLOTS;
  bpo_alternates : alternates (live p);
  bpo_gate : same_gate (live p) (config_schedule q tc) }.

Record baked_ok (q : qbv_config) (bk : qbv_baked_config) : Prop := {
  bo_len : length (bk_prios bk) = TC_COUNT;
  bo_cycle : forall tc, bk_cycle_ns bk = span (config_schedule q tc);
  bo_prio : forall tc, (tc < TC_COUNT)%nat ->
    exists p, bk_prios bk !! tc = Some p /\ baked_prio_ok q tc p }.

Lemma bake_even_ok q tc p : wf_qbv q -> wf_prio p ->
  live p = foldl push [(0, first_open q tc)] (gates_upto q tc (Z.to_nat (qbv_slot_count q))) ->
  exists p', bake_even tc p = Ok p' /\ baked_prio_ok q tc p'.
Proof.
  intros Hq Hp Hlive. pose proof Hq as [Hl _ Hcnt]. unfold MAX_QBV_SLOTS in *.
  pose proof (seeded_length q tc (Z.to_nat (qbv_slot_count q)) ltac:(lia)) as Hlen.
  rewrite <- Hlive in Hlen.
  destruct (bake_even_spec tc p Hp) as (p' & E & Hp' & Hev & Hcase);
    [unfold MAX_QBV_SLOTS; lia|].
  exists p'. split; [done|].
  pose proof (foldl_push_seed _ (first_open q tc)
    (gates_nonneg q tc (Z.to_nat (qbv_slot_count q)) Hq)) as Hg. rewrite <- Hlive in Hg.
  pose proof (live_alternates q tc (Z.to_nat (qbv_slot_count q))) as Ha. rewrite <- Hlive in Ha.
  pose proof Hp' as [Hl' Hc' Hb'].
  assert (bp_slot_count p' <> 1) by (intros Hone; by rewrite Hone in Hev).
  assert (length (live p') <= 20)%nat.
  { change 20%nat with MAX_QBV_SLOTS. rewrite <- Hl'. unfold live. rewrite length_fmap, length_take. lia. }
  split; [done|done|unfold MAX_QBV_SLOTS; lia| |].
  - destruct Hcase as [->|(l & d & o & Hpl & ->)]; [done|]. rewrite Hpl in Ha.
    by apply alternates_snoc.
  - rewrite config_schedule_upto. destruct Hcase as [->|(l & d & o & Hpl & ->)]; [done|].
    rewrite <- Hpl. by apply same_gate_pad.
Qed.

Lemma bake_qbv_ok q : wf_qbv q -> exists bk, bake_qbv q = Ok bk /\ baked_ok q bk.
Proof.
  intros Hq. destruct (bake_first_upto q Hq) as (slot0 & prios & E0 & E1 & Hinit).
  unfold bake_qbv. rewrite E0. cbn [mbind outcome_bind]. rewrite E1. cbn [mbind outcome_bind].
  destruct (for_loop_inv (baked_upto q) (Z.to_nat (qbv_slot_count q)) (fun slot_id bk =>
    slot ← aget (qbv_slots q) (Z.of_nat slot_id);
    prios ← for_each_tc (bake_slot slot) (bk_prios bk);
    Ok (mkBaked (u64 (bk_cycle_ns bk + qs_duration_ns slot)) prios)) (mkBaked 0 prios) Hinit)
    as (bk & Ebk & Hbk).
  { intros k bk Hk Hbk. destruct (lookup_lt_is_Some_2 (qbv_slots q) k) as [s Hs].
    { destruct Hq as [-> _ Hc]. lia. }
    destruct (bake_slot_upto q k s bk Hq Hk Hs Hbk) as (prios' & Ep & Hup).
    eexists. rewrite (aget_nat _ _ _ Hs). cbn [mbind outcome_bind]. rewrite Ep. done. }
  unfold bake_slots. rewrite Ebk. cbn [mbind outcome_bind].
  destruct Hbk as [Hlen Hcyc Hpr].
  destruct (for_each_tc_spec bake_even (bk_prios bk) (baked_prio_ok q)) as (ps & Ep & Hl & Hps);
    [done| |].
  - intros tc p Hp. assert (tc < TC_COUNT)%nat as Htc by (rewrite <- Hlen; by eapply lookup_lt_Some).
    destruct (Hpr tc Htc) as (p0 & Hp0 & Hwf & Hlive). simplify_eq.
    by apply bake_even_ok.
  - rewrite Ep. cbn [mbind outcome_bind]. eexists. split; [done|]. split; [done| |done].
    intros tc. cbn. rewrite Hcyc. apply gates_span_tc.
Qed.

(** ** The configuration as a whole *)

Record wf_tsn (c : tsn_config) : Prop := {
  wt_qbv : wf_qbv (tc_qbv c);
  wt_qav : length (tc_qav c) = TC_COUNT;
  wt_queues : length (queue_available_at c) = TSN_PRIO_COUNT }.

(** What every operation on the configuration leaves: the baked schedule is that
    of the configured one, and some shaper is enabled. *)
Record tsn_ok (c : tsn_config) : Prop := {
  to_wf : wf_tsn c;
  to_baked : baked_ok (tc_qbv c) (tc_qbv_baked c);
  to_enabled : qbv_enabled (tc_qbv c) = true \/ qav_disabled c = false }.

(** The members baking does not touch. *)
Definition same_runtime (c c' : tsn_config) : Prop :=
  tc_qav c' = tc_qav c /\ tc_buffer_tracker c' = tc_buffer_tracker c /\
  queue_available_at c' = queue_available_at c /\ total_available_at c' = total_available_at c.

Lemma set_all_loop {A} (f : nat -> A) (l : list A) n : length l = n ->
  for_loop n (fun j l => aset l (Z.of_nat j) (f j)) l = Ok (imap (fun j _ => f j) l).
Proof.
  intros <-.
  destruct (for_loop_inv (fun i l' => length l' = length l /\
       forall j, l' !! j = if decide (j < i)%nat then (fun _ => f j) <$> l !! j else l !! j)
    (length l) (fun j l => aset l (Z.of_nat j) (f j)) l) as (r & E & Hlen & Hr).
  - split; [done|]. intros j. by case_decide; [lia|].
  - intros i s Hi [Hl Hs]. exists (<[i := f i]> s). split; [apply aset_nat; lia|].
    split; [by rewrite length_insert|]. intros j. destruct (decide (i = j)) as [->|Hne].
    + rewrite list_lookup_insert_eq by lia. rewrite decide_True by lia.
      by destruct (lookup_lt_is_Some_2 l j Hi) as [a ->].
    + rewrite list_lookup_insert_ne, Hs by done. repeat case_decide; done || lia.
  - rewrite E. apply f_equal, list_eq. intros j. rewrite Hr, list_lookup_imap.
    case_decide; [done|]. rewrite lookup_ge_None_2 by lia. done.
Qed.

Lemma wf_slots_insert l k s : Forall wf_slot l -> wf_slot s -> Forall wf_slot (<[k := s]> l).
Proof. intros Hl Hs. by apply Forall_insert. Qed.

Lemma default_open_qbv_ok q : wf_qbv q ->
  exists q', default_open_qbv q = Ok q' /\ wf_qbv q' /\ qbv_enabled q' = true /\
    forall tc, (tc < TC_COUNT)%nat -> config_schedule q' tc = [(1000000000, true)].
Proof.
  intros [Hl Hs Hc]. unfold MAX_QBV_SLOTS in *.
  destruct (lookup_lt_is_Some_2 (qbv_slots q) 0) as [s0 H0]; [lia|].
  pose proof (proj1 (Forall_lookup _ _) Hs 0%nat s0 H0) as [Hd0 Hpr].
  unfold default_open_qbv. change 0 with (Z.of_nat 0). rewrite (aget_nat _ _ _ H0). cbn [mbind outcome_bind].
  unfold open_all. rewrite (set_all_loop (fun _ => true)) by done. cbn [mbind outcome_bind].
  rewrite (aset_nat _ 0) by lia. cbn [mbind outcome_bind]. eexists. split; [done|].
  split; [|split; [done|]].
  - split; cbn [qbv_slots qbv_slot_count]; [by rewrite length_insert| |unfold MAX_QBV_SLOTS; lia].
    apply wf_slots_insert; [done|]. split; [unfold fits_u32; cbn; lia|].
    cbn. by rewrite length_imap.
  - intros tc Htc. unfold config_schedule. cbn [qbv_slots qbv_slot_count].
    destruct (qbv_slots q) as [|a l]; [done|]. unfold slot_gate.
    transitivity [(1000000000, default false (imap (fun _ _ => true) (qs_opened_prios s0) !! tc))];
      [done|]. rewrite list_lookup_imap.
    by destruct (lookup_lt_is_Some_2 (qs_opened_prios s0) tc ltac:(lia)) as [o ->].
Qed.

(** What [bake_qos_config] makes of the Qbv configuration. *)
Definition effective_qbv (c : tsn_config) (q : qbv_config) : Prop :=
  if (qbv_enabled (tc_qbv c) || negb (qav_disabled c))%bool then q = tc_qbv c
  else qbv_enabled q = true /\
       forall tc, (tc < TC_COUNT)%nat -> config_schedule q tc = [(1000000000, true)].

Lemma bake_qos_config_spec c : wf_tsn c ->
  exists c', bake_qos_config c = Ok c' /\ tsn_ok c' /\ same_runtime c c' /\
    effective_qbv c (tc_qbv c').
Proof.
  intros [Hq Ha Hr]. unfold bake_qos_config, effective_qbv.
  assert (exists q, (if qbv_enabled (tc_qbv c) then Ok (tc_qbv c)
     else if qav_disabled c then default_open_qbv (tc_qbv c) else Ok (tc_qbv c)) = Ok q /\
    wf_qbv q /\ (qbv_enabled q = true \/ qav_disabled c = false) /\
    if (qbv_enabled (tc_qbv c) || negb (qav_disabled c))%bool then q = tc_qbv c
    else qbv_enabled q = true /\
       forall tc, (tc < TC_COUNT)%nat -> config_schedule q tc = [(1000000000, true)])
    as (q & -> & Hwf & Hen & Heff).
  { destruct (qbv_enabled (tc_qbv c)) eqn:E; cbn [orb].
    { exists (tc_qbv c). by auto. }
    destruct (qav_disabled c) eqn:E'; cbn [negb].
    - destruct (default_open_qbv_ok _ Hq) as (q & ? & ? & ? & ?). exists q. by auto.
    - exists (tc_qbv c). by auto. }
  destruct (bake_qbv_ok q Hwf) as (bk & Ebk & Hbk).
  cbn [mbind outcome_bind]. rewrite Ebk. cbn [mbind outcome_bind].
  eexists. split; [reflexivity|].
  split; [split; [by split|exact Hbk|exact Hen]|]. split; [by repeat split|exact Heff].
Qed.

(** C1. Baking never writes outside the 20-slot arrays and always succeeds on a
    well-formed configuration.  The baked gate lists equal the configured schedule
    at every instant of the cycle, for every traffic class, with an even number of
    alternating slots; with neither shaper enabled the schedule installed is
    always open; afterwards some shaper is enabled, and nothing else changed. *)
Theorem bake_qos_config_correct c : wf_tsn c ->
  exists c', bake_qos_config c = Ok c' /\ tsn_ok c' /\ same_runtime c c' /\
    effective_qbv c (tc_qbv c').
Proof. apply bake_qos_config_spec. Qed.

(** ** tsn_set_qbv *)

Definition entry_slot (e : taprio_entry) (s : qbv_slot) : qbv_slot :=
  mkSlot (u32 (interval e))
    (imap (fun j _ => Z.testbit (gate_mask e) (Z.of_nat j)) (qs_opened_prios s)).

Lemma load_slots_spec o n slots :
  length slots = MAX_QBV_SLOTS -> Forall wf_slot slots ->
  (n <= length (entries o))%nat -> (n <= MAX_QBV_SLOTS)%nat ->
  exists slots', load_slots o n slots = Ok slots' /\
    length slots' = MAX_QBV_SLOTS /\ Forall wf_slot slots' /\
    forall i e, (i < n)%nat -> entries o !! i = Some e ->
      exists s, wf_slot s /\ slots' !! i = Some (entry_slot e s).
Proof.
  intros Hl Hs Hn Hn20. unfold load_slots.
  destruct (for_loop_inv (fun k l => length l = MAX_QBV_SLOTS /\ Forall wf_slot l /\
    forall i e, (i < k)%nat -> entries o !! i = Some e ->
      exists s, wf_slot s /\ l !! i = Some (entry_slot e s)) n (fun i l =>
    e ← aget (entries o) (Z.of_nat i); s ← aget l (Z.of_nat i);
    prios ← gate_prios (gate_mask e) (qs_opened_prios s);
    aset l (Z.of_nat i) (mkSlot (u32 (interval e)) prios)) slots) as (l & E & H); [| |by exists l].
  { split; [done|]. split; [done|]. lia. }
  intros k l Hk (Hll & Hls & Hle).
  destruct (lookup_lt_is_Some_2 (entries o) k) as [e He]; [lia|].
  destruct (lookup_lt_is_Some_2 l k) as [s Hks]; [lia|].
  pose proof (proj1 (Forall_lookup _ _) Hls k s Hks) as Hws.
  rewrite (aget_nat _ _ _ He), (aget_nat _ _ _ Hks). cbn [mbind outcome_bind].
  unfold gate_prios.
  rewrite (set_all_loop (fun j => Z.testbit (gate_mask e) (Z.of_nat j))) by apply Hws.
  cbn [mbind outcome_bind]. rewrite aset_nat by lia. eexists. split; [done|].
  split; [by rewrite length_insert|]. split.
  - apply wf_slots_insert; [done|]. split; [apply u32_range|]. cbn.
    rewrite length_imap. apply Hws.
  - intros i e' Hi He'. destruct (decide (k = i)) as [->|Hne].
    + simplify_eq. exists s. split; [done|]. by rewrite list_lookup_insert_eq by lia.
    + rewrite list_lookup_insert_ne by done. apply Hle; [lia|done].
Qed.

Definition entry_gate (tc : nat) (e : taprio_entry) : Z * bool :=
  (u32 (interval e), Z.testbit (gate_mask e) (Z.of_nat tc)).

Lemma loaded_schedule o slots tc en st :
  length slots = MAX_QBV_SLOTS -> (tc < TC_COUNT)%nat ->
  (length (entries o) <= MAX_QBV_SLOTS)%nat ->
  (forall i e, (i < length (entries o))%nat -> entries o !! i = Some e ->
      exists s, wf_slot s /\ slots !! i = Some (entry_slot e s)) ->
  config_schedule (mkQbv en st slots (Z.of_nat (length (entries o)))) tc
  = entry_gate tc <$> entries o.
Proof.
  intros Hl Htc Hle Hs. unfold config_schedule. cbn [qbv_slots qbv_slot_count].
  rewrite Nat2Z.id. apply list_eq. intros i. rewrite !list_lookup_fmap.
  destruct (decide (i < length (entries o))%nat) as [Hi|Hi].
  - rewrite lookup_take_lt by done.
    destruct (lookup_lt_is_Some_2 (entries o) i Hi) as [e He]. rewrite He.
    destruct (Hs i e Hi He) as (s & [_ Hw] & ->). cbn.
    unfold slot_gate, entry_gate, entry_slot. cbn [qs_duration_ns qs_opened_prios].
    rewrite list_lookup_imap.
    by destruct (lookup_lt_is_Some_2 (qs_opened_prios s) tc ltac:(lia)) as [o' ->].
  - rewrite lookup_take_ge by lia. by rewrite (lookup_ge_None_2 (entries o)) by lia.
Qed.

(** The array the qdisc passes has [num_entries] elements. *)
Definition wf_taprio (o : tc_taprio_qopt_offload) : Prop :=
  num_entries o = Z.of_nat (length (entries o)).

(** What [tsn_set_qbv] answers and leaves. *)
Definition set_qbv_post (o : tc_taprio_qopt_offload) (c : tsn_config) (r : Z) (c' : tsn_config) : Prop :=
  if decide (Z.of_nat MAX_QBV_SLOTS < num_entries o) then r = - EINVAL /\ c' = c
  else match tap_cmd o with
  | TAPRIO_CMD_OTHER => r = - EOPNOTSUPP /\ c' = c
  | TAPRIO_CMD_REPLACE =>
      r = 0 /\ tsn_ok c' /\ same_runtime c c' /\ qbv_enabled (tc_qbv c') = true /\
      qbv_start (tc_qbv c') = u64 (base_time o) /\
      forall tc, (tc < TC_COUNT)%nat ->
        config_schedule (tc_qbv c') tc = entry_gate tc <$> entries o
  | TAPRIO_CMD_DESTROY =>
      r = 0 /\ tsn_ok c' /\ same_runtime c c' /\
      (qav_disabled c = true -> forall tc, (tc < TC_COUNT)%nat ->
         config_schedule (tc_qbv c') tc = [(1000000000, true)])
  end.

Lemma tsn_set_qbv_spec o c : wf_tsn c -> wf_taprio o ->
  exists r c', tsn_set_qbv o c = Ok (r, c') /\ set_qbv_post o c r c'.
Proof.
  intros Hc Ho. pose proof Hc as [Hq Ha Hr]. pose proof Hq as [Hl Hs Hcnt].
  unfold tsn_set_qbv, set_qbv_post, wf_taprio in *. case_decide as Hn; [by eauto 6|].
  destruct (tap_cmd o); [| |by eauto 6].
  - assert (u32 (num_entries o) = num_entries o) as ->
      by (apply u32_small; unfold fits_u32, MAX_QBV_SLOTS in *; lia).
    assert (length (entries o) <= MAX_QBV_SLOTS)%nat as Hle by lia.
    rewrite Ho, Nat2Z.id in *.
    destruct (load_slots_spec o (length (entries o)) (qbv_slots (tc_qbv c)))
      as (slots & -> & Hll & Hls & Hget); [done..|]. cbn [mbind outcome_bind].
    destruct (bake_qos_config_spec (set_tc_qbv (mkQbv true (u64 (base_time o)) slots
      (Z.of_nat (length (entries o)))) c)) as (c' & -> & Hok & Hrt & Heff).
    { split; [split; [done|done|cbn; lia]|done|done]. }
    cbn [mbind outcome_bind]. exists 0, c'. split; [done|].
    unfold effective_qbv in Heff. cbn in Heff. rewrite Heff.
    split; [done|]. split; [done|]. split; [done|]. split; [done|]. split; [done|].
    intros tc Htc. by apply loaded_schedule.
  - destruct (bake_qos_config_spec (set_tc_qbv (mkQbv false (qbv_start (tc_qbv c))
      (qbv_slots (tc_qbv c)) (qbv_slot_count (tc_qbv c))) c)) as (c' & -> & Hok & Hrt & Heff).
    { split; [by split|done|done]. }
    cbn [mbind outcome_bind]. exists 0, c'. split; [done|].
    split; [done|]. split; [done|]. split; [done|]. intros Hdis.
    unfold effective_qbv in Heff. cbn -[qav_disabled] in Heff.
    change (qav_disabled (set_tc_qbv _ c)) with (qav_disabled c) in Heff.
    rewrite Hdis in Heff. apply Heff.
Qed.

(** [tsn_set_qbv] returns on every branch.  Too many entries and unsupported
    commands are refused and leave the configuration untouched; a replacement
    installs, for every traffic class, exactly the schedule given by the gate
    masks and intervals of the entries; destroying the schedule without a
    credit-based shaper leaves every class always open. *)
Theorem tsn_set_qbv_correct o c : wf_tsn c -> wf_taprio o ->
  exists r c', tsn_set_qbv o c = Ok (r, c') /\ set_qbv_post o c r c'.
Proof. apply tsn_set_qbv_spec. Qed.

(** ** tsn_set_qav and tsn_init_configs *)

Definition new_qav (o : tc_cbs_qopt_offload) (q : qav_state) : qav_state :=
  mkQav (negb (cbs_enable o =? 0)) (Z.quot (cbs_idleslope o) 1000)
    (Z.quot (cbs_sendslope o) 1000) (s32 (cbs_hicredit o * 1000))
    (s32 (cbs_locredit o * 1000)) (credit q) (last_update q) (available_at q).

(** What [tsn_set_qav] answers and leaves. *)
Definition set_qav_post (o : tc_cbs_qopt_offload) (c : tsn_config) (r : Z) (c' : tsn_config) : Prop :=
  (cbs_queue o < 0 \/ Z.of_nat TC_COUNT <= cbs_queue o) /\ r = - EINVAL /\ c' = c \/
  (exists q, 0 <= cbs_queue o < Z.of_nat TC_COUNT /\ r = 0 /\ tsn_ok c' /\
     tc_qav c !! Z.to_nat (cbs_queue o) = Some q /\
     tc_qav c' = <[Z.to_nat (cbs_queue o) := new_qav o q]> (tc_qav c) /\
     tc_buffer_tracker c' = tc_buffer_tracker c).

Lemma tsn_set_qav_spec o c : wf_tsn c ->
  exists r c', tsn_set_qav o c = Ok (r, c') /\ set_qav_post o c r c'.
Proof.
  intros Hc. pose proof Hc as [Hq Ha Hr]. unfold tsn_set_qav, set_qav_post. case_decide as Hrange; [by eauto 8|].
  destruct (aget_some (tc_qav c) (cbs_queue o)) as [q Eq]; [lia|].
  pose proof (proj1 (aget_ok _ _ _) Eq) as [_ Hqk].
  rewrite Eq. cbn [mbind outcome_bind]. fold (new_qav o q).
  assert (aset (tc_qav c) (cbs_queue o) (new_qav o q)
          = Ok (<[Z.to_nat (cbs_queue o) := new_qav o q]> (tc_qav c))) as ->
    by (apply aset_ok; split; [lia|done]).
  cbn [mbind outcome_bind].
  destruct (bake_qos_config_spec
    (set_tc_qav (<[Z.to_nat (cbs_queue o) := new_qav o q]> (tc_qav c)) c))
    as (c' & -> & Hok & (Hqav & Hbt & _) & _).
  { split; [done|by cbn; rewrite length_insert|done]. }
  cbn [mbind outcome_bind]. exists 0, c'. split; [done|]. right. exists q.
  split; [lia|]. by split; [|split].
Qed.

(** [tsn_set_qav] refuses a queue outside the traffic classes and leaves the
    configuration untouched; otherwise it returns 0, replaces the parameters of
    that class only (its credit and times are kept), and leaves a consistent
    configuration. *)
Theorem tsn_set_qav_correct o c : wf_tsn c ->
  exists r c', tsn_set_qav o c = Ok (r, c') /\ set_qav_post o c r c'.
Proof. apply tsn_set_qav_spec. Qed.

Lemma wf_zero_tsn : wf_tsn zero_tsn_config.
Proof.
  split; [|done|done]. split; [done| |by vm_compute].
  apply Forall_replicate. split; [unfold fits_u32; cbn; lia|done].
Qed.

(** ** Sequences of configuration requests *)
Inductive config_op :=
  | OpQav (o : tc_cbs_qopt_offload)
  | OpQbv (o : tc_taprio_qopt_offload).

Definition wf_op (op : config_op) : Prop :=
  match op with OpQav _ => True | OpQbv o => wf_taprio o end.

Definition run_op (op : config_op) (c : tsn_config) : outcome (Z * tsn_config) :=
  match op with OpQav o => tsn_set_qav o c | OpQbv o => tsn_set_qbv o c end.

Fixpoint run_ops (ops : list config_op) (c : tsn_config) : outcome tsn_config :=
  match ops with
  | [] => Ok c
  | op :: ops' => '(_, c') ← run_op op c; run_ops ops' c'
  end.

Lemma run_op_ok op c : wf_op op -> tsn_ok c ->
  exists r c', run_op op c = Ok (r, c') /\ tsn_ok c'.
Proof.
  intros Hop Hc. destruct op as [o|o]; cbn [run_op wf_op] in *.
  - destruct (tsn_set_qav_spec o c (to_wf c Hc)) as (r & c' & E & H).
    exists r, c'. split; [done|]. destruct H as [(_ & _ & ->)|(q & _ & _ & H & _)]; done.
  - destruct (tsn_set_qbv_spec o c (to_wf c Hc) Hop) as (r & c' & E & H).
    exists r, c'. split; [done|]. unfold set_qbv_post in H. case_decide; [by destruct H as [_ ->]|].
    destruct (tap_cmd o); [apply H|apply H|by destruct H as [_ ->]].
Qed.

(** C22. Whatever sequence of taprio and CBS requests follows the initialisation,
    accepted or refused, no request faults and the configuration in force is
    consistent: its baked gate lists are those of the configured schedule and some
    shaper is enabled. *)
Theorem config_always_consistent ops : Forall wf_op ops ->
  exists c0 c', tsn_init_configs = Ok c0 /\ run_ops ops c0 = Ok c' /\ tsn_ok c'.
Proof.
  intros Hops.
  destruct (bake_qos_config_spec zero_tsn_config wf_zero_tsn) as (c0 & E0 & Hc0 & _).
  exists c0. unfold tsn_init_configs. revert c0 E0 Hc0. clear -Hops. intros c0 E0 Hc0.
  enough (exists c', run_ops ops c0 = Ok c' /\ tsn_ok c') as (c' & ? & ?) by eauto.
  clear E0. revert c0 Hc0. induction Hops as [|op ops Hop _ IH]; intros c Hc; [by exists c|].
  cbn [run_ops]. destruct (run_op_ok op c Hop Hc) as (r & c' & -> & Hc').
  cbn [mbind outcome_bind]. by apply IH.
Qed.

(** ** Priority to traffic class *)

(** The documented behaviour of the kernel's accessors. *)
Class NetDevTcOk (W : Type) `{NetDevTc W} : Prop := {
  num_tc_set : forall n w, fst (netdev_set_num_tc n w) = 0 ->
    netdev_get_num_tc (snd (netdev_set_num_tc n w)) = n;
  num_tc_queue : forall i k o w,
    netdev_get_num_tc (snd (netdev_set_tc_queue i k o w)) = netdev_get_num_tc w;
  num_tc_map : forall p t w,
    netdev_get_num_tc (snd (netdev_set_prio_tc_map p t w)) = netdev_get_num_tc w;
  prio_map_set : forall p t w, 0 <= t < netdev_get_num_tc w ->
    netdev_get_prio_tc_map p (snd (netdev_set_prio_tc_map p t w)) = t;
  prio_map_other : forall p q t w, p <> q ->
    netdev_get_prio_tc_map q (snd (netdev_set_prio_tc_map p t w)) = netdev_get_prio_tc_map q w }.

#[export] Instance sim_netdev_ok : NetDevTcOk sim.
Proof.
  split; intros; cbn; try done.
  - by rewrite lookup_insert_eq.
  - by rewrite lookup_insert_ne.
Qed.

Definition tsn_get_mqprio_tc {W} `{NetDevTc W} (w : W) (prio : Z) : Z :=
  if decide (netdev_get_num_tc w = 0) then prio else u8 (netdev_get_prio_tc_map prio w).

Section mqprio_props.
Context {W : Type} `{nd : NetDevTc W} {nd_ok : NetDevTcOk W}.
Implicit Types d : xdma_dev W.

Lemma for_cmd_inv (Inv : nat -> xdma_dev W -> Prop) f n i d :
  Inv i d ->
  (forall k d, (i <= k < i + n)%nat -> Inv k d -> exists d', f k d = Ok (tt, d') /\ Inv (S k) d') ->
  exists d', for_cmd i n f d = Ok (tt, d') /\ Inv (i + n)%nat d'.
Proof.
  revert i d. induction n as [|n IH]; intros i d Hi Hstep.
  - exists d. split; [done|]. by rewrite Nat.add_0_r.
  - destruct (Hstep i d) as (d1 & E1 & H1); [lia|done|].
    destruct (IH (S i) d1 H1) as (d' & E' & H'); [intros; apply Hstep; [lia|done]|].
    exists d'. cbn [for_cmd]. rewrite (cmd_bind_run _ _ _ _ _ E1). split; [done|].
    by replace (i + S n)%nat with (S i + n)%nat by lia.
Qed.

Definition mqprio_accepted (o : tc_mqprio_qopt_offload) : Prop :=
  mq_mode o = TC_MQPRIO_MODE_DCB /\ 0 < mq_num_tc o < TC_QOPT_MAX_QUEUE /\
  length (mq_prio_tc_map o) = 16%nat /\ length (mq_count o) = 16%nat /\
  length (mq_offset o) = 16%nat /\
  Forall (fun t => 0 <= t < mq_num_tc o) (mq_prio_tc_map o).

(** The two loops of the request. *)
Definition set_queue_step (o : tc_mqprio_qopt_offload) (i : nat) : cmd (xdma_dev W) unit :=
  count ← lift (aget (mq_count o) (Z.of_nat i));
  off ← lift (aget (mq_offset o) (Z.of_nat i));
  _ ← net_set_tc_queue (Z.of_nat i) count off; mret tt.
Definition map_step (o : tc_mqprio_qopt_offload) (i : nat) : cmd (xdma_dev W) unit :=
  tc ← lift (aget (mq_prio_tc_map o) (Z.of_nat i));
  _ ← net_set_prio_tc_map (Z.of_nat i) tc; mret tt.

Definition tc_inv (o : tc_mqprio_qopt_offload) d (_ : nat) (e : xdma_dev W) : Prop :=
  tsn e = tsn d /\ netdev_get_num_tc (world e) = mq_num_tc o.
Definition map_inv (o : tc_mqprio_qopt_offload) d (k : nat) (e : xdma_dev W) : Prop :=
  tc_inv o d k e /\ forall p t, (p < k)%nat -> mq_prio_tc_map o !! p = Some t ->
    netdev_get_prio_tc_map (Z.of_nat p) (world e) = t.

Lemma set_queue_step_inv o d k e : mqprio_accepted o -> (k < 16)%nat -> tc_inv o d k e ->
  exists e', set_queue_step o k e = Ok (tt, e') /\ tc_inv o d (S k) e'.
Proof.
  intros (_ & _ & _ & Hlc & Hlo & _) Hk [Ht He].
  destruct (aget_some (mq_count o) (Z.of_nat k)) as [a Ea]; [lia|].
  destruct (aget_some (mq_offset o) (Z.of_nat k)) as [b Eb]; [lia|].
  unfold set_queue_step. cstep_by (apply lift_run, Ea). cstep_by (apply lift_run, Eb).
  unfold net_set_tc_queue, mbind, cmd_bind.
  pose proof (num_tc_queue (Z.of_nat k) a b (world e)) as Hq.
  destruct (netdev_set_tc_queue _ _ _ _) as [r w] eqn:Ew. eexists. split; [done|].
  split; [done|]. cbn in *. by rewrite Hq.
Qed.

Lemma map_step_inv o d k e : mqprio_accepted o -> (k < 16)%nat -> map_inv o d k e ->
  exists e', map_step o k e = Ok (tt, e') /\ map_inv o d (S k) e'.
Proof.
  intros (_ & _ & Hlm & _ & _ & Hmap) Hk [[Ht He] Hm].
  destruct (lookup_lt_is_Some_2 (mq_prio_tc_map o) k) as [t Hkt]; [lia|].
  pose proof (proj1 (Forall_lookup _ _) Hmap k t Hkt) as Htr.
  unfold map_step. cstep_by (apply lift_run, aget_nat, Hkt).
  unfold net_set_prio_tc_map, mbind, cmd_bind.
  pose proof (num_tc_map (Z.of_nat k) t (world e)) as Hq.
  pose proof (prio_map_set (Z.of_nat k) t (world e) ltac:(rewrite He; exact Htr)) as Hs.
  pose proof (fun q => prio_map_other (Z.of_nat k) q t (world e)) as Ho.
  destruct (netdev_set_prio_tc_map _ _ _) as [r w] eqn:Ew. cbn in *.
  eexists. split; [done|]. split; [split; [done|cbn; congruence]|].
  intros p t' Hp Hpt. cbn. destruct (decide (p = k)) as [->|Hne]; [congruence|].
  rewrite Ho by lia. apply Hm; [lia|done].
Qed.

(** An accepted mqprio request maps each priority below 15 to the traffic
    class requested for it. *)
Theorem tsn_set_mqprio_maps o d :
  mqprio_accepted o -> fst (netdev_set_num_tc (mq_num_tc o) (world d)) = 0 ->
  exists d', tsn_set_mqprio o d = Ok (0, d') /\ tsn d' = tsn d /\
    forall p t, (p < 15)%nat -> mq_prio_tc_map o !! p = Some t ->
      tsn_get_mqprio_tc (world d') (Z.of_nat p) = t.
Proof.
  intros Hacc Hset. pose proof Hacc as (Hmode & Hnum & _ & _ & _ & Hmap).
  unfold TC_QOPT_MAX_QUEUE in Hnum.
  set (d0 := set_world (snd (netdev_set_num_tc (mq_num_tc o) (world d))) d).
  destruct (for_cmd_inv (tc_inv o d) (set_queue_step o) (Z.to_nat (mq_num_tc o)) 0 d0)
    as (d1 & E1 & HP1).
  { split; [done|]. by apply num_tc_set. }
  { intros k e Hk. apply set_queue_step_inv; [done|lia]. }
  destruct (for_cmd_inv (map_inv o d) (map_step o) 15 0 d1) as (d2 & E2 & [[Ht2 Hn2] HQ2]).
  { split; [exact HP1|]. intros p t Hp. lia. }
  { intros k e Hk. apply map_step_inv; [done|lia]. }
  exists d2. split; [|split; [done|]].
  - unfold tsn_set_mqprio. rewrite Hmode. rewrite decide_False by (unfold TC_QOPT_MAX_QUEUE; lia).
    erewrite (cmd_bind_run _ _ d 0 d0).
    + rewrite !decide_False by lia.
      erewrite cmd_bind_run by exact E1. by erewrite cmd_bind_run by exact E2.
    + unfold net_set_num_tc, d0. destruct (netdev_set_num_tc _ _) as [r w].
      cbn in *. by subst r.
  - intros p t Hp Hpt. unfold tsn_get_mqprio_tc.
    rewrite decide_False by lia. rewrite (HQ2 p t); [|cbn; lia|done].
    pose proof (proj1 (Forall_lookup _ _) Hmap p t Hpt) as Hr. cbn in Hr.
    unfold u8. rewrite Z.mod_small; lia.
Qed.
End mqprio_props.

(** ** Witnesses *)

Definition sample_taprio : tc_taprio_qopt_offload :=
  mkTaprio TAPRIO_CMD_REPLACE 1000 3
    [mkEntry 1 300000; mkEntry 1 200000; mkEntry 6 500000].

(** The configuration it installs. *)
Definition sample_config : tsn_config :=
  match tsn_set_qbv sample_taprio zero_tsn_config with
  | Ok (_, c) => c
  | Fault _ => zero_tsn_config
  end.

Lemma sample_config_ok : tsn_ok sample_config.
Proof.
  destruct (tsn_set_qbv_spec sample_taprio zero_tsn_config wf_zero_tsn eq_refl) as (r & c & E & H).
  unfold sample_config. rewrite E. apply H.
Qed.

Lemma bake_qos_config_correct_witness :
  exists c', bake_qos_config zero_tsn_config = Ok c' /\ tsn_ok c' /\
    same_runtime zero_tsn_config c' /\ effective_qbv zero_tsn_config (tc_qbv c').
Proof. apply bake_qos_config_correct, wf_zero_tsn. Defined.

Lemma tsn_set_qbv_correct_witness :
  exists r c', tsn_set_qbv sample_taprio zero_tsn_config = Ok (r, c') /\
    set_qbv_post sample_taprio zero_tsn_config r c'.
Proof. apply tsn_set_qbv_correct; [apply wf_zero_tsn|reflexivity]. Defined.

Lemma tsn_set_qav_correct_witness :
  exists r c', tsn_set_qav (mkCbs 1 3 15 (-15) 20000 (-980000)) zero_tsn_config = Ok (r, c') /\
    set_qav_post (mkCbs 1 3 15 (-15) 20000 (-980000)) zero_tsn_config r c'.
Proof.
  apply (tsn_set_qav_correct (mkCbs 1 3 15 (-15) 20000 (-980000)) zero_tsn_config), wf_zero_tsn.
Defined.

Lemma config_always_consistent_witness :
  exists c0 c', tsn_init_configs = Ok c0 /\
    run_ops [OpQbv sample_taprio; OpQav (mkCbs 1 3 15 (-15) 20000 (-980000));
             OpQbv (mkTaprio TAPRIO_CMD_DESTROY 0 0 [])] c0 = Ok c' /\ tsn_ok c'.
Proof. apply config_always_consistent. repeat constructor. Defined.

Definition sample_mqprio : tc_mqprio_qopt_offload :=
  mkMqprio TC_MQPRIO_MODE_DCB 3 [2; 0; 1; 2; 0; 1; 2; 0; 1; 2; 0; 1; 2; 0; 1; 2]
    (replicate 16 1) (replicate 16 0).

Lemma tsn_set_mqprio_maps_witness :
  exists d', tsn_set_mqprio sample_mqprio (sim_dev sim0) = Ok (0, d') /\
    tsn d' = tsn (sim_dev sim0) /\
    forall p t, (p < 15)%nat -> mq_prio_tc_map sample_mqprio !! p = Some t ->
      tsn_get_mqprio_tc (world d') (Z.of_nat p) = t.
Proof.
  apply (tsn_set_mqprio_maps sample_mqprio (sim_dev sim0)); [|reflexivity].
  split; [done|]. split; [unfold TC_QOPT_MAX_QUEUE; cbn; lia|]. split; [done|].
  split; [done|]. split; [done|].
  cbn. repeat constructor; cbn; lia.
Defined.
