(* ===== verification/Sched.v ===== *)
(** * tsn.c, second half: time stamps, credit and queue tracking

    [get_timestamps] places a frame in the gate schedule of its traffic class,
    [spend_qav_credit] keeps the credit of the credit-based shaper, and the
    buffer tracker estimates how many frames the hardware queue holds. *)

From S2P Require Import Prelude Float64 Device Gate Sim AlinxArch Qos.
From stdpp Require Import gmap relations.

Open Scope Z_scope.

Definition ETH_ZLEN : Z := 60.

(** [TSN_ALWAYS_OPEN(from)]: one before [from]. *)
Definition TSN_ALWAYS_OPEN (from : Z) : Z := u64 (from - 1).

(** [max(bytes, ETH_ZLEN) * 8 * NS_IN_1S / link_speed] at 1 Gbit/s. *)
Definition bytes_to_ns (n : Z) : Z :=
  let link_speed := 1000000000 in
  u64 (u64 (Z.max n ETH_ZLEN * 8) * NS_IN_1S) / link_speed.

(** ** Credit-based shaper *)

(** Signed 32-bit division; a zero divisor and the overflowing quotient trap. *)
Definition sdiv32 (a b : Z) : outcome Z :=
  if decide (b = 0) then Fault DivByZero
  else if decide (a = -2147483648 /\ b = -1) then Fault DivByZero
  else Ok (Z.quot a b).

(** [credit += (double)ns * slope] on an [int32_t] credit. *)
Definition add_credit (cr ns slope : Z) : outcome Z :=
  f64_to_s32 (f64_add (f64_of_Z cr) (f64_mul (f64_of_Z ns) (f64_of_Z slope))).

Definition spend_qav (q : qav_state) (at_ bytes : Z) : outcome qav_state :=
  if negb (qav_enabled q) then Ok q else
  if decide (at_ < last_update q \/ at_ < available_at q) then Ok q else
  let elapsed_from_last_update := u64 (at_ - last_update q) in
  c1 ← add_credit (credit q) elapsed_from_last_update (idle_slope q);
  let c1 := if decide (c1 > hi_credit q) then hi_credit q else c1 in
  let sending_duration := bytes_to_ns bytes in
  c2 ← add_credit c1 sending_duration (send_slope q);
  let c2 := if decide (c2 < lo_credit q) then lo_credit q else c2 in
  let send_end := u64 (at_ + sending_duration) in
  avail ← (if decide (c2 < 0) then
             d ← sdiv32 c2 (idle_slope q); Ok (u64 (send_end + s32 (- d)))
           else Ok send_end);
  Ok (mkQav (qav_enabled q) (idle_slope q) (send_slope q) (hi_credit q) (lo_credit q)
        c2 send_end avail).

Definition spend_qav_credit (c : tsn_config) (at_ tc_id bytes : Z) : outcome tsn_config :=
  q ← aget (tc_qav c) tc_id;
  q' ← spend_qav q at_ bytes;
  qs ← aset (tc_qav c) tc_id q';
  Ok (set_tc_qav qs c).

(** ** get_timestamps *)
Record timestamps := mkTs { ts_from : Z; ts_to : Z; ts_delay_from : Z; ts_delay_to : Z }.
Definition zero_timestamps : timestamps := mkTs 0 0 0 0.

(** [while (remainder > slots[slot_id].duration_ns)]: [slots] is the rest of the
    array from [slot_id] on, so running off its end is a fault. *)
Fixpoint find_slot (slots : list qbv_baked_prio_slot) (slot_id remainder : Z) : outcome (Z * Z) :=
  match slots with
  | [] => Fault OutOfBounds
  | s :: rest =>
      if decide (bs_duration_ns s < remainder) then
        find_slot rest (slot_id + 1) (u64 (remainder - bs_duration_ns s))
      else Ok (slot_id, remainder)
  end.

(** [(slot_id + 1) % slot_count] *)
Definition next_slot (slot_id slot_count : Z) : outcome Z :=
  if decide (slot_count = 0) then Fault DivByZero else Ok ((slot_id + 1) `mod` slot_count).

(** Step 1 of the placement: the slot to use and the time it starts. *)
Definition place_from (p : qbv_baked_prio) (from slot_id remainder sending_duration : Z) :
    outcome (Z * Z) :=
  s ← aget (bp_slots p) slot_id;
  if bs_opened s then
    if decide (u64 (bs_duration_ns s - remainder) < sending_duration) then
      let t := u64 (u64 (from - remainder) + bs_duration_ns s) in
      id1 ← next_slot slot_id (bp_slot_count p);
      s1 ← aget (bp_slots p) id1;
      id2 ← next_slot id1 (bp_slot_count p);
      Ok (id2, u64 (t + bs_duration_ns s1))
    else Ok (slot_id, u64 (from - remainder))
  else
    id1 ← next_slot slot_id (bp_slot_count p);
    Ok (id1, u64 (u64 (from - remainder) + bs_duration_ns s)).

(** Steps 2 to 4 and the final adjustment. *)
Definition place_window (p : qbv_baked_prio) (from t_from slot_id sending_duration : Z)
    (consider_delay : bool) : outcome timestamps :=
  s ← aget (bp_slots p) slot_id;
  let t_to := u64 (t_from + bs_duration_ns s) in
  '(d_from, d_to) ← (if consider_delay then
      id1 ← next_slot slot_id (bp_slot_count p);
      s1 ← aget (bp_slots p) id1;
      let d_from := u64 (u64 (t_from + bs_duration_ns s) + bs_duration_ns s1) in
      id2 ← next_slot id1 (bp_slot_count p);
      s2 ← aget (bp_slots p) id2;
      Ok (d_from, u64 (u64 (d_from + bs_duration_ns s2) - sending_duration))
    else Ok (0, 0));
  Ok (mkTs (Z.max t_from from) (u64 (t_to - sending_duration)) d_from d_to).

(** The general case of [get_timestamps]: find the slot, place, build the window. *)
Definition search_window (p : qbv_baked_prio) (from remainder sd : Z) (delay : bool) :
    outcome (bool * timestamps) :=
  '(slot_id, rem) ← find_slot (bp_slots p) 0 remainder;
  '(slot_id, t_from) ← place_from p from slot_id rem sd;
  ts ← place_window p from t_from slot_id sd delay;
  Ok (true, ts).

Definition get_timestamps (c : tsn_config) (from tc_id bytes : Z) (consider_delay : bool) :
    outcome (bool * timestamps) :=
  let qbv := tc_qbv c in
  if negb (qbv_enabled qbv) then
    Ok (true, mkTs from (TSN_ALWAYS_OPEN from) from (TSN_ALWAYS_OPEN from))
  else
    let baked := tc_qbv_baked c in
    p ← aget (bk_prios baked) tc_id;
    let sending_duration := bytes_to_ns bytes in
    if decide (bk_cycle_ns baked = 0) then Fault DivByZero else
    let remainder := u64 (from - qbv_start qbv) `mod` bk_cycle_ns baked in
    s0 ← aget (bp_slots p) 0;
    s1 ← aget (bp_slots p) 1;
    if decide (bp_slot_count p = 2 /\ bs_duration_ns s1 = 0) then
      if negb (bs_opened s0) then Ok (false, zero_timestamps)
      else Ok (true, mkTs from (TSN_ALWAYS_OPEN from)
                 (if consider_delay then from else 0)
                 (if consider_delay then TSN_ALWAYS_OPEN from else 0))
    else
      search_window p from remainder sending_duration consider_delay.

(** ** Hardware queue tracking *)
Definition append_buffer_track (b : buffer_tracker) : bool * buffer_tracker :=
  if decide (HW_QUEUE_SIZE <= pending_packets b) then (false, b)
  else (true, mkTracker (u64 (pending_packets b + 1)) (last_tx_count b)).

(** The frames the hardware has disposed of since the last look leave the queue. *)
Definition pop_tracker (b : buffer_tracker) (tx_count : Z) : buffer_tracker :=
  let pop_count := Z.min (u64 (tx_count - last_tx_count b)) (pending_packets b) in
  mkTracker (u64 (pending_packets b - pop_count)) tx_count.

Definition tracker_is_low (b : buffer_tracker) : bool :=
  pending_packets b <? HW_QUEUE_SIZE - HW_QUEUE_SIZE_PAD.

Section tracker.
Context {W : Type} `{io : IoMem W}.
Notation dev := (xdma_dev W).

Definition set_tracker (b : buffer_tracker) : cmd dev unit :=
  modify (fun d => set_tsn (set_tc_buffer_tracker b (tsn d)) d).

Definition update_buffer_track : cmd dev unit :=
  d ← get;
  let b := tc_buffer_tracker (tsn d) in
  if tracker_is_low b then mret tt else
  tx ← alinx_get_tx_packets;
  drops ← alinx_get_total_tx_drop_packets;
  set_tracker (pop_tracker b (u64 (tx + drops))).
End tracker.

(** ** The slots of a baked class, seen as the periodic schedule *)

Lemma aget_live p j : wf_prio p ->
  exists s, aget (bp_slots p) (Z.of_nat (j `mod` length (live p))) = Ok s /\
    baked_slot_gate s = slot_at (live p) j.
Proof.
  intros [Hl Hc Hb]. pose proof (slot_at_lookup (live p) ltac:(lia) j) as Hj.
  set (r := (j `mod` length (live p))%nat) in *. set (x := slot_at (live p) j) in *.
  unfold live in Hj. rewrite list_lookup_fmap in Hj.
  destruct (take (Z.to_nat (bp_slot_count p)) (bp_slots p) !! r) as [s|] eqn:E; [|done].
  injection Hj as Hj. exists s. split; [|done].
  apply lookup_take_Some in E as [E _]. by apply aget_nat.
Qed.

Lemma next_slot_mod p j : wf_prio p ->
  next_slot (Z.of_nat (j `mod` length (live p))) (bp_slot_count p)
  = Ok (Z.of_nat (S j `mod` length (live p))).
Proof.
  intros [Hl Hc Hb]. unfold next_slot. rewrite decide_False by lia. f_equal.
  rewrite Hc. replace (Z.of_nat (j `mod` length (live p)) + 1)
    with (Z.of_nat (S (j `mod` length (live p)))) by lia.
  rewrite <- Nat2Z.inj_mod. f_equal.
  replace (S (j `mod` length (live p))) with (j `mod` length (live p) + 1)%nat by lia.
  rewrite Nat.Div0.add_mod_idemp_l. f_equal. lia.
Qed.

(** The search stops at the slot the instant falls in. *)
Lemma find_slot_spec slots k id rem :
  nonneg (baked_slot_gate <$> take k slots) -> (0 < k)%nat -> (0 < length slots)%nat ->
  0 <= rem <= span (baked_slot_gate <$> take k slots) -> fits_u64 rem ->
  exists i s, find_slot slots id rem
      = Ok (id + Z.of_nat i, rem - span (take i (baked_slot_gate <$> take k slots))) /\
    (i < k)%nat /\ slots !! i = Some s /\
    0 <= rem - span (take i (baked_slot_gate <$> take k slots)) <= bs_duration_ns s.
Proof.
  revert k id rem. induction slots as [|s slots IH]; intros k id rem Hnn Hk Hlen Hrem Hfit;
    [cbn in Hlen; lia|].
  destruct k as [|k]; [lia|]. cbn [find_slot].
  assert (nonneg (baked_slot_gate <$> take k slots) /\ 0 <= bs_duration_ns s) as [Hnn' Hd].
  { cbn in Hnn. by inversion_clear Hnn. }
  assert (span (baked_slot_gate <$> take (S k) (s :: slots))
          = bs_duration_ns s + span (baked_slot_gate <$> take k slots)) as Hsp by done.
  case_decide as Hlt.
  - assert (0 < k /\ 0 < length slots)%nat as [Hk' Hlen'].
    { destruct k as [|k]; [|destruct slots as [|x slots]; [|cbn [length]; lia]]; exfalso.
      - change (span (baked_slot_gate <$> take 0 slots)) with 0 in Hsp. lia.
      - change (span (baked_slot_gate <$> take (S k) [])) with 0 in Hsp. lia. }
    unfold fits_u64 in *. rewrite u64_small by (unfold fits_u64; lia).
    destruct (IH k (id + 1) (rem - bs_duration_ns s)) as (i & s' & E & Hi & Hs' & Hb);
      [done|done|done|lia|unfold fits_u64; lia|].
    exists (S i), s'. rewrite E.
    assert (span (take (S i) (baked_slot_gate <$> take (S k) (s :: slots)))
            = bs_duration_ns s + span (take i (baked_slot_gate <$> take k slots))) as -> by done.
    split; [do 2 f_equal; lia|]. split; [lia|]. split; [done|]. lia.
  - exists 0%nat, s. rewrite take_0. cbn [span]. split; [do 2 f_equal; lia|].
    split; [lia|]. split; [done|]. lia.
Qed.

Lemma bytes_to_ns_spec n : 0 <= n < 65536 -> bytes_to_ns n = 8 * Z.max n ETH_ZLEN.
Proof. unfold bytes_to_ns, ETH_ZLEN, NS_IN_1S. intros. int_lia. Qed.

(** ** Placement

    [base] is the start of the cycle [from] falls in; the slots are those of the
    periodic schedule counted from there. *)
Section placement.
Context (q : qbv_config) (tc : nat) (p : qbv_baked_prio) (Hp : baked_prio_ok q tc p).
Context (base sd : Z) (Hbase : 0 <= base) (Hsd : 0 <= sd).

Notation l := (live p).
Notation start j := (base + slot_start l j).

Lemma placed_wf : wf_prio p.
Proof. exact (bpo_wf _ _ _ Hp). Qed.

Lemma live_nonneg : nonneg l.
Proof. by destruct (bpo_gate _ _ _ Hp). Qed.

Lemma live_length_pos : (2 <= length l)%nat.
Proof. pose proof (wp_count _ placed_wf). pose proof (bpo_range _ _ _ Hp). lia. Qed.

Lemma start_S j : start (S j) = start j + fst (slot_at l j).
Proof. rewrite slot_start_S; [lia|]. pose proof live_length_pos. lia. Qed.

Lemma start_le j k : (j <= k)%nat -> base <= start j <= start k.
Proof.
  intros H. pose proof live_length_pos.
  pose proof (slot_start_le l live_nonneg ltac:(lia) j k H).
  pose proof (slot_start_le l live_nonneg ltac:(lia) 0 j ltac:(lia)) as Hz.
  rewrite slot_start_first in Hz by lia. rewrite take_0 in Hz. cbn in Hz. lia.
Qed.

Lemma start_bound j : (j < length l + 4)%nat -> start j <= base + 3 * span l.
Proof.
  intros H. pose proof live_length_pos.
  pose proof (slot_start_bound l live_nonneg ltac:(lia) j 3 ltac:(lia)). lia.
Qed.

Lemma polarity_S j : snd (slot_at l (S j)) = negb (snd (slot_at l j)).
Proof.
  pose proof live_length_pos. apply slot_at_alternates; [lia|apply (bpo_alternates _ _ _ Hp)|].
  pose proof (bpo_even _ _ _ Hp) as He. rewrite (wp_count _ placed_wf) in He.
  rewrite Zeven_mod in He. apply Z.eqb_eq in He.
  apply Nat.even_spec. exists (length l / 2)%nat.
  pose proof (Nat.div_mod_eq (length l) 2). change 2 with (Z.of_nat 2) in He.
  rewrite <- Nat2Z.inj_mod in He. lia.
Qed.

Lemma aget_slot j : exists s, aget (bp_slots p) (Z.of_nat (j `mod` length l)) = Ok s /\
  bs_duration_ns s = fst (slot_at l j) /\ bs_opened s = snd (slot_at l j) /\
  0 <= bs_duration_ns s /\ start (S j) = start j + bs_duration_ns s.
Proof.
  destruct (aget_live p j placed_wf) as (s & Es & Hs). exists s. split; [done|].
  rewrite start_S, <- Hs. split; [done|]. split; [done|]. split; [|done].
  pose proof live_length_pos.
  pose proof (slot_at_nonneg l live_nonneg ltac:(lia) j) as H'. by rewrite <- Hs in H'.
Qed.

(** Slot [j] is open and it is where a frame ready at [from] goes: either the
    rest of the slot is long enough, or the slot starts later. *)
Definition placed (from : Z) (j : nat) : Prop :=
  snd (slot_at l j) = true /\
  (start j <= from /\ from + sd <= start (S j) \/ from <= start j).

Lemma place_from_spec i from rem :
  (i < length l)%nat -> from = start i + rem -> 0 <= rem <= fst (slot_at l i) ->
  base + 4 * span l < 18446744073709551616 ->
  exists j, (i <= j <= i + 2)%nat /\ placed from j /\
    place_from p from (Z.of_nat (i `mod` length l)) rem sd
    = Ok (Z.of_nat (j `mod` length l), start j).
Proof.
  intros Hi Hfrom Hrem Hmax. pose proof (span_nonneg l live_nonneg) as Hsp.
  pose proof (start_bound (i + 3) ltac:(lia)).
  pose proof (start_le i (i + 3) ltac:(lia)). pose proof (start_le (S i) (i + 3) ltac:(lia)).
  pose proof (start_le (S (S i)) (i + 3) ltac:(lia)).
  destruct (aget_slot i) as (s & Es & Hd & Ho & Hd0 & HS).
  destruct (aget_slot (S i)) as (s1 & Es1 & Hd1 & Ho1 & Hd10 & HS1).
  unfold place_from. rewrite Es. cbn [mbind outcome_bind].
  rewrite (u64_small (from - rem)) by (unfold fits_u64; lia).
  rewrite (u64_small (bs_duration_ns s - rem)) by (unfold fits_u64; lia).
  rewrite (u64_small (from - rem + _)) by (unfold fits_u64; lia).
  rewrite !next_slot_mod by apply placed_wf. cbn [mbind outcome_bind].
  rewrite Es1. cbn [mbind outcome_bind]. rewrite next_slot_mod by apply placed_wf. cbn [mbind outcome_bind].
  rewrite (u64_small (from - rem + _ + _)) by (unfold fits_u64; lia).
  unfold placed. rewrite Ho. destruct (snd (slot_at l i)) eqn:Eo.
  - case_decide as Hfit.
    + exists (S (S i)). split; [lia|]. split.
      * rewrite !polarity_S, Eo. split; [done|]. right. lia.
      * do 2 f_equal. lia.
    + exists i. split; [lia|]. split; [split; [done|left; lia]|]. do 2 f_equal. lia.
  - exists (S i). split; [lia|]. split.
    + rewrite polarity_S, Eo. split; [done|]. right. lia.
    + do 2 f_equal. lia.
Qed.

Lemma place_window_spec i j from delay :
  (i < length l)%nat -> (i <= j <= i + 2)%nat -> sd < base + slot_start l (S j) ->
  base + 7 * span l < 18446744073709551616 ->
  place_window p from (start j) (Z.of_nat (j `mod` length l)) sd delay
  = Ok (mkTs (Z.max (start j) from) (start (S j) - sd)
          (if delay then start (S (S j)) else 0)
          (if delay then start (S (S (S j))) - sd else 0)).
Proof.
  intros Hi Hj Hlt Hmax. pose proof (span_nonneg l live_nonneg) as Hsp.
  pose proof live_length_pos as Hlen.
  assert (start (S (S (S j))) <= base + 7 * span l) as Hb.
  { pose proof (slot_start_bound l live_nonneg ltac:(lia) (S (S (S j))) 7 ltac:(lia)). lia. }
  pose proof (start_le j (S (S (S j))) ltac:(lia)).
  pose proof (start_le (S j) (S (S j)) ltac:(lia)).
  pose proof (start_le (S (S j)) (S (S (S j))) ltac:(lia)).
  destruct (aget_slot j) as (s & Es & _ & _ & Hd0 & HS).
  destruct (aget_slot (S j)) as (s1 & Es1 & _ & _ & Hd10 & HS1).
  destruct (aget_slot (S (S j))) as (s2 & Es2 & _ & _ & Hd20 & HS2).
  unfold place_window. rewrite Es. cbn [mbind outcome_bind].
  rewrite !next_slot_mod by apply placed_wf. cbn [mbind outcome_bind].
  rewrite Es1. cbn [mbind outcome_bind]. rewrite next_slot_mod by apply placed_wf. cbn [mbind outcome_bind].
  rewrite Es2. rewrite <- HS.
  destruct delay; cbn [mbind outcome_bind];
    rewrite !(u64_small (start (S j))) by (unfold fits_u64; lia);
    rewrite <- ?HS1, ?(u64_small (start (S (S j)))), <- ?HS2 by (unfold fits_u64; lia);
    rewrite ?(u64_small (start (S (S (S j))))) by (unfold fits_u64; lia);
    rewrite !(u64_small (_ - sd)) by (unfold fits_u64; lia); done.
Qed.
End placement.

(** ** Soundness of the placement *)

(** The gate of a class at an absolute time. *)
Definition gate_at (q : qbv_config) (tc : nat) (y : Z) : bool :=
  gate (config_schedule q tc) ((y - qbv_start q) `mod` span (config_schedule q tc)).

(** A frame of duration [sd] started anywhere in [lo .. hi] meets an open gate
    until it is sent. *)
Definition open_for (q : qbv_config) (tc : nat) (sd lo hi : Z) : Prop :=
  forall x y, lo <= x <= hi -> x <= y < x + sd -> gate_at q tc y = true.

(** Every open slot of the class is long enough for the frame. *)
Definition slots_fit (c : tsn_config) (tc : nat) (sd : Z) : Prop :=
  forall p d, bk_prios (tc_qbv_baked c) !! tc = Some p -> (d, true) ∈ live p -> sd <= d.

Lemma slot_start_cycle l j : nonneg l -> (0 < length l)%nat ->
  slot_start l (j + length l) = slot_start l j + span l.
Proof.
  intros Hl Hn. unfold slot_start.
  replace (j + length l)%nat with (j + 1 * length l)%nat by lia.
  rewrite Nat.div_add, Nat.Div0.mod_add by lia. lia.
Qed.

Lemma mod_shift_base y s base C k : 0 < C -> base = s + k * C ->
  (y - s) `mod` C = (y - base) `mod` C.
Proof. intros HC ->. replace (y - s) with (y - (s + k * C) + k * C) by lia. apply Z_mod_plus_full. Qed.

Lemma gate_at_slot q tc p base k j y :
  baked_prio_ok q tc p -> 0 < span (live p) -> base = qbv_start q + k * span (live p) ->
  base + slot_start (live p) j <= y < base + slot_start (live p) (S j) ->
  gate_at q tc y = snd (slot_at (live p) j).
Proof.
  intros Hp Hs Hb Hy. pose proof (live_length_pos q tc p Hp).
  pose proof (bpo_gate _ _ _ Hp) as (Hn & _ & Hspan & Hg). unfold gate_at.
  rewrite <- Hspan, (mod_shift_base y _ base _ k) by done.
  rewrite <- Hg by (by apply Z.mod_pos_bound).
  apply gate_periodic; [done|lia|done|lia].
Qed.

(** An always-open or always-closed class: a live slot and an empty one. *)
Lemma gate_at_constant q tc p s0 s1 y :
  baked_prio_ok q tc p -> 0 < span (live p) -> bp_slot_count p = 2 ->
  aget (bp_slots p) 0 = Ok s0 -> aget (bp_slots p) 1 = Ok s1 -> bs_duration_ns s1 = 0 ->
  gate_at q tc y = bs_opened s0.
Proof.
  intros Hp Hs Hc H0 H1 Hd. apply aget_ok in H0 as [_ H0]. apply aget_ok in H1 as [_ H1].
  assert (live p = [baked_slot_gate s0; baked_slot_gate s1]) as El.
  { unfold live. rewrite Hc. destruct (bp_slots p) as [|a [|b r]]; [done|done|].
    injection H0 as ->. injection H1 as ->. done. }
  pose proof (bpo_gate _ _ _ Hp) as (Hn & _ & Hspan & Hg). unfold gate_at.
  rewrite <- Hspan, <- Hg by (by apply Z.mod_pos_bound).
  pose proof (Z.mod_pos_bound (y - qbv_start q) _ Hs) as Hm. rewrite El in *.
  cbn [baked_slot_gate gate span fst] in *. rewrite Hd in *.
  by replace (_ <? bs_duration_ns s0) with true by lia.
Qed.

Record window_post (c : tsn_config) (from : Z) (tc : nat) (sd : Z) (delay : bool)
    (ts : timestamps) : Prop := {
  wn_from : from <= ts_from ts <= from + bk_cycle_ns (tc_qbv_baked c);
  wn_open : open_for (tc_qbv c) tc sd (ts_from ts) (ts_to ts);
  wn_delay : delay = true ->
    open_for (tc_qbv c) tc sd (ts_delay_from ts) (ts_delay_to ts) /\
    ts_to ts + sd <= ts_delay_from ts;
  wn_fit : slots_fit c tc sd -> ts_from ts <= ts_to ts /\
    (delay = true -> ts_delay_from ts <= ts_delay_to ts);
  wn_to_range : from - sd <= ts_to ts <= from + 7 * bk_cycle_ns (tc_qbv_baked c);
  wn_delay_range : delay = true ->
    from <= ts_delay_from ts <= from + 7 * bk_cycle_ns (tc_qbv_baked c) /\
    from - sd <= ts_delay_to ts <= from + 7 * bk_cycle_ns (tc_qbv_baked c) }.

Definition timestamps_post (c : tsn_config) (from : Z) (tc : nat) (bytes : Z) (delay : bool)
    (b : bool) (ts : timestamps) : Prop :=
  if b then
    (ts = mkTs from (TSN_ALWAYS_OPEN from) (if delay then from else 0)
            (if delay then TSN_ALWAYS_OPEN from else 0) /\
     forall y, gate_at (tc_qbv c) tc y = true) \/
    window_post c from tc (bytes_to_ns bytes) delay ts
  else ts = zero_timestamps /\ forall y, gate_at (tc_qbv c) tc y = false.

(** The instant [from] and its cycle: 64-bit times do not wrap within eight
    cycles. *)
Record ready_at (c : tsn_config) (from bytes : Z) : Prop := {
  ra_start : 0 <= qbv_start (tc_qbv c) <= from;
  ra_cycle : 0 < bk_cycle_ns (tc_qbv_baked c);
  ra_max : from + 8 * bk_cycle_ns (tc_qbv_baked c) < 18446744073709551616;
  ra_bytes : 0 <= bytes < 65536;
  ra_early : bytes_to_ns bytes < from - bk_cycle_ns (tc_qbv_baked c) }.

Lemma open_for_slot q tc p base k j sd lo :
  baked_prio_ok q tc p -> 0 < span (live p) -> base = qbv_start q + k * span (live p) ->
  snd (slot_at (live p) j) = true -> base + slot_start (live p) j <= lo ->
  open_for q tc sd lo (base + slot_start (live p) (S j) - sd).
Proof.
  intros Hp Hs Hb Ho Hlo x y Hx Hy. rewrite (gate_at_slot q tc p base k j); [done..|lia].
Qed.

Lemma slots_fit_at c tc sd p j : slots_fit c tc sd -> (0 < length (live p))%nat ->
  bk_prios (tc_qbv_baked c) !! tc = Some p -> snd (slot_at (live p) j) = true ->
  sd <= fst (slot_at (live p) j).
Proof.
  intros Hf Hl Hp Ho. apply (Hf p _ Hp). pose proof (slot_at_lookup (live p) Hl j) as Hj.
  destruct (slot_at (live p) j) as [d o]. cbn in *. subst o. by eapply list_elem_of_lookup_2.
Qed.

(** The window built from slot [j] is right. *)
Lemma window_of_slot c from tc bytes delay p base k i j :
  bk_prios (tc_qbv_baked c) !! tc = Some p -> baked_prio_ok (tc_qbv c) tc p ->
  bk_cycle_ns (tc_qbv_baked c) = span (live p) -> 0 < span (live p) ->
  0 <= base -> 0 <= bytes_to_ns bytes ->
  base = qbv_start (tc_qbv c) + k * span (live p) ->
  (i < length (live p))%nat -> (i <= j <= i + 2)%nat -> base + slot_start (live p) i <= from ->
  placed p base (bytes_to_ns bytes) from j ->
  window_post c from tc (bytes_to_ns bytes) delay
    (mkTs (Z.max (base + slot_start (live p) j) from)
       (base + slot_start (live p) (S j) - bytes_to_ns bytes)
       (if delay then base + slot_start (live p) (S (S j)) else 0)
       (if delay then base + slot_start (live p) (S (S (S j))) - bytes_to_ns bytes else 0)).
Proof.
  intros Hpk Hp Hcyc Hs Hb Hsd Hk Hi Hj Hfrom [Ho Hpl].
  set (sd := bytes_to_ns bytes) in *. pose proof (live_length_pos _ _ _ Hp) as Hlen.
  pose proof (start_S _ _ _ Hp base j) as Hj1. pose proof (start_S _ _ _ Hp base (S (S j))) as Hj3.
  pose proof (polarity_S _ _ _ Hp (S j)) as Ho2. rewrite (polarity_S _ _ _ Hp j), Ho in Ho2.
  pose proof (start_le _ _ _ Hp base (S j) (S (S j)) ltac:(lia)) as Hle.
  pose proof (start_le _ _ _ Hp base (S (S j)) (S (S (S j))) ltac:(lia)) as Hle3.
  assert (base + slot_start (live p) (S (S (S j))) <= base + 7 * span (live p)) as Hb7.
  { pose proof (slot_start_bound (live p) (live_nonneg _ _ _ Hp) ltac:(lia) (S (S (S j))) 7 ltac:(lia)). lia. }
  assert (from <= base + slot_start (live p) (S j)) as Hfr.
  { pose proof (start_le _ _ _ Hp base j (S j) ltac:(lia)). lia. }
  pose proof (start_le _ _ _ Hp base 0 i ltac:(lia)) as Hb0.
  split; cbn [ts_from ts_to ts_delay_from ts_delay_to].
  - split; [lia|]. rewrite Hcyc.
    pose proof (start_le _ _ _ Hp base j (i + length (live p)) ltac:(lia)) as Hji.
    rewrite slot_start_cycle in Hji by (lia || apply (live_nonneg _ _ _ Hp)). lia.
  - apply (open_for_slot _ _ p base k); [done..|lia].
  - intros ->. split; [|lia]. apply (open_for_slot _ _ p base k); [done..|lia].
  - intros Hfit. split; [|intros ->].
    + pose proof (slots_fit_at c tc sd p j Hfit ltac:(lia) Hpk Ho). lia.
    + pose proof (slots_fit_at c tc sd p (S (S j)) Hfit ltac:(lia) Hpk Ho2). lia.
  - rewrite Hcyc. lia.
  - intros ->. rewrite Hcyc. lia.
Qed.

(** The cycle [from] falls in starts at [from - r]. *)
Lemma cycle_base from st C : 0 < C -> 0 <= st <= from ->
  from - (from - st) `mod` C = st + ((from - st) / C) * C /\ 0 <= from - (from - st) `mod` C.
Proof.
  intros HC Hs. pose proof (Z.div_mod (from - st) C ltac:(lia)).
  pose proof (Z.div_pos (from - st) C ltac:(lia) ltac:(lia)). nia.
Qed.

Lemma search_window_spec c from tc bytes delay p :
  bk_prios (tc_qbv_baked c) !! tc = Some p -> baked_prio_ok (tc_qbv c) tc p ->
  bk_cycle_ns (tc_qbv_baked c) = span (live p) -> ready_at c from bytes ->
  exists ts, search_window p from
      ((from - qbv_start (tc_qbv c)) `mod` bk_cycle_ns (tc_qbv_baked c)) (bytes_to_ns bytes) delay
    = Ok (true, ts) /\ window_post c from tc (bytes_to_ns bytes) delay ts.
Proof.
  intros Hpk Hp Hcyc [Hst HC Hmax Hby Hearly].
  assert (0 <= bytes_to_ns bytes) as Hsd
    by (rewrite bytes_to_ns_spec by done; unfold ETH_ZLEN; lia).
  set (C := bk_cycle_ns (tc_qbv_baked c)) in *.
  set (r := (from - qbv_start (tc_qbv c)) `mod` C).
  pose proof (Z.mod_pos_bound (from - qbv_start (tc_qbv c)) C HC) as Hr. fold r in Hr.
  destruct (cycle_base from (qbv_start (tc_qbv c)) C HC Hst) as [Hk Hb0]. fold r in Hk, Hb0.
  set (k := (from - qbv_start (tc_qbv c)) / C) in *.
  pose proof (bpo_wf _ _ _ Hp) as Hwp. pose proof (live_length_pos _ _ _ Hp) as Hlen.
  pose proof (live_nonneg _ _ _ Hp) as Hnn.
  pose proof (wp_count _ Hwp) as Hcount. pose proof (wp_len _ Hwp) as Hcap.
  destruct (find_slot_spec (bp_slots p) (Z.to_nat (bp_slot_count p)) 0 r)
    as (i & s & Ef & Hi & Hs & Hrem); fold (live p);
    [done|lia|unfold MAX_QBV_SLOTS in *; lia|lia|unfold fits_u64; lia|].
  fold (live p) in Ef, Hrem. assert (i < length (live p))%nat as Hi' by lia.
  rewrite <- (slot_start_first (live p) ltac:(lia) i Hi') in Ef, Hrem.
  unfold search_window. rewrite Ef. cbn [mbind outcome_bind].
  set (base := from - r) in *.
  assert (bs_duration_ns s = fst (slot_at (live p) i)) as Hds.
  { destruct (aget_slot _ _ _ Hp base i) as (s' & Es' & Hd' & _).
    rewrite Nat.mod_small in Es' by done. rewrite (aget_nat _ _ _ Hs) in Es'. by simplify_eq. }
  destruct (place_from_spec _ _ _ Hp base (bytes_to_ns bytes) Hb0 i from (r - slot_start (live p) i))
    as (j & Hj & Hpl & Epl); [done|unfold base; lia|lia|unfold base; lia|].
  rewrite Nat.mod_small in Epl by done. rewrite Z.add_0_l, Epl. cbn [mbind outcome_bind].
  pose proof (start_le _ _ _ Hp base (S j) (S j) ltac:(lia)).
  rewrite (place_window_spec _ _ _ Hp base (bytes_to_ns bytes) Hsd i) by (unfold base in *; lia).
  eexists. split; [reflexivity|].
  apply (window_of_slot c from tc bytes delay p base k i j); (done || unfold base in *; try lia).
Qed.

Lemma get_timestamps_spec c from tc bytes delay :
  tsn_ok c -> qbv_enabled (tc_qbv c) = true -> (tc < TC_COUNT)%nat -> ready_at c from bytes ->
  exists b ts, get_timestamps c from (Z.of_nat tc) bytes delay = Ok (b, ts) /\
    timestamps_post c from tc bytes delay b ts.
Proof.
  intros [Hwf [Hbl Hbc Hbp] _] Hen Htc Hra. pose proof Hra as [Hst Hcyc Hmax Hby Hearly].
  destruct (Hbp tc Htc) as (p & Hpk & Hp).
  assert (bk_cycle_ns (tc_qbv_baked c) = span (live p)) as Hspan.
  { destruct (bpo_gate _ _ _ Hp) as (_ & _ & -> & _). apply Hbc. }
  pose proof (wp_len _ (bpo_wf _ _ _ Hp)) as Hlen.
  unfold get_timestamps. rewrite Hen. cbn [negb].
  rewrite (aget_nat _ _ _ Hpk). cbn [mbind outcome_bind]. rewrite decide_False by lia.
  rewrite (u64_small (from - _)) by (unfold fits_u64; lia).
  destruct (aget_some (bp_slots p) 0) as [s0 E0]; [unfold MAX_QBV_SLOTS in *; lia|].
  destruct (aget_some (bp_slots p) 1) as [s1 E1]; [unfold MAX_QBV_SLOTS in *; lia|].
  rewrite E0, E1. cbn [mbind outcome_bind].
  case_decide as Hconst.
  - destruct Hconst as [Hc2 Hd].
    pose proof (fun y => gate_at_constant _ _ _ _ _ y Hp ltac:(lia) Hc2 E0 E1 Hd) as Hg.
    destruct (bs_opened s0); cbn [negb]; do 2 eexists; (split; [reflexivity|]).
    + left. by split.
    + by split.
  - destruct (search_window_spec c from tc bytes delay p Hpk Hp Hspan Hra) as (ts & E & Hw).
    rewrite E. do 2 eexists. split; [reflexivity|]. by right.
Qed.

(** C2. With a schedule in force [get_timestamps] always returns.  It refuses the
    frame exactly when the gate of its class never opens.  Otherwise the frame may
    start at any instant of the window it returns, and of the delayed retry window,
    and the gate stays open until its last bit is sent; the window starts no
    earlier than the frame is ready and at most one cycle later, the retry window
    comes after it, and neither is empty when the slots are long enough for the
    frame. *)
Theorem get_timestamps_correct c from tc bytes delay :
  tsn_ok c -> qbv_enabled (tc_qbv c) = true -> (tc < TC_COUNT)%nat -> ready_at c from bytes ->
  exists b ts, get_timestamps c from (Z.of_nat tc) bytes delay = Ok (b, ts) /\
    timestamps_post c from tc bytes delay b ts.
Proof. apply get_timestamps_spec. Qed.

(** ** Credit of the credit-based shaper *)

Lemma fits_s32_exact z : fits_s32 z -> exact53 z.
Proof. unfold fits_s32, exact53. lia. Qed.

(** What is added is an integer below 2^53, so the sum in double precision is the
    exact one, and its conversion to [int32_t] is defined when it fits. *)
Lemma credit_sum cr ns slope : fits_s32 cr -> fits_s32 slope -> exact53 ns ->
  exact53 (ns * slope) -> exact53 (cr + ns * slope) ->
  f64_trunc (f64_add (f64_of_Z cr) (f64_mul (f64_of_Z ns) (f64_of_Z slope)))
  = Some (cr + ns * slope).
Proof.
  intros Hc Hs Hn Hp Ha. apply is_int_trunc; [done|].
  apply is_int_add; auto using fits_s32_exact, f64_of_Z_is_int.
  apply is_int_mul; auto using fits_s32_exact, f64_of_Z_is_int.
Qed.

Lemma add_credit_exact cr ns slope : fits_s32 cr -> fits_s32 slope -> exact53 ns ->
  fits_s32 (cr + ns * slope) -> add_credit cr ns slope = Ok (cr + ns * slope).
Proof.
  intros Hc Hs Hn Ha. unfold add_credit, f64_to_s32. apply f64_convert_ok; [|unfold fits_s32 in *; lia].
  apply credit_sum; auto using fits_s32_exact. unfold fits_s32, exact53 in *. lia.
Qed.

Lemma add_credit_overflow cr ns slope : fits_s32 cr -> fits_s32 slope -> exact53 ns ->
  exact53 (ns * slope) -> exact53 (cr + ns * slope) -> ~ fits_s32 (cr + ns * slope) ->
  add_credit cr ns slope = Fault BadConversion.
Proof.
  intros Hc Hs Hn Hp Ha Hx. unfold add_credit, f64_to_s32, f64_convert.
  rewrite credit_sum by done. rewrite decide_False; [done|]. unfold fits_s32 in Hx. lia.
Qed.

(** The state of an enabled shaper. *)
Record wf_qav (q : qav_state) : Prop := {
  qv_idle : fits_s32 (idle_slope q);
  qv_send : - 2 ^ 31 <= send_slope q <= 0;
  qv_lo : - 2 ^ 31 < lo_credit q; qv_hi : fits_s32 (hi_credit q);
  qv_range : lo_credit q <= credit q <= hi_credit q;
  qv_updated : 0 <= last_update q <= available_at q }.

Lemma wf_qav_credit q : wf_qav q -> fits_s32 (credit q).
Proof. intros []. unfold fits_s32 in *. lia. Qed.

(** When the shaper may send a frame of [n] bytes at [t], and what it spends. *)
Record may_spend (q : qav_state) (t n : Z) : Prop := {
  ms_enabled : qav_enabled q = true;
  ms_at : available_at q <= t;
  ms_far : t + 2 ^ 33 < 2 ^ 64;
  ms_bytes : 0 <= n < 65536 }.

Definition earned (q : qav_state) (t : Z) : Z :=
  Z.min (hi_credit q) (credit q + (t - last_update q) * idle_slope q).
Definition spent (q : qav_state) (t n : Z) : Z :=
  Z.max (lo_credit q) (earned q t + bytes_to_ns n * send_slope q).

Lemma bytes_to_ns_range n : 0 <= n < 65536 -> 0 < bytes_to_ns n < 2 ^ 20.
Proof. intros H. rewrite bytes_to_ns_spec by done. unfold ETH_ZLEN. lia. Qed.
Lemma if_gt_min a b : (if decide (a > b) then b else a) = Z.min b a.
Proof. case_decide; lia. Qed.
Lemma if_lt_max a b : (if decide (a < b) then b else a) = Z.max b a.
Proof. case_decide; lia. Qed.

(** The division that follows, in either sign of the credit. *)
Definition next_available (q : qav_state) (c send_end : Z) : outcome Z :=
  if decide (c < 0) then d ← sdiv32 c (idle_slope q); Ok (u64 (send_end + s32 (- d)))
  else Ok send_end.

Lemma next_available_spec q c send_end :
  0 < idle_slope q -> - 2 ^ 31 < c < 2 ^ 31 -> 0 <= send_end -> send_end + 2 ^ 32 < 2 ^ 64 ->
  exists a, next_available q c send_end = Ok a /\ send_end <= a /\
    (0 <= c -> a = send_end) /\
    (c < 0 -> c + (a - send_end) * idle_slope q <= 0 < c + (a - send_end + 1) * idle_slope q).
Proof.
  intros Hi Hc He Hm. unfold next_available. case_decide as Hneg.
  2: { exists send_end. split; [done|]. lia. }
  unfold sdiv32. rewrite !decide_False by lia. cbn [mbind outcome_bind].
  assert (Z.quot c (idle_slope q) = - (- c / idle_slope q)) as ->.
  { rewrite <- (Z.opp_involutive c) at 1. rewrite Z.quot_opp_l, Z.quot_div_nonneg by lia. done. }
  rewrite Z.opp_involutive. set (d := - c / idle_slope q).
  pose proof (Z.div_mod (- c) (idle_slope q) ltac:(lia)) as Hdm. fold d in Hdm.
  pose proof (Z.mod_pos_bound (- c) (idle_slope q) Hi).
  assert (0 <= d <= - c) as Hd by (split; [apply Z.div_pos; lia|apply Z.div_le_upper_bound; nia]).
  rewrite s32_small by (unfold fits_s32; lia). rewrite u64_small by (unfold fits_u64; lia).
  exists (send_end + d). split; [done|]. split; [lia|]. split; [lia|]. intros _.
  replace (send_end + d - send_end) with d by lia.
  replace ((d + 1) * idle_slope q) with (d * idle_slope q + idle_slope q) by ring. lia.
Qed.

(** The two sums the code makes stay within [int32_t]. *)
Record credit_fits (q : qav_state) (t n : Z) : Prop := {
  cf_earn : fits_s32 (credit q + (t - last_update q) * idle_slope q);
  cf_spend : fits_s32 (earned q t + bytes_to_ns n * send_slope q) }.

Lemma spend_qav_run q t n : wf_qav q -> may_spend q t n -> 0 < idle_slope q ->
  credit_fits q t n ->
  spend_qav q t n = (avail ← next_available q (spent q t n) (t + bytes_to_ns n);
    Ok (mkQav true (idle_slope q) (send_slope q) (hi_credit q) (lo_credit q)
          (spent q t n) (t + bytes_to_ns n) avail)).
Proof.
  intros Hq [Hen Hat Hfar Hby] Hidle [Hearn Hspend].
  pose proof (wf_qav_credit q Hq) as Hcr. destruct Hq as [Hi Hs Hlo Hhi Hr Hu].
  pose proof (bytes_to_ns_range n Hby) as Hbn.
  unfold spend_qav. rewrite Hen. cbn [negb]. rewrite decide_False by lia.
  rewrite (u64_small (t - _)) by (unfold fits_u64; lia).
  assert (exact53 (t - last_update q)) as Hel by (unfold exact53, fits_s32 in *; nia).
  rewrite add_credit_exact by done. cbn [mbind outcome_bind].
  rewrite if_gt_min. fold (earned q t).
  assert (fits_s32 (earned q t)) by (unfold earned, fits_s32 in *; lia).
  rewrite add_credit_exact by (done || unfold fits_s32, exact53 in *; lia).
  cbn [mbind outcome_bind]. rewrite if_lt_max. fold (spent q t n).
  rewrite (u64_small (t + _)) by (unfold fits_u64; lia). done.
Qed.

Lemma spent_range q t n : wf_qav q -> 0 <= bytes_to_ns n ->
  lo_credit q <= spent q t n <= hi_credit q.
Proof. intros [Hi Hs Hlo Hhi Hr Hu] Hn. unfold spent, earned. nia. Qed.

(** C26. A transmission on an enabled shaper earns the idle credit up to the
    high limit, pays for the frame down to the low limit, and reserves the class
    until the credit is back to zero: the next start is the end of this frame when
    the credit is not negative, and otherwise the last nanosecond at which it is
    not yet positive.  The state stays well formed. *)
Theorem spend_qav_exact q t n : wf_qav q -> may_spend q t n -> 0 < idle_slope q ->
  credit_fits q t n ->
  exists q', spend_qav q t n = Ok q' /\ wf_qav q' /\ credit q' = spent q t n /\
    last_update q' = t + bytes_to_ns n /\ last_update q' <= available_at q' /\
    (0 <= credit q' -> available_at q' = last_update q') /\
    (credit q' < 0 ->
       credit q' + (available_at q' - last_update q') * idle_slope q <= 0 <
       credit q' + (available_at q' - last_update q' + 1) * idle_slope q).
Proof.
  intros Hq Hm Hidle Hf. rewrite spend_qav_run by done.
  pose proof (spent_range q t n Hq) as Hr. destruct Hm as [_ Hat Hfar Hby].
  pose proof (bytes_to_ns_range n Hby) as Hbn. specialize (Hr ltac:(lia)).
  destruct Hq as [Hi Hs Hlo Hhi Hr0 Hu]. unfold fits_s32 in Hhi.
  destruct (next_available_spec q (spent q t n) (t + bytes_to_ns n)) as (a & -> & Ha & H0 & H1);
    [lia..|].
  eexists. split; [reflexivity|]. split; [split; cbn; unfold fits_s32; (exact Hi || lia)|].
  cbn. split_and!; auto with lia.
Qed.

(** A class that has been idle for long enough that its earned credit exceeds
    [int32_t] is not clamped to the high limit: the code converts the sum to
    [int32_t] before it compares, and that conversion is undefined. *)
Theorem spend_qav_idle_overflow q t n : wf_qav q -> may_spend q t n -> 0 <= idle_slope q ->
  2 ^ 31 <= credit q + (t - last_update q) * idle_slope q < 2 ^ 52 ->
  spend_qav q t n = Fault BadConversion.
Proof.
  intros Hq [Hen Hat Hfar Hby] Hidle Hov.
  pose proof (wf_qav_credit q Hq) as Hcr. destruct Hq as [Hi Hs Hlo Hhi Hr Hu].
  unfold spend_qav. rewrite Hen. cbn [negb]. rewrite decide_False by lia.
  rewrite (u64_small (t - _)) by (unfold fits_u64; lia).
  rewrite add_credit_overflow; [done|done|done| | | |]; unfold exact53, fits_s32 in *; nia.
Qed.

(** With an idle slope below 1000 kbit/s, which the driver stores as 0, the
    frame that takes the credit below zero divides by zero. *)
Theorem spend_qav_zero_idle q t n : wf_qav q -> may_spend q t n -> idle_slope q = 0 ->
  exact53 (t - last_update q) -> spent q t n < 0 ->
  fits_s32 (earned q t + bytes_to_ns n * send_slope q) ->
  spend_qav q t n = Fault DivByZero.
Proof.
  intros Hq [Hen Hat Hfar Hby] Hidle Hel Hneg Hspend.
  pose proof (wf_qav_credit q Hq) as Hcr. destruct Hq as [Hi Hs Hlo Hhi Hr Hu].
  pose proof (bytes_to_ns_range n Hby) as Hbn.
  unfold spend_qav. rewrite Hen. cbn [negb]. rewrite decide_False by lia.
  rewrite (u64_small (t - _)) by (unfold fits_u64; lia).
  rewrite add_credit_exact by (done || rewrite Hidle, Z.mul_0_r, Z.add_0_r; done).
  cbn [mbind outcome_bind]. rewrite if_gt_min. fold (earned q t).
  assert (fits_s32 (earned q t)) by (unfold earned, fits_s32 in *; lia).
  rewrite add_credit_exact by (done || unfold fits_s32, exact53 in *; lia).
  cbn [mbind outcome_bind]. rewrite if_lt_max. fold (spent q t n).
  rewrite decide_True by lia. unfold sdiv32. by rewrite decide_True.
Qed.

(** ** The estimate of the hardware queue *)

Section tracker_props.
Context {W : Type} `{io : IoMem W} {io_ok : IoMemOk W}.
Implicit Types d : xdma_dev W.

(** The world after some register reads. *)
Definition after_reads : W -> W -> Prop := rtc (fun w w' => exists a, w' = snd (ioread32 a w)).

(** Nothing but the counters differs, and the world has only been read. *)
Definition same_but_counters d d' : Prop :=
  after_reads (world d) (world d') /\
  bar0 d' = bar0 d /\ bar1 d' = bar1 d /\ tsn d' = tsn d /\ pv_work (priv d') = pv_work (priv d) /\
  pv_dma (priv d') = pv_dma (priv d) /\ tstamp_config (priv d') = tstamp_config (priv d) /\
  ptp d' = ptp d /\ skbs d' = skbs d.

Lemma same_but_counters_refl d : same_but_counters d d.
Proof. by split; [apply rtc_refl|]. Qed.
Lemma same_but_counters_trans d1 d2 d3 :
  same_but_counters d1 d2 -> same_but_counters d2 d3 -> same_but_counters d1 d3.
Proof.
  unfold same_but_counters. intros [R1 ?] [R2 ?]. split; [by etrans|].
  intuition congruence.
Qed.

Definition counter_read (c : cmd (xdma_dev W) Z) : Prop :=
  forall d, exists v d', c d = Ok (v, d') /\ fits_u64 v /\ same_but_counters d d'.

Lemma counter_bind c k : counter_read c -> (forall v, fits_u64 v -> counter_read (k v)) ->
  counter_read (c ≫= k).
Proof.
  intros Hc Hk d. destruct (Hc d) as (v & d1 & E & Hv & H1).
  destruct (Hk v Hv d1) as (v' & d2 & E' & Hv' & H2). exists v', d2.
  rewrite (cmd_bind_run _ _ _ _ _ E). eauto using same_but_counters_trans.
Qed.

Lemma counter_reg reg (f : priv_counters -> Z -> priv_counters * Z) :
  (forall c v, fits_u64 (snd (f c v))) ->
  counter_read (regval ← read_bar0 reg; c ← gets counters;
    _ ← modify (set_counters (fst (f c regval))); mret (snd (f c regval))).
Proof.
  intros Hf d. eexists _, _. split; [erewrite cmd_bind_run by apply read_bar0_run; reflexivity|].
  split; [apply Hf|]. split; [|done]. cbn. apply rtc_once. by eexists.
Qed.

Lemma tx_packets_counter : counter_read alinx_get_tx_packets.
Proof.
  apply (counter_reg _ (fun c v => let n := u64 (total_tx_count c + v) in
    (mkCounters n (total_tx_drop_count c) (last_normal_timeout c) (last_to_overflow_popped c)
       (last_to_overflow_timeout c), n))). intros. apply u64_range.
Qed.

Lemma tx_drops_counter : counter_read alinx_get_total_tx_drop_packets.
Proof.
  unfold alinx_get_total_tx_drop_packets.
  apply counter_bind; [|intros ? _; apply counter_bind;
    [|intros ? _; apply counter_bind; [|intros ? _; apply counter_bind; [|intros ? _]]]].
  - apply (counter_reg _ (fun c v => let n := u64 (total_tx_drop_count c + v) in
      (mkCounters (total_tx_count c) n (last_normal_timeout c) (last_to_overflow_popped c)
         (last_to_overflow_timeout c), n))). intros. apply u64_range.
  - apply (counter_reg _ (fun c v => let n := add_u32_counter (last_normal_timeout c) v in
      (mkCounters (total_tx_count c) (total_tx_drop_count c) n (last_to_overflow_popped c)
         (last_to_overflow_timeout c), n))). intros. apply u64_range.
  - apply (counter_reg _ (fun c v => let n := add_u32_counter (last_to_overflow_popped c) v in
      (mkCounters (total_tx_count c) (total_tx_drop_count c) (last_normal_timeout c) n
         (last_to_overflow_timeout c), n))). intros. apply u64_range.
  - apply (counter_reg _ (fun c v => let n := add_u32_counter (last_to_overflow_timeout c) v in
      (mkCounters (total_tx_count c) (total_tx_drop_count c) (last_normal_timeout c)
         (last_to_overflow_popped c) n, n))). intros. apply u64_range.
  - intros d. do 2 eexists. split; [reflexivity|]. split; [apply u64_range|apply same_but_counters_refl].
Qed.

Lemma update_buffer_track_run d : exists d' b,
  update_buffer_track d = Ok (tt, d') /\
  same_but_counters (set_tsn (set_tc_buffer_tracker b (tsn d)) d) d' /\
  (b = tc_buffer_tracker (tsn d) \/ exists n, fits_u64 n /\ b = pop_tracker (tc_buffer_tracker (tsn d)) n).
Proof.
  unfold update_buffer_track. cstep. destruct (tracker_is_low _).
  { exists d, (tc_buffer_tracker (tsn d)). split; [done|]. split; [|by left].
    destruct d as [? ? ? [] ? ? ? ?]. apply same_but_counters_refl. }
  destruct (tx_packets_counter d) as (tx & d1 & E1 & _ & H1).
  destruct (tx_drops_counter d1) as (dr & d2 & E2 & _ & H2).
  pose proof (same_but_counters_trans _ _ _ H1 H2) as (? & ? & ? & Ht & ? & ? & ? & ? & ?).
  erewrite cmd_bind_run by exact E1. erewrite cmd_bind_run by exact E2.
  eexists _, _. split; [reflexivity|]. split; [|right; exists (u64 (tx + dr)); split; [apply u64_range|reflexivity]].
  unfold same_but_counters. cbn. by rewrite Ht.
Qed.
End tracker_props.

(** What happens to the queue: the driver queues a frame if the tracker allows it,
    the hardware disposes of some frames, the driver looks at the counters. *)
Inductive queue_event := Queue | Dispose (n : nat) | Look.

(** [hw_queued] and [hw_done] count the frames handed to the hardware and the
    frames it has sent or dropped. *)
Record hw_queue := mkHwq { hw_queued : Z; hw_done : Z; hw_tracker : buffer_tracker }.

Definition queue_step (e : queue_event) (s : hw_queue) : hw_queue :=
  match e with
  | Queue => match append_buffer_track (hw_tracker s) with
             | (true, b) => mkHwq (hw_queued s + 1) (hw_done s) b
             | (false, b) => mkHwq (hw_queued s) (hw_done s) b
             end
  | Dispose n => mkHwq (hw_queued s) (Z.min (hw_queued s) (hw_done s + Z.of_nat n)) (hw_tracker s)
  | Look => mkHwq (hw_queued s) (hw_done s)
      (if tracker_is_low (hw_tracker s) then hw_tracker s
       else pop_tracker (hw_tracker s) (u64 (hw_done s)))
  end.

Record queue_inv (s : hw_queue) : Prop := {
  qi_done : 0 <= last_tx_count (hw_tracker s) <= hw_done s;
  qi_queued : hw_done s <= hw_queued s;
  qi_pending : pending_packets (hw_tracker s) = hw_queued s - last_tx_count (hw_tracker s);
  qi_bound : pending_packets (hw_tracker s) <= HW_QUEUE_SIZE }.

Lemma queue_step_inv e s : queue_inv s -> hw_queued s < 2 ^ 63 -> queue_inv (queue_step e s).
Proof.
  destruct s as [A T [p l]]. intros [Hd Hq Hp Hb] Hmax. cbn in *. unfold HW_QUEUE_SIZE in *.
  destruct e as [|n|]; cbn [queue_step hw_queued hw_done hw_tracker].
  - unfold append_buffer_track. cbn. unfold HW_QUEUE_SIZE. case_decide; [by split|].
    rewrite u64_small by (unfold fits_u64; lia). split; cbn; unfold HW_QUEUE_SIZE; lia.
  - split; cbn; unfold HW_QUEUE_SIZE; lia.
  - destruct (tracker_is_low _); [by split|]. unfold pop_tracker. cbn.
    rewrite (u64_small T), (u64_small (T - l)) by (unfold fits_u64; lia).
    rewrite Z.min_l by lia. rewrite u64_small by (unfold fits_u64; lia).
    split; cbn; unfold HW_QUEUE_SIZE; lia.
Qed.

Definition queue_run (es : list queue_event) : hw_queue :=
  foldl (fun s e => queue_step e s) (mkHwq 0 0 (mkTracker 0 0)) es.

(** C28. Whatever the order of queueing, sending and looking at the counters, the
    tracker counts exactly the frames queued since the counters it last saw, so it
    never underestimates the queue: the hardware never holds more than
    [HW_QUEUE_SIZE] frames. *)
Theorem tracker_bounds_queue es : Z.of_nat (length es) < 2 ^ 63 ->
  let s := queue_run es in
  queue_inv s /\ 0 <= hw_queued s - hw_done s <= pending_packets (hw_tracker s) /\
  hw_queued s - hw_done s <= HW_QUEUE_SIZE.
Proof.
  intros Hlen. cbn zeta.
  assert (queue_inv (queue_run es) /\ hw_queued (queue_run es) <= Z.of_nat (length es))
    as [[Hd Hq Hp Hb] _]; [|by split; [split|lia]].
  induction es as [|e es IH] using rev_ind.
  - split; [split|]; cbn; unfold HW_QUEUE_SIZE; lia.
  - rewrite length_app in *. cbn [length] in *. destruct IH as [Hi Hle]; [lia|].
    unfold queue_run in *. rewrite foldl_snoc. split; [apply queue_step_inv; [done|lia]|].
    destruct e; cbn; [|lia..]. unfold append_buffer_track. case_decide; cbn; lia.
Qed.

(** ** Witnesses *)

Lemma get_timestamps_correct_witness :
  exists b ts, get_timestamps sample_config 5000000 (Z.of_nat 1) 1500 true = Ok (b, ts) /\
    timestamps_post sample_config 5000000 1 1500 true b ts.
Proof.
  apply (get_timestamps_correct sample_config 5000000 1 1500 true).
  - apply sample_config_ok.
  - reflexivity.
  - unfold TC_COUNT. lia.
  - split; try reflexivity; vm_compute; split; congruence.
Defined.

(** 100 Mbit/s reserved on a 1 Gbit/s link, as [tc-cbs] gives it. *)
Definition sample_qav : qav_state := mkQav true 100 (-900) 1000000 (-20000000) 0 0 0.

Lemma sample_qav_wf : wf_qav sample_qav.
Proof. split; cbn; unfold fits_s32; lia. Qed.

Lemma spend_qav_exact_witness :
  exists q', spend_qav sample_qav 1000 1500 = Ok q' /\ wf_qav q' /\
    credit q' = spent sample_qav 1000 1500 /\
    last_update q' = 1000 + bytes_to_ns 1500 /\ last_update q' <= available_at q' /\
    (0 <= credit q' -> available_at q' = last_update q') /\
    (credit q' < 0 ->
       credit q' + (available_at q' - last_update q') * idle_slope sample_qav <= 0 <
       credit q' + (available_at q' - last_update q' + 1) * idle_slope sample_qav).
Proof.
  apply (spend_qav_exact sample_qav 1000 1500); [apply sample_qav_wf| |cbn; lia|].
  - split; [reflexivity|cbn; lia..].
  - split; vm_compute; split; congruence.
Defined.

(** 22 ms without a frame. *)
Lemma spend_qav_idle_overflow_witness :
  spend_qav sample_qav 22000000 1500 = Fault BadConversion.
Proof.
  apply (spend_qav_idle_overflow sample_qav 22000000 1500); [apply sample_qav_wf| |cbn; lia|cbn; lia].
  split; [reflexivity|cbn; lia..].
Defined.

Lemma spend_qav_zero_idle_witness :
  spend_qav (mkQav true 0 (-999) 1000000 (-20000000) 0 0 0) 1000 1500 = Fault DivByZero.
Proof.
  apply (spend_qav_zero_idle (mkQav true 0 (-999) 1000000 (-20000000) 0 0 0) 1000 1500).
  - split; cbn; unfold fits_s32; lia.
  - split; [reflexivity|cbn; lia..].
  - reflexivity.
  - unfold exact53. cbn. lia.
  - reflexivity.
  - vm_compute. split; congruence.
Defined.

Lemma tracker_bounds_queue_witness :
  let s := queue_run [Queue; Queue; Dispose 1; Look; Queue] in
  queue_inv s /\ 0 <= hw_queued s - hw_done s <= pending_packets (hw_tracker s) /\
  hw_queued s - hw_done s <= HW_QUEUE_SIZE.
Proof. apply (tracker_bounds_queue [Queue; Queue; Dispose 1; Look; Queue]). cbn. lia. Defined.
