(* ===== verification/Meta.v ===== *)
(** * tsn.c, first part: the metadata of a frame

    Frames as bytes: the metadata header the driver puts in front of a frame
    (big-endian, with bit fields), VLAN and gPTP classification, and
    [tsn_fill_metadata], which gives the frame its place in the schedule. *)

From S2P Require Import Prelude Float64 Device Gate Sim AlinxArch Ptp Qos Sched.
From stdpp Require Import gmap.

Open Scope Z_scope.

(** ** Big-endian fields *)
Definition byte_of (w : Z) (k : Z) : Z := bits w (8 * k) 8.
Definition put16 (x : Z) : list Z := [byte_of x 1; byte_of x 0].
Definition put32 (x : Z) : list Z := [byte_of x 3; byte_of x 2; byte_of x 1; byte_of x 0].

Definition get16 (b : list Z) (i : Z) : outcome Z :=
  h ← aget b i; l ← aget b (i + 1); Ok (Z.lor (Z.shiftl h 8) l).
Definition get32 (b : list Z) (i : Z) : outcome Z :=
  h ← get16 b i; l ← get16 b (i + 2); Ok (Z.lor (Z.shiftl h 16) l).

(** ** struct tx_metadata in memory *)
Definition u29 (x : Z) : Z := x mod 2 ^ 29.

Definition put_tick (t : tick_count) : list Z :=
  put32 (Z.lor (Z.shiftl (u29 (tick t)) 3) (bits (priority t) 0 3)).
Definition get_tick (b : list Z) (i : Z) : outcome tick_count :=
  w ← get32 b i; Ok (mkTick (bits w 3 29) (bits w 0 3)).

(** The fields end at byte 21; the reserved bytes are never written. *)
Definition METADATA_FIELDS : nat := 21.

Definition put_metadata (m : tx_metadata) (b : list Z) : list Z :=
  put_tick (md_from m) ++ put_tick (md_to m) ++ put_tick (md_delay_from m) ++
  put_tick (md_delay_to m) ++ put16 (md_frame_length m) ++ put16 (md_timestamp_id m) ++
  [byte_of (md_fail_policy m) 0] ++ drop METADATA_FIELDS b.

Definition get_metadata (b : list Z) : outcome tx_metadata :=
  f ← get_tick b 0; t ← get_tick b 4; df ← get_tick b 8; dt ← get_tick b 12;
  n ← get16 b 16; i ← get16 b 18; p ← aget b 20;
  Ok (mkMeta f t df dt n i p).

(** ** Classification of the frame behind the header *)
Definition ETH_HLEN : Z := 14.
Definition ETH_TLEN : Z := 2.
Definition ETH_P_8021Q : Z := 0x8100.
Definition ETH_P_1588 : Z := 0x88F7.

(** [eth->h_proto] *)
Definition eth_type_of (payload : list Z) : outcome Z := get16 payload 12.

(** The header is read at the EtherType, so that [pid] is the tag's protocol id. *)
Definition tsn_get_vlan_prio (payload : list Z) : outcome Z :=
  eth_type ← eth_type_of payload;
  if decide (eth_type = ETH_P_8021Q) then
    b ← aget payload (ETH_HLEN - ETH_TLEN + 2); Ok (bits b 5 3)
  else Ok 0.

(** The header is read behind the Ethernet header. *)
Definition is_gptp_packet (payload : list Z) : outcome bool :=
  eth_type ← eth_type_of payload;
  eth_type ← (if decide (eth_type = ETH_P_8021Q) then get16 payload ETH_HLEN else Ok eth_type);
  Ok (bool_decide (eth_type = ETH_P_1588)).

Definition frame_prio (is_gptp : bool) (vlan_prio : Z) : tsn_prio :=
  if is_gptp then TSN_PRIO_GPTP
  else if decide (0 < vlan_prio) then TSN_PRIO_VLAN else TSN_PRIO_BE.

(** ** The place of a frame *)
Definition DEFAULT_TO_MARGIN : Z := 50000.

(** When the frame may be sent: after the transfer to the card, when the shaper of
    its class allows it and, best effort, behind everything queued. *)
Definition ready_time (c : tsn_config) (qav : qav_state) (now : Z) (p : tsn_prio) : Z :=
  let from := u64 (now + H2C_LATENCY_NS) in
  let from := if qav_enabled qav && bool_decide (from < available_at qav)
              then available_at qav else from in
  if bool_decide (p = TSN_PRIO_BE) then Z.max from (total_available_at c) else from.

Definition queue_limit (p : tsn_prio) : Z :=
  if bool_decide (p = TSN_PRIO_BE) then BE_QUEUE_SIZE else TSN_QUEUE_SIZE.

(** What the middle of [tsn_fill_metadata] settles: the ready time, the window
    and the fail policy; [None] when the queue is full.  The answer of
    [get_timestamps] is not looked at.  [junk] is what the local variable
    [timestamps] holds before it is written: the first branch leaves its delay
    members alone. *)
Definition plan_frame (junk : timestamps) (c : tsn_config) (now tc_id : Z) (p : tsn_prio)
    (frame_length : Z) : outcome (option (Z * timestamps * tsn_fail_policy)) :=
  let consider_delay := negb (bool_decide (p = TSN_PRIO_BE)) in
  qav ← aget (tc_qav c) tc_id;
  if negb (qbv_enabled (tc_qbv c)) && negb (qav_enabled qav) then
    let t_from := total_available_at c in
    Ok (Some (u64 (now + H2C_LATENCY_NS),
              mkTs t_from (u64 (t_from + DEFAULT_TO_MARGIN)) (ts_delay_from junk) (ts_delay_to junk),
              TSN_FAIL_POLICY_DROP))
  else
    if decide (queue_limit p <= pending_packets (tc_buffer_tracker c)) then Ok None else
    let from := ready_time c qav now p in
    '(_, ts) ← get_timestamps c from tc_id frame_length consider_delay;
    Ok (Some (from, ts, if consider_delay then TSN_FAIL_POLICY_RETRY else TSN_FAIL_POLICY_DROP)).

(** The accounting at the end. *)
Definition account_frame (c : tsn_config) (from tc_id : Z) (p : tsn_prio) (frame_length : Z) :
    outcome tsn_config :=
  let duration_ns := bytes_to_ns frame_length in
  c ← spend_qav_credit c from tc_id frame_length;
  q ← aget (queue_available_at c) (tsn_prio_val p);
  qs ← aset (queue_available_at c) (tsn_prio_val p) (u64 (q + duration_ns));
  Ok (set_total_available_at (u64 (total_available_at c + duration_ns))
        (set_queue_available_at qs c)).

Section fill.
Context {W : Type} `{io : IoMem W} `{nd : NetDevTc W}.
Notation dev := (xdma_dev W).

Definition get_skb (id : nat) : cmd dev sk_buff := fun d =>
  match skbs d !! id with Some s => Ok (s, d) | None => Fault UseAfterFree end.
Definition set_skb (id : nat) (s : sk_buff) : cmd dev unit :=
  modify (fun d => set_skbs (<[id := s]> (skbs d)) d).
Definition set_skb_data (b : list Z) (s : sk_buff) : sk_buff :=
  mkSkb b (skb_len s) (skb_queue_mapping s) (skb_hw_tstamp s) (skb_in_progress s) (skb_refs s).

Definition tsn_timestamp_to_sysclock (timestamp : Z) : cmd dev Z :=
  c ← alinx_timestamp_to_sysclock (u64 (timestamp - TX_ADJUST_NS));
  mret (u64 (c - PHY_DELAY_CLOCKS)).

(** The ticks of a window, and the timestamp id. *)
Definition stamp_metadata (md : tx_metadata) (ts : timestamps) (p : tsn_prio)
    (pol : tsn_fail_policy) (is_gptp : bool) : cmd dev tx_metadata :=
  let prio := tsn_prio_val p in
  from ← tsn_timestamp_to_sysclock (ts_from ts);
  let from_tick := u29 from in
  to_tick ← (if decide (ts_to ts = TSN_ALWAYS_OPEN (ts_from ts)) then mret (u29 (from_tick - 1))
             else to ← tsn_timestamp_to_sysclock (ts_to ts); mret (u29 to));
  delay_from ← tsn_timestamp_to_sysclock (ts_delay_from ts);
  delay_to ← tsn_timestamp_to_sysclock (ts_delay_to ts);
  d ← get;
  let id := if decide (tx_type (tstamp_config (priv d)) = HWTSTAMP_TX_ON)
            then if is_gptp then TSN_TIMESTAMP_ID_GPTP else TSN_TIMESTAMP_ID_NORMAL
            else TSN_TIMESTAMP_ID_NONE in
  mret (mkMeta (mkTick from_tick prio) (mkTick to_tick prio)
          (mkTick (u29 delay_from) prio) (mkTick (u29 delay_to) prio)
          (md_frame_length md) (tsn_timestamp_id_val id) (tsn_fail_policy_val pol)).

Definition modify_tsn (f : tsn_config -> outcome tsn_config) : cmd dev unit :=
  d ← get; c ← lift (f (tsn d)); modify (set_tsn c).

Definition tsn_fill_metadata (junk : timestamps) (now : Z) (id : nat) : cmd dev bool :=
  s ← get_skb id;
  let payload := drop (Z.to_nat TX_METADATA_SIZE) (skb_data s) in
  _ ← update_buffer_track;
  vlan_prio ← lift (tsn_get_vlan_prio payload);
  tc_id ← gets (fun d => tsn_get_mqprio_tc (world d) vlan_prio);
  is_gptp ← lift (is_gptp_packet payload);
  let p := frame_prio is_gptp vlan_prio in
  md ← lift (get_metadata (skb_data s));
  d ← get;
  plan ← lift (plan_frame junk (tsn d) now tc_id p (md_frame_length md));
  match plan with
  | None => mret false
  | Some (from, ts, pol) =>
      md' ← stamp_metadata md ts p pol is_gptp;
      _ ← set_skb id (set_skb_data (put_metadata md' (skb_data s)) s);
      _ ← modify_tsn (fun c => account_frame c from tc_id p (md_frame_length md));
      d ← get;
      let '(ok, b) := append_buffer_track (tc_buffer_tracker (tsn d)) in
      _ ← set_tracker b;
      mret ok
  end.
End fill.

(** ** The header in memory *)

Lemma join_bits x lo m n : 0 <= lo -> 0 <= m -> 0 <= n ->
  Z.lor (Z.shiftl (bits x (lo + n) m) n) (bits x lo n) = bits x lo (m + n).
Proof.
  intros Hlo Hm Hn. rewrite lor_shiftl_add; rewrite ?bits_spec by lia.
  - rewrite Z.pow_add_r, <- Z.div_div by (lia || apply Z.pow_pos_nonneg; lia).
    rewrite Z.pow_add_r by lia. rewrite (Z.mul_comm (2 ^ m)).
    rewrite Z.rem_mul_r by (lia || apply Z.pow_pos_nonneg; lia). lia.
  - done.
  - apply Z.mod_pos_bound, Z.pow_pos_nonneg; lia.
Qed.

Lemma bits_all x n : 0 <= n -> 0 <= x < 2 ^ n -> bits x 0 n = x.
Proof. intros Hn Hx. rewrite bits_spec by lia. rewrite Z.div_1_r. by apply Z.mod_small. Qed.

Lemma join16 x : Z.lor (Z.shiftl (byte_of x 1) 8) (byte_of x 0) = bits x 0 16.
Proof. exact (join_bits x 0 8 8 ltac:(lia) ltac:(lia) ltac:(lia)). Qed.

Lemma join32 x :
  Z.lor (Z.shiftl (Z.lor (Z.shiftl (byte_of x 3) 8) (byte_of x 2)) 16)
    (Z.lor (Z.shiftl (byte_of x 1) 8) (byte_of x 0)) = bits x 0 32.
Proof.
  pose proof (join_bits x 16 8 8 ltac:(lia) ltac:(lia) ltac:(lia)) as H.
  change (Z.lor (Z.shiftl (byte_of x 3) 8) (byte_of x 2) = bits x 16 16) in H.
  rewrite H, join16. apply (join_bits x 0 16 16); lia.
Qed.

Record wf_tick (t : tick_count) : Prop := {
  tk_tick : 0 <= tick t < 2 ^ 29; tk_priority : 0 <= priority t < 8 }.

Record wf_metadata (m : tx_metadata) : Prop := {
  mw_from : wf_tick (md_from m); mw_to : wf_tick (md_to m);
  mw_delay_from : wf_tick (md_delay_from m); mw_delay_to : wf_tick (md_delay_to m);
  mw_length : 0 <= md_frame_length m < 65536; mw_id : 0 <= md_timestamp_id m < 65536;
  mw_policy : 0 <= md_fail_policy m < 256 }.

Lemma tick_fields t : wf_tick t ->
  mkTick (bits (bits (Z.lor (Z.shiftl (u29 (tick t)) 3) (bits (priority t) 0 3)) 0 32) 3 29)
    (bits (bits (Z.lor (Z.shiftl (u29 (tick t)) 3) (bits (priority t) 0 3)) 0 32) 0 3) = t.
Proof.
  destruct t as [k p]. intros [Hk Hp]. cbn in *. unfold u29. rewrite Z.mod_small by done.
  rewrite (bits_all p 3) by lia. rewrite lor_shiftl_add by lia.
  rewrite (bits_all _ 32) by lia. rewrite !bits_spec by lia.
  change (2 ^ 29) with 536870912 in *. change (2 ^ 3) with 8. change (2 ^ 0) with 1.
  f_equal; Z.div_mod_to_equations; lia.
Qed.

(** A header written in front of a frame reads back as it was, and neither
    the reserved bytes nor the frame behind it change. *)
Theorem metadata_roundtrip m b : wf_metadata m ->
  get_metadata (put_metadata m b) = Ok m /\
  drop METADATA_FIELDS (put_metadata m b) = drop METADATA_FIELDS b.
Proof.
  intros [Hf Ht Hdf Hdt Hn Hi Hp]. split; [|reflexivity].
  transitivity (Ok (mkMeta (md_from m) (md_to m) (md_delay_from m) (md_delay_to m)
    (md_frame_length m) (md_timestamp_id m) (md_fail_policy m))); [|by destruct m].
  set (w t := Z.lor (Z.shiftl (u29 (tick t)) 3) (bits (priority t) 0 3)).
  set (r32 x := Z.lor (Z.shiftl (Z.lor (Z.shiftl (byte_of x 3) 8) (byte_of x 2)) 16)
                  (Z.lor (Z.shiftl (byte_of x 1) 8) (byte_of x 0))).
  set (r16 x := Z.lor (Z.shiftl (byte_of x 1) 8) (byte_of x 0)).
  set (rt t := mkTick (bits (r32 (w t)) 3 29) (bits (r32 (w t)) 0 3)).
  transitivity (Ok (mkMeta (rt (md_from m)) (rt (md_to m)) (rt (md_delay_from m))
    (rt (md_delay_to m)) (r16 (md_frame_length m)) (r16 (md_timestamp_id m))
    (byte_of (md_fail_policy m) 0))); [reflexivity|].
  subst rt r16 r32. cbv beta. rewrite !join32, !join16.
  change (byte_of (md_fail_policy m) 0) with (bits (md_fail_policy m) 0 8).
  rewrite !(bits_all _ 16), (bits_all _ 8) by lia. subst w. cbv beta.
  by rewrite !tick_fields.
Qed.

(** ** Classification *)

(** A VLAN-tagged gPTP frame is not recognised: the EtherType behind the tag
    is never read, and the two bytes that are read are the tag's own, so every
    tagged frame whose priority is not 4 counts as not gPTP. *)
Theorem tagged_gptp_missed payload pcp :
  eth_type_of payload = Ok ETH_P_8021Q -> Forall (fun b => 0 <= b < 256) payload ->
  (16 <= length payload)%nat -> tsn_get_vlan_prio payload = Ok pcp -> pcp <> 4 ->
  is_gptp_packet payload = Ok false.
Proof.
  intros Ht Hb Hlen Hp Hne. unfold tsn_get_vlan_prio, is_gptp_packet in *.
  rewrite Ht in *. cbn [mbind outcome_bind] in *. rewrite decide_True in Hp by done.
  rewrite decide_True by done. unfold ETH_HLEN, ETH_TLEN in *.
  destruct (aget_some payload 14) as [h Eh]; [lia|].
  destruct (aget_some payload 15) as [l El]; [lia|].
  change (14 - 2 + 2) with 14 in Hp. unfold get16. change (14 + 1) with 15.
  rewrite Eh in *. rewrite El. cbn [mbind outcome_bind] in *. injection Hp as Hp.
  apply aget_ok in Eh as [_ Eh]. apply aget_ok in El as [_ El].
  pose proof (proj1 (Forall_lookup _ _) Hb _ _ Eh) as Hh.
  pose proof (proj1 (Forall_lookup _ _) Hb _ _ El) as Hl. cbn in Hh, Hl.
  rewrite bool_decide_eq_false_2; [done|]. intros E. apply Hne.
  rewrite lor_shiftl_add in E by lia. unfold ETH_P_1588 in E. rewrite <- Hp.
  rewrite bits_spec by lia. change (2 ^ 5) with 32. change (2 ^ 3) with 8.
  change (2 ^ 8) with 256 in E. Z.div_mod_to_equations. lia.
Qed.

(** ** What can go wrong with the class *)

(** A frame whose traffic class is not one of the eight classes of the
    configuration reads past the arrays: [tsn_set_mqprio] accepts up to 15
    classes, and nothing checks the class here. *)
Theorem plan_frame_class_overrun junk c now tc_id p n :
  wf_tsn c -> Z.of_nat TC_COUNT <= tc_id -> plan_frame junk c now tc_id p n = Fault OutOfBounds.
Proof.
  intros [_ Ha _] Htc. unfold plan_frame, aget. rewrite decide_True by lia.
  rewrite lookup_ge_None_2; [done|]. lia.
Qed.

(** A frame [get_timestamps] refuses, because the gate of its class never
    opens, is not dropped: [tsn_fill_metadata] goes on with the window from 0 to 0. *)
Theorem refused_frame_not_dropped junk c now tc p n q ts :
  tsn_ok c -> qbv_enabled (tc_qbv c) = true -> (tc < TC_COUNT)%nat ->
  tc_qav c !! tc = Some q -> pending_packets (tc_buffer_tracker c) < queue_limit p ->
  ready_at c (ready_time c q now p) n ->
  get_timestamps c (ready_time c q now p) (Z.of_nat tc) n (negb (bool_decide (p = TSN_PRIO_BE)))
    = Ok (false, ts) ->
  (forall y, gate_at (tc_qbv c) tc y = false) /\
  exists pol, plan_frame junk c now (Z.of_nat tc) p n
    = Ok (Some (ready_time c q now p, zero_timestamps, pol)).
Proof.
  intros Hc Hen Htc Hq Hpend Hr Hg.
  destruct (get_timestamps_spec c (ready_time c q now p) tc n (negb (bool_decide (p = TSN_PRIO_BE))) Hc Hen Htc Hr)
    as (b & ts' & Hg' & Hpost).
  rewrite Hg in Hg'. injection Hg' as <- <-. destruct Hpost as [-> Hcl]. split; [exact Hcl|].
  unfold plan_frame. rewrite (aget_nat _ _ _ Hq), Hen. cbn [mbind outcome_bind negb andb].
  rewrite decide_False by lia. rewrite Hg. eauto.
Qed.

(** ** The whole of tsn_fill_metadata *)

(** Reading a register does not change the traffic-class map. *)
Class IoNetOk (W : Type) `{IoMem W} `{NetDevTc W} : Prop :=
  ioread32_prio_tc : forall addr w prio,
    tsn_get_mqprio_tc (snd (ioread32 addr w)) prio = tsn_get_mqprio_tc w prio.

#[export] Instance sim_io_net_ok : IoNetOk sim.
Proof. done. Qed.

(** The tick at which the hardware must start for the first bit to leave at [t]. *)
Definition tick_of (off t : Z) : Z := u29 ((t - TX_ADJUST_NS - off) / 8 - PHY_DELAY_CLOCKS).

(** [t] converts exactly. *)
Definition tick_range (off t : Z) : Prop :=
  8 * PHY_DELAY_CLOCKS <= t - TX_ADJUST_NS - off < 2 ^ 53 /\ TX_ADJUST_NS <= t < 2 ^ 64.

Section fill_props.
Context {W : Type} `{io : IoMem W} {io_ok : IoMemOk W} `{nd : NetDevTc W} {io_nd : IoNetOk W}.
Implicit Types d : xdma_dev W.

Lemma tts_run t d : ticks_scale (ptp d) = TICKS_SCALE -> tick_range (offset (ptp d)) t ->
  exists v, tsn_timestamp_to_sysclock t d = Ok (v, d) /\ u29 v = tick_of (offset (ptp d)) t.
Proof.
  unfold tick_range, tick_of, TX_ADJUST_NS, PHY_DELAY_CLOCKS. intros Hs [Hr Ht].
  change (2 ^ 53) with 9007199254740992 in Hr. change (2 ^ 64) with 18446744073709551616 in Ht.
  unfold tsn_timestamp_to_sysclock, TX_ADJUST_NS, PHY_DELAY_CLOCKS.
  rewrite (u64_small (t - _)) by (unfold fits_u64; lia).
  assert (u64 (t - (100 + 200) - offset (ptp d)) = t - (100 + 200) - offset (ptp d)) as E
    by (apply u64_small; unfold fits_u64; lia).
  exists (u64 ((t - (100 + 200) - offset (ptp d)) / 8 - 13)).
  split; [|rewrite u64_small; [reflexivity|]].
  - cstep_by (apply timestamp_to_sysclock_nominal; [done|rewrite E; change (2 ^ 53) with 9007199254740992; lia]).
    rewrite E. reflexivity.
  - unfold fits_u64. Z.div_mod_to_equations. lia.
Qed.

(** The header of a frame given the window [ts]. *)
Definition stamped (md : tx_metadata) (ts : timestamps) (p : tsn_prio) (pol : tsn_fail_policy)
    (is_gptp : bool) (d : xdma_dev W) : tx_metadata :=
  let off := offset (ptp d) in
  let prio := tsn_prio_val p in
  let at_ t := mkTick (tick_of off t) prio in
  mkMeta (at_ (ts_from ts))
    (if decide (ts_to ts = TSN_ALWAYS_OPEN (ts_from ts))
     then mkTick (u29 (tick_of off (ts_from ts) - 1)) prio else at_ (ts_to ts))
    (at_ (ts_delay_from ts)) (at_ (ts_delay_to ts))
    (md_frame_length md)
    (tsn_timestamp_id_val
       (if decide (tx_type (tstamp_config (priv d)) = HWTSTAMP_TX_ON)
        then if is_gptp then TSN_TIMESTAMP_ID_GPTP else TSN_TIMESTAMP_ID_NORMAL
        else TSN_TIMESTAMP_ID_NONE))
    (tsn_fail_policy_val pol).

(** Every time of the window converts exactly. *)
Record window_ticks (off : Z) (ts : timestamps) : Prop := {
  wk_from : tick_range off (ts_from ts); wk_to : tick_range off (ts_to ts);
  wk_delay_from : tick_range off (ts_delay_from ts);
  wk_delay_to : tick_range off (ts_delay_to ts) }.

Lemma stamp_metadata_run md ts p pol g d :
  ticks_scale (ptp d) = TICKS_SCALE -> window_ticks (offset (ptp d)) ts ->
  stamp_metadata md ts p pol g d = Ok (stamped md ts p pol g d, d).
Proof.
  intros Hs [K1 K2 K3 K4].
  destruct (tts_run _ d Hs K1) as (v1 & E1 & H1). destruct (tts_run _ d Hs K2) as (v2 & E2 & H2).
  destruct (tts_run _ d Hs K3) as (v3 & E3 & H3). destruct (tts_run _ d Hs K4) as (v4 & E4 & H4).
  unfold stamp_metadata, stamped. cstep_by (exact E1). rewrite H1.
  case_decide as Hopen.
  - cstep. cstep_by (exact E3). cstep_by (exact E4). cstep. by rewrite H3, H4.
  - erewrite (cmd_bind_run _ _ d (u29 v2) d) by (by rewrite (cmd_bind_run _ _ _ _ _ E2)).
    cstep_by (exact E3). cstep_by (exact E4). cstep. by rewrite H2, H3, H4.
Qed.

(** The refreshed tracker keeps its bounds. *)
Lemma pop_tracker_range b n : 0 <= pending_packets b <= HW_QUEUE_SIZE ->
  0 <= pending_packets (pop_tracker b n) <= pending_packets b.
Proof.
  intros Hb. unfold pop_tracker. cbn. unfold HW_QUEUE_SIZE in *.
  pose proof (u64_range (n - last_tx_count b)). unfold fits_u64 in *.
  rewrite u64_small by (unfold fits_u64; lia). lia.
Qed.

Lemma after_reads_prio_tc w w' prio : after_reads w w' ->
  tsn_get_mqprio_tc w' prio = tsn_get_mqprio_tc w prio.
Proof.
  induction 1 as [|w w1 w' [a ->] _ IH]; [done|]. rewrite IH. apply ioread32_prio_tc.
Qed.

(** A frame as [tsn_fill_metadata] finds it. *)
Record frame_in (d : xdma_dev W) (id : nat) (s : sk_buff) (vp : Z) (g : bool)
    (md : tx_metadata) : Prop := {
  fi_skb : skbs d !! id = Some s;
  fi_prio : tsn_get_vlan_prio (drop (Z.to_nat TX_METADATA_SIZE) (skb_data s)) = Ok vp;
  fi_gptp : is_gptp_packet (drop (Z.to_nat TX_METADATA_SIZE) (skb_data s)) = Ok g;
  fi_md : get_metadata (skb_data s) = Ok md }.

Lemma window_ticks_of c from tc n ts off :
  timestamps_post c from tc n true true ts -> 0 < bk_cycle_ns (tc_qbv_baked c) ->
  tick_range off (from - bytes_to_ns n - 1) ->
  tick_range off (from + 7 * bk_cycle_ns (tc_qbv_baked c)) -> 0 < bytes_to_ns n ->
  window_ticks off ts.
Proof.
  intros Hpost HC Hlo Hhi Hn. unfold tick_range, TX_ADJUST_NS in *.
  destruct Hpost as [[-> _]|[Hf _ _ _ Hr Hd]].
  - assert (TSN_ALWAYS_OPEN from = from - 1) as E by (apply u64_small; unfold fits_u64; lia).
    split; unfold tick_range, TX_ADJUST_NS; cbn; rewrite ?E; lia.
  - specialize (Hd eq_refl). split; unfold tick_range, TX_ADJUST_NS; lia.
Qed.

Lemma tsn_ok_tracker b c : tsn_ok c -> tsn_ok (set_tc_buffer_tracker b c).
Proof. intros [[] ? ?]. by split. Qed.

(** The contract of a window does not depend on the tracker. *)
Lemma timestamps_post_tracker bt c from tc n delay b ts :
  timestamps_post (set_tc_buffer_tracker bt c) from tc n delay b ts ->
  timestamps_post c from tc n delay b ts.
Proof.
  unfold timestamps_post. destruct b; [|done]. intros [H|[]]; [by left|right; by split].
Qed.

(** The accounting never faults when the credit does not. *)
Lemma account_frame_run c from tc p n c1 : wf_tsn c ->
  spend_qav_credit c from tc n = Ok c1 ->
  exists c2, account_frame c from tc p n = Ok c2 /\
    tc_buffer_tracker c2 = tc_buffer_tracker c /\
    total_available_at c2 = u64 (total_available_at c + bytes_to_ns n) /\
    tc_qbv c2 = tc_qbv c /\ tc_qbv_baked c2 = tc_qbv_baked c /\ tc_qav c2 = tc_qav c1.
Proof.
  intros [_ _ Hq] E. unfold account_frame. rewrite E. cbn [mbind outcome_bind].
  unfold spend_qav_credit in E. destruct (aget (tc_qav c) tc) as [q|]; [|done].
  cbn [mbind outcome_bind] in E. destruct (spend_qav q from n) as [q'|]; [|done].
  cbn [mbind outcome_bind] in E. destruct (aset (tc_qav c) tc q') as [qs|]; [|done].
  injection E as <-. cbn [queue_available_at set_tc_qav].
  destruct (aget_some (queue_available_at c) (tsn_prio_val p)) as [x Ex];
    [rewrite Hq; destruct p; cbn; unfold TSN_PRIO_COUNT; lia|].
  rewrite Ex. cbn [mbind outcome_bind].
  assert (aset (queue_available_at c) (tsn_prio_val p) (u64 (x + bytes_to_ns n))
    = Ok (<[Z.to_nat (tsn_prio_val p) := u64 (x + bytes_to_ns n)]> (queue_available_at c))) as ->.
  { apply aset_ok. split; [|done]. rewrite Hq. destruct p; cbn; unfold TSN_PRIO_COUNT; lia. }
  cbn [mbind outcome_bind]. eexists. by repeat split.
Qed.

(** What a TSN frame needs to be placed: a class whose gate opens, times that
    convert exactly, and a credit that does not overflow. *)
Record fill_ready (d : xdma_dev W) (now : Z) (vp : Z) (g : bool) (md : tx_metadata) (tc : nat)
    (q : qav_state) (from : Z) : Prop := {
  fr_ok : tsn_ok (tsn d); fr_enabled : qbv_enabled (tc_qbv (tsn d)) = true;
  fr_class : tsn_get_mqprio_tc (world d) vp = Z.of_nat tc; fr_tc : (tc < TC_COUNT)%nat;
  fr_qav : tc_qav (tsn d) !! tc = Some q;
  fr_tracker : 0 <= pending_packets (tc_buffer_tracker (tsn d)) <= HW_QUEUE_SIZE;
  fr_tsn : frame_prio g vp <> TSN_PRIO_BE;
  fr_from : from = ready_time (tsn d) q now (frame_prio g vp);
  fr_ready : ready_at (tsn d) from (md_frame_length md);
  fr_opens : exists y, gate_at (tc_qbv (tsn d)) tc y = true;
  fr_scale : ticks_scale (ptp d) = TICKS_SCALE;
  fr_early : tick_range (offset (ptp d)) (from - bytes_to_ns (md_frame_length md) - 1);
  fr_late : tick_range (offset (ptp d)) (from + 7 * bk_cycle_ns (tc_qbv_baked (tsn d)));
  fr_credit : exists q', spend_qav q from (md_frame_length md) = Ok q' }.

Lemma plan_frame_tsn junk c now tc p n q from :
  tsn_ok c -> qbv_enabled (tc_qbv c) = true -> (tc < TC_COUNT)%nat -> tc_qav c !! tc = Some q ->
  p <> TSN_PRIO_BE -> from = ready_time c q now p -> ready_at c from n ->
  (exists y, gate_at (tc_qbv c) tc y = true) ->
  (TSN_QUEUE_SIZE <= pending_packets (tc_buffer_tracker c) /\
   plan_frame junk c now (Z.of_nat tc) p n = Ok None) \/
  (pending_packets (tc_buffer_tracker c) < TSN_QUEUE_SIZE /\
   exists ts, plan_frame junk c now (Z.of_nat tc) p n = Ok (Some (from, ts, TSN_FAIL_POLICY_RETRY)) /\
     timestamps_post c from tc n true true ts).
Proof.
  intros Hok Hen Htc Hq Hp -> Hr [y Hy]. unfold plan_frame.
  rewrite (aget_nat _ _ _ Hq), Hen. cbn [mbind outcome_bind negb andb].
  assert (bool_decide (p = TSN_PRIO_BE) = false) as Hb by by apply bool_decide_eq_false_2.
  unfold queue_limit. rewrite Hb. cbn [negb].
  destruct (decide (TSN_QUEUE_SIZE <= pending_packets (tc_buffer_tracker c))) as [Hfull|Hroom];
    [by left|].
  right. split; [lia|].
  destruct (get_timestamps_spec c (ready_time c q now p) tc n true Hok Hen Htc Hr)
    as (b & ts & -> & Hpost).
  destruct b; [|destruct Hpost as [_ Hcl]; by rewrite Hcl in Hy].
  exists ts. by split.
Qed.

(** The frame has been accepted: it carries the ticks of a window that satisfies
    [get_timestamps]'s contract, and is counted. *)
Definition frame_placed (d : xdma_dev W) (id : nat) (s : sk_buff) (g : bool) (p : tsn_prio)
    (md : tx_metadata) (tc : nat) (from : Z) (d' : xdma_dev W) : Prop :=
  exists ts, timestamps_post (tsn d) from tc (md_frame_length md) true true ts /\
    skbs d' = <[id := set_skb_data
      (put_metadata (stamped md ts p TSN_FAIL_POLICY_RETRY g d) (skb_data s)) s]> (skbs d) /\
    1 <= pending_packets (tc_buffer_tracker (tsn d')) <= TSN_QUEUE_SIZE /\
    total_available_at (tsn d')
      = u64 (total_available_at (tsn d) + bytes_to_ns (md_frame_length md)) /\
    tc_qbv (tsn d') = tc_qbv (tsn d) /\ tc_qbv_baked (tsn d') = tc_qbv_baked (tsn d).

(** The frame has been refused: the queue is full, nothing but the tracker is
    touched. *)
Definition frame_refused (d d' : xdma_dev W) : Prop :=
  skbs d' = skbs d /\ TSN_QUEUE_SIZE <= pending_packets (tc_buffer_tracker (tsn d')) /\
  exists b, tsn d' = set_tc_buffer_tracker b (tsn d).

(** The accepted case, once the tracker is refreshed. *)
Lemma fill_placed now id d s vp g md tc q from d1 b :
  frame_in d id s vp g md -> fill_ready d now vp g md tc q from ->
  same_but_counters (set_tsn (set_tc_buffer_tracker b (tsn d)) d) d1 ->
  0 <= pending_packets b < TSN_QUEUE_SIZE ->
  forall ts, timestamps_post (tsn d) from tc (md_frame_length md) true true ts ->
  exists d', (md' ← stamp_metadata md ts (frame_prio g vp) TSN_FAIL_POLICY_RETRY g;
      _ ← set_skb id (set_skb_data (put_metadata md' (skb_data s)) s);
      _ ← modify_tsn (fun c => account_frame c from (Z.of_nat tc) (frame_prio g vp) (md_frame_length md));
      d ← get;
      let '(ok, b) := append_buffer_track (tc_buffer_tracker (tsn d)) in
      _ ← set_tracker b;
      mret ok) d1 = Ok (true, d') /\ frame_placed d id s g (frame_prio g vp) md tc from d'.
Proof.
  intros Hin Hr Hsame Hpend ts Hpost. destruct Hr as [Hok Hen Hcl Htc Hq _ _ _ Hra _ Hsc Hlo Hhi [q' Hcr]].
  destruct Hsame as (_ & _ & _ & Ht & _ & _ & Hcfg & Hptp & Hsk). cbn in Ht, Hcfg, Hptp, Hsk.
  pose proof (ra_cycle _ _ _ Hra) as HC. pose proof (bytes_to_ns_range _ (ra_bytes _ _ _ Hra)) as Hn.
  pose proof (window_ticks_of _ _ _ _ _ _ Hpost HC Hlo Hhi ltac:(lia)) as Hwt.
  cstep_by (apply stamp_metadata_run; rewrite Hptp; done).
  assert (stamped md ts (frame_prio g vp) TSN_FAIL_POLICY_RETRY g d1
          = stamped md ts (frame_prio g vp) TSN_FAIL_POLICY_RETRY g d) as ->
    by (unfold stamped; by rewrite Hptp, Hcfg).
  unfold set_skb at 1. cstep.
  assert (exists c1, spend_qav_credit (tsn d1) from (Z.of_nat tc) (md_frame_length md) = Ok c1) as [c1 Hc1].
  { unfold spend_qav_credit. rewrite Ht. cbn [tc_qav set_tc_buffer_tracker].
    rewrite (aget_nat _ _ _ Hq). cbn [mbind outcome_bind]. rewrite Hcr. cbn [mbind outcome_bind].
    rewrite aset_nat by (by eapply lookup_lt_Some). cbn [mbind outcome_bind]. by eexists. }
  assert (wf_tsn (tsn d1)) as Hwf by (rewrite Ht; apply tsn_ok_tracker, Hok).
  destruct (account_frame_run _ _ _ (frame_prio g vp) _ _ Hwf Hc1) as (c2 & Hac & Hb2 & Ht2 & Hv2 & Hbk2 & _).
  rewrite Ht in Hb2, Ht2, Hv2, Hbk2. cbn in Hb2, Ht2, Hv2, Hbk2.
  unfold modify_tsn. do 2 (erewrite cmd_bind_run; [|first [reflexivity | cstep; cstep_by (apply lift_run, Hac); reflexivity]]).
  cbn [tsn set_tsn]. unfold append_buffer_track. rewrite Hb2. unfold TSN_QUEUE_SIZE, HW_QUEUE_SIZE in *.
  rewrite decide_False by lia. eexists. split; [cstep; reflexivity|].
  exists ts. cbn. rewrite ?Hb2, Ht2, Hv2, Hbk2, Hsk. split; [done|]. split; [done|].
  unfold TSN_QUEUE_SIZE, HW_QUEUE_SIZE. rewrite u64_small by (unfold fits_u64; lia).
  split; [lia|]. by split.
Qed.

(** C5. A VLAN or gPTP frame of a class with a schedule is either refused because
    the queue is full, with nothing but the tracker touched, or accepted: its
    header then holds the ticks of a window (and of a retry window) through which
    the gate of its class is open until the last bit is sent, no earlier than the
    frame is ready, and the frame is counted in the queue. *)
Theorem fill_metadata_places junk now id d s vp g md tc q from :
  frame_in d id s vp g md -> fill_ready d now vp g md tc q from ->
  exists b d', tsn_fill_metadata junk now id d = Ok (b, d') /\
    if b then frame_placed d id s g (frame_prio g vp) md tc from d' else frame_refused d d'.
Proof.
  intros Hin Hr. pose proof Hin as [Hs Hvp Hg Hmd].
  pose proof Hr as [Hok Hen Hcl Htc Hq Htr Hp Hfrom Hra Hop Hsc Hlo Hhi Hcr].
  destruct (update_buffer_track_run d) as (d1 & b & E1 & Hsame & Hb).
  assert (0 <= pending_packets b <= HW_QUEUE_SIZE) as Hpb.
  { destruct Hb as [->|(n & _ & ->)]; [done|]. pose proof (pop_tracker_range _ n Htr). lia. }
  pose proof Hsame as (Hreads & _ & _ & Ht & _ & _ & _ & _ & Hsk).
  unfold tsn_fill_metadata.
  cstep_by (by unfold get_skb; rewrite Hs). cstep_by (exact E1).
  cstep_by (apply lift_run, Hvp). cstep. cstep_by (apply lift_run, Hg).
  cstep_by (apply lift_run, Hmd). cstep.
  rewrite (after_reads_prio_tc _ _ vp Hreads). cbn [world set_tsn]. rewrite Hcl.
  rewrite Ht. cbn [tsn set_tsn].
  destruct (plan_frame_tsn junk (set_tc_buffer_tracker b (tsn d)) now tc (frame_prio g vp)
    (md_frame_length md) q from) as [[Hfull E]|(Hroom & ts & E & Hpost)]; try done.
  { by apply tsn_ok_tracker. } { by destruct Hra. }
  - cstep_by (apply lift_run, E). exists false, d1. split; [done|]. split; [done|].
    rewrite Ht. split; [done|]. by exists b.
  - cstep_by (apply lift_run, E). cbn in Hroom.
    destruct (fill_placed now id d s vp g md tc q from d1 b Hin Hr Hsame
      (conj (proj1 Hpb) Hroom) ts (timestamps_post_tracker _ _ _ _ _ _ _ _ Hpost)) as (d' & E' & Hpl).
    exists true, d'. by split.
Qed.
End fill_props.

(** ** Witnesses *)

Definition sample_metadata : tx_metadata :=
  mkMeta (mkTick 123456 3) (mkTick 536870911 3) (mkTick 0 7) (mkTick 1 5) 1514 1 1.

Lemma metadata_roundtrip_witness :
  get_metadata (put_metadata sample_metadata (replicate 40 7)) = Ok sample_metadata /\
  drop METADATA_FIELDS (put_metadata sample_metadata (replicate 40 7)) = replicate 19 7.
Proof.
  apply (metadata_roundtrip sample_metadata (replicate 40 7)).
  split; try split; cbn; lia.
Defined.

(** A gPTP frame behind a VLAN tag of priority 3. *)
Definition tagged_gptp : list Z := replicate 12 0 ++ [0x81; 0x00; 0x60; 0x01; 0x88; 0xF7] ++ replicate 42 0.

Lemma tagged_gptp_missed_witness : is_gptp_packet tagged_gptp = Ok false.
Proof.
  apply (tagged_gptp_missed tagged_gptp 3); [reflexivity| |cbn; lia|reflexivity|lia].
  repeat constructor; lia.
Defined.

Lemma plan_frame_class_overrun_witness :
  plan_frame zero_timestamps zero_tsn_config 0 9 TSN_PRIO_VLAN 60 = Fault OutOfBounds.
Proof.
  apply (plan_frame_class_overrun zero_timestamps zero_tsn_config 0 9 TSN_PRIO_VLAN 60);
    [apply wf_zero_tsn|unfold TC_COUNT; lia].
Defined.

(** Class 3 is closed in every entry of the sample schedule. *)
Lemma refused_frame_not_dropped_witness :
  (forall y, gate_at (tc_qbv sample_config) 3 y = false) /\
  exists pol, plan_frame zero_timestamps sample_config 5000000 (Z.of_nat 3) TSN_PRIO_VLAN 100
    = Ok (Some (5030000, zero_timestamps, pol)).
Proof.
  apply (refused_frame_not_dropped zero_timestamps sample_config 5000000 3 TSN_PRIO_VLAN 100
    zero_qav zero_timestamps); try reflexivity.
  - apply sample_config_ok.
  - unfold TC_COUNT. lia.
  - split; try reflexivity; vm_compute; split; congruence.
Defined.

Definition gptp_frame : sk_buff :=
  mkSkb (put_metadata (mkMeta zero_tick zero_tick zero_tick zero_tick 100 0 0) (replicate 32 0)
         ++ replicate 12 0 ++ [0x88; 0xF7] ++ replicate 86 0) 132 0 false false 1.
Definition fill_dev : xdma_dev sim :=
  set_skbs {[ 0%nat := gptp_frame ]} (set_tsn sample_config (sim_dev sim0)).

Lemma fill_metadata_places_witness :
  exists b d', tsn_fill_metadata zero_timestamps 5000000 0 fill_dev = Ok (b, d') /\
    if b then frame_placed fill_dev 0 gptp_frame true TSN_PRIO_GPTP
                (mkMeta zero_tick zero_tick zero_tick zero_tick 100 0 0) 0 5030000 d'
    else frame_refused fill_dev d'.
Proof.
  apply (fill_metadata_places zero_timestamps 5000000 0 fill_dev gptp_frame 0 true
    (mkMeta zero_tick zero_tick zero_tick zero_tick 100 0 0) 0 zero_qav 5030000).
  - split; reflexivity.
  - split.
    + apply sample_config_ok.
    + vm_compute. reflexivity.
    + vm_compute. reflexivity.
    + unfold TC_COUNT. lia.
    + vm_compute. reflexivity.
    + vm_compute. split; congruence.
    + discriminate.
    + vm_compute. reflexivity.
    + split; try (vm_compute; split; congruence); vm_compute; reflexivity.
    + exists 1000. vm_compute. reflexivity.
    + vm_compute. reflexivity.
    + split; vm_compute; split; congruence.
    + split; vm_compute; split; congruence.
    + exists zero_qav. vm_compute. reflexivity.
Defined.
