(* ===== verification/Netdev.v ===== *)
(** * xdma_netdev.c and the interrupt handler of libxdma.c

    Opening and closing the interface, transmitting a frame, the work item that
    fetches its hardware time stamp, the traffic-control and ioctl entry points,
    and [xdma_isr] with the receive-timestamp filter.  The driver is modelled as
    built for a PC (without [__LIBXDMA_RPI__] and [__LIBXDMA_DEBUG__]). *)

From S2P Require Import Prelude Float64 Device Gate Sim AlinxArch Ptp Qos Sched Meta.
From stdpp Require Import gmap.

Open Scope Z_scope.

(** ** Constants of libxdma.h, xdma_mod.h and xdma_netdev.h *)
Definition DESC_REG_LO : Z := 0x4000 + 0x80.
Definition DESC_REG_HI : Z := 0x4000 + 0x84.
Definition DMA_ENGINE_START : Z := 16268831.
Definition DMA_ENGINE_STOP : Z := 16268830.
Definition XDMA_BUFFER_SIZE : Z := 1560.
Definition CRC_LEN : Z := 4.
Definition TX_TSTAMP_MAX_RETRY : Z := 5.
Definition TX_WORK_OVERFLOW_MARGIN : Z := 100.
Definition XDMA_OFS_INT_CTRL : Z := 0x2000.

(** Offsets in [struct engine_regs], [engine_sgdma_regs] and [interrupt_regs]. *)
Definition ENGINE_CONTROL : Z := 0x04.
Definition ENGINE_STATUS_RC : Z := 0x44.
Definition SGDMA_FIRST_DESC_LO : Z := 0x80.
Definition SGDMA_FIRST_DESC_HI : Z := 0x84.
Definition CHANNEL_INT_ENABLE_W1S : Z := 0x14.
Definition CHANNEL_INT_ENABLE_W1C : Z := 0x18.
Definition CHANNEL_INT_REQUEST : Z := 0x44.

Definition EFAULT : Z := 14.
Definition SIOCSHWTSTAMP : Z := 0x89b0.
Definition SIOCGHWTSTAMP : Z := 0x89b1.

(** ** Kernel services of a network driver

    Each is the kernel's; [kmem_ok] tells whether the next atomic allocation
    succeeds, [rx_result_length] and [rx_dma_buffer] are the memory the device
    writes on reception. *)
Class NetCore (W : Type) := {
  netif_carrier : bool -> W -> W;
  netif_queue : bool -> W -> W;
  netif_subqueue : Z -> bool -> W -> W;
  schedule_work : Z -> W -> W;
  kmem_ok : W -> bool * W;
  dma_map_single : list Z -> Z -> W -> option Z * W;
  dma_unmap_single : Z -> Z -> W -> W;
  skb_tstamp_tx : nat -> Z -> W -> W;
  netif_rx : list Z -> option Z -> W -> W;
  rx_result_length : W -> Z;
  rx_dma_buffer : W -> list Z }.

Inductive netdev_tx := NETDEV_TX_OK | NETDEV_TX_BUSY.

(** ** Descriptors *)
Definition desc_control : Z :=
  let control_field := Z.lor (Z.lor XDMA_DESC_STOPPED XDMA_DESC_EOP) XDMA_DESC_COMPLETED in
  Z.lor (Z.land DESC_MAGIC (Z.lnot LS_BYTE_MASK)) control_field.

Definition tx_desc_set (d : xdma_desc) (addr len : Z) : xdma_desc :=
  mkDesc desc_control (u32 len) (PCI_DMA_L addr) (PCI_DMA_H addr)
    (dst_addr_lo d) (dst_addr_hi d) (next_lo d) (next_hi d).

Definition rx_desc_set (d : xdma_desc) (addr len : Z) : xdma_desc :=
  mkDesc desc_control (u32 len) (src_addr_lo d) (src_addr_hi d)
    (PCI_DMA_L addr) (PCI_DMA_H addr) (next_lo d) (next_hi d).

Definition set_desc_src (addr : Z) (d : xdma_desc) : xdma_desc :=
  mkDesc (control d) (bytes d) (PCI_DMA_L addr) (PCI_DMA_H addr)
    (dst_addr_lo d) (dst_addr_hi d) (next_lo d) (next_hi d).

(** Updaters of the DMA part of [xdma_private]. *)
Definition set_tx_desc (v : xdma_desc) (m : priv_dma) : priv_dma :=
  mkDma (tx_engine_regs m) (rx_engine_regs m) (rx_engine_sgdma_regs m) v (rx_desc m)
    (tx_bus_addr m) (tx_dma_addr m) (rx_bus_addr m) (rx_dma_addr m) (res_dma_addr m) (tx_skb m).
Definition set_rx_desc (v : xdma_desc) (m : priv_dma) : priv_dma :=
  mkDma (tx_engine_regs m) (rx_engine_regs m) (rx_engine_sgdma_regs m) (tx_desc m) v
    (tx_bus_addr m) (tx_dma_addr m) (rx_bus_addr m) (rx_dma_addr m) (res_dma_addr m) (tx_skb m).
Definition set_tx_slot (addr : Z) (id : option nat) (m : priv_dma) : priv_dma :=
  mkDma (tx_engine_regs m) (rx_engine_regs m) (rx_engine_sgdma_regs m) (tx_desc m) (rx_desc m)
    (tx_bus_addr m) addr (rx_bus_addr m) (rx_dma_addr m) (res_dma_addr m) id.

Section netdev.
Context {W : Type} `{io : IoMem W} `{nd : NetDevTc W} `{nc : NetCore W}.
Notation dev := (xdma_dev W).

Definition on_world (f : W -> W) : cmd dev unit := modify (fun d => set_world (f (world d)) d).
Definition ask_world {A} (f : W -> A * W) : cmd dev A := fun d =>
  let '(a, w) := f (world d) in Ok (a, set_world w d).
Definition on_dma (f : priv_dma -> priv_dma) : cmd dev unit :=
  modify (fun d => set_dma (f (pv_dma (priv d))) d).
Definition get_dma : cmd dev priv_dma := gets (fun d => pv_dma (priv d)).
Definition get_work : cmd dev priv_work := gets (fun d => pv_work (priv d)).
Definition put_work (w : priv_work) : cmd dev unit := modify (set_work w).

(** ** Open and close *)
Definition each_subqueue (on : bool) : cmd dev unit :=
  for_cmd 0 TX_QUEUE_COUNT (fun i => on_world (netif_subqueue (Z.of_nat i) on)).

Definition xdma_netdev_open : cmd dev Z :=
  _ ← on_world (netif_carrier true);
  _ ← on_world (netif_queue true);
  _ ← each_subqueue true;
  _ ← on_dma (fun m => set_rx_desc (rx_desc_set (set_desc_src (res_dma_addr m) (rx_desc m))
                                      (rx_dma_addr m) XDMA_BUFFER_SIZE) m);
  m ← get_dma;
  _ ← read32 (rx_engine_regs m + ENGINE_STATUS_RC);
  _ ← write32 (PCI_DMA_L (rx_bus_addr m)) (rx_engine_sgdma_regs m + SGDMA_FIRST_DESC_LO);
  _ ← write32 (PCI_DMA_H (rx_bus_addr m)) (rx_engine_sgdma_regs m + SGDMA_FIRST_DESC_HI);
  _ ← write32 DMA_ENGINE_START (rx_engine_regs m + ENGINE_CONTROL);
  mret 0.

Definition xdma_netdev_close : cmd dev Z :=
  m ← get_dma;
  _ ← write32 DMA_ENGINE_STOP (rx_engine_regs m + ENGINE_CONTROL);
  _ ← on_world (netif_queue false);
  _ ← each_subqueue false;
  _ ← on_world (netif_carrier false);
  mret 0.

(** ** Socket buffers

    References are counted; the last one frees the buffer, and any later use of
    it is a fault. *)
Definition set_refs (n : Z) (s : sk_buff) : sk_buff :=
  mkSkb (skb_data s) (skb_len s) (skb_queue_mapping s) (skb_hw_tstamp s) (skb_in_progress s) n.
Definition set_len (n : Z) (s : sk_buff) : sk_buff :=
  mkSkb (skb_data s) n (skb_queue_mapping s) (skb_hw_tstamp s) (skb_in_progress s) (skb_refs s).
Definition set_in_progress (s : sk_buff) : sk_buff :=
  mkSkb (skb_data s) (skb_len s) (skb_queue_mapping s) (skb_hw_tstamp s) true (skb_refs s).

Definition dev_kfree_skb (id : nat) : cmd dev unit :=
  s ← get_skb id;
  if decide (skb_refs s = 1) then modify (fun d => set_skbs (delete id (skbs d)) d)
  else set_skb id (set_refs (skb_refs s - 1) s).

Definition skb_get (id : nat) : cmd dev unit :=
  s ← get_skb id; set_skb id (set_refs (skb_refs s + 1) s).

(** [skb_padto]: nothing to do for a buffer at least that long; otherwise zeros
    are appended behind the data, or the buffer is freed and an error returned. *)
Definition skb_padto (id : nat) (len : Z) : cmd dev Z :=
  s ← get_skb id;
  if decide (len <= skb_len s) then mret 0 else
  ok ← ask_world kmem_ok;
  if (ok : bool) then
    _ ← set_skb id (set_skb_data (skb_data s ++ replicate (Z.to_nat (len - skb_len s)) 0) s);
    mret 0
  else _ ← dev_kfree_skb id; mret (-12).

(** [skb_push] followed by [memset]: a zeroed header in front of the data. *)
Definition push_header (n : Z) (id : nat) : cmd dev unit :=
  s ← get_skb id;
  set_skb id (set_len (skb_len s + n) (set_skb_data (replicate (Z.to_nat n) 0 ++ skb_data s) s)).

(** ** Transmit *)
Definition workaround_packet_size (size : Z) : Z := size.

(** The three early exits wake the queue, free the buffer and report success. *)
Definition drop_frame (id : nat) (q : Z) : cmd dev netdev_tx :=
  _ ← on_world (netif_subqueue q true);
  _ ← dev_kfree_skb id;
  mret NETDEV_TX_OK.

(** [upper | tick], one period later when the tick is behind the clock. *)
Definition tx_work_time (sys_count tick : Z) : Z :=
  let lower := Z.land sys_count (Z.ones 29) in
  let upper := Z.land sys_count (18446744073709551615 - Z.ones 29) in
  let t := Z.lor upper tick in
  if decide (tick < lower /\ TX_WORK_OVERFLOW_MARGIN < lower - tick)
  then u64 (t + Z.shiftl 1 29) else t.

(** The frame asks for a time stamp: one work item per timestamp id. *)
Definition request_tstamp (id : nat) (md : tx_metadata) (sys_count : Z) : cmd dev unit :=
  d ← get;
  let w := pv_work (priv d) in
  if decide (tx_type (tstamp_config (priv d)) = HWTSTAMP_TX_ON) then
    let i := md_timestamp_id md in
    if Z.testbit (state w) i then mret tt else
    s ← get_skb id;
    _ ← set_skb id (set_in_progress s);
    _ ← skb_get id;
    skbs' ← lift (aset (tx_work_skb w) i (Some id));
    after ← lift (aset (tx_work_start_after w) i (tx_work_time sys_count (tick (md_from md))));
    let to_value := if decide (md_fail_policy md = tsn_fail_policy_val TSN_FAIL_POLICY_RETRY)
                    then tick (md_delay_to md) else tick (md_to md) in
    until ← lift (aset (tx_work_wait_until w) i (tx_work_time sys_count to_value));
    _ ← put_work (mkWork skbs' after until (last_tx_tstamp w) (tstamp_retry w)
                   (Z.setbit (state w) i));
    on_world (schedule_work i)
  else mret tt.

(** The descriptor and the doorbell. *)
Definition start_dma (id : nat) (dma_addr len : Z) : cmd dev unit :=
  _ ← on_dma (set_tx_slot dma_addr (Some id));
  _ ← on_dma (fun m => set_tx_desc (tx_desc_set (tx_desc m) dma_addr len) m);
  m ← get_dma;
  b1 ← gets bar1;
  _ ← write32 (PCI_DMA_L (tx_bus_addr m)) (b1 + DESC_REG_LO);
  _ ← write32 (PCI_DMA_H (tx_bus_addr m)) (b1 + DESC_REG_HI);
  _ ← write32 0 (b1 + DESC_REG_HI + 4);
  write32 DMA_ENGINE_START (tx_engine_regs m + ENGINE_CONTROL).

(** The header: its length field, and the place [tsn_fill_metadata] gives the
    frame.  Returns the answer and the clock. *)
Definition prepare_frame (junk : timestamps) (id : nat) (frame_length : Z) : cmd dev (bool * Z) :=
  _ ← push_header TX_METADATA_SIZE id;
  s ← get_skb id;
  md ← lift (get_metadata (skb_data s));
  _ ← set_skb id (set_skb_data (put_metadata
        (mkMeta (md_from md) (md_to md) (md_delay_from md) (md_delay_to md)
           (u16 frame_length) (md_timestamp_id md) (md_fail_policy md)) (skb_data s)) s);
  sys_count ← alinx_get_sys_clock;
  now ← alinx_sysclock_to_timestamp sys_count;
  ok ← tsn_fill_metadata junk now id;
  mret (ok, sys_count).

(** Map the frame, request its time stamp, start the engine. *)
Definition transmit_frame (id : nat) (q sys_count : Z) : cmd dev netdev_tx :=
  s ← get_skb id;
  addr ← ask_world (dma_map_single (skb_data s) (skb_len s));
  match addr with
  | None => _ ← on_world (netif_subqueue q true); mret NETDEV_TX_BUSY
  | Some dma_addr =>
      md ← lift (get_metadata (skb_data s));
      _ ← (if skb_hw_tstamp s then request_tstamp id md sys_count else mret tt);
      _ ← start_dma id dma_addr (skb_len s);
      mret NETDEV_TX_OK
  end.

Definition send_frame (junk : timestamps) (id : nat) (q frame_length : Z) : cmd dev netdev_tx :=
  r ← prepare_frame junk id frame_length;
  if negb (fst r) then _ ← on_world (netif_subqueue q true); mret NETDEV_TX_BUSY
  else transmit_frame id q (snd r).

Definition xdma_netdev_start_xmit (junk : timestamps) (id : nat) : cmd dev netdev_tx :=
  s ← get_skb id;
  let q := skb_queue_mapping s in
  _ ← on_world (netif_subqueue q false);
  let frame_length := Z.max ETH_ZLEN (skb_len s) in
  let len := workaround_packet_size frame_length in
  _ ← set_skb id (set_len len s);
  failed ← skb_padto id len;
  if decide (failed <> 0) then drop_frame id q else
  if decide (XDMA_BUFFER_SIZE < len) then drop_frame id q else
  ok ← ask_world kmem_ok;                  (* pskb_expand_head *)
  if negb ok then drop_frame id q else
  send_frame junk id q frame_length.

Definition xdma_select_queue : cmd dev Z := mret 0.

(** ** Traffic control and time-stamp configuration *)
Inductive tc_setup :=
  | TC_SETUP_QDISC_MQPRIO (o : tc_mqprio_qopt_offload)
  | TC_SETUP_QDISC_CBS (o : tc_cbs_qopt_offload)
  | TC_SETUP_QDISC_TAPRIO (o : tc_taprio_qopt_offload)
  | TC_SETUP_BLOCK (flow_block_result : Z)
  | TC_SETUP_OTHER.

Definition on_tsn (f : tsn_config -> outcome (Z * tsn_config)) : cmd dev Z :=
  d ← get; rc ← lift (f (tsn d)); _ ← modify (set_tsn (snd rc)); mret (fst rc).

Definition xdma_setup_tc_block_cb : Z := - EOPNOTSUPP.

Definition xdma_netdev_setup_tc (t : tc_setup) : cmd dev Z :=
  match t with
  | TC_SETUP_QDISC_MQPRIO o => tsn_set_mqprio o
  | TC_SETUP_QDISC_CBS o => on_tsn (tsn_set_qav o)
  | TC_SETUP_QDISC_TAPRIO o => on_tsn (tsn_set_qbv o)
  | TC_SETUP_BLOCK r => mret r
  | TC_SETUP_OTHER => mret (- ENOTSUPP)
  end.

(** A copy between kernel and user space that may fail; [Faulted] carries what a
    failed copy has left in the destination. *)
Inductive user_copy (A : Type) := Copied (a : A) | Faulted (a : A).
Arguments Copied {A} _.
Arguments Faulted {A} _.

Definition xdma_get_ts_config (copy_ok : bool) : cmd dev Z :=
  mret (if copy_ok then 0 else - EFAULT).
Definition xdma_set_ts_config (u : user_copy hwtstamp_config) : cmd dev Z :=
  match u with
  | Copied c => _ ← modify (set_tstamp_config c); mret 0
  | Faulted c => _ ← modify (set_tstamp_config c); mret (- EFAULT)
  end.

Definition xdma_netdev_ioctl (cmd : Z) (copy_ok : bool) (u : user_copy hwtstamp_config) :
    Prelude.cmd dev Z :=
  if decide (cmd = SIOCGHWTSTAMP) then xdma_get_ts_config copy_ok
  else if decide (cmd = SIOCSHWTSTAMP) then xdma_set_ts_config u
  else mret (- EOPNOTSUPP).

(** ** The time-stamp work item *)
Definition set_retry (i n : Z) : cmd dev unit :=
  w ← get_work;
  r ← lift (aset (tstamp_retry w) i n);
  put_work (mkWork (tx_work_skb w) (tx_work_start_after w) (tx_work_wait_until w)
              (last_tx_tstamp w) r (state w)).
Definition clear_state_bit (i : Z) : cmd dev unit :=
  w ← get_work;
  put_work (mkWork (tx_work_skb w) (tx_work_start_after w) (tx_work_wait_until w)
              (last_tx_tstamp w) (tstamp_retry w) (Z.clearbit (state w) i)).

(** The labels [return_error] and [retry]. *)
Definition tx_work_error (i : Z) : cmd dev unit := _ ← set_retry i 0; clear_state_bit i.
Definition tx_work_retry (i : Z) : cmd dev unit := on_world (schedule_work i).

Definition tx_work_deliver (i : Z) (id : nat) (tx_tstamp : Z) : cmd dev unit :=
  _ ← set_retry i 0;
  hwtstamp ← alinx_sysclock_to_txtstamp tx_tstamp;
  w ← get_work;
  last ← lift (aset (last_tx_tstamp w) i tx_tstamp);
  sk ← lift (aset (tx_work_skb w) i None);
  _ ← put_work (mkWork sk (tx_work_start_after w) (tx_work_wait_until w) last (tstamp_retry w) (state w));
  _ ← clear_state_bit i;
  _ ← on_world (skb_tstamp_tx id hwtstamp);
  dev_kfree_skb id.

(** The time stamp is not new. *)
Definition tx_work_late (i : Z) (wk : priv_work) : cmd dev unit :=
  now' ← alinx_get_sys_clock;
  until ← lift (aget (tx_work_wait_until wk) i);
  if decide (now' < until) then tx_work_retry i else
  r ← lift (aget (tstamp_retry wk) i);
  _ ← set_retry i (s32 (r + 1));
  if decide (TX_TSTAMP_MAX_RETRY <= s32 (r + 1)) then tx_work_error i
  else tx_work_retry i.

Definition do_tx_work (i : Z) : cmd dev unit :=
  w ← get_work;
  skb ← lift (aget (tx_work_skb w) i);
  now ← alinx_get_sys_clock;
  if decide (Z.of_nat TSN_TIMESTAMP_ID_MAX <= i) then mret tt else
  match skb with
  | None => tx_work_error i
  | Some id =>
      start_after ← lift (aget (tx_work_start_after w) i);
      if decide (now < start_after) then tx_work_retry i else
      tx_tstamp ← alinx_read_tx_timestamp i;
      last ← lift (aget (last_tx_tstamp w) i);
      if decide (tx_tstamp = last) then tx_work_late i w else
      tx_work_deliver i id tx_tstamp
  end.

(** ** Reception *)
Definition PTP_MSGTYPE_SYNC : Z := 0.
Definition PTP_MSGTYPE_DELAY_REQ : Z := 1.

(** The EtherType and where the message starts. *)
Definition rx_payload (b : list Z) : outcome (Z * Z) :=
  eth_type ← get16 b 12;
  if decide (eth_type = ETH_P_8021Q) then
    pid ← get16 b ETH_HLEN; Ok (pid, ETH_HLEN + 4)
  else Ok (eth_type, ETH_HLEN).

Definition filter_rx_timestamp (f : hwtstamp_rx_filter) (b : list Z) : outcome bool :=
  match f with
  | HWTSTAMP_FILTER_NONE => Ok false
  | HWTSTAMP_FILTER_ALL => Ok true
  | _ =>
      '(eth_type, off) ← rx_payload b;
      if decide (eth_type <> ETH_P_1588) then Ok false else
      tsmt ← aget b off;
      let msg_type := Z.land tsmt 0xF in
      match f with
      | HWTSTAMP_FILTER_PTP_V2_EVENT | HWTSTAMP_FILTER_PTP_V2_L2_EVENT => Ok true
      | HWTSTAMP_FILTER_PTP_V2_SYNC | HWTSTAMP_FILTER_PTP_V2_L2_SYNC =>
          Ok (msg_type =? PTP_MSGTYPE_SYNC)
      | HWTSTAMP_FILTER_PTP_V2_DELAY_REQ | HWTSTAMP_FILTER_PTP_V2_L2_DELAY_REQ =>
          Ok (msg_type =? PTP_MSGTYPE_DELAY_REQ)
      | _ => Ok false
      end
  end.

(** ** The interrupt handler *)
Inductive irqreturn := IRQ_NONE | IRQ_HANDLED.

(** What [xdma_isr] reads of [struct xdma_dev] and does not change: the
    configuration BAR, the interrupt masks of the two directions, the first engine of
    each, and whether there is a network device ([xdev->ndev] is not null). *)
Record irq_ctx := mkIrqCtx {
  config_bar : Z; mask_irq_c2h : Z; mask_irq_h2c : Z;
  c2h_regs : Z; c2h_irq_bitmask : Z; h2c_regs : Z; h2c_irq_bitmask : Z; has_ndev : bool }.

Definition channel_interrupts_enable (x : irq_ctx) (mask : Z) : cmd dev unit :=
  write32 mask (config_bar x + XDMA_OFS_INT_CTRL + CHANNEL_INT_ENABLE_W1S).
Definition channel_interrupts_disable (x : irq_ctx) (mask : Z) : cmd dev unit :=
  write32 mask (config_bar x + XDMA_OFS_INT_CTRL + CHANNEL_INT_ENABLE_W1C).

(** [engine_status_read(engine, 1, 0)]: clear on read. *)
Definition engine_status_read (regs : Z) : cmd dev Z := read32 (regs + ENGINE_STATUS_RC).

Definition restart_rx (x : irq_ctx) : cmd dev unit :=
  _ ← write32 DMA_ENGINE_STOP (c2h_regs x + ENGINE_CONTROL);
  _ ← channel_interrupts_enable x (c2h_irq_bitmask x);
  write32 DMA_ENGINE_START (c2h_regs x + ENGINE_CONTROL).

Definition get64 (b : list Z) (i : Z) : outcome Z :=
  h ← get32 b i; l ← get32 b (i + 4); Ok (Z.lor (Z.shiftl h 32) l).

(** One received frame; [false] when the handler gives up. *)
Definition isr_rx (x : irq_ctx) : cmd dev bool :=
  _ ← engine_status_read (c2h_regs x);
  len ← gets (fun d => s32 (u32 (rx_result_length (world d)) - RX_METADATA_SIZE - CRC_LEN));
  if decide (len < 0) then _ ← restart_rx x; mret false else
  ok ← ask_world kmem_ok;
  if negb ok then _ ← restart_rx x; mret false else
  buf ← gets (fun d => rx_dma_buffer (world d));
  data ← lift (if decide (RX_METADATA_SIZE + len <= Z.of_nat (length buf))
               then Ok (take (Z.to_nat len) (drop (Z.to_nat RX_METADATA_SIZE) buf))
               else Fault OutOfBounds);
  d ← get;
  stamp ← lift (filter_rx_timestamp (rx_filter (tstamp_config (priv d))) data);
  ts ← (if (stamp : bool) then
          raw ← lift (get64 buf 0); t ← alinx_get_rx_timestamp raw; mret (Some t)
        else mret None);
  _ ← on_world (netif_rx data ts);
  _ ← restart_rx x;
  mret true.

(** Transmit completion. *)
Definition isr_tx (x : irq_ctx) : cmd dev unit :=
  _ ← engine_status_read (h2c_regs x);
  m ← get_dma;
  match tx_skb m with
  | None => fail NullDeref
  | Some id =>
      s ← get_skb id;
      _ ← on_world (dma_unmap_single (tx_dma_addr m) (skb_len s));
      _ ← dev_kfree_skb id;
      _ ← on_dma (set_tx_slot (tx_dma_addr m) None);
      _ ← write32 DMA_ENGINE_STOP (h2c_regs x + ENGINE_CONTROL);
      _ ← on_world (netif_subqueue (skb_queue_mapping s) true);
      channel_interrupts_enable x (h2c_irq_bitmask x)
  end.

(** [dev_id] is the [struct xdma_dev] the handler was registered with, or null
    ([None]; [-IRQ_NONE] is [IRQ_NONE]); [xdev] is the same pointer. *)
Definition xdma_isr (dev_id : option irq_ctx) : cmd dev irqreturn :=
  if negb (bool_decide (is_Some dev_id)) then mret IRQ_NONE else
  let xdev := dev_id in
  match xdev with
  | None => mret IRQ_NONE
  | Some x =>
      ch_irq ← read32 (config_bar x + XDMA_OFS_INT_CTRL + CHANNEL_INT_REQUEST);
      _ ← (if decide (ch_irq <> 0) then channel_interrupts_disable x ch_irq else mret tt);
      if negb (has_ndev x) then mret IRQ_NONE else
      ok ← (if decide (Z.land ch_irq (mask_irq_c2h x) <> 0) then isr_rx x else mret true);
      if negb ok then mret IRQ_NONE else
      _ ← (if decide (Z.land ch_irq (mask_irq_h2c x) <> 0) then isr_tx x else mret tt);
      _ ← modify (fun d => set_irq_count (s32 (irq_count d + 1)) d);
      mret IRQ_HANDLED
  end.
End netdev.

(** ** Reconstructing a 64-bit tick *)

Lemma upper_bits x : 0 <= x < 2 ^ 64 ->
  Z.land x (18446744073709551615 - Z.ones 29) = x / 2 ^ 29 * 2 ^ 29.
Proof.
  intros Hx. change (18446744073709551615 - Z.ones 29) with (Z.shiftl (Z.ones 35) 29).
  rewrite <- Z.shiftr_div_pow2, <- Z.shiftl_mul_pow2 by lia.
  apply Z.bits_inj'. intros i Hi. rewrite Z.land_spec.
  destruct (decide (i < 29)); [rewrite !Z.shiftl_spec_low by lia; apply andb_false_r|].
  rewrite !Z.shiftl_spec, Z.shiftr_spec by lia. replace (i - 29 + 29) with i by lia.
  destruct (decide (i < 64)); [rewrite Z.ones_spec_low by lia; apply andb_true_r|].
  rewrite <- (Z.mod_small x (2 ^ 64)) by done. by rewrite Z.mod_pow2_bits_high by lia.
Qed.

Lemma tx_work_time_run s k : 0 <= s < 2 ^ 64 - 2 ^ 29 -> 0 <= k < 2 ^ 29 ->
  tx_work_time s k = s / 2 ^ 29 * 2 ^ 29 + k +
    (if decide (k < s mod 2 ^ 29 - TX_WORK_OVERFLOW_MARGIN) then 2 ^ 29 else 0).
Proof.
  intros Hs Hk. unfold tx_work_time, TX_WORK_OVERFLOW_MARGIN.
  rewrite upper_bits, Z.land_ones by lia.
  replace (s / 2 ^ 29 * 2 ^ 29) with (Z.shiftl (s / 2 ^ 29) 29) by (by rewrite Z.shiftl_mul_pow2).
  rewrite lor_shiftl_add by lia. rewrite !Z.shiftl_mul_pow2 by lia.
  rewrite Z.mul_1_l. change (2 ^ 29) with 536870912 in *.
  change (2 ^ 64) with 18446744073709551616 in *.
  pose proof (Z.div_mod s 536870912 ltac:(lia)). pose proof (Z.mod_pos_bound s 536870912 ltac:(lia)).
  repeat case_decide; try lia. rewrite u64_small; [lia|]. unfold fits_u64. lia.
Qed.

(** The 64-bit time of the work item is reconstructed from the 29 bits in the
    header: it is the intended tick [t] whenever [t] lies ahead of the clock [s] by
    less than a period less the margin, or behind it by at most the margin within
    the same period. *)
Theorem tx_work_time_exact s t : 0 <= s < 2 ^ 64 - 2 ^ 29 ->
  s - TX_WORK_OVERFLOW_MARGIN <= t < s + 2 ^ 29 - TX_WORK_OVERFLOW_MARGIN ->
  s / 2 ^ 29 <= t / 2 ^ 29 -> tx_work_time s (u29 t) = t.
Proof.
  intros Hs Ht Hp. unfold u29. rewrite tx_work_time_run by (done || by apply Z.mod_pos_bound).
  unfold TX_WORK_OVERFLOW_MARGIN in *.
  change (2 ^ 29) with 536870912 in *. change (2 ^ 64) with 18446744073709551616 in *.
  pose proof (Z.div_mod s 536870912 ltac:(lia)). pose proof (Z.mod_pos_bound s 536870912 ltac:(lia)).
  pose proof (Z.div_mod t 536870912 ltac:(lia)). pose proof (Z.mod_pos_bound t 536870912 ltac:(lia)).
  case_decide; nia.
Qed.

(** The arrays have one entry per timestamp id. *)
Record wf_work (w : priv_work) : Prop := {
  ww_skb : length (tx_work_skb w) = TSN_TIMESTAMP_ID_MAX;
  ww_retry : length (tstamp_retry w) = TSN_TIMESTAMP_ID_MAX;
  ww_last : length (last_tx_tstamp w) = TSN_TIMESTAMP_ID_MAX;
  ww_after : length (tx_work_start_after w) = TSN_TIMESTAMP_ID_MAX;
  ww_until : length (tx_work_wait_until w) = TSN_TIMESTAMP_ID_MAX }.

(** ** Transmission *)
Section xmit_props.
Context {W : Type} `{io : IoMem W} {io_ok : IoMemOk W} `{nd : NetDevTc W} `{nc : NetCore W}.
Implicit Types d : xdma_dev W.

(** Nothing but the counters, the tracker and the header of the frame is changed
    by [tsn_fill_metadata]; in particular the length of the frame is not. *)
Lemma put_metadata_length m b : (METADATA_FIELDS <= length b)%nat ->
  length (put_metadata m b) = length b.
Proof.
  intros H. unfold put_metadata. rewrite !length_app, length_drop. cbn. unfold METADATA_FIELDS in *. lia.
Qed.

Lemma put_metadata_tail m b : drop METADATA_FIELDS (put_metadata m b) = drop METADATA_FIELDS b.
Proof. reflexivity. Qed.

Lemma header_length m b :
  length (put_metadata m (replicate (Z.to_nat TX_METADATA_SIZE) 0 ++ b)) = (32 + length b)%nat.
Proof.
  rewrite put_metadata_length; rewrite length_app, length_replicate; [done|].
  unfold METADATA_FIELDS, TX_METADATA_SIZE. lia.
Qed.

Lemma update_buffer_track_skbs d d' : update_buffer_track d = Ok (tt, d') ->
  skbs d' = skbs d /\ pv_work (priv d') = pv_work (priv d).
Proof.
  intros E. destruct (update_buffer_track_run d) as (d1 & b & E1 & Hs & _).
  rewrite E in E1. injection E1 as <-. by destruct Hs as (_ & _ & _ & _ & -> & _ & _ & _ & ->).
Qed.

Lemma tts_same t d v d' : tsn_timestamp_to_sysclock t d = Ok (v, d') -> d' = d.
Proof.
  unfold tsn_timestamp_to_sysclock, alinx_timestamp_to_sysclock. intros E. by inv_cmd E.
Qed.

Lemma stamp_metadata_same md ts p pol g d md' d' :
  stamp_metadata md ts p pol g d = Ok (md', d') -> d' = d /\ 0 <= md_timestamp_id md' <= 2.
Proof.
  unfold stamp_metadata. intros E. inv_cmd E.
  repeat match goal with H : tsn_timestamp_to_sysclock _ _ = _ |- _ => apply tts_same in H; subst end.
  assert (forall i, 0 <= tsn_timestamp_id_val i <= 2) as Hid by (intros []; cbn; lia).
  revert E1. case_decide; intros E1; inv_cmd E1;
  repeat match goal with H : tsn_timestamp_to_sysclock _ _ = _ |- _ => apply tts_same in H; subst end;
  (split; [done|apply Hid]).
Qed.

(** A header whose timestamp id has a work item. *)
Definition header_ok (b : list Z) : Prop :=
  exists m, get_metadata b = Ok m /\ 0 <= md_timestamp_id m <= 2.

Lemma put_header_ok m b : 0 <= md_timestamp_id m <= 2 -> header_ok (put_metadata m b).
Proof.
  intros Hm. eexists. split; [reflexivity|]. cbn [md_timestamp_id].
  match goal with |- 0 <= ?x <= 2 => change x with
    (Z.lor (Z.shiftl (byte_of (md_timestamp_id m) 1) 8) (byte_of (md_timestamp_id m) 0)) end.
  rewrite join16, bits_all by lia. exact Hm.
Qed.

(** The same buffer with another header. *)
Definition same_shape (s s' : sk_buff) : Prop :=
  length (skb_data s') = length (skb_data s) /\
  drop METADATA_FIELDS (skb_data s') = drop METADATA_FIELDS (skb_data s) /\ skb_len s' = skb_len s /\
  skb_queue_mapping s' = skb_queue_mapping s /\ skb_hw_tstamp s' = skb_hw_tstamp s /\
  skb_in_progress s' = skb_in_progress s /\ skb_refs s' = skb_refs s.

Lemma fill_metadata_shape junk now id d b d' s :
  tsn_fill_metadata junk now id d = Ok (b, d') -> skbs d !! id = Some s ->
  (METADATA_FIELDS <= length (skb_data s))%nat ->
  exists s', skbs d' !! id = Some s' /\ same_shape s s' /\
    pv_work (priv d') = pv_work (priv d) /\ (b = true -> header_ok (skb_data s')).
Proof.
  intros E Hs Hlen. unfold tsn_fill_metadata in E.
  rewrite (cmd_bind_run _ _ d s d) in E by (unfold get_skb; by rewrite Hs).
  apply cmd_bind_ok in E as ([] & d1 & E1 & E). apply update_buffer_track_skbs in E1 as [E1 Hw].
  inv_cmd E. revert E.
  match goal with |- match ?x with _ => _ end _ = _ -> _ => destruct x as [[[from ts] pol]|] end;
    intros E; inv_cmd E.
  - match goal with H : stamp_metadata _ _ _ _ _ _ = _ |- _ => apply stamp_metadata_same in H as [-> Hid] end.
    match goal with H : set_skb _ _ _ = _ |- _ => unfold set_skb in H; inv_cmd H end.
    match goal with H : modify_tsn _ _ = _ |- _ => unfold modify_tsn in H; inv_cmd H end. revert E. destruct (append_buffer_track _) as [ok b1]. intros E.
    unfold set_tracker in E. inv_cmd E. cbn. rewrite E1. eexists. split; [apply lookup_insert_eq|].
    split; [split; [by apply put_metadata_length|split; [apply put_metadata_tail|done]]|].
    split; [exact Hw|]. intros _. by apply put_header_ok.
  - exists s. by rewrite E1.
Qed.

Lemma push_header_run n id d s : skbs d !! id = Some s ->
  push_header n id d = Ok (tt, set_skbs (<[id := set_len (skb_len s + n)
    (set_skb_data (replicate (Z.to_nat n) 0 ++ skb_data s) s)]> (skbs d)) d).
Proof. intros Hs. unfold push_header. by cstep_by (by unfold get_skb; rewrite Hs). Qed.

Lemma sys_clock_same d v d' : alinx_get_sys_clock d = Ok (v, d') -> exists w, d' = set_world w d.
Proof. intros E. by apply alinx_get_sys_clock_spec in E as [_ H]. Qed.

(** The frame after [prepare_frame], whatever it answers: one header longer. *)
Definition with_header (s s' : sk_buff) : Prop :=
  length (skb_data s') = (32 + length (skb_data s))%nat /\ drop 32 (skb_data s') = skb_data s /\
  skb_len s' = skb_len s + TX_METADATA_SIZE /\ skb_queue_mapping s' = skb_queue_mapping s /\
  skb_hw_tstamp s' = skb_hw_tstamp s /\ skb_in_progress s' = skb_in_progress s /\
  skb_refs s' = skb_refs s.

Lemma prepare_frame_shape junk id n d r d' s :
  prepare_frame junk id n d = Ok (r, d') -> skbs d !! id = Some s ->
  exists s', skbs d' !! id = Some s' /\ with_header s s' /\
    pv_work (priv d') = pv_work (priv d) /\ (fst r = true -> header_ok (skb_data s')).
Proof.
  intros E Hs. unfold prepare_frame in E.
  rewrite (cmd_bind_run _ _ _ _ _ (push_header_run TX_METADATA_SIZE id d s Hs)) in E.
  erewrite cmd_bind_run in E by (unfold get_skb; cbn [skbs set_skbs]; by rewrite lookup_insert_eq).
  inv_cmd E.
  match goal with H : alinx_get_sys_clock _ = _ |- _ => apply sys_clock_same in H as [w ->] end.
  match goal with H : set_skb _ _ _ = _ |- _ => unfold set_skb in H; inv_cmd H end.
  match goal with H : alinx_sysclock_to_timestamp _ _ = _ |- _ =>
    unfold alinx_sysclock_to_timestamp in H; inv_cmd H end.
  edestruct fill_metadata_shape as (s' & Hs' & (Hl & Ht & Hn & Hrest) & Hw & Hok); [eassumption| | |].
  { cbn [skbs set_skbs set_world]. apply lookup_insert_eq. }
  { cbn [skb_data set_skb_data set_len]. rewrite header_length. unfold METADATA_FIELDS. lia. }
  exists s'. split; [done|]. cbn in Hrest. split; [|by split].
  split; [rewrite Hl; apply header_length|]. split; [|by split].
  change 32%nat with (METADATA_FIELDS + 11)%nat. rewrite <- drop_drop, Ht.
  cbn [skb_data set_skb_data set_len]. rewrite put_metadata_tail, drop_drop. reflexivity.
Qed.

(** The last thing an exit without transmission does. *)
Definition queue_woken (q : Z) d' : Prop := exists w, world d' = netif_subqueue q true w.

Lemma transmit_frame_busy id q c d d' s : transmit_frame id q c d = Ok (NETDEV_TX_BUSY, d') ->
  skbs d !! id = Some s -> skbs d' = skbs d /\ queue_woken q d' /\
  fst (dma_map_single (skb_data s) (skb_len s) (world d)) = None.
Proof.
  intros E Hs. unfold transmit_frame in E.
  rewrite (cmd_bind_run _ _ d s d) in E by (unfold get_skb; by rewrite Hs).
  apply cmd_bind_ok in E as (addr & d1 & E1 & E). unfold ask_world in E1.
  destruct (dma_map_single _ _ _) as [a w]. injection E1 as <- <-.
  destruct a; inv_cmd E; [done|].
  match goal with H : on_world _ _ = _ |- _ => unfold on_world in H; inv_cmd H end.
  split; [done|]. split; [by eexists|done].
Qed.

(** [skb_padto] never pads: the length it is asked for is the one just stored. *)
Lemma padto_noop id len d s : skbs d !! id = Some s -> len <= skb_len s ->
  skb_padto id len d = Ok (0, d).
Proof.
  intros Hs Hl. unfold skb_padto. cstep_by (by unfold get_skb; rewrite Hs).
  by rewrite decide_True by done.
Qed.

(** The run of [xdma_netdev_start_xmit] up to [send_frame]. *)
Definition sized (s : sk_buff) : sk_buff := set_len (Z.max ETH_ZLEN (skb_len s)) s.

(** The frame is not too long, and there is memory for its header ([pskb_expand_head] is
    the first to ask). *)
Definition sendable (s : sk_buff) d : Prop :=
  Z.max ETH_ZLEN (skb_len s) <= XDMA_BUFFER_SIZE /\
  fst (kmem_ok (netif_subqueue (skb_queue_mapping s) false (world d))) = true.

Lemma xmit_start junk id d s : skbs d !! id = Some s ->
  exists d1, skbs d1 = <[id := sized s]> (skbs d) /\ pv_work (priv d1) = pv_work (priv d) /\
    ((~ sendable s d /\ xdma_netdev_start_xmit junk id d = drop_frame id (skb_queue_mapping s) d1) \/
     (sendable s d /\ xdma_netdev_start_xmit junk id d =
       send_frame junk id (skb_queue_mapping s) (Z.max ETH_ZLEN (skb_len s)) d1)).
Proof.
  intros Hs.
  enough (forall r, xdma_netdev_start_xmit junk id d = r -> exists d1,
    skbs d1 = <[id := sized s]> (skbs d) /\ pv_work (priv d1) = pv_work (priv d) /\
    ((~ sendable s d /\ drop_frame id (skb_queue_mapping s) d1 = r) \/
     (sendable s d /\ send_frame junk id (skb_queue_mapping s) (Z.max ETH_ZLEN (skb_len s)) d1 = r))) as H.
  { destruct (H _ eq_refl) as (d1 & ? & ? & [[? <-]|[? <-]]); exists d1; eauto. }
  intros r E. unfold xdma_netdev_start_xmit, workaround_packet_size in E.
  rewrite (cmd_bind_run _ _ d s d) in E by (unfold get_skb; by rewrite Hs).
  unfold on_world at 1, set_skb at 1 in E.
  do 2 (erewrite cmd_bind_run in E by reflexivity). fold (sized s) in E. cbn [skbs set_world] in E.
  erewrite cmd_bind_run in E by (apply padto_noop with (s := sized s);
    [cbn; apply lookup_insert_eq|cbn; lia]).
  rewrite decide_False in E by lia. revert E. unfold sendable. case_decide; intros E.
  { eexists. split; [|split; [|left; split; [intros [? _]; lia|exact E]]]; done. }
  match type of E with (ask_world kmem_ok ≫= _) ?y = _ =>
    change (world y) with (netif_subqueue (skb_queue_mapping s) false (world d)) in *;
    destruct (kmem_ok (netif_subqueue (skb_queue_mapping s) false (world d))) as [ok w] eqn:Ek;
    rewrite (cmd_bind_run _ _ y ok (set_world w y)) in E
      by (unfold ask_world; cbn [world set_world set_skbs]; by rewrite Ek) end.
  destruct ok; cbn [negb fst] in *; eexists.
  - split; [|split; [|right; split; [split; [lia|done]|exact E]]]; done.
  - split; [|split; [|left; split; [by intros [_ ?]|exact E]]]; done.
Qed.

(** When the driver answers [NETDEV_TX_BUSY], the stack queues the frame again
    and hands it back; but the frame now starts with the metadata header, and its
    length counts it, so the next attempt puts a second header in front of the
    first one. *)
Theorem busy_frame_keeps_header junk id d d' s :
  xdma_netdev_start_xmit junk id d = Ok (NETDEV_TX_BUSY, d') -> skbs d !! id = Some s ->
  exists s', skbs d' !! id = Some s' /\
    length (skb_data s') = (32 + length (skb_data s))%nat /\
    skb_len s' = Z.max ETH_ZLEN (skb_len s) + TX_METADATA_SIZE /\ skb_refs s' = skb_refs s.
Proof.
  intros E Hs. destruct (xmit_start junk id d s Hs) as (d1 & Hd1 & _ & [[_ Heq]|[_ Heq]]); rewrite Heq in E.
  { unfold drop_frame in E. apply cmd_bind_ok in E as (? & ? & _ & E).
    by apply cmd_bind_ok in E as (? & ? & _ & ?). }
  unfold send_frame in E. apply cmd_bind_ok in E as (r & d2 & Hp & Hsend).
  destruct (prepare_frame_shape _ _ _ _ _ _ (sized s) Hp) as (s' & Hs' & Hh & _);
    [rewrite Hd1; apply lookup_insert_eq|].
  assert (skbs d' = skbs d2) as ->.
  { destruct (negb (fst r)); [|by eapply transmit_frame_busy].
    apply cmd_bind_ok in Hsend as (? & ? & Hw & Hsend). unfold on_world in Hw. inv_cmd Hw.
    by injection Hsend as <-. }
  exists s'. split; [done|]. destruct Hh as (? & _ & ? & _ & _ & _ & ?). by split_and!.
Qed.

(** ** The descriptor and the doorbell *)

(** The descriptor's bus address is written, then the engine is started. *)
Definition doorbell (m : priv_dma) (bar : Z) (w : W) : W :=
  iowrite32 DMA_ENGINE_START (tx_engine_regs m + ENGINE_CONTROL)
    (iowrite32 0 (bar + DESC_REG_HI + 4)
      (iowrite32 (PCI_DMA_H (tx_bus_addr m)) (bar + DESC_REG_HI)
        (iowrite32 (PCI_DMA_L (tx_bus_addr m)) (bar + DESC_REG_LO) w))).

Lemma start_dma_run id addr len d :
  exists w, start_dma id addr len d = Ok (tt, set_world (doorbell (pv_dma (priv d)) (bar1 d) (world d)) w) /\
    tx_skb (pv_dma (priv w)) = Some id /\ skbs w = skbs d /\
    tx_desc (pv_dma (priv w)) = tx_desc_set (tx_desc (pv_dma (priv d))) addr len /\
    tx_dma_addr (pv_dma (priv w)) = addr /\ bar1 w = bar1 d /\
    tx_bus_addr (pv_dma (priv w)) = tx_bus_addr (pv_dma (priv d)) /\
    tx_engine_regs (pv_dma (priv w)) = tx_engine_regs (pv_dma (priv d)).
Proof. eexists. split; [reflexivity|]. by split_and!. Qed.

Lemma request_tstamp_shape id md c d d' s : request_tstamp id md c d = Ok (tt, d') ->
  skbs d !! id = Some s -> exists s', skbs d' !! id = Some s' /\
    skb_data s' = skb_data s /\ skb_len s' = skb_len s /\
    pv_dma (priv d') = pv_dma (priv d) /\ bar1 d' = bar1 d.
Proof.
  intros E Hs. unfold request_tstamp in E. inv_cmd E. revert E.
  case_decide; [|intros [= <-]; by exists s].
  destruct (Z.testbit _ _); [intros [= <-]; by exists s|]. intros E.
  rewrite (cmd_bind_run _ _ d s d) in E by (unfold get_skb; by rewrite Hs).
  unfold set_skb at 1 in E. erewrite cmd_bind_run in E by reflexivity.
  unfold skb_get in E.
  apply cmd_bind_ok in E as ([] & d2 & E2 & E).
  erewrite cmd_bind_run in E2 by (unfold get_skb; cbn [skbs set_skbs]; by rewrite lookup_insert_eq).
  apply modify_ok in E2 as [_ ->]. inv_cmd E.
  match goal with H : put_work _ _ = _ |- _ => unfold put_work in H; inv_cmd H end.
  unfold on_world in E. inv_cmd E. cbn. eexists. split; [apply lookup_insert_eq|]. done.
Qed.

(** The transmit slot holds the frame and the address it was mapped at, the descriptor
    describes it, and the engine has been started with the descriptor. *)
Record described (id : nat) (addr len : Z) d' : Prop := {
  ds_skb : tx_skb (pv_dma (priv d')) = Some id;
  ds_slot : tx_dma_addr (pv_dma (priv d')) = addr;
  ds_control : control (tx_desc (pv_dma (priv d'))) = 0xAD4B0013;
  ds_bytes : bytes (tx_desc (pv_dma (priv d'))) = u32 len;
  ds_addr : fits_u64 addr -> src_addr_hi (tx_desc (pv_dma (priv d'))) * 2 ^ 32 +
    src_addr_lo (tx_desc (pv_dma (priv d'))) = addr;
  ds_started : exists w, world d' = doorbell (pv_dma (priv d')) (bar1 d') w }.

(** A transmitted frame and its descriptor. *)
Lemma transmit_frame_armed id q c d d' s :
  transmit_frame id q c d = Ok (NETDEV_TX_OK, d') -> skbs d !! id = Some s ->
  exists addr s', fst (dma_map_single (skb_data s) (skb_len s) (world d)) = Some addr /\
    skbs d' !! id = Some s' /\ skb_data s' = skb_data s /\ skb_len s' = skb_len s /\
    described id addr (skb_len s) d'.
Proof.
  intros E Hs. unfold transmit_frame in E.
  rewrite (cmd_bind_run _ _ d s d) in E by (unfold get_skb; by rewrite Hs).
  apply cmd_bind_ok in E as (a & d1 & E1 & E). unfold ask_world in E1.
  destruct (dma_map_single _ _ _) as [[addr|] w]; injection E1 as <- <-; [|by inv_cmd E].
  apply cmd_bind_ok in E as (md & d1 & E1 & E). apply lift_ok in E1 as [_ ->].
  apply cmd_bind_ok in E as ([] & d2 & E2 & E).
  apply cmd_bind_ok in E as ([] & d3 & E3 & E). injection E as <-.
  assert (exists s', skbs d2 !! id = Some s' /\ skb_data s' = skb_data s /\ skb_len s' = skb_len s) as (s' & Hs' & Hdata & Hlen).
  { destruct (skb_hw_tstamp s); [|inv_cmd E2; by exists s].
    destruct (request_tstamp_shape _ _ _ _ _ s E2 Hs) as (s' & ? & ? & ? & _). by exists s'. }
  destruct (start_dma_run id addr (skb_len s) d2) as (v & E3' & Hskb & Hsk & Hdesc & Hslot & Hbar & Hbus & Hregs).
  rewrite E3 in E3'. injection E3' as ->.
  exists addr, s'. split; [reflexivity|]. split; [by cbn [skbs set_world]; rewrite Hsk|]. split; [done|]. split; [done|].
  split; cbn [priv set_world world bar1]; rewrite ?Hdesc; [done|done|reflexivity|reflexivity|
    |exists (world d2); unfold doorbell; by rewrite Hbar, Hbus, Hregs].
  cbn. intros Ha. unfold PCI_DMA_H, PCI_DMA_L. rewrite Z.shiftr_shiftr by lia.
  change (Z.land addr 0xffffffff) with (Z.land addr (Z.ones 32)). rewrite Z.land_ones by lia.
  rewrite Z.shiftr_div_pow2 by lia. change (2 ^ (16 + 16)) with 4294967296.
  change (2 ^ 32) with 4294967296. unfold fits_u64 in Ha. int_lia.
Qed.

(** ** Transmission returns *)

Lemma request_tstamp_run id md c d s : wf_work (pv_work (priv d)) -> skbs d !! id = Some s ->
  0 <= md_timestamp_id md <= 2 -> exists d', request_tstamp id md c d = Ok (tt, d').
Proof.
  intros [Hk _ _ Ha Hu] Hs Hi. unfold request_tstamp. cstep.
  case_decide; [|by eexists]. destruct (Z.testbit _ _); [by eexists|].
  rewrite (cmd_bind_run _ _ d s d) by (by unfold get_skb; rewrite Hs). unfold set_skb at 1. cstep.
  erewrite cmd_bind_run.
  2: { unfold skb_get. erewrite cmd_bind_run by
         (unfold get_skb; cbn [skbs set_skbs]; by rewrite lookup_insert_eq). reflexivity. }
  do 3 (cstep_by (apply lift_run, aset_run; rewrite ?Hk, ?Ha, ?Hu; unfold TSN_TIMESTAMP_ID_MAX; lia)).
  by eexists.
Qed.

Lemma transmit_frame_run id q c d s : wf_work (pv_work (priv d)) -> skbs d !! id = Some s ->
  header_ok (skb_data s) -> exists r d', transmit_frame id q c d = Ok (r, d').
Proof.
  intros Hw Hs (md & Hmd & Hi). unfold transmit_frame.
  rewrite (cmd_bind_run _ _ d s d) by (by unfold get_skb; rewrite Hs).
  destruct (dma_map_single (skb_data s) (skb_len s) (world d)) as [a w] eqn:Em.
  rewrite (cmd_bind_run _ _ d a (set_world w d)) by (unfold ask_world; by rewrite Em).
  destruct a as [addr|]; [|by do 2 eexists].
  rewrite (cmd_bind_run _ _ _ _ _ (lift_run _ _ _ Hmd)).
  assert (exists d1, (if skb_hw_tstamp s then request_tstamp id md c else mret tt) (set_world w d)
    = Ok (tt, d1)) as [d1 E1].
  { destruct (skb_hw_tstamp s); [|by eexists]. by eapply request_tstamp_run. }
  rewrite (cmd_bind_run _ _ _ _ _ E1). destruct (start_dma_run id addr (skb_len s) d1) as (? & E2 & _).
  rewrite (cmd_bind_run _ _ _ _ _ E2). by do 2 eexists.
Qed.

(** The frame after its place has been found or refused. *)
Definition prepared (junk : timestamps) (id : nat) (s : sk_buff) d (r : bool * Z) d2 : Prop :=
  exists d1, skbs d1 = <[id := sized s]> (skbs d) /\ pv_work (priv d1) = pv_work (priv d) /\
    prepare_frame junk id (Z.max ETH_ZLEN (skb_len s)) d1 = Ok (r, d2).

(** Armed: the frame, with the header in front, was given a place and mapped; the
    descriptor holds the address of that mapping. *)
Definition armed (junk : timestamps) (id : nat) (s : sk_buff) d d' : Prop :=
  exists r d2 s2 addr s', prepared junk id s d r d2 /\ fst r = true /\
    skbs d2 !! id = Some s2 /\ with_header (sized s) s2 /\
    fst (dma_map_single (skb_data s2) (skb_len s2) (world d2)) = Some addr /\
    skbs d' !! id = Some s' /\ skb_data s' = skb_data s2 /\ skb_len s' = skb_len s2 /\
    described id addr (Z.max ETH_ZLEN (skb_len s) + TX_METADATA_SIZE) d'.

(** Busy: the frame, with the header in front, is kept, because it was given no place
    or could not be mapped. *)
Definition kept_with_header (junk : timestamps) (id : nat) (s : sk_buff) d d' : Prop :=
  exists r d2 s', prepared junk id s d r d2 /\ skbs d' !! id = Some s' /\ with_header (sized s) s' /\
    (fst r = false \/ fst (dma_map_single (skb_data s') (skb_len s') (world d2)) = None) /\
    queue_woken (skb_queue_mapping s) d'.

Lemma drop_frame_run id q d s : skbs d !! id = Some s -> skb_refs s = 1 ->
  exists d', drop_frame id q d = Ok (NETDEV_TX_OK, d') /\ skbs d' !! id = None /\ queue_woken q d'.
Proof.
  intros Hs Hr. unfold drop_frame, on_world, dev_kfree_skb. cstep.
  erewrite cmd_bind_run.
  2: { rewrite (cmd_bind_run _ _ _ s (set_world (netif_subqueue q true (world d)) d))
         by (unfold get_skb; cbn [skbs set_world]; by rewrite Hs).
       rewrite decide_True by done. reflexivity. }
  eexists. split; [reflexivity|]. split; [cbn; apply lookup_delete_eq|by eexists].
Qed.

Lemma send_frame_run junk id d d1 s : wf_work (pv_work (priv d)) ->
  skbs d1 = <[id := sized s]> (skbs d) -> pv_work (priv d1) = pv_work (priv d) ->
  match send_frame junk id (skb_queue_mapping s) (Z.max ETH_ZLEN (skb_len s)) d1 with
  | Ok (NETDEV_TX_OK, d') => armed junk id s d d'
  | Ok (NETDEV_TX_BUSY, d') => kept_with_header junk id s d d'
  | Fault f => prepare_frame junk id (Z.max ETH_ZLEN (skb_len s)) d1 = Fault f
  end.
Proof.
  intros Hw Hd1 Hpw. assert (skbs d1 !! id = Some (sized s)) as Hs by (rewrite Hd1; apply lookup_insert_eq).
  unfold send_frame. destruct (prepare_frame junk id _ d1) as [[r d2]|f] eqn:Hp.
  2: { unfold mbind, cmd_bind. by rewrite Hp. }
  rewrite (cmd_bind_run _ _ _ _ _ Hp).
  destruct (prepare_frame_shape _ _ _ _ _ _ _ Hp Hs) as (s1 & Hs1 & Hh & Hw1 & Hok).
  assert (prepared junk id s d r d2) as Hprep by by exists d1.
  destruct (fst r) eqn:Hr; cbn [negb].
  2: { exists r, d2, s1. split; [done|]. split; [exact Hs1|]. split; [done|]. split; [by left|by eexists]. }
  destruct (transmit_frame_run id (skb_queue_mapping s) (snd r) d2 s1) as (b & d' & E); [by rewrite Hw1, Hpw|done|by apply Hok|].
  rewrite E. destruct b.
  - destruct (transmit_frame_armed _ _ _ _ _ _ E Hs1) as (addr & s' & Hmap & Hs' & Hdata & Hlen & Hds).
    exists r, d2, s1, addr, s'. do 8 (split; [done|]).
    assert (skb_len s1 = Z.max ETH_ZLEN (skb_len s) + TX_METADATA_SIZE) as <- by apply Hh. exact Hds.
  - destruct (transmit_frame_busy _ _ _ _ _ _ E Hs1) as (Hsk & Hq & Hmap).
    exists r, d2, s1. rewrite Hsk. by split_and!; [..|right|].
Qed.

(** C23. Transmitting a frame the driver alone owns.  A frame longer than the device's
    buffer, or for whose header there is no memory, and no other, is dropped: it is
    freed, the queue woken, and success reported.  Any other frame gets the header put in
    front and a place in the schedule.  If it gets a place and is mapped, success is
    reported with the frame armed: the descriptor holds the magic, the stop, completed and
    end-of-packet bits, the address the mapping of just this buffer returned and the
    length of header and frame; the bus address of the descriptor is written and the
    engine is started last.  Otherwise busy is reported, with the header left in front
    of the frame and the queue woken.  The length counts at least 60 bytes of frame, but
    the data behind the header is what the frame had: for a shorter frame the device reads
    beyond it.  Nothing but the placement of the frame is ever undefined. *)
Theorem xmit_frees_or_arms junk id d s : skbs d !! id = Some s -> skb_refs s = 1 ->
  wf_work (pv_work (priv d)) ->
  match xdma_netdev_start_xmit junk id d with
  | Ok (NETDEV_TX_OK, d') =>
      (~ sendable s d /\ skbs d' !! id = None /\ queue_woken (skb_queue_mapping s) d') \/
      (sendable s d /\ armed junk id s d d')
  | Ok (NETDEV_TX_BUSY, d') => sendable s d /\ kept_with_header junk id s d d'
  | Fault f => sendable s d /\ exists d1, skbs d1 = <[id := sized s]> (skbs d) /\
      prepare_frame junk id (Z.max ETH_ZLEN (skb_len s)) d1 = Fault f
  end.
Proof.
  intros Hs Hr Hw. destruct (xmit_start junk id d s Hs) as (d1 & Hd1 & Hw1 & [[Hn ->]|[Hy ->]]).
  - destruct (drop_frame_run id (skb_queue_mapping s) d1 (sized s)) as (d' & -> & Hd' & Hq);
      [rewrite Hd1; apply lookup_insert_eq|done|by left].
  - pose proof (send_frame_run junk id d d1 s Hw Hd1 Hw1) as H.
    destruct (send_frame _ _ _ _ _) as [[[] d']|f]; [by right|by split|split; [done|by exists d1]].
Qed.
End xmit_props.

(** ** The time-stamp work item *)
Section work_props.
Context {W : Type} `{io : IoMem W} {io_ok : IoMemOk W} `{nc : NetCore W}.
Implicit Types d : xdma_dev W.

Definition with_retry (i r : Z) (w : priv_work) : priv_work :=
  mkWork (tx_work_skb w) (tx_work_start_after w) (tx_work_wait_until w) (last_tx_tstamp w)
    (<[Z.to_nat i := r]> (tstamp_retry w)) (state w).
Definition with_state (st : Z) (w : priv_work) : priv_work :=
  mkWork (tx_work_skb w) (tx_work_start_after w) (tx_work_wait_until w) (last_tx_tstamp w)
    (tstamp_retry w) st.
Definition delivered (i stamp : Z) (w : priv_work) : priv_work :=
  mkWork (<[Z.to_nat i := None]> (tx_work_skb w)) (tx_work_start_after w) (tx_work_wait_until w)
    (<[Z.to_nat i := stamp]> (last_tx_tstamp w)) (tstamp_retry w) (state w).

Lemma set_retry_run i r d : wf_work (pv_work (priv d)) -> 0 <= i < 5 ->
  set_retry i r d = Ok (tt, set_work (with_retry i r (pv_work (priv d))) d).
Proof.
  intros [_ Hl _ _ _] Hi. unfold set_retry. cstep.
  cstep_by (apply lift_run, aset_run; rewrite Hl; unfold TSN_TIMESTAMP_ID_MAX; lia). done.
Qed.

Lemma clear_state_bit_run i d :
  clear_state_bit i d = Ok (tt, set_work (with_state (Z.clearbit (state (pv_work (priv d))) i)
                                            (pv_work (priv d))) d).
Proof. reflexivity. Qed.

Lemma tx_work_error_run i d : wf_work (pv_work (priv d)) -> 0 <= i < 5 ->
  tx_work_error i d = Ok (tt, set_work (with_state (Z.clearbit (state (pv_work (priv d))) i)
    (with_retry i 0 (pv_work (priv d)))) d).
Proof. intros Hw Hi. unfold tx_work_error. by cstep_by (by apply set_retry_run). Qed.

(** The four ways a run of the work item can end, when it holds buffer [id] and has
    been late [r] times; [w] is the world after the last register it read. *)
Definition tx_waits (i : Z) d (w : W) d' : Prop :=
  d' = set_world (schedule_work i w) d.
Definition tx_retries (i r : Z) d (w : W) d' : Prop :=
  d' = set_work (with_retry i (r + 1) (pv_work (priv d))) (set_world (schedule_work i w) d).
Definition tx_gives_up (i : Z) d (w : W) d' : Prop :=
  d' = set_work (with_state (Z.clearbit (state (pv_work (priv d))) i) (with_retry i 0 (pv_work (priv d)))) (set_world w d).
Definition tx_delivers (i : Z) (id : nat) (stamp hwtstamp : Z) d (w : W) d' : Prop :=
  exists s, skbs d !! id = Some s /\
  d' = set_skbs (if decide (skb_refs s = 1) then delete id (skbs d) else <[id := set_refs (skb_refs s - 1) s]> (skbs d))
    (set_work (with_state (Z.clearbit (state (pv_work (priv d))) i)
       (delivered i stamp (with_retry i 0 (pv_work (priv d)))))
      (set_world (skb_tstamp_tx id hwtstamp w) d)).

Lemma sys_clock_run d : exists v w, alinx_get_sys_clock d = Ok (v, set_world w d).
Proof.
  destruct (alinx_get_sys_clock_total d) as (v & d' & E). pose proof (sys_clock_same _ _ _ E) as [w ->].
  by exists v, w.
Qed.

Lemma read_stamp_run i d : exists v w, alinx_read_tx_timestamp i d = Ok (v, set_world w d) /\ fits_u64 v.
Proof.
  assert (d = set_world (world d) d) as Hd by by destruct d.
  assert (forall hi lo, exists v w, read_pair hi lo d = Ok (v, set_world w d) /\ fits_u64 v) as Hp.
  { intros hi lo. unfold read_pair. do 2 (erewrite cmd_bind_run by apply read_bar0_run).
    do 2 eexists. split; [reflexivity|].
    destruct (read_pair_spec hi lo d _ _ ltac:(unfold read_pair;
      do 2 (erewrite cmd_bind_run by apply read_bar0_run); reflexivity)) as [Hv _]. exact Hv. }
  unfold alinx_read_tx_timestamp.
  repeat case_match; try apply Hp; exists 0, (world d); (split; [by rewrite <- Hd|done]).
Qed.

Lemma aget_entry {A} (l : list A) i : length l = TSN_TIMESTAMP_ID_MAX -> 0 <= i < 5 ->
  exists a, aget l i = Ok a.
Proof. intros Hl Hi. apply aget_some. rewrite Hl. unfold TSN_TIMESTAMP_ID_MAX. lia. Qed.

Lemma kfree_eq id d s : skbs d !! id = Some s -> dev_kfree_skb id d =
  Ok (tt, set_skbs (if decide (skb_refs s = 1) then delete id (skbs d) else <[id := set_refs (skb_refs s - 1) s]> (skbs d)) d).
Proof.
  intros Hs. unfold dev_kfree_skb. rewrite (cmd_bind_run _ _ d s d) by (unfold get_skb; by rewrite Hs).
  by case_decide.
Qed.
Lemma kfree_run id d s : skbs d !! id = Some s -> exists d', dev_kfree_skb id d = Ok (tt, d') /\
  irq_count d' = irq_count d /\
  skbs d' !! id = (if decide (skb_refs s = 1) then None else Some (set_refs (skb_refs s - 1) s)).
Proof.
  intros Hs. rewrite (kfree_eq _ _ _ Hs). eexists. split; [reflexivity|]. split; [done|]. cbn. case_decide; [apply lookup_delete_eq|apply lookup_insert_eq].
Qed.

(** A new time stamp [stamp]: it is delivered, or it does not convert. *)
Lemma tx_work_deliver_run i id stamp d s : wf_work (pv_work (priv d)) -> 0 <= i < 5 -> skbs d !! id = Some s ->
  match timestamp_at stamp d with
  | Ok t => exists d', tx_work_deliver i id stamp d = Ok (tt, d') /\
      tx_delivers i id stamp (u64 (t + TX_ADJUST_NS)) d (world d) d'
  | Fault f => tx_work_deliver i id stamp d = Fault f
  end.
Proof.
  intros Hw Hi Hs. pose proof Hw as [Hk _ Hl _ _]. unfold tx_work_deliver.
  rewrite (cmd_bind_run _ _ _ _ _ (set_retry_run i 0 d Hw Hi)).
  set (d1 := set_work _ d). unfold alinx_sysclock_to_txtstamp, alinx_sysclock_to_timestamp.
  assert (timestamp_at stamp d1 = timestamp_at stamp d) as Ht by done.
  destruct (timestamp_at stamp d) as [t|f].
  2: { unfold mbind, cmd_bind, get, lift. by rewrite Ht. }
  rewrite (cmd_bind_run _ _ d1 (u64 (t + TX_ADJUST_NS)) d1)
    by (unfold mbind, cmd_bind, get, lift; by rewrite Ht).
  unfold get_work. cstep.
  cstep_by (apply lift_run, aset_run; cbn; rewrite Hl; unfold TSN_TIMESTAMP_ID_MAX; lia).
  cstep_by (apply lift_run, aset_run; cbn; rewrite Hk; unfold TSN_TIMESTAMP_ID_MAX; lia).
  unfold put_work, on_world. cstep. erewrite cmd_bind_run by apply clear_state_bit_run. cstep.
  match goal with |- exists d', dev_kfree_skb id ?x = _ /\ _ => rewrite (kfree_eq id x s Hs) end.
  eexists. split; [reflexivity|]. by exists s.
Qed.

Lemma tx_work_late_run i r u late d w w1 : wf_work (pv_work (priv d)) -> 0 <= i < 5 ->
  tx_work_wait_until (pv_work (priv d)) !! Z.to_nat i = Some u ->
  tstamp_retry (pv_work (priv d)) !! Z.to_nat i = Some r -> 0 <= r < TX_TSTAMP_MAX_RETRY ->
  alinx_get_sys_clock (set_world w d) = Ok (late, set_world w1 d) ->
  exists d', tx_work_late i (pv_work (priv d)) (set_world w d) = Ok (tt, d') /\
    (if decide (late < u) then tx_waits i d w1 d' else
     if decide (r + 1 < TX_TSTAMP_MAX_RETRY) then tx_retries i r d w1 d' else tx_gives_up i d w1 d').
Proof.
  intros Hw Hi Hu Hr Hrr Eclk. unfold tx_work_late.
  rewrite (cmd_bind_run _ _ _ _ _ Eclk).
  rewrite (cmd_bind_run _ _ _ u _ (lift_run _ _ _ (proj2 (aget_ok _ _ _) (conj (proj1 Hi) Hu)))).
  destruct (decide (late < u)); [by eexists|].
  rewrite (cmd_bind_run _ _ _ r _ (lift_run _ _ _ (proj2 (aget_ok _ _ _) (conj (proj1 Hi) Hr)))).
  unfold TX_TSTAMP_MAX_RETRY in *. rewrite s32_small by (unfold fits_s32; lia).
  erewrite cmd_bind_run by (by apply set_retry_run).
  destruct (decide (5 <= r + 1)), (decide (r + 1 < 5)); [lia| |by eexists|lia].
  eexists. split.
  { apply tx_work_error_run; [|done]. destruct Hw. by split; cbn; rewrite ?length_insert. }
  unfold tx_gives_up, set_work, with_state, with_retry. cbn. by rewrite list_insert_insert_eq.
Qed.

(** C24. What the work item of a frame does is decided by the clock, the time-stamp
    register and its tables.  Before the time the transmission can start, and, while
    the register shows no new time stamp, before its deadline, it is rescheduled and
    nothing else changes.  Past the deadline without a new time stamp it counts one more
    attempt and is rescheduled, below five attempts; with the fifth it gives up: it is
    not rescheduled, frees its slot in the state word and resets the count, but keeps the
    frame in the table and its reference.  As soon as there is a new time stamp, it reports
    for this frame the time the clock's scale converts it to, adjusted for the
    transmit path, and releases slot, table entry and reference.  The only thing
    undefined is the conversion of a time stamp that is too large for the scale. *)
Theorem do_tx_work_cases i id r after until last d s :
  1 <= i <= 4 -> wf_work (pv_work (priv d)) ->
  tx_work_skb (pv_work (priv d)) !! Z.to_nat i = Some (Some id) -> skbs d !! id = Some s ->
  tx_work_start_after (pv_work (priv d)) !! Z.to_nat i = Some after ->
  tx_work_wait_until (pv_work (priv d)) !! Z.to_nat i = Some until ->
  last_tx_tstamp (pv_work (priv d)) !! Z.to_nat i = Some last ->
  tstamp_retry (pv_work (priv d)) !! Z.to_nat i = Some r -> 0 <= r < TX_TSTAMP_MAX_RETRY ->
  exists now w1, alinx_get_sys_clock d = Ok (now, set_world w1 d) /\
    if decide (now < after) then exists d', do_tx_work i d = Ok (tt, d') /\ tx_waits i d w1 d' else
    exists stamp w2, alinx_read_tx_timestamp i (set_world w1 d) = Ok (stamp, set_world w2 d) /\
      if decide (stamp = last) then
        exists late w3 d', alinx_get_sys_clock (set_world w2 d) = Ok (late, set_world w3 d) /\
          do_tx_work i d = Ok (tt, d') /\
          (if decide (late < until) then tx_waits i d w3 d' else
           if decide (r + 1 < TX_TSTAMP_MAX_RETRY) then tx_retries i r d w3 d' else tx_gives_up i d w3 d')
      else
        match timestamp_at stamp d with
        | Ok t => exists d', do_tx_work i d = Ok (tt, d') /\
            tx_delivers i id stamp (u64 (t + TX_ADJUST_NS)) d w2 d'
        | Fault f => do_tx_work i d = Fault f
        end.
Proof.
  intros Hi Hw Hid Hs Ha Hu Hl Hr Hrr. assert (0 <= i < 5) as Hi5 by lia.
  destruct (sys_clock_run d) as (now & w1 & Eclk). exists now, w1. split; [done|].
  destruct (read_stamp_run i (set_world w1 d)) as (stamp & w2 & Est & _).
  assert (forall {A} (l : list A) x, l !! Z.to_nat i = Some x -> aget l i = Ok x) as Hget
    by (intros A l x Hx; apply aget_ok; split; [lia|done]).
  assert (do_tx_work i d = (if decide (now < after) then tx_work_retry i else
    if decide (stamp = last) then tx_work_late i (pv_work (priv d)) else tx_work_deliver i id stamp)
      (if decide (now < after) then set_world w1 d else set_world w2 d)) as ->.
  { unfold do_tx_work, get_work at 1. cstep.
    rewrite (cmd_bind_run _ _ _ _ _ (lift_run _ d _ (Hget _ _ _ Hid))).
    rewrite (cmd_bind_run _ _ _ _ _ Eclk), decide_False by (unfold TSN_TIMESTAMP_ID_MAX; lia).
    rewrite (cmd_bind_run _ _ _ _ _ (lift_run _ _ _ (Hget _ _ _ Ha))). destruct (decide (now < after)); [done|].
    rewrite (cmd_bind_run _ _ _ _ _ Est), (cmd_bind_run _ _ _ _ _ (lift_run _ _ _ (Hget _ _ _ Hl))). done. }
  destruct (decide (now < after)); [by eexists|].
  exists stamp, w2. split; [exact Est|]. destruct (decide (stamp = last)) as [|Hne].
  - destruct (sys_clock_run (set_world w2 d)) as (late & w3 & Eclk2).
    destruct (tx_work_late_run i r until late d w2 w3 Hw Hi5 Hu Hr Hrr Eclk2) as (d' & E & Hcases).
    exists late, w3, d'. by split_and!.
  - pose proof (tx_work_deliver_run i id stamp (set_world w2 d) s Hw Hi5 Hs) as H.
    change (timestamp_at stamp (set_world w2 d)) with (timestamp_at stamp d) in H.
    destruct (timestamp_at stamp d); exact H.
Qed.
End work_props.

(** ** The interrupt handler *)
Section isr_props.
Context {W : Type} `{io : IoMem W} {io_ok : IoMemOk W} `{nd : NetDevTc W} `{nc : NetCore W}.
Implicit Types d : xdma_dev W.

(** Reception leaves frames, slot and counter of the transmit side alone. *)
Definition tx_untouched d d' : Prop :=
  skbs d' = skbs d /\ pv_dma (priv d') = pv_dma (priv d) /\ irq_count d' = irq_count d.

Lemma rx_timestamp_same c d v d' : alinx_get_rx_timestamp c d = Ok (v, d') -> d' = d.
Proof. unfold alinx_get_rx_timestamp, alinx_sysclock_to_timestamp. intros E. by inv_cmd E. Qed.

(** The last three accesses of every exit of the receive part. *)
Definition rx_restarted (x : irq_ctx) (w' : W) : Prop :=
  exists w, w' = iowrite32 DMA_ENGINE_START (c2h_regs x + ENGINE_CONTROL)
    (iowrite32 (c2h_irq_bitmask x) (config_bar x + XDMA_OFS_INT_CTRL + CHANNEL_INT_ENABLE_W1S)
      (iowrite32 DMA_ENGINE_STOP (c2h_regs x + ENGINE_CONTROL) w)).

Lemma restart_rx_run x d d' u : restart_rx x d = Ok (u, d') ->
  tx_untouched d d' /\ rx_restarted x (world d').
Proof.
  intros [= _ <-]. split; [done|]. by eexists.
Qed.

(** Register accesses and allocations leave the received frame alone. *)
Class RxMemOk (W : Type) `{IoMem W} `{NetCore W} : Prop := {
  rx_read a (w : W) : rx_result_length (snd (ioread32 a w)) = rx_result_length w /\
    rx_dma_buffer (snd (ioread32 a w)) = rx_dma_buffer w;
  rx_write v a (w : W) : rx_result_length (iowrite32 v a w) = rx_result_length w /\
    rx_dma_buffer (iowrite32 v a w) = rx_dma_buffer w;
  rx_kmem (w : W) : rx_dma_buffer (snd (kmem_ok w)) = rx_dma_buffer w }.

(** The length of the frame without header and checksum, and the frame. *)
Definition rx_frame_len (w : W) : Z := s32 (u32 (rx_result_length w) - RX_METADATA_SIZE - CRC_LEN).
Definition rx_frame (w : W) : list Z :=
  take (Z.to_nat (rx_frame_len w)) (drop (Z.to_nat RX_METADATA_SIZE) (rx_dma_buffer w)).

(** What the device must have written for the handler to be defined: a length
    within the buffer, a frame the filter can classify, a time stamp that converts. *)
Definition rx_ready d : Prop := 0 <= rx_frame_len (world d) ->
  RX_METADATA_SIZE + rx_frame_len (world d) <= Z.of_nat (length (rx_dma_buffer (world d))) /\
  exists b, filter_rx_timestamp (rx_filter (tstamp_config (priv d))) (rx_frame (world d)) = Ok b /\
    (b = true -> exists raw t, get64 (rx_dma_buffer (world d)) 0 = Ok raw /\ timestamp_at raw d = Ok t).

Lemma restart_rx_ok x d : exists d', restart_rx x d = Ok (tt, d').
Proof. by eexists. Qed.

Lemma rx_stamp_run raw t d : timestamp_at raw d = Ok t ->
  alinx_get_rx_timestamp raw d = Ok (u64 (t - RX_ADJUST_NS), d).
Proof.
  intros Ht. unfold alinx_get_rx_timestamp, alinx_sysclock_to_timestamp, mbind, cmd_bind, get, lift.
  by rewrite Ht.
Qed.

Lemma isr_rx_run `{!RxMemOk W} x d : rx_ready d -> exists ok d', isr_rx x d = Ok (ok, d').
Proof.
  intros Hr. unfold isr_rx, engine_status_read, read32.
  destruct (ioread32 (c2h_regs x + ENGINE_STATUS_RC) (world d)) as [v w] eqn:Er.
  destruct (rx_read (c2h_regs x + ENGINE_STATUS_RC) (world d)) as [Hl Hb]. rewrite Er in Hl, Hb.
  cbn [snd] in Hl, Hb.
  rewrite (cmd_bind_run _ _ d v (set_world w d)) by (by rewrite Er).
  rewrite (cmd_bind_run _ _ _ (rx_frame_len (world d)) (set_world w d))
    by (unfold gets, rx_frame_len; cbn; by rewrite Hl).
  destruct (decide (rx_frame_len (world d) < 0)) as [|Hpos]; [by do 2 eexists|].
  destruct Hr as (Hlen & b & Hf & Hst); [lia|].
  destruct (kmem_ok w) as [m w1] eqn:Ek. pose proof (rx_kmem w) as Hb1. rewrite Ek in Hb1. cbn in Hb1.
  rewrite (cmd_bind_run _ _ _ m (set_world w1 d)) by (unfold ask_world; cbn; by rewrite Ek).
  destruct m; cbn [negb]; [|by do 2 eexists].
  rewrite (cmd_bind_run _ _ _ (rx_dma_buffer (world d)) (set_world w1 d))
    by (unfold gets; cbn; by rewrite Hb1, Hb).
  rewrite decide_True by done. cstep. cstep.
  rewrite (cmd_bind_run _ _ _ b (set_world w1 d)) by (by apply lift_run).
  destruct b; [|cstep; cstep; by do 2 eexists].
  destruct (Hst eq_refl) as (raw & t & Hraw & Ht).
  rewrite (cmd_bind_run _ _ _ (Some (u64 (t - RX_ADJUST_NS))) (set_world w1 d)); [by do 2 eexists|].
  rewrite (cmd_bind_run _ _ _ _ _ (lift_run _ _ _ Hraw)).
  by rewrite (cmd_bind_run _ _ _ _ _ (rx_stamp_run raw t (set_world w1 d) Ht)).
Qed.

Lemma isr_rx_inv x d ok d' : isr_rx x d = Ok (ok, d') ->
  tx_untouched d d' /\ rx_restarted x (world d').
Proof.
  intros E. unfold isr_rx, engine_status_read, read32, ask_world, on_world in E.
  apply cmd_bind_ok in E as (v & d1 & E1 & E).
  destruct (ioread32 _ _) as [v1 w1]. injection E1 as <- <-.
  apply cmd_bind_ok in E as (len & d1 & E1 & E). apply gets_ok in E1 as [_ ->].
  revert E. case_decide; intros E.
  { apply cmd_bind_ok in E as (u & d2 & E2 & [= _ <-]).
    apply restart_rx_run in E2 as [[? [? ?]] ?]. by repeat split. }
  apply cmd_bind_ok in E as (b & d1 & E1 & E).
  destruct (kmem_ok _) as [b' w2]. injection E1 as <- <-.
  destruct (negb b').
  { apply cmd_bind_ok in E as (u & d2 & E2 & [= _ <-]).
    apply restart_rx_run in E2 as [[? [? ?]] ?]. by repeat split. }
  inv_cmd E. revert E2.
  match goal with |- context [if ?b then _ else _] => destruct b end; intros E2; inv_cmd E2;
    repeat match goal with
    | H : alinx_get_rx_timestamp _ _ = _ |- _ => apply rx_timestamp_same in H; subst
    | H : modify _ _ = _ |- _ => inv_cmd H
    | H : restart_rx _ _ = _ |- _ => apply restart_rx_run in H as [[? [? ?]] ?]
    end; by repeat split.
Qed.

(** Completion of the armed frame: its reference is dropped and the slot emptied. *)
Definition tx_completed d d' : Prop :=
  exists id s, tx_skb (pv_dma (priv d)) = Some id /\ skbs d !! id = Some s /\
    tx_skb (pv_dma (priv d')) = None /\
    skbs d' !! id = (if decide (skb_refs s = 1) then None else Some (set_refs (skb_refs s - 1) s)).

Lemma isr_tx_inv x d d' : isr_tx x d = Ok (tt, d') ->
  tx_completed d d' /\ irq_count d' = irq_count d.
Proof.
  intros E. unfold isr_tx, engine_status_read, read32, on_world, get_dma in E.
  apply cmd_bind_ok in E as (v & d1 & E1 & E).
  destruct (ioread32 _ _) as [v1 w1]. injection E1 as <- <-.
  apply cmd_bind_ok in E as (m & d1 & E1 & E). apply gets_ok in E1 as [-> ->].
  destruct (tx_skb _) as [id|] eqn:Hid; [|done]. cbn in Hid.
  apply cmd_bind_ok in E as (s & d1 & E1 & E). unfold get_skb in E1. cbn [skbs set_world] in E1.
  destruct (skbs d !! id) as [s'|] eqn:Hs; [|done]. injection E1 as <- <-.
  erewrite cmd_bind_run in E by reflexivity.
  apply cmd_bind_ok in E as ([] & d2 & E2 & E).
  match type of E2 with dev_kfree_skb _ ?x = _ =>
    destruct (kfree_run id x s' ltac:(exact Hs)) as (e & E' & Hirq & Hsk) end.
  rewrite E2 in E'. injection E' as <-. injection E as <-.
  split; [|exact Hirq]. exists id, s'. by split_and!.
Qed.

Lemma isr_tx_run x d id s : tx_skb (pv_dma (priv d)) = Some id -> skbs d !! id = Some s ->
  exists d', isr_tx x d = Ok (tt, d').
Proof.
  intros Hid Hs. unfold isr_tx, engine_status_read, read32.
  destruct (ioread32 (h2c_regs x + ENGINE_STATUS_RC) (world d)) as [v w] eqn:Er.
  rewrite (cmd_bind_run _ _ d v (set_world w d)) by (by rewrite Er). unfold get_dma. cstep.
  cbn [priv set_world]. rewrite Hid.
  rewrite (cmd_bind_run _ _ _ s (set_world w d)) by (unfold get_skb; cbn; by rewrite Hs). unfold on_world at 1. cstep.
  match goal with |- context [(dev_kfree_skb id ≫= _) ?y] =>
    destruct (kfree_run id y s Hs) as (e & E & _) end.
  rewrite (cmd_bind_run _ _ _ _ _ E). by eexists.
Qed.

(** The pending interrupts the handler reads. *)
Definition irq_pending (x : irq_ctx) d : Z :=
  fst (ioread32 (config_bar x + XDMA_OFS_INT_CTRL + CHANNEL_INT_REQUEST) (world d)).

(** After the request register was read, what it showed is disabled; nothing else is
    accessed. *)
Definition irqs_disabled (x : irq_ctx) d (w : W) : Prop :=
  let w0 := snd (ioread32 (config_bar x + XDMA_OFS_INT_CTRL + CHANNEL_INT_REQUEST) (world d)) in
  w = if decide (irq_pending x d <> 0)
      then iowrite32 (irq_pending x d) (config_bar x + XDMA_OFS_INT_CTRL + CHANNEL_INT_ENABLE_W1C) w0 else w0.

Lemma rx_ready_same d w : rx_result_length w = rx_result_length (world d) ->
  rx_dma_buffer w = rx_dma_buffer (world d) -> rx_ready d -> rx_ready (set_world w d).
Proof.
  intros Hl Hb. unfold rx_ready, rx_frame, rx_frame_len. cbn [world set_world priv]. by rewrite Hl, Hb.
Qed.

(** The handler up to the receive part: the receive and the transmit side are as they
    were. *)
Lemma isr_head_run `{!RxMemOk W} x d : rx_ready d -> exists w,
  (ch_irq ← read32 (config_bar x + XDMA_OFS_INT_CTRL + CHANNEL_INT_REQUEST);
   _ ← (if decide (ch_irq <> 0) then channel_interrupts_disable x ch_irq else mret tt);
   mret ch_irq) d = Ok (irq_pending x d, set_world w d) /\ rx_ready (set_world w d) /\ irqs_disabled x d w.
Proof.
  intros Hr. unfold irqs_disabled, read32, irq_pending.
  destruct (ioread32 (config_bar x + XDMA_OFS_INT_CTRL + CHANNEL_INT_REQUEST) (world d)) as [v w] eqn:Er.
  destruct (rx_read (config_bar x + XDMA_OFS_INT_CTRL + CHANNEL_INT_REQUEST) (world d)) as [Hl Hb].
  rewrite Er in Hl, Hb. cbn [snd] in Hl, Hb.
  rewrite (cmd_bind_run _ _ d v (set_world w d)) by (by rewrite Er). cbn [fst snd].
  destruct (decide (v <> 0)).
  - eexists. split; [reflexivity|]. split; [|reflexivity].
    match goal with |- rx_ready (set_world (iowrite32 ?v ?a _) d) =>
      destruct (rx_write v a w) as [Hl' Hb'] end.
    apply rx_ready_same; [rewrite <- Hl; exact Hl'|rewrite <- Hb; exact Hb'|done].
  - exists w. split; [reflexivity|]. split; [|done]. by apply rx_ready_same.
Qed.

(** C27. The interrupt handler always returns, if the transmit channel interrupts only
    for an armed frame and the device has written a frame that fits its buffer.  When
    it reports the interrupt as handled it has counted it and, if the transmit
    channel was asserted, completed the armed frame.  When it gives up on reception (a
    runt, or no memory) it leaves the transmit side as it was, even if the transmit
    channel was asserted too, and of the interrupts it disabled only the receive one is
    enabled again.  Without a network device it gives up after disabling the pending
    interrupts, and enables none again; without a device it does nothing. *)
Theorem xdma_isr_cases `{!RxMemOk W} x d : rx_ready d ->
  (Z.land (irq_pending x d) (mask_irq_h2c x) <> 0 ->
     exists id s, tx_skb (pv_dma (priv d)) = Some id /\ skbs d !! id = Some s) ->
  xdma_isr None d = Ok (IRQ_NONE, d) /\
  exists r d', xdma_isr (Some x) d = Ok (r, d') /\
  match r with
  | IRQ_HANDLED =>
      has_ndev x = true /\ irq_count d' = s32 (irq_count d + 1) /\
      (Z.land (irq_pending x d) (mask_irq_h2c x) <> 0 -> tx_completed d d')
  | IRQ_NONE => tx_untouched d d' /\
      (if has_ndev x then rx_restarted x (world d') else irqs_disabled x d (world d'))
  end.
Proof.
  intros Hr Ht. split; [reflexivity|]. destruct (isr_head_run x d Hr) as (w & Eh & Hr' & Hdis).
  set (d1 := set_world w d) in *.
  assert (xdma_isr (Some x) d = (if negb (has_ndev x) then mret IRQ_NONE else
    ok ← (if decide (Z.land (irq_pending x d) (mask_irq_c2h x) <> 0) then isr_rx x else mret true);
    if negb ok then mret IRQ_NONE else
    _ ← (if decide (Z.land (irq_pending x d) (mask_irq_h2c x) <> 0) then isr_tx x else mret tt);
    _ ← modify (fun d => set_irq_count (s32 (irq_count d + 1)) d); mret IRQ_HANDLED) d1) as ->.
  { unfold xdma_isr. rewrite bool_decide_true by done. cbn [negb].
    apply cmd_bind_ok in Eh as (c & e1 & Ec & Eh).
    apply cmd_bind_ok in Eh as (u & e2 & Ed & Eh). apply ret_ok in Eh as [<- <-].
    by rewrite (cmd_bind_run _ _ _ _ _ Ec), (cmd_bind_run _ _ _ _ _ Ed). }
  destruct (has_ndev x); cbn [negb]; [|exists IRQ_NONE, d1; by split].
  assert (exists ok d2, (if decide (Z.land (irq_pending x d) (mask_irq_c2h x) <> 0) then isr_rx x
    else mret true) d1 = Ok (ok, d2) /\ tx_untouched d d2 /\ (ok = false -> rx_restarted x (world d2)))
    as (ok & d2 & E2 & Hu & Hre).
  { destruct (decide _); [|by exists true, d1].
    destruct (isr_rx_run x d1 Hr') as (ok & d2 & E). exists ok, d2. split; [done|].
    by apply isr_rx_inv in E as [? ?]. }
  rewrite (cmd_bind_run _ _ _ _ _ E2).
  destruct ok; cbn [negb]; [|exists IRQ_NONE, d2; by split; [|split; [|apply Hre]]].
  destruct Hu as (Hk & Hm & Hc). destruct (decide (Z.land (irq_pending x d) (mask_irq_h2c x) <> 0)) as [Hh|Hh].
  - destruct (Ht Hh) as (id & s & Hid & Hs).
    destruct (isr_tx_run x d2 id s) as [d3 E3]; [by rewrite Hm|by rewrite Hk|].
    rewrite (cmd_bind_run _ _ _ _ _ E3). apply isr_tx_inv in E3 as [(i & s' & ? & ? & ? & ?) Hc'].
    eexists IRQ_HANDLED, _. split; [reflexivity|]. split; [done|]. cbn. rewrite Hc', Hc. split; [done|]. intros _.
    exists i, s'. rewrite <- Hm, <- Hk. by split_and!.
  - eexists IRQ_HANDLED, _. split; [reflexivity|]. split; [done|]. cbn. rewrite Hc. by split.
Qed.
End isr_props.

(** ** Witnesses *)

(** On the concrete world allocations and mappings succeed, and the length the
    device reports for a received frame is a register of its own. *)
Definition SIM_RX_LENGTH : Z := 0x99999.

#[export] Instance sim_netcore : NetCore sim := {|
  netif_carrier _ w := w; netif_queue _ w := w; netif_subqueue _ _ w := w;
  schedule_work _ w := w; kmem_ok w := (true, w);
  dma_map_single _ _ w := (Some 0x123456000, w); dma_unmap_single _ _ w := w;
  skb_tstamp_tx _ _ w := w; netif_rx _ _ w := w;
  rx_result_length w := default 0 (prio_tc w !! SIM_RX_LENGTH);
  rx_dma_buffer _ := replicate 1560 0 |}.

Lemma tx_work_time_exact_witness : tx_work_time (2 ^ 40 - 5) (u29 (2 ^ 40 + 3000)) = 2 ^ 40 + 3000.
Proof.
  apply (tx_work_time_exact (2 ^ 40 - 5) (2 ^ 40 + 3000)); unfold TX_WORK_OVERFLOW_MARGIN;
    [lia|lia|vm_compute; congruence].
Defined.

(** A 42-byte gPTP frame, and a device with [n] frames in the hardware queue. *)
Definition short_frame : sk_buff :=
  mkSkb (replicate 12 0 ++ [0x88; 0xF7] ++ replicate 28 0) 42 0 false false 1.
Definition xmit_dev (n : Z) : xdma_dev sim :=
  set_skbs {[ 0%nat := short_frame ]}
    (set_tsn (set_tc_buffer_tracker (mkTracker n 0) sample_config)
      (sim_dev (mkSim {[ (0x10000 + REG_SYS_CLOCK_LO) := 1000000 ]} 0 ∅))).

Definition ran {A} (x : outcome (A * xdma_dev sim)) : xdma_dev sim :=
  match x with Ok (_, d) => d | Fault _ => sim_dev sim0 end.
Definition busy_dev : xdma_dev sim :=
  ran (xdma_netdev_start_xmit zero_timestamps 0 (xmit_dev 127)).

Lemma busy_frame_keeps_header_witness : exists s', skbs busy_dev !! 0%nat = Some s' /\
  length (skb_data s') = (32 + 42)%nat /\ skb_len s' = 60 + TX_METADATA_SIZE /\ skb_refs s' = 1.
Proof.
  apply (busy_frame_keeps_header zero_timestamps 0 (xmit_dev 127) busy_dev short_frame);
    vm_compute; reflexivity.
Defined.

Lemma xmit_frees_or_arms_witness :
  match xdma_netdev_start_xmit zero_timestamps 0 (xmit_dev 3) with
  | Ok (NETDEV_TX_OK, d') =>
      (~ sendable short_frame (xmit_dev 3) /\ skbs d' !! 0%nat = None /\ queue_woken 0 d') \/
      (sendable short_frame (xmit_dev 3) /\ armed zero_timestamps 0 short_frame (xmit_dev 3) d')
  | Ok (NETDEV_TX_BUSY, d') => sendable short_frame (xmit_dev 3) /\
      kept_with_header zero_timestamps 0 short_frame (xmit_dev 3) d'
  | Fault f => sendable short_frame (xmit_dev 3) /\
      exists d1, skbs d1 = <[0%nat := sized short_frame]> (skbs (xmit_dev 3)) /\
      prepare_frame zero_timestamps 0 (Z.max ETH_ZLEN (skb_len short_frame)) d1 = Fault f
  end.
Proof.
  apply (xmit_frees_or_arms zero_timestamps 0 (xmit_dev 3) short_frame); by vm_compute.
Defined.

(** On this device the frame is sent. *)
Example xmit_sends : exists d', xdma_netdev_start_xmit zero_timestamps 0 (xmit_dev 3) = Ok (NETDEV_TX_OK, d').
Proof. eexists. vm_compute. reflexivity. Qed.

(** A work item past its deadline whose time stamp never comes, after [r] attempts. *)
Definition late_dev (r : Z) : xdma_dev sim :=
  set_work (mkWork (<[1%nat := Some 0%nat]> (replicate 5 None)) (replicate 5 0) (replicate 5 0)
              (replicate 5 0) (<[1%nat := r]> (replicate 5 0)) 2) (xmit_dev 3).

Lemma do_tx_work_cases_witness :
  exists now w1, alinx_get_sys_clock (late_dev 4) = Ok (now, set_world w1 (late_dev 4)) /\
    if decide (now < 0) then exists d', do_tx_work 1 (late_dev 4) = Ok (tt, d') /\ tx_waits 1 (late_dev 4) w1 d' else
    exists stamp w2, alinx_read_tx_timestamp 1 (set_world w1 (late_dev 4)) = Ok (stamp, set_world w2 (late_dev 4)) /\
      if decide (stamp = 0) then
        exists late w3 d', alinx_get_sys_clock (set_world w2 (late_dev 4)) = Ok (late, set_world w3 (late_dev 4)) /\
          do_tx_work 1 (late_dev 4) = Ok (tt, d') /\
          (if decide (late < 0) then tx_waits 1 (late_dev 4) w3 d' else
           if decide (4 + 1 < TX_TSTAMP_MAX_RETRY) then tx_retries 1 4 (late_dev 4) w3 d' else tx_gives_up 1 (late_dev 4) w3 d')
      else
        match timestamp_at stamp (late_dev 4) with
        | Ok t => exists d', do_tx_work 1 (late_dev 4) = Ok (tt, d') /\
            tx_delivers 1 0 stamp (u64 (t + TX_ADJUST_NS)) (late_dev 4) w2 d'
        | Fault f => do_tx_work 1 (late_dev 4) = Fault f
        end.
Proof.
  apply (do_tx_work_cases 1 0 4 0 0 0 (late_dev 4) short_frame); [lia|by split|reflexivity..|].
  unfold TX_TSTAMP_MAX_RETRY. lia.
Defined.

(** A runt and a completed transmission in the same interrupt. *)
Definition sample_irq : irq_ctx := mkIrqCtx 0x20000 2 1 0x12000 2 0x11000 1 true.
Definition irq_dev : xdma_dev sim :=
  set_dma (set_tx_slot 0x123456000 (Some 0%nat) (pv_dma zero_priv))
    (set_world (mkSim (<[0x20000 + 0x2000 + 0x44 := 3]> ∅) 0 (<[SIM_RX_LENGTH := 10]> ∅)) (xmit_dev 3)).

#[export] Instance sim_rx_mem_ok : RxMemOk sim.
Proof. by split. Qed.

Lemma xdma_isr_cases_witness : xdma_isr None irq_dev = Ok (IRQ_NONE, irq_dev) /\
  exists r d', xdma_isr (Some sample_irq) irq_dev = Ok (r, d') /\
  match r with
  | IRQ_HANDLED =>
      true = true /\ irq_count d' = s32 (irq_count irq_dev + 1) /\
      (Z.land (irq_pending sample_irq irq_dev) (mask_irq_h2c sample_irq) <> 0 -> tx_completed irq_dev d')
  | IRQ_NONE => tx_untouched irq_dev d' /\ rx_restarted sample_irq (world d')
  end.
Proof.
  apply (xdma_isr_cases sample_irq irq_dev).
  - intros H. exfalso. revert H. vm_compute. congruence.
  - intros _. by exists 0%nat, short_frame.
Defined.
