(* ===== verification/QdmaList.v ===== *)
(** * qdma_list.c: the circular doubly linked list of the QDMA access layer

    The list nodes live in a heap of their own, by address; following a null or an
    unallocated pointer is a fault.  [is_list h head l] says that the pointers of
    [h] are the circular list of the nodes [l] behind [head].  Each operation is
    the assignments of the source, one after the other; the specification
    ([list_spec]) is an operation on the list of addresses.  The walk
    [qdma_list_for_each_safe] is a loop over any state whose nodes can be
    followed, so that its clients ([FreeList]) use it on theirs. *)

From S2P Require Import Prelude.
From stdpp Require Import list gmap.

Open Scope Z_scope.

(** ** Nodes and pointers *)
Record qdma_list_head := mkNode { ln_prev : Z; ln_next : Z; ln_priv : Z }.
Notation heap := (gmap Z qdma_list_head).
Definition NULL : Z := 0.

Definition deref (p : Z) : cmd heap qdma_list_head := fun h =>
  if decide (p = NULL) then Fault NullDeref else
  match h !! p with Some n => Ok (n, h) | None => Fault UseAfterFree end.

Definition get_prev (p : Z) : cmd heap Z := n ← deref p; mret (ln_prev n).
Definition get_next (p : Z) : cmd heap Z := n ← deref p; mret (ln_next n).
Definition QDMA_LIST_GET_DATA (p : Z) : cmd heap Z := n ← deref p; mret (ln_priv n).
Definition set_prev (p v : Z) : cmd heap unit :=
  n ← deref p; modify <[p := mkNode v (ln_next n) (ln_priv n)]>.
Definition set_next (p v : Z) : cmd heap unit :=
  n ← deref p; modify <[p := mkNode (ln_prev n) v (ln_priv n)]>.
Definition QDMA_LIST_SET_DATA (p d : Z) : cmd heap unit :=
  n ← deref p; modify <[p := mkNode (ln_prev n) (ln_next n) d]>.

(** ** The operations *)
Definition qdma_list_init_head (head : Z) : cmd heap unit :=
  if decide (head = NULL) then mret tt else
  _ ← set_next head head;
  n ← get_next head;
  set_prev head n.

Definition qdma_list_add_tail (node head : Z) : cmd heap unit :=
  p ← get_prev head;
  _ ← set_next p node;
  _ ← set_next node head;
  p ← get_prev head;
  _ ← set_prev node p;
  set_prev head node.

Definition qdma_list_insert_before (new_node node : Z) : cmd heap unit :=
  p ← get_prev node;
  _ ← set_next p new_node;
  p ← get_prev node;
  _ ← set_prev new_node p;
  _ ← set_next new_node node;
  set_prev node new_node.

Definition qdma_list_insert_after (new_node node : Z) : cmd heap unit :=
  _ ← set_prev new_node node;
  n ← get_next node;
  _ ← set_next new_node n;
  n ← get_next node;
  _ ← set_prev n new_node;
  set_next node new_node.

Definition qdma_list_del (node : Z) : cmd heap unit :=
  if decide (node = NULL) then mret tt else
  p ← get_prev node;
  _ ← (if decide (p = NULL) then mret tt else
       n ← get_next node; set_next p n);
  n ← get_next node;
  if decide (n = NULL) then mret tt else
  p ← get_prev node; set_prev n p.

Definition qdma_list_is_last_entry (entry head : Z) : cmd heap bool :=
  n ← get_next entry; mret (bool_decide (n = head)).
Definition qdma_list_is_empty (head : Z) : cmd heap bool :=
  n ← get_next head; mret (bool_decide (n = head)).

(** [for (pos = head->next, n = pos->next; pos != head; pos = n, n = pos->next)]:
    [next] reads the pointer in the client's state, and the body answers with the
    loop's locals and whether it breaks. *)
Section loop.
Context {S T : Type} (next : Z -> cmd S Z) (body : Z -> T -> cmd S (T * bool)) (head : Z).

Fixpoint for_each_from (fuel : nat) (pos n : Z) (t : T) : cmd S T :=
  match fuel with
  | O => fail OutOfFuel
  | Datatypes.S fuel =>
      if decide (pos = head) then mret t else
      '(t, stop) ← body pos t;
      if (stop : bool) then mret t else
      n' ← next n;
      for_each_from fuel n n' t
  end.

Definition qdma_list_for_each_safe (fuel : nat) (t : T) : cmd S T :=
  pos ← next head; n ← next pos; for_each_from fuel pos n t.
End loop.

(** ** Fields and links *)
Definition nxt (h : heap) (p : Z) : option Z := ln_next <$> h !! p.
Definition prv (h : heap) (p : Z) : option Z := ln_prev <$> h !! p.
Definition dat (h : heap) (p : Z) : option Z := ln_priv <$> h !! p.
Definition alive (h : heap) (p : Z) : Prop := p <> NULL /\ is_Some (dat h p).

Definition link (h : heap) (x y : Z) : Prop := nxt h x = Some y /\ prv h y = Some x.
Fixpoint links (h : heap) (c : list Z) : Prop :=
  match c with
  | x :: (y :: _) as c' => link h x y /\ links h c'
  | _ => True
  end.

(** [h] holds the circular list [l] behind [head]. *)
Record is_list (h : heap) (head : Z) (l : list Z) : Prop := {
  il_links : links h (head :: l ++ [head]);
  il_nodup : NoDup (head :: l);
  il_alive : Forall (alive h) (head :: l) }.

(** The same data; the same links but at [ps] (forwards) and [qs] (backwards). *)
Record rewired (ps qs : list Z) (h h' : heap) : Prop := {
  rw_dat : forall x, dat h' x = dat h x;
  rw_nxt : forall x, x ∉ ps -> nxt h' x = nxt h x;
  rw_prv : forall x, x ∉ qs -> prv h' x = prv h x }.

(** ** Running the assignments *)
Definition upd_next (p v : Z) (h : heap) : heap :=
  alter (fun n => mkNode (ln_prev n) v (ln_priv n)) p h.
Definition upd_prev (p v : Z) (h : heap) : heap :=
  alter (fun n => mkNode v (ln_next n) (ln_priv n)) p h.

Lemma alive_deref h p : alive h p -> exists n, h !! p = Some n /\ deref p h = Ok (n, h).
Proof.
  intros [Hp [d Hd]]. unfold dat in Hd. destruct (h !! p) as [n|] eqn:E; [|done].
  exists n. unfold deref. by rewrite decide_False, E by done.
Qed.

Lemma alter_insert (f : qdma_list_head -> qdma_list_head) p n (h : heap) :
  h !! p = Some n -> <[p := f n]> h = alter f p h.
Proof.
  intros Hn. apply map_eq. intros x. destruct (decide (x = p)) as [->|Hx].
  - by rewrite lookup_insert_eq, lookup_alter_eq, Hn.
  - by rewrite lookup_insert_ne, lookup_alter_ne by done.
Qed.

Lemma set_next_run h p v : alive h p -> set_next p v h = Ok (tt, upd_next p v h).
Proof.
  intros H. destruct (alive_deref h p H) as (n & Hn & Hr). unfold set_next.
  rewrite (cmd_bind_run _ _ _ _ _ Hr). unfold modify. do 2 f_equal. unfold upd_next.
  apply (alter_insert (fun n => mkNode (ln_prev n) v (ln_priv n)) _ _ _ Hn).
Qed.

Lemma set_prev_run h p v : alive h p -> set_prev p v h = Ok (tt, upd_prev p v h).
Proof.
  intros H. destruct (alive_deref h p H) as (n & Hn & Hr). unfold set_prev.
  rewrite (cmd_bind_run _ _ _ _ _ Hr). unfold modify. do 2 f_equal. unfold upd_prev.
  apply (alter_insert (fun n => mkNode v (ln_next n) (ln_priv n)) _ _ _ Hn).
Qed.

Lemma get_next_run h p v : p <> NULL -> nxt h p = Some v -> get_next p h = Ok (v, h).
Proof.
  intros Hp Hv. unfold get_next, nxt, deref, mbind, cmd_bind in *. rewrite decide_False by done.
  destruct (h !! p); [|done]. by injection Hv as ->.
Qed.

Lemma get_prev_run h p v : p <> NULL -> prv h p = Some v -> get_prev p h = Ok (v, h).
Proof.
  intros Hp Hv. unfold get_prev, prv, deref, mbind, cmd_bind in *. rewrite decide_False by done.
  destruct (h !! p); [|done]. by injection Hv as ->.
Qed.

Lemma get_data_run h p d : p <> NULL -> dat h p = Some d -> QDMA_LIST_GET_DATA p h = Ok (d, h).
Proof.
  intros Hp Hv. unfold QDMA_LIST_GET_DATA, dat, deref, mbind, cmd_bind in *. rewrite decide_False by done.
  destruct (h !! p); [|done]. by injection Hv as ->.
Qed.

(** What each assignment does to each field. *)
Lemma nxt_upd_next h p v : alive h p -> nxt (upd_next p v h) p = Some v.
Proof.
  intros (n & Hn & _)%alive_deref. unfold nxt, upd_next. by rewrite lookup_alter_eq, Hn.
Qed.
Lemma nxt_upd_next_ne h p v x : x <> p -> nxt (upd_next p v h) x = nxt h x.
Proof. intros Hx. unfold nxt, upd_next. by rewrite lookup_alter_ne. Qed.
Lemma prv_upd_prev h p v : alive h p -> prv (upd_prev p v h) p = Some v.
Proof.
  intros (n & Hn & _)%alive_deref. unfold prv, upd_prev. by rewrite lookup_alter_eq, Hn.
Qed.
Lemma prv_upd_prev_ne h p v x : x <> p -> prv (upd_prev p v h) x = prv h x.
Proof. intros Hx. unfold prv, upd_prev. by rewrite lookup_alter_ne. Qed.
Lemma nxt_upd_prev h p v x : nxt (upd_prev p v h) x = nxt h x.
Proof.
  unfold nxt, upd_prev. rewrite lookup_alter. case_decide as E; [|done]. subst x. by destruct (h !! p).
Qed.
Lemma prv_upd_next h p v x : prv (upd_next p v h) x = prv h x.
Proof.
  unfold prv, upd_next. rewrite lookup_alter. case_decide as E; [|done]. subst x. by destruct (h !! p).
Qed.
Lemma dat_upd_next h p v x : dat (upd_next p v h) x = dat h x.
Proof.
  unfold dat, upd_next. rewrite lookup_alter. case_decide as E; [|done]. subst x. by destruct (h !! p).
Qed.
Lemma dat_upd_prev h p v x : dat (upd_prev p v h) x = dat h x.
Proof.
  unfold dat, upd_prev. rewrite lookup_alter. case_decide as E; [|done]. subst x. by destruct (h !! p).
Qed.
Lemma alive_upd_next h p v x : alive h x -> alive (upd_next p v h) x.
Proof. unfold alive. by rewrite dat_upd_next. Qed.
Lemma alive_upd_prev h p v x : alive h x -> alive (upd_prev p v h) x.
Proof. unfold alive. by rewrite dat_upd_prev. Qed.

Create HintDb qlist.
#[export] Hint Resolve alive_upd_next alive_upd_prev : qlist.
Create Rewrite HintDb qlist.
#[export] Hint Rewrite nxt_upd_prev prv_upd_next dat_upd_next dat_upd_prev : qlist.
#[export] Hint Rewrite nxt_upd_next prv_upd_prev using (by eauto with qlist) : qlist.
#[export] Hint Rewrite nxt_upd_next_ne prv_upd_prev_ne using (done || congruence) : qlist.

(** [qstep] runs one pointer access or assignment of the goal. *)
Ltac qstep :=
  first [ erewrite cmd_bind_run by (apply get_next_run; [done|by autorewrite with qlist])
        | erewrite cmd_bind_run by (apply get_prev_run; [done|by autorewrite with qlist])
        | erewrite cmd_bind_run by (apply set_next_run; by eauto 6 with qlist)
        | erewrite cmd_bind_run by (apply set_prev_run; by eauto 6 with qlist)
        | rewrite set_prev_run by (by eauto 6 with qlist)
        | rewrite set_next_run by (by eauto 6 with qlist) ].

(** [n] has been put between [a] and [b]. *)
Record spliced (a n b : Z) (h h' : heap) : Prop := {
  sp_a : nxt h' a = Some n; sp_b : prv h' b = Some n;
  sp_n : nxt h' n = Some b; sp_p : prv h' n = Some a;
  sp_rest : rewired [a; n] [b; n] h h' }.

(** The node [n] between [a] and [b] has been unlinked. *)
Record unlinked (a n b : Z) (h h' : heap) : Prop := {
  ul_a : nxt h' a = Some b; ul_b : prv h' b = Some a;
  ul_rest : rewired [a] [b] h h' }.

Lemma alive_ne h p : alive h p -> p <> NULL.
Proof. by intros []. Qed.
#[export] Hint Resolve alive_ne : qlist.

Ltac not_in := repeat (rewrite not_elem_of_cons || destruct_and!).

Lemma insert_before_run h n b a : prv h b = Some a -> alive h a -> alive h b -> alive h n ->
  n <> a -> n <> b -> exists h', qdma_list_insert_before n b h = Ok (tt, h') /\ spliced a n b h h'.
Proof.
  intros Hp Ha Hb Hn Hna Hnb.
  assert (a <> NULL /\ b <> NULL /\ n <> NULL) as (? & ? & ?) by (split_and!; by eapply alive_ne).
  unfold qdma_list_insert_before. do 6 qstep. eexists. split; [reflexivity|].
  split; [by autorewrite with qlist..|].
  split; [intros x|intros x Hx|intros x Hx]; autorewrite with qlist; try done;
    rewrite ?not_elem_of_cons in Hx; destruct_and!; by autorewrite with qlist.
Qed.

Lemma add_tail_run h n b a : prv h b = Some a -> alive h a -> alive h b -> alive h n ->
  n <> a -> n <> b -> exists h', qdma_list_add_tail n b h = Ok (tt, h') /\ spliced a n b h h'.
Proof.
  intros Hp Ha Hb Hn Hna Hnb.
  assert (a <> NULL /\ b <> NULL /\ n <> NULL) as (? & ? & ?) by (split_and!; by eapply alive_ne).
  unfold qdma_list_add_tail. do 6 qstep. eexists. split; [reflexivity|].
  split; [by autorewrite with qlist..|].
  split; [intros x|intros x Hx|intros x Hx]; autorewrite with qlist; try done;
    rewrite ?not_elem_of_cons in Hx; destruct_and!; by autorewrite with qlist.
Qed.

Lemma insert_after_run h n a b : nxt h a = Some b -> alive h a -> alive h b -> alive h n ->
  n <> a -> n <> b -> exists h', qdma_list_insert_after n a h = Ok (tt, h') /\ spliced a n b h h'.
Proof.
  intros Hp Ha Hb Hn Hna Hnb.
  assert (a <> NULL /\ b <> NULL /\ n <> NULL) as (? & ? & ?) by (split_and!; by eapply alive_ne).
  unfold qdma_list_insert_after. do 6 qstep. eexists. split; [reflexivity|].
  split; [by autorewrite with qlist..|].
  split; [intros x|intros x Hx|intros x Hx]; autorewrite with qlist; try done;
    rewrite ?not_elem_of_cons in Hx; destruct_and!; by autorewrite with qlist.
Qed.

Lemma del_run h n a b : prv h n = Some a -> nxt h n = Some b -> alive h a -> alive h b -> alive h n ->
  n <> a -> n <> b -> exists h', qdma_list_del n h = Ok (tt, h') /\ unlinked a n b h h'.
Proof.
  intros Hp Hx Ha Hb Hn Hna Hnb.
  assert (a <> NULL /\ b <> NULL /\ n <> NULL) as (? & ? & ?) by (split_and!; by eapply alive_ne).
  unfold qdma_list_del. rewrite decide_False by done. qstep. rewrite decide_False by done.
  erewrite (cmd_bind_run _ _ h tt); [|by do 2 qstep].
  qstep. rewrite decide_False by done. do 2 qstep. eexists. split; [reflexivity|].
  split; [by autorewrite with qlist..|].
  split; [intros x|intros x Hy|intros x Hy]; autorewrite with qlist; try done;
    rewrite ?not_elem_of_cons in Hy; destruct_and!; by autorewrite with qlist.
Qed.

Lemma init_head_run h p : alive h p -> exists h', qdma_list_init_head p h = Ok (tt, h') /\
  nxt h' p = Some p /\ prv h' p = Some p /\ rewired [p] [p] h h'.
Proof.
  intros Ha. assert (p <> NULL) by by eapply alive_ne.
  unfold qdma_list_init_head. rewrite decide_False by done. do 3 qstep.
  eexists. split; [reflexivity|]. split; [by autorewrite with qlist|]. split; [by autorewrite with qlist|].
  split; [intros x|intros x Hy|intros x Hy]; autorewrite with qlist; try done;
    rewrite ?not_elem_of_cons in Hy; destruct_and!; by autorewrite with qlist.
Qed.

(** ** Links of a segment *)
Lemma links_app h c1 p q c2 :
  links h (c1 ++ p :: q :: c2) <-> links h (c1 ++ [p]) /\ link h p q /\ links h (q :: c2).
Proof.
  induction c1 as [|x c1 IH]; [cbn; tauto|].
  destruct c1 as [|y c1]; cbn [app links] in *; tauto.
Qed.

Lemma links_frame h h' c p : links h (c ++ [p]) ->
  (forall x, x ∈ c -> nxt h' x = nxt h x) ->
  (forall y, y ∈ tail (c ++ [p]) -> prv h' y = prv h y) -> links h' (c ++ [p]).
Proof.
  induction c as [|x c IH]; intros Hl Hn Hp; [done|].
  assert (links h (c ++ [p]) -> links h' (c ++ [p])) as IH'.
  { intros Hl'. apply IH; [done| |].
    - intros y Hy. apply Hn. by right.
    - intros y Hy. apply Hp. cbn [app tail]. destruct c; [by apply elem_of_nil in Hy|]. cbn in *. by right. }
  destruct c as [|y c]; cbn [app links tail] in *.
  - destruct Hl as [[Hx Hy] _]. split; [|done]. split; [rewrite Hn|rewrite Hp]; set_solver.
  - destruct Hl as [[Hx Hy] Hl]. split; [|by apply IH']. split; [rewrite Hn|rewrite Hp]; set_solver.
Qed.

Lemma rewired_alive ps qs h h' x : rewired ps qs h h' -> alive h x -> alive h' x.
Proof. intros [Hd _ _] Ha. unfold alive. by rewrite Hd. Qed.

(** Links of a segment whose changed ends lie outside. *)
Lemma links_rewired ps qs h h' c p : rewired ps qs h h' -> links h (c ++ [p]) ->
  (forall x, x ∈ c -> x ∉ ps) -> (forall y, y ∈ tail (c ++ [p]) -> y ∉ qs) -> links h' (c ++ [p]).
Proof.
  intros [_ Hn Hp] Hl Hc Ht. apply (links_frame h); [done| |]; intros x Hx; [apply Hn|apply Hp]; auto.
Qed.

(** ** The list behind a head

    [before head l1] is the node before the gap behind [l1], [after head l2] the
    one behind it. *)
Definition before (head : Z) (l1 : list Z) : Z := default head (last l1).
Definition after (head : Z) (l2 : list Z) : Z := default head (List.hd_error l2).

Lemma before_split head l1 : exists c, head :: l1 = c ++ [before head l1].
Proof.
  unfold before. destruct l1 as [|x l _] using rev_ind; [by exists []|].
  rewrite last_snoc. by exists (head :: l).
Qed.
Lemma after_split head l2 : exists c, l2 ++ [head] = after head l2 :: c.
Proof. destruct l2 as [|x l]; cbn; eauto. Qed.

Lemma before_in head l1 : before head l1 ∈ head :: l1.
Proof.
  destruct (before_split head l1) as [c Hc]. rewrite Hc. apply elem_of_app. right. by left.
Qed.
Lemma after_in head l2 : after head l2 ∈ head :: l2.
Proof. destruct l2 as [|x l]; cbn; [by left|right; by left]. Qed.

(** The gap behind [l1]: the links on its two sides and across it. *)
Lemma links_gap h head l1 l2 : links h (head :: (l1 ++ l2) ++ [head]) <->
  links h (head :: l1) /\ link h (before head l1) (after head l2) /\ links h (l2 ++ [head]).
Proof.
  destruct (before_split head l1) as [c1 H1], (after_split head l2) as [c2 H2].
  rewrite <- app_assoc, H2, app_comm_cons, H1, <- app_assoc. cbn [app]. apply links_app.
Qed.

Lemma before_snoc head l1 x : before head (l1 ++ [x]) = x.
Proof. unfold before. by rewrite last_snoc. Qed.

Lemma links_snoc h head l1 x :
  links h (head :: l1 ++ [x]) <-> links h (head :: l1) /\ link h (before head l1) x.
Proof.
  destruct (before_split head l1) as [c1 H1].
  rewrite app_comm_cons, H1, <- app_assoc. cbn [app]. rewrite links_app. cbn [links]. tauto.
Qed.

Lemma links_cons_tail h x l2 head :
  links h (x :: l2 ++ [head]) <-> link h x (after head l2) /\ links h (l2 ++ [head]).
Proof.
  destruct (after_split head l2) as [c2 H2]. rewrite H2. cbn [links]. tauto.
Qed.

Lemma il_gap h head l1 l2 : is_list h head (l1 ++ l2) ->
  nxt h (before head l1) = Some (after head l2) /\ prv h (after head l2) = Some (before head l1) /\
  alive h (before head l1) /\ alive h (after head l2).
Proof.
  intros [Hl _ Ha]. apply links_gap in Hl as (_ & [Hn Hp] & _). rewrite Forall_forall in Ha.
  split_and!; [done..| |]; apply Ha.
  - pose proof (before_in head l1). set_solver.
  - pose proof (after_in head l2). set_solver.
Qed.

(** The two sides of a gap keep their links when only the gap's ends change. *)
Lemma left_kept h h' head l1 l2 ps qs : NoDup (head :: l1 ++ l2) ->
  rewired (before head l1 :: ps) (after head l2 :: qs) h h' ->
  (forall x, x ∈ ps ++ qs -> x ∉ head :: l1 ++ l2) ->
  links h (head :: l1) -> links h' (head :: l1).
Proof.
  intros Hnd Hrw Hout Hl. destruct (before_split head l1) as [c Hc].
  pose proof (after_in head l2) as Haf. rewrite Hc in *.
  apply (links_rewired _ _ _ _ _ _ Hrw Hl).
  - intros x Hx. rewrite not_elem_of_cons. split.
    + intros ->. rewrite app_comm_cons, Hc in Hnd. apply NoDup_app in Hnd as (Hnd & _).
      apply NoDup_app in Hnd as (_ & Hnd & _). apply (Hnd _ Hx). by left.
    + intros Hps. apply (Hout x); [set_solver|]. rewrite app_comm_cons, Hc. set_solver.
  - intros y Hy. assert (y ∈ l1) as Hy1 by (rewrite <- Hc in Hy; done).
    rewrite not_elem_of_cons. split.
    + intros ->. apply NoDup_cons in Hnd as [Hh Hnd]. apply NoDup_app in Hnd as (_ & Hd & _).
      apply elem_of_cons in Haf as [E|Haf]; [rewrite E in Hy1; set_solver|]. by apply (Hd _ Hy1).
    + intros Hqs. apply (Hout y); set_solver.
Qed.

Lemma right_kept h h' head l1 l2 ps qs : NoDup (head :: l1 ++ l2) ->
  rewired (before head l1 :: ps) (after head l2 :: qs) h h' ->
  (forall x, x ∈ ps ++ qs -> x ∉ head :: l1 ++ l2) ->
  links h (l2 ++ [head]) -> links h' (l2 ++ [head]).
Proof.
  intros Hnd Hrw Hout Hl. pose proof (before_in head l1) as Hbf.
  apply NoDup_cons in Hnd as [Hh Hnd]. apply NoDup_app in Hnd as (Hn1 & Hd & Hn2).
  apply (links_rewired _ _ _ _ _ _ Hrw Hl).
  - intros x Hx. rewrite not_elem_of_cons. split.
    + intros ->. apply elem_of_cons in Hbf as [E|Hbf]; [rewrite E in Hx; set_solver|].
      by apply (Hd _ Hbf).
    + intros Hps. apply (Hout x); set_solver.
  - intros y Hy. rewrite not_elem_of_cons. destruct l2 as [|z l2]; [by apply elem_of_nil in Hy|].
    cbn [app tail after List.hd_error default] in *. split.
    + intros ->. apply NoDup_cons in Hn2 as [Hz _]. apply elem_of_app in Hy as [Hy|Hy]; set_solver.
    + intros Hqs. apply (Hout y); set_solver.
Qed.

Lemma insert_list h h' head l1 n l2 : is_list h head (l1 ++ l2) ->
  spliced (before head l1) n (after head l2) h h' -> n ∉ head :: l1 ++ l2 -> alive h n ->
  is_list h' head (l1 ++ n :: l2).
Proof.
  intros [Hl Hnd Ha] [Sa Sb Sn Sp Hrw] Hn Han.
  apply links_gap in Hl as (Hl1 & _ & Hl2).
  assert (forall x, x ∈ [n] ++ [n] -> x ∉ head :: l1 ++ l2) as Hout by set_solver.
  split.
  - replace ((l1 ++ n :: l2) ++ [head]) with (l1 ++ n :: l2 ++ [head]) by (by rewrite <- app_assoc).
    destruct (before_split head l1) as [c Hc].
    rewrite app_comm_cons, Hc, <- app_assoc. cbn [app]. rewrite links_app, <- Hc.
    split; [by apply (left_kept h h' head l1 l2 [n] [n])|]. split; [done|].
    apply links_cons_tail. split; [done|]. by apply (right_kept h h' head l1 l2 [n] [n]).
  - rewrite app_comm_cons. apply NoDup_app. rewrite app_comm_cons in Hnd.
    apply NoDup_app in Hnd as (H1 & H2 & H3). split; [done|]. split.
    + intros x Hx. rewrite not_elem_of_cons. split; [|by apply H2]. intros ->. set_solver.
    + apply NoDup_cons. split; [set_solver|done].
  - apply (Forall_impl _ (alive h')) in Ha; [|intros x; apply (rewired_alive _ _ _ _ _ Hrw)].
    rewrite app_comm_cons, !Forall_app in *. destruct Ha as [H1 H2]. split; [done|].
    constructor; [by apply (rewired_alive _ _ _ _ _ Hrw)|done].
Qed.

Lemma delete_list h h' head l1 n l2 : is_list h head (l1 ++ n :: l2) ->
  unlinked (before head l1) n (after head l2) h h' -> is_list h' head (l1 ++ l2).
Proof.
  intros [Hl Hnd Ha] [Ua Ub Hrw].
  apply links_gap in Hl as (Hl1 & _ & [_ Hl2]%links_cons_tail).
  assert (NoDup (head :: l1 ++ l2)) as Hnd'.
  { rewrite app_comm_cons in *. apply NoDup_app in Hnd as (H1 & H2 & [_ H3]%NoDup_cons).
    apply NoDup_app. split_and!; [done| |done]. intros x Hx. specialize (H2 x Hx). set_solver. }
  split; [|done|].
  - apply links_gap. split_and!.
    + apply (left_kept h h' head l1 l2 [] []); try done. set_solver.
    + done.
    + apply (right_kept h h' head l1 l2 [] []); try done. set_solver.
  - apply (Forall_impl _ (alive h')) in Ha; [|intros x; apply (rewired_alive _ _ _ _ _ Hrw)].
    rewrite app_comm_cons, !Forall_app in *. destruct Ha as [H1 H2]. split; [done|].
    by inversion H2.
Qed.

(** ** The operations on lists of addresses *)
Inductive list_op :=
  | AddTail (n : Z) | InsertBefore (n x : Z) | InsertAfter (n x : Z) | Del (x : Z).

Definition run_op (head : Z) (o : list_op) : cmd heap unit :=
  match o with
  | AddTail n => qdma_list_add_tail n head
  | InsertBefore n x => qdma_list_insert_before n x
  | InsertAfter n x => qdma_list_insert_after n x
  | Del x => qdma_list_del x
  end.

(** The list of addresses split at [x]; behind the whole list is the head. *)
Fixpoint split_at (x : Z) (l : list Z) : option (list Z * list Z) :=
  match l with
  | [] => None
  | y :: l' => if decide (y = x) then Some ([], l') else prod_map (cons y) id <$> split_at x l'
  end.

(** What the operation makes of the list; [None] when its reference node is not
    there. *)
Definition spec_op (head : Z) (o : list_op) (l : list Z) : option (list Z) :=
  match o with
  | AddTail n => Some (l ++ [n])
  | InsertBefore n x =>
      if decide (x = head) then Some (l ++ [n])
      else '(l1, l2) ← split_at x l; Some (l1 ++ n :: x :: l2)
  | InsertAfter n x =>
      if decide (x = head) then Some (n :: l)
      else '(l1, l2) ← split_at x l; Some (l1 ++ x :: n :: l2)
  | Del x => '(l1, l2) ← split_at x l; Some (l1 ++ l2)
  end.

Definition new_node (o : list_op) : option Z :=
  match o with AddTail n | InsertBefore n _ | InsertAfter n _ => Some n | Del _ => None end.

(** The new node is allocated and in no list. *)
Definition op_ok (h : heap) (head : Z) (o : list_op) (l : list Z) : Prop :=
  match new_node o with Some n => alive h n /\ n ∉ head :: l | None => True end.

(** [h'] differs from [h] only in the links of [ps]. *)
Definition same_outside (ps : list Z) (h h' : heap) : Prop := rewired ps ps h h'.

Lemma split_at_some x l l1 l2 : split_at x l = Some (l1, l2) -> l = l1 ++ x :: l2.
Proof.
  revert l1. induction l as [|y l IH]; intros l1; cbn; [done|]. case_decide as E; [naive_solver|].
  destruct (split_at x l) as [[k1 k2]|]; [|done]. cbn. intros [= <- <-].
  cbn. f_equal. by apply IH.
Qed.

Lemma split_at_in x l : x ∈ l -> exists l1 l2, split_at x l = Some (l1, l2).
Proof.
  induction 1 as [x l|x y l _ IH]; cbn; [rewrite decide_True by done; eauto|].
  destruct IH as (l1 & l2 & ->). case_decide; cbn; eauto.
Qed.

Lemma rewired_incl ps qs rs h h' : ps ⊆ rs -> qs ⊆ rs -> rewired ps qs h h' -> same_outside rs h h'.
Proof. intros Hp Hq [H1 H2 H3]. split; [done| |]; intros x Hx; [apply H2|apply H3]; set_solver. Qed.

(** Inserting at the gap behind [l1], by any of the three insertions. *)
Lemma insert_gap h head l1 l2 n (c : cmd heap unit) : is_list h head (l1 ++ l2) ->
  alive h n -> n ∉ head :: l1 ++ l2 ->
  (prv h (after head l2) = Some (before head l1) -> nxt h (before head l1) = Some (after head l2) ->
   alive h (before head l1) -> alive h (after head l2) -> n <> before head l1 -> n <> after head l2 ->
   exists h', c h = Ok (tt, h') /\ spliced (before head l1) n (after head l2) h h') ->
  exists h', c h = Ok (tt, h') /\ is_list h' head (l1 ++ n :: l2) /\
    same_outside (head :: l1 ++ n :: l2) h h'.
Proof.
  intros Hl Han Hn Hc. destruct (il_gap _ _ _ _ Hl) as (G1 & G2 & G3 & G4).
  pose proof (before_in head l1) as Hb. pose proof (after_in head l2) as Haf.
  destruct Hc as (h' & Hr & Hs); [done..|set_solver|set_solver|].
  exists h'. split; [done|]. split; [by apply (insert_list h)|].
  apply (rewired_incl [before head l1; n] [after head l2; n]); [set_solver..|by destruct Hs].
Qed.

(** [c] puts the node [n] into the gap between [l1] and [l2]. *)
Definition inserts (c : cmd heap unit) (head : Z) (l1 : list Z) (n : Z) (l2 : list Z) : Prop :=
  forall h, is_list h head (l1 ++ l2) -> alive h n -> n ∉ head :: l1 ++ l2 ->
  exists h', c h = Ok (tt, h') /\ is_list h' head (l1 ++ n :: l2) /\
    same_outside (head :: l1 ++ n :: l2) h h'.

Lemma inserts_tail head l n : inserts (qdma_list_add_tail n head) head l n [].
Proof. intros h Hl Ha Hn. apply insert_gap; try done. intros. by apply add_tail_run. Qed.

Lemma inserts_before_head head l n : inserts (qdma_list_insert_before n head) head l n [].
Proof. intros h Hl Ha Hn. apply insert_gap; try done. intros. by apply insert_before_run. Qed.

Lemma inserts_before head l1 x l2 n : inserts (qdma_list_insert_before n x) head l1 n (x :: l2).
Proof. intros h Hl Ha Hn. apply insert_gap; try done. intros. by apply insert_before_run. Qed.

Lemma inserts_after_head head l n : inserts (qdma_list_insert_after n head) head [] n l.
Proof. intros h Hl Ha Hn. apply insert_gap; try done. intros. by apply insert_after_run. Qed.

Lemma inserts_after head l1 x l2 n : inserts (qdma_list_insert_after n x) head (l1 ++ [x]) n l2.
Proof.
  intros h Hl Ha Hn. apply insert_gap; try done. rewrite before_snoc. intros. by apply insert_after_run.
Qed.

(** An operation runs, and the list of addresses becomes what the specification says. *)
Lemma op_run h head o l l' : is_list h head l -> op_ok h head o l -> spec_op head o l = Some l' ->
  exists h', run_op head o h = Ok (tt, h') /\ is_list h' head l' /\
    same_outside (head :: l ++ option_list (new_node o)) h h'.
Proof.
  intros Hl Hok Hs.
  assert (forall ps qs h', same_outside ps h h' -> ps ⊆ qs -> same_outside qs h h') as Hweak
    by (intros ps qs h' Ho Hpq; by eapply rewired_incl).
  assert (forall c l1 n l2, inserts c head l1 n l2 -> l = l1 ++ l2 -> alive h n /\ n ∉ head :: l ->
    exists h', c h = Ok (tt, h') /\ is_list h' head (l1 ++ n :: l2) /\
      same_outside (head :: l ++ [n]) h h') as Hins.
  { intros c l1 n l2 Hc -> [Ha Hn]. destruct (Hc h Hl Ha Hn) as (h' & R & L & O).
    exists h'. split_and!; [done..|]. apply (Hweak _ _ _ O). set_solver. }
  destruct o as [n|n x|n x|x]; cbn [run_op spec_op op_ok new_node option_list] in *.
  - injection Hs as <-. apply Hins; [apply inserts_tail|by rewrite app_nil_r|done].
  - case_decide as E; [subst x; injection Hs as <-|].
    + apply Hins; [apply inserts_before_head|by rewrite app_nil_r|done].
    + destruct (split_at x l) as [[l1 l2]|] eqn:Ex; [|done]. injection Hs as <-.
      apply Hins; [apply inserts_before|by apply split_at_some|done].
  - case_decide as E; [subst x; injection Hs as <-|].
    + by apply (Hins _ []); [apply inserts_after_head| |].
    + destruct (split_at x l) as [[l1 l2]|] eqn:Ex; [|done]. injection Hs as <-.
      replace (l1 ++ x :: n :: l2) with ((l1 ++ [x]) ++ n :: l2) by (by rewrite <- app_assoc).
      apply Hins; [apply inserts_after| |done]. rewrite <- app_assoc. by apply split_at_some.
  - destruct (split_at x l) as [[l1 l2]|] eqn:Ex; [|done]. injection Hs as <-.
    apply split_at_some in Ex as ->. pose proof Hl as [_ Hnd Ha].
    destruct (il_gap h head l1 (x :: l2) Hl) as (_ & G2 & G3 & G4).
    assert (is_list h head ((l1 ++ [x]) ++ l2)) as Hl2 by (by rewrite <- app_assoc).
    destruct (il_gap h head (l1 ++ [x]) l2 Hl2) as (G5 & _ & _ & G6). rewrite before_snoc in G5.
    cbn [after List.hd_error default] in G2, G4.
    pose proof (before_in head l1) as Hb. pose proof (after_in head l2) as Haf.
    rewrite app_comm_cons in Hnd. apply NoDup_app in Hnd as (N1 & N2 & [N3 N4]%NoDup_cons).
    destruct (del_run h x (before head l1) (after head l2)) as (h' & Hr & Hu); try done.
    { intros ->. apply (N2 _ Hb). by left. }
    { intros ->. apply elem_of_cons in Haf as [E|Haf]; [|done].
      rewrite E in N2. apply (N2 head); [by left|by left]. }
    exists h'. split; [done|]. split; [by eapply delete_list|].
    destruct Hu as [_ _ Hu]. eapply rewired_incl; [| |exact Hu]; set_solver.
Qed.

(** ** Sequences of operations *)
Fixpoint run_ops (head : Z) (os : list list_op) : cmd heap unit :=
  match os with [] => mret tt | o :: os => _ ← run_op head o; run_ops head os end.

Fixpoint spec_ops (head : Z) (os : list list_op) (l : list Z) : option (list Z) :=
  match os with [] => Some l | o :: os => l' ← spec_op head o l; spec_ops head os l' end.

Fixpoint ops_ok (h : heap) (head : Z) (os : list list_op) (l : list Z) : Prop :=
  match os with
  | [] => True
  | o :: os => op_ok h head o l /\ forall l', spec_op head o l = Some l' -> ops_ok h head os l'
  end.

Definition touched (head : Z) (os : list list_op) (l : list Z) : list Z :=
  head :: l ++ omap new_node os.

Lemma alive_same ps h h' x : same_outside ps h h' -> (alive h' x <-> alive h x).
Proof. intros [Hd _ _]. unfold alive. by rewrite Hd. Qed.

Lemma ops_ok_same ps h h' head os l : same_outside ps h h' -> ops_ok h head os l -> ops_ok h' head os l.
Proof.
  intros Hs. revert l. induction os as [|o os IH]; intros l; [done|]. cbn. intros [H1 H2]. split; [|eauto].
  unfold op_ok in *. destruct (new_node o); [|done]. by rewrite (alive_same _ _ _ _ Hs).
Qed.

Lemma same_trans ps h1 h2 h3 : same_outside ps h1 h2 -> same_outside ps h2 h3 -> same_outside ps h1 h3.
Proof. intros [A1 A2 A3] [B1 B2 B3]. split; intros; [rewrite B1|rewrite B2|rewrite B3]; auto. Qed.

Lemma spec_op_in head o l l' x : spec_op head o l = Some l' -> x ∈ l' ->
  x ∈ head :: l ++ option_list (new_node o).
Proof.
  assert (forall y l1 l2, split_at y l = Some (l1, l2) -> l = l1 ++ y :: l2) as Hs
    by (intros; by apply split_at_some).
  destruct o as [n|n y|n y|y]; cbn; [intros [= <-]; set_solver| | |].
  - case_decide; [intros [= <-]; set_solver|].
    destruct (split_at y l) as [[l1 l2]|] eqn:E; [|done]. apply Hs in E as ->. intros [= <-]. set_solver.
  - case_decide; [intros [= <-]; set_solver|].
    destruct (split_at y l) as [[l1 l2]|] eqn:E; [|done]. apply Hs in E as ->. intros [= <-]. set_solver.
  - destruct (split_at y l) as [[l1 l2]|] eqn:E; [|done]. apply Hs in E as ->. intros [= <-]. set_solver.
Qed.

(** Another list none of whose nodes is touched stays what it is. *)
Lemma list_frame ps h h' head l : same_outside ps h h' -> is_list h head l ->
  (forall x, x ∈ head :: l -> x ∉ ps) -> is_list h' head l.
Proof.
  intros Hs [Hl Hnd Ha] Hd. split; [|done|].
  - rewrite app_comm_cons in *. apply (links_rewired _ _ _ _ _ _ Hs Hl); [done|].
    intros y Hy. apply Hd. cbn in Hy. set_solver.
  - apply (Forall_impl _ _ _ Ha). intros x. by rewrite (alive_same _ _ _ _ Hs).
Qed.

Lemma run_ops_spec h head os l l' : is_list h head l -> ops_ok h head os l ->
  spec_ops head os l = Some l' ->
  exists h', run_ops head os h = Ok (tt, h') /\ is_list h' head l' /\
    same_outside (touched head os l) h h'.
Proof.
  intros Hl Hok Hs.
  revert h l Hl Hok Hs. induction os as [|o os IH]; intros h l Hl Hok Hs; cbn [run_ops spec_ops ops_ok] in *.
  - injection Hs as <-. exists h. split_and!; done.
  - destruct Hok as [Hok1 Hok2].
    destruct (spec_op head o l) as [l1|] eqn:E1; [|done]. cbn in Hs.
    destruct (op_run h head o l l1 Hl Hok1 E1) as (h1 & R1 & L1 & O1).
    destruct (IH h1 l1 L1 (ops_ok_same _ _ _ _ _ _ O1 (Hok2 _ eq_refl)) Hs) as (h2 & R2 & L2 & O2).
    exists h2. split; [by rewrite (cmd_bind_run _ _ _ _ _ R1)|]. split; [done|].
    assert (forall y, y ∈ option_list (new_node o) -> y ∈ touched head (o :: os) l) as Hn
      by (unfold touched; cbn; intros y; destruct (new_node o); set_solver).
    assert (forall y, y ∈ omap new_node os -> y ∈ touched head (o :: os) l) as Hom
      by (unfold touched; cbn; intros y; destruct (new_node o); set_solver).
    assert (forall y, y ∈ head :: l -> y ∈ touched head (o :: os) l) as Hh by (unfold touched; set_solver).
    apply (same_trans _ _ h1).
    + eapply rewired_incl; [| |exact O1]; set_solver.
    + assert (touched head os l1 ⊆ touched head (o :: os) l) as Hsub.
      { intros x Hx. apply elem_of_cons in Hx as [->|[Hx|Hx]%elem_of_app]; [apply Hh; left| |by apply Hom].
        apply (spec_op_in head o l l1 x E1) in Hx. set_solver. }
      eapply rewired_incl; [exact Hsub|exact Hsub|exact O2].
Qed.

(** C14. The pointers implement the list.  Any sequence of add-tail, insert-before,
    insert-after (also at the head itself) and delete, whose new nodes are allocated
    and in no list and whose reference nodes are in the list, runs without a fault
    and leaves the pointers of exactly the list that the operations on lists give;
    every other list, whose nodes are not touched, is unchanged. *)
Theorem list_ops_refine h head os l l' : is_list h head l -> ops_ok h head os l ->
  spec_ops head os l = Some l' ->
  exists h', run_ops head os h = Ok (tt, h') /\ is_list h' head l' /\
    forall head2 l2, is_list h head2 l2 -> (forall x, x ∈ head2 :: l2 -> x ∉ touched head os l) ->
      is_list h' head2 l2.
Proof.
  intros Hl Hok Hs. destruct (run_ops_spec h head os l l' Hl Hok Hs) as (h' & Hr & Hl' & Ho).
  exists h'. split_and!; [done..|]. intros head2 l2 H2 Hd. by apply (list_frame _ _ _ _ _ Ho).
Qed.

(** Only the nodes of the list matter. *)
Lemma is_list_agree h h' head l : is_list h head l ->
  (forall x, x ∈ head :: l -> h' !! x = h !! x) -> is_list h' head l.
Proof.
  intros [Hl Hnd Ha] Hag. rewrite app_comm_cons in *. split; [|done|].
  - rewrite app_comm_cons. apply (links_frame h); [done| |].
    + intros x Hx. unfold nxt. by rewrite Hag.
    + intros y Hy. unfold prv. rewrite Hag; [done|]. cbn in Hy. set_solver.
  - rewrite Forall_forall in *. intros x Hx. specialize (Ha x Hx). unfold alive, dat in *. by rewrite Hag.
Qed.

(** ** The walk *)

(** Over a state [S] in which the nodes can be followed: before each step the
    invariant tells what has been visited and what remains; [walk] says that the
    remaining nodes follow each other in the state. *)
Section walk.
Context {S T : Type} (next : Z -> cmd S Z) (body : Z -> T -> cmd S (T * bool)) (head : Z).
Context (Inv : list Z -> list Z -> T -> S -> Prop) (Q : T -> S -> Prop).

Definition leads (rest : list Z) (s : S) : Prop :=
  match rest with
  | [] => exists v, next head s = Ok (v, s)
  | p :: rest' => p <> head /\ next p s = Ok (after head rest', s)
  end.

Context (inv_leads : forall done rest t s, Inv done rest t s -> leads rest s).
Context (body_ok : forall done p rest t s, Inv done (p :: rest) t s -> exists t' s' stop,
  body p t s = Ok (t', stop, s') /\ if (stop : bool) then Q t' s' else Inv (done ++ [p]) rest t' s').
Context (end_ok : forall done t s, Inv done [] t s -> Q t s).

Lemma for_each_from_rule fuel done rest t s : Inv done rest t s -> (length rest < fuel)%nat ->
  exists t' s' n, (rest = [] \/ next (after head rest) s = Ok (n, s)) /\
  for_each_from next body head fuel (after head rest) n t s = Ok (t', s') /\ Q t' s'.
Proof.
  revert done rest t s. induction fuel as [|fuel IH]; intros done rest t s HI Hf; [lia|].
  destruct rest as [|p rest].
  - exists t, s, head. split; [by left|]. cbn. rewrite decide_True by done. split; [done|eauto].
  - destruct (inv_leads _ _ _ _ HI) as [Hp Hn]. cbn [after List.hd_error default].
    destruct (body_ok _ _ _ _ _ HI) as (t1 & s1 & stop & Hb & H1). destruct stop.
    + exists t1, s1, (after head rest). split; [by right|]. cbn [for_each_from].
      rewrite decide_False by done. by rewrite (cmd_bind_run _ _ _ _ _ Hb).
    + destruct (IH _ _ _ _ H1) as (t2 & s2 & n & Hn1 & Hr & HQ); [cbn in Hf; lia|].
      exists t2, s2, (after head rest). split; [by right|]. split; [|done]. cbn [for_each_from].
      rewrite decide_False by done. rewrite (cmd_bind_run _ _ _ _ _ Hb). cbv beta iota.
      destruct Hn1 as [->|Hn1]; [|by rewrite (cmd_bind_run _ _ _ _ _ Hn1)].
      destruct (inv_leads _ _ _ _ H1) as [v Hv]. cbn [after List.hd_error default] in *.
      rewrite (cmd_bind_run _ _ _ _ _ Hv). destruct fuel as [|fuel]; [cbn in Hf; lia|].
      cbn [for_each_from] in *. by rewrite decide_True in * by done.
Qed.

(** The walk over the list ends, having established the postcondition. *)
Lemma for_each_rule fuel l t s : next head s = Ok (after head l, s) -> Inv [] l t s ->
  (length l < fuel)%nat -> exists t' s',
  qdma_list_for_each_safe next body head fuel t s = Ok (t', s') /\ Q t' s'.
Proof.
  intros Hn HI Hf. destruct (for_each_from_rule fuel [] l t s HI Hf) as (t' & s' & n & Hl & Hr & HQ).
  exists t', s'. split; [|done]. unfold qdma_list_for_each_safe. rewrite (cmd_bind_run _ _ _ _ _ Hn).
  destruct Hl as [->|Hl].
  - cbn [after List.hd_error default] in *. rewrite (cmd_bind_run _ _ _ _ _ Hn).
    destruct fuel as [|fuel]; [cbn in Hf; lia|]. cbn [for_each_from] in *. by rewrite decide_True in * by done.
  - by rewrite (cmd_bind_run _ _ _ _ _ Hl).
Qed.
End walk.

Lemma list_head_next h head l : is_list h head l -> get_next head h = Ok (after head l, h).
Proof.
  intros Hl. destruct (il_gap h head [] l Hl) as (Hn & _ & Ha & _).
  apply get_next_run; [by eapply alive_ne|done].
Qed.

Lemma list_leads h head l1 rest : is_list h head (l1 ++ rest) -> leads get_next head rest h.
Proof.
  intros Hl. destruct rest as [|p rest]; cbn [leads].
  - exists (after head l1). rewrite app_nil_r in Hl. by apply list_head_next.
  - assert (is_list h head ((l1 ++ [p]) ++ rest)) as Hl2 by (by rewrite <- app_assoc).
    destruct (il_gap h head (l1 ++ [p]) rest Hl2) as (Hn & _ & Ha & _). rewrite before_snoc in *.
    split; [|apply get_next_run; [by eapply alive_ne|done]].
    destruct Hl as [_ [Hh _]%NoDup_cons _]. set_solver.
Qed.

Lemma list_is_empty_run h head l : is_list h head l ->
  qdma_list_is_empty head h = Ok (bool_decide (l = []), h).
Proof.
  intros Hl. unfold qdma_list_is_empty. rewrite (cmd_bind_run _ _ _ _ _ (list_head_next h head l Hl)).
  unfold mret, cmd_ret. do 2 f_equal. apply bool_decide_ext. destruct Hl as [_ [Hh _]%NoDup_cons _].
  destruct l as [|x l]; cbn; [done|]. split; [|done]. intros ->. set_solver.
Qed.

Lemma list_is_last_run h head l1 p rest : is_list h head (l1 ++ p :: rest) ->
  qdma_list_is_last_entry p head h = Ok (bool_decide (rest = []), h).
Proof.
  intros Hl. destruct (list_leads h head l1 (p :: rest) Hl) as [Hp Hn].
  unfold qdma_list_is_last_entry. rewrite (cmd_bind_run _ _ _ _ _ Hn). unfold mret, cmd_ret. do 2 f_equal.
  apply bool_decide_ext. destruct Hl as [_ [Hh _]%NoDup_cons _].
  destruct rest as [|x rest]; cbn; [done|]. split; [|done]. intros ->. set_solver.
Qed.

(** Deleting the node behind [l1]. *)
Lemma del_node_run h head l1 x l2 : is_list h head (l1 ++ x :: l2) ->
  exists h', qdma_list_del x h = Ok (tt, h') /\ is_list h' head (l1 ++ l2) /\
    same_outside (head :: l1 ++ x :: l2) h h'.
Proof.
  intros Hl. assert (spec_op head (Del x) (l1 ++ x :: l2) = Some (l1 ++ l2)) as Hs.
  { assert (x ∉ l1) as Hx.
    { destruct Hl as [_ [_ Hnd]%NoDup_cons _]. apply NoDup_app in Hnd as (_ & Hd & _).
      intros Hx. apply (Hd x Hx). by left. }
    cbn. assert (split_at x (l1 ++ x :: l2) = Some (l1, l2)) as ->; [|done].
    clear -Hx. induction l1 as [|y l1 IH]; cbn; [by rewrite decide_True|].
    rewrite not_elem_of_cons in Hx. destruct Hx as [Hy Hx]. by rewrite decide_False, IH by done. }
  destruct (op_run h head (Del x) _ _ Hl I Hs) as (h' & R & L & O).
  exists h'. split_and!; [done..|]. cbn in O. by rewrite app_nil_r in O.
Qed.

(** The clients' loop body: record the node, unlink it when [drop] says so. *)
Definition visit (drop : Z -> bool) (p : Z) (seen : list Z) : cmd heap (list Z * bool) :=
  _ ← (if drop p then qdma_list_del p else mret tt);
  mret (seen ++ [p], false).

(** C29. Walking with [qdma_list_for_each_safe] terminates and visits every node once
    and in order, also when the body unlinks any of the nodes it is at; what remains
    is the list of the others.  The number of rounds is the length of the list. *)
Theorem for_each_safe_visits_all h head l drop fuel : is_list h head l -> (length l < fuel)%nat ->
  exists h', qdma_list_for_each_safe get_next (visit drop) head fuel [] h = Ok (l, h') /\
    is_list h' head (filter (fun p => drop p = false) l).
Proof.
  intros Hl Hf.
  destruct (for_each_rule get_next (visit drop) head
    (fun seen rest t h' => t = seen /\ l = seen ++ rest /\
       is_list h' head (filter (fun p => drop p = false) seen ++ rest))
    (fun t h' => t = l /\ is_list h' head (filter (fun p => drop p = false) l)))
    with (fuel := fuel) (l := l) (t := @nil Z) (s := h) as (t' & h' & R & -> & Hl'); try done.
  - intros seen rest t s (_ & _ & Hs). by eapply list_leads.
  - intros seen p rest t s (-> & Hl1 & Hs). unfold visit.
    assert (forall h', is_list h' head (filter (fun p => drop p = false) (seen ++ [p]) ++ rest) ->
      exists t' s' stop, (mret (seen ++ [p], false) : cmd heap (list Z * bool)) h' = Ok (t', stop, s') /\
      if (stop : bool) then t' = l /\ is_list s' head (filter (fun p => drop p = false) l)
      else t' = seen ++ [p] /\ l = (seen ++ [p]) ++ rest /\
        is_list s' head (filter (fun p => drop p = false) (seen ++ [p]) ++ rest)) as Hend.
    { intros h' Hh. exists (seen ++ [p]), h', false. split_and!; try done. by rewrite <- app_assoc. }
    destruct (drop p) eqn:Ep.
    + destruct (del_node_run _ _ _ _ _ Hs) as (h' & R & L & _).
      rewrite (cmd_bind_run _ _ _ _ _ R). apply Hend.
      rewrite filter_app, filter_cons_False by (by rewrite Ep). by rewrite app_nil_r.
    + rewrite (cmd_bind_run _ _ s tt s) by done. apply Hend.
      rewrite filter_app, filter_cons_True by done. cbn. by rewrite <- app_assoc.
  - intros seen t s (-> & -> & Hs). rewrite !app_nil_r in *. done.
  - by apply list_head_next.
  - by exists h'.
Qed.

(** ** Witnesses

    Five nodes; 1 is the head, initialised by [qdma_list_init_head]. *)
Definition five_nodes : heap :=
  match qdma_list_init_head 1 (list_to_map ((fun p => (p, mkNode 0 0 (100 + p))) <$> [1; 2; 3; 4; 5])) with
  | Ok (_, h) => h | Fault _ => ∅ end.

Lemma five_nodes_list : is_list five_nodes 1 [].
Proof.
  split; [vm_compute; split; [split; reflexivity|done]|repeat constructor; set_solver|].
  repeat constructor; [done|]. vm_compute. eauto.
Qed.

Definition five_ops : list list_op := [AddTail 2; InsertAfter 3 1; InsertBefore 4 2; Del 3; AddTail 5].

Lemma five_ops_ok : ops_ok five_nodes 1 five_ops [].
Proof.
  assert (forall p, p ∈ [2; 3; 4; 5] -> alive five_nodes p) as Ha.
  { intros p Hp. repeat (apply elem_of_cons in Hp as [->|Hp];
      [split; [done|vm_compute; eauto]|]). by apply elem_of_nil in Hp. }
  repeat (split; [cbn [op_ok new_node]; first [exact I | split; [apply Ha; set_solver|set_solver]]|
    cbn [spec_op]; intros l' Hl'; vm_compute in Hl'; injection Hl' as <-]).
  exact I.
Qed.

Lemma list_ops_refine_witness :
  exists h', run_ops 1 five_ops five_nodes = Ok (tt, h') /\ is_list h' 1 [4; 2; 5] /\
    forall head2 l2, is_list five_nodes head2 l2 ->
      (forall x, x ∈ head2 :: l2 -> x ∉ touched 1 five_ops []) -> is_list h' head2 l2.
Proof.
  apply (list_ops_refine five_nodes 1 five_ops [] [4; 2; 5]);
    [exact five_nodes_list|exact five_ops_ok|reflexivity].
Defined.

Lemma for_each_safe_visits_all_witness :
  exists h h', is_list h 1 [4; 2; 5] /\
    qdma_list_for_each_safe get_next (visit (fun p => p =? 2)) 1 4 [] h = Ok ([4; 2; 5], h') /\
    is_list h' 1 [4; 5].
Proof.
  destruct (run_ops_spec five_nodes 1 five_ops [] [4; 2; 5]) as (h & _ & Hl & _);
    [exact five_nodes_list|exact five_ops_ok|reflexivity|].
  destruct (for_each_safe_visits_all h 1 [4; 2; 5] (fun p => p =? 2) 4 Hl) as (h' & R & L); [cbn; lia|].
  exists h, h'. split_and!; [done..|exact L].
Defined.
