(* ===== verification/Resource.v ===== *)
(** * qdma_resource_mgmt.c: the queue resource manager

    A master resource owns a range of hardware queues.  The queues no function
    holds are kept in a free list of chunks, ordered by base; each function
    ([dev_entry]) holds at most one chunk.  A chunk's base is an [int] and its
    length a [uint32_t]; their sums are taken in 32-bit unsigned arithmetic, as in
    the source.  Allocations may fail: the state carries the answers of the coming
    calls to [calloc]. *)

From S2P Require Import Prelude.
From stdpp Require Import list gmap.

Open Scope Z_scope.

(** ** Data *)
Record resource_entry := mkChunk { re_qbase : Z; re_total_q : Z }.

Record dev_entry := mkDevEntry {
  de_func_id : Z; de_h2c : Z; de_c2h : Z; de_cmpt : Z; de_entry : resource_entry }.

Record resource_master := mkMaster {
  rm_index : Z; rm_bus_start : Z; rm_bus_end : Z; rm_total_q : Z; rm_qbase : Z;
  rm_dev_list : list dev_entry; rm_free_list : list resource_entry; rm_active_qcnt : Z }.

Record rm_state := mkRm {
  rm_masters : list resource_master; rm_next_index : Z; rm_mem : list bool }.

Inductive q_type := QDMA_DEV_Q_TYPE_H2C | QDMA_DEV_Q_TYPE_C2H | QDMA_DEV_Q_TYPE_CMPT | Q_TYPE_MAX.
#[export] Instance q_type_eq_dec : EqDecision q_type.
Proof. solve_decision. Defined.
Inductive q_range := QDMA_DEV_Q_IN_RANGE | QDMA_DEV_Q_OUT_OF_RANGE.

#[export] Instance resource_entry_eq_dec : EqDecision resource_entry.
Proof. solve_decision. Defined.
#[export] Instance q_range_eq_dec : EqDecision q_range.
Proof. solve_decision. Defined.

Definition ERR_NO_MEM : Z := 2.
Definition ERR_RM_RES_EXISTS : Z := 8.
Definition ERR_RM_RES_NOT_EXISTS : Z := 9.
Definition ERR_RM_DEV_EXISTS : Z := 10.
Definition ERR_RM_DEV_NOT_EXISTS : Z := 11.
Definition ERR_RM_NO_QUEUES_LEFT : Z := 12.
Definition ERR_RM_QMAX_CONF_REJECTED : Z := 13.

(** ** Allocation *)
Definition alloc (A : Type) : Type := cmd (list bool) A.
Definition qdma_calloc : alloc bool := fun m =>
  match m with [] => Ok (true, []) | b :: m' => Ok (b, m') end.

(** [qdma_free_entry_create]: [lqbase] is an [int]. *)
Definition qdma_free_entry_create (q_base total_q : Z) : alloc (option resource_entry) :=
  ok ← qdma_calloc;
  mret (if (ok : bool) then Some (mkChunk (s32 q_base) (u32 total_q)) else None).

(** ** Giving a chunk back *)

(** Before the first node with a larger base, else at the end. *)
Fixpoint insert_chunk (e : resource_entry) (l : list resource_entry) : list resource_entry :=
  match l with
  | [] => [e]
  | n :: l' => if decide (re_qbase e < re_qbase n) then e :: n :: l' else n :: insert_chunk e l'
  end.

(** Merge contiguous chunks; [cur] is [streach_node]. *)
Fixpoint merge_chunks (cur : resource_entry) (l : list resource_entry) : list resource_entry :=
  match l with
  | [] => [cur]
  | n :: l' =>
      if decide (u32 (re_qbase cur + re_total_q cur) = u32 (re_qbase n))
      then merge_chunks (mkChunk (re_qbase cur) (u32 (re_total_q cur + re_total_q n))) l'
      else cur :: merge_chunks n l'
  end.
Definition defragment (l : list resource_entry) : list resource_entry :=
  match l with [] => [] | e :: l' => merge_chunks e l' end.

Definition no_chunk : resource_entry := mkChunk (-1) 0.

(** Returns the function's entry and the free list. *)
Definition qdma_submit_to_free_list (e : resource_entry) (free : list resource_entry) :
    alloc (resource_entry * list resource_entry) :=
  if decide (re_total_q e = 0) then mret (e, free) else
  n ← qdma_free_entry_create (re_qbase e) (re_total_q e);
  match n with
  | None => mret (e, free)
  | Some n => mret (no_chunk, defragment (insert_chunk n free))
  end.

(** ** Taking a chunk *)

(** The first node that holds the requested range. *)
Definition holds_request (qmax qbase : Z) (n : resource_entry) : bool :=
  bool_decide (re_qbase n <= qbase) &&
  bool_decide (u32 (qbase + qmax) <= u32 (re_qbase n + re_total_q n)).

Fixpoint find_exact (qmax qbase : Z) (l : list resource_entry) : option nat :=
  match l with
  | [] => None
  | n :: l' => if holds_request qmax qbase n then Some 0%nat else S <$> find_exact qmax qbase l'
  end.

(** The best fit: the last of the smallest nodes that are large enough. *)
Fixpoint find_best (qmax : Z) (l : list resource_entry) (i : nat) (best : option (nat * resource_entry)) :
    option (nat * resource_entry) :=
  match l with
  | [] => best
  | n :: l' =>
      find_best qmax l' (S i)
        (if decide (qmax <= re_total_q n) then
           match best with
           | None => Some (i, n)
           | Some (_, b) => if decide (re_total_q n <= re_total_q b) then Some (i, n) else best
           end
         else best)
  end.

(** The node and the base it will be split at. *)
Definition choose_node (qmax qbase : Z) (l : list resource_entry) : option (nat * Z) :=
  match (if decide (0 <= qbase) then find_exact qmax qbase l else None) with
  | Some i => Some (i, qbase)
  | None => '(i, n) ← find_best qmax l 0 None; Some (i, re_qbase n)
  end.

(** Cut [qbase .. qbase + qmax) out of node [n]: the chunks to put before and
    after it, and what it becomes.  [None]: out of memory; the second component
    is the replacement of [n] in the list either way. *)
Definition split_node (qmax qbase : Z) (n : resource_entry) :
    alloc (option nat * list resource_entry) :=
  if decide (qbase = re_qbase n /\ qmax = re_total_q n) then mret (Some 0%nat, [n])
  else if decide (qbase = re_qbase n) then
    let lqmax := u32 (re_total_q n - qmax) in
    e ← qdma_free_entry_create (re_qbase n + qmax) lqmax;
    match e with
    | None => mret (None, [n])
    | Some e => mret (Some 0%nat, [mkChunk (re_qbase n) (u32 (re_total_q n - lqmax)); e])
    end
  else if decide (re_qbase n < qbase /\ u32 (qbase + qmax) = u32 (re_qbase n + re_total_q n)) then
    e ← qdma_free_entry_create (re_qbase n) (qbase - re_qbase n);
    match e with
    | None => mret (None, [n])
    | Some e => mret (Some 1%nat, [e; mkChunk qbase qmax])
    end
  else
    let lqmax := u32 (qbase - re_qbase n) in
    e1 ← qdma_free_entry_create (re_qbase n) lqmax;
    match e1 with
    | None => mret (None, [n])
    | Some e1 =>
        let n' := mkChunk qbase (u32 (re_total_q n - lqmax)) in
        e2 ← qdma_free_entry_create (qbase + qmax) (re_total_q n' - qmax);
        match e2 with
        | None => mret (None, [e1; n'])
        | Some e2 => mret (Some 1%nat, [e1; mkChunk qbase qmax; e2])
        end
    end.

(** Returns the index of the node in the new list. *)
Definition qdma_get_resource_node (qmax qbase : Z) (free : list resource_entry) :
    alloc (option nat * list resource_entry) :=
  match choose_node qmax qbase free with
  | None => mret (None, free)
  | Some (i, qb) =>
      match free !! i with
      | None => mret (None, free)
      | Some n =>
          '(k, ns) ← split_node qmax qb n;
          mret ((fun k => (i + k)%nat) <$> k, take i free ++ ns ++ drop (S i) free)
      end
  end.

(** The node becomes the function's entry and leaves the list. *)
Definition take_node (k : nat) (free : list resource_entry) : outcome (resource_entry * list resource_entry) :=
  match free !! k with
  | Some n => Ok (n, delete k free)
  | None => Fault NullDeref
  end.

Definition qdma_request_q_resource (e : resource_entry) (new_qmax new_qbase : Z)
    (free : list resource_entry) : alloc (Z * resource_entry * list resource_entry) :=
  let qmax := re_total_q e in
  let qbase := re_qbase e in
  '(e, free) ← qdma_submit_to_free_list e free;
  if decide (new_qmax = 0) then mret (0, e, free) else
  '(k, free) ← qdma_get_resource_node new_qmax new_qbase free;
  match k with
  | Some k => '(e, free) ← lift (take_node k free); mret (0, e, free)
  | None =>
      '(k, free) ← qdma_get_resource_node qmax qbase free;
      match k with
      | None => mret (- ERR_RM_NO_QUEUES_LEFT, no_chunk, free)
      | Some k => '(e, free) ← lift (take_node k free); mret (- ERR_RM_NO_QUEUES_LEFT, e, free)
      end
  end.

(** ** Lookups *)
Definition set_masters (l : list resource_master) (s : rm_state) : rm_state :=
  mkRm l (rm_next_index s) (rm_mem s).
Definition set_dev_list (l : list dev_entry) (m : resource_master) : resource_master :=
  mkMaster (rm_index m) (rm_bus_start m) (rm_bus_end m) (rm_total_q m) (rm_qbase m) l
    (rm_free_list m) (rm_active_qcnt m).
Definition set_free_list (l : list resource_entry) (m : resource_master) : resource_master :=
  mkMaster (rm_index m) (rm_bus_start m) (rm_bus_end m) (rm_total_q m) (rm_qbase m)
    (rm_dev_list m) l (rm_active_qcnt m).
Definition set_active_qcnt (n : Z) (m : resource_master) : resource_master :=
  mkMaster (rm_index m) (rm_bus_start m) (rm_bus_end m) (rm_total_q m) (rm_qbase m)
    (rm_dev_list m) (rm_free_list m) n.
Definition set_entry (e : resource_entry) (x : dev_entry) : dev_entry :=
  mkDevEntry (de_func_id x) (de_h2c x) (de_c2h x) (de_cmpt x) e.

Definition rm := cmd rm_state.

(** Allocate with the answers the state holds. *)
Definition with_alloc {A} (c : alloc A) : rm A := fun s =>
  match c (rm_mem s) with
  | Ok (a, m) => Ok (a, mkRm (rm_masters s) (rm_next_index s) m)
  | Fault f => Fault f
  end.

Definition qdma_find_master_resource_entry (bus_start bus_end : Z) : rm (option (nat * resource_master)) :=
  gets (fun s => list_find (fun m => rm_bus_start m = bus_start /\ rm_bus_end m = bus_end) (rm_masters s)).
Definition qdma_get_master_resource_entry (dma_device_index : Z) : rm (option (nat * resource_master)) :=
  gets (fun s => list_find (fun m => rm_index m = dma_device_index) (rm_masters s)).
Definition find_dev (func_id : Z) (m : resource_master) : option (nat * dev_entry) :=
  list_find (fun x => de_func_id x = func_id) (rm_dev_list m).
Definition put_master (i : nat) (m : resource_master) : rm unit :=
  modify (fun s => set_masters (<[i := m]> (rm_masters s)) s).

(** ** Operations *)
Definition qdma_master_resource_create (bus_start bus_end q_base total_q : Z) : rm (Z * Z) :=
  q ← qdma_find_master_resource_entry bus_start bus_end;
  match q with
  | Some (_, m) => mret (- ERR_RM_RES_EXISTS, rm_index m)
  | None =>
      s ← get;
      let index := rm_next_index s in
      ok1 ← with_alloc qdma_calloc;
      if negb ok1 then mret (- ERR_NO_MEM, index) else
      ok2 ← with_alloc qdma_calloc;
      if negb ok2 then mret (- ERR_NO_MEM, index) else
      _ ← modify (fun s => mkRm (rm_masters s ++
            [mkMaster index bus_start bus_end total_q q_base [] [mkChunk q_base total_q] 0])
            (index + 1) (rm_mem s));
      mret (0, index)
  end.

Definition qdma_master_resource_destroy (dma_device_index : Z) : rm unit :=
  q ← qdma_get_master_resource_entry dma_device_index;
  match q with
  | None => mret tt
  | Some (i, m) =>
      match rm_dev_list m with
      | [] => modify (fun s => set_masters (delete i (rm_masters s)) s)
      | _ :: _ => mret tt
      end
  end.

Definition qdma_dev_entry_create (dma_device_index func_id : Z) : rm Z :=
  q ← qdma_get_master_resource_entry dma_device_index;
  match q with
  | None => mret (- ERR_RM_RES_NOT_EXISTS)
  | Some (i, m) =>
      match find_dev func_id m with
      | Some _ => mret (- ERR_RM_DEV_EXISTS)
      | None =>
          ok ← with_alloc qdma_calloc;
          if negb ok then mret (- ERR_NO_MEM) else
          _ ← put_master i (set_dev_list (rm_dev_list m ++ [mkDevEntry func_id 0 0 0 no_chunk]) m);
          mret 0
      end
  end.

Definition qdma_dev_entry_destroy (dma_device_index func_id : Z) : rm unit :=
  q ← qdma_get_master_resource_entry dma_device_index;
  match q with
  | None => mret tt
  | Some (i, m) =>
      match find_dev func_id m with
      | None => mret tt
      | Some (j, x) =>
          '(_, free) ← with_alloc (qdma_submit_to_free_list (de_entry x) (rm_free_list m));
          put_master i (set_free_list free (set_dev_list (delete j (rm_dev_list m)) m))
      end
  end.

(** Returns the error code and the new [*qbase]. *)
Definition qdma_dev_update (dma_device_index func_id qmax qbase : Z) : rm (Z * Z) :=
  q ← qdma_get_master_resource_entry dma_device_index;
  match q with
  | None => mret (- ERR_RM_RES_NOT_EXISTS, qbase)
  | Some (i, m) =>
      match find_dev func_id m with
      | None => mret (- ERR_RM_DEV_NOT_EXISTS, qbase)
      | Some (j, x) =>
          if decide (de_h2c x <> 0 \/ de_c2h x <> 0 \/ de_cmpt x <> 0)
          then mret (- ERR_RM_QMAX_CONF_REJECTED, qbase) else
          '(rv, e, free) ← with_alloc (qdma_request_q_resource (de_entry x) qmax qbase (rm_free_list m));
          _ ← put_master i (set_free_list free (set_dev_list (<[j := set_entry e x]> (rm_dev_list m)) m));
          mret (rv, re_qbase e)
      end
  end.

Definition qdma_dev_qinfo_get (dma_device_index func_id : Z) : rm (Z * option resource_entry) :=
  q ← qdma_get_master_resource_entry dma_device_index;
  mret match q with
  | None => (- ERR_RM_RES_NOT_EXISTS, None)
  | Some (_, m) =>
      match find_dev func_id m with
      | None => (- ERR_RM_DEV_NOT_EXISTS, None)
      | Some (_, x) => (0, Some (de_entry x))
      end
  end.

Definition in_range (e : resource_entry) (qid_hw : Z) : q_range :=
  let qmax := u32 (re_qbase e + re_total_q e) in
  if decide (re_total_q e <> 0 /\ qid_hw < qmax /\ re_qbase e <= s32 qid_hw)
  then QDMA_DEV_Q_IN_RANGE else QDMA_DEV_Q_OUT_OF_RANGE.

Definition qdma_dev_is_queue_in_range (dma_device_index func_id qid_hw : Z) : rm q_range :=
  q ← qdma_get_master_resource_entry dma_device_index;
  mret match q with
  | None => QDMA_DEV_Q_OUT_OF_RANGE
  | Some (_, m) =>
      match find_dev func_id m with
      | None => QDMA_DEV_Q_OUT_OF_RANGE
      | Some (_, x) => in_range (de_entry x) qid_hw
      end
  end.

(** The active count of a queue type, and its update. *)
Definition active_cnt (t : q_type) (x : dev_entry) : option Z :=
  match t with
  | QDMA_DEV_Q_TYPE_H2C => Some (de_h2c x)
  | QDMA_DEV_Q_TYPE_C2H => Some (de_c2h x)
  | QDMA_DEV_Q_TYPE_CMPT => Some (de_cmpt x)
  | Q_TYPE_MAX => None
  end.
Definition set_active_cnt (t : q_type) (n : Z) (x : dev_entry) : dev_entry :=
  match t with
  | QDMA_DEV_Q_TYPE_H2C => mkDevEntry (de_func_id x) n (de_c2h x) (de_cmpt x) (de_entry x)
  | QDMA_DEV_Q_TYPE_C2H => mkDevEntry (de_func_id x) (de_h2c x) n (de_cmpt x) (de_entry x)
  | QDMA_DEV_Q_TYPE_CMPT => mkDevEntry (de_func_id x) (de_h2c x) (de_c2h x) n (de_entry x)
  | Q_TYPE_MAX => x
  end.

Definition qdma_dev_increment_active_queue (dma_device_index func_id : Z) (t : q_type) : rm Z :=
  q ← qdma_get_master_resource_entry dma_device_index;
  match q with
  | None => mret (- ERR_RM_RES_NOT_EXISTS)
  | Some (i, m) =>
      match find_dev func_id m with
      | None => mret (- ERR_RM_DEV_NOT_EXISTS)
      | Some (j, x) =>
          match active_cnt t x with
          | None => mret (- ERR_RM_DEV_NOT_EXISTS)
          | Some c =>
              if decide (re_total_q (de_entry x) < u32 (c + 1)) then mret (- ERR_RM_NO_QUEUES_LEFT) else
              _ ← put_master i (set_active_qcnt (u32 (rm_active_qcnt m + 1))
                    (set_dev_list (<[j := set_active_cnt t (u32 (c + 1)) x]> (rm_dev_list m)) m));
              mret 0
          end
      end
  end.

Definition qdma_dev_decrement_active_queue (dma_device_index func_id : Z) (t : q_type) : rm Z :=
  q ← qdma_get_master_resource_entry dma_device_index;
  match q with
  | None => mret (- ERR_RM_RES_NOT_EXISTS)
  | Some (i, m) =>
      match find_dev func_id m with
      | None => mret (- ERR_RM_DEV_NOT_EXISTS)
      | Some (j, x) =>
          let x' := match active_cnt t x with
                    | Some c => if decide (c <> 0) then set_active_cnt t (c - 1) x else x
                    | None => x
                    end in
          let rv := match active_cnt t x with Some _ => 0 | None => - ERR_RM_DEV_NOT_EXISTS end in
          _ ← put_master i (set_active_qcnt (u32 (rm_active_qcnt m - 1))
                (set_dev_list (<[j := x']> (rm_dev_list m)) m));
          mret rv
      end
  end.

Definition qdma_get_active_queue_count (dma_device_index : Z) : rm Z :=
  q ← qdma_get_master_resource_entry dma_device_index;
  mret match q with None => 0 | Some (_, m) => rm_active_qcnt m end.

Definition qdma_get_device_active_queue_count (dma_device_index func_id : Z) (t : q_type) : rm Z :=
  q ← qdma_get_master_resource_entry dma_device_index;
  mret match q with
  | None => - ERR_RM_RES_NOT_EXISTS
  | Some (_, m) =>
      match find_dev func_id m with
      | None => - ERR_RM_DEV_NOT_EXISTS
      | Some (_, x) => s32 (default 0 (active_cnt t x))
      end
  end.

(** ** Queues of chunks *)
Definition queues (e : resource_entry) : list Z := seqZ (re_qbase e) (re_total_q e).
Definition queues_of (l : list resource_entry) : list Z := l ≫= queues.

Definition chunk_end (e : resource_entry) : Z := re_qbase e + re_total_q e.

(** Ordered, disjoint, non-empty chunks between [lo] and [hi]. *)
Fixpoint spaced (lo hi : Z) (l : list resource_entry) : Prop :=
  match l with
  | [] => lo <= hi
  | e :: l' => lo <= re_qbase e /\ 0 < re_total_q e /\ spaced (chunk_end e) hi l'
  end.

(** The same with a gap after every chunk: nothing is left to merge. *)
Fixpoint gapped (l : list resource_entry) : Prop :=
  match l with
  | e1 :: ((e2 :: _) as l') => chunk_end e1 < re_qbase e2 /\ gapped l'
  | _ => True
  end.

Definition apart (e n : resource_entry) : Prop :=
  chunk_end e <= re_qbase n \/ chunk_end n <= re_qbase e.

Lemma queues_app b t1 t2 : 0 <= t1 -> 0 <= t2 ->
  queues (mkChunk b (t1 + t2)) = queues (mkChunk b t1) ++ queues (mkChunk (b + t1) t2).
Proof.
  intros H1 H2. unfold queues. cbn. unfold seqZ.
  rewrite Z2Nat.inj_add, seq_app, fmap_app by lia. f_equal.
  apply list_eq. intros i. rewrite !list_lookup_fmap.
  destruct (decide (i < Z.to_nat t2)%nat).
  - rewrite !lookup_seq_lt by done. cbn. f_equal. lia.
  - by rewrite !lookup_seq_ge by lia.
Qed.

Lemma queues_empty e : re_total_q e = 0 -> queues e = [].
Proof. unfold queues. by intros ->. Qed.

Lemma elem_of_queues q e : q ∈ queues e <-> re_qbase e <= q < chunk_end e.
Proof. unfold queues, chunk_end. apply elem_of_seqZ. Qed.

Lemma queues_of_app l1 l2 : queues_of (l1 ++ l2) = queues_of l1 ++ queues_of l2.
Proof. apply bind_app. Qed.
Lemma queues_of_cons e l : queues_of (e :: l) = queues e ++ queues_of l.
Proof. done. Qed.

Lemma spaced_le lo hi l : spaced lo hi l -> lo <= hi.
Proof.
  revert lo. induction l as [|e l IH]; intros lo H; [done|].
  destruct H as (? & ? & H). apply IH in H. unfold chunk_end in H. lia.
Qed.

Lemma spaced_weaken lo lo' hi l : spaced lo hi l -> lo' <= lo -> spaced lo' hi l.
Proof. destruct l; cbn; intros; [lia|]. intuition lia. Qed.

Lemma spaced_app lo hi l1 l2 : spaced lo hi (l1 ++ l2) <->
  exists mid, spaced lo mid l1 /\ spaced mid hi l2.
Proof.
  revert lo. induction l1 as [|e l1 IH]; intros lo; cbn.
  - split; [intros H; exists lo; split; [lia|done]|].
    intros (mid & Hm & H). by eapply spaced_weaken.
  - rewrite IH. naive_solver.
Qed.

Lemma spaced_chunk lo hi l n : spaced lo hi l -> n ∈ l ->
  lo <= re_qbase n /\ 0 < re_total_q n /\ chunk_end n <= hi.
Proof.
  revert lo. induction l as [|e l IH]; intros lo H Hn; [by apply elem_of_nil in Hn|].
  destruct H as (H1 & H2 & H3). pose proof (spaced_le _ _ _ H3) as Hle.
  apply elem_of_cons in Hn as [->|Hn]; [done|].
  apply (IH _ H3) in Hn. unfold chunk_end in *. lia.
Qed.

(** ** Insertion and merging *)

Lemma insert_chunk_perm e l : insert_chunk e l ≡ₚ e :: l.
Proof.
  induction l as [|n l IH]; [done|]. cbn. case_decide; [done|]. rewrite IH. by constructor.
Qed.

Lemma insert_chunk_spaced lo hi e l : spaced lo hi l -> lo <= re_qbase e -> 0 < re_total_q e ->
  chunk_end e <= hi -> (forall n, n ∈ l -> apart e n) -> spaced lo hi (insert_chunk e l).
Proof.
  revert lo. induction l as [|n l IH]; intros lo Hs Hlo Ht Hhi Ha; cbn.
  - by split.
  - destruct Hs as (H1 & H2 & H3). pose proof (Ha n ltac:(set_solver)) as Hen.
    unfold apart, chunk_end in *. case_decide.
    + split; [lia|]. split; [lia|]. split; [unfold chunk_end; lia|]. by split.
    + split; [lia|]. split; [lia|]. apply IH; try done; [unfold chunk_end; lia|].
      intros n' Hn'. apply Ha. set_solver.
Qed.

Lemma merge_chunks_spec lo hi cur l : spaced lo hi (cur :: l) -> 0 <= lo -> hi < 2 ^ 31 ->
  queues_of (merge_chunks cur l) = queues_of (cur :: l) /\ spaced lo hi (merge_chunks cur l) /\
  gapped (merge_chunks cur l) /\
  exists t l', merge_chunks cur l = mkChunk (re_qbase cur) t :: l'.
Proof.
  revert cur lo. induction l as [|n l IH]; intros cur lo (H1 & H2 & H3) Hlo Hhi.
  - cbn [merge_chunks]. split; [done|]. split; [done|]. split; [done|].
    exists (re_total_q cur), []. by destruct cur.
  - cbn [merge_chunks]. destruct H3 as (H4 & H5 & H6). pose proof (spaced_le _ _ _ H6) as Hle.
    destruct cur as [cb ct], n as [nb nt]. unfold chunk_end in *. cbn [re_qbase re_total_q] in *.
    rewrite (u32_small (cb + ct)), (u32_small nb), (u32_small (ct + nt)) by (unfold fits_u32; lia).
    case_decide as Hadj.
    + destruct (IH (mkChunk cb (ct + nt)) lo) as (Hq & Hs & Hg & Hh); [|done|done|].
      { split; [done|]. split; [cbn; lia|]. unfold chunk_end. cbn. by replace (cb + (ct + nt)) with (nb + nt) by lia. }
      split; [|by split]. rewrite Hq, !queues_of_cons, queues_app by lia.
      subst nb. by rewrite app_assoc.
    + destruct (IH (mkChunk nb nt) (cb + ct)) as (Hq & Hs & Hg & t & l' & E); [by split|lia|done|].
      rewrite E in *. split; [by rewrite queues_of_cons, Hq|].
      split; [split; [done|]; split; [done|]; exact Hs|].
      split; [split; [unfold chunk_end; cbn; lia|exact Hg]|]. by eexists _, _.
Qed.

Lemma defragment_spec lo hi l : spaced lo hi l -> 0 <= lo -> hi < 2 ^ 31 ->
  queues_of (defragment l) = queues_of l /\ spaced lo hi (defragment l) /\ gapped (defragment l).
Proof.
  destruct l as [|e l]; [done|]. intros H Hlo Hhi.
  destruct (merge_chunks_spec lo hi e l H Hlo Hhi) as (? & ? & ? & _). by split_and!.
Qed.

(** ** Allocations that succeed *)
Definition mem_ok (m : list bool) : Prop := Forall (fun b => b = true) m.

(** [c] returns [a] when no allocation fails. *)
Definition runs {A} (c : alloc A) (a : A) : Prop :=
  forall m, mem_ok m -> exists m', c m = Ok (a, m') /\ mem_ok m'.

Lemma runs_ret {A} (a : A) : runs (mret a) a.
Proof. intros m Hm. by exists m. Qed.

Lemma runs_bind {A B} (c : alloc A) (k : A -> alloc B) a b :
  runs c a -> runs (k a) b -> runs (c ≫= k) b.
Proof.
  intros Hc Hk m Hm. destruct (Hc m Hm) as (m1 & E1 & H1). destruct (Hk m1 H1) as (m2 & E2 & H2).
  exists m2. by rewrite (cmd_bind_run _ _ _ _ _ E1).
Qed.

Lemma runs_lift {A} (x : outcome A) a : x = Ok a -> runs (lift x) a.
Proof. intros -> m Hm. by exists m. Qed.

Lemma runs_calloc : runs qdma_calloc true.
Proof. intros m Hm. destruct Hm as [|b m -> Hm]; [exists []|by exists m]. by split; [|constructor]. Qed.

(** [c] returns [a] when no allocation fails, and otherwise [a] or a result in [Q]. *)
Definition attempts {A} (c : alloc A) (a : A) (Q : A -> Prop) : Prop := forall m, exists b m',
  c m = Ok (b, m') /\ (b = a \/ Q b) /\ (mem_ok m -> b = a /\ mem_ok m').

Lemma attempts_runs {A} (c : alloc A) a Q : attempts c a Q -> runs c a.
Proof. intros H m Hm. destruct (H m) as (b & m' & E & _ & Hb). destruct (Hb Hm) as [-> ?]. by exists m'. Qed.

Lemma attempts_returns {A} (c : alloc A) a (P Q : A -> Prop) : attempts c a Q -> P a -> (forall b, Q b -> P b) ->
  returns P c.
Proof. intros H Ha HQ m. destruct (H m) as (b & m' & E & [->|Hb] & _); eexists _, m'; split; eauto. Qed.

Lemma attempts_ret {A} (a : A) Q : attempts (mret a) a Q.
Proof. intros m. exists a, m. split; [done|]. split; [by left|done]. Qed.

Lemma attempts_bind {A B} (c : alloc A) (k : A -> alloc B) a b Q R :
  attempts c a Q -> attempts (k a) b R -> (forall x, Q x -> returns R (k x)) -> attempts (c ≫= k) b R.
Proof.
  intros Hc Hk HQ m. destruct (Hc m) as (x & m1 & E & Hx & Hs). setoid_rewrite (cmd_bind_run _ _ _ _ _ E).
  destruct (Hk m1) as (y & m2 & E2 & Hy & Hs2). destruct Hx as [->|Hx].
  - exists y, m2. split; [done|]. split; [done|]. intros Hm. by apply Hs2, Hs.
  - destruct (HQ x Hx m1) as (z & m3 & E3 & Hz). exists z, m3. split; [done|]. split; [by right|].
    intros Hm. destruct (Hs Hm) as [-> Hm1]. rewrite E2 in E3. injection E3 as <- <-. by apply Hs2.
Qed.

Lemma attempts_create b t : fits_s32 b -> fits_u32 t ->
  attempts (qdma_free_entry_create b t) (Some (mkChunk b t)) (eq None).
Proof.
  intros Hb Ht m. unfold qdma_free_entry_create, qdma_calloc, mbind, cmd_bind.
  destruct m as [|[] m]; cbn; rewrite ?s32_small, ?u32_small by done;
    (eexists _, _; split; [reflexivity|]; split; [by auto|]).
  - done.
  - intros Hm. by inversion Hm.
  - intros Hm. by inversion Hm.
Qed.

Lemma runs_create b t : fits_s32 b -> fits_u32 t ->
  runs (qdma_free_entry_create b t) (Some (mkChunk b t)).
Proof. intros. by eapply attempts_runs, attempts_create. Qed.

(** A chunk that a function may hold: none, or one inside the range. *)
Definition held (lo hi : Z) (e : resource_entry) : Prop :=
  re_total_q e = 0 \/ (lo <= re_qbase e /\ 0 < re_total_q e /\ chunk_end e <= hi).

(** [qdma_submit_to_free_list] gives back exactly what the function held, and
    leaves nothing unmerged; without memory for the list's entry it changes nothing. *)
Lemma submit_spec lo hi e free :
  spaced lo hi free -> 0 <= lo -> hi < 2 ^ 31 -> held lo hi e ->
  (forall n, n ∈ free -> 0 < re_total_q e -> apart e n) ->
  exists e' free', attempts (qdma_submit_to_free_list e free) (e', free') (eq (e, free)) /\ (re_total_q e' = 0 /\ (e' = e \/ e' = no_chunk)) /\
    queues_of free' ≡ₚ queues e ++ queues_of free /\ spaced lo hi free' /\
    (0 < re_total_q e -> gapped free').
Proof.
  intros Hs Hlo Hhi Hheld Ha. unfold qdma_submit_to_free_list. case_decide as Hz.
  { exists e, free. split; [apply attempts_ret|]. split; [by split; [|left]|]. rewrite queues_empty by done.
    split; [done|]. split; [done|]. lia. }
  destruct Hheld as [?|(H1 & H2 & H3)]; [done|]. unfold chunk_end in H3.
  pose proof (insert_chunk_spaced lo hi e free Hs H1 H2 H3 (fun n Hn => Ha n Hn H2)) as Hi.
  destruct (defragment_spec lo hi _ Hi Hlo Hhi) as (Hq & Hd & Hg).
  eexists no_chunk, (defragment (insert_chunk e free)). split; [|split; [by split; [|right]|]].
  - eapply attempts_bind; [apply attempts_create; unfold fits_s32, fits_u32; lia| |].
    + destruct e. apply attempts_ret.
    + intros x <-. by apply returns_ret.
  - rewrite Hq. split; [|by split]. unfold queues_of.
    by rewrite (insert_chunk_perm e free).
Qed.

(** [c] returns with a result in [P], and when [ok] holds the allocations after it
    succeed as those before it. *)
Definition allocs {A} (ok : Prop) (P : A -> Prop) (c : alloc A) : Prop := forall m, (ok -> mem_ok m) ->
  exists a m', c m = Ok (a, m') /\ P a /\ (ok -> mem_ok m').

Lemma allocs_of {A} ok (c : alloc A) a (P : A -> Prop) : runs c a -> returns P c -> allocs ok (fun b => P b /\ (ok -> b = a)) c.
Proof.
  intros Hr HP m Hm. destruct (HP m) as (b & m' & E & Hb). exists b, m'. split; [done|].
  assert (ok -> b = a /\ mem_ok m') as H; [|by split; [split|]; [|intros ?; by apply H..]].
  intros Hok. destruct (Hr m (Hm Hok)) as (m2 & E2 & H2). rewrite E in E2. by injection E2 as -> ->.
Qed.

Lemma allocs_calloc ok : allocs ok (fun _ => True) qdma_calloc.
Proof.
  intros [|b m] Hm; eexists _, _; (split; [reflexivity|]); split; try done.
  intros Hok. apply Hm in Hok. by inversion Hok.
Qed.

(** ** Choosing and splitting a node *)

(** The range [qb .. qb + qmax) lies in the node. *)
Definition within (qb qmax : Z) (n : resource_entry) : Prop :=
  re_qbase n <= qb /\ 0 <= qmax /\ qb + qmax <= chunk_end n.

Lemma find_exact_spec qmax qbase l lo hi :
  spaced lo hi l -> 0 <= lo -> hi < 2 ^ 31 -> 0 <= qbase < 2 ^ 31 -> 0 <= qmax < 2 ^ 31 ->
  match find_exact qmax qbase l with
  | Some i => exists n, l !! i = Some n /\ within qbase qmax n
  | None => forall n, n ∈ l -> ~ within qbase qmax n
  end.
Proof.
  intros Hs Hlo Hhi Hb Hq. revert lo Hs Hlo.
  induction l as [|n l IH]; intros lo Hs Hlo; cbn [find_exact]; [set_solver|].
  pose proof (spaced_chunk _ _ _ n Hs ltac:(set_solver)) as (H1 & H2 & H3).
  destruct Hs as (_ & _ & Hs). unfold chunk_end in H3.
  assert (holds_request qmax qbase n = true <-> within qbase qmax n) as Hh.
  { unfold holds_request, within, chunk_end. rewrite andb_true_iff, !bool_decide_eq_true.
    rewrite !u32_small by (unfold fits_u32; lia). lia. }
  destruct (holds_request qmax qbase n); [exists n; split; [done|by apply Hh]|].
  specialize (IH _ Hs ltac:(unfold chunk_end; lia)).
  destruct (find_exact qmax qbase l) as [i|]; cbn; [exact IH|].
  intros x Hx Hwx. apply elem_of_cons in Hx as [->|Hx]; [by apply Hh in Hwx|]. by eapply IH.
Qed.

Lemma find_best_spec qmax l0 l i best : drop i l0 = l ->
  match best with
  | Some (j, b) => l0 !! j = Some b /\ qmax <= re_total_q b
  | None => forall n, n ∈ take i l0 -> re_total_q n < qmax
  end ->
  match find_best qmax l i best with
  | Some (j, b) => l0 !! j = Some b /\ qmax <= re_total_q b
  | None => forall n, n ∈ l0 -> re_total_q n < qmax
  end.
Proof.
  revert i best. induction l as [|n l IH]; intros i best Hd Hbest; cbn [find_best].
  - destruct best as [[j b]|]; [done|]. intros n Hn. apply Hbest.
    rewrite <- (take_drop i l0), Hd, app_nil_r in Hn. exact Hn.
  - assert (l0 !! i = Some n) as Hi.
    { replace i with (i + 0)%nat by lia. by rewrite <- lookup_drop, Hd. }
    apply IH.
    { replace (S i) with (i + 1)%nat by lia. by rewrite <- drop_drop, Hd. }
    case_decide as Hfit; destruct best as [[j b]|]; [case_decide|..]; try done.
    intros x Hx. rewrite (take_S_r _ _ _ Hi) in Hx. apply elem_of_app in Hx as [Hx|Hx]; [by apply Hbest|].
    apply list_elem_of_singleton in Hx as ->. lia.
Qed.

Lemma choose_node_spec qmax qbase l lo hi :
  spaced lo hi l -> 0 <= lo -> hi < 2 ^ 31 -> -1 <= qbase < 2 ^ 31 -> 0 <= qmax < 2 ^ 31 ->
  match choose_node qmax qbase l with
  | Some (i, qb) => exists n, l !! i = Some n /\ within qb qmax n /\
      (qb = qbase \/ (qb = re_qbase n /\ (0 <= qbase -> forall n, n ∈ l -> ~ within qbase qmax n)))
  | None => forall n, n ∈ l -> re_total_q n < qmax
  end.
Proof.
  intros Hs Hlo Hhi Hb Hq. unfold choose_node.
  pose proof (find_best_spec qmax l l 0 None eq_refl) as Hbest.
  specialize (Hbest ltac:(cbn; set_solver)).
  assert (forall x, match find_best qmax l 0 None with Some (j, b) => x = Some (j, re_qbase b)
            | None => x = None end ->
    (0 <= qbase -> forall n, n ∈ l -> ~ within qbase qmax n) ->
    match x with
    | Some (i, qb) => exists n, l !! i = Some n /\ within qb qmax n /\
      (qb = qbase \/ (qb = re_qbase n /\ (0 <= qbase -> forall n, n ∈ l -> ~ within qbase qmax n)))
    | None => forall n, n ∈ l -> re_total_q n < qmax
    end) as Hfall.
  { intros x Hx Hno. destruct (find_best _ _ _ _) as [[j b]|]; subst x; [|exact Hbest].
    destruct Hbest as [Hj Hfit]. exists b. split; [done|].
    split; [unfold within, chunk_end; lia|]. by right. }
  case_decide as Hpos.
  - pose proof (find_exact_spec qmax qbase l lo hi Hs Hlo Hhi ltac:(lia) Hq) as He.
    destruct (find_exact qmax qbase l) as [i|].
    + destruct He as (n & Hn & Hw). exists n. by split_and!; [..|left].
    + apply Hfall; [|done]. by destruct (find_best _ _ _ _) as [[? ?]|].
  - apply Hfall; [|lia]. by destruct (find_best _ _ _ _) as [[? ?]|].
Qed.

Lemma queues_of_delete l k c : l !! k = Some c ->
  queues_of l ≡ₚ queues c ++ queues_of (delete k l).
Proof.
  intros H. transitivity (queues_of (c :: delete k l)); [|done].
  unfold queues_of. by rewrite <- (delete_Permutation l k c H).
Qed.

(** Cutting a chunk out of a node. *)
Definition cut (qb qmax : Z) (n : resource_entry) (k : nat) (ns : list resource_entry) : Prop :=
  ns !! k = Some (mkChunk qb qmax) /\ queues_of ns = queues n /\
  spaced (re_qbase n) (chunk_end n) (delete k ns).

(** Without memory the node may have been split already, but nothing is cut out. *)
Definition uncut (n : resource_entry) (r : option nat * list resource_entry) : Prop :=
  fst r = None /\ queues_of (snd r) = queues n /\ spaced (re_qbase n) (chunk_end n) (snd r).

Lemma uncut_whole n : 0 < re_total_q n -> uncut n (None, [n]).
Proof. intros H. unfold uncut, chunk_end. cbn. rewrite app_nil_r. by split_and!. Qed.

Ltac one_alloc :=
  eapply attempts_bind; [apply attempts_create; unfold fits_s32, fits_u32; lia|apply attempts_ret|];
  intros ? <-; by apply returns_ret.

Lemma split_node_spec qmax qb n : 0 <= re_qbase n -> 0 < re_total_q n -> chunk_end n < 2 ^ 31 ->
  within qb qmax n -> exists k ns, attempts (split_node qmax qb n) (Some k, ns) (uncut n) /\ cut qb qmax n k ns.
Proof.
  destruct n as [b t]. unfold within, chunk_end, split_node. cbn [re_qbase re_total_q].
  intros Hb Ht Hhi (H1 & H2 & H3). unfold cut. pose proof (uncut_whole (mkChunk b t) Ht) as Hwhole.
  destruct (decide (qb = b /\ qmax = t)) as [[-> ->]|Hne].
  { exists 0%nat, [mkChunk b t]. split; [apply attempts_ret|]. cbn. rewrite app_nil_r.
    unfold chunk_end. cbn. split_and!; [done|done|lia]. }
  destruct (decide (qb = b)) as [->|Hqb].
  { rewrite (u32_small (t - qmax)) by (unfold fits_u32; lia).
    eexists 0%nat, [mkChunk b (u32 (t - (t - qmax))); mkChunk (b + qmax) (t - qmax)].
    split; [one_alloc|].
    rewrite u32_small by (unfold fits_u32; lia). replace (t - (t - qmax)) with qmax by lia.
    split; [done|]. split; [|cbn; unfold chunk_end; cbn; lia].
    rewrite !queues_of_cons. cbn [queues_of mbind list_bind]. rewrite app_nil_r, <- queues_app by lia.
    f_equal. f_equal. lia. }
  rewrite (u32_small (qb + qmax)), (u32_small (b + t)) by (unfold fits_u32; lia).
  destruct (decide (b < qb /\ qb + qmax = b + t)) as [[_ He]|Hend].
  { eexists 1%nat, [mkChunk b (qb - b); mkChunk qb qmax].
    split; [one_alloc|].
    split; [done|]. split; [|cbn; unfold chunk_end; cbn; lia].
    rewrite !queues_of_cons. cbn [queues_of mbind list_bind]. rewrite app_nil_r.
    replace qb with (b + (qb - b)) at 2 by lia. rewrite <- queues_app by lia. f_equal. f_equal. lia. }
  rewrite (u32_small (qb - b)) by (unfold fits_u32; lia). cbn [re_total_q].
  eexists 1%nat, [mkChunk b (qb - b); mkChunk qb qmax; mkChunk (qb + qmax) (u32 (t - (qb - b)) - qmax)].
  rewrite (u32_small (t - (qb - b))) by (unfold fits_u32; lia).
  split.
  { eapply attempts_bind; [apply attempts_create; unfold fits_s32, fits_u32; lia| |intros ? <-; by apply returns_ret].
    cbn [re_total_q].
    eapply attempts_bind; [apply attempts_create; unfold fits_s32, fits_u32; lia|apply attempts_ret|].
    intros ? <-. apply returns_ret. unfold uncut, chunk_end. cbn. rewrite app_nil_r.
    split; [done|]. split; [|unfold chunk_end; cbn; lia]. replace qb with (b + (qb - b)) at 2 by lia. rewrite <- queues_app by lia.
    f_equal. f_equal. lia. }
  split; [done|]. split; [|cbn; unfold chunk_end; cbn; lia].
  rewrite !queues_of_cons. cbn [queues_of mbind list_bind]. rewrite app_nil_r, <- queues_app by lia.
  replace qb with (b + (qb - b)) at 2 by lia. rewrite <- queues_app by lia. f_equal. f_equal. lia.
Qed.

(** Without memory no chunk is found; the list has the same queues, in order. *)
Definition unchosen (lo hi : Z) (free : list resource_entry) (r : option nat * list resource_entry) : Prop :=
  fst r = None /\ queues_of (snd r) ≡ₚ queues_of free /\ spaced lo hi (snd r).

(** [qdma_get_resource_node]: the chunk is in the list, and the rest of the list is
    in order; or no chunk is large enough and the list is unchanged. *)
Lemma get_node_spec qmax qbase free lo hi :
  spaced lo hi free -> 0 <= lo -> hi < 2 ^ 31 -> -1 <= qbase < 2 ^ 31 -> 0 <= qmax < 2 ^ 31 ->
  (attempts (qdma_get_resource_node qmax qbase free) (None, free) (unchosen lo hi free) /\
   forall n, n ∈ free -> re_total_q n < qmax) \/
  (exists k free' qb, attempts (qdma_get_resource_node qmax qbase free) (Some k, free') (unchosen lo hi free) /\
     free' !! k = Some (mkChunk qb qmax) /\ queues_of free' ≡ₚ queues_of free /\
     spaced lo hi (delete k free') /\ (exists n, n ∈ free /\ within qb qmax n) /\
     ((exists n, n ∈ free /\ 0 <= qbase /\ within qbase qmax n) -> qb = qbase)).
Proof.
  intros Hs Hlo Hhi Hb Hq. unfold qdma_get_resource_node.
  pose proof (choose_node_spec qmax qbase free lo hi Hs Hlo Hhi Hb Hq) as Hc.
  destruct (choose_node qmax qbase free) as [[i qb]|]; [|left; split; [apply attempts_ret|done]].
  right. destruct Hc as (n & Hi & Hw & Hqb). rewrite Hi.
  pose proof (spaced_chunk _ _ _ n Hs (list_elem_of_lookup_2 _ _ _ Hi)) as (H1 & H2 & H3).
  destruct (split_node_spec qmax qb n) as (k & ns & Hrun & Hk & Hqs & Hsp);
    [lia|done|lia|done|].
  pose proof (take_drop_middle free i n Hi) as Hsplit.
  assert (length (take i free) = i) as Hlen.
  { rewrite length_take. apply lookup_lt_Some in Hi. lia. }
  exists (i + k)%nat, (take i free ++ ns ++ drop (S i) free), qb.
  split.
  { eapply attempts_bind; [exact Hrun|apply attempts_ret|]. intros [k' ns'] (Hk' & Hq' & Hs').
    cbn [fst snd] in *. subst k'. apply returns_ret. split; [done|]. cbn [fst snd].
    rewrite <- Hsplit at 3. rewrite !queues_of_app, Hq', queues_of_cons. split; [done|].
    rewrite <- Hsplit in Hs. apply spaced_app in Hs as (mid & Ha & Hb1 & _ & Hb2).
    rewrite spaced_app. exists mid. split; [done|]. rewrite spaced_app. exists (chunk_end n).
    split; [by eapply spaced_weaken|done]. }
  assert (k < length ns)%nat as Hkn by (by eapply lookup_lt_Some).
  split. { rewrite lookup_app_r, Hlen by lia. replace (i + k - i)%nat with k by lia. by rewrite lookup_app_l. }
  split.
  { rewrite !queues_of_app, Hqs. rewrite <- Hsplit at 3. by rewrite queues_of_app, queues_of_cons. }
  split.
  { rewrite delete_take_drop, take_app, drop_app, Hlen.
    rewrite take_ge, (drop_ge (take i free)) by lia.
    replace (i + k - i)%nat with k by lia. replace (S (i + k) - i)%nat with (S k) by lia.
    rewrite take_app_le, drop_app_le by lia.
    rewrite <- Hsplit in Hs. apply spaced_app in Hs as (mid & Ha & Hb1 & _ & Hb2).
    cbn [app]. rewrite <- (app_assoc (take i free)), (app_assoc (take k ns)), <- delete_take_drop, spaced_app.
    exists mid.
    split; [done|]. rewrite spaced_app. exists (chunk_end n).
    split; [by eapply spaced_weaken|done]. }
  split; [exists n; split; [by eapply list_elem_of_lookup_2|done]|].
  intros (x & Hx & Hpos & Hwx). destruct Hqb as [->|[_ Hno]]; [done|]. by destruct (Hno Hpos x Hx).
Qed.

(** ** Requests *)

Definition free_range (b k : Z) (qs : list Z) : Prop := forall q, b <= q < b + k -> q ∈ qs.

Lemma elem_of_queues_of q l : q ∈ queues_of l <-> exists n, n ∈ l /\ q ∈ queues n.
Proof. unfold queues_of. rewrite list_elem_of_bind. naive_solver. Qed.

Lemma gapped_tail_after hi e l n : spaced (re_qbase e) hi (e :: l) -> gapped (e :: l) -> n ∈ l ->
  chunk_end e < re_qbase n.
Proof.
  intros (_ & _ & Hs) Hg Hn. destruct l as [|e2 l]; [by apply elem_of_nil in Hn|].
  destruct Hg as [Hg _]. apply elem_of_cons in Hn as [->|Hn]; [done|].
  destruct Hs as (_ & H & Hs). apply (spaced_chunk _ _ _ n) in Hs as (? & _ & _); [|done].
  unfold chunk_end in *. lia.
Qed.

(** In a defragmented list, contiguous free queues lie in one chunk. *)
Lemma contiguous_in_chunk lo hi l b k : spaced lo hi l -> gapped l -> 0 < k ->
  free_range b k (queues_of l) -> exists n, n ∈ l /\ within b k n.
Proof.
  intros Hs Hg Hk Hall. revert lo Hs Hg Hall. induction l as [|e l IH]; intros lo Hs Hg Hall.
  { pose proof (Hall b ltac:(lia)) as H. by apply elem_of_nil in H. }
  assert (spaced (re_qbase e) hi (e :: l)) as Hs' by (destruct Hs as (? & ? & ?); by split).
  pose proof (fun n => gapped_tail_after hi e l n Hs' Hg) as Hafter.
  assert (forall q, b <= q < b + k -> q < re_qbase e \/ chunk_end e <= q ->
    exists n, n ∈ l /\ q ∈ queues n) as Htail.
  { intros q Hq Hout. apply Hall, elem_of_queues_of in Hq as (n & Hn & Hqn).
    apply elem_of_cons in Hn as [->|Hn]; [|by exists n]. apply elem_of_queues in Hqn. lia. }
  destruct (decide (re_qbase e <= b < chunk_end e)) as [Hin|Hout].
  - exists e. split; [by left|]. unfold within. split; [lia|]. split; [lia|].
    destruct (decide (b + k <= chunk_end e)) as [|Hgt]; [done|].
    destruct (Htail (chunk_end e)) as (n & Hn & Hq); [lia|by right|].
    apply Hafter in Hn. apply elem_of_queues in Hq. lia.
  - destruct Hs as (H1 & H2 & Hs). destruct (IH _ Hs) as (n & Hn & Hw).
    { by destruct l; [|destruct Hg]. }
    + intros q Hq. apply elem_of_queues_of. apply Htail; [done|].
      destruct (Htail b) as (n & Hn & Hb); [lia|lia|]. pose proof (Hafter n Hn).
      apply elem_of_queues in Hb. unfold chunk_end in *. lia.
    + exists n. split; [by right|done].
Qed.

(** What a request returns, for a function that held [e] while [free] was free. *)
Record request_post (lo hi qmax qbase : Z) (e : resource_entry) (free : list resource_entry)
    (rv : Z) (e' : resource_entry) (free' : list resource_entry) : Prop := {
  rp_queues : queues e' ++ queues_of free' ≡ₚ queues e ++ queues_of free;
  rp_spaced : spaced lo hi free';
  rp_held : held lo hi e';
  rp_base : -1 <= re_qbase e' < 2 ^ 31;
  rp_result : (rv = 0 /\ re_total_q e' = qmax) \/
    (rv = - ERR_RM_NO_QUEUES_LEFT /\ 0 < qmax /\ re_total_q e' = re_total_q e /\
     (0 < re_total_q e -> e' = e /\
        forall b, ~ free_range b qmax (queues e ++ queues_of free)));
  rp_honoured : 0 < qmax -> 0 <= qbase -> 0 < re_total_q e ->
    free_range qbase qmax (queues e ++ queues_of free) -> re_qbase e' = qbase /\ rv = 0 }.

Lemma take_chunk_held lo hi l n qb qmax : spaced lo hi l -> n ∈ l -> within qb qmax n ->
  0 <= lo -> hi < 2 ^ 31 -> held lo hi (mkChunk qb qmax) /\ -1 <= qb < 2 ^ 31.
Proof.
  intros Hs Hn (H1 & H2 & H3) Hlo Hhi. destruct (spaced_chunk _ _ _ _ Hs Hn) as (H4 & H5 & H6).
  unfold held, chunk_end in *. cbn. lia.
Qed.

Lemma request_spec lo hi qmax qbase e free :
  spaced lo hi free -> 0 <= lo -> hi < 2 ^ 31 -> held lo hi e -> -1 <= re_qbase e < 2 ^ 31 ->
  (forall n, n ∈ free -> 0 < re_total_q e -> apart e n) ->
  0 <= qmax < 2 ^ 31 -> -1 <= qbase < 2 ^ 31 ->
  exists rv e' free', runs (qdma_request_q_resource e qmax qbase free) (rv, e', free') /\
    request_post lo hi qmax qbase e free rv e' free'.
Proof.
  intros Hs Hlo Hhi Hh Heb Ha Hq Hb.
  destruct (submit_spec lo hi e free Hs Hlo Hhi Hh Ha) as (e1 & f1 & Hrun & [He1 He1'] & Hp1 & Hs1 & Hg1).
  assert (0 <= re_total_q e < 2 ^ 31) as Het by (unfold held, chunk_end in Hh; lia).
  assert (forall b k, 0 < re_total_q e -> 0 < k -> free_range b k (queues e ++ queues_of free) ->
    exists n, n ∈ f1 /\ within b k n) as Hcontig.
  { intros b k Ht Hk Hfr. apply (contiguous_in_chunk lo hi f1 b k Hs1 (Hg1 Ht) Hk).
    intros x Hx. rewrite Hp1. by apply Hfr. }
  apply attempts_runs in Hrun. unfold qdma_request_q_resource.
  destruct (decide (qmax = 0)) as [->|Hq0].
  { exists 0, e1, f1. split.
    - eapply runs_bind; [exact Hrun|]. apply runs_ret.
    - split; [by rewrite (queues_empty e1)|done|by left| |by left|lia].
      destruct He1' as [->| ->]; [done|cbn; lia]. }
  destruct (get_node_spec qmax qbase f1 lo hi Hs1 Hlo Hhi Hb ltac:(lia))
    as [[Hrun2 Hno]|(k & f2 & qb & Hrun2 & Hk & Hp2 & Hs2 & (n & Hn & Hw) & Hhon)];
    apply attempts_runs in Hrun2.
  2: { exists 0, (mkChunk qb qmax), (delete k f2). split.
    - eapply runs_bind; [exact Hrun|]. cbv beta iota.
      eapply runs_bind; [exact Hrun2|]. cbv beta iota.
      eapply runs_bind; [apply runs_lift; unfold take_node; by rewrite Hk|]. apply runs_ret.
    - destruct (take_chunk_held lo hi f1 n qb qmax Hs1 Hn Hw Hlo Hhi) as [Hh2 Hqb].
      split; [|done|done|done|by left|].
      + by rewrite <- (queues_of_delete f2 k _ Hk), Hp2.
      + intros H0 H1 H2 Hfr. split; [|done]. cbn. apply Hhon.
        destruct (Hcontig _ _ H2 H0 Hfr) as (x & Hx & Hwx). by exists x. }
  assert (0 < re_total_q e -> forall b, ~ free_range b qmax (queues e ++ queues_of free)) as Hnone.
  { intros Ht b Hfr. destruct (Hcontig b qmax Ht ltac:(lia) Hfr) as (x & Hx & Hwx).
    specialize (Hno x Hx). unfold within, chunk_end in Hwx. lia. }
  destruct (get_node_spec (re_total_q e) (re_qbase e) f1 lo hi Hs1 Hlo Hhi Heb Het)
    as [[Hrun3 Hno3]|(k & f2 & qb & Hrun3 & Hk & Hp3 & Hs3 & (n & Hn & Hw) & Hhon)];
    apply attempts_runs in Hrun3.
  - (* nothing is free at all, and nothing was held *)
    assert (re_total_q e = 0) as Ht0.
    { destruct (decide (re_total_q e = 0)) as [|Hne]; [done|]. exfalso.
      destruct (Hcontig (re_qbase e) (re_total_q e)) as (x & Hx & Hwx); [lia|lia| |].
      - intros x Hx. apply elem_of_app. left. apply elem_of_queues. unfold chunk_end. lia.
      - specialize (Hno3 x Hx). unfold within, chunk_end in Hwx. lia. }
    exists (- ERR_RM_NO_QUEUES_LEFT), no_chunk, f1. split.
    + eapply runs_bind; [exact Hrun|]. cbv beta iota.
      eapply runs_bind; [exact Hrun2|]. cbv beta iota.
      eapply runs_bind; [exact Hrun3|]. apply runs_ret.
    + split; [by rewrite Hp1|done|by left|cbn; lia|right|lia].
      split_and!; [done|lia|by rewrite Ht0|lia].
  - destruct (take_chunk_held lo hi f1 n qb (re_total_q e) Hs1 Hn Hw Hlo Hhi) as [Hh2 Hqb].
    exists (- ERR_RM_NO_QUEUES_LEFT), (mkChunk qb (re_total_q e)), (delete k f2). split.
    + eapply runs_bind; [exact Hrun|]. cbv beta iota.
      eapply runs_bind; [exact Hrun2|]. cbv beta iota.
      eapply runs_bind; [exact Hrun3|]. cbv beta iota.
      eapply runs_bind; [apply runs_lift; unfold take_node; by rewrite Hk|]. apply runs_ret.
    + split; [|done|done|done|right|].
      * by rewrite <- (queues_of_delete f2 k _ Hk), Hp3.
      * split_and!; [done|lia|done|]. intros Ht. split; [|by apply Hnone].
        assert (qb = re_qbase e) as ->; [|by destruct e].
        unfold held, chunk_end in Hh. apply Hhon.
        destruct (Hcontig (re_qbase e) (re_total_q e)) as (x & Hx & Hwx); [lia|lia| |].
        { intros x Hx. apply elem_of_app. left. apply elem_of_queues. unfold chunk_end. lia. }
        exists x. split_and!; [done|lia|done].
      * intros _ _ Ht Hfr. by destruct (Hnone Ht qbase).
Qed.

(** The same when an allocation may fail: the queues of [lost] are no longer known. *)
Record request_any (lo hi qmax : Z) (e : resource_entry) (free : list resource_entry)
    (rv : Z) (e' : resource_entry) (free' : list resource_entry) (lost : list Z) : Prop := {
  ra_lost : lost = [] \/ lost = queues e;
  ra_queues : queues e' ++ queues_of free' ++ lost ≡ₚ queues e ++ queues_of free;
  ra_spaced : spaced lo hi free';
  ra_held : held lo hi e';
  ra_base : -1 <= re_qbase e' < 2 ^ 31;
  ra_result :
    (rv = 0 /\ (re_total_q e' = qmax \/ (qmax = 0 /\ e' = e /\ free' = free))) \/
    (rv = - ERR_RM_NO_QUEUES_LEFT /\ 0 < qmax /\ (e' = no_chunk \/ re_total_q e' = re_total_q e)) }.

(** Looking for a chunk, whatever the allocations answer. *)
Lemma get_node_any qmax qbase free lo hi :
  spaced lo hi free -> 0 <= lo -> hi < 2 ^ 31 -> -1 <= qbase < 2 ^ 31 -> 0 <= qmax < 2 ^ 31 ->
  returns (fun r => queues_of (snd r) ≡ₚ queues_of free /\
    match fst r with
    | None => spaced lo hi (snd r)
    | Some k => exists qb, snd r !! k = Some (mkChunk qb qmax) /\ spaced lo hi (delete k (snd r)) /\
        held lo hi (mkChunk qb qmax) /\ -1 <= qb < 2 ^ 31
    end) (qdma_get_resource_node qmax qbase free).
Proof.
  intros Hs Hlo Hhi Hb Hq.
  destruct (get_node_spec qmax qbase free lo hi Hs Hlo Hhi Hb Hq)
    as [[Hrun _]|(k & f2 & qb & Hrun & Hk & Hp & Hs2 & (n & Hn & Hw) & _)];
    (eapply attempts_returns; [exact Hrun| |]; [|intros [x l] (-> & Hl1 & Hl2); by split]); [by split|].
  split; [done|]. exists qb. split; [done|]. split; [done|].
  exact (take_chunk_held lo hi free n qb qmax Hs Hn Hw Hlo Hhi).
Qed.

(** The search, after the old queues [old] have been given back or not. *)
Lemma request_search lo hi qmax qbase e free f1 lost :
  spaced lo hi f1 -> 0 <= lo -> hi < 2 ^ 31 -> held lo hi e -> -1 <= re_qbase e < 2 ^ 31 ->
  0 < qmax < 2 ^ 31 -> -1 <= qbase < 2 ^ 31 ->
  lost = [] \/ lost = queues e -> queues_of f1 ++ lost ≡ₚ queues e ++ queues_of free ->
  returns (fun '(rv, e', free') => request_any lo hi qmax e free rv e' free' lost)
    ('(k, f) ← qdma_get_resource_node qmax qbase f1;
     match k with
     | Some k => '(e, f) ← lift (take_node k f); mret (0, e, f)
     | None =>
         '(k, f) ← qdma_get_resource_node (re_total_q e) (re_qbase e) f;
         match k with
         | None => mret (- ERR_RM_NO_QUEUES_LEFT, no_chunk, f)
         | Some k => '(e, f) ← lift (take_node k f); mret (- ERR_RM_NO_QUEUES_LEFT, e, f)
         end
     end).
Proof.
  intros Hs Hlo Hhi Hh Heb Hq Hb Hlost Hp.
  assert (forall k f qb t, f !! k = Some (mkChunk qb t) -> queues_of f ≡ₚ queues_of f1 ->
    queues (mkChunk qb t) ++ queues_of (delete k f) ++ lost ≡ₚ queues e ++ queues_of free) as Htake.
  { intros k f qb t Hk Hf. by rewrite app_assoc, <- (queues_of_delete f k _ Hk), Hf. }
  eapply returns_bind; [apply (get_node_any qmax qbase f1 lo hi); [done..|lia]|].
  intros [[k|] f] [Hf Hk]; cbn [fst snd] in *.
  { destruct Hk as (qb & Hk & Hd & Hh' & Hqb). eapply returns_bind.
    { eapply (returns_lift (fun p => p = (mkChunk qb qmax, delete k f)) _ (mkChunk qb qmax, delete k f)); [unfold take_node; by rewrite Hk|done]. }
    intros ? ->. apply returns_ret. split; [done|by apply Htake|done|done|done|]. left. by split; [|left]. }
  assert (0 <= re_total_q e < 2 ^ 31) as Het by (unfold held, chunk_end in Hh; lia).
  eapply returns_bind; [apply (get_node_any (re_total_q e) (re_qbase e) f lo hi); done|].
  intros [[k|] f2] [Hf2 Hk2]; cbn [fst snd] in *.
  - destruct Hk2 as (qb & Hk2 & Hd & Hh' & Hqb). eapply returns_bind.
    { eapply (returns_lift (fun p => p = (mkChunk qb (re_total_q e), delete k f2)) _ (mkChunk qb (re_total_q e), delete k f2));
        [unfold take_node; by rewrite Hk2|done]. }
    intros ? ->. apply returns_ret. split; [done| |done|done|done|].
    + apply Htake; [done|]. by rewrite Hf2.
    + right. split; [done|]. split; [lia|by right].
  - apply returns_ret. split; [done| |done|by left|cbn; lia|].
    + by rewrite Hf2, Hf.
    + right. split; [done|]. split; [lia|by left].
Qed.

Lemma request_any_spec lo hi qmax qbase e free :
  spaced lo hi free -> 0 <= lo -> hi < 2 ^ 31 -> held lo hi e -> -1 <= re_qbase e < 2 ^ 31 ->
  (forall n, n ∈ free -> 0 < re_total_q e -> apart e n) ->
  0 <= qmax < 2 ^ 31 -> -1 <= qbase < 2 ^ 31 ->
  returns (fun '(rv, e', free') => exists lost, request_any lo hi qmax e free rv e' free' lost)
    (qdma_request_q_resource e qmax qbase free).
Proof.
  intros Hs Hlo Hhi Hh Heb Ha Hq Hb.
  destruct (submit_spec lo hi e free Hs Hlo Hhi Hh Ha) as (e1 & f1 & Hrun & [He1 He1'] & Hp1 & Hs1 & _).
  unfold qdma_request_q_resource.
  eapply returns_bind; [eapply (attempts_returns _ _ (fun p => p = (e1, f1) \/ p = (e, free))); [exact Hrun|by left|by intros ? <-; right]|].
  assert (forall f2 lost, spaced lo hi f2 -> lost = [] \/ lost = queues e ->
    queues_of f2 ++ lost ≡ₚ queues e ++ queues_of free -> 0 < qmax ->
    returns (fun '(rv, e', free') => exists lost, request_any lo hi qmax e free rv e' free' lost)
      (('(k, f) ← qdma_get_resource_node qmax qbase f2;
        match k with
        | Some k => '(e, f) ← lift (take_node k f); mret (0, e, f)
        | None =>
            '(k, f) ← qdma_get_resource_node (re_total_q e) (re_qbase e) f;
            match k with
            | None => mret (- ERR_RM_NO_QUEUES_LEFT, no_chunk, f)
            | Some k => '(e, f) ← lift (take_node k f); mret (- ERR_RM_NO_QUEUES_LEFT, e, f)
            end
        end) : alloc _)) as Hsearch.
  { intros f2 lost H1 H2 H3 H4. eapply returns_weaken; [apply (request_search lo hi qmax qbase e free f2 lost); done || lia|].
    intros [[rv e'] f'] H. by exists lost. }
  intros ? [-> | ->]; cbv beta iota; (destruct (decide (qmax = 0)) as [->|Hq0]; [apply returns_ret; exists []|]).
  - split; [by left| |done|by left| |left; split; [done|by left]].
    + by rewrite app_nil_r, (queues_empty e1) by done.
    + destruct He1' as [-> | ->]; [done|cbn; lia].
  - apply (Hsearch f1 []); [done|by left|by rewrite app_nil_r|lia].
  - split; [by left|by rewrite app_nil_r|done|done|done|left; split; [done|by right]].
  - apply (Hsearch free (queues e)); [done|by right|by rewrite Permutation_app_comm|lia].
Qed.

(** Both: what a request returns, and that it loses nothing when no allocation fails. *)
Lemma request_allocs ok lo hi qmax qbase e free :
  spaced lo hi free -> 0 <= lo -> hi < 2 ^ 31 -> held lo hi e -> -1 <= re_qbase e < 2 ^ 31 ->
  (forall n, n ∈ free -> 0 < re_total_q e -> apart e n) ->
  0 <= qmax < 2 ^ 31 -> -1 <= qbase < 2 ^ 31 ->
  allocs ok (fun '(rv, e', free') => exists lost, request_any lo hi qmax e free rv e' free' lost /\
    (ok -> lost = [] /\ request_post lo hi qmax qbase e free rv e' free')) (qdma_request_q_resource e qmax qbase free).
Proof.
  intros Hs Hlo Hhi Hh Heb Ha Hq Hb.
  destruct (request_spec lo hi qmax qbase e free Hs Hlo Hhi Hh Heb Ha Hq Hb) as (rv0 & e0 & f0 & Hrun & Hpost).
  pose proof (request_any_spec lo hi qmax qbase e free Hs Hlo Hhi Hh Heb Ha Hq Hb) as Hany.
  intros m Hm. destruct (allocs_of ok _ _ _ Hrun Hany m Hm) as ([[rv e'] f'] & m' & E & [(lost & Hl) Heq] & Hm').
  eexists _, m'. split; [done|]. split; [|done]. exists lost. split; [done|]. intros Hok.
  specialize (Heq Hok). injection Heq as -> -> ->. split; [|done].
  pose proof (Permutation_length (ra_queues _ _ _ _ _ _ _ _ _ Hl)) as H1.
  pose proof (Permutation_length (rp_queues _ _ _ _ _ _ _ _ _ Hpost)) as H2.
  rewrite <- H2, !length_app in H1. apply nil_length_inv. lia.
Qed.

(** ** The partition invariant *)

Record dev_ok (lo hi : Z) (x : dev_entry) : Prop := {
  dk_held : held lo hi (de_entry x);
  dk_base : -1 <= re_qbase (de_entry x) < 2 ^ 31;
  dk_active : forall t c, active_cnt t x = Some c -> 0 <= c <= re_total_q (de_entry x) }.

(** Every queue of the range is in exactly one place: in the free list, with one
    function, or among the queues of [lost], which no one knows any more. *)
Record master_inv (lost : list Z) (m : resource_master) : Prop := {
  mk_base : 0 <= rm_qbase m; mk_end : rm_qbase m + rm_total_q m < 2 ^ 31;
  mk_spaced : spaced (rm_qbase m) (rm_qbase m + rm_total_q m) (rm_free_list m);
  mk_devs : Forall (dev_ok (rm_qbase m) (rm_qbase m + rm_total_q m)) (rm_dev_list m);
  mk_queues : queues_of (rm_free_list m) ++ queues_of (de_entry <$> rm_dev_list m) ++ lost
              ≡ₚ seqZ (rm_qbase m) (rm_total_q m) }.

(** None is lost. *)
Notation master_ok := (master_inv []).

(** None is lost if [ok] holds. *)
Definition master_wf (ok : Prop) (m : resource_master) : Prop :=
  exists lost, master_inv lost m /\ (ok -> lost = []).

Lemma disjoint_apart lo hi e n : held lo hi e -> 0 < re_total_q e -> 0 < re_total_q n ->
  (forall q, q ∈ queues e -> q ∈ queues n -> False) -> apart e n.
Proof.
  intros _ He Hn Hd. unfold apart. destruct (decide (chunk_end e <= re_qbase n)) as [|H1]; [by left|].
  destruct (decide (chunk_end n <= re_qbase e)) as [|H2]; [by right|]. exfalso.
  apply (Hd (Z.max (re_qbase e) (re_qbase n))); apply elem_of_queues; unfold chunk_end in *; lia.
Qed.

Lemma de_queues_insert devs j x y : devs !! j = Some x ->
  queues_of (de_entry <$> <[j := y]> devs) ++ queues (de_entry x)
  ≡ₚ queues (de_entry y) ++ queues_of (de_entry <$> devs).
Proof.
  intros Hj. rewrite insert_take_drop by (by eapply lookup_lt_Some).
  rewrite <- (take_drop_middle devs j x Hj) at 3.
  rewrite !fmap_app, !fmap_cons, !queues_of_app, !queues_of_cons.
  solve_Permutation.
Qed.

Lemma de_queues_delete devs j x : devs !! j = Some x ->
  queues_of (de_entry <$> delete j devs) ++ queues (de_entry x) ≡ₚ queues_of (de_entry <$> devs).
Proof.
  intros Hj. rewrite delete_take_drop. rewrite <- (take_drop_middle devs j x Hj) at 3.
  rewrite !fmap_app, !fmap_cons, !queues_of_app, !queues_of_cons. solve_Permutation.
Qed.

Lemma master_apart lost m j x n : master_inv lost m -> rm_dev_list m !! j = Some x ->
  n ∈ rm_free_list m -> 0 < re_total_q (de_entry x) -> apart (de_entry x) n.
Proof.
  intros [_ _ Hs Hd Hq] Hj Hn Ht. pose proof (proj1 (Forall_lookup _ _) Hd j x Hj) as [Hh _ _].
  apply (disjoint_apart _ _ _ _ Hh Ht); [by apply (spaced_chunk _ _ _ n Hs)|].
  intros q Hqe Hqn.
  assert (NoDup (queues_of (rm_free_list m) ++ queues_of (de_entry <$> rm_dev_list m) ++ lost)) as Hnd
    by (rewrite Hq; apply NoDup_seqZ).
  apply NoDup_app in Hnd as (_ & Hnd & _). apply (Hnd q).
  - apply elem_of_queues_of. by exists n.
  - apply elem_of_app. left. apply elem_of_queues_of. exists (de_entry x). split; [|done].
    apply list_elem_of_fmap. exists x. split; [done|]. by eapply list_elem_of_lookup_2.
Qed.

(** Replacing a function's chunk and the free list together, with [l] lost. *)
Lemma master_exchange lost l m j x y free : master_inv lost m -> rm_dev_list m !! j = Some x ->
  dev_ok (rm_qbase m) (rm_qbase m + rm_total_q m) y ->
  spaced (rm_qbase m) (rm_qbase m + rm_total_q m) free ->
  queues (de_entry y) ++ queues_of free ++ l ≡ₚ queues (de_entry x) ++ queues_of (rm_free_list m) ->
  master_inv (l ++ lost) (set_free_list free (set_dev_list (<[j := y]> (rm_dev_list m)) m)).
Proof.
  intros [Hb He Hs Hd Hq] Hj Hy Hsp Hp. split; cbn; try done.
  - by apply Forall_insert.
  - rewrite <- Hq. apply (Permutation_app_inv_r (queues (de_entry x))).
    transitivity ((queues (de_entry y) ++ queues_of free ++ l) ++ queues_of (de_entry <$> rm_dev_list m) ++ lost).
    + transitivity ((queues_of (de_entry <$> <[j := y]> (rm_dev_list m)) ++ queues (de_entry x)) ++
        queues_of free ++ l ++ lost); [solve_Permutation|]. rewrite (de_queues_insert _ _ _ _ Hj). solve_Permutation.
    + rewrite Hp. solve_Permutation.
Qed.

Lemma master_remove lost l m j x free : master_inv lost m -> rm_dev_list m !! j = Some x ->
  spaced (rm_qbase m) (rm_qbase m + rm_total_q m) free ->
  queues_of free ++ l ≡ₚ queues (de_entry x) ++ queues_of (rm_free_list m) ->
  master_inv (l ++ lost) (set_free_list free (set_dev_list (delete j (rm_dev_list m)) m)).
Proof.
  intros [Hb He Hs Hd Hq] Hj Hsp Hp. split; cbn; try done.
  - by apply Forall_delete.
  - rewrite <- Hq. rewrite <- (de_queues_delete _ _ _ Hj).
    transitivity ((queues_of free ++ l) ++ queues_of (de_entry <$> delete j (rm_dev_list m)) ++ lost);
      [solve_Permutation|]. rewrite Hp. solve_Permutation.
Qed.

Lemma master_add lost m f : master_inv lost m ->
  master_inv lost (set_dev_list (rm_dev_list m ++ [mkDevEntry f 0 0 0 no_chunk]) m).
Proof.
  intros [Hb He Hs Hd Hq]. split; cbn; try done.
  - apply Forall_app. split; [done|]. apply Forall_singleton. split; cbn; [by left|lia|].
    intros [] c [=]; lia.
  - by rewrite fmap_app, queues_of_app, app_nil_r.
Qed.

Lemma master_active lost m n : master_inv lost m -> master_inv lost (set_active_qcnt n m).
Proof. intros []. by split. Qed.

(** The active counts change within the chunk. *)
Lemma master_count lost m j x t n k : master_inv lost m -> rm_dev_list m !! j = Some x ->
  0 <= n <= re_total_q (de_entry x) ->
  master_inv lost (set_active_qcnt k (set_dev_list (<[j := set_active_cnt t n x]> (rm_dev_list m)) m)).
Proof.
  intros Hm Hj Hn. pose proof Hm as [Hb He Hs Hd Hq]. apply master_active.
  pose proof (proj1 (Forall_lookup _ _) Hd j x Hj) as [Hh Hba Hc].
  assert (de_entry (set_active_cnt t n x) = de_entry x) as Hen by by destruct t.
  split; cbn; try done.
  - apply Forall_insert; [done|]. split; rewrite ?Hen; try done.
    intros t' c Ht'. destruct t, t'; cbn in *; simplify_eq; try done;
      first [exact (Hc QDMA_DEV_Q_TYPE_H2C _ eq_refl) | exact (Hc QDMA_DEV_Q_TYPE_C2H _ eq_refl)
            | exact (Hc QDMA_DEV_Q_TYPE_CMPT _ eq_refl)].
  - rewrite <- Hq. apply (Permutation_app_inv_r (queues (de_entry x))).
    transitivity (queues_of (rm_free_list m) ++ (queues_of (de_entry <$> <[j:=set_active_cnt t n x]> (rm_dev_list m)) ++
      queues (de_entry x)) ++ lost); [solve_Permutation|]. rewrite (de_queues_insert _ _ _ _ Hj), Hen. solve_Permutation.
Qed.

Lemma master_ok_new i bs be qb total : 0 <= qb -> 0 < total -> qb + total < 2 ^ 31 ->
  master_ok (mkMaster i bs be total qb [] [mkChunk qb total] 0).
Proof.
  intros H1 H2 H3. split; cbn; try done. by rewrite !app_nil_r.
Qed.

(** ** Sequences of operations *)
Inductive rm_op :=
  | MasterCreate (bus_start bus_end q_base total_q : Z)
  | MasterDestroy (index : Z)
  | DevCreate (index func_id : Z)
  | DevDestroy (index func_id : Z)
  | DevUpdate (index func_id qmax qbase : Z)
  | IncActive (index func_id : Z) (t : q_type)
  | DecActive (index func_id : Z) (t : q_type).

Definition wf_rm_op (op : rm_op) : Prop :=
  match op with
  | MasterCreate _ _ q_base total_q => 0 <= q_base /\ 0 < total_q /\ q_base + total_q < 2 ^ 31
  | DevUpdate _ _ qmax qbase => 0 <= qmax < 2 ^ 31 /\ -1 <= qbase < 2 ^ 31
  | _ => True
  end.

Definition run_rm_op (op : rm_op) : rm unit :=
  match op with
  | MasterCreate bs be qb total => _ ← qdma_master_resource_create bs be qb total; mret tt
  | MasterDestroy i => qdma_master_resource_destroy i
  | DevCreate i f => _ ← qdma_dev_entry_create i f; mret tt
  | DevDestroy i f => qdma_dev_entry_destroy i f
  | DevUpdate i f qmax qbase => _ ← qdma_dev_update i f qmax qbase; mret tt
  | IncActive i f t => _ ← qdma_dev_increment_active_queue i f t; mret tt
  | DecActive i f t => _ ← qdma_dev_decrement_active_queue i f t; mret tt
  end.

Fixpoint run_rm_ops (ops : list rm_op) : rm unit :=
  match ops with [] => mret tt | op :: ops' => _ ← run_rm_op op; run_rm_ops ops' end.

(** No coming allocation fails, and no queue is lost. *)
Record rm_ok (s : rm_state) : Prop := {
  rk_mem : mem_ok (rm_mem s); rk_masters : Forall master_ok (rm_masters s) }.

(** At each master every queue is free, with one function, or lost. *)
Definition rm_wf (s : rm_state) : Prop := Forall (fun m => exists lost, master_inv lost m) (rm_masters s).

(** Both, the first if [ok] holds. *)
Record rm_inv (ok : Prop) (s : rm_state) : Prop := {
  ri_mem : ok -> mem_ok (rm_mem s); ri_masters : Forall (master_wf ok) (rm_masters s) }.

Lemma rm_ok_wf s : rm_ok s -> rm_wf s.
Proof. intros [_ H]. eapply Forall_impl; [exact H|]. intros m Hm. by exists []. Qed.

Lemma rm_inv_wf ok s : rm_inv ok s -> rm_wf s.
Proof. intros [_ H]. eapply Forall_impl; [exact H|]. intros m (lost & Hm & _). by exists lost. Qed.

Lemma rm_inv_ok ok s : rm_inv ok s -> ok -> rm_ok s.
Proof.
  intros [Hm H] Hok. split; [by apply Hm|]. eapply Forall_impl; [exact H|].
  intros m (lost & Hl & Hn). by rewrite (Hn Hok) in Hl.
Qed.

(** From a state in order, nothing is lost as long as no allocation fails. *)
Lemma rm_inv_of s : rm_wf s -> rm_inv (rm_ok s) s.
Proof.
  intros H. split; [apply rk_mem|]. apply Forall_lookup. intros j m Hj.
  destruct (proj1 (Forall_lookup _ _) H j m Hj) as (lost & Hl). exists lost. split; [done|]. intros [_ Hok].
  pose proof (mk_queues _ _ (proj1 (Forall_lookup _ _) Hok j m Hj)) as H1. pose proof (mk_queues _ _ Hl) as H2.
  rewrite <- H1 in H2. apply Permutation_length in H2. rewrite !length_app in H2. apply nil_length_inv. cbn in H2. lia.
Qed.

Section keeping.
Context (ok : Prop).

(** [c] runs without a fault and keeps the invariant. *)
Definition keeps {A} (c : rm A) (s : rm_state) : Prop :=
  exists a s', c s = Ok (a, s') /\ rm_inv ok s'.

Lemma keeps_ret {A} (a : A) s : rm_inv ok s -> keeps (mret a) s.
Proof. intros H. by exists a, s. Qed.

Lemma keeps_bind {A B} (c : rm A) (k : A -> rm B) s :
  keeps c s -> (forall a s', rm_inv ok s' -> keeps (k a) s') -> keeps (c ≫= k) s.
Proof.
  intros (a & s1 & E1 & H1) Hk. destruct (Hk a s1 H1) as (b & s2 & E2 & H2).
  exists b, s2. by rewrite (cmd_bind_run _ _ _ _ _ E1).
Qed.

Lemma find_master i s j m : list_find (fun m => rm_index m = i) (rm_masters s) = Some (j, m) ->
  rm_inv ok s -> rm_masters s !! j = Some m /\ master_wf ok m.
Proof.
  intros H [_ Hm]. apply list_find_Some in H as (Hj & _ & _). split; [done|].
  exact (proj1 (Forall_lookup _ _) Hm j m Hj).
Qed.

Lemma put_master_keeps j m s : rm_inv ok s -> master_wf ok m -> keeps (put_master j m) s.
Proof.
  intros [Hmem Hms] Hm. eexists _, _. split; [reflexivity|]. split; [done|]. by apply Forall_insert.
Qed.

(** An allocation leaves the masters as they are. *)
Lemma keeps_alloc {A B} (P : A -> Prop) (c : alloc A) (k : A -> rm B) s : allocs ok P c -> rm_inv ok s ->
  (forall a s', P a -> rm_inv ok s' -> rm_masters s' = rm_masters s -> keeps (k a) s') ->
  keeps (with_alloc c ≫= k) s.
Proof.
  intros Hc [Hmem Hms] Hk. destruct (Hc _ Hmem) as (a & m' & E & Ha & Hm').
  destruct (Hk a (mkRm (rm_masters s) (rm_next_index s) m')) as (b & s2 & E2 & H2); [done|by split|done|].
  exists b, s2. split; [|done]. unfold with_alloc, mbind, cmd_bind. by rewrite E.
Qed.

Lemma master_create_keeps bs be qb total s : rm_inv ok s -> 0 <= qb -> 0 < total -> qb + total < 2 ^ 31 ->
  keeps (qdma_master_resource_create bs be qb total) s.
Proof.
  intros Hs H1 H2 H3. unfold qdma_master_resource_create, qdma_find_master_resource_entry.
  eapply keeps_bind with (k := fun q => _); [by eexists _, _|]. clear s Hs.
  intros q s Hs. destruct q as [[j m]|]; [by apply keeps_ret|].
  eapply keeps_bind with (k := fun x => _); [by eexists _, _|]. clear s Hs. intros s0 s Hs.
  eapply keeps_alloc; [apply allocs_calloc|done|]. intros [] s1 _ Hs1 _; cbn [negb]; [|by apply keeps_ret].
  eapply keeps_alloc; [apply allocs_calloc|done|]. intros [] s2 _ [Hm2 Hms2] _; cbn [negb]; [|by apply keeps_ret].
  eexists _, _. split; [reflexivity|]. split; [done|]. cbn. apply Forall_app. split; [done|].
  apply Forall_singleton. exists []. split; [by apply master_ok_new|done].
Qed.

(** The operations on one function: look up the master, then the function. *)
Lemma with_master_keeps {A} i s (none : rm A) (k : nat -> resource_master -> rm A) :
  rm_inv ok s -> keeps none s ->
  (forall j m, rm_masters s !! j = Some m -> master_wf ok m -> keeps (k j m) s) ->
  keeps (q ← qdma_get_master_resource_entry i;
         match q with None => none | Some (j, m) => k j m end) s.
Proof.
  intros Hs Hn Hk. unfold qdma_get_master_resource_entry.
  destruct (list_find (fun m => rm_index m = i) (rm_masters s)) as [[j m]|] eqn:E.
  - destruct (find_master i s j m E Hs) as [Hj Hm]. destruct (Hk j m Hj Hm) as (a & s' & E' & H').
    exists a, s'. split; [|done]. unfold gets, mbind, cmd_bind. by rewrite E.
  - destruct Hn as (a & s' & E' & H'). exists a, s'. split; [|done].
    unfold gets, mbind, cmd_bind. by rewrite E.
Qed.

Lemma dev_update_keeps i f qmax qbase s : rm_inv ok s -> 0 <= qmax < 2 ^ 31 -> -1 <= qbase < 2 ^ 31 ->
  keeps (qdma_dev_update i f qmax qbase) s.
Proof.
  intros Hs Hq Hb. unfold qdma_dev_update. apply with_master_keeps; [done|by apply keeps_ret|].
  intros j m Hj (lost & Hm & Hok). destruct (find_dev f m) as [[k x]|] eqn:Ef; [|by apply keeps_ret].
  case_decide as Hact; [by apply keeps_ret|].
  unfold find_dev in Ef. apply list_find_Some in Ef as (Hk & _ & _).
  pose proof Hm as [Hb0 He0 Hsp Hdevs _].
  pose proof (proj1 (Forall_lookup _ _) Hdevs k x Hk) as [Hheld Hbase Hcnt].
  eapply keeps_alloc; [apply (request_allocs ok _ _ qmax qbase (de_entry x) (rm_free_list m) Hsp Hb0 He0 Hheld Hbase
    (fun n Hn Ht => master_apart lost m k x n Hm Hk Hn Ht) Hq Hb)|done|].
  intros [[rv e'] free'] s1 (l & [_ Hpq Hps Hph Hpb _] & Hlost) Hs1 _.
  eapply keeps_bind; [|intros; by apply keeps_ret]. apply put_master_keeps; [done|].
  exists (l ++ lost). split.
  - eapply master_exchange; [done|exact Hk| |done|exact Hpq].
    split; [done|done|]. intros t c Ht. unfold held, chunk_end in Hph. destruct t; cbn in *; simplify_eq; lia.
  - intros H. destruct (Hlost H) as [-> _]. by rewrite (Hok H).
Qed.

Lemma dev_destroy_keeps i f s : rm_inv ok s -> keeps (qdma_dev_entry_destroy i f) s.
Proof.
  intros Hs. unfold qdma_dev_entry_destroy. apply with_master_keeps; [done|by apply keeps_ret|].
  intros j m Hj (lost & Hm & Hok). destruct (find_dev f m) as [[k x]|] eqn:Ef; [|by apply keeps_ret].
  unfold find_dev in Ef. apply list_find_Some in Ef as (Hk & _ & _).
  pose proof Hm as [Hb0 He0 Hsp Hdevs _].
  pose proof (proj1 (Forall_lookup _ _) Hdevs k x Hk) as [Hheld _ _].
  destruct (submit_spec _ _ (de_entry x) (rm_free_list m) Hsp Hb0 He0 Hheld
    (fun n Hn Ht => master_apart lost m k x n Hm Hk Hn Ht)) as (e1 & f1 & Hrun & _ & Hp1 & Hs1 & _).
  eapply keeps_alloc; [|done|].
  { apply (allocs_of ok _ (e1, f1) (fun p => p = (e1, f1) \/ p = (de_entry x, rm_free_list m))).
    - by eapply attempts_runs.
    - eapply attempts_returns; [exact Hrun|by left|by intros ? <-; right]. }
  intros p s1 [Hp Heq] Hs1' _. destruct (decide (p = (e1, f1))) as [->|Hne].
  - apply put_master_keeps; [done|]. exists ([] ++ lost). split; [|done].
    eapply master_remove; [done|exact Hk|done|by rewrite app_nil_r].
  - destruct Hp as [->| ->]; [done|]. apply put_master_keeps; [done|]. exists (queues (de_entry x) ++ lost).
    split; [|intros H; by apply Heq in H]. eapply master_remove; [done|exact Hk|done|apply Permutation_app_comm].
Qed.

Lemma dev_create_keeps i f s : rm_inv ok s -> keeps (qdma_dev_entry_create i f) s.
Proof.
  intros Hs. unfold qdma_dev_entry_create. apply with_master_keeps; [done|by apply keeps_ret|].
  intros j m Hj (lost & Hm & Hok). destruct (find_dev f m); [by apply keeps_ret|].
  eapply keeps_alloc; [apply allocs_calloc|done|]. intros [] s1 _ Hs1 _; cbn [negb]; [|by apply keeps_ret].
  eapply keeps_bind; [|intros; by apply keeps_ret]. apply put_master_keeps; [done|].
  exists lost. split; [by apply master_add|done].
Qed.

Lemma master_destroy_keeps i s : rm_inv ok s -> keeps (qdma_master_resource_destroy i) s.
Proof.
  intros Hs. unfold qdma_master_resource_destroy. apply with_master_keeps; [done|by apply keeps_ret|].
  intros j m Hj Hm. destruct (rm_dev_list m); [|by apply keeps_ret].
  destruct Hs as [Hmem Hms]. eexists _, _. split; [reflexivity|]. split; [done|].
  by apply Forall_delete.
Qed.

Lemma inc_active_keeps i f t s : rm_inv ok s -> keeps (qdma_dev_increment_active_queue i f t) s.
Proof.
  intros Hs. unfold qdma_dev_increment_active_queue.
  apply with_master_keeps; [done|by apply keeps_ret|].
  intros j m Hj (lost & Hm & Hok). destruct (find_dev f m) as [[k x]|] eqn:Ef; [|by apply keeps_ret].
  unfold find_dev in Ef. apply list_find_Some in Ef as (Hk & _ & _).
  destruct (active_cnt t x) as [c|] eqn:Hc; [|by apply keeps_ret].
  case_decide as Hfull; [by apply keeps_ret|].
  eapply keeps_bind; [|intros; by apply keeps_ret]. apply put_master_keeps; [done|]. exists lost. split; [|done].
  apply master_count; [done|done|]. pose proof (u32_range (c + 1)). unfold fits_u32 in *. lia.
Qed.

Lemma dec_active_keeps i f t s : rm_inv ok s -> keeps (qdma_dev_decrement_active_queue i f t) s.
Proof.
  intros Hs. unfold qdma_dev_decrement_active_queue.
  apply with_master_keeps; [done|by apply keeps_ret|].
  intros j m Hj (lost & Hm & Hok). destruct (find_dev f m) as [[k x]|] eqn:Ef; [|by apply keeps_ret].
  unfold find_dev in Ef. apply list_find_Some in Ef as (Hk & _ & _).
  eapply keeps_bind; [|intros; by apply keeps_ret]. apply put_master_keeps; [done|]. exists lost. split; [|done].
  pose proof (proj1 (Forall_lookup _ _) (mk_devs _ _ Hm) k x Hk) as [_ _ Hcnt].
  destruct (active_cnt t x) as [c|] eqn:Hc.
  - specialize (Hcnt t c Hc). case_decide.
    + apply master_count; [done|done|lia].
    + rewrite list_insert_id by done. apply master_active. by destruct Hm.
  - rewrite list_insert_id by done. apply master_active. by destruct Hm.
Qed.

Lemma run_rm_ops_keeps ops s : Forall wf_rm_op ops -> rm_inv ok s -> keeps (run_rm_ops ops) s.
Proof.
  intros Hops. revert s. induction Hops as [|op ops Hop _ IH]; intros s Hs; [by apply keeps_ret|].
  cbn [run_rm_ops]. apply keeps_bind; [|intros; by apply IH].
  destruct op; cbn [run_rm_op wf_rm_op] in *;
    try (eapply keeps_bind; [|intros; by apply keeps_ret]).
  - apply master_create_keeps; tauto.
  - by apply master_destroy_keeps.
  - by apply dev_create_keeps.
  - by apply dev_destroy_keeps.
  - apply dev_update_keeps; tauto.
  - by apply inc_active_keeps.
  - by apply dec_active_keeps.
Qed.
End keeping.

(** C3. Whatever sequence of creations, destructions, requests and activations is
    run, and whatever the allocations answer, every operation returns, and at each
    master every hardware queue is in exactly one place: in the free list, with one
    function, or - if an allocation failed - nowhere ([lost]).  No queue is ever
    given to two functions, or free and with a function; chunks stay inside the
    master's range, and no function has more active queues than it holds.  If no
    allocation fails, no queue is lost.  The numbers are bounded ([wf_rm_op]): a
    master's range lies between 0 and 2^31, the number of queues asked for is below
    2^31, and so is the base asked for, which is at least -1. *)
Theorem queues_partitioned ops m : Forall wf_rm_op ops ->
  exists s', run_rm_ops ops (mkRm [] 0 m) = Ok (tt, s') /\
    rm_wf s' /\ (mem_ok m -> Forall master_ok (rm_masters s')).
Proof.
  intros Hops. destruct (run_rm_ops_keeps (mem_ok m) ops (mkRm [] 0 m) Hops) as ([] & s' & E & Hs'); [by split|].
  exists s'. split; [done|]. split; [by eapply rm_inv_wf|]. intros Hm. by apply (rm_inv_ok _ _ Hs').
Qed.

(** ** Requests of a function *)

(** The master [m] and the function's entry [x] the operations find. *)
Record finds (s : rm_state) (i f : Z) (j : nat) (m : resource_master) (k : nat) (x : dev_entry) : Prop := {
  fd_master : list_find (fun m => rm_index m = i) (rm_masters s) = Some (j, m);
  fd_dev : find_dev f m = Some (k, x) }.

(** What the resource manager has done for a request of [x]: what is lost, and, if no
    allocation fails, what the function can rely on. *)
Definition update_done (ok : Prop) (m : resource_master) (qmax qbase : Z) (x : dev_entry)
    (rv : Z) (e' : resource_entry) (free' : list resource_entry) : Prop :=
  exists lost, request_any (rm_qbase m) (rm_qbase m + rm_total_q m) qmax (de_entry x) (rm_free_list m) rv e' free' lost /\
    (ok -> lost = [] /\
       request_post (rm_qbase m) (rm_qbase m + rm_total_q m) qmax qbase (de_entry x) (rm_free_list m) rv e' free').

Lemma dev_update_run i f qmax qbase s j m k x :
  rm_wf s -> finds s i f j m k x -> de_h2c x = 0 -> de_c2h x = 0 -> de_cmpt x = 0 ->
  0 <= qmax < 2 ^ 31 -> -1 <= qbase < 2 ^ 31 ->
  exists rv e' free' s', qdma_dev_update i f qmax qbase s = Ok ((rv, re_qbase e'), s') /\
    rm_masters s' = <[j := set_free_list free' (set_dev_list (<[k := set_entry e' x]> (rm_dev_list m)) m)]>
                      (rm_masters s) /\
    update_done (mem_ok (rm_mem s)) m qmax qbase x rv e' free'.
Proof.
  intros Hs [Hf Hd] H1 H2 H3 Hq Hb. pose proof Hf as Hj. apply list_find_Some in Hj as (Hj & _ & _).
  destruct (proj1 (Forall_lookup _ _) Hs j m Hj) as (lost & Hm).
  pose proof Hd as Hk. unfold find_dev in Hk. apply list_find_Some in Hk as (Hk & _ & _).
  pose proof Hm as [Hb0 He0 Hsp Hdevs _].
  pose proof (proj1 (Forall_lookup _ _) Hdevs k x Hk) as [Hheld Hbase _].
  destruct (request_allocs (mem_ok (rm_mem s)) _ _ qmax qbase (de_entry x) (rm_free_list m) Hsp Hb0 He0 Hheld Hbase
    (fun n Hn Ht => master_apart lost m k x n Hm Hk Hn Ht) Hq Hb (rm_mem s) (fun H => H))
    as ([[rv e'] free'] & mem' & Er & Hpost & _).
  exists rv, e', free'. eexists. split; [|split; [|exact Hpost]].
  - unfold qdma_dev_update, qdma_get_master_resource_entry.
    unfold gets, mbind, cmd_bind. rewrite Hf, Hd. cbn [fst snd].
    destruct (decide (de_h2c x <> 0 \/ de_c2h x <> 0 \/ de_cmpt x <> 0)); [lia|].
    unfold with_alloc. rewrite Er. reflexivity.
  - reflexivity.
Qed.


(** The sum of base and count is taken modulo 2^32 and the count is not bounded:
    a function that asks for 2^32 - 1 queues from queue 1 on is given them, and the
    free list afterwards lists queue 0 twice. *)
Theorem oversized_request_accepted t : 1 < t < 2 ^ 31 ->
  runs (qdma_request_q_resource no_chunk 4294967295 1 [mkChunk 0 t])
    (0, mkChunk 1 4294967295, [mkChunk 0 1; mkChunk 0 t]).
Proof.
  intros Ht. unfold qdma_request_q_resource.
  eapply runs_bind; [apply runs_ret|]. cbv beta iota.
  rewrite decide_False by lia.
  assert (choose_node 4294967295 1 [mkChunk 0 t] = Some (0%nat, 1)) as Hc.
  { unfold choose_node. rewrite decide_True by lia. cbn [find_exact]. unfold holds_request.
    rewrite !bool_decide_eq_true_2; [done| |cbn; lia].
    cbn [re_qbase re_total_q]. rewrite (u32_small (0 + t)) by (unfold fits_u32; lia).
    change (u32 (1 + 4294967295)) with 0. lia. }
  assert (runs (split_node 4294967295 1 (mkChunk 0 t))
    (Some 1%nat, [mkChunk 0 1; mkChunk 1 4294967295; mkChunk 0 t])) as Hsplit.
  { unfold split_node. cbn [re_qbase re_total_q].
    rewrite !decide_False; [|change (u32 (1 + 4294967295)) with 0; rewrite u32_small by (unfold fits_u32; lia); lia|lia|lia].
    eapply runs_bind; [apply runs_create; [unfold fits_s32; lia|by vm_compute]|].
    cbv beta iota zeta. cbn [re_total_q].
    eapply (runs_bind _ _ (Some (mkChunk 0 t))); [|apply runs_ret].
    intros m Hm. destruct (runs_calloc m Hm) as (m' & E & Hm'). exists m'. split; [|done].
    unfold qdma_free_entry_create. rewrite (cmd_bind_run _ _ _ _ _ E). cbv beta iota.
    change (s32 (1 + 4294967295)) with 0. change (u32 (1 - 0)) with 1.
    replace (u32 (u32 (t - 1) - 4294967295)) with t; [done|].
    rewrite (u32_small (t - 1)) by (unfold fits_u32; lia).
    replace (t - 1 - 4294967295) with (t + (-1) * 2 ^ 32) by lia. unfold u32.
    rewrite Z.mod_add, Z.mod_small; lia. }
  eapply (runs_bind _ _ (Some 1%nat, [mkChunk 0 1; mkChunk 1 4294967295; mkChunk 0 t])).
  { unfold qdma_get_resource_node. rewrite Hc. cbn [lookup list_lookup].
    eapply runs_bind; [exact Hsplit|apply runs_ret]. }
  cbv beta iota. eapply runs_bind; [apply runs_lift; reflexivity|]. apply runs_ret.
Qed.

(** Releasing a queue of a function that has none active leaves the function's
    count at zero but still takes one off the master's count, which wraps. *)
Theorem decrement_underflows i f t s j m k x : finds s i f j m k x ->
  active_cnt t x = Some 0 ->
  exists s', qdma_dev_decrement_active_queue i f t s = Ok (0, s') /\
    rm_masters s' = <[j := set_active_qcnt (u32 (rm_active_qcnt m - 1)) m]> (rm_masters s).
Proof.
  intros [Hf Hd] Hc. eexists. split.
  - unfold qdma_dev_decrement_active_queue, qdma_get_master_resource_entry.
    unfold gets, mbind, cmd_bind. rewrite Hf, Hd, Hc. reflexivity.
  - unfold find_dev in Hd. apply list_find_Some in Hd as (Hk & _ & _). cbn [rm_masters put_master].
    destruct (decide (0 <> 0)); [done|]. rewrite (list_insert_id (rm_dev_list m)) by done. destruct m. reflexivity.
Qed.

(** The range check accepts exactly the queues the function holds. *)
Theorem in_range_iff lo hi e qid : held lo hi e -> 0 <= lo -> hi < 2 ^ 31 ->
  0 <= qid < 2 ^ 31 -> -1 <= re_qbase e < 2 ^ 31 -> 0 <= re_total_q e ->
  in_range e qid = QDMA_DEV_Q_IN_RANGE <-> qid ∈ queues e.
Proof.
  intros Hh Hlo Hhi Hq Hb Ht. rewrite elem_of_queues. unfold in_range, held, chunk_end in *.
  rewrite (s32_small qid) by (unfold fits_s32; lia).
  destruct (decide (re_total_q e = 0)) as [Hz|Hz].
  - rewrite decide_False by lia. split; [done|lia].
  - rewrite u32_small by (unfold fits_u32; lia). case_decide; split; try done; lia.
Qed.

(** Failed requests can split the free list: after a function without queues has
    failed twice, with a release in between, a request for 80 queues is refused
    although 100 contiguous queues are free. *)
Theorem failed_requests_fragment :
  exists s, run_rm_ops [MasterCreate 0 0 0 100; DevCreate 0 1; DevCreate 0 2; DevCreate 0 3;
      DevUpdate 0 1 50 (-1); DevUpdate 0 3 60 (-1); DevUpdate 0 1 0 (-1);
      DevUpdate 0 3 200 (-1)] (mkRm [] 0 []) = Ok (tt, s) /\
    (rm_free_list <$> rm_masters s) = [[mkChunk 0 50; mkChunk 50 50]] /\
    exists s', qdma_dev_update 0 2 80 (-1) s = Ok ((- ERR_RM_NO_QUEUES_LEFT, 50), s').
Proof. eexists. split; [vm_compute; reflexivity|]. split; [done|]. eexists. vm_compute. reflexivity. Qed.

(** ** Witnesses *)
Definition sample_rm_ops : list rm_op :=
  [MasterCreate 0 7 0 2048; DevCreate 0 0; DevCreate 0 1; DevUpdate 0 0 512 (-1);
   DevUpdate 0 1 256 1024; IncActive 0 1 QDMA_DEV_Q_TYPE_H2C; DevUpdate 0 0 4096 (-1); DevDestroy 0 0].

Lemma queues_partitioned_witness :
  exists s', run_rm_ops sample_rm_ops (mkRm [] 0 [true; true]) = Ok (tt, s') /\
    rm_wf s' /\ (mem_ok [true; true] -> Forall master_ok (rm_masters s')).
Proof.
  apply (queues_partitioned sample_rm_ops [true; true]); repeat constructor; cbn; lia.
Defined.

(** A failing allocation loses queues: function 0 holds 40 of the 100 queues and is
    destroyed; 60 are free afterwards. *)
Example failing_calloc_loses_queues :
  (fun r => match r with Ok (_, s) => rm_free_list <$> rm_masters s | Fault _ => [] end)
    (run_rm_ops [MasterCreate 0 0 0 100; DevCreate 0 0; DevUpdate 0 0 40 (-1); DevDestroy 0 0]
      (mkRm [] 0 [true; true; true; true; false])) = [[mkChunk 40 60]].
Proof. vm_compute. reflexivity. Qed.

Definition sample_dev : dev_entry := mkDevEntry 1 0 0 0 no_chunk.
Definition sample_master : resource_master := mkMaster 0 0 7 2048 0 [sample_dev] [mkChunk 0 2048] 0.
Definition sample_rm : rm_state := mkRm [sample_master] 1 [].

Lemma sample_rm_ok : rm_ok sample_rm.
Proof.
  split; [constructor|]. apply Forall_singleton.
  apply (master_add [] (mkMaster 0 0 7 2048 0 [] [mkChunk 0 2048] 0) 1), master_ok_new; lia.
Qed.


Lemma oversized_request_accepted_witness :
  runs (qdma_request_q_resource no_chunk 4294967295 1 [mkChunk 0 2048])
    (0, mkChunk 1 4294967295, [mkChunk 0 1; mkChunk 0 2048]).
Proof. apply (oversized_request_accepted 2048). lia. Defined.

Lemma decrement_underflows_witness :
  exists s', qdma_dev_decrement_active_queue 0 1 QDMA_DEV_Q_TYPE_C2H sample_rm = Ok (0, s') /\
    rm_masters s' = <[0%nat := set_active_qcnt 4294967295 sample_master]> (rm_masters sample_rm).
Proof.
  apply (decrement_underflows 0 1 QDMA_DEV_Q_TYPE_C2H sample_rm 0 sample_master 0 sample_dev);
    [by split|reflexivity].
Defined.

Lemma in_range_iff_witness :
  in_range (mkChunk 100 512) 611 = QDMA_DEV_Q_IN_RANGE <-> 611 ∈ queues (mkChunk 100 512).
Proof.
  apply (in_range_iff 0 2048 (mkChunk 100 512) 611); cbn; try lia.
  right. unfold chunk_end. cbn. lia.
Defined.
