(* ===== verification/FreeList.v ===== *)
(** * qdma_resource_mgmt.c: the free list in memory

    [Resource] models the free list of chunks as a list.  Here are the same
    functions on the memory the code works on: list nodes embedded in their entries
    ([QdmaList]), entries by address, allocation and release, with using a freed or
    a null pointer a fault.  [rep m head ps free] says that the memory holds the
    chunks [free] in the entries [ps]; the theorems show that the functions of
    [Resource] are what these functions do. *)

From S2P Require Import Prelude QdmaList Resource.
From stdpp Require Import list gmap.

Open Scope Z_scope.

(** ** Memory *)
Record fmem := mkMem { fm_nodes : heap; fm_ents : gmap Z resource_entry; fm_mem : list bool }.

(** [&entry->node]: the node follows the base and the length. *)
Definition node_of (p : Z) : Z := p + 8.

(** Where the allocator puts the next entry. *)
Class Allocator := pick : fmem -> Z.
Class AllocatorOk `{Allocator} : Prop := {
  pick_pos : forall m, 0 < pick m;
  pick_ent : forall m, fm_ents m !! pick m = None;
  pick_node : forall m, fm_nodes m !! node_of (pick m) = None }.

Definition with_nodes {A} (c : cmd heap A) : cmd fmem A := fun m =>
  match c (fm_nodes m) with
  | Ok (a, h) => Ok (a, mkMem h (fm_ents m) (fm_mem m))
  | Fault f => Fault f
  end.

Definition ld_ent (p : Z) : cmd fmem resource_entry := fun m =>
  if decide (p = NULL) then Fault NullDeref else
  match fm_ents m !! p with Some e => Ok (e, m) | None => Fault UseAfterFree end.
Definition st_ent (p : Z) (e : resource_entry) : cmd fmem unit :=
  _ ← ld_ent p; modify (fun m => mkMem (fm_nodes m) (<[p := e]> (fm_ents m)) (fm_mem m)).

Definition qdma_memfree (p : Z) : cmd fmem unit :=
  _ ← ld_ent p;
  modify (fun m => mkMem (delete (node_of p) (fm_nodes m)) (delete p (fm_ents m)) (fm_mem m)).

Definition next (p : Z) : cmd fmem Z := with_nodes (get_next p).

Section code.
Context `{Allocator}.

(** A zeroed entry, or null. *)
Definition qdma_calloc : cmd fmem Z := fun m =>
  let ok := match fm_mem m with [] => true | b :: _ => b end in
  let p := pick m in
  if (ok : bool) then
    Ok (p, mkMem (<[node_of p := mkNode 0 0 0]> (fm_nodes m)) (<[p := mkChunk 0 0]> (fm_ents m)) (tail (fm_mem m)))
  else Ok (NULL, mkMem (fm_nodes m) (fm_ents m) (tail (fm_mem m))).

Definition qdma_free_entry_create (q_base total_q : Z) : cmd fmem Z :=
  entry ← qdma_calloc;
  if decide (entry = NULL) then mret NULL else
  e ← ld_ent entry;
  _ ← st_ent entry (mkChunk (re_qbase e) (u32 total_q));
  e ← ld_ent entry;
  _ ← st_ent entry (mkChunk (s32 q_base) (re_total_q e));
  mret entry.

(** ** Giving a chunk back *)

(** The body of the insertion loop; the locals are the function's entry and
    whether the function has returned. *)
Definition insert_body (head entry : Z) (t : resource_entry * bool) :
    cmd fmem (resource_entry * bool * bool) :=
  let '(e, _) := t in
  node ← with_nodes (QDMA_LIST_GET_DATA entry);
  n ← ld_ent node;
  last ← with_nodes (qdma_list_is_last_entry entry head);
  if decide (re_qbase e < re_qbase n \/ last = true) then
    new_node ← qdma_free_entry_create (re_qbase e) (re_total_q e);
    if decide (new_node = NULL) then mret (e, true, true) else
    _ ← with_nodes (QDMA_LIST_SET_DATA (node_of new_node) new_node);
    n ← ld_ent node;
    _ ← (if decide (re_qbase e < re_qbase n)
         then with_nodes (qdma_list_insert_before (node_of new_node) (node_of node))
         else with_nodes (qdma_list_add_tail (node_of new_node) head));
    mret (no_chunk, false, true)
  else mret (e, false, false).

(** The body of the merging loop; the local is [streach_node]. *)
Definition merge_body (entry streach_node : Z) : cmd fmem (Z * bool) :=
  node ← with_nodes (QDMA_LIST_GET_DATA entry);
  if decide (streach_node = NULL) then mret (node, false) else
  s ← ld_ent streach_node;
  n ← ld_ent node;
  if decide (u32 (re_qbase s + re_total_q s) = u32 (re_qbase n)) then
    _ ← st_ent streach_node (mkChunk (re_qbase s) (u32 (re_total_q s + re_total_q n)));
    _ ← with_nodes (qdma_list_del (node_of node));
    _ ← qdma_memfree node;
    mret (streach_node, false)
  else mret (node, false).

(** [fuel]: rounds of each walk. *)
Definition qdma_submit_to_free_list (fuel : nat) (e : resource_entry) (head : Z) : cmd fmem resource_entry :=
  if decide (re_total_q e = 0) then mret e else
  empty ← with_nodes (qdma_list_is_empty head);
  '(e, returned) ←
    (if (empty : bool) then
       new_node ← qdma_free_entry_create (re_qbase e) (re_total_q e);
       if decide (new_node = NULL) then mret (e, true) else
       _ ← with_nodes (QDMA_LIST_SET_DATA (node_of new_node) new_node);
       _ ← with_nodes (qdma_list_add_tail (node_of new_node) head);
       mret (no_chunk, false)
     else qdma_list_for_each_safe next (insert_body head) head fuel (e, false));
  if (returned : bool) then mret e else
  _ ← qdma_list_for_each_safe next merge_body head fuel NULL;
  mret e.

(** ** Taking a chunk *)
Definition exact_body (qmax qbase entry best : Z) : cmd fmem (Z * bool) :=
  node ← with_nodes (QDMA_LIST_GET_DATA entry);
  n ← ld_ent node;
  if holds_request qmax qbase n then mret (node, true) else mret (best, false).

(** The locals are [best_fit_node] and [qbase]. *)
Definition best_body (qmax entry : Z) (t : Z * Z) : cmd fmem (Z * Z * bool) :=
  let '(best, qbase) := t in
  node ← with_nodes (QDMA_LIST_GET_DATA entry);
  n ← ld_ent node;
  if decide (qmax <= re_total_q n) then
    smaller ← (if decide (best = NULL) then mret true
               else b ← ld_ent best; mret (bool_decide (re_total_q n <= re_total_q b)));
    if (smaller : bool) then mret (node, re_qbase n, false) else mret (best, qbase, false)
  else mret (best, qbase, false).

(** From the label [fragment_free_list] on. *)
Definition fragment_free_list (qmax qbase best : Z) : cmd fmem Z :=
  if decide (best = NULL) then mret NULL else
  b ← ld_ent best;
  if decide (qbase = re_qbase b /\ qmax = re_total_q b) then mret best
  else if decide (qbase = re_qbase b) then
    let lqmax := u32 (re_total_q b - qmax) in
    new_entry ← qdma_free_entry_create (re_qbase b + qmax) lqmax;
    if decide (new_entry = NULL) then mret NULL else
    _ ← with_nodes (QDMA_LIST_SET_DATA (node_of new_entry) new_entry);
    _ ← with_nodes (qdma_list_insert_after (node_of new_entry) (node_of best));
    _ ← st_ent best (mkChunk (re_qbase b) (u32 (re_total_q b - lqmax)));
    mret best
  else if decide (re_qbase b < qbase /\ u32 (qbase + qmax) = u32 (re_qbase b + re_total_q b)) then
    new_entry ← qdma_free_entry_create (re_qbase b) (qbase - re_qbase b);
    if decide (new_entry = NULL) then mret NULL else
    _ ← with_nodes (QDMA_LIST_SET_DATA (node_of new_entry) new_entry);
    _ ← with_nodes (qdma_list_insert_before (node_of new_entry) (node_of best));
    _ ← st_ent best (mkChunk qbase qmax);
    mret best
  else
    let lqmax := u32 (qbase - re_qbase b) in
    new_entry ← qdma_free_entry_create (re_qbase b) lqmax;
    if decide (new_entry = NULL) then mret NULL else
    _ ← with_nodes (QDMA_LIST_SET_DATA (node_of new_entry) new_entry);
    _ ← with_nodes (qdma_list_insert_before (node_of new_entry) (node_of best));
    _ ← st_ent best (mkChunk qbase (u32 (re_total_q b - lqmax)));
    b ← ld_ent best;
    new_entry ← qdma_free_entry_create (re_qbase b + qmax) (re_total_q b - qmax);
    if decide (new_entry = NULL) then mret NULL else
    _ ← with_nodes (QDMA_LIST_SET_DATA (node_of new_entry) new_entry);
    _ ← with_nodes (qdma_list_insert_after (node_of new_entry) (node_of best));
    _ ← st_ent best (mkChunk (re_qbase b) qmax);
    mret best.

Definition qdma_get_resource_node (fuel : nat) (qmax qbase head : Z) : cmd fmem Z :=
  exact ← (if decide (0 <= qbase)
           then qdma_list_for_each_safe next (exact_body qmax qbase) head fuel NULL
           else mret NULL);
  if decide (exact <> NULL) then fragment_free_list qmax qbase exact else
  '(best, qbase) ← qdma_list_for_each_safe next (best_body qmax) head fuel (NULL, qbase);
  fragment_free_list qmax qbase best.

(** The node becomes the function's entry. *)
Definition take_entry (p : Z) : cmd fmem resource_entry :=
  e ← ld_ent p;
  _ ← with_nodes (qdma_list_del (node_of p));
  _ ← qdma_memfree p;
  mret e.

Definition qdma_request_q_resource (fuel : nat) (e : resource_entry) (new_qmax new_qbase head : Z) :
    cmd fmem (Z * resource_entry) :=
  let qmax := re_total_q e in
  let qbase := re_qbase e in
  e ← qdma_submit_to_free_list fuel e head;
  if decide (new_qmax = 0) then mret (0, e) else
  p ← qdma_get_resource_node fuel new_qmax new_qbase head;
  if decide (p <> NULL) then e ← take_entry p; mret (0, e) else
  p ← qdma_get_resource_node fuel qmax qbase head;
  if decide (p = NULL) then mret (- ERR_RM_NO_QUEUES_LEFT, no_chunk) else
  e ← take_entry p; mret (- ERR_RM_NO_QUEUES_LEFT, e).
End code.

(** ** The chunks in memory *)
Notation cell := (Z * resource_entry)%type.
Definition nodes (cs : list cell) : list Z := (fun x => node_of (fst x)) <$> cs.

Definition holds (m : fmem) (p : Z) (c : resource_entry) : Prop :=
  p <> NULL /\ fm_ents m !! p = Some c.

(** The free list [cs] behind [head]: entries with their chunks. *)
Record rep (m : fmem) (head : Z) (cs : list cell) : Prop := {
  rp_list : is_list (fm_nodes m) head (nodes cs);
  rp_cell : forall p c, (p, c) ∈ cs -> holds m p c /\ dat (fm_nodes m) (node_of p) = Some p }.

(** The entry [p] is allocated, holds [c], and is in no list. *)
Record spare (m : fmem) (head : Z) (cs : list cell) (p : Z) (c : resource_entry) : Prop := {
  sr_holds : holds m p c;
  sr_node : alive (fm_nodes m) (node_of p);
  sr_out : node_of p ∉ head :: nodes cs }.

Lemma nodes_app cs1 cs2 : nodes (cs1 ++ cs2) = nodes cs1 ++ nodes cs2.
Proof. apply fmap_app. Qed.

Lemma nodes_mid cs1 p c cs2 : nodes (cs1 ++ (p, c) :: cs2) = nodes cs1 ++ node_of p :: nodes cs2.
Proof. apply nodes_app. Qed.

Lemma node_of_in p c cs : (p, c) ∈ cs -> node_of p ∈ nodes cs.
Proof. intros H. apply list_elem_of_fmap. by exists (p, c). Qed.

Lemma node_of_notin p c cs : node_of p ∉ nodes cs -> (p, c) ∉ cs.
Proof. intros H Hin. by apply H, (node_of_in _ c). Qed.

Lemma with_nodes_run {A} (k : cmd heap A) m a h : k (fm_nodes m) = Ok (a, h) ->
  with_nodes k m = Ok (a, mkMem h (fm_ents m) (fm_mem m)).
Proof. unfold with_nodes. by intros ->. Qed.

Lemma with_nodes_read {A} (k : cmd heap A) m a : k (fm_nodes m) = Ok (a, fm_nodes m) ->
  with_nodes k m = Ok (a, m).
Proof. unfold with_nodes. intros ->. by destruct m. Qed.

Lemma ld_ent_run m p c : holds m p c -> ld_ent p m = Ok (c, m).
Proof. intros [Hp Hc]. unfold ld_ent. by rewrite decide_False, Hc by done. Qed.

Definition set_ent (p : Z) (e : resource_entry) (m : fmem) : fmem :=
  mkMem (fm_nodes m) (<[p := e]> (fm_ents m)) (fm_mem m).

Lemma st_ent_run m p c e : holds m p c -> st_ent p e m = Ok (tt, set_ent p e m).
Proof. intros H. unfold st_ent. by rewrite (cmd_bind_run _ _ _ _ _ (ld_ent_run _ _ _ H)). Qed.

Lemma holds_set_ent m p c e : holds m p c -> holds (set_ent p e m) p e.
Proof. intros [Hp _]. split; [done|]. cbn. by rewrite lookup_insert_eq. Qed.

(** *** At a cell of the list *)
Lemma rep_at m head cs1 p c cs2 : rep m head (cs1 ++ (p, c) :: cs2) ->
  holds m p c /\ with_nodes (QDMA_LIST_GET_DATA (node_of p)) m = Ok (p, m).
Proof.
  intros [Hl Hc]. destruct (Hc p c) as [Hh Hd]; [set_solver|]. split; [done|].
  apply with_nodes_read. apply get_data_run; [|done].
  destruct Hl as [_ _ Ha]. rewrite Forall_forall in Ha.
  apply (alive_ne (fm_nodes m)), Ha. right. rewrite nodes_app. apply elem_of_app. right. by left.
Qed.

Lemma rep_leads m head cs1 cs2 : rep m head (cs1 ++ cs2) -> leads next head (nodes cs2) m.
Proof.
  intros [Hl _]. rewrite nodes_app in Hl. apply list_leads in Hl. unfold next.
  destruct (nodes cs2) as [|x r]; cbn [leads] in *.
  - destruct Hl as [v Hv]. exists v. by apply with_nodes_read.
  - destruct Hl as [Hx Hv]. split; [done|]. by apply with_nodes_read.
Qed.

Lemma rep_head_next m head cs : rep m head cs -> next head m = Ok (after head (nodes cs), m).
Proof. intros [Hl _]. by apply with_nodes_read, list_head_next. Qed.

Lemma rep_last m head cs1 p c cs2 : rep m head (cs1 ++ (p, c) :: cs2) ->
  with_nodes (qdma_list_is_last_entry (node_of p) head) m = Ok (bool_decide (cs2 = []), m).
Proof.
  intros [Hl _]. rewrite nodes_mid in Hl. apply with_nodes_read.
  rewrite (list_is_last_run _ _ _ _ _ Hl). do 2 f_equal. apply bool_decide_ext.
  by destruct cs2.
Qed.

Lemma rep_nodup m head cs1 p c cs2 : rep m head (cs1 ++ (p, c) :: cs2) ->
  forall q d, (q, d) ∈ cs1 ++ cs2 -> q <> p.
Proof.
  intros [[_ [_ Hnd]%NoDup_cons _] _] q d Hq ->. rewrite nodes_mid in Hnd.
  apply NoDup_app in Hnd as (_ & H1 & [H2 _]%NoDup_cons).
  apply elem_of_app in Hq as [Hq|Hq]; apply node_of_in in Hq; [|done].
  apply (H1 _ Hq). by left.
Qed.

(** *** Changing the memory *)
Lemma rep_set_ent m head cs1 p c cs2 e : rep m head (cs1 ++ (p, c) :: cs2) ->
  rep (set_ent p e m) head (cs1 ++ (p, e) :: cs2).
Proof.
  intros Hr. pose proof (rep_nodup _ _ _ _ _ _ Hr) as Hne. destruct Hr as [Hl Hc].
  split; [by rewrite nodes_app in *|].
  intros q d Hq. cbn [fm_nodes set_ent].
  assert ((q, d) = (p, e) \/ (q, d) ∈ cs1 ++ cs2) as [[= -> ->]|Hin] by set_solver.
  - destruct (Hc p c) as [Hh Hd]; [set_solver|]. split; [by eapply holds_set_ent|done].
  - destruct (Hc q d) as [[H1 H2] Hd]; [set_solver|]. split; [|done]. split; [done|]. cbn.
    rewrite lookup_insert_ne; [done|]. intros <-. by apply (Hne p d).
Qed.

Lemma rep_heap m head cs cs' ps h : rep m head cs -> same_outside ps (fm_nodes m) h ->
  is_list h head (nodes cs') -> cs' ⊆ cs -> rep (mkMem h (fm_ents m) (fm_mem m)) head cs'.
Proof.
  intros [_ Hc] [Hd _ _] Hl Hsub. split; [done|]. intros p c Hin.
  destruct (Hc p c (Hsub _ Hin)) as [Hh Hp]. split; [done|]. cbn. by rewrite Hd.
Qed.

Lemma delete_free_run m head cs1 p c cs2 : rep m head (cs1 ++ (p, c) :: cs2) -> exists m1 m2,
  with_nodes (qdma_list_del (node_of p)) m = Ok (tt, m1) /\ qdma_memfree p m1 = Ok (tt, m2) /\
  rep m2 head (cs1 ++ cs2) /\ fm_mem m2 = fm_mem m.
Proof.
  intros Hr. pose proof Hr as [Hl Hc]. rewrite nodes_mid in Hl.
  destruct (del_node_run _ _ _ _ _ Hl) as (h' & R & L & O).
  eexists _, _. split; [by apply with_nodes_run|].
  destruct (Hc p c) as [Hh _]; [set_solver|].
  pose proof (rep_nodup _ _ _ _ _ _ Hr) as Hne.
  split; [|split].
  - unfold qdma_memfree. rewrite (cmd_bind_run _ _ _ _ _ (ld_ent_run (mkMem h' _ _) p c Hh)). reflexivity.
  - assert (node_of p ∉ head :: nodes cs1 ++ nodes cs2) as Hout.
    { destruct Hl as [_ Hnd _]. rewrite app_comm_cons in *.
      apply NoDup_app in Hnd as (_ & H1 & [H2 _]%NoDup_cons).
      rewrite not_elem_of_app. split; [|done]. intros Hin. apply (H1 _ Hin). by left. }
    split; cbn [fm_nodes fm_ents].
    + rewrite nodes_app. apply (is_list_agree h'); [done|]. intros x Hx.
      apply lookup_delete_ne. intros <-. done.
    + intros q d Hq. destruct (Hc q d) as [[H1 H2] H3]; [set_solver|].
      specialize (Hne q d Hq). split.
      * split; [done|]. cbn. by rewrite lookup_delete_ne.
      * unfold dat in *. rewrite lookup_delete_ne by (unfold node_of; lia).
        rewrite <- H3. apply O.
  - done.
Qed.

(** *** Allocating *)
Section proofs.
Context `{alloc_ok : AllocatorOk}.

Definition mem_answer (l : list bool) : bool := match l with [] => true | b :: _ => b end.
Definition create_mem (qb tq : Z) (m : fmem) : fmem :=
  mkMem (<[node_of (pick m) := mkNode 0 0 0]> (fm_nodes m))
    (<[pick m := mkChunk (s32 qb) (u32 tq)]> (fm_ents m)) (tail (fm_mem m)).
Definition no_mem (m : fmem) : fmem := mkMem (fm_nodes m) (fm_ents m) (tail (fm_mem m)).

(** The entry that is made is the chunk [Resource] makes. *)
Lemma create_run qb tq m :
  qdma_free_entry_create qb tq m =
    (if mem_answer (fm_mem m) then Ok (pick m, create_mem qb tq m) else Ok (NULL, no_mem m)) /\
  Resource.qdma_free_entry_create qb tq (fm_mem m) =
    Ok (if mem_answer (fm_mem m) then Some (mkChunk (s32 qb) (u32 tq)) else None, tail (fm_mem m)).
Proof.
  split.
  - unfold qdma_free_entry_create. unfold qdma_calloc, mbind at 1, cmd_bind at 1.
    change (match fm_mem m with [] => true | b :: _ => b end) with (mem_answer (fm_mem m)).
    destruct (mem_answer (fm_mem m)); [|by rewrite decide_True].
    pose proof (pick_pos m) as Hp. rewrite decide_False by (unfold NULL; lia).
    set (m1 := mkMem _ _ _).
    assert (holds m1 (pick m) (mkChunk 0 0)) as H1.
    { split; [unfold NULL; lia|]. cbn. by rewrite lookup_insert_eq. }
    rewrite (cmd_bind_run _ _ _ _ _ (ld_ent_run _ _ _ H1)), (cmd_bind_run _ _ _ _ _ (st_ent_run _ _ _ _ H1)).
    set (c2 := mkChunk _ _). assert (holds (set_ent (pick m) c2 m1) (pick m) c2) as H2 by by eapply holds_set_ent.
    rewrite (cmd_bind_run _ _ _ _ _ (ld_ent_run _ _ _ H2)), (cmd_bind_run _ _ _ _ _ (st_ent_run _ _ _ _ H2)).
    unfold mret, cmd_ret. do 2 f_equal. unfold set_ent, m1, create_mem. cbn. by rewrite !insert_insert_eq.
  - unfold Resource.qdma_free_entry_create, Resource.qdma_calloc, mbind, cmd_bind.
    by destruct (fm_mem m) as [|[] l].
Qed.

Lemma create_rep qb tq m head cs : rep m head cs ->
  rep (create_mem qb tq m) head cs /\
  spare (create_mem qb tq m) head cs (pick m) (mkChunk (s32 qb) (u32 tq)).
Proof.
  intros [Hl Hc]. pose proof (pick_pos m). pose proof (pick_ent m) as He. pose proof (pick_node m) as Hn.
  assert (node_of (pick m) ∉ head :: nodes cs) as Hout.
  { intros Hin. destruct Hl as [_ _ Ha]. rewrite Forall_forall in Ha.
    destruct (Ha _ Hin) as [_ [d Hd]]. unfold dat in Hd. by rewrite Hn in Hd. }
  split; split; cbn [fm_nodes fm_ents create_mem].
  - apply (is_list_agree (fm_nodes m)); [done|]. intros x Hx. apply lookup_insert_ne. by intros <-.
  - intros p c Hin. destruct (Hc p c Hin) as [[H1 H2] H3]. split.
    + split; [done|]. cbn. rewrite lookup_insert_ne; [done|]. intros E. rewrite <- E in H2.
      by rewrite He in H2.
    + unfold dat. rewrite lookup_insert_ne; [done|]. intros E. apply Hout. rewrite E. right.
      by apply (node_of_in _ c).
  - split; [unfold NULL; lia|]. cbn. by rewrite lookup_insert_eq.
  - split; [unfold NULL, node_of; lia|]. unfold dat. rewrite lookup_insert_eq. by eexists.
  - done.
Qed.

Lemma no_mem_rep m head cs : rep m head cs -> rep (no_mem m) head cs.
Proof. by intros [Hl Hc]. Qed.

(** A spare entry goes into a gap of the list: its data pointer is set, and an
    insertion links it. *)
Lemma link_run m head cs1 cs2 p c k : rep m head (cs1 ++ cs2) -> spare m head (cs1 ++ cs2) p c ->
  inserts k head (nodes cs1) (node_of p) (nodes cs2) -> exists m1 m2,
  with_nodes (QDMA_LIST_SET_DATA (node_of p) p) m = Ok (tt, m1) /\ with_nodes k m1 = Ok (tt, m2) /\
  rep m1 head (cs1 ++ cs2) /\ rep m2 head (cs1 ++ (p, c) :: cs2) /\ fm_mem m2 = fm_mem m.
Proof.
  intros [Hl Hc] [Hh Ha Hout] Hk.
  destruct (alive_deref _ _ Ha) as (n & Hn & Hd).
  set (h1 := <[node_of p := mkNode (ln_prev n) (ln_next n) p]> (fm_nodes m)).
  assert (forall x, x <> node_of p -> h1 !! x = fm_nodes m !! x) as Hag
    by (intros; by apply lookup_insert_ne).
  assert (dat h1 (node_of p) = Some p) as Hdp by (unfold dat, h1; by rewrite lookup_insert_eq).
  assert (is_list h1 head (nodes (cs1 ++ cs2))) as Hl1
    by (apply (is_list_agree (fm_nodes m)); [done|]; intros x Hx; apply Hag; by intros ->).
  assert (forall q d, (q, d) ∈ cs1 ++ cs2 -> holds m q d /\ dat h1 (node_of q) = Some q) as Hc1.
  { intros q d Hq. destruct (Hc q d Hq) as [H1 H2]. split; [done|]. unfold dat in *. rewrite Hag; [done|].
    intros E. apply Hout. rewrite <- E. right. by apply (node_of_in _ d). }
  pose proof Hl1 as Hl1'. rewrite nodes_app in Hl1', Hout.
  destruct (Hk h1 Hl1') as (h2 & R & L & O).
  { split; [by destruct Ha|]. rewrite Hdp. by eexists. }
  { done. }
  exists (mkMem h1 (fm_ents m) (fm_mem m)), (mkMem h2 (fm_ents m) (fm_mem m)).
  split; [|split; [by apply (with_nodes_run _ (mkMem h1 _ _))|split; [done|split; [|done]]]].
  - apply with_nodes_run. unfold QDMA_LIST_SET_DATA. by rewrite (cmd_bind_run _ _ _ _ _ Hd).
  - split; [by rewrite nodes_mid|]. intros q d Hq.
    assert (forall x, dat h2 x = dat h1 x) as Hd2 by apply O. cbn [fm_nodes]. rewrite Hd2.
    assert ((q, d) = (p, c) \/ (q, d) ∈ cs1 ++ cs2) as [[= -> ->]|Hin] by set_solver; [done|].
    by apply Hc1.
Qed.

(** Allocate a chunk and link it, then go on; or run out of memory. *)
Lemma create_link_run {A} qb tq m head cs1 cs2 (k : Z -> cmd heap unit) (none : A) (rest : Z -> cmd fmem A) :
  rep m head (cs1 ++ cs2) ->
  (forall p, inserts (k p) head (nodes cs1) (node_of p) (nodes cs2)) ->
  exists p m1, fm_mem m1 = tail (fm_mem m) /\
  (new ← qdma_free_entry_create qb tq;
   if decide (new = NULL) then mret none else
   _ ← with_nodes (QDMA_LIST_SET_DATA (node_of new) new);
   _ ← with_nodes (k new);
   rest new) m = (if mem_answer (fm_mem m) then rest p m1 else Ok (none, m1)) /\
  if mem_answer (fm_mem m) then rep m1 head (cs1 ++ (p, mkChunk (s32 qb) (u32 tq)) :: cs2)
  else rep m1 head (cs1 ++ cs2).
Proof.
  intros Hr Hk. destruct (create_run qb tq m) as [Ec _].
  destruct (mem_answer (fm_mem m)); rewrite (cmd_bind_run _ _ _ _ _ Ec).
  - pose proof (pick_pos m). rewrite decide_False by (unfold NULL; lia).
    destruct (create_rep qb tq m head _ Hr) as [Hr1 Hs1].
    destruct (link_run _ head cs1 cs2 _ _ _ Hr1 Hs1 (Hk _)) as (m1 & m2 & R1 & R2 & _ & L & M).
    exists (pick m), m2. split; [done|]. split; [|done].
    by rewrite (cmd_bind_run _ _ _ _ _ R1), (cmd_bind_run _ _ _ _ _ R2).
  - rewrite decide_True by done. exists NULL, (no_mem m). split_and!; [done..|]. by apply no_mem_rep.
Qed.

Definition chunk_ok (e : resource_entry) : Prop := fits_s32 (re_qbase e) /\ fits_u32 (re_total_q e).

Lemma chunk_ok_eq e : chunk_ok e -> mkChunk (s32 (re_qbase e)) (u32 (re_total_q e)) = e.
Proof. intros [H1 H2]. rewrite s32_small, u32_small by done. by destruct e. Qed.

Lemma insert_chunk_behind e l1 l2 : Forall (fun n => re_qbase n <= re_qbase e) l1 ->
  insert_chunk e (l1 ++ l2) = l1 ++ insert_chunk e l2.
Proof.
  induction 1 as [|n l1 Hn _ IH]; [done|]. cbn. by rewrite decide_False, IH by lia.
Qed.

(** What submitting leaves: the chunk is in the list in its place, or there was no
    memory for it. *)
Definition inserted (e : resource_entry) (cs : list cell) (m : fmem) (head : Z)
    (t : resource_entry * bool) (m' : fmem) : Prop :=
  fm_mem m' = tail (fm_mem m) /\
  if mem_answer (fm_mem m) then
    t = (no_chunk, false) /\ exists cs', rep m' head cs' /\ cs'.*2 = insert_chunk e cs.*2
  else t = (e, true) /\ rep m' head cs.

Lemma insert_body_run e head cs1 p c cs2 m r : chunk_ok e -> rep m head (cs1 ++ (p, c) :: cs2) ->
  Forall (fun n => re_qbase n <= re_qbase e) cs1.*2 ->
  exists t' m' stop, insert_body head (node_of p) (e, r) m = Ok (t', stop, m') /\
  if (stop : bool) then inserted e (cs1 ++ (p, c) :: cs2) m head t' m'
  else t' = (e, false) /\ m' = m /\ re_qbase c <= re_qbase e /\ cs2 <> [].
Proof.
  intros He Hr Hle. destruct (rep_at _ _ _ _ _ _ Hr) as [Hc Hd].
  unfold insert_body. rewrite (cmd_bind_run _ _ _ _ _ Hd), (cmd_bind_run _ _ _ _ _ (ld_ent_run _ _ _ Hc)),
    (cmd_bind_run _ _ _ _ _ (rep_last _ _ _ _ _ _ Hr)).
  destruct (decide (re_qbase e < re_qbase c \/ bool_decide (cs2 = []) = true)) as [Hpos|Hpos]; last first.
  { exists (e, false), m, false. split; [done|]. split_and!; [done..|lia|]. intros ->. naive_solver. }
  destruct (create_run (re_qbase e) (re_total_q e) m) as [Ec _].
  unfold inserted. destruct (mem_answer (fm_mem m)).
  - rewrite (cmd_bind_run _ _ _ _ _ Ec). pose proof (pick_pos m) as Hp0. rewrite decide_False by (unfold NULL; lia).
    destruct (create_rep (re_qbase e) (re_total_q e) m head _ Hr) as [Hr1 Hs1].
    rewrite chunk_ok_eq in Hs1 by done.
    destruct (decide (re_qbase e < re_qbase c)) as [Hlt|Hge].
    + destruct (link_run _ head cs1 ((p, c) :: cs2) _ e _ Hr1 Hs1 (inserts_before head _ (node_of p) _ _))
        as (m1 & m2 & R1 & R2 & L1 & L2 & M2).
      destruct (rep_at _ _ _ _ _ _ L1) as [Hc1 _].
      exists (no_chunk, false), m2, true. split.
      * rewrite (cmd_bind_run _ _ _ _ _ R1), (cmd_bind_run _ _ _ _ _ (ld_ent_run _ _ _ Hc1)).
        rewrite decide_True by done. by rewrite (cmd_bind_run _ _ _ _ _ R2).
      * split; [done|]. split; [done|]. exists (cs1 ++ (pick m, e) :: (p, c) :: cs2). split; [done|].
        rewrite !fmap_app, insert_chunk_behind by done. cbn. by rewrite decide_True.
    + assert (cs2 = []) as -> by (destruct Hpos as [|Hb]; [lia|by apply bool_decide_eq_true in Hb]).
      rewrite <- (app_nil_r (cs1 ++ [(p, c)])) in Hr1, Hs1.
      destruct (link_run _ head (cs1 ++ [(p, c)]) [] _ e _ Hr1 Hs1 (inserts_tail head _ _))
        as (m1 & m2 & R1 & R2 & L1 & L2 & M2).
      rewrite app_nil_r in L1. destruct (rep_at _ _ _ _ _ _ L1) as [Hc1 _].
      exists (no_chunk, false), m2, true. split.
      * rewrite (cmd_bind_run _ _ _ _ _ R1), (cmd_bind_run _ _ _ _ _ (ld_ent_run _ _ _ Hc1)).
        rewrite decide_False by done. by rewrite (cmd_bind_run _ _ _ _ _ R2).
      * split; [done|]. split; [done|]. exists ((cs1 ++ [(p, c)]) ++ [(pick m, e)]). split; [done|].
        rewrite !fmap_app, <- app_assoc, insert_chunk_behind by done. cbn. by rewrite decide_False.
  - rewrite (cmd_bind_run _ _ _ _ _ Ec). rewrite decide_True by done.
    exists (e, true), (no_mem m), true. split; [done|]. split_and!; [done..|]. by apply no_mem_rep.
Qed.

Lemma insert_loop_run e head cs m fuel : chunk_ok e -> rep m head cs -> cs <> [] -> (length cs < fuel)%nat ->
  exists t' m', qdma_list_for_each_safe next (insert_body head) head fuel (e, false) m = Ok (t', m') /\
  inserted e cs m head t' m'.
Proof.
  intros He Hr Hne Hf.
  apply (for_each_rule next (insert_body head) head
    (fun _ rest t s => s = m /\ (exists r, t = (e, r)) /\ exists cs1 cs2, cs = cs1 ++ cs2 /\ cs2 <> [] /\
       rest = nodes cs2 /\ Forall (fun n => re_qbase n <= re_qbase e) cs1.*2)
    (inserted e cs m head)) with (l := nodes cs).
  - intros _ rest t s (-> & _ & cs1 & cs2 & -> & _ & -> & _). by apply (rep_leads m head cs1).
  - intros _ x rest t s (-> & [r ->] & cs1 & cs2 & -> & Hne2 & Hx & Hle).
    destruct cs2 as [|[p c] cs2]; [done|]. cbn in Hx. injection Hx as -> ->.
    destruct (insert_body_run e head cs1 p c cs2 m r He Hr Hle) as (t' & m' & stop & E & HQ).
    exists t', m', stop. split; [done|]. destruct stop; [done|]. destruct HQ as (-> & -> & Hle' & Hne').
    split; [done|]. split; [by eexists|]. exists (cs1 ++ [(p, c)]), cs2.
    rewrite <- app_assoc, fmap_app. split_and!; try done. apply Forall_app. split; [done|]. by constructor.
  - intros _ t s (_ & _ & cs1 & cs2 & _ & Hne2 & Hx & _). by destruct cs2.
  - by apply rep_head_next.
  - split; [done|]. split; [by eexists|]. by exists [], cs.
  - unfold nodes. by rewrite length_fmap.
Qed.

(** *** Merging *)
Lemma merge_body_run head cs1 q s p c cs2 m : rep m head (cs1 ++ (q, s) :: (p, c) :: cs2) ->
  exists m', fm_mem m' = fm_mem m /\
  if decide (u32 (re_qbase s + re_total_q s) = u32 (re_qbase c)) then
    merge_body (node_of p) q m = Ok (q, false, m') /\
    rep m' head (cs1 ++ (q, mkChunk (re_qbase s) (u32 (re_total_q s + re_total_q c))) :: cs2)
  else merge_body (node_of p) q m = Ok (p, false, m') /\ m' = m.
Proof.
  intros Hr. destruct (rep_at _ _ _ _ _ _ Hr) as [Hs _].
  assert (rep m head ((cs1 ++ [(q, s)]) ++ (p, c) :: cs2)) as Hr' by (by rewrite <- app_assoc).
  destruct (rep_at _ _ _ _ _ _ Hr') as [Hc Hd].
  unfold merge_body. rewrite (cmd_bind_run _ _ _ _ _ Hd). rewrite decide_False by apply Hs.
  rewrite (cmd_bind_run _ _ _ _ _ (ld_ent_run _ _ _ Hs)), (cmd_bind_run _ _ _ _ _ (ld_ent_run _ _ _ Hc)).
  case_decide as Hm; [|by exists m].
  rewrite (cmd_bind_run _ _ _ _ _ (st_ent_run _ _ _ _ Hs)).
  apply (rep_set_ent _ _ _ _ _ _ (mkChunk (re_qbase s) (u32 (re_total_q s + re_total_q c)))) in Hr.
  set (s' := mkChunk _ _) in *.
  assert (rep (set_ent q s' m) head ((cs1 ++ [(q, s')]) ++ (p, c) :: cs2)) as Hr2 by (by rewrite <- app_assoc).
  destruct (delete_free_run _ _ _ _ _ _ Hr2) as (m1 & m2 & R1 & R2 & L & M).
  exists m2. split; [done|]. rewrite (cmd_bind_run _ _ _ _ _ R1), (cmd_bind_run _ _ _ _ _ R2).
  split; [done|]. by rewrite <- app_assoc in L.
Qed.

Lemma merge_loop_run head cs m fuel : rep m head cs -> (length cs < fuel)%nat -> exists t' m',
  qdma_list_for_each_safe next merge_body head fuel NULL m = Ok (t', m') /\
  fm_mem m' = fm_mem m /\ exists cs', rep m' head cs' /\ cs'.*2 = defragment cs.*2.
Proof.
  intros Hr Hf.
  apply (for_each_rule next merge_body head
    (fun _ rest t s => fm_mem s = fm_mem m /\ exists cs1 cs2, rest = nodes cs2 /\ rep s head (cs1 ++ cs2) /\
       ((cs1 = [] /\ t = NULL /\ cs2 = cs) \/
        exists cs0 c, cs1 = cs0 ++ [(t, c)] /\ defragment cs.*2 = cs0.*2 ++ merge_chunks c cs2.*2))
    (fun _ s => fm_mem s = fm_mem m /\ exists cs', rep s head cs' /\ cs'.*2 = defragment cs.*2))
    with (l := nodes cs).
  - intros _ rest t s (_ & cs1 & cs2 & -> & Hs & _). by eapply rep_leads.
  - intros _ x rest t s (M & cs1 & cs2 & Hx & Hs & Hcase).
    destruct cs2 as [|[p c] cs2]; [done|]. injection Hx as -> ->. cbn [fst].
    destruct Hcase as [(-> & -> & <-)|(cs0 & s0 & -> & Hdef)].
    + destruct (rep_at s head [] p c cs2 Hs) as [_ Hd].
      exists p, s, false. split; [unfold merge_body; by rewrite (cmd_bind_run _ _ _ _ _ Hd), decide_True|].
      split; [done|]. exists [(p, c)], cs2. split; [done|]. split; [done|]. right. by exists [], c.
    + rewrite <- app_assoc in Hs. destruct (merge_body_run _ _ _ _ _ _ _ _ Hs) as (s' & M' & Hb).
      cbn [fmap list_fmap snd merge_chunks] in Hdef. case_decide.
      * destruct Hb as [E L]. exists t, s', false. split; [done|]. split; [congruence|].
        eexists (cs0 ++ [(t, _)]), cs2. split; [done|]. rewrite <- app_assoc. split; [done|]. right.
        by eexists cs0, _.
      * destruct Hb as [E ->]. exists p, s, false. split; [done|]. split; [done|].
        exists ((cs0 ++ [(t, s0)]) ++ [(p, c)]), cs2. split; [done|]. rewrite <- !app_assoc. split; [done|].
        right. exists (cs0 ++ [(t, s0)]), c. split; [by rewrite <- app_assoc|].
        rewrite Hdef, fmap_app, <- app_assoc. done.
  - intros _ t s (M & cs1 & cs2 & Hx & Hs & Hcase). destruct cs2; [|done]. rewrite app_nil_r in Hs.
    split; [done|]. destruct Hcase as [(-> & _ & <-)|(cs0 & c & -> & Hdef)]; [by exists []|].
    exists (cs0 ++ [(t, c)]). split; [done|]. by rewrite Hdef, fmap_app.
  - by apply rep_head_next.
  - split; [done|]. exists [], cs. split_and!; [done..|]. by left.
  - unfold nodes. by rewrite length_fmap.
Qed.

Lemma insert_chunk_length e l : length (insert_chunk e l) = S (length l).
Proof. induction l as [|n l IH]; cbn; [done|]. case_decide; cbn; [done|]. by rewrite IH. Qed.

Lemma defragment_length l : (length (defragment l) <= length l)%nat.
Proof.
  destruct l as [|c l]; [done|]. cbn [defragment]. revert c.
  induction l as [|n l IH]; intros c; cbn; [lia|]. case_decide; cbn.
  - specialize (IH (mkChunk (re_qbase c) (u32 (re_total_q c + re_total_q n)))). cbn in IH. lia.
  - specialize (IH n). cbn in IH. lia.
Qed.

(** Insertion into the empty list: the branch without a loop. *)
Lemma insert_empty_run e head m : chunk_ok e -> rep m head [] -> exists t' m',
  (new_node ← qdma_free_entry_create (re_qbase e) (re_total_q e);
   if decide (new_node = NULL) then mret (e, true) else
   _ ← with_nodes (QDMA_LIST_SET_DATA (node_of new_node) new_node);
   _ ← with_nodes (qdma_list_add_tail (node_of new_node) head);
   mret (no_chunk, false)) m = Ok (t', m') /\ inserted e [] m head t' m'.
Proof.
  intros He Hr. destruct (create_link_run (re_qbase e) (re_total_q e) m head [] []
    (fun p => qdma_list_add_tail (node_of p) head) (e, true) (fun _ => mret (no_chunk, false)) Hr)
    as (p & m1 & M & E & L); [intros p; apply inserts_tail|].
  rewrite E. unfold inserted. rewrite chunk_ok_eq in L by done. destruct (mem_answer (fm_mem m)).
  - exists (no_chunk, false), m1. split; [done|]. split; [done|]. split; [done|]. by exists [(p, e)].
  - by exists (e, true), m1.
Qed.

Lemma submit_run e head cs m fuel : chunk_ok e -> rep m head cs -> (S (length cs) < fuel)%nat ->
  exists e' m' cs', qdma_submit_to_free_list fuel e head m = Ok (e', m') /\ rep m' head cs' /\
    Resource.qdma_submit_to_free_list e cs.*2 (fm_mem m) = Ok (e', cs'.*2, fm_mem m') /\
    (length cs' <= S (length cs))%nat.
Proof.
  intros He Hr Hf. unfold qdma_submit_to_free_list, Resource.qdma_submit_to_free_list.
  destruct (decide (re_total_q e = 0)) as [H0|H0]; [exists e, m, cs; split_and!; [done..|lia]|].
  destruct (create_run (re_qbase e) (re_total_q e) m) as [_ Er].
  rewrite (cmd_bind_run _ _ _ _ _ Er). rewrite chunk_ok_eq by done.
  assert (with_nodes (qdma_list_is_empty head) m = Ok (bool_decide (cs = []), m)) as Hemp.
  { destruct Hr as [Hl _]. apply with_nodes_read. rewrite (list_is_empty_run _ _ _ Hl).
    do 2 f_equal. apply bool_decide_ext. by destruct cs. }
  rewrite (cmd_bind_run _ _ _ _ _ Hemp).
  match goal with |- context [mbind _ ?c m] => assert (exists t' m', c m = Ok (t', m') /\ inserted e cs m head t' m')
    as ((e' & r) & m1 & E1 & HQ) end.
  { case_bool_decide as Hb; [subst cs; by apply insert_empty_run|apply insert_loop_run; [done|done|done|lia]]. }
  rewrite (cmd_bind_run _ _ _ _ _ E1). destruct HQ as [M1 HQ].
  destruct (mem_answer (fm_mem m)).
  - destruct HQ as ([= -> ->] & cs1 & Hr1 & Hcs1).
    assert (length cs1 = S (length cs)) as Hlen.
    { rewrite <- (length_fmap snd cs1), Hcs1, insert_chunk_length. by rewrite length_fmap. }
    destruct (merge_loop_run head cs1 m1 fuel Hr1) as (t2 & m2 & E2 & M2 & cs2 & Hr2 & Hcs2); [lia|].
    rewrite (cmd_bind_run _ _ _ _ _ E2). exists no_chunk, m2, cs2. split; [done|]. split; [done|].
    rewrite Hcs2, Hcs1, M2, M1. split; [done|].
    rewrite <- (length_fmap snd cs2), Hcs2, <- Hlen, <- (length_fmap snd cs1). apply defragment_length.
  - destruct HQ as ([= -> ->] & Hr1). exists e, m1, cs. rewrite M1. split_and!; [done..|lia].
Qed.

(** ** Searching *)
Definition ptr_at (cs : list cell) (i : option nat) : Z :=
  match i with Some i => default NULL (cs.*1 !! i) | None => NULL end.

Lemma exact_loop_run qmax qbase head cs m fuel : rep m head cs -> (length cs < fuel)%nat ->
  qdma_list_for_each_safe next (exact_body qmax qbase) head fuel NULL m =
    Ok (ptr_at cs (find_exact qmax qbase cs.*2), m).
Proof.
  intros Hr Hf.
  destruct (for_each_rule next (exact_body qmax qbase) head
    (fun _ rest t s => s = m /\ t = NULL /\ exists cs1 cs2, cs = cs1 ++ cs2 /\ rest = nodes cs2 /\
       find_exact qmax qbase cs.*2 = (fun i => (length cs1 + i)%nat) <$> find_exact qmax qbase cs2.*2)
    (fun t s => s = m /\ t = ptr_at cs (find_exact qmax qbase cs.*2)))
    with (l := nodes cs) (fuel := fuel) (t := NULL) (s := m) as (t' & s' & E & -> & ->); [..|done].
  - intros _ rest t s (-> & _ & cs1 & cs2 & -> & -> & _). by apply (rep_leads m head cs1).
  - intros _ x rest t s (-> & -> & cs1 & cs2 & -> & Hx & Hfind).
    destruct cs2 as [|[p c] cs2]; [done|]. injection Hx as -> ->. cbn [fst].
    destruct (rep_at _ _ _ _ _ _ Hr) as [Hc Hd]. unfold exact_body.
    rewrite (cmd_bind_run _ _ _ _ _ Hd), (cmd_bind_run _ _ _ _ _ (ld_ent_run _ _ _ Hc)).
    rewrite fmap_cons in Hfind. cbn [snd find_exact] in Hfind. destruct (holds_request qmax qbase c).
    + exists p, m, true. split; [done|]. split; [done|]. rewrite Hfind. cbn.
      rewrite Nat.add_0_r, fmap_app, fmap_cons, list_lookup_middle; [done|]. by rewrite length_fmap.
    + exists NULL, m, false. split; [done|]. split; [done|]. split; [done|].
      exists (cs1 ++ [(p, c)]), cs2. rewrite <- app_assoc. split; [done|]. split; [done|].
      rewrite Hfind.
      destruct (find_exact qmax qbase cs2.*2) as [i|]; [|done]. cbn. rewrite length_app. cbn. f_equal. lia.
  - intros _ t s (-> & -> & cs1 & cs2 & -> & Hx & Hfind). destruct cs2; [|done]. by rewrite Hfind.
  - by apply rep_head_next.
  - split; [done|]. split; [done|]. exists [], cs. split_and!; [done..|].
    by destruct (find_exact qmax qbase cs.*2).
  - unfold nodes. by rewrite length_fmap.
Qed.

Lemma best_loop_run qmax qbase head cs m fuel : rep m head cs -> (length cs < fuel)%nat ->
  qdma_list_for_each_safe next (best_body qmax) head fuel (NULL, qbase) m =
    Ok (match find_best qmax cs.*2 0 None with
        | Some (i, b) => (ptr_at cs (Some i), re_qbase b) | None => (NULL, qbase) end, m).
Proof.
  intros Hr Hf.
  destruct (for_each_rule next (best_body qmax) head
    (fun _ rest t s => s = m /\ exists cs1 cs2 acc, cs = cs1 ++ cs2 /\ rest = nodes cs2 /\
       find_best qmax cs.*2 0 None = find_best qmax cs2.*2 (length cs1) acc /\
       match acc with
       | Some (i, b) => exists p, cs1 !! i = Some (p, b) /\ t = (p, re_qbase b)
       | None => t = (NULL, qbase) end)
    (fun t s => s = m /\ t = match find_best qmax cs.*2 0 None with
        | Some (i, b) => (ptr_at cs (Some i), re_qbase b) | None => (NULL, qbase) end))
    with (l := nodes cs) (fuel := fuel) (t := (NULL, qbase)) (s := m) as (t' & s' & E & -> & ->); [..|done].
  - intros _ rest t s (-> & cs1 & cs2 & acc & -> & -> & _). by apply (rep_leads m head cs1).
  - intros _ x rest [best qb] s (-> & cs1 & cs2 & acc & -> & Hx & Hfind & Hacc).
    destruct cs2 as [|[p c] cs2]; [done|]. injection Hx as -> ->. cbn [fst].
    destruct (rep_at _ _ _ _ _ _ Hr) as [Hc Hd]. unfold best_body.
    rewrite (cmd_bind_run _ _ _ _ _ Hd), (cmd_bind_run _ _ _ _ _ (ld_ent_run _ _ _ Hc)).
    rewrite (fmap_cons snd) in Hfind. cbn [snd find_best] in Hfind.
    assert (forall acc' t', find_best qmax (cs1 ++ (p, c) :: cs2).*2 0 None = find_best qmax cs2.*2 (S (length cs1)) acc' ->
      match acc' with
       | Some (i, b) => exists q, (cs1 ++ [(p, c)]) !! i = Some (q, b) /\ t' = (q, re_qbase b)
       | None => t' = (NULL, qbase) end ->
      exists t'' s' stop, (mret (t', false) : cmd fmem (Z * Z * bool)) m = Ok (t'', stop, s') /\
        if (stop : bool) then s' = m /\ t'' = match find_best qmax (cs1 ++ (p, c) :: cs2).*2 0 None with
          | Some (i, b) => (ptr_at (cs1 ++ (p, c) :: cs2) (Some i), re_qbase b) | None => (NULL, qbase) end
        else s' = m /\ exists k1 k2 acc0, cs1 ++ (p, c) :: cs2 = k1 ++ k2 /\ nodes cs2 = nodes k2 /\
          find_best qmax (cs1 ++ (p, c) :: cs2).*2 0 None = find_best qmax k2.*2 (length k1) acc0 /\
          match acc0 with
          | Some (i, b) => exists q, k1 !! i = Some (q, b) /\ t'' = (q, re_qbase b)
          | None => t'' = (NULL, qbase) end) as Hgo.
    { intros acc' t' Hfb Ha. exists t', m, false. split; [done|]. split; [done|].
      exists (cs1 ++ [(p, c)]), cs2, acc'. rewrite <- app_assoc, length_app, Nat.add_1_r. done. }
    assert (exists q, (cs1 ++ [(p, c)]) !! length cs1 = Some (q, c) /\ (p, re_qbase c) = (q, re_qbase c)) as Hnew.
    { exists p. split; [|done]. by apply list_lookup_middle. }
    destruct (decide (qmax <= re_total_q c)) as [Hbig|Hsmall].
    + destruct acc as [[i b]|].
      * destruct Hacc as (q & Hq & [= -> ->]).
        assert (holds m q b) as Hb.
        { destruct Hr as [_ Hcell]. apply (Hcell q b). apply elem_of_app. left. by eapply list_elem_of_lookup_2. }
        rewrite decide_False by apply Hb. erewrite cmd_bind_run by (by rewrite (cmd_bind_run _ _ _ _ _ (ld_ent_run _ _ _ Hb))).
        case_decide as Hcmp.
        -- rewrite bool_decide_eq_true_2 by done. by apply (Hgo _ _ Hfind).
        -- rewrite bool_decide_eq_false_2 by done. apply (Hgo _ _ Hfind). exists q. split; [|done].
           by apply lookup_app_l_Some.
      * injection Hacc as -> ->. rewrite decide_True by done. cstep. by apply (Hgo _ _ Hfind).
    + apply (Hgo _ _ Hfind). destruct acc as [[i b]|]; [|done].
      destruct Hacc as (q & Hq & [= -> ->]). exists q. split; [|done]. by apply lookup_app_l_Some.
  - intros _ t s (-> & cs1 & cs2 & acc & -> & Hx & Hfind & Hacc). destruct cs2; [|done].
    rewrite Hfind. cbn [fmap list_fmap find_best]. split; [done|]. rewrite app_nil_r.
    destruct acc as [[i b]|]; [|done]. destruct Hacc as (q & Hq & ->). cbn. rewrite list_lookup_fmap, Hq. done.
  - by apply rep_head_next.
  - split; [done|]. exists [], cs, None. split_and!; done.
  - unfold nodes. by rewrite length_fmap.
Qed.

(** ** Cutting a chunk *)


Lemma resource_create qb tq m :
  Resource.qdma_free_entry_create qb tq (fm_mem m) =
    Ok (if mem_answer (fm_mem m) then Some (mkChunk (s32 qb) (u32 tq)) else None, tail (fm_mem m)).
Proof. apply create_run. Qed.

Definition cut_ok (qmax qb : Z) (head : Z) (cs1 : list cell) (p : Z) (n : resource_entry) (cs2 : list cell)
    (m : fmem) (q : Z) (m' : fmem) : Prop :=
  exists k ns, split_node qmax qb n (fm_mem m) = Ok (k, ns.*2, fm_mem m') /\
    rep m' head (cs1 ++ ns ++ cs2) /\ (length ns <= 3)%nat /\
    match k with Some j => ns.*1 !! j = Some q | None => q = NULL end.

(** Allocate the rest behind or before the node, and shorten the node. *)
Lemma cut_after_run qb tq head cs1 p n cs2 m e (rest : cmd fmem Z) : rep m head (cs1 ++ (p, n) :: cs2) ->
  exists q m1, fm_mem m1 = tail (fm_mem m) /\
  (new ← qdma_free_entry_create qb tq;
   if decide (new = NULL) then mret NULL else
   _ ← with_nodes (QDMA_LIST_SET_DATA (node_of new) new);
   _ ← with_nodes (qdma_list_insert_after (node_of new) (node_of p));
   _ ← st_ent p e; rest) m = (if mem_answer (fm_mem m) then rest m1 else Ok (NULL, m1)) /\
  rep m1 head (cs1 ++ (if mem_answer (fm_mem m) then [(p, e); (q, mkChunk (s32 qb) (u32 tq))] else [(p, n)]) ++ cs2).
Proof.
  intros Hr. assert (rep m head ((cs1 ++ [(p, n)]) ++ cs2)) as Hr' by (by rewrite <- app_assoc).
  destruct (create_link_run qb tq m head (cs1 ++ [(p, n)]) cs2
    (fun new => qdma_list_insert_after (node_of new) (node_of p)) NULL (fun new => _ ← st_ent p e; rest) Hr')
    as (q & m1 & M & E & L); [intros new; rewrite nodes_app; apply inserts_after|].
  exists q. rewrite E. destruct (mem_answer (fm_mem m)); rewrite <- app_assoc in L; [|by exists m1].
  destruct (rep_at _ _ _ _ _ _ L) as [Hp _]. rewrite (cmd_bind_run _ _ _ _ _ (st_ent_run _ _ _ _ Hp)).
  exists (set_ent p e m1). split; [done|]. split; [done|]. by eapply (rep_set_ent m1 head cs1 p).
Qed.

Lemma cut_before_run qb tq head cs1 p n cs2 m e (rest : cmd fmem Z) : rep m head (cs1 ++ (p, n) :: cs2) ->
  exists q m1, fm_mem m1 = tail (fm_mem m) /\
  (new ← qdma_free_entry_create qb tq;
   if decide (new = NULL) then mret NULL else
   _ ← with_nodes (QDMA_LIST_SET_DATA (node_of new) new);
   _ ← with_nodes (qdma_list_insert_before (node_of new) (node_of p));
   _ ← st_ent p e; rest) m = (if mem_answer (fm_mem m) then rest m1 else Ok (NULL, m1)) /\
  rep m1 head (cs1 ++ (if mem_answer (fm_mem m) then [(q, mkChunk (s32 qb) (u32 tq)); (p, e)] else [(p, n)]) ++ cs2).
Proof.
  intros Hr.
  destruct (create_link_run qb tq m head cs1 ((p, n) :: cs2)
    (fun new => qdma_list_insert_before (node_of new) (node_of p)) NULL (fun new => _ ← st_ent p e; rest) Hr)
    as (q & m1 & M & E & L); [intros new; apply inserts_before|].
  exists q. rewrite E. destruct (mem_answer (fm_mem m)); [|by exists m1].
  assert (rep m1 head ((cs1 ++ [(q, mkChunk (s32 qb) (u32 tq))]) ++ (p, n) :: cs2)) as L' by (by rewrite <- app_assoc).
  destruct (rep_at _ _ _ _ _ _ L') as [Hp _]. rewrite (cmd_bind_run _ _ _ _ _ (st_ent_run _ _ _ _ Hp)).
  exists (set_ent p e m1). split; [done|]. split; [done|].
  apply (rep_set_ent _ _ _ _ _ _ e) in L'. by rewrite <- app_assoc in L'.
Qed.

Lemma fragment_run qmax qb head cs1 p n cs2 m : rep m head (cs1 ++ (p, n) :: cs2) ->
  exists q m', fragment_free_list qmax qb p m = Ok (q, m') /\ cut_ok qmax qb head cs1 p n cs2 m q m'.
Proof.
  intros Hr. destruct (rep_at _ _ _ _ _ _ Hr) as [Hn _].
  unfold cut_ok, fragment_free_list, split_node. rewrite decide_False by apply Hn.
  rewrite (cmd_bind_run _ _ _ _ _ (ld_ent_run _ _ _ Hn)).
  destruct (decide (qb = re_qbase n /\ qmax = re_total_q n)) as [Heq|Hneq].
  { exists p, m. split; [done|]. exists (Some 0%nat), [(p, n)]. split_and!; [done..|cbn; lia|done]. }
  destruct (decide (qb = re_qbase n)) as [Hb|Hb].
  { destruct (cut_after_run (re_qbase n + qmax) (u32 (re_total_q n - qmax)) _ _ _ _ _ _
      (mkChunk (re_qbase n) (u32 (re_total_q n - u32 (re_total_q n - qmax)))) (mret p) Hr) as (q & m1 & M & E & L).
    rewrite E, (cmd_bind_run _ _ _ _ _ (resource_create _ _ _)), <- M.
    destruct (mem_answer (fm_mem m)); eexists _, m1; (split; [done|]).
    - eexists (Some 0%nat), _. split; [|split; [exact L|]]; [done|]. by split; [cbn; lia|].
    - eexists None, _. split; [|split; [exact L|]]; [done|]. by split; [cbn; lia|]. }
  destruct (decide (re_qbase n < qb /\ u32 (qb + qmax) = u32 (re_qbase n + re_total_q n))) as [He|He].
  { destruct (cut_before_run (re_qbase n) (qb - re_qbase n) _ _ _ _ _ _ (mkChunk qb qmax) (mret p) Hr)
      as (q & m1 & M & E & L).
    rewrite E, (cmd_bind_run _ _ _ _ _ (resource_create _ _ _)), <- M.
    destruct (mem_answer (fm_mem m)); eexists _, m1; (split; [done|]).
    - eexists (Some 1%nat), _. split; [|split; [exact L|]]; [done|]. by split; [cbn; lia|].
    - eexists None, _. split; [|split; [exact L|]]; [done|]. by split; [cbn; lia|]. }
  set (lqmax := u32 (qb - re_qbase n)). set (n' := mkChunk qb (u32 (re_total_q n - lqmax))).
  match goal with |- context [st_ent p n' ≫= ?r] =>
    destruct (cut_before_run (re_qbase n) lqmax _ _ _ _ _ _ n' (r tt) Hr) as (q1 & m1 & M1 & E1 & L1) end.
  rewrite (cmd_bind_run _ _ _ _ _ (resource_create _ _ _)), <- M1.
  destruct (mem_answer (fm_mem m)); last first.
  { eexists _, m1. split; [exact E1|]. eexists None, _. split; [|split; [exact L1|]]; [done|]. by split; [cbn; lia|]. }
  assert (rep m1 head ((cs1 ++ [(q1, mkChunk (s32 (re_qbase n)) (u32 lqmax))]) ++ (p, n') :: cs2)) as L1'
    by (by rewrite <- app_assoc).
  destruct (rep_at _ _ _ _ _ _ L1') as [Hp _].
  rewrite (cmd_bind_run _ _ _ _ _ (ld_ent_run _ _ _ Hp)) in E1.
  destruct (cut_after_run (re_qbase n' + qmax) (re_total_q n' - qmax) _ _ _ _ _ _ (mkChunk (re_qbase n') qmax) (mret p) L1')
    as (q2 & m2 & M2 & E2 & L2).
  change (re_qbase n') with qb in *.
  rewrite (cmd_bind_run _ _ _ _ _ (resource_create _ _ _)), <- M2.
  destruct (mem_answer (fm_mem m1)); rewrite <- app_assoc, (app_assoc [_]) in L2;
    (eexists _, m2; split; [exact (eq_trans E1 E2)|]).
  - eexists (Some 1%nat), _. split; [|split; [exact L2|]]; [done|]. by split; [cbn; lia|].
  - eexists None, _. split; [|split; [exact L2|]]; [done|]. by split; [cbn; lia|].
Qed.

Lemma find_exact_lt qmax qbase l i : find_exact qmax qbase l = Some i -> (i < length l)%nat.
Proof.
  revert i. induction l as [|n l IH]; intros i; cbn; [done|].
  destruct (holds_request qmax qbase n); [intros [= <-]; lia|].
  destruct (find_exact qmax qbase l) as [j|]; [|done]. cbn. intros [= <-]. specialize (IH j eq_refl). lia.
Qed.

Lemma find_best_lookup qmax l i b : find_best qmax l 0 None = Some (i, b) -> l !! i = Some b.
Proof.
  intros E. pose proof (find_best_spec qmax l l 0 None eq_refl) as Hs. rewrite E in Hs. apply Hs. set_solver.
Qed.

(** Taking the chosen node apart, at its index. *)
Lemma fragment_at qmax qb head cs i n m : rep m head cs -> cs.*2 !! i = Some n ->
  exists q m' k cs', fragment_free_list qmax qb (ptr_at cs (Some i)) m = Ok (q, m') /\
    (exists ns, split_node qmax qb n (fm_mem m) = Ok (k, ns, fm_mem m') /\
       cs'.*2 = take i cs.*2 ++ ns ++ drop (S i) cs.*2) /\
    rep m' head cs' /\ (length cs' <= length cs + 2)%nat /\
    match k with Some k => cs'.*1 !! (i + k)%nat = Some q | None => q = NULL end.
Proof.
  intros Hr Hi. rewrite list_lookup_fmap in Hi. destruct (cs !! i) as [[p c]|] eqn:Ei; [|done].
  injection Hi as ->. pose proof (take_drop_middle _ _ _ Ei) as Hcs.
  assert (ptr_at cs (Some i) = p) as -> by (cbn; by rewrite list_lookup_fmap, Ei).
  set (cs1 := take i cs) in *. set (cs2 := drop (S i) cs) in *.
  assert (length cs1 = i) as Hlen by (apply length_take_le; apply lookup_lt_Some in Ei; lia).
  rewrite <- Hcs in Hr. destruct (fragment_run qmax qb head cs1 p n cs2 m Hr) as (q & m' & E & k & ns & Hs & L & H3 & Hk).
  exists q, m', k, (cs1 ++ ns ++ cs2). split; [done|]. split_and!.
  - exists ns.*2. split; [done|]. rewrite !fmap_app. unfold cs1, cs2. by rewrite fmap_take, fmap_drop.
  - done.
  - rewrite <- Hcs, !length_app. cbn. lia.
  - destruct k as [k|]; [|done]. rewrite fmap_app, lookup_app_r by (rewrite length_fmap; lia).
    rewrite length_fmap, Hlen, fmap_app. replace (i + k - i)%nat with k by lia. by apply lookup_app_l_Some.
Qed.

Lemma get_node_run qmax qbase head cs m fuel : rep m head cs -> (length cs < fuel)%nat ->
  exists q m' k cs', qdma_get_resource_node fuel qmax qbase head m = Ok (q, m') /\
    Resource.qdma_get_resource_node qmax qbase cs.*2 (fm_mem m) = Ok (k, cs'.*2, fm_mem m') /\
    rep m' head cs' /\ (length cs' <= length cs + 2)%nat /\
    match k with Some k => cs'.*1 !! k = Some q | None => q = NULL end.
Proof.
  intros Hr Hf. unfold qdma_get_resource_node, Resource.qdma_get_resource_node, choose_node.
  assert (forall i n qb, cs.*2 !! i = Some n -> exists q m' k cs',
    fragment_free_list qmax qb (ptr_at cs (Some i)) m = Ok (q, m') /\
    ('(k, ns) ← split_node qmax qb n;
     mret ((fun k => (i + k)%nat) <$> k, take i cs.*2 ++ ns ++ drop (S i) cs.*2)) (fm_mem m) =
       Ok (k, cs'.*2, fm_mem m') /\
    rep m' head cs' /\ (length cs' <= length cs + 2)%nat /\
    match k with Some k => cs'.*1 !! k = Some q | None => q = NULL end) as Hat.
  { intros i n qb Hi. destruct (fragment_at qmax qb head cs i n m Hr Hi) as (q & m' & k & cs' & E & (ns & Es & Hcs) & L & Hl & Hk).
    exists q, m', ((fun k => (i + k)%nat) <$> k), cs'. split; [done|]. rewrite (cmd_bind_run _ _ _ _ _ Es), Hcs.
    split_and!; [done..|]. by destruct k. }
  assert (forall i n, cs.*2 !! i = Some n -> ptr_at cs (Some i) <> NULL) as Hnn.
  { intros i n Hi. rewrite list_lookup_fmap in Hi. destruct (cs !! i) as [[p c]|] eqn:Ei; [|done].
    cbn. rewrite list_lookup_fmap, Ei. cbn. destruct Hr as [_ Hc].
    destruct (Hc p c) as [[Hp _] _]; [by eapply list_elem_of_lookup_2|done]. }
  assert ((if decide (0 <= qbase) then qdma_list_for_each_safe next (exact_body qmax qbase) head fuel NULL
           else mret NULL) m = Ok (ptr_at cs (if decide (0 <= qbase) then find_exact qmax qbase cs.*2 else None), m)) as Ex.
  { case_decide; [by apply exact_loop_run|done]. }
  rewrite (cmd_bind_run _ _ _ _ _ Ex).
  destruct (if decide (0 <= qbase) then _ else None) as [i|] eqn:Ei.
  - assert (exists n, cs.*2 !! i = Some n) as [n Hn].
    { apply lookup_lt_is_Some_2. case_decide; [|done]. by eapply find_exact_lt. }
    rewrite decide_True by by eapply Hnn. rewrite Hn. apply (Hat _ _ _ Hn).
  - rewrite decide_False by (intros Hne; by apply Hne).
    rewrite (cmd_bind_run _ _ _ _ _ (best_loop_run qmax qbase head cs m fuel Hr Hf)).
    destruct (find_best qmax cs.*2 0 None) as [[i n]|] eqn:Eb; cbn [mbind option_bind].
    + pose proof (find_best_lookup _ _ _ _ Eb) as Hn. rewrite Hn. apply (Hat _ _ _ Hn).
    + exists NULL, m, None, cs. unfold fragment_free_list. rewrite decide_True by done.
      split_and!; [done..|lia|done].
Qed.

Lemma take_entry_run head cs k q m : rep m head cs -> cs.*1 !! k = Some q -> exists e m',
  take_entry q m = Ok (e, m') /\ take_node k cs.*2 = Ok (e, delete k cs.*2) /\
  rep m' head (delete k cs) /\ fm_mem m' = fm_mem m /\ q <> NULL.
Proof.
  intros Hr Hk. rewrite list_lookup_fmap in Hk. destruct (cs !! k) as [[p c]|] eqn:Ek; [|done].
  injection Hk as ->. pose proof (take_drop_middle _ _ _ Ek) as Hcs.
  rewrite <- Hcs in Hr. destruct (rep_at _ _ _ _ _ _ Hr) as [Hc _].
  destruct (delete_free_run _ _ _ _ _ _ Hr) as (m1 & m2 & R1 & R2 & L & M).
  exists c, m2. split; [|split; [|split; [|split; [done|apply Hc]]]].
  - unfold take_entry. by rewrite (cmd_bind_run _ _ _ _ _ (ld_ent_run _ _ _ Hc)),
      (cmd_bind_run _ _ _ _ _ R1), (cmd_bind_run _ _ _ _ _ R2).
  - unfold take_node. by rewrite list_lookup_fmap, Ek.
  - by rewrite delete_take_drop.
Qed.

(** C10. The free list in memory is the free list of [Resource].  With any memory
    whose list holds the chunks [free], a request runs without following a null or a
    freed pointer and its walks end; it answers, takes from the allocator, and leaves
    in memory exactly what [Resource.qdma_request_q_resource] says of the list, so
    that every theorem about that function is one about the pointers.  Rounds needed:
    the number of chunks and four. *)
Theorem request_q_resource_refines head cs e new_qmax new_qbase m fuel :
  rep m head cs -> chunk_ok e -> (length cs + 3 < fuel)%nat ->
  exists rv e' m' cs',
    qdma_request_q_resource fuel e new_qmax new_qbase head m = Ok ((rv, e'), m') /\
    Resource.qdma_request_q_resource e new_qmax new_qbase cs.*2 (fm_mem m) =
      Ok ((rv, e', cs'.*2), fm_mem m') /\
    rep m' head cs'.
Proof.
  intros Hr He Hf. unfold qdma_request_q_resource, Resource.qdma_request_q_resource.
  destruct (submit_run e head cs m fuel He Hr) as (e1 & m1 & cs1 & E1 & L1 & S1 & N1); [lia|].
  rewrite (cmd_bind_run _ _ _ _ _ E1), (cmd_bind_run _ _ _ _ _ S1).
  destruct (decide (new_qmax = 0)) as [H0|H0]; [by exists 0, e1, m1, cs1|].
  destruct (get_node_run new_qmax new_qbase head cs1 m1 fuel L1) as (q & m2 & k & cs2 & E2 & S2 & L2 & N2 & Hk); [lia|].
  rewrite (cmd_bind_run _ _ _ _ _ E2), (cmd_bind_run _ _ _ _ _ S2).
  destruct k as [k|].
  - destruct (take_entry_run head cs2 k q m2 L2 Hk) as (c & m3 & E3 & S3 & L3 & M3 & Hq).
    rewrite decide_True by done. rewrite (cmd_bind_run _ _ _ _ _ E3), (cmd_bind_run _ _ _ _ _ (lift_run _ _ _ S3)).
    exists 0, c, m3, (delete k cs2). rewrite M3. split; [done|]. split; [|done]. by rewrite list_fmap_delete.
  - subst q. rewrite decide_False by (intros Hne; by apply Hne).
    destruct (get_node_run (re_total_q e) (re_qbase e) head cs2 m2 fuel L2) as (q & m3 & k & cs3 & E3 & S3 & L3 & N3 & Hk); [lia|].
    rewrite (cmd_bind_run _ _ _ _ _ E3), (cmd_bind_run _ _ _ _ _ S3). destruct k as [k|].
    + destruct (take_entry_run head cs3 k q m3 L3 Hk) as (c & m4 & E4 & S4 & L4 & M4 & Hq).
      rewrite decide_False by done. rewrite (cmd_bind_run _ _ _ _ _ E4), (cmd_bind_run _ _ _ _ _ (lift_run _ _ _ S4)).
      eexists _, c, m4, (delete k cs3). rewrite M4. split; [done|]. split; [|done]. by rewrite list_fmap_delete.
    + subst q. rewrite decide_True by done. by eexists _, _, m3, cs3.
Qed.
End proofs.

(** ** Witness: an allocator that returns the address behind every used one *)
Definition top_addr (m : fmem) : Z :=
  Z.max (map_fold (fun k _ a => Z.max k a) 0 (fm_ents m)) (map_fold (fun k _ a => Z.max k a) 0 (fm_nodes m)).
#[local] Instance bump : Allocator := fun m => top_addr m + 64.

Lemma fold_max_ge {A} (m : gmap Z A) k : is_Some (m !! k) -> k <= map_fold (fun k _ a => Z.max k a) 0 m.
Proof.
  apply (map_fold_weak_ind (fun r m => is_Some (m !! k) -> k <= r)); [by intros []|].
  intros i x m' r _ IH. destruct (decide (i = k)) as [->|Hne]; [lia|].
  rewrite lookup_insert_ne by done. intros H. specialize (IH H). lia.
Qed.

Lemma fold_max_nonneg {A} (m : gmap Z A) : 0 <= map_fold (fun k _ a => Z.max k a) 0 m.
Proof. apply (map_fold_weak_ind (fun r m => 0 <= r)); intros; lia. Qed.

#[local] Instance bump_ok : AllocatorOk.
Proof.
  split; intros m; unfold pick, bump, top_addr.
  - pose proof (fold_max_nonneg (fm_ents m)). lia.
  - destruct (fm_ents m !! _) eqn:E; [|done]. pose proof (fold_max_ge (fm_ents m) _ (ex_intro _ _ E)). lia.
  - destruct (fm_nodes m !! _) eqn:E; [|done].
    pose proof (fold_max_ge (fm_nodes m) _ (ex_intro _ _ E)). unfold node_of in *. lia.
Qed.

(** The list head at 16, queues 0-3 and 8-15 free in the entries at 64 and 128. *)
Definition two_chunks : fmem :=
  mkMem (list_to_map [(16, mkNode 136 72 0); (72, mkNode 16 136 64); (136, mkNode 72 16 128)])
    (list_to_map [(64, mkChunk 0 4); (128, mkChunk 8 8)]) [].
Definition two_cells : list cell := [(64, mkChunk 0 4); (128, mkChunk 8 8)].

Lemma two_chunks_rep : rep two_chunks 16 two_cells.
Proof.
  split.
  - split; [|repeat constructor; set_solver|].
    + vm_compute. tauto.
    + repeat constructor; try done; vm_compute; eauto.
  - intros p c Hin. unfold two_cells in Hin.
    repeat (apply elem_of_cons in Hin as [[= -> ->]|Hin]; [done|]). by apply elem_of_nil in Hin.
Qed.

Lemma request_q_resource_refines_witness :
  exists rv e' m' cs',
    qdma_request_q_resource 8 (mkChunk 4 4) 3 9 16 two_chunks = Ok ((rv, e'), m') /\
    Resource.qdma_request_q_resource (mkChunk 4 4) 3 9 [mkChunk 0 4; mkChunk 8 8] [] =
      Ok ((rv, e', cs'.*2), fm_mem m') /\
    rep m' 16 cs'.
Proof.
  apply (request_q_resource_refines 16 two_cells (mkChunk 4 4) 3 9 two_chunks 8).
  - exact two_chunks_rep.
  - split; unfold fits_s32, fits_u32; cbn; lia.
  - cbn. lia.
Defined.

(** Evaluated: the returned chunk merges all three into one, which is cut twice. *)
Example request_merges_and_cuts :
  match qdma_request_q_resource 8 (mkChunk 4 4) 3 9 16 two_chunks with
  | Ok ((rv, e), m) => rv = 0 /\ e = mkChunk 9 3 /\
      (map_to_list (fm_ents m)).*2 ≡ₚ [mkChunk 0 9; mkChunk 12 4]
  | Fault _ => False
  end.
Proof. vm_compute. split_and!; [done..|]. first [reflexivity | apply Permutation_swap]. Qed.
