(* ===== verification/Fields.v ===== *)
(** * qdma_access_common.h: register fields

    The macros [GENMASK], [FIELD_SET] and [FIELD_GET] the QDMA driver builds and
    takes apart register and context words with, and the lemma the contexts rest
    on: a field of a word built from disjoint fields reads back the value put
    there, cut to the field's width. *)

From S2P Require Import Prelude.

Open Scope Z_scope.

(** ** Masks *)
Definition GENMASK (h l : Z) : Z :=
  Z.land (u32 (Z.shiftl 0xFFFFFFFF l)) (Z.shiftr 0xFFFFFFFF (31 - h)).
Definition GENMASK_ULL (h l : Z) : Z :=
  Z.land (u64 (Z.shiftl 0xFFFFFFFFFFFFFFFF l)) (Z.shiftr 0xFFFFFFFFFFFFFFFF (63 - h)).
Definition BIT (n : Z) : Z := u32 (Z.shiftl 1 n).

(** The variant without the compiler's built-in: halve the window six times. *)
Definition skip_zeros (m n : Z) (pv : Z * Z) : Z * Z :=
  let '(pos, value) := pv in
  if decide (Z.land value m = 0) then (pos + n, Z.shiftr value n) else (pos, value).

Definition get_trailing_zeros (value : Z) : Z :=
  let pv := skip_zeros 0xffffffff 32 (0, value) in
  let pv := skip_zeros 0xffff 16 pv in
  let pv := skip_zeros 0xff 8 pv in
  let pv := skip_zeros 0xf 4 pv in
  let pv := skip_zeros 0x3 2 pv in
  let '(pos, value) := pv in
  if decide (Z.land value 0x1 = 0) then pos + 1 else pos.

Definition FIELD_SHIFT (mask : Z) : Z := get_trailing_zeros mask.
(** A shift in the width of [val] loses bits that the mask removes anyway. *)
Definition FIELD_SET (mask val : Z) : Z := Z.land (Z.shiftl val (FIELD_SHIFT mask)) mask.
Definition FIELD_GET (mask reg : Z) : Z := Z.shiftr (Z.land reg mask) (FIELD_SHIFT mask).

(** The C expression [FIELD_SET(m1, v1) | ... | FIELD_SET(mn, vn)]. *)
Fixpoint word (fs : list (Z * Z)) : Z :=
  match fs with
  | [] => 0
  | (m, v) :: fs' => Z.lor (FIELD_SET m v) (word fs')
  end.

(** ** Trailing zeros *)

(** [value]'s lowest set bit is at [pos]. *)
Definition lowest_bit (value pos : Z) : Prop :=
  0 <= pos /\ Z.testbit value pos = true /\ forall i, 0 <= i < pos -> Z.testbit value i = false.

Lemma low_bits_zero value n : 0 <= n ->
  Z.land value (Z.ones n) = 0 <-> forall i, 0 <= i < n -> Z.testbit value i = false.
Proof.
  intros Hn. split.
  - intros H i Hi. rewrite <- (Z.bits_0 i), <- H, Z.land_spec, Z.ones_spec_low by lia.
    by rewrite andb_true_r.
  - intros H. apply Z.bits_inj'. intros i Hi. rewrite Z.land_spec, Z.bits_0.
    destruct (decide (i < n)); [by rewrite H by lia|].
    by rewrite Z.ones_spec_high, andb_false_r by lia.
Qed.

(** One halving: if the lowest set bit is within the next [2 n] bits, it is within
    the next [n] afterwards. *)
Lemma skip_zeros_step value p n pos v : 0 <= pos -> 0 < n ->
  lowest_bit value p -> pos <= p < pos + 2 * n -> v = Z.shiftr value pos ->
  let r := skip_zeros (Z.ones n) n (pos, v) in
  0 <= fst r /\ fst r <= p < fst r + n /\ snd r = Z.shiftr value (fst r).
Proof.
  intros Hpos Hn (Hp0 & Hp & Hlow) Hr ->. unfold skip_zeros.
  destruct (decide (Z.land (Z.shiftr value pos) (Z.ones n) = 0)) as [H0|H0].
  - cbn. rewrite low_bits_zero in H0 by lia.
    assert (pos + n <= p).
    { destruct (decide (p < pos + n)); [|lia]. specialize (H0 (p - pos) ltac:(lia)).
      rewrite Z.shiftr_spec in H0 by lia. replace (p - pos + pos) with p in H0 by lia. congruence. }
    split; [lia|]. split; [lia|]. by rewrite Z.shiftr_shiftr by lia.
  - cbn. split; [lia|]. split; [|done].
    destruct (decide (p < pos + n)); [lia|]. exfalso. apply H0. rewrite low_bits_zero by lia.
    intros i Hi. rewrite Z.shiftr_spec by lia. apply Hlow. lia.
Qed.

Lemma get_trailing_zeros_spec value p : lowest_bit value p -> p < 64 ->
  get_trailing_zeros value = p.
Proof.
  intros H Hp. pose proof H as (Hp0 & _).
  assert (forall n pv, 0 < n -> 0 <= fst pv -> fst pv <= p < fst pv + 2 * n ->
    snd pv = Z.shiftr value (fst pv) -> let r := skip_zeros (Z.ones n) n pv in
    0 <= fst r /\ fst r <= p < fst r + n /\ snd r = Z.shiftr value (fst r)) as Hstep
    by (intros n [pos v]; cbn [fst snd]; intros; by apply skip_zeros_step).
  unfold get_trailing_zeros. cbv zeta.
  destruct (Hstep 32 (0, value)) as (A1 & B1 & C1); cbn [fst snd]; [lia..|by rewrite Z.shiftr_0_r|].
  destruct (Hstep 16 _ ltac:(lia) A1 ltac:(lia) C1) as (A2 & B2 & C2).
  destruct (Hstep 8 _ ltac:(lia) A2 ltac:(lia) C2) as (A3 & B3 & C3).
  destruct (Hstep 4 _ ltac:(lia) A3 ltac:(lia) C3) as (A4 & B4 & C4).
  destruct (Hstep 2 _ ltac:(lia) A4 ltac:(lia) C4) as (A5 & B5 & C5).
  change (Z.ones 32) with 0xffffffff in *. change (Z.ones 16) with 0xffff in *.
  change (Z.ones 8) with 0xff in *. change (Z.ones 4) with 0xf in *. change (Z.ones 2) with 0x3 in *.
  destruct (Hstep 1 _ ltac:(lia) A5 ltac:(lia) C5) as (_ & B6 & _).
  change (Z.ones 1) with 0x1 in *.
  destruct (skip_zeros 0x3 2 _) as [pos v]. cbn [skip_zeros fst snd] in B6.
  destruct (decide (Z.land v 0x1 = 0)); cbn [fst] in B6; lia.
Qed.

(** ** Fields *)

(** The number of bits of a contiguous mask, and contiguity as a test. *)
Definition fwidth (m : Z) : Z := Z.log2 (Z.shiftr m (FIELD_SHIFT m)) + 1.
Definition contiguous (m : Z) : bool :=
  (0 <=? FIELD_SHIFT m) && (m =? Z.shiftl (Z.ones (fwidth m)) (FIELD_SHIFT m)) && (0 <? fwidth m).

Lemma contiguous_inv m : contiguous m = true ->
  0 <= FIELD_SHIFT m /\ 0 < fwidth m /\ m = Z.shiftl (Z.ones (fwidth m)) (FIELD_SHIFT m).
Proof. unfold contiguous. rewrite !andb_true_iff, Z.leb_le, Z.ltb_lt, Z.eqb_eq. tauto. Qed.

Lemma mask_bit m i : contiguous m = true -> 0 <= i ->
  Z.testbit m (i + FIELD_SHIFT m) = (i <? fwidth m).
Proof.
  intros (Hs & Hw & Hm)%contiguous_inv Hi. rewrite Hm at 1.
  rewrite Z.shiftl_spec by lia. replace (i + _ - _) with i by lia.
  destruct (Z.ltb_spec i (fwidth m)); [apply Z.ones_spec_low|apply Z.ones_spec_high]; lia.
Qed.

Lemma FIELD_GET_lor m a b : FIELD_GET m (Z.lor a b) = Z.lor (FIELD_GET m a) (FIELD_GET m b).
Proof. unfold FIELD_GET. by rewrite Z.land_lor_distr_l, Z.shiftr_lor. Qed.

Lemma FIELD_GET_same m v : contiguous m = true ->
  FIELD_GET m (FIELD_SET m v) = v mod 2 ^ fwidth m.
Proof.
  intros Hc. pose proof (contiguous_inv m Hc) as (Hs & Hw & _).
  apply Z.bits_inj'. intros i Hi. unfold FIELD_GET, FIELD_SET.
  rewrite Z.shiftr_spec, !Z.land_spec, Z.shiftl_spec, mask_bit by (done || lia).
  replace (i + _ - _) with i by lia.
  destruct (Z.ltb_spec i (fwidth m)).
  - by rewrite Z.mod_pow2_bits_low, !andb_true_r by lia.
  - by rewrite Z.mod_pow2_bits_high, !andb_false_r by lia.
Qed.

Lemma FIELD_GET_other m m' v : Z.land m' m = 0 -> FIELD_GET m (FIELD_SET m' v) = 0.
Proof.
  intros H. unfold FIELD_GET, FIELD_SET. by rewrite <- Z.land_assoc, H, Z.land_0_r, Z.shiftr_0_l.
Qed.

Lemma FIELD_SET_GET m x : contiguous m = true -> FIELD_SET m (FIELD_GET m x) = Z.land x m.
Proof.
  intros Hc. pose proof (contiguous_inv m Hc) as (Hs & Hw & Hm).
  apply Z.bits_inj'. intros i Hi. unfold FIELD_GET, FIELD_SET.
  rewrite !Z.land_spec. destruct (decide (FIELD_SHIFT m <= i)).
  - rewrite Z.shiftl_spec, Z.shiftr_spec, Z.land_spec by lia.
    replace (i - _ + _) with i by lia. by destruct (Z.testbit x i), (Z.testbit m i).
  - rewrite Z.shiftl_spec_low by lia. rewrite Hm at 2.
    by rewrite Z.shiftl_spec_low, andb_false_r by lia.
Qed.

Lemma FIELD_GET_range m x : contiguous m = true -> 0 <= FIELD_GET m x < 2 ^ fwidth m.
Proof.
  intros Hc. pose proof (contiguous_inv m Hc) as (Hs & Hw & Hm).
  replace (FIELD_GET m x) with (FIELD_GET m x mod 2 ^ fwidth m);
    [apply Z.mod_pos_bound, Z.pow_pos_nonneg; lia|].
  rewrite <- FIELD_GET_same, FIELD_SET_GET by done.
  unfold FIELD_GET. by rewrite <- Z.land_assoc, Z.land_diag.
Qed.

(** ** Words *)

(** Every mask is contiguous and no two of them overlap. *)
Fixpoint layout_ok (ms : list Z) : bool :=
  match ms with
  | [] => true
  | m :: ms' => contiguous m && forallb (fun m' => Z.land m m' =? 0) ms' && layout_ok ms'
  end.

Fixpoint field_of (m : Z) (fs : list (Z * Z)) : option Z :=
  match fs with
  | [] => None
  | (m', v) :: fs' => if m =? m' then Some v else field_of m fs'
  end.

(** Every value fits its field. *)
Definition word_fits (fs : list (Z * Z)) : Prop :=
  Forall (fun f => 0 <= snd f < 2 ^ fwidth (fst f)) fs.

Lemma FIELD_GET_word_other m fs :
  forallb (fun m' => Z.land m m' =? 0) (fst <$> fs) = true -> FIELD_GET m (word fs) = 0.
Proof.
  induction fs as [|[m' v] fs IH]; cbn -[FIELD_GET FIELD_SET].
  - intros _. unfold FIELD_GET. by rewrite Z.land_0_l, Z.shiftr_0_l.
  - rewrite andb_true_iff, Z.eqb_eq. intros [H1 H2].
    by rewrite FIELD_GET_lor, FIELD_GET_other, IH by (done || by rewrite Z.land_comm).
Qed.

Lemma FIELD_GET_word m v fs : layout_ok (fst <$> fs) = true -> field_of m fs = Some v ->
  FIELD_GET m (word fs) = v mod 2 ^ fwidth m.
Proof.
  induction fs as [|[m' w] fs IH]; [done|]. cbn -[FIELD_GET FIELD_SET forallb contiguous].
  rewrite !andb_true_iff. intros [[Hc Hd] Hok].
  rewrite FIELD_GET_lor. destruct (Z.eqb_spec m m') as [<-|Hne]; intros Hf.
  - injection Hf as ->. by rewrite FIELD_GET_same, FIELD_GET_word_other, Z.lor_0_r.
  - assert (Z.land m' m = 0) as H0.
    { clear -Hd Hf. induction fs as [|[m2 v2] fs IH]; [done|]. cbn in Hd, Hf.
      rewrite andb_true_iff, Z.eqb_eq in Hd. destruct Hd as [H1 H2].
      destruct (Z.eqb_spec m m2) as [->|]; [done|by apply IH]. }
    rewrite FIELD_GET_other by done. by rewrite Z.lor_0_l, IH.
Qed.

Lemma field_fits m v fs : field_of m fs = Some v -> word_fits fs -> 0 <= v < 2 ^ fwidth m.
Proof.
  intros Hf Hfit. induction Hfit as [|[m' w] fs Hw _ IH]; [done|]. cbn in Hf, Hw.
  destruct (Z.eqb_spec m m') as [<-|]; [by injection Hf as ->|by apply IH].
Qed.

Lemma FIELD_GET_fits m v fs : layout_ok (fst <$> fs) = true -> field_of m fs = Some v ->
  word_fits fs -> FIELD_GET m (word fs) = v.
Proof.
  intros Hok Hf Hfit. rewrite (FIELD_GET_word m v) by done.
  apply Z.mod_small. by apply (field_fits _ _ fs).
Qed.

(** The reads of the source: a field of a word, stored in a C object that is at
    least as wide as the field. *)
Lemma u8_field m v fs : layout_ok (fst <$> fs) = true -> field_of m fs = Some v ->
  (fwidth m <=? 8) = true -> word_fits fs -> u8 (FIELD_GET m (word fs)) = v.
Proof.
  intros Hok Hf Hw%Z.leb_le Hfit. rewrite (FIELD_GET_fits m v) by done.
  pose proof (field_fits _ _ _ Hf Hfit). pose proof (Z.pow_le_mono_r 2 _ _ ltac:(lia) Hw).
  apply Z.mod_small. lia.
Qed.

Lemma u16_field m v fs : layout_ok (fst <$> fs) = true -> field_of m fs = Some v ->
  (fwidth m <=? 16) = true -> word_fits fs -> u16 (FIELD_GET m (word fs)) = v.
Proof.
  intros Hok Hf Hw%Z.leb_le Hfit. rewrite (FIELD_GET_fits m v) by done.
  pose proof (field_fits _ _ _ Hf Hfit). pose proof (Z.pow_le_mono_r 2 _ _ ltac:(lia) Hw).
  apply Z.mod_small. lia.
Qed.

(** *** Words of registers *)
Lemma land_mask_range x m n : 0 <= n -> 0 <= m < 2 ^ n -> 0 <= Z.land x m < 2 ^ n.
Proof.
  intros Hn Hm. assert (Z.land x m = Z.land x m mod 2 ^ n) as ->; [|apply Z.mod_pos_bound; lia].
  rewrite <- Z.land_ones, <- Z.land_assoc by lia. f_equal.
  rewrite Z.land_ones by lia. by rewrite Z.mod_small.
Qed.

Lemma lor_range a b n : 0 <= n -> 0 <= a < 2 ^ n -> 0 <= b < 2 ^ n -> 0 <= Z.lor a b < 2 ^ n.
Proof.
  intros Hn Ha Hb. assert (Z.lor a b = Z.lor a b mod 2 ^ n) as ->; [|apply Z.mod_pos_bound; lia].
  rewrite <- Z.land_ones, Z.land_lor_distr_l, !Z.land_ones, !Z.mod_small by lia. done.
Qed.

Lemma word_u32 fs : forallb (fun m => (0 <=? m) && (m <? 4294967296)) (fst <$> fs) = true ->
  fits_u32 (word fs).
Proof.
  unfold fits_u32. change 4294967296 with (2 ^ 32).
  induction fs as [|[m v] fs IH]; [done|]. cbn -[FIELD_SET Z.pow].
  rewrite !andb_true_iff, Z.leb_le, Z.ltb_lt. intros [Hm Hfs].
  apply lor_range; [lia| |by apply IH]. by apply land_mask_range.
Qed.

(** A value split over two or three fields and put together again. *)
Lemma land_split x m m' : Z.lor (Z.land x m) (Z.land x m') = Z.land x (Z.lor m m').
Proof. by rewrite Z.land_lor_distr_r. Qed.

Lemma land_low x n : 0 <= n -> 0 <= x < 2 ^ n -> Z.land x (Z.ones n) = x.
Proof. intros. rewrite Z.land_ones by lia. by apply Z.mod_small. Qed.
