(* ===== verification/Indirect.v ===== *)
(** * eqdma_soft_access.c, first part: the indirect context registers

    The contexts of the queues are in memories of the device that the driver
    reaches through eight data registers, eight mask registers and a command
    register.  This file models the register accesses of qdma_platform.c, the
    polling loop of qdma_access_common.c and the four accesses of
    eqdma_soft_access.c, states what the driver expects of the device as the class
    [IndCtxtOk], and proves what the accesses do on any such device. *)

From S2P Require Import Prelude Float64 Device Fields.
From stdpp Require Import gmap.

Open Scope Z_scope.

(** ** Registers *)
Definition EQDMA_IND_CTXT_DATA_ADDR : Z := 0x804.
Definition EQDMA_IND_CTXT_MASK_ADDR : Z := 0x824.
Definition EQDMA_IND_CTXT_CMD_ADDR : Z := 0x844.
Definition IND_CTXT_CMD_BUSY_MASK : Z := BIT 0.
Definition QDMA_IND_CTXT_DATA_NUM_REGS : nat := 8.
Definition QDMA_REG_POLL_DFLT_INTERVAL_US : Z := 10.
Definition QDMA_REG_POLL_DFLT_TIMEOUT_US : Z := 500 * 1000.

Definition QDMA_SUCCESS : Z := 0.
Definition QDMA_ERR_INV_PARAM : Z := 1.
Definition QDMA_ERR_HWACC_BUSY_TIMEOUT : Z := 3.

Inductive ind_ctxt_cmd_op :=
  QDMA_CTXT_CMD_CLR | QDMA_CTXT_CMD_WR | QDMA_CTXT_CMD_RD | QDMA_CTXT_CMD_INV.
Definition op_val (op : ind_ctxt_cmd_op) : Z :=
  match op with
  | QDMA_CTXT_CMD_CLR => 0 | QDMA_CTXT_CMD_WR => 1
  | QDMA_CTXT_CMD_RD => 2 | QDMA_CTXT_CMD_INV => 3
  end.

Inductive ind_ctxt_cmd_sel :=
  | QDMA_CTXT_SEL_SW_C2H | QDMA_CTXT_SEL_SW_H2C | QDMA_CTXT_SEL_HW_C2H
  | QDMA_CTXT_SEL_HW_H2C | QDMA_CTXT_SEL_CR_C2H | QDMA_CTXT_SEL_CR_H2C
  | QDMA_CTXT_SEL_CMPT | QDMA_CTXT_SEL_PFTCH | QDMA_CTXT_SEL_INT_COAL
  | QDMA_CTXT_SEL_PASID_RAM_LOW | QDMA_CTXT_SEL_PASID_RAM_HIGH
  | QDMA_CTXT_SEL_TIMER | QDMA_CTXT_SEL_FMAP.
#[export] Instance sel_eq_dec : EqDecision ind_ctxt_cmd_sel.
Proof. solve_decision. Defined.
Definition sel_val (s : ind_ctxt_cmd_sel) : Z :=
  match s with
  | QDMA_CTXT_SEL_SW_C2H => 0 | QDMA_CTXT_SEL_SW_H2C => 1 | QDMA_CTXT_SEL_HW_C2H => 2
  | QDMA_CTXT_SEL_HW_H2C => 3 | QDMA_CTXT_SEL_CR_C2H => 4 | QDMA_CTXT_SEL_CR_H2C => 5
  | QDMA_CTXT_SEL_CMPT => 6 | QDMA_CTXT_SEL_PFTCH => 7 | QDMA_CTXT_SEL_INT_COAL => 8
  | QDMA_CTXT_SEL_PASID_RAM_LOW => 9 | QDMA_CTXT_SEL_PASID_RAM_HIGH => 10
  | QDMA_CTXT_SEL_TIMER => 11 | QDMA_CTXT_SEL_FMAP => 12
  end.

(** [union qdma_ind_ctxt_cmd]: busy:1, sel:4, op:2, qid:12 from bit 0 up. *)
Definition qdma_ind_ctxt_cmd (op : ind_ctxt_cmd_op) (sel : ind_ctxt_cmd_sel) (qid : Z) : Z :=
  Z.lor (Z.shiftl (bits (sel_val sel) 0 4) 1)
    (Z.lor (Z.shiftl (bits (op_val op) 0 2) 5) (Z.shiftl (bits qid 0 12) 7)).

Section access.
Context {W : Type} `{io : IoMem W}.

(** [dev]: [xdev->regs], the mapped registers of the device. *)
Definition qdma_reg_read (dev reg_offst : Z) : cmd W Z := fun w => Ok (ioread32 (dev + reg_offst) w).
Definition qdma_reg_write (dev reg_offst val : Z) : cmd W unit := fun w =>
  Ok (tt, iowrite32 val (dev + reg_offst) w).

(** The loop [do ... while (--count)]; a [count] that is not positive would count
    down past the smallest [int], which has no defined result. *)
Fixpoint poll_reg (dev reg mask val : Z) (count : nat) : cmd W bool :=
  match count with
  | O => mret false
  | S n =>
      v ← qdma_reg_read dev reg;
      if decide (Z.land v mask = val) then mret true else poll_reg dev reg mask val n
  end.

Definition hw_monitor_reg (dev reg mask val interval_us timeout_us : Z) : cmd W Z :=
  let interval_us := if decide (interval_us = 0) then QDMA_REG_POLL_DFLT_INTERVAL_US else interval_us in
  let timeout_us := if decide (timeout_us = 0) then QDMA_REG_POLL_DFLT_TIMEOUT_US else timeout_us in
  let count := s32 (timeout_us / interval_us) in
  let n := if decide (0 < count) then Z.to_nat count else Z.to_nat (2147483649 + count) in
  found ← poll_reg dev reg mask val n;
  if (found : bool) then mret QDMA_SUCCESS else
  if decide (count <= 0) then fail BadConversion else
  v ← qdma_reg_read dev reg;
  if decide (Z.land v mask = val) then mret QDMA_SUCCESS
  else mret (- QDMA_ERR_HWACC_BUSY_TIMEOUT).

(** Wait until the command is done. *)
Definition wait_cmd (dev : Z) : cmd W Z :=
  hw_monitor_reg dev EQDMA_IND_CTXT_CMD_ADDR IND_CTXT_CMD_BUSY_MASK 0
    QDMA_REG_POLL_DFLT_INTERVAL_US QDMA_REG_POLL_DFLT_TIMEOUT_US.

Definition eqdma_indirect_reg_invalidate (dev : Z) (sel : ind_ctxt_cmd_sel) (hw_qid : Z) : cmd W Z :=
  _ ← qdma_reg_write dev EQDMA_IND_CTXT_CMD_ADDR (qdma_ind_ctxt_cmd QDMA_CTXT_CMD_INV sel hw_qid);
  rv ← wait_cmd dev;
  if decide (rv <> 0) then mret (- QDMA_ERR_HWACC_BUSY_TIMEOUT) else mret QDMA_SUCCESS.

Definition eqdma_indirect_reg_clear (dev : Z) (sel : ind_ctxt_cmd_sel) (hw_qid : Z) : cmd W Z :=
  _ ← qdma_reg_write dev EQDMA_IND_CTXT_CMD_ADDR (qdma_ind_ctxt_cmd QDMA_CTXT_CMD_CLR sel hw_qid);
  rv ← wait_cmd dev;
  if decide (rv <> 0) then mret (- QDMA_ERR_HWACC_BUSY_TIMEOUT) else mret QDMA_SUCCESS.

Fixpoint read_regs (dev reg_addr : Z) (cnt : nat) : cmd W (list Z) :=
  match cnt with
  | O => mret []
  | S n => v ← qdma_reg_read dev reg_addr; vs ← read_regs dev (reg_addr + 4) n; mret (v :: vs)
  end.

(** The caller's array is zeroed, and stays so when the access fails. *)
Definition eqdma_indirect_reg_read (dev : Z) (sel : ind_ctxt_cmd_sel) (hw_qid : Z) (cnt : nat) :
    cmd W (Z * list Z) :=
  _ ← qdma_reg_write dev EQDMA_IND_CTXT_CMD_ADDR (qdma_ind_ctxt_cmd QDMA_CTXT_CMD_RD sel hw_qid);
  rv ← wait_cmd dev;
  if decide (rv <> 0) then mret (- QDMA_ERR_HWACC_BUSY_TIMEOUT, replicate cnt 0) else
  data ← read_regs dev EQDMA_IND_CTXT_DATA_ADDR cnt;
  mret (QDMA_SUCCESS, data).

Fixpoint write_regs (dev reg_addr : Z) (wr_data : list Z) : cmd W unit :=
  match wr_data with
  | [] => mret tt
  | v :: vs => _ ← qdma_reg_write dev reg_addr v; write_regs dev (reg_addr + 4) vs
  end.

(** [struct qdma_indirect_ctxt_regs]: the data padded with zeros, full masks, and
    the command. *)
Definition qdma_indirect_ctxt_regs (sel : ind_ctxt_cmd_sel) (hw_qid : Z) (data : list Z) : list Z :=
  take QDMA_IND_CTXT_DATA_NUM_REGS
    (data ++ replicate (QDMA_IND_CTXT_DATA_NUM_REGS - length data) 0) ++
  replicate QDMA_IND_CTXT_DATA_NUM_REGS 0xFFFFFFFF ++
  [qdma_ind_ctxt_cmd QDMA_CTXT_CMD_WR sel hw_qid].

Definition eqdma_indirect_reg_write (dev : Z) (sel : ind_ctxt_cmd_sel) (hw_qid : Z) (data : list Z) :
    cmd W Z :=
  _ ← write_regs dev EQDMA_IND_CTXT_DATA_ADDR (qdma_indirect_ctxt_regs sel hw_qid data);
  rv ← wait_cmd dev;
  if decide (rv <> 0) then mret (- QDMA_ERR_HWACC_BUSY_TIMEOUT) else mret QDMA_SUCCESS.
End access.

(** ** The device behind the registers

    What the driver relies on, as an automaton: the data and mask registers, the
    context memories by selector and queue, and how many polls the running command
    will still answer with the busy bit. *)
Record ind_hw := mkHw {
  ih_data : list Z; ih_mask : list Z; ih_ctxt : gmap (Z * Z) (list Z); ih_busy : nat }.

Definition zero_ctxt : list Z := replicate 8 0.
Definition ctxt_at (h : ind_hw) (k : Z * Z) : list Z := default zero_ctxt (ih_ctxt h !! k).

(** The selector and queue a command word names. *)
Definition cmd_key (c : Z) : Z * Z := (bits c 1 4, bits c 7 13).
Definition merge_word (m o d : Z) : Z := Z.lor (Z.land o (0xFFFFFFFF - m)) (Z.land d m).

(** Executing command word [c]; [lat] polls until it is done.  What becomes of an
    invalidated context is the device's business: [inv]. *)
Definition ind_exec (lat : nat) (inv : list Z -> list Z) (c : Z) (h : ind_hw) : ind_hw :=
  let k := cmd_key c in
  let old := ctxt_at h k in
  let upd l := mkHw (ih_data h) (ih_mask h) (<[k := l]> (ih_ctxt h)) lat in
  if bits c 5 2 =? 0 then upd zero_ctxt
  else if bits c 5 2 =? 1 then
    upd (zip_with (fun m od => merge_word m (fst od) (snd od)) (ih_mask h) (zip old (ih_data h)))
  else if bits c 5 2 =? 2 then mkHw old (ih_mask h) (ih_ctxt h) lat
  else upd (inv old).

Definition set_data (l : list Z) (h : ind_hw) : ind_hw := mkHw l (ih_mask h) (ih_ctxt h) (ih_busy h).
Definition set_mask (l : list Z) (h : ind_hw) : ind_hw := mkHw (ih_data h) l (ih_ctxt h) (ih_busy h).
Definition ind_tick (h : ind_hw) : ind_hw :=
  mkHw (ih_data h) (ih_mask h) (ih_ctxt h) (Nat.pred (ih_busy h)).

Record ind_wf (h : ind_hw) : Prop := {
  iw_data : length (ih_data h) = 8%nat; iw_mask : length (ih_mask h) = 8%nat;
  iw_ctxt : forall k, length (ctxt_at h k) = 8%nat }.

Class IndCtxt (W : Type) := {
  ind : W -> ind_hw;
  ind_latency : W -> nat;
  ind_inv : list Z -> list Z }.

(** The registers mapped at [dev] behave like the automaton while it is idle, and
    the command register shows whether it is. *)
Class IndCtxtOk (W : Type) `{IoMem W} `{IndCtxt W} (dev : Z) : Prop := {
  ind_ok : forall w, ind_wf (ind w);
  ind_write_data : forall w (i : nat) v, ih_busy (ind w) = 0%nat -> (i < 8)%nat -> fits_u32 v ->
    ind (iowrite32 v (dev + (EQDMA_IND_CTXT_DATA_ADDR + 4 * Z.of_nat i)) w) =
    set_data (<[i := v]> (ih_data (ind w))) (ind w);
  ind_write_mask : forall w (i : nat) v, ih_busy (ind w) = 0%nat -> (i < 8)%nat -> fits_u32 v ->
    ind (iowrite32 v (dev + (EQDMA_IND_CTXT_MASK_ADDR + 4 * Z.of_nat i)) w) =
    set_mask (<[i := v]> (ih_mask (ind w))) (ind w);
  ind_write_cmd : forall w c, ih_busy (ind w) = 0%nat -> fits_u32 c ->
    ind (iowrite32 c (dev + EQDMA_IND_CTXT_CMD_ADDR) w) = ind_exec (ind_latency w) ind_inv c (ind w);
  ind_read_cmd : forall w, let r := ioread32 (dev + EQDMA_IND_CTXT_CMD_ADDR) w in
    (Z.land (fst r) IND_CTXT_CMD_BUSY_MASK = 0 <-> ih_busy (ind w) = 0%nat) /\ ind (snd r) = ind_tick (ind w);
  ind_read_data : forall w (i : nat), ih_busy (ind w) = 0%nat -> (i < 8)%nat ->
    let r := ioread32 (dev + (EQDMA_IND_CTXT_DATA_ADDR + 4 * Z.of_nat i)) w in
    Some (fst r) = ih_data (ind w) !! i /\ ind (snd r) = ind w }.

(** ** Polling *)
Definition MAX_POLLS : nat := Z.to_nat 50000.
Definition set_busy (n : nat) (h : ind_hw) : ind_hw := mkHw (ih_data h) (ih_mask h) (ih_ctxt h) n.

Section protocol.
Context {W : Type} `{io : IoMem W} `{ic : IndCtxt W} (dev : Z) `{ok : !IndCtxtOk W dev}.

Lemma poll_busy n w : exists w',
  poll_reg dev EQDMA_IND_CTXT_CMD_ADDR IND_CTXT_CMD_BUSY_MASK 0 n w =
    Ok (bool_decide (ih_busy (ind w) < n)%nat, w') /\
  ind w' = set_busy (ih_busy (ind w) - n) (ind w).
Proof.
  revert w. induction n as [|n IH]; intros w.
  - exists w. rewrite bool_decide_eq_false_2 by lia. split; [done|].
    rewrite Nat.sub_0_r. by destruct (ind w).
  - cbn [poll_reg]. unfold mbind at 1, cmd_bind at 1. cbn [qdma_reg_read].
    pose proof (ind_read_cmd w) as [Hb Ht]. unfold qdma_reg_read.
    destruct (ioread32 _ w) as [v w1]. cbn [fst snd] in *.
    destruct (decide (Z.land v IND_CTXT_CMD_BUSY_MASK = 0)) as [H0|H0].
    + apply Hb in H0. exists w1. rewrite bool_decide_eq_true_2 by lia. split; [done|].
      rewrite Ht. unfold ind_tick, set_busy. by rewrite H0.
    + assert (ih_busy (ind w) <> 0%nat) as Hne by tauto.
      destruct (IH w1) as (w' & -> & Hw'). exists w'. rewrite Hw', Ht. cbn. split.
      * do 2 f_equal. apply bool_decide_ext. lia.
      * unfold set_busy, ind_tick. cbn. f_equal. lia.
Qed.

Lemma wait_cmd_eq : wait_cmd dev =
  (found ← poll_reg dev EQDMA_IND_CTXT_CMD_ADDR IND_CTXT_CMD_BUSY_MASK 0 MAX_POLLS;
   if (found : bool) then mret QDMA_SUCCESS else
   v ← qdma_reg_read dev EQDMA_IND_CTXT_CMD_ADDR;
   if decide (Z.land v IND_CTXT_CMD_BUSY_MASK = 0) then mret QDMA_SUCCESS
   else mret (- QDMA_ERR_HWACC_BUSY_TIMEOUT) : cmd W Z).
Proof.
  unfold wait_cmd, hw_monitor_reg.
  rewrite !(decide_False (P := _ = 0)) by done. cbv zeta.
  change (s32 (QDMA_REG_POLL_DFLT_TIMEOUT_US / QDMA_REG_POLL_DFLT_INTERVAL_US)) with 50000.
  rewrite (decide_True (P := 0 < 50000)), (decide_False (P := 50000 <= 0)) by lia. done.
Qed.

(** The driver waits exactly [MAX_POLLS] busy answers. *)
Lemma wait_cmd_run w : exists w',
  wait_cmd dev w = Ok (if decide (ih_busy (ind w) <= MAX_POLLS)%nat then QDMA_SUCCESS
                       else - QDMA_ERR_HWACC_BUSY_TIMEOUT, w') /\
  ind w' = set_busy (ih_busy (ind w) - S MAX_POLLS) (ind w).
Proof.
  rewrite wait_cmd_eq. destruct (poll_busy MAX_POLLS w) as (w1 & E & Hw1).
  rewrite (cmd_bind_run _ _ _ _ _ E).
  destruct (decide (ih_busy (ind w) < MAX_POLLS)%nat) as [Hlt|Hge].
  { rewrite bool_decide_eq_true_2 by done. cbv beta iota. exists w1.
    rewrite decide_True by lia. split; [done|]. rewrite Hw1. f_equal. lia. }
  rewrite bool_decide_eq_false_2 by done. cbv beta iota.
  unfold mbind, cmd_bind, qdma_reg_read. pose proof (ind_read_cmd w1) as [Hb Ht].
  destruct (ioread32 _ w1) as [v w2]. cbn [fst snd] in *. exists w2.
  rewrite Ht, Hw1. rewrite Hw1 in Hb. cbn [ih_busy set_busy] in Hb. split.
  - destruct (decide (Z.land v IND_CTXT_CMD_BUSY_MASK = 0)) as [H0|H0].
    + apply Hb in H0. by rewrite decide_True by lia.
    + rewrite decide_False; [done|]. intros Hle. apply H0, Hb. lia.
  - unfold ind_tick, set_busy. cbn. f_equal. lia.
Qed.

(** ** The accesses *)

Lemma cmd_word_u32 op sel qid : fits_u32 (qdma_ind_ctxt_cmd op sel qid).
Proof.
  unfold qdma_ind_ctxt_cmd, fits_u32. change 4294967296 with (2 ^ 32).
  assert (forall x n, 0 <= n -> 0 <= bits x 0 n < 2 ^ n) as Hb.
  { intros x n Hn. rewrite bits_spec by lia. apply Z.mod_pos_bound. lia. }
  assert (forall x n k, 0 <= n -> 0 <= k -> n + k <= 32 ->
    0 <= Z.shiftl (bits x 0 n) k < 2 ^ 32) as Hs.
  { intros x n k Hn Hk Hnk. rewrite Z.shiftl_mul_pow2 by lia. specialize (Hb x n Hn).
    pose proof (Z.pow_le_mono_r 2 (n + k) 32 ltac:(lia) Hnk). rewrite Z.pow_add_r in * by lia. nia. }
  repeat apply lor_range; try lia; apply Hs; lia.
Qed.

Lemma cmd_word_key op sel qid : 0 <= qid < 4096 ->
  cmd_key (qdma_ind_ctxt_cmd op sel qid) = (sel_val sel, qid) /\
  bits (qdma_ind_ctxt_cmd op sel qid) 5 2 = op_val op.
Proof.
  intros Hq. unfold cmd_key, qdma_ind_ctxt_cmd.
  replace (bits qid 0 12) with qid by (rewrite bits_spec, Z.div_1_r, Z.mod_small by lia; done).
  set (low := Z.lor (Z.shiftl (bits (sel_val sel) 0 4) 1) (Z.shiftl (bits (op_val op) 0 2) 5)).
  replace (Z.lor _ _) with (Z.lor (Z.shiftl qid 7) low)
    by (subst low; rewrite Z.lor_comm, <- Z.lor_assoc; f_equal; apply Z.lor_comm).
  assert (0 <= low < 2 ^ 7) as Hlow by (subst low; destruct sel, op; vm_compute; split; congruence).
  rewrite lor_shiftl_add by lia.
  assert (low mod 2 ^ 5 / 2 = sel_val sel /\ low / 2 ^ 5 = op_val op) as [H1 H2]
    by (subst low; destruct sel, op; by vm_compute).
  rewrite !bits_spec by lia. change (2 ^ 1) with 2 in *. change (2 ^ 7) with 128 in *.
  change (2 ^ 5) with 32 in *. change (2 ^ 4) with 16. change (2 ^ 2) with 4. change (2 ^ 13) with 8192.
  split; [f_equal|]; Z.div_mod_to_equations; lia.
Qed.

(** What an access answers when its command takes [lat] polls. *)
Definition answer (lat : nat) : Z :=
  if decide (lat <= MAX_POLLS)%nat then QDMA_SUCCESS else - QDMA_ERR_HWACC_BUSY_TIMEOUT.

Definition idle (w : W) : Prop := ih_busy (ind w) = 0%nat.

(** Command [c] has run in [h], and the driver has stopped waiting. *)
Definition ran_in (c : Z) (h : ind_hw) (lat : nat) (w' : W) : Prop :=
  (exists w0, lat = ind_latency w0) /\ ind w' = set_busy (lat - S MAX_POLLS) (ind_exec lat ind_inv c h).

Lemma issue_run c w : idle w -> fits_u32 c -> exists lat w',
  (_ ← qdma_reg_write dev EQDMA_IND_CTXT_CMD_ADDR c; wait_cmd dev) w = Ok (answer lat, w') /\
  ran_in c (ind w) lat w'.
Proof.
  intros Hi Hc. exists (ind_latency w).
  destruct (wait_cmd_run (iowrite32 c (dev + EQDMA_IND_CTXT_CMD_ADDR) w)) as (w' & E & Hw').
  exists w'. rewrite ind_write_cmd in E, Hw' by done.
  assert (forall h, ih_busy (ind_exec (ind_latency w) ind_inv c h) = ind_latency w) as Hb.
  { intros h. unfold ind_exec. by repeat case_match. }
  rewrite Hb in E, Hw'. split; [exact E|]. split; [by exists w|exact Hw'].
Qed.

Lemma answer_status {A} lat (a b : A) :
  (if decide (answer lat <> 0) then a else b) = if decide (lat <= MAX_POLLS)%nat then b else a.
Proof.
  unfold answer. destruct (decide (lat <= MAX_POLLS)%nat); [by rewrite decide_False by (intros []; done)|].
  by rewrite decide_True.
Qed.

(** Clearing and invalidating are a command and its answer. *)
Lemma clear_run sel qid w : idle w -> exists lat w',
  eqdma_indirect_reg_clear dev sel qid w = Ok (answer lat, w') /\
  ran_in (qdma_ind_ctxt_cmd QDMA_CTXT_CMD_CLR sel qid) (ind w) lat w'.
Proof.
  intros Hi. destruct (issue_run _ w Hi (cmd_word_u32 QDMA_CTXT_CMD_CLR sel qid)) as (lat & w' & E & H).
  exists lat, w'. split; [|exact H]. unfold eqdma_indirect_reg_clear.
  apply cmd_bind_ok in E as ([] & w1 & E1 & E2).
  rewrite (cmd_bind_run _ _ _ _ _ E1), (cmd_bind_run _ _ _ _ _ E2), answer_status.
  unfold answer. by case_decide.
Qed.

Lemma invalidate_run sel qid w : idle w -> exists lat w',
  eqdma_indirect_reg_invalidate dev sel qid w = Ok (answer lat, w') /\
  ran_in (qdma_ind_ctxt_cmd QDMA_CTXT_CMD_INV sel qid) (ind w) lat w'.
Proof.
  intros Hi. destruct (issue_run _ w Hi (cmd_word_u32 QDMA_CTXT_CMD_INV sel qid)) as (lat & w' & E & H).
  exists lat, w'. split; [|exact H]. unfold eqdma_indirect_reg_invalidate.
  apply cmd_bind_ok in E as ([] & w1 & E1 & E2).
  rewrite (cmd_bind_run _ _ _ _ _ E1), (cmd_bind_run _ _ _ _ _ E2), answer_status.
  unfold answer. by case_decide.
Qed.

Lemma read_regs_run n i w : idle w -> (i + n <= 8)%nat -> exists w',
  read_regs dev (EQDMA_IND_CTXT_DATA_ADDR + 4 * Z.of_nat i) n w =
    Ok (take n (drop i (ih_data (ind w))), w') /\ ind w' = ind w.
Proof.
  revert i w. induction n as [|n IH]; intros i w Hi Hn; [by exists w|].
  cbn [read_regs]. pose proof (ind_read_data w i Hi ltac:(lia)) as [Hv Hw1].
  unfold mbind at 1, cmd_bind at 1, qdma_reg_read.
  destruct (ioread32 _ w) as [v w1]. cbn [fst snd] in *.
  replace (EQDMA_IND_CTXT_DATA_ADDR + 4 * Z.of_nat i + 4)
    with (EQDMA_IND_CTXT_DATA_ADDR + 4 * Z.of_nat (S i)) by lia.
  destruct (IH (S i) w1) as (w' & E & Hw'); [by unfold idle; rewrite Hw1|lia|].
  exists w'. rewrite (cmd_bind_run _ _ _ _ _ E), Hw', Hw1. split; [|done].
  by rewrite (drop_S _ v i) by done.
Qed.

Lemma read_run sel qid n w : idle w -> (n <= 8)%nat -> exists lat w1 w',
  eqdma_indirect_reg_read dev sel qid n w =
    Ok (answer lat, if decide (lat <= MAX_POLLS)%nat then take n (ih_data (ind w1)) else replicate n 0, w') /\
  ran_in (qdma_ind_ctxt_cmd QDMA_CTXT_CMD_RD sel qid) (ind w) lat w1 /\ ind w' = ind w1.
Proof.
  intros Hi Hn. destruct (issue_run _ w Hi (cmd_word_u32 QDMA_CTXT_CMD_RD sel qid)) as (lat & w1 & E & H).
  exists lat, w1. unfold eqdma_indirect_reg_read.
  apply cmd_bind_ok in E as ([] & w0 & E1 & E2).
  rewrite (cmd_bind_run _ _ _ _ _ E1), (cmd_bind_run _ _ _ _ _ E2), answer_status.
  unfold answer. case_decide as Hlat; [|by exists w1].
  destruct (read_regs_run n 0 w1) as (w' & E & Hw'); [|lia|].
  { unfold idle. destruct H as [_ ->]. cbn. lia. }
  exists w'. rewrite Z.mul_0_r, Z.add_0_r, drop_0 in E. by rewrite (cmd_bind_run _ _ _ _ _ E).
Qed.

Lemma write_regs_app addr l1 l2 w w1 : write_regs dev addr l1 w = Ok (tt, w1) ->
  write_regs dev addr (l1 ++ l2) w = write_regs dev (addr + 4 * Z.of_nat (length l1)) l2 w1.
Proof.
  revert addr w. induction l1 as [|v l1 IH]; intros addr w.
  - cbn. intros [= ->]. by rewrite Z.add_0_r.
  - cbn [write_regs app]. intros ([] & w0 & E0 & E)%cmd_bind_ok.
    rewrite (cmd_bind_run _ _ _ _ _ E0), (IH _ _ E). f_equal. cbn [length]. lia.
Qed.

(** Writing [l] to eight registers whose [i]-th write stores the value. *)
Lemma write_bank (bank : Z) (upd : list Z -> ind_hw -> ind_hw) (get : ind_hw -> list Z) l :
  (forall w (i : nat) v, idle w -> (i < 8)%nat -> fits_u32 v ->
    ind (iowrite32 v (dev + (bank + 4 * Z.of_nat i)) w) = upd (<[i := v]> (get (ind w))) (ind w)) ->
  (forall l h, get (upd l h) = l) -> (forall l l' h, upd l (upd l' h) = upd l h) ->
  (forall h, upd (get h) h = h) -> (forall l h, ih_busy (upd l h) = ih_busy h) ->
  Forall fits_u32 l -> forall (i : nat) w, idle w -> length (get (ind w)) = 8%nat ->
  (i + length l <= 8)%nat -> exists w',
  write_regs dev (bank + 4 * Z.of_nat i) l w = Ok (tt, w') /\
  ind w' = upd (take i (get (ind w)) ++ l ++ drop (i + length l) (get (ind w))) (ind w).
Proof.
  intros Hw Hget Hupd Hid Hbusy Hl. induction Hl as [|v l Hv _ IH]; intros i w Hi Hlen Hn.
  - exists w. split; [done|]. cbn. by rewrite Nat.add_0_r, take_drop, Hid.
  - cbn [write_regs length] in *.
    set (w1 := iowrite32 v (dev + (bank + 4 * Z.of_nat i)) w).
    assert (ind w1 = upd (<[i := v]> (get (ind w))) (ind w)) as H1 by (apply Hw; done || lia).
    destruct (IH (S i) w1) as (w' & E & H'); [| |lia|].
    { unfold idle. by rewrite H1, Hbusy. }
    { by rewrite H1, Hget, length_insert. }
    exists w'. unfold mbind at 1, cmd_bind at 1, qdma_reg_write. fold w1.
    replace (bank + 4 * Z.of_nat i + 4) with (bank + 4 * Z.of_nat (S i)) by lia.
    split; [exact E|]. rewrite H', H1, Hget, Hupd. f_equal.
    rewrite (take_S_r _ _ v), take_insert_ge, drop_insert_lt, <- app_assoc
      by (lia || by rewrite list_lookup_insert_eq by lia).
    by replace (S i + length l)%nat with (i + S (length l))%nat by lia.
Qed.

Definition padded (data : list Z) : list Z := data ++ replicate (8 - length data) 0.

Lemma merge_full o d : length o = 8%nat -> length d = 8%nat -> Forall fits_u32 d ->
  zip_with (fun m od => merge_word m (fst od) (snd od)) (replicate 8 0xFFFFFFFF) (zip o d) = d.
Proof.
  intros Ho Hd Hf.
  assert (forall n o d, length o = n -> length d = n -> Forall fits_u32 d ->
    zip_with (fun m od => merge_word m (fst od) (snd od)) (replicate n 0xFFFFFFFF) (zip o d) = d) as H;
    [|by apply H].
  clear. induction n as [|n IH]; intros [|x o] [|y d] Ho Hd Hf; try done.
  inversion Hf as [|? ? Hy Hf']; subst. cbn. rewrite IH by (cbn in *; lia || done). f_equal.
  unfold merge_word. rewrite Z.sub_diag, Z.land_0_r, Z.lor_0_l.
  change 0xFFFFFFFF with (Z.ones 32). apply land_low; [lia|exact Hy].
Qed.

Lemma exec_write sel qid lat inv h : 0 <= qid < 4096 ->
  ind_exec lat inv (qdma_ind_ctxt_cmd QDMA_CTXT_CMD_WR sel qid) h =
  mkHw (ih_data h) (ih_mask h) (<[(sel_val sel, qid) :=
    zip_with (fun m od => merge_word m (fst od) (snd od)) (ih_mask h)
      (zip (ctxt_at h (sel_val sel, qid)) (ih_data h))]> (ih_ctxt h)) lat.
Proof.
  intros Hq. unfold ind_exec. by destruct (cmd_word_key QDMA_CTXT_CMD_WR sel qid Hq) as [-> ->].
Qed.

Lemma exec_read sel qid lat inv h : 0 <= qid < 4096 ->
  ind_exec lat inv (qdma_ind_ctxt_cmd QDMA_CTXT_CMD_RD sel qid) h =
  mkHw (ctxt_at h (sel_val sel, qid)) (ih_mask h) (ih_ctxt h) lat.
Proof.
  intros Hq. unfold ind_exec. by destruct (cmd_word_key QDMA_CTXT_CMD_RD sel qid Hq) as [-> ->].
Qed.

Lemma exec_clear sel qid lat inv h : 0 <= qid < 4096 ->
  ind_exec lat inv (qdma_ind_ctxt_cmd QDMA_CTXT_CMD_CLR sel qid) h =
  mkHw (ih_data h) (ih_mask h) (<[(sel_val sel, qid) := zero_ctxt]> (ih_ctxt h)) lat.
Proof.
  intros Hq. unfold ind_exec. by destruct (cmd_word_key QDMA_CTXT_CMD_CLR sel qid Hq) as [-> ->].
Qed.

(** Writing a context stores the padded words under its selector and queue, and
    touches no other. *)
Lemma write_run sel qid data w : idle w -> (length data <= 8)%nat -> Forall fits_u32 data ->
  0 <= qid < 4096 -> exists lat w',
  eqdma_indirect_reg_write dev sel qid data w = Ok (answer lat, w') /\
  (exists w0, lat = ind_latency w0) /\
  ih_ctxt (ind w') = <[(sel_val sel, qid) := padded data]> (ih_ctxt (ind w)) /\
  ih_busy (ind w') = (lat - S MAX_POLLS)%nat.
Proof.
  intros Hi Hlen Hdata Hq. pose proof (ind_ok w) as [Hl1 Hl2 Hl3].
  set (words := padded data).
  assert (length words = 8%nat) as Hwl
    by (unfold words, padded; rewrite length_app, length_replicate; lia).
  assert (Forall fits_u32 words) as Hwf.
  { apply Forall_app. split; [done|]. by apply Forall_replicate. }
  destruct (write_bank EQDMA_IND_CTXT_DATA_ADDR set_data ih_data words) with (i := 0%nat) (w := w)
    as (w1 & E1 & H1); try done; [by intros; apply ind_write_data|by intros []|lia|].
  destruct (write_bank EQDMA_IND_CTXT_MASK_ADDR set_mask ih_mask (replicate 8 0xFFFFFFFF))
    with (i := 0%nat) (w := w1) as (w2 & E2 & H2); try done.
  { by intros; apply ind_write_mask. }
  { by intros []. }
  { by apply Forall_replicate. }
  { unfold idle. by rewrite H1. }
  { by rewrite H1. }
  assert (ind w2 = mkHw words (replicate 8 0xFFFFFFFF) (ih_ctxt (ind w)) 0) as Hw2.
  { rewrite H2, H1. unfold set_mask, set_data. cbn [ih_data ih_mask ih_ctxt ih_busy].
    rewrite take_0, !drop_ge, !app_nil_r by (cbn; lia). cbn [app]. by rewrite Hi. }
  destruct (issue_run (qdma_ind_ctxt_cmd QDMA_CTXT_CMD_WR sel qid) w2) as (lat & w3 & E3 & Hlat & H3);
    [by unfold idle; rewrite Hw2|apply cmd_word_u32|].
  exists lat, w3. split; [|split; [done|]].
  - unfold eqdma_indirect_reg_write, qdma_indirect_ctxt_regs.
    change QDMA_IND_CTXT_DATA_NUM_REGS with 8%nat. fold (padded data). fold words.
    rewrite take_ge by lia.
    apply cmd_bind_ok in E3 as ([] & wc & Ec & E3).
    rewrite Z.mul_0_r, Z.add_0_r in E1, E2.
    assert (write_regs dev EQDMA_IND_CTXT_DATA_ADDR (words ++ replicate 8 0xFFFFFFFF ++
      [qdma_ind_ctxt_cmd QDMA_CTXT_CMD_WR sel qid]) w = Ok (tt, wc)) as Ew.
    { rewrite (write_regs_app _ _ _ _ _ E1), Hwl.
      change (EQDMA_IND_CTXT_DATA_ADDR + 4 * Z.of_nat 8) with EQDMA_IND_CTXT_MASK_ADDR.
      rewrite (write_regs_app _ _ _ _ _ E2), length_replicate.
      change (EQDMA_IND_CTXT_MASK_ADDR + 4 * Z.of_nat 8) with EQDMA_IND_CTXT_CMD_ADDR.
      cbn [write_regs]. by rewrite (cmd_bind_run _ _ _ _ _ Ec). }
    rewrite (cmd_bind_run _ _ _ _ _ Ew), (cmd_bind_run _ _ _ _ _ E3), answer_status.
    unfold answer. by case_decide.
  - rewrite H3, Hw2, exec_write by done. split; [|done]. cbn [ih_ctxt set_busy]. f_equal.
    apply merge_full; [|done|done].
    pose proof (Hl3 (sel_val sel, qid)) as H. exact H.
Qed.

(** A device that answers every command in time. *)
Definition prompt : Prop := forall w, (ind_latency w <= MAX_POLLS)%nat.

Lemma answer_prompt lat : prompt -> (exists w0, lat = ind_latency w0) ->
  answer lat = QDMA_SUCCESS /\ (lat - S MAX_POLLS = 0)%nat.
Proof.
  intros Hp [w0 ->]. specialize (Hp w0). unfold answer. rewrite decide_True by done.
  split; [done|lia].
Qed.

(** On a prompt device a context that is written reads back, and only it changes. *)
Lemma write_then_read sel qid data w : prompt -> idle w -> (length data <= 8)%nat ->
  Forall fits_u32 data -> 0 <= qid < 4096 -> exists w1 w2,
  eqdma_indirect_reg_write dev sel qid data w = Ok (QDMA_SUCCESS, w1) /\
  eqdma_indirect_reg_read dev sel qid (length data) w1 = Ok (QDMA_SUCCESS, data, w2) /\
  idle w2 /\ ih_ctxt (ind w2) = <[(sel_val sel, qid) := padded data]> (ih_ctxt (ind w)).
Proof.
  intros Hp Hi Hlen Hdata Hq.
  destruct (write_run sel qid data w Hi Hlen Hdata Hq) as (lat & w1 & E1 & Hlat & Hc & Hb).
  destruct (answer_prompt lat Hp Hlat) as [Ha H0]. rewrite Ha in E1. rewrite H0 in Hb.
  destruct (read_run sel qid (length data) w1 Hb Hlen) as (lat2 & w2 & w3 & E2 & [Hlat2 H2] & H3).
  destruct (answer_prompt lat2 Hp Hlat2) as [Ha2 H02]. rewrite Ha2 in E2. rewrite H02 in H2.
  rewrite exec_read in H2 by done. destruct Hlat2 as [w0 ->].
  rewrite decide_True in E2 by done.
  exists w1, w3. split; [done|]. split; [|split].
  - rewrite E2, H2. cbn [ih_data set_busy]. unfold ctxt_at. rewrite Hc, lookup_insert_eq. cbn [default from_option id].
    unfold padded. by rewrite take_app_length.
  - unfold idle. by rewrite H3, H2.
  - by rewrite H3, H2.
Qed.

(** C31. A device that takes more than 50000 polls: each of the four accesses gives
    up with the time-out error.  The command was issued all the same: a write or a
    clear that is reported as failed has changed the context of that queue, and a
    read leaves the caller's words zero. *)
Theorem slow_device_times_out sel qid data n w :
  (forall w, (MAX_POLLS < ind_latency w)%nat) -> idle w -> (length data <= 8)%nat ->
  Forall fits_u32 data -> (n <= 8)%nat -> 0 <= qid < 4096 ->
  (exists w', eqdma_indirect_reg_write dev sel qid data w = Ok (- QDMA_ERR_HWACC_BUSY_TIMEOUT, w') /\
     ih_ctxt (ind w') = <[(sel_val sel, qid) := padded data]> (ih_ctxt (ind w))) /\
  (exists w', eqdma_indirect_reg_clear dev sel qid w = Ok (- QDMA_ERR_HWACC_BUSY_TIMEOUT, w') /\
     ih_ctxt (ind w') = <[(sel_val sel, qid) := zero_ctxt]> (ih_ctxt (ind w))) /\
  (exists w', eqdma_indirect_reg_invalidate dev sel qid w = Ok (- QDMA_ERR_HWACC_BUSY_TIMEOUT, w')) /\
  (exists w', eqdma_indirect_reg_read dev sel qid n w =
     Ok (- QDMA_ERR_HWACC_BUSY_TIMEOUT, replicate n 0, w')).
Proof.
  intros Hslow Hi Hlen Hdata Hn Hq.
  assert (forall lat, (exists w0, lat = ind_latency w0) -> ~ (lat <= MAX_POLLS)%nat) as Hlate.
  { intros lat [w0 ->]. specialize (Hslow w0). lia. }
  split; [|split; [|split]].
  - destruct (write_run sel qid data w) as (lat & w1 & E & Hlat & Hc & _); try done.
    exists w1. unfold answer in E. rewrite decide_False in E by auto. done.
  - destruct (clear_run sel qid w Hi) as (lat & w1 & E & Hlat & Hc).
    exists w1. unfold answer in E. rewrite decide_False in E by auto. split; [done|].
    by rewrite Hc, exec_clear.
  - destruct (invalidate_run sel qid w Hi) as (lat & w1 & E & Hlat & Hc).
    exists w1. unfold answer in E. rewrite decide_False in E by auto. done.
  - destruct (read_run sel qid n w Hi Hn) as (lat & w1 & w2 & E & [Hlat _] & _).
    exists w2. unfold answer in E. rewrite !decide_False in E by auto. done.
Qed.
End protocol.

(** ** A concrete device

    The automaton itself, its registers at addresses from 0 on, with commands that
    take [L] polls. *)
Section sim.
Context (L : nat).

Definition resize8 (l : list Z) : list Z := take 8 (padded l).
Definition norm_hw (h : ind_hw) : ind_hw :=
  mkHw (resize8 (ih_data h)) (resize8 (ih_mask h)) (resize8 <$> ih_ctxt h) (ih_busy h).

Definition reg_index (bank a : Z) : option nat :=
  if decide (bank <= a < bank + 32 /\ (a - bank) mod 4 = 0) then Some (Z.to_nat ((a - bank) / 4)) else None.

Definition hw_write (v a : Z) (h : ind_hw) : ind_hw :=
  if decide (ih_busy h <> 0%nat) then h else
  match reg_index EQDMA_IND_CTXT_DATA_ADDR a, reg_index EQDMA_IND_CTXT_MASK_ADDR a with
  | Some i, _ => set_data (<[i := v]> (ih_data h)) h
  | None, Some i => set_mask (<[i := v]> (ih_mask h)) h
  | None, None => if decide (a = EQDMA_IND_CTXT_CMD_ADDR) then ind_exec L (fun l => l) v h else h
  end.

Definition hw_read (a : Z) (h : ind_hw) : Z * ind_hw :=
  if decide (a = EQDMA_IND_CTXT_CMD_ADDR) then
    (if decide (ih_busy h = 0%nat) then 0 else 1, ind_tick h)
  else match reg_index EQDMA_IND_CTXT_DATA_ADDR a with
       | Some i => (default 0 (ih_data h !! i), h)
       | None => (0, h)
       end.

#[local] Instance hw_iomem : IoMem ind_hw := {|
  ioread32 a h := hw_read a (norm_hw h);
  iowrite32 v a h := hw_write v a (norm_hw h) |}.
#[local] Instance hw_ctxt : IndCtxt ind_hw := {|
  ind := norm_hw; ind_latency _ := L; ind_inv l := l |}.

Lemma resize8_length l : length (resize8 l) = 8%nat.
Proof. unfold resize8, padded. rewrite length_take, length_app, length_replicate. lia. Qed.

Lemma resize8_id l : length l = 8%nat -> resize8 l = l.
Proof. intros H. unfold resize8, padded. rewrite H. cbn. by rewrite app_nil_r, take_ge by lia. Qed.

Lemma norm_wf h : ind_wf (norm_hw h).
Proof.
  split; [apply resize8_length..|]. intros k. unfold ctxt_at. cbn. rewrite lookup_fmap.
  destruct (ih_ctxt h !! k); cbn; [apply resize8_length|done].
Qed.

Lemma norm_id h : ind_wf h -> norm_hw h = h.
Proof.
  intros [H1 H2 H3]. destruct h as [d m c b]. unfold norm_hw. cbn [ih_data ih_mask ih_ctxt ih_busy] in *.
  rewrite !resize8_id by done. f_equal. apply map_eq. intros k. rewrite lookup_fmap.
  specialize (H3 k). unfold ctxt_at in H3. cbn [ih_ctxt] in H3.
  destruct (c !! k); [|done].
  cbn [fmap option_fmap option_map default from_option id] in *. by rewrite resize8_id.
Qed.

Lemma exec_wf c h : ind_wf h -> ind_wf (ind_exec L (fun l => l) c h).
Proof.
  intros [H1 H2 H3]. unfold ind_exec.
  assert (forall l, length l = 8%nat ->
    ind_wf (mkHw (ih_data h) (ih_mask h) (<[cmd_key c := l]> (ih_ctxt h)) L)) as Hu.
  { intros l Hl. split; [done..|]. intros k. unfold ctxt_at. cbn.
    destruct (decide (k = cmd_key c)) as [->|]; [by rewrite lookup_insert_eq|].
    rewrite lookup_insert_ne by done. apply H3. }
  repeat case_match; try (apply Hu; try done).
  - rewrite length_zip_with, length_zip, H1, H2, H3. done.
  - split; cbn; [apply H3|done|]. intros k. apply H3.
Qed.

Lemma index_of (bank : Z) (i : nat) : (i < 8)%nat -> reg_index bank (bank + 4 * Z.of_nat i) = Some i.
Proof.
  intros Hi. unfold reg_index. replace (bank + 4 * Z.of_nat i - bank) with (Z.of_nat i * 4) by lia.
  rewrite decide_True; [|split; [lia|apply Z.mod_mul; lia]]. by rewrite Z.div_mul, Nat2Z.id by lia.
Qed.

Lemma index_none (bank a : Z) : ~ (bank <= a < bank + 32) -> reg_index bank a = None.
Proof. intros H. unfold reg_index. rewrite decide_False; [done|tauto]. Qed.

#[local] Instance hw_ok : IndCtxtOk ind_hw 0.
Proof.
  assert (forall d h, length d = 8%nat -> ind_wf h -> ind_wf (set_data d h)) as Hsd by (by intros ? ? ? []).
  assert (forall d h, length d = 8%nat -> ind_wf h -> ind_wf (set_mask d h)) as Hsm by (by intros ? ? ? []).
  split.
  - apply norm_wf.
  - intros h i v Hb Hi _. cbn [iowrite32 hw_iomem ind hw_ctxt] in *. unfold hw_write.
    destruct (norm_wf h). rewrite decide_False by auto. rewrite Z.add_0_l, index_of by done.
    apply norm_id, Hsd; [by rewrite length_insert|apply norm_wf].
  - intros h i v Hb Hi _. cbn [iowrite32 hw_iomem ind hw_ctxt] in *. unfold hw_write.
    destruct (norm_wf h). rewrite decide_False by auto.
    rewrite Z.add_0_l, index_none, index_of by (done || (unfold EQDMA_IND_CTXT_MASK_ADDR, EQDMA_IND_CTXT_DATA_ADDR; lia)).
    apply norm_id, Hsm; [by rewrite length_insert|apply norm_wf].
  - intros h c Hb _. cbn [iowrite32 hw_iomem ind hw_ctxt ind_latency ind_inv] in *. unfold hw_write.
    rewrite decide_False by auto. rewrite Z.add_0_l, !index_none
      by (unfold EQDMA_IND_CTXT_CMD_ADDR, EQDMA_IND_CTXT_MASK_ADDR, EQDMA_IND_CTXT_DATA_ADDR; lia).
    rewrite decide_True by done. apply norm_id, exec_wf, norm_wf.
  - intros h. cbn [ioread32 hw_iomem ind hw_ctxt]. unfold hw_read. rewrite decide_True by done. cbn [fst snd].
    split; [|apply norm_id; by destruct (norm_wf h)].
    destruct (decide (ih_busy (norm_hw h) = 0%nat)); [done|]. by split.
  - intros h i Hb Hi. cbn [ioread32 hw_iomem ind hw_ctxt]. unfold hw_read.
    rewrite decide_False by (unfold EQDMA_IND_CTXT_CMD_ADDR, EQDMA_IND_CTXT_DATA_ADDR; lia).
    rewrite Z.add_0_l, index_of by done. cbn [fst snd]. split; [|apply norm_id, norm_wf].
    destruct (lookup_lt_is_Some_2 (ih_data (norm_hw h)) i) as [v ->]; [|done].
    destruct (norm_wf h) as [-> _ _]. done.
Qed.
End sim.

Definition hw0 : ind_hw := mkHw zero_ctxt zero_ctxt ∅ 0.

(** ** Witnesses *)
Lemma slow_device_times_out_witness :
  let io := hw_iomem (Z.to_nat 60000) in let ic := hw_ctxt (Z.to_nat 60000) in
  (exists w', eqdma_indirect_reg_write 0 QDMA_CTXT_SEL_FMAP 5 [7] hw0 = Ok (- QDMA_ERR_HWACC_BUSY_TIMEOUT, w') /\
     ih_ctxt (ind w') = <[(12, 5) := padded [7]]> (ih_ctxt (ind hw0))) /\
  (exists w', eqdma_indirect_reg_clear 0 QDMA_CTXT_SEL_FMAP 5 hw0 = Ok (- QDMA_ERR_HWACC_BUSY_TIMEOUT, w') /\
     ih_ctxt (ind w') = <[(12, 5) := zero_ctxt]> (ih_ctxt (ind hw0))) /\
  (exists w', eqdma_indirect_reg_invalidate 0 QDMA_CTXT_SEL_FMAP 5 hw0 = Ok (- QDMA_ERR_HWACC_BUSY_TIMEOUT, w')) /\
  (exists w', eqdma_indirect_reg_read 0 QDMA_CTXT_SEL_FMAP 5 2 hw0 =
     Ok (- QDMA_ERR_HWACC_BUSY_TIMEOUT, replicate 2 0, w')).
Proof.
  intros io ic.
  apply (slow_device_times_out (ok := hw_ok (Z.to_nat 60000)) 0 QDMA_CTXT_SEL_FMAP 5 [7] 2 hw0).
  - intros w. unfold ind_latency, ic, hw_ctxt, MAX_POLLS. lia.
  - done.
  - cbn. lia.
  - repeat constructor; cbn; lia.
  - lia.
  - lia.
Defined.
