(* ===== verification/CtxtRegs.v ===== *)
(** * eqdma_soft_reg.h, eqdma_soft_access.c: the fields of the context words

    The masks of the words of the queue contexts, under the names of the source,
    and the masks that cut addresses, process ids, indices and credits into the
    parts that go to different words. *)

From S2P Require Import Prelude Fields.

Open Scope Z_scope.

Definition EQDMA_SW_CTXT_PASID_GET_L_MASK : Z := GENMASK 11 0.
Definition EQDMA_SW_CTXT_PASID_GET_H_MASK : Z := GENMASK 21 12.
Definition EQDMA_SW_CTXT_VIRTIO_DSC_BASE_GET_L_MASK : Z := GENMASK_ULL 20 0.
Definition EQDMA_SW_CTXT_VIRTIO_DSC_BASE_GET_M_MASK : Z := GENMASK_ULL 52 21.
Definition EQDMA_SW_CTXT_VIRTIO_DSC_BASE_GET_H_MASK : Z := GENMASK_ULL 63 53.
Definition SW_IND_CTXT_DATA_W0_PIDX_MASK : Z := GENMASK 15 0.
Definition SW_IND_CTXT_DATA_W0_IRQ_ARM_MASK : Z := BIT 16.
Definition SW_IND_CTXT_DATA_W0_FNC_MASK : Z := GENMASK 28 17.
Definition SW_IND_CTXT_DATA_W1_QEN_MASK : Z := BIT 0.
Definition SW_IND_CTXT_DATA_W1_FCRD_EN_MASK : Z := BIT 1.
Definition SW_IND_CTXT_DATA_W1_WBI_CHK_MASK : Z := BIT 2.
Definition SW_IND_CTXT_DATA_W1_WBI_INTVL_EN_MASK : Z := BIT 3.
Definition SW_IND_CTXT_DATA_W1_AT_MASK : Z := BIT 4.
Definition SW_IND_CTXT_DATA_W1_FETCH_MAX_MASK : Z := GENMASK 8 5.
Definition SW_IND_CTXT_DATA_W1_RNG_SZ_MASK : Z := GENMASK 15 12.
Definition SW_IND_CTXT_DATA_W1_DSC_SZ_MASK : Z := GENMASK 17 16.
Definition SW_IND_CTXT_DATA_W1_BYPASS_MASK : Z := BIT 18.
Definition SW_IND_CTXT_DATA_W1_MM_CHN_MASK : Z := BIT 19.
Definition SW_IND_CTXT_DATA_W1_WBK_EN_MASK : Z := BIT 20.
Definition SW_IND_CTXT_DATA_W1_IRQ_EN_MASK : Z := BIT 21.
Definition SW_IND_CTXT_DATA_W1_PORT_ID_MASK : Z := GENMASK 24 22.
Definition SW_IND_CTXT_DATA_W1_IRQ_NO_LAST_MASK : Z := BIT 25.
Definition SW_IND_CTXT_DATA_W1_ERR_MASK : Z := GENMASK 27 26.
Definition SW_IND_CTXT_DATA_W1_ERR_WB_SENT_MASK : Z := BIT 28.
Definition SW_IND_CTXT_DATA_W1_IRQ_REQ_MASK : Z := BIT 29.
Definition SW_IND_CTXT_DATA_W1_MRKR_DIS_MASK : Z := BIT 30.
Definition SW_IND_CTXT_DATA_W1_IS_MM_MASK : Z := BIT 31.
Definition SW_IND_CTXT_DATA_W4_VEC_MASK : Z := GENMASK 10 0.
Definition SW_IND_CTXT_DATA_W4_INT_AGGR_MASK : Z := BIT 11.
Definition SW_IND_CTXT_DATA_W4_DIS_INTR_ON_VF_MASK : Z := BIT 12.
Definition SW_IND_CTXT_DATA_W4_VIRTIO_EN_MASK : Z := BIT 13.
Definition SW_IND_CTXT_DATA_W4_PACK_BYP_OUT_MASK : Z := BIT 14.
Definition SW_IND_CTXT_DATA_W4_IRQ_BYP_MASK : Z := BIT 15.
Definition SW_IND_CTXT_DATA_W4_HOST_ID_MASK : Z := GENMASK 19 16.
Definition SW_IND_CTXT_DATA_W4_PASID_L_MASK : Z := GENMASK 31 20.
Definition SW_IND_CTXT_DATA_W5_PASID_H_MASK : Z := GENMASK 9 0.
Definition SW_IND_CTXT_DATA_W5_PASID_EN_MASK : Z := BIT 10.
Definition SW_IND_CTXT_DATA_W5_VIRTIO_DSC_BASE_L_MASK : Z := GENMASK 31 11.
Definition SW_IND_CTXT_DATA_W6_VIRTIO_DSC_BASE_M_MASK : Z := GENMASK 31 0.
Definition SW_IND_CTXT_DATA_W7_VIRTIO_DSC_BASE_H_MASK : Z := GENMASK 10 0.
Definition QDMA_PFTCH_CTXT_SW_CRDT_GET_L_MASK : Z := GENMASK 2 0.
Definition QDMA_PFTCH_CTXT_SW_CRDT_GET_H_MASK : Z := GENMASK 15 3.
Definition PREFETCH_CTXT_DATA_W0_BYPASS_MASK : Z := BIT 0.
Definition PREFETCH_CTXT_DATA_W0_BUF_SZ_IDX_MASK : Z := GENMASK 4 1.
Definition PREFETCH_CTXT_DATA_W0_PORT_ID_MASK : Z := GENMASK 7 5.
Definition PREFETCH_CTXT_DATA_W0_NUM_PFCH_MASK : Z := GENMASK 15 10.
Definition PREFETCH_CTXT_DATA_W0_VAR_DESC_MASK : Z := BIT 8.
Definition PREFETCH_CTXT_DATA_W0_ERR_MASK : Z := BIT 26.
Definition PREFETCH_CTXT_DATA_W0_PFCH_EN_MASK : Z := BIT 27.
Definition PREFETCH_CTXT_DATA_W0_PFCH_MASK : Z := BIT 28.
Definition PREFETCH_CTXT_DATA_W0_SW_CRDT_L_MASK : Z := GENMASK 31 29.
Definition PREFETCH_CTXT_DATA_W1_SW_CRDT_H_MASK : Z := GENMASK 12 0.
Definition PREFETCH_CTXT_DATA_W1_VALID_MASK : Z := BIT 13.
Definition EQDMA_COMPL_CTXT_BADDR_HIGH_L_MASK : Z := GENMASK_ULL 37 6.
Definition EQDMA_COMPL_CTXT_BADDR_HIGH_H_MASK : Z := GENMASK_ULL 63 38.
Definition EQDMA_COMPL_CTXT_BADDR_LOW_MASK : Z := GENMASK_ULL 5 2.
Definition QDMA_COMPL_CTXT_PIDX_GET_L_MASK : Z := GENMASK 3 0.
Definition QDMA_COMPL_CTXT_PIDX_GET_H_MASK : Z := GENMASK 15 4.
Definition EQDMA_CMPL_CTXT_PASID_GET_L_MASK : Z := GENMASK 8 0.
Definition EQDMA_CMPL_CTXT_PASID_GET_H_MASK : Z := GENMASK 21 9.
Definition CMPL_CTXT_DATA_W0_EN_STAT_DESC_MASK : Z := BIT 0.
Definition CMPL_CTXT_DATA_W0_EN_INT_MASK : Z := BIT 1.
Definition CMPL_CTXT_DATA_W0_TRIG_MODE_MASK : Z := GENMASK 4 2.
Definition CMPL_CTXT_DATA_W0_FNC_ID_MASK : Z := GENMASK 16 5.
Definition CMPL_CTXT_DATA_W0_CNTER_IX_MASK : Z := GENMASK 20 17.
Definition CMPL_CTXT_DATA_W0_TIMER_IX_MASK : Z := GENMASK 24 21.
Definition CMPL_CTXT_DATA_W0_INT_ST_MASK : Z := GENMASK 26 25.
Definition CMPL_CTXT_DATA_W0_COLOR_MASK : Z := BIT 27.
Definition CMPL_CTXT_DATA_W0_QSIZE_IX_MASK : Z := GENMASK 31 28.
Definition CMPL_CTXT_DATA_W1_BADDR4_HIGH_L_MASK : Z := GENMASK 31 0.
Definition CMPL_CTXT_DATA_W2_BADDR4_HIGH_H_MASK : Z := GENMASK 25 0.
Definition CMPL_CTXT_DATA_W2_DESC_SIZE_MASK : Z := GENMASK 27 26.
Definition CMPL_CTXT_DATA_W2_PIDX_L_MASK : Z := GENMASK 31 28.
Definition CMPL_CTXT_DATA_W3_PIDX_H_MASK : Z := GENMASK 11 0.
Definition CMPL_CTXT_DATA_W3_CIDX_MASK : Z := GENMASK 27 12.
Definition CMPL_CTXT_DATA_W3_VALID_MASK : Z := BIT 28.
Definition CMPL_CTXT_DATA_W3_ERR_MASK : Z := GENMASK 30 29.
Definition CMPL_CTXT_DATA_W3_USER_TRIG_PEND_MASK : Z := BIT 31.
Definition CMPL_CTXT_DATA_W4_TIMER_RUNNING_MASK : Z := BIT 0.
Definition CMPL_CTXT_DATA_W4_FULL_UPD_MASK : Z := BIT 1.
Definition CMPL_CTXT_DATA_W4_OVF_CHK_DIS_MASK : Z := BIT 2.
Definition CMPL_CTXT_DATA_W4_AT_MASK : Z := BIT 3.
Definition CMPL_CTXT_DATA_W4_VEC_MASK : Z := GENMASK 14 4.
Definition CMPL_CTXT_DATA_W4_INT_AGGR_MASK : Z := BIT 15.
Definition CMPL_CTXT_DATA_W4_DIS_INTR_ON_VF_MASK : Z := BIT 16.
Definition CMPL_CTXT_DATA_W4_VIO_MASK : Z := BIT 17.
Definition CMPL_CTXT_DATA_W4_DIR_C2H_MASK : Z := BIT 18.
Definition CMPL_CTXT_DATA_W4_HOST_ID_MASK : Z := GENMASK 22 19.
Definition CMPL_CTXT_DATA_W4_PASID_L_MASK : Z := GENMASK 31 23.
Definition CMPL_CTXT_DATA_W5_PASID_H_MASK : Z := GENMASK 12 0.
Definition CMPL_CTXT_DATA_W5_PASID_EN_MASK : Z := BIT 13.
Definition CMPL_CTXT_DATA_W5_BADDR4_LOW_MASK : Z := GENMASK 17 14.
Definition CMPL_CTXT_DATA_W5_VIO_EOP_MASK : Z := BIT 18.
Definition CMPL_CTXT_DATA_W5_SH_CMPT_MASK : Z := BIT 19.
Definition QDMA_INTR_CTXT_BADDR_GET_L_MASK : Z := GENMASK_ULL 28 12.
Definition QDMA_INTR_CTXT_BADDR_GET_M_MASK : Z := GENMASK_ULL 60 29.
Definition QDMA_INTR_CTXT_BADDR_GET_H_MASK : Z := GENMASK_ULL 63 61.
Definition EQDMA_INTR_CTXT_PASID_GET_L_MASK : Z := GENMASK 8 0.
Definition EQDMA_INTR_CTXT_PASID_GET_H_MASK : Z := GENMASK 21 9.
Definition INTR_CTXT_DATA_W0_VALID_MASK : Z := BIT 0.
Definition INTR_CTXT_DATA_W0_VEC_MASK : Z := GENMASK 11 1.
Definition INTR_CTXT_DATA_W0_INT_ST_MASK : Z := BIT 13.
Definition INTR_CTXT_DATA_W0_COLOR_MASK : Z := BIT 14.
Definition INTR_CTXT_DATA_W0_BADDR_4K_L_MASK : Z := GENMASK 31 15.
Definition INTR_CTXT_DATA_W1_BADDR_4K_M_MASK : Z := GENMASK 31 0.
Definition INTR_CTXT_DATA_W2_BADDR_4K_H_MASK : Z := GENMASK 2 0.
Definition INTR_CTXT_DATA_W2_PAGE_SIZE_MASK : Z := GENMASK 5 3.
Definition INTR_CTXT_DATA_W2_PIDX_MASK : Z := GENMASK 17 6.
Definition INTR_CTXT_DATA_W2_AT_MASK : Z := BIT 18.
Definition INTR_CTXT_DATA_W2_HOST_ID_MASK : Z := GENMASK 22 19.
Definition INTR_CTXT_DATA_W2_PASID_L_MASK : Z := GENMASK 31 23.
Definition INTR_CTXT_DATA_W3_PASID_H_MASK : Z := GENMASK 12 0.
Definition INTR_CTXT_DATA_W3_PASID_EN_MASK : Z := BIT 13.
Definition INTR_CTXT_DATA_W3_FUNC_MASK : Z := GENMASK 29 18.
Definition EQDMA_FMAP_CTXT_W0_QID_MASK : Z := GENMASK 10 0.
Definition EQDMA_FMAP_CTXT_W1_QID_MAX_MASK : Z := GENMASK 11 0.
Definition HW_IND_CTXT_DATA_W0_CIDX_MASK : Z := GENMASK 15 0.
Definition HW_IND_CTXT_DATA_W0_CRD_USE_MASK : Z := GENMASK 31 16.
Definition HW_IND_CTXT_DATA_W1_DSC_PND_MASK : Z := BIT 8.
Definition HW_IND_CTXT_DATA_W1_IDL_STP_B_MASK : Z := BIT 9.
Definition HW_IND_CTXT_DATA_W1_EVT_PND_MASK : Z := BIT 10.
Definition CRED_CTXT_DATA_W0_CREDT_MASK : Z := GENMASK 15 0.
