(* ===== verification/Context.v ===== *)
(** * eqdma_soft_access.c, second part: the queue contexts

    The contexts the driver programs (software, prefetch, completion, function map,
    interrupt) and those it reads (hardware, credit), each as the record of the
    source; their words; and the operations [eqdma_*_context_write], [_read],
    [_clear], [_invalidate] and the dispatch functions [eqdma_*_conf].

    A member that is narrower than the [u8] or [u16] object it is read into is
    written with the conversion of the source.  [dev_hndl] and [ctxt] are pointers:
    [None] is [NULL].  A read returns the object behind [ctxt] as it leaves it.
    The theorems say what comes back when a context is written and read again. *)

From S2P Require Import Prelude Float64 Device Fields Indirect CtxtRegs.
From stdpp Require Import gmap.

Open Scope Z_scope.

(** ** The contexts (qdma_access_common.h) *)
Record qdma_descq_sw_ctxt := mkSw {
  sw_ring_bs_addr : Z; sw_vec : Z; sw_pidx : Z; sw_irq_arm : Z; sw_fnc_id : Z; sw_qen : Z;
  sw_frcd_en : Z; sw_wbi_chk : Z; sw_wbi_intvl_en : Z; sw_at : Z; sw_fetch_max : Z;
  sw_rngsz_idx : Z; sw_desc_sz : Z; sw_bypass : Z; sw_mm_chn : Z; sw_wbk_en : Z; sw_irq_en : Z;
  sw_port_id : Z; sw_irq_no_last : Z; sw_err : Z; sw_err_wb_sent : Z; sw_irq_req : Z;
  sw_mrkr_dis : Z; sw_is_mm : Z; sw_intr_aggr : Z; sw_pasid_en : Z; sw_dis_intr_on_vf : Z;
  sw_virtio_en : Z; sw_pack_byp_out : Z; sw_irq_byp : Z; sw_host_id : Z; sw_pasid : Z;
  sw_virtio_dsc_base : Z }.

Record qdma_descq_prefetch_ctxt := mkPf {
  pf_sw_crdt : Z; pf_bypass : Z; pf_bufsz_idx : Z; pf_port_id : Z; pf_var_desc : Z;
  pf_num_pftch : Z; pf_err : Z; pf_pfch_en : Z; pf_pfch : Z; pf_valid : Z }.

Record qdma_descq_cmpt_ctxt := mkCm {
  cm_bs_addr : Z; cm_vec : Z; cm_pidx : Z; cm_cidx : Z; cm_en_stat_desc : Z; cm_en_int : Z;
  cm_trig_mode : Z; cm_fnc_id : Z; cm_counter_idx : Z; cm_timer_idx : Z; cm_in_st : Z;
  cm_color : Z; cm_ringsz_idx : Z; cm_desc_sz : Z; cm_valid : Z; cm_err : Z;
  cm_user_trig_pend : Z; cm_timer_running : Z; cm_full_upd : Z; cm_ovf_chk_dis : Z; cm_at : Z;
  cm_int_aggr : Z; cm_dis_intr_on_vf : Z; cm_vio : Z; cm_dir_c2h : Z; cm_host_id : Z;
  cm_pasid : Z; cm_pasid_en : Z; cm_vio_eop : Z; cm_sh_cmpt : Z }.

Record qdma_indirect_intr_ctxt := mkIn {
  in_baddr_4k : Z; in_vec : Z; in_pidx : Z; in_valid : Z; in_int_st : Z; in_color : Z;
  in_page_size : Z; in_at : Z; in_host_id : Z; in_pasid : Z; in_pasid_en : Z; in_func_id : Z }.

Record qdma_descq_hw_ctxt := mkHwCtxt {
  hw_cidx : Z; hw_crd_use : Z; hw_dsc_pend : Z; hw_idl_stp_b : Z; hw_evt_pnd : Z;
  hw_fetch_pnd : Z }.

Record qdma_descq_credit_ctxt := mkCr {
  cr_credit : Z }.

Record qdma_fmap_cfg := mkFm {
  fm_qbase : Z; fm_qmax : Z }.

(** ** The words of a context *)
Definition sw_w0 (c : qdma_descq_sw_ctxt) : list (Z * Z) :=
  [(SW_IND_CTXT_DATA_W0_PIDX_MASK, sw_pidx c);
   (SW_IND_CTXT_DATA_W0_IRQ_ARM_MASK, sw_irq_arm c);
   (SW_IND_CTXT_DATA_W0_FNC_MASK, sw_fnc_id c)].

Definition sw_w1 (c : qdma_descq_sw_ctxt) : list (Z * Z) :=
  [(SW_IND_CTXT_DATA_W1_QEN_MASK, sw_qen c);
   (SW_IND_CTXT_DATA_W1_FCRD_EN_MASK, sw_frcd_en c);
   (SW_IND_CTXT_DATA_W1_WBI_CHK_MASK, sw_wbi_chk c);
   (SW_IND_CTXT_DATA_W1_WBI_INTVL_EN_MASK, sw_wbi_intvl_en c);
   (SW_IND_CTXT_DATA_W1_AT_MASK, sw_at c);
   (SW_IND_CTXT_DATA_W1_FETCH_MAX_MASK, sw_fetch_max c);
   (SW_IND_CTXT_DATA_W1_RNG_SZ_MASK, sw_rngsz_idx c);
   (SW_IND_CTXT_DATA_W1_DSC_SZ_MASK, sw_desc_sz c);
   (SW_IND_CTXT_DATA_W1_BYPASS_MASK, sw_bypass c);
   (SW_IND_CTXT_DATA_W1_MM_CHN_MASK, sw_mm_chn c);
   (SW_IND_CTXT_DATA_W1_WBK_EN_MASK, sw_wbk_en c);
   (SW_IND_CTXT_DATA_W1_IRQ_EN_MASK, sw_irq_en c);
   (SW_IND_CTXT_DATA_W1_PORT_ID_MASK, sw_port_id c);
   (SW_IND_CTXT_DATA_W1_IRQ_NO_LAST_MASK, sw_irq_no_last c);
   (SW_IND_CTXT_DATA_W1_ERR_MASK, sw_err c);
   (SW_IND_CTXT_DATA_W1_ERR_WB_SENT_MASK, sw_err_wb_sent c);
   (SW_IND_CTXT_DATA_W1_IRQ_REQ_MASK, sw_irq_req c);
   (SW_IND_CTXT_DATA_W1_MRKR_DIS_MASK, sw_mrkr_dis c);
   (SW_IND_CTXT_DATA_W1_IS_MM_MASK, sw_is_mm c)].

Definition sw_w4 (c : qdma_descq_sw_ctxt) : list (Z * Z) :=
  [(SW_IND_CTXT_DATA_W4_VEC_MASK, sw_vec c);
   (SW_IND_CTXT_DATA_W4_INT_AGGR_MASK, sw_intr_aggr c);
   (SW_IND_CTXT_DATA_W4_DIS_INTR_ON_VF_MASK, sw_dis_intr_on_vf c);
   (SW_IND_CTXT_DATA_W4_VIRTIO_EN_MASK, sw_virtio_en c);
   (SW_IND_CTXT_DATA_W4_PACK_BYP_OUT_MASK, sw_pack_byp_out c);
   (SW_IND_CTXT_DATA_W4_IRQ_BYP_MASK, sw_irq_byp c);
   (SW_IND_CTXT_DATA_W4_HOST_ID_MASK, sw_host_id c);
   (SW_IND_CTXT_DATA_W4_PASID_L_MASK, FIELD_GET EQDMA_SW_CTXT_PASID_GET_L_MASK (sw_pasid c))].

Definition sw_w5 (c : qdma_descq_sw_ctxt) : list (Z * Z) :=
  [(SW_IND_CTXT_DATA_W5_PASID_H_MASK, FIELD_GET EQDMA_SW_CTXT_PASID_GET_H_MASK (sw_pasid c));
   (SW_IND_CTXT_DATA_W5_PASID_EN_MASK, sw_pasid_en c);
   (SW_IND_CTXT_DATA_W5_VIRTIO_DSC_BASE_L_MASK,
      FIELD_GET EQDMA_SW_CTXT_VIRTIO_DSC_BASE_GET_L_MASK (sw_virtio_dsc_base c))].

Definition sw_w6 (c : qdma_descq_sw_ctxt) : list (Z * Z) :=
  [(SW_IND_CTXT_DATA_W6_VIRTIO_DSC_BASE_M_MASK,
     FIELD_GET EQDMA_SW_CTXT_VIRTIO_DSC_BASE_GET_M_MASK (sw_virtio_dsc_base c))].

Definition sw_w7 (c : qdma_descq_sw_ctxt) : list (Z * Z) :=
  [(SW_IND_CTXT_DATA_W7_VIRTIO_DSC_BASE_H_MASK,
     FIELD_GET EQDMA_SW_CTXT_VIRTIO_DSC_BASE_GET_H_MASK (sw_virtio_dsc_base c))].

Definition sw_words (c : qdma_descq_sw_ctxt) : list Z :=
  [word (sw_w0 c);
   word (sw_w1 c);
   Z.land (sw_ring_bs_addr c) 0xffffffff;
   Z.land (Z.shiftr (sw_ring_bs_addr c) 32) 0xffffffff;
   word (sw_w4 c);
   word (sw_w5 c);
   word (sw_w6 c);
   word (sw_w7 c)].

Definition pf_w0 (c : qdma_descq_prefetch_ctxt) : list (Z * Z) :=
  [(PREFETCH_CTXT_DATA_W0_BYPASS_MASK, pf_bypass c);
   (PREFETCH_CTXT_DATA_W0_BUF_SZ_IDX_MASK, pf_bufsz_idx c);
   (PREFETCH_CTXT_DATA_W0_PORT_ID_MASK, pf_port_id c);
   (PREFETCH_CTXT_DATA_W0_NUM_PFCH_MASK, pf_num_pftch c);
   (PREFETCH_CTXT_DATA_W0_VAR_DESC_MASK, pf_var_desc c);
   (PREFETCH_CTXT_DATA_W0_ERR_MASK, pf_err c);
   (PREFETCH_CTXT_DATA_W0_PFCH_EN_MASK, pf_pfch_en c);
   (PREFETCH_CTXT_DATA_W0_PFCH_MASK, pf_pfch c);
   (PREFETCH_CTXT_DATA_W0_SW_CRDT_L_MASK,
      FIELD_GET QDMA_PFTCH_CTXT_SW_CRDT_GET_L_MASK (pf_sw_crdt c))].

Definition pf_w1 (c : qdma_descq_prefetch_ctxt) : list (Z * Z) :=
  [(PREFETCH_CTXT_DATA_W1_SW_CRDT_H_MASK,
     FIELD_GET QDMA_PFTCH_CTXT_SW_CRDT_GET_H_MASK (pf_sw_crdt c));
   (PREFETCH_CTXT_DATA_W1_VALID_MASK, pf_valid c)].

Definition pf_words (c : qdma_descq_prefetch_ctxt) : list Z :=
  [word (pf_w0 c);
   word (pf_w1 c)].

Definition cm_w0 (c : qdma_descq_cmpt_ctxt) : list (Z * Z) :=
  [(CMPL_CTXT_DATA_W0_EN_STAT_DESC_MASK, cm_en_stat_desc c);
   (CMPL_CTXT_DATA_W0_EN_INT_MASK, cm_en_int c);
   (CMPL_CTXT_DATA_W0_TRIG_MODE_MASK, cm_trig_mode c);
   (CMPL_CTXT_DATA_W0_FNC_ID_MASK, cm_fnc_id c);
   (CMPL_CTXT_DATA_W0_CNTER_IX_MASK, cm_counter_idx c);
   (CMPL_CTXT_DATA_W0_TIMER_IX_MASK, cm_timer_idx c);
   (CMPL_CTXT_DATA_W0_INT_ST_MASK, cm_in_st c);
   (CMPL_CTXT_DATA_W0_COLOR_MASK, cm_color c);
   (CMPL_CTXT_DATA_W0_QSIZE_IX_MASK, cm_ringsz_idx c)].

Definition cm_w1 (c : qdma_descq_cmpt_ctxt) : list (Z * Z) :=
  [(CMPL_CTXT_DATA_W1_BADDR4_HIGH_L_MASK,
     FIELD_GET EQDMA_COMPL_CTXT_BADDR_HIGH_L_MASK (cm_bs_addr c))].

Definition cm_w2 (c : qdma_descq_cmpt_ctxt) : list (Z * Z) :=
  [(CMPL_CTXT_DATA_W2_BADDR4_HIGH_H_MASK,
     FIELD_GET EQDMA_COMPL_CTXT_BADDR_HIGH_H_MASK (cm_bs_addr c));
   (CMPL_CTXT_DATA_W2_DESC_SIZE_MASK, cm_desc_sz c);
   (CMPL_CTXT_DATA_W2_PIDX_L_MASK, FIELD_GET QDMA_COMPL_CTXT_PIDX_GET_L_MASK (cm_pidx c))].

Definition cm_w3 (c : qdma_descq_cmpt_ctxt) : list (Z * Z) :=
  [(CMPL_CTXT_DATA_W3_PIDX_H_MASK, FIELD_GET QDMA_COMPL_CTXT_PIDX_GET_H_MASK (cm_pidx c));
   (CMPL_CTXT_DATA_W3_CIDX_MASK, cm_cidx c);
   (CMPL_CTXT_DATA_W3_VALID_MASK, cm_valid c);
   (CMPL_CTXT_DATA_W3_ERR_MASK, cm_err c);
   (CMPL_CTXT_DATA_W3_USER_TRIG_PEND_MASK, cm_user_trig_pend c)].

Definition cm_w4 (c : qdma_descq_cmpt_ctxt) : list (Z * Z) :=
  [(CMPL_CTXT_DATA_W4_TIMER_RUNNING_MASK, cm_timer_running c);
   (CMPL_CTXT_DATA_W4_FULL_UPD_MASK, cm_full_upd c);
   (CMPL_CTXT_DATA_W4_OVF_CHK_DIS_MASK, cm_ovf_chk_dis c);
   (CMPL_CTXT_DATA_W4_AT_MASK, cm_at c);
   (CMPL_CTXT_DATA_W4_VEC_MASK, cm_vec c);
   (CMPL_CTXT_DATA_W4_INT_AGGR_MASK, cm_int_aggr c);
   (CMPL_CTXT_DATA_W4_DIS_INTR_ON_VF_MASK, cm_dis_intr_on_vf c);
   (CMPL_CTXT_DATA_W4_VIO_MASK, cm_vio c);
   (CMPL_CTXT_DATA_W4_DIR_C2H_MASK, cm_dir_c2h c);
   (CMPL_CTXT_DATA_W4_HOST_ID_MASK, cm_host_id c);
   (CMPL_CTXT_DATA_W4_PASID_L_MASK, FIELD_GET EQDMA_CMPL_CTXT_PASID_GET_L_MASK (cm_pasid c))].

Definition cm_w5 (c : qdma_descq_cmpt_ctxt) : list (Z * Z) :=
  [(CMPL_CTXT_DATA_W5_PASID_H_MASK, FIELD_GET EQDMA_CMPL_CTXT_PASID_GET_H_MASK (cm_pasid c));
   (CMPL_CTXT_DATA_W5_PASID_EN_MASK, cm_pasid_en c);
   (CMPL_CTXT_DATA_W5_BADDR4_LOW_MASK, FIELD_GET EQDMA_COMPL_CTXT_BADDR_LOW_MASK (cm_bs_addr c));
   (CMPL_CTXT_DATA_W5_VIO_EOP_MASK, cm_vio_eop c);
   (CMPL_CTXT_DATA_W5_SH_CMPT_MASK, cm_sh_cmpt c)].

Definition cm_words (c : qdma_descq_cmpt_ctxt) : list Z :=
  [word (cm_w0 c);
   word (cm_w1 c);
   word (cm_w2 c);
   word (cm_w3 c);
   word (cm_w4 c);
   word (cm_w5 c)].

Definition in_w0 (c : qdma_indirect_intr_ctxt) : list (Z * Z) :=
  [(INTR_CTXT_DATA_W0_VALID_MASK, in_valid c);
   (INTR_CTXT_DATA_W0_VEC_MASK, in_vec c);
   (INTR_CTXT_DATA_W0_INT_ST_MASK, in_int_st c);
   (INTR_CTXT_DATA_W0_COLOR_MASK, in_color c);
   (INTR_CTXT_DATA_W0_BADDR_4K_L_MASK, FIELD_GET QDMA_INTR_CTXT_BADDR_GET_L_MASK (in_baddr_4k c))].

Definition in_w1 (c : qdma_indirect_intr_ctxt) : list (Z * Z) :=
  [(INTR_CTXT_DATA_W1_BADDR_4K_M_MASK, FIELD_GET QDMA_INTR_CTXT_BADDR_GET_M_MASK (in_baddr_4k c))].

Definition in_w2 (c : qdma_indirect_intr_ctxt) : list (Z * Z) :=
  [(INTR_CTXT_DATA_W2_BADDR_4K_H_MASK, FIELD_GET QDMA_INTR_CTXT_BADDR_GET_H_MASK (in_baddr_4k c));
   (INTR_CTXT_DATA_W2_PAGE_SIZE_MASK, in_page_size c);
   (INTR_CTXT_DATA_W2_PIDX_MASK, in_pidx c);
   (INTR_CTXT_DATA_W2_AT_MASK, in_at c);
   (INTR_CTXT_DATA_W2_HOST_ID_MASK, in_host_id c);
   (INTR_CTXT_DATA_W2_PASID_L_MASK, FIELD_GET EQDMA_INTR_CTXT_PASID_GET_L_MASK (in_pasid c))].

Definition in_w3 (c : qdma_indirect_intr_ctxt) : list (Z * Z) :=
  [(INTR_CTXT_DATA_W3_PASID_H_MASK, FIELD_GET EQDMA_INTR_CTXT_PASID_GET_H_MASK (in_pasid c));
   (INTR_CTXT_DATA_W3_PASID_EN_MASK, in_pasid_en c);
   (INTR_CTXT_DATA_W3_FUNC_MASK, in_func_id c)].

Definition in_words (c : qdma_indirect_intr_ctxt) : list Z :=
  [word (in_w0 c);
   word (in_w1 c);
   word (in_w2 c);
   word (in_w3 c)].

Definition fm_w0 (c : qdma_fmap_cfg) : list (Z * Z) :=
  [(EQDMA_FMAP_CTXT_W0_QID_MASK, fm_qbase c)].

Definition fm_w1 (c : qdma_fmap_cfg) : list (Z * Z) :=
  [(EQDMA_FMAP_CTXT_W1_QID_MAX_MASK, fm_qmax c)].

Definition fm_words (c : qdma_fmap_cfg) : list Z :=
  [word (fm_w0 c);
   word (fm_w1 c)].

(** ** A context from its words *)
Definition sw_of_words (ctxt : list Z) : outcome qdma_descq_sw_ctxt :=
  match ctxt with
  | [w0; w1; w2; w3; w4; w5; w6; w7] =>
      let pasid_l := FIELD_GET SW_IND_CTXT_DATA_W4_PASID_L_MASK w4 in
      let pasid_h := FIELD_GET SW_IND_CTXT_DATA_W5_PASID_H_MASK w5 in
      let virtio_desc_base_l := FIELD_GET SW_IND_CTXT_DATA_W5_VIRTIO_DSC_BASE_L_MASK w5 in
      let virtio_desc_base_m := FIELD_GET SW_IND_CTXT_DATA_W6_VIRTIO_DSC_BASE_M_MASK w6 in
      let virtio_desc_base_h := FIELD_GET SW_IND_CTXT_DATA_W7_VIRTIO_DSC_BASE_H_MASK w6 in
      Ok {|
        sw_ring_bs_addr := Z.lor (Z.shiftl w3 32) w2;
        sw_vec := u16 (FIELD_GET SW_IND_CTXT_DATA_W4_VEC_MASK w4);
        sw_pidx := u16 (FIELD_GET SW_IND_CTXT_DATA_W0_PIDX_MASK w0);
        sw_irq_arm := u8 (FIELD_GET SW_IND_CTXT_DATA_W0_IRQ_ARM_MASK w0);
        sw_fnc_id := u8 (FIELD_GET SW_IND_CTXT_DATA_W0_FNC_MASK w0);
        sw_qen := u8 (FIELD_GET SW_IND_CTXT_DATA_W1_QEN_MASK w1);
        sw_frcd_en := u8 (FIELD_GET SW_IND_CTXT_DATA_W1_FCRD_EN_MASK w1);
        sw_wbi_chk := u8 (FIELD_GET SW_IND_CTXT_DATA_W1_WBI_CHK_MASK w1);
        sw_wbi_intvl_en := u8 (FIELD_GET SW_IND_CTXT_DATA_W1_WBI_INTVL_EN_MASK w1);
        sw_at := u8 (FIELD_GET SW_IND_CTXT_DATA_W1_AT_MASK w1);
        sw_fetch_max := u8 (FIELD_GET SW_IND_CTXT_DATA_W1_FETCH_MAX_MASK w1);
        sw_rngsz_idx := u8 (FIELD_GET SW_IND_CTXT_DATA_W1_RNG_SZ_MASK w1);
        sw_desc_sz := u8 (FIELD_GET SW_IND_CTXT_DATA_W1_DSC_SZ_MASK w1);
        sw_bypass := u8 (FIELD_GET SW_IND_CTXT_DATA_W1_BYPASS_MASK w1);
        sw_mm_chn := u8 (FIELD_GET SW_IND_CTXT_DATA_W1_MM_CHN_MASK w1);
        sw_wbk_en := u8 (FIELD_GET SW_IND_CTXT_DATA_W1_WBK_EN_MASK w1);
        sw_irq_en := u8 (FIELD_GET SW_IND_CTXT_DATA_W1_IRQ_EN_MASK w1);
        sw_port_id := u8 (FIELD_GET SW_IND_CTXT_DATA_W1_PORT_ID_MASK w1);
        sw_irq_no_last := u8 (FIELD_GET SW_IND_CTXT_DATA_W1_IRQ_NO_LAST_MASK w1);
        sw_err := u8 (FIELD_GET SW_IND_CTXT_DATA_W1_ERR_MASK w1);
        sw_err_wb_sent := u8 (FIELD_GET SW_IND_CTXT_DATA_W1_ERR_WB_SENT_MASK w1);
        sw_irq_req := u8 (FIELD_GET SW_IND_CTXT_DATA_W1_IRQ_REQ_MASK w1);
        sw_mrkr_dis := u8 (FIELD_GET SW_IND_CTXT_DATA_W1_MRKR_DIS_MASK w1);
        sw_is_mm := u8 (FIELD_GET SW_IND_CTXT_DATA_W1_IS_MM_MASK w1);
        sw_intr_aggr := u8 (FIELD_GET SW_IND_CTXT_DATA_W4_INT_AGGR_MASK w4);
        sw_pasid_en := u8 (FIELD_GET SW_IND_CTXT_DATA_W5_PASID_EN_MASK w5);
        sw_dis_intr_on_vf := u8 (FIELD_GET SW_IND_CTXT_DATA_W4_DIS_INTR_ON_VF_MASK w4);
        sw_virtio_en := u8 (FIELD_GET SW_IND_CTXT_DATA_W4_VIRTIO_EN_MASK w4);
        sw_pack_byp_out := u8 (FIELD_GET SW_IND_CTXT_DATA_W4_PACK_BYP_OUT_MASK w4);
        sw_irq_byp := u8 (FIELD_GET SW_IND_CTXT_DATA_W4_IRQ_BYP_MASK w4);
        sw_host_id := u8 (FIELD_GET SW_IND_CTXT_DATA_W4_HOST_ID_MASK w4);
        sw_pasid := Z.lor
          (FIELD_SET EQDMA_SW_CTXT_PASID_GET_L_MASK pasid_l)
          (FIELD_SET EQDMA_SW_CTXT_PASID_GET_H_MASK pasid_h);
        sw_virtio_dsc_base := Z.lor
          (FIELD_SET EQDMA_SW_CTXT_VIRTIO_DSC_BASE_GET_L_MASK virtio_desc_base_l)
          (Z.lor (FIELD_SET EQDMA_SW_CTXT_VIRTIO_DSC_BASE_GET_M_MASK virtio_desc_base_m)
          (FIELD_SET EQDMA_SW_CTXT_VIRTIO_DSC_BASE_GET_H_MASK virtio_desc_base_h)) |}
  | _ => Fault OutOfBounds
  end.

Definition pf_of_words (ctxt : list Z) : outcome qdma_descq_prefetch_ctxt :=
  match ctxt with
  | [w0; w1] =>
      let sw_crdt_l := FIELD_GET PREFETCH_CTXT_DATA_W0_SW_CRDT_L_MASK w0 in
      let sw_crdt_h := FIELD_GET PREFETCH_CTXT_DATA_W1_SW_CRDT_H_MASK w1 in
      Ok {|
        pf_sw_crdt := u16
          (Z.lor (FIELD_SET QDMA_PFTCH_CTXT_SW_CRDT_GET_L_MASK sw_crdt_l)
          (FIELD_SET QDMA_PFTCH_CTXT_SW_CRDT_GET_H_MASK sw_crdt_h));
        pf_bypass := u8 (FIELD_GET PREFETCH_CTXT_DATA_W0_BYPASS_MASK w0);
        pf_bufsz_idx := u8 (FIELD_GET PREFETCH_CTXT_DATA_W0_BUF_SZ_IDX_MASK w0);
        pf_port_id := u8 (FIELD_GET PREFETCH_CTXT_DATA_W0_PORT_ID_MASK w0);
        pf_var_desc := u8 (FIELD_GET PREFETCH_CTXT_DATA_W0_VAR_DESC_MASK w0);
        pf_num_pftch := u16 (FIELD_GET PREFETCH_CTXT_DATA_W0_NUM_PFCH_MASK w0);
        pf_err := u8 (FIELD_GET PREFETCH_CTXT_DATA_W0_ERR_MASK w0);
        pf_pfch_en := u8 (FIELD_GET PREFETCH_CTXT_DATA_W0_PFCH_EN_MASK w0);
        pf_pfch := u8 (FIELD_GET PREFETCH_CTXT_DATA_W0_PFCH_MASK w0);
        pf_valid := u8 (FIELD_GET PREFETCH_CTXT_DATA_W1_VALID_MASK w1) |}
  | _ => Fault OutOfBounds
  end.

Definition cm_of_words (ctxt : list Z) : outcome qdma_descq_cmpt_ctxt :=
  match ctxt with
  | [w0; w1; w2; w3; w4; w5] =>
      let baddr4_high_l := FIELD_GET CMPL_CTXT_DATA_W1_BADDR4_HIGH_L_MASK w1 in
      let baddr4_high_h := FIELD_GET CMPL_CTXT_DATA_W2_BADDR4_HIGH_H_MASK w2 in
      let pidx_l := FIELD_GET CMPL_CTXT_DATA_W2_PIDX_L_MASK w2 in
      let pidx_h := FIELD_GET CMPL_CTXT_DATA_W3_PIDX_H_MASK w3 in
      let pasid_l := FIELD_GET CMPL_CTXT_DATA_W4_PASID_L_MASK w4 in
      let pasid_h := FIELD_GET CMPL_CTXT_DATA_W5_PASID_H_MASK w5 in
      let baddr4_low := u8 (FIELD_GET CMPL_CTXT_DATA_W5_BADDR4_LOW_MASK w5) in
      Ok {|
        cm_bs_addr := Z.lor
          (FIELD_SET EQDMA_COMPL_CTXT_BADDR_HIGH_L_MASK baddr4_high_l)
          (Z.lor (FIELD_SET EQDMA_COMPL_CTXT_BADDR_HIGH_H_MASK baddr4_high_h)
          (FIELD_SET EQDMA_COMPL_CTXT_BADDR_LOW_MASK baddr4_low));
        cm_vec := u16 (FIELD_GET CMPL_CTXT_DATA_W4_VEC_MASK w4);
        cm_pidx := u16
          (Z.lor (FIELD_SET QDMA_COMPL_CTXT_PIDX_GET_L_MASK pidx_l)
          (FIELD_SET QDMA_COMPL_CTXT_PIDX_GET_H_MASK pidx_h));
        cm_cidx := u16 (FIELD_GET CMPL_CTXT_DATA_W3_CIDX_MASK w3);
        cm_en_stat_desc := u8 (FIELD_GET CMPL_CTXT_DATA_W0_EN_STAT_DESC_MASK w0);
        cm_en_int := u8 (FIELD_GET CMPL_CTXT_DATA_W0_EN_INT_MASK w0);
        cm_trig_mode := u8 (FIELD_GET CMPL_CTXT_DATA_W0_TRIG_MODE_MASK w0);
        cm_fnc_id := u8 (FIELD_GET CMPL_CTXT_DATA_W0_FNC_ID_MASK w0);
        cm_counter_idx := u8 (FIELD_GET CMPL_CTXT_DATA_W0_CNTER_IX_MASK w0);
        cm_timer_idx := u8 (FIELD_GET CMPL_CTXT_DATA_W0_TIMER_IX_MASK w0);
        cm_in_st := u8 (FIELD_GET CMPL_CTXT_DATA_W0_INT_ST_MASK w0);
        cm_color := u8 (FIELD_GET CMPL_CTXT_DATA_W0_COLOR_MASK w0);
        cm_ringsz_idx := u8 (FIELD_GET CMPL_CTXT_DATA_W0_QSIZE_IX_MASK w0);
        cm_desc_sz := u8 (FIELD_GET CMPL_CTXT_DATA_W2_DESC_SIZE_MASK w2);
        cm_valid := u8 (FIELD_GET CMPL_CTXT_DATA_W3_VALID_MASK w3);
        cm_err := u8 (FIELD_GET CMPL_CTXT_DATA_W3_ERR_MASK w3);
        cm_user_trig_pend := u8 (FIELD_GET CMPL_CTXT_DATA_W3_USER_TRIG_PEND_MASK w3);
        cm_timer_running := u8 (FIELD_GET CMPL_CTXT_DATA_W4_TIMER_RUNNING_MASK w4);
        cm_full_upd := u8 (FIELD_GET CMPL_CTXT_DATA_W4_FULL_UPD_MASK w4);
        cm_ovf_chk_dis := u8 (FIELD_GET CMPL_CTXT_DATA_W4_OVF_CHK_DIS_MASK w4);
        cm_at := u8 (FIELD_GET CMPL_CTXT_DATA_W4_AT_MASK w4);
        cm_int_aggr := u8 (FIELD_GET CMPL_CTXT_DATA_W4_INT_AGGR_MASK w4);
        cm_dis_intr_on_vf := u8 (FIELD_GET CMPL_CTXT_DATA_W4_DIS_INTR_ON_VF_MASK w4);
        cm_vio := u8 (FIELD_GET CMPL_CTXT_DATA_W4_VIO_MASK w4);
        cm_dir_c2h := u8 (FIELD_GET CMPL_CTXT_DATA_W4_DIR_C2H_MASK w4);
        cm_host_id := u8 (FIELD_GET CMPL_CTXT_DATA_W4_HOST_ID_MASK w4);
        cm_pasid := Z.lor
          (FIELD_SET EQDMA_CMPL_CTXT_PASID_GET_L_MASK pasid_l)
          (FIELD_SET EQDMA_CMPL_CTXT_PASID_GET_H_MASK pasid_h);
        cm_pasid_en := u8 (FIELD_GET CMPL_CTXT_DATA_W5_PASID_EN_MASK w5);
        cm_vio_eop := u8 (FIELD_GET CMPL_CTXT_DATA_W5_VIO_EOP_MASK w5);
        cm_sh_cmpt := u8 (FIELD_GET CMPL_CTXT_DATA_W5_SH_CMPT_MASK w5) |}
  | _ => Fault OutOfBounds
  end.

Definition in_of_words (ctxt : list Z) : outcome qdma_indirect_intr_ctxt :=
  match ctxt with
  | [w0; w1; w2; w3] =>
      let baddr_l := FIELD_GET INTR_CTXT_DATA_W0_BADDR_4K_L_MASK w0 in
      let baddr_m := FIELD_GET INTR_CTXT_DATA_W1_BADDR_4K_M_MASK w1 in
      let baddr_h := FIELD_GET INTR_CTXT_DATA_W2_BADDR_4K_H_MASK w2 in
      let pasid_l := u8 (FIELD_GET INTR_CTXT_DATA_W2_PASID_L_MASK w2) in
      let pasid_h := FIELD_GET INTR_CTXT_DATA_W3_PASID_H_MASK w3 in
      Ok {|
        in_baddr_4k := Z.lor
          (FIELD_SET QDMA_INTR_CTXT_BADDR_GET_L_MASK baddr_l)
          (Z.lor (FIELD_SET QDMA_INTR_CTXT_BADDR_GET_M_MASK baddr_m)
          (FIELD_SET QDMA_INTR_CTXT_BADDR_GET_H_MASK baddr_h));
        in_vec := u16 (FIELD_GET INTR_CTXT_DATA_W0_VEC_MASK w0);
        in_pidx := u16 (FIELD_GET INTR_CTXT_DATA_W2_PIDX_MASK w2);
        in_valid := u8 (FIELD_GET INTR_CTXT_DATA_W0_VALID_MASK w0);
        in_int_st := u8 (FIELD_GET INTR_CTXT_DATA_W0_INT_ST_MASK w0);
        in_color := u8 (FIELD_GET INTR_CTXT_DATA_W0_COLOR_MASK w0);
        in_page_size := u8 (FIELD_GET INTR_CTXT_DATA_W2_PAGE_SIZE_MASK w2);
        in_at := u8 (FIELD_GET INTR_CTXT_DATA_W2_AT_MASK w2);
        in_host_id := u8 (FIELD_GET INTR_CTXT_DATA_W2_HOST_ID_MASK w2);
        in_pasid := Z.lor
          (FIELD_SET EQDMA_INTR_CTXT_PASID_GET_L_MASK pasid_l)
          (FIELD_SET EQDMA_INTR_CTXT_PASID_GET_H_MASK pasid_h);
        in_pasid_en := u8 (FIELD_GET INTR_CTXT_DATA_W3_PASID_EN_MASK w3);
        in_func_id := u16 (FIELD_GET INTR_CTXT_DATA_W3_FUNC_MASK w3) |}
  | _ => Fault OutOfBounds
  end.

Definition hw_of_words (ctxt : list Z) : outcome qdma_descq_hw_ctxt :=
  match ctxt with
  | [w0; w1] =>
      Ok {|
        hw_cidx := u16 (FIELD_GET HW_IND_CTXT_DATA_W0_CIDX_MASK w0);
        hw_crd_use := u16 (FIELD_GET HW_IND_CTXT_DATA_W0_CRD_USE_MASK w0);
        hw_dsc_pend := u8 (FIELD_GET HW_IND_CTXT_DATA_W1_DSC_PND_MASK w1);
        hw_idl_stp_b := u8 (FIELD_GET HW_IND_CTXT_DATA_W1_IDL_STP_B_MASK w1);
        hw_evt_pnd := u8 (FIELD_GET HW_IND_CTXT_DATA_W1_EVT_PND_MASK w1);
        hw_fetch_pnd := u8 (FIELD_GET HW_IND_CTXT_DATA_W1_DSC_PND_MASK w1) |}
  | _ => Fault OutOfBounds
  end.

Definition cr_of_words (ctxt : list Z) : outcome qdma_descq_credit_ctxt :=
  match ctxt with
  | [w0] =>
      Ok {|
        cr_credit := FIELD_GET CRED_CTXT_DATA_W0_CREDT_MASK w0 |}
  | _ => Fault OutOfBounds
  end.

Definition fm_of_words (ctxt : list Z) : outcome qdma_fmap_cfg :=
  match ctxt with
  | [w0; w1] =>
      Ok {|
        fm_qbase := u16 (FIELD_GET EQDMA_FMAP_CTXT_W0_QID_MASK w0);
        fm_qmax := u16 (FIELD_GET EQDMA_FMAP_CTXT_W1_QID_MAX_MASK w1) |}
  | _ => Fault OutOfBounds
  end.


(** ** The operations *)
Inductive qdma_hw_access_type :=
  | QDMA_HW_ACCESS_READ | QDMA_HW_ACCESS_WRITE | QDMA_HW_ACCESS_CLEAR
  | QDMA_HW_ACCESS_INVALIDATE | QDMA_HW_ACCESS_MAX.

Definition QDMA_CMPT_UPDATE_TRIG_MODE_TMR_CNTR : Z := 5.

Section contexts.
Context {W : Type} `{io : IoMem W}.

Definition sw_sel (c2h : Z) : ind_ctxt_cmd_sel :=
  if decide (c2h <> 0) then QDMA_CTXT_SEL_SW_C2H else QDMA_CTXT_SEL_SW_H2C.

Definition EQDMA_SW_CONTEXT_NUM_WORDS : nat := 8.

Definition eqdma_sw_context_write (dev_hndl : option Z) (c2h hw_qid : Z)
    (ctxt : option qdma_descq_sw_ctxt) : cmd W Z :=
  match dev_hndl, ctxt with
  | Some dev, Some c =>
      eqdma_indirect_reg_write dev (sw_sel c2h) hw_qid (sw_words c)
  | _, _ => mret (- QDMA_ERR_INV_PARAM)
  end.

Definition eqdma_sw_context_read (dev_hndl : option Z) (c2h hw_qid : Z)
    (ctxt : option qdma_descq_sw_ctxt) : cmd W (Z * option qdma_descq_sw_ctxt) :=
  match dev_hndl, ctxt with
  | Some dev, Some c =>
      '(rv, words) ← eqdma_indirect_reg_read dev (sw_sel c2h) hw_qid EQDMA_SW_CONTEXT_NUM_WORDS;
      if decide (rv < 0) then mret (rv, ctxt) else
      c' ← lift (sw_of_words words); mret (QDMA_SUCCESS, Some c')
  | _, _ => mret (- QDMA_ERR_INV_PARAM, ctxt)
  end.

Definition eqdma_sw_context_clear (dev_hndl : option Z) (c2h hw_qid : Z) : cmd W Z :=
  match dev_hndl with
  | Some dev => eqdma_indirect_reg_clear dev (sw_sel c2h) hw_qid
  | None => mret (- QDMA_ERR_INV_PARAM)
  end.

Definition eqdma_sw_context_invalidate (dev_hndl : option Z) (c2h hw_qid : Z) : cmd W Z :=
  match dev_hndl with
  | Some dev => eqdma_indirect_reg_invalidate dev (sw_sel c2h) hw_qid
  | None => mret (- QDMA_ERR_INV_PARAM)
  end.

Definition eqdma_sw_ctx_conf (dev_hndl : option Z) (c2h hw_qid : Z) (ctxt : option qdma_descq_sw_ctxt)
    (access_type : qdma_hw_access_type) : cmd W (Z * option qdma_descq_sw_ctxt) :=
  match access_type with
  | QDMA_HW_ACCESS_READ => eqdma_sw_context_read dev_hndl c2h hw_qid ctxt
  | QDMA_HW_ACCESS_WRITE => rv ← eqdma_sw_context_write dev_hndl c2h hw_qid ctxt; mret (rv, ctxt)
  | QDMA_HW_ACCESS_CLEAR => rv ← eqdma_sw_context_clear dev_hndl c2h hw_qid; mret (rv, ctxt)
  | QDMA_HW_ACCESS_INVALIDATE => rv ← eqdma_sw_context_invalidate dev_hndl c2h hw_qid; mret (rv, ctxt)
  | _ => mret (- QDMA_ERR_INV_PARAM, ctxt)
  end.

Definition EQDMA_PFETCH_CONTEXT_NUM_WORDS : nat := 2.

Definition eqdma_pfetch_context_write (dev_hndl : option Z) (hw_qid : Z)
    (ctxt : option qdma_descq_prefetch_ctxt) : cmd W Z :=
  match dev_hndl, ctxt with
  | Some dev, Some c =>
      eqdma_indirect_reg_write dev QDMA_CTXT_SEL_PFTCH hw_qid (pf_words c)
  | _, _ => mret (- QDMA_ERR_INV_PARAM)
  end.

Definition eqdma_pfetch_context_read (dev_hndl : option Z) (hw_qid : Z)
    (ctxt : option qdma_descq_prefetch_ctxt) : cmd W (Z * option qdma_descq_prefetch_ctxt) :=
  match dev_hndl, ctxt with
  | Some dev, Some c =>
      '(rv, words) ← eqdma_indirect_reg_read dev QDMA_CTXT_SEL_PFTCH hw_qid EQDMA_PFETCH_CONTEXT_NUM_WORDS;
      if decide (rv < 0) then mret (rv, ctxt) else
      c' ← lift (pf_of_words words); mret (QDMA_SUCCESS, Some c')
  | _, _ => mret (- QDMA_ERR_INV_PARAM, ctxt)
  end.

Definition eqdma_pfetch_context_clear (dev_hndl : option Z) (hw_qid : Z) : cmd W Z :=
  match dev_hndl with
  | Some dev => eqdma_indirect_reg_clear dev QDMA_CTXT_SEL_PFTCH hw_qid
  | None => mret (- QDMA_ERR_INV_PARAM)
  end.

Definition eqdma_pfetch_context_invalidate (dev_hndl : option Z) (hw_qid : Z) : cmd W Z :=
  match dev_hndl with
  | Some dev => eqdma_indirect_reg_invalidate dev QDMA_CTXT_SEL_PFTCH hw_qid
  | None => mret (- QDMA_ERR_INV_PARAM)
  end.

Definition eqdma_pfetch_ctx_conf (dev_hndl : option Z) (hw_qid : Z) (ctxt : option qdma_descq_prefetch_ctxt)
    (access_type : qdma_hw_access_type) : cmd W (Z * option qdma_descq_prefetch_ctxt) :=
  match access_type with
  | QDMA_HW_ACCESS_READ => eqdma_pfetch_context_read dev_hndl hw_qid ctxt
  | QDMA_HW_ACCESS_WRITE => rv ← eqdma_pfetch_context_write dev_hndl hw_qid ctxt; mret (rv, ctxt)
  | QDMA_HW_ACCESS_CLEAR => rv ← eqdma_pfetch_context_clear dev_hndl hw_qid; mret (rv, ctxt)
  | QDMA_HW_ACCESS_INVALIDATE => rv ← eqdma_pfetch_context_invalidate dev_hndl hw_qid; mret (rv, ctxt)
  | _ => mret (- QDMA_ERR_INV_PARAM, ctxt)
  end.

Definition EQDMA_CMPT_CONTEXT_NUM_WORDS : nat := 6.

Definition eqdma_cmpt_context_write (dev_hndl : option Z) (hw_qid : Z)
    (ctxt : option qdma_descq_cmpt_ctxt) : cmd W Z :=
  match dev_hndl, ctxt with
  | Some dev, Some c =>
      if decide (QDMA_CMPT_UPDATE_TRIG_MODE_TMR_CNTR < cm_trig_mode c)
      then mret (- QDMA_ERR_INV_PARAM) else
      eqdma_indirect_reg_write dev QDMA_CTXT_SEL_CMPT hw_qid (cm_words c)
  | _, _ => mret (- QDMA_ERR_INV_PARAM)
  end.

Definition eqdma_cmpt_context_read (dev_hndl : option Z) (hw_qid : Z)
    (ctxt : option qdma_descq_cmpt_ctxt) : cmd W (Z * option qdma_descq_cmpt_ctxt) :=
  match dev_hndl, ctxt with
  | Some dev, Some c =>
      '(rv, words) ← eqdma_indirect_reg_read dev QDMA_CTXT_SEL_CMPT hw_qid EQDMA_CMPT_CONTEXT_NUM_WORDS;
      if decide (rv < 0) then mret (rv, ctxt) else
      c' ← lift (cm_of_words words); mret (QDMA_SUCCESS, Some c')
  | _, _ => mret (- QDMA_ERR_INV_PARAM, ctxt)
  end.

Definition eqdma_cmpt_context_clear (dev_hndl : option Z) (hw_qid : Z) : cmd W Z :=
  match dev_hndl with
  | Some dev => eqdma_indirect_reg_clear dev QDMA_CTXT_SEL_CMPT hw_qid
  | None => mret (- QDMA_ERR_INV_PARAM)
  end.

Definition eqdma_cmpt_context_invalidate (dev_hndl : option Z) (hw_qid : Z) : cmd W Z :=
  match dev_hndl with
  | Some dev => eqdma_indirect_reg_invalidate dev QDMA_CTXT_SEL_CMPT hw_qid
  | None => mret (- QDMA_ERR_INV_PARAM)
  end.

Definition eqdma_cmpt_ctx_conf (dev_hndl : option Z) (hw_qid : Z) (ctxt : option qdma_descq_cmpt_ctxt)
    (access_type : qdma_hw_access_type) : cmd W (Z * option qdma_descq_cmpt_ctxt) :=
  match access_type with
  | QDMA_HW_ACCESS_READ => eqdma_cmpt_context_read dev_hndl hw_qid ctxt
  | QDMA_HW_ACCESS_WRITE => rv ← eqdma_cmpt_context_write dev_hndl hw_qid ctxt; mret (rv, ctxt)
  | QDMA_HW_ACCESS_CLEAR => rv ← eqdma_cmpt_context_clear dev_hndl hw_qid; mret (rv, ctxt)
  | QDMA_HW_ACCESS_INVALIDATE => rv ← eqdma_cmpt_context_invalidate dev_hndl hw_qid; mret (rv, ctxt)
  | _ => mret (- QDMA_ERR_INV_PARAM, ctxt)
  end.

Definition hw_sel (c2h : Z) : ind_ctxt_cmd_sel :=
  if decide (c2h <> 0) then QDMA_CTXT_SEL_HW_C2H else QDMA_CTXT_SEL_HW_H2C.

Definition EQDMA_HW_CONTEXT_NUM_WORDS : nat := 2.

Definition eqdma_hw_context_read (dev_hndl : option Z) (c2h hw_qid : Z)
    (ctxt : option qdma_descq_hw_ctxt) : cmd W (Z * option qdma_descq_hw_ctxt) :=
  match dev_hndl, ctxt with
  | Some dev, Some c =>
      '(rv, words) ← eqdma_indirect_reg_read dev (hw_sel c2h) hw_qid EQDMA_HW_CONTEXT_NUM_WORDS;
      if decide (rv < 0) then mret (rv, ctxt) else
      c' ← lift (hw_of_words words); mret (QDMA_SUCCESS, Some c')
  | _, _ => mret (- QDMA_ERR_INV_PARAM, ctxt)
  end.

Definition eqdma_hw_context_clear (dev_hndl : option Z) (c2h hw_qid : Z) : cmd W Z :=
  match dev_hndl with
  | Some dev => eqdma_indirect_reg_clear dev (hw_sel c2h) hw_qid
  | None => mret (- QDMA_ERR_INV_PARAM)
  end.

Definition eqdma_hw_context_invalidate (dev_hndl : option Z) (c2h hw_qid : Z) : cmd W Z :=
  match dev_hndl with
  | Some dev => eqdma_indirect_reg_invalidate dev (hw_sel c2h) hw_qid
  | None => mret (- QDMA_ERR_INV_PARAM)
  end.

Definition eqdma_hw_ctx_conf (dev_hndl : option Z) (c2h hw_qid : Z) (ctxt : option qdma_descq_hw_ctxt)
    (access_type : qdma_hw_access_type) : cmd W (Z * option qdma_descq_hw_ctxt) :=
  if decide (1 < c2h) then mret (- QDMA_ERR_INV_PARAM, ctxt) else
  match access_type with
  | QDMA_HW_ACCESS_READ => eqdma_hw_context_read dev_hndl c2h hw_qid ctxt
  | QDMA_HW_ACCESS_CLEAR => rv ← eqdma_hw_context_clear dev_hndl c2h hw_qid; mret (rv, ctxt)
  | QDMA_HW_ACCESS_INVALIDATE => rv ← eqdma_hw_context_invalidate dev_hndl c2h hw_qid; mret (rv, ctxt)
  | _ => mret (- QDMA_ERR_INV_PARAM, ctxt)
  end.

Definition cr_sel (c2h : Z) : ind_ctxt_cmd_sel :=
  if decide (c2h <> 0) then QDMA_CTXT_SEL_CR_C2H else QDMA_CTXT_SEL_CR_H2C.

Definition EQDMA_CR_CONTEXT_NUM_WORDS : nat := 1.

Definition eqdma_credit_context_read (dev_hndl : option Z) (c2h hw_qid : Z)
    (ctxt : option qdma_descq_credit_ctxt) : cmd W (Z * option qdma_descq_credit_ctxt) :=
  match dev_hndl, ctxt with
  | Some dev, Some c =>
      '(rv, words) ← eqdma_indirect_reg_read dev (cr_sel c2h) hw_qid EQDMA_CR_CONTEXT_NUM_WORDS;
      if decide (rv < 0) then mret (rv, ctxt) else
      c' ← lift (cr_of_words words); mret (QDMA_SUCCESS, Some c')
  | _, _ => mret (- QDMA_ERR_INV_PARAM, ctxt)
  end.

Definition eqdma_credit_context_clear (dev_hndl : option Z) (c2h hw_qid : Z) : cmd W Z :=
  match dev_hndl with
  | Some dev => eqdma_indirect_reg_clear dev (cr_sel c2h) hw_qid
  | None => mret (- QDMA_ERR_INV_PARAM)
  end.

Definition eqdma_credit_context_invalidate (dev_hndl : option Z) (c2h hw_qid : Z) : cmd W Z :=
  match dev_hndl with
  | Some dev => eqdma_indirect_reg_invalidate dev (cr_sel c2h) hw_qid
  | None => mret (- QDMA_ERR_INV_PARAM)
  end.

Definition eqdma_credit_ctx_conf (dev_hndl : option Z) (c2h hw_qid : Z) (ctxt : option qdma_descq_credit_ctxt)
    (access_type : qdma_hw_access_type) : cmd W (Z * option qdma_descq_credit_ctxt) :=
  if decide (1 < c2h) then mret (- QDMA_ERR_INV_PARAM, ctxt) else
  match access_type with
  | QDMA_HW_ACCESS_READ => eqdma_credit_context_read dev_hndl c2h hw_qid ctxt
  | QDMA_HW_ACCESS_CLEAR => rv ← eqdma_credit_context_clear dev_hndl c2h hw_qid; mret (rv, ctxt)
  | QDMA_HW_ACCESS_INVALIDATE => rv ← eqdma_credit_context_invalidate dev_hndl c2h hw_qid; mret (rv, ctxt)
  | _ => mret (- QDMA_ERR_INV_PARAM, ctxt)
  end.

Definition EQDMA_FMAP_NUM_WORDS : nat := 2.

Definition eqdma_fmap_context_write (dev_hndl : option Z) (func_id : Z)
    (ctxt : option qdma_fmap_cfg) : cmd W Z :=
  match dev_hndl, ctxt with
  | Some dev, Some c =>
      eqdma_indirect_reg_write dev QDMA_CTXT_SEL_FMAP func_id (fm_words c)
  | _, _ => mret (- QDMA_ERR_INV_PARAM)
  end.

Definition eqdma_fmap_context_read (dev_hndl : option Z) (func_id : Z)
    (ctxt : option qdma_fmap_cfg) : cmd W (Z * option qdma_fmap_cfg) :=
  match dev_hndl, ctxt with
  | Some dev, Some c =>
      '(rv, words) ← eqdma_indirect_reg_read dev QDMA_CTXT_SEL_FMAP func_id EQDMA_FMAP_NUM_WORDS;
      if decide (rv < 0) then mret (rv, ctxt) else
      c' ← lift (fm_of_words words); mret (QDMA_SUCCESS, Some c')
  | _, _ => mret (- QDMA_ERR_INV_PARAM, ctxt)
  end.

Definition eqdma_fmap_context_clear (dev_hndl : option Z) (func_id : Z) : cmd W Z :=
  match dev_hndl with
  | Some dev => eqdma_indirect_reg_clear dev QDMA_CTXT_SEL_FMAP func_id
  | None => mret (- QDMA_ERR_INV_PARAM)
  end.

Definition eqdma_fmap_conf (dev_hndl : option Z) (func_id : Z) (ctxt : option qdma_fmap_cfg)
    (access_type : qdma_hw_access_type) : cmd W (Z * option qdma_fmap_cfg) :=
  match access_type with
  | QDMA_HW_ACCESS_READ => eqdma_fmap_context_read dev_hndl func_id ctxt
  | QDMA_HW_ACCESS_WRITE => rv ← eqdma_fmap_context_write dev_hndl func_id ctxt; mret (rv, ctxt)
  | QDMA_HW_ACCESS_CLEAR => rv ← eqdma_fmap_context_clear dev_hndl func_id; mret (rv, ctxt)
  | _ => mret (- QDMA_ERR_INV_PARAM, ctxt)
  end.

Definition EQDMA_IND_INTR_CONTEXT_NUM_WORDS : nat := 4.

Definition eqdma_indirect_intr_context_write (dev_hndl : option Z) (ring_index : Z)
    (ctxt : option qdma_indirect_intr_ctxt) : cmd W Z :=
  match dev_hndl, ctxt with
  | Some dev, Some c =>
      eqdma_indirect_reg_write dev QDMA_CTXT_SEL_INT_COAL ring_index (in_words c)
  | _, _ => mret (- QDMA_ERR_INV_PARAM)
  end.

Definition eqdma_indirect_intr_context_read (dev_hndl : option Z) (ring_index : Z)
    (ctxt : option qdma_indirect_intr_ctxt) : cmd W (Z * option qdma_indirect_intr_ctxt) :=
  match dev_hndl, ctxt with
  | Some dev, Some c =>
      '(rv, words) ← eqdma_indirect_reg_read dev QDMA_CTXT_SEL_INT_COAL ring_index EQDMA_IND_INTR_CONTEXT_NUM_WORDS;
      if decide (rv < 0) then mret (rv, ctxt) else
      c' ← lift (in_of_words words); mret (QDMA_SUCCESS, Some c')
  | _, _ => mret (- QDMA_ERR_INV_PARAM, ctxt)
  end.

Definition eqdma_indirect_intr_context_clear (dev_hndl : option Z) (ring_index : Z) : cmd W Z :=
  match dev_hndl with
  | Some dev => eqdma_indirect_reg_clear dev QDMA_CTXT_SEL_INT_COAL ring_index
  | None => mret (- QDMA_ERR_INV_PARAM)
  end.

Definition eqdma_indirect_intr_context_invalidate (dev_hndl : option Z) (ring_index : Z) : cmd W Z :=
  match dev_hndl with
  | Some dev => eqdma_indirect_reg_invalidate dev QDMA_CTXT_SEL_INT_COAL ring_index
  | None => mret (- QDMA_ERR_INV_PARAM)
  end.

Definition eqdma_indirect_intr_ctx_conf (dev_hndl : option Z) (ring_index : Z) (ctxt : option qdma_indirect_intr_ctxt)
    (access_type : qdma_hw_access_type) : cmd W (Z * option qdma_indirect_intr_ctxt) :=
  match access_type with
  | QDMA_HW_ACCESS_READ => eqdma_indirect_intr_context_read dev_hndl ring_index ctxt
  | QDMA_HW_ACCESS_WRITE => rv ← eqdma_indirect_intr_context_write dev_hndl ring_index ctxt; mret (rv, ctxt)
  | QDMA_HW_ACCESS_CLEAR => rv ← eqdma_indirect_intr_context_clear dev_hndl ring_index; mret (rv, ctxt)
  | QDMA_HW_ACCESS_INVALIDATE => rv ← eqdma_indirect_intr_context_invalidate dev_hndl ring_index; mret (rv, ctxt)
  | _ => mret (- QDMA_ERR_INV_PARAM, ctxt)
  end.
End contexts.

(** ** Updaters *)
Definition set_sw_virtio_dsc_base (v : Z) (c : qdma_descq_sw_ctxt) : qdma_descq_sw_ctxt :=
  mkSw (sw_ring_bs_addr c) (sw_vec c) (sw_pidx c) (sw_irq_arm c) (sw_fnc_id c) (sw_qen c)
  (sw_frcd_en c) (sw_wbi_chk c) (sw_wbi_intvl_en c) (sw_at c) (sw_fetch_max c) (sw_rngsz_idx c)
  (sw_desc_sz c) (sw_bypass c) (sw_mm_chn c) (sw_wbk_en c) (sw_irq_en c) (sw_port_id c)
  (sw_irq_no_last c) (sw_err c) (sw_err_wb_sent c) (sw_irq_req c) (sw_mrkr_dis c) (sw_is_mm c)
  (sw_intr_aggr c) (sw_pasid_en c) (sw_dis_intr_on_vf c) (sw_virtio_en c) (sw_pack_byp_out c)
  (sw_irq_byp c) (sw_host_id c) (sw_pasid c) v.

Definition set_cm_bs_addr (v : Z) (c : qdma_descq_cmpt_ctxt) : qdma_descq_cmpt_ctxt :=
  mkCm v (cm_vec c) (cm_pidx c) (cm_cidx c) (cm_en_stat_desc c) (cm_en_int c) (cm_trig_mode c)
  (cm_fnc_id c) (cm_counter_idx c) (cm_timer_idx c) (cm_in_st c) (cm_color c) (cm_ringsz_idx c)
  (cm_desc_sz c) (cm_valid c) (cm_err c) (cm_user_trig_pend c) (cm_timer_running c)
  (cm_full_upd c) (cm_ovf_chk_dis c) (cm_at c) (cm_int_aggr c) (cm_dis_intr_on_vf c) (cm_vio c)
  (cm_dir_c2h c) (cm_host_id c) (cm_pasid c) (cm_pasid_en c) (cm_vio_eop c) (cm_sh_cmpt c).

Definition set_in_baddr_4k (v : Z) (c : qdma_indirect_intr_ctxt) : qdma_indirect_intr_ctxt :=
  mkIn v (in_vec c) (in_pidx c) (in_valid c) (in_int_st c) (in_color c) (in_page_size c)
  (in_at c) (in_host_id c) (in_pasid c) (in_pasid_en c) (in_func_id c).

Definition set_in_pasid (v : Z) (c : qdma_indirect_intr_ctxt) : qdma_indirect_intr_ctxt :=
  mkIn (in_baddr_4k c) (in_vec c) (in_pidx c) (in_valid c) (in_int_st c) (in_color c)
  (in_page_size c) (in_at c) (in_host_id c) v (in_pasid_en c) (in_func_id c).

(** ** Packing and unpacking *)

(** [field] proves that a member of the context read back is the member written. *)
Ltac field :=
  lazymatch goal with
  | |- u8 (FIELD_GET ?m (word ?fs)) = ?v =>
      apply (u8_field m v fs); [vm_compute; reflexivity|reflexivity|reflexivity|assumption]
  | |- u16 (FIELD_GET ?m (word ?fs)) = ?v =>
      apply (u16_field m v fs); [vm_compute; reflexivity|reflexivity|reflexivity|assumption]
  end.
(** [part m v] rewrites the read of field [m] to the value [v] written there. *)
Ltac part m v :=
  rewrite (FIELD_GET_fits m v); [|vm_compute; reflexivity|reflexivity|assumption].

Lemma u8_member m v fs : layout_ok (fst <$> fs) = true -> field_of m fs = Some v ->
  word_fits fs -> 0 <= v < 256 -> u8 (FIELD_GET m (word fs)) = v.
Proof. intros Hok Hf Hfit Hv. rewrite (FIELD_GET_fits m v) by done. by apply Z.mod_small. Qed.

Record sw_fits (c : qdma_descq_sw_ctxt) : Prop := {
  sf_w0 : word_fits (sw_w0 c); sf_w1 : word_fits (sw_w1 c); sf_w4 : word_fits (sw_w4 c);
  sf_w5 : word_fits (sw_w5 c); sf_fnc : 0 <= sw_fnc_id c < 256;
  sf_ring : fits_u64 (sw_ring_bs_addr c); sf_pasid : 0 <= sw_pasid c < 2 ^ 22;
  sf_virtio : fits_u64 (sw_virtio_dsc_base c) }.

(** What is read of the virtio descriptor base: the upper eleven bits are taken
    from word 6, which holds bits 21 to 52. *)
Definition virtio_read (b : Z) : Z := Z.lor (Z.land b (Z.ones 53)) (Z.shiftl (bits b 21 11) 53).

Lemma virtio_high c :
  FIELD_GET SW_IND_CTXT_DATA_W7_VIRTIO_DSC_BASE_H_MASK (word (sw_w6 c)) =
  bits (sw_virtio_dsc_base c) 21 11.
Proof.
  cbn [word sw_w6]. rewrite Z.lor_0_r.
  change SW_IND_CTXT_DATA_W7_VIRTIO_DSC_BASE_H_MASK with (Z.ones 11).
  unfold FIELD_GET at 1, FIELD_SET. change (FIELD_SHIFT (Z.ones 11)) with 0.
  change SW_IND_CTXT_DATA_W6_VIRTIO_DSC_BASE_M_MASK with (Z.ones 32).
  change (FIELD_SHIFT (Z.ones 32)) with 0. rewrite Z.shiftl_0_r, Z.shiftr_0_r, <- Z.land_assoc.
  change (Z.land (Z.ones 32) (Z.ones 11)) with (Z.ones 11). unfold FIELD_GET, bits.
  change (FIELD_SHIFT EQDMA_SW_CTXT_VIRTIO_DSC_BASE_GET_M_MASK) with 21.
  rewrite Z.shiftr_land, <- Z.land_assoc. f_equal.
Qed.

Lemma sw_ring_join r : fits_u64 r ->
  Z.lor (Z.shiftl (Z.land (Z.shiftr r 32) 0xffffffff) 32) (Z.land r 0xffffffff) = r.
Proof.
  intros Hr. rewrite <- (hi_lo_join r Hr) at 3. unfold hi32, lo32, u32.
  change 0xffffffff with (Z.ones 32). by rewrite !Z.land_ones by lia.
Qed.

Lemma sw_unpack c : sw_fits c ->
  sw_of_words (sw_words c) = Ok (set_sw_virtio_dsc_base (virtio_read (sw_virtio_dsc_base c)) c).
Proof.
  intros []. unfold sw_of_words, sw_words. cbv zeta. rewrite virtio_high. f_equal.
  unfold set_sw_virtio_dsc_base. f_equal; try field.
  - by apply sw_ring_join.
  - by apply u8_member.
  - part SW_IND_CTXT_DATA_W4_PASID_L_MASK (FIELD_GET EQDMA_SW_CTXT_PASID_GET_L_MASK (sw_pasid c)).
    part SW_IND_CTXT_DATA_W5_PASID_H_MASK (FIELD_GET EQDMA_SW_CTXT_PASID_GET_H_MASK (sw_pasid c)).
    rewrite !FIELD_SET_GET, land_split by reflexivity. by apply (land_low _ 22).
  - part SW_IND_CTXT_DATA_W5_VIRTIO_DSC_BASE_L_MASK
      (FIELD_GET EQDMA_SW_CTXT_VIRTIO_DSC_BASE_GET_L_MASK (sw_virtio_dsc_base c)).
    rewrite (FIELD_GET_word SW_IND_CTXT_DATA_W6_VIRTIO_DSC_BASE_M_MASK
      (FIELD_GET EQDMA_SW_CTXT_VIRTIO_DSC_BASE_GET_M_MASK (sw_virtio_dsc_base c))) by reflexivity.
    rewrite Z.mod_small 
      by exact (FIELD_GET_range EQDMA_SW_CTXT_VIRTIO_DSC_BASE_GET_M_MASK _ eq_refl).
    rewrite !FIELD_SET_GET by reflexivity. rewrite Z.lor_assoc, land_split. unfold virtio_read. f_equal.
    unfold FIELD_SET. change (FIELD_SHIFT EQDMA_SW_CTXT_VIRTIO_DSC_BASE_GET_H_MASK) with 53.
    change EQDMA_SW_CTXT_VIRTIO_DSC_BASE_GET_H_MASK with (Z.shiftl (Z.ones 11) 53).
    rewrite <- Z.shiftl_land. unfold bits. by rewrite <- Z.land_assoc, Z.land_diag.
Qed.

(** [read_back] turns the read of a part into the part: the mask of the word's
    field, the mask of the part, the value it is cut from. *)
Ltac read_back m p x := part m (FIELD_GET p x).

Record pf_fits (c : qdma_descq_prefetch_ctxt) : Prop := {
  pff_w0 : word_fits (pf_w0 c); pff_w1 : word_fits (pf_w1 c); pff_crdt : 0 <= pf_sw_crdt c < 65536 }.

Lemma pf_unpack c : pf_fits c -> pf_of_words (pf_words c) = Ok c.
Proof.
  intros []. unfold pf_of_words, pf_words. cbv zeta. f_equal. destruct c as [crdt]. f_equal; try field.
  read_back PREFETCH_CTXT_DATA_W0_SW_CRDT_L_MASK QDMA_PFTCH_CTXT_SW_CRDT_GET_L_MASK crdt.
  read_back PREFETCH_CTXT_DATA_W1_SW_CRDT_H_MASK QDMA_PFTCH_CTXT_SW_CRDT_GET_H_MASK crdt.
  rewrite !FIELD_SET_GET, land_split by reflexivity.
  change (Z.lor _ _) with (Z.ones 16). rewrite land_low by (done || lia). by apply Z.mod_small.
Qed.

Record cm_fits (c : qdma_descq_cmpt_ctxt) : Prop := {
  cf_w0 : word_fits (cm_w0 c); cf_w1 : word_fits (cm_w1 c); cf_w2 : word_fits (cm_w2 c);
  cf_w3 : word_fits (cm_w3 c); cf_w4 : word_fits (cm_w4 c); cf_w5 : word_fits (cm_w5 c);
  cf_fnc : 0 <= cm_fnc_id c < 256; cf_pidx : 0 <= cm_pidx c < 65536;
  cf_pasid : 0 <= cm_pasid c < 2 ^ 22; cf_addr : fits_u64 (cm_bs_addr c) }.

Lemma ldiff_mask x n : 0 <= n -> fits_u64 x -> 
  Z.land x (Z.ldiff (Z.ones 64) (Z.ones n)) = Z.ldiff x (Z.ones n).
Proof.
  intros Hn Hx. rewrite <- (land_low x 64) at 2 by (lia || exact Hx).
  apply Z.bits_inj'. intros i Hi. rewrite !Z.land_spec, !Z.ldiff_spec, Z.land_spec.
  by rewrite andb_assoc.
Qed.

(** The base address comes back without its two lowest bits. *)
Lemma cm_unpack c : cm_fits c ->
  cm_of_words (cm_words c) = Ok (set_cm_bs_addr (Z.ldiff (cm_bs_addr c) (Z.ones 2)) c).
Proof.
  intros []. unfold cm_of_words, cm_words. cbv zeta. f_equal. unfold set_cm_bs_addr. f_equal; try field.
  - read_back CMPL_CTXT_DATA_W1_BADDR4_HIGH_L_MASK EQDMA_COMPL_CTXT_BADDR_HIGH_L_MASK (cm_bs_addr c).
    read_back CMPL_CTXT_DATA_W2_BADDR4_HIGH_H_MASK EQDMA_COMPL_CTXT_BADDR_HIGH_H_MASK (cm_bs_addr c).
    rewrite (u8_field CMPL_CTXT_DATA_W5_BADDR4_LOW_MASK
      (FIELD_GET EQDMA_COMPL_CTXT_BADDR_LOW_MASK (cm_bs_addr c)))
      by first [assumption|vm_compute; reflexivity].
    rewrite !FIELD_SET_GET, !land_split by reflexivity. by rewrite <- ldiff_mask by (done || lia).
  - read_back CMPL_CTXT_DATA_W2_PIDX_L_MASK QDMA_COMPL_CTXT_PIDX_GET_L_MASK (cm_pidx c).
    read_back CMPL_CTXT_DATA_W3_PIDX_H_MASK QDMA_COMPL_CTXT_PIDX_GET_H_MASK (cm_pidx c).
    rewrite !FIELD_SET_GET, land_split by reflexivity.
    change (Z.lor _ _) with (Z.ones 16). rewrite land_low by (done || lia). by apply Z.mod_small.
  - by apply u8_member.
  - read_back CMPL_CTXT_DATA_W4_PASID_L_MASK EQDMA_CMPL_CTXT_PASID_GET_L_MASK (cm_pasid c).
    read_back CMPL_CTXT_DATA_W5_PASID_H_MASK EQDMA_CMPL_CTXT_PASID_GET_H_MASK (cm_pasid c).
    rewrite !FIELD_SET_GET, land_split by reflexivity. by apply (land_low _ 22).
Qed.

Record in_fits (c : qdma_indirect_intr_ctxt) : Prop := {
  if_w0 : word_fits (in_w0 c); if_w1 : word_fits (in_w1 c); if_w2 : word_fits (in_w2 c);
  if_w3 : word_fits (in_w3 c); if_pasid : 0 <= in_pasid c < 2 ^ 22; if_addr : fits_u64 (in_baddr_4k c) }.

(** The process id passes through an 8-bit object: its bit 8 is lost. *)
Definition pasid_read (p : Z) : Z := Z.land p (Z.ones 22 - 2 ^ 8).

Lemma in_unpack c : in_fits c -> in_of_words (in_words c) =
  Ok (set_in_pasid (pasid_read (in_pasid c)) (set_in_baddr_4k (Z.ldiff (in_baddr_4k c) (Z.ones 12)) c)).
Proof.
  intros []. unfold in_of_words, in_words. cbv zeta. f_equal.
  unfold set_in_pasid, set_in_baddr_4k. cbn [in_baddr_4k in_vec in_pidx in_valid in_int_st in_color
    in_page_size in_at in_host_id in_pasid_en in_func_id]. f_equal; try field.
  - read_back INTR_CTXT_DATA_W0_BADDR_4K_L_MASK QDMA_INTR_CTXT_BADDR_GET_L_MASK (in_baddr_4k c).
    read_back INTR_CTXT_DATA_W1_BADDR_4K_M_MASK QDMA_INTR_CTXT_BADDR_GET_M_MASK (in_baddr_4k c).
    read_back INTR_CTXT_DATA_W2_BADDR_4K_H_MASK QDMA_INTR_CTXT_BADDR_GET_H_MASK (in_baddr_4k c).
    rewrite !FIELD_SET_GET, !land_split by reflexivity. by rewrite <- ldiff_mask by (done || lia).
  - read_back INTR_CTXT_DATA_W2_PASID_L_MASK EQDMA_INTR_CTXT_PASID_GET_L_MASK (in_pasid c).
    read_back INTR_CTXT_DATA_W3_PASID_H_MASK EQDMA_INTR_CTXT_PASID_GET_H_MASK (in_pasid c).
    rewrite (FIELD_SET_GET EQDMA_INTR_CTXT_PASID_GET_H_MASK) by reflexivity.
    unfold FIELD_GET, FIELD_SET, u8. change (FIELD_SHIFT EQDMA_INTR_CTXT_PASID_GET_L_MASK) with 0.
    rewrite Z.shiftl_0_r, Z.shiftr_0_r. change 256 with (2 ^ 8). rewrite <- Z.land_ones, <- !Z.land_assoc by lia.
    by rewrite land_split.
Qed.

Lemma fm_unpack c : word_fits (fm_w0 c) -> word_fits (fm_w1 c) -> fm_of_words (fm_words c) = Ok c.
Proof.
  intros H0 H1. unfold fm_of_words, fm_words. f_equal. destruct c. f_equal; field.
Qed.

(** *** The words are 32-bit values *)
Lemma low_word x : fits_u32 (Z.land x 0xffffffff).
Proof. change 0xffffffff with (Z.ones 32). rewrite Z.land_ones by lia. apply Z.mod_pos_bound. lia. Qed.

Ltac words_u32 :=
  repeat (apply Forall_cons; split; [first [apply word_u32; vm_compute; reflexivity|apply low_word]|]);
  apply Forall_nil; exact I.
Lemma sw_words_u32 c : Forall fits_u32 (sw_words c).
Proof. words_u32. Qed.
Lemma pf_words_u32 c : Forall fits_u32 (pf_words c).
Proof. words_u32. Qed.
Lemma cm_words_u32 c : Forall fits_u32 (cm_words c).
Proof. words_u32. Qed.
Lemma in_words_u32 c : Forall fits_u32 (in_words c).
Proof. words_u32. Qed.
Lemma fm_words_u32 c : Forall fits_u32 (fm_words c).
Proof. words_u32. Qed.

(** Words of the right number can be read. *)
Ltac some_words := intros l Hl; repeat (destruct l as [|? l]; try discriminate Hl); eexists; reflexivity.
Lemma sw_words_ok l : length l = EQDMA_SW_CONTEXT_NUM_WORDS -> exists c, sw_of_words l = Ok c.
Proof. revert l. some_words. Qed.
Lemma pf_words_ok l : length l = EQDMA_PFETCH_CONTEXT_NUM_WORDS -> exists c, pf_of_words l = Ok c.
Proof. revert l. some_words. Qed.
Lemma cm_words_ok l : length l = EQDMA_CMPT_CONTEXT_NUM_WORDS -> exists c, cm_of_words l = Ok c.
Proof. revert l. some_words. Qed.
Lemma hw_words_ok l : length l = EQDMA_HW_CONTEXT_NUM_WORDS -> exists c, hw_of_words l = Ok c.
Proof. revert l. some_words. Qed.
Lemma cr_words_ok l : length l = EQDMA_CR_CONTEXT_NUM_WORDS -> exists c, cr_of_words l = Ok c.
Proof. revert l. some_words. Qed.
Lemma fm_words_ok l : length l = EQDMA_FMAP_NUM_WORDS -> exists c, fm_of_words l = Ok c.
Proof. revert l. some_words. Qed.
Lemma in_words_ok l : length l = EQDMA_IND_INTR_CONTEXT_NUM_WORDS -> exists c, in_of_words l = Ok c.
Proof. revert l. some_words. Qed.

(** ** Written and read again *)
Section devices.
Context {W : Type} `{io : IoMem W} `{ic : IndCtxt W} (dev : Z) `{ok : !IndCtxtOk W dev}.

(** The device is idle again, and only the context of [sel] and [qid] has changed. *)
Definition only_context (sel : ind_ctxt_cmd_sel) (qid : Z) (w w' : W) : Prop :=
  ih_busy (ind w') = 0%nat /\
  forall k, k <> (sel_val sel, qid) -> ctxt_at (ind w') k = ctxt_at (ind w) k.

(** The command a dispatch function sends for a write followed by the one for a
    read, for words [l] that unpack to [r]. *)
Lemma context_write_read {T} (of_words : list Z -> outcome T) c0 sel qid l r w :
  prompt (W := W) -> idle w -> 0 <= qid < 4096 -> (length l <= 8)%nat -> Forall fits_u32 l ->
  of_words l = Ok r -> exists w1 w2,
  eqdma_indirect_reg_write dev sel qid l w = Ok (QDMA_SUCCESS, w1) /\
  ('(rv, words) ← eqdma_indirect_reg_read dev sel qid (length l);
   if decide (rv < 0) then mret (rv, c0) else
   c' ← lift (of_words words); mret (QDMA_SUCCESS, Some c')) w1 = Ok (QDMA_SUCCESS, Some r, w2) /\
  only_context sel qid w w2.
Proof.
  intros Hp Hi Hq Hlen Hl Hr.
  destruct (write_then_read dev sel qid l w Hp Hi Hlen Hl Hq) as (w1 & w2 & E1 & E2 & Hi2 & Hc).
  exists w1, w2. split; [done|]. split.
  - rewrite (cmd_bind_run _ _ _ _ _ E2). cbv beta iota. rewrite decide_False by (unfold QDMA_SUCCESS; lia).
    by rewrite (cmd_bind_run _ _ _ _ _ (lift_run _ _ _ Hr)).
  - split; [exact Hi2|]. intros k Hk. unfold ctxt_at. by rewrite Hc, lookup_insert_ne.
Qed.

(** C17. A software context whose members fit their fields ([sw_fits]) and that is
    written and read again for a queue below 4096 comes back as it was, on an idle
    device that answers in time, and no other context changes - except for the virtio
    descriptor base, whose eleven upper bits are replaced by its bits 21 to 31: the
    read takes them from word 6 instead of word 7. *)
Theorem sw_ctxt_write_read c2h qid c c0 w :
  prompt (W := W) -> idle w -> 0 <= qid < 4096 -> sw_fits c -> exists w1 w2,
  eqdma_sw_ctx_conf (Some dev) c2h qid (Some c) QDMA_HW_ACCESS_WRITE w =
    Ok (QDMA_SUCCESS, Some c, w1) /\
  eqdma_sw_ctx_conf (Some dev) c2h qid (Some c0) QDMA_HW_ACCESS_READ w1 =
    Ok (QDMA_SUCCESS, Some (set_sw_virtio_dsc_base (virtio_read (sw_virtio_dsc_base c)) c), w2) /\
  only_context (sw_sel c2h) qid w w2.
Proof.
  intros Hp Hi Hq Hc.
  destruct (context_write_read _ (Some c0) (sw_sel c2h) qid (sw_words c) _ w Hp Hi Hq
    ltac:(cbn; lia) (sw_words_u32 c) (sw_unpack c Hc)) as (w1 & w2 & E1 & E2 & H).
  exists w1, w2. cbn [eqdma_sw_ctx_conf eqdma_sw_context_write eqdma_sw_context_read].
  rewrite (cmd_bind_run _ _ _ _ _ E1). split; [done|]. split; [exact E2|exact H].
Qed.

(** A completion context with a valid trigger mode that is written and read again
    comes back as it was but for the two lowest bits of the base address, which have
    no place in the words; a trigger mode above 5 is refused before the device is
    touched. *)
Theorem cmpt_ctxt_write_read qid c c0 w :
  prompt (W := W) -> idle w -> 0 <= qid < 4096 -> cm_fits c ->
  if decide (cm_trig_mode c <= 5) then
    exists w1 w2,
    eqdma_cmpt_ctx_conf (Some dev) qid (Some c) QDMA_HW_ACCESS_WRITE w = Ok (QDMA_SUCCESS, Some c, w1) /\
    eqdma_cmpt_ctx_conf (Some dev) qid (Some c0) QDMA_HW_ACCESS_READ w1 =
      Ok (QDMA_SUCCESS, Some (set_cm_bs_addr (Z.ldiff (cm_bs_addr c) (Z.ones 2)) c), w2) /\
    only_context QDMA_CTXT_SEL_CMPT qid w w2
  else eqdma_cmpt_ctx_conf (Some dev) qid (Some c) QDMA_HW_ACCESS_WRITE w =
    Ok (- QDMA_ERR_INV_PARAM, Some c, w).
Proof.
  intros Hp Hi Hq Hc. cbn [eqdma_cmpt_ctx_conf eqdma_cmpt_context_write eqdma_cmpt_context_read].
  unfold QDMA_CMPT_UPDATE_TRIG_MODE_TMR_CNTR. destruct (decide (cm_trig_mode c <= 5)).
  - destruct (context_write_read _ (Some c0) QDMA_CTXT_SEL_CMPT qid (cm_words c) _ w Hp Hi Hq
    ltac:(cbn; lia) (cm_words_u32 c) (cm_unpack c Hc)) as (w1 & w2 & E1 & E2 & H).
    exists w1, w2. rewrite decide_False by lia. rewrite (cmd_bind_run _ _ _ _ _ E1).
    split; [done|]. split; [exact E2|exact H].
  - by rewrite decide_True by lia.
Qed.

(** An interrupt context that is written and read again comes back as it was,
    but for the page offset of its base address, which has no place in the words,
    and for bit 8 of the process id, which the read drops by passing a 9-bit part
    through an 8-bit conversion. *)
Theorem intr_ctxt_write_read ring c c0 w :
  prompt (W := W) -> idle w -> 0 <= ring < 4096 -> in_fits c -> exists w1 w2,
  eqdma_indirect_intr_ctx_conf (Some dev) ring (Some c) QDMA_HW_ACCESS_WRITE w =
    Ok (QDMA_SUCCESS, Some c, w1) /\
  eqdma_indirect_intr_ctx_conf (Some dev) ring (Some c0) QDMA_HW_ACCESS_READ w1 =
    Ok (QDMA_SUCCESS, Some (set_in_pasid (pasid_read (in_pasid c))
          (set_in_baddr_4k (Z.ldiff (in_baddr_4k c) (Z.ones 12)) c)), w2) /\
  only_context QDMA_CTXT_SEL_INT_COAL ring w w2.
Proof.
  intros Hp Hi Hq Hc.
  destruct (context_write_read _ (Some c0) QDMA_CTXT_SEL_INT_COAL ring (in_words c) _ w Hp Hi Hq
    ltac:(cbn; lia) (in_words_u32 c) (in_unpack c Hc)) as (w1 & w2 & E1 & E2 & H).
  exists w1, w2.
  cbn [eqdma_indirect_intr_ctx_conf eqdma_indirect_intr_context_write eqdma_indirect_intr_context_read].
  rewrite (cmd_bind_run _ _ _ _ _ E1). split; [done|]. split; [exact E2|exact H].
Qed.

(** Prefetch contexts and function maps come back exactly. *)
Lemma pfetch_ctxt_write_read qid c c0 w :
  prompt (W := W) -> idle w -> 0 <= qid < 4096 -> pf_fits c -> exists w1 w2,
  eqdma_pfetch_ctx_conf (Some dev) qid (Some c) QDMA_HW_ACCESS_WRITE w = Ok (QDMA_SUCCESS, Some c, w1) /\
  eqdma_pfetch_ctx_conf (Some dev) qid (Some c0) QDMA_HW_ACCESS_READ w1 = Ok (QDMA_SUCCESS, Some c, w2) /\
  only_context QDMA_CTXT_SEL_PFTCH qid w w2.
Proof.
  intros Hp Hi Hq Hc.
  destruct (context_write_read _ (Some c0) QDMA_CTXT_SEL_PFTCH qid (pf_words c) _ w Hp Hi Hq
    ltac:(cbn; lia) (pf_words_u32 c) (pf_unpack c Hc)) as (w1 & w2 & E1 & E2 & H).
  exists w1, w2. cbn [eqdma_pfetch_ctx_conf eqdma_pfetch_context_write eqdma_pfetch_context_read].
  rewrite (cmd_bind_run _ _ _ _ _ E1). split; [done|]. split; [exact E2|exact H].
Qed.

Lemma fmap_ctxt_write_read func c c0 w :
  prompt (W := W) -> idle w -> 0 <= func < 4096 -> word_fits (fm_w0 c) -> word_fits (fm_w1 c) ->
  exists w1 w2,
  eqdma_fmap_conf (Some dev) func (Some c) QDMA_HW_ACCESS_WRITE w = Ok (QDMA_SUCCESS, Some c, w1) /\
  eqdma_fmap_conf (Some dev) func (Some c0) QDMA_HW_ACCESS_READ w1 = Ok (QDMA_SUCCESS, Some c, w2) /\
  only_context QDMA_CTXT_SEL_FMAP func w w2.
Proof.
  intros Hp Hi Hq H0 H1.
  destruct (context_write_read _ (Some c0) QDMA_CTXT_SEL_FMAP func (fm_words c) _ w Hp Hi Hq
    ltac:(cbn; lia) (fm_words_u32 c) (fm_unpack c H0 H1)) as (w1 & w2 & E1 & E2 & H).
  exists w1, w2. cbn [eqdma_fmap_conf eqdma_fmap_context_write eqdma_fmap_context_read].
  rewrite (cmd_bind_run _ _ _ _ _ E1). split; [done|]. split; [exact E2|exact H].
Qed.
End devices.

(** The fetch-pending member of a hardware context is read from the
    descriptor-pending bit: it never shows the four fetch-pending bits. *)
Lemma hw_fetch_pnd_is_dsc_pend w0 w1 c : hw_of_words [w0; w1] = Ok c ->
  hw_fetch_pnd c = hw_dsc_pend c.
Proof. by intros [= <-]. Qed.

(** ** Witnesses *)
Lemma hw0_prompt : prompt (W := ind_hw) (ic := hw_ctxt 3).
Proof. intros w. unfold ind_latency, hw_ctxt, MAX_POLLS. lia. Qed.

Definition sample_sw : qdma_descq_sw_ctxt :=
  mkSw 0x123456789abcd000 5 100 1 3 1 0 1 1 0 7 9 2 0 0 1 1 2 0 0 0 0 1 0 1 0 0 0 1 0 4 0x2abcde
    0xffe0000012345678.

Lemma sample_sw_fits : sw_fits sample_sw.
Proof. split; repeat constructor; by vm_compute. Qed.

Lemma sw_ctxt_write_read_witness :
  let io := hw_iomem 3 in let ic := hw_ctxt 3 in exists w1 w2,
  eqdma_sw_ctx_conf (Some 0) 1 17 (Some sample_sw) QDMA_HW_ACCESS_WRITE hw0 =
    Ok (QDMA_SUCCESS, Some sample_sw, w1) /\
  eqdma_sw_ctx_conf (Some 0) 1 17 (Some sample_sw) QDMA_HW_ACCESS_READ w1 =
    Ok (QDMA_SUCCESS, Some (set_sw_virtio_dsc_base (virtio_read 0xffe0000012345678) sample_sw), w2) /\
  only_context QDMA_CTXT_SEL_SW_C2H 17 hw0 w2.
Proof.
  intros io ic. apply (sw_ctxt_write_read (ok := hw_ok 3) 0 1 17 sample_sw sample_sw hw0);
    [apply hw0_prompt|done|lia|apply sample_sw_fits].
Defined.

Definition sample_cmpt (mode : Z) : qdma_descq_cmpt_ctxt :=
  mkCm 0x7fff12345678abc3 9 0xabcd 0x1234 1 1 mode 200 3 2 1 1 5 2 1 0 0 1 0 1 0 1 0 0 1 2 0x1fffff 1 0 1.

Lemma cmpt_ctxt_write_read_witness :
  let io := hw_iomem 3 in let ic := hw_ctxt 3 in
  (exists w1 w2,
    eqdma_cmpt_ctx_conf (Some 0) 9 (Some (sample_cmpt 5)) QDMA_HW_ACCESS_WRITE hw0 =
      Ok (QDMA_SUCCESS, Some (sample_cmpt 5), w1) /\
    eqdma_cmpt_ctx_conf (Some 0) 9 (Some (sample_cmpt 0)) QDMA_HW_ACCESS_READ w1 =
      Ok (QDMA_SUCCESS, Some (set_cm_bs_addr (Z.ldiff (cm_bs_addr (sample_cmpt 5)) (Z.ones 2)) (sample_cmpt 5)), w2) /\
    only_context QDMA_CTXT_SEL_CMPT 9 hw0 w2) /\
  eqdma_cmpt_ctx_conf (Some 0) 9 (Some (sample_cmpt 6)) QDMA_HW_ACCESS_WRITE hw0 =
    Ok (- QDMA_ERR_INV_PARAM, Some (sample_cmpt 6), hw0).
Proof.
  intros io ic.
  assert (forall m, 0 <= m < 8 -> cm_fits (sample_cmpt m)) as Hf.
  { intros m Hm. split; repeat constructor; cbn [snd fst sample_cmpt cm_trig_mode]; try (by vm_compute);
      change (2 ^ fwidth _) with 8; lia. }
  split.
  - apply (cmpt_ctxt_write_read (ok := hw_ok 3) 0 9 (sample_cmpt 5) (sample_cmpt 0) hw0);
      [apply hw0_prompt|done|lia|apply Hf; lia].
  - apply (cmpt_ctxt_write_read (ok := hw_ok 3) 0 9 (sample_cmpt 6) (sample_cmpt 0) hw0);
      [apply hw0_prompt|done|lia|apply Hf; lia].
Defined.

Definition sample_intr : qdma_indirect_intr_ctxt := mkIn 0x123456789abcdef0 33 77 1 0 1 3 0 1 0x1ff 1 300.

Lemma intr_ctxt_write_read_witness :
  let io := hw_iomem 3 in let ic := hw_ctxt 3 in exists w1 w2,
  eqdma_indirect_intr_ctx_conf (Some 0) 4 (Some sample_intr) QDMA_HW_ACCESS_WRITE hw0 =
    Ok (QDMA_SUCCESS, Some sample_intr, w1) /\
  eqdma_indirect_intr_ctx_conf (Some 0) 4 (Some sample_intr) QDMA_HW_ACCESS_READ w1 =
    Ok (QDMA_SUCCESS, Some (set_in_pasid 0xff
          (set_in_baddr_4k (Z.ldiff (in_baddr_4k sample_intr) (Z.ones 12)) sample_intr)), w2) /\
  only_context QDMA_CTXT_SEL_INT_COAL 4 hw0 w2.
Proof.
  intros io ic. apply (intr_ctxt_write_read (ok := hw_ok 3) 0 4 sample_intr sample_intr hw0);
    [apply hw0_prompt|done|lia|]. split; repeat constructor; by vm_compute.
Defined.
