(* ===== verification/Csr.v ===== *)
(** * eqdma_soft_access.c, third part: capabilities and global registers

    The device attributes ([eqdma_get_device_attributes]); the four global arrays of
    sixteen registers (ring sizes, timer counts, counter thresholds, buffer sizes)
    and [eqdma_global_csr_conf], which reads and writes parts of them; the writeback
    interval; the memory-mapped channel; the clearing of all context memory.

    [dev_hndl], [csr_val] and the like are pointers: [None] is [NULL].  What the
    functions rely on is the class [RegFile]: a register that is written keeps the
    bits of its field, and the others stay. *)

From S2P Require Import Prelude Float64 Device Fields Indirect CtxtRegs Context.
From stdpp Require Import gmap.

Open Scope Z_scope.

(** ** Registers *)
Definition QDMA_OFFSET_GLBL2_PF_BARLITE_INT : Z := 0x104.
Definition EQDMA_GLBL2_CHANNEL_MDMA_ADDR : Z := 0x118.
Definition EQDMA_GLBL2_CHANNEL_CAP_ADDR : Z := 0x120.
Definition EQDMA_GLBL2_MISC_CAP_ADDR : Z := 0x134.
Definition EQDMA_GLBL_RNG_SZ_1_ADDR : Z := 0x204.
Definition EQDMA_GLBL_DSC_CFG_ADDR : Z := 0x250.
Definition EQDMA_C2H_TIMER_CNT_ADDR : Z := 0xA00.
Definition EQDMA_C2H_CNT_TH_ADDR : Z := 0xA40.
Definition EQDMA_C2H_BUF_SZ_ADDR : Z := 0xAB0.
Definition EQDMA_C2H_MM_CTL_ADDR : Z := 0x1004.
Definition EQDMA_H2C_MM_CTL_ADDR : Z := 0x1204.
Definition EQDMA_OFFSET_VF_VERSION : Z := 0x5014.

Definition QDMA_GLBL2_PF3_BAR_MAP_MASK : Z := GENMASK 23 18.
Definition QDMA_GLBL2_PF2_BAR_MAP_MASK : Z := GENMASK 17 12.
Definition QDMA_GLBL2_PF1_BAR_MAP_MASK : Z := GENMASK 11 6.
Definition QDMA_GLBL2_PF0_BAR_MAP_MASK : Z := GENMASK 5 0.
Definition EQDMA_GLBL2_DBG_MODE_EN_MASK : Z := BIT 4.
Definition EQDMA_GLBL2_DESC_ENG_MODE_MASK : Z := GENMASK 3 2.
Definition EQDMA_GLBL2_FLR_PRESENT_MASK : Z := BIT 1.
Definition EQDMA_GLBL2_MAILBOX_EN_MASK : Z := BIT 0.
Definition EQDMA_GLBL2_IP_VERSION_MASK : Z := GENMASK 23 20.
Definition EQDMA_GLBL2_VF_IP_VERSION_MASK : Z := GENMASK 7 4.
Definition GLBL2_CHANNEL_CAP_MULTIQ_MAX_MASK : Z := GENMASK 11 0.
Definition GLBL2_CHANNEL_MDMA_C2H_ST_MASK : Z := BIT 17.
Definition GLBL2_CHANNEL_MDMA_H2C_ST_MASK : Z := BIT 16.
Definition GLBL2_CHANNEL_MDMA_C2H_ENG_MASK : Z := GENMASK 11 8.
Definition GLBL2_CHANNEL_MDMA_H2C_ENG_MASK : Z := GENMASK 3 0.
Definition GLBL_DSC_CFG_WB_ACC_INT_MASK : Z := GENMASK 2 0.

Definition QDMA_NUM_RING_SIZES : Z := 16.
Definition QDMA_NUM_C2H_TIMERS : Z := 16.
Definition QDMA_NUM_C2H_BUFFER_SIZES : Z := 16.
Definition QDMA_NUM_C2H_COUNTERS : Z := 16.
Definition QDMA_NUM_WRB_INTERVALS : Z := 8.
Definition QDMA_MM_CONTROL_STEP : Z := 0x100.
Definition QDMA_ERR_HWACC_FEATURE_NOT_SUPPORTED : Z := 7.

(** ** Device attributes *)
Record qdma_dev_attributes := mkAttr {
  num_pfs : Z; num_qs : Z; flr_present : Z; st_en : Z; mm_en : Z; mm_cmpt_en : Z; mailbox_en : Z;
  debug_mode : Z; desc_eng_mode : Z; mm_channel_max : Z; qid2vec_ctx : Z; cmpt_ovf_chk_dis : Z;
  mailbox_intr : Z; sw_desc_64b : Z; cmpt_desc_64b : Z; dynamic_bar : Z; legacy_intr : Z;
  cmpt_trig_count_timer : Z }.

Definition one_if (b : bool) : Z := if b then 1 else 0.
Definition nonzero (x : Z) : bool := negb (x =? 0).

Inductive qdma_global_csr_type :=
  | QDMA_CSR_RING_SZ | QDMA_CSR_TIMER_CNT | QDMA_CSR_CNT_TH | QDMA_CSR_BUF_SZ | QDMA_CSR_MAX.

Section code.
Context {W : Type} `{io : IoMem W}.

(** Every member of [*dev_info] is assigned; [None]: it is left alone.  [dev_info]
    says whether the pointer is not null. *)
Definition eqdma_get_device_attributes (dev_hndl : option Z) (dev_info : bool) :
    cmd W (Z * option qdma_dev_attributes) :=
  match dev_hndl with
  | None => mret (- QDMA_ERR_INV_PARAM, None)
  | Some dev =>
    if dev_info then
      reg_val ← qdma_reg_read dev QDMA_OFFSET_GLBL2_PF_BARLITE_INT;
      let count := one_if (nonzero (FIELD_GET QDMA_GLBL2_PF0_BAR_MAP_MASK reg_val))
        + one_if (nonzero (FIELD_GET QDMA_GLBL2_PF1_BAR_MAP_MASK reg_val))
        + one_if (nonzero (FIELD_GET QDMA_GLBL2_PF2_BAR_MAP_MASK reg_val))
        + one_if (nonzero (FIELD_GET QDMA_GLBL2_PF3_BAR_MAP_MASK reg_val)) in
      cap ← qdma_reg_read dev EQDMA_GLBL2_CHANNEL_CAP_ADDR;
      misc ← qdma_reg_read dev EQDMA_GLBL2_MISC_CAP_ADDR;
      mdma ← qdma_reg_read dev EQDMA_GLBL2_CHANNEL_MDMA_ADDR;
      let both m1 m2 := one_if (nonzero (FIELD_GET m1 mdma) && nonzero (FIELD_GET m2 mdma)) in
      mret (QDMA_SUCCESS, Some {|
        num_pfs := count;
        num_qs := u16 (FIELD_GET GLBL2_CHANNEL_CAP_MULTIQ_MAX_MASK cap);
        mailbox_en := FIELD_GET EQDMA_GLBL2_MAILBOX_EN_MASK misc;
        flr_present := FIELD_GET EQDMA_GLBL2_FLR_PRESENT_MASK misc;
        mm_cmpt_en := 0;
        debug_mode := FIELD_GET EQDMA_GLBL2_DBG_MODE_EN_MASK misc;
        desc_eng_mode := FIELD_GET EQDMA_GLBL2_DESC_ENG_MODE_MASK misc;
        st_en := both GLBL2_CHANNEL_MDMA_C2H_ST_MASK GLBL2_CHANNEL_MDMA_H2C_ST_MASK;
        mm_en := both GLBL2_CHANNEL_MDMA_C2H_ENG_MASK GLBL2_CHANNEL_MDMA_H2C_ENG_MASK;
        mm_channel_max := 1; qid2vec_ctx := 0; cmpt_ovf_chk_dis := 1; mailbox_intr := 1;
        sw_desc_64b := 1; cmpt_desc_64b := 1; dynamic_bar := 1; legacy_intr := 1;
        cmpt_trig_count_timer := 1 |})
    else mret (- QDMA_ERR_INV_PARAM, None)
  end.

(** [eqdma_get_device_attributes(dev_hndl, &dev_cap)] with a handle that is not null. *)
Definition dev_cap_of (dev : Z) : cmd W qdma_dev_attributes :=
  '(_, a) ← eqdma_get_device_attributes (Some dev) true;
  match a with Some a => mret a | None => fail Uninitialized end.

(** Returns the version, [None] when it is not stored. *)
Definition eqdma_get_ip_version (dev_hndl : option Z) (is_vf : Z) : cmd W (Z * option Z) :=
  match dev_hndl with
  | None => mret (- QDMA_ERR_INV_PARAM, None)
  | Some dev =>
      ver_reg_val ← qdma_reg_read dev
        (if decide (is_vf = 0) then EQDMA_GLBL2_MISC_CAP_ADDR else EQDMA_OFFSET_VF_VERSION);
      mret (QDMA_SUCCESS, Some (FIELD_GET
        (if decide (is_vf = 0) then EQDMA_GLBL2_IP_VERSION_MASK else EQDMA_GLBL2_VF_IP_VERSION_MASK)
        ver_reg_val))
  end.

(** ** Register arrays (qdma_access_common.c) *)

(** [n] rounds of the loop, from [index] on. *)
Fixpoint write_csr_from (dev reg_offst idx index : Z) (n : nat) (values : list Z) : cmd W unit :=
  match n with
  | O => mret tt
  | S n =>
      v ← lift (aget values (index - idx));
      _ ← qdma_reg_write dev (u32 (reg_offst + index * 4)) v;
      write_csr_from dev reg_offst idx (index + 1) n values
  end.
Definition qdma_write_csr_values (dev reg_offst idx cnt : Z) (values : list Z) : cmd W unit :=
  write_csr_from dev reg_offst idx idx (Z.to_nat cnt) values.

(** Returns the caller's array. *)
Fixpoint read_csr_from (dev reg_addr index : Z) (n : nat) (values : list Z) : cmd W (list Z) :=
  match n with
  | O => mret values
  | S n =>
      v ← qdma_reg_read dev (u32 (reg_addr + index * 4));
      values ← lift (aset values index v);
      read_csr_from dev reg_addr (index + 1) n values
  end.
Definition qdma_read_csr_values (dev reg_offst idx cnt : Z) (values : list Z) : cmd W (list Z) :=
  read_csr_from dev (u32 (reg_offst + idx * 4)) 0 (Z.to_nat cnt) values.

(** ** The global arrays *)
Definition eqdma_write_global_ring_sizes (dev_hndl : option Z) (index count : Z)
    (glbl_rng_sz : option (list Z)) : cmd W Z :=
  match dev_hndl, glbl_rng_sz with
  | Some dev, Some values =>
      if decide (count = 0) then mret (- QDMA_ERR_INV_PARAM) else
      if decide (index + count > QDMA_NUM_RING_SIZES) then mret (- QDMA_ERR_INV_PARAM) else
      _ ← qdma_write_csr_values dev EQDMA_GLBL_RNG_SZ_1_ADDR index count values;
      mret QDMA_SUCCESS
  | _, _ => mret (- QDMA_ERR_INV_PARAM)
  end.

Definition eqdma_read_global_ring_sizes (dev_hndl : option Z) (index count : Z)
    (glbl_rng_sz : option (list Z)) : cmd W (Z * option (list Z)) :=
  match dev_hndl, glbl_rng_sz with
  | Some dev, Some values =>
      if decide (count = 0) then mret (- QDMA_ERR_INV_PARAM, Some values) else
      if decide (index + count > QDMA_NUM_RING_SIZES) then mret (- QDMA_ERR_INV_PARAM, Some values) else
      values ← qdma_read_csr_values dev EQDMA_GLBL_RNG_SZ_1_ADDR index count values;
      mret (QDMA_SUCCESS, Some values)
  | _, _ => mret (- QDMA_ERR_INV_PARAM, glbl_rng_sz)
  end.

Definition eqdma_write_global_timer_count (dev_hndl : option Z) (index count : Z)
    (glbl_tmr_cnt : option (list Z)) : cmd W Z :=
  match dev_hndl, glbl_tmr_cnt with
  | Some dev, Some values =>
      if decide (count = 0) then mret (- QDMA_ERR_INV_PARAM) else
      if decide (index + count > QDMA_NUM_C2H_TIMERS) then mret (- QDMA_ERR_INV_PARAM) else
      dev_cap ← dev_cap_of dev;
      if nonzero (st_en dev_cap) || nonzero (mm_cmpt_en dev_cap) then
        _ ← qdma_write_csr_values dev EQDMA_C2H_TIMER_CNT_ADDR index count values;
        mret QDMA_SUCCESS
      else mret (- QDMA_ERR_HWACC_FEATURE_NOT_SUPPORTED)
  | _, _ => mret (- QDMA_ERR_INV_PARAM)
  end.

Definition eqdma_read_global_timer_count (dev_hndl : option Z) (index count : Z)
    (glbl_tmr_cnt : option (list Z)) : cmd W (Z * option (list Z)) :=
  match dev_hndl, glbl_tmr_cnt with
  | Some dev, Some values =>
      if decide (count = 0) then mret (- QDMA_ERR_INV_PARAM, Some values) else
      if decide (index + count > QDMA_NUM_C2H_TIMERS) then mret (- QDMA_ERR_INV_PARAM, Some values) else
      dev_cap ← dev_cap_of dev;
      if nonzero (st_en dev_cap) || nonzero (mm_cmpt_en dev_cap) then
        values ← qdma_read_csr_values dev EQDMA_C2H_TIMER_CNT_ADDR index count values;
        mret (QDMA_SUCCESS, Some values)
      else mret (- QDMA_ERR_HWACC_FEATURE_NOT_SUPPORTED, Some values)
  | _, _ => mret (- QDMA_ERR_INV_PARAM, glbl_tmr_cnt)
  end.

Definition eqdma_write_global_counter_threshold (dev_hndl : option Z) (index count : Z)
    (glbl_cnt_th : option (list Z)) : cmd W Z :=
  match dev_hndl, glbl_cnt_th with
  | Some dev, Some values =>
      if decide (count = 0) then mret (- QDMA_ERR_INV_PARAM) else
      if decide (index + count > QDMA_NUM_C2H_COUNTERS) then mret (- QDMA_ERR_INV_PARAM) else
      dev_cap ← dev_cap_of dev;
      if nonzero (st_en dev_cap) || nonzero (mm_cmpt_en dev_cap) then
        _ ← qdma_write_csr_values dev EQDMA_C2H_CNT_TH_ADDR index count values;
        mret QDMA_SUCCESS
      else mret (- QDMA_ERR_HWACC_FEATURE_NOT_SUPPORTED)
  | _, _ => mret (- QDMA_ERR_INV_PARAM)
  end.

Definition eqdma_read_global_counter_threshold (dev_hndl : option Z) (index count : Z)
    (glbl_cnt_th : option (list Z)) : cmd W (Z * option (list Z)) :=
  match dev_hndl, glbl_cnt_th with
  | Some dev, Some values =>
      if decide (count = 0) then mret (- QDMA_ERR_INV_PARAM, Some values) else
      if decide (index + count > QDMA_NUM_C2H_COUNTERS) then mret (- QDMA_ERR_INV_PARAM, Some values) else
      dev_cap ← dev_cap_of dev;
      if nonzero (st_en dev_cap) || nonzero (mm_cmpt_en dev_cap) then
        values ← qdma_read_csr_values dev EQDMA_C2H_CNT_TH_ADDR index count values;
        mret (QDMA_SUCCESS, Some values)
      else mret (- QDMA_ERR_HWACC_FEATURE_NOT_SUPPORTED, Some values)
  | _, _ => mret (- QDMA_ERR_INV_PARAM, glbl_cnt_th)
  end.

Definition eqdma_write_global_buffer_sizes (dev_hndl : option Z) (index count : Z)
    (glbl_buf_sz : option (list Z)) : cmd W Z :=
  match dev_hndl, glbl_buf_sz with
  | Some dev, Some values =>
      if decide (count = 0) then mret (- QDMA_ERR_INV_PARAM) else
      if decide (index + count > QDMA_NUM_C2H_BUFFER_SIZES) then mret (- QDMA_ERR_INV_PARAM) else
      dev_cap ← dev_cap_of dev;
      if nonzero (st_en dev_cap) then
        _ ← qdma_write_csr_values dev EQDMA_C2H_BUF_SZ_ADDR index count values;
        mret QDMA_SUCCESS
      else mret (- QDMA_ERR_HWACC_FEATURE_NOT_SUPPORTED)
  | _, _ => mret (- QDMA_ERR_INV_PARAM)
  end.

Definition eqdma_read_global_buffer_sizes (dev_hndl : option Z) (index count : Z)
    (glbl_buf_sz : option (list Z)) : cmd W (Z * option (list Z)) :=
  match dev_hndl, glbl_buf_sz with
  | Some dev, Some values =>
      if decide (count = 0) then mret (- QDMA_ERR_INV_PARAM, Some values) else
      if decide (index + count > QDMA_NUM_C2H_BUFFER_SIZES) then mret (- QDMA_ERR_INV_PARAM, Some values) else
      dev_cap ← dev_cap_of dev;
      if nonzero (st_en dev_cap) then
        values ← qdma_read_csr_values dev EQDMA_C2H_BUF_SZ_ADDR index count values;
        mret (QDMA_SUCCESS, Some values)
      else mret (- QDMA_ERR_HWACC_FEATURE_NOT_SUPPORTED, Some values)
  | _, _ => mret (- QDMA_ERR_INV_PARAM, glbl_buf_sz)
  end.

(** Returns the status and the caller's array. *)
Definition eqdma_global_csr_conf (dev_hndl : option Z) (index count : Z) (csr_val : option (list Z))
    (csr_type : qdma_global_csr_type) (access_type : qdma_hw_access_type) : cmd W (Z * option (list Z)) :=
  let written (c : cmd W Z) : cmd W (Z * option (list Z)) := rv ← c; mret (rv, csr_val) in
  let invalid : cmd W (Z * option (list Z)) := mret (- QDMA_ERR_INV_PARAM, csr_val) in
  match csr_type with
  | QDMA_CSR_RING_SZ =>
      match access_type with
      | QDMA_HW_ACCESS_READ => eqdma_read_global_ring_sizes dev_hndl index count csr_val
      | QDMA_HW_ACCESS_WRITE => written (eqdma_write_global_ring_sizes dev_hndl index count csr_val)
      | _ => invalid
      end
  | QDMA_CSR_TIMER_CNT =>
      match access_type with
      | QDMA_HW_ACCESS_READ => eqdma_read_global_timer_count dev_hndl index count csr_val
      | QDMA_HW_ACCESS_WRITE => written (eqdma_write_global_timer_count dev_hndl index count csr_val)
      | _ => invalid
      end
  | QDMA_CSR_CNT_TH =>
      match access_type with
      | QDMA_HW_ACCESS_READ => eqdma_read_global_counter_threshold dev_hndl index count csr_val
      | QDMA_HW_ACCESS_WRITE => written (eqdma_write_global_counter_threshold dev_hndl index count csr_val)
      | _ => invalid
      end
  | QDMA_CSR_BUF_SZ =>
      match access_type with
      | QDMA_HW_ACCESS_READ => eqdma_read_global_buffer_sizes dev_hndl index count csr_val
      | QDMA_HW_ACCESS_WRITE => written (eqdma_write_global_buffer_sizes dev_hndl index count csr_val)
      | _ => invalid
      end
  | QDMA_CSR_MAX => invalid
  end.

(** ** Writeback interval *)
Definition eqdma_global_writeback_interval_write (dev_hndl : option Z) (wb_int : Z) : cmd W Z :=
  match dev_hndl with
  | None => mret (- QDMA_ERR_INV_PARAM)
  | Some dev =>
      if decide (wb_int >= QDMA_NUM_WRB_INTERVALS) then mret (- QDMA_ERR_INV_PARAM) else
      dev_cap ← dev_cap_of dev;
      if nonzero (st_en dev_cap) || nonzero (mm_cmpt_en dev_cap) then
        reg_val ← qdma_reg_read dev EQDMA_GLBL_DSC_CFG_ADDR;
        let reg_val := Z.lor reg_val (FIELD_SET GLBL_DSC_CFG_WB_ACC_INT_MASK wb_int) in
        _ ← qdma_reg_write dev EQDMA_GLBL_DSC_CFG_ADDR reg_val;
        mret QDMA_SUCCESS
      else mret (- QDMA_ERR_HWACC_FEATURE_NOT_SUPPORTED)
  end.

Definition eqdma_global_writeback_interval_read (dev_hndl : option Z) (wb_int : option Z) :
    cmd W (Z * option Z) :=
  match dev_hndl, wb_int with
  | Some dev, Some _ =>
      dev_cap ← dev_cap_of dev;
      if nonzero (st_en dev_cap) || nonzero (mm_cmpt_en dev_cap) then
        reg_val ← qdma_reg_read dev EQDMA_GLBL_DSC_CFG_ADDR;
        mret (QDMA_SUCCESS, Some (FIELD_GET GLBL_DSC_CFG_WB_ACC_INT_MASK reg_val))
      else mret (- QDMA_ERR_HWACC_FEATURE_NOT_SUPPORTED, wb_int)
  | _, _ => mret (- QDMA_ERR_INV_PARAM, wb_int)
  end.

Definition eqdma_global_writeback_interval_conf (dev_hndl : option Z) (wb_int : option Z)
    (access_type : qdma_hw_access_type) : cmd W (Z * option Z) :=
  match access_type with
  | QDMA_HW_ACCESS_READ => eqdma_global_writeback_interval_read dev_hndl wb_int
  | QDMA_HW_ACCESS_WRITE =>
      match wb_int with
      | None => fail NullDeref
      | Some v => rv ← eqdma_global_writeback_interval_write dev_hndl v; mret (rv, wb_int)
      end
  | _ => mret (- QDMA_ERR_INV_PARAM, wb_int)
  end.

(** ** Memory-mapped channel *)
Definition eqdma_mm_channel_conf (dev_hndl : option Z) (channel is_c2h enable : Z) : cmd W Z :=
  let reg_addr := if decide (is_c2h = 0) then EQDMA_H2C_MM_CTL_ADDR else EQDMA_C2H_MM_CTL_ADDR in
  match dev_hndl with
  | None => mret (- QDMA_ERR_INV_PARAM)
  | Some dev =>
      dev_cap ← dev_cap_of dev;
      _ ← (if nonzero (mm_en dev_cap)
           then qdma_reg_write dev (reg_addr + channel * QDMA_MM_CONTROL_STEP) enable else mret tt);
      mret QDMA_SUCCESS
  end.

(** ** Clearing the context memory *)

(** [sel] from [QDMA_CTXT_SEL_SW_C2H] to [QDMA_CTXT_SEL_PFTCH]. *)
Definition init_sels : list ind_ctxt_cmd_sel :=
  [QDMA_CTXT_SEL_SW_C2H; QDMA_CTXT_SEL_SW_H2C; QDMA_CTXT_SEL_HW_C2H; QDMA_CTXT_SEL_HW_H2C;
   QDMA_CTXT_SEL_CR_C2H; QDMA_CTXT_SEL_CR_H2C; QDMA_CTXT_SEL_CMPT; QDMA_CTXT_SEL_PFTCH].

(** The loop over the selectors for queue [i]; [None]: go on. *)
Fixpoint clear_sels (dev st i : Z) (sels : list ind_ctxt_cmd_sel) : cmd W (option Z) :=
  match sels with
  | [] => mret None
  | sel :: sels =>
      if decide (st = 0 /\ (sel = QDMA_CTXT_SEL_PFTCH \/ sel = QDMA_CTXT_SEL_CMPT))
      then clear_sels dev st i sels else
      rv ← eqdma_indirect_reg_clear dev sel i;
      if decide (rv < 0) then mret (Some rv) else clear_sels dev st i sels
  end.

Fixpoint clear_queues (dev st i : Z) (n : nat) : cmd W (option Z) :=
  match n with
  | O => mret None
  | S n =>
      r ← clear_sels dev st i init_sels;
      match r with Some rv => mret (Some rv) | None => clear_queues dev st (i + 1) n end
  end.

Fixpoint clear_fmaps (dev i : Z) (n : nat) : cmd W unit :=
  match n with
  | O => mret tt
  | S n => _ ← eqdma_indirect_reg_clear dev QDMA_CTXT_SEL_FMAP i; clear_fmaps dev (i + 1) n
  end.

Definition eqdma_init_ctxt_memory (dev_hndl : option Z) : cmd W Z :=
  match dev_hndl with
  | None => mret (- QDMA_ERR_INV_PARAM)
  | Some dev =>
      dev_info ← dev_cap_of dev;
      r ← clear_queues dev (st_en dev_info) 0 (Z.to_nat (num_qs dev_info));
      match r with
      | Some rv => mret rv
      | None => _ ← clear_fmaps dev 0 (Z.to_nat (num_pfs dev_info)); mret QDMA_SUCCESS
      end
  end.
End code.

(** ** The register file

    [reg w o] is what the register at offset [o] holds; a write keeps the bits of the
    register's field ([csr_field], from eqdma_soft_reg.h). *)
Definition csr_base (t : qdma_global_csr_type) : Z :=
  match t with
  | QDMA_CSR_RING_SZ => EQDMA_GLBL_RNG_SZ_1_ADDR
  | QDMA_CSR_TIMER_CNT => EQDMA_C2H_TIMER_CNT_ADDR
  | QDMA_CSR_CNT_TH => EQDMA_C2H_CNT_TH_ADDR
  | QDMA_CSR_BUF_SZ | QDMA_CSR_MAX => EQDMA_C2H_BUF_SZ_ADDR
  end.
Definition csr_mask (t : qdma_global_csr_type) : Z :=
  match t with QDMA_CSR_BUF_SZ | QDMA_CSR_MAX => GENMASK 31 0 | _ => GENMASK 15 0 end.

Definition in_array (o : Z) (t : qdma_global_csr_type) : bool :=
  (csr_base t <=? o) && (o <? csr_base t + 64) && ((o - csr_base t) mod 4 =? 0).
Definition csr_arrays : list qdma_global_csr_type :=
  [QDMA_CSR_RING_SZ; QDMA_CSR_TIMER_CNT; QDMA_CSR_CNT_TH; QDMA_CSR_BUF_SZ].
Definition csr_writable (o : Z) : bool :=
  existsb (in_array o) csr_arrays || (o =? EQDMA_GLBL_DSC_CFG_ADDR).
Definition csr_known (o : Z) : bool :=
  csr_writable o || existsb (Z.eqb o)
    [QDMA_OFFSET_GLBL2_PF_BARLITE_INT; EQDMA_GLBL2_CHANNEL_MDMA_ADDR; EQDMA_GLBL2_CHANNEL_CAP_ADDR;
     EQDMA_GLBL2_MISC_CAP_ADDR].
Definition csr_field (o : Z) : Z :=
  if existsb (in_array o) [QDMA_CSR_RING_SZ; QDMA_CSR_TIMER_CNT; QDMA_CSR_CNT_TH]
  then GENMASK 15 0 else GENMASK 31 0.

Class RegFile (W : Type) := reg : W -> Z -> Z.
Class RegFileOk (W : Type) `{IoMem W} `{RegFile W} (dev : Z) : Prop := {
  rf_read : forall w o, csr_known o = true -> ioread32 (dev + o) w = (reg w o, w);
  rf_write : forall w o o' v, csr_writable o = true -> csr_known o' = true -> fits_u32 v ->
    reg (iowrite32 v (dev + o) w) o' = if decide (o' = o) then Z.land v (csr_field o) else reg w o';
  rf_u32 : forall w o, fits_u32 (reg w o) }.

Lemma csr_reg_writable t j : t <> QDMA_CSR_MAX -> 0 <= j < 16 ->
  csr_writable (csr_base t + 4 * j) = true /\ csr_known (csr_base t + 4 * j) = true /\
  csr_field (csr_base t + 4 * j) = csr_mask t.
Proof.
  intros Ht Hj.
  assert (forallb (fun j => csr_writable (csr_base t + 4 * j) && csr_known (csr_base t + 4 * j) &&
    (csr_field (csr_base t + 4 * j) =? csr_mask t)) (seqZ 0 16) = true) as H by (destruct t; [by vm_compute..|done]).
  rewrite forallb_forall in H. specialize (H j).
  rewrite !andb_true_iff, Z.eqb_eq in H. destruct H as [[? ?] ?]; [|done].
  apply list_elem_of_In, elem_of_seqZ. lia.
Qed.

Lemma csr_base_range t : 0 <= csr_base t < 4096.
Proof. by destruct t; vm_compute. Qed.

Section regs.
Context {W : Type} `{io : IoMem W} `{rf : RegFile W} (dev : Z) `{ok : !RegFileOk W dev}.

Lemma reg_read_run o w : csr_known o = true -> qdma_reg_read dev o w = Ok (reg w o, w).
Proof. intros Ho. unfold qdma_reg_read. by rewrite rf_read. Qed.

(** *** Attributes *)
Definition attrs (w : W) : qdma_dev_attributes :=
  let bar m := one_if (nonzero (FIELD_GET m (reg w QDMA_OFFSET_GLBL2_PF_BARLITE_INT))) in
  let misc := reg w EQDMA_GLBL2_MISC_CAP_ADDR in
  let mdma m := nonzero (FIELD_GET m (reg w EQDMA_GLBL2_CHANNEL_MDMA_ADDR)) in
  {| num_pfs := bar QDMA_GLBL2_PF0_BAR_MAP_MASK + bar QDMA_GLBL2_PF1_BAR_MAP_MASK
       + bar QDMA_GLBL2_PF2_BAR_MAP_MASK + bar QDMA_GLBL2_PF3_BAR_MAP_MASK;
     num_qs := u16 (FIELD_GET GLBL2_CHANNEL_CAP_MULTIQ_MAX_MASK (reg w EQDMA_GLBL2_CHANNEL_CAP_ADDR));
     mailbox_en := FIELD_GET EQDMA_GLBL2_MAILBOX_EN_MASK misc;
     flr_present := FIELD_GET EQDMA_GLBL2_FLR_PRESENT_MASK misc; mm_cmpt_en := 0;
     debug_mode := FIELD_GET EQDMA_GLBL2_DBG_MODE_EN_MASK misc;
     desc_eng_mode := FIELD_GET EQDMA_GLBL2_DESC_ENG_MODE_MASK misc;
     st_en := one_if (mdma GLBL2_CHANNEL_MDMA_C2H_ST_MASK && mdma GLBL2_CHANNEL_MDMA_H2C_ST_MASK);
     mm_en := one_if (mdma GLBL2_CHANNEL_MDMA_C2H_ENG_MASK && mdma GLBL2_CHANNEL_MDMA_H2C_ENG_MASK);
     mm_channel_max := 1; qid2vec_ctx := 0; cmpt_ovf_chk_dis := 1; mailbox_intr := 1;
     sw_desc_64b := 1; cmpt_desc_64b := 1; dynamic_bar := 1; legacy_intr := 1;
     cmpt_trig_count_timer := 1 |}.

(** The registers the attributes are read from. *)
Definition cap_regs : list Z :=
  [QDMA_OFFSET_GLBL2_PF_BARLITE_INT; EQDMA_GLBL2_CHANNEL_CAP_ADDR; EQDMA_GLBL2_MISC_CAP_ADDR;
   EQDMA_GLBL2_CHANNEL_MDMA_ADDR].

Lemma attributes_of_reads w : (forall o, o ∈ cap_regs -> qdma_reg_read dev o w = Ok (reg w o, w)) ->
  eqdma_get_device_attributes (Some dev) true w = Ok (QDMA_SUCCESS, Some (attrs w), w).
Proof.
  clear ok. intros H. unfold eqdma_get_device_attributes, cap_regs in *.
  do 4 (erewrite cmd_bind_run by (apply H; set_solver)). reflexivity.
Qed.
Lemma cap_of_reads w : (forall o, o ∈ cap_regs -> qdma_reg_read dev o w = Ok (reg w o, w)) ->
  dev_cap_of dev w = Ok (attrs w, w).
Proof. intros H. unfold dev_cap_of. by rewrite (cmd_bind_run _ _ _ _ _ (attributes_of_reads w H)). Qed.

Lemma dev_cap_run w : dev_cap_of dev w = Ok (attrs w, w).
Proof.
  apply cap_of_reads. intros o Ho. apply reg_read_run. unfold cap_regs in Ho.
  repeat (apply elem_of_cons in Ho as [->|Ho]; [done|]). by apply elem_of_nil in Ho.
Qed.

(** Streaming is supported when both directions are. *)
Definition st_supported (w : W) : bool := nonzero (st_en (attrs w)).
Definition csr_supported (t : qdma_global_csr_type) (w : W) : bool :=
  match t with QDMA_CSR_RING_SZ => true | _ => st_supported w end.

(** The same registers but those of [os]. *)
Definition regs_but (os : list Z) (w w' : W) : Prop :=
  forall o, csr_known o = true -> o ∉ os -> reg w' o = reg w o.

Lemma attrs_keep os w w' : regs_but os w w' -> Forall (fun o => csr_writable o = true) os ->
  attrs w' = attrs w.
Proof.
  intros Hr Hos. unfold attrs. rewrite Forall_forall in Hos.
  rewrite !(Hr QDMA_OFFSET_GLBL2_PF_BARLITE_INT), !(Hr EQDMA_GLBL2_CHANNEL_MDMA_ADDR),
    !(Hr EQDMA_GLBL2_CHANNEL_CAP_ADDR), !(Hr EQDMA_GLBL2_MISC_CAP_ADDR); try done;
    by intros Hin%Hos.
Qed.

(** *** Arrays *)
Definition csr_regs (t : qdma_global_csr_type) (idx : Z) (n : nat) : list Z :=
  (fun j => csr_base t + 4 * j) <$> seqZ idx (Z.of_nat n).
Definition csr_vals (t : qdma_global_csr_type) (idx : Z) (n : nat) (w : W) : list Z :=
  reg w <$> csr_regs t idx n.

Lemma csr_regs_S t idx n : csr_regs t idx (S n) = (csr_base t + 4 * idx) :: csr_regs t (idx + 1) n.
Proof.
  unfold csr_regs. rewrite seqZ_cons by lia. cbn [fmap list_fmap].
  by replace (Z.pred (Z.of_nat (S n))) with (Z.of_nat n) by lia.
Qed.

Lemma csr_regs_in t idx n o : o ∈ csr_regs t idx n <->
  exists j, idx <= j < idx + Z.of_nat n /\ o = csr_base t + 4 * j.
Proof.
  unfold csr_regs. rewrite list_elem_of_fmap. split.
  - intros (j & -> & Hj%elem_of_seqZ). by exists j.
  - intros (j & Hj & ->). exists j. split; [done|]. by apply elem_of_seqZ.
Qed.

Lemma csr_regs_writable t idx n : t <> QDMA_CSR_MAX -> 0 <= idx -> idx + Z.of_nat n <= 16 ->
  Forall (fun o => csr_writable o = true) (csr_regs t idx n).
Proof.
  intros Ht Hi Hn. apply Forall_forall. intros o (j & Hj & ->)%csr_regs_in.
  apply csr_reg_writable; [done|lia].
Qed.

Lemma write_csr_run t idx0 idx n values w : t <> QDMA_CSR_MAX -> 0 <= idx0 <= idx ->
  idx + Z.of_nat n <= 16 -> idx - idx0 + Z.of_nat n <= Z.of_nat (length values) -> Forall fits_u32 values ->
  exists w', write_csr_from dev (csr_base t) idx0 idx n values w = Ok (tt, w') /\
    csr_vals t idx n w' = (fun v => Z.land v (csr_mask t)) <$> take n (drop (Z.to_nat (idx - idx0)) values) /\
    regs_but (csr_regs t idx n) w w'.
Proof.
  intros Ht. revert idx w. induction n as [|n IH]; intros idx w Hi Hn Hl Hv.
  { exists w. split; [done|]. split; [done|]. by intros o. }
  cbn [write_csr_from].
  destruct (lookup_lt_is_Some_2 values (Z.to_nat (idx - idx0))) as [v Hv0]; [lia|].
  assert (aget values (idx - idx0) = Ok v) as Ea by (apply aget_ok; split; [lia|done]).
  rewrite (cmd_bind_run _ _ _ _ _ (lift_run _ _ _ Ea)).
  assert (u32 (csr_base t + idx * 4) = csr_base t + 4 * idx) as ->
    by (pose proof (csr_base_range t); rewrite u32_small by (unfold fits_u32; lia); lia).
  destruct (csr_reg_writable t idx Ht) as (Hw & Hk & Hf); [lia|].
  assert (fits_u32 v) as Hvu by (rewrite Forall_forall in Hv; apply Hv; by eapply list_elem_of_lookup_2).
  set (w1 := iowrite32 v (dev + (csr_base t + 4 * idx)) w).
  rewrite (cmd_bind_run _ _ w tt w1) by done.
  destruct (IH (idx + 1) w1) as (w' & E & Hvals & Hbut); [lia..|done|].
  exists w'. split; [done|].
  assert (regs_but [csr_base t + 4 * idx] w w1) as H1.
  { intros o Ho Hne. unfold w1. rewrite rf_write by done. by rewrite decide_False by set_solver. }
  split.
  - unfold csr_vals in *. rewrite csr_regs_S. cbn [fmap list_fmap].
    rewrite (drop_S _ v) by done. cbn [take fmap list_fmap]. f_equal.
    + rewrite Hbut; [|done|]; [unfold w1; by rewrite rf_write, decide_True, Hf by done|].
      intros (j & Hj & Heq)%csr_regs_in. lia.
    + replace (S (Z.to_nat (idx - idx0))) with (Z.to_nat (idx + 1 - idx0)) by lia. exact Hvals.
  - intros o Ho Hnin. rewrite csr_regs_S, not_elem_of_cons in Hnin.
    rewrite Hbut by tauto. apply H1; set_solver.
Qed.

Lemma aset_take_drop {A} (l : list A) (i : nat) v : (i < length l)%nat ->
  aset l (Z.of_nat i) v = Ok (take i l ++ v :: drop (S i) l).
Proof. intros H. rewrite aset_nat by done. by rewrite insert_take_drop. Qed.

Lemma read_csr_run t idx0 (i n : nat) values w : t <> QDMA_CSR_MAX -> 0 <= idx0 ->
  idx0 + Z.of_nat i + Z.of_nat n <= 16 -> (i + n <= length values)%nat ->
  read_csr_from dev (csr_base t + 4 * idx0) (Z.of_nat i) n values w =
    Ok (take i values ++ csr_vals t (idx0 + Z.of_nat i) n w ++ drop (i + n) values, w).
Proof.
  intros Ht Hi. revert i values. induction n as [|n IH]; intros i values Hn Hl.
  { cbn [read_csr_from]. change (csr_vals t _ 0 w) with (@nil Z).
    by rewrite Nat.add_0_r, app_nil_l, take_drop. }
  cbn [read_csr_from].
  assert (u32 (csr_base t + 4 * idx0 + Z.of_nat i * 4) = csr_base t + 4 * (idx0 + Z.of_nat i)) as ->
    by (pose proof (csr_base_range t); rewrite u32_small by (unfold fits_u32; lia); lia).
  destruct (csr_reg_writable t (idx0 + Z.of_nat i) Ht) as (Hw & Hk & Hf); [lia|].
  rewrite (cmd_bind_run _ _ _ _ _ (reg_read_run _ w Hk)).
  rewrite (cmd_bind_run _ _ _ _ _ (lift_run _ _ _ (aset_take_drop values i _ ltac:(lia)))).
  replace (Z.of_nat i + 1) with (Z.of_nat (S i)) by lia.
  rewrite IH; [|lia|rewrite length_app, length_cons, length_take, length_drop; lia].
  unfold csr_vals. rewrite (csr_regs_S t (idx0 + Z.of_nat i)). cbn [fmap list_fmap].
  replace (idx0 + Z.of_nat i + 1) with (idx0 + Z.of_nat (S i)) by lia.
  set (x := reg w _). do 2 f_equal. rewrite (cons_middle x).
  rewrite (app_assoc (take i values) [x]).
  rewrite take_app_length' by (rewrite length_app, length_take; cbn; lia). rewrite <- app_assoc. cbn [app].
  do 3 f_equal. rewrite drop_app_ge by (rewrite length_app, length_take; cbn; lia).
  rewrite drop_drop, length_app, length_take. cbn [length]. f_equal. lia.
Qed.

(** *** The configuration function *)

(** What it answers, whatever it is asked to do: a null pointer, an empty or an
    overlong range, an unknown array, a direction that is not supported. *)
Definition csr_status (dev_hndl : option Z) (idx cnt : Z) (csr_val : option (list Z))
    (t : qdma_global_csr_type) (a : qdma_hw_access_type) (w : W) : Z :=
  match dev_hndl, csr_val, t, a with
  | _, _, QDMA_CSR_MAX, _ => - QDMA_ERR_INV_PARAM
  | Some _, Some _, _, (QDMA_HW_ACCESS_READ | QDMA_HW_ACCESS_WRITE) =>
      if decide (cnt = 0 \/ 16 < idx + cnt) then - QDMA_ERR_INV_PARAM
      else if csr_supported t w then QDMA_SUCCESS else - QDMA_ERR_HWACC_FEATURE_NOT_SUPPORTED
  | _, _, _, _ => - QDMA_ERR_INV_PARAM
  end.

Lemma st_or_mm w : nonzero (st_en (attrs w)) || nonzero (mm_cmpt_en (attrs w)) = st_supported w.
Proof. unfold st_supported. cbn [mm_cmpt_en attrs]. by rewrite orb_false_r. Qed.

(** In every case the function answers its status; it touches the registers or the
    caller's array only when that is success. *)
Lemma csr_conf_run idx cnt values t w :
  let st := csr_status (Some dev) idx cnt (Some values) t QDMA_HW_ACCESS_READ w in
  eqdma_global_csr_conf (Some dev) idx cnt (Some values) t QDMA_HW_ACCESS_WRITE w =
    (if decide (st = QDMA_SUCCESS)
     then (_ ← qdma_write_csr_values dev (csr_base t) idx cnt values; mret (QDMA_SUCCESS, Some values)) w
     else Ok (st, Some values, w)) /\
  eqdma_global_csr_conf (Some dev) idx cnt (Some values) t QDMA_HW_ACCESS_READ w =
    (if decide (st = QDMA_SUCCESS)
     then (r ← qdma_read_csr_values dev (csr_base t) idx cnt values; mret (QDMA_SUCCESS, Some r)) w
     else Ok (st, Some values, w)).
Proof.
  intros st. subst st. unfold eqdma_global_csr_conf, csr_status, csr_supported.
  destruct t; [| | | |done];
  unfold eqdma_write_global_ring_sizes, eqdma_read_global_ring_sizes, eqdma_write_global_timer_count,
    eqdma_read_global_timer_count, eqdma_write_global_counter_threshold, eqdma_read_global_counter_threshold,
    eqdma_write_global_buffer_sizes, eqdma_read_global_buffer_sizes, QDMA_NUM_RING_SIZES, QDMA_NUM_C2H_TIMERS,
    QDMA_NUM_C2H_COUNTERS, QDMA_NUM_C2H_BUFFER_SIZES;
  (destruct (decide (cnt = 0)) as [H0|H0]; [by rewrite (decide_True (P := cnt = 0 \/ _)) by tauto|]);
  (destruct (decide (idx + cnt > 16)) as [H1|H1];
    [by rewrite (decide_True (P := cnt = 0 \/ _)) by lia|rewrite (decide_False (P := cnt = 0 \/ _)) by lia]);
  unfold mbind, cmd_bind; rewrite ?dev_cap_run, ?st_or_mm;
  try change (nonzero (st_en (attrs w))) with (st_supported w);
  try destruct (st_supported w); cbn [decide]; try done;
  split; try done; by destruct (qdma_write_csr_values dev _ idx cnt values w) as [[]|].
Qed.

(** The parameter checks of the global register arrays, on every branch: with a
    null pointer, an unknown array, an access other than read and write, no entries
    or entries beyond the sixteenth, the call answers that the parameter is invalid;
    for an array that needs streaming on a device without it, that the feature is
    not supported; in all these cases no register and no element of the caller's
    array is touched.  In all other cases, with an array long enough for the range,
    it returns success. *)
Theorem csr_conf_checked dev_hndl idx cnt csr_val t a w :
  dev_hndl = None \/ dev_hndl = Some dev -> 0 <= idx -> 0 <= cnt ->
  (forall values, csr_val = Some values -> cnt <= Z.of_nat (length values) /\ Forall fits_u32 values) ->
  let rv := csr_status dev_hndl idx cnt csr_val t a w in
  if decide (rv = QDMA_SUCCESS)
  then exists val' w', eqdma_global_csr_conf dev_hndl idx cnt csr_val t a w = Ok (rv, val', w')
  else eqdma_global_csr_conf dev_hndl idx cnt csr_val t a w = Ok (rv, csr_val, w).
Proof.
  intros Hd Hi Hc Hv rv. subst rv.
  destruct Hd as [-> | ->]; [by destruct t, a|].
  destruct csr_val as [values|]; [|by destruct t, a]. destruct (Hv values eq_refl) as [Hlen Hfit].
  destruct (csr_conf_run idx cnt values t w) as [Hw Hr].
  assert (forall a', csr_status (Some dev) idx cnt (Some values) t a' w = QDMA_SUCCESS ->
    t <> QDMA_CSR_MAX /\ idx + cnt <= 16) as Hrange.
  { intros a' Hs. unfold csr_status in Hs. destruct t, a'; try discriminate Hs;
      (destruct (decide (cnt = 0 \/ 16 < idx + cnt)) as [|Hok]; [discriminate Hs|]);
      split; first [discriminate | lia]. }
  destruct a; [..|by destruct t|by destruct t|by destruct t].
  - rewrite Hr. destruct (decide (csr_status _ _ _ _ _ _ _ = QDMA_SUCCESS)) as [Hs|Hs]; [|done].
    destruct (Hrange _ Hs) as [Ht Hx]. rewrite Hs. unfold qdma_read_csr_values.
    replace (u32 (csr_base t + idx * 4)) with (csr_base t + 4 * idx)
      by (pose proof (csr_base_range t); rewrite u32_small by (unfold fits_u32; lia); lia).
    pose proof (read_csr_run t idx 0 (Z.to_nat cnt) values w Ht Hi ltac:(lia) ltac:(lia)) as E.
    cbn [Z.of_nat] in E. rewrite (cmd_bind_run _ _ _ _ _ E). by eexists _, _.
  - assert (csr_status (Some dev) idx cnt (Some values) t QDMA_HW_ACCESS_WRITE w =
      csr_status (Some dev) idx cnt (Some values) t QDMA_HW_ACCESS_READ w) as E by by destruct t.
    rewrite E, Hw. destruct (decide (csr_status _ _ _ _ _ _ _ = QDMA_SUCCESS)) as [Hs|Hs]; [|done].
    destruct (Hrange _ Hs) as [Ht Hx]. rewrite Hs. unfold qdma_write_csr_values.
    destruct (write_csr_run t idx idx (Z.to_nat cnt) values w Ht) as (w1 & E1 & _); [lia..|done|].
    rewrite (cmd_bind_run _ _ _ _ _ E1). by eexists _, _.
Qed.

(** A value that fits the registers of the array. *)
Definition csr_fits (t : qdma_global_csr_type) (v : Z) : Prop := fits_u32 v /\ Z.land v (csr_mask t) = v.

Lemma csr_fits_mask t values : Forall (csr_fits t) values ->
  (fun v => Z.land v (csr_mask t)) <$> values = values.
Proof. induction 1 as [|v l [_ Hv] _ IH]; [done|]. cbn. by rewrite Hv, IH. Qed.

(** What is written to a part of a global array is read back from it, into the
    front of the reader's array, and no other register is changed. *)
Theorem csr_conf_roundtrip t idx n values w : t <> QDMA_CSR_MAX -> csr_supported t w = true ->
  0 <= idx -> (0 < n)%nat -> idx + Z.of_nat n <= 16 -> (n <= length values)%nat -> Forall (csr_fits t) values ->
  exists w1,
    eqdma_global_csr_conf (Some dev) idx (Z.of_nat n) (Some values) t QDMA_HW_ACCESS_WRITE w =
      Ok (QDMA_SUCCESS, Some values, w1) /\
    regs_but (csr_regs t idx n) w w1 /\
    forall arr, (n <= length arr)%nat ->
      eqdma_global_csr_conf (Some dev) idx (Z.of_nat n) (Some arr) t QDMA_HW_ACCESS_READ w1 =
        Ok (QDMA_SUCCESS, Some (take n values ++ drop n arr), w1).
Proof.
  intros Ht Hsup Hi Hn0 Hn Hl Hv.
  assert (forall arr w', csr_supported t w' = true ->
    csr_status (Some dev) idx (Z.of_nat n) (Some arr) t QDMA_HW_ACCESS_READ w' = QDMA_SUCCESS) as Hst.
  { intros arr w' Hs. unfold csr_status. destruct t; [..|done]; rewrite decide_False by lia; by rewrite Hs. }
  destruct (csr_conf_run idx (Z.of_nat n) values t w) as [Hw _]. rewrite decide_True in Hw by by apply Hst.
  destruct (write_csr_run t idx idx n values w Ht) as (w1 & E & Hvals & Hbut); [lia..| |].
  { apply (Forall_impl _ _ _ Hv). by intros v []. }
  exists w1. rewrite Hw. split; [|split; [done|]].
  - unfold qdma_write_csr_values. rewrite Nat2Z.id. by rewrite (cmd_bind_run _ _ _ _ _ E).
  - intros arr Harr. destruct (csr_conf_run idx (Z.of_nat n) arr t w1) as [_ Hr].
    assert (csr_supported t w1 = true) as Hsup1.
    { destruct t; [done|..|done]; unfold csr_supported, st_supported in *;
        by rewrite (attrs_keep _ _ _ Hbut) by (apply csr_regs_writable; [done|lia..]). }
    rewrite Hr, decide_True by by apply Hst. unfold qdma_read_csr_values. rewrite Nat2Z.id.
    replace (u32 (csr_base t + idx * 4)) with (csr_base t + 4 * idx)
      by (pose proof (csr_base_range t); rewrite u32_small by (unfold fits_u32; lia); lia).
    pose proof (read_csr_run t idx 0 n arr w1 Ht Hi ltac:(lia) ltac:(lia)) as E1. cbn [Z.of_nat] in E1.
    rewrite (cmd_bind_run _ _ _ _ _ E1). rewrite Z.add_0_r, Hvals, Z.sub_diag. cbn [Z.to_nat take drop app Nat.add].
    rewrite csr_fits_mask by by apply Forall_take. done.
Qed.

(** *** Writeback interval *)
Definition wb_interval (w : W) : Z := FIELD_GET GLBL_DSC_CFG_WB_ACC_INT_MASK (reg w EQDMA_GLBL_DSC_CFG_ADDR).

Lemma wb_field_get x : FIELD_GET GLBL_DSC_CFG_WB_ACC_INT_MASK x = Z.land x 7.
Proof. unfold FIELD_GET. change (FIELD_SHIFT GLBL_DSC_CFG_WB_ACC_INT_MASK) with 0. apply Z.shiftr_0_r. Qed.
Lemma wb_field_set v : FIELD_SET GLBL_DSC_CFG_WB_ACC_INT_MASK v = Z.land v 7.
Proof. unfold FIELD_SET. change (FIELD_SHIFT GLBL_DSC_CFG_WB_ACC_INT_MASK) with 0. by rewrite Z.shiftl_0_r. Qed.

(** Setting the writeback interval does not set it: the new value is or-ed into
    the register, so the interval read back is the old one or-ed with the new one.
    It is the new one exactly when it has every bit of the old one; an interval can
    only be raised bit by bit and never lowered. *)
Theorem wb_interval_accumulates v w : 0 <= v < 8 -> st_supported w = true -> exists w1,
  eqdma_global_writeback_interval_conf (Some dev) (Some v) QDMA_HW_ACCESS_WRITE w =
    Ok (QDMA_SUCCESS, Some v, w1) /\
  eqdma_global_writeback_interval_conf (Some dev) (Some 0) QDMA_HW_ACCESS_READ w1 =
    Ok (QDMA_SUCCESS, Some (Z.lor (wb_interval w) v), w1) /\
  (Z.lor (wb_interval w) v = v <-> Z.ldiff (wb_interval w) v = 0).
Proof.
  intros Hv Hst. set (o := EQDMA_GLBL_DSC_CFG_ADDR).
  set (x := Z.lor (reg w o) (FIELD_SET GLBL_DSC_CFG_WB_ACC_INT_MASK v)).
  assert (FIELD_SET GLBL_DSC_CFG_WB_ACC_INT_MASK v = v) as Hfv.
  { rewrite wb_field_set. change 7 with (Z.ones 3). apply land_low; [lia|]. split; [lia|]. apply Hv. }
  assert (fits_u32 x) as Hx.
  { unfold x. rewrite Hfv. pose proof (rf_u32 w o) as Hr. unfold fits_u32 in *.
    change 4294967296 with (2 ^ 32) in *. apply lor_range; lia. }
  set (w1 := iowrite32 x (dev + o) w).
  assert (forall o', csr_known o' = true -> reg w1 o' = if decide (o' = o) then x else reg w o') as Hw1.
  { intros o' Ho'. unfold w1. rewrite rf_write by done. case_decide; [|done].
    change (csr_field o) with (Z.ones 32). apply land_low; [lia|exact Hx]. }
  assert (attrs w1 = attrs w) as Hattr.
  { apply (attrs_keep [o]); [|by repeat constructor]. intros o' Ho' Hn. rewrite Hw1 by done.
    by rewrite decide_False by set_solver. }
  exists w1. split; [|split].
  - unfold eqdma_global_writeback_interval_conf, eqdma_global_writeback_interval_write.
    rewrite (decide_False (P := v >= _)) by (unfold QDMA_NUM_WRB_INTERVALS; lia).
    erewrite cmd_bind_run; [reflexivity|]. rewrite (cmd_bind_run _ _ _ _ _ (dev_cap_run w)).
    rewrite st_or_mm, Hst. rewrite (cmd_bind_run _ _ _ _ _ (reg_read_run o w eq_refl)). reflexivity.
  - unfold eqdma_global_writeback_interval_conf, eqdma_global_writeback_interval_read.
    rewrite (cmd_bind_run _ _ _ _ _ (dev_cap_run w1)). rewrite Hattr, st_or_mm, Hst.
    rewrite (cmd_bind_run _ _ _ _ _ (reg_read_run o w1 eq_refl)). unfold mret, cmd_ret. do 4 f_equal.
    rewrite Hw1, decide_True by done. unfold x, wb_interval. rewrite !wb_field_get, Hfv.
    rewrite Z.land_lor_distr_l. f_equal. rewrite <- wb_field_set. exact Hfv.
  - split; intros H.
    + apply Z.bits_inj'. intros i Hi. apply (f_equal (fun z => Z.testbit z i)) in H.
      rewrite Z.lor_spec in H. rewrite Z.ldiff_spec, Z.bits_0.
      by destruct (Z.testbit (wb_interval w) i), (Z.testbit v i).
    + apply Z.bits_inj'. intros i Hi. apply (f_equal (fun z => Z.testbit z i)) in H.
      rewrite Z.ldiff_spec, Z.bits_0 in H. rewrite Z.lor_spec.
      by destruct (Z.testbit (wb_interval w) i), (Z.testbit v i).
Qed.

(** *** Clearing all contexts *)
Context `{ic : IndCtxt W} `{iok : !IndCtxtOk W dev}.

Definition zero_at (h : ind_hw) (sel : ind_ctxt_cmd_sel) (q : Z) : Prop :=
  ctxt_at h (sel_val sel, q) = zero_ctxt.

(** On a prompt device a clear empties its context and keeps the empty ones. *)
Lemma clear_zero sel q w : prompt -> idle w -> 0 <= q < 4096 -> exists w1,
  eqdma_indirect_reg_clear dev sel q w = Ok (QDMA_SUCCESS, w1) /\ idle w1 /\ zero_at (ind w1) sel q /\
  forall sel' q', zero_at (ind w) sel' q' -> zero_at (ind w1) sel' q'.
Proof.
  intros Hp Hi Hq. destruct (clear_run dev sel q w Hi) as (lat & w1 & E & Hlat & Hw1).
  destruct (answer_prompt lat Hp Hlat) as [Ha H0]. rewrite Ha in E. rewrite H0, exec_clear in Hw1 by done.
  exists w1. split; [done|]. unfold idle, zero_at, ctxt_at. rewrite Hw1. cbn [ih_busy ih_ctxt set_busy].
  split; [done|]. split; [by rewrite lookup_insert_eq|]. intros sel' q' Hz.
  destruct (decide ((sel_val sel', q') = (sel_val sel, q))) as [->|Hne]; [by rewrite lookup_insert_eq|].
  by rewrite lookup_insert_ne by done.
Qed.

(** The selectors that are cleared for each queue. *)
Definition cleared_sel (st : Z) (sel : ind_ctxt_cmd_sel) : Prop :=
  sel ∈ init_sels /\ (st = 0 -> sel <> QDMA_CTXT_SEL_PFTCH /\ sel <> QDMA_CTXT_SEL_CMPT).

Definition keeps_zero (w w1 : W) : Prop :=
  idle w1 /\ forall sel q, zero_at (ind w) sel q -> zero_at (ind w1) sel q.

Lemma clear_sels_run st q sels w : prompt -> idle w -> 0 <= q < 4096 -> exists w1,
  clear_sels dev st q sels w = Ok (None, w1) /\ keeps_zero w w1 /\
  forall sel, sel ∈ sels -> (st = 0 -> sel <> QDMA_CTXT_SEL_PFTCH /\ sel <> QDMA_CTXT_SEL_CMPT) ->
    zero_at (ind w1) sel q.
Proof.
  intros Hp. revert w. induction sels as [|sel sels IH]; intros w Hi Hq; cbn [clear_sels].
  { exists w. split; [done|]. split; [done|]. intros sel Hs. by apply elem_of_nil in Hs. }
  destruct (decide (st = 0 /\ (sel = QDMA_CTXT_SEL_PFTCH \/ sel = QDMA_CTXT_SEL_CMPT))) as [Hskip|Hdo].
  - destruct (IH w Hi Hq) as (w1 & E & Hk & Hz). exists w1. split; [done|]. split; [done|].
    intros s [->|Hs]%elem_of_cons Hc; [|auto]. destruct Hskip as [Hst Hsel]. destruct (Hc Hst). naive_solver.
  - destruct (clear_zero sel q w Hp Hi Hq) as (w1 & E & Hi1 & Hz1 & Hkeep).
    rewrite (cmd_bind_run _ _ _ _ _ E). rewrite decide_False by (unfold QDMA_SUCCESS; lia).
    destruct (IH w1 Hi1 Hq) as (w2 & E2 & [Hi2 Hk2] & Hz2). exists w2. split; [done|].
    split; [split; [done|]; intros; by apply Hk2, Hkeep|].
    intros s [->|Hs]%elem_of_cons Hc; [by apply Hk2|auto].
Qed.

Lemma clear_queues_run st i n w : prompt -> idle w -> 0 <= i -> i + Z.of_nat n <= 4096 -> exists w1,
  clear_queues dev st i n w = Ok (None, w1) /\ keeps_zero w w1 /\
  forall sel q, cleared_sel st sel -> i <= q < i + Z.of_nat n -> zero_at (ind w1) sel q.
Proof.
  intros Hp. revert i w. induction n as [|n IH]; intros i w Hi H0 Hn; cbn [clear_queues].
  { exists w. split; [done|]. split; [done|]. lia. }
  destruct (clear_sels_run st i init_sels w Hp Hi ltac:(lia)) as (w1 & E & [Hi1 Hk1] & Hz1).
  rewrite (cmd_bind_run _ _ _ _ _ E).
  destruct (IH (i + 1) w1 Hi1) as (w2 & E2 & [Hi2 Hk2] & Hz2); [lia..|].
  exists w2. split; [done|]. split; [split; [done|]; auto|].
  intros sel q [Hs Hc] Hq. destruct (decide (q = i)) as [->|Hne]; [by apply Hk2, Hz1|].
  apply Hz2; [done|lia].
Qed.

Lemma clear_fmaps_run i n w : prompt -> idle w -> 0 <= i -> i + Z.of_nat n <= 4096 -> exists w1,
  clear_fmaps dev i n w = Ok (tt, w1) /\ keeps_zero w w1 /\
  forall q, i <= q < i + Z.of_nat n -> zero_at (ind w1) QDMA_CTXT_SEL_FMAP q.
Proof.
  intros Hp. revert i w. induction n as [|n IH]; intros i w Hi H0 Hn; cbn [clear_fmaps].
  { exists w. split; [done|]. split; [done|]. lia. }
  destruct (clear_zero QDMA_CTXT_SEL_FMAP i w Hp Hi ltac:(lia)) as (w1 & E & Hi1 & Hz1 & Hk1).
  rewrite (cmd_bind_run _ _ _ _ _ E).
  destruct (IH (i + 1) w1 Hi1) as (w2 & E2 & [Hi2 Hk2] & Hz2); [lia..|].
  exists w2. split; [done|]. split; [split; [done|]; auto|].
  intros q Hq. destruct (decide (q = i)) as [->|Hne]; [by apply Hk2|]. apply Hz2. lia.
Qed.

Lemma attrs_bounds w : 0 <= num_qs (attrs w) < 4096 /\ 0 <= num_pfs (attrs w) <= 4.
Proof.
  split.
  - cbn [num_qs attrs]. set (x := reg w EQDMA_GLBL2_CHANNEL_CAP_ADDR). unfold FIELD_GET.
    change (FIELD_SHIFT GLBL2_CHANNEL_CAP_MULTIQ_MAX_MASK) with 0. rewrite Z.shiftr_0_r.
    change GLBL2_CHANNEL_CAP_MULTIQ_MAX_MASK with (Z.ones 12). rewrite Z.land_ones by lia.
    change (2 ^ 12) with 4096. int_lia.
  - cbn [num_pfs attrs]. unfold one_if. repeat case_match; lia.
Qed.

(** Clearing the context memory: on a device that answers in time the call
    succeeds and leaves the software, hardware, credit, completion and prefetch
    contexts of every queue of the device zero (without streaming: all but the
    completion and prefetch contexts), and the queue range of every physical
    function. *)
Theorem init_ctxt_memory_clears w : prompt -> idle w -> exists w1,
  eqdma_init_ctxt_memory (Some dev) w = Ok (QDMA_SUCCESS, w1) /\ idle w1 /\
  (forall sel q, cleared_sel (st_en (attrs w)) sel -> 0 <= q < num_qs (attrs w) -> zero_at (ind w1) sel q) /\
  (forall f, 0 <= f < num_pfs (attrs w) -> zero_at (ind w1) QDMA_CTXT_SEL_FMAP f) /\
  (forall sel q, zero_at (ind w) sel q -> zero_at (ind w1) sel q).
Proof.
  intros Hp Hi. pose proof (attrs_bounds w) as [Hq Hf].
  unfold eqdma_init_ctxt_memory. rewrite (cmd_bind_run _ _ _ _ _ (dev_cap_run w)).
  destruct (clear_queues_run (st_en (attrs w)) 0 (Z.to_nat (num_qs (attrs w))) w Hp Hi)
    as (w1 & E1 & [Hi1 Hk1] & Hz1); [lia..|].
  rewrite (cmd_bind_run _ _ _ _ _ E1).
  destruct (clear_fmaps_run 0 (Z.to_nat (num_pfs (attrs w))) w1 Hp Hi1) as (w2 & E2 & [Hi2 Hk2] & Hz2); [lia..|].
  rewrite (cmd_bind_run _ _ _ _ _ E2). exists w2. split; [done|]. split; [done|].
  split; [intros sel q Hs Hr; apply Hk2, Hz1; [done|lia]|]. split; [intros f Hr; apply Hz2; lia|].
  intros sel q Hz. by apply Hk2, Hk1.
Qed.
End regs.

(** ** A concrete device: a register file beside the context memory of [Indirect] *)
Record csr_hw := mkCsrHw { ch_regs : gmap Z Z; ch_ind : ind_hw }.

#[export] Instance csr_iomem : IoMem csr_hw := {|
  ioread32 a w :=
    if csr_known a then (u32 (default 0 (ch_regs w !! a)), w)
    else let '(v, h) := ioread32 (IoMem := hw_iomem 3) a (ch_ind w) in (v, mkCsrHw (ch_regs w) h);
  iowrite32 v a w :=
    if csr_known a then
      (if csr_writable a then mkCsrHw (<[a := Z.land v (csr_field a)]> (ch_regs w)) (ch_ind w) else w)
    else mkCsrHw (ch_regs w) (iowrite32 (IoMem := hw_iomem 3) v a (ch_ind w)) |}.
#[export] Instance csr_regfile : RegFile csr_hw := fun w o => u32 (default 0 (ch_regs w !! o)).
#[export] Instance csr_ind : IndCtxt csr_hw := {|
  ind w := norm_hw (ch_ind w); ind_latency _ := 3%nat; ind_inv l := l |}.

Lemma writable_known o : csr_writable o = true -> csr_known o = true.
Proof. unfold csr_known. by intros ->. Qed.

#[export] Instance csr_regfile_ok : RegFileOk csr_hw 0.
Proof.
  split.
  - intros w o Ho. cbn [ioread32 csr_iomem]. rewrite Z.add_0_l. by rewrite Ho.
  - intros w o o' v Hw Ho' Hv. cbn [iowrite32 csr_iomem]. rewrite Z.add_0_l. rewrite (writable_known o Hw), Hw. unfold reg, csr_regfile. cbn [ch_regs].
    case_decide as E; [subst o'|by rewrite lookup_insert_ne by done].
    rewrite lookup_insert_eq. cbn. apply u32_small. unfold csr_field, fits_u32 in *.
    pose proof (Z.land_nonneg v (GENMASK 15 0)). pose proof (Z.land_nonneg v (GENMASK 31 0)).
    destruct (existsb _ _).
    + change (GENMASK 15 0) with (Z.ones 16). rewrite Z.land_ones by lia. change (2 ^ 16) with 65536. int_lia.
    + change (GENMASK 31 0) with (Z.ones 32). rewrite Z.land_ones by lia. change (2 ^ 32) with 4294967296. int_lia.
  - intros w o. apply u32_range.
Qed.

Lemma ctxt_not_known :
  (forall i : nat, (i < 8)%nat -> csr_known (EQDMA_IND_CTXT_DATA_ADDR + 4 * Z.of_nat i) = false) /\
  (forall i : nat, (i < 8)%nat -> csr_known (EQDMA_IND_CTXT_MASK_ADDR + 4 * Z.of_nat i) = false).
Proof. split; intros i Hi; do 8 (destruct i as [|i]; [by vm_compute|]); lia. Qed.

#[export] Instance csr_ind_ok : IndCtxtOk csr_hw 0.
Proof.
  pose proof (hw_ok 3) as [H1 H2 H3 H4 H5 H6]. destruct ctxt_not_known as [Nd Nm].
  split.
  - intros w. apply H1.
  - intros w i v Hb Hi Hv. cbn [iowrite32 csr_iomem]. rewrite Z.add_0_l, Nd by done. by apply H2.
  - intros w i v Hb Hi Hv. cbn [iowrite32 csr_iomem]. rewrite Z.add_0_l, Nm by done. by apply H3.
  - intros w c Hb Hc. cbn [iowrite32 csr_iomem]. rewrite Z.add_0_l.
    change (csr_known EQDMA_IND_CTXT_CMD_ADDR) with false. cbv iota. by apply H4.
  - intros w. cbn [ioread32 csr_iomem]. rewrite Z.add_0_l. change (csr_known EQDMA_IND_CTXT_CMD_ADDR) with false.
    cbv iota. specialize (H5 (ch_ind w)). rewrite Z.add_0_l in H5. by destruct (ioread32 _ (ch_ind w)).
  - intros w i Hb Hi. cbn [ioread32 csr_iomem]. rewrite Z.add_0_l, Nd by done.
    specialize (H6 (ch_ind w) i Hb Hi). rewrite Z.add_0_l in H6. by destruct (ioread32 _ (ch_ind w)).
Qed.

(** One physical function, two queues, streaming in both directions; writeback
    interval 5. *)
Definition csr_hw0 : csr_hw :=
  mkCsrHw (list_to_map [(QDMA_OFFSET_GLBL2_PF_BARLITE_INT, 1); (EQDMA_GLBL2_CHANNEL_CAP_ADDR, 2);
    (EQDMA_GLBL2_CHANNEL_MDMA_ADDR, 0x30101); (EQDMA_GLBL_DSC_CFG_ADDR, 5)]) hw0.

(** ** Witnesses *)
Lemma csr_conf_checked_witness :
  eqdma_global_csr_conf (Some 0) 10 7 (Some [1; 2; 3; 4; 5; 6; 7]) QDMA_CSR_TIMER_CNT QDMA_HW_ACCESS_WRITE csr_hw0 =
    Ok (- QDMA_ERR_INV_PARAM, Some [1; 2; 3; 4; 5; 6; 7], csr_hw0).
Proof.
  refine (csr_conf_checked 0 (Some 0) 10 7 (Some [1; 2; 3; 4; 5; 6; 7]) QDMA_CSR_TIMER_CNT
    QDMA_HW_ACCESS_WRITE csr_hw0 _ _ _ _); [by right|lia|lia|].
  intros values [= <-]. split; [cbn; lia|]. repeat constructor; cbn; lia.
Defined.

Lemma csr_conf_roundtrip_witness : exists w1,
  eqdma_global_csr_conf (Some 0) 14 2 (Some [300; 7]) QDMA_CSR_TIMER_CNT QDMA_HW_ACCESS_WRITE csr_hw0 =
    Ok (QDMA_SUCCESS, Some [300; 7], w1) /\
  regs_but (csr_regs QDMA_CSR_TIMER_CNT 14 2) csr_hw0 w1 /\
  forall arr, (2 <= length arr)%nat ->
    eqdma_global_csr_conf (Some 0) 14 2 (Some arr) QDMA_CSR_TIMER_CNT QDMA_HW_ACCESS_READ w1 =
      Ok (QDMA_SUCCESS, Some ([300; 7] ++ drop 2 arr), w1).
Proof.
  apply (csr_conf_roundtrip 0 QDMA_CSR_TIMER_CNT 14 2 [300; 7] csr_hw0);
    [done|by vm_compute|lia|lia|lia|cbn; lia|].
  repeat constructor; cbn; lia.
Defined.

Lemma wb_interval_accumulates_witness : exists w1,
  eqdma_global_writeback_interval_conf (Some 0) (Some 2) QDMA_HW_ACCESS_WRITE csr_hw0 =
    Ok (QDMA_SUCCESS, Some 2, w1) /\
  eqdma_global_writeback_interval_conf (Some 0) (Some 0) QDMA_HW_ACCESS_READ w1 =
    Ok (QDMA_SUCCESS, Some (Z.lor (wb_interval csr_hw0) 2), w1) /\
  (Z.lor (wb_interval csr_hw0) 2 = 2 <-> Z.ldiff (wb_interval csr_hw0) 2 = 0).
Proof. apply (wb_interval_accumulates 0 2 csr_hw0); [lia|by vm_compute]. Defined.

(** There, interval 2 written over interval 5 reads back as 7. *)
Example wb_interval_5_2 : Z.lor (wb_interval csr_hw0) 2 = 7.
Proof. by vm_compute. Qed.

Lemma init_ctxt_memory_clears_witness : exists w1,
  eqdma_init_ctxt_memory (Some 0) csr_hw0 = Ok (QDMA_SUCCESS, w1) /\ idle w1 /\
  (forall sel q, cleared_sel (st_en (attrs csr_hw0)) sel -> 0 <= q < num_qs (attrs csr_hw0) ->
     zero_at (ind w1) sel q) /\
  (forall f, 0 <= f < num_pfs (attrs csr_hw0) -> zero_at (ind w1) QDMA_CTXT_SEL_FMAP f) /\
  (forall sel q, zero_at (ind csr_hw0) sel q -> zero_at (ind w1) sel q).
Proof.
  apply (init_ctxt_memory_clears 0 csr_hw0); [|done].
  intros w. unfold ind_latency, csr_ind, MAX_POLLS. lia.
Defined.
