(* ===== verification/RegTable.v ===== *)
(** * eqdma_soft_reg_dump.c: the configuration registers

    The descriptions the dump functions work from: for each register its name, its
    offset, the modes it exists in and the functions that may read it, and the names
    and masks of its fields (the masks with the values eqdma_soft_reg.h gives them).
    [RegDump] has the functions and the theorems about the table. *)

From S2P Require Import Prelude Fields.
From Stdlib Require Import String.

Open Scope Z_scope.

(** ** Descriptions (qdma_reg_dump.h) *)
Record regfield_info := mkField { field_name : string; field_mask : Z }.
Record xreg_info := mkReg {
  xr_name : string; xr_addr : Z; xr_repeat : Z; xr_step : Z; xr_shift : Z; xr_len : Z;
  xr_is_debug_reg : Z; xr_mode : Z; xr_read_type : Z; xr_num_bitfields : Z;
  xr_bitfields : list regfield_info }.

Definition QDMA_MM_EN_SHIFT : Z := 0.
Definition QDMA_CMPT_EN_SHIFT : Z := 1.
Definition QDMA_ST_EN_SHIFT : Z := 2.
Definition QDMA_MAILBOX_EN_SHIFT : Z := 3.
Definition QDMA_MM_MODE : Z := Z.shiftl 1 QDMA_MM_EN_SHIFT.
Definition QDMA_COMPLETION_MODE : Z := Z.shiftl 1 QDMA_CMPT_EN_SHIFT.
Definition QDMA_ST_MODE : Z := Z.shiftl 1 QDMA_ST_EN_SHIFT.
Definition QDMA_MM_ST_MODE : Z := Z.lor (Z.lor QDMA_MM_MODE QDMA_COMPLETION_MODE) QDMA_ST_MODE.
Definition QDMA_REG_READ_PF_ONLY : Z := 0.
Definition QDMA_REG_READ_VF_ONLY : Z := 1.
Definition QDMA_REG_READ_PF_VF : Z := 2.

Definition ARRAY_SIZE (l : list regfield_info) : Z := Z.of_nat (List.length l).

(** ** Fields *)
Open Scope string_scope.

Definition cfg_blk_identifier_field_info : list regfield_info :=
  [mkField "CFG_BLK_IDENTIFIER" (GENMASK 31 20); mkField "CFG_BLK_IDENTIFIER_1" (GENMASK 19 16);
   mkField "CFG_BLK_IDENTIFIER_RSVD_1" (GENMASK 15 8); mkField "CFG_BLK_IDENTIFIER_VERSION" (GENMASK 7 0)].

Definition cfg_blk_pcie_max_pld_size_field_info : list regfield_info :=
  [mkField "CFG_BLK_PCIE_MAX_PLD_SIZE_RSVD_1" (GENMASK 31 7);
   mkField "CFG_BLK_PCIE_MAX_PLD_SIZE_PROG" (GENMASK 6 4); mkField "CFG_BLK_PCIE_MAX_PLD_SIZE_RSVD_2" (BIT 3);
   mkField "CFG_BLK_PCIE_MAX_PLD_SIZE_ISSUED" (GENMASK 2 0)].

Definition cfg_blk_pcie_max_read_req_size_field_info : list regfield_info :=
  [mkField "CFG_BLK_PCIE_MAX_READ_REQ_SIZE_RSVD_1" (GENMASK 31 7);
   mkField "CFG_BLK_PCIE_MAX_READ_REQ_SIZE_PROG" (GENMASK 6 4);
   mkField "CFG_BLK_PCIE_MAX_READ_REQ_SIZE_RSVD_2" (BIT 3);
   mkField "CFG_BLK_PCIE_MAX_READ_REQ_SIZE_ISSUED" (GENMASK 2 0)].

Definition cfg_blk_system_id_field_info : list regfield_info :=
  [mkField "CFG_BLK_SYSTEM_ID_RSVD_1" (GENMASK 31 17); mkField "CFG_BLK_SYSTEM_ID_INST_TYPE" (BIT 16);
   mkField "CFG_BLK_SYSTEM_ID" (GENMASK 15 0)].

Definition cfg_blk_msix_enable_field_info : list regfield_info :=
  [mkField "CFG_BLK_MSIX_ENABLE" (GENMASK 31 0)].

Definition cfg_pcie_data_width_field_info : list regfield_info :=
  [mkField "CFG_PCIE_DATA_WIDTH_RSVD_1" (GENMASK 31 3); mkField "CFG_PCIE_DATA_WIDTH_DATAPATH" (GENMASK 2 0)].

Definition cfg_pcie_ctl_field_info : list regfield_info :=
  [mkField "CFG_PCIE_CTL_RSVD_1" (GENMASK 31 18); mkField "CFG_PCIE_CTL_MGMT_AXIL_CTRL" (GENMASK 17 16);
   mkField "CFG_PCIE_CTL_RSVD_2" (GENMASK 15 2); mkField "CFG_PCIE_CTL_RRQ_DISABLE" (BIT 1);
   mkField "CFG_PCIE_CTL_RELAXED_ORDERING" (BIT 0)].

Definition cfg_blk_msi_enable_field_info : list regfield_info :=
  [mkField "CFG_BLK_MSI_ENABLE" (GENMASK 31 0)].

Definition cfg_axi_user_max_pld_size_field_info : list regfield_info :=
  [mkField "CFG_AXI_USER_MAX_PLD_SIZE_RSVD_1" (GENMASK 31 7);
   mkField "CFG_AXI_USER_MAX_PLD_SIZE_ISSUED" (GENMASK 6 4);
   mkField "CFG_AXI_USER_MAX_PLD_SIZE_RSVD_2" (BIT 3);
   mkField "CFG_AXI_USER_MAX_PLD_SIZE_PROG" (GENMASK 2 0)].

Definition cfg_axi_user_max_read_req_size_field_info : list regfield_info :=
  [mkField "CFG_AXI_USER_MAX_READ_REQ_SIZE_RSVD_1" (GENMASK 31 7);
   mkField "CFG_AXI_USER_MAX_READ_REQ_SIZE_USISSUED" (GENMASK 6 4);
   mkField "CFG_AXI_USER_MAX_READ_REQ_SIZE_RSVD_2" (BIT 3);
   mkField "CFG_AXI_USER_MAX_READ_REQ_SIZE_USPROG" (GENMASK 2 0)].

Definition cfg_blk_misc_ctl_field_info : list regfield_info :=
  [mkField "CFG_BLK_MISC_CTL_RSVD_1" (GENMASK 31 24); mkField "CFG_BLK_MISC_CTL_10B_TAG_EN" (BIT 23);
   mkField "CFG_BLK_MISC_CTL_RSVD_2" (BIT 22); mkField "CFG_BLK_MISC_CTL_AXI_WBK" (BIT 21);
   mkField "CFG_BLK_MISC_CTL_AXI_DSC" (BIT 20); mkField "CFG_BLK_MISC_CTL_NUM_TAG" (GENMASK 19 8);
   mkField "CFG_BLK_MISC_CTL_RSVD_3" (GENMASK 7 5);
   mkField "CFG_BLK_MISC_CTL_RQ_METERING_MULTIPLIER" (GENMASK 4 0)].

Definition cfg_pl_cred_ctl_field_info : list regfield_info :=
  [mkField "CFG_PL_CRED_CTL_RSVD_1" (GENMASK 31 5); mkField "CFG_PL_CRED_CTL_SLAVE_CRD_RLS" (BIT 4);
   mkField "CFG_PL_CRED_CTL_RSVD_2" (GENMASK 3 1); mkField "CFG_PL_CRED_CTL_MASTER_CRD_RST" (BIT 0)].

Definition cfg_blk_scratch_field_info : list regfield_info :=
  [mkField "CFG_BLK_SCRATCH" (GENMASK 31 0)].

Definition cfg_gic_field_info : list regfield_info :=
  [mkField "CFG_GIC_RSVD_1" (GENMASK 31 1); mkField "CFG_GIC_GIC_IRQ" (BIT 0)].

Definition ram_sbe_msk_1_a_field_info : list regfield_info :=
  [mkField "RAM_SBE_MSK_1_A" (GENMASK 31 0)].

Definition ram_sbe_sts_1_a_field_info : list regfield_info :=
  [mkField "RAM_SBE_STS_1_A_RSVD" (GENMASK 31 5); mkField "RAM_SBE_STS_1_A_PFCH_CTXT_CAM_RAM_1" (BIT 4);
   mkField "RAM_SBE_STS_1_A_PFCH_CTXT_CAM_RAM_0" (BIT 3); mkField "RAM_SBE_STS_1_A_TAG_EVEN_RAM" (BIT 2);
   mkField "RAM_SBE_STS_1_A_TAG_ODD_RAM" (BIT 1); mkField "RAM_SBE_STS_1_A_RC_RRQ_EVEN_RAM" (BIT 0)].

Definition ram_dbe_msk_1_a_field_info : list regfield_info :=
  [mkField "RAM_DBE_MSK_1_A" (GENMASK 31 0)].

Definition ram_dbe_sts_1_a_field_info : list regfield_info :=
  [mkField "RAM_DBE_STS_1_A_RSVD" (GENMASK 31 5); mkField "RAM_DBE_STS_1_A_PFCH_CTXT_CAM_RAM_1" (BIT 4);
   mkField "RAM_DBE_STS_1_A_PFCH_CTXT_CAM_RAM_0" (BIT 3); mkField "RAM_DBE_STS_1_A_TAG_EVEN_RAM" (BIT 2);
   mkField "RAM_DBE_STS_1_A_TAG_ODD_RAM" (BIT 1); mkField "RAM_DBE_STS_1_A_RC_RRQ_EVEN_RAM" (BIT 0)].

Definition ram_sbe_msk_a_field_info : list regfield_info :=
  [mkField "RAM_SBE_MSK_A" (GENMASK 31 0)].

Definition ram_sbe_sts_a_field_info : list regfield_info :=
  [mkField "RAM_SBE_STS_A_RC_RRQ_ODD_RAM" (BIT 31); mkField "RAM_SBE_STS_A_PEND_FIFO_RAM" (BIT 30);
   mkField "RAM_SBE_STS_A_PFCH_LL_RAM" (BIT 29); mkField "RAM_SBE_STS_A_WRB_CTXT_RAM" (BIT 28);
   mkField "RAM_SBE_STS_A_PFCH_CTXT_RAM" (BIT 27); mkField "RAM_SBE_STS_A_DESC_REQ_FIFO_RAM" (BIT 26);
   mkField "RAM_SBE_STS_A_INT_CTXT_RAM" (BIT 25); mkField "RAM_SBE_STS_A_WRB_COAL_DATA_RAM" (BIT 24);
   mkField "RAM_SBE_STS_A_QID_FIFO_RAM" (BIT 23); mkField "RAM_SBE_STS_A_TIMER_FIFO_RAM" (GENMASK 22 19);
   mkField "RAM_SBE_STS_A_MI_TL_SLV_FIFO_RAM" (BIT 18); mkField "RAM_SBE_STS_A_DSC_CPLD" (BIT 17);
   mkField "RAM_SBE_STS_A_DSC_CPLI" (BIT 16); mkField "RAM_SBE_STS_A_DSC_SW_CTXT" (BIT 15);
   mkField "RAM_SBE_STS_A_DSC_CRD_RCV" (BIT 14); mkField "RAM_SBE_STS_A_DSC_HW_CTXT" (BIT 13);
   mkField "RAM_SBE_STS_A_FUNC_MAP" (BIT 12); mkField "RAM_SBE_STS_A_C2H_WR_BRG_DAT" (BIT 11);
   mkField "RAM_SBE_STS_A_C2H_RD_BRG_DAT" (BIT 10); mkField "RAM_SBE_STS_A_H2C_WR_BRG_DAT" (BIT 9);
   mkField "RAM_SBE_STS_A_H2C_RD_BRG_DAT" (BIT 8); mkField "RAM_SBE_STS_A_MI_C2H3_DAT" (BIT 7);
   mkField "RAM_SBE_STS_A_MI_C2H2_DAT" (BIT 6); mkField "RAM_SBE_STS_A_MI_C2H1_DAT" (BIT 5);
   mkField "RAM_SBE_STS_A_MI_C2H0_DAT" (BIT 4); mkField "RAM_SBE_STS_A_MI_H2C3_DAT" (BIT 3);
   mkField "RAM_SBE_STS_A_MI_H2C2_DAT" (BIT 2); mkField "RAM_SBE_STS_A_MI_H2C1_DAT" (BIT 1);
   mkField "RAM_SBE_STS_A_MI_H2C0_DAT" (BIT 0)].

Definition ram_dbe_msk_a_field_info : list regfield_info :=
  [mkField "RAM_DBE_MSK_A" (GENMASK 31 0)].

Definition ram_dbe_sts_a_field_info : list regfield_info :=
  [mkField "RAM_DBE_STS_A_RC_RRQ_ODD_RAM" (BIT 31); mkField "RAM_DBE_STS_A_PEND_FIFO_RAM" (BIT 30);
   mkField "RAM_DBE_STS_A_PFCH_LL_RAM" (BIT 29); mkField "RAM_DBE_STS_A_WRB_CTXT_RAM" (BIT 28);
   mkField "RAM_DBE_STS_A_PFCH_CTXT_RAM" (BIT 27); mkField "RAM_DBE_STS_A_DESC_REQ_FIFO_RAM" (BIT 26);
   mkField "RAM_DBE_STS_A_INT_CTXT_RAM" (BIT 25); mkField "RAM_DBE_STS_A_WRB_COAL_DATA_RAM" (BIT 24);
   mkField "RAM_DBE_STS_A_QID_FIFO_RAM" (BIT 23); mkField "RAM_DBE_STS_A_TIMER_FIFO_RAM" (GENMASK 22 19);
   mkField "RAM_DBE_STS_A_MI_TL_SLV_FIFO_RAM" (BIT 18); mkField "RAM_DBE_STS_A_DSC_CPLD" (BIT 17);
   mkField "RAM_DBE_STS_A_DSC_CPLI" (BIT 16); mkField "RAM_DBE_STS_A_DSC_SW_CTXT" (BIT 15);
   mkField "RAM_DBE_STS_A_DSC_CRD_RCV" (BIT 14); mkField "RAM_DBE_STS_A_DSC_HW_CTXT" (BIT 13);
   mkField "RAM_DBE_STS_A_FUNC_MAP" (BIT 12); mkField "RAM_DBE_STS_A_C2H_WR_BRG_DAT" (BIT 11);
   mkField "RAM_DBE_STS_A_C2H_RD_BRG_DAT" (BIT 10); mkField "RAM_DBE_STS_A_H2C_WR_BRG_DAT" (BIT 9);
   mkField "RAM_DBE_STS_A_H2C_RD_BRG_DAT" (BIT 8); mkField "RAM_DBE_STS_A_MI_C2H3_DAT" (BIT 7);
   mkField "RAM_DBE_STS_A_MI_C2H2_DAT" (BIT 6); mkField "RAM_DBE_STS_A_MI_C2H1_DAT" (BIT 5);
   mkField "RAM_DBE_STS_A_MI_C2H0_DAT" (BIT 4); mkField "RAM_DBE_STS_A_MI_H2C3_DAT" (BIT 3);
   mkField "RAM_DBE_STS_A_MI_H2C2_DAT" (BIT 2); mkField "RAM_DBE_STS_A_MI_H2C1_DAT" (BIT 1);
   mkField "RAM_DBE_STS_A_MI_H2C0_DAT" (BIT 0)].

Definition glbl2_identifier_field_info : list regfield_info :=
  [mkField "GLBL2_IDENTIFIER" (GENMASK 31 8); mkField "GLBL2_IDENTIFIER_VERSION" (GENMASK 7 0)].

Definition glbl2_channel_inst_field_info : list regfield_info :=
  [mkField "GLBL2_CHANNEL_INST_RSVD_1" (GENMASK 31 18); mkField "GLBL2_CHANNEL_INST_C2H_ST" (BIT 17);
   mkField "GLBL2_CHANNEL_INST_H2C_ST" (BIT 16); mkField "GLBL2_CHANNEL_INST_RSVD_2" (GENMASK 15 12);
   mkField "GLBL2_CHANNEL_INST_C2H_ENG" (GENMASK 11 8); mkField "GLBL2_CHANNEL_INST_RSVD_3" (GENMASK 7 4);
   mkField "GLBL2_CHANNEL_INST_H2C_ENG" (GENMASK 3 0)].

Definition glbl2_channel_mdma_field_info : list regfield_info :=
  [mkField "GLBL2_CHANNEL_MDMA_RSVD_1" (GENMASK 31 18); mkField "GLBL2_CHANNEL_MDMA_C2H_ST" (BIT 17);
   mkField "GLBL2_CHANNEL_MDMA_H2C_ST" (BIT 16); mkField "GLBL2_CHANNEL_MDMA_RSVD_2" (GENMASK 15 12);
   mkField "GLBL2_CHANNEL_MDMA_C2H_ENG" (GENMASK 11 8); mkField "GLBL2_CHANNEL_MDMA_RSVD_3" (GENMASK 7 4);
   mkField "GLBL2_CHANNEL_MDMA_H2C_ENG" (GENMASK 3 0)].

Definition glbl2_channel_strm_field_info : list regfield_info :=
  [mkField "GLBL2_CHANNEL_STRM_RSVD_1" (GENMASK 31 18); mkField "GLBL2_CHANNEL_STRM_C2H_ST" (BIT 17);
   mkField "GLBL2_CHANNEL_STRM_H2C_ST" (BIT 16); mkField "GLBL2_CHANNEL_STRM_RSVD_2" (GENMASK 15 12);
   mkField "GLBL2_CHANNEL_STRM_C2H_ENG" (GENMASK 11 8); mkField "GLBL2_CHANNEL_STRM_RSVD_3" (GENMASK 7 4);
   mkField "GLBL2_CHANNEL_STRM_H2C_ENG" (GENMASK 3 0)].

Definition glbl2_channel_cap_field_info : list regfield_info :=
  [mkField "GLBL2_CHANNEL_CAP_RSVD_1" (GENMASK 31 12); mkField "GLBL2_CHANNEL_CAP_MULTIQ_MAX" (GENMASK 11 0)].

Definition glbl2_channel_pasid_cap_field_info : list regfield_info :=
  [mkField "GLBL2_CHANNEL_PASID_CAP_RSVD_1" (GENMASK 31 2); mkField "GLBL2_CHANNEL_PASID_CAP_BRIDGEEN" (BIT 1);
   mkField "GLBL2_CHANNEL_PASID_CAP_DMAEN" (BIT 0)].

Definition glbl2_system_id_field_info : list regfield_info :=
  [mkField "GLBL2_SYSTEM_ID_RSVD_1" (GENMASK 31 16); mkField "GLBL2_SYSTEM_ID" (GENMASK 15 0)].

Definition glbl2_misc_cap_field_info : list regfield_info :=
  [mkField "GLBL2_MISC_CAP" (GENMASK 31 0)].

Definition glbl2_rrq_brg_throt_field_info : list regfield_info :=
  [mkField "GLBL2_RRQ_BRG_THROT_REQ_EN" (BIT 31); mkField "GLBL2_RRQ_BRG_THROT_REQ" (GENMASK 30 19);
   mkField "GLBL2_RRQ_BRG_THROT_DAT_EN" (BIT 18); mkField "GLBL2_RRQ_BRG_THROT_DAT" (GENMASK 17 0)].

Definition glbl2_rrq_pcie_throt_field_info : list regfield_info :=
  [mkField "GLBL2_RRQ_PCIE_THROT_REQ_EN" (BIT 31); mkField "GLBL2_RRQ_PCIE_THROT_REQ" (GENMASK 30 19);
   mkField "GLBL2_RRQ_PCIE_THROT_DAT_EN" (BIT 18); mkField "GLBL2_RRQ_PCIE_THROT_DAT" (GENMASK 17 0)].

Definition glbl2_rrq_aximm_throt_field_info : list regfield_info :=
  [mkField "GLBL2_RRQ_AXIMM_THROT_REQ_EN" (BIT 31); mkField "GLBL2_RRQ_AXIMM_THROT_REQ" (GENMASK 30 19);
   mkField "GLBL2_RRQ_AXIMM_THROT_DAT_EN" (BIT 18); mkField "GLBL2_RRQ_AXIMM_THROT_DAT" (GENMASK 17 0)].

Definition glbl2_rrq_pcie_lat0_field_info : list regfield_info :=
  [mkField "GLBL2_RRQ_PCIE_LAT0_MAX" (GENMASK 31 16); mkField "GLBL2_RRQ_PCIE_LAT0_MIN" (GENMASK 15 0)].

Definition glbl2_rrq_pcie_lat1_field_info : list regfield_info :=
  [mkField "GLBL2_RRQ_PCIE_LAT1_RSVD" (GENMASK 31 17); mkField "GLBL2_RRQ_PCIE_LAT1_OVFL" (BIT 16);
   mkField "GLBL2_RRQ_PCIE_LAT1_AVG" (GENMASK 15 0)].

Definition glbl2_rrq_aximm_lat0_field_info : list regfield_info :=
  [mkField "GLBL2_RRQ_AXIMM_LAT0_MAX" (GENMASK 31 16); mkField "GLBL2_RRQ_AXIMM_LAT0_MIN" (GENMASK 15 0)].

Definition glbl2_rrq_aximm_lat1_field_info : list regfield_info :=
  [mkField "GLBL2_RRQ_AXIMM_LAT1_RSVD" (GENMASK 31 17); mkField "GLBL2_RRQ_AXIMM_LAT1_OVFL" (BIT 16);
   mkField "GLBL2_RRQ_AXIMM_LAT1_AVG" (GENMASK 15 0)].

Definition glbl2_dbg_pcie_rq0_field_info : list regfield_info :=
  [mkField "GLBL2_PCIE_RQ0_NPH_AVL" (GENMASK 31 20); mkField "GLBL2_PCIE_RQ0_RCB_AVL" (GENMASK 19 9);
   mkField "GLBL2_PCIE_RQ0_SLV_RD_CREDS" (GENMASK 8 2); mkField "GLBL2_PCIE_RQ0_TAG_EP" (GENMASK 1 0)].

Definition glbl2_dbg_pcie_rq1_field_info : list regfield_info :=
  [mkField "GLBL2_PCIE_RQ1_RSVD_1" (GENMASK 31 21); mkField "GLBL2_PCIE_RQ1_TAG_FL" (GENMASK 20 19);
   mkField "GLBL2_PCIE_RQ1_WTLP_HEADER_FIFO_FL" (BIT 18);
   mkField "GLBL2_PCIE_RQ1_WTLP_HEADER_FIFO_EP" (BIT 17); mkField "GLBL2_PCIE_RQ1_RQ_FIFO_EP" (BIT 16);
   mkField "GLBL2_PCIE_RQ1_RQ_FIFO_FL" (BIT 15); mkField "GLBL2_PCIE_RQ1_TLPSM" (GENMASK 14 12);
   mkField "GLBL2_PCIE_RQ1_TLPSM512" (GENMASK 11 9); mkField "GLBL2_PCIE_RQ1_RREQ_RCB_OK" (BIT 8);
   mkField "GLBL2_PCIE_RQ1_RREQ0_SLV" (BIT 7); mkField "GLBL2_PCIE_RQ1_RREQ0_VLD" (BIT 6);
   mkField "GLBL2_PCIE_RQ1_RREQ0_RDY" (BIT 5); mkField "GLBL2_PCIE_RQ1_RREQ1_SLV" (BIT 4);
   mkField "GLBL2_PCIE_RQ1_RREQ1_VLD" (BIT 3); mkField "GLBL2_PCIE_RQ1_RREQ1_RDY" (BIT 2);
   mkField "GLBL2_PCIE_RQ1_WTLP_REQ" (BIT 1); mkField "GLBL2_PCIE_RQ1_WTLP_STRADDLE" (BIT 0)].

Definition glbl2_dbg_aximm_wr0_field_info : list regfield_info :=
  [mkField "GLBL2_AXIMM_WR0_RSVD_1" (GENMASK 31 27); mkField "GLBL2_AXIMM_WR0_WR_REQ" (BIT 26);
   mkField "GLBL2_AXIMM_WR0_WR_CHN" (GENMASK 25 23); mkField "GLBL2_AXIMM_WR0_WTLP_DATA_FIFO_EP" (BIT 22);
   mkField "GLBL2_AXIMM_WR0_WPL_FIFO_EP" (BIT 21); mkField "GLBL2_AXIMM_WR0_BRSP_CLAIM_CHN" (GENMASK 20 18);
   mkField "GLBL2_AXIMM_WR0_WRREQ_CNT" (GENMASK 17 12); mkField "GLBL2_AXIMM_WR0_BID" (GENMASK 11 9);
   mkField "GLBL2_AXIMM_WR0_BVALID" (BIT 8); mkField "GLBL2_AXIMM_WR0_BREADY" (BIT 7);
   mkField "GLBL2_AXIMM_WR0_WVALID" (BIT 6); mkField "GLBL2_AXIMM_WR0_WREADY" (BIT 5);
   mkField "GLBL2_AXIMM_WR0_AWID" (GENMASK 4 2); mkField "GLBL2_AXIMM_WR0_AWVALID" (BIT 1);
   mkField "GLBL2_AXIMM_WR0_AWREADY" (BIT 0)].

Definition glbl2_dbg_aximm_wr1_field_info : list regfield_info :=
  [mkField "GLBL2_AXIMM_WR1_RSVD_1" (GENMASK 31 30); mkField "GLBL2_AXIMM_WR1_BRSP_CNT4" (GENMASK 29 24);
   mkField "GLBL2_AXIMM_WR1_BRSP_CNT3" (GENMASK 23 18); mkField "GLBL2_AXIMM_WR1_BRSP_CNT2" (GENMASK 17 12);
   mkField "GLBL2_AXIMM_WR1_BRSP_CNT1" (GENMASK 11 6); mkField "GLBL2_AXIMM_WR1_BRSP_CNT0" (GENMASK 5 0)].

Definition glbl2_dbg_aximm_rd0_field_info : list regfield_info :=
  [mkField "GLBL2_AXIMM_RD0_RSVD_1" (GENMASK 31 23); mkField "GLBL2_AXIMM_RD0_PND_CNT" (GENMASK 22 17);
   mkField "GLBL2_AXIMM_RD0_RD_REQ" (BIT 16); mkField "GLBL2_AXIMM_RD0_RD_CHNL" (GENMASK 15 13);
   mkField "GLBL2_AXIMM_RD0_RRSP_CLAIM_CHNL" (GENMASK 12 10); mkField "GLBL2_AXIMM_RD0_RID" (GENMASK 9 7);
   mkField "GLBL2_AXIMM_RD0_RVALID" (BIT 6); mkField "GLBL2_AXIMM_RD0_RREADY" (BIT 5);
   mkField "GLBL2_AXIMM_RD0_ARID" (GENMASK 4 2); mkField "GLBL2_AXIMM_RD0_ARVALID" (BIT 1);
   mkField "GLBL2_AXIMM_RD0_ARREADY" (BIT 0)].

Definition glbl2_dbg_aximm_rd1_field_info : list regfield_info :=
  [mkField "GLBL2_AXIMM_RD1_RSVD_1" (GENMASK 31 30); mkField "GLBL2_AXIMM_RD1_RRSP_CNT4" (GENMASK 29 24);
   mkField "GLBL2_AXIMM_RD1_RRSP_CNT3" (GENMASK 23 18); mkField "GLBL2_AXIMM_RD1_RRSP_CNT2" (GENMASK 17 12);
   mkField "GLBL2_AXIMM_RD1_RRSP_CNT1" (GENMASK 11 6); mkField "GLBL2_AXIMM_RD1_RRSP_CNT0" (GENMASK 5 0)].

Definition glbl2_dbg_fab0_field_info : list regfield_info :=
  [mkField "GLBL2_FAB0_H2C_INB_CONV_IN_VLD" (BIT 31); mkField "GLBL2_FAB0_H2C_INB_CONV_IN_RDY" (BIT 30);
   mkField "GLBL2_FAB0_H2C_SEG_IN_VLD" (BIT 29); mkField "GLBL2_FAB0_H2C_SEG_IN_RDY" (BIT 28);
   mkField "GLBL2_FAB0_H2C_SEG_OUT_VLD" (GENMASK 27 24); mkField "GLBL2_FAB0_H2C_SEG_OUT_RDY" (BIT 23);
   mkField "GLBL2_FAB0_H2C_MST_CRDT_STAT" (GENMASK 22 16); mkField "GLBL2_FAB0_C2H_SLV_AFIFO_FULL" (BIT 15);
   mkField "GLBL2_FAB0_C2H_SLV_AFIFO_EMPTY" (BIT 14); mkField "GLBL2_FAB0_C2H_DESEG_SEG_VLD" (GENMASK 13 10);
   mkField "GLBL2_FAB0_C2H_DESEG_SEG_RDY" (BIT 9); mkField "GLBL2_FAB0_C2H_DESEG_OUT_VLD" (BIT 8);
   mkField "GLBL2_FAB0_C2H_DESEG_OUT_RDY" (BIT 7); mkField "GLBL2_FAB0_C2H_INB_DECONV_OUT_VLD" (BIT 6);
   mkField "GLBL2_FAB0_C2H_INB_DECONV_OUT_RDY" (BIT 5); mkField "GLBL2_FAB0_C2H_DSC_CRDT_AFIFO_FULL" (BIT 4);
   mkField "GLBL2_FAB0_C2H_DSC_CRDT_AFIFO_EMPTY" (BIT 3); mkField "GLBL2_FAB0_IRQ_IN_AFIFO_FULL" (BIT 2);
   mkField "GLBL2_FAB0_IRQ_IN_AFIFO_EMPTY" (BIT 1); mkField "GLBL2_FAB0_IMM_CRD_AFIFO_EMPTY" (BIT 0)].

Definition glbl2_dbg_fab1_field_info : list regfield_info :=
  [mkField "GLBL2_FAB1_BYP_OUT_CRDT_STAT" (GENMASK 31 25);
   mkField "GLBL2_FAB1_TM_DSC_STS_CRDT_STAT" (GENMASK 24 18); mkField "GLBL2_FAB1_C2H_CMN_AFIFO_FULL" (BIT 17);
   mkField "GLBL2_FAB1_C2H_CMN_AFIFO_EMPTY" (BIT 16); mkField "GLBL2_FAB1_RSVD_1" (GENMASK 15 13);
   mkField "GLBL2_FAB1_C2H_BYP_IN_AFIFO_FULL" (BIT 12); mkField "GLBL2_FAB1_RSVD_2" (GENMASK 11 9);
   mkField "GLBL2_FAB1_C2H_BYP_IN_AFIFO_EMPTY" (BIT 8); mkField "GLBL2_FAB1_RSVD_3" (GENMASK 7 5);
   mkField "GLBL2_FAB1_H2C_BYP_IN_AFIFO_FULL" (BIT 4); mkField "GLBL2_FAB1_RSVD_4" (GENMASK 3 1);
   mkField "GLBL2_FAB1_H2C_BYP_IN_AFIFO_EMPTY" (BIT 0)].

Definition glbl2_dbg_match_sel_field_info : list regfield_info :=
  [mkField "GLBL2_MATCH_SEL_RSV" (GENMASK 31 18); mkField "GLBL2_MATCH_SEL_CSR_SEL" (GENMASK 17 13);
   mkField "GLBL2_MATCH_SEL_CSR_EN" (BIT 12); mkField "GLBL2_MATCH_SEL_ROTATE1" (GENMASK 11 10);
   mkField "GLBL2_MATCH_SEL_ROTATE0" (GENMASK 9 8); mkField "GLBL2_MATCH_SEL_SEL" (GENMASK 7 0)].

Definition glbl2_dbg_match_msk_field_info : list regfield_info :=
  [mkField "GLBL2_MATCH_MSK" (GENMASK 31 0)].

Definition glbl2_dbg_match_pat_field_info : list regfield_info :=
  [mkField "GLBL2_MATCH_PAT_PATTERN" (GENMASK 31 0)].

Definition glbl_rng_sz_1_field_info : list regfield_info :=
  [mkField "GLBL_RNG_SZ_1_RSVD_1" (GENMASK 31 16); mkField "GLBL_RNG_SZ_1_RING_SIZE" (GENMASK 15 0)].

Definition glbl_rng_sz_2_field_info : list regfield_info :=
  [mkField "GLBL_RNG_SZ_2_RSVD_1" (GENMASK 31 16); mkField "GLBL_RNG_SZ_2_RING_SIZE" (GENMASK 15 0)].

Definition glbl_rng_sz_3_field_info : list regfield_info :=
  [mkField "GLBL_RNG_SZ_3_RSVD_1" (GENMASK 31 16); mkField "GLBL_RNG_SZ_3_RING_SIZE" (GENMASK 15 0)].

Definition glbl_rng_sz_4_field_info : list regfield_info :=
  [mkField "GLBL_RNG_SZ_4_RSVD_1" (GENMASK 31 16); mkField "GLBL_RNG_SZ_4_RING_SIZE" (GENMASK 15 0)].

Definition glbl_rng_sz_5_field_info : list regfield_info :=
  [mkField "GLBL_RNG_SZ_5_RSVD_1" (GENMASK 31 16); mkField "GLBL_RNG_SZ_5_RING_SIZE" (GENMASK 15 0)].

Definition glbl_rng_sz_6_field_info : list regfield_info :=
  [mkField "GLBL_RNG_SZ_6_RSVD_1" (GENMASK 31 16); mkField "GLBL_RNG_SZ_6_RING_SIZE" (GENMASK 15 0)].

Definition glbl_rng_sz_7_field_info : list regfield_info :=
  [mkField "GLBL_RNG_SZ_7_RSVD_1" (GENMASK 31 16); mkField "GLBL_RNG_SZ_7_RING_SIZE" (GENMASK 15 0)].

Definition glbl_rng_sz_8_field_info : list regfield_info :=
  [mkField "GLBL_RNG_SZ_8_RSVD_1" (GENMASK 31 16); mkField "GLBL_RNG_SZ_8_RING_SIZE" (GENMASK 15 0)].

Definition glbl_rng_sz_9_field_info : list regfield_info :=
  [mkField "GLBL_RNG_SZ_9_RSVD_1" (GENMASK 31 16); mkField "GLBL_RNG_SZ_9_RING_SIZE" (GENMASK 15 0)].

Definition glbl_rng_sz_a_field_info : list regfield_info :=
  [mkField "GLBL_RNG_SZ_A_RSVD_1" (GENMASK 31 16); mkField "GLBL_RNG_SZ_A_RING_SIZE" (GENMASK 15 0)].

Definition glbl_rng_sz_b_field_info : list regfield_info :=
  [mkField "GLBL_RNG_SZ_B_RSVD_1" (GENMASK 31 16); mkField "GLBL_RNG_SZ_B_RING_SIZE" (GENMASK 15 0)].

Definition glbl_rng_sz_c_field_info : list regfield_info :=
  [mkField "GLBL_RNG_SZ_C_RSVD_1" (GENMASK 31 16); mkField "GLBL_RNG_SZ_C_RING_SIZE" (GENMASK 15 0)].

Definition glbl_rng_sz_d_field_info : list regfield_info :=
  [mkField "GLBL_RNG_SZ_D_RSVD_1" (GENMASK 31 16); mkField "GLBL_RNG_SZ_D_RING_SIZE" (GENMASK 15 0)].

Definition glbl_rng_sz_e_field_info : list regfield_info :=
  [mkField "GLBL_RNG_SZ_E_RSVD_1" (GENMASK 31 16); mkField "GLBL_RNG_SZ_E_RING_SIZE" (GENMASK 15 0)].

Definition glbl_rng_sz_f_field_info : list regfield_info :=
  [mkField "GLBL_RNG_SZ_F_RSVD_1" (GENMASK 31 16); mkField "GLBL_RNG_SZ_F_RING_SIZE" (GENMASK 15 0)].

Definition glbl_rng_sz_10_field_info : list regfield_info :=
  [mkField "GLBL_RNG_SZ_10_RSVD_1" (GENMASK 31 16); mkField "GLBL_RNG_SZ_10_RING_SIZE" (GENMASK 15 0)].

Definition glbl_err_stat_field_info : list regfield_info :=
  [mkField "GLBL_ERR_STAT_RSVD_1" (GENMASK 31 18); mkField "GLBL_ERR_STAT_ERR_FAB" (BIT 17);
   mkField "GLBL_ERR_STAT_ERR_H2C_ST" (BIT 16); mkField "GLBL_ERR_STAT_ERR_BDG" (BIT 15);
   mkField "GLBL_ERR_STAT_IND_CTXT_CMD_ERR" (GENMASK 14 9); mkField "GLBL_ERR_STAT_ERR_C2H_ST" (BIT 8);
   mkField "GLBL_ERR_STAT_ERR_C2H_MM_1" (BIT 7); mkField "GLBL_ERR_STAT_ERR_C2H_MM_0" (BIT 6);
   mkField "GLBL_ERR_STAT_ERR_H2C_MM_1" (BIT 5); mkField "GLBL_ERR_STAT_ERR_H2C_MM_0" (BIT 4);
   mkField "GLBL_ERR_STAT_ERR_TRQ" (BIT 3); mkField "GLBL_ERR_STAT_ERR_DSC" (BIT 2);
   mkField "GLBL_ERR_STAT_ERR_RAM_DBE" (BIT 1); mkField "GLBL_ERR_STAT_ERR_RAM_SBE" (BIT 0)].

Definition glbl_err_mask_field_info : list regfield_info :=
  [mkField "GLBL_ERR" (GENMASK 31 0)].

Definition glbl_dsc_cfg_field_info : list regfield_info :=
  [mkField "GLBL_DSC_CFG_RSVD_1" (GENMASK 31 30); mkField "GLBL_DSC_CFG_C2H_UODSC_LIMIT" (GENMASK 29 20);
   mkField "GLBL_DSC_CFG_H2C_UODSC_LIMIT" (GENMASK 19 10); mkField "GLBL_DSC_CFG_UNC_OVR_COR" (BIT 9);
   mkField "GLBL_DSC_CFG_CTXT_FER_DIS" (BIT 8); mkField "GLBL_DSC_CFG_RSVD_2" (GENMASK 7 6);
   mkField "GLBL_DSC_CFG_MAXFETCH" (GENMASK 5 3); mkField "GLBL_DSC_CFG_WB_ACC_INT" (GENMASK 2 0)].

Definition glbl_dsc_err_sts_field_info : list regfield_info :=
  [mkField "GLBL_DSC_ERR_STS_RSVD_1" (GENMASK 31 26); mkField "GLBL_DSC_ERR_STS_PORT_ID" (BIT 25);
   mkField "GLBL_DSC_ERR_STS_SBE" (BIT 24); mkField "GLBL_DSC_ERR_STS_DBE" (BIT 23);
   mkField "GLBL_DSC_ERR_STS_RQ_CANCEL" (BIT 22); mkField "GLBL_DSC_ERR_STS_DSC" (BIT 21);
   mkField "GLBL_DSC_ERR_STS_DMA" (BIT 20); mkField "GLBL_DSC_ERR_STS_FLR_CANCEL" (BIT 19);
   mkField "GLBL_DSC_ERR_STS_RSVD_2" (GENMASK 18 17); mkField "GLBL_DSC_ERR_STS_DAT_POISON" (BIT 16);
   mkField "GLBL_DSC_ERR_STS_TIMEOUT" (BIT 9); mkField "GLBL_DSC_ERR_STS_FLR" (BIT 8);
   mkField "GLBL_DSC_ERR_STS_TAG" (BIT 6); mkField "GLBL_DSC_ERR_STS_ADDR" (BIT 5);
   mkField "GLBL_DSC_ERR_STS_PARAM" (BIT 4); mkField "GLBL_DSC_ERR_STS_BCNT" (BIT 3);
   mkField "GLBL_DSC_ERR_STS_UR_CA" (BIT 2); mkField "GLBL_DSC_ERR_STS_POISON" (BIT 1)].

Definition glbl_dsc_err_msk_field_info : list regfield_info :=
  [mkField "GLBL_DSC_ERR_MSK" (GENMASK 31 0)].

Definition glbl_dsc_err_log0_field_info : list regfield_info :=
  [mkField "GLBL_DSC_ERR_LOG0_VALID" (BIT 31); mkField "GLBL_DSC_ERR_LOG0_SEL" (BIT 30);
   mkField "GLBL_DSC_ERR_LOG0_RSVD_1" (GENMASK 29 13); mkField "GLBL_DSC_ERR_LOG0_QID" (GENMASK 12 0)].

Definition glbl_dsc_err_log1_field_info : list regfield_info :=
  [mkField "GLBL_DSC_ERR_LOG1_RSVD_1" (GENMASK 31 28); mkField "GLBL_DSC_ERR_LOG1_CIDX" (GENMASK 27 12);
   mkField "GLBL_DSC_ERR_LOG1_RSVD_2" (GENMASK 11 9); mkField "GLBL_DSC_ERR_LOG1_SUB_TYPE" (GENMASK 8 5);
   mkField "GLBL_DSC_ERR_LOG1_ERR_TYPE" (GENMASK 4 0)].

Definition glbl_trq_err_sts_field_info : list regfield_info :=
  [mkField "GLBL_TRQ_ERR_STS_RSVD_1" (GENMASK 31 8); mkField "GLBL_TRQ_ERR_STS_TCP_QSPC_TIMEOUT" (BIT 7);
   mkField "GLBL_TRQ_ERR_STS_RSVD_2" (BIT 6); mkField "GLBL_TRQ_ERR_STS_QID_RANGE" (BIT 5);
   mkField "GLBL_TRQ_ERR_STS_QSPC_UNMAPPED" (BIT 4); mkField "GLBL_TRQ_ERR_STS_TCP_CSR_TIMEOUT" (BIT 3);
   mkField "GLBL_TRQ_ERR_STS_RSVD_3" (BIT 2); mkField "GLBL_TRQ_ERR_STS_VF_ACCESS_ERR" (BIT 1);
   mkField "GLBL_TRQ_ERR_STS_CSR_UNMAPPED" (BIT 0)].

Definition glbl_trq_err_msk_field_info : list regfield_info :=
  [mkField "GLBL_TRQ_ERR_MSK" (GENMASK 31 0)].

Definition glbl_trq_err_log_field_info : list regfield_info :=
  [mkField "GLBL_TRQ_ERR_LOG_SRC" (BIT 31); mkField "GLBL_TRQ_ERR_LOG_TARGET" (GENMASK 30 27);
   mkField "GLBL_TRQ_ERR_LOG_FUNC" (GENMASK 26 17); mkField "GLBL_TRQ_ERR_LOG_ADDRESS" (GENMASK 16 0)].

Definition glbl_dsc_dbg_dat0_field_info : list regfield_info :=
  [mkField "GLBL_DSC_DAT0_RSVD_1" (GENMASK 31 30); mkField "GLBL_DSC_DAT0_CTXT_ARB_DIR" (BIT 29);
   mkField "GLBL_DSC_DAT0_CTXT_ARB_QID" (GENMASK 28 17); mkField "GLBL_DSC_DAT0_CTXT_ARB_REQ" (GENMASK 16 12);
   mkField "GLBL_DSC_DAT0_IRQ_FIFO_FL" (BIT 11); mkField "GLBL_DSC_DAT0_TMSTALL" (BIT 10);
   mkField "GLBL_DSC_DAT0_RRQ_STALL" (GENMASK 9 8); mkField "GLBL_DSC_DAT0_RCP_FIFO_SPC_STALL" (GENMASK 7 6);
   mkField "GLBL_DSC_DAT0_RRQ_FIFO_SPC_STALL" (GENMASK 5 4);
   mkField "GLBL_DSC_DAT0_FAB_MRKR_RSP_STALL" (GENMASK 3 2);
   mkField "GLBL_DSC_DAT0_DSC_OUT_STALL" (GENMASK 1 0)].

Definition glbl_dsc_dbg_dat1_field_info : list regfield_info :=
  [mkField "GLBL_DSC_DAT1_RSVD_1" (GENMASK 31 28); mkField "GLBL_DSC_DAT1_EVT_SPC_C2H" (GENMASK 27 22);
   mkField "GLBL_DSC_DAT1_EVT_SP_H2C" (GENMASK 21 16); mkField "GLBL_DSC_DAT1_DSC_SPC_C2H" (GENMASK 15 8);
   mkField "GLBL_DSC_DAT1_DSC_SPC_H2C" (GENMASK 7 0)].

Definition glbl_dsc_dbg_ctl_field_info : list regfield_info :=
  [mkField "GLBL_DSC_CTL_RSVD_1" (GENMASK 31 16); mkField "GLBL_DSC_CTL_LAT_QID" (GENMASK 15 4);
   mkField "GLBL_DSC_CTL_DSC_ENG_LAT_CLR" (BIT 3); mkField "GLBL_DSC_CTL_SELECT" (GENMASK 2 0)].

Definition glbl_dsc_err_log2_field_info : list regfield_info :=
  [mkField "GLBL_DSC_ERR_LOG2_OLD_PIDX" (GENMASK 31 16); mkField "GLBL_DSC_ERR_LOG2_NEW_PIDX" (GENMASK 15 0)].

Definition glbl_glbl_interrupt_cfg_field_info : list regfield_info :=
  [mkField "GLBL_GLBL_INTERRUPT_CFG_RSVD_1" (GENMASK 31 2);
   mkField "GLBL_GLBL_INTERRUPT_CFG_LGCY_INTR_PENDING" (BIT 1);
   mkField "GLBL_GLBL_INTERRUPT_CFG_EN_LGCY_INTR" (BIT 0)].

Definition glbl_vch_host_profile_field_info : list regfield_info :=
  [mkField "GLBL_VCH_HOST_PROFILE_RSVD_1" (GENMASK 31 28);
   mkField "GLBL_VCH_HOST_PROFILE_2C_MM" (GENMASK 27 24);
   mkField "GLBL_VCH_HOST_PROFILE_2C_ST" (GENMASK 23 20);
   mkField "GLBL_VCH_HOST_PROFILE_VCH_DSC" (GENMASK 19 16);
   mkField "GLBL_VCH_HOST_PROFILE_VCH_INT_MSG" (GENMASK 15 12);
   mkField "GLBL_VCH_HOST_PROFILE_VCH_INT_AGGR" (GENMASK 11 8);
   mkField "GLBL_VCH_HOST_PROFILE_VCH_CMPT" (GENMASK 7 4);
   mkField "GLBL_VCH_HOST_PROFILE_VCH_C2H_PLD" (GENMASK 3 0)].

Definition glbl_bridge_host_profile_field_info : list regfield_info :=
  [mkField "GLBL_BRIDGE_HOST_PROFILE_RSVD_1" (GENMASK 31 4);
   mkField "GLBL_BRIDGE_HOST_PROFILE_BDGID" (GENMASK 3 0)].

Definition aximm_irq_dest_addr_field_info : list regfield_info :=
  [mkField "AXIMM_IRQ_DEST_ADDR_ADDR" (GENMASK 31 0)].

Definition fab_err_log_field_info : list regfield_info :=
  [mkField "FAB_ERR_LOG_RSVD_1" (GENMASK 31 7); mkField "FAB_ERR_LOG_SRC" (GENMASK 6 0)].

Definition glbl_req_err_sts_field_info : list regfield_info :=
  [mkField "GLBL_REQ_ERR_STS_RSVD_1" (GENMASK 31 11); mkField "GLBL_REQ_ERR_STS_RC_DISCONTINUE" (BIT 10);
   mkField "GLBL_REQ_ERR_STS_RC_PRTY" (BIT 9); mkField "GLBL_REQ_ERR_STS_RC_FLR" (BIT 8);
   mkField "GLBL_REQ_ERR_STS_RC_TIMEOUT" (BIT 7); mkField "GLBL_REQ_ERR_STS_RC_INV_BCNT" (BIT 6);
   mkField "GLBL_REQ_ERR_STS_RC_INV_TAG" (BIT 5); mkField "GLBL_REQ_ERR_STS_RC_START_ADDR_MISMCH" (BIT 4);
   mkField "GLBL_REQ_ERR_STS_RC_RID_TC_ATTR_MISMCH" (BIT 3); mkField "GLBL_REQ_ERR_STS_RC_NO_DATA" (BIT 2);
   mkField "GLBL_REQ_ERR_STS_RC_UR_CA_CRS" (BIT 1); mkField "GLBL_REQ_ERR_STS_RC_POISONED" (BIT 0)].

Definition glbl_req_err_msk_field_info : list regfield_info :=
  [mkField "GLBL_REQ_ERR_MSK" (GENMASK 31 0)].

Definition glbl_dsc_dbg_lat0_a_field_info : list regfield_info :=
  [mkField "GLBL_DSC_LAT0_A_LAT_MAX" (GENMASK 31 16); mkField "GLBL_DSC_LAT0_A_LAT_MIN" (GENMASK 15 0)].

Definition glbl_dsc_dbg_lat1_a_field_info : list regfield_info :=
  [mkField "GLBL_DSC_LAT1_A_RSVD" (GENMASK 31 17); mkField "GLBL_DSC_LAT1_A_LAT_OVF" (BIT 16);
   mkField "GLBL_DSC_LAT1_A_LAT_AVG" (GENMASK 15 0)].

Definition glbl_dsc_crd_ctr0_a_field_info : list regfield_info :=
  [mkField "GLBL_DSC_CRD_CTR0_A_CRD_RCV_CNT" (GENMASK 31 0)].

Definition glbl_dsc_crd_ctr1_a_field_info : list regfield_info :=
  [mkField "GLBL_DSC_CRD_CTR1_A_CRD_RCV_CNT" (GENMASK 31 0)].

Definition glbl_dsc_crd_ctr2_a_field_info : list regfield_info :=
  [mkField "GLBL_DSC_CRD_CTR2_A_CRD_RCV_NRDY_CNT" (GENMASK 31 0)].

Definition glbl_dsc_crd_ctr3_a_field_info : list regfield_info :=
  [mkField "GLBL_DSC_CRD_CTR3_A_CRD_RCV_NRDY_CNT" (GENMASK 31 0)].

Definition glbl_dsc_imm_crd_ctr0_a_field_info : list regfield_info :=
  [mkField "GLBL_DSC_IMM_CRD_CTR0_A_RCV_CNT" (GENMASK 31 0)].

Definition glbl_dsc_imm_crd_ctr1_a_field_info : list regfield_info :=
  [mkField "GLBL_DSC_IMM_CRD_CTR1_A_RCV_CNT" (GENMASK 31 0)].

Definition glbl_dsc_imm_crd_ctr2_a_field_info : list regfield_info :=
  [mkField "GLBL_DSC_IMM_CRD_CTR2_A_RCV_NRDY_CNT" (GENMASK 31 0)].

Definition glbl_dsc_imm_crd_ctr3_a_field_info : list regfield_info :=
  [mkField "GLBL_DSC_IMM_CRD_CTR3_A_RCV_NRDY_CNT" (GENMASK 31 0)].

Definition glbl_dsc_h2c_out_ctr0_a_field_info : list regfield_info :=
  [mkField "GLBL_DSC_H2C_OUT_CTR0_A_H2CVLD_CNT" (GENMASK 31 0)].

Definition glbl_dsc_h2c_out_ctr1_a_field_info : list regfield_info :=
  [mkField "GLBL_DSC_H2C_OUT_CTR1_A_H2CVLD_CNT" (GENMASK 31 0)].

Definition glbl_dsc_h2c_out_ctr2_a_field_info : list regfield_info :=
  [mkField "GLBL_DSC_H2C_OUT_CTR2_A_H2CVLD_NRDY_CNT" (GENMASK 31 0)].

Definition glbl_dsc_h2c_out_ctr3_a_field_info : list regfield_info :=
  [mkField "GLBL_DSC_H2C_OUT_CTR3_A_H2CVLD_NRDY_CNT" (GENMASK 31 0)].

Definition glbl_dsc_c2h_out_ctr0_a_field_info : list regfield_info :=
  [mkField "GLBL_DSC_C2H_OUT_CTR0_A_C2HVLD_CNT" (GENMASK 31 0)].

Definition glbl_dsc_c2h_out_ctr1_a_field_info : list regfield_info :=
  [mkField "GLBL_DSC_C2H_OUT_CTR1_A_C2HVLD_CNT" (GENMASK 31 0)].

Definition glbl_dsc_c2h_out_ctr2_a_field_info : list regfield_info :=
  [mkField "GLBL_DSC_C2H_OUT_CTR2_A_C2HVLD_NRDY_CNT" (GENMASK 31 0)].

Definition glbl_dsc_c2h_out_ctr3_a_field_info : list regfield_info :=
  [mkField "GLBL_DSC_C2H_OUT_CTR3_A_C2HVLD_NRDY_CNT" (GENMASK 31 0)].

Definition t_field_info : list regfield_info :=
  [mkField "T_USER_CTR_MAX" (GENMASK 31 0)].

Definition glbl_perf_cntr_ctl_a1_field_info : list regfield_info :=
  [mkField "GLBL_PERF_CNTR_CTL_A1_RSVD" (GENMASK 31 18);
   mkField "GLBL_PERF_CNTR_CTL_A1_USER_CTR_CLEAR" (BIT 17);
   mkField "GLBL_PERF_CNTR_CTL_A1_USER_CTR_READ" (BIT 16);
   mkField "GLBL_PERF_CNTR_CTL_A1_USER_CTR_MAX" (GENMASK 15 0)].

Definition glbl_free_cnt_a0_field_info : list regfield_info :=
  [mkField "GLBL_FREE_CNT_A0_S" (GENMASK 31 0)].

Definition glbl_free_cnt_a1_field_info : list regfield_info :=
  [mkField "GLBL_FREE_CNT_A1_RSVD" (GENMASK 31 16); mkField "GLBL_FREE_CNT_A1_S" (GENMASK 15 0)].

Definition glbl_axis_h2c_cnt_a0_field_info : list regfield_info :=
  [mkField "GLBL_AXIS_H2C_CNT_A0_MPKT_CNTS" (GENMASK 31 0)].

Definition glbl_axis_h2c_cnt_a1_field_info : list regfield_info :=
  [mkField "GLBL_AXIS_H2C_CNT_A1_MIDLE_CNTS" (GENMASK 15 0);
   mkField "GLBL_AXIS_H2C_CNT_A1_MPKT_CNTS" (GENMASK 15 0)].

Definition glbl_axis_h2c_cnt_a2_field_info : list regfield_info :=
  [mkField "GLBL_AXIS_H2C_CNT_A2_MIDLE_CNTS" (GENMASK 31 0)].

Definition glbl_axis_h2c_cnt_a3_field_info : list regfield_info :=
  [mkField "GLBL_AXIS_H2C_CNT_A3_MACTV_CNTS" (GENMASK 31 0)].

Definition glbl_axis_h2c_cnt_a4_field_info : list regfield_info :=
  [mkField "GLBL_AXIS_H2C_CNT_A4_MBUSY_CNTS" (GENMASK 15 0);
   mkField "GLBL_AXIS_H2C_CNT_A4_MACTV_CNTS" (GENMASK 15 0)].

Definition glbl_axis_h2c_cnt_a5_field_info : list regfield_info :=
  [mkField "GLBL_AXIS_H2C_CNT_A5_MBUSY_CNTS" (GENMASK 31 0)].

Definition glbl_axis_c2h_cnt_a0_field_info : list regfield_info :=
  [mkField "GLBL_AXIS_C2H_CNT_A0_SPKT_CNTS" (GENMASK 31 0)].

Definition glbl_axis_c2h_cnt_a1_field_info : list regfield_info :=
  [mkField "GLBL_AXIS_C2H_CNT_A1_SIDLE_CNTS" (GENMASK 15 0);
   mkField "GLBL_AXIS_C2H_CNT_A1_SPKT_CNTS" (GENMASK 15 0)].

Definition glbl_axis_c2h_cnt_a2_field_info : list regfield_info :=
  [mkField "GLBL_AXIS_C2H_CNT_A2_SIDLE_CNTS" (GENMASK 31 0)].

Definition glbl_axis_c2h_cnt_a3_field_info : list regfield_info :=
  [mkField "GLBL_AXIS_C2H_CNT_A3_SACTV_CNTS" (GENMASK 31 0)].

Definition glbl_axis_c2h_cnt_a4_field_info : list regfield_info :=
  [mkField "GLBL_AXIS_C2H_CNT_A4_SBUSY_CNTS" (GENMASK 15 0);
   mkField "GLBL_AXIS_C2H_CNT_A4_SACTV_CNTS" (GENMASK 15 0)].

Definition glbl_axis_c2h_cnt_a5_field_info : list regfield_info :=
  [mkField "GLBL_AXIS_C2H_CNT_A5_SBUSY_CNTS" (GENMASK 31 0)].

Definition glbl_m_axi_wr_cnt_a0_field_info : list regfield_info :=
  [mkField "GLBL_M_AXI_WR_CNT_A0_PKT_CNTS" (GENMASK 31 0)].

Definition glbl_m_axi_wr_cnt_a1_field_info : list regfield_info :=
  [mkField "GLBL_M_AXI_WR_CNT_A1_IDLE_CNTS" (GENMASK 15 0);
   mkField "GLBL_M_AXI_WR_CNT_A1_PKT_CNTS" (GENMASK 15 0)].

Definition glbl_m_axi_wr_cnt_a2_field_info : list regfield_info :=
  [mkField "GLBL_M_AXI_WR_CNT_A2_IDLE_CNTS" (GENMASK 31 0)].

Definition glbl_m_axi_wr_cnt_a3_field_info : list regfield_info :=
  [mkField "GLBL_M_AXI_WR_CNT_A3_ACTV_CNTS" (GENMASK 31 0)].

Definition glbl_m_axi_wr_cnt_a4_field_info : list regfield_info :=
  [mkField "GLBL_M_AXI_WR_CNT_A4_BUSY_CNTS" (GENMASK 15 0);
   mkField "GLBL_M_AXI_WR_CNT_A4_ACTV_CNTS" (GENMASK 15 0)].

Definition glbl_m_axi_wr_cnt_a5_field_info : list regfield_info :=
  [mkField "GLBL_M_AXI_WR_CNT_A5_BUSY_CNTS" (GENMASK 31 0)].

Definition glbl_m_axi_rd_cnt_a0_field_info : list regfield_info :=
  [mkField "GLBL_M_AXI_RD_CNT_A0_PKT_CNTS" (GENMASK 31 0)].

Definition glbl_m_axi_rd_cnt_a1_field_info : list regfield_info :=
  [mkField "GLBL_M_AXI_RD_CNT_A1_IDLE_CNTS" (GENMASK 15 0);
   mkField "GLBL_M_AXI_RD_CNT_A1_PKT_CNTS" (GENMASK 15 0)].

Definition glbl_m_axi_rd_cnt_a2_field_info : list regfield_info :=
  [mkField "GLBL_M_AXI_RD_CNT_A2_IDLE_CNTS" (GENMASK 31 0)].

Definition glbl_m_axi_rd_cnt_a3_field_info : list regfield_info :=
  [mkField "GLBL_M_AXI_RD_CNT_A3_ACTV_CNTS" (GENMASK 31 0)].

Definition glbl_m_axi_rd_cnt_a4_field_info : list regfield_info :=
  [mkField "GLBL_M_AXI_RD_CNT_A4_BUSY_CNTS" (GENMASK 15 0);
   mkField "GLBL_M_AXI_RD_CNT_A4_ACTV_CNTS" (GENMASK 15 0)].

Definition glbl_m_axi_rd_cnt_a5_field_info : list regfield_info :=
  [mkField "GLBL_M_AXI_RD_CNT_A5_BUSY_CNTS" (GENMASK 31 0)].

Definition glbl_m_axib_wr_cnt_a0_field_info : list regfield_info :=
  [mkField "GLBL_M_AXIB_WR_CNT_A0_PKT_CNTS" (GENMASK 31 0)].

Definition glbl_m_axib_wr_cnt_a1_field_info : list regfield_info :=
  [mkField "GLBL_M_AXIB_WR_CNT_A1_IDLE_CNTS" (GENMASK 15 0);
   mkField "GLBL_M_AXIB_WR_CNT_A1_PKT_CNTS" (GENMASK 15 0)].

Definition glbl_m_axib_wr_cnt_a2_field_info : list regfield_info :=
  [mkField "GLBL_M_AXIB_WR_CNT_A2_IDLE_CNTS" (GENMASK 31 0)].

Definition glbl_m_axib_wr_cnt_a3_field_info : list regfield_info :=
  [mkField "GLBL_M_AXIB_WR_CNT_A3_ACTV_CNTS" (GENMASK 31 0)].

Definition glbl_m_axib_wr_cnt_a4_field_info : list regfield_info :=
  [mkField "GLBL_M_AXIB_WR_CNT_A4_BUSY_CNTS" (GENMASK 15 0);
   mkField "GLBL_M_AXIB_WR_CNT_A4_ACTV_CNTS" (GENMASK 15 0)].

Definition glbl_m_axib_wr_cnt_a5_field_info : list regfield_info :=
  [mkField "GLBL_M_AXIB_WR_CNT_A5_BUSY_CNTS" (GENMASK 31 0)].

Definition glbl_m_axib_rd_cnt_a0_field_info : list regfield_info :=
  [mkField "GLBL_M_AXIB_RD_CNT_A0_PKT_CNTS" (GENMASK 31 0)].

Definition glbl_m_axib_rd_cnt_a1_field_info : list regfield_info :=
  [mkField "GLBL_M_AXIB_RD_CNT_A1_IDLE_CNTS" (GENMASK 15 0);
   mkField "GLBL_M_AXIB_RD_CNT_A1_PKT_CNTS" (GENMASK 15 0)].

Definition glbl_m_axib_rd_cnt_a2_field_info : list regfield_info :=
  [mkField "GLBL_M_AXIB_RD_CNT_A2_IDLE_CNTS" (GENMASK 31 0)].

Definition glbl_m_axib_rd_cnt_a3_field_info : list regfield_info :=
  [mkField "GLBL_M_AXIB_RD_CNT_A3_ACTV_CNTS" (GENMASK 31 0)].

Definition glbl_m_axib_rd_cnt_a4_field_info : list regfield_info :=
  [mkField "GLBL_M_AXIB_RD_CNT_A4_BUSY_CNTS" (GENMASK 15 0);
   mkField "GLBL_M_AXIB_RD_CNT_A4_ACTV_CNTS" (GENMASK 15 0)].

Definition glbl_m_axib_rd_cnt_a5_field_info : list regfield_info :=
  [mkField "GLBL_M_AXIB_RD_CNT_A5_BUSY_CNTS" (GENMASK 31 0)].

Definition glbl_s_axi_wr_cnt_a0_field_info : list regfield_info :=
  [mkField "GLBL_S_AXI_WR_CNT_A0_PKT_CNTS" (GENMASK 31 0)].

Definition glbl_s_axi_wr_cnt_a1_field_info : list regfield_info :=
  [mkField "GLBL_S_AXI_WR_CNT_A1_IDLE_CNTS" (GENMASK 15 0);
   mkField "GLBL_S_AXI_WR_CNT_A1_PKT_CNTS" (GENMASK 15 0)].

Definition glbl_s_axi_wr_cnt_a2_field_info : list regfield_info :=
  [mkField "GLBL_S_AXI_WR_CNT_A2_IDLE_CNTS" (GENMASK 31 0)].

Definition glbl_s_axi_wr_cnt_a3_field_info : list regfield_info :=
  [mkField "GLBL_S_AXI_WR_CNT_A3_ACTV_CNTS" (GENMASK 31 0)].

Definition glbl_s_axi_wr_cnt_a4_field_info : list regfield_info :=
  [mkField "GLBL_S_AXI_WR_CNT_A4_BUSY_CNTS" (GENMASK 15 0);
   mkField "GLBL_S_AXI_WR_CNT_A4_ACTV_CNTS" (GENMASK 15 0)].

Definition glbl_s_axi_wr_cnt_a5_field_info : list regfield_info :=
  [mkField "GLBL_S_AXI_WR_CNT_A5_BUSY_CNTS" (GENMASK 31 0)].

Definition glbl_s_axi_rd_cnt_a0_field_info : list regfield_info :=
  [mkField "GLBL_S_AXI_RD_CNT_A0_PKT_CNTS" (GENMASK 31 0)].

Definition glbl_s_axi_rd_cnt_a1_field_info : list regfield_info :=
  [mkField "GLBL_S_AXI_RD_CNT_A1_IDLE_CNTS" (GENMASK 15 0);
   mkField "GLBL_S_AXI_RD_CNT_A1_PKT_CNTS" (GENMASK 15 0)].

Definition glbl_s_axi_rd_cnt_a2_field_info : list regfield_info :=
  [mkField "GLBL_S_AXI_RD_CNT_A2_IDLE_CNTS" (GENMASK 31 0)].

Definition glbl_s_axi_rd_cnt_a3_field_info : list regfield_info :=
  [mkField "GLBL_S_AXI_RD_CNT_A3_ACTV_CNTS" (GENMASK 31 0)].

Definition glbl_s_axi_rd_cnt_a4_field_info : list regfield_info :=
  [mkField "GLBL_S_AXI_RD_CNT_A4_BUSY_CNTS" (GENMASK 15 0);
   mkField "GLBL_S_AXI_RD_CNT_A4_ACTV_CNTS" (GENMASK 15 0)].

Definition glbl_s_axi_rd_cnt_a5_field_info : list regfield_info :=
  [mkField "GLBL_S_AXI_RD_CNT_A5_BUSY_CNTS" (GENMASK 31 0)].

Definition glbl_s_axis_cmp_cnt_a0_field_info : list regfield_info :=
  [mkField "GLBL_S_AXIS_CMP_CNT_A0_PKT_CNTS" (GENMASK 31 0)].

Definition glbl_s_axis_cmp_cnt_a1_field_info : list regfield_info :=
  [mkField "GLBL_S_AXIS_CMP_CNT_A1_IDLE_CNTS" (GENMASK 15 0);
   mkField "GLBL_S_AXIS_CMP_CNT_A1_PKT_CNTS" (GENMASK 15 0)].

Definition glbl_s_axis_cmp_cnt_a2_field_info : list regfield_info :=
  [mkField "GLBL_S_AXIS_CMP_CNT_A2_IDLE_CNTS" (GENMASK 31 0)].

Definition glbl_s_axis_cmp_cnt_a3_field_info : list regfield_info :=
  [mkField "GLBL_S_AXIS_CMP_CNT_A3_ACTV_CNTS" (GENMASK 31 0)].

Definition glbl_s_axis_cmp_cnt_a4_field_info : list regfield_info :=
  [mkField "GLBL_S_AXIS_CMP_CNT_A4_BUSY_CNTS" (GENMASK 15 0);
   mkField "GLBL_S_AXIS_CMP_CNT_A4_ACTV_CNTS" (GENMASK 15 0)].

Definition glbl_s_axis_cmp_cnt_a5_field_info : list regfield_info :=
  [mkField "GLBL_S_AXIS_CMP_CNT_A5_BUSY_CNTS" (GENMASK 31 0)].

Definition ind_ctxt_data_field_info : list regfield_info :=
  [mkField "IND_CTXT_DATA_DATA" (GENMASK 31 0)].

Definition ind_ctxt_mask_field_info : list regfield_info :=
  [mkField "IND_CTXT" (GENMASK 31 0)].

Definition ind_ctxt_cmd_field_info : list regfield_info :=
  [mkField "IND_CTXT_CMD_RSVD_1" (GENMASK 31 20); mkField "IND_CTXT_CMD_QID" (GENMASK 19 7);
   mkField "IND_CTXT_CMD_OP" (GENMASK 6 5); mkField "IND_CTXT_CMD_SEL" (GENMASK 4 1);
   mkField "IND_CTXT_CMD_BUSY" (BIT 0)].

Definition c2h_timer_cnt_field_info : list regfield_info :=
  [mkField "C2H_TIMER_CNT_RSVD_1" (GENMASK 31 16); mkField "C2H_TIMER_CNT" (GENMASK 15 0)].

Definition c2h_cnt_th_field_info : list regfield_info :=
  [mkField "C2H_CNT_TH_RSVD_1" (GENMASK 31 16); mkField "C2H_CNT_TH_THESHOLD_CNT" (GENMASK 15 0)].

Definition c2h_pfch_cfg_1_field_info : list regfield_info :=
  [mkField "C2H_PFCH_CFG_1_EVT_QCNT_TH" (GENMASK 31 16); mkField "C2H_PFCH_CFG_1_QCNT" (GENMASK 15 0)].

Definition c2h_pfch_cfg_2_field_info : list regfield_info :=
  [mkField "C2H_PFCH_CFG_2_FENCE" (BIT 31); mkField "C2H_PFCH_CFG_2_RSVD" (GENMASK 30 29);
   mkField "C2H_PFCH_CFG_2_VAR_DESC_NO_DROP" (BIT 28); mkField "C2H_PFCH_CFG_2_LL_SZ_TH" (GENMASK 27 12);
   mkField "C2H_PFCH_CFG_2_VAR_DESC_NUM" (GENMASK 11 6); mkField "C2H_PFCH_CFG_2_NUM" (GENMASK 5 0)].

Definition c2h_stat_s_axis_c2h_accepted_field_info : list regfield_info :=
  [mkField "C2H_STAT_S_AXIS_C2H_ACCEPTED" (GENMASK 31 0)].

Definition c2h_stat_s_axis_wrb_accepted_field_info : list regfield_info :=
  [mkField "C2H_STAT_S_AXIS_WRB_ACCEPTED" (GENMASK 31 0)].

Definition c2h_stat_desc_rsp_pkt_accepted_field_info : list regfield_info :=
  [mkField "C2H_STAT_DESC_RSP_PKT_ACCEPTED_D" (GENMASK 31 0)].

Definition c2h_stat_axis_pkg_cmp_field_info : list regfield_info :=
  [mkField "C2H_STAT_AXIS_PKG_CMP" (GENMASK 31 0)].

Definition c2h_stat_desc_rsp_accepted_field_info : list regfield_info :=
  [mkField "C2H_STAT_DESC_RSP_ACCEPTED_D" (GENMASK 31 0)].

Definition c2h_stat_desc_rsp_cmp_field_info : list regfield_info :=
  [mkField "C2H_STAT_DESC_RSP_CMP_D" (GENMASK 31 0)].

Definition c2h_stat_wrq_out_field_info : list regfield_info :=
  [mkField "C2H_STAT_WRQ_OUT" (GENMASK 31 0)].

Definition c2h_stat_wpl_ren_accepted_field_info : list regfield_info :=
  [mkField "C2H_STAT_WPL_REN_ACCEPTED" (GENMASK 31 0)].

Definition c2h_stat_total_wrq_len_field_info : list regfield_info :=
  [mkField "C2H_STAT_TOTAL_WRQ_LEN" (GENMASK 31 0)].

Definition c2h_stat_total_wpl_len_field_info : list regfield_info :=
  [mkField "C2H_STAT_TOTAL_WPL_LEN" (GENMASK 31 0)].

Definition c2h_buf_sz_field_info : list regfield_info :=
  [mkField "C2H_BUF_SZ_IZE" (GENMASK 31 0)].

Definition c2h_err_stat_field_info : list regfield_info :=
  [mkField "C2H_ERR_STAT_RSVD_1" (GENMASK 31 21); mkField "C2H_ERR_STAT_WRB_PORT_ID_ERR" (BIT 20);
   mkField "C2H_ERR_STAT_HDR_PAR_ERR" (BIT 19); mkField "C2H_ERR_STAT_HDR_ECC_COR_ERR" (BIT 18);
   mkField "C2H_ERR_STAT_HDR_ECC_UNC_ERR" (BIT 17); mkField "C2H_ERR_STAT_AVL_RING_DSC_ERR" (BIT 16);
   mkField "C2H_ERR_STAT_WRB_PRTY_ERR" (BIT 15); mkField "C2H_ERR_STAT_WRB_CIDX_ERR" (BIT 14);
   mkField "C2H_ERR_STAT_WRB_QFULL_ERR" (BIT 13); mkField "C2H_ERR_STAT_WRB_INV_Q_ERR" (BIT 12);
   mkField "C2H_ERR_STAT_RSVD_2" (BIT 11); mkField "C2H_ERR_STAT_PORT_ID_CTXT_MISMATCH" (BIT 10);
   mkField "C2H_ERR_STAT_ERR_DESC_CNT" (BIT 9); mkField "C2H_ERR_STAT_RSVD_3" (BIT 8);
   mkField "C2H_ERR_STAT_MSI_INT_FAIL" (BIT 7); mkField "C2H_ERR_STAT_ENG_WPL_DATA_PAR_ERR" (BIT 6);
   mkField "C2H_ERR_STAT_RSVD_4" (BIT 5); mkField "C2H_ERR_STAT_DESC_RSP_ERR" (BIT 4);
   mkField "C2H_ERR_STAT_QID_MISMATCH" (BIT 3); mkField "C2H_ERR_STAT_SH_CMPT_DSC_ERR" (BIT 2);
   mkField "C2H_ERR_STAT_LEN_MISMATCH" (BIT 1); mkField "C2H_ERR_STAT_MTY_MISMATCH" (BIT 0)].

Definition c2h_err_mask_field_info : list regfield_info :=
  [mkField "C2H_ERR_EN" (GENMASK 31 0)].

Definition c2h_fatal_err_stat_field_info : list regfield_info :=
  [mkField "C2H_FATAL_ERR_STAT_RSVD_1" (GENMASK 31 21); mkField "C2H_FATAL_ERR_STAT_HDR_ECC_UNC_ERR" (BIT 20);
   mkField "C2H_FATAL_ERR_STAT_AVL_RING_FIFO_RAM_RDBE" (BIT 19);
   mkField "C2H_FATAL_ERR_STAT_WPL_DATA_PAR_ERR" (BIT 18);
   mkField "C2H_FATAL_ERR_STAT_PLD_FIFO_RAM_RDBE" (BIT 17);
   mkField "C2H_FATAL_ERR_STAT_QID_FIFO_RAM_RDBE" (BIT 16);
   mkField "C2H_FATAL_ERR_STAT_CMPT_FIFO_RAM_RDBE" (BIT 15);
   mkField "C2H_FATAL_ERR_STAT_WRB_COAL_DATA_RAM_RDBE" (BIT 14);
   mkField "C2H_FATAL_ERR_STAT_RESERVED2" (BIT 13); mkField "C2H_FATAL_ERR_STAT_INT_CTXT_RAM_RDBE" (BIT 12);
   mkField "C2H_FATAL_ERR_STAT_DESC_REQ_FIFO_RAM_RDBE" (BIT 11);
   mkField "C2H_FATAL_ERR_STAT_PFCH_CTXT_RAM_RDBE" (BIT 10);
   mkField "C2H_FATAL_ERR_STAT_WRB_CTXT_RAM_RDBE" (BIT 9);
   mkField "C2H_FATAL_ERR_STAT_PFCH_LL_RAM_RDBE" (BIT 8);
   mkField "C2H_FATAL_ERR_STAT_TIMER_FIFO_RAM_RDBE" (GENMASK 7 4);
   mkField "C2H_FATAL_ERR_STAT_QID_MISMATCH" (BIT 3); mkField "C2H_FATAL_ERR_STAT_RESERVED1" (BIT 2);
   mkField "C2H_FATAL_ERR_STAT_LEN_MISMATCH" (BIT 1); mkField "C2H_FATAL_ERR_STAT_MTY_MISMATCH" (BIT 0)].

Definition c2h_fatal_err_mask_field_info : list regfield_info :=
  [mkField "C2H_FATAL_ERR_C2HEN" (GENMASK 31 0)].

Definition c2h_fatal_err_enable_field_info : list regfield_info :=
  [mkField "C2H_FATAL_ERR_ENABLE_RSVD_1" (GENMASK 31 2); mkField "C2H_FATAL_ERR_ENABLE_WPL_PAR_INV" (BIT 1);
   mkField "C2H_FATAL_ERR_ENABLE_WRQ_DIS" (BIT 0)].

Definition glbl_err_int_field_info : list regfield_info :=
  [mkField "GLBL_ERR_INT_RSVD_1" (GENMASK 31 30); mkField "GLBL_ERR_INT_HOST_ID" (GENMASK 29 26);
   mkField "GLBL_ERR_INT_DIS_INTR_ON_VF" (BIT 25); mkField "GLBL_ERR_INT_ARM" (BIT 24);
   mkField "GLBL_ERR_INT_EN_COAL" (BIT 23); mkField "GLBL_ERR_INT_VEC" (GENMASK 22 12);
   mkField "GLBL_ERR_INT_FUNC" (GENMASK 11 0)].

Definition c2h_pfch_cfg_field_info : list regfield_info :=
  [mkField "C2H_PFCH_CFG_EVTFL_TH" (GENMASK 31 16); mkField "C2H_PFCH_CFG_FL_TH" (GENMASK 15 0)].

Definition c2h_int_timer_tick_field_info : list regfield_info :=
  [mkField "C2H_INT_TIMER_TICK" (GENMASK 31 0)].

Definition c2h_stat_desc_rsp_drop_accepted_field_info : list regfield_info :=
  [mkField "C2H_STAT_DESC_RSP_DROP_ACCEPTED_D" (GENMASK 31 0)].

Definition c2h_stat_desc_rsp_err_accepted_field_info : list regfield_info :=
  [mkField "C2H_STAT_DESC_RSP_ERR_ACCEPTED_D" (GENMASK 31 0)].

Definition c2h_stat_desc_req_field_info : list regfield_info :=
  [mkField "C2H_STAT_DESC_REQ" (GENMASK 31 0)].

Definition c2h_stat_dbg_dma_eng_0_field_info : list regfield_info :=
  [mkField "C2H_STAT_DMA_ENG_0_S_AXIS_C2H_TVALID" (BIT 31);
   mkField "C2H_STAT_DMA_ENG_0_S_AXIS_C2H_TREADY" (BIT 30);
   mkField "C2H_STAT_DMA_ENG_0_S_AXIS_WRB_TVALID" (GENMASK 29 27);
   mkField "C2H_STAT_DMA_ENG_0_S_AXIS_WRB_TREADY" (GENMASK 26 24);
   mkField "C2H_STAT_DMA_ENG_0_PLD_FIFO_IN_RDY" (BIT 23);
   mkField "C2H_STAT_DMA_ENG_0_QID_FIFO_IN_RDY" (BIT 22);
   mkField "C2H_STAT_DMA_ENG_0_ARB_FIFO_OUT_VLD" (BIT 21);
   mkField "C2H_STAT_DMA_ENG_0_ARB_FIFO_OUT_QID" (GENMASK 20 9);
   mkField "C2H_STAT_DMA_ENG_0_WRB_FIFO_IN_RDY" (BIT 8);
   mkField "C2H_STAT_DMA_ENG_0_WRB_FIFO_OUT_CNT" (GENMASK 7 5); mkField "C2H_STAT_DMA_ENG_0_WRB_SM_CS" (BIT 4);
   mkField "C2H_STAT_DMA_ENG_0_MAIN_SM_CS" (GENMASK 3 0)].

Definition c2h_stat_dbg_dma_eng_1_field_info : list regfield_info :=
  [mkField "C2H_STAT_DMA_ENG_1_WRB_USER_0_CMPT_TYPE" (GENMASK 31 30);
   mkField "C2H_STAT_DMA_ENG_1_DESC_RSP_FIFO_OUT_VLD" (GENMASK 29 29);
   mkField "C2H_STAT_DMA_ENG_1_QID_FIFO_OUT_CNT" (GENMASK 28 18);
   mkField "C2H_STAT_DMA_ENG_1_PLD_FIFO_OUT_CNT" (GENMASK 17 7);
   mkField "C2H_STAT_DMA_ENG_1_PLD_ST_FIFO_CNT" (GENMASK 6 0)].

Definition c2h_stat_dbg_dma_eng_2_field_info : list regfield_info :=
  [mkField "C2H_STAT_DMA_ENG_2_WRB_USER_1_CMPT_TYPE" (GENMASK 31 30);
   mkField "C2H_STAT_DMA_ENG_2_DESC_RSP_FIFO_OUT_VLD_1" (GENMASK 29 29);
   mkField "C2H_STAT_DMA_ENG_2_QID_FIFO_OUT_CNT_1" (GENMASK 28 18);
   mkField "C2H_STAT_DMA_ENG_2_PLD_FIFO_OUT_CNT_1" (GENMASK 17 7);
   mkField "C2H_STAT_DMA_ENG_2_PLD_ST_FIFO_CNT_1" (GENMASK 6 0)].

Definition c2h_stat_dbg_dma_eng_3_field_info : list regfield_info :=
  [mkField "C2H_STAT_DMA_ENG_3_QID_FIFO_OUT_DAT_HAS_CMPT" (BIT 31);
   mkField "C2H_STAT_DMA_ENG_3_QID_FIFO_OUT_DAT_MARKER" (BIT 30);
   mkField "C2H_STAT_DMA_ENG_3_QID_FIFO_OUT_DAT_DROP_REQ" (BIT 29);
   mkField "C2H_STAT_DMA_ENG_3_QID_FIFO_OUT_DAT_QID" (GENMASK 28 17);
   mkField "C2H_STAT_DMA_ENG_3_WR_HDR_FIFO_OUT_CNT" (GENMASK 16 12);
   mkField "C2H_STAT_DMA_ENG_3_QID_FIFO_OUT_VLD" (BIT 11);
   mkField "C2H_STAT_DMA_ENG_3_PLD_FIFO_OUT_VLD" (BIT 10);
   mkField "C2H_STAT_DMA_ENG_3_PLD_ST_FIFO_OUT_VLD" (BIT 9);
   mkField "C2H_STAT_DMA_ENG_3_PLD_ST_FIFO_OUT_DATA_EOP" (BIT 8);
   mkField "C2H_STAT_DMA_ENG_3_PLD_ST_FIFO_OUT_DATA_AVL_IDX_ENABLE" (BIT 7);
   mkField "C2H_STAT_DMA_ENG_3_PLD_ST_FIFO_OUT_DATA_DROP" (BIT 6);
   mkField "C2H_STAT_DMA_ENG_3_PLD_ST_FIFO_OUT_DATA_ERR" (BIT 5);
   mkField "C2H_STAT_DMA_ENG_3_DESC_CNT_FIFO_IN_RDY" (BIT 4);
   mkField "C2H_STAT_DMA_ENG_3_DESC_RSP_FIFO_IN_RDY" (BIT 3);
   mkField "C2H_STAT_DMA_ENG_3_PLD_PKT_ID_LARGER" (BIT 2);
   mkField "C2H_STAT_DMA_ENG_3_WCP_FIFO_IN_RDY" (BIT 1);
   mkField "C2H_STAT_DMA_ENG_3_PLD_ST_FIFO_IN_RDY" (BIT 0)].

Definition c2h_dbg_pfch_err_ctxt_field_info : list regfield_info :=
  [mkField "C2H_PFCH_ERR_CTXT_RSVD_1" (GENMASK 31 14); mkField "C2H_PFCH_ERR_CTXT_ERR_STAT" (BIT 13);
   mkField "C2H_PFCH_ERR_CTXT_CMD_WR" (BIT 12); mkField "C2H_PFCH_ERR_CTXT_QID" (GENMASK 11 1);
   mkField "C2H_PFCH_ERR_CTXT_DONE" (BIT 0)].

Definition c2h_first_err_qid_field_info : list regfield_info :=
  [mkField "C2H_FIRST_ERR_QID_RSVD_1" (GENMASK 31 21); mkField "C2H_FIRST_ERR_QID_ERR_TYPE" (GENMASK 20 16);
   mkField "C2H_FIRST_ERR_QID_RSVD" (GENMASK 15 13); mkField "C2H_FIRST_ERR_QID_QID" (GENMASK 12 0)].

Definition stat_num_wrb_in_field_info : list regfield_info :=
  [mkField "STAT_NUM_WRB_IN_RSVD_1" (GENMASK 31 16); mkField "STAT_NUM_WRB_IN_WRB_CNT" (GENMASK 15 0)].

Definition stat_num_wrb_out_field_info : list regfield_info :=
  [mkField "STAT_NUM_WRB_OUT_RSVD_1" (GENMASK 31 16); mkField "STAT_NUM_WRB_OUT_WRB_CNT" (GENMASK 15 0)].

Definition stat_num_wrb_drp_field_info : list regfield_info :=
  [mkField "STAT_NUM_WRB_DRP_RSVD_1" (GENMASK 31 16); mkField "STAT_NUM_WRB_DRP_WRB_CNT" (GENMASK 15 0)].

Definition stat_num_stat_desc_out_field_info : list regfield_info :=
  [mkField "STAT_NUM_STAT_DESC_OUT_RSVD_1" (GENMASK 31 16);
   mkField "STAT_NUM_STAT_DESC_OUT_CNT" (GENMASK 15 0)].

Definition stat_num_dsc_crdt_sent_field_info : list regfield_info :=
  [mkField "STAT_NUM_DSC_CRDT_SENT_RSVD_1" (GENMASK 31 16);
   mkField "STAT_NUM_DSC_CRDT_SENT_CNT" (GENMASK 15 0)].

Definition stat_num_fch_dsc_rcvd_field_info : list regfield_info :=
  [mkField "STAT_NUM_FCH_DSC_RCVD_RSVD_1" (GENMASK 31 16);
   mkField "STAT_NUM_FCH_DSC_RCVD_DSC_CNT" (GENMASK 15 0)].

Definition stat_num_byp_dsc_rcvd_field_info : list regfield_info :=
  [mkField "STAT_NUM_BYP_DSC_RCVD_RSVD_1" (GENMASK 31 11);
   mkField "STAT_NUM_BYP_DSC_RCVD_DSC_CNT" (GENMASK 10 0)].

Definition c2h_wrb_coal_cfg_field_info : list regfield_info :=
  [mkField "C2H_WRB_COAL_CFG_MAX_BUF_SZ" (GENMASK 31 26); mkField "C2H_WRB_COAL_CFG_TICK_VAL" (GENMASK 25 14);
   mkField "C2H_WRB_COAL_CFG_TICK_CNT" (GENMASK 13 2); mkField "C2H_WRB_COAL_CFG_SET_GLB_FLUSH" (BIT 1);
   mkField "C2H_WRB_COAL_CFG_DONE_GLB_FLUSH" (BIT 0)].

Definition c2h_intr_h2c_req_field_info : list regfield_info :=
  [mkField "C2H_INTR_H2C_REQ_RSVD_1" (GENMASK 31 18); mkField "C2H_INTR_H2C_REQ_CNT" (GENMASK 17 0)].

Definition c2h_intr_c2h_mm_req_field_info : list regfield_info :=
  [mkField "C2H_INTR_C2H_MM_REQ_RSVD_1" (GENMASK 31 18); mkField "C2H_INTR_C2H_MM_REQ_CNT" (GENMASK 17 0)].

Definition c2h_intr_err_int_req_field_info : list regfield_info :=
  [mkField "C2H_INTR_ERR_INT_REQ_RSVD_1" (GENMASK 31 18); mkField "C2H_INTR_ERR_INT_REQ_CNT" (GENMASK 17 0)].

Definition c2h_intr_c2h_st_req_field_info : list regfield_info :=
  [mkField "C2H_INTR_C2H_ST_REQ_RSVD_1" (GENMASK 31 18); mkField "C2H_INTR_C2H_ST_REQ_CNT" (GENMASK 17 0)].

Definition c2h_intr_h2c_err_c2h_mm_msix_ack_field_info : list regfield_info :=
  [mkField "C2H_INTR_H2C_ERR_C2H_MM_MSIX_ACK_RSVD_1" (GENMASK 31 18);
   mkField "C2H_INTR_H2C_ERR_C2H_MM_MSIX_ACK_CNT" (GENMASK 17 0)].

Definition c2h_intr_h2c_err_c2h_mm_msix_fail_field_info : list regfield_info :=
  [mkField "C2H_INTR_H2C_ERR_C2H_MM_MSIX_FAIL_RSVD_1" (GENMASK 31 18);
   mkField "C2H_INTR_H2C_ERR_C2H_MM_MSIX_FAIL_CNT" (GENMASK 17 0)].

Definition c2h_intr_h2c_err_c2h_mm_msix_no_msix_field_info : list regfield_info :=
  [mkField "C2H_INTR_H2C_ERR_C2H_MM_MSIX_NO_MSIX_RSVD_1" (GENMASK 31 18);
   mkField "C2H_INTR_H2C_ERR_C2H_MM_MSIX_NO_MSIX_CNT" (GENMASK 17 0)].

Definition c2h_intr_h2c_err_c2h_mm_ctxt_inval_field_info : list regfield_info :=
  [mkField "C2H_INTR_H2C_ERR_C2H_MM_CTXT_INVAL_RSVD_1" (GENMASK 31 18);
   mkField "C2H_INTR_H2C_ERR_C2H_MM_CTXT_INVAL_CNT" (GENMASK 17 0)].

Definition c2h_intr_c2h_st_msix_ack_field_info : list regfield_info :=
  [mkField "C2H_INTR_C2H_ST_MSIX_ACK_RSVD_1" (GENMASK 31 18);
   mkField "C2H_INTR_C2H_ST_MSIX_ACK_CNT" (GENMASK 17 0)].

Definition c2h_intr_c2h_st_msix_fail_field_info : list regfield_info :=
  [mkField "C2H_INTR_C2H_ST_MSIX_FAIL_RSVD_1" (GENMASK 31 18);
   mkField "C2H_INTR_C2H_ST_MSIX_FAIL_CNT" (GENMASK 17 0)].

Definition c2h_intr_c2h_st_no_msix_field_info : list regfield_info :=
  [mkField "C2H_INTR_C2H_ST_NO_MSIX_RSVD_1" (GENMASK 31 18);
   mkField "C2H_INTR_C2H_ST_NO_MSIX_CNT" (GENMASK 17 0)].

Definition c2h_intr_c2h_st_ctxt_inval_field_info : list regfield_info :=
  [mkField "C2H_INTR_C2H_ST_CTXT_INVAL_RSVD_1" (GENMASK 31 18);
   mkField "C2H_INTR_C2H_ST_CTXT_INVAL_CNT" (GENMASK 17 0)].

Definition c2h_stat_wr_cmp_field_info : list regfield_info :=
  [mkField "C2H_STAT_WR_CMP_RSVD_1" (GENMASK 31 18); mkField "C2H_STAT_WR_CMP_CNT" (GENMASK 17 0)].

Definition c2h_stat_dbg_dma_eng_4_field_info : list regfield_info :=
  [mkField "C2H_STAT_DMA_ENG_4_QID_FIFO_OUT_DAT_HAS_CMPT_1" (BIT 31);
   mkField "C2H_STAT_DMA_ENG_4_QID_FIFO_OUT_DAT_MARKER_1" (BIT 30);
   mkField "C2H_STAT_DMA_ENG_4_QID_FIFO_OUT_DAT_DROP_REQ_1" (BIT 29);
   mkField "C2H_STAT_DMA_ENG_4_QID_FIFO_OUT_DAT_QID_1" (GENMASK 28 17);
   mkField "C2H_STAT_DMA_ENG_4_WR_HDR_FIFO_OUT_CNT_1" (GENMASK 16 12);
   mkField "C2H_STAT_DMA_ENG_4_QID_FIFO_OUT_VLD_1" (BIT 11);
   mkField "C2H_STAT_DMA_ENG_4_PLD_FIFO_OUT_VLD_1" (BIT 10);
   mkField "C2H_STAT_DMA_ENG_4_PLD_ST_FIFO_OUT_VLD_1" (BIT 9);
   mkField "C2H_STAT_DMA_ENG_4_PLD_ST_FIFO_OUT_DATA_EOP_1" (BIT 8);
   mkField "C2H_STAT_DMA_ENG_4_PLD_ST_FIFO_OUT_DATA_AVL_IDX_ENABLE_1" (BIT 7);
   mkField "C2H_STAT_DMA_ENG_4_PLD_ST_FIFO_OUT_DATA_DROP_1" (BIT 6);
   mkField "C2H_STAT_DMA_ENG_4_PLD_ST_FIFO_OUT_DATA_ERR_1" (BIT 5);
   mkField "C2H_STAT_DMA_ENG_4_DESC_CNT_FIFO_IN_RDY_1" (BIT 4);
   mkField "C2H_STAT_DMA_ENG_4_DESC_RSP_FIFO_IN_RDY_1" (BIT 3);
   mkField "C2H_STAT_DMA_ENG_4_PLD_PKT_ID_LARGER_1" (BIT 2);
   mkField "C2H_STAT_DMA_ENG_4_WCP_FIFO_IN_RDY_1" (BIT 1);
   mkField "C2H_STAT_DMA_ENG_4_PLD_ST_FIFO_IN_RDY_1" (BIT 0)].

Definition c2h_stat_dbg_dma_eng_5_field_info : list regfield_info :=
  [mkField "C2H_STAT_DMA_ENG_5_ARB_FIFO_IN_RDY" (BIT 31); mkField "C2H_STAT_DMA_ENG_5_WRB_SM_VIRT_CH" (BIT 30);
   mkField "C2H_STAT_DMA_ENG_5_WRB_FIFO_IN_REQ" (GENMASK 29 24);
   mkField "C2H_STAT_DMA_ENG_5_ARB_FIFO_OUT_CNT" (GENMASK 23 22);
   mkField "C2H_STAT_DMA_ENG_5_ARB_FIFO_OUT_DATA_LEN" (GENMASK 21 6);
   mkField "C2H_STAT_DMA_ENG_5_ARB_FIFO_OUT_DATA_VIRT_CH" (BIT 5);
   mkField "C2H_STAT_DMA_ENG_5_ARB_FIFO_OUT_DATA_VAR_DESC" (BIT 4);
   mkField "C2H_STAT_DMA_ENG_5_ARB_FIFO_OUT_DATA_DROP_REQ" (BIT 3);
   mkField "C2H_STAT_DMA_ENG_5_ARB_FIFO_OUT_DATA_NUM_BUF_OV" (BIT 2);
   mkField "C2H_STAT_DMA_ENG_5_ARB_FIFO_OUT_DATA_MARKER" (BIT 1);
   mkField "C2H_STAT_DMA_ENG_5_ARB_FIFO_OUT_DATA_HAS_CMPT" (BIT 0)].

Definition c2h_dbg_pfch_qid_field_info : list regfield_info :=
  [mkField "C2H_PFCH_QID_RSVD_1" (GENMASK 31 16); mkField "C2H_PFCH_QID_ERR_CTXT" (BIT 15);
   mkField "C2H_PFCH_QID_TARGET" (GENMASK 14 12); mkField "C2H_PFCH_QID_QID_OR_TAG" (GENMASK 11 0)].

Definition c2h_dbg_pfch_field_info : list regfield_info :=
  [mkField "C2H_PFCH_DATA" (GENMASK 31 0)].

Definition c2h_int_dbg_field_info : list regfield_info :=
  [mkField "C2H_INT_RSVD_1" (GENMASK 31 8); mkField "C2H_INT_INT_COAL_SM" (GENMASK 7 4);
   mkField "C2H_INT_INT_SM" (GENMASK 3 0)].

Definition c2h_stat_imm_accepted_field_info : list regfield_info :=
  [mkField "C2H_STAT_IMM_ACCEPTED_RSVD_1" (GENMASK 31 18);
   mkField "C2H_STAT_IMM_ACCEPTED_CNT" (GENMASK 17 0)].

Definition c2h_stat_marker_accepted_field_info : list regfield_info :=
  [mkField "C2H_STAT_MARKER_ACCEPTED_RSVD_1" (GENMASK 31 18);
   mkField "C2H_STAT_MARKER_ACCEPTED_CNT" (GENMASK 17 0)].

Definition c2h_stat_disable_cmp_accepted_field_info : list regfield_info :=
  [mkField "C2H_STAT_DISABLE_CMP_ACCEPTED_RSVD_1" (GENMASK 31 18);
   mkField "C2H_STAT_DISABLE_CMP_ACCEPTED_CNT" (GENMASK 17 0)].

Definition c2h_pld_fifo_crdt_cnt_field_info : list regfield_info :=
  [mkField "C2H_PLD_FIFO_CRDT_CNT_RSVD_1" (GENMASK 31 18);
   mkField "C2H_PLD_FIFO_CRDT_CNT_CNT" (GENMASK 17 0)].

Definition c2h_intr_dyn_req_field_info : list regfield_info :=
  [mkField "C2H_INTR_DYN_REQ_RSVD_1" (GENMASK 31 18); mkField "C2H_INTR_DYN_REQ_CNT" (GENMASK 17 0)].

Definition c2h_intr_dyn_misc_field_info : list regfield_info :=
  [mkField "C2H_INTR_DYN_MISC_RSVD_1" (GENMASK 31 18); mkField "C2H_INTR_DYN_MISC_CNT" (GENMASK 17 0)].

Definition c2h_drop_len_mismatch_field_info : list regfield_info :=
  [mkField "C2H_DROP_LEN_MISMATCH_RSVD_1" (GENMASK 31 18);
   mkField "C2H_DROP_LEN_MISMATCH_CNT" (GENMASK 17 0)].

Definition c2h_drop_desc_rsp_len_field_info : list regfield_info :=
  [mkField "C2H_DROP_DESC_RSP_LEN_RSVD_1" (GENMASK 31 18);
   mkField "C2H_DROP_DESC_RSP_LEN_CNT" (GENMASK 17 0)].

Definition c2h_drop_qid_fifo_len_field_info : list regfield_info :=
  [mkField "C2H_DROP_QID_FIFO_LEN_RSVD_1" (GENMASK 31 18);
   mkField "C2H_DROP_QID_FIFO_LEN_CNT" (GENMASK 17 0)].

Definition c2h_drop_pld_cnt_field_info : list regfield_info :=
  [mkField "C2H_DROP_PLD_CNT_RSVD_1" (GENMASK 31 18); mkField "C2H_DROP_PLD_CNT_CNT" (GENMASK 17 0)].

Definition c2h_cmpt_format_0_field_info : list regfield_info :=
  [mkField "C2H_CMPT_FORMAT_0_DESC_ERR_LOC" (GENMASK 31 16);
   mkField "C2H_CMPT_FORMAT_0_COLOR_LOC" (GENMASK 15 0)].

Definition c2h_cmpt_format_1_field_info : list regfield_info :=
  [mkField "C2H_CMPT_FORMAT_1_DESC_ERR_LOC" (GENMASK 31 16);
   mkField "C2H_CMPT_FORMAT_1_COLOR_LOC" (GENMASK 15 0)].

Definition c2h_cmpt_format_2_field_info : list regfield_info :=
  [mkField "C2H_CMPT_FORMAT_2_DESC_ERR_LOC" (GENMASK 31 16);
   mkField "C2H_CMPT_FORMAT_2_COLOR_LOC" (GENMASK 15 0)].

Definition c2h_cmpt_format_3_field_info : list regfield_info :=
  [mkField "C2H_CMPT_FORMAT_3_DESC_ERR_LOC" (GENMASK 31 16);
   mkField "C2H_CMPT_FORMAT_3_COLOR_LOC" (GENMASK 15 0)].

Definition c2h_cmpt_format_4_field_info : list regfield_info :=
  [mkField "C2H_CMPT_FORMAT_4_DESC_ERR_LOC" (GENMASK 31 16);
   mkField "C2H_CMPT_FORMAT_4_COLOR_LOC" (GENMASK 15 0)].

Definition c2h_cmpt_format_5_field_info : list regfield_info :=
  [mkField "C2H_CMPT_FORMAT_5_DESC_ERR_LOC" (GENMASK 31 16);
   mkField "C2H_CMPT_FORMAT_5_COLOR_LOC" (GENMASK 15 0)].

Definition c2h_cmpt_format_6_field_info : list regfield_info :=
  [mkField "C2H_CMPT_FORMAT_6_DESC_ERR_LOC" (GENMASK 31 16);
   mkField "C2H_CMPT_FORMAT_6_COLOR_LOC" (GENMASK 15 0)].

Definition c2h_pfch_cache_depth_field_info : list regfield_info :=
  [mkField "C2H_PFCH_CACHE_DEPTH_MAX_STBUF" (GENMASK 23 16); mkField "C2H_PFCH_CACHE_DEPTH" (GENMASK 7 0)].

Definition c2h_wrb_coal_buf_depth_field_info : list regfield_info :=
  [mkField "C2H_WRB_COAL_BUF_DEPTH_RSVD_1" (GENMASK 31 8);
   mkField "C2H_WRB_COAL_BUF_DEPTH_BUFFER" (GENMASK 7 0)].

Definition c2h_pfch_crdt_field_info : list regfield_info :=
  [mkField "C2H_PFCH_CRDT_RSVD_1" (GENMASK 31 1); mkField "C2H_PFCH_CRDT_RSVD_2" (BIT 0)].

Definition c2h_stat_has_cmpt_accepted_field_info : list regfield_info :=
  [mkField "C2H_STAT_HAS_CMPT_ACCEPTED_RSVD_1" (GENMASK 31 18);
   mkField "C2H_STAT_HAS_CMPT_ACCEPTED_CNT" (GENMASK 17 0)].

Definition c2h_stat_has_pld_accepted_field_info : list regfield_info :=
  [mkField "C2H_STAT_HAS_PLD_ACCEPTED_RSVD_1" (GENMASK 31 18);
   mkField "C2H_STAT_HAS_PLD_ACCEPTED_CNT" (GENMASK 17 0)].

Definition c2h_pld_pkt_id_field_info : list regfield_info :=
  [mkField "C2H_PLD_PKT_ID_CMPT_WAIT" (GENMASK 31 16); mkField "C2H_PLD_PKT_ID_DATA" (GENMASK 15 0)].

Definition c2h_pld_pkt_id_1_field_info : list regfield_info :=
  [mkField "C2H_PLD_PKT_ID_1_CMPT_WAIT" (GENMASK 31 16); mkField "C2H_PLD_PKT_ID_1_DATA" (GENMASK 15 0)].

Definition c2h_drop_pld_cnt_1_field_info : list regfield_info :=
  [mkField "C2H_DROP_PLD_CNT_1_RSVD_1" (GENMASK 31 18); mkField "C2H_DROP_PLD_CNT_1_CNT" (GENMASK 17 0)].

Definition h2c_err_stat_field_info : list regfield_info :=
  [mkField "H2C_ERR_STAT_RSVD_1" (GENMASK 31 6); mkField "H2C_ERR_STAT_PAR_ERR" (BIT 5);
   mkField "H2C_ERR_STAT_SBE" (BIT 4); mkField "H2C_ERR_STAT_DBE" (BIT 3);
   mkField "H2C_ERR_STAT_NO_DMA_DS" (BIT 2); mkField "H2C_ERR_STAT_SDI_MRKR_REQ_MOP_ERR" (BIT 1);
   mkField "H2C_ERR_STAT_ZERO_LEN_DS" (BIT 0)].

Definition h2c_err_mask_field_info : list regfield_info :=
  [mkField "H2C_ERR_EN" (GENMASK 31 0)].

Definition h2c_first_err_qid_field_info : list regfield_info :=
  [mkField "H2C_FIRST_ERR_QID_RSVD_1" (GENMASK 31 20); mkField "H2C_FIRST_ERR_QID_ERR_TYPE" (GENMASK 19 16);
   mkField "H2C_FIRST_ERR_QID_RSVD_2" (GENMASK 15 13); mkField "H2C_FIRST_ERR_QID_QID" (GENMASK 12 0)].

Definition h2c_dbg_reg0_field_info : list regfield_info :=
  [mkField "H2C_REG0_NUM_DSC_RCVD" (GENMASK 31 16); mkField "H2C_REG0_NUM_WRB_SENT" (GENMASK 15 0)].

Definition h2c_dbg_reg1_field_info : list regfield_info :=
  [mkField "H2C_REG1_NUM_REQ_SENT" (GENMASK 31 16); mkField "H2C_REG1_NUM_CMP_SENT" (GENMASK 15 0)].

Definition h2c_dbg_reg2_field_info : list regfield_info :=
  [mkField "H2C_REG2_RSVD_1" (GENMASK 31 16); mkField "H2C_REG2_NUM_ERR_DSC_RCVD" (GENMASK 15 0)].

Definition h2c_dbg_reg3_field_info : list regfield_info :=
  [mkField "H2C_REG3_RSVD_1" (BIT 31); mkField "H2C_REG3_DSCO_FIFO_EMPTY" (BIT 30);
   mkField "H2C_REG3_DSCO_FIFO_FULL" (BIT 29); mkField "H2C_REG3_CUR_RC_STATE" (GENMASK 28 26);
   mkField "H2C_REG3_RDREQ_LINES" (GENMASK 25 16); mkField "H2C_REG3_RDATA_LINES_AVAIL" (GENMASK 15 6);
   mkField "H2C_REG3_PEND_FIFO_EMPTY" (BIT 5); mkField "H2C_REG3_PEND_FIFO_FULL" (BIT 4);
   mkField "H2C_REG3_CUR_RQ_STATE" (GENMASK 3 2); mkField "H2C_REG3_DSCI_FIFO_FULL" (BIT 1);
   mkField "H2C_REG3_DSCI_FIFO_EMPTY" (BIT 0)].

Definition h2c_dbg_reg4_field_info : list regfield_info :=
  [mkField "H2C_REG4_RDREQ_ADDR" (GENMASK 31 0)].

Definition h2c_fatal_err_en_field_info : list regfield_info :=
  [mkField "H2C_FATAL_ERR_EN_RSVD_1" (GENMASK 31 1); mkField "H2C_FATAL_ERR_EN_H2C" (BIT 0)].

Definition h2c_req_throt_pcie_field_info : list regfield_info :=
  [mkField "H2C_REQ_THROT_PCIE_EN_REQ" (BIT 31); mkField "H2C_REQ_THROT_PCIE" (GENMASK 30 19);
   mkField "H2C_REQ_THROT_PCIE_EN_DATA" (BIT 18); mkField "H2C_REQ_THROT_PCIE_DATA_THRESH" (GENMASK 17 0)].

Definition h2c_aln_dbg_reg0_field_info : list regfield_info :=
  [mkField "H2C_ALN_REG0_NUM_PKT_SENT" (GENMASK 15 0)].

Definition h2c_req_throt_aximm_field_info : list regfield_info :=
  [mkField "H2C_REQ_THROT_AXIMM_EN_REQ" (BIT 31); mkField "H2C_REQ_THROT_AXIMM" (GENMASK 30 19);
   mkField "H2C_REQ_THROT_AXIMM_EN_DATA" (BIT 18); mkField "H2C_REQ_THROT_AXIMM_DATA_THRESH" (GENMASK 17 0)].

Definition c2h_mm_ctl_field_info : list regfield_info :=
  [mkField "C2H_MM_CTL_RESERVED1" (GENMASK 31 9); mkField "C2H_MM_CTL_ERRC_EN" (BIT 8);
   mkField "C2H_MM_CTL_RESERVED0" (GENMASK 7 1); mkField "C2H_MM_CTL_RUN" (BIT 0)].

Definition c2h_mm_status_field_info : list regfield_info :=
  [mkField "C2H_MM_STATUS_RSVD_1" (GENMASK 31 1); mkField "C2H_MM_STATUS_RUN" (BIT 0)].

Definition c2h_mm_cmpl_desc_cnt_field_info : list regfield_info :=
  [mkField "C2H_MM_CMPL_DESC_CNT_C2H_CO" (GENMASK 31 0)].

Definition c2h_mm_err_code_enable_mask_field_info : list regfield_info :=
  [mkField "C2H_MM_ERR_CODE_ENABLE_RESERVED1" (BIT 31); mkField "C2H_MM_ERR_CODE_ENABLE_WR_UC_RAM" (BIT 30);
   mkField "C2H_MM_ERR_CODE_ENABLE_WR_UR" (BIT 29); mkField "C2H_MM_ERR_CODE_ENABLE_WR_FLR" (BIT 28);
   mkField "C2H_MM_ERR_CODE_ENABLE_RESERVED0" (GENMASK 27 2);
   mkField "C2H_MM_ERR_CODE_ENABLE_RD_SLV_ERR" (BIT 1); mkField "C2H_MM_ERR_CODE_ENABLE_WR_SLV_ERR" (BIT 0)].

Definition c2h_mm_err_code_field_info : list regfield_info :=
  [mkField "C2H_MM_ERR_CODE_RESERVED1" (GENMASK 31 28); mkField "C2H_MM_ERR_CODE_CIDX" (GENMASK 27 12);
   mkField "C2H_MM_ERR_CODE_RESERVED0" (GENMASK 11 10); mkField "C2H_MM_ERR_CODE_SUB_TYPE" (GENMASK 9 5);
   mkField "C2H_MM_ERR_CODE" (GENMASK 4 0)].

Definition c2h_mm_err_info_field_info : list regfield_info :=
  [mkField "C2H_MM_ERR_INFO_VALID" (BIT 31); mkField "C2H_MM_ERR_INFO_SEL" (BIT 30);
   mkField "C2H_MM_ERR_INFO_RSVD_1" (GENMASK 29 24); mkField "C2H_MM_ERR_INFO_QID" (GENMASK 23 0)].

Definition c2h_mm_perf_mon_ctl_field_info : list regfield_info :=
  [mkField "C2H_MM_PERF_MON_CTL_RSVD_1" (GENMASK 31 4); mkField "C2H_MM_PERF_MON_CTL_IMM_START" (BIT 3);
   mkField "C2H_MM_PERF_MON_CTL_RUN_START" (BIT 2); mkField "C2H_MM_PERF_MON_CTL_IMM_CLEAR" (BIT 1);
   mkField "C2H_MM_PERF_MON_CTL_RUN_CLEAR" (BIT 0)].

Definition c2h_mm_perf_mon_cycle_cnt0_field_info : list regfield_info :=
  [mkField "C2H_MM_PERF_MON_CYCLE_CNT0_CYC_CNT" (GENMASK 31 0)].

Definition c2h_mm_perf_mon_cycle_cnt1_field_info : list regfield_info :=
  [mkField "C2H_MM_PERF_MON_CYCLE_CNT1_RSVD_1" (GENMASK 31 10);
   mkField "C2H_MM_PERF_MON_CYCLE_CNT1_CYC_CNT" (GENMASK 9 0)].

Definition c2h_mm_perf_mon_data_cnt0_field_info : list regfield_info :=
  [mkField "C2H_MM_PERF_MON_DATA_CNT0_DCNT" (GENMASK 31 0)].

Definition c2h_mm_perf_mon_data_cnt1_field_info : list regfield_info :=
  [mkField "C2H_MM_PERF_MON_DATA_CNT1_RSVD_1" (GENMASK 31 10);
   mkField "C2H_MM_PERF_MON_DATA_CNT1_DCNT" (GENMASK 9 0)].

Definition c2h_mm_dbg_field_info : list regfield_info :=
  [mkField "C2H_MM_RSVD_1" (GENMASK 31 24); mkField "C2H_MM_RRQ_ENTRIES" (GENMASK 23 17);
   mkField "C2H_MM_DAT_FIFO_SPC" (GENMASK 16 7); mkField "C2H_MM_RD_STALL" (BIT 6);
   mkField "C2H_MM_RRQ_FIFO_FI" (BIT 5); mkField "C2H_MM_WR_STALL" (BIT 4);
   mkField "C2H_MM_WRQ_FIFO_FI" (BIT 3); mkField "C2H_MM_WBK_STALL" (BIT 2);
   mkField "C2H_MM_DSC_FIFO_EP" (BIT 1); mkField "C2H_MM_DSC_FIFO_FL" (BIT 0)].

Definition h2c_mm_ctl_field_info : list regfield_info :=
  [mkField "H2C_MM_CTL_RESERVED1" (GENMASK 31 9); mkField "H2C_MM_CTL_ERRC_EN" (BIT 8);
   mkField "H2C_MM_CTL_RESERVED0" (GENMASK 7 1); mkField "H2C_MM_CTL_RUN" (BIT 0)].

Definition h2c_mm_status_field_info : list regfield_info :=
  [mkField "H2C_MM_STATUS_RSVD_1" (GENMASK 31 1); mkField "H2C_MM_STATUS_RUN" (BIT 0)].

Definition h2c_mm_cmpl_desc_cnt_field_info : list regfield_info :=
  [mkField "H2C_MM_CMPL_DESC_CNT_H2C_CO" (GENMASK 31 0)].

Definition h2c_mm_err_code_enable_mask_field_info : list regfield_info :=
  [mkField "H2C_MM_ERR_CODE_ENABLE_RESERVED5" (GENMASK 31 30);
   mkField "H2C_MM_ERR_CODE_ENABLE_WR_SLV_ERR" (BIT 29); mkField "H2C_MM_ERR_CODE_ENABLE_WR_DEC_ERR" (BIT 28);
   mkField "H2C_MM_ERR_CODE_ENABLE_RESERVED4" (GENMASK 27 23);
   mkField "H2C_MM_ERR_CODE_ENABLE_RD_RQ_DIS_ERR" (BIT 22);
   mkField "H2C_MM_ERR_CODE_ENABLE_RESERVED3" (GENMASK 21 17);
   mkField "H2C_MM_ERR_CODE_ENABLE_RD_DAT_POISON_ERR" (BIT 16);
   mkField "H2C_MM_ERR_CODE_ENABLE_RESERVED2" (GENMASK 15 9);
   mkField "H2C_MM_ERR_CODE_ENABLE_RD_FLR_ERR" (BIT 8);
   mkField "H2C_MM_ERR_CODE_ENABLE_RESERVED1" (GENMASK 7 6);
   mkField "H2C_MM_ERR_CODE_ENABLE_RD_HDR_ADR_ERR" (BIT 5);
   mkField "H2C_MM_ERR_CODE_ENABLE_RD_HDR_PARA" (BIT 4);
   mkField "H2C_MM_ERR_CODE_ENABLE_RD_HDR_BYTE_ERR" (BIT 3); mkField "H2C_MM_ERR_CODE_ENABLE_RD_UR_CA" (BIT 2);
   mkField "H2C_MM_ERR_CODE_ENABLE_RD_HRD_POISON_ERR" (BIT 1);
   mkField "H2C_MM_ERR_CODE_ENABLE_RESERVED0" (BIT 0)].

Definition h2c_mm_err_code_field_info : list regfield_info :=
  [mkField "H2C_MM_ERR_CODE_RSVD_1" (GENMASK 31 28); mkField "H2C_MM_ERR_CODE_CIDX" (GENMASK 27 12);
   mkField "H2C_MM_ERR_CODE_RESERVED0" (GENMASK 11 10); mkField "H2C_MM_ERR_CODE_SUB_TYPE" (GENMASK 9 5);
   mkField "H2C_MM_ERR_CODE" (GENMASK 4 0)].

Definition h2c_mm_err_info_field_info : list regfield_info :=
  [mkField "H2C_MM_ERR_INFO_VALID" (BIT 31); mkField "H2C_MM_ERR_INFO_SEL" (BIT 30);
   mkField "H2C_MM_ERR_INFO_RSVD_1" (GENMASK 29 24); mkField "H2C_MM_ERR_INFO_QID" (GENMASK 23 0)].

Definition h2c_mm_perf_mon_ctl_field_info : list regfield_info :=
  [mkField "H2C_MM_PERF_MON_CTL_RSVD_1" (GENMASK 31 4); mkField "H2C_MM_PERF_MON_CTL_IMM_START" (BIT 3);
   mkField "H2C_MM_PERF_MON_CTL_RUN_START" (BIT 2); mkField "H2C_MM_PERF_MON_CTL_IMM_CLEAR" (BIT 1);
   mkField "H2C_MM_PERF_MON_CTL_RUN_CLEAR" (BIT 0)].

Definition h2c_mm_perf_mon_cycle_cnt0_field_info : list regfield_info :=
  [mkField "H2C_MM_PERF_MON_CYCLE_CNT0_CYC_CNT" (GENMASK 31 0)].

Definition h2c_mm_perf_mon_cycle_cnt1_field_info : list regfield_info :=
  [mkField "H2C_MM_PERF_MON_CYCLE_CNT1_RSVD_1" (GENMASK 31 10);
   mkField "H2C_MM_PERF_MON_CYCLE_CNT1_CYC_CNT" (GENMASK 9 0)].

Definition h2c_mm_perf_mon_data_cnt0_field_info : list regfield_info :=
  [mkField "H2C_MM_PERF_MON_DATA_CNT0_DCNT" (GENMASK 31 0)].

Definition h2c_mm_perf_mon_data_cnt1_field_info : list regfield_info :=
  [mkField "H2C_MM_PERF_MON_DATA_CNT1_RSVD_1" (GENMASK 31 10);
   mkField "H2C_MM_PERF_MON_DATA_CNT1_DCNT" (GENMASK 9 0)].

Definition h2c_mm_dbg_field_info : list regfield_info :=
  [mkField "H2C_MM_RSVD_1" (GENMASK 31 24); mkField "H2C_MM_RRQ_ENTRIES" (GENMASK 23 17);
   mkField "H2C_MM_DAT_FIFO_SPC" (GENMASK 16 7); mkField "H2C_MM_RD_STALL" (BIT 6);
   mkField "H2C_MM_RRQ_FIFO_FI" (BIT 5); mkField "H2C_MM_WR_STALL" (BIT 4);
   mkField "H2C_MM_WRQ_FIFO_FI" (BIT 3); mkField "H2C_MM_WBK_STALL" (BIT 2);
   mkField "H2C_MM_DSC_FIFO_EP" (BIT 1); mkField "H2C_MM_DSC_FIFO_FL" (BIT 0)].

Definition h2c_mm_data_throttle_field_info : list regfield_info :=
  [mkField "H2C_MM_DATA_THROTTLE_RSVD_1" (GENMASK 31 17); mkField "H2C_MM_DATA_THROTTLE_DAT_EN" (BIT 16);
   mkField "H2C_MM_DATA_THROTTLE_DAT" (GENMASK 15 0)].

Definition c2h_crdt_coal_cfg_1_field_info : list regfield_info :=
  [mkField "C2H_CRDT_COAL_CFG_1_RSVD_1" (GENMASK 31 18);
   mkField "C2H_CRDT_COAL_CFG_1_PLD_FIFO_TH" (GENMASK 17 10);
   mkField "C2H_CRDT_COAL_CFG_1_TIMER_TH" (GENMASK 9 0)].

Definition c2h_crdt_coal_cfg_2_field_info : list regfield_info :=
  [mkField "C2H_CRDT_COAL_CFG_2_RSVD_1" (GENMASK 31 24); mkField "C2H_CRDT_COAL_CFG_2_FIFO_TH" (GENMASK 23 16);
   mkField "C2H_CRDT_COAL_CFG_2_RESERVED1" (GENMASK 15 11);
   mkField "C2H_CRDT_COAL_CFG_2_NT_TH" (GENMASK 10 0)].

Definition c2h_pfch_byp_qid_field_info : list regfield_info :=
  [mkField "C2H_PFCH_BYP_QID_RSVD_1" (GENMASK 31 12); mkField "C2H_PFCH_BYP_QID" (GENMASK 11 0)].

Definition c2h_pfch_byp_tag_field_info : list regfield_info :=
  [mkField "C2H_PFCH_BYP_TAG_RSVD_1" (GENMASK 31 20); mkField "C2H_PFCH_BYP_TAG_BYP_QID" (GENMASK 19 8);
   mkField "C2H_PFCH_BYP_TAG_RSVD_2" (BIT 7); mkField "C2H_PFCH_BYP_TAG" (GENMASK 6 0)].

Definition c2h_water_mark_field_info : list regfield_info :=
  [mkField "C2H_WATER_MARK_HIGH_WM" (GENMASK 31 16); mkField "C2H_WATER_MARK_LOW_WM" (GENMASK 15 0)].

Definition c2h_notify_empty_field_info : list regfield_info :=
  [mkField "C2H_NOTIFY_EMPTY_RSVD_1" (GENMASK 31 16); mkField "C2H_NOTIFY_EMPTY_NOE" (GENMASK 15 0)].

Definition c2h_stat_s_axis_c2h_accepted_1_field_info : list regfield_info :=
  [mkField "C2H_STAT_S_AXIS_C2H_ACCEPTED_1" (GENMASK 31 0)].

Definition c2h_stat_s_axis_wrb_accepted_1_field_info : list regfield_info :=
  [mkField "C2H_STAT_S_AXIS_WRB_ACCEPTED_1" (GENMASK 31 0)].

Definition c2h_stat_desc_rsp_pkt_accepted_1_field_info : list regfield_info :=
  [mkField "C2H_STAT_DESC_RSP_PKT_ACCEPTED_1_D" (GENMASK 31 0)].

Definition c2h_stat_axis_pkg_cmp_1_field_info : list regfield_info :=
  [mkField "C2H_STAT_AXIS_PKG_CMP_1" (GENMASK 31 0)].

Definition c2h_stat_s_axis_wrb_accepted_2_field_info : list regfield_info :=
  [mkField "C2H_STAT_S_AXIS_WRB_ACCEPTED_2" (GENMASK 31 0)].

Definition c2h_st_pld_fifo_depth_field_info : list regfield_info :=
  [mkField "C2H_ST_PLD_FIFO_DEPTH" (GENMASK 31 0)].

Definition c2h_stat_dbg_dma_eng_6_field_info : list regfield_info :=
  [mkField "C2H_STAT_DMA_ENG_6_RSVD" (GENMASK 31 29);
   mkField "C2H_STAT_DMA_ENG_6_PLD_ST_FIFO_OUT_DATA_QID" (GENMASK 28 17);
   mkField "C2H_STAT_DMA_ENG_6_PLD_STS_FIFO_OUT_DATA_PLD_ST_PKT_ID" (GENMASK 16 1);
   mkField "C2H_STAT_DMA_ENG_6_PLD_PKT_ID_LARGER_PLD_ST" (BIT 0)].

Definition c2h_stat_dbg_dma_eng_7_field_info : list regfield_info :=
  [mkField "C2H_STAT_DMA_ENG_7_RSVD" (GENMASK 31 29);
   mkField "C2H_STAT_DMA_ENG_7_PLD_ST_FIFO_OUT_DATA_QID_1" (GENMASK 28 17);
   mkField "C2H_STAT_DMA_ENG_7_PLD_STS_FIFO_OUT_DATA_PLD_ST_PKT_ID_1" (GENMASK 16 1);
   mkField "C2H_STAT_DMA_ENG_7_PLD_PKT_ID_LARGER_PLD_ST_1" (BIT 0)].

Definition c2h_stat_pcie_cmp_1_field_info : list regfield_info :=
  [mkField "C2H_STAT_PCIE_CMP_1_DEPTH" (GENMASK 31 0)].

Definition c2h_pld_fifo_almost_full_field_info : list regfield_info :=
  [mkField "C2H_PLD_FIFO_ALMOST_FULL_ENABLE" (BIT 31); mkField "C2H_PLD_FIFO_ALMOST_FULL_TH" (GENMASK 30 0)].

Definition pfch_cfg_3_field_info : list regfield_info :=
  [mkField "PFCH_CFG_3_RSVD" (GENMASK 31 16); mkField "PFCH_CFG_3_VAR_DESC_FL_FREE_CNT_TH" (GENMASK 15 7);
   mkField "PFCH_CFG_3_VAR_DESC_LG_PKT_CAM_CN_TH" (GENMASK 6 0)].

Definition cmpt_cfg_0_field_info : list regfield_info :=
  [mkField "CMPT_CFG_0_RSVD" (GENMASK 31 2); mkField "CMPT_CFG_0_VIO_SPRS_INT_AFTER_RTY" (BIT 1);
   mkField "CMPT_CFG_0_VIO_EVNT_SUP_EN" (BIT 0)].

Definition pfch_cfg_4_field_info : list regfield_info :=
  [mkField "PFCH_CFG_4_GLB_EVT_TIMER_TICK" (GENMASK 31 17);
   mkField "PFCH_CFG_4_DISABLE_GLB_EVT_TIMER" (BIT 16); mkField "PFCH_CFG_4_EVT_TIMER_TICK" (GENMASK 15 1);
   mkField "PFCH_CFG_4_DISABLE_EVT_TIMER" (BIT 0)].

(** ** Registers *)
Definition eqdma_config_regs_0 : list xreg_info := [
  mkReg "CFG_BLK_IDENTIFIER" 0x00 1 0 0 0 0 QDMA_MM_ST_MODE QDMA_REG_READ_PF_ONLY
    (ARRAY_SIZE cfg_blk_identifier_field_info) cfg_blk_identifier_field_info;
  mkReg "CFG_BLK_PCIE_MAX_PLD_SIZE" 0x08 1 0 0 0 0 QDMA_MM_ST_MODE QDMA_REG_READ_PF_ONLY
    (ARRAY_SIZE cfg_blk_pcie_max_pld_size_field_info) cfg_blk_pcie_max_pld_size_field_info;
  mkReg "CFG_BLK_PCIE_MAX_READ_REQ_SIZE" 0x0c 1 0 0 0 0 QDMA_MM_ST_MODE QDMA_REG_READ_PF_ONLY
    (ARRAY_SIZE cfg_blk_pcie_max_read_req_size_field_info) cfg_blk_pcie_max_read_req_size_field_info;
  mkReg "CFG_BLK_SYSTEM_ID" 0x10 1 0 0 0 0 QDMA_MM_ST_MODE QDMA_REG_READ_PF_ONLY
    (ARRAY_SIZE cfg_blk_system_id_field_info) cfg_blk_system_id_field_info;
  mkReg "CFG_BLK_MSIX_ENABLE" 0x014 1 0 0 0 0 QDMA_MM_ST_MODE QDMA_REG_READ_PF_ONLY
    (ARRAY_SIZE cfg_blk_msix_enable_field_info) cfg_blk_msix_enable_field_info;
  mkReg "CFG_PCIE_DATA_WIDTH" 0x18 1 0 0 0 0 QDMA_MM_ST_MODE QDMA_REG_READ_PF_ONLY
    (ARRAY_SIZE cfg_pcie_data_width_field_info) cfg_pcie_data_width_field_info;
  mkReg "CFG_PCIE_CTL" 0x1c 1 0 0 0 0 QDMA_MM_ST_MODE QDMA_REG_READ_PF_ONLY
    (ARRAY_SIZE cfg_pcie_ctl_field_info) cfg_pcie_ctl_field_info;
  mkReg "CFG_BLK_MSI_ENABLE" 0x20 1 0 0 0 0 QDMA_MM_ST_MODE QDMA_REG_READ_PF_ONLY
    (ARRAY_SIZE cfg_blk_msi_enable_field_info) cfg_blk_msi_enable_field_info;
  mkReg "CFG_AXI_USER_MAX_PLD_SIZE" 0x40 1 0 0 0 0 QDMA_MM_ST_MODE QDMA_REG_READ_PF_ONLY
    (ARRAY_SIZE cfg_axi_user_max_pld_size_field_info) cfg_axi_user_max_pld_size_field_info;
  mkReg "CFG_AXI_USER_MAX_READ_REQ_SIZE" 0x44 1 0 0 0 0 QDMA_MM_ST_MODE QDMA_REG_READ_PF_ONLY
    (ARRAY_SIZE cfg_axi_user_max_read_req_size_field_info) cfg_axi_user_max_read_req_size_field_info;
  mkReg "CFG_BLK_MISC_CTL" 0x4c 1 0 0 0 0 QDMA_MM_ST_MODE QDMA_REG_READ_PF_ONLY
    (ARRAY_SIZE cfg_blk_misc_ctl_field_info) cfg_blk_misc_ctl_field_info;
  mkReg "CFG_PL_CRED_CTL" 0x68 1 0 0 0 0 QDMA_MM_ST_MODE QDMA_REG_READ_PF_ONLY
    (ARRAY_SIZE cfg_pl_cred_ctl_field_info) cfg_pl_cred_ctl_field_info;
  mkReg "CFG_BLK_SCRATCH" 0x80 1 0 0 0 0 QDMA_MM_ST_MODE QDMA_REG_READ_PF_ONLY
    (ARRAY_SIZE cfg_blk_scratch_field_info) cfg_blk_scratch_field_info;
  mkReg "CFG_GIC" 0xa0 1 0 0 0 0 QDMA_MM_ST_MODE QDMA_REG_READ_PF_ONLY
    (ARRAY_SIZE cfg_gic_field_info) cfg_gic_field_info;
  mkReg "RAM_SBE_MSK_1_A" 0xe0 1 0 0 0 0 QDMA_MM_ST_MODE QDMA_REG_READ_PF_ONLY
    (ARRAY_SIZE ram_sbe_msk_1_a_field_info) ram_sbe_msk_1_a_field_info;
  mkReg "RAM_SBE_STS_1_A" 0xe4 1 0 0 0 0 QDMA_MM_ST_MODE QDMA_REG_READ_PF_ONLY
    (ARRAY_SIZE ram_sbe_sts_1_a_field_info) ram_sbe_sts_1_a_field_info;
  mkReg "RAM_DBE_MSK_1_A" 0xe8 1 0 0 0 0 QDMA_MM_ST_MODE QDMA_REG_READ_PF_ONLY
    (ARRAY_SIZE ram_dbe_msk_1_a_field_info) ram_dbe_msk_1_a_field_info;
  mkReg "RAM_DBE_STS_1_A" 0xec 1 0 0 0 0 QDMA_MM_ST_MODE QDMA_REG_READ_PF_ONLY
    (ARRAY_SIZE ram_dbe_sts_1_a_field_info) ram_dbe_sts_1_a_field_info;
  mkReg "RAM_SBE_MSK_A" 0xf0 1 0 0 0 0 QDMA_MM_ST_MODE QDMA_REG_READ_PF_ONLY
    (ARRAY_SIZE ram_sbe_msk_a_field_info) ram_sbe_msk_a_field_info;
  mkReg "RAM_SBE_STS_A" 0xf4 1 0 0 0 0 QDMA_MM_ST_MODE QDMA_REG_READ_PF_ONLY
    (ARRAY_SIZE ram_sbe_sts_a_field_info) ram_sbe_sts_a_field_info;
  mkReg "RAM_DBE_MSK_A" 0xf8 1 0 0 0 0 QDMA_MM_ST_MODE QDMA_REG_READ_PF_ONLY
    (ARRAY_SIZE ram_dbe_msk_a_field_info) ram_dbe_msk_a_field_info;
  mkReg "RAM_DBE_STS_A" 0xfc 1 0 0 0 0 QDMA_MM_ST_MODE QDMA_REG_READ_PF_ONLY
    (ARRAY_SIZE ram_dbe_sts_a_field_info) ram_dbe_sts_a_field_info;
  mkReg "GLBL2_IDENTIFIER" 0x100 1 0 0 0 0 QDMA_MM_ST_MODE QDMA_REG_READ_PF_ONLY
    (ARRAY_SIZE glbl2_identifier_field_info) glbl2_identifier_field_info;
  mkReg "GLBL2_CHANNEL_INST" 0x114 1 0 0 0 0 QDMA_MM_ST_MODE QDMA_REG_READ_PF_ONLY
    (ARRAY_SIZE glbl2_channel_inst_field_info) glbl2_channel_inst_field_info].

Definition eqdma_config_regs_1 : list xreg_info := [
  mkReg "GLBL2_CHANNEL_MDMA" 0x118 1 0 0 0 0 QDMA_MM_ST_MODE QDMA_REG_READ_PF_ONLY
    (ARRAY_SIZE glbl2_channel_mdma_field_info) glbl2_channel_mdma_field_info;
  mkReg "GLBL2_CHANNEL_STRM" 0x11c 1 0 0 0 0 QDMA_MM_ST_MODE QDMA_REG_READ_PF_ONLY
    (ARRAY_SIZE glbl2_channel_strm_field_info) glbl2_channel_strm_field_info;
  mkReg "GLBL2_CHANNEL_CAP" 0x120 1 0 0 0 0 QDMA_MM_ST_MODE QDMA_REG_READ_PF_ONLY
    (ARRAY_SIZE glbl2_channel_cap_field_info) glbl2_channel_cap_field_info;
  mkReg "GLBL2_CHANNEL_PASID_CAP" 0x128 1 0 0 0 0 QDMA_MM_ST_MODE QDMA_REG_READ_PF_ONLY
    (ARRAY_SIZE glbl2_channel_pasid_cap_field_info) glbl2_channel_pasid_cap_field_info;
  mkReg "GLBL2_SYSTEM_ID" 0x130 1 0 0 0 0 QDMA_MM_ST_MODE QDMA_REG_READ_PF_ONLY
    (ARRAY_SIZE glbl2_system_id_field_info) glbl2_system_id_field_info;
  mkReg "GLBL2_MISC_CAP" 0x134 1 0 0 0 0 QDMA_MM_ST_MODE QDMA_REG_READ_PF_ONLY
    (ARRAY_SIZE glbl2_misc_cap_field_info) glbl2_misc_cap_field_info;
  mkReg "GLBL2_RRQ_BRG_THROT" 0x158 1 0 0 0 0 QDMA_MM_ST_MODE QDMA_REG_READ_PF_ONLY
    (ARRAY_SIZE glbl2_rrq_brg_throt_field_info) glbl2_rrq_brg_throt_field_info;
  mkReg "GLBL2_RRQ_PCIE_THROT" 0x15c 1 0 0 0 0 QDMA_MM_ST_MODE QDMA_REG_READ_PF_ONLY
    (ARRAY_SIZE glbl2_rrq_pcie_throt_field_info) glbl2_rrq_pcie_throt_field_info;
  mkReg "GLBL2_RRQ_AXIMM_THROT" 0x160 1 0 0 0 0 QDMA_MM_ST_MODE QDMA_REG_READ_PF_ONLY
    (ARRAY_SIZE glbl2_rrq_aximm_throt_field_info) glbl2_rrq_aximm_throt_field_info;
  mkReg "GLBL2_RRQ_PCIE_LAT0" 0x164 1 0 0 0 0 QDMA_MM_ST_MODE QDMA_REG_READ_PF_ONLY
    (ARRAY_SIZE glbl2_rrq_pcie_lat0_field_info) glbl2_rrq_pcie_lat0_field_info;
  mkReg "GLBL2_RRQ_PCIE_LAT1" 0x168 1 0 0 0 0 QDMA_MM_ST_MODE QDMA_REG_READ_PF_ONLY
    (ARRAY_SIZE glbl2_rrq_pcie_lat1_field_info) glbl2_rrq_pcie_lat1_field_info;
  mkReg "GLBL2_RRQ_AXIMM_LAT0" 0x16c 1 0 0 0 0 QDMA_MM_ST_MODE QDMA_REG_READ_PF_ONLY
    (ARRAY_SIZE glbl2_rrq_aximm_lat0_field_info) glbl2_rrq_aximm_lat0_field_info;
  mkReg "GLBL2_RRQ_AXIMM_LAT1" 0x170 1 0 0 0 0 QDMA_MM_ST_MODE QDMA_REG_READ_PF_ONLY
    (ARRAY_SIZE glbl2_rrq_aximm_lat1_field_info) glbl2_rrq_aximm_lat1_field_info;
  mkReg "GLBL2_DBG_PCIE_RQ0" 0x1b8 1 0 0 0 0 QDMA_MM_ST_MODE QDMA_REG_READ_PF_ONLY
    (ARRAY_SIZE glbl2_dbg_pcie_rq0_field_info) glbl2_dbg_pcie_rq0_field_info;
  mkReg "GLBL2_DBG_PCIE_RQ1" 0x1bc 1 0 0 0 0 QDMA_MM_ST_MODE QDMA_REG_READ_PF_ONLY
    (ARRAY_SIZE glbl2_dbg_pcie_rq1_field_info) glbl2_dbg_pcie_rq1_field_info;
  mkReg "GLBL2_DBG_AXIMM_WR0" 0x1c0 1 0 0 0 0 QDMA_MM_ST_MODE QDMA_REG_READ_PF_ONLY
    (ARRAY_SIZE glbl2_dbg_aximm_wr0_field_info) glbl2_dbg_aximm_wr0_field_info;
  mkReg "GLBL2_DBG_AXIMM_WR1" 0x1c4 1 0 0 0 0 QDMA_MM_ST_MODE QDMA_REG_READ_PF_ONLY
    (ARRAY_SIZE glbl2_dbg_aximm_wr1_field_info) glbl2_dbg_aximm_wr1_field_info;
  mkReg "GLBL2_DBG_AXIMM_RD0" 0x1c8 1 0 0 0 0 QDMA_MM_ST_MODE QDMA_REG_READ_PF_ONLY
    (ARRAY_SIZE glbl2_dbg_aximm_rd0_field_info) glbl2_dbg_aximm_rd0_field_info;
  mkReg "GLBL2_DBG_AXIMM_RD1" 0x1cc 1 0 0 0 0 QDMA_MM_ST_MODE QDMA_REG_READ_PF_ONLY
    (ARRAY_SIZE glbl2_dbg_aximm_rd1_field_info) glbl2_dbg_aximm_rd1_field_info;
  mkReg "GLBL2_DBG_FAB0" 0x1d0 1 0 0 0 0 QDMA_MM_ST_MODE QDMA_REG_READ_PF_ONLY
    (ARRAY_SIZE glbl2_dbg_fab0_field_info) glbl2_dbg_fab0_field_info;
  mkReg "GLBL2_DBG_FAB1" 0x1d4 1 0 0 0 0 QDMA_MM_ST_MODE QDMA_REG_READ_PF_ONLY
    (ARRAY_SIZE glbl2_dbg_fab1_field_info) glbl2_dbg_fab1_field_info;
  mkReg "GLBL2_DBG_MATCH_SEL" 0x1f4 1 0 0 0 0 QDMA_MM_ST_MODE QDMA_REG_READ_PF_ONLY
    (ARRAY_SIZE glbl2_dbg_match_sel_field_info) glbl2_dbg_match_sel_field_info;
  mkReg "GLBL2_DBG_MATCH_MSK" 0x1f8 1 0 0 0 0 QDMA_MM_ST_MODE QDMA_REG_READ_PF_ONLY
    (ARRAY_SIZE glbl2_dbg_match_msk_field_info) glbl2_dbg_match_msk_field_info;
  mkReg "GLBL2_DBG_MATCH_PAT" 0x1fc 1 0 0 0 0 QDMA_MM_ST_MODE QDMA_REG_READ_PF_ONLY
    (ARRAY_SIZE glbl2_dbg_match_pat_field_info) glbl2_dbg_match_pat_field_info].

Definition eqdma_config_regs_2 : list xreg_info := [
  mkReg "GLBL_RNG_SZ_1" 0x204 1 0 0 0 0 QDMA_MM_ST_MODE QDMA_REG_READ_PF_VF
    (ARRAY_SIZE glbl_rng_sz_1_field_info) glbl_rng_sz_1_field_info;
  mkReg "GLBL_RNG_SZ_2" 0x208 1 0 0 0 0 QDMA_MM_ST_MODE QDMA_REG_READ_PF_VF
    (ARRAY_SIZE glbl_rng_sz_2_field_info) glbl_rng_sz_2_field_info;
  mkReg "GLBL_RNG_SZ_3" 0x20c 1 0 0 0 0 QDMA_MM_ST_MODE QDMA_REG_READ_PF_VF
    (ARRAY_SIZE glbl_rng_sz_3_field_info) glbl_rng_sz_3_field_info;
  mkReg "GLBL_RNG_SZ_4" 0x210 1 0 0 0 0 QDMA_MM_ST_MODE QDMA_REG_READ_PF_VF
    (ARRAY_SIZE glbl_rng_sz_4_field_info) glbl_rng_sz_4_field_info;
  mkReg "GLBL_RNG_SZ_5" 0x214 1 0 0 0 0 QDMA_MM_ST_MODE QDMA_REG_READ_PF_VF
    (ARRAY_SIZE glbl_rng_sz_5_field_info) glbl_rng_sz_5_field_info;
  mkReg "GLBL_RNG_SZ_6" 0x218 1 0 0 0 0 QDMA_MM_ST_MODE QDMA_REG_READ_PF_VF
    (ARRAY_SIZE glbl_rng_sz_6_field_info) glbl_rng_sz_6_field_info;
  mkReg "GLBL_RNG_SZ_7" 0x21c 1 0 0 0 0 QDMA_MM_ST_MODE QDMA_REG_READ_PF_VF
    (ARRAY_SIZE glbl_rng_sz_7_field_info) glbl_rng_sz_7_field_info;
  mkReg "GLBL_RNG_SZ_8" 0x220 1 0 0 0 0 QDMA_MM_ST_MODE QDMA_REG_READ_PF_VF
    (ARRAY_SIZE glbl_rng_sz_8_field_info) glbl_rng_sz_8_field_info;
  mkReg "GLBL_RNG_SZ_9" 0x224 1 0 0 0 0 QDMA_MM_ST_MODE QDMA_REG_READ_PF_VF
    (ARRAY_SIZE glbl_rng_sz_9_field_info) glbl_rng_sz_9_field_info;
  mkReg "GLBL_RNG_SZ_A" 0x228 1 0 0 0 0 QDMA_MM_ST_MODE QDMA_REG_READ_PF_VF
    (ARRAY_SIZE glbl_rng_sz_a_field_info) glbl_rng_sz_a_field_info;
  mkReg "GLBL_RNG_SZ_B" 0x22c 1 0 0 0 0 QDMA_MM_ST_MODE QDMA_REG_READ_PF_VF
    (ARRAY_SIZE glbl_rng_sz_b_field_info) glbl_rng_sz_b_field_info;
  mkReg "GLBL_RNG_SZ_C" 0x230 1 0 0 0 0 QDMA_MM_ST_MODE QDMA_REG_READ_PF_VF
    (ARRAY_SIZE glbl_rng_sz_c_field_info) glbl_rng_sz_c_field_info;
  mkReg "GLBL_RNG_SZ_D" 0x234 1 0 0 0 0 QDMA_MM_ST_MODE QDMA_REG_READ_PF_VF
    (ARRAY_SIZE glbl_rng_sz_d_field_info) glbl_rng_sz_d_field_info;
  mkReg "GLBL_RNG_SZ_E" 0x238 1 0 0 0 0 QDMA_MM_ST_MODE QDMA_REG_READ_PF_VF
    (ARRAY_SIZE glbl_rng_sz_e_field_info) glbl_rng_sz_e_field_info;
  mkReg "GLBL_RNG_SZ_F" 0x23c 1 0 0 0 0 QDMA_MM_ST_MODE QDMA_REG_READ_PF_VF
    (ARRAY_SIZE glbl_rng_sz_f_field_info) glbl_rng_sz_f_field_info;
  mkReg "GLBL_RNG_SZ_10" 0x240 1 0 0 0 0 QDMA_MM_ST_MODE QDMA_REG_READ_PF_VF
    (ARRAY_SIZE glbl_rng_sz_10_field_info) glbl_rng_sz_10_field_info;
  mkReg "GLBL_ERR_STAT" 0x248 1 0 0 0 0 QDMA_MM_ST_MODE QDMA_REG_READ_PF_VF
    (ARRAY_SIZE glbl_err_stat_field_info) glbl_err_stat_field_info;
  mkReg "GLBL_ERR_MASK" 0x24c 1 0 0 0 0 QDMA_MM_ST_MODE QDMA_REG_READ_PF_VF
    (ARRAY_SIZE glbl_err_mask_field_info) glbl_err_mask_field_info;
  mkReg "GLBL_DSC_CFG" 0x250 1 0 0 0 0 QDMA_MM_ST_MODE QDMA_REG_READ_PF_VF
    (ARRAY_SIZE glbl_dsc_cfg_field_info) glbl_dsc_cfg_field_info;
  mkReg "GLBL_DSC_ERR_STS" 0x254 1 0 0 0 0 QDMA_MM_ST_MODE QDMA_REG_READ_PF_VF
    (ARRAY_SIZE glbl_dsc_err_sts_field_info) glbl_dsc_err_sts_field_info;
  mkReg "GLBL_DSC_ERR_MSK" 0x258 1 0 0 0 0 QDMA_MM_ST_MODE QDMA_REG_READ_PF_VF
    (ARRAY_SIZE glbl_dsc_err_msk_field_info) glbl_dsc_err_msk_field_info;
  mkReg "GLBL_DSC_ERR_LOG0" 0x25c 1 0 0 0 0 QDMA_MM_ST_MODE QDMA_REG_READ_PF_VF
    (ARRAY_SIZE glbl_dsc_err_log0_field_info) glbl_dsc_err_log0_field_info;
  mkReg "GLBL_DSC_ERR_LOG1" 0x260 1 0 0 0 0 QDMA_MM_ST_MODE QDMA_REG_READ_PF_VF
    (ARRAY_SIZE glbl_dsc_err_log1_field_info) glbl_dsc_err_log1_field_info;
  mkReg "GLBL_TRQ_ERR_STS" 0x264 1 0 0 0 0 QDMA_MM_ST_MODE QDMA_REG_READ_PF_VF
    (ARRAY_SIZE glbl_trq_err_sts_field_info) glbl_trq_err_sts_field_info].

Definition eqdma_config_regs_3 : list xreg_info := [
  mkReg "GLBL_TRQ_ERR_MSK" 0x268 1 0 0 0 0 QDMA_MM_ST_MODE QDMA_REG_READ_PF_VF
    (ARRAY_SIZE glbl_trq_err_msk_field_info) glbl_trq_err_msk_field_info;
  mkReg "GLBL_TRQ_ERR_LOG" 0x26c 1 0 0 0 0 QDMA_MM_ST_MODE QDMA_REG_READ_PF_VF
    (ARRAY_SIZE glbl_trq_err_log_field_info) glbl_trq_err_log_field_info;
  mkReg "GLBL_DSC_DBG_DAT0" 0x270 1 0 0 0 0 QDMA_MM_ST_MODE QDMA_REG_READ_PF_VF
    (ARRAY_SIZE glbl_dsc_dbg_dat0_field_info) glbl_dsc_dbg_dat0_field_info;
  mkReg "GLBL_DSC_DBG_DAT1" 0x274 1 0 0 0 0 QDMA_MM_ST_MODE QDMA_REG_READ_PF_VF
    (ARRAY_SIZE glbl_dsc_dbg_dat1_field_info) glbl_dsc_dbg_dat1_field_info;
  mkReg "GLBL_DSC_DBG_CTL" 0x278 1 0 0 0 0 QDMA_MM_ST_MODE QDMA_REG_READ_PF_VF
    (ARRAY_SIZE glbl_dsc_dbg_ctl_field_info) glbl_dsc_dbg_ctl_field_info;
  mkReg "GLBL_DSC_ERR_LOG2" 0x27c 1 0 0 0 0 QDMA_MM_ST_MODE QDMA_REG_READ_PF_VF
    (ARRAY_SIZE glbl_dsc_err_log2_field_info) glbl_dsc_err_log2_field_info;
  mkReg "GLBL_GLBL_INTERRUPT_CFG" 0x2c4 1 0 0 0 0 QDMA_MM_ST_MODE QDMA_REG_READ_PF_VF
    (ARRAY_SIZE glbl_glbl_interrupt_cfg_field_info) glbl_glbl_interrupt_cfg_field_info;
  mkReg "GLBL_VCH_HOST_PROFILE" 0x2c8 1 0 0 0 0 QDMA_MM_ST_MODE QDMA_REG_READ_PF_VF
    (ARRAY_SIZE glbl_vch_host_profile_field_info) glbl_vch_host_profile_field_info;
  mkReg "GLBL_BRIDGE_HOST_PROFILE" 0x308 1 0 0 0 0 QDMA_MM_ST_MODE QDMA_REG_READ_PF_VF
    (ARRAY_SIZE glbl_bridge_host_profile_field_info) glbl_bridge_host_profile_field_info;
  mkReg "AXIMM_IRQ_DEST_ADDR" 0x30c 1 0 0 0 0 QDMA_MM_ST_MODE QDMA_REG_READ_PF_VF
    (ARRAY_SIZE aximm_irq_dest_addr_field_info) aximm_irq_dest_addr_field_info;
  mkReg "FAB_ERR_LOG" 0x314 1 0 0 0 0 QDMA_MM_ST_MODE QDMA_REG_READ_PF_VF
    (ARRAY_SIZE fab_err_log_field_info) fab_err_log_field_info;
  mkReg "GLBL_REQ_ERR_STS" 0x318 1 0 0 0 0 QDMA_MM_ST_MODE QDMA_REG_READ_PF_ONLY
    (ARRAY_SIZE glbl_req_err_sts_field_info) glbl_req_err_sts_field_info;
  mkReg "GLBL_REQ_ERR_MSK" 0x31c 1 0 0 0 0 QDMA_MM_ST_MODE QDMA_REG_READ_PF_ONLY
    (ARRAY_SIZE glbl_req_err_msk_field_info) glbl_req_err_msk_field_info;
  mkReg "GLBL_DSC_DBG_LAT0_A" 0x320 1 0 0 0 0 QDMA_MM_ST_MODE QDMA_REG_READ_PF_ONLY
    (ARRAY_SIZE glbl_dsc_dbg_lat0_a_field_info) glbl_dsc_dbg_lat0_a_field_info;
  mkReg "GLBL_DSC_DBG_LAT1_A" 0x324 1 0 0 0 0 QDMA_MM_ST_MODE QDMA_REG_READ_PF_ONLY
    (ARRAY_SIZE glbl_dsc_dbg_lat1_a_field_info) glbl_dsc_dbg_lat1_a_field_info;
  mkReg "GLBL_DSC_CRD_CTR0_A" 0x328 1 0 0 0 0 QDMA_MM_ST_MODE QDMA_REG_READ_PF_ONLY
    (ARRAY_SIZE glbl_dsc_crd_ctr0_a_field_info) glbl_dsc_crd_ctr0_a_field_info;
  mkReg "GLBL_DSC_CRD_CTR1_A" 0x32c 1 0 0 0 0 QDMA_MM_ST_MODE QDMA_REG_READ_PF_ONLY
    (ARRAY_SIZE glbl_dsc_crd_ctr1_a_field_info) glbl_dsc_crd_ctr1_a_field_info;
  mkReg "GLBL_DSC_CRD_CTR2_A" 0x330 1 0 0 0 0 QDMA_MM_ST_MODE QDMA_REG_READ_PF_ONLY
    (ARRAY_SIZE glbl_dsc_crd_ctr2_a_field_info) glbl_dsc_crd_ctr2_a_field_info;
  mkReg "GLBL_DSC_CRD_CTR3_A" 0x334 1 0 0 0 0 QDMA_MM_ST_MODE QDMA_REG_READ_PF_ONLY
    (ARRAY_SIZE glbl_dsc_crd_ctr3_a_field_info) glbl_dsc_crd_ctr3_a_field_info;
  mkReg "GLBL_DSC_IMM_CRD_CTR0_A" 0x338 1 0 0 0 0 QDMA_MM_ST_MODE QDMA_REG_READ_PF_ONLY
    (ARRAY_SIZE glbl_dsc_imm_crd_ctr0_a_field_info) glbl_dsc_imm_crd_ctr0_a_field_info;
  mkReg "GLBL_DSC_IMM_CRD_CTR1_A" 0x33c 1 0 0 0 0 QDMA_MM_ST_MODE QDMA_REG_READ_PF_ONLY
    (ARRAY_SIZE glbl_dsc_imm_crd_ctr1_a_field_info) glbl_dsc_imm_crd_ctr1_a_field_info;
  mkReg "GLBL_DSC_IMM_CRD_CTR2_A" 0x340 1 0 0 0 0 QDMA_MM_ST_MODE QDMA_REG_READ_PF_ONLY
    (ARRAY_SIZE glbl_dsc_imm_crd_ctr2_a_field_info) glbl_dsc_imm_crd_ctr2_a_field_info;
  mkReg "GLBL_DSC_IMM_CRD_CTR3_A" 0x344 1 0 0 0 0 QDMA_MM_ST_MODE QDMA_REG_READ_PF_ONLY
    (ARRAY_SIZE glbl_dsc_imm_crd_ctr3_a_field_info) glbl_dsc_imm_crd_ctr3_a_field_info;
  mkReg "GLBL_DSC_H2C_OUT_CTR0_A" 0x348 1 0 0 0 0 QDMA_MM_ST_MODE QDMA_REG_READ_PF_ONLY
    (ARRAY_SIZE glbl_dsc_h2c_out_ctr0_a_field_info) glbl_dsc_h2c_out_ctr0_a_field_info].

Definition eqdma_config_regs_4 : list xreg_info := [
  mkReg "GLBL_DSC_H2C_OUT_CTR1_A" 0x34c 1 0 0 0 0 QDMA_MM_ST_MODE QDMA_REG_READ_PF_ONLY
    (ARRAY_SIZE glbl_dsc_h2c_out_ctr1_a_field_info) glbl_dsc_h2c_out_ctr1_a_field_info;
  mkReg "GLBL_DSC_H2C_OUT_CTR2_A" 0x350 1 0 0 0 0 QDMA_MM_ST_MODE QDMA_REG_READ_PF_ONLY
    (ARRAY_SIZE glbl_dsc_h2c_out_ctr2_a_field_info) glbl_dsc_h2c_out_ctr2_a_field_info;
  mkReg "GLBL_DSC_H2C_OUT_CTR3_A" 0x354 1 0 0 0 0 QDMA_MM_ST_MODE QDMA_REG_READ_PF_ONLY
    (ARRAY_SIZE glbl_dsc_h2c_out_ctr3_a_field_info) glbl_dsc_h2c_out_ctr3_a_field_info;
  mkReg "GLBL_DSC_C2H_OUT_CTR0_A" 0x358 1 0 0 0 0 QDMA_MM_ST_MODE QDMA_REG_READ_PF_ONLY
    (ARRAY_SIZE glbl_dsc_c2h_out_ctr0_a_field_info) glbl_dsc_c2h_out_ctr0_a_field_info;
  mkReg "GLBL_DSC_C2H_OUT_CTR1_A" 0x35c 1 0 0 0 0 QDMA_MM_ST_MODE QDMA_REG_READ_PF_ONLY
    (ARRAY_SIZE glbl_dsc_c2h_out_ctr1_a_field_info) glbl_dsc_c2h_out_ctr1_a_field_info;
  mkReg "GLBL_DSC_C2H_OUT_CTR2_A" 0x360 1 0 0 0 0 QDMA_MM_ST_MODE QDMA_REG_READ_PF_ONLY
    (ARRAY_SIZE glbl_dsc_c2h_out_ctr2_a_field_info) glbl_dsc_c2h_out_ctr2_a_field_info;
  mkReg "GLBL_DSC_C2H_OUT_CTR3_A" 0x364 1 0 0 0 0 QDMA_MM_ST_MODE QDMA_REG_READ_PF_ONLY
    (ARRAY_SIZE glbl_dsc_c2h_out_ctr3_a_field_info) glbl_dsc_c2h_out_ctr3_a_field_info;
  mkReg "T" 0x368 1 0 0 0 0 QDMA_MM_ST_MODE QDMA_REG_READ_PF_ONLY
    (ARRAY_SIZE t_field_info) t_field_info;
  mkReg "GLBL_PERF_CNTR_CTL_A1" 0x36c 1 0 0 0 0 QDMA_MM_ST_MODE QDMA_REG_READ_PF_ONLY
    (ARRAY_SIZE glbl_perf_cntr_ctl_a1_field_info) glbl_perf_cntr_ctl_a1_field_info;
  mkReg "GLBL_FREE_CNT_A0" 0x370 1 0 0 0 0 QDMA_MM_ST_MODE QDMA_REG_READ_PF_ONLY
    (ARRAY_SIZE glbl_free_cnt_a0_field_info) glbl_free_cnt_a0_field_info;
  mkReg "GLBL_FREE_CNT_A1" 0x374 1 0 0 0 0 QDMA_MM_ST_MODE QDMA_REG_READ_PF_ONLY
    (ARRAY_SIZE glbl_free_cnt_a1_field_info) glbl_free_cnt_a1_field_info;
  mkReg "GLBL_AXIS_H2C_CNT_A0" 0x378 1 0 0 0 0 QDMA_MM_ST_MODE QDMA_REG_READ_PF_ONLY
    (ARRAY_SIZE glbl_axis_h2c_cnt_a0_field_info) glbl_axis_h2c_cnt_a0_field_info;
  mkReg "GLBL_AXIS_H2C_CNT_A1" 0x37c 1 0 0 0 0 QDMA_MM_ST_MODE QDMA_REG_READ_PF_ONLY
    (ARRAY_SIZE glbl_axis_h2c_cnt_a1_field_info) glbl_axis_h2c_cnt_a1_field_info;
  mkReg "GLBL_AXIS_H2C_CNT_A2" 0x380 1 0 0 0 0 QDMA_MM_ST_MODE QDMA_REG_READ_PF_ONLY
    (ARRAY_SIZE glbl_axis_h2c_cnt_a2_field_info) glbl_axis_h2c_cnt_a2_field_info;
  mkReg "GLBL_AXIS_H2C_CNT_A3" 0x384 1 0 0 0 0 QDMA_MM_ST_MODE QDMA_REG_READ_PF_ONLY
    (ARRAY_SIZE glbl_axis_h2c_cnt_a3_field_info) glbl_axis_h2c_cnt_a3_field_info;
  mkReg "GLBL_AXIS_H2C_CNT_A4" 0x388 1 0 0 0 0 QDMA_MM_ST_MODE QDMA_REG_READ_PF_ONLY
    (ARRAY_SIZE glbl_axis_h2c_cnt_a4_field_info) glbl_axis_h2c_cnt_a4_field_info;
  mkReg "GLBL_AXIS_H2C_CNT_A5" 0x38c 1 0 0 0 0 QDMA_MM_ST_MODE QDMA_REG_READ_PF_ONLY
    (ARRAY_SIZE glbl_axis_h2c_cnt_a5_field_info) glbl_axis_h2c_cnt_a5_field_info;
  mkReg "GLBL_AXIS_C2H_CNT_A0" 0x390 1 0 0 0 0 QDMA_MM_ST_MODE QDMA_REG_READ_PF_ONLY
    (ARRAY_SIZE glbl_axis_c2h_cnt_a0_field_info) glbl_axis_c2h_cnt_a0_field_info;
  mkReg "GLBL_AXIS_C2H_CNT_A1" 0x394 1 0 0 0 0 QDMA_MM_ST_MODE QDMA_REG_READ_PF_ONLY
    (ARRAY_SIZE glbl_axis_c2h_cnt_a1_field_info) glbl_axis_c2h_cnt_a1_field_info;
  mkReg "GLBL_AXIS_C2H_CNT_A2" 0x398 1 0 0 0 0 QDMA_MM_ST_MODE QDMA_REG_READ_PF_ONLY
    (ARRAY_SIZE glbl_axis_c2h_cnt_a2_field_info) glbl_axis_c2h_cnt_a2_field_info;
  mkReg "GLBL_AXIS_C2H_CNT_A3" 0x39c 1 0 0 0 0 QDMA_MM_ST_MODE QDMA_REG_READ_PF_ONLY
    (ARRAY_SIZE glbl_axis_c2h_cnt_a3_field_info) glbl_axis_c2h_cnt_a3_field_info;
  mkReg "GLBL_AXIS_C2H_CNT_A4" 0x3a0 1 0 0 0 0 QDMA_MM_ST_MODE QDMA_REG_READ_PF_ONLY
    (ARRAY_SIZE glbl_axis_c2h_cnt_a4_field_info) glbl_axis_c2h_cnt_a4_field_info;
  mkReg "GLBL_AXIS_C2H_CNT_A5" 0x3a4 1 0 0 0 0 QDMA_MM_ST_MODE QDMA_REG_READ_PF_ONLY
    (ARRAY_SIZE glbl_axis_c2h_cnt_a5_field_info) glbl_axis_c2h_cnt_a5_field_info;
  mkReg "GLBL_M_AXI_WR_CNT_A0" 0x3a8 1 0 0 0 0 QDMA_MM_ST_MODE QDMA_REG_READ_PF_ONLY
    (ARRAY_SIZE glbl_m_axi_wr_cnt_a0_field_info) glbl_m_axi_wr_cnt_a0_field_info].

Definition eqdma_config_regs_5 : list xreg_info := [
  mkReg "GLBL_M_AXI_WR_CNT_A1" 0x3ac 1 0 0 0 0 QDMA_MM_ST_MODE QDMA_REG_READ_PF_ONLY
    (ARRAY_SIZE glbl_m_axi_wr_cnt_a1_field_info) glbl_m_axi_wr_cnt_a1_field_info;
  mkReg "GLBL_M_AXI_WR_CNT_A2" 0x3b0 1 0 0 0 0 QDMA_MM_ST_MODE QDMA_REG_READ_PF_ONLY
    (ARRAY_SIZE glbl_m_axi_wr_cnt_a2_field_info) glbl_m_axi_wr_cnt_a2_field_info;
  mkReg "GLBL_M_AXI_WR_CNT_A3" 0x3b4 1 0 0 0 0 QDMA_MM_ST_MODE QDMA_REG_READ_PF_ONLY
    (ARRAY_SIZE glbl_m_axi_wr_cnt_a3_field_info) glbl_m_axi_wr_cnt_a3_field_info;
  mkReg "GLBL_M_AXI_WR_CNT_A4" 0x3b8 1 0 0 0 0 QDMA_MM_ST_MODE QDMA_REG_READ_PF_ONLY
    (ARRAY_SIZE glbl_m_axi_wr_cnt_a4_field_info) glbl_m_axi_wr_cnt_a4_field_info;
  mkReg "GLBL_M_AXI_WR_CNT_A5" 0x3bc 1 0 0 0 0 QDMA_MM_ST_MODE QDMA_REG_READ_PF_ONLY
    (ARRAY_SIZE glbl_m_axi_wr_cnt_a5_field_info) glbl_m_axi_wr_cnt_a5_field_info;
  mkReg "GLBL_M_AXI_RD_CNT_A0" 0x3c0 1 0 0 0 0 QDMA_MM_ST_MODE QDMA_REG_READ_PF_ONLY
    (ARRAY_SIZE glbl_m_axi_rd_cnt_a0_field_info) glbl_m_axi_rd_cnt_a0_field_info;
  mkReg "GLBL_M_AXI_RD_CNT_A1" 0x3c4 1 0 0 0 0 QDMA_MM_ST_MODE QDMA_REG_READ_PF_ONLY
    (ARRAY_SIZE glbl_m_axi_rd_cnt_a1_field_info) glbl_m_axi_rd_cnt_a1_field_info;
  mkReg "GLBL_M_AXI_RD_CNT_A2" 0x3c8 1 0 0 0 0 QDMA_MM_ST_MODE QDMA_REG_READ_PF_ONLY
    (ARRAY_SIZE glbl_m_axi_rd_cnt_a2_field_info) glbl_m_axi_rd_cnt_a2_field_info;
  mkReg "GLBL_M_AXI_RD_CNT_A3" 0x3cc 1 0 0 0 0 QDMA_MM_ST_MODE QDMA_REG_READ_PF_ONLY
    (ARRAY_SIZE glbl_m_axi_rd_cnt_a3_field_info) glbl_m_axi_rd_cnt_a3_field_info;
  mkReg "GLBL_M_AXI_RD_CNT_A4" 0x3d0 1 0 0 0 0 QDMA_MM_ST_MODE QDMA_REG_READ_PF_ONLY
    (ARRAY_SIZE glbl_m_axi_rd_cnt_a4_field_info) glbl_m_axi_rd_cnt_a4_field_info;
  mkReg "GLBL_M_AXI_RD_CNT_A5" 0x3d4 1 0 0 0 0 QDMA_MM_ST_MODE QDMA_REG_READ_PF_ONLY
    (ARRAY_SIZE glbl_m_axi_rd_cnt_a5_field_info) glbl_m_axi_rd_cnt_a5_field_info;
  mkReg "GLBL_M_AXIB_WR_CNT_A0" 0x3d8 1 0 0 0 0 QDMA_MM_ST_MODE QDMA_REG_READ_PF_ONLY
    (ARRAY_SIZE glbl_m_axib_wr_cnt_a0_field_info) glbl_m_axib_wr_cnt_a0_field_info;
  mkReg "GLBL_M_AXIB_WR_CNT_A1" 0x3dc 1 0 0 0 0 QDMA_MM_ST_MODE QDMA_REG_READ_PF_ONLY
    (ARRAY_SIZE glbl_m_axib_wr_cnt_a1_field_info) glbl_m_axib_wr_cnt_a1_field_info;
  mkReg "GLBL_M_AXIB_WR_CNT_A2" 0x3e0 1 0 0 0 0 QDMA_MM_ST_MODE QDMA_REG_READ_PF_ONLY
    (ARRAY_SIZE glbl_m_axib_wr_cnt_a2_field_info) glbl_m_axib_wr_cnt_a2_field_info;
  mkReg "GLBL_M_AXIB_WR_CNT_A3" 0x3e4 1 0 0 0 0 QDMA_MM_ST_MODE QDMA_REG_READ_PF_ONLY
    (ARRAY_SIZE glbl_m_axib_wr_cnt_a3_field_info) glbl_m_axib_wr_cnt_a3_field_info;
  mkReg "GLBL_M_AXIB_WR_CNT_A4" 0x3e8 1 0 0 0 0 QDMA_MM_ST_MODE QDMA_REG_READ_PF_ONLY
    (ARRAY_SIZE glbl_m_axib_wr_cnt_a4_field_info) glbl_m_axib_wr_cnt_a4_field_info;
  mkReg "GLBL_M_AXIB_WR_CNT_A5" 0x3ec 1 0 0 0 0 QDMA_MM_ST_MODE QDMA_REG_READ_PF_ONLY
    (ARRAY_SIZE glbl_m_axib_wr_cnt_a5_field_info) glbl_m_axib_wr_cnt_a5_field_info;
  mkReg "GLBL_M_AXIB_RD_CNT_A0" 0x3f0 1 0 0 0 0 QDMA_MM_ST_MODE QDMA_REG_READ_PF_ONLY
    (ARRAY_SIZE glbl_m_axib_rd_cnt_a0_field_info) glbl_m_axib_rd_cnt_a0_field_info;
  mkReg "GLBL_M_AXIB_RD_CNT_A1" 0x3f4 1 0 0 0 0 QDMA_MM_ST_MODE QDMA_REG_READ_PF_ONLY
    (ARRAY_SIZE glbl_m_axib_rd_cnt_a1_field_info) glbl_m_axib_rd_cnt_a1_field_info;
  mkReg "GLBL_M_AXIB_RD_CNT_A2" 0x3f8 1 0 0 0 0 QDMA_MM_ST_MODE QDMA_REG_READ_PF_ONLY
    (ARRAY_SIZE glbl_m_axib_rd_cnt_a2_field_info) glbl_m_axib_rd_cnt_a2_field_info;
  mkReg "GLBL_M_AXIB_RD_CNT_A3" 0x3fc 1 0 0 0 0 QDMA_MM_ST_MODE QDMA_REG_READ_PF_ONLY
    (ARRAY_SIZE glbl_m_axib_rd_cnt_a3_field_info) glbl_m_axib_rd_cnt_a3_field_info;
  mkReg "GLBL_M_AXIB_RD_CNT_A4" 0x400 1 0 0 0 0 QDMA_MM_ST_MODE QDMA_REG_READ_PF_ONLY
    (ARRAY_SIZE glbl_m_axib_rd_cnt_a4_field_info) glbl_m_axib_rd_cnt_a4_field_info;
  mkReg "GLBL_M_AXIB_RD_CNT_A5" 0x404 1 0 0 0 0 QDMA_MM_ST_MODE QDMA_REG_READ_PF_ONLY
    (ARRAY_SIZE glbl_m_axib_rd_cnt_a5_field_info) glbl_m_axib_rd_cnt_a5_field_info;
  mkReg "GLBL_S_AXI_WR_CNT_A0" 0x408 1 0 0 0 0 QDMA_MM_ST_MODE QDMA_REG_READ_PF_ONLY
    (ARRAY_SIZE glbl_s_axi_wr_cnt_a0_field_info) glbl_s_axi_wr_cnt_a0_field_info].

Definition eqdma_config_regs_6 : list xreg_info := [
  mkReg "GLBL_S_AXI_WR_CNT_A1" 0x40c 1 0 0 0 0 QDMA_MM_ST_MODE QDMA_REG_READ_PF_ONLY
    (ARRAY_SIZE glbl_s_axi_wr_cnt_a1_field_info) glbl_s_axi_wr_cnt_a1_field_info;
  mkReg "GLBL_S_AXI_WR_CNT_A2" 0x410 1 0 0 0 0 QDMA_MM_ST_MODE QDMA_REG_READ_PF_ONLY
    (ARRAY_SIZE glbl_s_axi_wr_cnt_a2_field_info) glbl_s_axi_wr_cnt_a2_field_info;
  mkReg "GLBL_S_AXI_WR_CNT_A3" 0x414 1 0 0 0 0 QDMA_MM_ST_MODE QDMA_REG_READ_PF_ONLY
    (ARRAY_SIZE glbl_s_axi_wr_cnt_a3_field_info) glbl_s_axi_wr_cnt_a3_field_info;
  mkReg "GLBL_S_AXI_WR_CNT_A4" 0x418 1 0 0 0 0 QDMA_MM_ST_MODE QDMA_REG_READ_PF_ONLY
    (ARRAY_SIZE glbl_s_axi_wr_cnt_a4_field_info) glbl_s_axi_wr_cnt_a4_field_info;
  mkReg "GLBL_S_AXI_WR_CNT_A5" 0x41c 1 0 0 0 0 QDMA_MM_ST_MODE QDMA_REG_READ_PF_ONLY
    (ARRAY_SIZE glbl_s_axi_wr_cnt_a5_field_info) glbl_s_axi_wr_cnt_a5_field_info;
  mkReg "GLBL_S_AXI_RD_CNT_A0" 0x420 1 0 0 0 0 QDMA_MM_ST_MODE QDMA_REG_READ_PF_ONLY
    (ARRAY_SIZE glbl_s_axi_rd_cnt_a0_field_info) glbl_s_axi_rd_cnt_a0_field_info;
  mkReg "GLBL_S_AXI_RD_CNT_A1" 0x424 1 0 0 0 0 QDMA_MM_ST_MODE QDMA_REG_READ_PF_ONLY
    (ARRAY_SIZE glbl_s_axi_rd_cnt_a1_field_info) glbl_s_axi_rd_cnt_a1_field_info;
  mkReg "GLBL_S_AXI_RD_CNT_A2" 0x428 1 0 0 0 0 QDMA_MM_ST_MODE QDMA_REG_READ_PF_ONLY
    (ARRAY_SIZE glbl_s_axi_rd_cnt_a2_field_info) glbl_s_axi_rd_cnt_a2_field_info;
  mkReg "GLBL_S_AXI_RD_CNT_A3" 0x42c 1 0 0 0 0 QDMA_MM_ST_MODE QDMA_REG_READ_PF_ONLY
    (ARRAY_SIZE glbl_s_axi_rd_cnt_a3_field_info) glbl_s_axi_rd_cnt_a3_field_info;
  mkReg "GLBL_S_AXI_RD_CNT_A4" 0x430 1 0 0 0 0 QDMA_MM_ST_MODE QDMA_REG_READ_PF_ONLY
    (ARRAY_SIZE glbl_s_axi_rd_cnt_a4_field_info) glbl_s_axi_rd_cnt_a4_field_info;
  mkReg "GLBL_S_AXI_RD_CNT_A5" 0x434 1 0 0 0 0 QDMA_MM_ST_MODE QDMA_REG_READ_PF_ONLY
    (ARRAY_SIZE glbl_s_axi_rd_cnt_a5_field_info) glbl_s_axi_rd_cnt_a5_field_info;
  mkReg "GLBL_S_AXIS_CMP_CNT_A0" 0x438 1 0 0 0 0 QDMA_MM_ST_MODE QDMA_REG_READ_PF_ONLY
    (ARRAY_SIZE glbl_s_axis_cmp_cnt_a0_field_info) glbl_s_axis_cmp_cnt_a0_field_info;
  mkReg "GLBL_S_AXIS_CMP_CNT_A1" 0x43c 1 0 0 0 0 QDMA_MM_ST_MODE QDMA_REG_READ_PF_ONLY
    (ARRAY_SIZE glbl_s_axis_cmp_cnt_a1_field_info) glbl_s_axis_cmp_cnt_a1_field_info;
  mkReg "GLBL_S_AXIS_CMP_CNT_A2" 0x440 1 0 0 0 0 QDMA_MM_ST_MODE QDMA_REG_READ_PF_ONLY
    (ARRAY_SIZE glbl_s_axis_cmp_cnt_a2_field_info) glbl_s_axis_cmp_cnt_a2_field_info;
  mkReg "GLBL_S_AXIS_CMP_CNT_A3" 0x444 1 0 0 0 0 QDMA_MM_ST_MODE QDMA_REG_READ_PF_ONLY
    (ARRAY_SIZE glbl_s_axis_cmp_cnt_a3_field_info) glbl_s_axis_cmp_cnt_a3_field_info;
  mkReg "GLBL_S_AXIS_CMP_CNT_A4" 0x448 1 0 0 0 0 QDMA_MM_ST_MODE QDMA_REG_READ_PF_ONLY
    (ARRAY_SIZE glbl_s_axis_cmp_cnt_a4_field_info) glbl_s_axis_cmp_cnt_a4_field_info;
  mkReg "GLBL_S_AXIS_CMP_CNT_A5" 0x44c 1 0 0 0 0 QDMA_MM_ST_MODE QDMA_REG_READ_PF_ONLY
    (ARRAY_SIZE glbl_s_axis_cmp_cnt_a5_field_info) glbl_s_axis_cmp_cnt_a5_field_info;
  mkReg "IND_CTXT_DATA" 0x804 1 0 0 0 0 QDMA_MM_ST_MODE QDMA_REG_READ_PF_ONLY
    (ARRAY_SIZE ind_ctxt_data_field_info) ind_ctxt_data_field_info;
  mkReg "IND_CTXT_MASK" 0x824 1 0 0 0 0 QDMA_MM_ST_MODE QDMA_REG_READ_PF_ONLY
    (ARRAY_SIZE ind_ctxt_mask_field_info) ind_ctxt_mask_field_info;
  mkReg "IND_CTXT_CMD" 0x844 1 0 0 0 0 QDMA_MM_ST_MODE QDMA_REG_READ_PF_ONLY
    (ARRAY_SIZE ind_ctxt_cmd_field_info) ind_ctxt_cmd_field_info;
  mkReg "C2H_TIMER_CNT" 0xa00 1 0 0 0 0 QDMA_COMPLETION_MODE QDMA_REG_READ_PF_ONLY
    (ARRAY_SIZE c2h_timer_cnt_field_info) c2h_timer_cnt_field_info;
  mkReg "C2H_CNT_TH" 0xa40 1 0 0 0 0 QDMA_COMPLETION_MODE QDMA_REG_READ_PF_ONLY
    (ARRAY_SIZE c2h_cnt_th_field_info) c2h_cnt_th_field_info;
  mkReg "C2H_PFCH_CFG_1" 0xa80 1 0 0 0 0 QDMA_ST_MODE QDMA_REG_READ_PF_VF
    (ARRAY_SIZE c2h_pfch_cfg_1_field_info) c2h_pfch_cfg_1_field_info;
  mkReg "C2H_PFCH_CFG_2" 0xa84 1 0 0 0 0 QDMA_ST_MODE QDMA_REG_READ_PF_VF
    (ARRAY_SIZE c2h_pfch_cfg_2_field_info) c2h_pfch_cfg_2_field_info].

Definition eqdma_config_regs_7 : list xreg_info := [
  mkReg "C2H_STAT_S_AXIS_C2H_ACCEPTED" 0xa88 1 0 0 0 1 QDMA_ST_MODE QDMA_REG_READ_PF_VF
    (ARRAY_SIZE c2h_stat_s_axis_c2h_accepted_field_info) c2h_stat_s_axis_c2h_accepted_field_info;
  mkReg "C2H_STAT_S_AXIS_WRB_ACCEPTED" 0xa8c 1 0 0 0 1 QDMA_ST_MODE QDMA_REG_READ_PF_VF
    (ARRAY_SIZE c2h_stat_s_axis_wrb_accepted_field_info) c2h_stat_s_axis_wrb_accepted_field_info;
  mkReg "C2H_STAT_DESC_RSP_PKT_ACCEPTED" 0xa90 1 0 0 0 1 QDMA_ST_MODE QDMA_REG_READ_PF_VF
    (ARRAY_SIZE c2h_stat_desc_rsp_pkt_accepted_field_info) c2h_stat_desc_rsp_pkt_accepted_field_info;
  mkReg "C2H_STAT_AXIS_PKG_CMP" 0xa94 1 0 0 0 1 QDMA_ST_MODE QDMA_REG_READ_PF_VF
    (ARRAY_SIZE c2h_stat_axis_pkg_cmp_field_info) c2h_stat_axis_pkg_cmp_field_info;
  mkReg "C2H_STAT_DESC_RSP_ACCEPTED" 0xa98 1 0 0 0 1 QDMA_ST_MODE QDMA_REG_READ_PF_ONLY
    (ARRAY_SIZE c2h_stat_desc_rsp_accepted_field_info) c2h_stat_desc_rsp_accepted_field_info;
  mkReg "C2H_STAT_DESC_RSP_CMP" 0xa9c 1 0 0 0 1 QDMA_ST_MODE QDMA_REG_READ_PF_ONLY
    (ARRAY_SIZE c2h_stat_desc_rsp_cmp_field_info) c2h_stat_desc_rsp_cmp_field_info;
  mkReg "C2H_STAT_WRQ_OUT" 0xaa0 1 0 0 0 1 QDMA_ST_MODE QDMA_REG_READ_PF_ONLY
    (ARRAY_SIZE c2h_stat_wrq_out_field_info) c2h_stat_wrq_out_field_info;
  mkReg "C2H_STAT_WPL_REN_ACCEPTED" 0xaa4 1 0 0 0 1 QDMA_ST_MODE QDMA_REG_READ_PF_ONLY
    (ARRAY_SIZE c2h_stat_wpl_ren_accepted_field_info) c2h_stat_wpl_ren_accepted_field_info;
  mkReg "C2H_STAT_TOTAL_WRQ_LEN" 0xaa8 1 0 0 0 1 QDMA_ST_MODE QDMA_REG_READ_PF_ONLY
    (ARRAY_SIZE c2h_stat_total_wrq_len_field_info) c2h_stat_total_wrq_len_field_info;
  mkReg "C2H_STAT_TOTAL_WPL_LEN" 0xaac 1 0 0 0 1 QDMA_ST_MODE QDMA_REG_READ_PF_ONLY
    (ARRAY_SIZE c2h_stat_total_wpl_len_field_info) c2h_stat_total_wpl_len_field_info;
  mkReg "C2H_BUF_SZ" 0xab0 1 0 0 0 0 QDMA_ST_MODE QDMA_REG_READ_PF_ONLY
    (ARRAY_SIZE c2h_buf_sz_field_info) c2h_buf_sz_field_info;
  mkReg "C2H_ERR_STAT" 0xaf0 1 0 0 0 0 QDMA_ST_MODE QDMA_REG_READ_PF_VF
    (ARRAY_SIZE c2h_err_stat_field_info) c2h_err_stat_field_info;
  mkReg "C2H_ERR_MASK" 0xaf4 1 0 0 0 0 QDMA_ST_MODE QDMA_REG_READ_PF_VF
    (ARRAY_SIZE c2h_err_mask_field_info) c2h_err_mask_field_info;
  mkReg "C2H_FATAL_ERR_STAT" 0xaf8 1 0 0 0 0 QDMA_ST_MODE QDMA_REG_READ_PF_VF
    (ARRAY_SIZE c2h_fatal_err_stat_field_info) c2h_fatal_err_stat_field_info;
  mkReg "C2H_FATAL_ERR_MASK" 0xafc 1 0 0 0 0 QDMA_ST_MODE QDMA_REG_READ_PF_VF
    (ARRAY_SIZE c2h_fatal_err_mask_field_info) c2h_fatal_err_mask_field_info;
  mkReg "C2H_FATAL_ERR_ENABLE" 0xb00 1 0 0 0 0 QDMA_ST_MODE QDMA_REG_READ_PF_VF
    (ARRAY_SIZE c2h_fatal_err_enable_field_info) c2h_fatal_err_enable_field_info;
  mkReg "GLBL_ERR_INT" 0xb04 1 0 0 0 0 QDMA_ST_MODE QDMA_REG_READ_PF_VF
    (ARRAY_SIZE glbl_err_int_field_info) glbl_err_int_field_info;
  mkReg "C2H_PFCH_CFG" 0xb08 1 0 0 0 0 QDMA_ST_MODE QDMA_REG_READ_PF_ONLY
    (ARRAY_SIZE c2h_pfch_cfg_field_info) c2h_pfch_cfg_field_info;
  mkReg "C2H_INT_TIMER_TICK" 0xb0c 1 0 0 0 0 QDMA_ST_MODE QDMA_REG_READ_PF_ONLY
    (ARRAY_SIZE c2h_int_timer_tick_field_info) c2h_int_timer_tick_field_info;
  mkReg "C2H_STAT_DESC_RSP_DROP_ACCEPTED" 0xb10 1 0 0 0 1 QDMA_ST_MODE QDMA_REG_READ_PF_VF
    (ARRAY_SIZE c2h_stat_desc_rsp_drop_accepted_field_info) c2h_stat_desc_rsp_drop_accepted_field_info;
  mkReg "C2H_STAT_DESC_RSP_ERR_ACCEPTED" 0xb14 1 0 0 0 1 QDMA_ST_MODE QDMA_REG_READ_PF_VF
    (ARRAY_SIZE c2h_stat_desc_rsp_err_accepted_field_info) c2h_stat_desc_rsp_err_accepted_field_info;
  mkReg "C2H_STAT_DESC_REQ" 0xb18 1 0 0 0 1 QDMA_ST_MODE QDMA_REG_READ_PF_ONLY
    (ARRAY_SIZE c2h_stat_desc_req_field_info) c2h_stat_desc_req_field_info;
  mkReg "C2H_STAT_DBG_DMA_ENG_0" 0xb1c 1 0 0 0 1 QDMA_ST_MODE QDMA_REG_READ_PF_ONLY
    (ARRAY_SIZE c2h_stat_dbg_dma_eng_0_field_info) c2h_stat_dbg_dma_eng_0_field_info;
  mkReg "C2H_STAT_DBG_DMA_ENG_1" 0xb20 1 0 0 0 1 QDMA_ST_MODE QDMA_REG_READ_PF_ONLY
    (ARRAY_SIZE c2h_stat_dbg_dma_eng_1_field_info) c2h_stat_dbg_dma_eng_1_field_info].

Definition eqdma_config_regs_8 : list xreg_info := [
  mkReg "C2H_STAT_DBG_DMA_ENG_2" 0xb24 1 0 0 0 1 QDMA_ST_MODE QDMA_REG_READ_PF_ONLY
    (ARRAY_SIZE c2h_stat_dbg_dma_eng_2_field_info) c2h_stat_dbg_dma_eng_2_field_info;
  mkReg "C2H_STAT_DBG_DMA_ENG_3" 0xb28 1 0 0 0 1 QDMA_ST_MODE QDMA_REG_READ_PF_ONLY
    (ARRAY_SIZE c2h_stat_dbg_dma_eng_3_field_info) c2h_stat_dbg_dma_eng_3_field_info;
  mkReg "C2H_DBG_PFCH_ERR_CTXT" 0xb2c 1 0 0 0 0 QDMA_ST_MODE QDMA_REG_READ_PF_ONLY
    (ARRAY_SIZE c2h_dbg_pfch_err_ctxt_field_info) c2h_dbg_pfch_err_ctxt_field_info;
  mkReg "C2H_FIRST_ERR_QID" 0xb30 1 0 0 0 0 QDMA_ST_MODE QDMA_REG_READ_PF_VF
    (ARRAY_SIZE c2h_first_err_qid_field_info) c2h_first_err_qid_field_info;
  mkReg "STAT_NUM_WRB_IN" 0xb34 1 0 0 0 1 QDMA_ST_MODE QDMA_REG_READ_PF_ONLY
    (ARRAY_SIZE stat_num_wrb_in_field_info) stat_num_wrb_in_field_info;
  mkReg "STAT_NUM_WRB_OUT" 0xb38 1 0 0 0 1 QDMA_ST_MODE QDMA_REG_READ_PF_ONLY
    (ARRAY_SIZE stat_num_wrb_out_field_info) stat_num_wrb_out_field_info;
  mkReg "STAT_NUM_WRB_DRP" 0xb3c 1 0 0 0 1 QDMA_ST_MODE QDMA_REG_READ_PF_ONLY
    (ARRAY_SIZE stat_num_wrb_drp_field_info) stat_num_wrb_drp_field_info;
  mkReg "STAT_NUM_STAT_DESC_OUT" 0xb40 1 0 0 0 1 QDMA_ST_MODE QDMA_REG_READ_PF_ONLY
    (ARRAY_SIZE stat_num_stat_desc_out_field_info) stat_num_stat_desc_out_field_info;
  mkReg "STAT_NUM_DSC_CRDT_SENT" 0xb44 1 0 0 0 0 QDMA_ST_MODE QDMA_REG_READ_PF_ONLY
    (ARRAY_SIZE stat_num_dsc_crdt_sent_field_info) stat_num_dsc_crdt_sent_field_info;
  mkReg "STAT_NUM_FCH_DSC_RCVD" 0xb48 1 0 0 0 0 QDMA_ST_MODE QDMA_REG_READ_PF_ONLY
    (ARRAY_SIZE stat_num_fch_dsc_rcvd_field_info) stat_num_fch_dsc_rcvd_field_info;
  mkReg "STAT_NUM_BYP_DSC_RCVD" 0xb4c 1 0 0 0 0 QDMA_ST_MODE QDMA_REG_READ_PF_ONLY
    (ARRAY_SIZE stat_num_byp_dsc_rcvd_field_info) stat_num_byp_dsc_rcvd_field_info;
  mkReg "C2H_WRB_COAL_CFG" 0xb50 1 0 0 0 0 QDMA_ST_MODE QDMA_REG_READ_PF_ONLY
    (ARRAY_SIZE c2h_wrb_coal_cfg_field_info) c2h_wrb_coal_cfg_field_info;
  mkReg "C2H_INTR_H2C_REQ" 0xb54 1 0 0 0 0 QDMA_ST_MODE QDMA_REG_READ_PF_VF
    (ARRAY_SIZE c2h_intr_h2c_req_field_info) c2h_intr_h2c_req_field_info;
  mkReg "C2H_INTR_C2H_MM_REQ" 0xb58 1 0 0 0 0 QDMA_ST_MODE QDMA_REG_READ_PF_VF
    (ARRAY_SIZE c2h_intr_c2h_mm_req_field_info) c2h_intr_c2h_mm_req_field_info;
  mkReg "C2H_INTR_ERR_INT_REQ" 0xb5c 1 0 0 0 0 QDMA_ST_MODE QDMA_REG_READ_PF_VF
    (ARRAY_SIZE c2h_intr_err_int_req_field_info) c2h_intr_err_int_req_field_info;
  mkReg "C2H_INTR_C2H_ST_REQ" 0xb60 1 0 0 0 0 QDMA_ST_MODE QDMA_REG_READ_PF_VF
    (ARRAY_SIZE c2h_intr_c2h_st_req_field_info) c2h_intr_c2h_st_req_field_info;
  mkReg "C2H_INTR_H2C_ERR_C2H_MM_MSIX_ACK" 0xb64 1 0 0 0 0 QDMA_ST_MODE QDMA_REG_READ_PF_ONLY
    (ARRAY_SIZE c2h_intr_h2c_err_c2h_mm_msix_ack_field_info) c2h_intr_h2c_err_c2h_mm_msix_ack_field_info;
  mkReg "C2H_INTR_H2C_ERR_C2H_MM_MSIX_FAIL" 0xb68 1 0 0 0 0 QDMA_ST_MODE QDMA_REG_READ_PF_ONLY
    (ARRAY_SIZE c2h_intr_h2c_err_c2h_mm_msix_fail_field_info) c2h_intr_h2c_err_c2h_mm_msix_fail_field_info;
  mkReg "C2H_INTR_H2C_ERR_C2H_MM_MSIX_NO_MSIX" 0xb6c 1 0 0 0 0 QDMA_ST_MODE QDMA_REG_READ_PF_ONLY
    (ARRAY_SIZE c2h_intr_h2c_err_c2h_mm_msix_no_msix_field_info) c2h_intr_h2c_err_c2h_mm_msix_no_msix_field_info;
  mkReg "C2H_INTR_H2C_ERR_C2H_MM_CTXT_INVAL" 0xb70 1 0 0 0 0 QDMA_ST_MODE QDMA_REG_READ_PF_ONLY
    (ARRAY_SIZE c2h_intr_h2c_err_c2h_mm_ctxt_inval_field_info) c2h_intr_h2c_err_c2h_mm_ctxt_inval_field_info;
  mkReg "C2H_INTR_C2H_ST_MSIX_ACK" 0xb74 1 0 0 0 0 QDMA_ST_MODE QDMA_REG_READ_PF_VF
    (ARRAY_SIZE c2h_intr_c2h_st_msix_ack_field_info) c2h_intr_c2h_st_msix_ack_field_info;
  mkReg "C2H_INTR_C2H_ST_MSIX_FAIL" 0xb78 1 0 0 0 0 QDMA_ST_MODE QDMA_REG_READ_PF_VF
    (ARRAY_SIZE c2h_intr_c2h_st_msix_fail_field_info) c2h_intr_c2h_st_msix_fail_field_info;
  mkReg "C2H_INTR_C2H_ST_NO_MSIX" 0xb7c 1 0 0 0 0 QDMA_ST_MODE QDMA_REG_READ_PF_ONLY
    (ARRAY_SIZE c2h_intr_c2h_st_no_msix_field_info) c2h_intr_c2h_st_no_msix_field_info;
  mkReg "C2H_INTR_C2H_ST_CTXT_INVAL" 0xb80 1 0 0 0 0 QDMA_ST_MODE QDMA_REG_READ_PF_ONLY
    (ARRAY_SIZE c2h_intr_c2h_st_ctxt_inval_field_info) c2h_intr_c2h_st_ctxt_inval_field_info].

Definition eqdma_config_regs_9 : list xreg_info := [
  mkReg "C2H_STAT_WR_CMP" 0xb84 1 0 0 0 0 QDMA_ST_MODE QDMA_REG_READ_PF_ONLY
    (ARRAY_SIZE c2h_stat_wr_cmp_field_info) c2h_stat_wr_cmp_field_info;
  mkReg "C2H_STAT_DBG_DMA_ENG_4" 0xb88 1 0 0 0 0 QDMA_ST_MODE QDMA_REG_READ_PF_ONLY
    (ARRAY_SIZE c2h_stat_dbg_dma_eng_4_field_info) c2h_stat_dbg_dma_eng_4_field_info;
  mkReg "C2H_STAT_DBG_DMA_ENG_5" 0xb8c 1 0 0 0 0 QDMA_ST_MODE QDMA_REG_READ_PF_ONLY
    (ARRAY_SIZE c2h_stat_dbg_dma_eng_5_field_info) c2h_stat_dbg_dma_eng_5_field_info;
  mkReg "C2H_DBG_PFCH_QID" 0xb90 1 0 0 0 0 QDMA_ST_MODE QDMA_REG_READ_PF_ONLY
    (ARRAY_SIZE c2h_dbg_pfch_qid_field_info) c2h_dbg_pfch_qid_field_info;
  mkReg "C2H_DBG_PFCH" 0xb94 1 0 0 0 0 QDMA_ST_MODE QDMA_REG_READ_PF_ONLY
    (ARRAY_SIZE c2h_dbg_pfch_field_info) c2h_dbg_pfch_field_info;
  mkReg "C2H_INT_DBG" 0xb98 1 0 0 0 0 QDMA_ST_MODE QDMA_REG_READ_PF_ONLY
    (ARRAY_SIZE c2h_int_dbg_field_info) c2h_int_dbg_field_info;
  mkReg "C2H_STAT_IMM_ACCEPTED" 0xb9c 1 0 0 0 0 QDMA_ST_MODE QDMA_REG_READ_PF_ONLY
    (ARRAY_SIZE c2h_stat_imm_accepted_field_info) c2h_stat_imm_accepted_field_info;
  mkReg "C2H_STAT_MARKER_ACCEPTED" 0xba0 1 0 0 0 0 QDMA_ST_MODE QDMA_REG_READ_PF_ONLY
    (ARRAY_SIZE c2h_stat_marker_accepted_field_info) c2h_stat_marker_accepted_field_info;
  mkReg "C2H_STAT_DISABLE_CMP_ACCEPTED" 0xba4 1 0 0 0 0 QDMA_ST_MODE QDMA_REG_READ_PF_ONLY
    (ARRAY_SIZE c2h_stat_disable_cmp_accepted_field_info) c2h_stat_disable_cmp_accepted_field_info;
  mkReg "C2H_PLD_FIFO_CRDT_CNT" 0xba8 1 0 0 0 0 QDMA_ST_MODE QDMA_REG_READ_PF_ONLY
    (ARRAY_SIZE c2h_pld_fifo_crdt_cnt_field_info) c2h_pld_fifo_crdt_cnt_field_info;
  mkReg "C2H_INTR_DYN_REQ" 0xbac 1 0 0 0 0 QDMA_ST_MODE QDMA_REG_READ_PF_ONLY
    (ARRAY_SIZE c2h_intr_dyn_req_field_info) c2h_intr_dyn_req_field_info;
  mkReg "C2H_INTR_DYN_MISC" 0xbb0 1 0 0 0 0 QDMA_ST_MODE QDMA_REG_READ_PF_ONLY
    (ARRAY_SIZE c2h_intr_dyn_misc_field_info) c2h_intr_dyn_misc_field_info;
  mkReg "C2H_DROP_LEN_MISMATCH" 0xbb4 1 0 0 0 0 QDMA_ST_MODE QDMA_REG_READ_PF_ONLY
    (ARRAY_SIZE c2h_drop_len_mismatch_field_info) c2h_drop_len_mismatch_field_info;
  mkReg "C2H_DROP_DESC_RSP_LEN" 0xbb8 1 0 0 0 0 QDMA_ST_MODE QDMA_REG_READ_PF_ONLY
    (ARRAY_SIZE c2h_drop_desc_rsp_len_field_info) c2h_drop_desc_rsp_len_field_info;
  mkReg "C2H_DROP_QID_FIFO_LEN" 0xbbc 1 0 0 0 0 QDMA_ST_MODE QDMA_REG_READ_PF_ONLY
    (ARRAY_SIZE c2h_drop_qid_fifo_len_field_info) c2h_drop_qid_fifo_len_field_info;
  mkReg "C2H_DROP_PLD_CNT" 0xbc0 1 0 0 0 0 QDMA_ST_MODE QDMA_REG_READ_PF_ONLY
    (ARRAY_SIZE c2h_drop_pld_cnt_field_info) c2h_drop_pld_cnt_field_info;
  mkReg "C2H_CMPT_FORMAT_0" 0xbc4 1 0 0 0 0 QDMA_ST_MODE QDMA_REG_READ_PF_ONLY
    (ARRAY_SIZE c2h_cmpt_format_0_field_info) c2h_cmpt_format_0_field_info;
  mkReg "C2H_CMPT_FORMAT_1" 0xbc8 1 0 0 0 0 QDMA_ST_MODE QDMA_REG_READ_PF_ONLY
    (ARRAY_SIZE c2h_cmpt_format_1_field_info) c2h_cmpt_format_1_field_info;
  mkReg "C2H_CMPT_FORMAT_2" 0xbcc 1 0 0 0 0 QDMA_ST_MODE QDMA_REG_READ_PF_ONLY
    (ARRAY_SIZE c2h_cmpt_format_2_field_info) c2h_cmpt_format_2_field_info;
  mkReg "C2H_CMPT_FORMAT_3" 0xbd0 1 0 0 0 0 QDMA_ST_MODE QDMA_REG_READ_PF_ONLY
    (ARRAY_SIZE c2h_cmpt_format_3_field_info) c2h_cmpt_format_3_field_info;
  mkReg "C2H_CMPT_FORMAT_4" 0xbd4 1 0 0 0 0 QDMA_ST_MODE QDMA_REG_READ_PF_ONLY
    (ARRAY_SIZE c2h_cmpt_format_4_field_info) c2h_cmpt_format_4_field_info;
  mkReg "C2H_CMPT_FORMAT_5" 0xbd8 1 0 0 0 0 QDMA_ST_MODE QDMA_REG_READ_PF_ONLY
    (ARRAY_SIZE c2h_cmpt_format_5_field_info) c2h_cmpt_format_5_field_info;
  mkReg "C2H_CMPT_FORMAT_6" 0xbdc 1 0 0 0 0 QDMA_ST_MODE QDMA_REG_READ_PF_ONLY
    (ARRAY_SIZE c2h_cmpt_format_6_field_info) c2h_cmpt_format_6_field_info;
  mkReg "C2H_PFCH_CACHE_DEPTH" 0xbe0 1 0 0 0 0 QDMA_ST_MODE QDMA_REG_READ_PF_ONLY
    (ARRAY_SIZE c2h_pfch_cache_depth_field_info) c2h_pfch_cache_depth_field_info].

Definition eqdma_config_regs_10 : list xreg_info := [
  mkReg "C2H_WRB_COAL_BUF_DEPTH" 0xbe4 1 0 0 0 0 QDMA_ST_MODE QDMA_REG_READ_PF_ONLY
    (ARRAY_SIZE c2h_wrb_coal_buf_depth_field_info) c2h_wrb_coal_buf_depth_field_info;
  mkReg "C2H_PFCH_CRDT" 0xbe8 1 0 0 0 0 QDMA_ST_MODE QDMA_REG_READ_PF_ONLY
    (ARRAY_SIZE c2h_pfch_crdt_field_info) c2h_pfch_crdt_field_info;
  mkReg "C2H_STAT_HAS_CMPT_ACCEPTED" 0xbec 1 0 0 0 1 QDMA_ST_MODE QDMA_REG_READ_PF_ONLY
    (ARRAY_SIZE c2h_stat_has_cmpt_accepted_field_info) c2h_stat_has_cmpt_accepted_field_info;
  mkReg "C2H_STAT_HAS_PLD_ACCEPTED" 0xbf0 1 0 0 0 1 QDMA_ST_MODE QDMA_REG_READ_PF_ONLY
    (ARRAY_SIZE c2h_stat_has_pld_accepted_field_info) c2h_stat_has_pld_accepted_field_info;
  mkReg "C2H_PLD_PKT_ID" 0xbf4 1 0 0 0 0 QDMA_ST_MODE QDMA_REG_READ_PF_ONLY
    (ARRAY_SIZE c2h_pld_pkt_id_field_info) c2h_pld_pkt_id_field_info;
  mkReg "C2H_PLD_PKT_ID_1" 0xbf8 1 0 0 0 0 QDMA_ST_MODE QDMA_REG_READ_PF_ONLY
    (ARRAY_SIZE c2h_pld_pkt_id_1_field_info) c2h_pld_pkt_id_1_field_info;
  mkReg "C2H_DROP_PLD_CNT_1" 0xbfc 1 0 0 0 0 QDMA_ST_MODE QDMA_REG_READ_PF_ONLY
    (ARRAY_SIZE c2h_drop_pld_cnt_1_field_info) c2h_drop_pld_cnt_1_field_info;
  mkReg "H2C_ERR_STAT" 0xe00 1 0 0 0 0 QDMA_ST_MODE QDMA_REG_READ_PF_VF
    (ARRAY_SIZE h2c_err_stat_field_info) h2c_err_stat_field_info;
  mkReg "H2C_ERR_MASK" 0xe04 1 0 0 0 0 QDMA_ST_MODE QDMA_REG_READ_PF_VF
    (ARRAY_SIZE h2c_err_mask_field_info) h2c_err_mask_field_info;
  mkReg "H2C_FIRST_ERR_QID" 0xe08 1 0 0 0 0 QDMA_ST_MODE QDMA_REG_READ_PF_VF
    (ARRAY_SIZE h2c_first_err_qid_field_info) h2c_first_err_qid_field_info;
  mkReg "H2C_DBG_REG0" 0xe0c 1 0 0 0 1 QDMA_ST_MODE QDMA_REG_READ_PF_ONLY
    (ARRAY_SIZE h2c_dbg_reg0_field_info) h2c_dbg_reg0_field_info;
  mkReg "H2C_DBG_REG1" 0xe10 1 0 0 0 1 QDMA_ST_MODE QDMA_REG_READ_PF_ONLY
    (ARRAY_SIZE h2c_dbg_reg1_field_info) h2c_dbg_reg1_field_info;
  mkReg "H2C_DBG_REG2" 0xe14 1 0 0 0 1 QDMA_ST_MODE QDMA_REG_READ_PF_ONLY
    (ARRAY_SIZE h2c_dbg_reg2_field_info) h2c_dbg_reg2_field_info;
  mkReg "H2C_DBG_REG3" 0xe18 1 0 0 0 1 QDMA_ST_MODE QDMA_REG_READ_PF_ONLY
    (ARRAY_SIZE h2c_dbg_reg3_field_info) h2c_dbg_reg3_field_info;
  mkReg "H2C_DBG_REG4" 0xe1c 1 0 0 0 1 QDMA_ST_MODE QDMA_REG_READ_PF_ONLY
    (ARRAY_SIZE h2c_dbg_reg4_field_info) h2c_dbg_reg4_field_info;
  mkReg "H2C_FATAL_ERR_EN" 0xe20 1 0 0 0 0 QDMA_ST_MODE QDMA_REG_READ_PF_VF
    (ARRAY_SIZE h2c_fatal_err_en_field_info) h2c_fatal_err_en_field_info;
  mkReg "H2C_REQ_THROT_PCIE" 0xe24 1 0 0 0 0 QDMA_ST_MODE QDMA_REG_READ_PF_ONLY
    (ARRAY_SIZE h2c_req_throt_pcie_field_info) h2c_req_throt_pcie_field_info;
  mkReg "H2C_ALN_DBG_REG0" 0xe28 1 0 0 0 1 QDMA_ST_MODE QDMA_REG_READ_PF_ONLY
    (ARRAY_SIZE h2c_aln_dbg_reg0_field_info) h2c_aln_dbg_reg0_field_info;
  mkReg "H2C_REQ_THROT_AXIMM" 0xe2c 1 0 0 0 0 QDMA_ST_MODE QDMA_REG_READ_PF_ONLY
    (ARRAY_SIZE h2c_req_throt_aximm_field_info) h2c_req_throt_aximm_field_info;
  mkReg "C2H_MM_CTL" 0x1004 1 0 0 0 0 QDMA_MM_MODE QDMA_REG_READ_PF_ONLY
    (ARRAY_SIZE c2h_mm_ctl_field_info) c2h_mm_ctl_field_info;
  mkReg "C2H_MM_STATUS" 0x1040 1 0 0 0 0 QDMA_MM_MODE QDMA_REG_READ_PF_ONLY
    (ARRAY_SIZE c2h_mm_status_field_info) c2h_mm_status_field_info;
  mkReg "C2H_MM_CMPL_DESC_CNT" 0x1048 1 0 0 0 0 QDMA_MM_MODE QDMA_REG_READ_PF_ONLY
    (ARRAY_SIZE c2h_mm_cmpl_desc_cnt_field_info) c2h_mm_cmpl_desc_cnt_field_info;
  mkReg "C2H_MM_ERR_CODE_ENABLE_MASK" 0x1054 1 0 0 0 0 QDMA_MM_MODE QDMA_REG_READ_PF_ONLY
    (ARRAY_SIZE c2h_mm_err_code_enable_mask_field_info) c2h_mm_err_code_enable_mask_field_info;
  mkReg "C2H_MM_ERR_CODE" 0x1058 1 0 0 0 0 QDMA_MM_MODE QDMA_REG_READ_PF_ONLY
    (ARRAY_SIZE c2h_mm_err_code_field_info) c2h_mm_err_code_field_info].

Definition eqdma_config_regs_11 : list xreg_info := [
  mkReg "C2H_MM_ERR_INFO" 0x105c 1 0 0 0 0 QDMA_MM_MODE QDMA_REG_READ_PF_ONLY
    (ARRAY_SIZE c2h_mm_err_info_field_info) c2h_mm_err_info_field_info;
  mkReg "C2H_MM_PERF_MON_CTL" 0x10c0 1 0 0 0 0 QDMA_MM_MODE QDMA_REG_READ_PF_ONLY
    (ARRAY_SIZE c2h_mm_perf_mon_ctl_field_info) c2h_mm_perf_mon_ctl_field_info;
  mkReg "C2H_MM_PERF_MON_CYCLE_CNT0" 0x10c4 1 0 0 0 0 QDMA_MM_MODE QDMA_REG_READ_PF_ONLY
    (ARRAY_SIZE c2h_mm_perf_mon_cycle_cnt0_field_info) c2h_mm_perf_mon_cycle_cnt0_field_info;
  mkReg "C2H_MM_PERF_MON_CYCLE_CNT1" 0x10c8 1 0 0 0 0 QDMA_MM_MODE QDMA_REG_READ_PF_ONLY
    (ARRAY_SIZE c2h_mm_perf_mon_cycle_cnt1_field_info) c2h_mm_perf_mon_cycle_cnt1_field_info;
  mkReg "C2H_MM_PERF_MON_DATA_CNT0" 0x10cc 1 0 0 0 0 QDMA_MM_MODE QDMA_REG_READ_PF_ONLY
    (ARRAY_SIZE c2h_mm_perf_mon_data_cnt0_field_info) c2h_mm_perf_mon_data_cnt0_field_info;
  mkReg "C2H_MM_PERF_MON_DATA_CNT1" 0x10d0 1 0 0 0 0 QDMA_MM_MODE QDMA_REG_READ_PF_ONLY
    (ARRAY_SIZE c2h_mm_perf_mon_data_cnt1_field_info) c2h_mm_perf_mon_data_cnt1_field_info;
  mkReg "C2H_MM_DBG" 0x10e8 1 0 0 0 0 QDMA_MM_MODE QDMA_REG_READ_PF_ONLY
    (ARRAY_SIZE c2h_mm_dbg_field_info) c2h_mm_dbg_field_info;
  mkReg "H2C_MM_CTL" 0x1204 1 0 0 0 0 QDMA_MM_MODE QDMA_REG_READ_PF_ONLY
    (ARRAY_SIZE h2c_mm_ctl_field_info) h2c_mm_ctl_field_info;
  mkReg "H2C_MM_STATUS" 0x1240 1 0 0 0 0 QDMA_MM_MODE QDMA_REG_READ_PF_ONLY
    (ARRAY_SIZE h2c_mm_status_field_info) h2c_mm_status_field_info;
  mkReg "H2C_MM_CMPL_DESC_CNT" 0x1248 1 0 0 0 0 QDMA_MM_MODE QDMA_REG_READ_PF_ONLY
    (ARRAY_SIZE h2c_mm_cmpl_desc_cnt_field_info) h2c_mm_cmpl_desc_cnt_field_info;
  mkReg "H2C_MM_ERR_CODE_ENABLE_MASK" 0x1254 1 0 0 0 0 QDMA_MM_MODE QDMA_REG_READ_PF_ONLY
    (ARRAY_SIZE h2c_mm_err_code_enable_mask_field_info) h2c_mm_err_code_enable_mask_field_info;
  mkReg "H2C_MM_ERR_CODE" 0x1258 1 0 0 0 0 QDMA_MM_MODE QDMA_REG_READ_PF_ONLY
    (ARRAY_SIZE h2c_mm_err_code_field_info) h2c_mm_err_code_field_info;
  mkReg "H2C_MM_ERR_INFO" 0x125c 1 0 0 0 0 QDMA_MM_MODE QDMA_REG_READ_PF_ONLY
    (ARRAY_SIZE h2c_mm_err_info_field_info) h2c_mm_err_info_field_info;
  mkReg "H2C_MM_PERF_MON_CTL" 0x12c0 1 0 0 0 0 QDMA_MM_MODE QDMA_REG_READ_PF_ONLY
    (ARRAY_SIZE h2c_mm_perf_mon_ctl_field_info) h2c_mm_perf_mon_ctl_field_info;
  mkReg "H2C_MM_PERF_MON_CYCLE_CNT0" 0x12c4 1 0 0 0 0 QDMA_MM_MODE QDMA_REG_READ_PF_ONLY
    (ARRAY_SIZE h2c_mm_perf_mon_cycle_cnt0_field_info) h2c_mm_perf_mon_cycle_cnt0_field_info;
  mkReg "H2C_MM_PERF_MON_CYCLE_CNT1" 0x12c8 1 0 0 0 0 QDMA_MM_MODE QDMA_REG_READ_PF_ONLY
    (ARRAY_SIZE h2c_mm_perf_mon_cycle_cnt1_field_info) h2c_mm_perf_mon_cycle_cnt1_field_info;
  mkReg "H2C_MM_PERF_MON_DATA_CNT0" 0x12cc 1 0 0 0 0 QDMA_MM_MODE QDMA_REG_READ_PF_ONLY
    (ARRAY_SIZE h2c_mm_perf_mon_data_cnt0_field_info) h2c_mm_perf_mon_data_cnt0_field_info;
  mkReg "H2C_MM_PERF_MON_DATA_CNT1" 0x12d0 1 0 0 0 0 QDMA_MM_MODE QDMA_REG_READ_PF_ONLY
    (ARRAY_SIZE h2c_mm_perf_mon_data_cnt1_field_info) h2c_mm_perf_mon_data_cnt1_field_info;
  mkReg "H2C_MM_DBG" 0x12e8 1 0 0 0 0 QDMA_MM_MODE QDMA_REG_READ_PF_ONLY
    (ARRAY_SIZE h2c_mm_dbg_field_info) h2c_mm_dbg_field_info;
  mkReg "H2C_MM_DATA_THROTTLE" 0x12ec 1 0 0 0 0 QDMA_MM_MODE QDMA_REG_READ_PF_ONLY
    (ARRAY_SIZE h2c_mm_data_throttle_field_info) h2c_mm_data_throttle_field_info;
  mkReg "C2H_CRDT_COAL_CFG_1" 0x1400 1 0 0 0 0 QDMA_ST_MODE QDMA_REG_READ_PF_ONLY
    (ARRAY_SIZE c2h_crdt_coal_cfg_1_field_info) c2h_crdt_coal_cfg_1_field_info;
  mkReg "C2H_CRDT_COAL_CFG_2" 0x1404 1 0 0 0 0 QDMA_ST_MODE QDMA_REG_READ_PF_ONLY
    (ARRAY_SIZE c2h_crdt_coal_cfg_2_field_info) c2h_crdt_coal_cfg_2_field_info;
  mkReg "C2H_PFCH_BYP_QID" 0x1408 1 0 0 0 0 QDMA_ST_MODE QDMA_REG_READ_PF_ONLY
    (ARRAY_SIZE c2h_pfch_byp_qid_field_info) c2h_pfch_byp_qid_field_info;
  mkReg "C2H_PFCH_BYP_TAG" 0x140c 1 0 0 0 0 QDMA_ST_MODE QDMA_REG_READ_PF_ONLY
    (ARRAY_SIZE c2h_pfch_byp_tag_field_info) c2h_pfch_byp_tag_field_info].

Definition eqdma_config_regs_12 : list xreg_info := [
  mkReg "C2H_WATER_MARK" 0x1410 1 0 0 0 0 QDMA_ST_MODE QDMA_REG_READ_PF_ONLY
    (ARRAY_SIZE c2h_water_mark_field_info) c2h_water_mark_field_info;
  mkReg "C2H_NOTIFY_EMPTY" 0x1450 1 0 0 0 0 QDMA_ST_MODE QDMA_REG_READ_PF_ONLY
    (ARRAY_SIZE c2h_notify_empty_field_info) c2h_notify_empty_field_info;
  mkReg "C2H_STAT_S_AXIS_C2H_ACCEPTED_1" 0x1454 1 0 0 0 0 QDMA_ST_MODE QDMA_REG_READ_PF_ONLY
    (ARRAY_SIZE c2h_stat_s_axis_c2h_accepted_1_field_info) c2h_stat_s_axis_c2h_accepted_1_field_info;
  mkReg "C2H_STAT_S_AXIS_WRB_ACCEPTED_1" 0x1458 1 0 0 0 0 QDMA_ST_MODE QDMA_REG_READ_PF_ONLY
    (ARRAY_SIZE c2h_stat_s_axis_wrb_accepted_1_field_info) c2h_stat_s_axis_wrb_accepted_1_field_info;
  mkReg "C2H_STAT_DESC_RSP_PKT_ACCEPTED_1" 0x145c 1 0 0 0 0 QDMA_ST_MODE QDMA_REG_READ_PF_ONLY
    (ARRAY_SIZE c2h_stat_desc_rsp_pkt_accepted_1_field_info) c2h_stat_desc_rsp_pkt_accepted_1_field_info;
  mkReg "C2H_STAT_AXIS_PKG_CMP_1" 0x1460 1 0 0 0 0 QDMA_ST_MODE QDMA_REG_READ_PF_ONLY
    (ARRAY_SIZE c2h_stat_axis_pkg_cmp_1_field_info) c2h_stat_axis_pkg_cmp_1_field_info;
  mkReg "C2H_STAT_S_AXIS_WRB_ACCEPTED_2" 0x1464 1 0 0 0 0 QDMA_ST_MODE QDMA_REG_READ_PF_ONLY
    (ARRAY_SIZE c2h_stat_s_axis_wrb_accepted_2_field_info) c2h_stat_s_axis_wrb_accepted_2_field_info;
  mkReg "C2H_ST_PLD_FIFO_DEPTH" 0x1468 1 0 0 0 0 QDMA_ST_MODE QDMA_REG_READ_PF_ONLY
    (ARRAY_SIZE c2h_st_pld_fifo_depth_field_info) c2h_st_pld_fifo_depth_field_info;
  mkReg "C2H_STAT_DBG_DMA_ENG_6" 0x146c 1 0 0 0 0 QDMA_ST_MODE QDMA_REG_READ_PF_ONLY
    (ARRAY_SIZE c2h_stat_dbg_dma_eng_6_field_info) c2h_stat_dbg_dma_eng_6_field_info;
  mkReg "C2H_STAT_DBG_DMA_ENG_7" 0x1470 1 0 0 0 0 QDMA_ST_MODE QDMA_REG_READ_PF_ONLY
    (ARRAY_SIZE c2h_stat_dbg_dma_eng_7_field_info) c2h_stat_dbg_dma_eng_7_field_info;
  mkReg "C2H_STAT_PCIE_CMP_1" 0x1474 1 0 0 0 0 QDMA_ST_MODE QDMA_REG_READ_PF_ONLY
    (ARRAY_SIZE c2h_stat_pcie_cmp_1_field_info) c2h_stat_pcie_cmp_1_field_info;
  mkReg "C2H_PLD_FIFO_ALMOST_FULL" 0x1478 1 0 0 0 0 QDMA_ST_MODE QDMA_REG_READ_PF_ONLY
    (ARRAY_SIZE c2h_pld_fifo_almost_full_field_info) c2h_pld_fifo_almost_full_field_info;
  mkReg "PFCH_CFG_3" 0x147c 1 0 0 0 0 QDMA_ST_MODE QDMA_REG_READ_PF_ONLY
    (ARRAY_SIZE pfch_cfg_3_field_info) pfch_cfg_3_field_info;
  mkReg "CMPT_CFG_0" 0x1480 1 0 0 0 0 QDMA_ST_MODE QDMA_REG_READ_PF_ONLY
    (ARRAY_SIZE cmpt_cfg_0_field_info) cmpt_cfg_0_field_info;
  mkReg "PFCH_CFG_4" 0x1484 1 0 0 0 0 QDMA_ST_MODE QDMA_REG_READ_PF_ONLY
    (ARRAY_SIZE pfch_cfg_4_field_info) pfch_cfg_4_field_info].

Definition eqdma_config_regs : list xreg_info :=
  (eqdma_config_regs_0 ++ eqdma_config_regs_1 ++ eqdma_config_regs_2 ++ eqdma_config_regs_3 ++
   eqdma_config_regs_4 ++ eqdma_config_regs_5 ++ eqdma_config_regs_6 ++ eqdma_config_regs_7 ++
   eqdma_config_regs_8 ++ eqdma_config_regs_9 ++ eqdma_config_regs_10 ++ eqdma_config_regs_11 ++
   eqdma_config_regs_12)%list.
