(* ===== verification/RegDump.v ===== *)
(** * eqdma_soft_access.c, fourth part: register lists and dumps

    Reading the registers a virtual function may see ([eqdma_read_reg_list]) and
    writing the registers as text ([eqdma_dump_config_regs],
    [eqdma_dump_config_reg_list], [eqdma_dump_reg_info]), from the table of
    [RegTable].  Text is formatted as [snprintf] does; the buffer is an object of
    [tx_size] bytes and a write behind its end a fault.  The theorems: the table is
    well formed but for the registers they name; which registers are read; that the
    whole dump fits the buffer the driver asks for; when the dump of a list ends. *)

From S2P Require Import Prelude Float64 Device Fields Indirect CtxtRegs Context Csr RegTable.
From Stdlib Require Import Ascii String.
From stdpp Require Import gmap.

Open Scope Z_scope.

(** ** Text *)
Definition digit (d : Z) : ascii := ascii_of_N (Z.to_N (if d <? 10 then 48 + d else 87 + d)).

(** The digits of [v] in base [b], in front of [acc]. *)
Fixpoint digits (fuel : nat) (b v : Z) (acc : string) : string :=
  match fuel with
  | O => acc
  | S fuel =>
      let acc := String (digit (v mod b)) acc in
      if v <? b then acc else digits fuel b (v / b) acc
  end.
(** [%u], [%d] and [%x] of a 32-bit word, and [%#x]. *)
Definition fmt_u (v : Z) : string := digits 10 10 v EmptyString.
Definition fmt_d (v : Z) : string :=
  if decide (s32 v < 0) then String "-" (fmt_u (- s32 v)) else fmt_u (s32 v).
Definition fmt_x (v : Z) : string := digits 8 16 v EmptyString.
Definition fmt_ax (v : Z) : string := if decide (v = 0) then "0"%string else ("0x" ++ fmt_x v)%string.

Definition spaces (n : nat) : string := Nat.iter n (String " ") EmptyString.
Definition padl (n : nat) (s : string) : string := (spaces (n - String.length s) ++ s)%string.
Definition padr (n : nat) (s : string) : string := (s ++ spaces (n - String.length s))%string.
Definition newline : string := String (ascii_of_nat 10) EmptyString.

Inductive dump_line :=
  | RegLine (raddr : Z) (rname : string) (rval : Z)
  | InfoLine (name : string) (addr val : Z)
  | FieldLine (name : string) (msb lsb val : Z)
  | BitLine (name : string) (lsb val : Z)
  | NotFound (reg_addr : Z)
  | EntryLine (name : string) (val : Z)
  | Verbatim (s : string).

Definition line_text (l : dump_line) : string :=
  match l with
  | RegLine a n v =>
      "[" ++ padl 7 (fmt_ax a) ++ "] " ++ padr 47 n ++ " " ++ padr 10 (fmt_ax v) ++ " " ++ fmt_u v ++ newline
  | InfoLine n a v =>
      newline ++ padr 40 n ++ " 0x" ++ padr 7 (fmt_x a) ++ " " ++ padr 10 (fmt_ax v) ++ " " ++
      padr 10 (fmt_d v) ++ newline
  | FieldLine n msb lsb v =>
      padr 40 n ++ " [" ++ padl 2 (fmt_u msb) ++ "," ++ padl 2 (fmt_u lsb) ++ "]   " ++
      padr 10 (fmt_ax v) ++ newline
  | BitLine n lsb v =>
      padr 40 n ++ " [" ++ padl 5 (fmt_u lsb) ++ "]   " ++ padr 10 (fmt_ax v) ++ newline
  | NotFound a => "Register not found 0x" ++ fmt_x a ++ newline
  | EntryLine n v => padr 47 n ++ " " ++ padr 10 (fmt_ax v) ++ " " ++ fmt_u v ++ newline
  | Verbatim s => s
  end%string.
Definition line_len (l : dump_line) : Z := Z.of_nat (String.length (line_text l)).

(** The buffer: its size, and the strings written into it with their positions. *)
Record text := mkText { tx_size : Z; tx_lines : list (Z * string) }.

Definition DEBGFS_LINE_SZ : Z := 81.
Definition DEBGFS_GEN_NAME_SZ : Z := 40.
Definition REG_DUMP_SIZE_PER_LINE : Z := 256.
Definition QDMA_MAX_REGISTER_DUMP : Z := 14.
Definition EQDMA_REG_GROUP_1_START_ADDR : Z := 0x000.
Definition EQDMA_REG_GROUP_2_START_ADDR : Z := 0x804.
Definition EQDMA_REG_GROUP_3_START_ADDR : Z := 0xB00.
Definition EQDMA_REG_GROUP_4_START_ADDR : Z := 0x5014.
Definition QDMA_ERR_NO_MEM : Z := 2.

(** ** The table *)
Definition eqdma_config_num_regs_get : Z := Z.of_nat (List.length eqdma_config_regs).
Definition eqdma_reg_dump_buf_len : Z := u32 ((eqdma_config_num_regs_get + 1) * REG_DUMP_SIZE_PER_LINE).

Definition GET_CAPABILITY_MASK (a : qdma_dev_attributes) : Z :=
  Z.lor (Z.lor (Z.lor (Z.shiftl (mm_en a) QDMA_MM_EN_SHIFT)
    (Z.shiftl (Z.lor (mm_cmpt_en a) (st_en a)) QDMA_CMPT_EN_SHIFT))
    (Z.shiftl (st_en a) QDMA_ST_EN_SHIFT))
    (Z.shiftl (mailbox_en a) QDMA_MAILBOX_EN_SHIFT).

(** The loop of [get_reg_entry] from index [i]. *)
Fixpoint reg_entry_from (reg_addr i : Z) (l : list xreg_info) : option Z :=
  match l with
  | [] => None
  | r :: l => if decide (xr_addr r = reg_addr) then Some i else reg_entry_from reg_addr (i + 1) l
  end.

(** The error code and [*reg_entry]; the last register is not looked at. *)
Definition get_reg_entry (reg_addr : Z) : Z * Z :=
  match reg_entry_from reg_addr 0 (removelast eqdma_config_regs) with
  | Some i => (0, i)
  | None => (- QDMA_ERR_INV_PARAM, -1)
  end.

Record qdma_reg_data := mkRegData { reg_addr : Z; reg_val : Z }.

Section code.
Context {W : Type} `{io : IoMem W}.

(** ** Reading a list of registers *)

(** [for (j = 0; j < repeat && reg_count < QDMA_MAX_REGISTER_DUMP; j++)]: [n] more
    rounds. *)
Fixpoint read_repeat (dev addr j : Z) (n : nat) (reg_count : Z) (reg_list : list qdma_reg_data) :
    cmd W (Z * list qdma_reg_data) :=
  match n with
  | O => mret (reg_count, reg_list)
  | S n =>
      if decide (reg_count < QDMA_MAX_REGISTER_DUMP) then
        let a := u32 (addr + j * 4) in
        v ← qdma_reg_read dev a;
        reg_list ← lift (aset reg_list reg_count (mkRegData a v));
        read_repeat dev addr (j + 1) n (reg_count + 1) reg_list
      else mret (reg_count, reg_list)
  end.

Definition skips_for_vf (cap : qdma_dev_attributes) (r : xreg_info) : bool :=
  (Z.land (GET_CAPABILITY_MASK cap) (xr_mode r) =? 0) || (xr_read_type r =? QDMA_REG_READ_PF_ONLY).
Definition skips_debug (cap : qdma_dev_attributes) (r : xreg_info) : bool :=
  (debug_mode cap =? 0) && (xr_is_debug_reg r =? 1).

(** The loop over the entries [l], which are those but the last of the table. *)
Fixpoint read_regs_from (dev : Z) (cap : qdma_dev_attributes) (l : list xreg_info) (reg_count : Z)
    (reg_list : list qdma_reg_data) : cmd W (Z * list qdma_reg_data) :=
  match l with
  | [] => mret (reg_count, reg_list)
  | r :: l =>
      if decide (reg_count < QDMA_MAX_REGISTER_DUMP) then
        if skips_for_vf cap r then read_regs_from dev cap l reg_count reg_list else
        if skips_debug cap r then read_regs_from dev cap l reg_count reg_list else
        '(reg_count, reg_list) ← read_repeat dev (xr_addr r) 0 (Z.to_nat (xr_repeat r)) reg_count reg_list;
        read_regs_from dev cap l reg_count reg_list
      else mret (reg_count, reg_list)
  end.

(** [None]: the address of no group. *)
Definition group_start (reg_rd_group : Z) : option Z :=
  if decide (reg_rd_group = 0) then Some EQDMA_REG_GROUP_1_START_ADDR else
  if decide (reg_rd_group = 1) then Some EQDMA_REG_GROUP_2_START_ADDR else
  if decide (reg_rd_group = 2) then Some EQDMA_REG_GROUP_3_START_ADDR else
  if decide (reg_rd_group = 3) then Some EQDMA_REG_GROUP_4_START_ADDR else None.

(** Returns the status, what is stored in [*total_regs], and the caller's list. *)
Definition eqdma_read_reg_list (dev_hndl : option Z) (is_vf reg_rd_group : Z)
    (reg_list : option (list qdma_reg_data)) : cmd W (Z * option Z * option (list qdma_reg_data)) :=
  if decide (is_vf = 0) then mret (- QDMA_ERR_HWACC_FEATURE_NOT_SUPPORTED, None, reg_list) else
  match dev_hndl, reg_list with
  | Some dev, Some regs =>
      dev_cap ← dev_cap_of dev;
      match group_start reg_rd_group with
      | None => mret (- QDMA_ERR_INV_PARAM, None, reg_list)
      | Some start =>
          let '(rv, reg_index) := get_reg_entry start in
          if decide (rv < 0) then mret (rv, None, reg_list) else
          '(reg_count, regs) ← read_regs_from dev dev_cap
            (removelast (drop (Z.to_nat reg_index) eqdma_config_regs)) 0 regs;
          mret (rv, Some reg_count, Some regs)
      end
  | _, _ => mret (- QDMA_ERR_INV_PARAM, None, reg_list)
  end.

(** ** Dumping *)

(** Commands on the device and the buffer. *)
Notation dcmd := (cmd (W * text)).

Definition on_dev {A} (c : cmd W A) : dcmd A := fun s =>
  match c (fst s) with Ok (a, w) => Ok (a, (w, snd s)) | Fault f => Fault f end.

(** [snprintf(buf + pos, n, ...)]: at most [n] bytes, the terminating zero included;
    the line is cut when it is longer; returns the length of the whole line. *)
Definition snprintf (pos n : Z) (l : dump_line) : dcmd Z := fun s =>
  let k := line_len l in
  let t := snd s in
  if decide (n = 0) then Ok (k, s) else
  if decide (0 <= pos /\ pos + Z.min (k + 1) n <= tx_size t)
  then Ok (k, (fst s, mkText (tx_size t) (tx_lines t ++ [(pos, substring 0 (Z.to_nat (n - 1)) (line_text l))])))
  else Fault OutOfBounds.

(** The macro of qdma_platform_env.h: the size of what is left of the buffer, its
    second argument, is dropped. *)
Definition QDMA_SNPRINTF_S (pos size n : Z) (l : dump_line) : dcmd Z := snprintf pos n l.

(** [buf_sz] is an [int]. *)
Definition dump_reg (pos buf_sz raddr : Z) (rname : string) (rval : Z) : dcmd Z :=
  if decide (s32 buf_sz < DEBGFS_LINE_SZ) then mret (- QDMA_ERR_INV_PARAM) else
  QDMA_SNPRINTF_S pos (s32 buf_sz) DEBGFS_LINE_SZ (RegLine raddr rname rval).

(** [snprintf(name, DEBGFS_GEN_NAME_SZ, "%s", s)]: the name, [None] when it is cut. *)
Definition gen_name (s : string) : option string :=
  if decide (Z.of_nat (String.length s) > DEBGFS_GEN_NAME_SZ) then None
  else Some (substring 0 (Z.to_nat (DEBGFS_GEN_NAME_SZ - 1)) s).

(** The registers of one entry from [j] on; a negative result is returned by the
    function, the others are the new [len]. *)
Fixpoint dump_repeat (dev : Z) (r : xreg_info) (buflen j len : Z) (n : nat) : dcmd Z :=
  match n with
  | O => mret len
  | S n =>
      match gen_name (xr_name r) with
      | None => mret (- QDMA_ERR_NO_MEM)
      | Some name =>
          let a := u32 (xr_addr r + j * 4) in
          v ← on_dev (qdma_reg_read dev a);
          rv ← dump_reg len (u32 (buflen - len)) a name v;
          if decide (rv < 0) then mret (- QDMA_ERR_NO_MEM) else
          dump_repeat dev r buflen (j + 1) (u32 (len + rv)) n
      end
  end.

Definition skips_mode (cap : qdma_dev_attributes) (r : xreg_info) : bool :=
  Z.land (GET_CAPABILITY_MASK cap) (xr_mode r) =? 0.

Fixpoint dump_regs_from (dev : Z) (cap : qdma_dev_attributes) (l : list xreg_info) (buflen len : Z) : dcmd Z :=
  match l with
  | [] => mret len
  | r :: l =>
      if skips_mode cap r then dump_regs_from dev cap l buflen len else
      if skips_debug cap r then dump_regs_from dev cap l buflen len else
      rv ← dump_repeat dev r buflen 0 len (Z.to_nat (xr_repeat r));
      if decide (rv < 0) then mret rv else dump_regs_from dev cap l buflen rv
  end.

Definition eqdma_dump_config_regs (dev_hndl : option Z) (is_vf buflen : Z) : dcmd Z :=
  match dev_hndl with
  | None => mret (- QDMA_ERR_INV_PARAM)
  | Some dev =>
      if decide (buflen < eqdma_reg_dump_buf_len) then mret (- QDMA_ERR_NO_MEM) else
      if decide (is_vf <> 0) then mret (- QDMA_ERR_HWACC_FEATURE_NOT_SUPPORTED) else
      dev_cap ← on_dev (dev_cap_of dev);
      dump_regs_from dev dev_cap eqdma_config_regs buflen 0
  end.

(** *** A list of registers *)

(** ["%s_%d"]. *)
Definition indexed_name (s : string) (j : Z) : string := (s ++ "_" ++ fmt_d j)%string.

(** The registers of one entry from [j] on: the new [len], or a negative result. *)
Fixpoint dump_list_repeat (r : xreg_info) (reg_list : list qdma_reg_data) (buflen reg_count j len : Z)
    (n : nat) : dcmd Z :=
  match n with
  | O => mret len
  | S n =>
      match gen_name (indexed_name (xr_name r) j) with
      | None => mret (- QDMA_ERR_NO_MEM)
      | Some name =>
          e ← lift (aget reg_list (u32 (reg_count + j)));
          rv ← dump_reg len (u32 (buflen - len)) (u32 (xr_addr r + j * 4)) name (reg_val e);
          if decide (rv < 0) then mret (- QDMA_ERR_NO_MEM) else
          dump_list_repeat r reg_list buflen reg_count (j + 1) (u32 (len + rv)) n
      end
  end.

(** Rounds of [for (reg_count = 0; reg_count < total_regs;)]. *)
Fixpoint dump_list_from (fuel : nat) (cap : qdma_dev_attributes) (total_regs : Z)
    (reg_list : list qdma_reg_data) (buflen reg_count len : Z) : dcmd Z :=
  match fuel with
  | O => fail OutOfFuel
  | S fuel =>
      if decide (reg_count < total_regs) then
        skip ← (if decide (debug_mode cap = 0)
                then r0 ← lift (aget eqdma_config_regs reg_count); mret (xr_is_debug_reg r0 =? 1)
                else mret false);
        if (skip : bool) then dump_list_from fuel cap total_regs reg_list buflen reg_count len else
        e ← lift (aget reg_list reg_count);
        let '(rv, reg_data_entry) := get_reg_entry (reg_addr e) in
        if decide (rv < 0) then mret rv else
        r ← lift (aget eqdma_config_regs reg_data_entry);
        rv ← dump_list_repeat r reg_list buflen reg_count 0 len (Z.to_nat (xr_repeat r));
        if decide (rv < 0) then mret rv else
        dump_list_from fuel cap total_regs reg_list buflen (u32 (reg_count + xr_repeat r)) rv
      else mret len
  end.

(** [buf]: whether the buffer is not null. *)
Definition eqdma_dump_config_reg_list (fuel : nat) (dev_hndl : option Z) (total_regs : Z)
    (reg_list : list qdma_reg_data) (buf : bool) (buflen : Z) : dcmd Z :=
  match dev_hndl with
  | None => mret (- QDMA_ERR_INV_PARAM)
  | Some dev =>
      if negb buf then mret (- QDMA_ERR_INV_PARAM) else
      dev_cap ← on_dev (dev_cap_of dev);
      dump_list_from fuel dev_cap total_regs reg_list buflen 0 0
  end.
(** *** The fields of registers *)

(** [while (!(BIT(lsb) & bitfield)) lsb++] and its counterpart from the top. *)
Fixpoint scan_lsb (fuel : nat) (bitfield lsb : Z) : outcome Z :=
  match fuel with
  | O => Fault OutOfFuel
  | S fuel => if decide (Z.land (BIT lsb) bitfield = 0) then scan_lsb fuel bitfield (lsb + 1) else Ok lsb
  end.
Fixpoint scan_msb (fuel : nat) (bitfield msb : Z) : outcome Z :=
  match fuel with
  | O => Fault OutOfFuel
  | S fuel => if decide (Z.land (BIT msb) bitfield = 0) then scan_msb fuel bitfield (msb - 1) else Ok msb
  end.

(** [buf] as an offset, [buflen] and [data_len]. *)
Record cursor := mkCursor { cu_pos : Z; cu_buflen : Z; cu_data_len : Z }.

(** One [snprintf] of the function; [None]: it returns [-QDMA_ERR_NO_MEM].  Without
    a buffer the line goes to the log. *)
Definition put_line (buf : bool) (l : dump_line) (c : cursor) : dcmd (option cursor) :=
  if (buf : bool) then
    rv ← QDMA_SNPRINTF_S (cu_pos c) (cu_buflen c) DEBGFS_LINE_SZ l;
    if decide (rv > DEBGFS_LINE_SZ) then mret None else
    mret (Some (mkCursor (cu_pos c + rv) (u32 (cu_buflen c - rv)) (u32 (cu_data_len c + rv))))
  else mret (Some c).

(** The fields of the register [r] from the [k]-th on; [ri] is [config_regs[i]]. *)
Fixpoint info_fields (buf : bool) (cap : qdma_dev_attributes) (ri r : xreg_info) (reg_val k : Z)
    (fs : list regfield_info) (c : cursor) : dcmd (option cursor) :=
  match fs with
  | [] => mret (Some c)
  | f :: fs =>
      if skips_debug cap r then info_fields buf cap ri r reg_val (k + 1) fs c else
      let bitfield := field_mask f in
      fi ← lift (aget (xr_bitfields ri) k);
      lsb ← lift (scan_lsb 32 bitfield 0);
      msb ← lift (scan_msb 32 bitfield 31);
      let v := Z.shiftr (Z.land reg_val bitfield) lsb in
      c ← put_line buf (if decide (msb = lsb) then BitLine (field_name fi) lsb v
                        else FieldLine (field_name fi) msb lsb v) c;
      match c with
      | None => mret None
      | Some c => info_fields buf cap ri r reg_val (k + 1) fs c
      end
  end.

Fixpoint info_regs (buf : bool) (dev : Z) (cap : qdma_dev_attributes) (ri : xreg_info) (l : list xreg_info)
    (c : cursor) : dcmd (option cursor) :=
  match l with
  | [] => mret (Some c)
  | r :: l =>
      v ← on_dev (qdma_reg_read dev (xr_addr r));
      c ← put_line buf (InfoLine (xr_name r) (xr_addr r) v) c;
      match c with
      | None => mret None
      | Some c =>
          c ← info_fields buf cap ri r v 0 (xr_bitfields r) c;
          match c with None => mret None | Some c => info_regs buf dev cap ri l c end
      end
  end.

(** [buf]: whether the buffer is not null. *)
Definition eqdma_dump_reg_info (dev_hndl : option Z) (reg_addr num_regs : Z) (buf : bool) (buflen : Z) : dcmd Z :=
  match dev_hndl with
  | None => mret (- QDMA_ERR_INV_PARAM)
  | Some dev =>
      dev_cap ← on_dev (dev_cap_of dev);
      match reg_entry_from reg_addr 0 eqdma_config_regs with
      | None =>
          _ ← (if (buf : bool) then QDMA_SNPRINTF_S 0 buflen DEBGFS_LINE_SZ (NotFound reg_addr) else mret 0);
          mret (- QDMA_ERR_INV_PARAM)
      | Some j =>
          ri ← lift (aget eqdma_config_regs j);
          let total := eqdma_config_num_regs_get in
          let num_regs_idx := if decide (u32 (j + num_regs) < total) then u32 (j + num_regs) else total in
          c ← info_regs buf dev dev_cap ri
                (take (Z.to_nat (num_regs_idx - j)) (drop (Z.to_nat j) eqdma_config_regs)) (mkCursor 0 buflen 0);
          match c with
          | None => mret (- QDMA_ERR_NO_MEM)
          | Some c => mret (cu_data_len c)
          end
      end
  end.
End code.

(** ** The table

    [reg_wf]: the offset is that of a word, below the end of the register space; the
    register is read once; the fields are there, each a run of bits of the word; the
    names fit their buffers.  [overlaps]: two fields share a bit. *)
Definition reg_wf (r : xreg_info) : bool :=
  (xr_addr r mod 4 =? 0) && (0 <=? xr_addr r) && (xr_addr r <? 0x1500) && (xr_repeat r =? 1) &&
  (0 <? xr_num_bitfields r) && (xr_num_bitfields r =? Z.of_nat (List.length (xr_bitfields r))) &&
  forallb (fun f => contiguous (field_mask f) && (0 <? field_mask f) && (field_mask f <? 2 ^ 32) &&
                    (Z.of_nat (String.length (field_name f)) <=? 56)) (xr_bitfields r) &&
  (Z.of_nat (String.length (xr_name r)) <? DEBGFS_GEN_NAME_SZ - 2).

Definition masks (r : xreg_info) : list Z := field_mask <$> xr_bitfields r.
Definition overlaps (r : xreg_info) : bool := negb (layout_ok (masks r)).

(** The registers that have overlapping fields. *)
Definition overlapping : list string := [
  "GLBL_AXIS_H2C_CNT_A1"; "GLBL_AXIS_H2C_CNT_A4"; "GLBL_AXIS_C2H_CNT_A1"; "GLBL_AXIS_C2H_CNT_A4";
  "GLBL_M_AXI_WR_CNT_A1"; "GLBL_M_AXI_WR_CNT_A4"; "GLBL_M_AXI_RD_CNT_A1"; "GLBL_M_AXI_RD_CNT_A4";
  "GLBL_M_AXIB_WR_CNT_A1"; "GLBL_M_AXIB_WR_CNT_A4"; "GLBL_M_AXIB_RD_CNT_A1"; "GLBL_M_AXIB_RD_CNT_A4";
  "GLBL_S_AXI_WR_CNT_A1"; "GLBL_S_AXI_WR_CNT_A4"; "GLBL_S_AXI_RD_CNT_A1"; "GLBL_S_AXI_RD_CNT_A4";
  "GLBL_S_AXIS_CMP_CNT_A1"; "GLBL_S_AXIS_CMP_CNT_A4"]%string.

Fixpoint ascending (lo : Z) (l : list Z) : bool :=
  match l with [] => true | x :: l => (lo <? x) && ascending x l end.

Definition table_wf : bool :=
  forallb reg_wf eqdma_config_regs && ascending (-1) (xr_addr <$> eqdma_config_regs).

Lemma table_is_wf : table_wf = true.
Proof. vm_compute. reflexivity. Qed.

Lemma table_overlaps : xr_name <$> List.filter overlaps eqdma_config_regs = overlapping.
Proof. vm_compute. reflexivity. Qed.

(** The fields of a word of disjoint fields. *)
Lemma word_unpack fs : layout_ok (fst <$> fs) = true -> word_fits fs ->
  (fun f => FIELD_GET (fst f) (word fs)) <$> fs = snd <$> fs.
Proof.
  intros Hok Hfit. apply list_eq. intros i. rewrite !list_lookup_fmap.
  destruct (fs !! i) as [[m v]|] eqn:Ei; [|done]. cbn [fmap option_fmap option_map fst snd]. f_equal.
  revert i Ei. induction Hfit as [|[m1 v1] fs Hv Hfit IH]; intros i Ei; [done|].
  cbn -[FIELD_GET FIELD_SET contiguous] in *. rewrite !andb_true_iff in Hok. destruct Hok as [[Hc Hd] Hok].
  rewrite FIELD_GET_lor. destruct i as [|i].
  - injection Ei as -> ->. rewrite FIELD_GET_same, FIELD_GET_word_other, Z.lor_0_r by done.
    by apply Z.mod_small.
  - rewrite FIELD_GET_other; [by rewrite Z.lor_0_l; apply (IH Hok i)|].
    rewrite forallb_forall in Hd. apply Z.eqb_eq, Hd, list_elem_of_In.
    apply (list_elem_of_lookup_2 _ i). change (fs !! i = Some (m, v)) in Ei. by rewrite list_lookup_fmap, Ei.
Qed.

Lemma forallb_elem {A} (f : A -> bool) (l : list A) x : forallb f l = true -> x ∈ l -> f x = true.
Proof. rewrite forallb_forall. intros H Hx. apply H. by apply list_elem_of_In. Qed.

Lemma filter_names (l : list xreg_info) r : r ∈ l -> overlaps r = true ->
  xr_name r ∈ xr_name <$> List.filter overlaps l.
Proof.
  intros Hr Ho. apply list_elem_of_fmap. exists r. split; [done|].
  apply list_elem_of_In, filter_In. split; [by apply list_elem_of_In|done].
Qed.

Lemma table_elem r : r ∈ eqdma_config_regs -> reg_wf r = true /\
  (xr_name r ∉ overlapping -> layout_ok (masks r) = true).
Proof.
  intros Hr. split.
  - pose proof table_is_wf as Hw. unfold table_wf in Hw. apply andb_true_iff, proj1 in Hw.
    exact (forallb_elem _ _ _ Hw Hr).
  - intros Hn. destruct (layout_ok (masks r)) eqn:E; [done|]. exfalso. apply Hn. rewrite <- table_overlaps.
    apply (filter_names _ _ Hr). unfold overlaps. by rewrite E.
Qed.

(** Two fields of [r] with different names are the same bits. *)
Definition same_field_twice (r : xreg_info) : bool :=
  existsb (fun f => existsb (fun f' => negb (String.eqb (field_name f) (field_name f')) && (field_mask f =? field_mask f'))
    (xr_bitfields r)) (xr_bitfields r).

(** C19. The register table is well formed.  Every register has the offset of a word
    below 0x1500, the offsets ascend, it is read once, and each of its fields is a run
    of bits of the word.  But for the eighteen registers of [overlapping], the fields
    are disjoint: a word made of field values that fit reads back as those values,
    field by field.  In each of the eighteen, two fields with different names are
    the same bits. *)
Theorem config_regs_well_formed :
  ascending (-1) (xr_addr <$> eqdma_config_regs) = true /\
  forall r, r ∈ eqdma_config_regs -> reg_wf r = true /\
    (xr_name r ∉ overlapping -> forall fs, fst <$> fs = masks r -> word_fits fs ->
       (fun f => FIELD_GET (fst f) (word fs)) <$> fs = snd <$> fs) /\
    (xr_name r ∈ overlapping -> same_field_twice r = true).
Proof.
  split.
  { pose proof table_is_wf as Hw. unfold table_wf in Hw. apply andb_true_iff, proj2 in Hw. exact Hw. }
  intros r Hr. destruct (table_elem r Hr) as [Hw Hl]. split; [done|]. split.
  - intros Hn fs Hfs Hfit. apply word_unpack; [|done]. rewrite Hfs. by apply Hl.
  - intros Hn. assert (forallb (fun r => negb (bool_decide (xr_name r ∈ overlapping)) || same_field_twice r)
      eqdma_config_regs = true) as H by (vm_compute; reflexivity).
    pose proof (forallb_elem _ _ _ H Hr) as Hd. cbv beta in Hd.
    rewrite (bool_decide_eq_true_2 _ Hn) in Hd. exact Hd.
Qed.

(** ** Registers that can be read

    [reg w o] is what the register at offset [o] of the table holds; reading it
    changes nothing. *)
Class RegsReadable (W : Type) `{IoMem W} `{RegFile W} (dev : Z) : Prop := {
  rr_read : forall o w, 0 <= o < 0x1500 -> ioread32 (dev + o) w = (reg w o, w);
  rr_u32 : forall w o, fits_u32 (reg w o) }.

#[local] Opaque eqdma_config_regs.

(** Lines one behind the other from [pos] on. *)
Fixpoint place (pos : Z) (ls : list dump_line) : list (Z * string) :=
  match ls with [] => [] | l :: ls => (pos, line_text l) :: place (pos + line_len l) ls end.
Definition total_len (ls : list dump_line) : Z := foldr (fun l n => line_len l + n) 0 ls.

Lemma place_app pos ls1 ls2 : place pos (ls1 ++ ls2) = place pos ls1 ++ place (pos + total_len ls1) ls2.
Proof.
  revert pos. induction ls1 as [|l ls1 IH]; intros pos; cbn; [by rewrite Z.add_0_r|].
  by rewrite IH, Z.add_assoc.
Qed.
Lemma total_len_app ls1 ls2 : total_len (ls1 ++ ls2) = total_len ls1 + total_len ls2.
Proof.
  unfold total_len. induction ls1 as [|l ls1 IH]; cbn [app foldr]; [done|]. rewrite IH. lia.
Qed.

Lemma substring_all s n : (String.length s <= n)%nat -> substring 0 n s = s.
Proof.
  revert n. induction s as [|c s IH]; intros [|n] Hn; cbn in *; try done; [lia|]. by rewrite IH by lia.
Qed.

(** *** Lengths of lines *)
Lemma slen_app s1 s2 : String.length (s1 ++ s2) = (String.length s1 + String.length s2)%nat.
Proof. induction s1 as [|c s1 IH]; [done|]. exact (f_equal S IH). Qed.
Lemma slen_spaces n : String.length (spaces n) = n.
Proof. induction n as [|n IH]; [done|]. exact (f_equal S IH). Qed.
Lemma slen_padl n s : String.length (padl n s) = Nat.max n (String.length s).
Proof. unfold padl. rewrite slen_app, slen_spaces. lia. Qed.
Lemma slen_padr n s : String.length (padr n s) = Nat.max n (String.length s).
Proof. unfold padr. rewrite slen_app, slen_spaces. lia. Qed.

Lemma digits_len fuel b v k acc : 2 <= b -> 0 <= v < b ^ (Z.of_nat (S k)) ->
  (String.length (digits fuel b v acc) <= S k + String.length acc)%nat.
Proof.
  intros Hb. revert v k acc. induction fuel as [|fuel IH]; intros v k acc Hv; cbn -[Z.of_nat]; [lia|].
  destruct (Z.ltb_spec v b) as [Hlt|Hge]; [cbn; lia|].
  destruct k as [|k]; [change (b ^ Z.of_nat 1) with (b ^ 1) in Hv; lia|].
  pose proof (IH (v / b) k (String (digit (v mod b)) acc)) as H. cbn [String.length] in H.
  etransitivity; [apply H|lia]. split; [apply Z.div_pos; lia|].
  apply Z.div_lt_upper_bound; [lia|]. replace (b * b ^ Z.of_nat (S k)) with (b ^ Z.of_nat (S (S k))); [lia|].
  rewrite (Nat2Z.inj_succ (S k)), Z.pow_succ_r by lia. done.
Qed.

Lemma fmt_u_len v : fits_u32 v -> (String.length (fmt_u v) <= 10)%nat.
Proof.
  intros Hv. unfold fmt_u. etransitivity; [apply (digits_len 10 10 v 9); [lia|]|cbn; lia].
  change (10 ^ Z.of_nat 10) with 10000000000. wunfold. lia.
Qed.
Lemma fmt_x_len v k : (k < 8)%nat -> 0 <= v < 16 ^ Z.of_nat (S k) -> (String.length (fmt_x v) <= S k)%nat.
Proof. intros Hk Hv. unfold fmt_x. etransitivity; [apply (digits_len 8 16 v k); [lia|done]|cbn; lia]. Qed.
Lemma fmt_ax_len v k : (k < 8)%nat -> 0 <= v < 16 ^ Z.of_nat (S k) -> (String.length (fmt_ax v) <= S (S (S k)))%nat.
Proof.
  intros Hk Hv. unfold fmt_ax. case_decide; [cbn; lia|]. rewrite slen_app. cbn [String.length Nat.add].
  pose proof (fmt_x_len v k Hk Hv). lia.
Qed.
Lemma fmt_ax_word v : fits_u32 v -> (String.length (fmt_ax v) <= 10)%nat.
Proof. intros Hv. apply (fmt_ax_len v 7); [lia|]. change (16 ^ Z.of_nat 8) with 4294967296. exact Hv. Qed.
Lemma fmt_ax_addr a : 0 <= a < 0x1500 -> (String.length (fmt_ax a) <= 7)%nat.
Proof.
  intros Ha. etransitivity; [apply (fmt_ax_len a 3); [lia|]|lia].
  change (16 ^ Z.of_nat 4) with 65536. lia.
Qed.

Ltac slen := rewrite ?slen_app, ?slen_padl, ?slen_padr; cbn [String.length newline ascii_of_nat].

Lemma reg_line_len a n v : 0 <= a < 0x1500 -> (String.length n <= 47)%nat -> fits_u32 v ->
  0 <= line_len (RegLine a n v) <= 80.
Proof.
  intros Ha Hn Hv. pose proof (fmt_ax_addr a Ha). pose proof (fmt_ax_word v Hv). pose proof (fmt_u_len v Hv).
  unfold line_len. cbn [line_text]. slen. lia.
Qed.

Lemma gen_name_run s : Z.of_nat (String.length s) < DEBGFS_GEN_NAME_SZ -> gen_name s = Some s.
Proof.
  unfold gen_name, DEBGFS_GEN_NAME_SZ. intros H. rewrite decide_False by lia. by rewrite substring_all by lia.
Qed.

(** What [reg_wf] says, for proofs. *)
Record reg_facts (r : xreg_info) : Prop := {
  rf_addr : 0 <= xr_addr r < 0x1500;
  rf_once : xr_repeat r = 1;
  rf_name : Z.of_nat (String.length (xr_name r)) < DEBGFS_GEN_NAME_SZ - 2 }.

Lemma reg_wf_facts r : reg_wf r = true -> reg_facts r.
Proof. unfold reg_wf. rewrite !andb_true_iff. intros. destruct_and!. split; lia. Qed.

Lemma table_facts : Forall reg_facts eqdma_config_regs.
Proof. apply Forall_forall. intros r Hr. apply reg_wf_facts, table_elem, Hr. Qed.

Lemma num_regs : eqdma_config_num_regs_get = 303.
Proof. vm_compute. reflexivity. Qed.
Lemma buf_len : eqdma_reg_dump_buf_len = 77824.
Proof. vm_compute. reflexivity. Qed.

Section readable.
Context {W : Type} `{io : IoMem W} `{rf : RegFile W} (dev : Z) `{ok : !RegsReadable W dev}.

Lemma read_reg_run o w : 0 <= o < 0x1500 -> qdma_reg_read dev o w = Ok (reg w o, w).
Proof. intros Ho. unfold qdma_reg_read. by rewrite rr_read. Qed.

Lemma cap_run w : dev_cap_of dev w = Ok (attrs w, w).
Proof.
  apply cap_of_reads. intros o Ho. apply read_reg_run. unfold cap_regs in Ho.
  repeat (apply elem_of_cons in Ho as [->|Ho]; [done|]). by apply elem_of_nil in Ho.
Qed.

Lemma on_dev_run {A} (c : cmd W A) w (t : text) a w1 : c w = Ok (a, w1) ->
  on_dev c (w, t) = Ok (a, (w1, t)).
Proof. unfold on_dev. cbn [fst snd]. by intros ->. Qed.

(** *** The whole dump *)
Definition enabled (cap : qdma_dev_attributes) (r : xreg_info) : bool :=
  negb (skips_mode cap r) && negb (skips_debug cap r).
Definition reg_line (w : W) (r : xreg_info) : dump_line :=
  RegLine (xr_addr r) (xr_name r) (reg w (xr_addr r)).

Lemma dump_reg_run size buflen a name v w ls : 0 <= a < 0x1500 -> (String.length name <= 47)%nat ->
  fits_u32 v -> 0 <= total_len ls -> total_len ls + 81 <= buflen < 2 ^ 31 -> buflen <= size ->
  dump_reg (W := W) (total_len ls) (u32 (buflen - total_len ls)) a name v (w, mkText size (place 0 ls)) =
    Ok (line_len (RegLine a name v), (w, mkText size (place 0 (ls ++ [RegLine a name v])))).
Proof.
  intros Ha Hn Hv H0 Hb Hs. pose proof (reg_line_len a name v Ha Hn Hv) as Hl.
  assert (s32 (u32 (buflen - total_len ls)) = buflen - total_len ls) as E by int_lia.
  unfold dump_reg, QDMA_SNPRINTF_S, snprintf. rewrite E. unfold DEBGFS_LINE_SZ. rewrite decide_False by lia.
  rewrite decide_False by lia. cbn [fst snd tx_size tx_lines]. rewrite decide_True by lia.
  rewrite substring_all by (unfold line_len in *; lia). by rewrite place_app.
Qed.

Lemma dump_repeat_run size buflen r w ls : reg_facts r -> 0 <= total_len ls ->
  total_len ls + 81 <= buflen < 2 ^ 31 -> buflen <= size ->
  0 <= line_len (reg_line w r) <= 80 /\
  dump_repeat (W := W) dev r buflen 0 (total_len ls) (Z.to_nat (xr_repeat r)) (w, mkText size (place 0 ls)) =
    Ok (total_len (ls ++ [reg_line w r]), (w, mkText size (place 0 (ls ++ [reg_line w r])))).
Proof.
  intros [Ha Ho Hn] H0 Hb Hs. pose proof (rr_u32 w (xr_addr r)) as Hv.
  assert ((String.length (xr_name r) <= 47)%nat) as Hn' by (unfold DEBGFS_GEN_NAME_SZ in Hn; lia).
  pose proof (reg_line_len _ _ _ Ha Hn' Hv) as Hlen. split; [exact Hlen|].
  rewrite Ho. change (Z.to_nat 1) with 1%nat. cbn [dump_repeat].
  rewrite gen_name_run by lia. cbv iota.
  replace (u32 (xr_addr r + 0 * 4)) with (xr_addr r) by int_lia.
  erewrite cmd_bind_run by (apply on_dev_run, read_reg_run; done).
  erewrite cmd_bind_run by (apply dump_reg_run; (done || lia)).
  rewrite decide_False by lia. rewrite total_len_app. unfold mret, cmd_ret. do 2 f_equal.
  change (total_len [reg_line w r]) with (line_len (reg_line w r) + 0). unfold reg_line in *. int_lia.
Qed.

Lemma dump_regs_run cap l size buflen w ls : Forall reg_facts l -> 0 <= total_len ls ->
  total_len ls + 80 * Z.of_nat (List.length l) + 81 <= buflen < 2 ^ 31 -> buflen <= size ->
  exists ls1, ls1 = ls ++ (reg_line w <$> List.filter (enabled cap) l) /\
    total_len ls <= total_len ls1 <= total_len ls + 80 * Z.of_nat (List.length l) /\
    dump_regs_from dev cap l buflen (total_len ls) (w, mkText size (place 0 ls)) =
      Ok (total_len ls1, (w, mkText size (place 0 ls1))).
Proof.
  intros Hl. revert ls. induction Hl as [|r l Hr0 _ IH]; intros ls H0 Hb Hs.
  { exists ls. rewrite app_nil_r. split_and!; [done|lia|cbn; lia|done]. }
  cbn [dump_regs_from List.filter List.length] in *. unfold enabled at 1.
  destruct (skips_mode cap r); cbn [negb andb].
  { destruct (IH ls) as (ls1 & E & L & R); [done|lia|done|]. exists ls1. split_and!; [done|lia|lia|done]. }
  destruct (skips_debug cap r); cbn [negb].
  { destruct (IH ls) as (ls1 & E & L & R); [done|lia|done|]. exists ls1. split_and!; [done|lia|lia|done]. }
  destruct (dump_repeat_run size buflen r w ls) as [Hlen Hr]; [done|done|lia|done|].
  destruct (IH (ls ++ [reg_line w r])) as (ls1 & E & L & R);
    rewrite total_len_app in *; cbn [total_len foldr] in *; [lia..|].
  exists ls1. split; [by rewrite E, <- app_assoc|]. split; [lia|].
  rewrite (cmd_bind_run _ _ _ _ _ Hr), decide_False by lia. exact R.
Qed.

(** C30. The dump of all registers fits.  With a buffer of the size the driver asks
    for, or a larger one, the dump has one line, as [printf] formats it, for each
    register that exists in the device's modes, in the order of the table, with the
    value the register holds; the lines follow each other in the buffer, nothing is
    written behind its end, and the result is their total length.  With a smaller
    buffer the call fails and neither reads nor writes. *)
Theorem dump_config_regs_fits buflen size w : 0 <= buflen < 2 ^ 31 -> buflen <= size ->
  let ls := reg_line w <$> List.filter (enabled (attrs w)) eqdma_config_regs in
  eqdma_dump_config_regs (Some dev) 0 buflen (w, mkText size []) =
    (if decide (buflen < eqdma_reg_dump_buf_len) then Ok (- QDMA_ERR_NO_MEM, (w, mkText size []))
     else Ok (total_len ls, (w, mkText size (place 0 ls)))) /\
  0 <= total_len ls < eqdma_reg_dump_buf_len.
Proof.
  intros Hb Hs ls. unfold eqdma_dump_config_regs. rewrite (decide_False (P := 0 <> 0)) by lia.
  assert (forall b sz, eqdma_reg_dump_buf_len <= b < 2 ^ 31 -> b <= sz ->
    0 <= total_len ls <= 24240 /\ dump_regs_from dev (attrs w) eqdma_config_regs b 0 (w, mkText sz []) =
      Ok (total_len ls, (w, mkText sz (place 0 ls)))) as H.
  { intros b sz Hb1 Hb2. rewrite buf_len in Hb1. pose proof num_regs as Hn. unfold eqdma_config_num_regs_get in Hn.
    destruct (dump_regs_run (attrs w) eqdma_config_regs sz b w [] table_facts) as (ls1 & E & L & R);
      change (total_len []) with 0 in *; [lia..|].
    rewrite app_nil_l in E. subst ls1. fold ls in L, R. split; [lia|exact R]. }
  rewrite buf_len in *. destruct (H 77824 77824) as [Hl _]; [lia..|].
  case_decide as Hd; [split; [done|lia]|]. destruct (H buflen size) as [_ H2]; [lia..|].
  erewrite cmd_bind_run by (apply on_dev_run, cap_run). split; [exact H2|lia].
Qed.

(** *** The list a virtual function is given *)
Definition visible (cap : qdma_dev_attributes) (r : xreg_info) : bool :=
  negb (skips_for_vf cap r) && negb (skips_debug cap r).
Definition reg_data (w : W) (r : xreg_info) : qdma_reg_data := mkRegData (xr_addr r) (reg w (xr_addr r)).

Lemma read_repeat_run r w (pre suf : list qdma_reg_data) x : reg_facts r -> (List.length pre < 14)%nat ->
  read_repeat dev (xr_addr r) 0 (Z.to_nat (xr_repeat r)) (Z.of_nat (List.length pre)) (pre ++ x :: suf) w =
    Ok (Z.of_nat (List.length (pre ++ [reg_data w r])), (pre ++ [reg_data w r]) ++ suf, w).
Proof.
  intros [Ha Ho Hn] Hp. rewrite Ho. change (Z.to_nat 1) with 1%nat. cbn [read_repeat].
  unfold QDMA_MAX_REGISTER_DUMP. rewrite decide_True by lia.
  replace (u32 (xr_addr r + 0 * 4)) with (xr_addr r) by int_lia.
  erewrite cmd_bind_run by (apply read_reg_run; done).
  erewrite cmd_bind_run by (apply lift_run, aset_nat; rewrite length_app; cbn; lia).
  rewrite insert_app_r_alt, Nat.sub_diag by lia. cbn [insert list_insert]. unfold mret, cmd_ret.
  rewrite length_app, <- app_assoc. cbn [List.length app]. do 3 f_equal. lia.
Qed.

Lemma read_list_run cap l w (pre suf : list qdma_reg_data) : Forall reg_facts l ->
  (List.length pre <= 14 <= List.length pre + List.length suf)%nat ->
  let sel := take (14 - List.length pre) (List.filter (visible cap) l) in
  read_regs_from dev cap l (Z.of_nat (List.length pre)) (pre ++ suf) w =
    Ok (Z.of_nat (List.length pre + List.length sel), pre ++ (reg_data w <$> sel) ++ drop (List.length sel) suf, w).
Proof.
  intros Hl. revert pre suf. induction Hl as [|r l Hr _ IH]; intros pre suf Hp; cbn [read_regs_from List.filter].
  { rewrite take_nil. cbn. by rewrite Nat.add_0_r. }
  unfold QDMA_MAX_REGISTER_DUMP. case_decide as Hd.
  2:{ replace (14 - List.length pre)%nat with 0%nat by lia. cbn. by rewrite Nat.add_0_r. }
  assert (visible cap r = negb (skips_for_vf cap r) && negb (skips_debug cap r)) as -> by done.
  destruct (skips_for_vf cap r); cbn [negb andb]; [by apply IH|].
  destruct (skips_debug cap r); cbn [negb]; [by apply IH|].
  destruct suf as [|x suf]; [cbn in Hp; lia|]. cbn [List.length] in Hp.
  erewrite cmd_bind_run by (apply read_repeat_run; [done|lia]).
  cbv beta iota. etransitivity; [apply IH; rewrite length_app; cbn; lia|].
  rewrite length_app. cbn [List.length].
  replace (14 - List.length pre)%nat with (S (14 - (List.length pre + 1)))%nat by lia.
  cbn [take fmap list_fmap List.length drop]. rewrite <- !app_assoc. cbn [app]. do 3 f_equal. lia.
Qed.

(** The offsets of the groups are in the table, but the last. *)
Lemma group_entries :
  get_reg_entry EQDMA_REG_GROUP_1_START_ADDR = (0, 0) /\ get_reg_entry EQDMA_REG_GROUP_2_START_ADDR = (0, 161) /\
  get_reg_entry EQDMA_REG_GROUP_3_START_ADDR = (0, 183) /\ get_reg_entry EQDMA_REG_GROUP_4_START_ADDR = (-1, -1).
Proof. vm_compute. repeat split. Qed.

Definition group_first (g : Z) : nat := if decide (g = 0) then 0%nat else if decide (g = 1) then 161%nat else 183%nat.

Lemma removelast_Forall {A} (P : A -> Prop) l : Forall P l -> Forall P (removelast l).
Proof.
  induction 1 as [|x l Hx Hl IH]; [constructor|]. cbn. destruct l; constructor; done.
Qed.

(** A register that virtual functions may read, on a device with the capabilities
    [cap]: it is not for physical functions only; it belongs to the memory-mapped
    engine (bit 0 of its mode), the completion engine or the streaming engine (bits 1
    and 2), and the device has that engine; and it is not for debugging, or the device is
    in debug mode. *)
Definition vf_readable (cap : qdma_dev_attributes) (r : xreg_info) : Prop :=
  (xr_read_type r = QDMA_REG_READ_VF_ONLY \/ xr_read_type r = QDMA_REG_READ_PF_VF) /\
  ((mm_en cap = 1 /\ Z.testbit (xr_mode r) 0 = true) \/
   (st_en cap = 1 /\ (Z.testbit (xr_mode r) 1 = true \/ Z.testbit (xr_mode r) 2 = true))) /\
  (xr_is_debug_reg r = 0 \/ debug_mode cap <> 0).
#[export] Instance vf_readable_dec cap r : Decision (vf_readable cap r).
Proof. unfold vf_readable. apply _. Defined.

(** The modes, read types and debug flags that occur in the table. *)
Lemma table_kinds : Forall (fun r => xr_mode r ∈ [1; 2; 4; 7] /\ xr_read_type r ∈ [0; 1; 2] /\ xr_is_debug_reg r ∈ [0; 1])
  eqdma_config_regs.
Proof.
  apply Forall_forall. intros r Hr.
  assert (forallb (fun r => bool_decide (xr_mode r ∈ [1; 2; 4; 7]) && bool_decide (xr_read_type r ∈ [0; 1; 2]) &&
    bool_decide (xr_is_debug_reg r ∈ [0; 1])) eqdma_config_regs = true) as H by (vm_compute; reflexivity).
  pose proof (forallb_elem _ _ _ H Hr) as Hk. cbv beta in Hk. rewrite !andb_true_iff, !bool_decide_eq_true in Hk. tauto.
Qed.

(** The guards of the source and [vf_readable] agree on every kind of register. *)
Definition kind_agrees (dbg : bool) (mm st mb mode ty isd : Z) : bool :=
  Bool.eqb (negb ((Z.land (Z.lor (Z.lor (Z.lor (Z.shiftl mm 0) (Z.shiftl (Z.lor 0 st) 1)) (Z.shiftl st 2))
      (Z.shiftl mb 3)) mode =? 0) || (ty =? 0)) && negb (negb dbg && (isd =? 1)))
    (bool_decide ((ty = 1 \/ ty = 2) /\
      ((mm = 1 /\ Z.testbit mode 0 = true) \/ (st = 1 /\ (Z.testbit mode 1 = true \/ Z.testbit mode 2 = true))) /\
      (isd = 0 \/ dbg = true))).

Lemma kinds_agree dbg mm st mb mode ty isd :
  mm ∈ [0; 1] -> st ∈ [0; 1] -> mb ∈ [0; 1] -> mode ∈ [1; 2; 4; 7] -> ty ∈ [0; 1; 2] -> isd ∈ [0; 1] ->
  kind_agrees dbg mm st mb mode ty isd = true.
Proof.
  intros H1 H2 H3 H4 H5 H6.
  assert (forallb (fun mm => forallb (fun st => forallb (fun mb => forallb (fun mode => forallb (fun ty =>
    forallb (fun isd => kind_agrees dbg mm st mb mode ty isd) [0; 1]) [0; 1; 2]) [1; 2; 4; 7]) [0; 1]) [0; 1]) [0; 1]
    = true) as H by (destruct dbg; vm_compute; reflexivity).
  apply (forallb_elem _ _ _ H) in H1. apply (forallb_elem _ _ _ H1) in H2. apply (forallb_elem _ _ _ H2) in H3.
  apply (forallb_elem _ _ _ H3) in H4. apply (forallb_elem _ _ _ H4) in H5. exact (forallb_elem _ _ _ H5 H6).
Qed.

Lemma visible_iff w r : r ∈ eqdma_config_regs -> visible (attrs w) r = bool_decide (vf_readable (attrs w) r).
Proof.
  intros Hr. destruct (proj1 (Forall_forall _ _) table_kinds r Hr) as (Hm & Ht & Hd).
  assert (forall b, one_if b ∈ [0; 1]) as Hone by (intros []; vm_compute; set_solver).
  assert (mailbox_en (attrs w) ∈ [0; 1]) as Hmb.
  { cbn [attrs mailbox_en]. set (mb := FIELD_GET _ _).
    assert (0 <= mb < 2) by (apply (FIELD_GET_range EQDMA_GLBL2_MAILBOX_EN_MASK); reflexivity).
    assert (mb = 0 \/ mb = 1) as [-> | ->] by lia; set_solver. }
  pose proof (kinds_agree (negb (debug_mode (attrs w) =? 0)) (mm_en (attrs w)) (st_en (attrs w)) (mailbox_en (attrs w))
    (xr_mode r) (xr_read_type r) (xr_is_debug_reg r) (Hone _) (Hone _) Hmb Hm Ht Hd) as H.
  apply Bool.eqb_prop in H. unfold visible, skips_for_vf, skips_debug, GET_CAPABILITY_MASK.
  rewrite negb_involutive in H. change (mm_cmpt_en (attrs w)) with 0. etransitivity; [exact H|].
  apply bool_decide_ext. unfold vf_readable. rewrite negb_true_iff, Z.eqb_neq. reflexivity.
Qed.

Lemma filter_visible w l : (forall r, r ∈ l -> r ∈ eqdma_config_regs) ->
  List.filter (visible (attrs w)) l = filter (vf_readable (attrs w)) l.
Proof.
  induction l as [|r l IH]; intros Hl; [done|]. cbn [List.filter]. rewrite filter_cons.
  rewrite IH by (intros x Hx; apply Hl; by right). rewrite visible_iff by (apply Hl; by left).
  by case_bool_decide; case_decide.
Qed.

Lemma removelast_incl {A} (l : list A) x : x ∈ removelast l -> x ∈ l.
Proof.
  induction l as [|y l IH]; [done|]. cbn. destruct l as [|z l]; [by intros ?%elem_of_nil|].
  intros [->|H]%elem_of_cons; [by left|right; by apply IH].
Qed.

Lemma filter_group w n : List.filter (visible (attrs w)) (removelast (drop n eqdma_config_regs)) =
  filter (vf_readable (attrs w)) (removelast (drop n eqdma_config_regs)).
Proof.
  apply filter_visible. intros r Hr%removelast_incl. rewrite <- (take_drop n eqdma_config_regs).
  apply elem_of_app. by right.
Qed.

(** C18. What a virtual function may read.  For each of the first three groups the
    call stores the first fourteen registers that are in the table from the group's
    first one on and that virtual functions may read on this device ([vf_readable]: never
    one for physical functions only, nor one of an engine the device has not, nor a
    debugging one outside debug mode), each with the value it holds, and how many they are; the rest of the caller's list
    is left alone.  The last register of the table is never among them.  The fourth
    group, of the mailbox registers, always fails, because its first register is not
    in the table; so does any other number. *)
Theorem read_reg_list_spec group regs w : (14 <= List.length regs)%nat -> 0 <= group ->
  eqdma_read_reg_list (Some dev) 1 group (Some regs) w =
    (if decide (group <= 2) then
       let sel := take 14 (filter (vf_readable (attrs w)) (removelast (drop (group_first group) eqdma_config_regs))) in
       Ok (0, Some (Z.of_nat (List.length sel)), Some ((reg_data w <$> sel) ++ drop (List.length sel) regs), w)
     else Ok (- QDMA_ERR_INV_PARAM, None, Some regs, w)).
Proof.
  intros Hlen Hg. unfold eqdma_read_reg_list. rewrite decide_False by done.
  erewrite cmd_bind_run by apply cap_run. destruct group_entries as (E0 & E1 & E2 & E3).
  assert (forall n, let sel := take 14 (filter (vf_readable (attrs w)) (removelast (drop n eqdma_config_regs))) in
    ('(reg_count, regs) ← read_regs_from dev (attrs w) (removelast (drop n eqdma_config_regs)) 0 regs;
     mret (0, Some reg_count, Some regs)) w =
    Ok (0, Some (Z.of_nat (List.length sel)), Some ((reg_data w <$> sel) ++ drop (List.length sel) regs), w)) as H.
  { intros n sel. pose proof (read_list_run (attrs w) (removelast (drop n eqdma_config_regs)) w [] regs) as H.
    cbn [List.length app Nat.add Nat.sub] in H. rewrite filter_group in H. rewrite (cmd_bind_run _ _ _ _ _ (H ltac:(apply removelast_Forall, Forall_drop, table_facts) ltac:(lia))).
    done. }
  case_decide as Hd.
  - assert (group = 0 \/ group = 1 \/ group = 2) as [-> | [-> | ->]] by lia.
    + change (group_start 0) with (Some EQDMA_REG_GROUP_1_START_ADDR). cbv iota. rewrite E0. apply (H 0%nat).
    + change (group_start 1) with (Some EQDMA_REG_GROUP_2_START_ADDR). cbv iota. rewrite E1. apply (H 161%nat).
    + change (group_start 2) with (Some EQDMA_REG_GROUP_3_START_ADDR). cbv iota. rewrite E2. apply (H 183%nat).
  - destruct (decide (group = 3)) as [->|H3].
    + change (group_start 3) with (Some EQDMA_REG_GROUP_4_START_ADDR). cbv iota. rewrite E3. done.
    + unfold group_start. by rewrite !decide_False by lia.
Qed.
(** *** The dump of a list *)
Lemma reg_entry_spec a k l i : reg_entry_from a k l = Some i ->
  k <= i /\ exists r, l !! Z.to_nat (i - k) = Some r /\ xr_addr r = a.
Proof.
  revert k. induction l as [|r l IH]; intros k; cbn; [done|]. case_decide as Ha.
  - intros [= <-]. split; [lia|]. exists r. by rewrite Z.sub_diag.
  - intros Hi. apply IH in Hi as (Hk & r' & Hl & Hr). split; [lia|]. exists r'.
    replace (Z.to_nat (i - k)) with (S (Z.to_nat (i - (k + 1)))) by lia. done.
Qed.

Lemma removelast_lookup {A} (l : list A) i x : removelast l !! i = Some x -> l !! i = Some x.
Proof.
  revert i. induction l as [|y l IH]; intros i; [done|]. cbn. destruct l as [|z l]; [done|].
  destruct i as [|i]; [done|]. apply IH.
Qed.

(** The register that is dumped for the list element [e], when it is in the table. *)
Definition known (e : qdma_reg_data) (r : xreg_info) : Prop :=
  fst (get_reg_entry (reg_addr e)) = 0 /\ aget eqdma_config_regs (snd (get_reg_entry (reg_addr e))) = Ok r.

Lemma known_facts e r : known e r -> reg_facts r /\ xr_addr r = reg_addr e.
Proof.
  unfold known, get_reg_entry. destruct (reg_entry_from _ _ _) as [i|] eqn:E; cbn [fst snd]; [|by intros []].
  intros [_ Hr]. apply reg_entry_spec in E as (Hi & r' & Hl & Ha). rewrite Z.sub_0_r in Hl.
  apply aget_ok in Hr as [_ Hr]. rewrite (removelast_lookup _ _ _ Hl) in Hr. injection Hr as <-.
  split; [|done]. eapply (Forall_lookup_1 _ _ _ _ table_facts), removelast_lookup, Hl.
Qed.

Definition list_line (e : qdma_reg_data) (r : xreg_info) : dump_line :=
  RegLine (xr_addr r) (indexed_name (xr_name r) 0) (reg_val e).

(** The first register that is only there in debug mode. *)
Definition first_debug : nat := 168.
Lemma first_debug_spec : forallb (fun r => xr_is_debug_reg r =? 0) (take first_debug eqdma_config_regs) = true /\
  match eqdma_config_regs !! first_debug with Some r => xr_is_debug_reg r = 1 | None => False end.
Proof. vm_compute. done. Qed.

Lemma not_debug n : (n < first_debug)%nat -> exists r, aget eqdma_config_regs (Z.of_nat n) = Ok r /\
  xr_is_debug_reg r = 0.
Proof.
  intros Hn. pose proof num_regs as Hl. unfold eqdma_config_num_regs_get in Hl.
  destruct (lookup_lt_is_Some_2 eqdma_config_regs n) as [r Hr]; [unfold first_debug in Hn; lia|].
  exists r. split; [by apply aget_nat|]. destruct first_debug_spec as [H _].
  apply Z.eqb_eq, (forallb_elem _ _ _ H), (list_elem_of_lookup_2 _ n). by rewrite lookup_take_lt.
Qed.

Lemma list_entry_run size buflen e r n w ls regs : known e r -> regs !! n = Some e -> (n < 1000)%nat ->
  fits_u32 (reg_val e) -> 0 <= total_len ls -> total_len ls + 81 <= buflen < 2 ^ 31 -> buflen <= size ->
  0 <= line_len (list_line e r) <= 80 /\
  dump_list_repeat (W := W) r regs buflen (Z.of_nat n) 0 (total_len ls) (Z.to_nat (xr_repeat r)) (w, mkText size (place 0 ls)) =
    Ok (total_len (ls ++ [list_line e r]), (w, mkText size (place 0 (ls ++ [list_line e r])))).
Proof.
  intros Hk Hn Hn1 Hv H0 Hb Hs. destruct (known_facts _ _ Hk) as [[Ha Ho Hname] _].
  assert (String.length (indexed_name (xr_name r) 0) = String.length (xr_name r) + 2)%nat as Hi
    by (unfold indexed_name; rewrite slen_app; done).
  pose proof (reg_line_len _ (indexed_name (xr_name r) 0) _ Ha ltac:(unfold DEBGFS_GEN_NAME_SZ in Hname; lia) Hv) as Hlen.
  split; [exact Hlen|].
  rewrite Ho. change (Z.to_nat 1) with 1%nat. cbn [dump_list_repeat].
  rewrite gen_name_run by lia. cbv iota.
  replace (u32 (Z.of_nat n + 0)) with (Z.of_nat n) by int_lia.
  erewrite cmd_bind_run by (apply lift_run, aget_nat, Hn).
  replace (u32 (xr_addr r + 0 * 4)) with (xr_addr r) by int_lia.
  erewrite cmd_bind_run by (apply dump_reg_run; (done || lia || (unfold DEBGFS_GEN_NAME_SZ in Hname; lia))).
  rewrite decide_False by lia. rewrite total_len_app. unfold mret, cmd_ret. do 2 f_equal.
  change (total_len [list_line e r]) with (line_len (list_line e r) + 0). unfold list_line in *. int_lia.
Qed.

(** One round, on an element that is in the table. *)
Lemma list_round fuel cap total regs size buflen e r n w ls : debug_mode cap <> 0 \/ (n < first_debug)%nat ->
  known e r -> regs !! n = Some e -> (n < total < 1000)%nat ->
  fits_u32 (reg_val e) -> 0 <= total_len ls -> total_len ls + 81 <= buflen < 2 ^ 31 -> buflen <= size ->
  dump_list_from (W := W) (S fuel) cap (Z.of_nat total) regs buflen (Z.of_nat n) (total_len ls) (w, mkText size (place 0 ls)) =
    dump_list_from fuel cap (Z.of_nat total) regs buflen (Z.of_nat (S n)) (total_len (ls ++ [list_line e r]))
      (w, mkText size (place 0 (ls ++ [list_line e r]))).
Proof.
  intros Hd Hk Hn Ht Hv H0 Hb Hs. destruct (known_facts e r Hk) as [[_ Ho _] _].
  destruct (list_entry_run size buflen e r n w ls regs) as [Hlen Hr]; try done; [lia|].
  cbn [dump_list_from]. rewrite decide_True by lia.
  erewrite (cmd_bind_run _ _ _ false).
  2:{ case_decide as H; [|reflexivity]. destruct Hd as [Hd|Hd]; [done|].
      destruct (not_debug n Hd) as (r0 & E & H1). erewrite cmd_bind_run by (apply lift_run, E). by rewrite H1. }
  erewrite cmd_bind_run by (apply lift_run, aget_nat, Hn).
  destruct Hk as [Hk1 Hk2]. destruct (get_reg_entry (reg_addr e)) as [rv i]. cbn [fst snd] in Hk1, Hk2. subst rv.
  rewrite decide_False by lia. erewrite cmd_bind_run by (apply lift_run, Hk2).
  rewrite (cmd_bind_run _ _ _ _ _ Hr). rewrite total_len_app. cbn [total_len foldr] in *.
  rewrite decide_False by lia. rewrite Ho.
  replace (u32 (Z.of_nat n + 1)) with (Z.of_nat (S n)) by int_lia. done.
Qed.

(** [es]: the elements from the [n]-th on, with their registers. *)
Definition elements (regs : list qdma_reg_data) (n : nat) (es : list (qdma_reg_data * xreg_info)) : Prop :=
  forall i e r, es !! i = Some (e, r) -> regs !! (n + i)%nat = Some e /\ known e r /\ fits_u32 (reg_val e).

Lemma elements_cons regs n e r es : elements regs n ((e, r) :: es) ->
  regs !! n = Some e /\ known e r /\ fits_u32 (reg_val e) /\ elements regs (S n) es.
Proof.
  intros H. pose proof (H 0%nat e r eq_refl) as H1. rewrite Nat.add_0_r in H1. destruct H1 as (? & ? & ?).
  split_and!; [done..|]. intros i e' r' Hi. rewrite Nat.add_succ_comm. by apply (H (S i)).
Qed.

Lemma dump_list_run fuel cap regs es n size buflen w ls : elements regs n es ->
  debug_mode cap <> 0 \/ (n + List.length es <= first_debug)%nat ->
  (n + List.length es < 1000)%nat -> (List.length es < fuel)%nat ->
  0 <= total_len ls -> total_len ls + 80 * Z.of_nat (List.length es) + 81 <= buflen < 2 ^ 31 -> buflen <= size ->
  dump_list_from (W := W) fuel cap (Z.of_nat (n + List.length es)) regs buflen (Z.of_nat n) (total_len ls)
      (w, mkText size (place 0 ls)) =
    Ok (total_len (ls ++ (uncurry list_line <$> es)), (w, mkText size (place 0 (ls ++ (uncurry list_line <$> es))))).
Proof.
  revert fuel n ls. induction es as [|[e r] es IH]; intros fuel n ls He Hd Hn Hf H0 Hb Hs; (destruct fuel as [|fuel]; [lia|]).
  { cbn [dump_list_from]. rewrite decide_False by (cbn; lia). cbn. by rewrite app_nil_r. }
  cbn [List.length] in *. destruct (elements_cons _ _ _ _ _ He) as (Hr & Hk & Hv & He').
  destruct (list_entry_run size buflen e r n w ls regs) as [Hlen _]; try done; [lia..|].
  rewrite (list_round _ _ _ _ _ _ e r) by (done || lia).
  replace (n + S (List.length es))%nat with (S n + List.length es)%nat by lia.
  etransitivity; [apply IH; try done; rewrite ?total_len_app; cbn [total_len foldr]; lia|].
  rewrite <- app_assoc. done.
Qed.

Lemma dump_list_stuck fuel cap regs es n total size buflen w ls : elements regs n es ->
  debug_mode cap = 0 -> (n + List.length es = first_debug)%nat -> (first_debug < total < 1000)%nat ->
  0 <= total_len ls -> total_len ls + 80 * Z.of_nat (List.length es) + 81 <= buflen < 2 ^ 31 -> buflen <= size ->
  dump_list_from (W := W) fuel cap (Z.of_nat total) regs buflen (Z.of_nat n) (total_len ls)
      (w, mkText size (place 0 ls)) = Fault OutOfFuel.
Proof.
  revert n ls es. induction fuel as [|fuel IH]; intros n ls es He Hd Hn Ht H0 Hb Hs; [done|].
  destruct es as [|[e r] es]; cbn [List.length] in *.
  - rewrite Nat.add_0_r in Hn. subst n. cbn [dump_list_from]. rewrite decide_True by lia.
    destruct first_debug_spec as [_ H]. destruct (eqdma_config_regs !! first_debug) as [r|] eqn:E; [|done].
    erewrite (cmd_bind_run _ _ _ true).
    2:{ rewrite decide_True by done. erewrite cmd_bind_run by (apply lift_run, aget_nat, E). by rewrite H. }
    apply (IH _ _ []); cbn; try done; lia.
  - destruct (elements_cons _ _ _ _ _ He) as (Hr & Hk & Hv & He').
    destruct (list_entry_run size buflen e r n w ls regs) as [Hlen _]; try done; [lia..|].
    rewrite (list_round _ _ _ _ _ _ e r) by (try done; lia).
    apply (IH _ _ es); try done; rewrite ?total_len_app; cbn [total_len foldr]; lia.
Qed.

(** When the dump of a register list ends.  All elements of the list being in the
    table and the buffer large enough, the call returns one line per element, in
    order, if the device is in debug mode or the list has at most 168 elements.
    Otherwise it never returns: at element 168 it looks at the register of that index
    in the table, not at the register of the element, finds a debug register, and goes
    round without advancing. *)
Theorem dump_reg_list_ends fuel regs es size buflen w : elements regs 0 es -> (List.length es < 1000)%nat ->
  80 * Z.of_nat (List.length es) + 81 <= buflen < 2 ^ 31 -> buflen <= size ->
  (debug_mode (attrs w) <> 0 \/ (List.length es <= first_debug)%nat -> (List.length es < fuel)%nat ->
   let ls := uncurry list_line <$> es in
   eqdma_dump_config_reg_list fuel (Some dev) (Z.of_nat (List.length es)) regs true buflen (w, mkText size []) =
     Ok (total_len ls, (w, mkText size (place 0 ls)))) /\
  (debug_mode (attrs w) = 0 -> (first_debug < List.length es)%nat ->
   eqdma_dump_config_reg_list fuel (Some dev) (Z.of_nat (List.length es)) regs true buflen (w, mkText size []) =
     Fault OutOfFuel).
Proof.
  intros He Hn Hb Hs. unfold eqdma_dump_config_reg_list. cbn [negb].
  split; [intros Hd Hf|intros Hd Hl]; erewrite cmd_bind_run by (apply on_dev_run, cap_run).
  - apply (dump_list_run fuel (attrs w) regs es 0 size buflen w []); try done; cbn; lia.
  - pose proof (length_take_le es first_debug) as Hlt.
    assert (elements regs 0 (take first_debug es)) as Ht.
    { intros i e r Hi. apply lookup_take_Some in Hi as [Hi _]. by apply He. }
    apply (dump_list_stuck fuel (attrs w) regs (take first_debug es) 0 _ size buflen w []); try done;
      rewrite ?Hlt by lia; change (total_len []) with 0; lia.
Qed.
(** *** The fields of one register *)
Definition field_line (v : Z) (f : regfield_info) : dump_line :=
  let m := field_mask f in
  let lsb := FIELD_SHIFT m in
  let msb := lsb + fwidth m - 1 in
  if decide (msb = lsb) then BitLine (field_name f) lsb (FIELD_GET m v)
  else FieldLine (field_name f) msb lsb (FIELD_GET m v).
Definition info_lines (r : xreg_info) (v : Z) : list dump_line :=
  InfoLine (xr_name r) (xr_addr r) v :: (field_line v <$> xr_bitfields r).

(** What the field descriptions of the table satisfy. *)
Definition field_fine (f : regfield_info) : bool :=
  let m := field_mask f in
  contiguous m && (FIELD_SHIFT m + fwidth m <=? 32) && (0 <=? FIELD_SHIFT m) && (1 <=? fwidth m) &&
  (Z.of_nat (String.length (field_name f)) <=? 56) &&
  match scan_lsb 32 m 0, scan_msb 32 m 31 with
  | Ok l, Ok h => (l =? FIELD_SHIFT m) && (h =? FIELD_SHIFT m + fwidth m - 1)
  | _, _ => false
  end.

Lemma table_fields : forallb (fun r => forallb field_fine (xr_bitfields r)) eqdma_config_regs = true.
Proof. vm_compute. reflexivity. Qed.

Lemma small_dec_len v : 0 <= v < 100 -> (String.length (fmt_u v) <= 2)%nat.
Proof. intros Hv. unfold fmt_u. etransitivity; [apply (digits_len 10 10 v 1); [lia|exact Hv]|cbn; lia]. Qed.
Lemma fmt_d_len v : fits_u32 v -> (String.length (fmt_d v) <= 11)%nat.
Proof.
  intros Hv. unfold fmt_d. pose proof (s32_range v). case_decide; cbn [String.length].
  - pose proof (fmt_u_len (- s32 v) ltac:(wunfold; lia)). lia.
  - pose proof (fmt_u_len (s32 v) ltac:(wunfold; lia)). lia.
Qed.

Lemma field_value_u32 m v : contiguous m = true -> FIELD_SHIFT m + fwidth m <= 32 -> 0 <= FIELD_SHIFT m ->
  0 <= FIELD_GET m v < 4294967296.
Proof.
  intros Hc Hw H0. pose proof (FIELD_GET_range m v Hc).
  pose proof (Z.pow_le_mono_r 2 (fwidth m) 32 ltac:(lia) ltac:(lia)) as Hp. change (2 ^ 32) with 4294967296 in Hp. lia.
Qed.

Lemma field_line_len f v : field_fine f = true -> 0 <= line_len (field_line v f) <= 80.
Proof.
  unfold field_fine. rewrite !andb_true_iff. intros (((((Hc & Hw) & H0) & H1) & Hn) & _).
  pose proof (field_value_u32 (field_mask f) v Hc ltac:(lia) ltac:(lia)) as Hv.
  pose proof (fmt_ax_word _ Hv). pose proof (small_dec_len (FIELD_SHIFT (field_mask f)) ltac:(lia)).
  pose proof (small_dec_len (FIELD_SHIFT (field_mask f) + fwidth (field_mask f) - 1) ltac:(lia)).
  unfold field_line. case_decide; unfold line_len; cbn [line_text]; slen; lia.
Qed.

Lemma info_line_len r v : reg_facts r -> fits_u32 v -> 0 <= line_len (InfoLine (xr_name r) (xr_addr r) v) <= 80.
Proof.
  intros [Ha _ Hn] Hv. unfold DEBGFS_GEN_NAME_SZ in Hn.
  pose proof (fmt_ax_word v Hv). pose proof (fmt_d_len v Hv).
  pose proof (fmt_x_len (xr_addr r) 3 ltac:(lia) ltac:(change (16 ^ Z.of_nat 4) with 65536; lia)).
  unfold line_len. cbn [line_text]. slen. lia.
Qed.

(** A line that fits is put behind the others. *)
Lemma put_line_run size buflen w l ls : 0 <= line_len l <= 80 -> 0 <= total_len ls ->
  total_len ls + line_len l < buflen < 2 ^ 32 -> buflen <= size ->
  put_line (W := W) true l (mkCursor (total_len ls) (buflen - total_len ls) (total_len ls)) (w, mkText size (place 0 ls)) =
    Ok (Some (mkCursor (total_len (ls ++ [l])) (buflen - total_len (ls ++ [l])) (total_len (ls ++ [l]))),
        (w, mkText size (place 0 (ls ++ [l])))).
Proof.
  intros Hl H0 Hb Hs. unfold put_line, QDMA_SNPRINTF_S, snprintf, DEBGFS_LINE_SZ.
  cbn [cu_pos cu_buflen cu_data_len fst snd]. unfold mbind, cmd_bind. rewrite decide_False by lia.
  rewrite decide_True by (cbn; lia). rewrite decide_False by lia. cbn [tx_size tx_lines].
  rewrite substring_all by (unfold line_len in *; lia). rewrite place_app, total_len_app. cbn [place total_len foldr].
  unfold mret, cmd_ret. rewrite Z.add_0_r. do 3 f_equal. f_equal; int_lia.
Qed.

Lemma fields_len v fs : forallb field_fine fs = true -> 0 <= total_len (field_line v <$> fs).
Proof.
  induction fs as [|f fs IH]; intros Hf; [done|]. cbn [forallb] in Hf. apply andb_true_iff in Hf as [Hf Hfs].
  pose proof (field_line_len f v Hf). specialize (IH Hfs).
  change (total_len (field_line v <$> f :: fs)) with (line_len (field_line v f) + total_len (field_line v <$> fs)). lia.
Qed.

Lemma info_fields_run cap ri r v size buflen w k fs ls : skips_debug cap r = false ->
  forallb field_fine fs = true -> drop k (xr_bitfields ri) = fs -> 0 <= total_len ls ->
  total_len (ls ++ (field_line v <$> fs)) < buflen < 2 ^ 32 -> buflen <= size ->
  info_fields (W := W) true cap ri r v (Z.of_nat k) fs (mkCursor (total_len ls) (buflen - total_len ls) (total_len ls))
      (w, mkText size (place 0 ls)) =
    Ok (Some (mkCursor (total_len (ls ++ (field_line v <$> fs))) (buflen - total_len (ls ++ (field_line v <$> fs)))
              (total_len (ls ++ (field_line v <$> fs)))),
        (w, mkText size (place 0 (ls ++ (field_line v <$> fs))))).
Proof.
  intros Hd. revert k ls. induction fs as [|f fs IH]; intros k ls Hf Hk H0 Hb Hs; cbn [info_fields].
  { cbn [fmap list_fmap]. by rewrite app_nil_r. }
  cbn [forallb] in Hf. apply andb_true_iff in Hf as [Hf Hfs]. rewrite Hd.
  pose proof (field_line_len f v Hf) as Hl.
  pose proof (fields_len v fs Hfs) as Hrest.
  rewrite total_len_app in Hb. cbn [fmap list_fmap] in Hb. change (total_len (field_line v f :: ?l)) with (line_len (field_line v f) + total_len l) in Hb.
  assert (xr_bitfields ri !! k = Some f) as Hfk.
  { rewrite <- (Nat.add_0_r k), <- lookup_drop, Hk. done. }
  erewrite cmd_bind_run by (apply lift_run, aget_nat, Hfk).
  pose proof Hf as Hfine. unfold field_fine in Hfine. rewrite !andb_true_iff in Hfine. destruct Hfine as [_ Hscan].
  destruct (scan_lsb 32 (field_mask f) 0) as [lsb|] eqn:El; [|done].
  destruct (scan_msb 32 (field_mask f) 31) as [msb|] eqn:Em; [|done].
  apply andb_true_iff in Hscan as [->%Z.eqb_eq ->%Z.eqb_eq].
  erewrite cmd_bind_run by (apply lift_run; reflexivity). erewrite cmd_bind_run by (apply lift_run; reflexivity).
  cbv zeta. change (if decide (FIELD_SHIFT (field_mask f) + fwidth (field_mask f) - 1 = FIELD_SHIFT (field_mask f)) then _ else _)
    with (field_line v f).
  erewrite cmd_bind_run by (apply put_line_run; lia). cbv iota.
  replace (Z.of_nat k + 1) with (Z.of_nat (S k)) by lia.
  assert ((ls ++ [field_line v f]) ++ (field_line v <$> fs) = ls ++ (field_line v <$> f :: fs)) as Eapp
    by (by rewrite <- app_assoc).
  rewrite <- Eapp. apply IH; [done| |rewrite total_len_app; cbn [total_len foldr]; lia| |done].
  - by rewrite <- Nat.add_1_r, <- drop_drop, Hk.
  - rewrite Eapp, total_len_app. cbn [fmap list_fmap].
    change (total_len (field_line v f :: ?l)) with (line_len (field_line v f) + total_len l). lia.
Qed.
Lemma ascending_lt (l : list xreg_info) a i r : ascending a (xr_addr <$> l) = true -> l !! i = Some r -> a < xr_addr r.
Proof.
  revert a i. induction l as [|y l IH]; intros a i Ha Hi; [done|].
  cbn in Ha. apply andb_true_iff in Ha as [H1 H2].
  destruct i as [|i]; [injection Hi as ->; lia|]. specialize (IH _ i H2 Hi). lia.
Qed.

Lemma reg_entry_at l k i r : ascending k (xr_addr <$> l) = true -> l !! i = Some r -> forall b,
  reg_entry_from (xr_addr r) b l = Some (b + Z.of_nat i).
Proof.
  revert k i. induction l as [|x l IH]; intros k i Ha Hi b; [done|]. cbn in Ha. apply andb_true_iff in Ha as [_ Ha].
  cbn [reg_entry_from]. destruct i as [|i].
  - injection Hi as ->. rewrite decide_True by done. f_equal. lia.
  - pose proof (ascending_lt _ _ _ _ Ha Hi). rewrite decide_False by lia. rewrite (IH _ i Ha Hi). f_equal. lia.
Qed.

Lemma reg_entry_finds r : r ∈ eqdma_config_regs -> exists j : nat,
  reg_entry_from (xr_addr r) 0 eqdma_config_regs = Some (Z.of_nat j) /\ eqdma_config_regs !! j = Some r /\ (j < 303)%nat.
Proof.
  intros [j Hj]%list_elem_of_lookup. exists j. pose proof table_is_wf as Hw. unfold table_wf in Hw.
  apply andb_true_iff, proj2 in Hw. split; [|split; [done|]].
  - by rewrite (reg_entry_at _ _ j r Hw Hj).
  - pose proof num_regs as Hn. unfold eqdma_config_num_regs_get in Hn. apply lookup_lt_Some in Hj. lia.
Qed.

(** The entries a call for one register goes over. *)
Lemma taken_one (j : nat) r : eqdma_config_regs !! j = Some r -> (j < 303)%nat ->
  take (Z.to_nat ((if decide (u32 (Z.of_nat j + 1) < eqdma_config_num_regs_get) then u32 (Z.of_nat j + 1)
    else eqdma_config_num_regs_get) - Z.of_nat j)) (drop (Z.to_nat (Z.of_nat j)) eqdma_config_regs) = [r].
Proof.
  intros Hi Hl. rewrite num_regs. replace (u32 (Z.of_nat j + 1)) with (Z.of_nat j + 1) by int_lia.
  rewrite Nat2Z.id, (drop_S _ _ _ Hi).
  replace (Z.to_nat ((if decide (Z.of_nat j + 1 < 303) then Z.of_nat j + 1 else 303) - Z.of_nat j)) with 1%nat
    by (case_decide; lia). done.
Qed.

(** The fields of one register.  For a register of the table that the device has,
    the call writes the line of the register and one for each of its fields, with the
    name of the field, the numbers of its highest and lowest bit and its value in the
    word the register holds; the scans for the two bits end. *)
Theorem reg_info_shows_fields r buflen size w : r ∈ eqdma_config_regs -> skips_debug (attrs w) r = false ->
  let ls := info_lines r (reg w (xr_addr r)) in
  total_len ls < buflen < 2 ^ 32 -> buflen <= size ->
  eqdma_dump_reg_info (Some dev) (xr_addr r) 1 true buflen (w, mkText size []) =
    Ok (total_len ls, (w, mkText size (place 0 ls))).
Proof.
  intros Hr Hd ls Hb Hs. destruct (reg_entry_finds r Hr) as (j & Hj & Hi & Hl).
  destruct (table_elem r Hr) as [Hwf _]. pose proof (reg_wf_facts r Hwf) as Hf.
  pose proof (rr_u32 w (xr_addr r)) as Hv. pose proof (info_line_len r _ Hf Hv) as Hlen.
  unfold eqdma_dump_reg_info. erewrite cmd_bind_run by (apply on_dev_run, cap_run). rewrite Hj.
  erewrite cmd_bind_run by (apply lift_run, aget_nat, Hi).
  rewrite (taken_one j r Hi Hl).
  pose proof (forallb_elem _ _ _ table_fields Hr) as Hfs. cbv beta in Hfs.
  set (v := reg w (xr_addr r)) in *. set (l0 := InfoLine (xr_name r) (xr_addr r) v) in *.
  assert (0 <= total_len (field_line v <$> xr_bitfields r)) as Hrest by by apply fields_len.
  change (total_len ls) with (line_len l0 + total_len (field_line v <$> xr_bitfields r)) in Hb.
  assert (info_regs (W := W) true dev (attrs w) r [r] (mkCursor 0 buflen 0) (w, mkText size []) =
    Ok (Some (mkCursor (total_len ls) (buflen - total_len ls) (total_len ls)), (w, mkText size (place 0 ls)))) as E.
  { cbn [info_regs]. erewrite cmd_bind_run by (apply on_dev_run, read_reg_run, Hf). fold v l0.
    pose proof (put_line_run size buflen w l0 []) as Hp. cbn [total_len foldr place app] in Hp.
    rewrite Z.sub_0_r in Hp. erewrite cmd_bind_run by (apply Hp; [exact Hlen|lia..]). cbv iota.
    pose proof (info_fields_run (attrs w) r r v size buflen w 0 (xr_bitfields r) [l0]) as Hq.
    cbn [total_len foldr app place Z.of_nat] in Hq.
    erewrite cmd_bind_run by (apply Hq; [done|done|done|lia| |done]; cbn [total_len foldr]; unfold total_len in *; lia).
    reflexivity. }
  rewrite (cmd_bind_run _ _ _ _ _ E). reflexivity.
Qed.
End readable.

(** ** Witnesses: a device whose registers all hold the same word *)
#[local] Transparent eqdma_config_regs.
Definition word_dev : Type := Z.
#[local] Instance word_mem : IoMem word_dev := {| ioread32 _ w := (u32 w, w); iowrite32 _ _ w := w |}.
#[local] Instance word_regs : RegFile word_dev := fun w _ => u32 w.
#[local] Instance word_readable : RegsReadable word_dev 0.
Proof. split; [done|]. intros w o. apply u32_range. Qed.

(** Every mode and the debug mode; neither. *)
Definition all_on : word_dev := 0xffffffff.
Definition all_off : word_dev := 0.

Definition identifier : xreg_info :=
  mkReg "CFG_BLK_IDENTIFIER" 0x00 1 0 0 0 0 QDMA_MM_ST_MODE QDMA_REG_READ_PF_ONLY
    (ARRAY_SIZE cfg_blk_identifier_field_info) cfg_blk_identifier_field_info.
Lemma identifier_in : identifier ∈ eqdma_config_regs.
Proof. apply (list_elem_of_lookup_2 _ 0%nat). reflexivity. Qed.

Definition sample_fields : list (Z * Z) :=
  [(GENMASK 31 20, 0x1fd); (GENMASK 19 16, 3); (GENMASK 15 8, 0); (GENMASK 7 0, 5)].

(** A buffer of ten bytes is overrun whatever length the caller passes. *)
Example reg_info_ignores_buflen buflen :
  eqdma_dump_reg_info (Some 0) 0 1 true buflen (all_on, mkText 10 []) = Fault OutOfBounds.
Proof. reflexivity. Qed.

Lemma config_regs_well_formed_witness :
  (fun f => FIELD_GET (fst f) (word sample_fields)) <$> sample_fields = [0x1fd; 3; 0; 5].
Proof.
  destruct config_regs_well_formed as [_ H]. destruct (H identifier identifier_in) as (_ & Hw & _).
  assert (xr_name identifier ∉ overlapping) as Hn.
  { apply (bool_decide_eq_true_1 (xr_name identifier ∉ overlapping)). vm_compute. reflexivity. }
  rewrite (Hw Hn sample_fields); [reflexivity..|].
  repeat constructor; vm_compute; done.
Defined.

Lemma dump_config_regs_fits_witness :
  exists n t, eqdma_dump_config_regs (Some 0) 0 77824 (all_on, mkText 77824 []) = Ok (n, (all_on, t)) /\
    List.length (tx_lines t) = 303%nat.
Proof.
  destruct (dump_config_regs_fits 0 77824 77824 all_on) as [H _]; [lia..|].
  rewrite decide_False in H by (rewrite buf_len; lia). eexists _, _. split; [exact H|].
  vm_compute. reflexivity.
Defined.

Lemma read_reg_list_spec_witness :
  exists l, eqdma_read_reg_list (Some 0) 1 2 (Some (replicate 14 (mkRegData 0 0))) all_on = Ok (0, Some 14, Some l, all_on) /\
    l !! 0%nat = Some (mkRegData 0xb00 0xffffffff).
Proof.
  pose proof (read_reg_list_spec 0 2 (replicate 14 (mkRegData 0 0)) all_on) as H.
  specialize (H ltac:(rewrite length_replicate; lia) ltac:(lia)). rewrite decide_True in H by lia.
  eexists. split; [exact H|]. vm_compute. reflexivity.
Defined.

Definition two_regs : list qdma_reg_data := [mkRegData 0x00 7; mkRegData 0x08 1].
Definition two_elements : list (qdma_reg_data * xreg_info) :=
  [(mkRegData 0x00 7, identifier);
   (mkRegData 0x08 1, mkReg "CFG_BLK_PCIE_MAX_PLD_SIZE" 0x08 1 0 0 0 0 QDMA_MM_ST_MODE QDMA_REG_READ_PF_ONLY
      (ARRAY_SIZE cfg_blk_pcie_max_pld_size_field_info) cfg_blk_pcie_max_pld_size_field_info)].

Lemma two_elements_ok : elements two_regs 0 two_elements.
Proof.
  intros [|[|i]] e r Hi; [injection Hi as <- <-..|done]; (split; [done|split; [split; reflexivity|by vm_compute]]).
Qed.

(** A list of 169 elements does not end when the device is not in debug mode. *)
Definition many_elements : list (qdma_reg_data * xreg_info) := replicate 169 (mkRegData 0x00 7, identifier).
Lemma many_elements_ok : elements (fst <$> many_elements) 0 many_elements.
Proof.
  intros i e r Hi. unfold many_elements in Hi. rewrite list_lookup_fmap. unfold many_elements.
  apply lookup_replicate in Hi as [[= -> ->] Hi]. rewrite lookup_replicate_2 by lia.
  split; [done|]. split; [split; reflexivity|by vm_compute].
Qed.

Lemma dump_reg_list_ends_witness :
  (exists n t, eqdma_dump_config_reg_list 3 (Some 0) 2 two_regs true 1000 (all_off, mkText 1000 []) =
     Ok (n, (all_off, t)) /\ List.length (tx_lines t) = 2%nat) /\
  eqdma_dump_config_reg_list 1000 (Some 0) 169 (fst <$> many_elements) true 20000 (all_off, mkText 20000 []) =
    Fault OutOfFuel.
Proof.
  split.
  - destruct (dump_reg_list_ends 0 3 two_regs two_elements 1000 1000 all_off two_elements_ok) as [H _];
      cbn [two_elements List.length]; [lia..|]. eexists _, _.
    split; [apply H; cbn [two_elements List.length]; [right; unfold first_debug; lia|lia]|vm_compute; reflexivity].
  - destruct (dump_reg_list_ends 0 1000 _ many_elements 20000 20000 all_off many_elements_ok) as [_ H];
      unfold many_elements in *; rewrite ?length_replicate in *; [lia..|].
    apply H; [reflexivity|unfold first_debug; lia].
Defined.

Lemma reg_info_shows_fields_witness :
  exists n t, eqdma_dump_reg_info (Some 0) 0x00 1 true 1000 (all_on, mkText 1000 []) = Ok (n, (all_on, t)) /\
    List.length (tx_lines t) = 5%nat.
Proof.
  assert (skips_debug (attrs all_on) identifier = false) as Hd by (vm_compute; reflexivity).
  pose proof (reg_info_shows_fields 0 identifier 1000 1000 all_on identifier_in Hd) as H.
  cbv zeta in H. specialize (H ltac:(split; vm_compute; reflexivity) ltac:(lia)).
  change (xr_addr identifier) with 0x00 in H. eexists _, _. split; [exact H|vm_compute; reflexivity].
Defined.

(** With more than one register, the fields of all are shown under the names of the
    first one's: the first field of CFG_BLK_PCIE_MAX_PLD_SIZE is the seventh line. *)
Example reg_info_wrong_names :
  match eqdma_dump_reg_info (Some 0) 0x00 2 true 1000 (all_on, mkText 1000 []) with
  | Ok (_, (_, t)) => match tx_lines t !! 6%nat with
                      | Some (_, s) => String.prefix "CFG_BLK_IDENTIFIER " s = true
                      | None => False
                      end
  | Fault _ => False
  end.
Proof. vm_compute. reflexivity. Qed.

(** A buffer that is too small is not noticed: the length left wraps around. *)
Example reg_info_overruns :
  eqdma_dump_reg_info (Some 0) 0x00 1 true 100 (all_on, mkText 100 []) = Fault OutOfBounds.
Proof. vm_compute. reflexivity. Qed.
