(* ===== verification/CtxtDump.v ===== *)
(** * eqdma_soft_access.c, fifth part: the contexts of a queue as text

    The tables of names, the functions that fill them from a context, the size of the
    buffer a dump needs ([eqdma_context_buf_len]), the dumps of a queue's contexts
    ([dump_eqdma_context], [eqdma_dump_queue_context]) and of an interrupt ring's
    ([eqdma_dump_intr_context]), and the function that reads the contexts of a queue
    and dumps them ([eqdma_read_dump_queue_context]).

    The tables of the source are static arrays whose values are overwritten by each
    call; every value that is printed has been written by the same call, so here a
    filled table is a result.  The theorems: a dump fits the buffer the driver asks
    for and is refused by a smaller one; what is printed is what the device holds. *)

From S2P Require Import Prelude Float64 Device Resource Fields Indirect CtxtRegs Context Csr RegTable RegDump.
From Stdlib Require Import Ascii String.
From stdpp Require Import gmap.

Open Scope Z_scope.

(** ** Tables of entries *)
Record qctx_entry := mkEntry { ce_name : string; ce_value : Z }.

Definition eqdma_sw_ctxt_entries : list string := [
  "PIDX"; "IRQ Arm"; "Function Id"; "Queue Enable"; "Fetch Credit Enable"; "Write back/Intr Check";
  "Write back/Intr Interval"; "Address Translation"; "Fetch Max"; "Ring Size"; "Descriptor Size";
  "Bypass Enable"; "MM Channel"; "Writeback Enable"; "Interrupt Enable"; "Port Id"; "Interrupt No Last";
  "Error"; "Writeback Error Sent"; "IRQ Request"; "Marker Disable"; "Is Memory Mapped";
  "Descriptor Ring Base Addr (Low)"; "Descriptor Ring Base Addr (High)"; "Interrupt Vector/Ring Index";
  "Interrupt Aggregation"; "Disable Interrupt with VF"; "Pack descriptor output interface"; "Irq Bypass"]%string.
Definition eqdma_hw_ctxt_entries : list string := [
  "CIDX"; "Credits Consumed"; "Descriptors Pending"; "Queue Invalid No Desc Pending"; "Eviction Pending";
  "Fetch Pending"]%string.
Definition eqdma_credit_ctxt_entries : list string := ["Credit"]%string.
Definition eqdma_fmap_ctxt_entries : list string := ["Queue Base"; "Queue Max"]%string.
Definition eqdma_cmpt_ctxt_entries : list string := [
  "Enable Status Desc Update"; "Enable Interrupt"; "Trigger Mode"; "Function Id"; "Counter Index";
  "Timer Index"; "Interrupt State"; "Color"; "Ring Size"; "Base Addr High (L)[37:6]";
  "Base Addr High(H)[63:38]"; "Descriptor Size"; "PIDX"; "CIDX"; "Valid"; "Error"; "Trigger Pending";
  "Timer Running"; "Full Update"; "Over Flow Check Disable"; "Address Translation";
  "Interrupt Vector/Ring Index"; "Interrupt Aggregation"; "Disable Insterrupt with VF"; "c2h Direction";
  "Base Addr Low[5:2]"; "Shared Completion Queue"]%string.
Definition eqdma_c2h_pftch_ctxt_entries : list string := [
  "Bypass"; "Buffer Size Index"; "Port Id"; "Variable Descriptor"; "Number of descriptors prefetched";
  "Error"; "Prefetch Enable"; "In Prefetch"; "Software Credit"; "Valid"]%string.
Definition eqdma_ind_intr_ctxt_entries : list string := [
  "valid"; "vec"; "int_st"; "color"; "baddr_4k (Low)"; "baddr_4k (High)"; "page_size"; "pidx"; "at";
  "Function Id"]%string.

(** ** Filling them *)
Definition fill (names : list string) (values : list Z) : list qctx_entry := zip_with mkEntry names values.

Definition eqdma_fill_sw_ctxt (c : qdma_descq_sw_ctxt) : list qctx_entry := fill eqdma_sw_ctxt_entries [
  sw_pidx c; sw_irq_arm c; sw_fnc_id c; sw_qen c; sw_frcd_en c; sw_wbi_chk c; sw_wbi_intvl_en c; sw_at c;
  sw_fetch_max c; sw_rngsz_idx c; sw_desc_sz c; sw_bypass c; sw_mm_chn c; sw_wbk_en c; sw_irq_en c;
  sw_port_id c; sw_irq_no_last c; sw_err c; sw_err_wb_sent c; sw_irq_req c; sw_mrkr_dis c; sw_is_mm c;
  Z.land (sw_ring_bs_addr c) 0xFFFFFFFF; Z.land (Z.shiftr (sw_ring_bs_addr c) 32) 0xFFFFFFFF; sw_vec c;
  sw_intr_aggr c; sw_dis_intr_on_vf c; sw_pack_byp_out c; sw_irq_byp c].

Definition eqdma_fill_cmpt_ctxt (c : qdma_descq_cmpt_ctxt) : list qctx_entry := fill eqdma_cmpt_ctxt_entries [
  cm_en_stat_desc c; cm_en_int c; cm_trig_mode c; cm_fnc_id c; cm_counter_idx c; cm_timer_idx c; cm_in_st c;
  cm_color c; cm_ringsz_idx c; u32 (FIELD_GET EQDMA_COMPL_CTXT_BADDR_HIGH_L_MASK (cm_bs_addr c));
  u32 (FIELD_GET EQDMA_COMPL_CTXT_BADDR_HIGH_H_MASK (cm_bs_addr c)); cm_desc_sz c; cm_pidx c; cm_cidx c;
  cm_valid c; cm_err c; cm_user_trig_pend c; cm_timer_running c; cm_full_upd c; cm_ovf_chk_dis c; cm_at c;
  cm_vec c; cm_int_aggr c; cm_dis_intr_on_vf c; cm_dir_c2h c;
  u32 (FIELD_GET EQDMA_COMPL_CTXT_BADDR_LOW_MASK (cm_bs_addr c)); cm_sh_cmpt c].

Definition eqdma_fill_hw_ctxt (c : qdma_descq_hw_ctxt) : list qctx_entry := fill eqdma_hw_ctxt_entries [
  hw_cidx c; hw_crd_use c; hw_dsc_pend c; hw_idl_stp_b c; hw_evt_pnd c; hw_fetch_pnd c].

Definition eqdma_fill_credit_ctxt (c : qdma_descq_credit_ctxt) : list qctx_entry :=
  fill eqdma_credit_ctxt_entries [cr_credit c].

Definition eqdma_fill_pfetch_ctxt (c : qdma_descq_prefetch_ctxt) : list qctx_entry :=
  fill eqdma_c2h_pftch_ctxt_entries [
  pf_bypass c; pf_bufsz_idx c; pf_port_id c; pf_var_desc c; pf_num_pftch c; pf_err c; pf_pfch_en c; pf_pfch c;
  pf_sw_crdt c; pf_valid c].

Definition eqdma_fill_fmap_ctxt (c : qdma_fmap_cfg) : list qctx_entry :=
  fill eqdma_fmap_ctxt_entries [fm_qbase c; fm_qmax c].

Definition eqdma_fill_intr_ctxt (c : qdma_indirect_intr_ctxt) : list qctx_entry :=
  fill eqdma_ind_intr_ctxt_entries [
  in_valid c; in_vec c; in_int_st c; in_color c; Z.land (in_baddr_4k c) 0xFFFFFFFF;
  Z.land (Z.shiftr (in_baddr_4k c) 32) 0xFFFFFFFF; in_page_size c; in_pidx c; in_at c; in_func_id c].

(** ** Sizes *)
Definition entries_len (names : list string) : Z := (Z.of_nat (List.length names) + 1) * REG_DUMP_SIZE_PER_LINE.

(** The result and [*buflen]. *)
Definition eqdma_context_buf_len (st : Z) (q : q_type) : Z * Z :=
  (0, if decide (q = QDMA_DEV_Q_TYPE_CMPT) then entries_len eqdma_cmpt_ctxt_entries else
      entries_len eqdma_sw_ctxt_entries + entries_len eqdma_hw_ctxt_entries +
      entries_len eqdma_credit_ctxt_entries + entries_len eqdma_fmap_ctxt_entries +
      (if decide (st <> 0 /\ q = QDMA_DEV_Q_TYPE_C2H)
       then entries_len eqdma_cmpt_ctxt_entries + entries_len eqdma_c2h_pftch_ctxt_entries else 0)).
Definition eqdma_intr_context_buf_len : Z := entries_len eqdma_ind_intr_ctxt_entries.

(** [struct qdma_descq_context], but the table of vectors, which this hardware does
    not have. *)
Record qdma_descq_context := mkQctxt {
  qc_fmap : qdma_fmap_cfg; qc_sw : qdma_descq_sw_ctxt; qc_hw : qdma_descq_hw_ctxt;
  qc_cr : qdma_descq_credit_ctxt; qc_pf : qdma_descq_prefetch_ctxt; qc_cm : qdma_descq_cmpt_ctxt }.

(** ** Dumping *)
Definition banner_line : string := Nat.iter 76 (String "-") EmptyString.

Section code.
Context {W : Type} `{io : IoMem W}.
Notation dcmd := (cmd (W * text)).

(** One [QDMA_SNPRINTF_S] at [buf + len]: the new [len], [None] for the jump to
    [INSUF_BUF_EXIT]. *)
Definition print (buf_sz : Z) (l : dump_line) (len : Z) : dcmd (option Z) :=
  rv ← QDMA_SNPRINTF_S len (buf_sz - len) DEBGFS_LINE_SZ l;
  mret (if decide (rv < 0 \/ rv > DEBGFS_LINE_SZ) then None else Some (len + rv)).

(** Go on unless the last step jumped. *)
Definition andthen (c : dcmd (option Z)) (k : Z -> dcmd (option Z)) : dcmd (option Z) :=
  r ← c; match r with None => mret None | Some len => k len end.

(** The three lines in front of the entries of a section. *)
Definition print_header (buf_sz : Z) (banner title : string) (len : Z) : dcmd (option Z) :=
  if decide (len + 3 * DEBGFS_LINE_SZ >= buf_sz) then mret None else
  andthen (print buf_sz (Verbatim (newline ++ banner)) len) (fun len =>
  andthen (print buf_sz (Verbatim (newline ++ title)) len) (fun len =>
  print buf_sz (Verbatim (newline ++ banner ++ newline)) len)).

(** The loop over the entries of a section, from the [i]-th on. *)
Fixpoint print_entries (buf_sz : Z) (banner title : string) (i : nat) (es : list qctx_entry) (len : Z) :
    dcmd (option Z) :=
  match es with
  | [] => mret (Some len)
  | e :: es =>
      if decide (len >= buf_sz \/ len + DEBGFS_LINE_SZ >= buf_sz) then mret None else
      andthen (if decide (i = 0%nat) then print_header buf_sz banner title len else mret (Some len)) (fun len =>
      andthen (print buf_sz (EntryLine (ce_name e) (ce_value e)) len) (fun len =>
      print_entries buf_sz banner title (S i) es len))
  end.

(** The sections of [dump_eqdma_context]. *)
Definition sw_section (c : qdma_descq_sw_ctxt) (banner : string) (buf_sz len : Z) : dcmd (option Z) :=
  print_entries buf_sz banner (padl 40 "SW Context") 0 (eqdma_fill_sw_ctxt c) len.
Definition hw_section (c : qdma_descq_hw_ctxt) (banner : string) (buf_sz len : Z) : dcmd (option Z) :=
  print_entries buf_sz banner (padl 40 "HW Context") 0 (eqdma_fill_hw_ctxt c) len.
Definition credit_section (c : qdma_descq_credit_ctxt) (banner : string) (buf_sz len : Z) : dcmd (option Z) :=
  print_entries buf_sz banner (padl 40 "Credit Context") 0 (eqdma_fill_credit_ctxt c) len.
Definition cmpt_section (c : qdma_descq_cmpt_ctxt) (banner : string) (buf_sz len : Z) : dcmd (option Z) :=
  print_entries buf_sz banner (padl 40 "Completion Context") 0 (eqdma_fill_cmpt_ctxt c) len.
Definition pfetch_section (c : qdma_descq_prefetch_ctxt) (banner : string) (buf_sz len : Z) : dcmd (option Z) :=
  print_entries buf_sz banner (padl 40 "Prefetch Context") 0 (eqdma_fill_pfetch_ctxt c) len.
Definition fmap_section (c : qdma_fmap_cfg) (banner : string) (buf_sz len : Z) : dcmd (option Z) :=
  print_entries buf_sz banner (padl 40 "FMAP Context") 0 (eqdma_fill_fmap_ctxt c) len.

(** The label [INSUF_BUF_EXIT]. *)
Definition insuf_buf_exit (buf_sz : Z) : dcmd Z :=
  _ ← (if decide (buf_sz > DEBGFS_LINE_SZ)
       then QDMA_SNPRINTF_S (buf_sz - DEBGFS_LINE_SZ) buf_sz DEBGFS_LINE_SZ
              (Verbatim (newline ++ newline ++ "Insufficient buffer size, partial context dump" ++ newline))
       else mret 0);
  mret (- QDMA_ERR_NO_MEM).

(** The end of both dumps: the length, or the jump. *)
Definition dump_result (buf_sz : Z) (c : dcmd (option Z)) : dcmd Z :=
  r ← c; match r with Some len => mret len | None => insuf_buf_exit buf_sz end.

(** The banner is filled by its own loop, and stays empty for a completion queue. *)
Definition dump_eqdma_context (queue_context : option qdma_descq_context) (st : Z) (q : q_type) (buf_sz : Z) : dcmd Z :=
  match queue_context with
  | None => mret (- QDMA_ERR_INV_PARAM)
  | Some c =>
      let cmpt := bool_decide (q = QDMA_DEV_Q_TYPE_CMPT) in
      let stc2h := bool_decide (st <> 0 /\ q = QDMA_DEV_Q_TYPE_C2H) in
      let banner := if cmpt then EmptyString else banner_line in
      let sect (b : bool) (s : string -> Z -> Z -> dcmd (option Z)) (len : Z) :=
        if b then s banner buf_sz len else mret (Some len) in
      dump_result buf_sz
        (andthen (sect (negb cmpt) (sw_section (qc_sw c)) 0) (fun len =>
         andthen (sect (negb cmpt) (hw_section (qc_hw c)) len) (fun len =>
         andthen (sect (negb cmpt) (credit_section (qc_cr c)) len) (fun len =>
         andthen (sect (cmpt || stc2h) (cmpt_section (qc_cm c)) len) (fun len =>
         andthen (sect stc2h (pfetch_section (qc_pf c)) len) (fun len =>
         sect true (fmap_section (qc_fmap c)) len))))))
  end.

Definition dump_eqdma_intr_context (c : qdma_indirect_intr_ctxt) (ring_index buf_sz : Z) : dcmd Z :=
  dump_result buf_sz
    (print_entries buf_sz banner_line (padl 50 "Interrupt Context for ring#" ++ " " ++ fmt_d ring_index) 0
       (eqdma_fill_intr_ctxt c) 0).

(** [buf]: whether the buffer is not null.  [buflen] is passed on as an [int]. *)
Definition eqdma_dump_queue_context (dev_hndl : option Z) (st : Z) (q : q_type)
    (ctxt_data : option qdma_descq_context) (buf : bool) (buflen : Z) : dcmd Z :=
  match dev_hndl, ctxt_data with
  | Some dev, Some c =>
      if negb buf then mret (- QDMA_ERR_INV_PARAM) else
      if decide (q = Q_TYPE_MAX) then mret (- QDMA_ERR_INV_PARAM) else
      let '(rv, req_buflen) := eqdma_context_buf_len st q in
      if decide (rv <> QDMA_SUCCESS) then mret rv else
      if decide (buflen < req_buflen) then mret (- QDMA_ERR_NO_MEM) else
      dump_eqdma_context (Some c) st q (s32 buflen)
  | _, _ => mret (- QDMA_ERR_INV_PARAM)
  end.

Definition eqdma_dump_intr_context (dev_hndl : option Z) (intr_ctx : option qdma_indirect_intr_ctxt)
    (ring_index : Z) (buf : bool) (buflen : Z) : dcmd Z :=
  match dev_hndl, intr_ctx with
  | Some dev, Some c =>
      if negb buf then mret (- QDMA_ERR_INV_PARAM) else
      if decide (buflen < eqdma_intr_context_buf_len) then mret (- QDMA_ERR_NO_MEM) else
      dump_eqdma_intr_context c ring_index (s32 buflen)
  | _, _ => mret (- QDMA_ERR_INV_PARAM)
  end.

(** ** Reading and dumping *)

(** [qdma_memset(&context, 0, ...)]. *)
Definition zero_context : qdma_descq_context := {|
  qc_fmap := mkFm 0 0;
  qc_sw := mkSw 0 0 0 0 0 0 0 0 0 0 0 0 0 0 0 0 0 0 0 0 0 0 0 0 0 0 0 0 0 0 0 0 0;
  qc_hw := mkHwCtxt 0 0 0 0 0 0; qc_cr := mkCr 0; qc_pf := mkPf 0 0 0 0 0 0 0 0 0 0;
  qc_cm := mkCm 0 0 0 0 0 0 0 0 0 0 0 0 0 0 0 0 0 0 0 0 0 0 0 0 0 0 0 0 0 0 |}.

(** [(uint8_t)q_type]. *)
Definition q_val (q : q_type) : Z :=
  match q with QDMA_DEV_Q_TYPE_H2C => 0 | QDMA_DEV_Q_TYPE_C2H => 1 | QDMA_DEV_Q_TYPE_CMPT => 2 | Q_TYPE_MAX => 3 end.

(** A context is read with one of the dispatch functions into its member of
    [context]; a failure is returned. *)
Definition read_one {C} (b : bool) (read : option C -> qdma_hw_access_type -> cmd W (Z * option C)) (c : C) :
    cmd W (Z + C) :=
  if b then
    '(rv, r) ← read (Some c) QDMA_HW_ACCESS_READ;
    if decide (rv < 0) then mret (inl rv) else
    match r with Some r => mret (inr r) | None => fail NullDeref end
  else mret (inr c).

Definition or_return {C A} (c : cmd W (Z + C)) (k : C -> cmd W (Z + A)) : cmd W (Z + A) :=
  r ← c; match r with inl rv => mret (inl rv) | inr x => k x end.

Definition read_contexts (dev func_id qid_hw st : Z) (q : q_type) : cmd W (Z + qdma_descq_context) :=
  let cmpt := bool_decide (q = QDMA_DEV_Q_TYPE_CMPT) in
  let c2h := bool_decide (q = QDMA_DEV_Q_TYPE_C2H) in
  let stq := bool_decide (st <> 0) in
  let d := Some dev in
  let z := zero_context in
  or_return (read_one (negb cmpt) (eqdma_sw_ctx_conf d (q_val q) qid_hw) (qc_sw z)) (fun sw =>
  or_return (read_one (negb cmpt) (eqdma_hw_ctx_conf d (q_val q) qid_hw) (qc_hw z)) (fun hw =>
  or_return (read_one (negb cmpt) (eqdma_credit_ctx_conf d (q_val q) qid_hw) (qc_cr z)) (fun cr =>
  or_return (read_one (negb cmpt && (stq && c2h)) (eqdma_pfetch_ctx_conf d qid_hw) (qc_pf z)) (fun pf =>
  or_return (read_one ((stq && c2h) || (negb stq && cmpt)) (eqdma_cmpt_ctx_conf d qid_hw) (qc_cm z)) (fun cm =>
  or_return (read_one true (eqdma_fmap_conf d func_id) (qc_fmap z)) (fun fm =>
  mret (inr (mkQctxt fm sw hw cr pf cm)))))))).

Definition eqdma_read_dump_queue_context (dev_hndl : option Z) (func_id qid_hw st : Z) (q : q_type)
    (buf : bool) (buflen : Z) : dcmd Z :=
  match dev_hndl with
  | Some dev =>
      if negb buf then mret (- QDMA_ERR_INV_PARAM) else
      if decide (q = Q_TYPE_MAX) then mret (- QDMA_ERR_INV_PARAM) else
      let '(rv, req_buflen) := eqdma_context_buf_len st q in
      if decide (rv <> QDMA_SUCCESS) then mret rv else
      if decide (buflen < req_buflen) then mret (- QDMA_ERR_NO_MEM) else
      r ← on_dev (read_contexts dev func_id qid_hw st q);
      match r with
      | inl rv => mret rv
      | inr context => dump_eqdma_context (Some context) st q (s32 buflen)
      end
  | None => mret (- QDMA_ERR_INV_PARAM)
  end.
End code.

(** ** What is printed *)
Definition entry_line (e : qctx_entry) : dump_line := EntryLine (ce_name e) (ce_value e).
Definition header_lines (banner title : string) : list dump_line :=
  [Verbatim (newline ++ banner); Verbatim (newline ++ title); Verbatim (newline ++ banner ++ newline)]%string.
Definition section_lines (banner title : string) (es : list qctx_entry) : list dump_line :=
  header_lines banner title ++ (entry_line <$> es).

Definition context_lines (c : qdma_descq_context) (st : Z) (q : q_type) : list dump_line :=
  let cmpt := bool_decide (q = QDMA_DEV_Q_TYPE_CMPT) in
  let stc2h := bool_decide (st <> 0 /\ q = QDMA_DEV_Q_TYPE_C2H) in
  let banner := if cmpt then EmptyString else banner_line in
  let sect (b : bool) title es := if b then section_lines banner (padl 40 title) es else [] in
  sect (negb cmpt) "SW Context"%string (eqdma_fill_sw_ctxt (qc_sw c)) ++
  sect (negb cmpt) "HW Context"%string (eqdma_fill_hw_ctxt (qc_hw c)) ++
  sect (negb cmpt) "Credit Context"%string (eqdma_fill_credit_ctxt (qc_cr c)) ++
  sect (cmpt || stc2h) "Completion Context"%string (eqdma_fill_cmpt_ctxt (qc_cm c)) ++
  sect stc2h "Prefetch Context"%string (eqdma_fill_pfetch_ctxt (qc_pf c)) ++
  sect true "FMAP Context"%string (eqdma_fill_fmap_ctxt (qc_fmap c)).

Definition intr_lines (c : qdma_indirect_intr_ctxt) (ring_index : Z) : list dump_line :=
  section_lines banner_line (padl 50 "Interrupt Context for ring#" ++ " " ++ fmt_d ring_index)%string
    (eqdma_fill_intr_ctxt c).

(** *** Lengths *)
Definition short_names (es : list qctx_entry) : Prop :=
  Forall (fun e => (String.length (ce_name e) <= 47)%nat) es.

Lemma digits_fuel fuel b v acc : (String.length (digits fuel b v acc) <= fuel + String.length acc)%nat.
Proof.
  revert v acc. induction fuel as [|fuel IH]; intros v acc; cbn; [lia|].
  destruct (v <? b); [cbn; lia|]. etransitivity; [apply IH|cbn; lia].
Qed.

Lemma entry_line_len e : (String.length (ce_name e) <= 47)%nat -> 0 <= line_len (entry_line e) <= 80.
Proof.
  intros Hn. unfold line_len, entry_line. cbn [line_text]. pose proof (digits_fuel 10 10 (ce_value e) "") as Hu.
  pose proof (digits_fuel 8 16 (ce_value e) "") as Hx.
  assert (String.length (fmt_ax (ce_value e)) <= 10)%nat as Ha.
  { unfold fmt_ax. case_decide; [cbn; lia|]. slen. unfold fmt_x. cbn [String.length] in Hx. lia. }
  slen. unfold fmt_u. cbn [String.length] in Hu. lia.
Qed.

(** [c] prints [ls0], of at most [n] bytes, behind what is there. *)
Section printing.
Context {W : Type} `{io : IoMem W} (buf_sz : Z).
Notation dcmd := (cmd (W * text)).

Definition prints (n : Z) (c : Z -> dcmd (option Z)) (ls0 : list dump_line) : Prop :=
  0 <= total_len ls0 <= n /\
  forall w size ls, 0 <= total_len ls -> total_len ls + n + DEBGFS_LINE_SZ < buf_sz <= size ->
    c (total_len ls) (w, mkText size (place 0 ls)) =
      Ok (Some (total_len (ls ++ ls0)), (w, mkText size (place 0 (ls ++ ls0)))).

Lemma prints_nothing : prints 0 (fun len => mret (Some len)) [].
Proof. split; [done|]. intros w size ls _ _. by rewrite app_nil_r. Qed.

Lemma prints_line l : 0 <= line_len l <= 80 -> prints 81 (print buf_sz l) [l].
Proof.
  intros Hl. split; [cbn; lia|]. unfold DEBGFS_LINE_SZ. intros w size ls H0 Hs.
  unfold print, QDMA_SNPRINTF_S, snprintf, DEBGFS_LINE_SZ. unfold mbind, cmd_bind.
  rewrite (decide_False (P := 81 = 0)) by lia. cbn [fst snd tx_size tx_lines]. rewrite decide_True by lia.
  rewrite (decide_False (P := line_len l < 0 \/ _)) by lia.
  rewrite substring_all by (unfold line_len in *; lia). rewrite place_app, total_len_app. cbn [place total_len foldr].
  by rewrite Z.add_0_r.
Qed.

Lemma prints_andthen n1 n2 c1 c2 l1 l2 : prints n1 c1 l1 -> prints n2 c2 l2 ->
  prints (n1 + n2) (fun len => andthen (c1 len) c2) (l1 ++ l2).
Proof.
  intros [L1 H1] [L2 H2]. split; [rewrite total_len_app; lia|]. intros w size ls H0 Hs.
  unfold andthen. erewrite cmd_bind_run by (apply H1; lia). cbv iota.
  rewrite H2 by (rewrite total_len_app; lia). by rewrite app_assoc.
Qed.

Lemma prints_if n (b : bool) c ls : prints n c ls ->
  prints (if b then n else 0) (fun len => if b then c len else mret (Some len)) (if b then ls else []).
Proof. intros H. destruct b; [exact H|apply prints_nothing]. Qed.

Lemma prints_header banner title : (String.length banner <= 76)%nat -> (String.length title <= 79)%nat ->
  prints 243 (print_header buf_sz banner title) (header_lines banner title).
Proof.
  intros Hb Ht. unfold header_lines.
  assert (prints (81 + (81 + 81)) (fun len =>
    andthen (print buf_sz (Verbatim (newline ++ banner)) len) (fun len =>
    andthen (print buf_sz (Verbatim (newline ++ title)) len) (fun len =>
    print buf_sz (Verbatim (newline ++ banner ++ newline)) len)))
    ([Verbatim (newline ++ banner)] ++ [Verbatim (newline ++ title)] ++ [Verbatim (newline ++ banner ++ newline)]))%string
    as [HL H].
  { apply prints_andthen; [|apply prints_andthen]; apply prints_line; unfold line_len; cbn [line_text]; slen; lia. }
  split; [exact HL|]. intros w size ls H0 Hs. unfold print_header, DEBGFS_LINE_SZ in *.
  rewrite decide_False by lia. by apply H.
Qed.

Lemma prints_entries banner title i es : (String.length banner <= 76)%nat -> (String.length title <= 79)%nat ->
  short_names es -> es <> [] \/ i <> 0%nat ->
  prints (81 * Z.of_nat (List.length es) + (if decide (i = 0%nat) then 243 else 0))
    (print_entries buf_sz banner title i es)
    ((if decide (i = 0%nat) then header_lines banner title else []) ++ (entry_line <$> es)).
Proof.
  intros Hb Ht. revert i. induction es as [|e es IH]; intros i Hes Hne.
  { destruct Hne; [done|]. rewrite !decide_False by done. apply prints_nothing. }
  inversion_clear Hes as [|? ? He Hes']. cbn [print_entries].
  pose proof (prints_andthen _ _ _ _ _ _ (prints_line (entry_line e) (entry_line_len e He))
    (IH (S i) Hes' (or_intror (Nat.neq_succ_0 i)))) as Hrest.
  rewrite !(decide_False (P := S i = 0%nat)) in Hrest by lia.
  assert (prints (if decide (i = 0%nat) then 243 else 0)
    (fun len => if decide (i = 0%nat) then print_header buf_sz banner title len else mret (Some len))
    (if decide (i = 0%nat) then header_lines banner title else [])) as Hhead
    by (destruct (decide (i = 0%nat)); [by apply prints_header|apply prints_nothing]).
  pose proof (prints_andthen _ _ _ _ _ _ Hhead Hrest) as [HL H]. cbn [fmap list_fmap List.length app] in *.
  assert (0 <= if decide (i = 0%nat) then 243 else 0) by (case_decide; lia). unfold DEBGFS_LINE_SZ in *.
  split; [lia|]. intros w size ls Hlen Hs. unfold DEBGFS_LINE_SZ in Hs. rewrite decide_False by lia. apply H; [done|lia].
Qed.

Lemma prints_section banner title es : (String.length banner <= 76)%nat -> (String.length title <= 79)%nat ->
  short_names es -> es <> [] ->
  prints (81 * Z.of_nat (List.length es) + 243) (print_entries buf_sz banner title 0 es) (section_lines banner title es).
Proof. intros. apply (prints_entries banner title 0 es); auto. Qed.

Lemma dump_result_run n c ls w size : prints n c ls -> n + DEBGFS_LINE_SZ < buf_sz <= size ->
  dump_result buf_sz (c 0) (w, mkText size []) = Ok (total_len ls, (w, mkText size (place 0 ls))).
Proof.
  intros [HL H] Hs. unfold dump_result. specialize (H w size [] ltac:(done) ltac:(cbn; lia)).
  change (total_len []) with 0 in H. change (place 0 []) with (@nil (Z * string)) in H.
  by rewrite (cmd_bind_run _ _ _ _ _ H).
Qed.
End printing.

Lemma fill_short names values :
  Forall (fun n => (String.length n <= 47)%nat) names -> short_names (fill names values).
Proof.
  intros H. unfold fill. revert values. induction H as [|n names Hn _ IH]; intros [|v values]; cbn; try constructor; try done.
  apply IH.
Qed.
Lemma names_short l : forallb (fun n => (String.length n <=? 47)%nat) l = true ->
  Forall (fun n => (String.length n <= 47)%nat) l.
Proof. intros H. apply Forall_forall. intros n Hn. apply Nat.leb_le. exact (forallb_elem _ _ _ H Hn). Qed.

(** A section whose names are short, by computation. *)
Ltac section := apply prints_section;
  [done|vm_compute; lia|apply fill_short, names_short; vm_compute; reflexivity|discriminate].

Section theorems.
Context {W : Type} `{io : IoMem W}.

Lemma dump_context_run c st q buf_sz size (w : W) : snd (eqdma_context_buf_len st q) <= buf_sz <= size ->
  dump_eqdma_context (Some c) st q buf_sz (w, mkText size []) =
    Ok (total_len (context_lines c st q), (w, mkText size (place 0 (context_lines c st q)))) /\
  0 <= total_len (context_lines c st q) < snd (eqdma_context_buf_len st q).
Proof.
  intros Hs. unfold dump_eqdma_context, context_lines, eqdma_context_buf_len in *. cbn [snd] in *.
  set (cmpt := bool_decide (q = QDMA_DEV_Q_TYPE_CMPT)). set (stc2h := bool_decide (st <> 0 /\ q = QDMA_DEV_Q_TYPE_C2H)).
  assert (forall b1 b2 n1 n2 n3, (b1 = bool_decide (q = QDMA_DEV_Q_TYPE_CMPT)) ->
    b2 = bool_decide (st <> 0 /\ q = QDMA_DEV_Q_TYPE_C2H) ->
    (if decide (q = QDMA_DEV_Q_TYPE_CMPT) then n1 else n2 + (if decide (st <> 0 /\ q = QDMA_DEV_Q_TYPE_C2H) then n3 else 0))
    = (if b1 : bool then n1 else n2 + if b2 : bool then n3 else 0)) as Hif.
  { intros b1 b2 n1 n2 n3 -> ->. rewrite !decide_bool_decide. by destruct (bool_decide _), (bool_decide _). }
  rewrite (Hif cmpt stc2h) in * by reflexivity.
  assert (cmpt = true -> stc2h = false) as Hx.
  { unfold cmpt, stc2h. rewrite bool_decide_eq_true, bool_decide_eq_false. intros ->. by intros []. }
  clearbody cmpt stc2h. clear Hif.
  set (banner := if cmpt then EmptyString else banner_line).
  assert (String.length banner <= 76)%nat as Hban by (destruct cmpt; vm_compute; lia). clearbody banner.
  eassert (prints (W := W) buf_sz _ (fun len =>
      andthen (if negb cmpt then sw_section (qc_sw c) banner buf_sz len else mret (Some len)) (fun len =>
      andthen (if negb cmpt then hw_section (qc_hw c) banner buf_sz len else mret (Some len)) (fun len =>
      andthen (if negb cmpt then credit_section (qc_cr c) banner buf_sz len else mret (Some len)) (fun len =>
      andthen (if cmpt || stc2h then cmpt_section (qc_cm c) banner buf_sz len else mret (Some len)) (fun len =>
      andthen (if stc2h then pfetch_section (qc_pf c) banner buf_sz len else mret (Some len)) (fun len =>
      if true then fmap_section (qc_fmap c) banner buf_sz len else mret (Some len))))))) _) as H.
  { do 5 (eapply prints_andthen; [apply prints_if; section|]). section. }
  lazymatch type of H with prints _ ?n _ _ => assert (n + DEBGFS_LINE_SZ <
    (if cmpt then entries_len eqdma_cmpt_ctxt_entries else entries_len eqdma_sw_ctxt_entries +
       entries_len eqdma_hw_ctxt_entries + entries_len eqdma_credit_ctxt_entries + entries_len eqdma_fmap_ctxt_entries +
     (if stc2h then entries_len eqdma_cmpt_ctxt_entries + entries_len eqdma_c2h_pftch_ctxt_entries else 0))) as Hn end.
  { clear - Hx. destruct cmpt; [rewrite (Hx eq_refl)|destruct stc2h]; vm_compute; reflexivity. }
  split; [apply (dump_result_run buf_sz _ _ _ w size H); lia|].
  destruct H as [HL _]. unfold DEBGFS_LINE_SZ in Hn. lia.
Qed.

Lemma buf_len_range st q : 0 < snd (eqdma_context_buf_len st q) < 2 ^ 31.
Proof.
  unfold eqdma_context_buf_len. cbn [snd].
  repeat case_decide; vm_compute; done.
Qed.

Lemma intr_context_run c ring buf_sz size (w : W) : eqdma_intr_context_buf_len <= buf_sz <= size ->
  dump_eqdma_intr_context c ring buf_sz (w, mkText size []) =
    Ok (total_len (intr_lines c ring), (w, mkText size (place 0 (intr_lines c ring)))) /\
  0 <= total_len (intr_lines c ring) < eqdma_intr_context_buf_len.
Proof.
  intros Hs. set (title := (padl 50 "Interrupt Context for ring#" ++ " " ++ fmt_d ring)%string).
  assert (String.length title <= 79)%nat as Ht.
  { unfold title. slen. unfold fmt_d, fmt_u. pose proof (digits_fuel 10 10 (- s32 ring) "").
    pose proof (digits_fuel 10 10 (s32 ring) ""). case_decide; cbn [String.length] in *; lia. }
  assert (prints (W := W) buf_sz 1053 (print_entries buf_sz banner_line title 0 (eqdma_fill_intr_ctxt c)) (intr_lines c ring)) as H.
  { refine (prints_section buf_sz banner_line title (eqdma_fill_intr_ctxt c) _ _ _ _); [vm_compute; lia|exact Ht|apply fill_short, names_short; vm_compute; reflexivity|discriminate]. }
  unfold dump_eqdma_intr_context. fold title.
  change eqdma_intr_context_buf_len with 2816 in *.
  split; [apply (dump_result_run buf_sz _ _ _ w size H); unfold DEBGFS_LINE_SZ; lia|]. destruct H as [HL _]. lia.
Qed.

(** The dump of the contexts of a queue, and of an interrupt ring, fits the buffer
    [eqdma_context_buf_len] and [eqdma_intr_context_buf_len] ask for: the text is
    the lines of its sections one behind the other, and the result its length.  A
    smaller buffer is refused and not touched. *)
Lemma context_dump_fits c st q buflen size (w : W) : q <> Q_TYPE_MAX -> 0 <= buflen < 2 ^ 31 -> buflen <= size ->
  eqdma_dump_queue_context (Some 0) st q (Some c) true buflen (w, mkText size []) =
    (if decide (buflen < snd (eqdma_context_buf_len st q)) then Ok (- QDMA_ERR_NO_MEM, (w, mkText size []))
     else Ok (total_len (context_lines c st q), (w, mkText size (place 0 (context_lines c st q))))).
Proof.
  intros Hq Hb Hs. unfold eqdma_dump_queue_context. cbn [negb]. rewrite (decide_False (P := q = _)) by done.
  destruct (eqdma_context_buf_len st q) as [rv req] eqn:E. assert (rv = 0) as -> by by injection E.
  rewrite (decide_False (P := 0 <> QDMA_SUCCESS)) by (intros H; by apply H). cbn [snd]. case_decide as Hl; [done|].
  replace (s32 buflen) with buflen by int_lia.
  apply dump_context_run. rewrite E. cbn [snd]. lia.
Qed.

Lemma intr_dump_fits c ring buflen size (w : W) : 0 <= buflen < 2 ^ 31 -> buflen <= size ->
  eqdma_dump_intr_context (Some 0) (Some c) ring true buflen (w, mkText size []) =
    (if decide (buflen < eqdma_intr_context_buf_len) then Ok (- QDMA_ERR_NO_MEM, (w, mkText size []))
     else Ok (total_len (intr_lines c ring), (w, mkText size (place 0 (intr_lines c ring))))).
Proof.
  intros Hb Hs. unfold eqdma_dump_intr_context. cbn [negb]. case_decide; [done|].
  replace (s32 buflen) with buflen by int_lia. apply intr_context_run. lia.
Qed.
End theorems.

(** ** What the device holds *)
Section reading.
Context {W : Type} `{io : IoMem W} `{ic : IndCtxt W} (dev : Z) `{ok : !IndCtxtOk W dev}.

(** Reading leaves the context memory as it is. *)
Definition unread (w w1 : W) : Prop := idle w1 /\ ih_ctxt (ind w1) = ih_ctxt (ind w).

Lemma read_prompt sel q n w : prompt (W := W) -> idle w -> (n <= 8)%nat -> 0 <= q < 4096 -> exists w1,
  eqdma_indirect_reg_read dev sel q n w = Ok (QDMA_SUCCESS, take n (ctxt_at (ind w) (sel_val sel, q)), w1) /\
  unread w w1.
Proof.
  intros Hp Hi Hn Hq. destruct (read_run dev sel q n w Hi Hn) as (lat & w1 & w2 & E & [Hlat H1] & H2).
  destruct (answer_prompt lat Hp Hlat) as [Ha H0]. rewrite Ha in E. rewrite H0, exec_read in H1 by done.
  destruct Hlat as [w0 ->]. rewrite decide_True in E by apply Hp. exists w2. unfold unread, idle.
  rewrite H2, H1 in *. done.
Qed.

(** The members of a context are those of its words in the device. *)
Lemma conf_read {C} (of_words : list Z -> outcome C) c0 sel q n w : prompt (W := W) -> idle w -> (n <= 8)%nat ->
  0 <= q < 4096 -> (forall l, List.length l = n -> exists c, of_words l = Ok c) -> exists c w1,
  of_words (take n (ctxt_at (ind w) (sel_val sel, q))) = Ok c /\
  ('(rv, words) ← eqdma_indirect_reg_read dev sel q n;
   if decide (rv < 0) then mret (rv, c0) else c' ← lift (of_words words); mret (QDMA_SUCCESS, Some c')) w =
    Ok (QDMA_SUCCESS, Some c, w1) /\ unread w w1.
Proof.
  intros Hp Hi Hn Hq Hw. destruct (read_prompt sel q n w Hp Hi Hn Hq) as (w1 & E & H1).
  destruct (Hw (take n (ctxt_at (ind w) (sel_val sel, q)))) as [c Hc].
  { rewrite length_take. pose proof (iw_ctxt _ (ind_ok w) (sel_val sel, q)) as Hl. lia. }
  exists c, w1. split; [done|]. split; [|done]. rewrite (cmd_bind_run _ _ _ _ _ E). cbv beta iota.
  rewrite decide_False by (unfold QDMA_SUCCESS; lia). by rewrite (cmd_bind_run _ _ _ _ _ (lift_run _ _ _ Hc)).
Qed.

(** A device that never answers in time. *)
Definition never : Prop := forall w, (MAX_POLLS < ind_latency w)%nat.
Lemma conf_read_slow {C} (of_words : list Z -> outcome C) (c0 : option C) sel q n w : never -> idle w -> (n <= 8)%nat ->
  exists w1,
  ('(rv, words) ← eqdma_indirect_reg_read dev sel q n;
   if decide (rv < 0) then mret (rv, c0) else c' ← lift (of_words words); mret (QDMA_SUCCESS, Some c')) w =
    Ok (- QDMA_ERR_HWACC_BUSY_TIMEOUT, c0, w1).
Proof.
  intros Hs Hi Hn. destruct (read_run dev sel q n w Hi Hn) as (lat & w1 & w2 & E & [[w0 ->] _] & _).
  specialize (Hs w0). unfold answer in E. rewrite decide_False in E by lia. exists w2.
  rewrite (cmd_bind_run _ _ _ _ _ E). reflexivity.
Qed.

(** The context [c] is what a dump of queue [q] shows: every context that is read is
    unpacked from the words in the device; the others are zero. *)
Definition held {C} (b : bool) (of_words : list Z -> outcome C) (n : nat) (w : W) (sel : ind_ctxt_cmd_sel) (q : Z)
    (zero c : C) : Prop :=
  if b then of_words (take n (ctxt_at (ind w) (sel_val sel, q))) = Ok c else c = zero.

Definition shown (w : W) (func qid st : Z) (q : q_type) (c : qdma_descq_context) : Prop :=
  let cmpt := bool_decide (q = QDMA_DEV_Q_TYPE_CMPT) in
  let c2h := bool_decide (q = QDMA_DEV_Q_TYPE_C2H) in
  let stq := bool_decide (st <> 0) in
  held (negb cmpt) sw_of_words 8 w (sw_sel (q_val q)) qid (qc_sw zero_context) (qc_sw c) /\
  held (negb cmpt) hw_of_words 2 w (hw_sel (q_val q)) qid (qc_hw zero_context) (qc_hw c) /\
  held (negb cmpt) cr_of_words 1 w (cr_sel (q_val q)) qid (qc_cr zero_context) (qc_cr c) /\
  held (negb cmpt && (stq && c2h)) pf_of_words 2 w QDMA_CTXT_SEL_PFTCH qid (qc_pf zero_context) (qc_pf c) /\
  held ((stq && c2h) || (negb stq && cmpt)) cm_of_words 6 w QDMA_CTXT_SEL_CMPT qid (qc_cm zero_context) (qc_cm c) /\
  held true fm_of_words 2 w QDMA_CTXT_SEL_FMAP func (qc_fmap zero_context) (qc_fmap c).

(** One of the reads, wherever the context memory is still that of [w0]. *)
Definition reads_one {C} (b : bool) (read : option C -> qdma_hw_access_type -> cmd W (Z * option C)) (zero : C)
    (P : C -> Prop) (w0 : W) : Prop :=
  forall w, unread w0 w -> exists c w1, read_one b read zero w = Ok (inr c, w1) /\ P c /\ unread w0 w1.

Lemma read_one_run {C} b (read : option C -> qdma_hw_access_type -> cmd W (Z * option C)) of_words zero sel q n w0 :
  prompt (W := W) -> 0 <= q < 4096 -> (forall l, List.length l = n -> exists c, of_words l = Ok c) ->
  (b = true -> read (Some zero) QDMA_HW_ACCESS_READ =
    ('(rv, words) ← eqdma_indirect_reg_read dev sel q n;
     if decide (rv < 0) then mret (rv, Some zero) else c' ← lift (of_words words); mret (QDMA_SUCCESS, Some c'))) ->
  (n <= 8)%nat ->
  reads_one b read zero (held b of_words n w0 sel q zero) w0.
Proof.
  intros Hp Hq Hw Hr Hn w [Hi Hc]. unfold read_one, held. destruct b; [|by exists zero, w].
  destruct (conf_read of_words (Some zero) sel q n w Hp Hi Hn Hq Hw) as (c & w1 & Ec & E & Hi1 & Hc1).
  exists c, w1. rewrite (Hr eq_refl). rewrite (cmd_bind_run _ _ _ _ _ E). split; [done|].
  unfold ctxt_at in *. rewrite Hc in Ec. split; [done|]. split; [done|]. by rewrite Hc1, Hc.
Qed.

Lemma or_return_run {C A} b read (zero : C) P (k : C -> cmd W (Z + A)) w0 w (Q : A -> W -> Prop) :
  reads_one b read zero P w0 -> unread w0 w ->
  (forall c w1, P c -> unread w0 w1 -> exists a w2, k c w1 = Ok (inr a, w2) /\ Q a w2) ->
  exists a w2, or_return (read_one b read zero) k w = Ok (inr a, w2) /\ Q a w2.
Proof.
  intros Hr Hw Hk. destruct (Hr w Hw) as (c & w1 & E & Hc & H1). destruct (Hk c w1 Hc H1) as (a & w2 & E2 & Ha).
  exists a, w2. unfold or_return. by rewrite (cmd_bind_run _ _ _ _ _ E).
Qed.

(** The dispatch functions that check the direction accept that of a queue. *)
Ltac of_q q := intros Hb; first [reflexivity|destruct q; first [reflexivity|discriminate Hb|done]].

Lemma read_contexts_run func qid st q w : prompt (W := W) -> idle w -> 0 <= qid < 4096 -> 0 <= func < 4096 -> q <> Q_TYPE_MAX ->
  exists c w1, read_contexts dev func qid st q w = Ok (inr c, w1) /\ shown w func qid st q c /\ unread w w1.
Proof.
  intros Hp Hi Hq Hf Hmax. unfold read_contexts, shown.
  eapply or_return_run; [apply read_one_run; [exact Hp|exact Hq|exact sw_words_ok|of_q q|vm_compute; lia]|done|intros sw w1 Hsw H1].
  eapply or_return_run; [apply read_one_run; [exact Hp|exact Hq|exact hw_words_ok|of_q q|vm_compute; lia]|done|intros hw w2 Hhw H2].
  eapply or_return_run; [apply read_one_run; [exact Hp|exact Hq|exact cr_words_ok|of_q q|vm_compute; lia]|done|intros cr w3 Hcr H3].
  eapply or_return_run; [apply read_one_run; [exact Hp|exact Hq|exact pf_words_ok|of_q q|vm_compute; lia]|done|intros pf w4 Hpf H4].
  eapply or_return_run; [apply read_one_run; [exact Hp|exact Hq|exact cm_words_ok|of_q q|vm_compute; lia]|done|intros cm w5 Hcm H5].
  eapply or_return_run; [apply read_one_run; [exact Hp|exact Hf|exact fm_words_ok|of_q q|vm_compute; lia]|done|intros fm w6 Hfm H6].
  eexists _, w6. split; [reflexivity|]. split; [|exact H6]. cbn [qc_sw qc_hw qc_cr qc_pf qc_cm qc_fmap].
  exact (conj Hsw (conj Hhw (conj Hcr (conj Hpf (conj Hcm Hfm))))).
Qed.

(** C21. Reading and dumping the contexts of a queue.  On a device that answers in
    time, with a buffer of at least the size the driver asks for, the text is that of
    the contexts in the device: the software, hardware and credit context of the
    queue, the prefetch and completion context of a streaming C2H queue, and the queue
    range of the function, each unpacked from its words; nothing is written behind the
    buffer, and the context memory stays as it is.  For a completion queue the
    completion context is read only without streaming; with it, the context printed
    is zero whatever the device holds.  A buffer that is too small is refused before
    anything is read. *)
Theorem read_dump_shows_contexts func qid st q buflen size w : prompt (W := W) -> idle w ->
  0 <= qid < 4096 -> 0 <= func < 4096 -> q <> Q_TYPE_MAX -> 0 <= buflen < 2 ^ 31 -> buflen <= size ->
  if decide (buflen < snd (eqdma_context_buf_len st q))
  then eqdma_read_dump_queue_context (Some dev) func qid st q true buflen (w, mkText size []) =
    Ok (- QDMA_ERR_NO_MEM, (w, mkText size []))
  else exists c w1, let ls := context_lines c st q in
    eqdma_read_dump_queue_context (Some dev) func qid st q true buflen (w, mkText size []) =
      Ok (total_len ls, (w1, mkText size (place 0 ls))) /\
    0 <= total_len ls < buflen /\ shown w func qid st q c /\ unread w w1.
Proof.
  intros Hp Hi Hq Hf Hmax Hb Hs. unfold eqdma_read_dump_queue_context. cbn [negb].
  rewrite (decide_False (P := q = _)) by done.
  destruct (eqdma_context_buf_len st q) as [rv req] eqn:E. assert (rv = 0) as -> by by injection E.
  rewrite (decide_False (P := 0 <> QDMA_SUCCESS)) by (intros H; by apply H). cbn [snd]. case_decide as Hl; [done|].
  destruct (read_contexts_run func qid st q w Hp Hi Hq Hf Hmax) as (c & w1 & Ec & Hc & Hw1).
  destruct (dump_context_run c st q buflen size w1) as [Hd Hlen]; [rewrite E; cbn [snd]; lia|].
  rewrite E in Hlen. cbn [snd] in Hlen.
  exists c, w1. split; [|split; [lia|done]]. erewrite cmd_bind_run by (apply on_dev_run, Ec).
  replace (s32 buflen) with buflen by int_lia. exact Hd.
Qed.

(** On a device that never answers, the first read fails and nothing is printed. *)
Lemma read_dump_slow func qid st q buflen (t : text) w : never -> idle w -> q <> Q_TYPE_MAX ->
  snd (eqdma_context_buf_len st q) <= buflen -> exists w1,
  eqdma_read_dump_queue_context (Some dev) func qid st q true buflen (w, t) =
    Ok (- QDMA_ERR_HWACC_BUSY_TIMEOUT, (w1, t)).
Proof.
  intros Hs Hi Hmax Hb. unfold eqdma_read_dump_queue_context. cbn [negb]. rewrite (decide_False (P := q = _)) by done.
  destruct (eqdma_context_buf_len st q) as [rv req] eqn:E. assert (rv = 0) as -> by by injection E.
  rewrite (decide_False (P := 0 <> QDMA_SUCCESS)) by (intros H; by apply H). cbn [snd] in Hb.
  rewrite decide_False by lia.
  assert (exists w1, read_contexts dev func qid st q w = Ok (inl (- QDMA_ERR_HWACC_BUSY_TIMEOUT), w1)) as [w1 Er];
    [|exists w1; by erewrite cmd_bind_run by (apply on_dev_run, Er)].
  assert (forall C (read : option C -> qdma_hw_access_type -> cmd W (Z * option C)) zero (k : C -> cmd W (Z + qdma_descq_context)) w1,
    read (Some zero) QDMA_HW_ACCESS_READ w = Ok (- QDMA_ERR_HWACC_BUSY_TIMEOUT, Some zero, w1) ->
    or_return (read_one true read zero) k w = Ok (inl (- QDMA_ERR_HWACC_BUSY_TIMEOUT), w1)) as Hfail.
  { intros C read zero k w1 H. unfold or_return, read_one. unfold mbind, cmd_bind. by rewrite H. }
  unfold read_contexts. destruct q; [| | |done].
  - destruct (conf_read_slow sw_of_words (Some (qc_sw zero_context)) (sw_sel 0) qid 8 w Hs Hi ltac:(lia)) as [w1 H].
    exists w1. apply Hfail, H.
  - destruct (conf_read_slow sw_of_words (Some (qc_sw zero_context)) (sw_sel 1) qid 8 w Hs Hi ltac:(lia)) as [w1 H].
    exists w1. apply Hfail, H.
  - destruct (bool_decide (st <> 0)).
    + destruct (conf_read_slow fm_of_words (Some (qc_fmap zero_context)) QDMA_CTXT_SEL_FMAP func 2 w Hs Hi ltac:(lia)) as [w1 H].
      exists w1. apply (Hfail _ (eqdma_fmap_conf (Some dev) func)), H.
    + destruct (conf_read_slow cm_of_words (Some (qc_cm zero_context)) QDMA_CTXT_SEL_CMPT qid 6 w Hs Hi ltac:(lia)) as [w1 H].
      exists w1. apply (Hfail _ (eqdma_cmpt_ctx_conf (Some dev) qid)), H.
Qed.
End reading.

(** ** Witnesses: queue 5 of the automaton of [Indirect], a completion context there *)
Definition dump_hw : ind_hw := mkHw zero_ctxt zero_ctxt {[ (6, 5) := [3; 0; 0; 0x10000000; 0; 0; 0; 0] ]} 0.

Lemma read_dump_shows_contexts_witness :
  let io := hw_iomem 3 in let ic := hw_ctxt 3 in
  exists c w1, let ls := context_lines c 1 QDMA_DEV_Q_TYPE_CMPT in
    eqdma_read_dump_queue_context (Some 0) 1 5 1 QDMA_DEV_Q_TYPE_CMPT true 7168 (dump_hw, mkText 7168 []) =
      Ok (total_len ls, (w1, mkText 7168 (place 0 ls))) /\
    0 <= total_len ls < 7168 /\ shown dump_hw 1 5 1 QDMA_DEV_Q_TYPE_CMPT c /\ unread dump_hw w1.
Proof.
  intros io ic.
  pose proof (read_dump_shows_contexts (ok := hw_ok 3) 0 1 5 1 QDMA_DEV_Q_TYPE_CMPT 7168 7168 dump_hw
    hw0_prompt eq_refl ltac:(lia) ltac:(lia) ltac:(discriminate) ltac:(lia) ltac:(lia)) as H.
  rewrite decide_False in H by (vm_compute; discriminate). exact H.
Defined.

(** There the device holds a valid context with interrupts enabled; it is printed
    without streaming, and zeros are printed with it. *)
Example cmpt_dump_depends_on_st :
  let io := hw_iomem 3 in
  let dump st := match eqdma_read_dump_queue_context (Some 0) 1 5 st QDMA_DEV_Q_TYPE_CMPT true 7168
                         (dump_hw, mkText 7168 []) with
    | Ok (_, (_, t)) => snd <$> tx_lines t !! 4%nat | Fault _ => None end in
  dump 0 = Some (line_text (EntryLine "Enable Interrupt" 1)) /\
  dump 1 = Some (line_text (EntryLine "Enable Interrupt" 0)).
Proof. split; vm_compute; reflexivity. Qed.
