(* ===== verification/ErrTable.v ===== *)
(** * eqdma_soft_access.c: the table of hardware errors

    The error numbers ([enum eqdma_error_idx]), and for each of them its name, the
    registers its group is masked and reported in, its bits in them, the bit of its
    group in the global registers, and the function that prints what is known about
    it; the groups' first and last entries.  The masks have the values
    eqdma_soft_reg.h gives them.  [HwErr] has the functions and the theorems. *)

From S2P Require Import Prelude Fields.
From Stdlib Require Import String.

Open Scope Z_scope.

(** ** Error numbers *)
Definition EQDMA_DSC_ERR_POISON : Z := 0.
Definition EQDMA_DSC_ERR_UR_CA : Z := 1.
Definition EQDMA_DSC_ERR_BCNT : Z := 2.
Definition EQDMA_DSC_ERR_PARAM : Z := 3.
Definition EQDMA_DSC_ERR_ADDR : Z := 4.
Definition EQDMA_DSC_ERR_TAG : Z := 5.
Definition EQDMA_DSC_ERR_FLR : Z := 6.
Definition EQDMA_DSC_ERR_TIMEOUT : Z := 7.
Definition EQDMA_DSC_ERR_DAT_POISON : Z := 8.
Definition EQDMA_DSC_ERR_FLR_CANCEL : Z := 9.
Definition EQDMA_DSC_ERR_DMA : Z := 10.
Definition EQDMA_DSC_ERR_DSC : Z := 11.
Definition EQDMA_DSC_ERR_RQ_CANCEL : Z := 12.
Definition EQDMA_DSC_ERR_DBE : Z := 13.
Definition EQDMA_DSC_ERR_SBE : Z := 14.
Definition EQDMA_DSC_ERR_PORT_ID : Z := 15.
Definition EQDMA_DSC_ERR_ALL : Z := 16.
Definition EQDMA_TRQ_ERR_CSR_UNMAPPED : Z := 17.
Definition EQDMA_TRQ_ERR_VF_ACCESS : Z := 18.
Definition EQDMA_TRQ_ERR_TCP_CSR_TIMEOUT : Z := 19.
Definition EQDMA_TRQ_ERR_QSPC_UNMAPPED : Z := 20.
Definition EQDMA_TRQ_ERR_QID_RANGE : Z := 21.
Definition EQDMA_TRQ_ERR_TCP_QSPC_TIMEOUT : Z := 22.
Definition EQDMA_TRQ_ERR_ALL : Z := 23.
Definition EQDMA_ST_C2H_ERR_MTY_MISMATCH : Z := 24.
Definition EQDMA_ST_C2H_ERR_LEN_MISMATCH : Z := 25.
Definition EQDMA_ST_C2H_ERR_SH_CMPT_DSC : Z := 26.
Definition EQDMA_ST_C2H_ERR_QID_MISMATCH : Z := 27.
Definition EQDMA_ST_C2H_ERR_DESC_RSP_ERR : Z := 28.
Definition EQDMA_ST_C2H_ERR_ENG_WPL_DATA_PAR_ERR : Z := 29.
Definition EQDMA_ST_C2H_ERR_MSI_INT_FAIL : Z := 30.
Definition EQDMA_ST_C2H_ERR_ERR_DESC_CNT : Z := 31.
Definition EQDMA_ST_C2H_ERR_PORTID_CTXT_MISMATCH : Z := 32.
Definition EQDMA_ST_C2H_ERR_CMPT_INV_Q_ERR : Z := 33.
Definition EQDMA_ST_C2H_ERR_CMPT_QFULL_ERR : Z := 34.
Definition EQDMA_ST_C2H_ERR_CMPT_CIDX_ERR : Z := 35.
Definition EQDMA_ST_C2H_ERR_CMPT_PRTY_ERR : Z := 36.
Definition EQDMA_ST_C2H_ERR_AVL_RING_DSC : Z := 37.
Definition EQDMA_ST_C2H_ERR_HDR_ECC_UNC : Z := 38.
Definition EQDMA_ST_C2H_ERR_HDR_ECC_COR : Z := 39.
Definition EQDMA_ST_C2H_ERR_WRB_PORT_ID_ERR : Z := 40.
Definition EQDMA_ST_C2H_ERR_ALL : Z := 41.
Definition EQDMA_ST_FATAL_ERR_MTY_MISMATCH : Z := 42.
Definition EQDMA_ST_FATAL_ERR_LEN_MISMATCH : Z := 43.
Definition EQDMA_ST_FATAL_ERR_QID_MISMATCH : Z := 44.
Definition EQDMA_ST_FATAL_ERR_TIMER_FIFO_RAM_RDBE : Z := 45.
Definition EQDMA_ST_FATAL_ERR_PFCH_II_RAM_RDBE : Z := 46.
Definition EQDMA_ST_FATAL_ERR_CMPT_CTXT_RAM_RDBE : Z := 47.
Definition EQDMA_ST_FATAL_ERR_PFCH_CTXT_RAM_RDBE : Z := 48.
Definition EQDMA_ST_FATAL_ERR_DESC_REQ_FIFO_RAM_RDBE : Z := 49.
Definition EQDMA_ST_FATAL_ERR_INT_CTXT_RAM_RDBE : Z := 50.
Definition EQDMA_ST_FATAL_ERR_CMPT_COAL_DATA_RAM_RDBE : Z := 51.
Definition EQDMA_ST_FATAL_ERR_CMPT_FIFO_RAM_RDBE : Z := 52.
Definition EQDMA_ST_FATAL_ERR_QID_FIFO_RAM_RDBE : Z := 53.
Definition EQDMA_ST_FATAL_ERR_PAYLOAD_FIFO_RAM_RDBE : Z := 54.
Definition EQDMA_ST_FATAL_ERR_WPL_DATA_PAR : Z := 55.
Definition EQDMA_ST_FATAL_ERR_AVL_RING_FIFO_RAM_RDBE : Z := 56.
Definition EQDMA_ST_FATAL_ERR_HDR_ECC_UNC : Z := 57.
Definition EQDMA_ST_FATAL_ERR_ALL : Z := 58.
Definition EQDMA_ST_H2C_ERR_ZERO_LEN_DESC : Z := 59.
Definition EQDMA_ST_H2C_ERR_SDI_MRKR_REQ_MOP : Z := 60.
Definition EQDMA_ST_H2C_ERR_NO_DMA_DSC : Z := 61.
Definition EQDMA_ST_H2C_ERR_SBE : Z := 62.
Definition EQDMA_ST_H2C_ERR_DBE : Z := 63.
Definition EQDMA_ST_H2C_ERR_PAR : Z := 64.
Definition EQDMA_ST_H2C_ERR_ALL : Z := 65.
Definition EQDMA_SBE_1_ERR_RC_RRQ_EVEN_RAM : Z := 66.
Definition EQDMA_SBE_1_ERR_TAG_ODD_RAM : Z := 67.
Definition EQDMA_SBE_1_ERR_TAG_EVEN_RAM : Z := 68.
Definition EQDMA_SBE_1_ERR_PFCH_CTXT_CAM_RAM_0 : Z := 69.
Definition EQDMA_SBE_1_ERR_PFCH_CTXT_CAM_RAM_1 : Z := 70.
Definition EQDMA_SBE_1_ERR_ALL : Z := 71.
Definition EQDMA_SBE_ERR_MI_H2C0_DAT : Z := 72.
Definition EQDMA_SBE_ERR_MI_H2C1_DAT : Z := 73.
Definition EQDMA_SBE_ERR_MI_H2C2_DAT : Z := 74.
Definition EQDMA_SBE_ERR_MI_H2C3_DAT : Z := 75.
Definition EQDMA_SBE_ERR_MI_C2H0_DAT : Z := 76.
Definition EQDMA_SBE_ERR_MI_C2H1_DAT : Z := 77.
Definition EQDMA_SBE_ERR_MI_C2H2_DAT : Z := 78.
Definition EQDMA_SBE_ERR_MI_C2H3_DAT : Z := 79.
Definition EQDMA_SBE_ERR_H2C_RD_BRG_DAT : Z := 80.
Definition EQDMA_SBE_ERR_H2C_WR_BRG_DAT : Z := 81.
Definition EQDMA_SBE_ERR_C2H_RD_BRG_DAT : Z := 82.
Definition EQDMA_SBE_ERR_C2H_WR_BRG_DAT : Z := 83.
Definition EQDMA_SBE_ERR_FUNC_MAP : Z := 84.
Definition EQDMA_SBE_ERR_DSC_HW_CTXT : Z := 85.
Definition EQDMA_SBE_ERR_DSC_CRD_RCV : Z := 86.
Definition EQDMA_SBE_ERR_DSC_SW_CTXT : Z := 87.
Definition EQDMA_SBE_ERR_DSC_CPLI : Z := 88.
Definition EQDMA_SBE_ERR_DSC_CPLD : Z := 89.
Definition EQDMA_SBE_ERR_MI_TL_SLV_FIFO_RAM : Z := 90.
Definition EQDMA_SBE_ERR_TIMER_FIFO_RAM : Z := 91.
Definition EQDMA_SBE_ERR_QID_FIFO_RAM : Z := 92.
Definition EQDMA_SBE_ERR_WRB_COAL_DATA_RAM : Z := 93.
Definition EQDMA_SBE_ERR_INT_CTXT_RAM : Z := 94.
Definition EQDMA_SBE_ERR_DESC_REQ_FIFO_RAM : Z := 95.
Definition EQDMA_SBE_ERR_PFCH_CTXT_RAM : Z := 96.
Definition EQDMA_SBE_ERR_WRB_CTXT_RAM : Z := 97.
Definition EQDMA_SBE_ERR_PFCH_LL_RAM : Z := 98.
Definition EQDMA_SBE_ERR_PEND_FIFO_RAM : Z := 99.
Definition EQDMA_SBE_ERR_RC_RRQ_ODD_RAM : Z := 100.
Definition EQDMA_SBE_ERR_ALL : Z := 101.
Definition EQDMA_DBE_1_ERR_RC_RRQ_EVEN_RAM : Z := 102.
Definition EQDMA_DBE_1_ERR_TAG_ODD_RAM : Z := 103.
Definition EQDMA_DBE_1_ERR_TAG_EVEN_RAM : Z := 104.
Definition EQDMA_DBE_1_ERR_PFCH_CTXT_CAM_RAM_0 : Z := 105.
Definition EQDMA_DBE_1_ERR_PFCH_CTXT_CAM_RAM_1 : Z := 106.
Definition EQDMA_DBE_1_ERR_ALL : Z := 107.
Definition EQDMA_DBE_ERR_MI_H2C0_DAT : Z := 108.
Definition EQDMA_DBE_ERR_MI_H2C1_DAT : Z := 109.
Definition EQDMA_DBE_ERR_MI_H2C2_DAT : Z := 110.
Definition EQDMA_DBE_ERR_MI_H2C3_DAT : Z := 111.
Definition EQDMA_DBE_ERR_MI_C2H0_DAT : Z := 112.
Definition EQDMA_DBE_ERR_MI_C2H1_DAT : Z := 113.
Definition EQDMA_DBE_ERR_MI_C2H2_DAT : Z := 114.
Definition EQDMA_DBE_ERR_MI_C2H3_DAT : Z := 115.
Definition EQDMA_DBE_ERR_H2C_RD_BRG_DAT : Z := 116.
Definition EQDMA_DBE_ERR_H2C_WR_BRG_DAT : Z := 117.
Definition EQDMA_DBE_ERR_C2H_RD_BRG_DAT : Z := 118.
Definition EQDMA_DBE_ERR_C2H_WR_BRG_DAT : Z := 119.
Definition EQDMA_DBE_ERR_FUNC_MAP : Z := 120.
Definition EQDMA_DBE_ERR_DSC_HW_CTXT : Z := 121.
Definition EQDMA_DBE_ERR_DSC_CRD_RCV : Z := 122.
Definition EQDMA_DBE_ERR_DSC_SW_CTXT : Z := 123.
Definition EQDMA_DBE_ERR_DSC_CPLI : Z := 124.
Definition EQDMA_DBE_ERR_DSC_CPLD : Z := 125.
Definition EQDMA_DBE_ERR_MI_TL_SLV_FIFO_RAM : Z := 126.
Definition EQDMA_DBE_ERR_TIMER_FIFO_RAM : Z := 127.
Definition EQDMA_DBE_ERR_QID_FIFO_RAM : Z := 128.
Definition EQDMA_DBE_ERR_WRB_COAL_DATA_RAM : Z := 129.
Definition EQDMA_DBE_ERR_INT_CTXT_RAM : Z := 130.
Definition EQDMA_DBE_ERR_DESC_REQ_FIFO_RAM : Z := 131.
Definition EQDMA_DBE_ERR_PFCH_CTXT_RAM : Z := 132.
Definition EQDMA_DBE_ERR_WRB_CTXT_RAM : Z := 133.
Definition EQDMA_DBE_ERR_PFCH_LL_RAM : Z := 134.
Definition EQDMA_DBE_ERR_PEND_FIFO_RAM : Z := 135.
Definition EQDMA_DBE_ERR_RC_RRQ_ODD_RAM : Z := 136.
Definition EQDMA_DBE_ERR_ALL : Z := 137.
Definition EQDMA_MM_C2H_WR_SLR_ERR : Z := 138.
Definition EQDMA_MM_C2H_RD_SLR_ERR : Z := 139.
Definition EQDMA_MM_C2H_WR_FLR_ERR : Z := 140.
Definition EQDMA_MM_C2H_UR_ERR : Z := 141.
Definition EQDMA_MM_C2H_WR_UC_RAM_ERR : Z := 142.
Definition EQDMA_MM_C2H_ERR_ALL : Z := 143.
Definition EQDMA_MM_H2C0_RD_HDR_POISON_ERR : Z := 144.
Definition EQDMA_MM_H2C0_RD_UR_CA_ERR : Z := 145.
Definition EQDMA_MM_H2C0_RD_HDR_BYTE_ERR : Z := 146.
Definition EQDMA_MM_H2C0_RD_HDR_PARAM_ERR : Z := 147.
Definition EQDMA_MM_H2C0_RD_HDR_ADR_ERR : Z := 148.
Definition EQDMA_MM_H2C0_RD_FLR_ERR : Z := 149.
Definition EQDMA_MM_H2C0_RD_DAT_POISON_ERR : Z := 150.
Definition EQDMA_MM_H2C0_RD_RQ_DIS_ERR : Z := 151.
Definition EQDMA_MM_H2C0_WR_DEC_ERR : Z := 152.
Definition EQDMA_MM_H2C0_WR_SLV_ERR : Z := 153.
Definition EQDMA_MM_H2C0_ERR_ALL : Z := 154.
Definition EQDMA_ERRS_ALL : Z := 155.

(** ** Registers *)
Definition EQDMA_GLBL_DSC_ERR_MSK_ADDR : Z := 0x258.
Definition EQDMA_GLBL_DSC_ERR_STS_ADDR : Z := 0x254.
Definition EQDMA_GLBL_TRQ_ERR_MSK_ADDR : Z := 0x268.
Definition EQDMA_GLBL_TRQ_ERR_STS_ADDR : Z := 0x264.
Definition EQDMA_C2H_ERR_MASK_ADDR : Z := 0xAF4.
Definition EQDMA_C2H_ERR_STAT_ADDR : Z := 0xAF0.
Definition EQDMA_C2H_FATAL_ERR_MASK_ADDR : Z := 0xAFC.
Definition EQDMA_C2H_FATAL_ERR_STAT_ADDR : Z := 0xAF8.
Definition EQDMA_H2C_ERR_MASK_ADDR : Z := 0xE04.
Definition EQDMA_H2C_ERR_STAT_ADDR : Z := 0xE00.
Definition EQDMA_RAM_SBE_MSK_1_A_ADDR : Z := 0xE0.
Definition EQDMA_RAM_SBE_STS_1_A_ADDR : Z := 0xE4.
Definition EQDMA_RAM_SBE_MSK_A_ADDR : Z := 0xF0.
Definition EQDMA_RAM_SBE_STS_A_ADDR : Z := 0xF4.
Definition EQDMA_RAM_DBE_MSK_1_A_ADDR : Z := 0xE8.
Definition EQDMA_RAM_DBE_STS_1_A_ADDR : Z := 0xEC.
Definition EQDMA_RAM_DBE_MSK_A_ADDR : Z := 0xF8.
Definition EQDMA_RAM_DBE_STS_A_ADDR : Z := 0xFC.
Definition EQDMA_C2H_MM_ERR_CODE_ENABLE_MASK_ADDR : Z := 0x1054.
Definition EQDMA_C2H_MM_STATUS_ADDR : Z := 0x1040.
Definition EQDMA_H2C_MM_ERR_CODE_ENABLE_MASK_ADDR : Z := 0x1254.
Definition EQDMA_H2C_MM_STATUS_ADDR : Z := 0x1240.
Definition EQDMA_GLBL_ERR_STAT_ADDR : Z := 0x248.
Definition EQDMA_GLBL_ERR_MASK_ADDR : Z := 0x24C.
Definition EQDMA_GLBL_DSC_ERR_LOG0_ADDR : Z := 0x25C.
Definition EQDMA_GLBL_DSC_ERR_LOG1_ADDR : Z := 0x260.
Definition EQDMA_GLBL_DSC_DBG_DAT0_ADDR : Z := 0x270.
Definition EQDMA_GLBL_DSC_DBG_DAT1_ADDR : Z := 0x274.
Definition EQDMA_GLBL_DSC_ERR_LOG2_ADDR : Z := 0x27C.
Definition EQDMA_GLBL_TRQ_ERR_LOG_ADDR : Z := 0x26C.
Definition EQDMA_H2C_FIRST_ERR_QID_ADDR : Z := 0xE08.
Definition EQDMA_H2C_DBG_REG0_ADDR : Z := 0xE0C.
Definition EQDMA_H2C_DBG_REG1_ADDR : Z := 0xE10.
Definition EQDMA_H2C_DBG_REG2_ADDR : Z := 0xE14.
Definition EQDMA_H2C_DBG_REG3_ADDR : Z := 0xE18.
Definition EQDMA_H2C_DBG_REG4_ADDR : Z := 0xE1C.
Definition EQDMA_C2H_FIRST_ERR_QID_ADDR : Z := 0xB30.
Definition EQDMA_C2H_STAT_S_AXIS_C2H_ACCEPTED_ADDR : Z := 0xA88.
Definition EQDMA_C2H_STAT_S_AXIS_WRB_ACCEPTED_ADDR : Z := 0xA8C.
Definition EQDMA_C2H_STAT_DESC_RSP_PKT_ACCEPTED_ADDR : Z := 0xA90.
Definition EQDMA_C2H_STAT_AXIS_PKG_CMP_ADDR : Z := 0xA94.
Definition EQDMA_C2H_STAT_DBG_DMA_ENG_0_ADDR : Z := 0xB1C.
Definition EQDMA_C2H_STAT_DBG_DMA_ENG_1_ADDR : Z := 0xB20.
Definition EQDMA_C2H_STAT_DBG_DMA_ENG_2_ADDR : Z := 0xB24.
Definition EQDMA_C2H_STAT_DBG_DMA_ENG_3_ADDR : Z := 0xB28.
Definition EQDMA_C2H_STAT_DESC_RSP_DROP_ACCEPTED_ADDR : Z := 0xB10.
Definition EQDMA_C2H_STAT_DESC_RSP_ERR_ACCEPTED_ADDR : Z := 0xB14.
Definition EQDMA_C2H_MM_CMPL_DESC_CNT_ADDR : Z := 0x1048.
Definition EQDMA_C2H_MM_ERR_CODE_ADDR : Z := 0x1058.
Definition EQDMA_C2H_MM_ERR_INFO_ADDR : Z := 0x105C.
Definition EQDMA_C2H_MM_DBG_ADDR : Z := 0x10E8.
Definition EQDMA_H2C_MM_CMPL_DESC_CNT_ADDR : Z := 0x1248.
Definition EQDMA_H2C_MM_ERR_CODE_ADDR : Z := 0x1258.
Definition EQDMA_H2C_MM_ERR_INFO_ADDR : Z := 0x125C.
Definition EQDMA_H2C_MM_DBG_ADDR : Z := 0x12E8.

Definition EQDMA_GLBL_DSC_ERR_ALL_MASK : Z := 0x1F9037E.
Definition EQDMA_GLBL_TRQ_ERR_ALL_MASK : Z := 0xB3.
Definition EQDMA_C2H_ERR_ALL_MASK : Z := 0x3F6DF.
Definition EQDMA_C2H_FATAL_ERR_ALL_MASK : Z := 0x1FDF1B.
Definition EQDMA_H2C_ERR_ALL_MASK : Z := 0x3F.
Definition EQDMA_SBE_ERR_ALL_MASK : Z := 0xFFFFFFFF.
Definition EQDMA_DBE_ERR_ALL_MASK : Z := 0xFFFFFFFF.
Definition EQDMA_MM_C2H_ERR_ALL_MASK : Z := 0x70000003.
Definition EQDMA_MM_H2C0_ERR_ALL_MASK : Z := 0x3041013E.
Definition GLBL_ERR_STAT_ERR_DSC_MASK : Z := BIT 2.
Definition GLBL_ERR_STAT_ERR_TRQ_MASK : Z := BIT 3.
Definition GLBL_ERR_STAT_ERR_C2H_ST_MASK : Z := BIT 8.
Definition GLBL_ERR_STAT_ERR_H2C_ST_MASK : Z := BIT 16.
Definition GLBL_ERR_STAT_ERR_RAM_SBE_MASK : Z := BIT 0.
Definition GLBL_ERR_STAT_ERR_RAM_DBE_MASK : Z := BIT 1.
Definition GLBL_ERR_STAT_ERR_C2H_MM_0_MASK : Z := BIT 6.
Definition GLBL_ERR_STAT_ERR_H2C_MM_0_MASK : Z := BIT 4.

(** The function an entry points to. *)
Inductive err_handler :=
  | HwDesc | HwTrq | HwStC2h | HwStH2c | HwRamSbe | HwRamDbe | MmC2h0 | MmH2c0.

Record eqdma_hw_err_info := mkErr {
  he_idx : Z; he_name : string; he_mask_reg : Z; he_stat_reg : Z; he_leaf_mask : Z; he_global_mask : Z;
  he_process : err_handler }.

(** ** The table, group by group *)
Open Scope string_scope.

Definition dsc_errs_1 : list eqdma_hw_err_info := [
  mkErr EQDMA_DSC_ERR_POISON "Poison error"
    EQDMA_GLBL_DSC_ERR_MSK_ADDR EQDMA_GLBL_DSC_ERR_STS_ADDR (BIT 1)
    GLBL_ERR_STAT_ERR_DSC_MASK HwDesc;
  mkErr EQDMA_DSC_ERR_UR_CA "Unsupported request or completer aborted error"
    EQDMA_GLBL_DSC_ERR_MSK_ADDR EQDMA_GLBL_DSC_ERR_STS_ADDR (BIT 2)
    GLBL_ERR_STAT_ERR_DSC_MASK HwDesc;
  mkErr EQDMA_DSC_ERR_BCNT "Unexpected Byte count in completion error"
    EQDMA_GLBL_DSC_ERR_MSK_ADDR EQDMA_GLBL_DSC_ERR_STS_ADDR (BIT 3)
    GLBL_ERR_STAT_ERR_DSC_MASK HwDesc;
  mkErr EQDMA_DSC_ERR_PARAM "Parameter mismatch error"
    EQDMA_GLBL_DSC_ERR_MSK_ADDR EQDMA_GLBL_DSC_ERR_STS_ADDR (BIT 4)
    GLBL_ERR_STAT_ERR_DSC_MASK HwDesc;
  mkErr EQDMA_DSC_ERR_ADDR "Address mismatch error"
    EQDMA_GLBL_DSC_ERR_MSK_ADDR EQDMA_GLBL_DSC_ERR_STS_ADDR (BIT 5)
    GLBL_ERR_STAT_ERR_DSC_MASK HwDesc;
  mkErr EQDMA_DSC_ERR_TAG "Unexpected tag error"
    EQDMA_GLBL_DSC_ERR_MSK_ADDR EQDMA_GLBL_DSC_ERR_STS_ADDR (BIT 6)
    GLBL_ERR_STAT_ERR_DSC_MASK HwDesc;
  mkErr EQDMA_DSC_ERR_FLR "FLR error"
    EQDMA_GLBL_DSC_ERR_MSK_ADDR EQDMA_GLBL_DSC_ERR_STS_ADDR (BIT 8)
    GLBL_ERR_STAT_ERR_DSC_MASK HwDesc;
  mkErr EQDMA_DSC_ERR_TIMEOUT "Timed out error"
    EQDMA_GLBL_DSC_ERR_MSK_ADDR EQDMA_GLBL_DSC_ERR_STS_ADDR (BIT 9)
    GLBL_ERR_STAT_ERR_DSC_MASK HwDesc;
  mkErr EQDMA_DSC_ERR_DAT_POISON "Poison data error"
    EQDMA_GLBL_DSC_ERR_MSK_ADDR EQDMA_GLBL_DSC_ERR_STS_ADDR (BIT 16)
    GLBL_ERR_STAT_ERR_DSC_MASK HwDesc;
  mkErr EQDMA_DSC_ERR_FLR_CANCEL "Descriptor fetch cancelled due to FLR error"
    EQDMA_GLBL_DSC_ERR_MSK_ADDR EQDMA_GLBL_DSC_ERR_STS_ADDR (BIT 19)
    GLBL_ERR_STAT_ERR_DSC_MASK HwDesc;
  mkErr EQDMA_DSC_ERR_DMA "DMA engine error"
    EQDMA_GLBL_DSC_ERR_MSK_ADDR EQDMA_GLBL_DSC_ERR_STS_ADDR (BIT 20)
    GLBL_ERR_STAT_ERR_DSC_MASK HwDesc;
  mkErr EQDMA_DSC_ERR_DSC "Invalid PIDX update error"
    EQDMA_GLBL_DSC_ERR_MSK_ADDR EQDMA_GLBL_DSC_ERR_STS_ADDR (BIT 21)
    GLBL_ERR_STAT_ERR_DSC_MASK HwDesc;
  mkErr EQDMA_DSC_ERR_RQ_CANCEL "Descriptor fetch cancelled due to disable register status error"
    EQDMA_GLBL_DSC_ERR_MSK_ADDR EQDMA_GLBL_DSC_ERR_STS_ADDR (BIT 22)
    GLBL_ERR_STAT_ERR_DSC_MASK HwDesc;
  mkErr EQDMA_DSC_ERR_DBE "UNC_ERR_RAM_DBE error"
    EQDMA_GLBL_DSC_ERR_MSK_ADDR EQDMA_GLBL_DSC_ERR_STS_ADDR (BIT 23)
    GLBL_ERR_STAT_ERR_DSC_MASK HwDesc;
  mkErr EQDMA_DSC_ERR_SBE "UNC_ERR_RAM_SBE error"
    EQDMA_GLBL_DSC_ERR_MSK_ADDR EQDMA_GLBL_DSC_ERR_STS_ADDR (BIT 24)
    GLBL_ERR_STAT_ERR_DSC_MASK HwDesc].

Definition dsc_errs_2 : list eqdma_hw_err_info := [
  mkErr EQDMA_DSC_ERR_PORT_ID "Port ID Error"
    EQDMA_GLBL_DSC_ERR_MSK_ADDR EQDMA_GLBL_DSC_ERR_STS_ADDR (BIT 25)
    GLBL_ERR_STAT_ERR_DSC_MASK HwDesc;
  mkErr EQDMA_DSC_ERR_ALL "All Descriptor errors"
    EQDMA_GLBL_DSC_ERR_MSK_ADDR EQDMA_GLBL_DSC_ERR_STS_ADDR EQDMA_GLBL_DSC_ERR_ALL_MASK
    GLBL_ERR_STAT_ERR_DSC_MASK HwDesc].

Definition trq_errs : list eqdma_hw_err_info := [
  mkErr EQDMA_TRQ_ERR_CSR_UNMAPPED "Access targeted unmapped register space via CSR pathway error"
    EQDMA_GLBL_TRQ_ERR_MSK_ADDR EQDMA_GLBL_TRQ_ERR_STS_ADDR (BIT 0)
    GLBL_ERR_STAT_ERR_TRQ_MASK HwTrq;
  mkErr EQDMA_TRQ_ERR_VF_ACCESS "VF attempted to access Global register space or Function map"
    EQDMA_GLBL_TRQ_ERR_MSK_ADDR EQDMA_GLBL_TRQ_ERR_STS_ADDR (BIT 1)
    GLBL_ERR_STAT_ERR_TRQ_MASK HwTrq;
  mkErr EQDMA_TRQ_ERR_TCP_CSR_TIMEOUT "Timeout on request to dma internal csr register"
    EQDMA_GLBL_TRQ_ERR_MSK_ADDR EQDMA_GLBL_TRQ_ERR_STS_ADDR (BIT 3)
    GLBL_ERR_STAT_ERR_TRQ_MASK HwTrq;
  mkErr EQDMA_TRQ_ERR_QSPC_UNMAPPED "Access targeted unmapped register via queue space pathway"
    EQDMA_GLBL_TRQ_ERR_MSK_ADDR EQDMA_GLBL_TRQ_ERR_STS_ADDR (BIT 4)
    GLBL_ERR_STAT_ERR_TRQ_MASK HwTrq;
  mkErr EQDMA_TRQ_ERR_QID_RANGE "Qid range error"
    EQDMA_GLBL_TRQ_ERR_MSK_ADDR EQDMA_GLBL_TRQ_ERR_STS_ADDR (BIT 5)
    GLBL_ERR_STAT_ERR_TRQ_MASK HwTrq;
  mkErr EQDMA_TRQ_ERR_TCP_QSPC_TIMEOUT "Timeout on request to dma internal queue space register"
    EQDMA_GLBL_TRQ_ERR_MSK_ADDR EQDMA_GLBL_TRQ_ERR_STS_ADDR (BIT 7)
    GLBL_ERR_STAT_ERR_TRQ_MASK HwTrq;
  mkErr EQDMA_TRQ_ERR_ALL "All TRQ errors"
    EQDMA_GLBL_TRQ_ERR_MSK_ADDR EQDMA_GLBL_TRQ_ERR_STS_ADDR EQDMA_GLBL_TRQ_ERR_ALL_MASK
    GLBL_ERR_STAT_ERR_TRQ_MASK HwTrq].

Definition st_c2h_errs_1 : list eqdma_hw_err_info := [
  mkErr EQDMA_ST_C2H_ERR_MTY_MISMATCH "MTY mismatch error"
    EQDMA_C2H_ERR_MASK_ADDR EQDMA_C2H_ERR_STAT_ADDR (BIT 0)
    GLBL_ERR_STAT_ERR_C2H_ST_MASK HwStC2h;
  mkErr EQDMA_ST_C2H_ERR_LEN_MISMATCH "Packet length mismatch error"
    EQDMA_C2H_ERR_MASK_ADDR EQDMA_C2H_ERR_STAT_ADDR (BIT 1)
    GLBL_ERR_STAT_ERR_C2H_ST_MASK HwStC2h;
  mkErr EQDMA_ST_C2H_ERR_SH_CMPT_DSC "A Shared CMPT queue has encountered a descriptor error"
    EQDMA_C2H_ERR_MASK_ADDR EQDMA_C2H_ERR_STAT_ADDR (BIT 2)
    GLBL_ERR_STAT_ERR_C2H_ST_MASK HwStC2h;
  mkErr EQDMA_ST_C2H_ERR_QID_MISMATCH "Qid mismatch error"
    EQDMA_C2H_ERR_MASK_ADDR EQDMA_C2H_ERR_STAT_ADDR (BIT 3)
    GLBL_ERR_STAT_ERR_C2H_ST_MASK HwStC2h;
  mkErr EQDMA_ST_C2H_ERR_DESC_RSP_ERR "Descriptor error bit set"
    EQDMA_C2H_ERR_MASK_ADDR EQDMA_C2H_ERR_STAT_ADDR (BIT 4)
    GLBL_ERR_STAT_ERR_C2H_ST_MASK HwStC2h;
  mkErr EQDMA_ST_C2H_ERR_ENG_WPL_DATA_PAR_ERR "Data parity error"
    EQDMA_C2H_ERR_MASK_ADDR EQDMA_C2H_ERR_STAT_ADDR (BIT 6)
    GLBL_ERR_STAT_ERR_C2H_ST_MASK HwStC2h;
  mkErr EQDMA_ST_C2H_ERR_MSI_INT_FAIL "MSI got a fail response error"
    EQDMA_C2H_ERR_MASK_ADDR EQDMA_C2H_ERR_STAT_ADDR (BIT 7)
    GLBL_ERR_STAT_ERR_C2H_ST_MASK HwStC2h;
  mkErr EQDMA_ST_C2H_ERR_ERR_DESC_CNT "Descriptor count error"
    EQDMA_C2H_ERR_MASK_ADDR EQDMA_C2H_ERR_STAT_ADDR (BIT 9)
    GLBL_ERR_STAT_ERR_C2H_ST_MASK HwStC2h;
  mkErr EQDMA_ST_C2H_ERR_PORTID_CTXT_MISMATCH "Port id in packet and pfetch ctxt mismatch error"
    EQDMA_C2H_ERR_MASK_ADDR EQDMA_C2H_ERR_STAT_ADDR (BIT 10)
    GLBL_ERR_STAT_ERR_C2H_ST_MASK HwStC2h;
  mkErr EQDMA_ST_C2H_ERR_CMPT_INV_Q_ERR "Writeback on invalid queue error"
    EQDMA_C2H_ERR_MASK_ADDR EQDMA_C2H_ERR_STAT_ADDR (BIT 12)
    GLBL_ERR_STAT_ERR_C2H_ST_MASK HwStC2h;
  mkErr EQDMA_ST_C2H_ERR_CMPT_QFULL_ERR "Completion queue gets full error"
    EQDMA_C2H_ERR_MASK_ADDR EQDMA_C2H_ERR_STAT_ADDR (BIT 13)
    GLBL_ERR_STAT_ERR_C2H_ST_MASK HwStC2h;
  mkErr EQDMA_ST_C2H_ERR_CMPT_CIDX_ERR "Bad CIDX update by the software error"
    EQDMA_C2H_ERR_MASK_ADDR EQDMA_C2H_ERR_STAT_ADDR (BIT 14)
    GLBL_ERR_STAT_ERR_C2H_ST_MASK HwStC2h;
  mkErr EQDMA_ST_C2H_ERR_CMPT_PRTY_ERR "C2H completion Parity error"
    EQDMA_C2H_ERR_MASK_ADDR EQDMA_C2H_ERR_STAT_ADDR (BIT 15)
    GLBL_ERR_STAT_ERR_C2H_ST_MASK HwStC2h;
  mkErr EQDMA_ST_C2H_ERR_AVL_RING_DSC "Available ring fetch returns descriptor with error"
    EQDMA_C2H_ERR_MASK_ADDR EQDMA_C2H_ERR_STAT_ADDR (BIT 16)
    GLBL_ERR_STAT_ERR_C2H_ST_MASK HwStC2h;
  mkErr EQDMA_ST_C2H_ERR_HDR_ECC_UNC "multi-bit ecc error on c2h packet header"
    EQDMA_C2H_ERR_MASK_ADDR EQDMA_C2H_ERR_STAT_ADDR (BIT 17)
    GLBL_ERR_STAT_ERR_C2H_ST_MASK HwStC2h].

Definition st_c2h_errs_2 : list eqdma_hw_err_info := [
  mkErr EQDMA_ST_C2H_ERR_HDR_ECC_COR "single-bit ecc error on c2h packet header"
    EQDMA_C2H_ERR_MASK_ADDR EQDMA_C2H_ERR_STAT_ADDR (BIT 18)
    GLBL_ERR_STAT_ERR_C2H_ST_MASK HwStC2h;
  mkErr EQDMA_ST_C2H_ERR_WRB_PORT_ID_ERR "Port ID error"
    EQDMA_C2H_ERR_MASK_ADDR EQDMA_C2H_ERR_STAT_ADDR (BIT 20)
    GLBL_ERR_STAT_ERR_C2H_ST_MASK HwStC2h;
  mkErr EQDMA_ST_C2H_ERR_ALL "All C2h errors"
    EQDMA_C2H_ERR_MASK_ADDR EQDMA_C2H_ERR_STAT_ADDR EQDMA_C2H_ERR_ALL_MASK
    GLBL_ERR_STAT_ERR_C2H_ST_MASK HwStC2h].

Definition st_fatal_errs_1 : list eqdma_hw_err_info := [
  mkErr EQDMA_ST_FATAL_ERR_MTY_MISMATCH "Fatal MTY mismatch error"
    EQDMA_C2H_FATAL_ERR_MASK_ADDR EQDMA_C2H_FATAL_ERR_STAT_ADDR (BIT 0)
    GLBL_ERR_STAT_ERR_C2H_ST_MASK HwStC2h;
  mkErr EQDMA_ST_FATAL_ERR_LEN_MISMATCH "Fatal Len mismatch error"
    EQDMA_C2H_FATAL_ERR_MASK_ADDR EQDMA_C2H_FATAL_ERR_STAT_ADDR (BIT 1)
    GLBL_ERR_STAT_ERR_C2H_ST_MASK HwStC2h;
  mkErr EQDMA_ST_FATAL_ERR_QID_MISMATCH "Fatal Qid mismatch error"
    EQDMA_C2H_FATAL_ERR_MASK_ADDR EQDMA_C2H_FATAL_ERR_STAT_ADDR (BIT 3)
    GLBL_ERR_STAT_ERR_C2H_ST_MASK HwStC2h;
  mkErr EQDMA_ST_FATAL_ERR_TIMER_FIFO_RAM_RDBE "RAM double bit fatal error"
    EQDMA_C2H_FATAL_ERR_MASK_ADDR EQDMA_C2H_FATAL_ERR_STAT_ADDR (GENMASK 7 4)
    GLBL_ERR_STAT_ERR_C2H_ST_MASK HwStC2h;
  mkErr EQDMA_ST_FATAL_ERR_PFCH_II_RAM_RDBE "RAM double bit fatal error"
    EQDMA_C2H_FATAL_ERR_MASK_ADDR EQDMA_C2H_FATAL_ERR_STAT_ADDR (BIT 8)
    GLBL_ERR_STAT_ERR_C2H_ST_MASK HwStC2h;
  mkErr EQDMA_ST_FATAL_ERR_CMPT_CTXT_RAM_RDBE "RAM double bit fatal error"
    EQDMA_C2H_FATAL_ERR_MASK_ADDR EQDMA_C2H_FATAL_ERR_STAT_ADDR (BIT 9)
    GLBL_ERR_STAT_ERR_C2H_ST_MASK HwStC2h;
  mkErr EQDMA_ST_FATAL_ERR_PFCH_CTXT_RAM_RDBE "RAM double bit fatal error"
    EQDMA_C2H_FATAL_ERR_MASK_ADDR EQDMA_C2H_FATAL_ERR_STAT_ADDR (BIT 10)
    GLBL_ERR_STAT_ERR_C2H_ST_MASK HwStC2h;
  mkErr EQDMA_ST_FATAL_ERR_DESC_REQ_FIFO_RAM_RDBE "RAM double bit fatal error"
    EQDMA_C2H_FATAL_ERR_MASK_ADDR EQDMA_C2H_FATAL_ERR_STAT_ADDR (BIT 11)
    GLBL_ERR_STAT_ERR_C2H_ST_MASK HwStC2h;
  mkErr EQDMA_ST_FATAL_ERR_INT_CTXT_RAM_RDBE "RAM double bit fatal error"
    EQDMA_C2H_FATAL_ERR_MASK_ADDR EQDMA_C2H_FATAL_ERR_STAT_ADDR (BIT 12)
    GLBL_ERR_STAT_ERR_C2H_ST_MASK HwStC2h;
  mkErr EQDMA_ST_FATAL_ERR_CMPT_COAL_DATA_RAM_RDBE "RAM double bit fatal error"
    EQDMA_C2H_FATAL_ERR_MASK_ADDR EQDMA_C2H_FATAL_ERR_STAT_ADDR (BIT 14)
    GLBL_ERR_STAT_ERR_C2H_ST_MASK HwStC2h;
  mkErr EQDMA_ST_FATAL_ERR_CMPT_FIFO_RAM_RDBE "RAM double bit fatal error"
    EQDMA_C2H_FATAL_ERR_MASK_ADDR EQDMA_C2H_FATAL_ERR_STAT_ADDR (BIT 15)
    GLBL_ERR_STAT_ERR_C2H_ST_MASK HwStC2h;
  mkErr EQDMA_ST_FATAL_ERR_QID_FIFO_RAM_RDBE "RAM double bit fatal error"
    EQDMA_C2H_FATAL_ERR_MASK_ADDR EQDMA_C2H_FATAL_ERR_STAT_ADDR (BIT 16)
    GLBL_ERR_STAT_ERR_C2H_ST_MASK HwStC2h;
  mkErr EQDMA_ST_FATAL_ERR_PAYLOAD_FIFO_RAM_RDBE "RAM double bit fatal error"
    EQDMA_C2H_FATAL_ERR_MASK_ADDR EQDMA_C2H_FATAL_ERR_STAT_ADDR (BIT 17)
    GLBL_ERR_STAT_ERR_C2H_ST_MASK HwStC2h;
  mkErr EQDMA_ST_FATAL_ERR_WPL_DATA_PAR "RAM double bit fatal error"
    EQDMA_C2H_FATAL_ERR_MASK_ADDR EQDMA_C2H_FATAL_ERR_STAT_ADDR (BIT 18)
    GLBL_ERR_STAT_ERR_C2H_ST_MASK HwStC2h;
  mkErr EQDMA_ST_FATAL_ERR_AVL_RING_FIFO_RAM_RDBE "RAM double bit fatal error"
    EQDMA_C2H_FATAL_ERR_MASK_ADDR EQDMA_C2H_FATAL_ERR_STAT_ADDR (BIT 19)
    GLBL_ERR_STAT_ERR_C2H_ST_MASK HwStC2h].

Definition st_fatal_errs_2 : list eqdma_hw_err_info := [
  mkErr EQDMA_ST_FATAL_ERR_HDR_ECC_UNC "RAM double bit fatal error"
    EQDMA_C2H_FATAL_ERR_MASK_ADDR EQDMA_C2H_FATAL_ERR_STAT_ADDR (BIT 20)
    GLBL_ERR_STAT_ERR_C2H_ST_MASK HwStC2h;
  mkErr EQDMA_ST_FATAL_ERR_ALL "All fatal errors"
    EQDMA_C2H_FATAL_ERR_MASK_ADDR EQDMA_C2H_FATAL_ERR_STAT_ADDR EQDMA_C2H_FATAL_ERR_ALL_MASK
    GLBL_ERR_STAT_ERR_C2H_ST_MASK HwStC2h].

Definition st_h2c_errs : list eqdma_hw_err_info := [
  mkErr EQDMA_ST_H2C_ERR_ZERO_LEN_DESC "Zero length descriptor error"
    EQDMA_H2C_ERR_MASK_ADDR EQDMA_H2C_ERR_STAT_ADDR (BIT 0)
    GLBL_ERR_STAT_ERR_H2C_ST_MASK HwStH2c;
  mkErr EQDMA_ST_H2C_ERR_SDI_MRKR_REQ_MOP "A non-EOP descriptor received"
    EQDMA_H2C_ERR_MASK_ADDR EQDMA_H2C_ERR_STAT_ADDR (BIT 1)
    GLBL_ERR_STAT_ERR_H2C_ST_MASK HwStH2c;
  mkErr EQDMA_ST_H2C_ERR_NO_DMA_DSC "No DMA descriptor received error"
    EQDMA_H2C_ERR_MASK_ADDR EQDMA_H2C_ERR_STAT_ADDR (BIT 2)
    GLBL_ERR_STAT_ERR_H2C_ST_MASK HwStH2c;
  mkErr EQDMA_ST_H2C_ERR_SBE "Single bit error detected on H2C-ST data error"
    EQDMA_H2C_ERR_MASK_ADDR EQDMA_H2C_ERR_STAT_ADDR (BIT 4)
    GLBL_ERR_STAT_ERR_H2C_ST_MASK HwStH2c;
  mkErr EQDMA_ST_H2C_ERR_DBE "Double bit error detected on H2C-ST data error"
    EQDMA_H2C_ERR_MASK_ADDR EQDMA_H2C_ERR_STAT_ADDR (BIT 3)
    GLBL_ERR_STAT_ERR_H2C_ST_MASK HwStH2c;
  mkErr EQDMA_ST_H2C_ERR_PAR "Internal data parity error"
    EQDMA_H2C_ERR_MASK_ADDR EQDMA_H2C_ERR_STAT_ADDR (BIT 5)
    GLBL_ERR_STAT_ERR_H2C_ST_MASK HwStH2c;
  mkErr EQDMA_ST_H2C_ERR_ALL "All H2C errors"
    EQDMA_H2C_ERR_MASK_ADDR EQDMA_H2C_ERR_STAT_ADDR EQDMA_H2C_ERR_ALL_MASK
    GLBL_ERR_STAT_ERR_H2C_ST_MASK HwStH2c].

Definition sbe_1_errs : list eqdma_hw_err_info := [
  mkErr EQDMA_SBE_1_ERR_RC_RRQ_EVEN_RAM "RC RRQ Even RAM single bit ECC error."
    EQDMA_RAM_SBE_MSK_1_A_ADDR EQDMA_RAM_SBE_STS_1_A_ADDR (BIT 0)
    GLBL_ERR_STAT_ERR_RAM_SBE_MASK HwRamSbe;
  mkErr EQDMA_SBE_1_ERR_TAG_ODD_RAM "Tag Odd Ram single bit ECC error."
    EQDMA_RAM_SBE_MSK_1_A_ADDR EQDMA_RAM_SBE_STS_1_A_ADDR (BIT 1)
    GLBL_ERR_STAT_ERR_RAM_SBE_MASK HwRamSbe;
  mkErr EQDMA_SBE_1_ERR_TAG_EVEN_RAM "Tag Even Ram single bit ECC error."
    EQDMA_RAM_SBE_MSK_1_A_ADDR EQDMA_RAM_SBE_STS_1_A_ADDR (BIT 2)
    GLBL_ERR_STAT_ERR_RAM_SBE_MASK HwRamSbe;
  mkErr EQDMA_SBE_1_ERR_PFCH_CTXT_CAM_RAM_0 "Pfch Ctxt CAM RAM 0 single bit ECC error."
    EQDMA_RAM_SBE_MSK_1_A_ADDR EQDMA_RAM_SBE_STS_1_A_ADDR (BIT 3)
    GLBL_ERR_STAT_ERR_RAM_SBE_MASK HwRamSbe;
  mkErr EQDMA_SBE_1_ERR_PFCH_CTXT_CAM_RAM_1 "Pfch Ctxt CAM RAM 1 single bit ECC error."
    EQDMA_RAM_SBE_MSK_1_A_ADDR EQDMA_RAM_SBE_STS_1_A_ADDR (BIT 4)
    GLBL_ERR_STAT_ERR_RAM_SBE_MASK HwRamSbe;
  mkErr EQDMA_SBE_1_ERR_ALL "All SBE Errors."
    EQDMA_RAM_SBE_MSK_1_A_ADDR EQDMA_RAM_SBE_STS_1_A_ADDR EQDMA_SBE_ERR_ALL_MASK
    GLBL_ERR_STAT_ERR_RAM_SBE_MASK HwRamSbe].

Definition sbe_errs_1 : list eqdma_hw_err_info := [
  mkErr EQDMA_SBE_ERR_MI_H2C0_DAT "H2C MM data buffer single bit ECC error"
    EQDMA_RAM_SBE_MSK_A_ADDR EQDMA_RAM_SBE_STS_A_ADDR (BIT 0)
    GLBL_ERR_STAT_ERR_RAM_SBE_MASK HwRamSbe;
  mkErr EQDMA_SBE_ERR_MI_H2C1_DAT "H2C MM data buffer single bit ECC error"
    EQDMA_RAM_SBE_MSK_A_ADDR EQDMA_RAM_SBE_STS_A_ADDR (BIT 1)
    GLBL_ERR_STAT_ERR_RAM_SBE_MASK HwRamSbe;
  mkErr EQDMA_SBE_ERR_MI_H2C2_DAT "H2C MM data buffer single bit ECC error"
    EQDMA_RAM_SBE_MSK_A_ADDR EQDMA_RAM_SBE_STS_A_ADDR (BIT 2)
    GLBL_ERR_STAT_ERR_RAM_SBE_MASK HwRamSbe;
  mkErr EQDMA_SBE_ERR_MI_H2C3_DAT "H2C MM data buffer single bit ECC error"
    EQDMA_RAM_SBE_MSK_A_ADDR EQDMA_RAM_SBE_STS_A_ADDR (BIT 3)
    GLBL_ERR_STAT_ERR_RAM_SBE_MASK HwRamSbe;
  mkErr EQDMA_SBE_ERR_MI_C2H0_DAT "C2H MM data buffer single bit ECC error"
    EQDMA_RAM_SBE_MSK_A_ADDR EQDMA_RAM_SBE_STS_A_ADDR (BIT 4)
    GLBL_ERR_STAT_ERR_RAM_SBE_MASK HwRamSbe;
  mkErr EQDMA_SBE_ERR_MI_C2H1_DAT "C2H MM data buffer single bit ECC error"
    EQDMA_RAM_SBE_MSK_A_ADDR EQDMA_RAM_SBE_STS_A_ADDR (BIT 5)
    GLBL_ERR_STAT_ERR_RAM_SBE_MASK HwRamSbe;
  mkErr EQDMA_SBE_ERR_MI_C2H2_DAT "C2H MM data buffer single bit ECC error"
    EQDMA_RAM_SBE_MSK_A_ADDR EQDMA_RAM_SBE_STS_A_ADDR (BIT 6)
    GLBL_ERR_STAT_ERR_RAM_SBE_MASK HwRamSbe;
  mkErr EQDMA_SBE_ERR_MI_C2H3_DAT "C2H MM data buffer single bit ECC error"
    EQDMA_RAM_SBE_MSK_A_ADDR EQDMA_RAM_SBE_STS_A_ADDR (BIT 7)
    GLBL_ERR_STAT_ERR_RAM_SBE_MASK HwRamSbe;
  mkErr EQDMA_SBE_ERR_H2C_RD_BRG_DAT "Bridge master read single bit ECC error"
    EQDMA_RAM_SBE_MSK_A_ADDR EQDMA_RAM_SBE_STS_A_ADDR (BIT 8)
    GLBL_ERR_STAT_ERR_RAM_SBE_MASK HwRamSbe;
  mkErr EQDMA_SBE_ERR_H2C_WR_BRG_DAT "Bridge master write single bit ECC error"
    EQDMA_RAM_SBE_MSK_A_ADDR EQDMA_RAM_SBE_STS_A_ADDR (BIT 9)
    GLBL_ERR_STAT_ERR_RAM_SBE_MASK HwRamSbe;
  mkErr EQDMA_SBE_ERR_C2H_RD_BRG_DAT "Bridge slave read data buffer single bit ECC error"
    EQDMA_RAM_SBE_MSK_A_ADDR EQDMA_RAM_SBE_STS_A_ADDR (BIT 10)
    GLBL_ERR_STAT_ERR_RAM_SBE_MASK HwRamSbe;
  mkErr EQDMA_SBE_ERR_C2H_WR_BRG_DAT "Bridge slave write data buffer single bit ECC error"
    EQDMA_RAM_SBE_MSK_A_ADDR EQDMA_RAM_SBE_STS_A_ADDR (BIT 11)
    GLBL_ERR_STAT_ERR_RAM_SBE_MASK HwRamSbe;
  mkErr EQDMA_SBE_ERR_FUNC_MAP "Function map RAM single bit ECC error"
    EQDMA_RAM_SBE_MSK_A_ADDR EQDMA_RAM_SBE_STS_A_ADDR (BIT 12)
    GLBL_ERR_STAT_ERR_RAM_SBE_MASK HwRamSbe;
  mkErr EQDMA_SBE_ERR_DSC_HW_CTXT "Descriptor engine hardware context RAM single bit ECC error"
    EQDMA_RAM_SBE_MSK_A_ADDR EQDMA_RAM_SBE_STS_A_ADDR (BIT 13)
    GLBL_ERR_STAT_ERR_RAM_SBE_MASK HwRamSbe;
  mkErr EQDMA_SBE_ERR_DSC_CRD_RCV "Descriptor engine receive credit context RAM single bit ECC error"
    EQDMA_RAM_SBE_MSK_A_ADDR EQDMA_RAM_SBE_STS_A_ADDR (BIT 14)
    GLBL_ERR_STAT_ERR_RAM_SBE_MASK HwRamSbe].

Definition sbe_errs_2 : list eqdma_hw_err_info := [
  mkErr EQDMA_SBE_ERR_DSC_SW_CTXT "Descriptor engine software context RAM single bit ECC error"
    EQDMA_RAM_SBE_MSK_A_ADDR EQDMA_RAM_SBE_STS_A_ADDR (BIT 15)
    GLBL_ERR_STAT_ERR_RAM_SBE_MASK HwRamSbe;
  mkErr EQDMA_SBE_ERR_DSC_CPLI "Descriptor engine fetch completion information RAM single bit ECC error"
    EQDMA_RAM_SBE_MSK_A_ADDR EQDMA_RAM_SBE_STS_A_ADDR (BIT 16)
    GLBL_ERR_STAT_ERR_RAM_SBE_MASK HwRamSbe;
  mkErr EQDMA_SBE_ERR_DSC_CPLD "Descriptor engine fetch completion data RAM single bit ECC error"
    EQDMA_RAM_SBE_MSK_A_ADDR EQDMA_RAM_SBE_STS_A_ADDR (BIT 17)
    GLBL_ERR_STAT_ERR_RAM_SBE_MASK HwRamSbe;
  mkErr EQDMA_SBE_ERR_MI_TL_SLV_FIFO_RAM "TL Slavle FIFO RAM single bit ECC error"
    EQDMA_RAM_SBE_MSK_A_ADDR EQDMA_RAM_SBE_STS_A_ADDR (BIT 18)
    GLBL_ERR_STAT_ERR_RAM_SBE_MASK HwRamSbe;
  mkErr EQDMA_SBE_ERR_TIMER_FIFO_RAM "Timer fifo RAM single bit ECC error"
    EQDMA_RAM_SBE_MSK_A_ADDR EQDMA_RAM_SBE_STS_A_ADDR (GENMASK 22 19)
    GLBL_ERR_STAT_ERR_RAM_SBE_MASK HwRamSbe;
  mkErr EQDMA_SBE_ERR_QID_FIFO_RAM "C2H ST QID FIFO RAM single bit ECC error"
    EQDMA_RAM_SBE_MSK_A_ADDR EQDMA_RAM_SBE_STS_A_ADDR (BIT 23)
    GLBL_ERR_STAT_ERR_RAM_SBE_MASK HwRamSbe;
  mkErr EQDMA_SBE_ERR_WRB_COAL_DATA_RAM "Writeback Coalescing RAM single bit ECC error"
    EQDMA_RAM_SBE_MSK_A_ADDR EQDMA_RAM_SBE_STS_A_ADDR (BIT 24)
    GLBL_ERR_STAT_ERR_RAM_SBE_MASK HwRamSbe;
  mkErr EQDMA_SBE_ERR_INT_CTXT_RAM "Interrupt context RAM single bit ECC error"
    EQDMA_RAM_SBE_MSK_A_ADDR EQDMA_RAM_SBE_STS_A_ADDR (BIT 25)
    GLBL_ERR_STAT_ERR_RAM_SBE_MASK HwRamSbe;
  mkErr EQDMA_SBE_ERR_DESC_REQ_FIFO_RAM "C2H ST descriptor request RAM single bit ECC error"
    EQDMA_RAM_SBE_MSK_A_ADDR EQDMA_RAM_SBE_STS_A_ADDR (BIT 26)
    GLBL_ERR_STAT_ERR_RAM_SBE_MASK HwRamSbe;
  mkErr EQDMA_SBE_ERR_PFCH_CTXT_RAM "C2H ST prefetch RAM single bit ECC error"
    EQDMA_RAM_SBE_MSK_A_ADDR EQDMA_RAM_SBE_STS_A_ADDR (BIT 27)
    GLBL_ERR_STAT_ERR_RAM_SBE_MASK HwRamSbe;
  mkErr EQDMA_SBE_ERR_WRB_CTXT_RAM "C2H ST completion context RAM single bit ECC error"
    EQDMA_RAM_SBE_MSK_A_ADDR EQDMA_RAM_SBE_STS_A_ADDR (BIT 28)
    GLBL_ERR_STAT_ERR_RAM_SBE_MASK HwRamSbe;
  mkErr EQDMA_SBE_ERR_PFCH_LL_RAM "C2H ST prefetch list RAM single bit ECC error"
    EQDMA_RAM_SBE_MSK_A_ADDR EQDMA_RAM_SBE_STS_A_ADDR (BIT 29)
    GLBL_ERR_STAT_ERR_RAM_SBE_MASK HwRamSbe;
  mkErr EQDMA_SBE_ERR_PEND_FIFO_RAM "Pend FIFO RAM single bit ECC error"
    EQDMA_RAM_SBE_MSK_A_ADDR EQDMA_RAM_SBE_STS_A_ADDR (BIT 30)
    GLBL_ERR_STAT_ERR_RAM_SBE_MASK HwRamSbe;
  mkErr EQDMA_SBE_ERR_RC_RRQ_ODD_RAM "RC RRQ Odd RAM single bit ECC error."
    EQDMA_RAM_SBE_MSK_A_ADDR EQDMA_RAM_SBE_STS_A_ADDR (BIT 31)
    GLBL_ERR_STAT_ERR_RAM_SBE_MASK HwRamSbe;
  mkErr EQDMA_SBE_ERR_ALL "All SBE errors"
    EQDMA_RAM_SBE_MSK_A_ADDR EQDMA_RAM_SBE_STS_A_ADDR EQDMA_SBE_ERR_ALL_MASK
    GLBL_ERR_STAT_ERR_RAM_SBE_MASK HwRamSbe].

Definition dbe_1_errs : list eqdma_hw_err_info := [
  mkErr EQDMA_DBE_1_ERR_RC_RRQ_EVEN_RAM "RC RRQ Odd RAM double bit ECC error."
    EQDMA_RAM_DBE_MSK_1_A_ADDR EQDMA_RAM_DBE_STS_1_A_ADDR (BIT 0)
    GLBL_ERR_STAT_ERR_RAM_DBE_MASK HwRamDbe;
  mkErr EQDMA_DBE_1_ERR_TAG_ODD_RAM "Tag Odd Ram double bit ECC error."
    EQDMA_RAM_DBE_MSK_1_A_ADDR EQDMA_RAM_DBE_STS_1_A_ADDR (BIT 1)
    GLBL_ERR_STAT_ERR_RAM_DBE_MASK HwRamDbe;
  mkErr EQDMA_DBE_1_ERR_TAG_EVEN_RAM "Tag Even Ram double bit ECC error."
    EQDMA_RAM_DBE_MSK_1_A_ADDR EQDMA_RAM_DBE_STS_1_A_ADDR (BIT 2)
    GLBL_ERR_STAT_ERR_RAM_DBE_MASK HwRamDbe;
  mkErr EQDMA_DBE_1_ERR_PFCH_CTXT_CAM_RAM_0 "Pfch Ctxt CAM RAM 0 double bit ECC error."
    EQDMA_RAM_DBE_MSK_1_A_ADDR EQDMA_RAM_DBE_STS_1_A_ADDR (BIT 3)
    GLBL_ERR_STAT_ERR_RAM_DBE_MASK HwRamDbe;
  mkErr EQDMA_DBE_1_ERR_PFCH_CTXT_CAM_RAM_1 "Pfch Ctxt CAM RAM double bit ECC error."
    EQDMA_RAM_DBE_MSK_1_A_ADDR EQDMA_RAM_DBE_STS_1_A_ADDR (BIT 3)
    GLBL_ERR_STAT_ERR_RAM_DBE_MASK HwRamDbe;
  mkErr EQDMA_DBE_1_ERR_ALL "All DBE errors"
    EQDMA_RAM_DBE_MSK_1_A_ADDR EQDMA_RAM_DBE_STS_1_A_ADDR EQDMA_DBE_ERR_ALL_MASK
    GLBL_ERR_STAT_ERR_RAM_DBE_MASK HwRamDbe].

Definition dbe_errs_1 : list eqdma_hw_err_info := [
  mkErr EQDMA_DBE_ERR_MI_H2C0_DAT "H2C MM data buffer double bit ECC error"
    EQDMA_RAM_DBE_MSK_A_ADDR EQDMA_RAM_DBE_STS_A_ADDR (BIT 0)
    GLBL_ERR_STAT_ERR_RAM_DBE_MASK HwRamDbe;
  mkErr EQDMA_DBE_ERR_MI_H2C1_DAT "H2C MM data buffer double bit ECC error"
    EQDMA_RAM_DBE_MSK_A_ADDR EQDMA_RAM_DBE_STS_A_ADDR (BIT 1)
    GLBL_ERR_STAT_ERR_RAM_DBE_MASK HwRamDbe;
  mkErr EQDMA_DBE_ERR_MI_H2C2_DAT "H2C MM data buffer double bit ECC error"
    EQDMA_RAM_DBE_MSK_A_ADDR EQDMA_RAM_DBE_STS_A_ADDR (BIT 2)
    GLBL_ERR_STAT_ERR_RAM_DBE_MASK HwRamDbe;
  mkErr EQDMA_DBE_ERR_MI_H2C3_DAT "H2C MM data buffer double bit ECC error"
    EQDMA_RAM_DBE_MSK_A_ADDR EQDMA_RAM_DBE_STS_A_ADDR (BIT 3)
    GLBL_ERR_STAT_ERR_RAM_DBE_MASK HwRamDbe;
  mkErr EQDMA_DBE_ERR_MI_C2H0_DAT "C2H MM data buffer double bit ECC error"
    EQDMA_RAM_DBE_MSK_A_ADDR EQDMA_RAM_DBE_STS_A_ADDR (BIT 4)
    GLBL_ERR_STAT_ERR_RAM_DBE_MASK HwRamDbe;
  mkErr EQDMA_DBE_ERR_MI_C2H1_DAT "C2H MM data buffer double bit ECC error"
    EQDMA_RAM_DBE_MSK_A_ADDR EQDMA_RAM_DBE_STS_A_ADDR (BIT 5)
    GLBL_ERR_STAT_ERR_RAM_DBE_MASK HwRamDbe;
  mkErr EQDMA_DBE_ERR_MI_C2H2_DAT "C2H MM data buffer double bit ECC error"
    EQDMA_RAM_DBE_MSK_A_ADDR EQDMA_RAM_DBE_STS_A_ADDR (BIT 6)
    GLBL_ERR_STAT_ERR_RAM_DBE_MASK HwRamDbe;
  mkErr EQDMA_DBE_ERR_MI_C2H3_DAT "C2H MM data buffer double bit ECC error"
    EQDMA_RAM_DBE_MSK_A_ADDR EQDMA_RAM_DBE_STS_A_ADDR (BIT 7)
    GLBL_ERR_STAT_ERR_RAM_DBE_MASK HwRamDbe;
  mkErr EQDMA_DBE_ERR_H2C_RD_BRG_DAT "Bridge master read double bit ECC error"
    EQDMA_RAM_DBE_MSK_A_ADDR EQDMA_RAM_DBE_STS_A_ADDR (BIT 8)
    GLBL_ERR_STAT_ERR_RAM_DBE_MASK HwRamDbe;
  mkErr EQDMA_DBE_ERR_H2C_WR_BRG_DAT "Bridge master write double bit ECC error"
    EQDMA_RAM_DBE_MSK_A_ADDR EQDMA_RAM_DBE_STS_A_ADDR (BIT 9)
    GLBL_ERR_STAT_ERR_RAM_DBE_MASK HwRamDbe;
  mkErr EQDMA_DBE_ERR_C2H_RD_BRG_DAT "Bridge slave read data buffer double bit ECC error"
    EQDMA_RAM_DBE_MSK_A_ADDR EQDMA_RAM_DBE_STS_A_ADDR (BIT 10)
    GLBL_ERR_STAT_ERR_RAM_DBE_MASK HwRamDbe;
  mkErr EQDMA_DBE_ERR_C2H_WR_BRG_DAT "Bridge slave write data buffer double bit ECC error"
    EQDMA_RAM_DBE_MSK_A_ADDR EQDMA_RAM_DBE_STS_A_ADDR (BIT 11)
    GLBL_ERR_STAT_ERR_RAM_DBE_MASK HwRamDbe;
  mkErr EQDMA_DBE_ERR_FUNC_MAP "Function map RAM double bit ECC error"
    EQDMA_RAM_DBE_MSK_A_ADDR EQDMA_RAM_DBE_STS_A_ADDR (BIT 12)
    GLBL_ERR_STAT_ERR_RAM_DBE_MASK HwRamDbe;
  mkErr EQDMA_DBE_ERR_DSC_HW_CTXT "Descriptor engine hardware context RAM double bit ECC error"
    EQDMA_RAM_DBE_MSK_A_ADDR EQDMA_RAM_DBE_STS_A_ADDR (BIT 13)
    GLBL_ERR_STAT_ERR_RAM_DBE_MASK HwRamDbe;
  mkErr EQDMA_DBE_ERR_DSC_CRD_RCV "Descriptor engine receive credit context RAM double bit ECC error"
    EQDMA_RAM_DBE_MSK_A_ADDR EQDMA_RAM_DBE_STS_A_ADDR (BIT 14)
    GLBL_ERR_STAT_ERR_RAM_DBE_MASK HwRamDbe].

Definition dbe_errs_2 : list eqdma_hw_err_info := [
  mkErr EQDMA_DBE_ERR_DSC_SW_CTXT "Descriptor engine software context RAM double bit ECC error"
    EQDMA_RAM_DBE_MSK_A_ADDR EQDMA_RAM_DBE_STS_A_ADDR (BIT 15)
    GLBL_ERR_STAT_ERR_RAM_DBE_MASK HwRamDbe;
  mkErr EQDMA_DBE_ERR_DSC_CPLI "Descriptor engine fetch completion information RAM double bit ECC error"
    EQDMA_RAM_DBE_MSK_A_ADDR EQDMA_RAM_DBE_STS_A_ADDR (BIT 16)
    GLBL_ERR_STAT_ERR_RAM_DBE_MASK HwRamDbe;
  mkErr EQDMA_DBE_ERR_DSC_CPLD "Descriptor engine fetch completion data RAM double bit ECC error"
    EQDMA_RAM_DBE_MSK_A_ADDR EQDMA_RAM_DBE_STS_A_ADDR (BIT 17)
    GLBL_ERR_STAT_ERR_RAM_DBE_MASK HwRamDbe;
  mkErr EQDMA_DBE_ERR_MI_TL_SLV_FIFO_RAM "TL Slave FIFO RAM double bit ECC error"
    EQDMA_RAM_DBE_MSK_A_ADDR EQDMA_RAM_DBE_STS_A_ADDR (BIT 18)
    GLBL_ERR_STAT_ERR_RAM_DBE_MASK HwRamDbe;
  mkErr EQDMA_DBE_ERR_TIMER_FIFO_RAM "Timer fifo RAM double bit ECC error"
    EQDMA_RAM_DBE_MSK_A_ADDR EQDMA_RAM_DBE_STS_A_ADDR (GENMASK 22 19)
    GLBL_ERR_STAT_ERR_RAM_DBE_MASK HwRamDbe;
  mkErr EQDMA_DBE_ERR_QID_FIFO_RAM "C2H ST QID FIFO RAM double bit ECC error"
    EQDMA_RAM_DBE_MSK_A_ADDR EQDMA_RAM_DBE_STS_A_ADDR (BIT 23)
    GLBL_ERR_STAT_ERR_RAM_DBE_MASK HwRamDbe;
  mkErr EQDMA_DBE_ERR_WRB_COAL_DATA_RAM "Writeback Coalescing RAM double bit ECC error"
    EQDMA_RAM_DBE_MSK_A_ADDR EQDMA_RAM_DBE_STS_A_ADDR (BIT 24)
    GLBL_ERR_STAT_ERR_RAM_DBE_MASK HwRamDbe;
  mkErr EQDMA_DBE_ERR_INT_CTXT_RAM "Interrupt context RAM double bit ECC error"
    EQDMA_RAM_DBE_MSK_A_ADDR EQDMA_RAM_DBE_STS_A_ADDR (BIT 25)
    GLBL_ERR_STAT_ERR_RAM_DBE_MASK HwRamDbe;
  mkErr EQDMA_DBE_ERR_DESC_REQ_FIFO_RAM "C2H ST descriptor request RAM double bit ECC error"
    EQDMA_RAM_DBE_MSK_A_ADDR EQDMA_RAM_DBE_STS_A_ADDR (BIT 26)
    GLBL_ERR_STAT_ERR_RAM_DBE_MASK HwRamDbe;
  mkErr EQDMA_DBE_ERR_PFCH_CTXT_RAM "C2H ST prefetch RAM double bit ECC error"
    EQDMA_RAM_DBE_MSK_A_ADDR EQDMA_RAM_DBE_STS_A_ADDR (BIT 27)
    GLBL_ERR_STAT_ERR_RAM_DBE_MASK HwRamDbe;
  mkErr EQDMA_DBE_ERR_WRB_CTXT_RAM "C2H ST completion context RAM double bit ECC error"
    EQDMA_RAM_DBE_MSK_A_ADDR EQDMA_RAM_DBE_STS_A_ADDR (BIT 28)
    GLBL_ERR_STAT_ERR_RAM_DBE_MASK HwRamDbe;
  mkErr EQDMA_DBE_ERR_PFCH_LL_RAM "C2H ST prefetch list RAM double bit ECC error"
    EQDMA_RAM_DBE_MSK_A_ADDR EQDMA_RAM_DBE_STS_A_ADDR (BIT 29)
    GLBL_ERR_STAT_ERR_RAM_DBE_MASK HwRamDbe;
  mkErr EQDMA_DBE_ERR_PEND_FIFO_RAM "Pend FIFO RAM double bit ECC error"
    EQDMA_RAM_DBE_MSK_A_ADDR EQDMA_RAM_DBE_STS_A_ADDR (BIT 30)
    GLBL_ERR_STAT_ERR_RAM_DBE_MASK HwRamDbe;
  mkErr EQDMA_DBE_ERR_RC_RRQ_ODD_RAM "RC RRQ Odd RAM double bit ECC error."
    EQDMA_RAM_DBE_MSK_A_ADDR EQDMA_RAM_DBE_STS_A_ADDR (BIT 31)
    GLBL_ERR_STAT_ERR_RAM_DBE_MASK HwRamDbe;
  mkErr EQDMA_DBE_ERR_ALL "All DBE errors"
    EQDMA_RAM_DBE_MSK_A_ADDR EQDMA_RAM_DBE_STS_A_ADDR EQDMA_DBE_ERR_ALL_MASK
    GLBL_ERR_STAT_ERR_RAM_DBE_MASK HwRamDbe].

Definition mm_c2h_errs : list eqdma_hw_err_info := [
  mkErr EQDMA_MM_C2H_WR_SLR_ERR "MM C2H0 WR SLV Error"
    EQDMA_C2H_MM_ERR_CODE_ENABLE_MASK_ADDR EQDMA_C2H_MM_STATUS_ADDR (BIT 0)
    GLBL_ERR_STAT_ERR_C2H_MM_0_MASK MmC2h0;
  mkErr EQDMA_MM_C2H_RD_SLR_ERR "MM C2H0 RD SLV Error"
    EQDMA_C2H_MM_ERR_CODE_ENABLE_MASK_ADDR EQDMA_C2H_MM_STATUS_ADDR (BIT 1)
    GLBL_ERR_STAT_ERR_C2H_MM_0_MASK MmC2h0;
  mkErr EQDMA_MM_C2H_WR_FLR_ERR "MM C2H0 WR FLR Error"
    EQDMA_C2H_MM_ERR_CODE_ENABLE_MASK_ADDR EQDMA_C2H_MM_STATUS_ADDR (BIT 28)
    GLBL_ERR_STAT_ERR_C2H_MM_0_MASK MmC2h0;
  mkErr EQDMA_MM_C2H_UR_ERR "MM C2H0 Unsupported Request Error"
    EQDMA_C2H_MM_ERR_CODE_ENABLE_MASK_ADDR EQDMA_C2H_MM_STATUS_ADDR (BIT 29)
    GLBL_ERR_STAT_ERR_C2H_MM_0_MASK MmC2h0;
  mkErr EQDMA_MM_C2H_WR_UC_RAM_ERR "MM C2H0 Write Uncorrectable RAM Error"
    EQDMA_C2H_MM_ERR_CODE_ENABLE_MASK_ADDR EQDMA_C2H_MM_STATUS_ADDR (BIT 30)
    GLBL_ERR_STAT_ERR_C2H_MM_0_MASK MmC2h0;
  mkErr EQDMA_MM_C2H_ERR_ALL "All MM C2H Errors"
    EQDMA_C2H_MM_ERR_CODE_ENABLE_MASK_ADDR EQDMA_C2H_MM_STATUS_ADDR EQDMA_MM_C2H_ERR_ALL_MASK
    GLBL_ERR_STAT_ERR_C2H_MM_0_MASK MmC2h0].

Definition mm_h2c0_errs : list eqdma_hw_err_info := [
  mkErr EQDMA_MM_H2C0_RD_HDR_POISON_ERR "MM H2C0 Read cmpt header pison Error"
    EQDMA_H2C_MM_ERR_CODE_ENABLE_MASK_ADDR EQDMA_H2C_MM_STATUS_ADDR (BIT 1)
    GLBL_ERR_STAT_ERR_H2C_MM_0_MASK MmH2c0;
  mkErr EQDMA_MM_H2C0_RD_UR_CA_ERR "MM H2C0 Read cmpt unsupported request Error"
    EQDMA_H2C_MM_ERR_CODE_ENABLE_MASK_ADDR EQDMA_H2C_MM_STATUS_ADDR (BIT 2)
    GLBL_ERR_STAT_ERR_H2C_MM_0_MASK MmH2c0;
  mkErr EQDMA_MM_H2C0_RD_HDR_BYTE_ERR "MM H2C0 Read cmpt hdr byte cnt Error"
    EQDMA_H2C_MM_ERR_CODE_ENABLE_MASK_ADDR EQDMA_H2C_MM_STATUS_ADDR (BIT 3)
    GLBL_ERR_STAT_ERR_H2C_MM_0_MASK MmH2c0;
  mkErr EQDMA_MM_H2C0_RD_HDR_PARAM_ERR "MM H2C0 Read cmpt hdr param mismatch Error"
    EQDMA_H2C_MM_ERR_CODE_ENABLE_MASK_ADDR EQDMA_H2C_MM_STATUS_ADDR (BIT 4)
    GLBL_ERR_STAT_ERR_H2C_MM_0_MASK MmH2c0;
  mkErr EQDMA_MM_H2C0_RD_HDR_ADR_ERR "MM H2C0 Read cmpt hdr address mismatch Error"
    EQDMA_H2C_MM_ERR_CODE_ENABLE_MASK_ADDR EQDMA_H2C_MM_STATUS_ADDR (BIT 5)
    GLBL_ERR_STAT_ERR_H2C_MM_0_MASK MmH2c0;
  mkErr EQDMA_MM_H2C0_RD_FLR_ERR "MM H2C0 Read flr Error"
    EQDMA_H2C_MM_ERR_CODE_ENABLE_MASK_ADDR EQDMA_H2C_MM_STATUS_ADDR (BIT 8)
    GLBL_ERR_STAT_ERR_H2C_MM_0_MASK MmH2c0;
  mkErr EQDMA_MM_H2C0_RD_DAT_POISON_ERR "MM H2C0 Read data poison Error"
    EQDMA_H2C_MM_ERR_CODE_ENABLE_MASK_ADDR EQDMA_H2C_MM_STATUS_ADDR (BIT 16)
    GLBL_ERR_STAT_ERR_H2C_MM_0_MASK MmH2c0;
  mkErr EQDMA_MM_H2C0_RD_RQ_DIS_ERR "MM H2C0 Read request disable Error"
    EQDMA_H2C_MM_ERR_CODE_ENABLE_MASK_ADDR EQDMA_H2C_MM_STATUS_ADDR (BIT 22)
    GLBL_ERR_STAT_ERR_H2C_MM_0_MASK MmH2c0;
  mkErr EQDMA_MM_H2C0_WR_DEC_ERR "MM H2C0 Write desc Error"
    EQDMA_H2C_MM_ERR_CODE_ENABLE_MASK_ADDR EQDMA_H2C_MM_STATUS_ADDR (BIT 28)
    GLBL_ERR_STAT_ERR_H2C_MM_0_MASK MmH2c0;
  mkErr EQDMA_MM_H2C0_WR_SLV_ERR "MM H2C0 Write slv Error"
    EQDMA_H2C_MM_ERR_CODE_ENABLE_MASK_ADDR EQDMA_H2C_MM_STATUS_ADDR (BIT 29)
    GLBL_ERR_STAT_ERR_H2C_MM_0_MASK MmH2c0;
  mkErr EQDMA_MM_H2C0_ERR_ALL "All MM H2C Errors"
    EQDMA_H2C_MM_ERR_CODE_ENABLE_MASK_ADDR EQDMA_H2C_MM_STATUS_ADDR EQDMA_MM_H2C0_ERR_ALL_MASK
    GLBL_ERR_STAT_ERR_H2C_MM_0_MASK MmH2c0].

Close Scope string_scope.

Definition eqdma_err_info : list eqdma_hw_err_info :=
    dsc_errs_1 ++ dsc_errs_2 ++ trq_errs ++ st_c2h_errs_1 ++ st_c2h_errs_2 ++ st_fatal_errs_1 ++ st_fatal_errs_2 ++
   st_h2c_errs ++ sbe_1_errs ++ sbe_errs_1 ++ sbe_errs_2 ++ dbe_1_errs ++ dbe_errs_1 ++ dbe_errs_2 ++ mm_c2h_errs ++
   mm_h2c0_errs.

Definition all_eqdma_hw_errs : list Z := [
    EQDMA_DSC_ERR_ALL; EQDMA_TRQ_ERR_ALL; EQDMA_ST_C2H_ERR_ALL; EQDMA_ST_FATAL_ERR_ALL; EQDMA_ST_H2C_ERR_ALL;
   EQDMA_SBE_1_ERR_ALL; EQDMA_SBE_ERR_ALL; EQDMA_DBE_1_ERR_ALL; EQDMA_DBE_ERR_ALL; EQDMA_MM_C2H_ERR_ALL;
   EQDMA_MM_H2C0_ERR_ALL].
Definition hw_err_position : list Z := [
    EQDMA_DSC_ERR_POISON; EQDMA_TRQ_ERR_CSR_UNMAPPED; EQDMA_ST_C2H_ERR_MTY_MISMATCH;
   EQDMA_ST_FATAL_ERR_MTY_MISMATCH; EQDMA_ST_H2C_ERR_ZERO_LEN_DESC; EQDMA_SBE_1_ERR_RC_RRQ_EVEN_RAM;
   EQDMA_SBE_ERR_MI_H2C0_DAT; EQDMA_DBE_1_ERR_RC_RRQ_EVEN_RAM; EQDMA_DBE_ERR_MI_H2C0_DAT; EQDMA_MM_C2H_WR_SLR_ERR;
   EQDMA_MM_H2C0_RD_HDR_POISON_ERR].
