(* ===== verification/HwErr.v ===== *)
(** * eqdma_soft_access.c, sixth part: hardware errors

    Enabling the reports of hardware errors ([eqdma_hw_error_enable]) and finding out
    which errors a device has seen ([eqdma_hw_error_process]), with the functions that
    print what is known about a group of errors, over the table of [ErrTable].

    The state is the device and the log these functions write; what
    [eqdma_dump_reg_info] writes to the log is not recorded.  The theorems: the table
    is well formed but for what they name; which errors are enabled; that exactly the
    errors a device reports are logged, and their reports cleared. *)

From S2P Require Import Prelude Float64 Device Fields Indirect CtxtRegs Context Csr RegTable RegDump CtxtDump ErrTable.
From Stdlib Require Import String.
From stdpp Require Import gmap.

Open Scope Z_scope.

Definition EQDMA_TOTAL_LEAF_ERROR_AGGREGATORS : Z := 11.
Definition QDMA_HW_ERR_NOT_DETECTED : Z := 1.

Inductive err_log :=
  | GlobalErr (stat : Z)
  | LeafErr (addr val : Z)
  | Detected (name : option string)
  | Heading (title : string)
  | Member (e : qctx_entry).

(** [err_idx] is unsigned; the name is [NULL] behind the last error. *)
Definition eqdma_hw_get_error_name (err_idx : Z) : outcome (option string) :=
  if decide (err_idx >= EQDMA_ERRS_ALL) then Ok None
  else e ← aget eqdma_err_info err_idx; Ok (Some (he_name e)).

Section code.
Context {W : Type} `{io : IoMem W}.
Notation lcmd := (cmd (W * list err_log)).

Definition on_reg {A} (c : cmd W A) : lcmd A := fun s =>
  match c (fst s) with Ok (a, w) => Ok (a, (w, snd s)) | Fault f => Fault f end.
Definition log (l : err_log) : lcmd unit := fun s => Ok (tt, (fst s, snd s ++ [l])).

(** [eqdma_dump_reg_info(dev_hndl, addr, 1, NULL, 0)]. *)
Definition show_reg (dev addr : Z) : lcmd unit := fun s =>
  match eqdma_dump_reg_info (Some dev) addr 1 false 0 (fst s, mkText 0 []) with
  | Ok (_, (w, _)) => Ok (tt, (w, snd s))
  | Fault f => Fault f
  end.

Fixpoint show_regs (dev : Z) (l : list Z) : lcmd unit :=
  match l with [] => mret tt | a :: l => _ ← show_reg dev a; show_regs dev l end.

(** ** What is known about a group of errors *)
Definition eqdma_hw_ram_sbe_err_process (dev : Z) : lcmd unit :=
  show_regs dev [EQDMA_RAM_SBE_STS_A_ADDR; EQDMA_RAM_SBE_STS_1_A_ADDR].
Definition eqdma_hw_ram_dbe_err_process (dev : Z) : lcmd unit :=
  show_regs dev [EQDMA_RAM_DBE_STS_A_ADDR; EQDMA_RAM_DBE_STS_1_A_ADDR].

Definition desc_err_reg_list : list Z :=
  [EQDMA_GLBL_DSC_ERR_STS_ADDR; EQDMA_GLBL_DSC_ERR_LOG0_ADDR; EQDMA_GLBL_DSC_ERR_LOG1_ADDR;
   EQDMA_GLBL_DSC_DBG_DAT0_ADDR; EQDMA_GLBL_DSC_DBG_DAT1_ADDR; EQDMA_GLBL_DSC_ERR_LOG2_ADDR].
Definition eqdma_hw_desc_err_process (dev : Z) : lcmd unit := show_regs dev desc_err_reg_list.

Definition trq_err_reg_list : list Z := [EQDMA_GLBL_TRQ_ERR_STS_ADDR; EQDMA_GLBL_TRQ_ERR_LOG_ADDR].
Definition eqdma_hw_trq_err_process (dev : Z) : lcmd unit := show_regs dev trq_err_reg_list.

(** The [i]-th entry of a filled table. *)
Definition show_member (es : list qctx_entry) (i : Z) : lcmd unit :=
  e ← lift (aget es i); log (Member e).

(** A context whose read failed is an object that was never written. *)
Definition read_ctxt {C} (c : cmd W (Z * option C)) : lcmd (option C) :=
  '(rv, x) ← on_reg c; mret (if decide (rv < 0) then None else x).
Definition written {C} (x : option C) : lcmd C := match x with Some c => mret c | None => fail Uninitialized end.

Definition eqdma_hw_err_dump_ctxt_info (dev first_err_qid_reg en_st c2h : Z) : lcmd unit :=
  v ← on_reg (qdma_reg_read dev first_err_qid_reg);
  let first_err_qid := u16 v in
  sw ← read_ctxt (eqdma_sw_context_read (Some dev) c2h first_err_qid (Some (qc_sw zero_context)));
  hw ← read_ctxt (eqdma_hw_context_read (Some dev) c2h first_err_qid (Some (qc_hw zero_context)));
  sw ← written sw;
  hw ← written hw;
  let sws := eqdma_fill_sw_ctxt sw in
  let hws := eqdma_fill_hw_ctxt hw in
  _ ← when (negb (sw_pidx sw =? hw_cidx hw))
        (_ ← log (Heading "SW Context:"); _ ← show_member sws 0;
         _ ← log (Heading "HW Context:"); show_member hws 0);
  _ ← when (negb (sw_err sw =? 0)) (show_member sws 17);
  _ ← show_member sws 18;
  _ ← show_member sws 19;
  when (negb (en_st =? 0) && negb (c2h =? 0))
    (cm ← read_ctxt (eqdma_cmpt_context_read (Some dev) first_err_qid (Some (qc_cm zero_context)));
     cm ← written cm;
     let cms := eqdma_fill_cmpt_ctxt cm in
     _ ← log (Heading "CMPT Context:");
     _ ← show_member cms 6;
     _ ← show_member cms 12;
     _ ← show_member cms 13;
     when (negb (cm_err cm =? 0)) (show_member cms 15)).

Definition st_h2c_err_reg_list : list Z :=
  [EQDMA_H2C_ERR_STAT_ADDR; EQDMA_H2C_FIRST_ERR_QID_ADDR; EQDMA_H2C_DBG_REG0_ADDR; EQDMA_H2C_DBG_REG1_ADDR;
   EQDMA_H2C_DBG_REG2_ADDR; EQDMA_H2C_DBG_REG3_ADDR; EQDMA_H2C_DBG_REG4_ADDR].
Definition eqdma_hw_st_h2c_err_process (dev : Z) : lcmd unit :=
  _ ← show_regs dev st_h2c_err_reg_list;
  eqdma_hw_err_dump_ctxt_info dev EQDMA_H2C_FIRST_ERR_QID_ADDR 1 0.

Definition st_c2h_err_reg_list : list Z :=
  [EQDMA_C2H_ERR_STAT_ADDR; EQDMA_C2H_FATAL_ERR_STAT_ADDR; EQDMA_C2H_FIRST_ERR_QID_ADDR;
   EQDMA_C2H_STAT_S_AXIS_C2H_ACCEPTED_ADDR; EQDMA_C2H_STAT_S_AXIS_WRB_ACCEPTED_ADDR;
   EQDMA_C2H_STAT_DESC_RSP_PKT_ACCEPTED_ADDR; EQDMA_C2H_STAT_AXIS_PKG_CMP_ADDR;
   EQDMA_C2H_STAT_DBG_DMA_ENG_0_ADDR; EQDMA_C2H_STAT_DBG_DMA_ENG_1_ADDR; EQDMA_C2H_STAT_DBG_DMA_ENG_2_ADDR;
   EQDMA_C2H_STAT_DBG_DMA_ENG_3_ADDR; EQDMA_C2H_STAT_DESC_RSP_DROP_ACCEPTED_ADDR;
   EQDMA_C2H_STAT_DESC_RSP_ERR_ACCEPTED_ADDR].
Definition eqdma_hw_st_c2h_err_process (dev : Z) : lcmd unit :=
  _ ← show_regs dev st_c2h_err_reg_list;
  eqdma_hw_err_dump_ctxt_info dev EQDMA_C2H_FIRST_ERR_QID_ADDR 1 1.

Definition mm_c2h_err_reg_list : list Z :=
  [EQDMA_C2H_MM_STATUS_ADDR; EQDMA_C2H_MM_CMPL_DESC_CNT_ADDR; EQDMA_C2H_MM_ERR_CODE_ADDR;
   EQDMA_C2H_MM_ERR_INFO_ADDR; EQDMA_C2H_MM_DBG_ADDR].
Definition eqdma_mm_c2h0_err_process (dev : Z) : lcmd unit :=
  _ ← show_regs dev mm_c2h_err_reg_list;
  eqdma_hw_err_dump_ctxt_info dev EQDMA_C2H_MM_ERR_INFO_ADDR 0 1.

Definition mm_h2c_err_reg_list : list Z :=
  [EQDMA_H2C_MM_STATUS_ADDR; EQDMA_H2C_MM_CMPL_DESC_CNT_ADDR; EQDMA_H2C_MM_ERR_CODE_ADDR;
   EQDMA_H2C_MM_ERR_INFO_ADDR; EQDMA_H2C_MM_DBG_ADDR].
Definition eqdma_mm_h2c0_err_process (dev : Z) : lcmd unit :=
  _ ← show_regs dev mm_h2c_err_reg_list;
  eqdma_hw_err_dump_ctxt_info dev EQDMA_H2C_MM_ERR_INFO_ADDR 0 1.

(** The call through the function pointer of an entry. *)
Definition eqdma_hw_err_process (h : err_handler) (dev : Z) : lcmd unit :=
  match h with
  | HwDesc => eqdma_hw_desc_err_process dev
  | HwTrq => eqdma_hw_trq_err_process dev
  | HwStC2h => eqdma_hw_st_c2h_err_process dev
  | HwStH2c => eqdma_hw_st_h2c_err_process dev
  | HwRamSbe => eqdma_hw_ram_sbe_err_process dev
  | HwRamDbe => eqdma_hw_ram_dbe_err_process dev
  | MmC2h0 => eqdma_mm_c2h0_err_process dev
  | MmH2c0 => eqdma_mm_h2c0_err_process dev
  end.

(** ** Processing errors *)

(** [n] rounds of the loop over the errors of a group, from [idx] on. *)
Fixpoint detect (err_stat idx : Z) (n : nat) : lcmd unit :=
  match n with
  | O => mret tt
  | S n =>
      e ← lift (aget eqdma_err_info idx);
      _ ← (if decide (Z.land err_stat (he_leaf_mask e) <> 0)
           then name ← lift (eqdma_hw_get_error_name idx); log (Detected name) else mret tt);
      detect err_stat (idx + 1) n
  end.

(** [n] rounds of the loop over the groups, from [i] on. *)
Fixpoint process_aggregators (dev : Z) (dev_cap : qdma_dev_attributes) (i : Z) (n : nat) : lcmd unit :=
  match n with
  | O => mret tt
  | S n =>
      bit ← lift (aget hw_err_position i);
      _ ← (if decide (st_en dev_cap = 0 /\ (bit = EQDMA_ST_C2H_ERR_MTY_MISMATCH \/
                bit = EQDMA_ST_FATAL_ERR_MTY_MISMATCH \/ bit = EQDMA_ST_H2C_ERR_ZERO_LEN_DESC))
           then mret tt else
           e ← lift (aget eqdma_err_info bit);
           err_stat ← on_reg (qdma_reg_read dev (he_stat_reg e));
           when (negb (err_stat =? 0))
             (_ ← log (LeafErr (he_stat_reg e) err_stat);
              _ ← eqdma_hw_err_process (he_process e) dev;
              last ← lift (aget all_eqdma_hw_errs i);
              _ ← detect err_stat bit (Z.to_nat (last - bit));
              on_reg (qdma_reg_write dev (he_stat_reg e) err_stat)));
      process_aggregators dev dev_cap (i + 1) n
  end.

Definition eqdma_hw_error_process (dev_hndl : option Z) : lcmd Z :=
  match dev_hndl with
  | None => mret (- QDMA_ERR_INV_PARAM)
  | Some dev =>
      dev_cap ← on_reg (dev_cap_of dev);
      glbl_err_stat ← on_reg (qdma_reg_read dev EQDMA_GLBL_ERR_STAT_ADDR);
      if decide (glbl_err_stat = 0) then mret QDMA_HW_ERR_NOT_DETECTED else
      _ ← log (GlobalErr glbl_err_stat);
      _ ← process_aggregators dev dev_cap 0 (Z.to_nat EQDMA_TOTAL_LEAF_ERROR_AGGREGATORS);
      _ ← on_reg (qdma_reg_write dev EQDMA_GLBL_ERR_STAT_ADDR glbl_err_stat);
      mret QDMA_SUCCESS
  end.

(** ** Enabling errors *)

(** [reg_val = read; reg_val |= FIELD_SET(mask, 1); write]. *)
Definition set_reg_bit (dev addr mask : Z) : cmd W unit :=
  v ← qdma_reg_read dev addr;
  qdma_reg_write dev addr (Z.lor v (u32 (FIELD_SET mask 1))).

(** [n] rounds of the loop that enables everything, from group [i] on. *)
Fixpoint enable_aggregators (dev : Z) (dev_cap : qdma_dev_attributes) (i : Z) (n : nat) : cmd W unit :=
  match n with
  | O => mret tt
  | S n =>
      idx ← lift (aget all_eqdma_hw_errs i);
      _ ← (if decide (st_en dev_cap = 0 /\ (idx = EQDMA_ST_C2H_ERR_ALL \/ idx = EQDMA_ST_FATAL_ERR_ALL \/
                idx = EQDMA_ST_H2C_ERR_ALL))
           then mret tt else
           e ← lift (aget eqdma_err_info idx);
           _ ← qdma_reg_write dev (he_mask_reg e) (he_leaf_mask e);
           set_reg_bit dev EQDMA_GLBL_ERR_MASK_ADDR (he_global_mask e));
      enable_aggregators dev dev_cap (i + 1) n
  end.

Definition eqdma_hw_error_enable (dev_hndl : option Z) (err_idx : Z) : cmd W Z :=
  match dev_hndl with
  | None => mret (- QDMA_ERR_INV_PARAM)
  | Some dev =>
      if decide (err_idx > EQDMA_ERRS_ALL) then mret (- QDMA_ERR_INV_PARAM) else
      dev_cap ← dev_cap_of dev;
      if decide (err_idx = EQDMA_ERRS_ALL) then
        _ ← enable_aggregators dev dev_cap 0 (Z.to_nat EQDMA_TOTAL_LEAF_ERROR_AGGREGATORS);
        mret QDMA_SUCCESS
      else if decide (st_en dev_cap = 0 /\ EQDMA_ST_C2H_ERR_MTY_MISMATCH <= err_idx <= EQDMA_ST_H2C_ERR_ALL)
      then mret QDMA_SUCCESS else
        e ← lift (aget eqdma_err_info err_idx);
        _ ← set_reg_bit dev (he_mask_reg e) (he_leaf_mask e);
        _ ← set_reg_bit dev EQDMA_GLBL_ERR_MASK_ADDR (he_global_mask e);
        mret QDMA_SUCCESS
  end.
End code.

(** ** The table

    The errors of the [i]-th group: from its first entry to the one before its last,
    which stands for all of them. *)
Definition group (i : nat) : list eqdma_hw_err_info :=
  match hw_err_position !! i, all_eqdma_hw_errs !! i with
  | Some p, Some q => take (Z.to_nat (q - p)) (drop (Z.to_nat p) eqdma_err_info)
  | _, _ => []
  end.
Definition group_all (i : nat) : option eqdma_hw_err_info :=
  q ← all_eqdma_hw_errs !! i; eqdma_err_info !! Z.to_nat q.
Definition group_first (i : nat) : option eqdma_hw_err_info :=
  p ← hw_err_position !! i; eqdma_err_info !! Z.to_nat p.

(** The same registers, bit of the global registers and function. *)
Definition handler_code (h : err_handler) : Z :=
  match h with HwDesc => 0 | HwTrq => 1 | HwStC2h => 2 | HwStH2c => 3 | HwRamSbe => 4 | HwRamDbe => 5
  | MmC2h0 => 6 | MmH2c0 => 7 end.
Definition same_group (e f : eqdma_hw_err_info) : bool :=
  (he_mask_reg e =? he_mask_reg f) && (he_stat_reg e =? he_stat_reg f) &&
  (he_global_mask e =? he_global_mask f) && (handler_code (he_process e) =? handler_code (he_process f)).
Definition single_bit (m : Z) : bool := existsb (fun b => m =? 2 ^ b) (seqZ 0 32).

Definition group_wf (i : nat) : bool :=
  match group_all i with
  | None => false
  | Some a => forallb (same_group a) (group i) && single_bit (he_global_mask a) &&
      negb (bool_decide (group i = []))
  end.

#[export] Instance err_handler_eq_dec : EqDecision err_handler.
Proof. solve_decision. Defined.
#[export] Instance err_info_eq_dec : EqDecision eqdma_hw_err_info.
Proof. solve_decision. Defined.

(** The errors whose bits are not one bit, those that share a bit with the error
    before them, and those that the mask of their group leaves out. *)
Definition wide_errors : list Z :=
  [EQDMA_ST_FATAL_ERR_TIMER_FIFO_RAM_RDBE; EQDMA_SBE_ERR_TIMER_FIFO_RAM; EQDMA_DBE_ERR_TIMER_FIFO_RAM].
Definition shadowed_errors : list Z := [EQDMA_DBE_1_ERR_PFCH_CTXT_CAM_RAM_1].
Definition never_enabled : list Z :=
  [EQDMA_DSC_ERR_PORT_ID; EQDMA_TRQ_ERR_TCP_CSR_TIMEOUT; EQDMA_ST_C2H_ERR_HDR_ECC_COR;
   EQDMA_ST_C2H_ERR_WRB_PORT_ID_ERR].

Definition idx_of (es : list eqdma_hw_err_info) : list Z := he_idx <$> es.
Definition groups : list nat := seq 0 11.
Definition all_errors : list eqdma_hw_err_info := concat (group <$> groups).


(** What the theorem says of error [e] of the group whose last entry is [a]. *)
Definition err_wf (a e : eqdma_hw_err_info) (g : list eqdma_hw_err_info) : bool :=
  same_group a e && (bool_decide (he_idx e ∈ wide_errors) || single_bit (he_leaf_mask e)) &&
  (0 <? he_leaf_mask e) && (he_leaf_mask e <? 2 ^ 32) &&
  Bool.eqb (Z.land (he_leaf_mask e) (he_leaf_mask a) =? 0) (bool_decide (he_idx e ∈ never_enabled)) &&
  forallb (fun f => negb (he_idx f <? he_idx e) || bool_decide (he_idx e ∈ shadowed_errors) ||
                    (Z.land (he_leaf_mask e) (he_leaf_mask f) =? 0)) g.
Definition groups_wf : bool :=
  forallb (fun i => match group_all i with Some a => forallb (fun e => err_wf a e (group i)) (group i) | None => false end) groups.
Lemma groups_are_wf : groups_wf = true.
Proof. vm_compute. reflexivity. Qed.

Lemma in_group i e : i ∈ groups -> e ∈ group i -> exists a, group_all i = Some a /\ err_wf a e (group i) = true.
Proof.
  intros Hi He. pose proof (forallb_elem _ _ _ groups_are_wf Hi) as H. cbv beta in H.
  destruct (group_all i) as [a|]; [|discriminate H]. exists a. split; [reflexivity|].
  exact (forallb_elem _ _ _ H He).
Qed.

(** The table of errors is well formed.  It is indexed by the error numbers; it
    consists of eleven groups, each with a last entry for all its errors; the errors of
    a group have the registers, the global bit and the function of that entry, and the
    status registers of different groups are different.  An error is reported in one
    bit, but for the three of [wide_errors], and in no bit of an error before it in its
    group, but for the one of [shadowed_errors]; the entry for all errors has a bit of
    each but for the four of [never_enabled]. *)
Theorem err_table_well_formed :
  idx_of eqdma_err_info = seqZ 0 EQDMA_ERRS_ALL /\
  concat ((fun i => group i ++ option_list (group_all i)) <$> groups) = eqdma_err_info /\
  NoDup (omap (fun i => he_stat_reg <$> group_all i) groups) /\
  forall i e, i ∈ groups -> e ∈ group i -> exists a, group_all i = Some a /\ same_group a e = true /\
    (he_idx e ∉ wide_errors -> single_bit (he_leaf_mask e) = true) /\
    (Z.land (he_leaf_mask e) (he_leaf_mask a) = 0 <-> he_idx e ∈ never_enabled) /\
    forall f, f ∈ group i -> he_idx f < he_idx e -> he_idx e ∉ shadowed_errors ->
      Z.land (he_leaf_mask e) (he_leaf_mask f) = 0.
Proof.
  split; [vm_compute; reflexivity|]. split; [vm_compute; reflexivity|].
  split; [apply (bool_decide_eq_true_1 (NoDup _)); vm_compute; reflexivity|].
  intros i e Hi He. destruct (in_group i e Hi He) as (a & Ha & Hw). exists a. split; [exact Ha|].
  unfold err_wf in Hw. rewrite !andb_true_iff in Hw. destruct Hw as (((((H1 & H2) & _) & _) & H3) & H4).
  split; [exact H1|]. split.
  { intros Hn. rewrite bool_decide_eq_false_2 in H2 by exact Hn. exact H2. }
  split.
  { apply eqb_prop in H3. rewrite <- Z.eqb_eq, H3. apply bool_decide_eq_true. }
  intros f Hf Hlt Hn. pose proof (forallb_elem _ _ _ H4 Hf) as H. cbv beta in H.
  rewrite bool_decide_eq_false_2 in H by exact Hn. apply Z.eqb_eq.
  rewrite (proj2 (Z.ltb_lt _ _) Hlt) in H. exact H.
Qed.

(** ** Printing a register to the log *)
Section quiet.
Context {W : Type} `{io : IoMem W}.

Lemma info_fields_quiet cap ri r v k fs c (s : W * text) : forallb field_fine fs = true ->
  drop k (xr_bitfields ri) = fs -> info_fields false cap ri r v (Z.of_nat k) fs c s = Ok (Some c, s).
Proof.
  revert k. induction fs as [|f fs IH]; intros k Hf Hk; cbn [info_fields]; [reflexivity|].
  cbn [forallb] in Hf. apply andb_true_iff in Hf as [Hf Hfs].
  assert (drop (S k) (xr_bitfields ri) = fs) as Hk' by (by rewrite <- Nat.add_1_r, <- drop_drop, Hk).
  replace (Z.of_nat k + 1) with (Z.of_nat (S k)) by lia.
  destruct (skips_debug cap r); [by apply IH|].
  assert (xr_bitfields ri !! k = Some f) as Hfk.
  { rewrite <- (Nat.add_0_r k), <- lookup_drop, Hk. reflexivity. }
  erewrite cmd_bind_run by (apply lift_run, aget_nat, Hfk).
  unfold field_fine in Hf. rewrite !andb_true_iff in Hf. destruct Hf as [_ Hscan].
  destruct (scan_lsb 32 (field_mask f) 0) as [lsb|] eqn:El; [|discriminate Hscan].
  destruct (scan_msb 32 (field_mask f) 31) as [msb|] eqn:Em; [|discriminate Hscan].
  erewrite cmd_bind_run by (apply lift_run; reflexivity). erewrite cmd_bind_run by (apply lift_run; reflexivity).
  erewrite cmd_bind_run by reflexivity. by apply IH.
Qed.

#[local] Opaque eqdma_config_regs.

(** A register of the table that can be read leaves no trace but in the kernel's log. *)
Lemma reg_info_quiet dev r cap v (w : W) (t : text) : r ∈ eqdma_config_regs ->
  dev_cap_of dev w = Ok (cap, w) -> qdma_reg_read dev (xr_addr r) w = Ok (v, w) ->
  eqdma_dump_reg_info (Some dev) (xr_addr r) 1 false 0 (w, t) = Ok (0, (w, t)).
Proof.
  intros Hr Hcap Hv. destruct (reg_entry_finds r Hr) as (j & Hj & Hi & Hl).
  unfold eqdma_dump_reg_info. erewrite cmd_bind_run by (apply on_dev_run, Hcap). rewrite Hj.
  erewrite cmd_bind_run by (apply lift_run, aget_nat, Hi). rewrite (taken_one j r Hi Hl).
  assert (info_regs false dev cap r [r] (mkCursor 0 0 0) (w, t) = Ok (Some (mkCursor 0 0 0), (w, t))) as E.
  { cbn [info_regs]. erewrite cmd_bind_run by (apply on_dev_run, Hv). erewrite cmd_bind_run by reflexivity. cbv iota.
    erewrite cmd_bind_run by (apply (info_fields_quiet cap r r v 0);
      [exact (forallb_elem _ _ _ table_fields Hr)|reflexivity]). reflexivity. }
  rewrite (cmd_bind_run _ _ _ _ _ E). reflexivity.
Qed.
End quiet.

(** ** The error registers of a device

    The registers the driver reads directly are those of the table outside the bank of
    the context registers.  Writing a one to a bit of a status register clears it,
    but for the status registers of the memory-mapped channels, of which that is not
    known; writing the status of a group may change the global status and no other
    register.  A
    mask register holds what was written.  Accesses to the context registers leave the
    others alone. *)
Definition ctxt_reg (o : Z) : Prop := 0x804 <= o < 0x848.
Definition err_reg (o : Z) : Prop := 0 <= o < 0x1500 /\ ~ ctxt_reg o.
Definition err_regb (o : Z) : bool := (0 <=? o) && (o <? 0x1500) && negb ((0x804 <=? o) && (o <? 0x848)).
Lemma err_regb_spec o : err_regb o = true <-> err_reg o.
Proof.
  unfold err_regb, err_reg, ctxt_reg. rewrite !andb_true_iff, negb_true_iff, andb_false_iff.
  rewrite Z.leb_le, Z.ltb_lt, Z.leb_gt, Z.ltb_ge. lia.
Qed.
Definition status_regs : list Z := omap (fun i => he_stat_reg <$> group_all i) groups.
Definition mask_regs : list Z := omap (fun i => he_mask_reg <$> group_all i) groups.

Definition mm_status : list Z := [EQDMA_C2H_MM_STATUS_ADDR; EQDMA_H2C_MM_STATUS_ADDR].

Class ErrRegsOk (W : Type) `{IoMem W} `{RegFile W} `{IndCtxt W} (dev : Z) : Prop := {
  er_read : forall o w, err_reg o -> ioread32 (dev + o) w = (reg w o, w);
  er_u32 : forall w o, fits_u32 (reg w o);
  er_clear : forall o v w, o ∈ EQDMA_GLBL_ERR_STAT_ADDR :: status_regs -> fits_u32 v ->
    let w1 := iowrite32 v (dev + o) w in
    ind w1 = ind w /\ (o ∉ mm_status -> reg w1 o = Z.ldiff (reg w o) v) /\
    forall o', err_reg o' -> o' <> o -> o' <> EQDMA_GLBL_ERR_STAT_ADDR -> reg w1 o' = reg w o';
  er_store : forall o v w, o ∈ EQDMA_GLBL_ERR_MASK_ADDR :: mask_regs -> fits_u32 v ->
    let w1 := iowrite32 v (dev + o) w in
    ind w1 = ind w /\ forall o', err_reg o' -> reg w1 o' = if decide (o' = o) then v else reg w o';
  er_ctxt_read : forall o o' w, ctxt_reg o -> err_reg o' -> reg (snd (ioread32 (dev + o) w)) o' = reg w o';
  er_ctxt_write : forall o o' v w, ctxt_reg o -> err_reg o' -> reg (iowrite32 v (dev + o) w) o' = reg w o' }.

Definition detected (l : list err_log) : list (option string) :=
  omap (fun x => match x with Detected n => Some n | _ => None end) l.
Lemma detected_app l1 l2 : detected (l1 ++ l2) = detected l1 ++ detected l2.
Proof. apply omap_app. Qed.

Section device.
Context {W : Type} `{io : IoMem W} `{rf : RegFile W} `{ic : IndCtxt W} (dev : Z)
  `{iok : !IndCtxtOk W dev} `{ok : !ErrRegsOk W dev}.
Notation lcmd := (cmd (W * list err_log)).

Lemma err_read_run o w : err_reg o -> qdma_reg_read dev o w = Ok (reg w o, w).
Proof. intros Ho. unfold qdma_reg_read. by rewrite er_read. Qed.

Lemma err_cap_run w : dev_cap_of dev w = Ok (attrs w, w).
Proof.
  apply cap_of_reads. intros o Ho. apply err_read_run. unfold cap_regs in Ho.
  repeat (apply elem_of_cons in Ho as [->|Ho]; [by apply err_regb_spec|]). by apply elem_of_nil in Ho.
Qed.

(** *** Commands that leave the error registers alone *)
Definition same_regs (w w1 : W) : Prop := forall o, err_reg o -> reg w1 o = reg w o.
Definition keeps_regs {A} (c : cmd W A) : Prop := forall w a w1, c w = Ok (a, w1) -> same_regs w w1.

Lemma regs_ret {A} (a : A) : keeps_regs (mret a).
Proof. intros w b w1 [= _ <-] o _. done. Qed.
Lemma regs_bind {A B} (c : cmd W A) (k : A -> cmd W B) : keeps_regs c -> (forall a, keeps_regs (k a)) -> keeps_regs (c ≫= k).
Proof.
  intros Hc Hk w b w2 (a & w1 & E1 & E2)%cmd_bind_ok o Ho. rewrite (Hk a _ _ _ E2 o Ho). exact (Hc _ _ _ E1 o Ho).
Qed.
Lemma keeps_ctxt_read o : ctxt_reg o -> keeps_regs (qdma_reg_read dev o).
Proof.
  intros Hc w a w1 E o' Ho. unfold qdma_reg_read in E. pose proof (er_ctxt_read o o' w Hc Ho) as H.
  destruct (ioread32 _ w) as [v w']. injection E as _ <-. exact H.
Qed.
Lemma keeps_ctxt_write o v : ctxt_reg o -> keeps_regs (qdma_reg_write dev o v).
Proof. intros Hc w a w1 [= _ <-] o' Ho. by apply er_ctxt_write. Qed.
Lemma keeps_poll mask val n : keeps_regs (poll_reg dev EQDMA_IND_CTXT_CMD_ADDR mask val n).
Proof.
  induction n as [|n IH]; cbn [poll_reg]; [apply regs_ret|].
  apply regs_bind; [apply keeps_ctxt_read; by vm_compute|]. intros v. case_decide; [apply regs_ret|exact IH].
Qed.
Lemma keeps_wait : keeps_regs (wait_cmd dev).
Proof.
  rewrite wait_cmd_eq. apply regs_bind; [apply keeps_poll|]. intros [|]; [apply regs_ret|].
  apply regs_bind; [apply keeps_ctxt_read; by vm_compute|]. intros v. case_decide; apply regs_ret.
Qed.
Lemma keeps_read_regs n i : (i + n <= 8)%nat ->
  keeps_regs (read_regs dev (EQDMA_IND_CTXT_DATA_ADDR + 4 * Z.of_nat i) n).
Proof.
  revert i. induction n as [|n IH]; intros i Hi; cbn [read_regs]; [apply regs_ret|].
  apply regs_bind; [apply keeps_ctxt_read; unfold ctxt_reg, EQDMA_IND_CTXT_DATA_ADDR; lia|]. intros v.
  replace (EQDMA_IND_CTXT_DATA_ADDR + 4 * Z.of_nat i + 4) with (EQDMA_IND_CTXT_DATA_ADDR + 4 * Z.of_nat (S i)) by lia.
  apply regs_bind; [apply IH; lia|]. intros vs. apply regs_ret.
Qed.
Lemma keeps_ind_read sel q n : (n <= 8)%nat -> keeps_regs (eqdma_indirect_reg_read dev sel q n).
Proof.
  intros Hn. apply regs_bind; [apply keeps_ctxt_write; by vm_compute|]. intros _.
  apply regs_bind; [apply keeps_wait|]. intros rv. case_decide; [apply regs_ret|].
  apply regs_bind; [apply (keeps_read_regs n 0); lia|]. intros vs. apply regs_ret.
Qed.

(** *** Commands that print

    [quiet P c]: from an idle device, [c] ends with a result in [P], has detected no
    error, left the error registers and the context memory alone and the device idle. *)
Definition same_ctxts (w w1 : W) : Prop := ih_ctxt (ind w1) = ih_ctxt (ind w).
Definition quiet {A} (P : A -> Prop) (c : lcmd A) : Prop := forall w lg, idle w -> exists a w1 lg1,
  c (w, lg) = Ok (a, (w1, lg ++ lg1)) /\ P a /\ detected lg1 = [] /\ same_regs w w1 /\ idle w1 /\ same_ctxts w w1.

Lemma quiet_ret {A} (P : A -> Prop) a : P a -> quiet P (mret a).
Proof. intros Ha w lg Hi. exists a, w, []. rewrite app_nil_r. by split_and!. Qed.
Lemma quiet_bind {A B} (Q : A -> Prop) (P : B -> Prop) (c : lcmd A) (k : A -> lcmd B) :
  quiet Q c -> (forall a, Q a -> quiet P (k a)) -> quiet P (c ≫= k).
Proof.
  intros Hc Hk w lg Hi. destruct (Hc w lg Hi) as (a & w1 & l1 & E1 & Ha & D1 & R1 & I1 & C1).
  destruct (Hk a Ha w1 (lg ++ l1) I1) as (b & w2 & l2 & E2 & Hb & D2 & R2 & I2 & C2). exists b, w2, (l1 ++ l2).
  rewrite (cmd_bind_run _ _ _ _ _ E1), E2, <- app_assoc, detected_app, D1, D2. split_and!; try done.
  - intros o Ho. by rewrite R2, R1.
  - unfold same_ctxts in *. by rewrite C2, C1.
Qed.
Notation silent := (quiet (fun _ => True)).
Lemma silent_bind {A B} (P : B -> Prop) (c : lcmd A) (k : A -> lcmd B) :
  silent c -> (forall a, quiet P (k a)) -> quiet P (c ≫= k).
Proof. intros Hc Hk. apply (quiet_bind (fun _ => True)); auto. Qed.
Lemma silent_log l : detected [l] = [] -> silent (log l).
Proof. intros Hl w lg Hi. exists tt, w, [l]. by split_and!. Qed.
Lemma silent_when b (c : lcmd unit) : silent c -> silent (when b c).
Proof. intros Hc. destruct b; [exact Hc|by apply quiet_ret]. Qed.
Lemma silent_read o : err_reg o -> silent (on_reg (qdma_reg_read dev o)).
Proof.
  intros Ho w lg Hi. exists (reg w o), w, []. rewrite app_nil_r. unfold on_reg. cbn [fst snd].
  rewrite err_read_run by done. by split_and!.
Qed.

#[local] Opaque eqdma_config_regs.
Definition shown_reg (a : Z) : bool :=
  existsb (fun r => xr_addr r =? a) eqdma_config_regs && err_regb a.
Lemma silent_show a : shown_reg a = true -> silent (show_reg dev a).
Proof.
  unfold shown_reg. rewrite andb_true_iff, existsb_exists, err_regb_spec. intros [(r & Hr & <-%Z.eqb_eq) Ha] w lg Hi. exists tt, w, []. rewrite app_nil_r. apply list_elem_of_In in Hr.
  unfold show_reg. cbn [fst snd].
  rewrite (reg_info_quiet dev r (attrs w) (reg w (xr_addr r)) w (mkText 0 []) Hr (err_cap_run w)); [by split_and!|].
  by apply err_read_run.
Qed.
Lemma silent_shows l : forallb shown_reg l = true -> silent (show_regs dev l).
Proof.
  induction l as [|a l IH]; cbn [show_regs forallb]; [intros _; by apply quiet_ret|].
  intros [Ha Hl]%andb_true_iff. apply silent_bind; [by apply silent_show|]. intros _. by apply IH.
Qed.
Lemma silent_member es i : 0 <= i < Z.of_nat (List.length es) -> silent (show_member es i).
Proof.
  intros Hi. destruct (aget_some es i Hi) as [e He]. apply silent_bind; [|intros x; by apply silent_log].
  intros w lg Hw. exists e, w, []. rewrite app_nil_r, (lift_run _ _ _ He). by split_and!.
Qed.

(** A read command, whatever the queue it names, leaves the context memory alone. *)
Lemma exec_read_ctxts sel q lat inv h :
  ih_ctxt (ind_exec lat inv (qdma_ind_ctxt_cmd QDMA_CTXT_CMD_RD sel q) h) = ih_ctxt h.
Proof.
  assert (bits q 0 12 = q mod 4096) as Hb by (by rewrite bits_spec, Z.div_1_r by lia).
  pose proof (Z.mod_pos_bound q 4096 ltac:(lia)) as Hq.
  assert (bits (q mod 4096) 0 12 = q mod 4096) as Hb'
    by (rewrite bits_spec, Z.div_1_r by lia; apply Z.mod_small; lia).
  assert (qdma_ind_ctxt_cmd QDMA_CTXT_CMD_RD sel q = qdma_ind_ctxt_cmd QDMA_CTXT_CMD_RD sel (q mod 4096)) as ->
    by (unfold qdma_ind_ctxt_cmd; by rewrite Hb, Hb').
  by rewrite (exec_read sel _ lat inv h Hq).
Qed.

(** A context is read on a device that answers in time. *)
Lemma quiet_ctxt {C} (of_words : list Z -> outcome C) c0 sel q n : prompt (W := W) ->
  (forall l, List.length l = n -> exists c, of_words l = Ok c) -> (n <= 8)%nat ->
  quiet (fun x => exists c : C, x = Some c) (read_ctxt
    ('(rv, words) ← eqdma_indirect_reg_read dev sel q n;
     if decide (rv < 0) then mret (rv, c0) else c' ← lift (of_words words); mret (QDMA_SUCCESS, Some c'))).
Proof.
  intros Hp Hw Hn w lg Hi. destruct (read_run dev sel q n w Hi Hn) as (lat & w1 & w2 & E & [Hlat H1] & H2).
  destruct (answer_prompt lat Hp Hlat) as [Ha H0]. rewrite Ha in E. rewrite H0 in H1.
  destruct Hlat as [w0 ->]. rewrite decide_True in E by apply Hp.
  destruct (Hw (take n (ih_data (ind w1)))) as [c Hc].
  { rewrite length_take, (iw_data _ (ind_ok w1)). lia. }
  exists (Some c), w2, []. rewrite app_nil_r. unfold read_ctxt. split; [|split_and!].
  - unfold on_reg, mbind, cmd_bind. cbn [fst snd]. rewrite E. rewrite decide_False by (unfold QDMA_SUCCESS; lia).
    by rewrite (lift_run _ _ _ Hc).
  - by exists c.
  - done.
  - exact (keeps_ind_read sel q n Hn _ _ _ E).
  - unfold idle. by rewrite H2, H1.
  - unfold same_ctxts. rewrite H2, H1. apply exec_read_ctxts.
Qed.
Lemma quiet_written {C} (x : option C) : (exists c, x = Some c) -> silent (written x).
Proof. intros [c ->]. by apply quiet_ret. Qed.

Lemma silent_dump_ctxt o en_st c2h : prompt (W := W) -> err_reg o ->
  silent (eqdma_hw_err_dump_ctxt_info dev o en_st c2h).
Proof.
  intros Hp Ho. unfold eqdma_hw_err_dump_ctxt_info. apply silent_bind; [by apply silent_read|]. intros v.
  eapply quiet_bind; [apply (quiet_ctxt sw_of_words); [exact Hp|exact sw_words_ok|vm_compute; lia]|]. intros x Hx.
  eapply quiet_bind; [apply (quiet_ctxt hw_of_words); [exact Hp|exact hw_words_ok|vm_compute; lia]|]. intros y Hy.
  apply silent_bind; [by apply quiet_written|]. intros sw. apply silent_bind; [by apply quiet_written|]. intros hw.
  assert (forall i, 0 <= i < 29 -> silent (show_member (eqdma_fill_sw_ctxt sw) i)) as Hsw
    by (intros i Hi; apply silent_member; exact Hi).
  assert (forall i, 0 <= i < 6 -> silent (show_member (eqdma_fill_hw_ctxt hw) i)) as Hhw
    by (intros i Hi; apply silent_member; exact Hi).
  apply silent_bind.
  { apply silent_when. repeat (apply silent_bind; [first [by apply silent_log|apply Hsw; lia]|intros ?]). apply Hhw. lia. }
  intros _. apply silent_bind; [apply silent_when, Hsw; lia|]. intros _.
  do 2 (apply silent_bind; [apply Hsw; lia|]; intros _). apply silent_when.
  eapply quiet_bind; [apply (quiet_ctxt cm_of_words); [exact Hp|exact cm_words_ok|vm_compute; lia]|]. intros z Hz.
  apply silent_bind; [by apply quiet_written|]. intros cm.
  assert (forall i, 0 <= i < 27 -> silent (show_member (eqdma_fill_cmpt_ctxt cm) i)) as Hcm
    by (intros i Hi; apply silent_member; exact Hi).
  apply silent_bind; [by apply silent_log|]. intros _.
  do 3 (apply silent_bind; [apply Hcm; lia|]; intros _). apply silent_when, Hcm. lia.
Qed.

(** Every function of the table prints and detects nothing. *)
Lemma silent_handler h : prompt (W := W) -> silent (eqdma_hw_err_process h dev).
Proof.
  intros Hp. destruct h; cbn [eqdma_hw_err_process]; try (apply silent_shows; vm_compute; reflexivity);
    (apply silent_bind; [apply silent_shows; vm_compute; reflexivity|]; intros _;
     apply silent_dump_ctxt; [exact Hp|by apply err_regb_spec]).
Qed.

(** *** Detecting *)
Definition raised (w : W) (e : eqdma_hw_err_info) : bool :=
  negb (Z.land (reg w (he_stat_reg e)) (he_leaf_mask e) =? 0).
Definition detection (e : eqdma_hw_err_info) : err_log := Detected (Some (he_name e)).

#[local] Opaque eqdma_err_info.
Lemma err_count : List.length eqdma_err_info = 155%nat.
Proof. vm_compute. reflexivity. Qed.

Lemma detect_run stat k n (w : W) lg : (k + n <= 155)%nat ->
  detect stat (Z.of_nat k) n (w, lg) = Ok (tt, (w, lg ++ (detection <$>
    List.filter (fun e => negb (Z.land stat (he_leaf_mask e) =? 0)) (take n (drop k eqdma_err_info))))).
Proof.
  revert k lg. induction n as [|n IH]; intros k lg Hk; cbn [detect]; [by rewrite app_nil_r|].
  destruct (lookup_lt_is_Some_2 eqdma_err_info k) as [e He]; [rewrite err_count; lia|].
  erewrite cmd_bind_run by (apply lift_run, aget_nat, He).
  rewrite (drop_S _ _ _ He). cbn [take List.filter].
  replace (Z.of_nat k + 1) with (Z.of_nat (S k)) by lia.
  destruct (decide (Z.land stat (he_leaf_mask e) <> 0)) as [Hn|Hz].
  - assert (eqdma_hw_get_error_name (Z.of_nat k) = Ok (Some (he_name e))) as En.
    { unfold eqdma_hw_get_error_name. rewrite decide_False by (unfold EQDMA_ERRS_ALL; lia). by rewrite (aget_nat _ _ _ He). }
    rewrite (proj2 (Z.eqb_neq _ _) Hn). cbn [negb fmap list_fmap].
    erewrite cmd_bind_run; [|erewrite cmd_bind_run by (apply lift_run, En); reflexivity].
    cbn [fst snd]. rewrite IH by lia. by rewrite <- app_assoc.
  - assert (Z.land stat (he_leaf_mask e) = 0) as -> by (destruct (Z.eq_dec (Z.land stat (he_leaf_mask e)) 0); tauto).
    cbn [Z.eqb negb]. erewrite cmd_bind_run by reflexivity. apply IH. lia.
Qed.

Lemma detected_detections l : detected (detection <$> l) = Some <$> (he_name <$> l).
Proof. induction l as [|e l IH]; [reflexivity|]. cbn. f_equal. exact IH. Qed.

(** What is known of group [i]: its position, its size, its registers. *)
Definition streaming (i : nat) : bool := (2 <=? i)%nat && (i <=? 4)%nat.
Definition group_ok (i : nat) : bool :=
  match hw_err_position !! i, all_eqdma_hw_errs !! i, group_first i, group_all i with
  | Some p, Some q, Some e, Some a =>
      (0 <=? p) && (p <=? q) && (q <? 155) && (he_stat_reg e =? he_stat_reg a) && err_regb (he_stat_reg a) &&
      err_regb (he_mask_reg a) && negb (he_stat_reg a =? EQDMA_GLBL_ERR_STAT_ADDR) &&
      Bool.eqb (streaming i) ((p =? EQDMA_ST_C2H_ERR_MTY_MISMATCH) || (p =? EQDMA_ST_FATAL_ERR_MTY_MISMATCH) ||
        (p =? EQDMA_ST_H2C_ERR_ZERO_LEN_DESC)) &&
      Bool.eqb (streaming i) ((q =? EQDMA_ST_C2H_ERR_ALL) || (q =? EQDMA_ST_FATAL_ERR_ALL) ||
        (q =? EQDMA_ST_H2C_ERR_ALL)) &&
      forallb (fun f => he_stat_reg f =? he_stat_reg a) (group i)
  | _, _, _, _ => false
  end.
Lemma groups_ok : forallb group_ok groups = true.
Proof. vm_compute. reflexivity. Qed.

Record group_facts (i : nat) (p q : Z) (e a : eqdma_hw_err_info) : Prop := {
  gf_pos : aget hw_err_position (Z.of_nat i) = Ok p;
  gf_all : aget all_eqdma_hw_errs (Z.of_nat i) = Ok q;
  gf_first : aget eqdma_err_info p = Ok e;
  gf_last : aget eqdma_err_info q = Ok a /\ group_all i = Some a;
  gf_order : 0 <= p <= q /\ q < 155;
  gf_stat : he_stat_reg e = he_stat_reg a /\ err_reg (he_stat_reg a) /\ he_stat_reg a <> EQDMA_GLBL_ERR_STAT_ADDR;
  gf_mask : err_reg (he_mask_reg a);
  gf_streams : streaming i = true <-> (p = EQDMA_ST_C2H_ERR_MTY_MISMATCH \/ p = EQDMA_ST_FATAL_ERR_MTY_MISMATCH \/
    p = EQDMA_ST_H2C_ERR_ZERO_LEN_DESC);
  gf_streams_all : streaming i = true <-> (q = EQDMA_ST_C2H_ERR_ALL \/ q = EQDMA_ST_FATAL_ERR_ALL \/ q = EQDMA_ST_H2C_ERR_ALL);
  gf_group : group i = take (Z.to_nat (q - p)) (drop (Z.to_nat p) eqdma_err_info);
  gf_same : forall f, f ∈ group i -> he_stat_reg f = he_stat_reg a }.

Lemma group_known i : (i < 11)%nat -> exists p q e a, group_facts i p q e a.
Proof.
  intros Hi. assert (i ∈ groups) as Hin by (apply elem_of_seq; lia).
  pose proof (forallb_elem _ _ _ groups_ok Hin) as H. unfold group_ok, group_first, group_all in H.
  destruct (hw_err_position !! i) as [p|] eqn:Ep; [|discriminate H].
  destruct (all_eqdma_hw_errs !! i) as [q|] eqn:Eq; [|discriminate H]. cbn [mbind option_bind] in H.
  destruct (eqdma_err_info !! Z.to_nat p) as [e|] eqn:Ee; [|discriminate H].
  destruct (eqdma_err_info !! Z.to_nat q) as [a|] eqn:Ea; [|discriminate H].
  rewrite !andb_true_iff, !eqb_true_iff in H. destruct H as (((((((((H1 & H2) & H3) & H4) & H5) & H6) & H7) & H8) & H9) & H10).
  exists p, q, e, a. split.
  - by apply aget_nat.
  - by apply aget_nat.
  - apply aget_ok. split; [lia|done].
  - split; [apply aget_ok; split; [lia|done]|]. unfold group_all. rewrite Eq. exact Ea.
  - lia.
  - apply err_regb_spec in H5. split; [lia|]. split; [done|]. apply negb_true_iff, Z.eqb_neq in H7. exact H7.
  - by apply err_regb_spec.
  - rewrite H8, !orb_true_iff, !Z.eqb_eq. tauto.
  - rewrite H9, !orb_true_iff, !Z.eqb_eq. tauto.
  - unfold group. by rewrite Ep, Eq.
  - intros f Hf. apply Z.eqb_eq. exact (forallb_elem _ _ _ H10 Hf).
Qed.

(** The groups that are looked at, and their status registers. *)
Definition active (b : bool) (i : nat) : bool := b || negb (streaming i).
Definition stat_of (i : nat) : option Z := he_stat_reg <$> group_all i.
Definition actives (b : bool) (l : list nat) : list nat := List.filter (active b) l.
Definition cleared (b : bool) (l : list nat) : list Z := omap stat_of (actives b l).
Definition found (w : W) (i : nat) : list (option string) := Some <$> (he_name <$> List.filter (raised w) (group i)).

Lemma status_of i a : (i < 11)%nat -> group_all i = Some a -> he_stat_reg a ∈ status_regs.
Proof.
  intros Hi Ha. unfold status_regs. apply list_elem_of_omap. exists i. split; [apply elem_of_seq; lia|].
  by rewrite Ha.
Qed.

Lemma ldiff_all x : Z.ldiff x x = 0.
Proof. apply Z.ldiff_diag. Qed.

Lemma filter_false {A} (f : A -> bool) (l : list A) : (forall x, x ∈ l -> f x = false) -> List.filter f l = [].
Proof.
  induction l as [|x l IH]; intros H; [reflexivity|]. cbn [List.filter].
  rewrite (H x ltac:(set_solver)). apply IH. set_solver.
Qed.
Lemma filter_ext_in' {A} (f g : A -> bool) (l : list A) : (forall x, x ∈ l -> f x = g x) ->
  List.filter f l = List.filter g l.
Proof. intros H. apply filter_ext_in. intros x Hx. apply H. by apply list_elem_of_In. Qed.

(** One round: the errors of a group that is looked at are found, and its status is
    cleared. *)
Lemma aggregator_run b cap i n w lg : prompt (W := W) -> idle w -> (i < 11)%nat ->
  b = negb (st_en cap =? 0) -> exists w1 lg1,
  process_aggregators dev cap (Z.of_nat i) (S n) (w, lg) =
    process_aggregators dev cap (Z.of_nat (S i)) n (w1, lg ++ lg1) /\
  detected lg1 = (if active b i then found w i else []) /\ idle w1 /\ same_ctxts w w1 /\
  forall o, err_reg o -> o <> EQDMA_GLBL_ERR_STAT_ADDR ->
    if decide (o ∈ cleared b [i]) then o ∉ mm_status -> reg w1 o = 0 else reg w1 o = reg w o.
Proof.
  intros Hp Hi Hlt Hb. destruct (group_known i Hlt) as (p & q & e & a & F).
  cbn [process_aggregators]. replace (Z.of_nat i + 1) with (Z.of_nat (S i)) by lia.
  erewrite cmd_bind_run by (apply lift_run, (gf_pos _ _ _ _ _ F)).
  assert (active b i = false <-> st_en cap = 0 /\ (p = EQDMA_ST_C2H_ERR_MTY_MISMATCH \/
    p = EQDMA_ST_FATAL_ERR_MTY_MISMATCH \/ p = EQDMA_ST_H2C_ERR_ZERO_LEN_DESC)) as Hact.
  { unfold active. rewrite orb_false_iff, negb_false_iff, (gf_streams _ _ _ _ _ F), Hb, negb_false_iff, Z.eqb_eq. reflexivity. }
  destruct (decide (st_en cap = 0 /\ _)) as [Hs|Hs].
  { apply Hact in Hs. exists w, []. rewrite Hs. erewrite cmd_bind_run by reflexivity. rewrite app_nil_r.
    split_and!; try done. intros o _ _. unfold cleared, actives. cbn [List.filter]. rewrite Hs.
    by rewrite decide_False by (cbn; set_solver). }
  assert (active b i = true) as Ha by (destruct (active b i); [done|exfalso; tauto]). rewrite Ha.
  destruct (gf_last _ _ _ _ _ F) as [_ Hall]. destruct (gf_stat _ _ _ _ _ F) as (Hst & Hreg & Hng).
  assert (cleared b [i] = [he_stat_reg a]) as Hcl
    by (unfold cleared, actives, stat_of; cbn [List.filter]; rewrite Ha; cbn [omap list_omap]; by rewrite Hall).
  rewrite Hcl. set (v := reg w (he_stat_reg a)).
  assert (List.filter (fun f => negb (Z.land v (he_leaf_mask f) =? 0)) (group i) = List.filter (raised w) (group i)) as Hf.
  { apply filter_ext_in'. intros f Hf. unfold raised. by rewrite (gf_same _ _ _ _ _ F f Hf). }
  destruct (decide (v = 0)) as [Hv|Hv].
  - exists w, []. rewrite app_nil_r.
    erewrite cmd_bind_run; [split; [reflexivity|]|].
    + split; [|split; [done|split; [done|]]].
      * unfold found. rewrite <- Hf, Hv. rewrite filter_false by (intros; by rewrite Z.land_0_l). done.
      * intros o Ho Hne. case_decide as Hin; [|done]. apply list_elem_of_singleton in Hin as ->. intros _. exact Hv.
    + erewrite cmd_bind_run by (apply lift_run, (gf_first _ _ _ _ _ F)). rewrite Hst.
      erewrite cmd_bind_run by (unfold on_reg; cbn [fst]; by rewrite err_read_run by done).
      cbn [snd]. fold v. rewrite Hv. reflexivity.
  - destruct (silent_handler (he_process e) Hp w (lg ++ [LeafErr (he_stat_reg a) v]) Hi)
      as ([] & w1 & lg1 & Eh & _ & Hd & Hr & Hi1 & Hc1).
    set (ds := detection <$> List.filter (raised w) (group i)).
    assert (he_stat_reg a ∈ EQDMA_GLBL_ERR_STAT_ADDR :: status_regs) as Hin
      by (apply elem_of_cons; right; by eapply status_of).
    destruct (er_clear (he_stat_reg a) v w1 Hin (er_u32 w _)) as (Hind & Hclr & Hoth).
    set (w2 := iowrite32 v (dev + he_stat_reg a) w1) in *.
    exists w2, (([LeafErr (he_stat_reg a) v] ++ lg1) ++ ds).
    erewrite cmd_bind_run; [split; [reflexivity|]|].
    + split; [|split; [|split]].
      * rewrite !detected_app, Hd. unfold ds. by rewrite detected_detections.
      * unfold idle. by rewrite Hind.
      * unfold same_ctxts. by rewrite Hind.
      * intros o Ho Hne. case_decide as Hoin.
        { apply list_elem_of_singleton in Hoin as ->. intros Hmm. rewrite Hclr, Hr by done. apply ldiff_all. }
        rewrite Hoth by (done || set_solver). by apply Hr.
    + erewrite cmd_bind_run by (apply lift_run, (gf_first _ _ _ _ _ F)). rewrite Hst.
      erewrite cmd_bind_run by (unfold on_reg; cbn [fst]; by rewrite err_read_run by done).
      cbn [snd]. fold v. rewrite (proj2 (Z.eqb_neq _ _) Hv). cbn [negb when].
      erewrite cmd_bind_run by reflexivity. cbn [fst snd]. rewrite (cmd_bind_run _ _ _ _ _ Eh).
      erewrite cmd_bind_run by (apply lift_run, (gf_all _ _ _ _ _ F)).
      pose proof (gf_order _ _ _ _ _ F) as Ho.
      rewrite <- (Z2Nat.id p) at 1 by lia.
      erewrite cmd_bind_run by (apply detect_run; lia). rewrite <- (gf_group _ _ _ _ _ F), Hf. fold ds.
      unfold on_reg, qdma_reg_write. cbn [fst snd]. fold w2. by rewrite !app_assoc.
Qed.

Lemma cleared_cons b i l : cleared b (i :: l) = cleared b [i] ++ cleared b l.
Proof.
  unfold cleared, actives. cbn [List.filter]. destruct (active b i); [|done].
  apply (omap_app stat_of [i]).
Qed.

Lemma cleared_in b l o : o ∈ cleared b l <-> exists i, i ∈ l /\ active b i = true /\ stat_of i = Some o.
Proof.
  unfold cleared, actives. rewrite list_elem_of_omap. split.
  - intros (i & Hi & Ho). apply list_elem_of_In, filter_In in Hi as [Hi Ha]. exists i. split_and!; [by apply list_elem_of_In|done|done].
  - intros (i & Hi & Ha & Ho). exists i. split; [|done]. apply list_elem_of_In, filter_In. split; [by apply list_elem_of_In|done].
Qed.

(** Two groups never share a status register. *)
Lemma stat_inj i j o : (i < 11)%nat -> (j < 11)%nat -> stat_of i = Some o -> stat_of j = Some o -> i = j.
Proof.
  intros Hi Hj Ei Ej.
  assert (forallb (fun i => forallb (fun j => (i =? j)%nat || negb (bool_decide (stat_of i = stat_of j))) groups) groups = true)
    as H by (vm_compute; reflexivity).
  pose proof (forallb_elem _ _ i H ltac:(apply elem_of_seq; lia)) as H1. cbv beta in H1.
  pose proof (forallb_elem _ _ j H1 ltac:(apply elem_of_seq; lia)) as H2. cbv beta in H2.
  apply orb_true_iff in H2 as [H2|H2]; [by apply Nat.eqb_eq|].
  rewrite bool_decide_eq_true_2 in H2 by congruence. discriminate H2.
Qed.

Lemma aggregators_run b cap n i w lg : prompt (W := W) -> idle w -> (i + n <= 11)%nat ->
  b = negb (st_en cap =? 0) -> exists w1 lg1,
  process_aggregators dev cap (Z.of_nat i) n (w, lg) = Ok (tt, (w1, lg ++ lg1)) /\
  detected lg1 = concat (found w <$> actives b (seq i n)) /\ idle w1 /\ same_ctxts w w1 /\
  forall o, err_reg o -> o <> EQDMA_GLBL_ERR_STAT_ADDR ->
    if decide (o ∈ cleared b (seq i n)) then o ∉ mm_status -> reg w1 o = 0 else reg w1 o = reg w o.
Proof.
  intros Hp. revert i w lg. induction n as [|n IH]; intros i w lg Hi Hn Hb.
  { exists w, []. rewrite app_nil_r. split_and!; try done. }
  destruct (aggregator_run b cap i n w lg Hp Hi ltac:(lia) Hb) as (w1 & lg1 & E1 & D1 & I1 & C1 & R1).
  destruct (IH (S i) w1 (lg ++ lg1) I1 ltac:(lia) Hb) as (w2 & lg2 & E2 & D2 & I2 & C2 & R2).
  exists w2, (lg1 ++ lg2). split; [by rewrite E1, E2, app_assoc|]. cbn [seq].
  split; [|split; [done|split; [by unfold same_ctxts in *; rewrite C2, C1|]]].
  - rewrite detected_app, D1, D2.
    assert (forall j, j ∈ actives b (seq (S i) n) -> found w1 j = found w j) as Hf.
    { intros j Hj. apply list_elem_of_In, filter_In in Hj as [Hj _]. apply list_elem_of_In, elem_of_seq in Hj.
      unfold found. do 2 f_equal. apply filter_ext_in'. intros e He. unfold raised.
      destruct (group_known j ltac:(lia)) as (pj & qj & ej & aj & F). rewrite (gf_same _ _ _ _ _ F e He).
      destruct (gf_stat _ _ _ _ _ F) as (_ & Hreg & Hng). specialize (R1 _ Hreg Hng). rewrite decide_False in R1; [by rewrite R1|].
      intros (k & Hk & _ & Hs)%cleared_in. apply list_elem_of_singleton in Hk as ->.
      assert (i = j); [|lia]. apply (stat_inj i j (he_stat_reg aj)); [lia|lia|done|].
      unfold stat_of. by rewrite (proj2 (gf_last _ _ _ _ _ F)). }
    assert (found w1 <$> actives b (seq (S i) n) = found w <$> actives b (seq (S i) n)) as ->
      by (apply list_fmap_ext; intros k j Hj; apply Hf; by eapply list_elem_of_lookup_2).
    unfold actives. cbn [List.filter]. by destruct (active b i).
  - intros o Ho Hne. rewrite cleared_cons.
    specialize (R1 o Ho Hne). specialize (R2 o Ho Hne). rewrite (decide_ext _ _ _ _ (elem_of_app _ _ _)) in *.
    repeat case_decide; try (exfalso; tauto); try intros Hmm; congruence || (rewrite R2; auto) || auto.
Qed.

(** The errors a call looks at: those of the table that do not stand for a group, and
    no streaming errors without streaming. *)
Definition looked_at (b : bool) (e : eqdma_hw_err_info) : bool :=
  bool_decide (he_idx e ∉ all_eqdma_hw_errs) &&
  (b || negb (bool_decide (he_process e = HwStC2h) || bool_decide (he_process e = HwStH2c))).
Definition reported (w : W) : list (option string) :=
  Some <$> (he_name <$> List.filter (fun e => looked_at (st_supported w) e && raised w e) eqdma_err_info).

Lemma filter_andb {A} (f g : A -> bool) (l : list A) :
  List.filter (fun x => f x && g x) l = List.filter g (List.filter f l).
Proof.
  induction l as [|x l IH]; [reflexivity|]. cbn [List.filter].
  destruct (f x); cbn [andb List.filter]; [|exact IH]. by destruct (g x); rewrite IH.
Qed.
Lemma filter_concat {A} (f : A -> bool) (ls : list (list A)) :
  List.filter f (concat ls) = concat (List.filter f <$> ls).
Proof. induction ls as [|l ls IH]; [reflexivity|]. cbn. by rewrite List.filter_app, IH. Qed.

Lemma table_looked_at b : List.filter (looked_at b) eqdma_err_info = concat (group <$> actives b groups).
Proof. destruct b; vm_compute; reflexivity. Qed.

Lemma reported_groups w : reported w = concat (found w <$> actives (st_supported w) groups).
Proof.
  unfold reported. rewrite filter_andb, table_looked_at, filter_concat, <- list_fmap_compose.
  generalize (actives (st_supported w) groups). intros l. induction l as [|i l IH]; [reflexivity|].
  cbn. rewrite !fmap_app, IH. unfold found. by rewrite list_fmap_compose.
Qed.

(** C20. Processing errors.  On a device that answers in time: if the global status is
    zero, the call says that nothing was detected and touches nothing.  Otherwise it
    names exactly the errors of the table that the groups' status registers report,
    in the order of the table (without streaming, those of the groups that are not
    for streaming), and clears these status registers, those of the memory-mapped
    channels apart, and the reported bits of the global status.  It reads contexts to
    print them, through the registers of the indirect access: outside that bank
    (0x804 to 0x847) no other register changes, every context of the device is what
    it was, and the device is idle again. *)
Theorem error_process_reports w lg : prompt (W := W) -> idle w ->
  if decide (reg w EQDMA_GLBL_ERR_STAT_ADDR = 0)
  then eqdma_hw_error_process (Some dev) (w, lg) = Ok (QDMA_HW_ERR_NOT_DETECTED, (w, lg))
  else exists w1 lg1,
    eqdma_hw_error_process (Some dev) (w, lg) = Ok (QDMA_SUCCESS, (w1, lg ++ lg1)) /\
    detected lg1 = reported w /\ idle w1 /\ (forall k, ctxt_at (ind w1) k = ctxt_at (ind w) k) /\
    Z.land (reg w1 EQDMA_GLBL_ERR_STAT_ADDR) (reg w EQDMA_GLBL_ERR_STAT_ADDR) = 0 /\
    forall o, err_reg o -> o <> EQDMA_GLBL_ERR_STAT_ADDR ->
      if decide (o ∈ cleared (st_supported w) groups) then o ∉ mm_status -> reg w1 o = 0 else reg w1 o = reg w o.
Proof.
  intros Hp Hi. set (g := reg w EQDMA_GLBL_ERR_STAT_ADDR). unfold eqdma_hw_error_process.
  erewrite cmd_bind_run by (unfold on_reg; cbn [fst]; by rewrite err_cap_run). cbn [snd].
  erewrite cmd_bind_run by (unfold on_reg; cbn [fst]; rewrite err_read_run by (by apply err_regb_spec); reflexivity).
  cbn [snd]. fold g. destruct (decide (g = 0)) as [Hg|Hg]; [done|].
  erewrite cmd_bind_run by reflexivity. cbn [fst snd].
  destruct (aggregators_run (st_supported w) (attrs w) 11 0 w (lg ++ [GlobalErr g]) Hp Hi ltac:(lia) eq_refl)
    as (w1 & lg1 & E & D & I1 & C1 & R).
  change (Z.to_nat EQDMA_TOTAL_LEAF_ERROR_AGGREGATORS) with 11%nat. change 0 with (Z.of_nat 0) at 1.
  rewrite (cmd_bind_run _ _ _ _ _ E).
  destruct (er_clear EQDMA_GLBL_ERR_STAT_ADDR g w1 ltac:(by apply elem_of_cons; left) (er_u32 w _)) as (Hind & Hclr & Hoth).
  exists (iowrite32 g (dev + EQDMA_GLBL_ERR_STAT_ADDR) w1), (GlobalErr g :: lg1).
  split; [unfold on_reg, qdma_reg_write, mbind, cmd_bind; cbn [fst snd]; by rewrite <- app_assoc|].
  split; [cbn; rewrite reported_groups; exact D|]. split; [unfold idle; by rewrite Hind|].
  split; [intros k; unfold ctxt_at; by rewrite Hind, C1|]. split.
  - rewrite Hclr by (apply (bool_decide_eq_false_1 (_ ∈ mm_status)); reflexivity). apply Z.bits_inj'. intros k Hk. rewrite Z.land_spec, Z.ldiff_spec, Z.bits_0.
    by destruct (Z.testbit _ k), (Z.testbit _ k).
  - intros o Ho Hne. specialize (R o Ho Hne). rewrite Hoth by done. exact R.
Qed.

(** *** Enabling *)
Definition mask_of (i : nat) : option Z := he_mask_reg <$> group_all i.

(** The registers an entry is enabled in. *)
Definition entry_masks_ok (e : eqdma_hw_err_info) : bool :=
  (FIELD_SET (he_global_mask e) 1 =? he_global_mask e) && (0 <=? he_global_mask e) && (he_global_mask e <? 2 ^ 32) &&
  (0 <=? he_leaf_mask e) && (he_leaf_mask e <? 2 ^ 32) && (0 <=? FIELD_SET (he_leaf_mask e) 1) &&
  (FIELD_SET (he_leaf_mask e) 1 <? 2 ^ 32) && negb (he_mask_reg e =? EQDMA_GLBL_ERR_MASK_ADDR) &&
  err_regb (he_mask_reg e) && bool_decide (he_mask_reg e ∈ mask_regs).
Lemma entries_ok : forallb entry_masks_ok eqdma_err_info = true.
Proof. vm_compute. reflexivity. Qed.

Record entry_facts (e : eqdma_hw_err_info) : Prop := {
  ef_global : FIELD_SET (he_global_mask e) 1 = he_global_mask e; ef_global_u32 : fits_u32 (he_global_mask e);
  ef_leaf_u32 : fits_u32 (he_leaf_mask e); ef_bit_u32 : fits_u32 (FIELD_SET (he_leaf_mask e) 1);
  ef_other : he_mask_reg e <> EQDMA_GLBL_ERR_MASK_ADDR; ef_reg : err_reg (he_mask_reg e);
  ef_in : he_mask_reg e ∈ mask_regs }.
Lemma entry_known e : e ∈ eqdma_err_info -> entry_facts e.
Proof.
  intros He. pose proof (forallb_elem _ _ _ entries_ok He) as H. unfold entry_masks_ok in H.
  rewrite !andb_true_iff, negb_true_iff, bool_decide_eq_true, err_regb_spec, !Z.eqb_eq, Z.eqb_neq, !Z.leb_le, !Z.ltb_lt in H.
  change (2 ^ 32) with 4294967296 in H. unfold fits_u32. destruct_and!. by split.
Qed.
Lemma all_entry i a : group_all i = Some a -> a ∈ eqdma_err_info.
Proof.
  unfold group_all. destruct (all_eqdma_hw_errs !! i) as [q|]; [|done]. cbn [mbind option_bind]. apply list_elem_of_lookup_2.
Qed.

(** Setting a bit of a mask register. *)
Lemma set_bit_run o m w : o ∈ EQDMA_GLBL_ERR_MASK_ADDR :: mask_regs -> err_reg o -> fits_u32 (FIELD_SET m 1) -> exists w1,
  set_reg_bit dev o m w = Ok (tt, w1) /\ ind w1 = ind w /\
  forall o', err_reg o' -> reg w1 o' = if decide (o' = o) then Z.lor (reg w o) (FIELD_SET m 1) else reg w o'.
Proof.
  intros Hin Ho Hm. unfold set_reg_bit. erewrite cmd_bind_run by (by apply err_read_run). rewrite u32_small by done.
  destruct (er_store o (Z.lor (reg w o) (FIELD_SET m 1)) w Hin) as [H1 H2].
  { pose proof (er_u32 w o). unfold fits_u32 in *. change 4294967296 with (2 ^ 32) in *. apply lor_range; lia. }
  by eexists.
Qed.

Lemma glbl_mask_reg : err_reg EQDMA_GLBL_ERR_MASK_ADDR.
Proof. by apply err_regb_spec. Qed.

(** The global bits of groups. *)
Definition global_bits (m : Z) (l : list nat) : Z :=
  fold_left (fun m i => match group_all i with Some a => Z.lor m (he_global_mask a) | None => m end) l m.

(** One round. *)
Lemma enable_step b cap i n w : (i < 11)%nat -> b = negb (st_en cap =? 0) -> exists w1,
  enable_aggregators dev cap (Z.of_nat i) (S n) w = enable_aggregators dev cap (Z.of_nat (S i)) n w1 /\
  ind w1 = ind w /\
  reg w1 EQDMA_GLBL_ERR_MASK_ADDR = global_bits (reg w EQDMA_GLBL_ERR_MASK_ADDR) (actives b [i]) /\
  forall o, err_reg o -> o <> EQDMA_GLBL_ERR_MASK_ADDR ->
    reg w1 o = match group_all i with
               | Some a => if decide (active b i = true /\ o = he_mask_reg a) then he_leaf_mask a else reg w o
               | None => reg w o end.
Proof.
  intros Hlt Hb. destruct (group_known i Hlt) as (p & q & e & a & F). destruct (gf_last _ _ _ _ _ F) as [Hlast Hall].
  cbn [enable_aggregators]. replace (Z.of_nat i + 1) with (Z.of_nat (S i)) by lia.
  erewrite cmd_bind_run by (apply lift_run, (gf_all _ _ _ _ _ F)). rewrite Hall.
  assert (active b i = false <-> st_en cap = 0 /\ (q = EQDMA_ST_C2H_ERR_ALL \/ q = EQDMA_ST_FATAL_ERR_ALL \/
    q = EQDMA_ST_H2C_ERR_ALL)) as Hact.
  { unfold active. rewrite orb_false_iff, negb_false_iff, (gf_streams_all _ _ _ _ _ F), Hb, negb_false_iff, Z.eqb_eq. reflexivity. }
  unfold actives. cbn [List.filter].
  destruct (decide (st_en cap = 0 /\ _)) as [Hs|Hs].
  { apply Hact in Hs. exists w. rewrite Hs. erewrite cmd_bind_run by reflexivity. by split_and!. }
  assert (active b i = true) as Ha by (destruct (active b i); [done|exfalso; tauto]). rewrite Ha.
  pose proof (entry_known a (all_entry _ _ Hall)) as Fa.
  destruct (er_store (he_mask_reg a) (he_leaf_mask a) w) as [I1 R1];
    [apply elem_of_cons; right; apply Fa|apply Fa|].
  set (w1 := iowrite32 (he_leaf_mask a) (dev + he_mask_reg a) w) in *.
  destruct (set_bit_run EQDMA_GLBL_ERR_MASK_ADDR (he_global_mask a) w1) as (w2 & E2 & I2 & R2);
    [apply elem_of_cons; by left|apply glbl_mask_reg|rewrite (ef_global _ Fa); apply Fa|].
  rewrite (ef_global _ Fa) in R2. exists w2.
  erewrite cmd_bind_run; [split; [reflexivity|]|].
  - split; [by rewrite I2|]. split.
    + rewrite R2, decide_True by (done || apply glbl_mask_reg). unfold global_bits. cbn [fold_left]. rewrite Hall.
      rewrite R1 by apply glbl_mask_reg. rewrite decide_False; [done|]. intros Heq. by apply (ef_other _ Fa).
    + intros o Ho Hne. rewrite R2, decide_False by done. rewrite R1 by done. apply decide_ext. tauto.
  - erewrite cmd_bind_run by (apply lift_run, Hlast). erewrite cmd_bind_run by reflexivity. fold w1. exact E2.
Qed.

Lemma mask_inj i j a a' : (i < 11)%nat -> (j < 11)%nat -> group_all i = Some a -> group_all j = Some a' ->
  he_mask_reg a = he_mask_reg a' -> i = j.
Proof.
  intros Hi Hj Ei Ej Heq.
  assert (forallb (fun i => forallb (fun j => (i =? j)%nat || negb (bool_decide (mask_of i = mask_of j))) groups) groups = true)
    as H by (vm_compute; reflexivity).
  pose proof (forallb_elem _ _ i H ltac:(apply elem_of_seq; lia)) as H1. cbv beta in H1.
  pose proof (forallb_elem _ _ j H1 ltac:(apply elem_of_seq; lia)) as H2. cbv beta in H2.
  apply orb_true_iff in H2 as [H2|H2]; [by apply Nat.eqb_eq|]. unfold mask_of in H2. rewrite Ei, Ej in H2.
  cbn [fmap option_fmap option_map] in H2. rewrite bool_decide_eq_true_2 in H2 by (by rewrite Heq). discriminate H2.
Qed.

(** The mask registers after the groups [l] have been enabled. *)
Definition enabled_in (b : bool) (l : list nat) (w w1 : W) : Prop :=
  (forall i a, i ∈ l -> active b i = true -> group_all i = Some a -> reg w1 (he_mask_reg a) = he_leaf_mask a) /\
  (forall o, err_reg o -> o <> EQDMA_GLBL_ERR_MASK_ADDR ->
    (forall i a, i ∈ l -> active b i = true -> group_all i = Some a -> o <> he_mask_reg a) -> reg w1 o = reg w o).

Lemma enable_run b cap n i w : (i + n <= 11)%nat -> b = negb (st_en cap =? 0) -> exists w1,
  enable_aggregators dev cap (Z.of_nat i) n w = Ok (tt, w1) /\ ind w1 = ind w /\
  reg w1 EQDMA_GLBL_ERR_MASK_ADDR = global_bits (reg w EQDMA_GLBL_ERR_MASK_ADDR) (actives b (seq i n)) /\
  enabled_in b (seq i n) w w1.
Proof.
  revert i w. induction n as [|n IH]; intros i w Hn Hb.
  { exists w. do 3 (split; [done|]). split; [intros j a Hj; by apply elem_of_nil in Hj|done]. }
  destruct (enable_step b cap i n w ltac:(lia) Hb) as (w1 & E1 & I1 & G1 & R1).
  destruct (IH (S i) w1 ltac:(lia) Hb) as (w2 & E2 & I2 & G2 & S2 & O2).
  exists w2. split; [by rewrite E1|]. split; [by rewrite I2|]. cbn [seq]. split.
  { rewrite G2, G1. unfold actives, global_bits. cbn [List.filter]. by destruct (active b i). }
  split.
  - intros j a Hj Ha Hall. apply elem_of_cons in Hj as [->|Hj]; [|by eapply S2].
    pose proof (entry_known a (all_entry _ _ Hall)) as Fa.
    rewrite O2; [|apply Fa|apply Fa|].
    + rewrite R1, Hall, decide_True by (done || apply Fa). done.
    + intros k a' Hk _ Hk' Heq. apply elem_of_seq in Hk. assert (i = k); [|lia].
      by apply (mask_inj i k a a'); [lia|lia| | |].
  - intros o Ho Hne Hnot. rewrite O2; [|done|done|intros k a' Hk; apply Hnot; set_solver].
    rewrite R1 by done. destruct (group_all i) as [a|] eqn:Hall; [|done]. rewrite decide_False; [done|].
    intros [Ha Heq]. by apply (Hnot i a); [set_solver| | |].
Qed.

Lemma fold_or_keeps l m k : Z.land m k = k -> Z.land (global_bits m l) k = k.
Proof.
  unfold global_bits. revert m. induction l as [|i l IH]; intros m Hm; [exact Hm|]. cbn [fold_left].
  apply IH. destruct (group_all i) as [a|]; [|exact Hm].
  rewrite Z.land_lor_distr_l, Hm. apply Z.bits_inj'. intros b Hb. rewrite Z.lor_spec, Z.land_spec. by destruct (Z.testbit k b), (Z.testbit _ b).
Qed.
Lemma global_bits_has m l i a : i ∈ l -> group_all i = Some a ->
  Z.land (global_bits m l) (he_global_mask a) = he_global_mask a.
Proof.
  revert m. induction l as [|j l IH]; intros m Hi Ha; [by apply elem_of_nil in Hi|].
  apply elem_of_cons in Hi as [->|Hi].
  - unfold global_bits. cbn [fold_left]. rewrite Ha. apply (fold_or_keeps l). rewrite Z.land_lor_distr_l, Z.land_diag.
    apply Z.bits_inj'. intros b Hb. rewrite Z.lor_spec, Z.land_spec. by destruct (Z.testbit (he_global_mask a) b), (Z.testbit m b).
  - by apply IH.
Qed.

Lemma actives_in b l i : i ∈ actives b l <-> i ∈ l /\ active b i = true.
Proof. unfold actives. by rewrite list_elem_of_In, filter_In, <- list_elem_of_In. Qed.

(** What is enabled for the errors of a group. *)
Lemma group_enabled b w w1 i e : enabled_in b groups w w1 ->
  reg w1 EQDMA_GLBL_ERR_MASK_ADDR = global_bits (reg w EQDMA_GLBL_ERR_MASK_ADDR) (actives b groups) ->
  i ∈ groups -> active b i = true -> e ∈ group i ->
  (Z.land (reg w1 (he_mask_reg e)) (he_leaf_mask e) = 0 <-> he_idx e ∈ never_enabled) /\
  Z.land (reg w1 EQDMA_GLBL_ERR_MASK_ADDR) (he_global_mask e) = he_global_mask e.
Proof.
  intros [Hset _] Hg Hi Ha He. destruct (in_group i e Hi He) as (a & Hall & Hw).
  unfold err_wf, same_group in Hw. rewrite !andb_true_iff, !Z.eqb_eq in Hw.
  destruct Hw as (((((((( Hm & _) & Hgm) & _) & _) & _) & _) & Hn) & _).
  rewrite <- Hm, (Hset i a Hi Ha Hall), <- Hgm. split.
  - apply eqb_prop in Hn. rewrite Z.land_comm, <- Z.eqb_eq, Hn. apply bool_decide_eq_true.
  - rewrite Hg. apply (global_bits_has _ _ i); [|done]. by apply actives_in.
Qed.

(** Enabling errors.  A number behind that of all errors is refused.  Enabling
    all errors sets the global bit of every group the device has (without streaming,
    the others are left alone) and a bit of each of its errors, but for the four of
    [never_enabled], which are not in the masks of their groups and stay, or become,
    disabled.  Enabling one error adds the lowest of its bits, and the global bit of
    its group, to those that are set; without streaming, nothing is done for a
    streaming error.  No other register changes. *)
Theorem error_enable_correct idx w : 0 <= idx ->
  if decide (idx > EQDMA_ERRS_ALL)
  then eqdma_hw_error_enable (Some dev) idx w = Ok (- QDMA_ERR_INV_PARAM, w)
  else exists w1, eqdma_hw_error_enable (Some dev) idx w = Ok (QDMA_SUCCESS, w1) /\ ind w1 = ind w /\
    if decide (idx = EQDMA_ERRS_ALL) then
      (forall i e, i ∈ groups -> active (st_supported w) i = true -> e ∈ group i ->
        (Z.land (reg w1 (he_mask_reg e)) (he_leaf_mask e) = 0 <-> he_idx e ∈ never_enabled) /\
        Z.land (reg w1 EQDMA_GLBL_ERR_MASK_ADDR) (he_global_mask e) = he_global_mask e) /\
      (forall o, err_reg o -> o <> EQDMA_GLBL_ERR_MASK_ADDR ->
        (forall i a, i ∈ groups -> active (st_supported w) i = true -> group_all i = Some a -> o <> he_mask_reg a) ->
        reg w1 o = reg w o)
    else exists e, aget eqdma_err_info idx = Ok e /\
      if decide (st_en (attrs w) = 0 /\ EQDMA_ST_C2H_ERR_MTY_MISMATCH <= idx <= EQDMA_ST_H2C_ERR_ALL) then w1 = w
      else forall o, err_reg o ->
        reg w1 o = if decide (o = he_mask_reg e) then Z.lor (reg w o) (FIELD_SET (he_leaf_mask e) 1)
                   else if decide (o = EQDMA_GLBL_ERR_MASK_ADDR) then Z.lor (reg w o) (he_global_mask e) else reg w o.
Proof.
  intros H0. unfold eqdma_hw_error_enable. destruct (decide (idx > EQDMA_ERRS_ALL)) as [Hgt|Hle]; [done|].
  assert (forall A (k : qdma_dev_attributes -> cmd W A), (dev_cap_of dev ≫= k) w = k (attrs w) w) as Hcap
    by (intros A k; by rewrite (cmd_bind_run _ _ _ _ _ (err_cap_run w))).
  rewrite Hcap. destruct (decide (idx = EQDMA_ERRS_ALL)) as [->|Hne].
  - destruct (enable_run (st_supported w) (attrs w) 11 0 w ltac:(lia) eq_refl) as (w1 & E & I1 & G & Hen).
    exists w1. change (Z.to_nat EQDMA_TOTAL_LEAF_ERROR_AGGREGATORS) with 11%nat. change 0 with (Z.of_nat 0) at 1.
    rewrite (cmd_bind_run _ _ _ _ _ E). split; [done|]. split; [done|]. split; [|exact (proj2 Hen)].
    intros i e Hi Ha He. exact (group_enabled _ w w1 i e Hen G Hi Ha He).
  - destruct (aget_some eqdma_err_info idx) as [e He].
    { rewrite err_count. unfold EQDMA_ERRS_ALL in *. lia. }
    destruct (decide (st_en (attrs w) = 0 /\ _)) as [Hs|Hs]; [exists w; split_and!; try done; by exists e|].
    pose proof (entry_known e ltac:(apply aget_ok in He as [_ He]; by eapply list_elem_of_lookup_2)) as F.
    destruct (set_bit_run (he_mask_reg e) (he_leaf_mask e) w) as (w1 & E1 & I1 & R1);
      [apply elem_of_cons; right; apply F|apply F|apply F|].
    destruct (set_bit_run EQDMA_GLBL_ERR_MASK_ADDR (he_global_mask e) w1) as (w2 & E2 & I2 & R2);
      [apply elem_of_cons; by left|apply glbl_mask_reg|rewrite (ef_global _ F); apply F|].
    rewrite (ef_global _ F) in R2. exists w2. erewrite cmd_bind_run by (apply lift_run, He).
    rewrite (cmd_bind_run _ _ _ _ _ E1), (cmd_bind_run _ _ _ _ _ E2). split; [done|]. split; [by rewrite I2|].
    exists e. split; [done|]. intros o Ho. rewrite R2 by done. pose proof (ef_other _ F) as Hother.
    rewrite !R1 by (done || apply glbl_mask_reg). repeat case_decide; congruence.
Qed.
End device.

(** ** A concrete device: error registers beside the context memory of [Indirect] *)
Record err_hw := mkErrHw { eh_regs : gmap Z Z; eh_ind : ind_hw }.
Definition err_reg_val (w : err_hw) (o : Z) : Z := u32 (default 0 (eh_regs w !! o)).

#[local] Instance err_iomem : IoMem err_hw := {|
  ioread32 a w :=
    if err_regb a then (err_reg_val w a, w)
    else let '(v, h) := ioread32 (IoMem := hw_iomem 3) a (eh_ind w) in (v, mkErrHw (eh_regs w) h);
  iowrite32 v a w :=
    if err_regb a then
      (if bool_decide (a ∈ EQDMA_GLBL_ERR_STAT_ADDR :: status_regs)
       then mkErrHw (<[a := Z.ldiff (err_reg_val w a) v]> (eh_regs w)) (eh_ind w)
       else if bool_decide (a ∈ EQDMA_GLBL_ERR_MASK_ADDR :: mask_regs)
       then mkErrHw (<[a := v]> (eh_regs w)) (eh_ind w) else w)
    else mkErrHw (eh_regs w) (iowrite32 (IoMem := hw_iomem 3) v a (eh_ind w)) |}.
#[local] Instance err_regfile : RegFile err_hw := err_reg_val.
#[local] Instance err_ind : IndCtxt err_hw := {|
  ind w := norm_hw (eh_ind w); ind_latency _ := 3%nat; ind_inv l := l |}.

Lemma err_lists_ok :
  forallb err_regb (EQDMA_GLBL_ERR_STAT_ADDR :: status_regs) = true /\
  forallb (fun o => err_regb o && negb (bool_decide (o ∈ EQDMA_GLBL_ERR_STAT_ADDR :: status_regs)))
    (EQDMA_GLBL_ERR_MASK_ADDR :: mask_regs) = true.
Proof. split; vm_compute; reflexivity. Qed.

Lemma err_val_insert w m h o v : fits_u32 v -> m = <[o := v]> (eh_regs w) -> forall o',
  err_reg_val (mkErrHw m h) o' = if decide (o' = o) then v else err_reg_val w o'.
Proof.
  intros Hv -> o'. unfold err_reg_val. cbn [eh_regs]. case_decide as E; [subst o'|by rewrite lookup_insert_ne by done].
  rewrite lookup_insert_eq. by apply u32_small.
Qed.

Lemma ldiff_u32 x y : fits_u32 x -> fits_u32 y -> fits_u32 (Z.ldiff x y).
Proof.
  unfold fits_u32. change 4294967296 with (2 ^ 32). intros Hx Hy.
  assert (Z.ldiff x y = Z.ldiff x y mod 2 ^ 32) as ->; [|apply Z.mod_pos_bound; lia].
  apply Z.bits_inj'. intros k Hk. destruct (decide (k < 32)).
  - by rewrite Z.mod_pow2_bits_low by lia.
  - rewrite Z.mod_pow2_bits_high, Z.ldiff_spec by lia. rewrite <- (Z.mod_small x (2 ^ 32)) by lia.
    by rewrite Z.mod_pow2_bits_high by lia.
Qed.

Lemma ctxt_not_err o : ctxt_reg o -> err_regb o = false.
Proof.
  intros Ho. destruct (err_regb o) eqn:E; [|done]. apply err_regb_spec in E. unfold err_reg in E. tauto.
Qed.

#[local] Instance err_regs_ok : ErrRegsOk err_hw 0.
Proof.
  destruct err_lists_ok as [Hst Hmk]. split.
  - intros o w Ho. apply err_regb_spec in Ho. cbn [ioread32 err_iomem]. rewrite Z.add_0_l. by rewrite Ho.
  - intros w o. apply u32_range.
  - intros o v w Ho Hv. cbn [iowrite32 err_iomem]. rewrite Z.add_0_l.
    rewrite (forallb_elem _ _ _ Hst Ho), bool_decide_eq_true_2 by done. cbv zeta. split; [done|].
    pose proof (err_val_insert w (<[o := Z.ldiff (err_reg_val w o) v]> (eh_regs w)) (eh_ind w) o _
      (ldiff_u32 _ _ (u32_range _) Hv) eq_refl) as H. unfold reg, err_regfile. split.
    + intros _. by rewrite H, decide_True.
    + intros o' _ Hne _. by rewrite H, decide_False.
  - intros o v w Ho Hv. pose proof (forallb_elem _ _ _ Hmk Ho) as H. cbv beta in H. apply andb_true_iff in H as [H1 H2].
    cbn [iowrite32 err_iomem]. rewrite Z.add_0_l, H1. apply negb_true_iff in H2. rewrite H2.
    rewrite bool_decide_eq_true_2 by done. cbv zeta. split; [done|]. intros o' _.
    exact (err_val_insert w _ (eh_ind w) o v Hv eq_refl o').
  - intros o o' w Hc Ho. cbn [ioread32 err_iomem]. rewrite Z.add_0_l, (ctxt_not_err o Hc). by destruct (ioread32 _ _).
  - intros o o' v w Hc Ho. cbn [iowrite32 err_iomem]. by rewrite Z.add_0_l, (ctxt_not_err o Hc).
Qed.

#[local] Instance err_ind_ok : IndCtxtOk err_hw 0.
Proof.
  pose proof (hw_ok 3) as [H1 H2 H3 H4 H5 H6].
  assert (forall i : nat, (i < 8)%nat -> err_regb (EQDMA_IND_CTXT_DATA_ADDR + 4 * Z.of_nat i) = false) as Nd
    by (intros; apply ctxt_not_err; unfold ctxt_reg, EQDMA_IND_CTXT_DATA_ADDR; lia).
  assert (forall i : nat, (i < 8)%nat -> err_regb (EQDMA_IND_CTXT_MASK_ADDR + 4 * Z.of_nat i) = false) as Nm
    by (intros; apply ctxt_not_err; unfold ctxt_reg, EQDMA_IND_CTXT_MASK_ADDR; lia).
  split.
  - intros w. apply H1.
  - intros w i v Hb Hi Hv. cbn [iowrite32 err_iomem]. rewrite Z.add_0_l, Nd by done. by apply H2.
  - intros w i v Hb Hi Hv. cbn [iowrite32 err_iomem]. rewrite Z.add_0_l, Nm by done. by apply H3.
  - intros w c Hb Hc. cbn [iowrite32 err_iomem]. rewrite Z.add_0_l.
    change (err_regb EQDMA_IND_CTXT_CMD_ADDR) with false. cbv iota. by apply H4.
  - intros w. cbn [ioread32 err_iomem]. rewrite Z.add_0_l. change (err_regb EQDMA_IND_CTXT_CMD_ADDR) with false.
    cbv iota. specialize (H5 (eh_ind w)). rewrite Z.add_0_l in H5. by destruct (ioread32 _ (eh_ind w)).
  - intros w i Hb Hi. cbn [ioread32 err_iomem]. rewrite Z.add_0_l, Nd by done.
    specialize (H6 (eh_ind w) i Hb Hi). rewrite Z.add_0_l in H6. by destruct (ioread32 _ (eh_ind w)).
Qed.

Lemma err_prompt : prompt (W := err_hw).
Proof. intros w. unfold ind_latency, err_ind, MAX_POLLS. lia. Qed.

(** A streaming device that reports a poison error, a packet length mismatch, and a
    double-bit error of the two RAMs that share a bit. *)
Definition err_hw0 : err_hw := mkErrHw (list_to_map [(EQDMA_GLBL2_CHANNEL_MDMA_ADDR, 0x30101);
  (EQDMA_GLBL_ERR_STAT_ADDR, 0x106); (EQDMA_GLBL_DSC_ERR_STS_ADDR, 0x2); (EQDMA_C2H_ERR_STAT_ADDR, 0x2);
  (EQDMA_RAM_DBE_STS_1_A_ADDR, 0x8)]) hw0.

(** ** Witnesses *)
Lemma err_table_well_formed_witness : exists a, group_all 4 = Some a /\
  forallb (fun e => same_group a e && single_bit (he_leaf_mask e)) (group 4) = true.
Proof.
  destruct err_table_well_formed as (_ & _ & _ & H).
  assert (forall e, e ∈ group 4 -> exists a, group_all 4 = Some a /\ same_group a e = true /\
    single_bit (he_leaf_mask e) = true) as H1.
  { intros e He. destruct (H 4%nat e ltac:(vm_compute; repeat constructor) He) as (a & H1 & H2 & H3 & _).
    exists a. split; [exact H1|]. split; [exact H2|]. apply H3. intros Hw.
    apply (proj1 (Forall_forall (fun x => he_idx x ∉ wide_errors) (group 4))
      ltac:(vm_compute; repeat constructor; intros Hx; repeat (apply elem_of_cons in Hx as [Hx|Hx]; [discriminate Hx|]);
        by apply elem_of_nil in Hx) e He Hw). }
  eexists. split; [reflexivity|]. apply forallb_forall. intros e He. apply list_elem_of_In in He.
  destruct (H1 e He) as (a & Ha & H2 & H3). injection Ha as <-. rewrite H2, H3. reflexivity.
Defined.

Lemma error_process_reports_witness : exists w1 lg1,
  eqdma_hw_error_process (Some 0) (err_hw0, []) = Ok (QDMA_SUCCESS, (w1, lg1)) /\
  detected lg1 = [Some "Poison error"; Some "Packet length mismatch error";
    Some "Pfch Ctxt CAM RAM 0 double bit ECC error."; Some "Pfch Ctxt CAM RAM double bit ECC error."]%string /\
  reg w1 EQDMA_GLBL_DSC_ERR_STS_ADDR = 0 /\ reg w1 EQDMA_C2H_ERR_STAT_ADDR = 0.
Proof.
  pose proof (error_process_reports 0 err_hw0 [] err_prompt eq_refl) as H.
  rewrite decide_False in H by (vm_compute; discriminate).
  destruct H as (w1 & lg1 & E & D & _ & _ & _ & R). exists w1, lg1. split; [exact E|].
  split; [rewrite D; vm_compute; reflexivity|].
  split; [specialize (R EQDMA_GLBL_DSC_ERR_STS_ADDR)|specialize (R EQDMA_C2H_ERR_STAT_ADDR)];
    (rewrite decide_True in R by (apply (bool_decide_eq_true_1 (_ ∈ _)); vm_compute; reflexivity);
     apply R; [by apply err_regb_spec|discriminate|apply (bool_decide_eq_false_1 (_ ∈ mm_status)); reflexivity]).
Defined.
Lemma error_enable_correct_witness : exists w1,
  eqdma_hw_error_enable (Some 0) EQDMA_ERRS_ALL err_hw0 = Ok (QDMA_SUCCESS, w1) /\
  forall i e, i ∈ groups -> e ∈ group i -> he_idx e ∉ never_enabled ->
    Z.land (reg w1 (he_mask_reg e)) (he_leaf_mask e) <> 0.
Proof.
  pose proof (error_enable_correct 0 EQDMA_ERRS_ALL err_hw0 ltac:(vm_compute; discriminate)) as H.
  rewrite decide_False in H by (vm_compute; discriminate).
  destruct H as (w1 & E & _ & H). exists w1. split; [exact E|].
  rewrite decide_True in H by reflexivity. destruct H as [H _].
  intros i e Hi He Hn H0. destruct (H i e Hi eq_refl He) as [H1 _]. apply Hn, H1, H0.
Defined.
