(* ===== verification/Bytes.v ===== *)
(** * Objects in memory as bytes

    A C object that is read as another type than it was written as (the union of the
    mailbox messages) is the list of its bytes.  Integers are little-endian; a
    structure is the sequence of its members and bit-fields, from the lowest bit on,
    with their widths ([layout]), padding included, as the System V ABI of x86-64
    lays it out.  An access outside the object is a fault. *)

From S2P Require Import Prelude.
From stdpp Require Import list.

Open Scope Z_scope.

Notation bytes := (list Z).

(** ** Integers *)
Fixpoint bytes_of (n : nat) (v : Z) : bytes :=
  match n with O => [] | S n => v mod 256 :: bytes_of n (v / 256) end.
Fixpoint le (l : bytes) : Z :=
  match l with [] => 0 | b :: l => b + 256 * le l end.

Definition get_at (n off : nat) (b : bytes) : Z := le (take n (drop off b)).
Definition put_bytes (off : nat) (l b : bytes) : bytes := take off b ++ l ++ drop (off + length l) b.
Definition set_at (n off : nat) (v : Z) (b : bytes) : bytes := put_bytes off (bytes_of n v) b.

Definition load (n off : nat) : cmd bytes Z := fun b =>
  if decide (off + n <= length b)%nat then Ok (get_at n off b, b) else Fault OutOfBounds.
Definition store (n off : nat) (v : Z) : cmd bytes unit := fun b =>
  if decide (off + n <= length b)%nat then Ok (tt, set_at n off v b) else Fault OutOfBounds.

(** The bit-field of [w] bits from bit [lo] on, in the unit of [n] bytes at [off]. *)
Definition set_bits (x lo w v : Z) : Z :=
  Z.lor (Z.ldiff x (Z.shiftl (Z.ones w) lo)) (Z.shiftl (v mod 2 ^ w) lo).
Definition load_bits (n off : nat) (lo w : Z) : cmd bytes Z := x ← load n off; mret (bits x lo w).
Definition store_bits (n off : nat) (lo w v : Z) : cmd bytes unit :=
  x ← load n off; store n off (set_bits x lo w v).

(** [qdma_mbox_memset] and [qdma_mbox_memcpy]: loops over bytes. *)
Fixpoint fill (off : nat) (v : Z) (n : nat) : cmd bytes unit :=
  match n with O => mret tt | S n => _ ← store 1 off v; fill (S off) v n end.
Fixpoint copy (off : nat) (from : bytes) (i n : nat) : cmd bytes unit :=
  match n with
  | O => mret tt
  | S n => v ← lift (aget from (Z.of_nat i)); _ ← store 1 off v; copy (S off) from (S i) n
  end.

(** ** Structures *)
Notation layout := (list Z).

(** The members [vs] with the widths [ws] as one number, and back. *)
Fixpoint pack (ws vs : list Z) : Z :=
  match ws, vs with w :: ws, v :: vs => v mod 2 ^ w + 2 ^ w * pack ws vs | _, _ => 0 end.
Fixpoint unpack (ws : list Z) (x : Z) : list Z :=
  match ws with [] => [] | w :: ws => x mod 2 ^ w :: unpack ws (x / 2 ^ w) end.

Definition layout_bits (ws : layout) : Z := foldr Z.add 0 ws.
Definition layout_bytes (ws : layout) : nat := Z.to_nat (layout_bits ws / 8).

Definition struct_bytes (ws : layout) (vs : list Z) : bytes := bytes_of (layout_bytes ws) (pack ws vs).
Definition load_struct (ws : layout) (off : nat) : cmd bytes (list Z) :=
  x ← load (layout_bytes ws) off; mret (unpack ws x).

(** Assignments to the members one after the other, padding ([None]) left alone. *)
Fixpoint store_members (off : nat) (ms : list (nat * option Z)) : cmd bytes unit :=
  match ms with
  | [] => mret tt
  | (n, v) :: ms =>
      _ ← (match v with Some v => store n off v | None => mret tt end);
      store_members (off + n) ms
  end.

(** ** Laws *)
Definition is_byte (x : Z) : Prop := 0 <= x < 256.
Definition bytes_ok (b : bytes) : Prop := Forall is_byte b.

Lemma bytes_of_length n v : length (bytes_of n v) = n.
Proof. revert v. induction n as [|n IH]; intros v; cbn; [done|by rewrite IH]. Qed.
Lemma bytes_of_ok n v : bytes_ok (bytes_of n v).
Proof.
  revert v. induction n as [|n IH]; intros v; cbn; constructor; [|apply IH].
  unfold is_byte. pose proof (Z.mod_pos_bound v 256). lia.
Qed.
Lemma le_bytes_of n v : le (bytes_of n v) = v mod 256 ^ Z.of_nat n.
Proof.
  revert v. induction n as [|n IH]; intros v; [cbn; by rewrite Z.mod_1_r|]. cbn [bytes_of le]. rewrite IH.
  rewrite Nat2Z.inj_succ, Z.pow_succ_r, Z.rem_mul_r by lia. lia.
Qed.
Lemma le_range b : bytes_ok b -> 0 <= le b < 256 ^ Z.of_nat (length b).
Proof.
  induction 1 as [|x b Hx _ IH]; [cbn; lia|]. cbn [le length]. unfold is_byte in Hx.
  rewrite Nat2Z.inj_succ, Z.pow_succ_r by lia. nia.
Qed.

Lemma put_bytes_length off l b : (off + length l <= length b)%nat -> length (put_bytes off l b) = length b.
Proof. intros H. unfold put_bytes. rewrite !length_app, length_take, length_drop. lia. Qed.
Lemma put_bytes_ok off l b : bytes_ok l -> bytes_ok b -> bytes_ok (put_bytes off l b).
Proof.
  intros Hl Hb. unfold put_bytes. apply Forall_app; split; [by apply Forall_take|].
  apply Forall_app; split; [done|by apply Forall_drop].
Qed.

Lemma lookup_put_out off l b k : (off + length l <= length b)%nat -> (k < off \/ off + length l <= k)%nat ->
  put_bytes off l b !! k = b !! k.
Proof.
  intros H Hk. unfold put_bytes. destruct (decide (k < off)%nat).
  - rewrite lookup_app_l by (rewrite length_take; lia). by rewrite lookup_take_lt.
  - rewrite lookup_app_r by (rewrite length_take; lia).
    rewrite lookup_app_r by (rewrite length_take; lia).
    rewrite lookup_drop, length_take. f_equal. lia.
Qed.
Lemma lookup_put_in off l b k : (off <= length b)%nat -> (off <= k < off + length l)%nat ->
  put_bytes off l b !! k = l !! (k - off)%nat.
Proof.
  intros H Hk. unfold put_bytes. rewrite lookup_app_r by (rewrite length_take; lia).
  rewrite length_take, lookup_app_l by lia. f_equal. lia.
Qed.

(** Reading a part of what was put, or a part outside it. *)
Lemma get_put_in off l b n off' : (off <= length b)%nat -> (off <= off' /\ off' + n <= off + length l)%nat ->
  get_at n off' (put_bytes off l b) = get_at n (off' - off) l.
Proof.
  intros H Ho. unfold get_at. f_equal. apply list_eq. intros k.
  destruct (decide (k < n)%nat); [|by rewrite !lookup_take_ge by lia].
  rewrite !lookup_take_lt, !lookup_drop by done. rewrite lookup_put_in by lia. f_equal. lia.
Qed.
Lemma get_put_out off l b n off' : (off + length l <= length b)%nat -> (off + length l <= off' \/ off' + n <= off)%nat ->
  get_at n off' (put_bytes off l b) = get_at n off' b.
Proof.
  intros H Ho. unfold get_at. f_equal. apply list_eq. intros k.
  destruct (decide (k < n)%nat); [|by rewrite !lookup_take_ge by lia].
  rewrite !lookup_take_lt, !lookup_drop by done. apply lookup_put_out; [done|lia].
Qed.

Lemma get_whole n l : length l = n -> get_at n 0 l = le l.
Proof. intros <-. unfold get_at. by rewrite drop_0, firstn_all. Qed.

Lemma get_zeros n off k : get_at n off (replicate k 0) = 0.
Proof.
  unfold get_at. rewrite drop_replicate, take_replicate. induction (n `min` (k - off))%nat as [|m IH]; [done|].
  cbn [replicate le]. by rewrite IH.
Qed.

Lemma set_at_length n off v b : (off + n <= length b)%nat -> length (set_at n off v b) = length b.
Proof. intros H. apply put_bytes_length. by rewrite bytes_of_length. Qed.
Lemma set_at_ok n off v b : bytes_ok b -> bytes_ok (set_at n off v b).
Proof. intros H. apply put_bytes_ok; [apply bytes_of_ok|done]. Qed.

Lemma get_set_same n off v b : (off + n <= length b)%nat -> get_at n off (set_at n off v b) = v mod 256 ^ Z.of_nat n.
Proof.
  intros H. unfold set_at. rewrite get_put_in by (rewrite ?bytes_of_length; lia).
  by rewrite Nat.sub_diag, get_whole, le_bytes_of by apply bytes_of_length.
Qed.
Lemma get_set_other n off v b n' off' : (off + n <= length b)%nat -> (off + n <= off' \/ off' + n' <= off)%nat ->
  get_at n' off' (set_at n off v b) = get_at n' off' b.
Proof. intros H Ho. apply get_put_out; by rewrite bytes_of_length. Qed.

Lemma load_run n off b : (off + n <= length b)%nat -> load n off b = Ok (get_at n off b, b).
Proof. intros H. unfold load. by rewrite decide_True. Qed.
Lemma store_run n off v b : (off + n <= length b)%nat -> store n off v b = Ok (tt, set_at n off v b).
Proof. intros H. unfold store. by rewrite decide_True. Qed.

Lemma get_range n off b : bytes_ok b -> (off + n <= length b)%nat -> 0 <= get_at n off b < 256 ^ Z.of_nat n.
Proof.
  intros Hb H. unfold get_at. pose proof (le_range (take n (drop off b))) as Hr.
  rewrite length_take, length_drop in Hr. replace (n `min` (length b - off))%nat with n in Hr by lia.
  apply Hr. by apply Forall_take, Forall_drop.
Qed.

(** *** Loops over bytes *)
Lemma set_byte off v b : is_byte v -> set_at 1 off v b = put_bytes off [v] b.
Proof. intros Hv. unfold set_at. cbn [bytes_of]. by rewrite (Z.mod_small v 256) by exact Hv. Qed.

Lemma put_byte_more off v l b : (off < length b)%nat ->
  put_bytes (S off) l (put_bytes off [v] b) = put_bytes off (v :: l) b.
Proof.
  intros H. unfold put_bytes. cbn [length]. rewrite !(app_assoc (take off b)).
  rewrite take_app_length' by (rewrite length_app, length_take; cbn; lia).
  rewrite drop_app_add' by (rewrite length_app, length_take; cbn; lia).
  rewrite drop_drop, <- !app_assoc. cbn [app]. do 4 f_equal. lia.
Qed.

Lemma fill_bytes_run off v n b : (off + n <= length b)%nat -> is_byte v ->
  fill off v n b = Ok (tt, put_bytes off (replicate n v) b).
Proof.
  intros H Hv. revert off b H. induction n as [|n IH]; intros off b H; cbn [fill replicate].
  { unfold put_bytes. cbn. by rewrite Nat.add_0_r, take_drop. }
  rewrite (cmd_bind_run _ _ _ _ _ (store_run 1 off v b ltac:(lia))).
  rewrite IH by (rewrite set_at_length; lia). by rewrite set_byte, put_byte_more by (done || lia).
Qed.

Lemma copy_run off from i n b : (off + n <= length b)%nat -> (i + n <= length from)%nat -> bytes_ok from ->
  copy off from i n b = Ok (tt, put_bytes off (take n (drop i from)) b).
Proof.
  intros H Hi Hf. revert off i b H Hi. induction n as [|n IH]; intros off i b H Hi; cbn [copy].
  { rewrite take_0. unfold put_bytes. cbn. by rewrite Nat.add_0_r, take_drop. }
  destruct (lookup_lt_is_Some_2 from i) as [v Hv]; [lia|].
  rewrite (cmd_bind_run _ _ _ _ _ (lift_run _ _ _ (aget_nat _ _ _ Hv))).
  rewrite (cmd_bind_run _ _ _ _ _ (store_run 1 off v b ltac:(lia))).
  rewrite IH by (rewrite ?set_at_length; lia). rewrite set_byte by (by eapply (Forall_lookup_1 is_byte)).
  rewrite put_byte_more by lia. by rewrite (drop_S _ _ _ Hv).
Qed.

(** *** Structures *)
Definition fits (ws vs : list Z) : Prop := Forall2 (fun w v => 0 <= w /\ 0 <= v < 2 ^ w) ws vs.

Lemma layout_bits_nonneg ws : Forall (fun w => 0 <= w) ws -> 0 <= layout_bits ws.
Proof. induction 1; cbn in *; [lia|]. unfold layout_bits in *. cbn. lia. Qed.

Lemma pack_range ws vs : fits ws vs -> 0 <= pack ws vs < 2 ^ layout_bits ws.
Proof.
  induction 1 as [|w v ws vs [Hw Hv] Hf IH]; cbn [pack]; [cbn; lia|].
  assert (0 <= layout_bits ws) as Hb by (apply layout_bits_nonneg; clear -Hf; induction Hf; constructor; tauto).
  change (layout_bits (w :: ws)) with (w + layout_bits ws). rewrite Z.pow_add_r by lia.
  rewrite Z.mod_small by lia. nia.
Qed.

Lemma unpack_pack ws vs : fits ws vs -> unpack ws (pack ws vs) = vs.
Proof.
  induction 1 as [|w v ws vs [Hw Hv] Hf IH]; cbn [pack unpack]; [done|].
  rewrite (Z.mod_small v) by lia. pose proof (Z.pow_pos_nonneg 2 w ltac:(lia) Hw).
  rewrite Z.mul_comm, Z_mod_plus_full, Z.mod_small, Z.div_add, Z.div_small, Z.add_0_l, IH by lia. done.
Qed.

(** A structure in memory is read back member by member. *)
Lemma struct_roundtrip ws vs : fits ws vs -> layout_bits ws = 8 * Z.of_nat (layout_bytes ws) ->
  unpack ws (le (struct_bytes ws vs)) = vs.
Proof.
  intros Hf Hb. unfold struct_bytes. rewrite le_bytes_of, Z.mod_small; [by apply unpack_pack|].
  change 256 with (2 ^ 8). rewrite <- Z.pow_mul_r, <- Hb by lia. by apply pack_range.
Qed.

(** *** Bit-fields *)
Lemma bits_set_bits x lo w v : 0 <= lo -> 0 <= w -> bits (set_bits x lo w v) lo w = v mod 2 ^ w.
Proof.
  intros Hl Hw. unfold bits, set_bits. apply Z.bits_inj'. intros i Hi.
  rewrite Z.land_spec, Z.shiftr_spec, Z.lor_spec, Z.ldiff_spec by done.
  destruct (decide (i < w)).
  - rewrite Z.ones_spec_low, andb_true_r by lia.
    rewrite !Z.shiftl_spec by lia. replace (i + lo - lo) with i by lia.
    rewrite Z.ones_spec_low by lia. by rewrite andb_false_r.
  - rewrite Z.ones_spec_high, andb_false_r by lia. by rewrite Z.mod_pow2_bits_high by lia.
Qed.

Lemma bits_set_other x lo w v lo' w' : 0 <= lo -> 0 <= w -> 0 <= lo' -> 0 <= w' -> lo + w <= lo' \/ lo' + w' <= lo ->
  bits (set_bits x lo w v) lo' w' = bits x lo' w'.
Proof.
  intros Hl Hw Hl' Hw' Hd. unfold bits, set_bits. apply Z.bits_inj'. intros i Hi.
  rewrite !Z.land_spec, !Z.shiftr_spec, Z.lor_spec, Z.ldiff_spec by done.
  destruct (decide (i < w')).
  - rewrite Z.ones_spec_low, !andb_true_r by lia.
    destruct Hd as [Hd|Hd].
    + rewrite !Z.shiftl_spec by lia. rewrite Z.ones_spec_high, Z.mod_pow2_bits_high by lia.
      by rewrite andb_true_r, orb_false_r.
    + rewrite !Z.shiftl_spec_low by lia. by rewrite andb_true_r, orb_false_r.
  - by rewrite Z.ones_spec_high, !andb_false_r by lia.
Qed.

Lemma bits_mod x n lo w : 0 <= lo -> 0 <= w -> lo + w <= n -> bits (x mod 2 ^ n) lo w = bits x lo w.
Proof.
  intros Hl Hw Hn. unfold bits. apply Z.bits_inj'. intros i Hi.
  rewrite !Z.land_spec, !Z.shiftr_spec by done. destruct (decide (i < w)).
  - by rewrite Z.mod_pow2_bits_low by lia.
  - by rewrite Z.ones_spec_high, !andb_false_r by lia.
Qed.

(** Bits of a byte that was stored through [store_bits]. *)
Lemma bits_stored x lo w v lo' w' : 0 <= lo -> 0 <= w -> 0 <= lo' -> 0 <= w' -> lo + w <= 8 -> lo' + w' <= 8 ->
  bits (set_bits x lo w v mod 256) lo' w' =
    if decide (lo' = lo /\ w' = w) then v mod 2 ^ w else bits (set_bits x lo w v) lo' w'.
Proof.
  intros. change 256 with (2 ^ 8). rewrite bits_mod by lia.
  case_decide as H6; [|done]. destruct H6 as [-> ->]. by apply bits_set_bits.
Qed.

Lemma bytes_of_le n l : length l = n -> bytes_ok l -> bytes_of n (le l) = l.
Proof.
  revert l. induction n as [|n IH]; intros [|x l] Hl Hb; try done. apply Forall_cons in Hb as [Hx Hb]. unfold is_byte in Hx.
  cbn [le bytes_of]. rewrite Z.mul_comm, Z_mod_plus_full, Z.mod_small, Z.div_add, Z.div_small, Z.add_0_l by lia.
  rewrite IH; [done| |done]. by injection Hl.
Qed.

(** Copying an integer copies its bytes. *)
Lemma set_get n off b off' b' : bytes_ok b -> (off + n <= length b)%nat ->
  set_at n off' (get_at n off b) b' = put_bytes off' (take n (drop off b)) b'.
Proof.
  intros Hb H. unfold set_at, get_at. rewrite bytes_of_le; [done| |by apply Forall_take, Forall_drop].
  rewrite length_take, length_drop. lia.
Qed.

Lemma put_more off l1 l2 b : (off + length l1 <= length b)%nat ->
  put_bytes (off + length l1) l2 (put_bytes off l1 b) = put_bytes off (l1 ++ l2) b.
Proof.
  intros H. unfold put_bytes. rewrite !(app_assoc (take off b)).
  rewrite take_app_length' by (rewrite length_app, length_take; lia).
  rewrite drop_app_add' by (rewrite length_app, length_take; lia).
  rewrite drop_drop, <- !app_assoc, length_app. do 4 f_equal. lia.
Qed.

Lemma put_nothing off b : put_bytes off [] b = b.
Proof. unfold put_bytes. cbn. by rewrite Nat.add_0_r, take_drop. Qed.

Lemma drop_put k off l b : (off + length l <= k <= length b)%nat -> drop k (put_bytes off l b) = drop k b.
Proof.
  intros H. apply list_eq. intros i. rewrite !lookup_drop. apply lookup_put_out; lia.
Qed.
Lemma drop_set k n off v b : (off + n <= k <= length b)%nat -> drop k (set_at n off v b) = drop k b.
Proof. intros H. apply drop_put. by rewrite bytes_of_length. Qed.
Lemma take_put l b : (length l <= length b)%nat -> take (length l) (put_bytes 0 l b) = l.
Proof. intros H. unfold put_bytes. rewrite take_0. cbn. by rewrite take_app_length. Qed.
Lemma take_set k n off v b : (off + n <= k <= length b)%nat -> take k (set_at n off v b) = set_at n off v (take k b).
Proof.
  intros H. unfold set_at. pose proof (bytes_of_length n v) as Hn. apply list_eq. intros i.
  destruct (decide (i < k)%nat).
  - rewrite lookup_take_lt by done. destruct (decide (off <= i < off + n)%nat).
    + by rewrite !lookup_put_in by (rewrite ?length_take; lia).
    + rewrite !lookup_put_out by (rewrite ?length_take; lia). by rewrite lookup_take_lt.
  - rewrite lookup_take_ge by lia. symmetry. apply lookup_ge_None_2. rewrite put_bytes_length; rewrite length_take; lia.
Qed.
Lemma get_take n off k b : (off + n <= k)%nat -> get_at n off (take k b) = get_at n off b.
Proof.
  intros H. unfold get_at. f_equal. apply list_eq. intros i. destruct (decide (i < n)%nat); [|by rewrite !lookup_take_ge by lia].
  rewrite !lookup_take_lt, !lookup_drop by done. by rewrite lookup_take_lt by lia.
Qed.

(** *** Members inside a structure *)
Lemma le_app l1 l2 : le (l1 ++ l2) = le l1 + 256 ^ Z.of_nat (length l1) * le l2.
Proof.
  induction l1 as [|x l1 IH]; cbn [app le length]; [rewrite Z.pow_0_r; lia|].
  rewrite IH, Nat2Z.inj_succ, Z.pow_succ_r by lia. ring.
Qed.
Lemma get_inside n off N b off0 : bytes_ok b -> (off0 <= off)%nat -> (off + n <= off0 + N)%nat -> (off0 + N <= length b)%nat ->
  get_at n off b = get_at N off0 b / 256 ^ Z.of_nat (off - off0) mod 256 ^ Z.of_nat n.
Proof.
  intros Hb H1 H2 H3. unfold get_at. set (l := take N (drop off0 b)).
  assert (length l = N) as Hl by (unfold l; rewrite length_take, length_drop; lia).
  assert (bytes_ok l) as Hok by (by apply Forall_take, Forall_drop).
  assert (take n (drop off b) = take n (drop (off - off0) l)) as ->.
  { unfold l. rewrite skipn_firstn_comm, firstn_firstn, drop_drop. f_equal; [lia|f_equal; lia]. }
  set (k := (off - off0)%nat). pose proof (take_drop k l) as E1. pose proof (take_drop n (drop k l)) as E2.
  assert (length (take k l) = k) as L1 by (rewrite length_take; lia).
  assert (length (take n (drop k l)) = n) as L2 by (rewrite length_take, length_drop; lia).
  rewrite <- E1 at 2. rewrite <- E2 at 2. rewrite !le_app, L1, L2.
  pose proof (le_range (take k l) ltac:(by apply Forall_take)) as R1. rewrite L1 in R1.
  pose proof (le_range (take n (drop k l)) ltac:(by apply Forall_take, Forall_drop)) as R2. rewrite L2 in R2.
  rewrite Z.mul_comm, Z.div_add, Z.div_small, Z.add_0_l by lia.
  rewrite Z.mul_comm, Z.mod_add, Z.mod_small by lia. done.
Qed.
Lemma unpack_lookup ws x i w : Forall (fun w => 0 <= w) ws -> ws !! i = Some w ->
  unpack ws x !! i = Some (x / 2 ^ layout_bits (take i ws) mod 2 ^ w).
Proof.
  revert x i. induction ws as [|w0 ws IH]; intros x i Hw Hi; [done|]. apply Forall_cons in Hw as [Hw0 Hw].
  destruct i as [|i]; [injection Hi as ->; cbn; by rewrite Z.div_1_r|]. cbn [unpack lookup list_lookup take].
  change (layout_bits (w0 :: take i ws)) with (w0 + layout_bits (take i ws)).
  rewrite Z.pow_add_r by (try apply layout_bits_nonneg, Forall_take; done). rewrite <- Z.div_div by (try apply Z.pow_nonzero; try apply Z.pow_pos_nonneg; try lia; apply layout_bits_nonneg, Forall_take; done).
  by apply IH.
Qed.
