(* ===== verification/Parser.v ===== *)
(** * sample/parser_thread.c, icmp.c: the answers to received frames

    The sample application answers ARP requests, ICMP echo requests and UDP frames to
    port 7, in the buffer they were received in: the metadata and the frame to send overlap
    the metadata and the frame received, so the model is the bytes of the buffer, a page.
    Members are in network order, but for those of the ICMP header.  An
    access outside the buffer is a fault.  A member that is only copied is copied
    as its bytes.

    The theorems: an ICMP message of even length gets a right checksum, whatever the byte
    order; the answer to an echo request, of UDP and of ICMP, and to an ARP request is
    the frame with the addresses exchanged. *)

From stdpp Require Import list.
From S2P Require Import Prelude Bytes.

Open Scope Z_scope.

(** ** Layout: platform_config.h, ethernet.h, arp.h, ipv4.h, udp.h, icmp.h *)

(** A received frame is behind 16 bytes of metadata; the one to send behind 8, of
    metadata that begins 8 bytes into the buffer. *)
Definition RX_METADATA : nat := 16.
Definition TX_METADATA : nat := 8.
Definition TX_BUFFER : nat := RX_METADATA - TX_METADATA.
Definition RX_FRAME_LENGTH : nat := 14.
Definition TX_TIMESTAMP_ID : nat := TX_BUFFER + 2.
Definition TX_FRAME_LENGTH : nat := TX_BUFFER + 4.
Definition TX_RESERVED : nat := TX_BUFFER + 6.
Definition ETH_DMAC : nat := RX_METADATA.
Definition ETH_SMAC : nat := ETH_DMAC + 6.
Definition ETH_TYPE : nat := ETH_SMAC + 6.
Definition ETH_HLEN : nat := 14.
Definition PAYLOAD : nat := RX_METADATA + ETH_HLEN.

Definition ETH_TYPE_ARP : Z := 0x0806.
Definition ETH_TYPE_IPv4 : Z := 0x0800.
Definition ETH_TYPE_PTPv2 : Z := 0x88F7.

Definition ARP_OPCODE : nat := PAYLOAD + 6.
Definition ARP_SENDER_HW : nat := PAYLOAD + 8.
Definition ARP_SENDER_PROTO : nat := PAYLOAD + 14.
Definition ARP_TARGET_HW : nat := PAYLOAD + 18.
Definition ARP_TARGET_PROTO : nat := PAYLOAD + 24.
Definition ARP_HLEN : Z := 28.
Definition ARP_OPCODE_ARP_REQUEST : Z := 1.
Definition ARP_OPCODE_ARP_REPLY : Z := 2.
Definition HW_ADDR_LEN : nat := 6.
Definition IP_ADDR_LEN : nat := 4.

Definition IP_LEN : nat := PAYLOAD + 2.
Definition IP_PROTO : nat := PAYLOAD + 9.
Definition IP_SRC : nat := PAYLOAD + 12.
Definition IP_DST : nat := PAYLOAD + 16.
Definition IP_PROTO_ICMP : Z := 1.
Definition IP_PROTO_UDP : Z := 17.
Definition ICMP_TYPE_ECHO_REPLY : Z := 0.
Definition ICMP_TYPE_ECHO_REQUEST : Z := 8.

Definition MAX_BUFFER_LENGTH : Z := 0x1000.
Definition myMAC : bytes := [0x00; 0x11; 0x22; 0x33; 0x44; 0x55].

(** ** Access *)
Definition load_be16 (off : nat) : cmd bytes Z := hi ← load 1 off; lo ← load 1 (S off); mret (256 * hi + lo).
Definition store_be16 (off : nat) (v : Z) : cmd bytes unit := _ ← store 1 off (v / 256); store 1 (S off) v.
Definition move (dst src n : nat) : cmd bytes unit := v ← load n src; store n dst v.

(** ** icmp.c *)

(** The loop over the 16-bit words, [words] of them, as the machine reads them; the
    carries are folded in as they come. *)
Definition fold (checksum : Z) : Z :=
  if decide (Z.shiftr checksum 16 > 0) then Z.shiftr checksum 16 + Z.land checksum 0xFFFF else checksum.
Fixpoint sum_words (off words : nat) (checksum : Z) : cmd bytes Z :=
  match words with
  | O => mret checksum
  | S words => w ← load 2 off; sum_words (off + 2) words (fold (checksum + w))
  end.

Definition icmp_checksum (icmp : nat) (len : Z) : cmd bytes unit :=
  _ ← store 2 (icmp + 2) 0;
  checksum ← sum_words icmp (Z.to_nat (len / 2)) 0;
  checksum ← (if decide (len mod 2 > 0)
              then b ← load 1 (icmp + 2 * Z.to_nat (len / 2)); mret (fold (checksum + Z.shiftl b 8))
              else mret checksum);
  let checksum := Z.shiftr checksum 16 + Z.land checksum 0xFFFF in
  let checksum := Z.shiftr checksum 16 + Z.land checksum 0xFFFF in
  store 2 (icmp + 2) (u16 (Z.lnot checksum)).

(** ** parser_thread.c *)

(** What becomes of a frame: nothing; a frame that is handed to the device at once; the
    length of the descriptor of a frame to be sent. *)
Inductive verdict := Failure | Transmitted (frame : bytes) | Queued (len : Z).

Definition transmit_tsn_packet_no_free : cmd bytes verdict :=
  len ← load_be16 TX_FRAME_LENGTH;
  let mem_len := Z.of_nat TX_METADATA + len in
  b ← get;
  mret (if decide (mem_len >= MAX_BUFFER_LENGTH) then Failure
        else Transmitted (take (Z.to_nat mem_len) (drop TX_BUFFER b))).

(** The branches give the length of the frame, if it is answered, and whether it is to be sent at once. *)
Definition parse_arp : cmd bytes (option (Z * bool)) :=
  opcode ← load_be16 ARP_OPCODE;
  if decide (opcode <> ARP_OPCODE_ARP_REQUEST) then mret None else
  _ ← store_be16 ARP_OPCODE ARP_OPCODE_ARP_REPLY;
  _ ← move ARP_TARGET_HW ARP_SENDER_HW HW_ADDR_LEN;
  _ ← store HW_ADDR_LEN ARP_SENDER_HW (le myMAC);
  sender_proto ← load IP_ADDR_LEN ARP_SENDER_PROTO;
  _ ← move ARP_SENDER_PROTO ARP_TARGET_PROTO IP_ADDR_LEN;
  _ ← store IP_ADDR_LEN ARP_TARGET_PROTO sender_proto;
  mret (Some (Z.of_nat ETH_HLEN + ARP_HLEN, true)).

Definition parse_icmp (hlen len tx_len : Z) : cmd bytes (option (Z * bool)) :=
  let icmp := (PAYLOAD + Z.to_nat hlen)%nat in
  ty ← load 1 icmp;
  if decide (ty <> ICMP_TYPE_ECHO_REQUEST) then mret None else
  _ ← store 1 icmp ICMP_TYPE_ECHO_REPLY;
  _ ← icmp_checksum icmp (u16 (len - hlen));
  mret (Some (tx_len + (len - hlen), false)).

Definition parse_udp (hlen tx_len : Z) : cmd bytes (option (Z * bool)) :=
  let udp := (PAYLOAD + Z.to_nat hlen)%nat in
  dstport ← load_be16 (udp + 2);
  if decide (dstport <> 7) then mret None else
  _ ← move (udp + 2) udp 2;
  _ ← store_be16 udp dstport;
  _ ← store_be16 (udp + 6) 0;
  length ← load_be16 (udp + 4);
  mret (Some (tx_len + length, false)).

Definition parse_ipv4 : cmd bytes (option (Z * bool)) :=
  src ← load 4 IP_DST;
  _ ← move IP_DST IP_SRC 4;
  _ ← store 4 IP_SRC src;
  v ← load 1 PAYLOAD;
  let hlen := Z.land v 0xF * 4 in
  let tx_len := Z.of_nat ETH_HLEN + hlen in
  proto ← load 1 IP_PROTO;
  if decide (proto = IP_PROTO_ICMP) then len ← load_be16 IP_LEN; parse_icmp hlen len tx_len else
  if decide (proto = IP_PROTO_UDP) then parse_udp hlen tx_len else mret None.

(** [gptp]: the answer of [process_gptp_packet], which reads the frame only. *)
Definition parse_packet_with_bd (gptp : Z) : cmd bytes verdict :=
  _ ← store_be16 TX_TIMESTAMP_ID 0;
  _ ← store_be16 TX_RESERVED 0;
  _ ← move ETH_DMAC ETH_SMAC 6;
  _ ← store 6 ETH_SMAC (le myMAC);
  frame_length ← load_be16 RX_FRAME_LENGTH;
  if decide (frame_length >= MAX_BUFFER_LENGTH) then mret Failure else
  ty ← load_be16 ETH_TYPE;
  answer ← (if decide (ty = ETH_TYPE_PTPv2)
            then mret (if decide (gptp <= 0) then None else Some (Z.of_nat ETH_HLEN + gptp, false))
            else if decide (ty = ETH_TYPE_ARP) then parse_arp
            else if decide (ty = ETH_TYPE_IPv4) then parse_ipv4
            else mret None);
  match answer with
  | None => mret Failure
  | Some (tx_len, transmit_flag) =>
      _ ← store_be16 TX_FRAME_LENGTH (u16 tx_len);
      if (transmit_flag : bool) then transmit_tsn_packet_no_free
      else mret (Queued (Z.of_nat TX_METADATA + tx_len))
  end.

(** A round of [parser_in_normal_mode]: the length of a descriptor that is queued, or
    none, and the buffer is freed. *)
Definition parser_round (gptp : Z) : cmd bytes (verdict * bool) :=
  v ← parse_packet_with_bd gptp;
  mret (v, match v with Queued len => bool_decide (len < MAX_BUFFER_LENGTH) | _ => false end).

(** ** Steps on the bytes *)
Definition page_ok (b : bytes) : Prop := Z.of_nat (length b) = MAX_BUFFER_LENGTH /\ bytes_ok b.
Definition be16 (off : nat) (b : bytes) : Z := 256 * get_at 1 off b + get_at 1 (S off) b.
Definition set_be16 (off : nat) (v : Z) (b : bytes) : bytes := set_at 1 (S off) v (set_at 1 off (v / 256) b).
Definition inside (n off : nat) : Prop := Z.of_nat (off + n) <= MAX_BUFFER_LENGTH.

Lemma page_set n off v b : page_ok b -> inside n off -> page_ok (set_at n off v b).
Proof.
  unfold inside. intros [Hl Hb] Ho. split; [|by apply set_at_ok]. rewrite set_at_length by lia. done.
Qed.
Lemma page_set_be16 off v b : page_ok b -> inside 2 off -> page_ok (set_be16 off v b).
Proof. unfold inside. intros Hb Ho. apply page_set; [apply page_set; [done|]|]; unfold inside; lia. Qed.

Section steps.
Context {B : Type} (b : bytes) (Hb : page_ok b).

Lemma load_step n off (k : Z -> cmd bytes B) : inside n off -> (load n off ≫= k) b = k (get_at n off b) b.
Proof. unfold inside. intros Ho. apply cmd_bind_run, load_run. destruct Hb. lia. Qed.
Lemma store_step n off v (k : unit -> cmd bytes B) : inside n off -> (store n off v ≫= k) b = k tt (set_at n off v b).
Proof. unfold inside. intros Ho. apply cmd_bind_run, store_run. destruct Hb. lia. Qed.
Lemma move_step dst src n (k : unit -> cmd bytes B) : inside n dst -> inside n src ->
  (move dst src n ≫= k) b = k tt (set_at n dst (get_at n src b) b).
Proof.
  unfold inside. intros Hd Hs. apply cmd_bind_run. unfold move. destruct Hb.
  rewrite (cmd_bind_run _ _ _ _ _ (load_run n src b ltac:(lia))). apply store_run. lia.
Qed.
Lemma load_be16_step off (k : Z -> cmd bytes B) : inside 2 off -> (load_be16 off ≫= k) b = k (be16 off b) b.
Proof.
  unfold inside. intros Ho. apply cmd_bind_run. unfold load_be16. destruct Hb.
  rewrite (cmd_bind_run _ _ _ _ _ (load_run 1 off b ltac:(lia))).
  by rewrite (cmd_bind_run _ _ _ _ _ (load_run 1 (S off) b ltac:(lia))).
Qed.
Lemma store_be16_step off v (k : unit -> cmd bytes B) : inside 2 off -> (store_be16 off v ≫= k) b = k tt (set_be16 off v b).
Proof.
  unfold inside. intros Ho. apply cmd_bind_run. unfold store_be16. destruct Hb.
  rewrite (cmd_bind_run _ _ _ _ _ (store_run 1 off (v / 256) b ltac:(lia))). apply store_run.
  rewrite set_at_length; lia.
Qed.
End steps.

Lemma be16_range off b : bytes_ok b -> (off + 2 <= length b)%nat -> 0 <= be16 off b < 65536.
Proof.
  intros Hb Ho. unfold be16. pose proof (get_range 1 off b Hb ltac:(lia)). pose proof (get_range 1 (S off) b Hb ltac:(lia)).
  change (256 ^ Z.of_nat 1) with 256 in *. lia.
Qed.
Lemma be16_same off v b : (off + 2 <= length b)%nat -> be16 off (set_be16 off v b) = v mod 65536.
Proof.
  intros Ho. unfold be16, set_be16. rewrite get_set_same by (rewrite set_at_length; lia).
  rewrite get_set_other by (rewrite ?set_at_length; lia). rewrite get_set_same by lia.
  change (256 ^ Z.of_nat 1) with 256. Z.div_mod_to_equations. lia.
Qed.
Lemma get_set_be16 off v b n' off' : (off + 2 <= length b)%nat -> (off + 2 <= off' \/ off' + n' <= off)%nat ->
  get_at n' off' (set_be16 off v b) = get_at n' off' b.
Proof. intros H Ho. unfold set_be16. rewrite !get_set_other by (rewrite ?set_at_length; lia). done. Qed.

(** ** The checksum *)

(** The sum of the 16-bit words, as a little-endian machine reads them and in network
    order. *)
Fixpoint sum_le (off words : nat) (b : bytes) : Z :=
  match words with O => 0 | S words => get_at 2 off b + sum_le (off + 2) words b end.
Fixpoint sum_be (off words : nat) (b : bytes) : Z :=
  match words with O => 0 | S words => be16 off b + sum_be (off + 2) words b end.

Lemma get_2 off b : (off + 2 <= length b)%nat -> get_at 2 off b = get_at 1 off b + 256 * get_at 1 (S off) b.
Proof.
  intros H. unfold get_at. destruct (lookup_lt_is_Some_2 b off) as [x Hx]; [lia|].
  destruct (lookup_lt_is_Some_2 b (S off)) as [y Hy]; [lia|].
  rewrite (drop_S _ _ _ Hx), (drop_S _ _ _ Hy). cbn [take le]. rewrite take_0. cbn [le]. lia.
Qed.

(** The order of the bytes does not matter to a sum modulo 65535. *)
Lemma sums_agree off words b : (off + 2 * words <= length b)%nat ->
  sum_be off words b mod 65535 = (256 * sum_le off words b) mod 65535.
Proof.
  revert off. induction words as [|words IH]; intros off H; [done|]. cbn [sum_be sum_le].
  rewrite Z.mul_add_distr_l, Zplus_mod, IH, <- Zplus_mod by lia. rewrite get_2 by lia. unfold be16.
  replace (256 * (get_at 1 off b + 256 * get_at 1 (S off) b) + 256 * sum_le (off + 2) words b)
    with (256 * get_at 1 off b + get_at 1 (S off) b + 256 * sum_le (off + 2) words b + get_at 1 (S off) b * 65535) by ring.
  by rewrite Z_mod_plus_full.
Qed.

Lemma sum_le_nonneg off words b : bytes_ok b -> (off + 2 * words <= length b)%nat -> 0 <= sum_le off words b.
Proof.
  intros Hb. revert off. induction words as [|words IH]; intros off H; cbn [sum_le]; [done|].
  pose proof (get_range 2 off b Hb ltac:(lia)). specialize (IH (off + 2)%nat ltac:(lia)). lia.
Qed.
Lemma sum_be_positive off words b : bytes_ok b -> (off + 2 * words <= length b)%nat ->
  0 < sum_le off words b <-> 0 < sum_be off words b.
Proof.
  intros Hb. revert off. induction words as [|words IH]; intros off H; cbn [sum_le sum_be]; [done|].
  specialize (IH (off + 2)%nat ltac:(lia)). pose proof (sum_le_nonneg (off + 2) words b Hb ltac:(lia)).
  assert (0 <= sum_be (off + 2) words b) as Hs.
  { clear -Hb H. revert off H. induction words as [|words IH]; intros off H; cbn [sum_be]; [done|].
    pose proof (be16_range (off + 2) b Hb ltac:(lia)). specialize (IH (off + 2)%nat ltac:(lia)). lia. }
  rewrite get_2 by lia. unfold be16. pose proof (get_range 1 off b Hb ltac:(lia)).
  pose proof (get_range 1 (S off) b Hb ltac:(lia)). lia.
Qed.

(** A word that is replaced. *)
Lemma sum_le_set off words i v b : (off + 2 * words <= length b)%nat -> (i < words)%nat -> 0 <= v < 65536 ->
  sum_le off words (set_at 2 (off + 2 * i) v b) = sum_le off words b - get_at 2 (off + 2 * i) b + v.
Proof.
  intros H Hi Hv. revert off i H Hi. induction words as [|words IH]; intros off i H Hi; [lia|]. cbn [sum_le].
  destruct i as [|i].
  - rewrite Nat.mul_0_r, Nat.add_0_r. rewrite get_set_same, Z.mod_small by (lia || exact Hv).
    assert (forall k, sum_le (off + 2 + 2 * k) (words - k) (set_at 2 off v b) = sum_le (off + 2 + 2 * k) (words - k) b) as Hk.
    { intros k. remember (words - k)%nat as m eqn:Em. revert k Em. induction m as [|m IHm]; intros k Em; [done|].
      cbn [sum_le]. rewrite get_set_other by lia. f_equal. specialize (IHm (S k) ltac:(lia)).
      replace (off + 2 + 2 * k + 2)%nat with (off + 2 + 2 * S k)%nat by lia. exact IHm. }
    specialize (Hk 0%nat). rewrite Nat.mul_0_r, Nat.add_0_r, Nat.sub_0_r in Hk. rewrite Hk. lia.
  - rewrite get_set_other by lia. specialize (IH (off + 2)%nat i ltac:(lia) ltac:(lia)).
    replace (off + 2 * S i)%nat with (off + 2 + 2 * i)%nat by lia. rewrite IH. lia.
Qed.

(** A sum with its carries folded in. *)
Definition folded (c total : Z) : Prop := 0 <= c <= 65535 /\ c mod 65535 = total mod 65535 /\ (c = 0 <-> total = 0).

Lemma fold_step c total w : folded c total -> 0 <= total -> 0 <= w < 65536 -> folded (fold (c + w)) (total + w).
Proof.
  intros (Hc & Hm & Hz) Ht Hw. unfold fold.
  rewrite Z.shiftr_div_pow2, (Z.land_ones _ 16) by lia. change (2 ^ 16) with 65536.
  assert ((c + w) mod 65535 = (total + w) mod 65535) as E by (rewrite Zplus_mod, Hm; by rewrite <- Zplus_mod).
  unfold folded. destruct (decide ((c + w) / 65536 > 0)) as [H|H].
  - assert ((c + w) / 65536 = 1) as E1 by (Z.div_mod_to_equations; lia).
    pose proof (Z.div_mod (c + w) 65536 ltac:(lia)) as Ed. rewrite E1 in *.
    split; [Z.div_mod_to_equations; lia|]. split; [|Z.div_mod_to_equations; lia].
    rewrite <- E. replace (1 + (c + w) mod 65536) with (c + w + (-1) * 65535) by lia. by rewrite Z_mod_plus_full.
  - split; [Z.div_mod_to_equations; lia|]. split; [exact E|]. lia.
Qed.

Lemma sum_words_run off words b c total : bytes_ok b -> (off + 2 * words <= length b)%nat -> 0 <= total ->
  folded c total -> exists c', sum_words off words c b = Ok (c', b) /\ folded c' (total + sum_le off words b).
Proof.
  intros Hb. revert off c total. induction words as [|words IH]; intros off c total H Ht Hf; cbn [sum_words sum_le].
  { exists c. by rewrite Z.add_0_r. }
  rewrite (cmd_bind_run _ _ _ _ _ (load_run 2 off b ltac:(lia))).
  pose proof (get_range 2 off b Hb ltac:(lia)) as Hg. change (256 ^ Z.of_nat 2) with 65536 in Hg.
  destruct (IH (off + 2)%nat (fold (c + get_at 2 off b)) (total + get_at 2 off b)) as (c' & E & Hf');
    [lia|lia|by apply fold_step|]. exists c'. by rewrite Z.add_assoc.
Qed.

Lemma finalise c : 0 <= c <= 65535 ->
  let x := Z.shiftr c 16 + Z.land c 0xFFFF in Z.shiftr x 16 + Z.land x 0xFFFF = c.
Proof.
  intros H. cbv zeta. assert (Z.shiftr c 16 + Z.land c 0xFFFF = c) as E; [|by rewrite !E].
  rewrite Z.shiftr_div_pow2, (Z.land_ones _ 16) by lia. change (2 ^ 16) with 65536.
  rewrite Z.div_small, Z.mod_small by lia. done.
Qed.

(** The buffer with the checksum of [words] words. *)
Lemma icmp_checksum_run icmp words b : bytes_ok b -> (2 <= words)%nat -> Z.of_nat words < 32768 -> (icmp + 2 * words <= length b)%nat ->
  exists c, folded c (sum_le icmp words (set_at 2 (icmp + 2) 0 b)) /\
    icmp_checksum icmp (2 * Z.of_nat words) b = Ok (tt, set_at 2 (icmp + 2) (65535 - c) (set_at 2 (icmp + 2) 0 b)).
Proof.
  intros Hb Hw Hw' Hl. unfold icmp_checksum.
  rewrite (cmd_bind_run _ _ _ _ _ (store_run 2 (icmp + 2) 0 b ltac:(lia))). set (b1 := set_at 2 (icmp + 2) 0 b).
  assert (bytes_ok b1) as Hb1 by (by apply set_at_ok). assert (length b1 = length b) as Hl1 by (apply set_at_length; lia).
  rewrite (Z.mul_comm 2), Z.div_mul, Z.mod_mul, Nat2Z.id by lia.
  destruct (sum_words_run icmp words b1 0 0 Hb1) as (c & E & Hf); [lia|done|done|].
  rewrite Z.add_0_l in Hf. exists c. split; [exact Hf|]. rewrite (cmd_bind_run _ _ _ _ _ E). rewrite decide_False by lia.
  rewrite (cmd_bind_run _ _ _ _ _ eq_refl). cbv zeta. rewrite finalise by apply Hf.
  replace (u16 (Z.lnot c)) with (65535 - c).
  - apply store_run. lia.
  - unfold u16, Z.lnot. destruct Hf as [Hf _].
    replace (Z.pred (- c)) with (65535 - c + (-1) * 65536) by lia. rewrite Z_mod_plus_full, Z.mod_small by lia. done.
Qed.

(** The checksum of an ICMP message is right.  For a message of an even number of bytes
    inside the buffer, the sum of its words with the checksum that [icmp_checksum] writes,
    in network order, is not zero and a multiple of 65535, which is what a receiver
    checks; nothing but the checksum is changed. *)
Lemma icmp_checksum_valid icmp words b : bytes_ok b -> (2 <= words)%nat -> Z.of_nat words < 32768 ->
  (icmp + 2 * words <= length b)%nat -> exists b',
    icmp_checksum icmp (2 * Z.of_nat words) b = Ok (tt, b') /\
    sum_be icmp words b' mod 65535 = 0 /\ 0 < sum_be icmp words b' /\
    length b' = length b /\ bytes_ok b' /\
    forall n off, (off + n <= icmp + 2 \/ icmp + 4 <= off)%nat -> get_at n off b' = get_at n off b.
Proof.
  intros Hb Hw Hw' Hl. destruct (icmp_checksum_run icmp words b Hb Hw Hw' Hl) as (c & Hf & E).
  set (b1 := set_at 2 (icmp + 2) 0 b) in *. set (b2 := set_at 2 (icmp + 2) (65535 - c) b1) in *.
  assert (length b1 = length b) as Hl1 by (apply set_at_length; lia).
  assert (length b2 = length b) as Hl2 by (unfold b2; rewrite set_at_length; lia).
  assert (bytes_ok b2) as Hb2 by (apply set_at_ok, set_at_ok; done).
  destruct Hf as (Hc & Hm & Hz).
  assert (sum_le icmp words b2 = sum_le icmp words b1 + (65535 - c)) as Hsum.
  { unfold b2. change (icmp + 2)%nat with (icmp + 2 * 1)%nat. rewrite sum_le_set by lia.
    change (icmp + 2 * 1)%nat with (icmp + 2)%nat. unfold b1 at 2. rewrite get_set_same by lia.
    rewrite Z.mod_0_l by (by vm_compute). lia. }
  pose proof (sum_le_nonneg icmp words b1 (set_at_ok 2 (icmp + 2) 0 b Hb) ltac:(lia)) as Hpos.
  exists b2. split; [exact E|]. split; [|split; [|split; [done|split; [done|]]]].
  - rewrite sums_agree by lia. rewrite Hsum, Zmult_mod. replace (sum_le icmp words b1 + (65535 - c))
      with (sum_le icmp words b1 - c + 1 * 65535) by ring.
    rewrite Z_mod_plus_full, Zminus_mod, Hm, Z.sub_diag. done.
  - apply sum_be_positive; [done|lia|]. rewrite Hsum. destruct (decide (c = 65535)); [|lia].
    assert (sum_le icmp words b1 <> 0) by (intros H0; apply Hz in H0; lia). lia.
  - intros n off Ho. unfold b2, b1. rewrite !get_set_other by (rewrite ?set_at_length; lia). done.
Qed.

(** An odd number of bytes: the last one is counted as the high byte of a word, which on a
    little-endian machine is the wrong half, unless it is zero.  The message is 8 bytes of header and one
    of data, and the sum with a zero behind it is not a multiple of 65535. *)
Example odd_checksum_wrong :
  (match icmp_checksum 0 9 [0; 0; 0; 0; 0; 1; 0; 1; 5; 0] with Ok (_, b) => sum_be 0 5 b mod 65535 | Fault _ => 0 end)
  = 1275.
Proof. by vm_compute. Qed.

(** ** The answers *)
Ltac offs := unfold inside, MAX_BUFFER_LENGTH, TX_TIMESTAMP_ID, TX_FRAME_LENGTH, TX_RESERVED, TX_BUFFER, RX_FRAME_LENGTH,
  ARP_OPCODE, ARP_SENDER_HW, ARP_SENDER_PROTO, ARP_TARGET_HW, ARP_TARGET_PROTO, HW_ADDR_LEN, IP_ADDR_LEN,
  IP_LEN, IP_PROTO, IP_SRC, IP_DST, PAYLOAD, ETH_TYPE, ETH_SMAC, ETH_DMAC, RX_METADATA, TX_METADATA, ETH_HLEN in *; lia.
Ltac page := repeat first [assumption | apply page_set_be16; [|offs] | apply page_set; [|offs]].

(** The frame with the Ethernet addresses of the answer. *)
Definition addressed (b : bytes) : bytes :=
  set_at 6 ETH_SMAC (le myMAC) (set_at 6 ETH_DMAC (get_at 6 ETH_SMAC (set_be16 TX_RESERVED 0 (set_be16 TX_TIMESTAMP_ID 0 b)))
    (set_be16 TX_RESERVED 0 (set_be16 TX_TIMESTAMP_ID 0 b))).

Lemma addressed_ok b : page_ok b -> page_ok (addressed b).
Proof. intros Hb. unfold addressed. page. Qed.

Lemma page_length n off b : page_ok b -> inside n off -> (off + n <= length b)%nat.
Proof. unfold inside. intros [Hl _] Ho. lia. Qed.

Lemma read_other n off v b n' off' : page_ok b -> inside n off -> (off + n <= off' \/ off' + n' <= off)%nat ->
  get_at n' off' (set_at n off v b) = get_at n' off' b.
Proof. intros Hb Ho. apply get_set_other. by apply page_length. Qed.
Lemma read_same n off v b : page_ok b -> inside n off -> 0 <= v < 256 ^ Z.of_nat n -> get_at n off (set_at n off v b) = v.
Proof. intros Hb Ho Hv. rewrite get_set_same by (by apply page_length). by apply Z.mod_small. Qed.
Lemma read_copy n off b n' off' b' : page_ok b -> page_ok b' -> inside n off -> inside n off' -> n' = n ->
  get_at n off (set_at n off (get_at n' off' b') b) = get_at n off' b'.
Proof.
  intros Hb [Hl Hb'] Ho Ho' ->. apply read_same; [done|done|]. apply get_range; [done|]. unfold inside in *. lia.
Qed.
Lemma read_be16_other off v b n' off' : page_ok b -> inside 2 off -> (off + 2 <= off' \/ off' + n' <= off)%nat ->
  get_at n' off' (set_be16 off v b) = get_at n' off' b.
Proof. intros Hb Ho. apply get_set_be16. by apply page_length. Qed.
Lemma be16_other n off v b off' : page_ok b -> inside n off -> (off + n <= off' \/ off' + 2 <= off)%nat ->
  be16 off' (set_at n off v b) = be16 off' b.
Proof. intros Hb Ho H. unfold be16. by rewrite !read_other by (done || lia). Qed.
Lemma be16_be16_other off v b off' : page_ok b -> inside 2 off -> (off + 2 <= off' \/ off' + 2 <= off)%nat ->
  be16 off' (set_be16 off v b) = be16 off' b.
Proof. intros Hb Ho H. unfold be16. by rewrite !read_be16_other by (done || lia). Qed.
Lemma be16_value off v b : page_ok b -> inside 2 off -> 0 <= v < 65536 -> be16 off (set_be16 off v b) = v.
Proof. intros Hb Ho Hv. rewrite be16_same by (by apply page_length). by apply Z.mod_small. Qed.

Lemma be16_move dst src b b' : page_ok b -> page_ok b' -> inside 2 dst -> inside 2 src ->
  be16 dst (set_at 2 dst (get_at 2 src b') b) = be16 src b'.
Proof.
  intros [Hl Hb] [Hl' Hb'] Hd Hs. unfold inside in *. unfold be16, set_at.
  rewrite !get_put_in by (rewrite ?bytes_of_length; lia). rewrite Nat.sub_diag. replace (S dst - dst)%nat with 1%nat by lia.
  rewrite get_2 by lia. pose proof (get_range 1 src b' Hb' ltac:(lia)) as H1. pose proof (get_range 1 (S src) b' Hb' ltac:(lia)) as H2.
  change (256 ^ Z.of_nat 1) with 256 in *. unfold get_at at 1 4. cbn [bytes_of take drop le].
  Z.div_mod_to_equations. lia.
Qed.

(** Reads of what was written elsewhere, and of what was written there. *)
Ltac reads := repeat first
  [ rewrite read_other by (page || offs) | rewrite read_be16_other by (page || offs)
  | rewrite be16_other by (page || offs) | rewrite be16_be16_other by (page || offs) ].

Lemma addressed_dmac b : page_ok b -> get_at 6 ETH_DMAC (addressed b) = get_at 6 ETH_SMAC b.
Proof. intros Hb. unfold addressed. reads. rewrite read_copy by (page || offs || done). by reads. Qed.
Lemma addressed_smac b : page_ok b -> get_at 6 ETH_SMAC (addressed b) = le myMAC.
Proof. intros Hb. unfold addressed. by rewrite read_same by (page || offs || done). Qed.
Lemma addressed_other b n off : page_ok b -> (ETH_TYPE <= off)%nat -> get_at n off (addressed b) = get_at n off b.
Proof. intros Hb Ho. unfold addressed. by reads. Qed.
Lemma addressed_be16 b off : page_ok b -> (ETH_TYPE <= off)%nat -> be16 off (addressed b) = be16 off b.
Proof. intros Hb Ho. unfold be16. by rewrite !addressed_other by (done || offs). Qed.

(** The length of a received frame is the reserved member of the one to send, which is zero
    by the time it is compared: no frame is too long. *)
Lemma length_check_dead b : page_ok b -> be16 RX_FRAME_LENGTH (addressed b) = 0.
Proof.
  intros Hb. unfold addressed. rewrite !be16_other by (page || offs).
  change RX_FRAME_LENGTH with TX_RESERVED. by rewrite be16_value by (page || offs).
Qed.

Definition branch (gptp ty : Z) : cmd bytes (option (Z * bool)) :=
  if decide (ty = ETH_TYPE_PTPv2)
  then mret (if decide (gptp <= 0) then None else Some (Z.of_nat ETH_HLEN + gptp, false))
  else if decide (ty = ETH_TYPE_ARP) then parse_arp
  else if decide (ty = ETH_TYPE_IPv4) then parse_ipv4
  else mret None.
Definition finish (answer : option (Z * bool)) : cmd bytes verdict :=
  match answer with
  | None => mret Failure
  | Some (tx_len, transmit_flag) =>
      _ ← store_be16 TX_FRAME_LENGTH (u16 tx_len);
      if (transmit_flag : bool) then transmit_tsn_packet_no_free
      else mret (Queued (Z.of_nat TX_METADATA + tx_len))
  end.

Lemma parse_run gptp b : page_ok b ->
  parse_packet_with_bd gptp b = (branch gptp (be16 ETH_TYPE b) ≫= finish) (addressed b).
Proof.
  intros Hb. unfold parse_packet_with_bd.
  rewrite (store_be16_step b Hb) by offs. rewrite store_be16_step by (page || offs).
  rewrite move_step by (page || offs). rewrite store_step by (page || offs). fold (addressed b).
  rewrite load_be16_step by (apply addressed_ok || offs; done).
  rewrite length_check_dead by done. rewrite (decide_False (P := 0 >= MAX_BUFFER_LENGTH)) by offs.
  rewrite load_be16_step by (apply addressed_ok || offs; done). by rewrite addressed_be16 by done.
Qed.

(** The IPv4 header: its length, and the frame with the addresses exchanged. *)
Definition header_length (b : bytes) : Z := Z.land (get_at 1 PAYLOAD b) 0xF * 4.
Definition returned (b : bytes) : bytes :=
  set_at 4 IP_SRC (get_at 4 IP_DST b) (set_at 4 IP_DST (get_at 4 IP_SRC b) b).

Lemma header_length_range b : page_ok b -> 0 <= header_length b <= 60.
Proof.
  intros Hb. unfold header_length. rewrite (Z.land_ones _ 4) by lia.
  pose proof (Z.mod_pos_bound (get_at 1 PAYLOAD b) (2 ^ 4) ltac:(lia)). lia.
Qed.
Lemma returned_ok b : page_ok b -> page_ok (returned b).
Proof. intros Hb. unfold returned. page. Qed.
Lemma returned_src b : page_ok b -> get_at 4 IP_SRC (returned b) = get_at 4 IP_DST b.
Proof. intros Hb. unfold returned. by rewrite read_copy by (page || offs || done). Qed.
Lemma returned_dst b : page_ok b -> get_at 4 IP_DST (returned b) = get_at 4 IP_SRC b.
Proof. intros Hb. unfold returned. reads. by rewrite read_copy by (page || offs || done). Qed.
Lemma returned_other b n off : page_ok b -> (off + n <= IP_SRC \/ IP_DST + 4 <= off)%nat ->
  get_at n off (returned b) = get_at n off b.
Proof. intros Hb Ho. unfold returned. by reads. Qed.
Lemma returned_be16 b off : page_ok b -> (off + 2 <= IP_SRC \/ IP_DST + 4 <= off)%nat -> be16 off (returned b) = be16 off b.
Proof. intros Hb Ho. unfold be16. by rewrite !returned_other by (done || offs). Qed.

Lemma ipv4_run b : page_ok b ->
  let hlen := header_length b in
  let tx_len := Z.of_nat ETH_HLEN + hlen in
  parse_ipv4 b = (if decide (get_at 1 IP_PROTO b = IP_PROTO_ICMP) then parse_icmp hlen (be16 IP_LEN b) tx_len
                  else if decide (get_at 1 IP_PROTO b = IP_PROTO_UDP) then parse_udp hlen tx_len else mret None) (returned b).
Proof.
  intros Hb hlen tx_len. unfold parse_ipv4.
  rewrite (load_step b Hb) by offs. rewrite (move_step b Hb) by offs. rewrite store_step by (page || offs). fold (returned b).
  pose proof (returned_ok b Hb) as Hr. rewrite (load_step _ Hr) by offs.
  rewrite returned_other by (done || offs). fold (header_length b). fold hlen. cbv zeta. fold tx_len.
  rewrite (load_step _ Hr) by offs. rewrite returned_other by (done || offs).
  destruct (decide (_ = IP_PROTO_ICMP)); [|done].
  rewrite (load_be16_step _ Hr) by offs. by rewrite returned_be16 by (done || offs).
Qed.

(** An IPv4 frame with both pairs of addresses exchanged. *)
Definition turned (b : bytes) : bytes := returned (addressed b).

Lemma turned_ok b : page_ok b -> page_ok (turned b).
Proof. intros Hb. by apply returned_ok, addressed_ok. Qed.
Lemma turned_other b n off : page_ok b -> (ETH_TYPE <= off)%nat -> (off + n <= IP_SRC \/ IP_DST + 4 <= off)%nat ->
  get_at n off (turned b) = get_at n off b.
Proof.
  intros Hb H1 H2. unfold turned. rewrite returned_other by (by apply addressed_ok || done). by apply addressed_other.
Qed.
Lemma turned_be16 b off : page_ok b -> (ETH_TYPE <= off)%nat -> (off + 2 <= IP_SRC \/ IP_DST + 4 <= off)%nat ->
  be16 off (turned b) = be16 off b.
Proof. intros Hb H1 H2. unfold be16. by rewrite !turned_other by (done || offs). Qed.

(** What an answer has of the addresses, of a frame that was received. *)
Record turned_round (b b' : bytes) : Prop := {
  tr_dmac : get_at 6 ETH_DMAC b' = get_at 6 ETH_SMAC b; tr_smac : get_at 6 ETH_SMAC b' = le myMAC;
  tr_src : get_at 4 IP_SRC b' = get_at 4 IP_DST b; tr_dst : get_at 4 IP_DST b' = get_at 4 IP_SRC b }.

Lemma turned_addresses b : page_ok b -> turned_round b (turned b).
Proof.
  intros Hb. pose proof (addressed_ok b Hb) as Ha. unfold turned. split.
  - rewrite returned_other by (done || offs). by apply addressed_dmac.
  - rewrite returned_other by (done || offs). by apply addressed_smac.
  - rewrite returned_src by done. apply addressed_other; [done|offs].
  - rewrite returned_dst by done. apply addressed_other; [done|offs].
Qed.

(** An IPv4 frame up to the protocol it carries. *)
Lemma ipv4_frame gptp b : page_ok b -> be16 ETH_TYPE b = ETH_TYPE_IPv4 ->
  let hlen := header_length b in
  let tx_len := Z.of_nat ETH_HLEN + hlen in
  parse_packet_with_bd gptp b =
    ((if decide (get_at 1 IP_PROTO b = IP_PROTO_ICMP) then parse_icmp hlen (be16 IP_LEN b) tx_len
      else if decide (get_at 1 IP_PROTO b = IP_PROTO_UDP) then parse_udp hlen tx_len else mret None) ≫= finish) (turned b).
Proof.
  intros Hb Hty hlen tx_len. pose proof (addressed_ok b Hb) as Ha.
  rewrite (parse_run gptp b Hb), Hty. unfold branch.
  rewrite decide_False, decide_False, decide_True by (by vm_compute || done).
  unfold mbind, cmd_bind. rewrite (ipv4_run _ Ha). rewrite addressed_other, addressed_be16 by (done || offs).
  assert (header_length (addressed b) = hlen) as -> by (unfold header_length; by rewrite addressed_other by (done || offs)).
  done.
Qed.

(** The end of an answer: its length is written, and the rest is as it was. *)
Lemma finish_run len b : page_ok b -> exists b',
  finish (Some (len, false)) b = Ok (Queued (Z.of_nat TX_METADATA + len), b') /\ page_ok b' /\
  be16 TX_FRAME_LENGTH b' = u16 len /\
  forall n off, (RX_METADATA <= off)%nat -> get_at n off b' = get_at n off b.
Proof.
  intros Hb. unfold finish. rewrite (store_be16_step b Hb) by offs. eexists. split; [reflexivity|].
  split; [page|]. split; [apply be16_value; [done|offs|unfold u16; apply Z.mod_pos_bound; lia]|].
  intros n off Ho. by reads.
Qed.

Lemma be16_same_reads b b' off : get_at 1 off b' = get_at 1 off b -> get_at 1 (S off) b' = get_at 1 (S off) b ->
  be16 off b' = be16 off b.
Proof. unfold be16. by intros -> ->. Qed.

(** The UDP header of an echo. *)
Definition echoed (udp : nat) (b : bytes) : bytes :=
  set_be16 (udp + 6) 0 (set_be16 udp 7 (set_at 2 (udp + 2) (get_at 2 udp b) b)).

Lemma udp_run hlen tx_len b : page_ok b -> 0 <= hlen <= 60 -> let udp := (PAYLOAD + Z.to_nat hlen)%nat in
  be16 (udp + 2) b = 7 ->
  parse_udp hlen tx_len b = Ok (Some (tx_len + be16 (udp + 4) b, false), echoed udp b).
Proof.
  intros Hb Hh udp Hport. assert (udp = PAYLOAD + Z.to_nat hlen)%nat as Eu by done.
  assert (Z.to_nat hlen <= 60)%nat by lia. unfold parse_udp. fold udp. cbv zeta.
  rewrite (load_be16_step b Hb) by offs. rewrite Hport, decide_False by lia.
  rewrite (move_step b Hb) by offs. rewrite store_be16_step by (page || offs). rewrite store_be16_step by (page || offs).
  rewrite load_be16_step by (page || offs). fold (echoed udp b). unfold mret, cmd_ret. do 5 f_equal.
  unfold echoed. by rewrite !be16_be16_other, be16_other by (page || offs).
Qed.

(** A UDP frame to port 7 is echoed.  The frame that is queued is the one received, to
    its sender, with the addresses and the ports exchanged, without checksum, and with the
    same data; its length is that of the headers and the length of the datagram. *)
Theorem udp_echoed gptp b : page_ok b -> be16 ETH_TYPE b = ETH_TYPE_IPv4 -> get_at 1 IP_PROTO b = IP_PROTO_UDP ->
  20 <= header_length b ->
  let udp := (PAYLOAD + Z.to_nat (header_length b))%nat in
  let len := Z.of_nat ETH_HLEN + header_length b + be16 (udp + 4) b in
  be16 (udp + 2) b = 7 -> exists b',
    parse_packet_with_bd gptp b = Ok (Queued (Z.of_nat TX_METADATA + len), b') /\ page_ok b' /\
    be16 TX_FRAME_LENGTH b' = u16 len /\ turned_round b b' /\
    be16 udp b' = 7 /\ be16 (udp + 2) b' = be16 udp b /\ be16 (udp + 6) b' = 0 /\
    (forall n off, (ETH_TYPE <= off)%nat -> (off + n <= IP_SRC \/ (IP_DST + 4 <= off /\ off + n <= udp) \/
       (udp + 4 <= off /\ off + n <= udp + 6) \/ udp + 8 <= off)%nat -> get_at n off b' = get_at n off b).
Proof.
  intros Hb Hty Hproto Hh udp len Hport. pose proof (header_length_range b Hb) as Hr.
  assert (udp = PAYLOAD + Z.to_nat (header_length b))%nat as Eu by done.
  assert (20 <= Z.to_nat (header_length b) <= 60)%nat as Hn by lia. pose proof (turned_ok b Hb) as Ht.
  rewrite (ipv4_frame gptp b Hb Hty), Hproto. rewrite decide_False, decide_True by done.
  rewrite (cmd_bind_run _ _ _ _ _ (udp_run _ _ _ Ht Hr ltac:(rewrite turned_be16 by (done || offs); exact Hport))).
  fold udp. rewrite (turned_be16 b (udp + 4)) by (done || offs). fold len.
  assert (page_ok (echoed udp (turned b))) as He by (unfold echoed; page).
  destruct (finish_run len _ He) as (b' & E & Hb' & Hlen & Hsame). exists b'. split; [exact E|]. split; [done|]. split; [done|].
  assert (forall n off, (RX_METADATA <= off)%nat -> (off + n <= udp \/ (udp + 4 <= off /\ off + n <= udp + 6) \/ udp + 8 <= off)%nat ->
    get_at n off b' = get_at n off (turned b)) as Hout by (intros n off H1 H2; rewrite Hsame by done; unfold echoed; by reads).
  destruct (turned_addresses b Hb) as [T1 T2 T3 T4]. split_and!.
  - split; rewrite Hout by offs; done.
  - rewrite (be16_same_reads (echoed udp (turned b))) by (apply Hsame; offs). unfold echoed.
    rewrite be16_be16_other by (page || offs). apply be16_value; [page|offs|lia].
  - rewrite (be16_same_reads (echoed udp (turned b))) by (apply Hsame; offs). unfold echoed.
    rewrite !be16_be16_other by (page || offs). rewrite be16_move by (done || offs). apply turned_be16; done || offs.
  - rewrite (be16_same_reads (echoed udp (turned b))) by (apply Hsame; offs). unfold echoed.
    apply be16_value; [page|offs|lia].
  - intros n off Ho1 Ho2. rewrite Hout by offs. apply turned_other; [done|done|offs].
Qed.

(** C36. An ICMP echo request is answered.  A request of even length inside the buffer goes back
    as an echo reply, with the addresses exchanged, the same data and a right checksum; the
    length is the one of the IP header, with the Ethernet header. *)
Theorem icmp_echo_answered gptp b words : page_ok b -> be16 ETH_TYPE b = ETH_TYPE_IPv4 ->
  get_at 1 IP_PROTO b = IP_PROTO_ICMP -> 20 <= header_length b ->
  let icmp := (PAYLOAD + Z.to_nat (header_length b))%nat in
  let len := Z.of_nat ETH_HLEN + be16 IP_LEN b in
  be16 IP_LEN b = header_length b + 2 * Z.of_nat words -> (2 <= words)%nat -> inside (2 * words) icmp ->
  get_at 1 icmp b = ICMP_TYPE_ECHO_REQUEST -> exists b',
    parse_packet_with_bd gptp b = Ok (Queued (Z.of_nat TX_METADATA + len), b') /\ page_ok b' /\
    be16 TX_FRAME_LENGTH b' = u16 len /\ turned_round b b' /\ get_at 1 icmp b' = ICMP_TYPE_ECHO_REPLY /\
    sum_be icmp words b' mod 65535 = 0 /\ 0 < sum_be icmp words b' /\
    (forall n off, (ETH_TYPE <= off)%nat -> (off + n <= IP_SRC \/ (IP_DST + 4 <= off /\ off + n <= icmp) \/
       (icmp + 1 <= off /\ off + n <= icmp + 2) \/ icmp + 4 <= off)%nat -> get_at n off b' = get_at n off b).
Proof.
  intros Hb Hty Hproto Hh icmp len Hlen Hw Hin Htype. pose proof (header_length_range b Hb) as Hr.
  assert (icmp = PAYLOAD + Z.to_nat (header_length b))%nat as Eu by done.
  assert (20 <= Z.to_nat (header_length b) <= 60)%nat as Hn by lia. pose proof (turned_ok b Hb) as Ht.
  assert (Z.of_nat (2 * words) <= 4096) as Hsmall by offs.
  rewrite (ipv4_frame gptp b Hb Hty), Hproto. rewrite decide_True by done.
  set (b1 := set_at 1 icmp 0 (turned b)). assert (page_ok b1) as [Hl1 Hb1] by (apply page_set; [done|offs]).
  destruct (icmp_checksum_valid icmp words b1 Hb1 Hw ltac:(lia) ltac:(unfold inside in Hin; lia)) as (b2 & Es & Hs1 & Hs2 & Hl2 & Hb2 & Hsame).
  assert (page_ok b2) as Hp2 by (split; [congruence|done]).
  assert (parse_icmp (header_length b) (be16 IP_LEN b) (Z.of_nat ETH_HLEN + header_length b) (turned b) =
    Ok (Some (len, false), b2)) as E.
  { unfold parse_icmp. fold icmp. cbv zeta. rewrite (load_step _ Ht) by offs. rewrite turned_other by (done || offs).
    rewrite Htype, decide_False by tauto. rewrite (store_step _ Ht) by offs. fold b1.
    assert (u16 (be16 IP_LEN b - header_length b) = 2 * Z.of_nat words) as -> by (unfold u16; rewrite Z.mod_small; lia).
    rewrite (cmd_bind_run _ _ _ _ _ Es). unfold mret, cmd_ret. do 4 f_equal. unfold len. lia. }
  rewrite (cmd_bind_run _ _ _ _ _ E). destruct (finish_run len _ Hp2) as (b' & E' & Hb' & Hlen' & Hsame').
  exists b'. split; [exact E'|]. split; [done|]. split; [done|].
  assert (forall n off, (RX_METADATA <= off)%nat ->
    (off + n <= icmp \/ (icmp + 1 <= off /\ off + n <= icmp + 2) \/ icmp + 4 <= off)%nat ->
    get_at n off b' = get_at n off (turned b)) as Hout.
  { intros n off H1 H2. rewrite Hsame' by done. rewrite Hsame by lia. unfold b1. by reads. }
  assert (forall k, sum_be (icmp + k) (words - k) b' = sum_be (icmp + k) (words - k) b2) as Hsum.
  { intros k. generalize (words - k)%nat as m. intros m. revert k. induction m as [|m IH]; intros k; [done|]. cbn [sum_be].
    rewrite (be16_same_reads b2) by (apply Hsame'; offs). f_equal. replace (icmp + k + 2)%nat with (icmp + (k + 2))%nat by lia. apply IH. }
  specialize (Hsum 0%nat). rewrite Nat.add_0_r, Nat.sub_0_r in Hsum.
  destruct (turned_addresses b Hb) as [T1 T2 T3 T4]. split_and!.
  - split; rewrite Hout by offs; done.
  - rewrite Hsame' by offs. rewrite Hsame by lia. unfold b1. by apply read_same; [done|offs|].
  - by rewrite Hsum.
  - by rewrite Hsum.
  - intros n off Ho1 Ho2. rewrite Hout by offs. apply turned_other; [done|done|offs].
Qed.

(** What a write leaves, and what it puts, as facts about the result. *)
Lemma moved dst src n b : page_ok b -> inside n dst -> inside n src -> exists b',
  set_at n dst (get_at n src b) b = b' /\ page_ok b' /\ get_at n dst b' = get_at n src b /\
  forall n' off, (dst + n <= off \/ off + n' <= dst)%nat -> get_at n' off b' = get_at n' off b.
Proof.
  intros Hb Hd Hs. eexists. split; [reflexivity|]. split; [by apply page_set|]. split; [by apply read_copy|].
  intros n' off Ho. by apply read_other.
Qed.
Lemma stored dst n v b : page_ok b -> inside n dst -> 0 <= v < 256 ^ Z.of_nat n -> exists b',
  set_at n dst v b = b' /\ page_ok b' /\ get_at n dst b' = v /\
  forall n' off, (dst + n <= off \/ off + n' <= dst)%nat -> get_at n' off b' = get_at n' off b.
Proof.
  intros Hb Hd Hv. eexists. split; [reflexivity|]. split; [by apply page_set|]. split; [by apply read_same|].
  intros n' off Ho. by apply read_other.
Qed.
Lemma stored_be16 dst v b : page_ok b -> inside 2 dst -> 0 <= v < 65536 -> exists b',
  set_be16 dst v b = b' /\ page_ok b' /\ be16 dst b' = v /\
  forall n' off, (dst + 2 <= off \/ off + n' <= dst)%nat -> get_at n' off b' = get_at n' off b.
Proof.
  intros Hb Hd Hv. eexists. split; [reflexivity|]. split; [by apply page_set_be16|]. split; [by apply be16_value|].
  intros n' off Ho. by apply read_be16_other.
Qed.

(** The ARP part of a request turned into a reply. *)
Lemma arp_run b : page_ok b -> be16 ARP_OPCODE b = ARP_OPCODE_ARP_REQUEST -> exists b',
  parse_arp b = Ok (Some (42, true), b') /\ page_ok b' /\ be16 ARP_OPCODE b' = ARP_OPCODE_ARP_REPLY /\
  get_at 6 ARP_TARGET_HW b' = get_at 6 ARP_SENDER_HW b /\ get_at 6 ARP_SENDER_HW b' = le myMAC /\
  get_at 4 ARP_TARGET_PROTO b' = get_at 4 ARP_SENDER_PROTO b /\
  get_at 4 ARP_SENDER_PROTO b' = get_at 4 ARP_TARGET_PROTO b /\
  forall n off, (off + n <= ARP_OPCODE)%nat -> get_at n off b' = get_at n off b.
Proof.
  intros Hb Hop. unfold parse_arp. rewrite (load_be16_step b Hb) by offs. rewrite Hop, decide_False by tauto.
  rewrite (store_be16_step b Hb) by offs.
  destruct (stored_be16 ARP_OPCODE ARP_OPCODE_ARP_REPLY b Hb) as (b2 & -> & Hb2 & V2 & K2); [offs|done|].
  rewrite (move_step b2 Hb2) by offs. unfold HW_ADDR_LEN, IP_ADDR_LEN.
  destruct (moved ARP_TARGET_HW ARP_SENDER_HW 6 b2 Hb2) as (b3 & -> & Hb3 & V3 & K3); [offs|offs|].
  rewrite (store_step b3 Hb3) by offs.
  destruct (stored ARP_SENDER_HW 6 (le myMAC) b3 Hb3) as (b4 & -> & Hb4 & V4 & K4); [offs|done|].
  rewrite (load_step b4 Hb4) by offs. rewrite (move_step b4 Hb4) by offs.
  destruct (moved ARP_SENDER_PROTO ARP_TARGET_PROTO 4 b4 Hb4) as (b5 & -> & Hb5 & V5 & K5); [offs|offs|].
  rewrite (store_step b5 Hb5) by offs.
  destruct (stored ARP_TARGET_PROTO 4 (get_at 4 ARP_SENDER_PROTO b4) b5 Hb5) as (b6 & -> & Hb6 & V6 & K6);
    [offs|apply get_range; [apply Hb4|apply page_length; [done|offs]]|].
  exists b6. split; [done|]. split; [done|]. split_and!.
  - unfold be16. rewrite !K6, !K5, !K4, !K3 by offs. exact V2.
  - rewrite K6, K5, K4 by offs. rewrite V3. apply K2. offs.
  - rewrite K6, K5 by offs. exact V4.
  - rewrite V6, K4, K3, K2 by offs. done.
  - rewrite K6, V5, K4, K3, K2 by offs. done.
  - intros n off Ho. rewrite K6, K5, K4, K3, K2 by offs. done.
Qed.

(** An ARP request is answered at once, with the address of this clock; the buffer is freed
    then, as for a frame that is not answered. *)
Lemma arp_answered gptp b : page_ok b -> be16 ETH_TYPE b = ETH_TYPE_ARP -> be16 ARP_OPCODE b = ARP_OPCODE_ARP_REQUEST ->
  exists b', parse_packet_with_bd gptp b = Ok (Transmitted (take 50 (drop TX_BUFFER b')), b') /\ page_ok b' /\
    be16 ARP_OPCODE b' = ARP_OPCODE_ARP_REPLY /\
    get_at 6 ETH_DMAC b' = get_at 6 ETH_SMAC b /\ get_at 6 ETH_SMAC b' = le myMAC /\
    get_at 6 ARP_TARGET_HW b' = get_at 6 ARP_SENDER_HW b /\ get_at 6 ARP_SENDER_HW b' = le myMAC /\
    get_at 4 ARP_TARGET_PROTO b' = get_at 4 ARP_SENDER_PROTO b /\
    get_at 4 ARP_SENDER_PROTO b' = get_at 4 ARP_TARGET_PROTO b.
Proof.
  intros Hb Hty Hop. rewrite (parse_run gptp b Hb), Hty. unfold branch.
  rewrite decide_False, decide_True by (by vm_compute || done). pose proof (addressed_ok b Hb) as Ha.
  destruct (arp_run (addressed b) Ha) as (b2 & E & Hb2 & V1 & V2 & V3 & V4 & V5 & K);
    [by rewrite addressed_be16 by (done || offs)|].
  rewrite (cmd_bind_run _ _ _ _ _ E). unfold finish. rewrite (store_be16_step b2 Hb2) by offs.
  destruct (stored_be16 TX_FRAME_LENGTH (u16 42) b2 Hb2) as (b3 & -> & Hb3 & V6 & K3); [offs|done|].
  exists b3. split.
  { unfold transmit_tsn_packet_no_free. rewrite (load_be16_step b3 Hb3) by offs. rewrite V6.
    by rewrite (cmd_bind_run get _ _ _ _ eq_refl). }
  split; [done|]. split_and!.
  - unfold be16. rewrite !K3 by offs. exact V1.
  - rewrite K3, K by offs. by apply addressed_dmac.
  - rewrite K3, K by offs. by apply addressed_smac.
  - rewrite K3, V2 by offs. apply addressed_other; [done|offs].
  - by rewrite K3, V3 by offs.
  - rewrite K3, V4 by offs. apply addressed_other; [done|offs].
  - rewrite K3, V5 by offs. apply addressed_other; [done|offs].
Qed.

(** ** Witnesses *)

(** A frame: the bytes from the Ethernet header on, in a page with zeros around it. *)
Definition in_page (frame : bytes) : bytes := put_bytes RX_METADATA frame (replicate 4096 0).
Definition ip_frame (proto len : Z) (body : bytes) : bytes :=
  in_page ([0; 0x11; 0x22; 0x33; 0x44; 0x55; 1; 2; 3; 4; 5; 6; 0x08; 0x00] ++
           [0x45; 0; 0; len; 0; 0; 0; 0; 64; proto; 0; 0; 10; 0; 0; 1; 10; 0; 0; 2] ++ body).
Definition udp_request : bytes := ip_frame 17 32 [0x12; 0x34; 0; 7; 0; 12; 0xab; 0xcd; 1; 2; 3; 4].
Definition ping : bytes := ip_frame 1 32 [8; 0; 0; 0; 0; 1; 0; 2; 0xde; 0xad; 0xbe; 0xef].

Lemma page_of frame : bytes_ok frame -> inside (length frame) RX_METADATA -> page_ok (in_page frame).
Proof.
  intros Hf Hl. unfold inside, MAX_BUFFER_LENGTH in Hl. split.
  - unfold in_page. rewrite put_bytes_length; [by rewrite length_replicate|]. rewrite length_replicate. lia.
  - apply put_bytes_ok; [done|]. by apply Forall_replicate.
Qed.

Lemma udp_echoed_witness : exists b',
  parse_packet_with_bd 0 udp_request = Ok (Queued 54, b') /\ page_ok b' /\ be16 TX_FRAME_LENGTH b' = 46 /\
  turned_round udp_request b' /\ be16 50 b' = 7 /\ be16 52 b' = 0x1234 /\ be16 56 b' = 0 /\
  (forall n off, (ETH_TYPE <= off)%nat -> (off + n <= IP_SRC \/ (IP_DST + 4 <= off /\ off + n <= 50) \/
       (54 <= off /\ off + n <= 56) \/ 58 <= off)%nat -> get_at n off b' = get_at n off udp_request).
Proof.
  refine (udp_echoed 0 udp_request _ _ _ _ _); [|by vm_compute..].
  apply page_of; [|by vm_compute]. repeat (apply Forall_cons; split; [by vm_compute|]). apply Forall_nil. done.
Defined.

Lemma icmp_echo_answered_witness : exists b',
  parse_packet_with_bd 0 ping = Ok (Queued 54, b') /\ page_ok b' /\ be16 TX_FRAME_LENGTH b' = 46 /\
  turned_round ping b' /\ get_at 1 50 b' = 0 /\ sum_be 50 6 b' mod 65535 = 0 /\ 0 < sum_be 50 6 b' /\
  (forall n off, (ETH_TYPE <= off)%nat -> (off + n <= IP_SRC \/ (IP_DST + 4 <= off /\ off + n <= 50) \/
       (51 <= off /\ off + n <= 52) \/ 54 <= off)%nat -> get_at n off b' = get_at n off ping).
Proof.
  refine (icmp_echo_answered 0 ping 6 _ _ _ _ _ _ _ _); [|first [by vm_compute|lia]..].
  apply page_of; [|by vm_compute]. repeat (apply Forall_cons; split; [by vm_compute|]). apply Forall_nil. done.
Defined.

(** The length in an IP header is not checked: a short frame that claims more than the
    buffer holds is read to the end of it, and beyond. *)
Example ping_out_of_bounds :
  parse_packet_with_bd 0 (set_be16 IP_LEN 0x8000 ping) = Fault OutOfBounds.
Proof. by vm_compute. Qed.
