(* ===== verification/MboxMsg.v ===== *)
(** * qdma_mbox_protocol.c, first part: the messages

    A message is the bytes of [union qdma_mbox_txrx], which the functions fill and
    read through the members of the union; [raw_data] points to the caller's buffer
    and [None] is [NULL].  Here: the functions that compose messages, those that take
    answers apart, the matching of answers to requests, and the handler of a virtual
    function.  The theorems: a composed message is read back as the request it was
    composed from; the messages do not fit the buffers of the callers. *)

From S2P Require Import Prelude Float64 Device Fields Indirect CtxtRegs Context Csr Bytes.
From stdpp Require Import list.

Open Scope Z_scope.

(** ** Operations *)
Definition MBOX_MSG_OP_RSP_OFFSET : Z := 0x80.
Definition MBOX_OP_VF_BYE : Z := 0.
Definition MBOX_OP_HELLO : Z := 1.
Definition MBOX_OP_FMAP : Z := 2.
Definition MBOX_OP_CSR : Z := 3.
Definition MBOX_OP_QREQ : Z := 4.
Definition MBOX_OP_QNOTIFY_ADD : Z := 5.
Definition MBOX_OP_QNOTIFY_DEL : Z := 6.
Definition MBOX_OP_GET_QACTIVE_CNT : Z := 7.
Definition MBOX_OP_QCTXT_WRT : Z := 8.
Definition MBOX_OP_QCTXT_RD : Z := 9.
Definition MBOX_OP_QCTXT_CLR : Z := 10.
Definition MBOX_OP_QCTXT_INV : Z := 11.
Definition MBOX_OP_INTR_CTXT_WRT : Z := 12.
Definition MBOX_OP_INTR_CTXT_RD : Z := 13.
Definition MBOX_OP_INTR_CTXT_CLR : Z := 14.
Definition MBOX_OP_INTR_CTXT_INV : Z := 15.
Definition MBOX_OP_RESET_PREPARE : Z := 16.
Definition MBOX_OP_RESET_DONE : Z := 17.
Definition MBOX_OP_REG_LIST_READ : Z := 18.
Definition MBOX_OP_PF_BYE : Z := 19.
Definition MBOX_OP_PF_RESET_VF_BYE : Z := 20.
Definition MBOX_OP_RESET_PREPARE_RESP : Z := 0x90.
Definition MBOX_OP_RESET_DONE_RESP : Z := 0x91.
Definition MBOX_OP_PF_BYE_RESP : Z := 0x93.

Definition QDMA_MBOX_VF_ONLINE : Z := 1.
Definition QDMA_MBOX_VF_OFFLINE : Z := -1.
Definition QDMA_MBOX_VF_RESET : Z := 2.
Definition QDMA_MBOX_PF_RESET_DONE : Z := 3.
Definition QDMA_MBOX_PF_BYE : Z := 4.
Definition QDMA_MBOX_VF_RESET_BYE : Z := 5.

Definition MBOX_MSG_REG_MAX : Z := 32.

(** ** The union

    Where the members of its structures lie. *)
Notation op_at := 0%nat.
Notation status_at := 1%nat.
Notation src_func_id_at := 2%nat.
Notation dst_func_id_at := 4%nat.
Notation fmap_qbase_at := 8%nat.
Notation fmap_qmax_at := 12%nat.
Notation hello_dev_cap_at := 16%nat.
Notation hello_dma_device_index_at := 24%nat.
Notation csr_info_at := 6%nat.
Notation qcnt_h2c_at := 8%nat.
Notation qcnt_c2h_at := 12%nat.
Notation qcnt_cmpt_at := 16%nat.
Notation qid_hw_at := 6%nat.
Notation q_type_at := 8%nat.
Notation qctxt_bits_at := 8%nat.
Notation descq_conf_at := 16%nat.
Notation descq_ctxt_at := 16%nat.
Notation intr_ctxt_at := 8%nat.
Notation group_num_at := 6%nat.
Notation num_regs_at := 8%nat.
Notation reg_list_at := 12%nat.

Definition sizeof_qdma_mbox_txrx : Z := 152.
Definition sizeof_csr_info : Z := 98.
Definition sizeof_descq_context : Z := 136.
Definition sizeof_reg_data : Z := 8.

(** [struct mbox_descq_conf] *)
Record mbox_descq_conf := mkConf {
  dc_ring_bs_addr : Z; dc_cmpt_ring_bs_addr : Z; dc_forced_en : Z; dc_en_bypass : Z; dc_irq_arm : Z;
  dc_wbi_intvl_en : Z; dc_wbi_chk : Z; dc_at : Z; dc_wbk_en : Z; dc_irq_en : Z; dc_pfch_en : Z;
  dc_en_bypass_prefetch : Z; dc_dis_overflow_check : Z; dc_cmpt_int_en : Z; dc_cmpt_at : Z;
  dc_cmpt_color : Z; dc_cmpt_full_upd : Z; dc_cmpl_stat_en : Z; dc_desc_sz : Z; dc_cmpt_desc_sz : Z;
  dc_triggermode : Z; dc_rsvd : Z; dc_func_id : Z; dc_cnt_thres : Z; dc_timer_thres : Z;
  dc_intr_id : Z; dc_intr_aggr : Z; dc_filler : Z; dc_ringsz : Z; dc_bufsz : Z; dc_cmpt_ringsz : Z }.

Definition descq_conf_layout : layout :=
  [64; 64; 1; 1; 1; 1; 1; 1; 1; 1; 1; 1; 1; 1; 1; 1; 1; 1; 2; 2; 3; 9; 16; 8; 8; 11; 1; 4; 16; 16; 16].
Definition descq_conf_members (c : mbox_descq_conf) : list Z :=
  [dc_ring_bs_addr c; dc_cmpt_ring_bs_addr c; dc_forced_en c; dc_en_bypass c; dc_irq_arm c;
   dc_wbi_intvl_en c; dc_wbi_chk c; dc_at c; dc_wbk_en c; dc_irq_en c; dc_pfch_en c;
   dc_en_bypass_prefetch c; dc_dis_overflow_check c; dc_cmpt_int_en c; dc_cmpt_at c;
   dc_cmpt_color c; dc_cmpt_full_upd c; dc_cmpl_stat_en c; dc_desc_sz c; dc_cmpt_desc_sz c;
   dc_triggermode c; dc_rsvd c; dc_func_id c; dc_cnt_thres c; dc_timer_thres c;
   dc_intr_id c; dc_intr_aggr c; dc_filler c; dc_ringsz c; dc_bufsz c; dc_cmpt_ringsz c].
Definition descq_conf_of (l : list Z) : outcome mbox_descq_conf :=
  match l with
  | [a; b; c1; c2; c3; c4; c5; c6; c7; c8; c9; c10; c11; c12; c13; c14; c15; c16; d1; d2; d3; d4; f; g; h;
     i1; i2; i3; r1; r2; r3] =>
      Ok (mkConf a b c1 c2 c3 c4 c5 c6 c7 c8 c9 c10 c11 c12 c13 c14 c15 c16 d1 d2 d3 d4 f g h i1 i2 i3 r1 r2 r3)
  | _ => Fault OutOfBounds
  end.
Definition load_descq_conf : cmd bytes mbox_descq_conf :=
  l ← load_struct descq_conf_layout descq_conf_at; lift (descq_conf_of l).

(** [struct mbox_msg_intr_ctxt]: its arrays have one element. *)
Definition QDMA_NUM_DATA_VEC_FOR_INTR_CXT : Z := 1.
Record mbox_msg_intr_ctxt := mkIntr { mi_num_rings : Z; mi_ring_index : Z; mi_ictxt : qdma_indirect_intr_ctxt }.

Definition intr_ctxt_layout : layout := [64; 16; 16; 8; 8; 8; 8; 8; 8; 16; 32; 8; 8; 16; 32].
Definition intr_ctxt_members (c : qdma_indirect_intr_ctxt) : list Z :=
  [in_baddr_4k c; in_vec c; in_pidx c; in_valid c; in_int_st c; in_color c; in_page_size c; in_at c;
   in_host_id c; 0; in_pasid c; in_pasid_en c; 0; in_func_id c; 0].
Definition intr_ctxt_of (l : list Z) : outcome qdma_indirect_intr_ctxt :=
  match l with
  | [a; v; p; v1; v2; v3; v4; v5; v6; _; ps; pe; _; f; _] => Ok (mkIn a v p v1 v2 v3 v4 v5 v6 ps pe f)
  | _ => Fault OutOfBounds
  end.
Definition msg_intr_ctxt_layout : layout := [8; 24; 32] ++ intr_ctxt_layout.
Definition msg_intr_ctxt_members (c : mbox_msg_intr_ctxt) : list Z :=
  [mi_num_rings c; 0; mi_ring_index c] ++ intr_ctxt_members (mi_ictxt c).

(** [struct qdma_dev_attributes] *)
Definition dev_cap_layout : layout := [8; 8; 16; 1; 1; 1; 1; 1; 1; 2; 8; 1; 1; 1; 1; 1; 1; 1; 1; 8].
Definition dev_cap_members (a : qdma_dev_attributes) : list Z :=
  [num_pfs a; 0; num_qs a; flr_present a; st_en a; mm_en a; mm_cmpt_en a; mailbox_en a; debug_mode a;
   desc_eng_mode a; mm_channel_max a; qid2vec_ctx a; cmpt_ovf_chk_dis a; mailbox_intr a; sw_desc_64b a;
   cmpt_desc_64b a; dynamic_bar a; legacy_intr a; cmpt_trig_count_timer a; 0].
Definition dev_cap_of_members (l : list Z) : outcome qdma_dev_attributes :=
  match l with
  | [a; _; n; b0; b1; b2; b3; b4; b5; b6; m; c0; c1; c2; c3; c4; c5; c6; c7; _] =>
      Ok (mkAttr a n b0 b1 b2 b3 b4 b5 b6 m c0 c1 c2 c3 c4 c5 c6 c7)
  | _ => Fault OutOfBounds
  end.

(** The size is a [uint8_t]. *)
Definition qdma_mbox_memset (val size : Z) : cmd bytes unit := fill 0 val (Z.to_nat (u8 size)).
(** Copies to offset [to] of the buffer from the object [from]. *)
Definition qdma_mbox_memcpy (to : nat) (from : bytes) (size : Z) : cmd bytes unit :=
  copy to from 0 (Z.to_nat (u8 size)).

(** ** Composing messages *)
Definition set_op (v : Z) : cmd bytes unit := store 1 op_at v.
Definition set_status (v : Z) : cmd bytes unit := store 1 status_at v.
Definition set_src_func_id (v : Z) : cmd bytes unit := store 2 src_func_id_at v.
Definition set_dst_func_id (v : Z) : cmd bytes unit := store 2 dst_func_id_at v.

(** A function that fills the caller's buffer and succeeds, or finds no buffer. *)
Definition with_raw (raw_data : option bytes) (c : cmd bytes unit) : outcome (Z * option bytes) :=
  match raw_data with
  | None => Ok (- QDMA_ERR_INV_PARAM, None)
  | Some b => '(_, b) ← c b; Ok (QDMA_SUCCESS, Some b)
  end.

(** [msg->hdr.op = op; msg->hdr.src_func_id = func_id] in a cleared message. *)
Definition fresh (op func_id : Z) : cmd bytes unit :=
  _ ← qdma_mbox_memset 0 sizeof_qdma_mbox_txrx; _ ← set_op op; set_src_func_id func_id.

(** [qbase] is the value behind the pointer. *)
Definition qmda_mbox_compose_vf_online (func_id qmax qbase : Z) (raw_data : option bytes) :=
  with_raw raw_data (
    _ ← fresh MBOX_OP_HELLO func_id;
    _ ← store 4 fmap_qbase_at qbase; store 4 fmap_qmax_at qmax).
Definition qdma_mbox_compose_vf_offline (func_id : Z) (raw_data : option bytes) :=
  with_raw raw_data (fresh MBOX_OP_VF_BYE func_id).
Definition qdma_mbox_compose_vf_reset_offline (func_id : Z) (raw_data : option bytes) :=
  with_raw raw_data (fresh MBOX_OP_PF_RESET_VF_BYE func_id).
Definition qdma_mbox_compose_vf_qreq (func_id qmax qbase : Z) (raw_data : option bytes) :=
  with_raw raw_data (
    _ ← fresh MBOX_OP_QREQ func_id;
    _ ← store 4 fmap_qbase_at qbase; store 4 fmap_qmax_at qmax).
Definition qdma_mbox_compose_vf_notify_qadd (func_id qid_hw q_type : Z) (raw_data : option bytes) :=
  with_raw raw_data (
    _ ← fresh MBOX_OP_QNOTIFY_ADD func_id;
    _ ← store 2 qid_hw_at qid_hw; store 4 q_type_at q_type).
Definition qdma_mbox_compose_vf_get_device_active_qcnt (func_id : Z) (raw_data : option bytes) :=
  with_raw raw_data (fresh MBOX_OP_GET_QACTIVE_CNT func_id).
Definition qdma_mbox_compose_vf_notify_qdel (func_id qid_hw q_type : Z) (raw_data : option bytes) :=
  with_raw raw_data (
    _ ← fresh MBOX_OP_QNOTIFY_DEL func_id;
    _ ← store 2 qid_hw_at qid_hw; store 4 q_type_at q_type).
Definition qdma_mbox_compose_vf_fmap_prog (func_id qmax qbase : Z) (raw_data : option bytes) :=
  with_raw raw_data (
    _ ← fresh MBOX_OP_FMAP func_id;
    _ ← store 4 fmap_qbase_at qbase; store 4 fmap_qmax_at qmax).

(** The members of [struct mbox_msg_qctxt] before the union. *)
Definition set_qctxt (qid_hw st c2h cmpt_ctxt_type : Z) : cmd bytes unit :=
  _ ← store 2 qid_hw_at qid_hw;
  _ ← store_bits 1 qctxt_bits_at 1 1 c2h;
  _ ← store_bits 1 qctxt_bits_at 0 1 st;
  store_bits 1 qctxt_bits_at 2 2 cmpt_ctxt_type.

Definition qdma_mbox_compose_vf_qctxt_write (func_id qid_hw st c2h cmpt_ctxt_type : Z)
    (descq_conf : mbox_descq_conf) (raw_data : option bytes) :=
  with_raw raw_data (
    _ ← fresh MBOX_OP_QCTXT_WRT func_id;
    _ ← set_qctxt qid_hw st c2h cmpt_ctxt_type;
    qdma_mbox_memcpy descq_conf_at (struct_bytes descq_conf_layout (descq_conf_members descq_conf))
      (Z.of_nat (layout_bytes descq_conf_layout))).
Definition qdma_mbox_compose_vf_qctxt_read (func_id qid_hw st c2h cmpt_ctxt_type : Z) (raw_data : option bytes) :=
  with_raw raw_data (_ ← fresh MBOX_OP_QCTXT_RD func_id; set_qctxt qid_hw st c2h cmpt_ctxt_type).
Definition qdma_mbox_compose_vf_qctxt_invalidate (func_id qid_hw st c2h cmpt_ctxt_type : Z) (raw_data : option bytes) :=
  with_raw raw_data (_ ← fresh MBOX_OP_QCTXT_INV func_id; set_qctxt qid_hw st c2h cmpt_ctxt_type).
Definition qdma_mbox_compose_vf_qctxt_clear (func_id qid_hw st c2h cmpt_ctxt_type : Z) (raw_data : option bytes) :=
  with_raw raw_data (_ ← fresh MBOX_OP_QCTXT_CLR func_id; set_qctxt qid_hw st c2h cmpt_ctxt_type).
Definition qdma_mbox_compose_csr_read (func_id : Z) (raw_data : option bytes) :=
  with_raw raw_data (fresh MBOX_OP_CSR func_id).
Definition qdma_mbox_compose_reg_read (func_id group_num : Z) (raw_data : option bytes) :=
  with_raw raw_data (_ ← fresh MBOX_OP_REG_LIST_READ func_id; store 2 group_num_at group_num).

(** [qdma_mbox_memcpy(&msg->intr_ctxt.ctxt, intr_ctxt, sizeof(struct mbox_msg_intr_ctxt))] *)
Definition set_intr_ctxt (intr_ctxt : mbox_msg_intr_ctxt) : cmd bytes unit :=
  qdma_mbox_memcpy intr_ctxt_at (struct_bytes msg_intr_ctxt_layout (msg_intr_ctxt_members intr_ctxt))
    (Z.of_nat (layout_bytes msg_intr_ctxt_layout)).

Definition qdma_mbox_compose_vf_intr_ctxt_write (func_id : Z) (intr_ctxt : mbox_msg_intr_ctxt) (raw_data : option bytes) :=
  with_raw raw_data (_ ← fresh MBOX_OP_INTR_CTXT_WRT func_id; set_intr_ctxt intr_ctxt).
Definition qdma_mbox_compose_vf_intr_ctxt_read (func_id : Z) (intr_ctxt : mbox_msg_intr_ctxt) (raw_data : option bytes) :=
  with_raw raw_data (_ ← fresh MBOX_OP_INTR_CTXT_RD func_id; set_intr_ctxt intr_ctxt).
Definition qdma_mbox_compose_vf_intr_ctxt_clear (func_id : Z) (intr_ctxt : mbox_msg_intr_ctxt) (raw_data : option bytes) :=
  with_raw raw_data (_ ← fresh MBOX_OP_INTR_CTXT_CLR func_id; set_intr_ctxt intr_ctxt).
Definition qdma_mbox_compose_vf_intr_ctxt_invalidate (func_id : Z) (intr_ctxt : mbox_msg_intr_ctxt) (raw_data : option bytes) :=
  with_raw raw_data (_ ← fresh MBOX_OP_INTR_CTXT_INV func_id; set_intr_ctxt intr_ctxt).

(** The function ids of these are [uint8_t]. *)
Definition to_vf (op src_funcid dest_funcid : Z) : cmd bytes unit :=
  _ ← fresh op (u8 src_funcid); set_dst_func_id (u8 dest_funcid).
Definition qdma_mbox_compose_vf_reset_message (raw_data : option bytes) (src_funcid dest_funcid : Z) :=
  with_raw raw_data (to_vf MBOX_OP_RESET_PREPARE src_funcid dest_funcid).
Definition qdma_mbox_compose_pf_reset_done_message (raw_data : option bytes) (src_funcid dest_funcid : Z) :=
  with_raw raw_data (to_vf MBOX_OP_RESET_DONE src_funcid dest_funcid).
Definition qdma_mbox_compose_pf_offline (raw_data : option bytes) (src_funcid dest_funcid : Z) :=
  with_raw raw_data (to_vf MBOX_OP_PF_BYE src_funcid dest_funcid).

(** ** Answers *)
Definition s8 (x : Z) : Z := (x + 128) mod 256 - 128.

(** Reads that leave the buffer alone. *)
Definition peek {A} (c : cmd bytes A) (b : bytes) : outcome A := '(a, _) ← c b; Ok a.
Definition get_op : cmd bytes Z := load 1 op_at.
Definition get_status : cmd bytes Z := v ← load 1 status_at; mret (s8 v).
Definition get_src_func_id : cmd bytes Z := load 2 src_func_id_at.
Definition get_dst_func_id : cmd bytes Z := load 2 dst_func_id_at.

Definition qdma_mbox_is_msg_response (send_data rcv_data : bytes) : outcome Z :=
  tx_op ← peek get_op send_data; rx_op ← peek get_op rcv_data;
  Ok (if decide (tx_op + MBOX_MSG_OP_RSP_OFFSET = rx_op) then 1 else 0).

Definition qdma_mbox_vf_response_status (rcv_data : bytes) : outcome Z := peek get_status rcv_data.
Definition qdma_mbox_vf_func_id_get (rcv_data : bytes) (is_vf : Z) : outcome Z :=
  func_id ← (if decide (is_vf = 0) then peek get_src_func_id rcv_data else peek get_dst_func_id rcv_data);
  Ok (u8 func_id).

(** [q_type]: 0 for H2C, 1 for C2H, 2 for CMPT. *)
Definition qdma_mbox_vf_active_queues_get (rcv_data : bytes) (q_type : Z) : outcome Z :=
  if decide (q_type = 0) then v ← peek (load 4 qcnt_h2c_at) rcv_data; Ok (s32 v) else
  if decide (q_type = 1) then v ← peek (load 4 qcnt_c2h_at) rcv_data; Ok (s32 v) else
  if decide (q_type = 2) then v ← peek (load 4 qcnt_cmpt_at) rcv_data; Ok (s32 v) else Ok 0.

Definition qdma_mbox_vf_parent_func_id_get (rcv_data : bytes) : outcome Z :=
  v ← peek get_src_func_id rcv_data; Ok (u8 v).

(** Returns the status, [*dev_cap] and [*dma_device_index]. *)
Definition qdma_mbox_vf_dev_info_get (rcv_data : bytes) : outcome (Z * qdma_dev_attributes * Z) :=
  l ← peek (load_struct dev_cap_layout hello_dev_cap_at) rcv_data;
  dev_cap ← dev_cap_of_members l;
  idx ← peek (load 4 hello_dma_device_index_at) rcv_data;
  rv ← peek get_status rcv_data;
  Ok (rv, dev_cap, idx).

(** Returns the status, [*qbase] and [*qmax]. *)
Definition qdma_mbox_vf_qinfo_get (rcv_data : bytes) : outcome (Z * Z * Z) :=
  qbase ← peek (load 4 fmap_qbase_at) rcv_data;
  qmax ← peek (load 4 fmap_qmax_at) rcv_data;
  rv ← peek get_status rcv_data;
  Ok (rv, s32 qbase, u16 qmax).

(** A copy of [size] bytes at [off] of the message into the caller's object. *)
Definition copy_out (rcv_data : bytes) (off : nat) (size : Z) (obj : bytes) : outcome bytes :=
  '(_, obj) ← copy 0 rcv_data off (Z.to_nat (u8 size)) obj; Ok obj.

Definition qdma_mbox_vf_csr_get (rcv_data csr : bytes) : outcome (Z * bytes) :=
  csr ← copy_out rcv_data csr_info_at sizeof_csr_info csr;
  rv ← peek get_status rcv_data; Ok (rv, csr).
Definition qdma_mbox_vf_reg_list_get (rcv_data reg_list : bytes) : outcome (Z * Z * bytes) :=
  num_regs ← peek (load 2 num_regs_at) rcv_data;
  reg_list ← copy_out rcv_data reg_list_at (num_regs * sizeof_reg_data) reg_list;
  rv ← peek get_status rcv_data; Ok (rv, num_regs, reg_list).
Definition qdma_mbox_vf_context_get (rcv_data ctxt : bytes) : outcome (Z * bytes) :=
  ctxt ← copy_out rcv_data descq_ctxt_at sizeof_descq_context ctxt;
  rv ← peek get_status rcv_data; Ok (rv, ctxt).
Definition qdma_mbox_vf_intr_context_get (rcv_data ictxt : bytes) : outcome (Z * bytes) :=
  ictxt ← copy_out rcv_data intr_ctxt_at (Z.of_nat (layout_bytes msg_intr_ctxt_layout)) ictxt;
  rv ← peek get_status rcv_data; Ok (rv, ictxt).

(** ** A virtual function's handler *)

(** The answer's header: the operation's response, source and destination swapped. *)
Definition swap_header (rcv : bytes) : cmd bytes unit :=
  op ← lift (peek get_op rcv); src ← lift (peek get_src_func_id rcv); dst ← lift (peek get_dst_func_id rcv);
  _ ← set_op (op + MBOX_MSG_OP_RSP_OFFSET); _ ← set_dst_func_id src; set_src_func_id dst.

Definition qdma_mbox_vf_rcv_msg_handler (rcv resp : bytes) : outcome (Z * bytes) :=
  op ← peek get_op rcv;
  if decide (op = MBOX_OP_RESET_PREPARE) then '(_, resp) ← swap_header rcv resp; Ok (QDMA_MBOX_VF_RESET, resp) else
  if decide (op = MBOX_OP_RESET_DONE) then '(_, resp) ← swap_header rcv resp; Ok (QDMA_MBOX_PF_RESET_DONE, resp) else
  if decide (op = MBOX_OP_PF_BYE) then '(_, resp) ← swap_header rcv resp; Ok (QDMA_MBOX_PF_BYE, resp) else
  Ok (0, resp).

(** ** Running on a large enough buffer *)
Ltac lens := first
  [ lia
  | rewrite set_at_length by lens; lens
  | rewrite put_bytes_length by (rewrite ?length_replicate, ?bytes_of_length; lens); lens ].

Lemma store_bits_run n off lo w v b : (off + n <= length b)%nat ->
  store_bits n off lo w v b = Ok (tt, set_at n off (set_bits (get_at n off b) lo w v) b).
Proof.
  intros H. unfold store_bits. rewrite (cmd_bind_run _ _ _ _ _ (load_run _ _ _ H)). by rewrite store_run.
Qed.
Lemma load_bits_run n off lo w b : (off + n <= length b)%nat ->
  load_bits n off lo w b = Ok (bits (get_at n off b) lo w, b).
Proof. intros H. unfold load_bits. by rewrite (cmd_bind_run _ _ _ _ _ (load_run _ _ _ H)). Qed.

Lemma memcpy_run to from b : (to + length from <= length b)%nat -> bytes_ok from -> (length from < 256)%nat ->
  qdma_mbox_memcpy to from (Z.of_nat (length from)) b = Ok (tt, put_bytes to from b).
Proof.
  intros H Hf Hl. unfold qdma_mbox_memcpy.
  replace (Z.to_nat (u8 (Z.of_nat (length from)))) with (length from) by (unfold u8; rewrite Z.mod_small; lia).
  rewrite copy_run by (done || lia). by rewrite drop_0, firstn_all.
Qed.
Lemma struct_copy_run ws vs to b : (to + layout_bytes ws <= length b)%nat -> (layout_bytes ws < 256)%nat ->
  qdma_mbox_memcpy to (struct_bytes ws vs) (Z.of_nat (layout_bytes ws)) b = Ok (tt, put_bytes to (struct_bytes ws vs) b).
Proof.
  intros H Hl. pose proof (bytes_of_length (layout_bytes ws) (pack ws vs)) as Hs. unfold struct_bytes in *.
  rewrite <- Hs at 2. apply memcpy_run; [lia|apply bytes_of_ok|lia].
Qed.

Lemma load_struct_put ws vs off b : fits ws vs -> layout_bits ws = 8 * Z.of_nat (layout_bytes ws) ->
  (off + layout_bytes ws <= length b)%nat ->
  load_struct ws off (put_bytes off (struct_bytes ws vs) b) = Ok (vs, put_bytes off (struct_bytes ws vs) b).
Proof.
  intros Hf Hb H. unfold load_struct. assert (length (struct_bytes ws vs) = layout_bytes ws) as Hs by apply bytes_of_length.
  erewrite cmd_bind_run by (apply load_run; rewrite put_bytes_length; lia).
  rewrite get_put_in, Nat.sub_diag, get_whole, struct_roundtrip by (done || lia). done.
Qed.

(** The cleared message with its operation and sender. *)
Definition fresh_msg (op func_id : Z) (b : bytes) : bytes :=
  set_at 2 src_func_id_at func_id (set_at 1 op_at op (put_bytes 0 (replicate 152 0) b)).

Lemma fresh_run op f b : (152 <= length b)%nat -> fresh op f b = Ok (tt, fresh_msg op f b).
Proof.
  intros H. unfold fresh, qdma_mbox_memset, set_op, set_src_func_id.
  change (Z.to_nat (u8 sizeof_qdma_mbox_txrx)) with 152%nat.
  erewrite cmd_bind_run by (apply fill_bytes_run; [lia|unfold is_byte; lia]).
  erewrite cmd_bind_run by (apply store_run; lens). rewrite store_run by lens. done.
Qed.
Lemma fresh_bind op f (k : unit -> cmd bytes unit) b : (152 <= length b)%nat -> (fresh op f ≫= k) b = k tt (fresh_msg op f b).
Proof. intros H. apply cmd_bind_run, fresh_run, H. Qed.

#[local] Opaque set_at put_bytes get_at.

Record fresh_facts (op func_id : Z) (b m : bytes) : Prop := {
  ff_length : length m = length b;
  ff_op : get_at 1 op_at m = op;
  ff_status : get_at 1 status_at m = 0;
  ff_src : get_at 2 src_func_id_at m = func_id;
  ff_zero : forall n off, (4 <= off)%nat -> (off + n <= 152)%nat -> get_at n off m = 0;
  ff_rest : drop 152 m = drop 152 b }.

Lemma fresh_msg_facts op f b : (152 <= length b)%nat -> 0 <= op < 256 -> 0 <= f < 65536 ->
  fresh_facts op f b (fresh_msg op f b).
Proof.
  intros H Ho Hf. unfold fresh_msg. constructor.
  - lens.
  - rewrite get_set_other by lens. rewrite get_set_same by lens. apply Z.mod_small, Ho.
  - rewrite !get_set_other by lens. rewrite get_put_in by (rewrite ?length_replicate; lia). apply get_zeros.
  - rewrite get_set_same by lens. apply Z.mod_small, Hf.
  - intros n off H1 H2. rewrite !get_set_other by lens. rewrite get_put_in by (rewrite ?length_replicate; lia). apply get_zeros.
  - rewrite !drop_set by lens. apply drop_put. rewrite length_replicate. lia.
Qed.

(** One command of a sequence that fills or reads a buffer. *)
Ltac mem_step := first
  [ rewrite fresh_bind by lens
  | erewrite cmd_bind_run by first [ apply store_run; lens | apply store_bits_run; lens
                                   | apply load_run; lens | apply load_bits_run; lens ] ].

(** Reads what was stored. *)
Ltac mem_get := repeat first
  [ rewrite get_set_same by lens
  | rewrite get_set_other by lens
  | rewrite get_put_out by (rewrite ?length_replicate, ?bytes_of_length; lens) ].


(** ** Requests

    What a virtual function asks for, and how the receiver reads a message. *)
Inductive request :=
  | Bye | ResetBye | GetQcnt | GetCsr
  | Hello (qmax qbase : Z) | Qreq (qmax qbase : Z) | FmapProg (qmax qbase : Z)
  | QAdd (qid_hw q_type : Z) | QDel (qid_hw q_type : Z)
  | QWrite (qid_hw st c2h cmpt_ctxt_type : Z) (conf : mbox_descq_conf)
  | QRead (qid_hw st c2h cmpt_ctxt_type : Z)
  | QInvalidate (qid_hw st c2h cmpt_ctxt_type : Z)
  | QClear (qid_hw st c2h cmpt_ctxt_type : Z)
  | RegRead (group_num : Z)
  | IntrWrite (ictxt : mbox_msg_intr_ctxt) | IntrRead (ictxt : mbox_msg_intr_ctxt)
  | IntrClear (ictxt : mbox_msg_intr_ctxt) | IntrInvalidate (ictxt : mbox_msg_intr_ctxt).

Definition compose (func_id : Z) (r : request) : option bytes -> outcome (Z * option bytes) :=
  match r with
  | Bye => qdma_mbox_compose_vf_offline func_id
  | ResetBye => qdma_mbox_compose_vf_reset_offline func_id
  | GetQcnt => qdma_mbox_compose_vf_get_device_active_qcnt func_id
  | GetCsr => qdma_mbox_compose_csr_read func_id
  | Hello qmax qbase => qmda_mbox_compose_vf_online func_id qmax qbase
  | Qreq qmax qbase => qdma_mbox_compose_vf_qreq func_id qmax qbase
  | FmapProg qmax qbase => qdma_mbox_compose_vf_fmap_prog func_id qmax qbase
  | QAdd qid_hw q_type => qdma_mbox_compose_vf_notify_qadd func_id qid_hw q_type
  | QDel qid_hw q_type => qdma_mbox_compose_vf_notify_qdel func_id qid_hw q_type
  | QWrite qid_hw st c2h ty conf => qdma_mbox_compose_vf_qctxt_write func_id qid_hw st c2h ty conf
  | QRead qid_hw st c2h ty => qdma_mbox_compose_vf_qctxt_read func_id qid_hw st c2h ty
  | QInvalidate qid_hw st c2h ty => qdma_mbox_compose_vf_qctxt_invalidate func_id qid_hw st c2h ty
  | QClear qid_hw st c2h ty => qdma_mbox_compose_vf_qctxt_clear func_id qid_hw st c2h ty
  | RegRead group_num => qdma_mbox_compose_reg_read func_id group_num
  | IntrWrite i => qdma_mbox_compose_vf_intr_ctxt_write func_id i
  | IntrRead i => qdma_mbox_compose_vf_intr_ctxt_read func_id i
  | IntrClear i => qdma_mbox_compose_vf_intr_ctxt_clear func_id i
  | IntrInvalidate i => qdma_mbox_compose_vf_intr_ctxt_invalidate func_id i
  end.

Definition read_fmap (k : Z -> Z -> request) : cmd bytes request :=
  qmax ← load 4 fmap_qmax_at; qbase ← load 4 fmap_qbase_at; mret (k qmax qbase).
Definition read_notify (k : Z -> Z -> request) : cmd bytes request :=
  qid_hw ← load 2 qid_hw_at; q_type ← load 4 q_type_at; mret (k qid_hw q_type).
Definition read_qctxt {A} (k : Z -> Z -> Z -> Z -> A) : cmd bytes A :=
  qid_hw ← load 2 qid_hw_at; st ← load_bits 1 qctxt_bits_at 0 1; c2h ← load_bits 1 qctxt_bits_at 1 1;
  ty ← load_bits 1 qctxt_bits_at 2 2; mret (k qid_hw st c2h ty).
Definition read_intr (k : mbox_msg_intr_ctxt -> request) : cmd bytes request :=
  l ← load_struct msg_intr_ctxt_layout intr_ctxt_at;
  match l with
  | n :: _ :: ring :: l => c ← lift (intr_ctxt_of l); mret (k (mkIntr n ring c))
  | _ => fail OutOfBounds
  end.

(** The request in a message with operation [op]. *)
Definition read_request (op : Z) : cmd bytes request :=
  if op =? MBOX_OP_VF_BYE then mret Bye else
  if op =? MBOX_OP_PF_RESET_VF_BYE then mret ResetBye else
  if op =? MBOX_OP_GET_QACTIVE_CNT then mret GetQcnt else
  if op =? MBOX_OP_CSR then mret GetCsr else
  if op =? MBOX_OP_HELLO then read_fmap Hello else
  if op =? MBOX_OP_QREQ then read_fmap Qreq else
  if op =? MBOX_OP_FMAP then read_fmap FmapProg else
  if op =? MBOX_OP_QNOTIFY_ADD then read_notify QAdd else
  if op =? MBOX_OP_QNOTIFY_DEL then read_notify QDel else
  if op =? MBOX_OP_QCTXT_WRT then k ← read_qctxt QWrite; c ← load_descq_conf; mret (k c) else
  if op =? MBOX_OP_QCTXT_RD then read_qctxt QRead else
  if op =? MBOX_OP_QCTXT_INV then read_qctxt QInvalidate else
  if op =? MBOX_OP_QCTXT_CLR then read_qctxt QClear else
  if op =? MBOX_OP_REG_LIST_READ then g ← load 2 group_num_at; mret (RegRead g) else
  if op =? MBOX_OP_INTR_CTXT_WRT then read_intr IntrWrite else
  if op =? MBOX_OP_INTR_CTXT_RD then read_intr IntrRead else
  if op =? MBOX_OP_INTR_CTXT_CLR then read_intr IntrClear else
  if op =? MBOX_OP_INTR_CTXT_INV then read_intr IntrInvalidate else fail OutOfBounds.

(** Sender and request. *)
Definition read_msg (b : bytes) : outcome (Z * request) :=
  op ← peek get_op b; func_id ← peek get_src_func_id b; r ← peek (read_request op) b; Ok (func_id, r).

Definition fits_u16 (x : Z) : Prop := 0 <= x < 65536.
Definition qctxt_valid (qid_hw st c2h ty : Z) : Prop :=
  fits_u16 qid_hw /\ 0 <= st < 2 /\ 0 <= c2h < 2 /\ 0 <= ty < 4.
Definition intr_valid (i : mbox_msg_intr_ctxt) : Prop := fits msg_intr_ctxt_layout (msg_intr_ctxt_members i).

(** The parameters have the types of the members they are stored in. *)
Definition valid (r : request) : Prop :=
  match r with
  | Bye | ResetBye | GetQcnt | GetCsr => True
  | Hello a b | Qreq a b | FmapProg a b => fits_u32 a /\ fits_u32 b
  | QAdd q t | QDel q t => fits_u16 q /\ fits_u32 t
  | QWrite q st c2h ty conf => qctxt_valid q st c2h ty /\ fits descq_conf_layout (descq_conf_members conf)
  | QRead q st c2h ty | QInvalidate q st c2h ty | QClear q st c2h ty => qctxt_valid q st c2h ty
  | RegRead g => fits_u16 g
  | IntrWrite i | IntrRead i | IntrClear i | IntrInvalidate i => intr_valid i
  end.

(** A composed message: the request is there, and nothing behind the union changed. *)
Definition carries (b : bytes) (func_id : Z) (r : request) (b' : bytes) : Prop :=
  read_msg b' = Ok (func_id, r) /\ peek get_status b' = Ok 0 /\ length b' = length b /\ drop 152 b' = drop 152 b.

Definition op_of (r : request) : Z :=
  match r with
  | Bye => MBOX_OP_VF_BYE | ResetBye => MBOX_OP_PF_RESET_VF_BYE | GetQcnt => MBOX_OP_GET_QACTIVE_CNT
  | GetCsr => MBOX_OP_CSR | Hello _ _ => MBOX_OP_HELLO | Qreq _ _ => MBOX_OP_QREQ | FmapProg _ _ => MBOX_OP_FMAP
  | QAdd _ _ => MBOX_OP_QNOTIFY_ADD | QDel _ _ => MBOX_OP_QNOTIFY_DEL | QWrite _ _ _ _ _ => MBOX_OP_QCTXT_WRT
  | QRead _ _ _ _ => MBOX_OP_QCTXT_RD | QInvalidate _ _ _ _ => MBOX_OP_QCTXT_INV
  | QClear _ _ _ _ => MBOX_OP_QCTXT_CLR | RegRead _ => MBOX_OP_REG_LIST_READ
  | IntrWrite _ => MBOX_OP_INTR_CTXT_WRT | IntrRead _ => MBOX_OP_INTR_CTXT_RD
  | IntrClear _ => MBOX_OP_INTR_CTXT_CLR | IntrInvalidate _ => MBOX_OP_INTR_CTXT_INV
  end.

(** What follows the header of a composed message. *)
Definition body (r : request) : cmd bytes unit :=
  match r with
  | Bye | ResetBye | GetQcnt | GetCsr => mret tt
  | Hello qmax qbase | Qreq qmax qbase | FmapProg qmax qbase =>
      _ ← store 4 fmap_qbase_at qbase; store 4 fmap_qmax_at qmax
  | QAdd qid_hw q_type | QDel qid_hw q_type => _ ← store 2 qid_hw_at qid_hw; store 4 q_type_at q_type
  | QWrite qid_hw st c2h ty conf =>
      _ ← set_qctxt qid_hw st c2h ty;
      qdma_mbox_memcpy descq_conf_at (struct_bytes descq_conf_layout (descq_conf_members conf))
        (Z.of_nat (layout_bytes descq_conf_layout))
  | QRead qid_hw st c2h ty | QInvalidate qid_hw st c2h ty | QClear qid_hw st c2h ty => set_qctxt qid_hw st c2h ty
  | RegRead g => store 2 group_num_at g
  | IntrWrite i | IntrRead i | IntrClear i | IntrInvalidate i => set_intr_ctxt i
  end.

Lemma bind_ret_tt {S} (c : cmd S unit) s : (c ≫= fun _ => mret tt) s = c s.
Proof. unfold mbind, cmd_bind, mret, cmd_ret. destruct (c s) as [[[] ?]|]; done. Qed.

(** Every message is a cleared one with a header and its body. *)
Lemma compose_eq func_id r b : compose func_id r (Some b) =
  ('(_, b) ← (fresh (op_of r) func_id ≫= fun _ => body r) b; Ok (QDMA_SUCCESS, Some b)).
Proof.
  destruct r; try reflexivity; cbn [compose op_of body]; unfold qdma_mbox_compose_vf_offline,
    qdma_mbox_compose_vf_reset_offline, qdma_mbox_compose_vf_get_device_active_qcnt, qdma_mbox_compose_csr_read, with_raw;
    by rewrite bind_ret_tt.
Qed.
Lemma compose_null func_id r : compose func_id r None = Ok (- QDMA_ERR_INV_PARAM, None).
Proof. destruct r; reflexivity. Qed.

(** What a body leaves alone: the header and all behind the union. *)
Record body_facts (r : request) (m m' : bytes) : Prop := {
  bf_length : length m' = length m;
  bf_header : forall n off, (off + n <= 6)%nat -> get_at n off m' = get_at n off m;
  bf_rest : drop 152 m' = drop 152 m;
  bf_read : peek (read_request (op_of r)) m' = Ok r }.

Ltac by_op :=
  repeat match goal with
  | |- context [?a =? ?b] => let v := eval vm_compute in (a =? b) in change (a =? b) with v
  end; cbv iota.

Lemma peek_run {A} (c : cmd bytes A) b a b' : c b = Ok (a, b') -> peek c b = Ok a.
Proof. unfold peek. by intros ->. Qed.

(** The byte of the bit-fields. *)
Definition qctxt_byte (st c2h ty : Z) : Z :=
  set_bits (set_bits (set_bits 0 1 1 c2h mod 256) 0 1 st mod 256) 2 2 ty mod 256.
Lemma qctxt_byte_bits st c2h ty : 0 <= st < 2 -> 0 <= c2h < 2 -> 0 <= ty < 4 ->
  bits (qctxt_byte st c2h ty) 0 1 = st /\ bits (qctxt_byte st c2h ty) 1 1 = c2h /\ bits (qctxt_byte st c2h ty) 2 2 = ty.
Proof.
  intros H1 H2 H3. assert (st = 0 \/ st = 1) as [-> | ->] by lia; assert (c2h = 0 \/ c2h = 1) as [-> | ->] by lia;
    assert (ty = 0 \/ ty = 1 \/ ty = 2 \/ ty = 3) as [-> | [-> | [-> | ->]]] by lia; by vm_compute.
Qed.

Lemma pow_1 : 256 ^ Z.of_nat 1 = 256.
Proof. reflexivity. Qed.
Lemma pow_2 : 256 ^ Z.of_nat 2 = 65536.
Proof. reflexivity. Qed.
Lemma pow_4 : 256 ^ Z.of_nat 4 = 4294967296.
Proof. reflexivity. Qed.

Definition qctxt_msg (qid_hw st c2h ty : Z) (m : bytes) : bytes :=
  let m1 := set_at 2 qid_hw_at qid_hw m in
  let m2 := set_at 1 qctxt_bits_at (set_bits 0 1 1 c2h) m1 in
  let m3 := set_at 1 qctxt_bits_at (set_bits (set_bits 0 1 1 c2h mod 256) 0 1 st) m2 in
  set_at 1 qctxt_bits_at (set_bits (set_bits (set_bits 0 1 1 c2h mod 256) 0 1 st mod 256) 2 2 ty) m3.

Lemma set_qctxt_run q st c2h ty m : (152 <= length m)%nat -> get_at 1 qctxt_bits_at m = 0 ->
  set_qctxt q st c2h ty m = Ok (tt, qctxt_msg q st c2h ty m).
Proof.
  intros H H0. unfold set_qctxt, qctxt_msg. do 3 mem_step. rewrite store_bits_run by lens.
  mem_get. by rewrite !H0, !pow_1.
Qed.

Lemma qctxt_msg_facts q st c2h ty m : (152 <= length m)%nat -> qctxt_valid q st c2h ty ->
  let m' := qctxt_msg q st c2h ty m in
  length m' = length m /\ drop 152 m' = drop 152 m /\ get_at 2 qid_hw_at m' = q /\
  get_at 1 qctxt_bits_at m' = qctxt_byte st c2h ty /\
  forall n off, (off + n <= 6 \/ 9 <= off)%nat -> get_at n off m' = get_at n off m.
Proof.
  intros H (Hq & _) m'. unfold m', qctxt_msg. split; [lens|]. split; [rewrite !drop_set by lens; done|].
  split; [rewrite !get_set_other by lens; rewrite get_set_same by lens; rewrite pow_2; apply Z.mod_small, Hq|].
  split; [rewrite get_set_same by lens; by rewrite pow_1|].
  intros n off Ho. by rewrite !get_set_other by lens.
Qed.
#[local] Opaque qctxt_msg.

Lemma read_qctxt_run {A} (k : Z -> Z -> Z -> Z -> A) q st c2h ty m : (152 <= length m)%nat ->
  get_at 2 qid_hw_at m = q -> get_at 1 qctxt_bits_at m = qctxt_byte st c2h ty -> qctxt_valid q st c2h ty ->
  read_qctxt k m = Ok (k q st c2h ty, m).
Proof.
  intros H Hq Hb (_ & H1 & H2 & H3). destruct (qctxt_byte_bits st c2h ty H1 H2 H3) as (E1 & E2 & E3).
  unfold read_qctxt. do 4 mem_step. by rewrite Hq, Hb, E1, E2, E3.
Qed.

Lemma fmap_body k qmax qbase m : (152 <= length m)%nat -> fits_u32 qmax -> fits_u32 qbase ->
  exists m', (_ ← store 4 fmap_qbase_at qbase; store 4 fmap_qmax_at qmax) m = Ok (tt, m') /\
    length m' = length m /\ (forall n off, (off + n <= 6)%nat -> get_at n off m' = get_at n off m) /\
    drop 152 m' = drop 152 m /\ read_fmap k m' = Ok (k qmax qbase, m').
Proof.
  intros H H1 H2. eexists. split; [mem_step; apply store_run; lens|].
  split; [lens|]. split; [intros; by rewrite !get_set_other by lens|]. split; [by rewrite !drop_set by lens|].
  unfold read_fmap. do 2 mem_step. rewrite get_set_same, get_set_other, get_set_same, pow_4 by lens.
  by rewrite !(Z.mod_small _ 4294967296) by done.
Qed.

Lemma notify_body k q t m : (152 <= length m)%nat -> fits_u16 q -> fits_u32 t ->
  exists m', (_ ← store 2 qid_hw_at q; store 4 q_type_at t) m = Ok (tt, m') /\
    length m' = length m /\ (forall n off, (off + n <= 6)%nat -> get_at n off m' = get_at n off m) /\
    drop 152 m' = drop 152 m /\ read_notify k m' = Ok (k q t, m').
Proof.
  intros H H1 H2. eexists. split; [mem_step; apply store_run; lens|].
  split; [lens|]. split; [intros; by rewrite !get_set_other by lens|]. split; [by rewrite !drop_set by lens|].
  unfold read_notify. do 2 mem_step. rewrite get_set_other, !get_set_same, pow_4, pow_2 by lens.
  by rewrite (Z.mod_small t), (Z.mod_small q) by done.
Qed.

Lemma intr_ctxt_of_members c : intr_ctxt_of (intr_ctxt_members c) = Ok c.
Proof. by destruct c. Qed.
Lemma descq_conf_of_members c : descq_conf_of (descq_conf_members c) = Ok c.
Proof. by destruct c. Qed.

Lemma intr_body k i m : (152 <= length m)%nat -> intr_valid i ->
  exists m', set_intr_ctxt i m = Ok (tt, m') /\
    length m' = length m /\ (forall n off, (off + n <= 6)%nat -> get_at n off m' = get_at n off m) /\
    drop 152 m' = drop 152 m /\ read_intr k m' = Ok (k i, m').
Proof.
  intros H Hi. pose proof (bytes_of_length (layout_bytes msg_intr_ctxt_layout) (pack msg_intr_ctxt_layout (msg_intr_ctxt_members i))) as Hl.
  change (layout_bytes msg_intr_ctxt_layout) with 40%nat in Hl at 2.
  exists (put_bytes intr_ctxt_at (struct_bytes msg_intr_ctxt_layout (msg_intr_ctxt_members i)) m). unfold struct_bytes.
  split; [apply struct_copy_run; change (layout_bytes msg_intr_ctxt_layout) with 40%nat; lia|].
  split; [apply put_bytes_length; lia|]. split; [intros; apply get_put_out; lia|]. split; [apply drop_put; lia|].
  unfold read_intr. erewrite cmd_bind_run by (apply load_struct_put;
    [exact Hi|reflexivity|change (layout_bytes msg_intr_ctxt_layout) with 40%nat; lia]).
  unfold msg_intr_ctxt_members. cbn [app]. erewrite cmd_bind_run by apply lift_run, intr_ctxt_of_members. by destruct i.
Qed.

Lemma qctxt_body {A} (k : Z -> Z -> Z -> Z -> A) q st c2h ty m : (152 <= length m)%nat ->
  get_at 1 qctxt_bits_at m = 0 -> qctxt_valid q st c2h ty ->
  exists m', set_qctxt q st c2h ty m = Ok (tt, m') /\
    length m' = length m /\ (forall n off, (off + n <= 6)%nat -> get_at n off m' = get_at n off m) /\
    drop 152 m' = drop 152 m /\ read_qctxt k m' = Ok (k q st c2h ty, m').
Proof.
  intros H H0 Hv. exists (qctxt_msg q st c2h ty m). split; [by apply set_qctxt_run|].
  destruct (qctxt_msg_facts q st c2h ty m H Hv) as (L & D & Eq & Eb & Eo).
  split; [exact L|]. split; [intros; apply Eo; lia|]. split; [exact D|]. apply read_qctxt_run; [lia|done..].
Qed.

Lemma qwrite_body q st c2h ty conf m : (152 <= length m)%nat -> get_at 1 qctxt_bits_at m = 0 ->
  qctxt_valid q st c2h ty -> fits descq_conf_layout (descq_conf_members conf) ->
  exists m', body (QWrite q st c2h ty conf) m = Ok (tt, m') /\
    length m' = length m /\ (forall n off, (off + n <= 6)%nat -> get_at n off m' = get_at n off m) /\
    drop 152 m' = drop 152 m /\ read_request MBOX_OP_QCTXT_WRT m' = Ok (QWrite q st c2h ty conf, m').
Proof.
  intros H H0 Hv Hf. destruct (qctxt_msg_facts q st c2h ty m H Hv) as (L & D & Eq & Eb & Eo).
  pose proof (set_qctxt_run q st c2h ty m H H0) as E. set (m1 := qctxt_msg q st c2h ty m) in *.
  pose proof (bytes_of_length (layout_bytes descq_conf_layout) (pack descq_conf_layout (descq_conf_members conf))) as Hl.
  change (layout_bytes descq_conf_layout) with 32%nat in Hl at 2.
  exists (put_bytes descq_conf_at (struct_bytes descq_conf_layout (descq_conf_members conf)) m1).
  unfold struct_bytes. split.
  { cbn [body]. rewrite (cmd_bind_run _ _ _ _ _ E).
    apply struct_copy_run; change (layout_bytes descq_conf_layout) with 32%nat; lia. }
  split; [rewrite put_bytes_length; lia|].
  split; [intros; rewrite get_put_out by lia; apply Eo; lia|]. split; [rewrite drop_put by lia; exact D|].
  unfold read_request. by_op.
  erewrite cmd_bind_run by (apply read_qctxt_run;
    [rewrite put_bytes_length; lia|rewrite get_put_out by lia; exact Eq|rewrite get_put_out by lia; exact Eb|exact Hv]).
  unfold load_descq_conf, mbind at 1, cmd_bind at 1.
  erewrite cmd_bind_run by (apply load_struct_put;
    [exact Hf|reflexivity|change (layout_bytes descq_conf_layout) with 32%nat; lia]).
  by rewrite (lift_run _ _ _ (descq_conf_of_members conf)).
Qed.

Lemma body_run r m : (152 <= length m)%nat -> (forall n off, (4 <= off)%nat -> (off + n <= 152)%nat -> get_at n off m = 0) ->
  valid r -> exists m', body r m = Ok (tt, m') /\ length m' = length m /\
    (forall n off, (off + n <= 6)%nat -> get_at n off m' = get_at n off m) /\
    drop 152 m' = drop 152 m /\ read_request (op_of r) m' = Ok (r, m').
Proof.
  intros H H0 Hv. pose proof (H0 1%nat qctxt_bits_at ltac:(lia) ltac:(lia)) as Hz.
  destruct r; cbn [valid] in Hv; cbn [op_of]; unfold read_request; by_op.
  1-4: exists m; done.
  1-3: apply fmap_body; tauto.
  1-2: apply notify_body; tauto.
  1: apply qwrite_body; tauto.
  1-3: by apply qctxt_body.
  2-5: by apply intr_body.
  exists (set_at 2 group_num_at group_num m). split; [apply store_run; lia|]. split; [lens|].
  split; [intros; by rewrite get_set_other by lens|]. split; [by rewrite drop_set by lens|].
  mem_step. rewrite get_set_same, pow_2, Z.mod_small by (done || lens). done.
Qed.

Lemma op_of_range r : 0 <= op_of r < 256.
Proof. by destruct r. Qed.

(** Reading the header. *)
Lemma peek_load n off b : (off + n <= length b)%nat -> peek (load n off) b = Ok (get_at n off b).
Proof. intros H. unfold peek. by rewrite load_run. Qed.

Lemma compose_run r func_id b : (152 <= length b)%nat -> fits_u16 func_id -> valid r ->
  exists b', (fresh (op_of r) func_id ≫= fun _ => body r) b = Ok (tt, b') /\ length b' = length b /\
    drop 152 b' = drop 152 b /\ get_at 1 op_at b' = op_of r /\ get_at 1 status_at b' = 0 /\
    get_at 2 src_func_id_at b' = func_id /\ get_at 2 dst_func_id_at b' = 0 /\ peek (read_request (op_of r)) b' = Ok r.
Proof.
  intros H Hf Hv. destruct (fresh_msg_facts (op_of r) func_id b H (op_of_range r) Hf) as [L Eo Es Ef Ez D].
  set (m := fresh_msg (op_of r) func_id b) in *.
  destruct (body_run r m ltac:(lia) Ez Hv) as (m' & E & L' & Eh & D' & Er). exists m'. split.
  { rewrite (cmd_bind_run _ _ _ _ _ (fresh_run _ _ _ H)). exact E. }
  split; [lia|]. split; [congruence|]. rewrite !Eh, (Ez 2%nat dst_func_id_at) by lia. do 4 (split; [done|]).
  exact (peek_run _ _ _ _ Er).
Qed.

Lemma read_msg_run b op func_id r : (4 <= length b)%nat -> get_at 1 op_at b = op -> get_at 2 src_func_id_at b = func_id ->
  peek (read_request op) b = Ok r -> read_msg b = Ok (func_id, r).
Proof.
  intros H Ho Hf Hr. unfold read_msg, get_op, get_src_func_id. rewrite !peek_load by lia.
  cbn [mbind outcome_bind]. by rewrite Ho, Hf, Hr.
Qed.

(** A request arrives as it was composed.  In a buffer that holds the union, every
    function that composes a message for the physical function leaves a message from
    which the receiver reads the sender's id and the request with all its parameters,
    with status 0, and changes nothing behind the union. *)
Theorem request_roundtrip r func_id b : (152 <= length b)%nat -> fits_u16 func_id -> valid r ->
  exists b', compose func_id r (Some b) = Ok (QDMA_SUCCESS, Some b') /\ carries b func_id r b'.
Proof.
  intros H Hf Hv. destruct (compose_run r func_id b H Hf Hv) as (b' & E & L & D & Eo & Es & Ef & _ & Er).
  exists b'. split; [by rewrite compose_eq, E|]. split; [|split; [|done]].
  - apply (read_msg_run _ (op_of r)); [lia|done..].
  - unfold get_status. erewrite peek_run; [reflexivity|]. erewrite cmd_bind_run by (apply load_run; lia). by rewrite Es.
Qed.

Lemma fill_overrun off v n b : (off <= length b < off + n)%nat -> is_byte v -> fill off v n b = Fault OutOfBounds.
Proof.
  intros H Hv. revert off b H. induction n as [|n IH]; intros off b H; [lia|]. cbn [fill].
  destruct (decide (off + 1 <= length b)%nat) as [Hd|Hd].
  - rewrite (cmd_bind_run _ _ _ _ _ (store_run 1 off v b Hd)). apply IH. rewrite set_at_length by done. lia.
  - unfold mbind, cmd_bind, store. by rewrite decide_False.
Qed.

Lemma fresh_overrun {A} op f (k : unit -> cmd bytes A) b : (length b < 152)%nat -> (fresh op f ≫= k) b = Fault OutOfBounds.
Proof.
  intros H. unfold fresh, qdma_mbox_memset. change (Z.to_nat (u8 sizeof_qdma_mbox_txrx)) with 152%nat.
  unfold mbind, cmd_bind. rewrite fill_overrun; [done|lia|unfold is_byte; lia].
Qed.

(** The messages do not fit their buffers.  A buffer of [MBOX_MSG_REG_MAX] words,
    128 bytes, is what the mailbox transports and what the driver allocates for a
    message, but the functions that compose messages clear the whole union, of 152
    bytes: each of them writes behind such a buffer. *)
Theorem messages_overrun r func_id src dst b : Z.of_nat (length b) = 4 * MBOX_MSG_REG_MAX ->
  compose func_id r (Some b) = Fault OutOfBounds /\
  qdma_mbox_compose_vf_reset_message (Some b) src dst = Fault OutOfBounds /\
  qdma_mbox_compose_pf_reset_done_message (Some b) src dst = Fault OutOfBounds /\
  qdma_mbox_compose_pf_offline (Some b) src dst = Fault OutOfBounds.
Proof.
  unfold MBOX_MSG_REG_MAX. intros H. split; [rewrite compose_eq, fresh_overrun by lia; reflexivity|].
  repeat split; unfold qdma_mbox_compose_vf_reset_message, qdma_mbox_compose_pf_reset_done_message,
    qdma_mbox_compose_pf_offline, with_raw, to_vf; rewrite fresh_overrun by lia; reflexivity.
Qed.

(** ** The answers of a virtual function *)
Definition vf_event (op : Z) : option Z :=
  if decide (op = MBOX_OP_RESET_PREPARE) then Some QDMA_MBOX_VF_RESET else
  if decide (op = MBOX_OP_RESET_DONE) then Some QDMA_MBOX_PF_RESET_DONE else
  if decide (op = MBOX_OP_PF_BYE) then Some QDMA_MBOX_PF_BYE else None.

Lemma swap_header_run rcv resp : (6 <= length rcv)%nat -> (6 <= length resp)%nat ->
  swap_header rcv resp = Ok (tt, set_at 2 src_func_id_at (get_at 2 dst_func_id_at rcv)
    (set_at 2 dst_func_id_at (get_at 2 src_func_id_at rcv) (set_at 1 op_at (get_at 1 op_at rcv + MBOX_MSG_OP_RSP_OFFSET) resp))).
Proof.
  intros H1 H2. unfold swap_header, get_op, get_src_func_id, get_dst_func_id, set_op, set_dst_func_id, set_src_func_id.
  do 3 (erewrite cmd_bind_run by (apply lift_run, peek_load; lia)). do 2 mem_step. apply store_run. lens.
Qed.

(** What a virtual function answers.  To each of the three messages a physical
    function sends of its own accord, the handler reports the event and fills in an
    answer with the response code, source and destination exchanged and the rest of
    the buffer as it was, which the sender recognises as the answer to its message.
    Any other message is ignored. *)
Theorem vf_handler_answers rcv resp : bytes_ok rcv -> (6 <= length rcv)%nat -> (6 <= length resp)%nat ->
  match vf_event (get_at 1 op_at rcv) with
  | Some event => exists resp', qdma_mbox_vf_rcv_msg_handler rcv resp = Ok (event, resp') /\
      get_at 1 op_at resp' = get_at 1 op_at rcv + MBOX_MSG_OP_RSP_OFFSET /\
      get_at 2 src_func_id_at resp' = get_at 2 dst_func_id_at rcv /\
      get_at 2 dst_func_id_at resp' = get_at 2 src_func_id_at rcv /\
      get_at 1 status_at resp' = get_at 1 status_at resp /\ drop 6 resp' = drop 6 resp /\
      qdma_mbox_is_msg_response rcv resp' = Ok 1
  | None => qdma_mbox_vf_rcv_msg_handler rcv resp = Ok (0, resp)
  end.
Proof.
  intros Hb H1 H2. pose proof (get_range 2 dst_func_id_at rcv Hb ltac:(lia)) as Hd.
  pose proof (get_range 2 src_func_id_at rcv Hb ltac:(lia)) as Hs.
  assert (forall event, vf_event (get_at 1 op_at rcv) = Some event -> get_at 1 op_at rcv + 128 < 256 /\
    qdma_mbox_vf_rcv_msg_handler rcv resp = '(_, resp) ← swap_header rcv resp; Ok (event, resp)) as Hh.
  { unfold vf_event, qdma_mbox_vf_rcv_msg_handler, get_op. rewrite peek_load by lia. cbn [mbind outcome_bind].
    intros event He. repeat case_decide; try discriminate; injection He as <-; (split; [|done]);
      match goal with H : get_at _ _ _ = _ |- _ => rewrite H end; reflexivity. }
  pose proof (get_range 1 op_at rcv Hb ltac:(lia)) as Ho.
  destruct (vf_event (get_at 1 op_at rcv)) as [event|] eqn:Ev.
  - destruct (Hh event eq_refl) as [Hop Eh]. rewrite Eh, swap_header_run by done. eexists. split; [reflexivity|].
    set (op' := get_at 1 op_at rcv + MBOX_MSG_OP_RSP_OFFSET). assert (0 <= op' < 256) as Hop' by (unfold op', MBOX_MSG_OP_RSP_OFFSET; lia).
    split; [|split; [|split; [|split; [|split]]]].
    + rewrite !get_set_other by lens. rewrite get_set_same by lens. by apply Z.mod_small.
    + rewrite get_set_same by lens. by apply Z.mod_small.
    + rewrite get_set_other by lens. rewrite get_set_same by lens. by apply Z.mod_small.
    + by rewrite !get_set_other by lens.
    + by rewrite !drop_set by lens.
    + unfold qdma_mbox_is_msg_response, get_op. rewrite !peek_load by lens. cbn [mbind outcome_bind].
      rewrite !get_set_other by lens. rewrite get_set_same by lens. rewrite pow_1, Z.mod_small by done.
      by rewrite decide_True.
  - unfold vf_event in Ev. unfold qdma_mbox_vf_rcv_msg_handler, get_op. rewrite peek_load by lia. cbn [mbind outcome_bind].
    by repeat case_decide.
Qed.

(** ** Witnesses *)
#[local] Transparent set_at put_bytes get_at.
Definition sample_conf : mbox_descq_conf :=
  mkConf 0x123456789000 0xabcdef000 1 0 1 0 1 0 1 0 1 0 1 0 0 1 0 1 3 2 5 0 77 64 9 1000 1 0 2048 4096 1024.

Lemma request_roundtrip_witness :
  exists b', compose 300 (QWrite 2047 1 1 2 sample_conf) (Some (replicate 160 0xff)) = Ok (0, Some b') /\
    carries (replicate 160 0xff) 300 (QWrite 2047 1 1 2 sample_conf) b'.
Proof.
  apply (request_roundtrip (QWrite 2047 1 1 2 sample_conf)); [rewrite length_replicate; lia|done|].
  split; [unfold qctxt_valid, fits_u16; lia|]. repeat constructor; done.
Defined.

Lemma messages_overrun_witness : compose 1 Bye (Some (replicate 128 0)) = Fault OutOfBounds.
Proof. destruct (messages_overrun Bye 1 0 0 (replicate 128 0) eq_refl) as [H _]. exact H. Defined.

Lemma vf_handler_answers_witness :
  exists resp', qdma_mbox_vf_rcv_msg_handler [0x10; 0; 1; 0; 5; 0] (replicate 128 0) = Ok (QDMA_MBOX_VF_RESET, resp') /\
    get_at 1 op_at resp' = 0x90.
Proof.
  pose proof (vf_handler_answers [0x10; 0; 1; 0; 5; 0] (replicate 128 0)) as H.
  destruct H as (resp' & E & H & _); [repeat constructor; done|cbn; lia..|]. by exists resp'.
Defined.
