(* ===== verification/MboxHw.v ===== *)
(** * qdma_mbox_protocol.c, second part: the mailbox registers

    Sending and receiving the 32 words of a message, the acknowledgements and the
    interrupt enable.  [raw_data] is the caller's buffer; the functions take the
    words from it and put them into it four bytes at a time.  The theorems are about
    any pair of devices with a [Channel]: a message that is sent arrives, and what
    each call does when the mailbox is not ready; [link] is such a pair. *)

From S2P Require Import Prelude Float64 Device Fields Indirect CtxtRegs Context Csr Bytes MboxMsg.

Open Scope Z_scope.

Definition mbox_base_pf : Z := 0x22400.
Definition mbox_base_vf : Z := 0x5000.

Definition MBOX_FN_STATUS : Z := 0x0.
Definition M_MBOX_FN_STATUS_IN_MSG : Z := 0x1.
Definition F_MBOX_FN_STATUS_OUT_MSG : Z := 2.
Definition F_MBOX_FN_STATUS_ACK : Z := 4.
Definition S_MBOX_FN_STATUS_SRC : Z := 4.
Definition M_MBOX_FN_STATUS_SRC : Z := 0xFFF.
Definition G_MBOX_FN_STATUS_SRC (x : Z) : Z := Z.land (Z.shiftr x S_MBOX_FN_STATUS_SRC) M_MBOX_FN_STATUS_SRC.
Definition MBOX_FN_CMD : Z := 0x4.
Definition F_MBOX_FN_CMD_SND : Z := 1.
Definition F_MBOX_FN_CMD_RCV : Z := 2.
Definition MBOX_ISR_VEC : Z := 0x8.
Definition MBOX_FN_TARGET : Z := 0xC.
Definition V_MBOX_FN_TARGET_ID (x : Z) : Z := Z.land x 0xFFF.
Definition MBOX_ISR_EN : Z := 0x10.
Definition MBOX_PF_ACK_BASE : Z := 0x20.
Definition MBOX_PF_ACK_STEP : Z := 4.
Definition MBOX_PF_ACK_COUNT : nat := 8.
Definition MBOX_IN_MSG_BASE : Z := 0x800.
Definition MBOX_OUT_MSG_BASE : Z := 0xc00.
Definition MBOX_MSG_STEP : Z := 4.

Definition QDMA_ERR_MBOX_SEND_BUSY : Z := 22.
Definition QDMA_ERR_MBOX_NO_MSG_IN : Z := 23.
Definition QDMA_ERR_MBOX_ALL_ZERO_MSG : Z := 25.

Definition get_mbox_offset (is_vf : Z) : Z := if decide (is_vf = 0) then mbox_base_pf else mbox_base_vf.

Section code.
Context {W : Type} `{io : IoMem W}.

Definition mbox_pf_hw_clear_func_ack (dev func_id : Z) : cmd W unit :=
  let idx := func_id / 32 in
  let bit := func_id mod 32 in
  qdma_reg_write dev (u32 (get_mbox_offset 0 + MBOX_PF_ACK_BASE + idx * MBOX_PF_ACK_STEP)) (BIT bit).

Fixpoint clear_acks (dev reg : Z) (n : nat) : cmd W unit :=
  match n with
  | O => mret tt
  | S n =>
      v ← qdma_reg_read dev reg;
      _ ← (if decide (v = 0) then mret tt else qdma_reg_write dev reg v);
      clear_acks dev (reg + MBOX_PF_ACK_STEP) n
  end.

Definition qdma_mbox_pf_hw_clear_ack (dev : Z) : cmd W unit :=
  let mbox_base := get_mbox_offset 0 in
  v ← qdma_reg_read dev (mbox_base + MBOX_FN_STATUS);
  if decide (Z.land v F_MBOX_FN_STATUS_ACK = 0) then mret tt else
  clear_acks dev (mbox_base + MBOX_PF_ACK_BASE) MBOX_PF_ACK_COUNT.

(** [raw_data[i]] *)
Definition get_word (raw_data : bytes) (i : nat) : outcome Z := peek (load 4 (4 * i)) raw_data.

(** The words from [i] on. *)
Fixpoint send_words (dev mbox_base : Z) (raw_data : bytes) (reg : Z) (i n : nat) : cmd W unit :=
  match n with
  | O => mret tt
  | S n =>
      v ← lift (get_word raw_data i);
      _ ← qdma_reg_write dev (mbox_base + reg) v;
      send_words dev mbox_base raw_data (reg + MBOX_MSG_STEP) (S i) n
  end.

Definition qdma_mbox_send (dev is_vf : Z) (raw_data : bytes) : cmd W Z :=
  dst_func_id ← lift (peek get_dst_func_id raw_data);
  let mbox_base := get_mbox_offset is_vf in
  v ← qdma_reg_read dev (mbox_base + MBOX_FN_STATUS);
  if decide (Z.land v F_MBOX_FN_STATUS_OUT_MSG <> 0) then mret (- QDMA_ERR_MBOX_SEND_BUSY) else
  _ ← (if decide (is_vf = 0) then qdma_reg_write dev (mbox_base + MBOX_FN_TARGET) (V_MBOX_FN_TARGET_ID dst_func_id)
       else mret tt);
  _ ← send_words dev mbox_base raw_data MBOX_OUT_MSG_BASE 0 (Z.to_nat MBOX_MSG_REG_MAX);
  _ ← (if decide (is_vf = 0) then mbox_pf_hw_clear_func_ack dev dst_func_id else mret tt);
  _ ← qdma_reg_write dev (mbox_base + MBOX_FN_CMD) F_MBOX_FN_CMD_SND;
  mret QDMA_SUCCESS.

(** Stores a word of the message. *)
Definition set_word (raw_data : bytes) (i : nat) (v : Z) : outcome bytes :=
  '(_, raw_data) ← store 4 (4 * i) v raw_data; Ok raw_data.

(** The words from [i] on; whether all so far were zero, and the buffer. *)
Fixpoint rcv_words (dev mbox_base : Z) (reg : Z) (i n : nat) (all_zero_msg : bool) (raw_data : bytes) :
    cmd W (bool * bytes) :=
  match n with
  | O => mret (all_zero_msg, raw_data)
  | S n =>
      v ← qdma_reg_read dev (mbox_base + reg);
      raw_data ← lift (set_word raw_data i v);
      rcv_words dev mbox_base (reg + MBOX_MSG_STEP) (S i) n (all_zero_msg && (v =? 0)) raw_data
  end.

(** The result and the caller's buffer. *)
Definition qdma_mbox_rcv (dev is_vf : Z) (raw_data : bytes) : cmd W (Z * bytes) :=
  let mbox_base := get_mbox_offset is_vf in
  v ← qdma_reg_read dev (mbox_base + MBOX_FN_STATUS);
  if decide (Z.land v M_MBOX_FN_STATUS_IN_MSG = 0) then mret (- QDMA_ERR_MBOX_NO_MSG_IN, raw_data) else
  let from_id := if decide (is_vf = 0) then G_MBOX_FN_STATUS_SRC v else 0 in
  _ ← (if decide (is_vf = 0) then qdma_reg_write dev (mbox_base + MBOX_FN_TARGET) from_id else mret tt);
  '(all_zero_msg, raw_data) ← rcv_words dev mbox_base MBOX_IN_MSG_BASE 0 (Z.to_nat MBOX_MSG_REG_MAX) true raw_data;
  _ ← qdma_reg_write dev (mbox_base + MBOX_FN_CMD) F_MBOX_FN_CMD_RCV;
  if (all_zero_msg : bool) then mret (- QDMA_ERR_MBOX_ALL_ZERO_MSG, raw_data) else
  src_func_id ← lift (peek get_src_func_id raw_data);
  if decide (is_vf = 0 /\ from_id <> src_func_id) then
    '(_, raw_data) ← lift (set_src_func_id from_id raw_data); mret (QDMA_SUCCESS, raw_data)
  else mret (QDMA_SUCCESS, raw_data).

Definition qdma_mbox_hw_init (dev is_vf : Z) : cmd W unit :=
  let mbox_base := get_mbox_offset is_vf in
  if decide (is_vf = 0) then qdma_mbox_pf_hw_clear_ack dev else
  v ← qdma_reg_read dev (mbox_base + MBOX_FN_STATUS);
  if decide (Z.land v M_MBOX_FN_STATUS_IN_MSG = 0) then mret tt else
  qdma_reg_write dev (mbox_base + MBOX_FN_CMD) F_MBOX_FN_CMD_RCV.

Definition qdma_mbox_enable_interrupts (dev is_vf : Z) : cmd W unit :=
  let mbox_base := get_mbox_offset is_vf in
  _ ← qdma_reg_write dev (mbox_base + MBOX_ISR_VEC) 0;
  qdma_reg_write dev (mbox_base + MBOX_ISR_EN) 0x1.

Definition qdma_mbox_disable_interrupts (dev is_vf : Z) : cmd W unit :=
  qdma_reg_write dev (get_mbox_offset is_vf + MBOX_ISR_EN) 0x0.

Definition qdma_mbox_out_status (dev is_vf : Z) : cmd W Z :=
  v ← qdma_reg_read dev (get_mbox_offset is_vf + MBOX_FN_STATUS);
  if decide (Z.land v F_MBOX_FN_STATUS_OUT_MSG <> 0) then mret 1 else mret 0.
End code.

(** ** A channel

    The mailbox of a sender and that of a receiver.  The hardware transports 32
    words; it knows the sender, and shows its id to a physical function.  A physical
    function chooses whom it sends to, and whose message it reads, with the target
    register; a virtual function has only its physical function. *)
Record chan := mkChan {
  ch_out : list Z;          (* the outgoing words *)
  ch_target : Z;
  ch_busy : bool;           (* sent and not acknowledged *)
  ch_in : option (list Z);  (* the message waiting at the receiver *)
  ch_rtarget : Z }.

Class Channel (W : Type) `{IoMem W} (ds svf dr rvf src dst : Z) := {
  ch : W -> chan;
  ch_words : forall w, length (ch_out (ch w)) = 32%nat;
  ch_send_status : forall w, exists v,
    ioread32 (ds + (get_mbox_offset svf + MBOX_FN_STATUS)) w = (v, w) /\
    (Z.land v F_MBOX_FN_STATUS_OUT_MSG <> 0 <-> ch_busy (ch w) = true);
  ch_rcv_status : forall w, exists v,
    ioread32 (dr + (get_mbox_offset rvf + MBOX_FN_STATUS)) w = (v, w) /\
    (Z.land v M_MBOX_FN_STATUS_IN_MSG = 0 <-> ch_in (ch w) = None) /\
    (ch_in (ch w) <> None -> rvf = 0 -> G_MBOX_FN_STATUS_SRC v = src);
  ch_write_out : forall w (i : nat) v, (i < 32)%nat -> fits_u32 v ->
    ch (iowrite32 v (ds + (get_mbox_offset svf + (MBOX_OUT_MSG_BASE + 4 * Z.of_nat i))) w) =
    mkChan (<[i := v]> (ch_out (ch w))) (ch_target (ch w)) (ch_busy (ch w)) (ch_in (ch w)) (ch_rtarget (ch w));
  ch_write_target : forall w v, svf = 0 ->
    ch (iowrite32 v (ds + (get_mbox_offset svf + MBOX_FN_TARGET)) w) =
    mkChan (ch_out (ch w)) v (ch_busy (ch w)) (ch_in (ch w)) (ch_rtarget (ch w));
  ch_write_ack : forall w v i, svf = 0 -> 0 <= i < 8 ->
    ch (iowrite32 v (ds + (get_mbox_offset svf + MBOX_PF_ACK_BASE + i * MBOX_PF_ACK_STEP)) w) = ch w;
  ch_snd : forall w, ch_busy (ch w) = false -> ch_in (ch w) = None -> (svf = 0 -> ch_target (ch w) = dst) ->
    ch (iowrite32 F_MBOX_FN_CMD_SND (ds + (get_mbox_offset svf + MBOX_FN_CMD)) w) =
    mkChan (ch_out (ch w)) (ch_target (ch w)) true (Some (ch_out (ch w))) (ch_rtarget (ch w));
  ch_write_rtarget : forall w v, rvf = 0 ->
    ch (iowrite32 v (dr + (get_mbox_offset rvf + MBOX_FN_TARGET)) w) =
    mkChan (ch_out (ch w)) (ch_target (ch w)) (ch_busy (ch w)) (ch_in (ch w)) v;
  ch_read_in : forall w (i : nat) ws v, (i < 32)%nat -> ch_in (ch w) = Some ws -> ws !! i = Some v -> (rvf = 0 -> ch_rtarget (ch w) = src) ->
    ioread32 (dr + (get_mbox_offset rvf + (MBOX_IN_MSG_BASE + 4 * Z.of_nat i))) w = (v, w);
  ch_rcv : forall w, (rvf = 0 -> ch_rtarget (ch w) = src) ->
    ch (iowrite32 F_MBOX_FN_CMD_RCV (dr + (get_mbox_offset rvf + MBOX_FN_CMD)) w) =
    mkChan (ch_out (ch w)) (ch_target (ch w)) false None (ch_rtarget (ch w)) }.

(** The words of a buffer. *)
Definition words (b : bytes) : list Z := (fun i => get_at 4 (4 * i) b) <$> seq 0 32.

Lemma words_lookup b i : (i < 32)%nat -> words b !! i = Some (get_at 4 (4 * i) b).
Proof. intros H. unfold words. by rewrite list_lookup_fmap, lookup_seq_lt. Qed.

Lemma words_length b : length (words b) = 32%nat.
Proof. unfold words. by rewrite length_fmap, length_seq. Qed.
#[local] Opaque words.

Section delivery.
Context {W : Type} `{io : IoMem W} (ds svf dr rvf src dst : Z) `{C : !Channel W ds svf dr rvf src dst}.

Lemma reg_read_at dev o v (w w' : W) : ioread32 (dev + o) w = (v, w') -> qdma_reg_read dev o w = Ok (v, w').
Proof. unfold qdma_reg_read. by intros ->. Qed.

Lemma get_word_run b i : (4 * i + 4 <= length b)%nat -> get_word b i = Ok (get_at 4 (4 * i) b).
Proof. intros H. unfold get_word. by apply peek_load. Qed.

Lemma send_words_run b n : bytes_ok b -> (128 <= length b)%nat -> forall i w, (i + n <= 32)%nat -> exists w',
  send_words (W := W) ds (get_mbox_offset svf) b (MBOX_OUT_MSG_BASE + 4 * Z.of_nat i) i n w = Ok (tt, w') /\
  (ch_target (ch w') = ch_target (ch w) /\ ch_busy (ch w') = ch_busy (ch w) /\ ch_in (ch w') = ch_in (ch w)) /\
  forall j, (j < 32)%nat -> ch_out (ch w') !! j = if decide (i <= j < i + n)%nat then Some (get_at 4 (4 * j) b) else ch_out (ch w) !! j.
Proof.
  intros Hb Hl. induction n as [|n IH]; intros i w Hi; cbn [send_words].
  { exists w. split; [done|]. split; [done|]. intros j Hj. by rewrite decide_False by lia. }
  erewrite cmd_bind_run by (apply lift_run, get_word_run; lia). cstep.
  pose proof (get_range 4 (4 * i) b Hb ltac:(lia)) as Hv.
  set (w1 := iowrite32 _ _ w). assert (ch w1 = _) as E1 by (apply ch_write_out; [lia|exact Hv]).
  replace (MBOX_OUT_MSG_BASE + 4 * Z.of_nat i + MBOX_MSG_STEP) with (MBOX_OUT_MSG_BASE + 4 * Z.of_nat (S i)) by (unfold MBOX_MSG_STEP; lia).
  destruct (IH (S i) w1 ltac:(lia)) as (w' & E & Hs & Ho). exists w'. split; [exact E|].
  rewrite E1 in Hs, Ho. split; [exact Hs|]. intros j Hj. rewrite Ho by done. cbn [ch_out].
  destruct (decide (j = i)) as [-> | Hji].
  - rewrite decide_False, decide_True by lia. apply list_lookup_insert_eq. rewrite ch_words. lia.
  - rewrite list_lookup_insert_ne by done. repeat case_decide; done || lia.
Qed.

Lemma ack_run func_id w : svf = 0 -> 0 <= func_id < 256 ->
  exists w', mbox_pf_hw_clear_func_ack (W := W) ds func_id w = Ok (tt, w') /\ ch w' = ch w.
Proof.
  intros Hs Hf. unfold mbox_pf_hw_clear_func_ack. eexists. split; [reflexivity|]. rewrite <- Hs.
  assert (0 <= func_id / 32 < 8) as Hi by (Z.div_mod_to_equations; lia).
  rewrite (u32_small (get_mbox_offset svf + _ + _)); [by apply ch_write_ack|].
  rewrite Hs. unfold fits_u32, get_mbox_offset, mbox_base_pf, MBOX_PF_ACK_BASE, MBOX_PF_ACK_STEP. rewrite decide_True by done. lia.
Qed.

(** Sending over a free channel. *)
Lemma send_run b w : bytes_ok b -> (128 <= length b)%nat -> get_at 2 dst_func_id_at b < 256 ->
  (svf = 0 -> get_at 2 dst_func_id_at b = dst) -> ch_busy (ch w) = false -> ch_in (ch w) = None ->
  exists w', qdma_mbox_send (W := W) ds svf b w = Ok (QDMA_SUCCESS, w') /\ ch_in (ch w') = Some (words b).
Proof.
  intros Hb Hl Hd1 Hd Hbusy Hin. pose proof (get_range 2 dst_func_id_at b Hb ltac:(lia)) as Hd0.
  unfold qdma_mbox_send, get_dst_func_id. erewrite cmd_bind_run by (apply lift_run, peek_load; lia). cbv zeta.
  destruct (ch_send_status w) as (v & Ev & Hv).
  erewrite cmd_bind_run by exact (reg_read_at _ _ _ _ _ Ev). rewrite decide_False by (intros H; apply Hv in H; congruence).
  set (d := get_at 2 dst_func_id_at b) in *.
  assert (exists w1, (if decide (svf = 0)
    then qdma_reg_write ds (get_mbox_offset svf + MBOX_FN_TARGET) (V_MBOX_FN_TARGET_ID d) else mret tt) w = Ok (tt, w1) /\
    ch_busy (ch w1) = false /\ ch_in (ch w1) = None /\ (svf = 0 -> ch_target (ch w1) = dst)) as (w1 & E1 & Hb1 & Hi1 & Ht1).
  { case_decide as Hs; [|by exists w]. eexists. split; [reflexivity|]. rewrite ch_write_target by done.
    cbn. split; [done|]. split; [done|]. intros _. unfold V_MBOX_FN_TARGET_ID. change 0xFFF with (Z.ones 12).
    rewrite Z.land_ones, Z.mod_small by lia. by apply Hd. }
  rewrite (cmd_bind_run _ _ _ _ _ E1).
  destruct (send_words_run b 32 Hb Hl 0 w1 ltac:(lia)) as (w2 & E2 & (Ht2 & Hb2 & Hi2) & Ho2).
  change (MBOX_OUT_MSG_BASE + 4 * Z.of_nat 0) with MBOX_OUT_MSG_BASE in E2. change (Z.to_nat MBOX_MSG_REG_MAX) with 32%nat.
  rewrite (cmd_bind_run _ _ _ _ _ E2).
  assert (exists w3, (if decide (svf = 0) then mbox_pf_hw_clear_func_ack ds d else mret tt) w2 = Ok (tt, w3) /\ ch w3 = ch w2)
    as (w3 & E3 & H3).
  { case_decide as Hs; [|by exists w2]. apply ack_run; [done|lia]. }
  rewrite (cmd_bind_run _ _ _ _ _ E3). cstep. eexists. split; [reflexivity|].
  rewrite ch_snd; rewrite H3, ?Ht2, ?Hb2, ?Hi2; [|done..]. cbn [ch_in]. f_equal.
  apply list_eq. intros j. destruct (decide (j < 32)%nat).
  - rewrite Ho2, words_lookup by done. by rewrite decide_True by lia.
  - rewrite lookup_ge_None_2 by (rewrite ch_words; lia). by rewrite lookup_ge_None_2 by (rewrite words_length; lia).
Qed.

(** Receiving [n] words of a message that is the bytes [b]. *)
Lemma rcv_words_run b n : bytes_ok b -> (128 <= length b)%nat -> forall i zero buf w, (i + n <= 32)%nat -> (128 <= length buf)%nat ->
  ch_in (ch w) = Some (words b) -> (rvf = 0 -> ch_rtarget (ch w) = src) ->
  rcv_words (W := W) dr (get_mbox_offset rvf) (MBOX_IN_MSG_BASE + 4 * Z.of_nat i) i n zero buf w =
    Ok (zero && forallb (Z.eqb 0) (take n (drop i (words b))), put_bytes (4 * i) (take (4 * n) (drop (4 * i) b)) buf, w).
Proof.
  intros Hb Hl. induction n as [|n IH]; intros i zero buf w Hi Hbuf Hin Ht; cbn [rcv_words].
  { rewrite !take_0, put_nothing. cbn. by rewrite andb_true_r. }
  pose proof (words_lookup b i ltac:(lia)) as Hw.
  erewrite cmd_bind_run by (apply reg_read_at; exact (ch_read_in w i _ _ ltac:(lia) Hin Hw Ht)).
  assert (set_word buf i (get_at 4 (4 * i) b) = Ok (put_bytes (4 * i) (take 4 (drop (4 * i) b)) buf)) as Es.
  { unfold set_word. rewrite store_run by lia. cbn [mbind outcome_bind]. by rewrite set_get by (done || lia). }
  rewrite (cmd_bind_run _ _ _ _ _ (lift_run _ _ _ Es)).
  assert (length (take 4 (drop (4 * i) b)) = 4%nat) as L4 by (rewrite length_take, length_drop; lia).
  replace (MBOX_IN_MSG_BASE + 4 * Z.of_nat i + MBOX_MSG_STEP) with (MBOX_IN_MSG_BASE + 4 * Z.of_nat (S i)) by (unfold MBOX_MSG_STEP; lia).
  rewrite IH; [|lia|rewrite put_bytes_length; lia|done|done]. rewrite (drop_S _ _ _ Hw). cbn [take forallb].
  rewrite andb_assoc. replace (get_at 4 (4 * i) b =? 0) with (0 =? get_at 4 (4 * i) b) by apply Z.eqb_sym. do 3 f_equal.
  replace (4 * S i)%nat with (4 * i + length (take 4 (drop (4 * i) b)))%nat by lia. rewrite put_more by lia. f_equal.
  rewrite L4, <- drop_drop. replace (4 * S n)%nat with (4 + 4 * n)%nat by lia. by rewrite take_take_drop.
Qed.

Definition all_zero (b : bytes) : bool := forallb (Z.eqb 0) (words b).

(** Receiving the message [b]. *)
Lemma rcv_run b buf w : bytes_ok b -> (128 <= length b)%nat -> (128 <= length buf)%nat -> fits_u16 src ->
  ch_in (ch w) = Some (words b) -> exists w' buf',
  qdma_mbox_rcv (W := W) dr rvf buf w = Ok (if all_zero b then - QDMA_ERR_MBOX_ALL_ZERO_MSG else QDMA_SUCCESS, buf', w') /\
  ch_in (ch w') = None /\ ch_busy (ch w') = false /\ drop 128 buf' = drop 128 buf /\ length buf' = length buf /\
  take 128 buf' = take 128 (if decide (rvf = 0 /\ all_zero b = false) then set_at 2 src_func_id_at src b else b).
Proof.
  intros Hb Hl Hbuf Hsrc Hin. unfold qdma_mbox_rcv. cbv zeta.
  destruct (ch_rcv_status w) as (v & Ev & Hv & Hs). erewrite cmd_bind_run by apply reg_read_at, Ev.
  rewrite decide_False by (intros H; apply Hv in H; congruence).
  set (from_id := if decide (rvf = 0) then _ else 0).
  assert (exists w1, (if decide (rvf = 0) then qdma_reg_write dr (get_mbox_offset rvf + MBOX_FN_TARGET) from_id else mret tt) w = Ok (tt, w1) /\
    ch_in (ch w1) = Some (words b) /\ (rvf = 0 -> ch_rtarget (ch w1) = src) /\ (rvf = 0 -> from_id = src)) as (w1 & E1 & Hi1 & Ht1 & Hfrom).
  { subst from_id. destruct (decide (rvf = 0)) as [H0|]; [|by exists w]. specialize (Hs ltac:(congruence) H0).
    eexists. split; [reflexivity|]. rewrite ch_write_rtarget by done. done. }
  rewrite (cmd_bind_run _ _ _ _ _ E1).
  pose proof (rcv_words_run b 32 Hb Hl 0 true buf w1 ltac:(lia) Hbuf Hi1 Ht1) as E2.
  change (MBOX_IN_MSG_BASE + 4 * Z.of_nat 0) with MBOX_IN_MSG_BASE in E2. change (Z.to_nat MBOX_MSG_REG_MAX) with 32%nat.
  rewrite drop_0, (take_ge (words b)) in E2 by (rewrite words_length; done). rewrite andb_true_l in E2. fold (all_zero b) in E2.
  change (4 * 0)%nat with 0%nat in E2. rewrite drop_0 in E2. change (4 * 32)%nat with 128%nat in E2.
  rewrite (cmd_bind_run _ _ _ _ _ E2). cstep. set (w2 := iowrite32 _ _ w1).
  assert (ch w2 = _) as Ew by (by apply ch_rcv). set (buf1 := put_bytes 0 (take 128 b) buf).
  assert (length (take 128 b) = 128%nat) as L by (rewrite length_take; lia).
  assert (length buf1 = length buf) as L1 by (apply put_bytes_length; lia).
  assert (take 128 buf1 = take 128 b) as T1 by (unfold buf1; rewrite <- L at 1; apply take_put; lia).
  assert (drop 128 buf1 = drop 128 buf) as D1 by (apply drop_put; lia).
  destruct (all_zero b) eqn:Ez.
  { exists w2, buf1. split; [done|]. rewrite Ew, decide_False by (intros [_ [=]]). done. }
  unfold get_src_func_id. erewrite cmd_bind_run by (apply lift_run, peek_load; lia).
  assert (get_at 2 src_func_id_at buf1 = get_at 2 src_func_id_at b) as G by
    (rewrite <- (get_take 2 _ 128 buf1), T1, get_take by lia; done).
  destruct (decide (rvf = 0)) as [Hr|Hr].
  - rewrite (decide_True (P := rvf = 0 /\ false = false)) by done. specialize (Hfrom Hr).
    destruct (decide (from_id = get_at 2 src_func_id_at b)) as [He|He].
    + rewrite decide_False by (rewrite G; tauto). exists w2, buf1. split; [done|]. rewrite Ew, T1. do 4 (split; [done|]).
      rewrite <- Hfrom, He. rewrite set_get by (done || lia). unfold put_bytes. rewrite length_take, length_drop.
      replace (2 `min` (length b - 2))%nat with 2%nat by lia. rewrite <- drop_drop. by rewrite !take_drop.
    + rewrite decide_True by (rewrite G; tauto). exists w2, (set_at 2 src_func_id_at src buf1).
      unfold set_src_func_id. rewrite Hfrom. erewrite cmd_bind_run by (apply lift_run, store_run; lia).
      split; [reflexivity|]. rewrite Ew. do 2 (split; [done|]). rewrite drop_set, set_at_length, !take_set, T1 by lia. done.
  - rewrite (decide_False (P := rvf = 0 /\ _)) by tauto. rewrite (decide_False (P := rvf = 0 /\ _)) by tauto.
    exists w2, buf1. split; [done|]. by rewrite Ew.
Qed.

(** A message arrives.  Over a free channel, sending succeeds; the receiver then
    gets the first 128 bytes of the sender's buffer, and no more, with the id of the
    sender replaced, on a physical function, by the one the hardware reports; the rest
    of the receiver's buffer is as it was, the message is taken from the mailbox and
    the channel is free again.  A message of zeros only is taken too, but reported as
    an error. *)
Theorem message_delivered b buf w : bytes_ok b -> (128 <= length b)%nat -> (128 <= length buf)%nat ->
  fits_u16 src -> get_at 2 dst_func_id_at b < 256 -> (svf = 0 -> get_at 2 dst_func_id_at b = dst) ->
  ch_busy (ch w) = false -> ch_in (ch w) = None -> exists w1 w2 buf',
  qdma_mbox_send (W := W) ds svf b w = Ok (QDMA_SUCCESS, w1) /\
  qdma_mbox_rcv (W := W) dr rvf buf w1 = Ok (if all_zero b then - QDMA_ERR_MBOX_ALL_ZERO_MSG else QDMA_SUCCESS, buf', w2) /\
  take 128 buf' = take 128 (if decide (rvf = 0 /\ all_zero b = false) then set_at 2 src_func_id_at src b else b) /\
  drop 128 buf' = drop 128 buf /\ length buf' = length buf /\ ch_in (ch w2) = None /\ ch_busy (ch w2) = false.
Proof.
  intros Hb Hl Hbuf Hs Hd1 Hd Hbusy Hin. destruct (send_run b w Hb Hl Hd1 Hd Hbusy Hin) as (w1 & E1 & H1).
  destruct (rcv_run b buf w1 Hb Hl Hbuf Hs H1) as (w2 & buf' & E2 & ? & ? & ? & ? & ?). by exists w1, w2, buf'.
Qed.

(** When the mailbox is not ready.  Sending while the last message has not been
    acknowledged, and receiving when there is none, report the error and leave the
    device and the buffer as they are; [qdma_mbox_out_status] tells the first. *)
Theorem mailbox_not_ready b buf w : (6 <= length b)%nat ->
  (ch_busy (ch w) = true -> qdma_mbox_send (W := W) ds svf b w = Ok (- QDMA_ERR_MBOX_SEND_BUSY, w)) /\
  (ch_in (ch w) = None -> qdma_mbox_rcv (W := W) dr rvf buf w = Ok (- QDMA_ERR_MBOX_NO_MSG_IN, buf, w)) /\
  qdma_mbox_out_status (W := W) ds svf w = Ok (if ch_busy (ch w) then 1 else 0, w).
Proof.
  intros Hl. destruct (ch_send_status w) as (v & Ev & Hv). destruct (ch_rcv_status w) as (v' & Ev' & Hv' & _).
  split; [intros Hb|split; [intros Hi|]].
  - unfold qdma_mbox_send, get_dst_func_id. erewrite cmd_bind_run by (apply lift_run, peek_load; lia). cbv zeta.
    erewrite cmd_bind_run by exact (reg_read_at _ _ _ _ _ Ev). rewrite decide_True by (apply Hv, Hb). done.
  - unfold qdma_mbox_rcv. cbv zeta. erewrite cmd_bind_run by exact (reg_read_at _ _ _ _ _ Ev').
    rewrite decide_True by (apply Hv', Hi). done.
  - unfold qdma_mbox_out_status. erewrite cmd_bind_run by exact (reg_read_at _ _ _ _ _ Ev).
    destruct (ch_busy (ch w)) eqn:E; [rewrite decide_True by (by apply Hv); done|].
    rewrite decide_False; [done|]. intros H. apply Hv in H. congruence.
Qed.
End delivery.

(** ** Requests over the mailbox

    A command that reads only what is behind the header, in the first 128 bytes, gives
    the same on buffers that agree there. *)
Definition same_body (b1 b2 : bytes) : Prop :=
  (128 <= length b1)%nat /\ (128 <= length b2)%nat /\
  forall n off, (6 <= off)%nat -> (off + n <= 128)%nat -> get_at n off b1 = get_at n off b2.
Definition reads_body {A} (c : cmd bytes A) : Prop := forall b1 b2, same_body b1 b2 ->
  (exists a, c b1 = Ok (a, b1) /\ c b2 = Ok (a, b2)) \/ (exists f, c b1 = Fault f /\ c b2 = Fault f).

Lemma rb_ret {A} (a : A) : reads_body (mret a).
Proof. intros b1 b2 _. left. by exists a. Qed.
Lemma rb_fail {A} f : reads_body (fail f : cmd bytes A).
Proof. intros b1 b2 _. right. by exists f. Qed.
Lemma rb_lift {A} (x : outcome A) : reads_body (lift x).
Proof. intros b1 b2 _. destruct x as [a|f]; [left; by exists a|right; by exists f]. Qed.
Lemma rb_load n off : (6 <= off)%nat -> (off + n <= 128)%nat -> reads_body (load n off).
Proof.
  intros H6 H b1 b2 (H1 & H2 & E). left. exists (get_at n off b1). rewrite !load_run by lia. split; [done|].
  by rewrite E.
Qed.
Lemma rb_bind {A B} (c : cmd bytes A) (k : A -> cmd bytes B) :
  reads_body c -> (forall a, reads_body (k a)) -> reads_body (c ≫= k).
Proof.
  intros Hc Hk b1 b2 H. unfold mbind, cmd_bind. destruct (Hc b1 b2 H) as [(a & -> & ->)|(f & -> & ->)].
  - by apply Hk.
  - right. by exists f.
Qed.
Create HintDb body.
#[local] Hint Resolve rb_ret rb_fail rb_lift rb_load rb_bind : body.
#[local] Hint Extern 1 (_ <= _)%nat => (vm_compute; lia) : body.

Lemma rb_request op : reads_body (read_request op).
Proof.
  unfold read_request, read_fmap, read_notify, read_qctxt, read_intr, load_descq_conf, load_struct, load_bits.
  repeat case_match; repeat (apply rb_bind; [|intros]); repeat case_match; eauto with body.
Qed.

(** Bytes stay bytes. *)
Definition keeps_bytes {A} (c : cmd bytes A) : Prop := forall b a b', bytes_ok b -> c b = Ok (a, b') -> bytes_ok b'.

Lemma kb_ret {A} (a : A) : keeps_bytes (mret a).
Proof. by intros b a' b' Hb [= <- <-]. Qed.
Lemma kb_lift {A} (x : outcome A) : keeps_bytes (lift x).
Proof. intros b a b' Hb E. by apply lift_ok in E as [_ ->]. Qed.
Lemma kb_load n off : keeps_bytes (load n off).
Proof. intros b a b' Hb. unfold load. case_decide; [|done]. by intros [= <- <-]. Qed.
Lemma kb_store n off v : keeps_bytes (store n off v).
Proof. intros b a b' Hb. unfold store. case_decide; [|done]. intros [= <- <-]. by apply set_at_ok. Qed.
Lemma kb_bind {A B} (c : cmd bytes A) (k : A -> cmd bytes B) :
  keeps_bytes c -> (forall a, keeps_bytes (k a)) -> keeps_bytes (c ≫= k).
Proof. intros Hc Hk b x b' Hb E. apply cmd_bind_ok in E as (a & b1 & E1 & E2). eapply Hk, E2. eapply Hc, E1. done. Qed.
#[local] Hint Resolve kb_ret kb_lift kb_load kb_store kb_bind : body.
Lemma kb_fill off v n : keeps_bytes (fill off v n).
Proof. revert off. induction n as [|n IH]; intros off; cbn [fill]; auto with body. Qed.
Lemma kb_copy off from i n : keeps_bytes (copy off from i n).
Proof. revert off i. induction n as [|n IH]; intros off i; cbn [copy]; auto with body. Qed.
#[local] Hint Resolve kb_fill kb_copy : body.

Lemma kb_compose r func_id : keeps_bytes (fresh (op_of r) func_id ≫= fun _ => body r).
Proof.
  unfold fresh, qdma_mbox_memset, set_op, set_src_func_id. apply kb_bind; [auto with body|intros _].
  destruct r; cbn [body]; unfold set_qctxt, set_intr_ctxt, qdma_mbox_memcpy, store_bits; auto 20 with body.
Qed.

Lemma header_zero b : bytes_ok b -> (128 <= length b)%nat -> get_at 4 0 b = 0 ->
  get_at 1 op_at b = 0 /\ get_at 2 src_func_id_at b = 0.
Proof.
  intros Hb Hl. destruct b as [|b0 [|b1 [|b2 [|b3 b]]]]; [cbn in Hl; lia..|].
  do 4 (apply Forall_cons in Hb as [? Hb]). unfold is_byte, get_at in *. cbn. lia.
Qed.

Section requests.
Context {W : Type} `{io : IoMem W} (vf pf svf src dst : Z) `{C : !Channel W vf svf pf 0 src dst}.

(** C11. A request arrives.  A virtual function that composes a request in a buffer
    that holds the union and sends it reaches its physical function: from the words
    received, whatever was in that buffer before, the request is read with all its
    parameters, and its sender is the one the hardware reports, not the one the
    message claims.  The only message of zeros, the farewell of function 0, is not
    accepted. *)
Theorem request_delivered r func_id b0 buf w : svf <> 0 -> (152 <= length b0)%nat -> bytes_ok b0 ->
  fits_u16 func_id -> fits_u16 src -> valid r -> (128 <= length buf)%nat -> (func_id <> 0 \/ op_of r <> 0) ->
  ch_busy (ch w) = false -> ch_in (ch w) = None -> exists b w1 w2 buf',
  compose func_id r (Some b0) = Ok (QDMA_SUCCESS, Some b) /\
  qdma_mbox_send (W := W) vf svf b w = Ok (QDMA_SUCCESS, w1) /\
  qdma_mbox_rcv (W := W) pf 0 buf w1 = Ok (QDMA_SUCCESS, buf', w2) /\
  read_msg buf' = Ok (src, r) /\ drop 128 buf' = drop 128 buf /\ ch_in (ch w2) = None /\ ch_busy (ch w2) = false.
Proof.
  intros Hvf Hl Hb0 Hf Hs Hv Hbuf Hnz Hbusy Hin.
  destruct (compose_run r func_id b0 Hl Hf Hv) as (b & E & L & D & Eo & Es & Ef & Ed & Er).
  pose proof (kb_compose r func_id b0 tt b Hb0 E) as Hb.
  destruct (send_run vf svf pf 0 src dst b w Hb ltac:(lia) ltac:(lia) ltac:(done) Hbusy Hin) as (w1 & E1 & H1).
  destruct (rcv_run vf svf pf 0 src dst b buf w1 Hb ltac:(lia) Hbuf Hs H1) as (w2 & buf' & E2 & Hi & Hbz & Dr & Lr & Tr).
  assert (all_zero b = false) as Hz.
  { destruct (all_zero b) eqn:Ez; [exfalso|done]. unfold all_zero in Ez. rewrite forallb_forall in Ez.
    specialize (Ez (get_at 4 (4 * 0) b)). apply header_zero in Hb; [|lia|]; [lia|].
    symmetry. apply Z.eqb_eq, Ez, list_elem_of_In, (list_elem_of_lookup_2 _ 0%nat), words_lookup. lia. }
  rewrite Hz in E2, Tr. rewrite decide_True in Tr by done. exists b, w1, w2, buf'.
  split; [by rewrite compose_eq, E|]. do 2 (split; [done|]). split; [|done].
  assert (forall n off, (off + n <= 128)%nat -> get_at n off buf' = get_at n off (set_at 2 src_func_id_at src b)) as G.
  { intros n off Ho. rewrite <- (get_take n off 128 buf'), Tr, get_take by lia. done. }
  apply (read_msg_run _ (op_of r)); [lia|rewrite G, get_set_other by lia; done| |].
  - rewrite G, get_set_same by lia. by apply Z.mod_small.
  - rewrite <- Er. assert (same_body buf' b) as Hsb.
    { split; [lia|]. split; [lia|]. intros n off H6 Ho. rewrite G, get_set_other by lia. done. }
    unfold peek. by destruct (rb_request (op_of r) _ _ Hsb) as [(a & -> & ->)|(f & -> & ->)].
Qed.
End requests.

(** ** A link: two mailboxes that do what [Channel] says

    The sender is device 0, the receiver device [receiver]. *)
Section link.
Context (svf rvf src dst : Z) (Hsrc : fits_u16 src) (Hsrc12 : src < 4096).

Definition receiver : Z := 0x1000000.
Definition link : Type := { c : chan | length (ch_out c) = 32%nat }.

(** The registers, by their offset from the sender's or the receiver's mailbox. *)
Inductive mbox_reg := SStatus | SCmd | STarget | SOut (i : nat) | RStatus | RCmd | RTarget | RIn (i : nat) | Other.
Definition decode (addr : Z) : mbox_reg :=
  let s := addr - get_mbox_offset svf in
  let r := addr - receiver - get_mbox_offset rvf in
  if s =? MBOX_FN_STATUS then SStatus else if s =? MBOX_FN_CMD then SCmd else if s =? MBOX_FN_TARGET then STarget else
  if (MBOX_OUT_MSG_BASE <=? s) && (s <? MBOX_OUT_MSG_BASE + 128) then SOut (Z.to_nat ((s - MBOX_OUT_MSG_BASE) / 4)) else
  if r =? MBOX_FN_STATUS then RStatus else if r =? MBOX_FN_CMD then RCmd else if r =? MBOX_FN_TARGET then RTarget else
  if (MBOX_IN_MSG_BASE <=? r) && (r <? MBOX_IN_MSG_BASE + 128) then RIn (Z.to_nat ((r - MBOX_IN_MSG_BASE) / 4)) else Other.

Definition link_read (addr : Z) (c : chan) : Z :=
  match decode addr with
  | SStatus => if ch_busy c then F_MBOX_FN_STATUS_OUT_MSG else 0
  | RStatus => match ch_in c with Some _ => M_MBOX_FN_STATUS_IN_MSG + Z.shiftl src S_MBOX_FN_STATUS_SRC | None => 0 end
  | RIn i => match ch_in c with
             | Some ws => if decide (rvf = 0 -> ch_rtarget c = src) then default 0 (ws !! i) else 0
             | None => 0
             end
  | _ => 0
  end.
Definition link_write (addr v : Z) (c : chan) : chan :=
  match decode addr with
  | SCmd => if decide (v = F_MBOX_FN_CMD_SND /\ ch_busy c = false /\ (svf = 0 -> ch_target c = dst))
            then mkChan (ch_out c) (ch_target c) true (Some (ch_out c)) (ch_rtarget c) else c
  | STarget => mkChan (ch_out c) v (ch_busy c) (ch_in c) (ch_rtarget c)
  | SOut i => mkChan (<[i := v]> (ch_out c)) (ch_target c) (ch_busy c) (ch_in c) (ch_rtarget c)
  | RCmd => if decide (v = F_MBOX_FN_CMD_RCV) then mkChan (ch_out c) (ch_target c) false None (ch_rtarget c) else c
  | RTarget => mkChan (ch_out c) (ch_target c) (ch_busy c) (ch_in c) v
  | _ => c
  end.
Lemma link_write_words addr v c : length (ch_out c) = 32%nat -> length (ch_out (link_write addr v c)) = 32%nat.
Proof. intros H. unfold link_write. destruct (decode addr); repeat case_decide; cbn; rewrite ?length_insert; done. Qed.

#[local] Instance link_mem : IoMem link := {|
  ioread32 addr w := (link_read addr (`w), w);
  iowrite32 v addr w := exist _ (link_write addr v (`w)) (link_write_words addr v (`w) (proj2_sig w)) |}.

Lemma offset_cases x : get_mbox_offset x = 0x22400 \/ get_mbox_offset x = 0x5000.
Proof. unfold get_mbox_offset, mbox_base_pf, mbox_base_vf. case_decide; auto. Qed.

Ltac decoded := unfold decode, MBOX_FN_STATUS, MBOX_FN_CMD, MBOX_FN_TARGET, MBOX_OUT_MSG_BASE, MBOX_IN_MSG_BASE,
    MBOX_PF_ACK_BASE, MBOX_PF_ACK_STEP, receiver;
  destruct (offset_cases svf) as [-> | ->], (offset_cases rvf) as [-> | ->];
  repeat match goal with
  | |- context [?a =? ?b] => destruct (Z.eqb_spec a b); try lia
  | |- context [?a <=? ?b] => destruct (Z.leb_spec a b); try lia
  | |- context [?a <? ?b] => destruct (Z.ltb_spec a b); try lia
  end; cbn [andb]; try reflexivity; f_equal; Z.div_mod_to_equations; lia.

Lemma decode_sstatus : decode (0 + (get_mbox_offset svf + MBOX_FN_STATUS)) = SStatus.
Proof. decoded. Qed.
Lemma decode_scmd : decode (0 + (get_mbox_offset svf + MBOX_FN_CMD)) = SCmd.
Proof. decoded. Qed.
Lemma decode_starget : decode (0 + (get_mbox_offset svf + MBOX_FN_TARGET)) = STarget.
Proof. decoded. Qed.
Lemma decode_sout (i : nat) : (i < 32)%nat -> decode (0 + (get_mbox_offset svf + (MBOX_OUT_MSG_BASE + 4 * Z.of_nat i))) = SOut i.
Proof. intros H. decoded. Qed.
Lemma decode_ack i : 0 <= i < 8 -> decode (0 + (get_mbox_offset svf + MBOX_PF_ACK_BASE + i * MBOX_PF_ACK_STEP)) = Other.
Proof. intros H. decoded. Qed.
Lemma decode_rstatus : decode (receiver + (get_mbox_offset rvf + MBOX_FN_STATUS)) = RStatus.
Proof. decoded. Qed.
Lemma decode_rcmd : decode (receiver + (get_mbox_offset rvf + MBOX_FN_CMD)) = RCmd.
Proof. decoded. Qed.
Lemma decode_rtarget : decode (receiver + (get_mbox_offset rvf + MBOX_FN_TARGET)) = RTarget.
Proof. decoded. Qed.
Lemma decode_rin (i : nat) : (i < 32)%nat -> decode (receiver + (get_mbox_offset rvf + (MBOX_IN_MSG_BASE + 4 * Z.of_nat i))) = RIn i.
Proof. intros H. decoded. Qed.

Lemma src_in_status : Z.land (M_MBOX_FN_STATUS_IN_MSG + Z.shiftl src S_MBOX_FN_STATUS_SRC) M_MBOX_FN_STATUS_IN_MSG <> 0 /\
  G_MBOX_FN_STATUS_SRC (M_MBOX_FN_STATUS_IN_MSG + Z.shiftl src S_MBOX_FN_STATUS_SRC) = src.
Proof.
  unfold G_MBOX_FN_STATUS_SRC, M_MBOX_FN_STATUS_IN_MSG, S_MBOX_FN_STATUS_SRC, M_MBOX_FN_STATUS_SRC, fits_u16 in *.
  rewrite Z.shiftl_mul_pow2, Z.shiftr_div_pow2 by lia. change 0x1 with (Z.ones 1) at 2. change 0xFFF with (Z.ones 12).
  rewrite !Z.land_ones by lia. Z.div_mod_to_equations; lia.
Qed.

#[local] Instance link_channel : Channel link 0 svf receiver rvf src dst.
Proof.
  refine {| ch w := `w |}.
  - intros w. exact (proj2_sig w).
  - intros w. eexists. split; [reflexivity|]. unfold link_read. rewrite decode_sstatus. by destruct (ch_busy (`w)).
  - intros w. eexists. split; [reflexivity|]. unfold link_read. rewrite decode_rstatus.
    destruct src_in_status as [H1 H2]. destruct (ch_in (`w)); done.
  - intros w i v Hi _. cbn. unfold link_write. by rewrite decode_sout.
  - intros w v _. cbn. unfold link_write. by rewrite decode_starget.
  - intros w v i _ Hi. cbn. unfold link_write. by rewrite decode_ack.
  - intros w Hb _ Ht. cbn. unfold link_write. rewrite decode_scmd. by rewrite decide_True.
  - intros w v _. cbn. unfold link_write. by rewrite decode_rtarget.
  - intros w i ws v Hl Hi Hv Ht. cbn. unfold link_read. by rewrite decode_rin, Hi, decide_True, Hv.
  - intros w _. cbn. unfold link_write. by rewrite decode_rcmd, decide_True.
Defined.
End link.

(** ** Witnesses: function 5, a virtual one, and its physical function *)
#[local] Instance vf_pf_mem : IoMem link := link_mem 1 0 5 0.
#[local] Instance vf_pf : Channel link 0 1 receiver 0 5 0.
Proof. by apply link_channel. Defined.
Definition free_link : link := exist _ (mkChan (replicate 32 0) 0 false None 0) eq_refl.
Definition busy_link : link := exist _ (mkChan (replicate 32 0) 0 true None 0) eq_refl.
Definition hello_msg : bytes := [1; 0; 7; 0; 0; 0; 0; 0; 255; 255; 255; 255; 8] ++ replicate 115 0.

Lemma message_delivered_witness : exists w1 w2 buf',
  qdma_mbox_send 0 1 hello_msg free_link = Ok (QDMA_SUCCESS, w1) /\
  qdma_mbox_rcv receiver 0 (replicate 130 0xff) w1 = Ok (QDMA_SUCCESS, buf', w2) /\ get_at 2 src_func_id_at buf' = 5.
Proof.
  destruct (message_delivered 0 1 receiver 0 5 0 hello_msg (replicate 130 0xff) free_link) as (w1 & w2 & buf' & E1 & E2 & T & _);
    [repeat (constructor; [done|]); constructor|cbn; lia|rewrite length_replicate; lia|done|vm_compute; done|done|done|done|].
  exists w1, w2, buf'. split; [exact E1|]. change (all_zero hello_msg) with false in E2, T. split; [exact E2|].
  rewrite <- (get_take 2 _ 128 buf'), T by lia. vm_compute. reflexivity.
Defined.

Lemma mailbox_not_ready_witness :
  qdma_mbox_send 0 1 hello_msg busy_link = Ok (- QDMA_ERR_MBOX_SEND_BUSY, busy_link) /\
  qdma_mbox_rcv receiver 0 [] free_link = Ok (- QDMA_ERR_MBOX_NO_MSG_IN, [], free_link).
Proof.
  destruct (mailbox_not_ready 0 1 receiver 0 5 0 hello_msg [] busy_link) as [H _]; [cbn; lia|].
  destruct (mailbox_not_ready 0 1 receiver 0 5 0 hello_msg [] free_link) as (_ & H' & _); [cbn; lia|].
  split; [by apply H|by apply H'].
Defined.

Lemma request_delivered_witness : exists b w1 w2 buf',
  compose 7 (Hello 8 0xffffffff) (Some (replicate 152 0xff)) = Ok (QDMA_SUCCESS, Some b) /\
  qdma_mbox_send 0 1 b free_link = Ok (QDMA_SUCCESS, w1) /\
  qdma_mbox_rcv receiver 0 (replicate 128 0) w1 = Ok (QDMA_SUCCESS, buf', w2) /\
  read_msg buf' = Ok (5, Hello 8 0xffffffff).
Proof.
  destruct (request_delivered 0 receiver 1 5 0 (Hello 8 0xffffffff) 7 (replicate 152 0xff) (replicate 128 0) free_link)
    as (b & w1 & w2 & buf' & E & E1 & E2 & R & _);
    [done|rewrite length_replicate; lia|by apply Forall_replicate|done|done|done|rewrite length_replicate; lia|left; lia|done|done|].
  exists b, w1, w2, buf'. exact (conj E (conj E1 (conj E2 R))).
Defined.
