(* ===== verification/MboxPf.v ===== *)
(** * qdma_mbox_protocol.c, third part: the handler of a physical function

    [qdma_mbox_pf_rcv_msg_handler] and what it calls: it carries out the requests of
    virtual functions with the resource manager ([Resource]), the queue and interrupt
    contexts ([Context]), the global registers ([Csr]) and the register lists
    ([RegDump]), and writes the answer.  Its state has the resource manager, the
    device and the two messages, which are different objects. *)

From S2P Require Import Prelude Float64 Device Resource Fields Indirect CtxtRegs Context Csr RegTable RegDump Bytes MboxMsg.

Open Scope Z_scope.

Definition QDMA_GLOBAL_CSR_ARRAY_SZ : Z := 16.
Definition QDMA_ERR_MBOX_NUM_QUEUES : Z := 15.
Definition QDMA_ERR_MBOX_INV_QID : Z := 16.
Definition QDMA_ERR_MBOX_INV_RINGSZ : Z := 17.
Definition QDMA_ERR_MBOX_INV_BUFSZ : Z := 18.
Definition QDMA_ERR_MBOX_INV_CNTR_TH : Z := 19.
Definition QDMA_ERR_MBOX_INV_TMR_TH : Z := 20.
Definition QDMA_ERR_MBOX_INV_MSG : Z := 21.
Definition QDMA_ERR_MBOX_REG_READ_FAILED : Z := 24.

(** [enum mbox_cmpt_ctxt_type] *)
Definition QDMA_MBOX_CMPT_CTXT_ONLY : Z := 0.
Definition QDMA_MBOX_CMPT_WITH_MM : Z := 1.
Definition QDMA_MBOX_CMPT_WITH_ST : Z := 2.

(** [struct mbox_msg_qctxt] *)
Record mbox_msg_qctxt := mkQctxt {
  mq_qid_hw : Z; mq_st : Z; mq_c2h : Z; mq_cmpt_ctxt_type : Z; mq_descq_conf : mbox_descq_conf }.

(** The objects that [memset] clears. *)
Definition zero_sw : qdma_descq_sw_ctxt :=
  mkSw 0 0 0 0 0 0 0 0 0 0 0 0 0 0 0 0 0 0 0 0 0 0 0 0 0 0 0 0 0 0 0 0 0.
Definition zero_pf : qdma_descq_prefetch_ctxt := mkPf 0 0 0 0 0 0 0 0 0 0.
Definition zero_cm : qdma_descq_cmpt_ctxt :=
  mkCm 0 0 0 0 0 0 0 0 0 0 0 0 0 0 0 0 0 0 0 0 0 0 0 0 0 0 0 0 0 0.
Definition zero_in : qdma_indirect_intr_ctxt := mkIn 0 0 0 0 0 0 0 0 0 0 0 0.

(** The index of the first element [f] accepts. *)
Fixpoint csr_index (f : Z -> bool) (i : Z) (l : list Z) : option Z :=
  match l with [] => None | v :: l => if f v then Some i else csr_index f (i + 1) l end.

(** The contexts a configuration asks for; the other members are those of [c]. *)
Definition both (st c2h : Z) : bool := bool_decide (st <> 0 /\ c2h <> 0).

Definition sw_of_conf (qctxt : mbox_msg_qctxt) (rng_idx : Z) (c : qdma_descq_sw_ctxt) : qdma_descq_sw_ctxt :=
  let conf := mq_descq_conf qctxt in
  let off_st_c2h v := if both (mq_st qctxt) (mq_c2h qctxt) then 0 else v in
  {|
    sw_vec := dc_intr_id conf; sw_intr_aggr := dc_intr_aggr conf; sw_ring_bs_addr := dc_ring_bs_addr conf;
    sw_wbi_chk := off_st_c2h (dc_wbi_chk conf); sw_wbi_intvl_en := dc_wbi_intvl_en conf;
    sw_rngsz_idx := u8 rng_idx; sw_bypass := dc_en_bypass conf; sw_wbk_en := off_st_c2h (dc_wbk_en conf);
    sw_irq_en := off_st_c2h (dc_irq_en conf); sw_is_mm := u8 (Z.lnot (mq_st qctxt)); sw_mm_chn := 0;
    sw_qen := 1; sw_frcd_en := dc_forced_en conf; sw_desc_sz := dc_desc_sz conf;
    sw_fnc_id := u8 (dc_func_id conf); sw_irq_arm := off_st_c2h (dc_irq_arm conf);
    sw_pidx := sw_pidx c; sw_at := sw_at c; sw_fetch_max := sw_fetch_max c; sw_port_id := sw_port_id c;
    sw_irq_no_last := sw_irq_no_last c; sw_err := sw_err c; sw_err_wb_sent := sw_err_wb_sent c;
    sw_irq_req := sw_irq_req c; sw_mrkr_dis := sw_mrkr_dis c; sw_pasid_en := sw_pasid_en c;
    sw_dis_intr_on_vf := sw_dis_intr_on_vf c; sw_virtio_en := sw_virtio_en c;
    sw_pack_byp_out := sw_pack_byp_out c; sw_irq_byp := sw_irq_byp c; sw_host_id := sw_host_id c;
    sw_pasid := sw_pasid c; sw_virtio_dsc_base := sw_virtio_dsc_base c |}.

Definition pf_of_conf (qctxt : mbox_msg_qctxt) (buf_idx : Z) (c : qdma_descq_prefetch_ctxt) : qdma_descq_prefetch_ctxt :=
  let conf := mq_descq_conf qctxt in
  {|
    pf_valid := 1; pf_bypass := dc_en_bypass_prefetch conf; pf_bufsz_idx := u8 buf_idx;
    pf_pfch_en := dc_pfch_en conf; pf_sw_crdt := pf_sw_crdt c; pf_port_id := pf_port_id c;
    pf_var_desc := pf_var_desc c; pf_num_pftch := pf_num_pftch c; pf_err := pf_err c; pf_pfch := pf_pfch c |}.

Definition cm_of_conf (qctxt : mbox_msg_qctxt) (cntr_idx tmr_idx rng_idx : Z) (c : qdma_descq_cmpt_ctxt) : qdma_descq_cmpt_ctxt :=
  let conf := mq_descq_conf qctxt in
  {|
    cm_bs_addr := dc_cmpt_ring_bs_addr conf; cm_en_stat_desc := dc_cmpl_stat_en conf;
    cm_en_int := dc_cmpt_int_en conf; cm_trig_mode := dc_triggermode conf; cm_fnc_id := u8 (dc_func_id conf);
    cm_timer_idx := u8 tmr_idx; cm_counter_idx := u8 cntr_idx; cm_color := 1;
    cm_ringsz_idx := u8 rng_idx; cm_desc_sz := dc_cmpt_desc_sz conf; cm_valid := 1;
    cm_ovf_chk_dis := dc_dis_overflow_check conf; cm_vec := dc_intr_id conf; cm_int_aggr := dc_intr_aggr conf;
    cm_pidx := cm_pidx c; cm_cidx := cm_cidx c; cm_in_st := cm_in_st c; cm_err := cm_err c;
    cm_user_trig_pend := cm_user_trig_pend c; cm_timer_running := cm_timer_running c;
    cm_full_upd := cm_full_upd c; cm_at := cm_at c; cm_dis_intr_on_vf := cm_dis_intr_on_vf c; cm_vio := cm_vio c;
    cm_dir_c2h := cm_dir_c2h c; cm_host_id := cm_host_id c; cm_pasid := cm_pasid c;
    cm_pasid_en := cm_pasid_en c; cm_vio_eop := cm_vio_eop c; cm_sh_cmpt := cm_sh_cmpt c |}.

(** Where further members of the messages lie. *)
Notation fmap_at := 20%nat.
Notation sw_ctxt_at := 24%nat.
Notation hw_ctxt_at := 80%nat.
Notation cr_ctxt_at := 88%nat.
Notation pfetch_ctxt_at := 92%nat.
Notation cmpt_ctxt_at := 104%nat.
Notation descq_conf_func_id_at := 36%nat.
Notation ictxt_at := 16%nat.
Notation bufsz_at := 38%nat.
Notation timer_cnt_at := 70%nat.
Notation cnt_thres_at := 86%nat.

Section code.
Context {W : Type} `{io : IoMem W}.

(** ** Looking up sizes and thresholds

    The status and the index.  [err]: the code when the value is not in the array. *)
Definition csr_array : option (list Z) := Some (replicate 16 0).
Definition find_csr (dev : Z) (csr_type : qdma_global_csr_type) (f : Z -> bool) (err : Z) : cmd W (Z * option Z) :=
  '(rv, vals) ← eqdma_global_csr_conf (Some dev) 0 QDMA_GLOBAL_CSR_ARRAY_SZ csr_array csr_type QDMA_HW_ACCESS_READ;
  if decide (rv <> 0) then mret (rv, None) else
  match csr_index f 0 (default [] vals) with
  | Some i => mret (QDMA_SUCCESS, Some i)
  | None => mret (- err, None)
  end.

Definition get_ring_idx (dev ring_sz : Z) : cmd W (Z * option Z) :=
  find_csr dev QDMA_CSR_RING_SZ (fun v => ring_sz =? u32 (v - 1)) QDMA_ERR_MBOX_INV_RINGSZ.
Definition get_buf_idx (dev buf_sz : Z) : cmd W (Z * option Z) :=
  find_csr dev QDMA_CSR_BUF_SZ (fun v => v =? buf_sz) QDMA_ERR_MBOX_INV_BUFSZ.
Definition get_cntr_idx (dev cntr_val : Z) : cmd W (Z * option Z) :=
  find_csr dev QDMA_CSR_CNT_TH (fun v => v =? cntr_val) QDMA_ERR_MBOX_INV_CNTR_TH.
Definition get_tmr_idx (dev tmr_val : Z) : cmd W (Z * option Z) :=
  find_csr dev QDMA_CSR_TIMER_CNT (fun v => v =? tmr_val) QDMA_ERR_MBOX_INV_TMR_TH.

(** ** Composing contexts

    The status and the caller's context. *)
Definition mbox_compose_sw_context (dev : Z) (qctxt : mbox_msg_qctxt) (sw_ctxt : qdma_descq_sw_ctxt) :
    cmd W (Z * qdma_descq_sw_ctxt) :=
  '(rv, rng_idx) ← get_ring_idx dev (dc_ringsz (mq_descq_conf qctxt));
  if decide (rv < 0) then mret (rv, sw_ctxt) else
  mret (QDMA_SUCCESS, sw_of_conf qctxt (default 0 rng_idx) sw_ctxt).

Definition mbox_compose_prefetch_context (dev : Z) (qctxt : mbox_msg_qctxt) (pfetch_ctxt : qdma_descq_prefetch_ctxt) :
    cmd W (Z * qdma_descq_prefetch_ctxt) :=
  '(rv, buf_idx) ← get_buf_idx dev (dc_bufsz (mq_descq_conf qctxt));
  if decide (rv < 0) then mret (rv, pfetch_ctxt) else
  mret (QDMA_SUCCESS, pf_of_conf qctxt (default 0 buf_idx) pfetch_ctxt).

Definition mbox_compose_cmpt_context (dev : Z) (qctxt : mbox_msg_qctxt) (cmpt_ctxt : qdma_descq_cmpt_ctxt) :
    cmd W (Z * qdma_descq_cmpt_ctxt) :=
  let conf := mq_descq_conf qctxt in
  '(rv, cntr_idx) ← get_cntr_idx dev (dc_cnt_thres conf);
  if decide (rv < 0) then mret (rv, cmpt_ctxt) else
  '(rv, tmr_idx) ← get_tmr_idx dev (dc_timer_thres conf);
  if decide (rv < 0) then mret (rv, cmpt_ctxt) else
  '(rv, rng_idx) ← get_ring_idx dev (dc_cmpt_ringsz conf);
  if decide (rv < 0) then mret (rv, cmpt_ctxt) else
  mret (QDMA_SUCCESS, cm_of_conf qctxt (default 0 cntr_idx) (default 0 tmr_idx) (default 0 rng_idx) cmpt_ctxt).

(** ** State *)
Record pf_state := mkPfState { ps_rm : rm_state; ps_dev : W; ps_rcv : bytes; ps_resp : bytes }.
Notation pcmd := (cmd pf_state).

Definition on_rm {A} (c : rm A) : pcmd A := fun s =>
  match c (ps_rm s) with
  | Ok (a, r) => Ok (a, mkPfState r (ps_dev s) (ps_rcv s) (ps_resp s))
  | Fault f => Fault f
  end.
Definition on_hw {A} (c : cmd W A) : pcmd A := fun s =>
  match c (ps_dev s) with
  | Ok (a, w) => Ok (a, mkPfState (ps_rm s) w (ps_rcv s) (ps_resp s))
  | Fault f => Fault f
  end.
Definition on_rcv {A} (c : cmd bytes A) : pcmd A := fun s =>
  match c (ps_rcv s) with
  | Ok (a, b) => Ok (a, mkPfState (ps_rm s) (ps_dev s) b (ps_resp s))
  | Fault f => Fault f
  end.
Definition on_resp {A} (c : cmd bytes A) : pcmd A := fun s =>
  match c (ps_resp s) with
  | Ok (a, b) => Ok (a, mkPfState (ps_rm s) (ps_dev s) (ps_rcv s) b)
  | Fault f => Fault f
  end.

(** The status of a context access. *)
Definition status {A} (c : cmd W (Z * A)) : pcmd Z := '(rv, _) ← on_hw c; mret rv.
(** [rv = c; if (rv < 0) return rv; k] *)
Definition check (c k : pcmd Z) : pcmd Z := rv ← c; if decide (rv < 0) then mret rv else k.
(** A step that is taken only if [b]. *)
Definition step_when (b : bool) (c : pcmd Z) : pcmd Z := if b then c else mret QDMA_SUCCESS.

(** ** Queue contexts *)
Definition with_cmpt (ty : Z) : bool := bool_decide (ty = QDMA_MBOX_CMPT_WITH_MM \/ ty = QDMA_MBOX_CMPT_WITH_ST).

(** Clearing and invalidating differ in the access type only. *)
Definition all_queue_contexts (t : qdma_hw_access_type) (dev dma_device_index func_id qid_hw st c2h ty : Z) : pcmd Z :=
  if decide (ty = QDMA_MBOX_CMPT_CTXT_ONLY) then
    check (status (eqdma_cmpt_ctx_conf (Some dev) qid_hw None t)) (mret QDMA_SUCCESS)
  else
    '(rv, _) ← on_rm (qdma_dev_qinfo_get dma_device_index func_id);
    if decide (rv < 0) then mret rv else
    q_range ← on_rm (qdma_dev_is_queue_in_range dma_device_index func_id qid_hw);
    match q_range with
    | QDMA_DEV_Q_OUT_OF_RANGE => mret rv
    | QDMA_DEV_Q_IN_RANGE =>
        check (status (eqdma_sw_ctx_conf (Some dev) c2h qid_hw None t))
        (check (status (eqdma_hw_ctx_conf (Some dev) c2h qid_hw None t))
        (check (status (eqdma_credit_ctx_conf (Some dev) c2h qid_hw None t))
        (check (step_when (both st c2h) (status (eqdma_pfetch_ctx_conf (Some dev) qid_hw None t)))
        (check (step_when (with_cmpt ty) (status (eqdma_cmpt_ctx_conf (Some dev) qid_hw None t)))
        (mret QDMA_SUCCESS)))))
    end.

Definition mbox_clear_queue_contexts := all_queue_contexts QDMA_HW_ACCESS_CLEAR.
Definition mbox_invalidate_queue_contexts := all_queue_contexts QDMA_HW_ACCESS_INVALIDATE.

Definition mbox_write_queue_contexts (dev dma_device_index : Z) (qctxt : mbox_msg_qctxt) : pcmd Z :=
  let qid_hw := mq_qid_hw qctxt in
  let ty := mq_cmpt_ctxt_type qctxt in
  let func_id := dc_func_id (mq_descq_conf qctxt) in
  '(rv, _) ← on_rm (qdma_dev_qinfo_get dma_device_index func_id);
  if decide (rv < 0) then mret rv else
  q_range ← on_rm (qdma_dev_is_queue_in_range dma_device_index func_id qid_hw);
  match q_range with
  | QDMA_DEV_Q_OUT_OF_RANGE => mret rv
  | QDMA_DEV_Q_IN_RANGE =>
      if decide (ty = QDMA_MBOX_CMPT_CTXT_ONLY) then
        '(rv, cmpt_ctxt) ← on_hw (mbox_compose_cmpt_context dev qctxt zero_cm);
        if decide (rv < 0) then mret rv else
        check (status (eqdma_cmpt_ctx_conf (Some dev) qid_hw None QDMA_HW_ACCESS_CLEAR))
        (check (status (eqdma_cmpt_ctx_conf (Some dev) qid_hw (Some cmpt_ctxt) QDMA_HW_ACCESS_WRITE))
        (mret QDMA_SUCCESS))
      else
        '(rv, sw_ctxt) ← on_hw (mbox_compose_sw_context dev qctxt zero_sw);
        if decide (rv < 0) then mret rv else
        '(rv, pfetch_ctxt) ← (if both (mq_st qctxt) (mq_c2h qctxt)
                              then on_hw (mbox_compose_prefetch_context dev qctxt zero_pf)
                              else mret (QDMA_SUCCESS, zero_pf));
        if decide (rv < 0) then mret rv else
        '(rv, cmpt_ctxt) ← (if with_cmpt ty then on_hw (mbox_compose_cmpt_context dev qctxt zero_cm)
                            else mret (QDMA_SUCCESS, zero_cm));
        if decide (rv < 0) then mret rv else
        check (mbox_clear_queue_contexts dev dma_device_index func_id qid_hw (mq_st qctxt) (mq_c2h qctxt) ty)
        (check (status (eqdma_sw_ctx_conf (Some dev) (mq_c2h qctxt) qid_hw (Some sw_ctxt) QDMA_HW_ACCESS_WRITE))
        (check (step_when (both (mq_st qctxt) (mq_c2h qctxt))
                  (status (eqdma_pfetch_ctx_conf (Some dev) qid_hw (Some pfetch_ctxt) QDMA_HW_ACCESS_WRITE)))
        (check (step_when (with_cmpt ty)
                  (status (eqdma_cmpt_ctx_conf (Some dev) qid_hw (Some cmpt_ctxt) QDMA_HW_ACCESS_WRITE)))
        (mret QDMA_SUCCESS))))
  end.

(** *** Reading, into the answer

    The members of the contexts with their sizes; [None] is padding. *)
Definition sw_members (c : qdma_descq_sw_ctxt) : list (nat * option Z) :=
  [(8, Some (sw_ring_bs_addr c)); (2, Some (sw_vec c)); (2, Some (sw_pidx c)); (1, Some (sw_irq_arm c));
   (1, Some (sw_fnc_id c)); (1, Some (sw_qen c)); (1, Some (sw_frcd_en c)); (1, Some (sw_wbi_chk c));
   (1, Some (sw_wbi_intvl_en c)); (1, Some (sw_at c)); (1, Some (sw_fetch_max c)); (1, Some (sw_rngsz_idx c));
   (1, Some (sw_desc_sz c)); (1, Some (sw_bypass c)); (1, Some (sw_mm_chn c)); (1, Some (sw_wbk_en c));
   (1, Some (sw_irq_en c)); (1, Some (sw_port_id c)); (1, Some (sw_irq_no_last c)); (1, Some (sw_err c));
   (1, Some (sw_err_wb_sent c)); (1, Some (sw_irq_req c)); (1, Some (sw_mrkr_dis c)); (1, Some (sw_is_mm c));
   (1, Some (sw_intr_aggr c)); (1, Some (sw_pasid_en c)); (1, Some (sw_dis_intr_on_vf c));
   (1, Some (sw_virtio_en c)); (1, Some (sw_pack_byp_out c)); (1, Some (sw_irq_byp c));
   (1, Some (sw_host_id c)); (4, Some (sw_pasid c)); (4, None); (8, Some (sw_virtio_dsc_base c))]%nat.
Definition hw_members (c : qdma_descq_hw_ctxt) : list (nat * option Z) :=
  [(2, Some (hw_cidx c)); (2, Some (hw_crd_use c)); (1, Some (hw_dsc_pend c)); (1, Some (hw_idl_stp_b c));
   (1, Some (hw_evt_pnd c)); (1, Some (hw_fetch_pnd c))]%nat.
Definition cr_members (c : qdma_descq_credit_ctxt) : list (nat * option Z) := [(4, Some (cr_credit c))]%nat.
Definition fm_members (c : qdma_fmap_cfg) : list (nat * option Z) := [(2, Some (fm_qbase c)); (2, Some (fm_qmax c))]%nat.
Definition pf_members (c : qdma_descq_prefetch_ctxt) : list (nat * option Z) :=
  [(2, Some (pf_sw_crdt c)); (1, Some (pf_bypass c)); (1, Some (pf_bufsz_idx c)); (1, Some (pf_port_id c));
   (1, Some (pf_var_desc c)); (2, Some (pf_num_pftch c)); (1, Some (pf_err c)); (1, Some (pf_pfch_en c));
   (1, Some (pf_pfch c)); (1, Some (pf_valid c))]%nat.
Definition cm_members (c : qdma_descq_cmpt_ctxt) : list (nat * option Z) :=
  [(8, Some (cm_bs_addr c)); (2, Some (cm_vec c)); (2, Some (cm_pidx c)); (2, Some (cm_cidx c));
   (1, Some (cm_en_stat_desc c)); (1, Some (cm_en_int c)); (1, Some (cm_trig_mode c)); (1, Some (cm_fnc_id c));
   (1, Some (cm_counter_idx c)); (1, Some (cm_timer_idx c)); (1, Some (cm_in_st c)); (1, Some (cm_color c));
   (1, Some (cm_ringsz_idx c)); (1, Some (cm_desc_sz c)); (1, Some (cm_valid c)); (1, Some (cm_err c));
   (1, Some (cm_user_trig_pend c)); (1, Some (cm_timer_running c)); (1, Some (cm_full_upd c));
   (1, Some (cm_ovf_chk_dis c)); (1, Some (cm_at c)); (1, Some (cm_int_aggr c)); (1, Some (cm_dis_intr_on_vf c));
   (1, Some (cm_vio c)); (1, Some (cm_dir_c2h c)); (1, Some (cm_host_id c)); (4, Some (cm_pasid c));
   (1, Some (cm_pasid_en c)); (1, Some (cm_vio_eop c)); (1, Some (cm_sh_cmpt c))]%nat.
Definition in_members (c : qdma_indirect_intr_ctxt) : list (nat * option Z) :=
  [(8, Some (in_baddr_4k c)); (2, Some (in_vec c)); (2, Some (in_pidx c)); (1, Some (in_valid c));
   (1, Some (in_int_st c)); (1, Some (in_color c)); (1, Some (in_page_size c)); (1, Some (in_at c));
   (1, Some (in_host_id c)); (2, None); (4, Some (in_pasid c)); (1, Some (in_pasid_en c)); (1, None);
   (2, Some (in_func_id c))]%nat.

(** Reads a context into the answer at [off]; on an error the object stays as it is. *)
Definition read_into {C} (off : nat) (members : C -> list (nat * option Z)) (c : cmd W (Z * option C)) : pcmd Z :=
  '(rv, ctxt) ← on_hw c;
  if decide (rv < 0) then mret rv else
  _ ← (match ctxt with Some ctxt => on_resp (store_members off (members ctxt)) | None => mret tt end);
  mret rv.


Definition mbox_read_queue_contexts (dev func_id qid_hw st c2h ty : Z) : pcmd Z :=
  let t := QDMA_HW_ACCESS_READ in
  check (read_into sw_ctxt_at sw_members (eqdma_sw_ctx_conf (Some dev) c2h qid_hw (Some zero_sw) t))
  (check (read_into hw_ctxt_at hw_members (eqdma_hw_ctx_conf (Some dev) c2h qid_hw (Some (mkHwCtxt 0 0 0 0 0 0)) t))
  (check (read_into cr_ctxt_at cr_members (eqdma_credit_ctx_conf (Some dev) c2h qid_hw (Some (mkCr 0)) t))
  (check (read_into fmap_at fm_members (eqdma_fmap_conf (Some dev) func_id (Some (mkFm 0 0)) t))
  (check (step_when (both st c2h)
            (read_into pfetch_ctxt_at pf_members (eqdma_pfetch_ctx_conf (Some dev) qid_hw (Some zero_pf) t)))
  (check (step_when (with_cmpt ty)
            (read_into cmpt_ctxt_at cm_members (eqdma_cmpt_ctx_conf (Some dev) qid_hw (Some zero_cm) t)))
  (mret QDMA_SUCCESS)))))).

(** ** The handler *)

Definition q_type_of (v : Z) : q_type :=
  if v =? 0 then QDMA_DEV_Q_TYPE_H2C else if v =? 1 then QDMA_DEV_Q_TYPE_C2H else
  if v =? 2 then QDMA_DEV_Q_TYPE_CMPT else Q_TYPE_MAX.

(** [exit_func]: the answer's header. *)
Definition exit_func (func_id rv ret : Z) : pcmd Z :=
  op ← on_rcv get_op;
  _ ← on_resp (set_op (op + MBOX_MSG_OP_RSP_OFFSET));
  src ← on_rcv get_src_func_id;
  _ ← on_resp (set_dst_func_id src);
  _ ← on_resp (set_src_func_id func_id);
  _ ← on_resp (set_status rv);
  mret ret.

Definition fmap_write (dev func_id : Z) (cfg : qdma_fmap_cfg) : pcmd Z :=
  status (eqdma_fmap_conf (Some dev) func_id (Some cfg) QDMA_HW_ACCESS_WRITE).

(** [MBOX_OP_VF_BYE], [MBOX_OP_PF_RESET_VF_BYE]; each case returns its [rv]. *)
Definition do_bye (dev idx : Z) : pcmd Z :=
  src ← on_rcv get_src_func_id;
  rv ← fmap_write dev src (mkFm 0 0);
  _ ← on_rm (qdma_dev_entry_destroy idx src);
  mret rv.

Definition dev_cap_bytes (a : qdma_dev_attributes) : list (nat * option Z) :=
  [(1, Some (num_pfs a)); (1, None); (2, Some (num_qs a));
   (1, Some (pack [1; 1; 1; 1; 1; 1; 2]%Z
      [flr_present a; st_en a; mm_en a; mm_cmpt_en a; mailbox_en a; debug_mode a; desc_eng_mode a]));
   (1, Some (mm_channel_max a));
   (1, Some (pack [1; 1; 1; 1; 1; 1; 1; 1]%Z
      [qid2vec_ctx a; cmpt_ovf_chk_dis a; mailbox_intr a; sw_desc_64b a; cmpt_desc_64b a; dynamic_bar a;
       legacy_intr a; cmpt_trig_count_timer a]))]%nat.

(** [qdma_dev_qinfo_get(..., &fmap->qbase, &fmap->qmax)] *)
Definition qinfo_get (idx src : Z) (put : cmd bytes unit -> pcmd unit) : pcmd Z :=
  '(rv, e) ← on_rm (qdma_dev_qinfo_get idx src);
  _ ← (match e with
       | Some e => put (_ ← store 4 fmap_qbase_at (re_qbase e); store 4 fmap_qmax_at (re_total_q e))
       | None => mret tt
       end);
  mret rv.

Definition do_hello (dev idx : Z) : pcmd Z :=
  src ← on_rcv get_src_func_id;
  rv ← qinfo_get idx src on_rcv;
  rv ← (if decide (rv < 0) then on_rm (qdma_dev_entry_create idx src) else mret rv);
  _ ← (if decide (rv = 0) then
         qbase ← on_rcv (load 4 fmap_qbase_at);
         _ ← on_resp (store 4 fmap_qbase_at qbase);
         qmax ← on_rcv (load 4 fmap_qmax_at);
         _ ← on_resp (store 4 fmap_qmax_at qmax);
         _ ← on_resp (store 4 hello_dma_device_index_at idx);
         a ← on_hw (dev_cap_of dev);
         on_resp (store_members hello_dev_cap_at (dev_cap_bytes a))
       else mret tt);
  _ ← fmap_write dev src (mkFm 0 0);
  mret rv.

(** [None]: the handler returns without an answer. *)
Definition do_fmap (dev : Z) : pcmd Z :=
  src ← on_rcv get_src_func_id;
  qbase ← on_rcv (load 4 fmap_qbase_at);
  qmax ← on_rcv (load 4 fmap_qmax_at);
  fmap_write dev src (mkFm (u16 qbase) (u16 qmax)).

(** The arrays into the answer, the last three only if the last access succeeded. *)
Fixpoint put_csr (rv : Z) (ringsz bufsz tmr_th cntr_th : list Z) (i : nat) (n : nat) : pcmd unit :=
  match n with
  | O => mret tt
  | S n =>
      r ← lift (aget ringsz (Z.of_nat i));
      _ ← on_resp (store 2 (csr_info_at + 2 * i) (Z.land r 0xFFFF));
      _ ← (if decide (rv = 0) then
             b ← lift (aget bufsz (Z.of_nat i));
             _ ← on_resp (store 2 (bufsz_at + 2 * i) (Z.land b 0xFFFF));
             t ← lift (aget tmr_th (Z.of_nat i));
             _ ← on_resp (store 1 (timer_cnt_at + i) (Z.land t 0xFF));
             c ← lift (aget cntr_th (Z.of_nat i));
             on_resp (store 1 (cnt_thres_at + i) (Z.land c 0xFF))
           else mret tt);
      put_csr rv ringsz bufsz tmr_th cntr_th (S i) n
  end.

Definition read_csr (dev : Z) (t : qdma_global_csr_type) : pcmd (Z * list Z) :=
  '(rv, vals) ← on_hw (eqdma_global_csr_conf (Some dev) 0 QDMA_GLOBAL_CSR_ARRAY_SZ csr_array t QDMA_HW_ACCESS_READ);
  mret (rv, default [] vals).
(** [rv < 0 && rv != -QDMA_ERR_HWACC_FEATURE_NOT_SUPPORTED] *)
Definition fails (rv : Z) : bool := (rv <? 0) && negb (rv =? - QDMA_ERR_HWACC_FEATURE_NOT_SUPPORTED).

Definition do_csr (dev : Z) : pcmd Z :=
  let zeros := replicate 16 0 in
  '(rv, ringsz) ← read_csr dev QDMA_CSR_RING_SZ;
  if decide (rv < 0) then mret rv else
  dev_cap ← on_hw (dev_cap_of dev);
  '(rv, bufsz) ← (if nonzero (st_en dev_cap) then read_csr dev QDMA_CSR_BUF_SZ else mret (rv, zeros));
  if fails rv then mret rv else
  let cmpt := nonzero (st_en dev_cap) || nonzero (mm_cmpt_en dev_cap) in
  '(rv, tmr_th) ← (if cmpt then read_csr dev QDMA_CSR_TIMER_CNT else mret (rv, zeros));
  if fails rv then mret rv else
  '(rv, cntr_th) ← (if cmpt then read_csr dev QDMA_CSR_CNT_TH else mret (rv, zeros));
  if fails rv then mret rv else
  _ ← put_csr rv ringsz bufsz tmr_th cntr_th 0 16;
  mret (if decide (rv = - QDMA_ERR_HWACC_FEATURE_NOT_SUPPORTED) then QDMA_SUCCESS else rv).

Definition do_qreq (dev idx : Z) : pcmd Z :=
  src ← on_rcv get_src_func_id;
  qmax ← on_rcv (load 4 fmap_qmax_at);
  qbase ← on_rcv (load 4 fmap_qbase_at);
  '(rv, qbase) ← on_rm (qdma_dev_update idx src qmax (s32 qbase));
  _ ← on_rcv (store 4 fmap_qbase_at qbase);
  rv ← (if decide (rv = 0) then qinfo_get idx src on_resp else mret rv);
  if decide (rv < 0) then mret (- QDMA_ERR_MBOX_NUM_QUEUES) else
  _ ← fmap_write dev src (mkFm 0 0);
  mret rv.

Definition do_notify (idx : Z) (op : Z -> Z -> q_type -> rm Z) : pcmd Z :=
  src ← on_rcv get_src_func_id;
  qid_hw ← on_rcv (load 2 qid_hw_at);
  q_range ← on_rm (qdma_dev_is_queue_in_range idx src qid_hw);
  match q_range with
  | QDMA_DEV_Q_OUT_OF_RANGE => mret (- QDMA_ERR_MBOX_INV_QID)
  | QDMA_DEV_Q_IN_RANGE => t ← on_rcv (load 4 q_type_at); on_rm (op idx src (q_type_of t))
  end.

Definition put_count (idx : Z) (t : q_type) (off : nat) : pcmd Z :=
  src ← on_rcv get_src_func_id;
  rv ← on_rm (qdma_get_device_active_queue_count idx src t);
  _ ← on_resp (store 4 off rv);
  mret rv.
Definition do_qcnt (idx : Z) : pcmd Z :=
  _ ← put_count idx QDMA_DEV_Q_TYPE_H2C qcnt_h2c_at;
  _ ← put_count idx QDMA_DEV_Q_TYPE_C2H qcnt_c2h_at;
  put_count idx QDMA_DEV_Q_TYPE_CMPT qcnt_cmpt_at.

(** *** Interrupt contexts

    The loops over the rings: the arrays of the message have one element, and an
    access to a second one is outside them. *)
Definition ring_index (i : Z) : pcmd Z :=
  if decide (i < QDMA_NUM_DATA_VEC_FOR_INTR_CXT) then on_rcv (load 4 12) else fail OutOfBounds.
Definition note_error (rv : Z) : pcmd unit := if decide (rv < 0) then on_resp (set_status rv) else mret tt.

Fixpoint for_rings (f : Z -> Z -> pcmd Z) (i : Z) (n : nat) (rv : Z) : pcmd Z :=
  match n with
  | O => mret rv
  | S n =>
      ring ← ring_index i;
      rv ← f i ring;
      _ ← note_error rv;
      for_rings f (i + 1) n rv
  end.
Definition do_rings (f : Z -> Z -> pcmd Z) : pcmd Z :=
  num_rings ← on_rcv (load 1 intr_ctxt_at);
  for_rings f 0 (Z.to_nat num_rings) QDMA_SUCCESS.

Definition intr_conf (dev ring : Z) (c : option qdma_indirect_intr_ctxt) (t : qdma_hw_access_type) : pcmd Z :=
  status (eqdma_indirect_intr_ctx_conf (Some dev) ring c t).
Definition intr_write (dev _i ring : Z) : pcmd Z :=
  ctxt ← on_rcv (l ← load_struct intr_ctxt_layout ictxt_at; lift (intr_ctxt_of l));
  rv ← intr_conf dev ring None QDMA_HW_ACCESS_CLEAR;
  _ ← note_error rv;
  intr_conf dev ring (Some ctxt) QDMA_HW_ACCESS_WRITE.
Definition intr_read (dev _i ring : Z) : pcmd Z :=
  read_into ictxt_at in_members (eqdma_indirect_intr_ctx_conf (Some dev) ring (Some zero_in) QDMA_HW_ACCESS_READ).
Definition intr_clear (dev _i ring : Z) : pcmd Z := intr_conf dev ring None QDMA_HW_ACCESS_CLEAR.
Definition intr_invalidate (dev _i ring : Z) : pcmd Z := intr_conf dev ring None QDMA_HW_ACCESS_INVALIDATE.

(** *** Queue contexts *)
Definition do_qctxt (f : Z -> Z -> Z -> Z -> Z -> pcmd Z) : pcmd Z :=
  src ← on_rcv get_src_func_id;
  qid_hw ← on_rcv (load 2 qid_hw_at);
  st ← on_rcv (load_bits 1 qctxt_bits_at 0 1);
  c2h ← on_rcv (load_bits 1 qctxt_bits_at 1 1);
  ty ← on_rcv (load_bits 1 qctxt_bits_at 2 2);
  f src qid_hw st c2h ty.
Definition do_qctxt_write (dev idx : Z) : pcmd Z :=
  do_qctxt (fun src qid_hw st c2h ty =>
    _ ← on_rcv (store 2 descq_conf_func_id_at src);
    conf ← on_rcv load_descq_conf;
    mbox_write_queue_contexts dev idx (mkQctxt qid_hw st c2h ty conf)).

(** *** Register lists *)
Fixpoint load_regs (off n : nat) : cmd bytes (list qdma_reg_data) :=
  match n with
  | O => mret []
  | S n => a ← load 4 off; v ← load 4 (off + 4); l ← load_regs (off + 8) n; mret (mkRegData a v :: l)
  end.
Fixpoint store_regs (off : nat) (l : list qdma_reg_data) : cmd bytes unit :=
  match l with
  | [] => mret tt
  | r :: l => _ ← store 4 off (reg_addr r); _ ← store 4 (off + 4) (reg_val r); store_regs (off + 8) l
  end.

Definition do_reg_list (dev : Z) : pcmd Z :=
  group_num ← on_rcv (load 2 group_num_at);
  regs ← on_resp (load_regs reg_list_at (Z.to_nat QDMA_MAX_REGISTER_DUMP));
  '(rv, num_regs, regs) ← on_hw (eqdma_read_reg_list (Some dev) 1 group_num (Some regs));
  _ ← (match num_regs with Some n => on_resp (store 2 num_regs_at n) | None => mret tt end);
  _ ← (match regs with Some regs => on_resp (store_regs reg_list_at regs) | None => mret tt end);
  num_regs ← on_resp (load 2 num_regs_at);
  mret (if decide (rv < 0 \/ num_regs = 0) then - QDMA_ERR_MBOX_REG_READ_FAILED else rv).

(** [rcv]: whether [rcv_msg] is not null. *)
Definition qdma_mbox_pf_rcv_msg_handler (dev dma_device_index func_id : Z) (rcv : bool) : pcmd Z :=
  if negb rcv then mret (- QDMA_ERR_INV_PARAM) else
  let idx := dma_device_index in
  let answer (ret : Z) (c : pcmd Z) : pcmd Z := rv ← c; exit_func func_id rv ret in
  op ← on_rcv get_op;
  if op =? MBOX_OP_VF_BYE then answer QDMA_MBOX_VF_OFFLINE (do_bye dev idx) else
  if op =? MBOX_OP_PF_RESET_VF_BYE then answer QDMA_MBOX_VF_RESET_BYE (do_bye dev idx) else
  if op =? MBOX_OP_HELLO then answer QDMA_MBOX_VF_ONLINE (do_hello dev idx) else
  if op =? MBOX_OP_FMAP then rv ← do_fmap dev; if decide (rv < 0) then mret rv else exit_func func_id rv 0 else
  if op =? MBOX_OP_CSR then answer 0 (do_csr dev) else
  if op =? MBOX_OP_QREQ then answer 0 (do_qreq dev idx) else
  if op =? MBOX_OP_QNOTIFY_ADD then answer 0 (do_notify idx qdma_dev_increment_active_queue) else
  if op =? MBOX_OP_QNOTIFY_DEL then answer 0 (do_notify idx qdma_dev_decrement_active_queue) else
  if op =? MBOX_OP_GET_QACTIVE_CNT then answer 0 (do_qcnt idx) else
  if op =? MBOX_OP_INTR_CTXT_WRT then answer 0 (do_rings (intr_write dev)) else
  if op =? MBOX_OP_INTR_CTXT_RD then answer 0 (do_rings (intr_read dev)) else
  if op =? MBOX_OP_INTR_CTXT_CLR then answer 0 (do_rings (intr_clear dev)) else
  if op =? MBOX_OP_INTR_CTXT_INV then answer 0 (do_rings (intr_invalidate dev)) else
  if op =? MBOX_OP_QCTXT_INV then answer 0 (do_qctxt (mbox_invalidate_queue_contexts dev idx)) else
  if op =? MBOX_OP_QCTXT_CLR then answer 0 (do_qctxt (mbox_clear_queue_contexts dev idx)) else
  if op =? MBOX_OP_QCTXT_RD then answer 0 (do_qctxt (mbox_read_queue_contexts dev)) else
  if op =? MBOX_OP_QCTXT_WRT then answer 0 (do_qctxt_write dev idx) else
  if op =? MBOX_OP_RESET_PREPARE_RESP then mret QDMA_MBOX_VF_RESET else
  if op =? MBOX_OP_RESET_DONE_RESP then mret QDMA_MBOX_PF_RESET_DONE else
  if op =? MBOX_OP_REG_LIST_READ then answer 0 (do_reg_list dev) else
  if op =? MBOX_OP_PF_BYE_RESP then mret QDMA_MBOX_PF_BYE else
  mret (- QDMA_ERR_MBOX_INV_MSG).
End code.
