(* ===== verification/MboxPfOk.v ===== *)
(** * The handler of a physical function is sound

    Theorems about [MboxPf]: on any device, whatever a virtual function sends, the
    handler returns, answers what it has to answer, and gives no queue to two
    functions ([pf_handler_sound]); what each request does. *)

From S2P Require Import Prelude Float64 Device Resource Fields Indirect CtxtRegs Context Csr RegTable RegDump Bytes MboxMsg MboxPf.

Open Scope Z_scope.

(** ** Commands that return *)
Notation total := (returns (fun _ => True)).

Lemma total_bind {S A B} (P : B -> Prop) (c : cmd S A) (k : A -> cmd S B) :
  total c -> (forall a, returns P (k a)) -> returns P (c ≫= k).
Proof. intros Hc Hk. apply (returns_bind (fun _ => True)); auto. Qed.
Lemma total_ret {S A} (a : A) : total (mret a : cmd S A).
Proof. by apply returns_ret. Qed.
Lemma returns_if {S A} (P : A -> Prop) (D : Prop) `{Decision D} (c1 c2 : cmd S A) :
  returns P c1 -> returns P c2 -> returns P (if decide D then c1 else c2).
Proof. intros. by case_decide. Qed.

Section hardware.
Context {W : Type} `{io : IoMem W}.

Lemma reg_read_total dev o : total (qdma_reg_read (W := W) dev o).
Proof. intros w. destruct (ioread32 (dev + o) w) as [v w'] eqn:E. exists v, w'. unfold qdma_reg_read. by rewrite E. Qed.
Lemma reg_write_total dev o v : total (qdma_reg_write (W := W) dev o v).
Proof. intros w. by exists tt, (iowrite32 v (dev + o) w). Qed.

Lemma poll_total dev reg mask val n : total (poll_reg (W := W) dev reg mask val n).
Proof.
  induction n as [|n IH]; cbn [poll_reg]; [apply total_ret|].
  apply total_bind; [apply reg_read_total|]. intros v. apply returns_if; [apply total_ret|exact IH].
Qed.
Lemma wait_total dev : total (wait_cmd (W := W) dev).
Proof.
  rewrite wait_cmd_eq. apply total_bind; [apply poll_total|]. intros [|]; [apply total_ret|].
  apply total_bind; [apply reg_read_total|]. intros v. apply returns_if; apply total_ret.
Qed.
Lemma read_regs_returns dev a n : returns (fun l => length l = n) (read_regs (W := W) dev a n).
Proof.
  revert a. induction n as [|n IH]; intros a; cbn [read_regs]; [by apply returns_ret|].
  apply total_bind; [apply reg_read_total|]. intros v. eapply returns_bind; [apply IH|].
  intros l Hl. apply returns_ret. cbn. by rewrite Hl.
Qed.
Lemma write_regs_total dev a l : total (write_regs (W := W) dev a l).
Proof.
  revert a. induction l as [|v l IH]; intros a; cbn [write_regs]; [apply total_ret|].
  apply total_bind; [apply reg_write_total|]. intros _. apply IH.
Qed.
Lemma ind_write_total dev sel q d : total (eqdma_indirect_reg_write (W := W) dev sel q d).
Proof.
  apply total_bind; [apply write_regs_total|]. intros _. apply total_bind; [apply wait_total|].
  intros rv. apply returns_if; apply total_ret.
Qed.
Lemma ind_clear_total dev sel q : total (eqdma_indirect_reg_clear (W := W) dev sel q).
Proof.
  apply total_bind; [apply reg_write_total|]. intros _. apply total_bind; [apply wait_total|].
  intros rv. apply returns_if; apply total_ret.
Qed.
Lemma ind_invalidate_total dev sel q : total (eqdma_indirect_reg_invalidate (W := W) dev sel q).
Proof.
  apply total_bind; [apply reg_write_total|]. intros _. apply total_bind; [apply wait_total|].
  intros rv. apply returns_if; apply total_ret.
Qed.
Lemma ind_read_returns dev sel q n :
  returns (fun p => length (snd p) = n) (eqdma_indirect_reg_read (W := W) dev sel q n).
Proof.
  apply total_bind; [apply reg_write_total|]. intros _. apply total_bind; [apply wait_total|].
  intros rv. apply returns_if; [apply returns_ret, length_replicate|].
  eapply returns_bind; [apply read_regs_returns|]. intros l Hl. by apply returns_ret.
Qed.

(** Reading a context: the words, then the members from the words. *)
Lemma ctxt_read_total {C} dev sel q n (of_words : list Z -> outcome C) (bad : Z * list Z -> Z * option C)
    (good : C -> Z * option C) : (forall l, length l = n -> exists c, of_words l = Ok c) ->
  total (p ← eqdma_indirect_reg_read (W := W) dev sel q n;
         if decide (fst p < 0) then mret (bad p) else c ← lift (of_words (snd p)); mret (good c)).
Proof.
  intros H. eapply returns_bind; [apply ind_read_returns|]. intros [rv l] Hl. cbn [fst snd] in *.
  apply returns_if; [apply total_ret|]. destruct (H l Hl) as [c E]. rewrite E.
  apply total_bind; [by eapply returns_lift|]. intros ?. apply total_ret.
Qed.

(** Commands whose parts all return. *)
Ltac ret_step words_ok :=
  cbv beta iota;
  lazymatch goal with
  | |- returns _ (mret _) => apply total_ret
  | |- returns _ (eqdma_indirect_reg_write _ _ _ _) => apply ind_write_total
  | |- returns _ (eqdma_indirect_reg_clear _ _ _) => apply ind_clear_total
  | |- returns _ (eqdma_indirect_reg_invalidate _ _ _) => apply ind_invalidate_total
  | |- returns _ (if decide _ then _ else _) => apply returns_if
  | |- returns _ (mbind _ (eqdma_indirect_reg_read _ _ _ _)) =>
      eapply returns_bind; [apply ind_read_returns|]; intros [? ?] Hl; cbn [fst snd] in Hl
  | Hl : length ?l = _ |- returns _ (mbind _ (lift (_ ?l))) =>
      destruct (words_ok l Hl) as [? ->]; apply total_bind; [eapply returns_lift; [reflexivity|exact I]|intros ?]
  | |- returns _ (mbind _ _) => apply total_bind; [|intros ?]
  end.

Lemma sw_conf_total dev c2h q c t : total (eqdma_sw_ctx_conf (W := W) (Some dev) c2h q c t).
Proof.
  unfold eqdma_sw_ctx_conf, eqdma_sw_context_read, eqdma_sw_context_write, eqdma_sw_context_clear, eqdma_sw_context_invalidate.
  destruct t, c; repeat ret_step sw_words_ok.
Qed.
Lemma pf_conf_total dev q c t : total (eqdma_pfetch_ctx_conf (W := W) (Some dev) q c t).
Proof.
  unfold eqdma_pfetch_ctx_conf, eqdma_pfetch_context_read, eqdma_pfetch_context_write, eqdma_pfetch_context_clear,
    eqdma_pfetch_context_invalidate.
  destruct t, c; repeat ret_step pf_words_ok.
Qed.
Lemma cm_conf_total dev q c t : total (eqdma_cmpt_ctx_conf (W := W) (Some dev) q c t).
Proof.
  unfold eqdma_cmpt_ctx_conf, eqdma_cmpt_context_read, eqdma_cmpt_context_write, eqdma_cmpt_context_clear,
    eqdma_cmpt_context_invalidate.
  destruct t, c; repeat ret_step cm_words_ok.
Qed.
Lemma hw_conf_total dev c2h q c t : total (eqdma_hw_ctx_conf (W := W) (Some dev) c2h q c t).
Proof.
  unfold eqdma_hw_ctx_conf, eqdma_hw_context_read, eqdma_hw_context_clear, eqdma_hw_context_invalidate.
  destruct t, c; repeat ret_step hw_words_ok.
Qed.
Lemma cr_conf_total dev c2h q c t : total (eqdma_credit_ctx_conf (W := W) (Some dev) c2h q c t).
Proof.
  unfold eqdma_credit_ctx_conf, eqdma_credit_context_read, eqdma_credit_context_clear, eqdma_credit_context_invalidate.
  destruct t, c; repeat ret_step cr_words_ok.
Qed.
Lemma fm_conf_total dev f c t : total (eqdma_fmap_conf (W := W) (Some dev) f c t).
Proof.
  unfold eqdma_fmap_conf, eqdma_fmap_context_read, eqdma_fmap_context_write, eqdma_fmap_context_clear.
  destruct t, c; repeat ret_step fm_words_ok.
Qed.
Lemma in_conf_total dev r c t : total (eqdma_indirect_intr_ctx_conf (W := W) (Some dev) r c t).
Proof.
  unfold eqdma_indirect_intr_ctx_conf, eqdma_indirect_intr_context_read, eqdma_indirect_intr_context_write,
    eqdma_indirect_intr_context_clear, eqdma_indirect_intr_context_invalidate.
  destruct t, c; repeat ret_step in_words_ok.
Qed.

Lemma dev_cap_total dev : total (dev_cap_of (W := W) dev).
Proof.
  unfold dev_cap_of, eqdma_get_device_attributes. apply (returns_bind (fun p => exists a, snd p = Some a)).
  - repeat (apply total_bind; [apply reg_read_total|]; intros ?). apply returns_ret. eauto.
  - intros [? ?] [a E]. cbn in E. subst. apply total_ret.
Qed.

(** The arrays keep their length. *)
Lemma read_csr_returns dev a n : forall i values, (i + n <= length values)%nat ->
  returns (fun l => length l = length values) (read_csr_from (W := W) dev a (Z.of_nat i) n values).
Proof.
  induction n as [|n IH]; intros i values H; cbn [read_csr_from]; [by apply returns_ret|].
  apply total_bind; [apply reg_read_total|]. intros v.
  eapply returns_bind; [eapply returns_lift; [apply aset_nat; lia|exact eq_refl]|].
  intros l <-. replace (Z.of_nat i + 1) with (Z.of_nat (S i)) by lia.
  eapply returns_weaken; [apply IH; rewrite length_insert; lia|]. intros l. by rewrite length_insert.
Qed.

Definition has_16 (p : Z * option (list Z)) : Prop := exists l, snd p = Some l /\ length l = 16%nat.
Lemma csr_values_returns dev base :
  returns has_16 (values ← qdma_read_csr_values (W := W) dev base 0 16 (replicate 16 0); mret (QDMA_SUCCESS, Some values)).
Proof.
  eapply returns_bind; [apply (read_csr_returns dev _ 16 0); rewrite length_replicate; lia|].
  intros l Hl. apply returns_ret. exists l. by rewrite Hl, length_replicate.
Qed.
Lemma csr_conf_returns dev t : returns has_16
  (eqdma_global_csr_conf (W := W) (Some dev) 0 QDMA_GLOBAL_CSR_ARRAY_SZ csr_array t QDMA_HW_ACCESS_READ).
Proof.
  assert (forall rv, has_16 (rv, csr_array)) as H0 by (intros rv; by exists (replicate 16 0)).
  destruct t; cbn -[qdma_read_csr_values dev_cap_of Z.add]; rewrite ?decide_False by done;
    [apply csr_values_returns|..|by apply returns_ret];
    (apply total_bind; [apply dev_cap_total|]; intros cap; case_match; [apply csr_values_returns|by apply returns_ret]).
Qed.

Lemma find_csr_total dev t f err : total (find_csr (W := W) dev t f err).
Proof.
  unfold find_csr. eapply returns_bind; [apply csr_conf_returns|]. intros [rv vals] _.
  apply returns_if; [apply total_ret|]. destruct (csr_index f 0 (default [] vals)); apply total_ret.
Qed.

Lemma compose_sw_total dev q c : total (mbox_compose_sw_context (W := W) dev q c).
Proof.
  unfold mbox_compose_sw_context. apply total_bind; [apply find_csr_total|]. intros [rv i].
  apply returns_if; apply total_ret.
Qed.
Lemma compose_pf_total dev q c : total (mbox_compose_prefetch_context (W := W) dev q c).
Proof.
  unfold mbox_compose_prefetch_context. apply total_bind; [apply find_csr_total|]. intros [rv i].
  apply returns_if; apply total_ret.
Qed.
Lemma compose_cm_total dev q c : total (mbox_compose_cmpt_context (W := W) dev q c).
Proof.
  unfold mbox_compose_cmpt_context.
  do 3 (apply total_bind; [apply find_csr_total|]; intros [? ?]; apply returns_if; [apply total_ret|]). apply total_ret.
Qed.

(** Register lists. *)
Lemma read_repeat_returns dev a n : forall j cnt regs, 0 <= cnt -> length regs = 14%nat ->
  returns (fun p => 0 <= fst p /\ length (snd p) = 14%nat) (read_repeat (W := W) dev a j n cnt regs).
Proof.
  induction n as [|n IH]; intros j cnt regs Hc Hl; cbn [read_repeat]; [by apply returns_ret|].
  destruct (decide (cnt < QDMA_MAX_REGISTER_DUMP)) as [Hd|]; [|by apply returns_ret].
  apply total_bind; [apply reg_read_total|]. intros v.
  eapply returns_bind; [eapply returns_lift; [|exact eq_refl]|].
  { apply aset_ok. split; [|done]. unfold QDMA_MAX_REGISTER_DUMP in Hd. lia. }
  intros l <-. apply IH; [lia|by rewrite length_insert].
Qed.
Lemma read_regs_from_returns dev cap l : forall cnt regs, 0 <= cnt -> length regs = 14%nat ->
  returns (fun p => 0 <= fst p /\ length (snd p) = 14%nat) (read_regs_from (W := W) dev cap l cnt regs).
Proof.
  induction l as [|r l IH]; intros cnt regs Hc Hl; cbn [read_regs_from]; [by apply returns_ret|].
  apply returns_if; [|by apply returns_ret].
  destruct (skips_for_vf cap r); [by apply IH|]. destruct (skips_debug cap r); [by apply IH|].
  eapply returns_bind; [by apply read_repeat_returns|]. intros [cnt' regs'] [? ?]. by apply IH.
Qed.
#[local] Opaque eqdma_config_regs.
Lemma reg_list_returns dev group regs : length regs = 14%nat ->
  returns (fun p => exists l, snd p = Some l /\ length l = 14%nat) (eqdma_read_reg_list (W := W) (Some dev) 1 group (Some regs)).
Proof.
  intros Hl. unfold eqdma_read_reg_list. rewrite decide_False by done. apply total_bind; [apply dev_cap_total|].
  intros cap. destruct (group_start group) as [start|]; [|apply returns_ret; eauto].
  destruct (get_reg_entry start) as [rv i]. apply returns_if; [apply returns_ret; eauto|].
  eapply returns_bind; [by apply read_regs_from_returns|]. intros [cnt l] [? ?]. apply returns_ret. eauto.
Qed.
End hardware.

(** ** The handler's invariant

    The resource manager is well formed, and has lost no queue if [hd_ok] holds; the
    messages keep their lengths and their bytes, the request its header. *)
Record header := mkHeader { hd_op : Z; hd_src : Z; hd_rcv : nat; hd_resp : nat; hd_ok : Prop }.

Section handler.
Context {W : Type} `{io : IoMem W} (h : header).

Record inv (s : pf_state (W := W)) : Prop := {
  iv_rm : rm_inv (hd_ok h) (ps_rm s);
  iv_rcv : bytes_ok (ps_rcv s); iv_rcv_len : length (ps_rcv s) = hd_rcv h;
  iv_op : get_at 1 op_at (ps_rcv s) = hd_op h; iv_src : get_at 2 src_func_id_at (ps_rcv s) = hd_src h;
  iv_resp : bytes_ok (ps_resp s); iv_resp_len : length (ps_resp s) = hd_resp h }.

Context (Hrcv : (128 <= hd_rcv h)%nat) (Hresp : (152 <= hd_resp h)%nat).

(** [c] returns and keeps the invariant. *)
Definition sound {A} (c : cmd (pf_state (W := W)) A) : Prop :=
  forall s, inv s -> exists a s', c s = Ok (a, s') /\ inv s'.

Lemma sound_ret {A} (a : A) : sound (mret a).
Proof. intros s Hs. by exists a, s. Qed.
Lemma sound_bind {A B} (c : cmd (pf_state (W := W)) A) (k : A -> cmd (pf_state (W := W)) B) :
  sound c -> (forall a, sound (k a)) -> sound (c ≫= k).
Proof.
  intros Hc Hk s Hs. destruct (Hc s Hs) as (a & s1 & E & H1). destruct (Hk a s1 H1) as (b & s2 & E2 & H2).
  exists b, s2. by rewrite (cmd_bind_run _ _ _ _ _ E).
Qed.
Lemma sound_lift {A} (x : outcome A) a : x = Ok a -> sound (lift x).
Proof. intros -> s Hs. by exists a, s. Qed.
Lemma sound_if {A} (D : Prop) `{Decision D} (c1 c2 : cmd (pf_state (W := W)) A) :
  sound c1 -> sound c2 -> sound (if decide D then c1 else c2).
Proof. intros. by case_decide. Qed.

Lemma sound_hw {A} (c : cmd W A) : total c -> sound (on_hw c).
Proof.
  intros Hc s [? ? ? ? ? ? ?]. destruct (Hc (ps_dev s)) as (a & w & E & _). eexists a, _. unfold on_hw. rewrite E.
  split; [reflexivity|]. by constructor.
Qed.
Lemma sound_hw_bind {A B} (P : A -> Prop) (c : cmd W A) (k : A -> cmd (pf_state (W := W)) B) :
  returns P c -> (forall a, P a -> sound (k a)) -> sound (on_hw c ≫= k).
Proof.
  intros Hc Hk s [? ? ? ? ? ? ?]. destruct (Hc (ps_dev s)) as (a & w & E & Ha).
  destruct (Hk a Ha (mkPfState (ps_rm s) w (ps_rcv s) (ps_resp s))) as (b & s2 & E2 & H2); [by constructor|].
  exists b, s2. split; [|done]. unfold mbind, cmd_bind, on_hw. by rewrite E.
Qed.
Lemma sound_rm {A} (c : rm A) : (forall r, rm_inv (hd_ok h) r -> keeps (hd_ok h) c r) -> sound (on_rm c).
Proof.
  intros Hc s [Hr ? ? ? ? ? ?]. destruct (Hc _ Hr) as (a & r & E & H'). eexists a, _. unfold on_rm. rewrite E.
  split; [reflexivity|]. by constructor.
Qed.
Lemma sound_rcv_load n off : (off + n <= 128)%nat -> sound (on_rcv (load n off)).
Proof. intros H s Hs. eexists _, s. unfold on_rcv. rewrite load_run by (rewrite (iv_rcv_len _ Hs); lia). by destruct s. Qed.
Lemma sound_rcv_store n off v : (6 <= off)%nat -> (off + n <= 128)%nat -> sound (on_rcv (store n off v)).
Proof.
  intros H6 H s [? ? Hl ? ? ? ?]. eexists tt, _. unfold on_rcv. rewrite store_run by lia. split; [reflexivity|].
  constructor; cbn [ps_rm ps_rcv ps_resp ps_dev]; try done; [by apply set_at_ok|by rewrite set_at_length by lia|by rewrite get_set_other by lia..].
Qed.
Lemma sound_resp_load n off : (off + n <= 152)%nat -> sound (on_resp (load n off)).
Proof. intros H s Hs. eexists _, s. unfold on_resp. rewrite load_run by (rewrite (iv_resp_len _ Hs); lia). by destruct s. Qed.
Lemma sound_resp_store n off v : (off + n <= 152)%nat -> sound (on_resp (store n off v)).
Proof.
  intros H s [? ? ? ? ? ? Hl]. eexists tt, _. unfold on_resp. rewrite store_run by lia. split; [reflexivity|].
  constructor; cbn [ps_rm ps_rcv ps_resp ps_dev]; try done; [by apply set_at_ok|by rewrite set_at_length by lia].
Qed.

(** Sequences on one of the objects are sequences of the handler. *)
Lemma sound_resp_ret {A} (a : A) : sound (on_resp (mret a)).
Proof. intros s Hs. exists a, s. by destruct s. Qed.
Lemma sound_rcv_ret {A} (a : A) : sound (on_rcv (mret a)).
Proof. intros s Hs. exists a, s. by destruct s. Qed.
Lemma sound_resp_bind {A B} (c : cmd bytes A) (k : A -> cmd bytes B) :
  sound (on_resp c) -> (forall a, sound (on_resp (k a))) -> sound (on_resp (c ≫= k)).
Proof.
  intros Hc Hk s Hs. destruct (Hc s Hs) as (a & s1 & E & H1). destruct (Hk a s1 H1) as (b & s2 & E2 & H2).
  exists b, s2. split; [|done]. revert E E2. unfold on_resp, mbind, cmd_bind. destruct (c (ps_resp s)) as [[a' b']|]; [|done].
  intros [= -> <-]. cbn. done.
Qed.
Lemma sound_rcv_bind {A B} (c : cmd bytes A) (k : A -> cmd bytes B) :
  sound (on_rcv c) -> (forall a, sound (on_rcv (k a))) -> sound (on_rcv (c ≫= k)).
Proof.
  intros Hc Hk s Hs. destruct (Hc s Hs) as (a & s1 & E & H1). destruct (Hk a s1 H1) as (b & s2 & E2 & H2).
  exists b, s2. split; [|done]. revert E E2. unfold on_rcv, mbind, cmd_bind. destruct (c (ps_rcv s)) as [[a' b']|]; [|done].
  intros [= -> <-]. cbn. done.
Qed.

Lemma sound_members off ms : (off + foldr (fun m n => fst m + n) 0 ms <= 152)%nat -> sound (on_resp (store_members off ms)).
Proof.
  revert off. induction ms as [|[n v] ms IH]; intros off H; cbn [store_members foldr fst] in *; [apply sound_resp_ret|].
  apply sound_resp_bind; [|intros _; apply IH; lia]. destruct v; [apply sound_resp_store; lia|apply sound_resp_ret].
Qed.

Lemma sound_status {A} (c : cmd W (Z * A)) : total c -> sound (status c).
Proof. intros Hc. apply sound_bind; [by apply sound_hw|]. intros [rv a]. apply sound_ret. Qed.
Lemma sound_check c k : sound c -> sound k -> sound (check c k).
Proof. intros Hc Hk. apply sound_bind; [done|]. intros rv. apply sound_if; [apply sound_ret|done]. Qed.
Lemma sound_when b c : sound c -> sound (step_when b c).
Proof. intros Hc. destruct b; [done|apply sound_ret]. Qed.
Lemma sound_read_into {C} off (members : C -> list (nat * option Z)) (c : cmd W (Z * option C)) : total c ->
  (forall x, (off + foldr (fun m n => fst m + n) 0 (members x) <= 152)%nat) -> sound (read_into off members c).
Proof.
  intros Hc Hm. apply sound_bind; [by apply sound_hw|]. intros [rv x]. apply sound_if; [apply sound_ret|].
  apply sound_bind; [|intros _; apply sound_ret]. destruct x; [apply sound_members, Hm|apply sound_ret].
Qed.

Create HintDb parts.
#[local] Hint Resolve sw_conf_total pf_conf_total cm_conf_total hw_conf_total cr_conf_total fm_conf_total in_conf_total
  compose_sw_total compose_pf_total compose_cm_total dev_cap_total : parts.
#[local] Hint Resolve dev_destroy_keeps dev_create_keeps inc_active_keeps dec_active_keeps : parts.
Lemma qinfo_keeps i f r : rm_inv (hd_ok h) r -> keeps (hd_ok h) (qdma_dev_qinfo_get i f) r.
Proof. intros H. by eexists _, r. Qed.
Lemma in_range_keeps i f q r : rm_inv (hd_ok h) r -> keeps (hd_ok h) (qdma_dev_is_queue_in_range i f q) r.
Proof. intros H. by eexists _, r. Qed.
Lemma count_keeps i f t r : rm_inv (hd_ok h) r -> keeps (hd_ok h) (qdma_get_device_active_queue_count i f t) r.
Proof. intros H. by eexists _, r. Qed.
#[local] Hint Resolve qinfo_keeps in_range_keeps count_keeps : parts.

Ltac in_message := cbn [foldr fst sw_members pf_members cm_members hw_members cr_members fm_members in_members
  dev_cap_bytes]; lia.

(** One step of a handler's part. *)
Ltac sound_step :=
  cbv beta iota;
  lazymatch goal with
  | |- sound (mret _) => apply sound_ret
  | |- sound (if decide _ then _ else _) => apply sound_if
  | |- sound (on_rcv (mret _)) => apply sound_rcv_ret
  | |- sound (on_rcv (mbind _ _)) => apply sound_rcv_bind; [|intros ?]
  | |- sound (on_rcv (load _ _)) => apply sound_rcv_load; lia
  | |- sound (on_rcv (store _ _ _)) => apply sound_rcv_store; lia
  | |- sound (on_resp (mret _)) => apply sound_resp_ret
  | |- sound (on_resp (mbind _ _)) => apply sound_resp_bind; [|intros ?]
  | |- sound (on_resp (load _ _)) => apply sound_resp_load; lia
  | |- sound (on_resp (store _ _ _)) => apply sound_resp_store; lia
  | |- sound (on_resp (store_members _ _)) => apply sound_members; in_message
  | |- sound (on_rm _) => apply sound_rm; solve [auto with parts]
  | |- sound (on_hw _) => apply sound_hw; solve [auto with parts]
  | |- sound (status _) => apply sound_status; solve [auto with parts]
  | |- sound (check _ _) => apply sound_check
  | |- sound (step_when _ _) => apply sound_when
  | |- sound (read_into _ _ _) => apply sound_read_into; [solve [auto with parts]|intros ?; in_message]
  | |- sound (mbind _ _) => apply sound_bind; [|intros ?]
  | |- sound (match ?x with _ => _ end) => destruct x
  end.
Ltac sound_steps := repeat sound_step.

Lemma all_queue_contexts_sound t dev idx f q st c2h ty : sound (all_queue_contexts t dev idx f q st c2h ty).
Proof. unfold all_queue_contexts. sound_steps. Qed.
Lemma write_queue_contexts_sound dev idx q : sound (mbox_write_queue_contexts dev idx q).
Proof. unfold mbox_write_queue_contexts, mbox_clear_queue_contexts. sound_steps; apply all_queue_contexts_sound. Qed.
Lemma read_queue_contexts_sound dev f q st c2h ty : sound (mbox_read_queue_contexts dev f q st c2h ty).
Proof. unfold mbox_read_queue_contexts. sound_steps. Qed.

Lemma bye_sound dev idx : sound (do_bye dev idx).
Proof. unfold do_bye, fmap_write, get_src_func_id. sound_steps. Qed.
Lemma hello_sound dev idx : sound (do_hello dev idx).
Proof. unfold do_hello, qinfo_get, fmap_write, get_src_func_id. sound_steps. Qed.
Lemma fmap_sound dev : sound (do_fmap dev).
Proof. unfold do_fmap, fmap_write, get_src_func_id. sound_steps. Qed.
Lemma notify_sound idx op : (forall f t r, rm_inv (hd_ok h) r -> keeps (hd_ok h) (op idx f t) r) -> sound (do_notify idx op).
Proof. intros H. unfold do_notify, get_src_func_id. sound_steps. Qed.
Lemma qcnt_sound idx : sound (do_qcnt idx).
Proof. unfold do_qcnt, put_count, get_src_func_id. sound_steps. Qed.
Lemma qctxt_sound f : (forall src q st c2h ty, sound (f src q st c2h ty)) -> sound (do_qctxt f).
Proof. intros H. unfold do_qctxt, get_src_func_id, load_bits. sound_steps. apply H. Qed.

(** Structures of the request. *)
Lemma unpack_length ws x : length (unpack ws x) = length ws.
Proof. revert x. induction ws as [|w ws IH]; intros x; cbn; [done|by rewrite IH]. Qed.
Lemma sound_rcv_struct {A} ws off (of_list : list Z -> outcome A) : (off + layout_bytes ws <= 128)%nat ->
  (forall l, length l = length ws -> exists a, of_list l = Ok a) ->
  sound (on_rcv (l ← load_struct ws off; lift (of_list l))).
Proof.
  intros Hb Hf s Hs. pose proof (iv_rcv_len _ Hs) as Hl.
  destruct (Hf (unpack ws (get_at (layout_bytes ws) off (ps_rcv s))) (unpack_length _ _)) as [a E].
  exists a, s. split; [|done]. unfold on_rcv, load_struct.
  rewrite (cmd_bind_run _ _ _ (unpack ws (get_at (layout_bytes ws) off (ps_rcv s))) (ps_rcv s)).
  - rewrite (lift_run _ _ _ E). by destruct s.
  - erewrite cmd_bind_run by (apply load_run; rewrite Hl; lia). done.
Qed.
Lemma conf_of_length l : length l = length descq_conf_layout -> exists c, descq_conf_of l = Ok c.
Proof. intros H. do 31 (destruct l as [|? l]; [discriminate H|]). destruct l; [|discriminate H]. eexists. reflexivity. Qed.
Lemma intr_of_length l : length l = length intr_ctxt_layout -> exists c, intr_ctxt_of l = Ok c.
Proof. intros H. do 15 (destruct l as [|? l]; [discriminate H|]). destruct l; [|discriminate H]. eexists. reflexivity. Qed.

Lemma qctxt_write_sound dev idx : sound (do_qctxt_write dev idx).
Proof.
  unfold do_qctxt_write. apply qctxt_sound. intros src q st c2h ty. apply sound_bind; [sound_steps|intros _].
  apply sound_bind; [|intros c; apply write_queue_contexts_sound].
  apply sound_rcv_struct; [vm_compute; lia|apply conf_of_length].
Qed.

(** Interrupt contexts, of one ring. *)
Lemma ring_index_sound i : i < 1 -> sound (ring_index i).
Proof. intros H. unfold ring_index. rewrite decide_True by done. sound_steps. Qed.
Lemma note_error_sound rv : sound (note_error rv).
Proof. unfold note_error, set_status. sound_steps. Qed.
Lemma intr_write_sound dev i ring : sound (intr_write dev i ring).
Proof.
  unfold intr_write, intr_conf. apply sound_bind; [|intros c; sound_steps; apply note_error_sound].
  apply sound_rcv_struct; [vm_compute; lia|apply intr_of_length].
Qed.
Lemma intr_read_sound dev i ring : sound (intr_read dev i ring).
Proof. unfold intr_read. sound_steps. Qed.
Lemma intr_clear_sound dev i ring : sound (intr_clear dev i ring).
Proof. unfold intr_clear, intr_conf. sound_steps. Qed.
Lemma intr_invalidate_sound dev i ring : sound (intr_invalidate dev i ring).
Proof. unfold intr_invalidate, intr_conf. sound_steps. Qed.

Lemma rings_sound f s : (forall i ring, sound (f i ring)) -> inv s -> get_at 1 intr_ctxt_at (ps_rcv s) <= 1 ->
  exists a s', do_rings f s = Ok (a, s') /\ inv s'.
Proof.
  intros Hf Hs Hn. unfold do_rings. pose proof (iv_rcv_len _ Hs) as Hl.
  assert (on_rcv (load 1 intr_ctxt_at) s = Ok (get_at 1 intr_ctxt_at (ps_rcv s), s)) as E.
  { unfold on_rcv. rewrite load_run by (rewrite Hl; lia). by destruct s. }
  rewrite (cmd_bind_run _ _ _ _ _ E).
  assert (Z.to_nat (get_at 1 intr_ctxt_at (ps_rcv s)) = 0%nat \/ Z.to_nat (get_at 1 intr_ctxt_at (ps_rcv s)) = 1%nat)
    as [-> | ->] by lia; cbn [for_rings]; [by apply sound_ret|].
  assert (sound (ring ← ring_index 0; rv ← f 0 ring; _ ← note_error rv; mret rv)) as H; [|by apply H].
  apply sound_bind; [by apply ring_index_sound|]. intros ring. apply sound_bind; [apply Hf|]. intros rv.
  apply sound_bind; [apply note_error_sound|]. intros _. apply sound_ret.
Qed.

(** Global registers. *)
Lemma put_csr_sound rv l1 l2 l3 l4 n : forall i, (i + n <= 16)%nat -> length l1 = 16%nat -> length l2 = 16%nat ->
  length l3 = 16%nat -> length l4 = 16%nat -> sound (put_csr (W := W) rv l1 l2 l3 l4 i n).
Proof.
  induction n as [|n IH]; intros i Hi H1 H2 H3 H4; cbn [put_csr]; [apply sound_ret|].
  assert (forall l : list Z, length l = 16%nat -> sound (lift (aget l (Z.of_nat i)))) as Hget.
  { intros l Hl. destruct (aget_some l (Z.of_nat i)) as [a E]; [lia|]. by apply (sound_lift _ a). }
  apply sound_bind; [by apply Hget|]. intros r. apply sound_bind; [sound_steps|]. intros _.
  apply sound_bind; [|intros _; apply IH; lia]. apply sound_if; [|apply sound_ret].
  do 2 (apply sound_bind; [by apply Hget|]; intros ?; apply sound_bind; [sound_steps|]; intros _).
  apply sound_bind; [by apply Hget|]; intros ?. sound_steps.
Qed.
Lemma read_csr_bind {B} dev t (k : Z * list Z -> cmd (pf_state (W := W)) B) :
  (forall p, length (snd p) = 16%nat -> sound (k p)) -> sound (read_csr dev t ≫= k).
Proof.
  intros Hk s Hs. assert (exists p s', read_csr dev t s = Ok (p, s') /\ inv s' /\ length (snd p) = 16%nat) as (p & s1 & E & H1 & Hl).
  { destruct Hs as [? ? ? ? ? ? ?]. destruct (csr_conf_returns (W := W) dev t (ps_dev s)) as ([rv vals] & w & E & l & El & Hl).
    cbn in El. subst vals. eexists (rv, l), _. unfold read_csr, mbind, cmd_bind, on_hw. rewrite E.
    split; [reflexivity|]. split; [by constructor|done]. }
  destruct (Hk p Hl s1 H1) as (b & s2 & E2 & H2). exists b, s2. by rewrite (cmd_bind_run _ _ _ _ _ E).
Qed.
Lemma maybe_csr_bind {B} (b : bool) dev t rv (k : Z * list Z -> cmd (pf_state (W := W)) B) :
  (forall p, length (snd p) = 16%nat -> sound (k p)) ->
  sound ((if b then read_csr dev t else mret (rv, replicate 16 0)) ≫= k).
Proof.
  intros Hk. destruct b; [by apply read_csr_bind|]. apply (Hk (rv, replicate 16 0)), length_replicate.
Qed.
Lemma csr_sound dev : sound (do_csr (W := W) dev).
Proof.
  unfold do_csr. apply read_csr_bind. intros [rv l1] H1. cbn [snd] in H1. apply sound_if; [apply sound_ret|].
  apply sound_bind; [apply sound_hw; auto with parts|]. intros cap.
  do 3 (apply maybe_csr_bind; intros [? ?] ?; cbn [snd] in *; case_match; [apply sound_ret|]).
  apply sound_bind; [by apply put_csr_sound|]. intros _. apply sound_ret.
Qed.

(** Register lists. *)
Lemma load_regs_sound n : forall off, (off + 8 * n <= 152)%nat -> sound (on_resp (load_regs off n)).
Proof.
  induction n as [|n IH]; intros off H; cbn [load_regs]; [apply sound_resp_ret|].
  do 2 (apply sound_resp_bind; [sound_steps|intros ?]). apply sound_resp_bind; [apply IH; lia|]. intros l. apply sound_resp_ret.
Qed.
Lemma load_regs_length n : forall off b l b', load_regs off n b = Ok (l, b') -> length l = n.
Proof.
  induction n as [|n IH]; intros off b l b'; cbn [load_regs]; [by intros [= <- _]|].
  intros E. apply cmd_bind_ok in E as (a & b1 & _ & E). apply cmd_bind_ok in E as (v & b2 & _ & E).
  apply cmd_bind_ok in E as (l' & b3 & E3 & [= <- _]). cbn. f_equal. by eapply IH.
Qed.
Lemma store_regs_sound l : forall off, (off + 8 * length l <= 152)%nat -> sound (on_resp (store_regs off l)).
Proof.
  induction l as [|r l IH]; intros off H; cbn [store_regs length] in *; [apply sound_resp_ret|].
  do 2 (apply sound_resp_bind; [sound_steps|intros ?]). apply IH. lia.
Qed.
Lemma reg_list_sound dev : sound (do_reg_list (W := W) dev).
Proof.
  unfold do_reg_list. apply sound_bind; [sound_steps|]. intros group s Hs.
  destruct (load_regs_sound (Z.to_nat QDMA_MAX_REGISTER_DUMP) reg_list_at ltac:(vm_compute; lia) s Hs) as (regs & s1 & E & H1).
  rewrite (cmd_bind_run _ _ _ _ _ E). assert (length regs = 14%nat) as Hl.
  { revert E. unfold on_resp. destruct (load_regs _ _ _) as [[l b']|] eqn:El; [|done]. intros [= <- _]. by eapply load_regs_length. }
  clear s Hs E. revert s1 H1. apply (sound_hw_bind (fun p => exists l, snd p = Some l /\ length l = 14%nat)); [by apply reg_list_returns|].
  intros [[rv num] regs'] (l & El & Hl'). cbn [snd] in El. subst regs'.
  apply sound_bind; [sound_steps|]. intros _. apply sound_bind; [apply store_regs_sound; rewrite Hl'; lia|]. intros _. sound_steps.
Qed.

(** A request for queues, with numbers below 2^31. *)
Definition qreq_ok (rcv : bytes) : Prop :=
  get_at 4 fmap_qmax_at rcv < 2 ^ 31 /\ -1 <= s32 (get_at 4 fmap_qbase_at rcv).

Lemma on_rcv_load n off s : inv s -> (off + n <= 128)%nat -> on_rcv (load n off) s = Ok (get_at n off (ps_rcv s), s).
Proof. intros Hs H. unfold on_rcv. rewrite load_run by (rewrite (iv_rcv_len _ Hs); lia). by destruct s. Qed.

Lemma qreq_sound dev idx s : inv s -> qreq_ok (ps_rcv s) -> exists a s', do_qreq dev idx s = Ok (a, s') /\ inv s'.
Proof.
  intros Hs [Hq1 Hq2]. unfold do_qreq, get_src_func_id.
  do 3 (erewrite cmd_bind_run by (apply on_rcv_load; [done|lia])).
  pose proof (get_range 4 fmap_qmax_at (ps_rcv s) (iv_rcv _ Hs) ltac:(rewrite (iv_rcv_len _ Hs); lia)) as [Hq0 _].
  pose proof (s32_range (get_at 4 fmap_qbase_at (ps_rcv s))) as [_ Hb]. unfold fits_s32 in Hb.
  assert (exists p s1, on_rm (W := W) (qdma_dev_update idx (get_at 2 src_func_id_at (ps_rcv s)) (get_at 4 fmap_qmax_at (ps_rcv s))
    (s32 (get_at 4 fmap_qbase_at (ps_rcv s)))) s = Ok (p, s1) /\ inv s1) as ([rv qbase] & s1 & E & H1).
  { destruct Hs as [Hr ? ? ? ? ? ?].
    destruct (dev_update_keeps _ idx (get_at 2 src_func_id_at (ps_rcv s)) (get_at 4 fmap_qmax_at (ps_rcv s))
      (s32 (get_at 4 fmap_qbase_at (ps_rcv s))) (ps_rm s) Hr ltac:(lia) ltac:(lia)) as (p & r & E & Hr').
    eexists p, _. unfold on_rm. rewrite E. split; [reflexivity|]. by constructor. }
  rewrite (cmd_bind_run _ _ _ _ _ E). clear E Hs Hq1 Hq2 Hq0 Hb. revert s1 H1.
  assert (forall src, sound (_ ← on_rcv (store 4 fmap_qbase_at qbase);
    rv ← (if decide (rv = 0) then qinfo_get idx src on_resp else mret rv);
    if decide (rv < 0) then mret (- QDMA_ERR_MBOX_NUM_QUEUES) else
    _ ← fmap_write dev src (mkFm 0 0); mret rv)) as H; [|intros s1 H1; by apply H].
  intros src. unfold qinfo_get, fmap_write. sound_steps.
Qed.

(** *** The answer's header *)
Record answered (func_id rv : Z) (s s' : pf_state (W := W)) : Prop := {
  an_op : get_at 1 op_at (ps_resp s') = (hd_op h + MBOX_MSG_OP_RSP_OFFSET) mod 256;
  an_dst : get_at 2 dst_func_id_at (ps_resp s') = hd_src h;
  an_src : get_at 2 src_func_id_at (ps_resp s') = func_id mod 65536;
  an_status : get_at 1 status_at (ps_resp s') = rv mod 256;
  an_rest : drop 6 (ps_resp s') = drop 6 (ps_resp s);
  an_rm : ps_rm s' = ps_rm s; an_dev : ps_dev s' = ps_dev s; an_rcv : ps_rcv s' = ps_rcv s }.

Lemma exit_run func_id rv ret s : inv s -> exists s',
  exit_func func_id rv ret s = Ok (ret, s') /\ inv s' /\ answered func_id rv s s'.
Proof.
  intros Hs. pose proof (iv_resp_len _ Hs) as Hl. pose proof (iv_src _ Hs) as Hsrc.
  pose proof (get_range 2 src_func_id_at (ps_rcv s) (iv_rcv _ Hs) ltac:(rewrite (iv_rcv_len _ Hs); lia)) as Hsr.
  unfold exit_func, get_op, get_src_func_id, set_op, set_dst_func_id, set_src_func_id, set_status.
  assert (forall n off v s0, inv s0 -> (off + n <= 152)%nat -> on_resp (W := W) (store n off v) s0 =
    Ok (tt, mkPfState (ps_rm s0) (ps_dev s0) (ps_rcv s0) (set_at n off v (ps_resp s0))) /\
    inv (mkPfState (ps_rm s0) (ps_dev s0) (ps_rcv s0) (set_at n off v (ps_resp s0)))) as Hst.
  { intros n off v s0 [? ? ? ? ? ? Hl0] H. unfold on_resp. rewrite store_run by lia. split; [done|].
    constructor; cbn [ps_rm ps_dev ps_rcv ps_resp]; try done; [by apply set_at_ok|by rewrite set_at_length by lia]. }
  erewrite cmd_bind_run by (apply on_rcv_load; [exact Hs|lia]).
  destruct (Hst 1%nat op_at (get_at 1 op_at (ps_rcv s) + MBOX_MSG_OP_RSP_OFFSET) s Hs ltac:(lia)) as [E1 H1].
  rewrite (cmd_bind_run _ _ _ _ _ E1). clear E1.
  erewrite cmd_bind_run by (apply on_rcv_load; [exact H1|lia]). cbn [ps_rcv].
  destruct (Hst 2%nat dst_func_id_at (get_at 2 src_func_id_at (ps_rcv s)) _ H1 ltac:(lia)) as [E2 H2].
  rewrite (cmd_bind_run _ _ _ _ _ E2). clear E2 H1. cbn [ps_rm ps_dev ps_rcv ps_resp] in *.
  destruct (Hst 2%nat src_func_id_at func_id _ H2 ltac:(lia)) as [E3 H3].
  rewrite (cmd_bind_run _ _ _ _ _ E3). clear E3 H2. cbn [ps_rm ps_dev ps_rcv ps_resp] in *.
  destruct (Hst 1%nat status_at rv _ H3 ltac:(lia)) as [E4 H4].
  rewrite (cmd_bind_run _ _ _ _ _ E4). clear E4 H3. cbn [ps_rm ps_dev ps_rcv ps_resp] in *.
  eexists. split; [reflexivity|]. split; [exact H4|].
  constructor; cbn [ps_rm ps_dev ps_rcv ps_resp]; try done.
  - rewrite !get_set_other by lens. rewrite get_set_same by lens. by rewrite (iv_op _ Hs).
  - rewrite !get_set_other by lens. rewrite get_set_same by lens. rewrite Hsrc in *. by apply Z.mod_small.
  - rewrite get_set_other by lens. by rewrite get_set_same by lens.
  - by rewrite get_set_same by lens.
  - by rewrite !drop_set by lens.
Qed.

(** *** Every message *)
Definition msg_ok (rcv : bytes) : Prop :=
  (get_at 1 op_at rcv = MBOX_OP_QREQ -> qreq_ok rcv) /\
  (MBOX_OP_INTR_CTXT_WRT <= get_at 1 op_at rcv <= MBOX_OP_INTR_CTXT_INV -> get_at 1 intr_ctxt_at rcv <= 1).

(** The requests, and what the handler returns. *)
Definition is_request (op : Z) : bool :=
  (op <=? MBOX_OP_INTR_CTXT_INV) || (op =? MBOX_OP_REG_LIST_READ) || (op =? MBOX_OP_PF_RESET_VF_BYE).
Definition pf_event (op : Z) : Z :=
  if op =? MBOX_OP_VF_BYE then QDMA_MBOX_VF_OFFLINE else
  if op =? MBOX_OP_PF_RESET_VF_BYE then QDMA_MBOX_VF_RESET_BYE else
  if op =? MBOX_OP_HELLO then QDMA_MBOX_VF_ONLINE else
  if op =? MBOX_OP_RESET_PREPARE_RESP then QDMA_MBOX_VF_RESET else
  if op =? MBOX_OP_RESET_DONE_RESP then QDMA_MBOX_PF_RESET_DONE else
  if op =? MBOX_OP_PF_BYE_RESP then QDMA_MBOX_PF_BYE else
  if is_request op then 0 else - QDMA_ERR_MBOX_INV_MSG.

Definition reacts (func_id : Z) (s : pf_state (W := W)) (ret : Z) (s' : pf_state (W := W)) : Prop :=
  if is_request (hd_op h) then
    (ret = pf_event (hd_op h) /\ exists rv s1, answered func_id rv s1 s') \/ (hd_op h = MBOX_OP_FMAP /\ ret < 0)
  else ret = pf_event (hd_op h) /\ s' = s.

Lemma answer_run func_id ret (c : cmd (pf_state (W := W)) Z) s : (exists rv s1, c s = Ok (rv, s1) /\ inv s1) ->
  is_request (hd_op h) = true -> ret = pf_event (hd_op h) ->
  exists ret' s', (rv ← c; exit_func func_id rv ret) s = Ok (ret', s') /\ inv s' /\ reacts func_id s ret' s'.
Proof.
  intros (rv & s1 & E & H1) Hreq Hret. destruct (exit_run func_id rv ret s1 H1) as (s' & E' & Hs' & Ha).
  exists ret, s'. rewrite (cmd_bind_run _ _ _ _ _ E). split; [done|]. split; [done|]. unfold reacts. rewrite Hreq. eauto.
Qed.
Lemma fmap_answer_run dev func_id s : inv s -> hd_op h = MBOX_OP_FMAP ->
  exists ret' s', (rv ← do_fmap dev; if decide (rv < 0) then mret rv else exit_func func_id rv 0) s = Ok (ret', s') /\
    inv s' /\ reacts func_id s ret' s'.
Proof.
  intros Hs Hop. destruct (fmap_sound dev s Hs) as (rv & s1 & E & H1). rewrite (cmd_bind_run _ _ _ _ _ E).
  unfold reacts. rewrite Hop. change (is_request MBOX_OP_FMAP) with true. cbv beta iota.
  destruct (decide (rv < 0)); [by exists rv, s1; auto|].
  destruct (exit_run func_id rv 0 s1 H1) as (s' & E' & Hs' & Ha). exists 0, s'. split; [done|]. split; [done|]. left. eauto.
Qed.

Lemma handler_run dev idx func_id s : inv s -> msg_ok (ps_rcv s) -> exists ret s',
  qdma_mbox_pf_rcv_msg_handler dev idx func_id true s = Ok (ret, s') /\ inv s' /\ reacts func_id s ret s'.
Proof.
  intros Hs [Hq Hi]. unfold qdma_mbox_pf_rcv_msg_handler, get_op. cbn [negb].
  pose proof (get_range 1 op_at (ps_rcv s) (iv_rcv _ Hs) ltac:(rewrite (iv_rcv_len _ Hs); lia)) as Hr.
  erewrite cmd_bind_run by (apply on_rcv_load; [done|lia]). cbv zeta beta. rewrite (iv_op _ Hs) in *.
  repeat match goal with
  | |- context [if hd_op h =? ?x then _ else _] => destruct (Z.eqb_spec (hd_op h) x) as [Ho|?];
      [first [ apply answer_run; [|by rewrite Ho|by rewrite Ho]
             | by apply fmap_answer_run
             | eexists _, s; split; [reflexivity|]; split; [exact Hs|]; unfold reacts; by rewrite Ho ]|]
  end.
  1,2: by apply bye_sound.
  - by apply hello_sound.
  - by apply csr_sound.
  - apply qreq_sound; [done|by apply Hq].
  - apply notify_sound; [auto with parts|done].
  - apply notify_sound; [auto with parts|done].
  - by apply qcnt_sound.
  - apply rings_sound; [apply intr_write_sound|done|]. apply Hi. by rewrite Ho.
  - apply rings_sound; [apply intr_read_sound|done|]. apply Hi. by rewrite Ho.
  - apply rings_sound; [apply intr_clear_sound|done|]. apply Hi. by rewrite Ho.
  - apply rings_sound; [apply intr_invalidate_sound|done|]. apply Hi. by rewrite Ho.
  - apply qctxt_sound; [intros; apply all_queue_contexts_sound|done].
  - apply qctxt_sound; [intros; apply all_queue_contexts_sound|done].
  - apply qctxt_sound; [intros; apply read_queue_contexts_sound|done].
  - by apply qctxt_write_sound.
  - by apply reg_list_sound.
  - eexists _, s. split; [reflexivity|]. split; [done|]. unfold reacts.
    assert (is_request (hd_op h) = false) as Hreq.
    { unfold is_request. unfold MBOX_OP_VF_BYE, MBOX_OP_HELLO, MBOX_OP_FMAP, MBOX_OP_CSR, MBOX_OP_QREQ, MBOX_OP_QNOTIFY_ADD,
        MBOX_OP_QNOTIFY_DEL, MBOX_OP_GET_QACTIVE_CNT, MBOX_OP_QCTXT_WRT, MBOX_OP_QCTXT_RD, MBOX_OP_QCTXT_CLR, MBOX_OP_QCTXT_INV,
        MBOX_OP_INTR_CTXT_WRT, MBOX_OP_INTR_CTXT_RD, MBOX_OP_INTR_CTXT_CLR, MBOX_OP_INTR_CTXT_INV, MBOX_OP_REG_LIST_READ,
        MBOX_OP_PF_RESET_VF_BYE in *. rewrite !orb_false_iff, !Z.eqb_neq, Z.leb_gt. lia. }
    rewrite Hreq. split; [|done]. unfold pf_event. rewrite Hreq, !(fun a b => proj2 (Z.eqb_neq a b)) by done. done.
Qed.
End handler.

(** *** Queues of others *)
Section handler_runs.
Context {W : Type} `{io : IoMem W} (h : header) (Hrcv : (128 <= hd_rcv h)%nat) (Hresp : (152 <= hd_resp h)%nat).

(** The parameters of a queue-context request. *)
Definition qc_qid (rcv : bytes) : Z := get_at 2 qid_hw_at rcv.
Definition qc_st (rcv : bytes) : Z := bits (get_at 1 qctxt_bits_at rcv) 0 1.
Definition qc_c2h (rcv : bytes) : Z := bits (get_at 1 qctxt_bits_at rcv) 1 1.
Definition qc_type (rcv : bytes) : Z := bits (get_at 1 qctxt_bits_at rcv) 2 2.

Lemma do_qctxt_run f (s : pf_state (W := W)) : inv h s ->
  do_qctxt f s = f (hd_src h) (qc_qid (ps_rcv s)) (qc_st (ps_rcv s)) (qc_c2h (ps_rcv s)) (qc_type (ps_rcv s)) s.
Proof.
  intros Hs. unfold do_qctxt, get_src_func_id.
  do 2 (erewrite cmd_bind_run by (apply (on_rcv_load h Hrcv Hresp); [done|lia])).
  assert (forall lo w, on_rcv (W := W) (load_bits 1 qctxt_bits_at lo w) s = Ok (bits (get_at 1 qctxt_bits_at (ps_rcv s)) lo w, s)) as Hb.
  { intros lo w. unfold on_rcv. rewrite load_bits_run by (rewrite (iv_rcv_len _ _ Hs); lia). by destruct s. }
  do 3 (erewrite cmd_bind_run by apply Hb). by rewrite (iv_src _ _ Hs).
Qed.

End handler_runs.

Section lookups.
Context {W : Type} `{io : IoMem W}.

Lemma conf_func_id b c : bytes_ok b -> (48 <= length b)%nat -> load_descq_conf b = Ok (c, b) ->
  dc_func_id c = get_at 2 descq_conf_func_id_at b.
Proof.
  intros Hb Hl. unfold load_descq_conf, load_struct. change (layout_bytes descq_conf_layout) with 32%nat. intros E.
  apply cmd_bind_ok in E as (l & b1 & E1 & E2). apply cmd_bind_ok in E1 as (x & b2 & E1 & E3).
  rewrite load_run in E1 by lia. injection E1 as <- <-. injection E3 as <- <-.
  apply lift_ok in E2 as [E2 _].
  pose proof (unpack_lookup descq_conf_layout (get_at 32 descq_conf_at b) 22 16) as Hu.
  specialize (Hu ltac:(repeat constructor; lia) eq_refl).
  assert (forall l, descq_conf_of l = Ok c -> l !! 22%nat = Some (dc_func_id c)) as Hc.
  { intros l. do 31 (destruct l as [|? l]; [discriminate|]). destruct l; [|discriminate]. by intros [= <-]. }
  apply Hc in E2. pose proof (eq_trans (eq_sym E2) Hu) as Hx. injection Hx as ->.
  rewrite (get_inside 2 descq_conf_func_id_at 32 b descq_conf_at Hb) by lia. done.
Qed.

(** Looking up a function that is there. *)
Lemma qinfo_run i f s j m k x : finds s i f j m k x -> qdma_dev_qinfo_get i f s = Ok ((0, Some (de_entry x)), s).
Proof. intros [Hf Hd]. unfold qdma_dev_qinfo_get, qdma_get_master_resource_entry, gets, mbind, cmd_bind. by rewrite Hf, Hd. Qed.
Lemma range_run i f q s j m k x : finds s i f j m k x -> qdma_dev_is_queue_in_range i f q s = Ok (in_range (de_entry x) q, s).
Proof. intros [Hf Hd]. unfold qdma_dev_is_queue_in_range, qdma_get_master_resource_entry, gets, mbind, cmd_bind. by rewrite Hf, Hd. Qed.
Lemma on_rm_run {A} (c : rm A) (s : pf_state (W := W)) a : c (ps_rm s) = Ok (a, ps_rm s) -> on_rm c s = Ok (a, s).
Proof. intros E. unfold on_rm. rewrite E. by destruct s. Qed.

Lemma foreign_all_run t dev idx f q st c2h ty (s : pf_state (W := W)) j m k x : finds (ps_rm s) idx f j m k x ->
  in_range (de_entry x) q = QDMA_DEV_Q_OUT_OF_RANGE -> ty <> QDMA_MBOX_CMPT_CTXT_ONLY ->
  all_queue_contexts t dev idx f q st c2h ty s = Ok (0, s).
Proof.
  intros Hf Hr Hty. unfold all_queue_contexts. rewrite decide_False by done.
  erewrite cmd_bind_run by (eapply on_rm_run, qinfo_run, Hf). cbv beta iota.
  rewrite decide_False by lia. erewrite cmd_bind_run by (eapply on_rm_run, range_run, Hf). by rewrite Hr.
Qed.
Lemma foreign_write_run dev idx q (s : pf_state (W := W)) j m k x : finds (ps_rm s) idx (dc_func_id (mq_descq_conf q)) j m k x ->
  in_range (de_entry x) (mq_qid_hw q) = QDMA_DEV_Q_OUT_OF_RANGE -> mbox_write_queue_contexts dev idx q s = Ok (0, s).
Proof.
  intros Hf Hr. unfold mbox_write_queue_contexts.
  erewrite cmd_bind_run by (eapply on_rm_run, qinfo_run, Hf). cbv beta iota.
  rewrite decide_False by lia. erewrite cmd_bind_run by (eapply on_rm_run, range_run, Hf). by rewrite Hr.
Qed.
End lookups.

(** ** Theorems *)
Section theorems.
Context {W : Type} `{io : IoMem W} (dev idx func_id : Z).

(** The two messages as the handler gets them. *)
Record messages_ok (s : pf_state (W := W)) : Prop := {
  ms_rcv : bytes_ok (ps_rcv s); ms_rcv_len : (128 <= length (ps_rcv s))%nat;
  ms_resp : bytes_ok (ps_resp s); ms_resp_len : (152 <= length (ps_resp s))%nat }.

Definition header_of (s : pf_state (W := W)) : header :=
  mkHeader (get_at 1 op_at (ps_rcv s)) (get_at 2 src_func_id_at (ps_rcv s)) (length (ps_rcv s)) (length (ps_resp s)) (rm_ok (ps_rm s)).
Lemma inv_of s : rm_wf (ps_rm s) -> messages_ok s -> inv (header_of s) s.
Proof. intros Hr%rm_inv_of []. by constructor. Qed.

(** C4. Whatever a virtual function sends, the handler returns, on any device and
    whatever the allocations answer, and no queue is given to two functions, or is
    free and with a function ([rm_wf]).  If no allocation fails and every queue is
    free or with one function, that is so afterwards ([rm_ok]); when the allocation
    for giving queues back fails, the queues the sender held can end up nowhere.  The
    messages keep their length.  A request gets an answer that its sender recognises
    as the answer to it, addressed to the sender, and the handler reports the event
    the request stands for; only a queue-map request whose access to the device failed
    gets none.  An answer of a virtual function, and a message with an unknown
    operation, are reported and change nothing.  The message is one with at most one
    interrupt ring and, if it asks for queues, with numbers below 2^31. *)
Theorem pf_handler_sound s : rm_wf (ps_rm s) -> messages_ok s -> msg_ok (ps_rcv s) -> exists ret s',
  qdma_mbox_pf_rcv_msg_handler dev idx func_id true s = Ok (ret, s') /\
  rm_wf (ps_rm s') /\ (rm_ok (ps_rm s) -> rm_ok (ps_rm s')) /\
  length (ps_rcv s') = length (ps_rcv s) /\ length (ps_resp s') = length (ps_resp s) /\
  let op := get_at 1 op_at (ps_rcv s) in
  if is_request op then
    (ret = pf_event op /\ qdma_mbox_is_msg_response (ps_rcv s) (ps_resp s') = Ok 1 /\
     get_at 2 dst_func_id_at (ps_resp s') = get_at 2 src_func_id_at (ps_rcv s) /\
     get_at 2 src_func_id_at (ps_resp s') = func_id mod 65536) \/
    (op = MBOX_OP_FMAP /\ ret < 0)
  else ret = pf_event op /\ s' = s.
Proof.
  intros Hr Hm Hok. pose proof (inv_of s Hr Hm) as Hi. destruct Hm as [Hb Hl Hb' Hl'].
  destruct (handler_run (header_of s) Hl Hl' dev idx func_id s Hi Hok) as (ret & s' & E & Hi' & Hrx).
  exists ret, s'. split; [exact E|]. split; [eapply rm_inv_wf, Hi'|]. split; [apply (rm_inv_ok _ _ (iv_rm _ _ Hi'))|].
  split; [apply (iv_rcv_len _ _ Hi')|]. split; [apply (iv_resp_len _ _ Hi')|].
  cbv zeta. unfold reacts in Hrx. cbn [hd_op header_of] in Hrx.
  destruct (is_request (get_at 1 op_at (ps_rcv s))) eqn:Hreq; [|done].
  destruct Hrx as [(Hret & rv & s1 & Ha)|Hf]; [left|by right]. split; [done|].
  destruct Ha as [Hop Hdst Hsrc _ _ _ _ _]. cbn [hd_op hd_src header_of] in *. split; [|done].
  unfold qdma_mbox_is_msg_response, get_op. rewrite !peek_load by (rewrite ?(iv_resp_len _ _ Hi'); cbn [hd_resp header_of]; lia).
  cbn [mbind outcome_bind]. rewrite Hop, decide_True; [done|].
  pose proof (get_range 1 op_at (ps_rcv s) Hb ltac:(lia)) as Hr0. unfold is_request in Hreq.
  rewrite !orb_true_iff, Z.leb_le, !Z.eqb_eq in Hreq. rewrite Z.mod_small; [done|].
  unfold MBOX_MSG_OP_RSP_OFFSET, MBOX_OP_INTR_CTXT_INV, MBOX_OP_REG_LIST_READ, MBOX_OP_PF_RESET_VF_BYE in *. lia.
Qed.

(** *** Requests about queues and contexts *)

Lemma on_load n off s : messages_ok s -> (off + n <= 128)%nat -> on_rcv (load n off) s = Ok (get_at n off (ps_rcv s), s).
Proof. intros [] H. unfold on_rcv. rewrite load_run by lia. by destruct s. Qed.

(** The handler on a request: the part of its operation, then the answer. *)
Ltac dispatch Hl Hop :=
  unfold qdma_mbox_pf_rcv_msg_handler, get_op; cbn [negb];
  erewrite cmd_bind_run by (unfold on_rcv; rewrite load_run by lia; reflexivity);
  rewrite Hop; by_op.

Lemma same_state (s : pf_state (W := W)) : mkPfState (ps_rm s) (ps_dev s) (ps_rcv s) (ps_resp s) = s.
Proof. by destruct s. Qed.

(** [c] is what the handler does for the request; it ends in [s1] with [rv]. *)
Lemma answer_from (c : cmd (pf_state (W := W)) Z) ret rv s s1 : messages_ok s -> c s = Ok (rv, s1) ->
  inv (header_of s) s1 -> exists s', (rv ← c; exit_func func_id rv ret) s = Ok (ret, s') /\
    get_at 1 status_at (ps_resp s') = rv mod 256 /\ ps_rm s' = ps_rm s1 /\ ps_dev s' = ps_dev s1 /\
    drop 6 (ps_resp s') = drop 6 (ps_resp s1).
Proof.
  intros [Hb Hl Hb' Hl'] E H1. rewrite (cmd_bind_run _ _ _ _ _ E).
  destruct (exit_run (header_of s) Hl Hl' func_id rv ret s1 H1) as (s' & E' & _ & []). by exists s'.
Qed.

Definition context_op (op : Z) : Prop := op = MBOX_OP_QCTXT_CLR \/ op = MBOX_OP_QCTXT_INV \/ op = MBOX_OP_QCTXT_WRT.

(** A request to write a queue that is not its sender's. *)
Lemma foreign_write_request s j m k x : rm_wf (ps_rm s) -> messages_ok s ->
  finds (ps_rm s) idx (get_at 2 src_func_id_at (ps_rcv s)) j m k x ->
  in_range (de_entry x) (qc_qid (ps_rcv s)) = QDMA_DEV_Q_OUT_OF_RANGE -> exists s1,
  do_qctxt_write dev idx s = Ok (0, s1) /\ ps_rm s1 = ps_rm s /\ ps_dev s1 = ps_dev s /\ ps_resp s1 = ps_resp s /\
  inv (header_of s) s1.
Proof.
  intros Hr Hm Hf Hq. pose proof (inv_of s Hr Hm) as Hi. pose proof Hm as [Hb Hl Hb' Hl'].
  set (src := get_at 2 src_func_id_at (ps_rcv s)) in *.
  set (rcv1 := set_at 2 descq_conf_func_id_at src (ps_rcv s)). set (s1 := mkPfState (ps_rm s) (ps_dev s) rcv1 (ps_resp s)).
  assert (on_rcv (store 2 descq_conf_func_id_at src) s = Ok (tt, s1)) as E1 by (unfold on_rcv; rewrite store_run by lia; done).
  assert (length rcv1 = length (ps_rcv s)) as L1 by (unfold rcv1; rewrite set_at_length; lia).
  assert (bytes_ok rcv1) as B1 by (by apply set_at_ok).
  assert (inv (header_of s) s1) as Hi1.
  { destruct Hi. constructor; cbn [ps_rm ps_rcv ps_resp s1]; try done; unfold rcv1; by rewrite get_set_other by lia. }
  assert (exists c, load_descq_conf rcv1 = Ok (c, rcv1)) as [c Ec].
  { unfold load_descq_conf, load_struct. change (layout_bytes descq_conf_layout) with 32%nat.
    destruct (conf_of_length (unpack descq_conf_layout (get_at 32 descq_conf_at rcv1)) (unpack_length _ _)) as [c Ec].
    exists c. rewrite (cmd_bind_run _ _ _ (unpack descq_conf_layout (get_at 32 descq_conf_at rcv1)) rcv1).
    - by apply lift_run.
    - erewrite cmd_bind_run by (apply load_run; lia). done. }
  pose proof (conf_func_id rcv1 c B1 ltac:(lia) Ec) as Hc. unfold rcv1 in Hc at 1. rewrite get_set_same in Hc by lia.
  pose proof (get_range 2 src_func_id_at (ps_rcv s) Hb ltac:(lia)) as Hsr. fold src in Hsr.
  rewrite Z.mod_small in Hc by exact Hsr.
  assert (do_qctxt_write dev idx s = Ok (0, s1)) as E.
  { unfold do_qctxt_write. rewrite (do_qctxt_run (header_of s) Hl Hl') by done.
    rewrite (cmd_bind_run _ _ _ _ _ E1). rewrite (cmd_bind_run _ _ _ c s1) by (unfold on_rcv; cbn [ps_rcv s1]; by rewrite Ec).
    eapply foreign_write_run; cbn [mq_descq_conf mq_qid_hw]; [rewrite Hc; exact Hf|exact Hq]. }
  by exists s1.
Qed.

(** A request about another's queue is reported as done.  When a function asks for
    the contexts of a queue it does not hold to be cleared, invalidated or written,
    nothing is changed, but the answer has the status of success. *)
Theorem foreign_queue_reported_done s j m k x : rm_wf (ps_rm s) -> messages_ok s ->
  context_op (get_at 1 op_at (ps_rcv s)) ->
  (qc_type (ps_rcv s) = QDMA_MBOX_CMPT_CTXT_ONLY -> get_at 1 op_at (ps_rcv s) = MBOX_OP_QCTXT_WRT) ->
  finds (ps_rm s) idx (get_at 2 src_func_id_at (ps_rcv s)) j m k x ->
  in_range (de_entry x) (qc_qid (ps_rcv s)) = QDMA_DEV_Q_OUT_OF_RANGE -> exists s',
  qdma_mbox_pf_rcv_msg_handler dev idx func_id true s = Ok (0, s') /\ get_at 1 status_at (ps_resp s') = 0 /\
  ps_rm s' = ps_rm s /\ ps_dev s' = ps_dev s /\ drop 6 (ps_resp s') = drop 6 (ps_resp s).
Proof.
  intros Hr Hm Hop Hty Hf Hq. pose proof (inv_of s Hr Hm) as Hi. pose proof Hm as [Hb Hl Hb' Hl'].
  set (src := get_at 2 src_func_id_at (ps_rcv s)) in *.
  assert (forall t, qc_type (ps_rcv s) <> QDMA_MBOX_CMPT_CTXT_ONLY -> do_qctxt (all_queue_contexts t dev idx) s = Ok (0, s)) as Hall.
  { intros t Hne. rewrite (do_qctxt_run (header_of s) Hl Hl') by done. eapply foreign_all_run; [exact Hf|exact Hq|exact Hne]. }
  destruct Hop as [Hop|[Hop|Hop]]; dispatch Hl Hop; rewrite same_state.
  - destruct (answer_from _ 0 0 s s Hm (Hall QDMA_HW_ACCESS_CLEAR ltac:(intros He; apply Hty in He; rewrite Hop in He; discriminate)) Hi)
      as (s' & E & ? & ? & ? & ?). exists s'. split; [exact E|done].
  - destruct (answer_from _ 0 0 s s Hm (Hall QDMA_HW_ACCESS_INVALIDATE ltac:(intros He; apply Hty in He; rewrite Hop in He; discriminate)) Hi)
      as (s' & E & ? & ? & ? & ?). exists s'. split; [exact E|done].
  - destruct (foreign_write_request s j m k x Hr Hm Hf Hq) as (s1 & E & Hrm & Hd & Hrs & Hi1).
    destruct (answer_from _ 0 0 s s1 Hm E Hi1) as (s' & E' & ? & ? & ? & ?). exists s'. split; [exact E'|]. by rewrite <- Hrm, <- Hd, <- Hrs.
Qed.

(** Completion contexts are not guarded.  A request to clear or to invalidate a
    completion context alone is carried out for any queue number, whether the sender
    holds that queue, any queue, or is known at all; the answer has the status of
    the access to the device. *)
Theorem completion_contexts_unguarded s t : rm_wf (ps_rm s) -> messages_ok s ->
  (get_at 1 op_at (ps_rcv s) = MBOX_OP_QCTXT_CLR /\ t = QDMA_HW_ACCESS_CLEAR) \/
  (get_at 1 op_at (ps_rcv s) = MBOX_OP_QCTXT_INV /\ t = QDMA_HW_ACCESS_INVALIDATE) ->
  qc_type (ps_rcv s) = QDMA_MBOX_CMPT_CTXT_ONLY -> exists rv w s',
  eqdma_cmpt_ctx_conf (Some dev) (qc_qid (ps_rcv s)) None t (ps_dev s) = Ok (rv, None, w) /\
  qdma_mbox_pf_rcv_msg_handler dev idx func_id true s = Ok (0, s') /\
  ps_dev s' = w /\ ps_rm s' = ps_rm s /\ get_at 1 status_at (ps_resp s') = (if decide (rv < 0) then rv mod 256 else 0).
Proof.
  intros Hr Hm Hop Hty. pose proof (inv_of s Hr Hm) as Hi. pose proof Hm as [Hb Hl Hb' Hl'].
  assert (exists rv w, eqdma_cmpt_ctx_conf (Some dev) (qc_qid (ps_rcv s)) None t (ps_dev s) = Ok (rv, None, w)) as (rv & w & Ec).
  { destruct (cm_conf_total dev (qc_qid (ps_rcv s)) None t (ps_dev s)) as ([rv c] & w & E & _). exists rv, w.
    rewrite E. destruct Hop as [[_ ->] | [_ ->]]; cbn [eqdma_cmpt_ctx_conf] in E;
      apply cmd_bind_ok in E as (? & ? & _ & [= _ <- _]); done. }
  exists rv, w. set (s1 := mkPfState (ps_rm s) w (ps_rcv s) (ps_resp s)).
  assert (do_qctxt (all_queue_contexts t dev idx) s = Ok (if decide (rv < 0) then rv else 0, s1)) as E.
  { rewrite (do_qctxt_run (header_of s) Hl Hl') by done. unfold all_queue_contexts, check. rewrite decide_True by done.
    rewrite (cmd_bind_run _ _ _ rv s1); [by case_decide|]. unfold status.
    by rewrite (cmd_bind_run _ _ _ (rv, None) s1) by (unfold on_hw; by rewrite Ec). }
  assert (inv (header_of s) s1) as Hi1 by (destruct Hi; by constructor).
  destruct (answer_from _ 0 _ s s1 Hm E Hi1) as (s' & E' & Hst & Hrm & Hd & _). exists s'. split; [exact Ec|]. split.
  - destruct Hop as [[Hop ->] | [Hop ->]]; dispatch Hl Hop; rewrite same_state; exact E'.
  - split; [done|]. split; [done|]. rewrite Hst. by case_decide.
Qed.

Lemma list_find_update {A} (P : A -> Prop) `{forall x, Decision (P x)} l i x y :
  list_find P l = Some (i, x) -> P y -> list_find P (<[i := y]> l) = Some (i, y).
Proof.
  intros (Hi & Hx & Hl)%list_find_Some Hy. apply list_find_Some. split; [|split; [done|]].
  - apply list_lookup_insert_eq. by eapply lookup_lt_Some.
  - intros j z Hj Hlt. rewrite list_lookup_insert_ne in Hj by lia. by eapply Hl.
Qed.
Lemma finds_update s s' i f j m k x e free : finds s i f j m k x ->
  rm_masters s' = <[j := set_free_list free (set_dev_list (<[k := set_entry e x]> (rm_dev_list m)) m)]> (rm_masters s) ->
  finds s' i f j (set_free_list free (set_dev_list (<[k := set_entry e x]> (rm_dev_list m)) m)) k (set_entry e x).
Proof.
  intros [Hf Hd] E. split.
  - rewrite E. eapply list_find_update; [exact Hf|]. apply list_find_Some in Hf as (_ & Hf & _). by destruct m.
  - unfold find_dev in *. destruct m. cbn in *. eapply list_find_update; [exact Hd|].
    apply list_find_Some in Hd as (_ & Hd & _). by destruct x.
Qed.

(** The request, after the resource manager's answer. *)
Definition granted_resp (rv : Z) (e : resource_entry) (resp : bytes) : bytes :=
  if decide (rv = 0) then set_at 4 fmap_qmax_at (re_total_q e) (set_at 4 fmap_qbase_at (re_qbase e) resp) else resp.
Lemma granted_resp_ok rv e resp : bytes_ok resp -> (152 <= length resp)%nat ->
  bytes_ok (granted_resp rv e resp) /\ length (granted_resp rv e resp) = length resp.
Proof.
  intros H Hl. unfold granted_resp. case_decide; [|done].
  split; [by do 2 apply set_at_ok|]. rewrite !set_at_length by (rewrite ?set_at_length; lia). done.
Qed.
Lemma qreq_run s rv e' r' j m k x : messages_ok s ->
  qdma_dev_update idx (get_at 2 src_func_id_at (ps_rcv s)) (get_at 4 fmap_qmax_at (ps_rcv s))
    (s32 (get_at 4 fmap_qbase_at (ps_rcv s))) (ps_rm s) = Ok ((rv, re_qbase e'), r') ->
  rv <= 0 -> finds r' idx (get_at 2 src_func_id_at (ps_rcv s)) j m k (set_entry e' x) -> exists w,
  do_qreq dev idx s = Ok (if decide (rv = 0) then 0 else - QDMA_ERR_MBOX_NUM_QUEUES,
    mkPfState r' w (set_at 4 fmap_qbase_at (re_qbase e') (ps_rcv s)) (granted_resp rv e' (ps_resp s))).
Proof.
  intros Hm E Hrv0 Hf. pose proof Hm as [Hb Hl Hb' Hl']. pose proof Hl as Hl0.
  set (src := get_at 2 src_func_id_at (ps_rcv s)) in *. set (rcv1 := set_at 4 fmap_qbase_at (re_qbase e') (ps_rcv s)).
  unfold do_qreq, get_src_func_id.
  do 3 (erewrite cmd_bind_run by (apply on_load; [exact Hm|lia])).
  fold src. rewrite (cmd_bind_run _ _ _ (rv, re_qbase e') (mkPfState r' (ps_dev s) (ps_rcv s) (ps_resp s)))
    by (unfold on_rm; by rewrite E).
  cbv beta iota. rewrite (cmd_bind_run _ _ _ tt (mkPfState r' (ps_dev s) rcv1 (ps_resp s)))
    by (unfold on_rcv; cbn [ps_rcv]; rewrite store_run by lia; done).
  unfold granted_resp. destruct (decide (rv = 0)) as [->|Hrv].
  - rewrite (cmd_bind_run _ _ _ 0 (mkPfState r' (ps_dev s) rcv1
      (set_at 4 fmap_qmax_at (re_total_q e') (set_at 4 fmap_qbase_at (re_qbase e') (ps_resp s))))).
    + rewrite decide_False by lia. unfold fmap_write, status.
      destruct (fm_conf_total dev src (Some (mkFm 0 0)) QDMA_HW_ACCESS_WRITE (ps_dev s)) as ([rv2 c2] & w & Ew & _).
      exists w. set (s2 := mkPfState r' w rcv1 _). rewrite (cmd_bind_run _ _ _ rv2 s2); [done|].
      rewrite (cmd_bind_run _ _ _ (rv2, c2) s2); [done|]. unfold on_hw. cbn [ps_dev]. by rewrite Ew.
    + unfold qinfo_get. rewrite (cmd_bind_run _ _ _ (0, Some e') (mkPfState r' (ps_dev s) rcv1 (ps_resp s))).
      * cbv beta iota. erewrite cmd_bind_run; [done|]. unfold on_resp. cbn [ps_resp].
        erewrite cmd_bind_run by (apply store_run; lia). rewrite store_run by (rewrite set_at_length; lia). done.
      * unfold on_rm. cbn [ps_rm]. rewrite (qinfo_run _ _ _ _ _ _ _ Hf). by destruct x.
  - rewrite (cmd_bind_run _ _ _ rv (mkPfState r' (ps_dev s) rcv1 (ps_resp s))) by done.
    rewrite decide_True by lia. by exists (ps_dev s).
Qed.

(** C16. A request for queues is answered with what was granted.  For a function that
    is known and has no active queue, and for a count and a base below 2^31, when no
    allocation fails ([rm_ok]), the resource manager carries the request out as
    [Resource.dev_update_correct] says for that case; the answer to a request it granted has the
    base and the number of the queues the function now holds, and the status of
    success; the answer to one it refused has the status [MBOX_NUM_QUEUES]. *)
Theorem queue_request_answered s j m k x : rm_ok (ps_rm s) -> messages_ok s ->
  get_at 1 op_at (ps_rcv s) = MBOX_OP_QREQ -> qreq_ok (ps_rcv s) ->
  finds (ps_rm s) idx (get_at 2 src_func_id_at (ps_rcv s)) j m k x ->
  de_h2c x = 0 -> de_c2h x = 0 -> de_cmpt x = 0 ->
  let qmax := get_at 4 fmap_qmax_at (ps_rcv s) in
  let qbase := s32 (get_at 4 fmap_qbase_at (ps_rcv s)) in
  exists rv e' free' s', qdma_mbox_pf_rcv_msg_handler dev idx func_id true s = Ok (0, s') /\
    rm_masters (ps_rm s') = <[j := set_free_list free' (set_dev_list (<[k := set_entry e' x]> (rm_dev_list m)) m)]>
      (rm_masters (ps_rm s)) /\
    request_post (rm_qbase m) (rm_qbase m + rm_total_q m) qmax qbase (de_entry x) (rm_free_list m) rv e' free' /\
    get_at 1 status_at (ps_resp s') = (if decide (rv = 0) then 0 else - QDMA_ERR_MBOX_NUM_QUEUES mod 256) /\
    (rv = 0 -> get_at 4 fmap_qbase_at (ps_resp s') = re_qbase e' mod 2 ^ 32 /\ get_at 4 fmap_qmax_at (ps_resp s') = qmax).
Proof.
  intros Hr Hm Hop [Hq1 Hq2] Hf H1 H2 H3 qmax qbase. pose proof (inv_of s (rm_ok_wf _ Hr) Hm) as Hi. pose proof Hm as [Hb Hl Hb' Hl'].
  set (src := get_at 2 src_func_id_at (ps_rcv s)) in *.
  pose proof (get_range 4 fmap_qmax_at (ps_rcv s) Hb ltac:(lia)) as [Hq0 _]. fold qmax in Hq0, Hq1.
  pose proof (s32_range (get_at 4 fmap_qbase_at (ps_rcv s))) as [_ Hqb]. unfold fits_s32 in Hqb. fold qbase in Hqb, Hq2.
  destruct (dev_update_run idx src qmax qbase (ps_rm s) j m k x (rm_ok_wf _ Hr) Hf H1 H2 H3 ltac:(lia) ltac:(lia))
    as (rv & e' & free' & r' & E & Hms & lost & _ & Hpost). specialize (Hpost (rk_mem _ Hr)) as [_ Hpost].
  destruct (dev_update_keeps _ idx src qmax qbase (ps_rm s) (rm_inv_of _ (rm_ok_wf _ Hr)) ltac:(lia) ltac:(lia)) as (p & r1 & E1 & Hr').
  rewrite E in E1. injection E1 as <- <-.
  exists rv, e', free'. pose proof (finds_update _ r' _ _ _ _ _ _ e' free' Hf Hms) as Hf'.
  pose proof Hpost as [_ _ _ _ Hres _].
  assert (rv <= 0) as Hrv0 by (destruct Hres as [[-> _]|(-> & _)]; unfold ERR_RM_NO_QUEUES_LEFT; lia).
  destruct (qreq_run s rv e' r' _ _ _ _ Hm E Hrv0 Hf') as [w Ed].
  destruct (granted_resp_ok rv e' (ps_resp s) Hb' Hl') as [Rok Rlen].
  assert (inv (header_of s) (mkPfState r' w (set_at 4 fmap_qbase_at (re_qbase e') (ps_rcv s)) (granted_resp rv e' (ps_resp s)))) as Hi1.
  { destruct Hi. constructor; cbn [ps_rm ps_rcv ps_resp]; try done;
      [by apply set_at_ok|by rewrite set_at_length by lia|by rewrite get_set_other by lia|by rewrite get_set_other by lia]. }
  destruct (answer_from _ 0 _ s _ Hm Ed Hi1) as (s' & E' & Hst & Hrm & _ & Hrest). exists s'. split.
  { dispatch Hl Hop. rewrite same_state. exact E'. }
  cbn [ps_rm ps_resp] in *. rewrite Hrm. split; [done|]. split; [done|]. split; [rewrite Hst; by case_decide|].
  intros ->. assert (forall n off, (6 <= off)%nat -> get_at n off (ps_resp s') = get_at n off (granted_resp 0 e' (ps_resp s))) as Hget.
  { intros n off Ho. unfold get_at. replace off with (6 + (off - 6))%nat by lia. by rewrite <- !drop_drop, Hrest. }
  rewrite !Hget by lia. unfold granted_resp. rewrite decide_True by done.
  rewrite get_set_other by (rewrite ?set_at_length; lia). rewrite !get_set_same by (rewrite ?set_at_length; lia).
  split; [done|]. destruct Hpost as [_ _ _ _ [[_ ->]|(Hx & _)] _ _]; [|discriminate Hx]. rewrite Z.mod_small; [done|]. lia.
Qed.
End theorems.

(** ** Witnesses

    A message of function [src] with operation [op] and the members at 6, 8 and 12,
    and the state in which the handler gets it. *)
Definition sample_msg (op src a b c : Z) : bytes :=
  set_at 1 op_at op (set_at 2 src_func_id_at src (set_at 2 6 a (set_at 4 8 b (set_at 4 12 c (replicate 152 0))))).
Definition sample_pf (op src a b c : Z) : pf_state (W := csr_hw) :=
  mkPfState sample_rm csr_hw0 (sample_msg op src a b c) (replicate 152 0).

Lemma zeros_ok n : bytes_ok (replicate n 0).
Proof. apply Forall_replicate. done. Qed.
Lemma sample_pf_ok op src a b c : messages_ok (sample_pf op src a b c).
Proof.
  assert (length (sample_msg op src a b c) = 152%nat) as Hl
    by (unfold sample_msg; rewrite !set_at_length by (rewrite ?set_at_length; rewrite ?set_at_length; cbn; lia); done).
  split; cbn [ps_rcv ps_resp sample_pf]; [|rewrite Hl; lia|apply zeros_ok|rewrite length_replicate; lia].
  unfold sample_msg. repeat apply set_at_ok. apply zeros_ok.
Qed.

(** A request for 512 queues. *)
Lemma pf_handler_sound_witness : let s := sample_pf MBOX_OP_QREQ 1 0 100 512 in
  exists ret s', qdma_mbox_pf_rcv_msg_handler 0 0 0 true s = Ok (ret, s') /\ rm_ok (ps_rm s') /\
    length (ps_rcv s') = length (ps_rcv s) /\ length (ps_resp s') = length (ps_resp s).
Proof.
  destruct (pf_handler_sound 0 0 0 (sample_pf MBOX_OP_QREQ 1 0 100 512) (rm_ok_wf _ sample_rm_ok) (sample_pf_ok _ _ _ _ _))
    as (ret & s' & E & _ & Hr & H1 & H2 & _).
  - split; [|intros [H _]; revert H; by vm_compute]. intros _. split; [vm_compute; reflexivity|].
    vm_compute. discriminate.
  - exists ret, s'. split; [exact E|]. split; [exact (Hr sample_rm_ok)|]. split; [exact H1|exact H2].
Defined.

(** Function 1 holds no queue and asks for queue 7 to be cleared. *)
Lemma foreign_queue_reported_done_witness : let s := sample_pf MBOX_OP_QCTXT_CLR 1 7 4 0 in
  exists s', qdma_mbox_pf_rcv_msg_handler 0 0 0 true s = Ok (0, s') /\ get_at 1 status_at (ps_resp s') = 0 /\
  ps_rm s' = ps_rm s /\ ps_dev s' = ps_dev s /\ drop 6 (ps_resp s') = drop 6 (ps_resp s).
Proof.
  apply (foreign_queue_reported_done 0 0 0 (sample_pf MBOX_OP_QCTXT_CLR 1 7 4 0) 0 sample_master 0 sample_dev
    (rm_ok_wf _ sample_rm_ok) (sample_pf_ok _ _ _ _ _)).
  - left. vm_compute. reflexivity.
  - intros H. vm_compute in H. discriminate H.
  - by split.
  - vm_compute. reflexivity.
Defined.

(** Function 9 is not known and asks for completion context 7 to be cleared. *)
Lemma completion_contexts_unguarded_witness : let s := sample_pf MBOX_OP_QCTXT_CLR 9 7 0 0 in exists rv w s',
  eqdma_cmpt_ctx_conf (Some 0) 7 None QDMA_HW_ACCESS_CLEAR csr_hw0 = Ok (rv, None, w) /\
  qdma_mbox_pf_rcv_msg_handler 0 0 0 true s = Ok (0, s') /\ ps_dev s' = w.
Proof.
  destruct (completion_contexts_unguarded 0 0 0 (sample_pf MBOX_OP_QCTXT_CLR 9 7 0 0) QDMA_HW_ACCESS_CLEAR
    (rm_ok_wf _ sample_rm_ok) (sample_pf_ok _ _ _ _ _)) as (rv & w & s' & E & E' & Hw & _).
  - left. split; [vm_compute; reflexivity|reflexivity].
  - vm_compute. reflexivity.
  - exists rv, w, s'. split; [exact E|]. split; [exact E'|exact Hw].
Defined.

Lemma queue_request_answered_witness : let s := sample_pf MBOX_OP_QREQ 1 0 100 512 in
  exists rv e' free' s', qdma_mbox_pf_rcv_msg_handler 0 0 0 true s = Ok (0, s') /\
    request_post 0 (0 + 2048) 512 100 no_chunk [mkChunk 0 2048] rv e' free' /\
    get_at 1 status_at (ps_resp s') = (if decide (rv = 0) then 0 else - QDMA_ERR_MBOX_NUM_QUEUES mod 256).
Proof.
  destruct (queue_request_answered 0 0 0 (sample_pf MBOX_OP_QREQ 1 0 100 512) 0 sample_master 0 sample_dev
    sample_rm_ok (sample_pf_ok _ _ _ _ _)) as (rv & e' & free' & s' & E & _ & Hp & Hst & _);
    [vm_compute; reflexivity|split; [vm_compute; reflexivity|vm_compute; discriminate]|by split|reflexivity..|].
  exists rv, e', free', s'. split; [exact E|]. split; [exact Hp|exact Hst].
Defined.
