(* ===== verification/MboxCtxt.v ===== *)
(** * Programming a queue over the mailbox

    [mbox_write_queue_contexts] on a device that answers in time and has the
    configured sizes in its global registers: what is in the contexts of the queue,
    and of all other queues, when it returns. *)

From S2P Require Import Prelude Float64 Device Resource Fields Indirect CtxtRegs Context Csr RegTable RegDump Bytes MboxMsg MboxPf MboxPfOk.
From stdpp Require Import gmap.

Open Scope Z_scope.

(** ** Words from fields

    [packed] is the number with the fields [(lowest bit, width, value)], each value cut
    to its width, and zero elsewhere. *)
Fixpoint packed (fs : list (Z * Z * Z)) : Z :=
  match fs with [] => 0 | (lo, n, v) :: fs => v mod 2 ^ n * 2 ^ lo + packed fs end.

Definition at_bits (fs : list (Z * Z)) : list (Z * Z * Z) :=
  (fun f => (FIELD_SHIFT (fst f), fwidth (fst f), snd f)) <$> fs.

Lemma field_set_packed m v : contiguous m = true -> FIELD_SET m v = v mod 2 ^ fwidth m * 2 ^ FIELD_SHIFT m.
Proof.
  intros Hc. pose proof (contiguous_inv m Hc) as (Hs & Hw & Hm). rewrite <- Z.shiftl_mul_pow2 by lia.
  apply Z.bits_inj'. intros i Hi. unfold FIELD_SET. rewrite Z.land_spec.
  destruct (decide (i < FIELD_SHIFT m)); [by rewrite !Z.shiftl_spec_low by lia|].
  rewrite !Z.shiftl_spec by lia. replace i with ((i - FIELD_SHIFT m) + FIELD_SHIFT m) at 2 by lia.
  rewrite mask_bit by (done || lia). destruct (Z.ltb_spec (i - FIELD_SHIFT m) (fwidth m)).
  - by rewrite Z.mod_pow2_bits_low, andb_true_r by lia.
  - by rewrite Z.mod_pow2_bits_high, andb_false_r by lia.
Qed.

Lemma land_word_other m fs : forallb (fun m' => Z.land m m' =? 0) (fst <$> fs) = true -> Z.land m (word fs) = 0.
Proof.
  induction fs as [|[m' v] fs IH]; cbn -[FIELD_SET]; [intros _; apply Z.land_0_r|].
  rewrite andb_true_iff, Z.eqb_eq. intros [H1 H2]. rewrite Z.land_lor_distr_r, IH by done.
  unfold FIELD_SET. rewrite (Z.land_comm _ m'), Z.land_assoc, H1. by rewrite Z.land_0_l.
Qed.

Lemma word_packed fs : layout_ok (fst <$> fs) = true -> word fs = packed (at_bits fs).
Proof.
  induction fs as [|[m v] fs IH]; [done|]. intros H. cbn -[forallb contiguous] in H.
  rewrite !andb_true_iff in H. destruct H as [[Hc Hd] Hok]. cbn [word].
  change (packed (at_bits ((m, v) :: fs))) with (v mod 2 ^ fwidth m * 2 ^ FIELD_SHIFT m + packed (at_bits fs)).
  rewrite <- IH, <- field_set_packed by done.
  pose proof (Z.add_lor_land (FIELD_SET m v) (word fs)) as H.
  assert (Z.land (FIELD_SET m v) (word fs) = 0) as H0; [|lia].
  unfold FIELD_SET. by rewrite <- Z.land_assoc, land_word_other, Z.land_0_r.
Qed.

Lemma field_get_div m x : contiguous m = true -> FIELD_GET m x = (x / 2 ^ FIELD_SHIFT m) mod 2 ^ fwidth m.
Proof.
  intros Hc. pose proof (contiguous_inv m Hc) as (Hs & Hw & Hm). rewrite <- Z.shiftr_div_pow2, <- Z.land_ones by lia.
  unfold FIELD_GET. rewrite Z.shiftr_land. f_equal. rewrite Hm at 1. rewrite Z.shiftr_shiftl_l by lia.
  by rewrite Z.sub_diag, Z.shiftl_0_r.
Qed.

Lemma u8_low x n : 0 <= n <= 8 -> u8 x mod 2 ^ n = x mod 2 ^ n.
Proof.
  intros Hn. unfold u8. rewrite <- !Z.land_ones by lia. change 256 with (2 ^ 8).
  rewrite <- Z.land_ones, <- Z.land_assoc by lia. f_equal. apply Z.bits_inj'. intros i Hi.
  rewrite Z.land_spec, !Z.testbit_ones_nonneg by lia. destruct (Z.ltb_spec i 8), (Z.ltb_spec i n); cbn; lia.
Qed.

Lemma lnot_low x : u8 (Z.lnot x) mod 2 ^ 1 = (1 - x) mod 2 ^ 1.
Proof. rewrite u8_low by lia. unfold Z.lnot. Z.div_mod_to_equations. lia. Qed.

(** [pack_words]: words of fields with known masks are [packed] fields. *)
Ltac eval_masks :=
  repeat match goal with
  | |- context [FIELD_SHIFT ?m] => let v := eval vm_compute in (FIELD_SHIFT m) in change (FIELD_SHIFT m) with v
  | |- context [fwidth ?m] => let v := eval vm_compute in (fwidth m) in change (fwidth m) with v
  end.
Ltac pack_words :=
  repeat rewrite word_packed by (vm_compute; reflexivity);
  rewrite ?field_get_div by (vm_compute; reflexivity);
  cbn [at_bits fmap list_fmap fst snd packed]; eval_masks;
  rewrite ?Zdiv_0_l, ?Zmod_0_l, ?Zmod_mod, ?lnot_low;
  repeat match goal with |- context [u8 ?x mod 2 ^ ?n] => rewrite (u8_low x n) by lia end;
  unfold u8; repeat (apply (f_equal2 cons); [lia|]); reflexivity.

Section contexts.
Context {W : Type} `{io : IoMem W} `{ic : IndCtxt W} (dev : Z) `{iok : !IndCtxtOk W dev}
  `{rf : RegFile W} `{rfok : !RegFileOk W dev}.

(** *** Sizes and thresholds *)
Definition csr_find (t : qdma_global_csr_type) (f : Z -> bool) (w : W) : option Z := csr_index f 0 (csr_vals t 0 16 w).
Definition ring_found (v : Z) (w : W) : option Z := csr_find QDMA_CSR_RING_SZ (fun x => v =? u32 (x - 1)) w.

Lemma read_csr_all t w : t <> QDMA_CSR_MAX -> csr_supported t w = true ->
  eqdma_global_csr_conf (Some dev) 0 QDMA_GLOBAL_CSR_ARRAY_SZ csr_array t QDMA_HW_ACCESS_READ w =
    Ok (QDMA_SUCCESS, Some (csr_vals t 0 16 w), w).
Proof.
  intros Ht Hs. pose proof (read_csr_run dev t 0 0 16 (replicate 16 0) w Ht ltac:(lia) ltac:(lia)
    ltac:(rewrite length_replicate; lia)) as E.
  rewrite drop_ge, app_nil_r, take_0, app_nil_l in E by (rewrite length_replicate; lia).
  assert (forall b, b = csr_base t -> (values ← qdma_read_csr_values dev b 0 16 (replicate 16 0); mret (QDMA_SUCCESS, Some values)) w =
    Ok (QDMA_SUCCESS, Some (csr_vals t 0 16 w), w)) as H.
  { intros b ->. unfold qdma_read_csr_values. change (Z.to_nat 16) with 16%nat.
    replace (u32 (csr_base t + 0 * 4)) with (csr_base t + 4 * 0) by (destruct t; done).
    by rewrite (cmd_bind_run _ _ _ _ _ E). }
  destruct t; cbn -[qdma_read_csr_values dev_cap_of Z.add]; rewrite ?decide_False by done;
    [by apply H| | | |done];
    rewrite (cmd_bind_run _ _ _ _ _ (dev_cap_run dev w)), ?st_or_mm; cbn [csr_supported] in Hs;
    unfold st_supported in Hs |- *; rewrite Hs; by apply H.
Qed.

Lemma find_csr_run t f err w : t <> QDMA_CSR_MAX -> csr_supported t w = true ->
  find_csr dev t f err w = Ok (match csr_find t f w with Some i => (QDMA_SUCCESS, Some i) | None => (- err, None) end, w).
Proof.
  intros Ht Hs. unfold find_csr. rewrite (cmd_bind_run _ _ _ _ _ (read_csr_all t w Ht Hs)).
  rewrite decide_False by (intros H; by apply H). unfold csr_find. cbn [default from_option id].
  by destruct (csr_index f 0 (csr_vals t 0 16 w)).
Qed.

(** *** Context memory

    [stores b k v w w']: if [b], the context with selector and queue [k] becomes [v];
    no other one changes. *)
Definition stores (b : bool) (k : Z * Z) (v : list Z) (w w' : W) : Prop :=
  idle w' /\ forall k', ctxt_at (ind w') k' = if decide (b = true /\ k' = k) then v else ctxt_at (ind w) k'.

Lemma stores_insert k v w w' : idle w' -> ih_ctxt (ind w') = <[k := v]> (ih_ctxt (ind w)) -> stores true k v w w'.
Proof.
  intros Hi E. split; [done|]. intros k'. unfold ctxt_at. rewrite E.
  destruct (decide (k' = k)) as [->|Hne]; [rewrite decide_True by done; by rewrite lookup_insert_eq|].
  rewrite decide_False by tauto. by rewrite lookup_insert_ne by done.
Qed.
Lemma clear_stores sel q w : prompt -> idle w -> 0 <= q < 4096 -> exists w1,
  eqdma_indirect_reg_clear dev sel q w = Ok (QDMA_SUCCESS, w1) /\ stores true (sel_val sel, q) zero_ctxt w w1.
Proof.
  intros Hp Hi Hq. destruct (clear_run dev sel q w Hi) as (lat & w1 & E & Hlat & Hw1).
  destruct (answer_prompt lat Hp Hlat) as [Ha H0]. rewrite Ha in E. rewrite H0, exec_clear in Hw1 by done.
  exists w1. split; [done|]. apply stores_insert; [unfold idle; rewrite Hw1; reflexivity|rewrite Hw1; reflexivity].
Qed.
Lemma write_stores sel q data w : prompt -> idle w -> 0 <= q < 4096 -> (length data <= 8)%nat -> Forall fits_u32 data -> exists w1,
  eqdma_indirect_reg_write dev sel q data w = Ok (QDMA_SUCCESS, w1) /\ stores true (sel_val sel, q) (padded data) w w1.
Proof.
  intros Hp Hi Hq Hl Hd. destruct (write_run dev sel q data w Hi Hl Hd Hq) as (lat & w1 & E & Hlat & Hc & Hb).
  destruct (answer_prompt lat Hp Hlat) as [Ha H0]. rewrite Ha in E. rewrite H0 in Hb.
  exists w1. split; [done|]. by apply stores_insert.
Qed.

(** The same from the handler: a step that succeeds and stores a context. *)
Definition at_dev (s : pf_state (W := W)) (w : W) : pf_state := mkPfState (ps_rm s) w (ps_rcv s) (ps_resp s).
Definition step_stores (b : bool) (k : Z * Z) (v : list Z) (c : cmd (pf_state (W := W)) Z) : Prop :=
  forall s, idle (ps_dev s) -> exists w, c s = Ok (QDMA_SUCCESS, at_dev s w) /\ stores b k v (ps_dev s) w.

Lemma status_stores {A} k v (c : cmd W Z) (x : A) :
  (forall w, idle w -> exists w1, c w = Ok (QDMA_SUCCESS, w1) /\ stores true k v w w1) ->
  step_stores true k v (status (rv ← c; mret (rv, x))).
Proof.
  intros Hc s Hs. destruct (Hc _ Hs) as (w & E & H). exists w. split; [|done]. unfold status.
  rewrite (cmd_bind_run _ _ _ (QDMA_SUCCESS, x) (at_dev s w)); [done|]. unfold on_hw. by rewrite (cmd_bind_run _ _ _ _ _ E).
Qed.
Lemma when_stores b k v c : (b = true -> step_stores true k v c) -> step_stores b k v (step_when b c).
Proof.
  intros Hc s Hs. destruct b; [by apply Hc|]. exists (ps_dev s). split; [by destruct s|]. split; [done|].
  intros k'. by rewrite decide_False by (intros [[=] _]).
Qed.

(** A sequence of steps, and what it leaves in the context at [k]. *)
Notation store_ := (bool * (Z * Z) * list Z)%type.
Fixpoint final (l : list store_) (k : Z * Z) (v : list Z) : list Z :=
  match l with
  | [] => v
  | (b, k1, v1) :: l => final l k (if decide (b = true /\ k = k1) then v1 else v)
  end.
Definition run_steps : list (cmd (pf_state (W := W)) Z) -> cmd (pf_state (W := W)) Z := foldr check (mret QDMA_SUCCESS).

Lemma run_steps_stores cs l : Forall2 (fun c st => step_stores (fst (fst st)) (snd (fst st)) (snd st) c) cs l ->
  forall s, idle (ps_dev s) -> exists w, run_steps cs s = Ok (QDMA_SUCCESS, at_dev s w) /\ idle w /\
    forall k, ctxt_at (ind w) k = final l k (ctxt_at (ind (ps_dev s)) k).
Proof.
  induction 1 as [|c [[b k] v] cs l Hc Hl IH]; intros s Hs; [exists (ps_dev s); by destruct s|].
  destruct (Hc s Hs) as (w1 & E1 & Hi1 & H1). destruct (IH (at_dev s w1) Hi1) as (w & E & Hi & H).
  exists w. split; [|split; [done|intros k'; rewrite H; cbn [final fst snd ps_dev at_dev] in *; by rewrite H1]].
  cbn [run_steps foldr]. unfold check at 1. rewrite (cmd_bind_run _ _ _ _ _ E1).
  rewrite decide_False by (unfold QDMA_SUCCESS; lia). exact E.
Qed.

(** The contexts of queue [q] cleared, or written. *)
Section queue.
Context (Hp : prompt (W := W)) (q c2h : Z) (Hq : 0 <= q < 4096) (Hc2h : 0 <= c2h < 2).
Lemma clear_sw : step_stores true (sel_val (sw_sel c2h), q) zero_ctxt (status (eqdma_sw_ctx_conf (Some dev) c2h q None QDMA_HW_ACCESS_CLEAR)).
Proof. apply status_stores. intros w Hw. by apply clear_stores. Qed.
Lemma clear_hw : step_stores true (sel_val (hw_sel c2h), q) zero_ctxt (status (eqdma_hw_ctx_conf (Some dev) c2h q None QDMA_HW_ACCESS_CLEAR)).
Proof. unfold eqdma_hw_ctx_conf. rewrite decide_False by lia. apply status_stores. intros w Hw. by apply clear_stores. Qed.
Lemma clear_cr : step_stores true (sel_val (cr_sel c2h), q) zero_ctxt (status (eqdma_credit_ctx_conf (Some dev) c2h q None QDMA_HW_ACCESS_CLEAR)).
Proof. unfold eqdma_credit_ctx_conf. rewrite decide_False by lia. apply status_stores. intros w Hw. by apply clear_stores. Qed.
Lemma clear_pf : step_stores true (sel_val QDMA_CTXT_SEL_PFTCH, q) zero_ctxt (status (eqdma_pfetch_ctx_conf (Some dev) q None QDMA_HW_ACCESS_CLEAR)).
Proof. apply status_stores. intros w Hw. by apply clear_stores. Qed.
Lemma clear_cm : step_stores true (sel_val QDMA_CTXT_SEL_CMPT, q) zero_ctxt (status (eqdma_cmpt_ctx_conf (Some dev) q None QDMA_HW_ACCESS_CLEAR)).
Proof. apply status_stores. intros w Hw. by apply clear_stores. Qed.
Lemma write_sw c : step_stores true (sel_val (sw_sel c2h), q) (padded (sw_words c))
  (status (eqdma_sw_ctx_conf (Some dev) c2h q (Some c) QDMA_HW_ACCESS_WRITE)).
Proof. apply status_stores. intros w Hw. apply write_stores; [done..|cbn; lia|apply sw_words_u32]. Qed.
Lemma write_pf c : step_stores true (sel_val QDMA_CTXT_SEL_PFTCH, q) (padded (pf_words c))
  (status (eqdma_pfetch_ctx_conf (Some dev) q (Some c) QDMA_HW_ACCESS_WRITE)).
Proof. apply status_stores. intros w Hw. apply write_stores; [done..|cbn; lia|apply pf_words_u32]. Qed.
Lemma write_cm c : cm_trig_mode c <= 5 -> step_stores true (sel_val QDMA_CTXT_SEL_CMPT, q) (padded (cm_words c))
  (status (eqdma_cmpt_ctx_conf (Some dev) q (Some c) QDMA_HW_ACCESS_WRITE)).
Proof.
  intros Hc. apply status_stores. intros w Hw. unfold eqdma_cmpt_context_write, QDMA_CMPT_UPDATE_TRIG_MODE_TMR_CNTR.
  rewrite decide_False by lia. apply write_stores; [done..|cbn; lia|apply cm_words_u32].
Qed.
End queue.

(** ** The contexts of a queue *)
Section write.
Context (idx : Z) (q : mbox_msg_qctxt).
Notation conf := (mq_descq_conf q).
Notation qid := (mq_qid_hw q).
Notation c2h := (mq_c2h q).
Notation streams := (both (mq_st q) (mq_c2h q)).
Notation completes := (with_cmpt (mq_cmpt_ctxt_type q)).

(** What the global registers must have, and the indices the contexts get: register
    [i] of the sixteen is the first that satisfies [P]. *)
Definition first_reg (t : qdma_global_csr_type) (P : Z -> Prop) (w : W) (i : Z) : Prop :=
  0 <= i /\ (exists v, csr_vals t 0 16 w !! Z.to_nat i = Some v /\ P v) /\
  forall j v, 0 <= j < i -> csr_vals t 0 16 w !! Z.to_nat j = Some v -> ~ P v.
Record sizes := mkSizes { sz_ring : Z; sz_buf : Z; sz_cntr : Z; sz_tmr : Z; sz_cmpt_ring : Z }.

(** A stream queue to the host; a request that names a completion queue. *)
Definition stream_to_host : Prop := mq_st q <> 0 /\ mq_c2h q <> 0.
Definition has_cmpt : Prop :=
  mq_cmpt_ctxt_type q = QDMA_MBOX_CMPT_WITH_MM \/ mq_cmpt_ctxt_type q = QDMA_MBOX_CMPT_WITH_ST.
Instance stream_to_host_dec : Decision stream_to_host := ltac:(unfold stream_to_host; apply _).
Instance has_cmpt_dec : Decision has_cmpt := ltac:(unfold has_cmpt; apply _).

Record sizes_found (z : sizes) (w : W) : Prop := {
  sf_ring : first_reg QDMA_CSR_RING_SZ (fun v => u32 (v - 1) = dc_ringsz conf) w (sz_ring z);
  sf_buf : stream_to_host -> st_supported w = true /\ first_reg QDMA_CSR_BUF_SZ (eq (dc_bufsz conf)) w (sz_buf z);
  sf_cmpt : has_cmpt -> st_supported w = true /\
    first_reg QDMA_CSR_CNT_TH (eq (dc_cnt_thres conf)) w (sz_cntr z) /\
    first_reg QDMA_CSR_TIMER_CNT (eq (dc_timer_thres conf)) w (sz_tmr z) /\
    first_reg QDMA_CSR_RING_SZ (fun v => u32 (v - 1) = dc_cmpt_ringsz conf) w (sz_cmpt_ring z) }.

Lemma csr_index_first (f : Z -> bool) (P : Z -> Prop) l : (forall v, f v = true <-> P v) -> forall k i, 0 <= i ->
  (exists v, l !! Z.to_nat i = Some v /\ P v) -> (forall j v, 0 <= j < i -> l !! Z.to_nat j = Some v -> ~ P v) ->
  csr_index f k l = Some (k + i).
Proof.
  intros Hf. induction l as [|x l IH]; intros k i Hi (v & Hv & HP) Hmin; [done|]. cbn [csr_index].
  destruct (f x) eqn:Ex.
  - destruct (decide (i = 0)) as [->|Hne]; [f_equal; lia|]. exfalso.
    apply (Hmin 0 x); [lia|done|by apply Hf].
  - destruct (decide (i = 0)) as [->|Hne].
    { cbn in Hv. injection Hv as ->. apply Hf in HP. congruence. }
    replace (Z.to_nat i) with (S (Z.to_nat (i - 1))) in Hv by lia.
    rewrite (IH (k + 1) (i - 1)); [f_equal; lia|lia|by exists v|].
    intros j u Hj Hu. apply (Hmin (j + 1)); [lia|].
    by replace (Z.to_nat (j + 1)) with (S (Z.to_nat j)) by lia.
Qed.

Lemma first_reg_found t f P w i : (forall v, f v = true <-> P v) -> first_reg t P w i -> csr_find t f w = Some i.
Proof. intros Hf (Hi & Hv & Hm). unfold csr_find. by rewrite (csr_index_first f P _ Hf 0 i Hi Hv Hm). Qed.

Lemma streams_iff : streams = true <-> stream_to_host.
Proof. apply bool_decide_eq_true. Qed.
Lemma completes_iff : completes = true <-> has_cmpt.
Proof. apply bool_decide_eq_true. Qed.

Lemma ring_first w i v : first_reg QDMA_CSR_RING_SZ (fun x => u32 (x - 1) = v) w i -> ring_found v w = Some i.
Proof. apply first_reg_found. intros x. rewrite Z.eqb_eq. split; congruence. Qed.
Lemma eq_first t w i v : first_reg t (eq v) w i -> csr_find t (fun x => x =? v) w = Some i.
Proof. apply first_reg_found. intros x. rewrite Z.eqb_eq. split; congruence. Qed.

(** The words of the contexts, field by field.  A stream queue to the host has the
    write-back and interrupt members of its descriptor ring off: its completion ring
    has them.  Of the function number eight bits are kept. *)
Definition sw_fields (z : sizes) : list (list (Z * Z * Z)) :=
  let mm v := if decide stream_to_host then 0 else v in
  [ [(16, 1, mm (dc_irq_arm conf)); (17, 12, dc_func_id conf mod 256)];
    [(0, 1, 1); (1, 1, dc_forced_en conf); (2, 1, mm (dc_wbi_chk conf)); (3, 1, dc_wbi_intvl_en conf);
     (12, 4, sz_ring z); (16, 2, dc_desc_sz conf); (18, 1, dc_en_bypass conf); (20, 1, mm (dc_wbk_en conf));
     (21, 1, mm (dc_irq_en conf)); (31, 1, 1 - mq_st q)];
    [(0, 32, dc_ring_bs_addr conf)]; [(0, 32, dc_ring_bs_addr conf / 2 ^ 32)];
    [(0, 11, dc_intr_id conf); (11, 1, dc_intr_aggr conf)]; []; []; [] ].
Definition pf_fields (z : sizes) : list (list (Z * Z * Z)) :=
  [ [(0, 1, dc_en_bypass_prefetch conf); (1, 4, sz_buf z); (27, 1, dc_pfch_en conf)]; [(13, 1, 1)] ].
Definition cm_fields (z : sizes) : list (list (Z * Z * Z)) :=
  let addr := dc_cmpt_ring_bs_addr conf in
  [ [(0, 1, dc_cmpl_stat_en conf); (1, 1, dc_cmpt_int_en conf); (2, 3, dc_triggermode conf);
     (5, 12, dc_func_id conf mod 256); (17, 4, sz_cntr z); (21, 4, sz_tmr z); (27, 1, 1); (28, 4, sz_cmpt_ring z)];
    [(0, 32, addr / 2 ^ 6)]; [(0, 26, addr / 2 ^ 38); (26, 2, dc_cmpt_desc_sz conf)]; [(28, 1, 1)];
    [(2, 1, dc_dis_overflow_check conf); (4, 11, dc_intr_id conf); (15, 1, dc_intr_aggr conf)];
    [(14, 4, addr / 2 ^ 2)] ].

Lemma low_half x : Z.land x 0xffffffff = packed [(0, 32, x)].
Proof. change 0xffffffff with (Z.ones 32). rewrite Z.land_ones by lia. cbn [packed]. lia. Qed.

Lemma sw_of_conf_fields z : sw_words (sw_of_conf q (sz_ring z) zero_sw) = packed <$> sw_fields z.
Proof.
  unfold sw_words, sw_fields, sw_of_conf, sw_w0, sw_w1, sw_w4, sw_w5, sw_w6, sw_w7.
  cbn [zero_sw sw_vec sw_intr_aggr sw_ring_bs_addr sw_wbi_chk sw_wbi_intvl_en sw_rngsz_idx sw_bypass sw_wbk_en sw_irq_en
    sw_is_mm sw_mm_chn sw_qen sw_frcd_en sw_desc_sz sw_fnc_id sw_irq_arm sw_pidx sw_at sw_fetch_max sw_port_id
    sw_irq_no_last sw_err sw_err_wb_sent sw_irq_req sw_mrkr_dis sw_pasid_en sw_dis_intr_on_vf sw_virtio_en
    sw_pack_byp_out sw_irq_byp sw_host_id sw_pasid sw_virtio_dsc_base].
  assert (forall v, (if streams then 0 else v) = (if decide stream_to_host then 0 else v)) as Hs.
  { intros v. pose proof streams_iff. case_decide; destruct streams; intuition congruence. }
  rewrite !Hs, !low_half, Z.shiftr_div_pow2 by lia. change (packed <$> ?l) with (map packed l). cbn [map].
  pack_words.
Qed.

Lemma pf_of_conf_fields z : pf_words (pf_of_conf q (sz_buf z) zero_pf) = packed <$> pf_fields z.
Proof.
  unfold pf_words, pf_fields, pf_of_conf, pf_w0, pf_w1.
  cbn [zero_pf pf_sw_crdt pf_bypass pf_bufsz_idx pf_port_id pf_var_desc pf_num_pftch pf_err pf_pfch_en pf_pfch pf_valid].
  change (packed <$> ?l) with (map packed l). cbn [map]. pack_words.
Qed.

Lemma cm_of_conf_fields z :
  cm_words (cm_of_conf q (sz_cntr z) (sz_tmr z) (sz_cmpt_ring z) zero_cm) = packed <$> cm_fields z.
Proof.
  unfold cm_words, cm_fields, cm_of_conf, cm_w0, cm_w1, cm_w2, cm_w3, cm_w4, cm_w5.
  cbn [zero_cm cm_bs_addr cm_vec cm_pidx cm_cidx cm_en_stat_desc cm_en_int cm_trig_mode cm_fnc_id cm_counter_idx
    cm_timer_idx cm_in_st cm_color cm_ringsz_idx cm_desc_sz cm_valid cm_err cm_user_trig_pend cm_timer_running
    cm_full_upd cm_ovf_chk_dis cm_at cm_int_aggr cm_dis_intr_on_vf cm_vio cm_dir_c2h cm_host_id cm_pasid cm_pasid_en
    cm_vio_eop cm_sh_cmpt].
  change (packed <$> ?l) with (map packed l). cbn [map]. pack_words.
Qed.

(** The contexts of the queue after a write; [None]: as before. *)
Definition programmed (z : sizes) (sel : ind_ctxt_cmd_sel) : option (list Z) :=
  match sel with
  | QDMA_CTXT_SEL_SW_C2H => if decide (c2h <> 0) then Some (padded (packed <$> sw_fields z)) else None
  | QDMA_CTXT_SEL_SW_H2C => if decide (c2h = 0) then Some (padded (packed <$> sw_fields z)) else None
  | QDMA_CTXT_SEL_HW_C2H | QDMA_CTXT_SEL_CR_C2H => if decide (c2h <> 0) then Some zero_ctxt else None
  | QDMA_CTXT_SEL_HW_H2C | QDMA_CTXT_SEL_CR_H2C => if decide (c2h = 0) then Some zero_ctxt else None
  | QDMA_CTXT_SEL_PFTCH => if decide stream_to_host then Some (padded (packed <$> pf_fields z)) else None
  | QDMA_CTXT_SEL_CMPT => if decide has_cmpt then Some (padded (packed <$> cm_fields z)) else None
  | _ => None
  end.

Lemma compose_sw_run z w : sizes_found z w ->
  mbox_compose_sw_context dev q zero_sw w = Ok (QDMA_SUCCESS, sw_of_conf q (sz_ring z) zero_sw, w).
Proof.
  intros Hz. unfold mbox_compose_sw_context, get_ring_idx. erewrite cmd_bind_run by (by apply find_csr_run).
  pose proof (ring_first _ _ _ (sf_ring _ _ Hz)) as E. unfold ring_found in E. by rewrite E.
Qed.
Lemma compose_pf_run z w : sizes_found z w -> streams = true ->
  mbox_compose_prefetch_context dev q zero_pf w = Ok (QDMA_SUCCESS, pf_of_conf q (sz_buf z) zero_pf, w).
Proof.
  intros Hz Hb%streams_iff. destruct (sf_buf _ _ Hz Hb) as [Hs E%eq_first]. unfold mbox_compose_prefetch_context, get_buf_idx.
  erewrite cmd_bind_run by (by apply find_csr_run). by rewrite E.
Qed.
Lemma compose_cm_run z w : sizes_found z w -> completes = true ->
  mbox_compose_cmpt_context dev q zero_cm w =
    Ok (QDMA_SUCCESS, cm_of_conf q (sz_cntr z) (sz_tmr z) (sz_cmpt_ring z) zero_cm, w).
Proof.
  intros Hz Hb%completes_iff. destruct (sf_cmpt _ _ Hz Hb) as (Hs & E1%eq_first & E2%eq_first & E3%ring_first).
  unfold mbox_compose_cmpt_context, get_cntr_idx, get_tmr_idx, get_ring_idx, ring_found in *.
  erewrite cmd_bind_run by (by apply find_csr_run). rewrite E1. cbn [fst snd]. rewrite decide_False by (unfold QDMA_SUCCESS; lia).
  erewrite cmd_bind_run by (by apply find_csr_run). rewrite E2. cbn [fst snd]. rewrite decide_False by (unfold QDMA_SUCCESS; lia).
  erewrite cmd_bind_run by (by apply find_csr_run). by rewrite E3.
Qed.

(** The queue is of a known function and in its range. *)
Record owned (s : pf_state (W := W)) : Prop := {
  ow_idle : idle (ps_dev s);
  ow_qid : 0 <= qid < 4096; ow_c2h : 0 <= c2h < 2;
  ow_range : exists j m k x, finds (ps_rm s) idx (dc_func_id conf) j m k x /\ in_range (de_entry x) qid = QDMA_DEV_Q_IN_RANGE }.

Lemma clear_all_run s : prompt (W := W) -> owned s -> mq_cmpt_ctxt_type q <> QDMA_MBOX_CMPT_CTXT_ONLY -> exists w,
  mbox_clear_queue_contexts dev idx (dc_func_id conf) qid (mq_st q) c2h (mq_cmpt_ctxt_type q) s = Ok (QDMA_SUCCESS, at_dev s w) /\
  idle w /\ forall k, ctxt_at (ind w) k = final
    [(true, (sel_val (sw_sel c2h), qid), zero_ctxt); (true, (sel_val (hw_sel c2h), qid), zero_ctxt);
     (true, (sel_val (cr_sel c2h), qid), zero_ctxt); (streams, (sel_val QDMA_CTXT_SEL_PFTCH, qid), zero_ctxt);
     (completes, (sel_val QDMA_CTXT_SEL_CMPT, qid), zero_ctxt)] k (ctxt_at (ind (ps_dev s)) k).
Proof.
  intros Hp [Hi Hq Hc (j & m & k & x & Hf & Hr)] Hty.
  unfold mbox_clear_queue_contexts, all_queue_contexts. rewrite decide_False by done.
  erewrite cmd_bind_run by (eapply on_rm_run, qinfo_run, Hf). cbv beta iota.
  rewrite decide_False by lia. erewrite cmd_bind_run by (eapply on_rm_run, range_run, Hf). rewrite Hr.
  refine (run_steps_stores [_; _; _; _; _] _ _ s Hi). repeat (apply Forall2_cons; split); cbn [fst snd];
    [by apply clear_sw|by apply clear_hw|by apply clear_cr|apply when_stores; intros _; by apply clear_pf
    |apply when_stores; intros _; by apply clear_cm|by constructor].
Qed.

Lemma on_hw_run {A} (c : cmd W A) (s : pf_state (W := W)) a : c (ps_dev s) = Ok (a, ps_dev s) -> on_hw c s = Ok (a, s).
Proof. intros E. unfold on_hw. rewrite E. by destruct s. Qed.

Lemma sel_val_inj a b (x y : Z) : (sel_val a, x) = (sel_val b, y) <-> a = b /\ x = y.
Proof. split; [|by intros [-> ->]]. intros [= E Hx]. split; [|exact Hx]. by destruct a, b. Qed.

Lemma at_key {A} (b : bool) sel1 sel (u v : A) :
  (if decide (b = true /\ (sel_val sel, qid) = (sel_val sel1, qid)) then u else v) = (if decide (b = true /\ sel = sel1) then u else v).
Proof. apply decide_ext. rewrite sel_val_inj. naive_solver. Qed.

(** The two sequences: what the clearing left is overwritten. *)
Lemma final_written b1 b2 sw pf cm sel q' v : final
    [(true, (sel_val (sw_sel c2h), qid), sw); (b1, (sel_val QDMA_CTXT_SEL_PFTCH, qid), pf);
     (b2, (sel_val QDMA_CTXT_SEL_CMPT, qid), cm)] (sel_val sel, q') (final
    [(true, (sel_val (sw_sel c2h), qid), zero_ctxt); (true, (sel_val (hw_sel c2h), qid), zero_ctxt);
     (true, (sel_val (cr_sel c2h), qid), zero_ctxt); (b1, (sel_val QDMA_CTXT_SEL_PFTCH, qid), zero_ctxt);
     (b2, (sel_val QDMA_CTXT_SEL_CMPT, qid), zero_ctxt)] (sel_val sel, q') v) =
  default v (if decide (q' = qid) then
    if decide (sel = sw_sel c2h) then Some sw else
    if decide (sel = hw_sel c2h \/ sel = cr_sel c2h) then Some zero_ctxt else
    if decide (sel = QDMA_CTXT_SEL_PFTCH /\ b1 = true) then Some pf else
    if decide (sel = QDMA_CTXT_SEL_CMPT /\ b2 = true) then Some cm else None else None).
Proof.
  unfold sw_sel, hw_sel, cr_sel. cbn [final].
  destruct (decide (q' = qid)) as [->|Hne].
  - rewrite !at_key. destruct (decide (c2h <> 0)), sel, b1, b2; reflexivity.
  - by rewrite !decide_False by (intros [_ [_ ?]%sel_val_inj]; done).
Qed.

Lemma written_eq z sel sw pf cm : sw = packed <$> sw_fields z ->
  (streams = true -> pf = packed <$> pf_fields z) -> (completes = true -> cm = packed <$> cm_fields z) ->
  (if decide (sel = sw_sel c2h) then Some (padded sw) else
   if decide (sel = hw_sel c2h \/ sel = cr_sel c2h) then Some zero_ctxt else
   if decide (sel = QDMA_CTXT_SEL_PFTCH /\ streams = true) then Some (padded pf) else
   if decide (sel = QDMA_CTXT_SEL_CMPT /\ completes = true) then Some (padded cm) else None) = programmed z sel.
Proof.
  intros -> Hpf Hcm. unfold sw_sel, hw_sel, cr_sel, programmed.
  pose proof streams_iff as Hs. pose proof completes_iff as Hc.
  destruct sel; repeat case_decide; try done; try (exfalso; intuition congruence); try tauto;
    try (rewrite Hpf by intuition); try (rewrite Hcm by intuition); done.
Qed.

End write.
End contexts.

(** ** Witness

    A device whose first sizes are 64 descriptors, buffers of 4096, a count of 8 and
    a timer of 30; function 1 has queues 100 to 611, and programs queue 101 as a
    stream queue to the host with its completion queue. *)
Definition sized_hw : csr_hw :=
  mkCsrHw (list_to_map [(QDMA_OFFSET_GLBL2_PF_BARLITE_INT, 1); (EQDMA_GLBL2_CHANNEL_CAP_ADDR, 2);
    (EQDMA_GLBL2_CHANNEL_MDMA_ADDR, 0x30101); (EQDMA_GLBL_RNG_SZ_1_ADDR, 65);
    (EQDMA_C2H_BUF_SZ_ADDR, 4096); (EQDMA_C2H_CNT_TH_ADDR + 4, 8); (EQDMA_C2H_TIMER_CNT_ADDR + 8, 30)]) hw0.
Definition sample_qctxt : mbox_msg_qctxt :=
  mkQctxt 101 1 1 QDMA_MBOX_CMPT_WITH_ST
    (mkConf 0x1000 0x2000 0 0 1 1 1 0 1 1 1 0 0 1 0 1 0 1 1 2 5 0 1 8 30 3 0 0 64 4096 64).
Definition holder : dev_entry := mkDevEntry 1 0 0 0 (mkChunk 100 512).
Definition sample_write : pf_state (W := csr_hw) :=
  mkPfState (mkRm [mkMaster 0 0 7 2048 0 [holder] [mkChunk 0 100; mkChunk 612 1436] 0] 1 []) sized_hw [] [].

(** The first register with a property, on a concrete device. *)
Ltac first_reg_here :=
  split; [cbn; lia|]; split; [eexists; split; [vm_compute; reflexivity|vm_compute; reflexivity]|];
  intros j v Hj Hv; cbn [sz_ring sz_buf sz_cntr sz_tmr sz_cmpt_ring] in Hj; try lia;
  assert (j = 0 \/ j = 1) as [-> | ->] by lia; try lia; vm_compute in Hv; injection Hv as <-; vm_compute; congruence.

