(* ===== verification/Sorting.v ===== *)
(** * buffer_handler.c, first part: quickSort

    The in-place sort of the buffer pointers of the sample application: Hoare's
    partition on an array, with every array access and every operation on the [int]
    indices checked: [left + right], [i++] and [j--] fault when the result does not
    fit an [int].  The fuel bounds the number of rounds: one round of [partition] moves the two indices towards each
    other, and a recursive call works on a shorter range. *)

From S2P Require Import Prelude.
From stdpp Require Import list sorting.

Open Scope Z_scope.

(** ** The code *)

(** [while (arr[i] < pivot) i++].  [n] is the number of elements from [i] on: past
    the last one the access is out of bounds. *)
Fixpoint scan_up (n : nat) (arr : list Z) (pivot i : Z) : outcome Z :=
  match n with
  | O => Fault OutOfBounds
  | S n' => x ← aget arr i; if decide (x < pivot) then i ← sint (i + 1); scan_up n' arr pivot i else Ok i
  end.

(** [while (arr[j] > pivot) j--].  [n] is the number of elements up to [j]. *)
Fixpoint scan_down (n : nat) (arr : list Z) (pivot j : Z) : outcome Z :=
  match n with
  | O => Fault OutOfBounds
  | S n' => x ← aget arr j; if decide (pivot < x) then j ← sint (j - 1); scan_down n' arr pivot j else Ok j
  end.

Definition swap (arr : list Z) (i j : Z) : outcome (list Z) :=
  temp ← aget arr i; y ← aget arr j; arr ← aset arr i y; aset arr j temp.

(** The loop [while (i <= j)]. *)
Fixpoint partition (fuel : nat) (arr : list Z) (pivot i j : Z) : outcome (list Z * Z * Z) :=
  if decide (i <= j) then
    match fuel with
    | O => Fault OutOfFuel
    | S fuel' =>
        i ← scan_up (Z.to_nat (Z.of_nat (length arr) - i)) arr pivot i;
        j ← scan_down (Z.to_nat (j + 1)) arr pivot j;
        if decide (i <= j) then
          arr ← swap arr i j; i ← sint (i + 1); j ← sint (j - 1); partition fuel' arr pivot i j
        else partition fuel' arr pivot i j
    end
  else Ok (arr, i, j).

Fixpoint quickSort (fuel : nat) (arr : list Z) (left right : Z) : outcome (list Z) :=
  match fuel with
  | O => Fault OutOfFuel
  | S fuel' =>
      sum ← sint (left + right);
      pivot ← aget arr (Z.quot sum 2);
      '(arr, i, j) ← partition (Z.to_nat (right - left + 1)) arr pivot left right;
      arr ← (if decide (left < j) then quickSort fuel' arr left j else Ok arr);
      if decide (i < right) then quickSort fuel' arr i right else Ok arr
  end.

(** ** Ranges of an array *)

(** Element [k] is [v]. *)
Definition holds (arr : list Z) (k v : Z) : Prop := aget arr k = Ok v.

Lemma holds_some arr k : 0 <= k < Z.of_nat (length arr) -> exists v, holds arr k v.
Proof. apply aget_some. Qed.

Lemma holds_range arr k v : holds arr k v -> 0 <= k < Z.of_nat (length arr).
Proof. intros [Hk H]%aget_ok. apply lookup_lt_Some in H. lia. Qed.

Lemma holds_fun arr k v v' : holds arr k v -> holds arr k v' -> v = v'.
Proof. unfold holds. congruence. Qed.

(** [arr'] differs from [arr] by a permutation within [l .. r]: it is a permutation,
    equal outside, and a property of all elements of the range holds of the range
    afterwards. *)
Record reordered (l r : Z) (arr arr' : list Z) : Prop := {
  ro_perm : arr' ≡ₚ arr;
  ro_out : forall k, ~ (l <= k <= r) -> aget arr' k = aget arr k;
  ro_in : forall P : Z -> Prop, (forall k v, l <= k <= r -> holds arr k v -> P v) ->
    forall k v, l <= k <= r -> holds arr' k v -> P v }.

Lemma ro_refl l r arr : reordered l r arr arr.
Proof. split; eauto. Qed.

Lemma ro_trans l r a b c : reordered l r a b -> reordered l r b c -> reordered l r a c.
Proof.
  intros [P1 O1 I1] [P2 O2 I2]. split.
  - by rewrite P2.
  - intros k Hk. by rewrite O2, O1.
  - intros P HP. apply I2. by apply I1.
Qed.

Lemma ro_length l r arr arr' : reordered l r arr arr' -> length arr' = length arr.
Proof. intros [H _ _]. by apply Permutation_length. Qed.

(** A change within a part of the range is one within the range. *)
Lemma ro_widen l r l' r' arr arr' : l <= l' -> r' <= r -> reordered l' r' arr arr' ->
  reordered l r arr arr'.
Proof.
  intros Hl Hr [P O I]. split; [done|intros k Hk; apply O; lia|].
  intros Q HQ k v Hk Hv. destruct (decide (l' <= k <= r')) as [Hin|Hout].
  - apply (I Q) with k; [|done|done]. intros k' v' Hk' Hv'. apply (HQ k' v'); [lia|done].
  - apply (HQ k v Hk). unfold holds in *. by rewrite <- O.
Qed.

Lemma swap_run l r arr i j x y : l <= i <= r -> l <= j <= r -> holds arr i x -> holds arr j y ->
  exists arr', swap arr i j = Ok arr' /\ reordered l r arr arr' /\ holds arr' i y /\ holds arr' j x /\
    forall k, k <> i -> k <> j -> aget arr' k = aget arr k.
Proof.
  intros Hi Hj Hx Hy. pose proof (holds_range _ _ _ Hx) as Ri. pose proof (holds_range _ _ _ Hy) as Rj.
  unfold holds in *. pose proof (proj1 (aget_ok _ _ _) Hx) as [_ Lx].
  pose proof (proj1 (aget_ok _ _ _) Hy) as [_ Ly].
  set (a' := <[Z.to_nat j := x]> (<[Z.to_nat i := y]> arr)). exists a'.
  assert (swap arr i j = Ok a') as Es.
  { unfold swap. rewrite Hx, Hy. cbn [mbind outcome_bind].
    rewrite (proj2 (aset_ok arr _ i y)) by (split; [exact Ri|reflexivity]). cbn [mbind outcome_bind].
    apply aset_ok. by rewrite length_insert. }
  assert (forall k, k <> i -> k <> j -> aget a' k = aget arr k) as Hout.
  { intros k Hki Hkj. unfold aget, a'. case_decide; [|done].
    by rewrite !list_lookup_insert_ne by lia. }
  assert (aget a' j = Ok x) as Hj'.
  { apply aget_ok. split; [lia|]. unfold a'. apply list_lookup_insert_eq. rewrite length_insert. lia. }
  assert (aget a' i = Ok y) as Hi'.
  { apply aget_ok. split; [lia|]. unfold a'. destruct (decide (i = j)) as [->|].
    - rewrite list_lookup_insert_eq by (rewrite length_insert; lia). congruence.
    - rewrite list_lookup_insert_ne, list_lookup_insert_eq by lia. done. }
  split; [done|]. split; [|by auto]. split.
  - by apply Permutation_insert_swap.
  - intros k Hk. apply Hout; lia.
  - intros P HP k v Hk Hv. unfold holds in *. destruct (decide (k = i)) as [->|Hki].
    + rewrite Hi' in Hv. injection Hv as <-. by apply (HP j).
    + destruct (decide (k = j)) as [->|Hkj].
      * rewrite Hj' in Hv. injection Hv as <-. by apply (HP i).
      * apply (HP k); [done|]. by rewrite <- Hout.
Qed.

(** ** The scans *)
Lemma scan_up_run arr pivot k v : k < 2 ^ 30 -> holds arr k v -> pivot <= v -> forall n i, 0 <= i <= k ->
  n = Z.to_nat (Z.of_nat (length arr) - i) -> exists i' x, scan_up n arr pivot i = Ok i' /\
  i <= i' <= k /\ holds arr i' x /\ pivot <= x /\
  forall m w, i <= m < i' -> holds arr m w -> w < pivot.
Proof.
  intros Hkb Hk Hv. pose proof (holds_range _ _ _ Hk) as Rk. induction n as [|n IH]; intros i Hi Hn; [lia|].
  cbn [scan_up]. destruct (holds_some arr i) as [x Hx]; [lia|]. rewrite Hx. cbn.
  destruct (decide (x < pivot)) as [Hlt|Hge].
  - assert (i <> k) by (intros ->; pose proof (holds_fun _ _ _ _ Hk Hx); lia).
    rewrite sint_run by (unfold fits_s32; lia). cbn [mbind outcome_bind].
    destruct (IH (i + 1)) as (i' & y & E & Hi' & Hy & Hp & Hb); [lia..|].
    exists i', y. split; [done|]. split; [lia|]. split; [done|]. split; [done|].
    intros m w Hm Hw. destruct (decide (m = i)) as [->|]; [|by apply (Hb m); [lia|]].
    pose proof (holds_fun _ _ _ _ Hx Hw). lia.
  - exists i, x. split; [done|]. split; [lia|]. split; [done|]. split; [lia|]. intros; lia.
Qed.

Lemma scan_down_run arr pivot k v : holds arr k v -> v <= pivot -> forall n j,
  k <= j < Z.of_nat (length arr) -> j < 2 ^ 30 -> n = Z.to_nat (j + 1) -> exists j' x, scan_down n arr pivot j = Ok j' /\
  k <= j' <= j /\ holds arr j' x /\ x <= pivot /\
  forall m w, j' < m <= j -> holds arr m w -> pivot < w.
Proof.
  intros Hk Hv. pose proof (holds_range _ _ _ Hk) as Rk. induction n as [|n IH]; intros j Hj Hjb Hn; [lia|].
  cbn [scan_down]. destruct (holds_some arr j) as [x Hx]; [lia|]. rewrite Hx. cbn.
  destruct (decide (pivot < x)) as [Hlt|Hge].
  - assert (j <> k) by (intros ->; pose proof (holds_fun _ _ _ _ Hk Hx); lia).
    rewrite sint_run by (unfold fits_s32; lia). cbn [mbind outcome_bind].
    destruct (IH (j - 1)) as (j' & y & E & Hj' & Hy & Hp & Hb); [lia..|].
    exists j', y. split; [done|]. split; [lia|]. split; [done|]. split; [done|].
    intros m w Hm Hw. destruct (decide (m = j)) as [->|]; [|by apply (Hb m); [lia|]].
    pose proof (holds_fun _ _ _ _ Hx Hw). lia.
  - exists j, x. split; [done|]. split; [lia|]. split; [done|]. split; [lia|]. intros; lia.
Qed.

(** ** Partition *)
Record parted (l r pivot : Z) (arr0 arr : list Z) (i j : Z) : Prop := {
  pt_ro : reordered l r arr0 arr;
  pt_i : l <= i <= r + 1;
  pt_j : l - 1 <= j <= r;
  pt_low : forall k v, l <= k < i -> holds arr k v -> v <= pivot;
  pt_high : forall k v, j < k <= r -> holds arr k v -> pivot <= v }.

(** Elements that stop the two scans. *)
Definition guarded (l r pivot : Z) (arr : list Z) (i j : Z) : Prop :=
  (exists k v, i <= k <= r /\ holds arr k v /\ pivot <= v) /\
  (exists k v, l <= k <= j /\ holds arr k v /\ v <= pivot).

(** One round: the scans stop inside the range, with the two sides still right. *)
Lemma scans_run l r pivot arr0 arr i j : 0 <= l -> r < Z.of_nat (length arr0) -> r < 2 ^ 30 ->
  parted l r pivot arr0 arr i j -> i <= j -> guarded l r pivot arr i j ->
  exists i1 j1 x y,
    scan_up (Z.to_nat (Z.of_nat (length arr) - i)) arr pivot i = Ok i1 /\
    scan_down (Z.to_nat (j + 1)) arr pivot j = Ok j1 /\
    i <= i1 <= r /\ l <= j1 <= j /\ holds arr i1 x /\ holds arr j1 y /\ pivot <= x /\ y <= pivot /\
    parted l r pivot arr0 arr i1 j1 /\
    (forall k, i <= k <= j -> holds arr k pivot -> i1 <= k <= j1).
Proof.
  intros Hl Hr Hrb [Ro Hi Hj Hlow Hhigh] Hij ((k1 & v1 & Hk1 & Hv1 & Hp1) & k2 & v2 & Hk2 & Hv2 & Hp2).
  pose proof (ro_length _ _ _ _ Ro) as Hlen.
  destruct (scan_up_run arr pivot k1 v1 ltac:(lia) Hv1 Hp1 _ i ltac:(lia) eq_refl) as (i1 & x & E1 & Hi1 & Hx & Hpx & Hb1).
  destruct (scan_down_run arr pivot k2 v2 Hv2 Hp2 _ j ltac:(lia) ltac:(lia) eq_refl) as (j1 & y & E2 & Hj1 & Hy & Hpy & Hb2).
  exists i1, j1, x, y. split; [done|]. split; [done|]. split; [lia|]. split; [lia|].
  split; [done|]. split; [done|]. split; [done|]. split; [done|]. split.
  - split; [done|lia|lia| |].
    + intros k v Hk Hv. destruct (decide (k < i)); [apply (Hlow k); [lia|done]|].
      pose proof (Hb1 k v ltac:(lia) Hv). lia.
    + intros k v Hk Hv. destruct (decide (j < k)); [apply (Hhigh k); [lia|done]|].
      pose proof (Hb2 k v ltac:(lia) Hv). lia.
  - intros k Hk Hv. split.
    + destruct (decide (k < i1)); [|lia]. pose proof (Hb1 k pivot ltac:(lia) Hv). lia.
    + destruct (decide (j1 < k)); [|lia]. pose proof (Hb2 k pivot ltac:(lia) Hv). lia.
Qed.

(** Exchanging the two elements the scans stopped at. *)
Lemma swap_parted l r pivot arr0 arr i j x y :
  parted l r pivot arr0 arr i j -> i <= j -> i <= r -> l <= j ->
  holds arr i x -> holds arr j y -> pivot <= x -> y <= pivot ->
  exists arr', swap arr i j = Ok arr' /\ parted l r pivot arr0 arr' (i + 1) (j - 1) /\
    (i + 1 <= j - 1 -> guarded l r pivot arr' (i + 1) (j - 1)).
Proof.
  intros [Ro Hi Hj Hlow Hhigh] Hij Hir Hlj Hx Hy Hpx Hpy.
  destruct (swap_run l r arr i j x y ltac:(lia) ltac:(lia) Hx Hy) as (arr' & E & Ro' & Hi' & Hj' & Hout).
  exists arr'. split; [done|]. split.
  - split; [by apply (ro_trans _ _ _ arr)|lia|lia| |].
    + intros k v Hk Hv. destruct (decide (k = i)) as [->|].
      * pose proof (holds_fun _ _ _ _ Hi' Hv). lia.
      * apply (Hlow k); [lia|]. unfold holds in *. by rewrite <- Hout by lia.
    + intros k v Hk Hv. destruct (decide (k = j)) as [->|].
      * pose proof (holds_fun _ _ _ _ Hj' Hv). lia.
      * apply (Hhigh k); [lia|]. unfold holds in *. by rewrite <- Hout by lia.
  - intros Hlt. split; [exists j, x|exists i, y]; (split; [lia|done]).
Qed.

Lemma partition_run l r pivot arr0 : 0 <= l -> r < Z.of_nat (length arr0) -> r < 2 ^ 30 -> forall n arr i j,
  parted l r pivot arr0 arr i j -> (i <= j -> guarded l r pivot arr i j) ->
  (Z.to_nat (j - i + 1) <= n)%nat ->
  exists arr' i' j', partition n arr pivot i j = Ok (arr', i', j') /\
    parted l r pivot arr0 arr' i' j' /\ j' < i' /\ i <= i' /\ j' <= j /\
    ((exists k, i <= k <= j /\ holds arr k pivot) -> i < i' /\ j' < j).
Proof.
  intros Hl Hr Hrb. induction n as [|n IH]; intros arr i j Hp Hg Hn; cbn [partition].
  { rewrite decide_False by lia. exists arr, i, j. repeat (split; [done || lia|]).
    intros (k & Hk & _). lia. }
  destruct (decide (i <= j)) as [Hij|Hij].
  2: { exists arr, i, j. repeat (split; [done || lia|]). intros (k & Hk & _). lia. }
  destruct (scans_run l r pivot arr0 arr i j Hl Hr Hrb Hp Hij (Hg Hij))
    as (i1 & j1 & x & y & E1 & E2 & Hi1 & Hj1 & Hx & Hy & Hpx & Hpy & Hp1 & Hmid).
  rewrite E1. cbn [mbind outcome_bind]. rewrite E2. cbn [mbind outcome_bind].
  destruct (decide (i1 <= j1)) as [Hle|Hgt].
  - destruct (swap_parted l r pivot arr0 arr i1 j1 x y) as (arr' & E & Hp' & Hg'); try done; try lia.
    rewrite E. cbn [mbind outcome_bind]. pose proof (pt_i _ _ _ _ _ _ _ Hp1). pose proof (pt_j _ _ _ _ _ _ _ Hp1).
    do 2 (rewrite sint_run by (unfold fits_s32; lia); cbn [mbind outcome_bind]).
    destruct (IH arr' (i1 + 1) (j1 - 1) Hp' Hg') as (a & i' & j' & Er & Hpa & Hlt & Hi' & Hj' & _); [lia|].
    exists a, i', j'. repeat (split; [done || lia|]). lia.
  - destruct n as [|n']; cbn [partition]; rewrite decide_False by lia.
    all: exists arr, i1, j1; repeat (split; [done || lia|]).
    all: intros (k & Hk & Hv); specialize (Hmid k Hk Hv); lia.
Qed.

(** ** The sort *)
Definition sorted_range (l r : Z) (arr : list Z) : Prop :=
  forall a b va vb, l <= a -> a < b -> b <= r -> holds arr a va -> holds arr b vb -> va <= vb.

Lemma sorted_range_out l r l' r' arr arr' : reordered l' r' arr arr' -> r < l' \/ r' < l ->
  sorted_range l r arr -> sorted_range l r arr'.
Proof.
  intros [_ O _] Hd Hs a b va vb Ha Hab Hb. unfold holds. rewrite !O by lia. by apply Hs.
Qed.

(** Two sorted sides, separated by the pivot. *)
Lemma sorted_join l r i j pivot arr : j < i ->
  (forall k v, l <= k < i -> holds arr k v -> v <= pivot) ->
  (forall k v, j < k <= r -> holds arr k v -> pivot <= v) ->
  sorted_range l j arr -> sorted_range i r arr -> sorted_range l r arr.
Proof.
  intros Hji Hlow Hhigh Hsl Hsr a b va vb Ha Hab Hb Hva Hvb.
  destruct (decide (b <= j)) as [|Hbj]; [by apply (Hsl a b)|].
  destruct (decide (i <= a)) as [|Hia]; [by apply (Hsr a b)|].
  assert (va <= pivot) by (apply (Hlow a); [lia|done]).
  assert (pivot <= vb) by (apply (Hhigh b); [lia|done]). lia.
Qed.

Lemma quickSort_run n : forall arr l r, 0 <= l <= r -> r < Z.of_nat (length arr) -> r < 2 ^ 30 ->
  (Z.to_nat (r - l + 1) <= n)%nat ->
  exists arr', quickSort n arr l r = Ok arr' /\ reordered l r arr arr' /\ sorted_range l r arr'.
Proof.
  induction n as [|n IH]; intros arr l r Hl Hr Hrb Hn; [lia|]. cbn [quickSort].
  rewrite sint_run by (unfold fits_s32; lia). cbn [mbind outcome_bind].
  set (m := Z.quot (l + r) 2).
  assert (l <= m <= r) as Hm.
  { unfold m. rewrite Z.quot_div_nonneg by lia. Z.div_mod_to_equations. lia. }
  destruct (holds_some arr m) as [pivot Hpv]; [lia|]. unfold holds in Hpv. rewrite Hpv.
  cbn [mbind outcome_bind].
  destruct (partition_run l r pivot arr ltac:(lia) Hr Hrb (Z.to_nat (r - l + 1)) arr l r)
    as (a1 & i & j & E1 & Hp & Hlt & _ & _ & Hmid).
  { split; [apply ro_refl|lia|lia|intros; lia|intros; lia]. }
  { intros _. split; exists m, pivot; (split; [lia|by split]). }
  { done. }
  destruct Hmid as [Hi Hj]; [by exists m|]. rewrite E1. cbn [mbind outcome_bind].
  destruct Hp as [Ro Hi1 Hj1 Hlow Hhigh]. pose proof (ro_length _ _ _ _ Ro) as Hlen1.
  assert (exists a2, (if decide (l < j) then quickSort n a1 l j else Ok a1) = Ok a2 /\
    reordered l j a1 a2 /\ sorted_range l j a2) as (a2 & E2 & Ro2 & Hs2).
  { destruct (decide (l < j)); [apply IH; lia|]. exists a1. split; [done|]. split; [apply ro_refl|].
    intros a b va vb. lia. }
  rewrite E2. cbn [mbind outcome_bind]. pose proof (ro_length _ _ _ _ Ro2) as Hlen2.
  assert (exists a3, (if decide (i < r) then quickSort n a2 i r else Ok a2) = Ok a3 /\
    reordered i r a2 a3 /\ sorted_range i r a3) as (a3 & E3 & Ro3 & Hs3).
  { destruct (decide (i < r)); [apply IH; lia|]. exists a2. split; [done|]. split; [apply ro_refl|].
    intros a b va vb. lia. }
  exists a3. split; [done|]. split.
  { apply (ro_trans _ _ _ a1); [done|]. apply (ro_trans _ _ _ a2); eapply ro_widen; [| |done| | |done]; lia. }
  apply (sorted_join l r i j pivot); [done| | | |done].
  - intros k v Hk Hv. unfold holds in Hv. rewrite (ro_out _ _ _ _ Ro3) in Hv by lia.
    apply (ro_in l (i - 1) a1 a2) with (P := fun v => v <= pivot) (k := k); [|..|lia|exact Hv].
    + eapply ro_widen; [| |exact Ro2]; lia.
    + intros k' v' Hk'. apply Hlow. lia.
  - intros k v Hk Hv.
    apply (ro_in (j + 1) r a2 a3) with (P := fun v => pivot <= v) (k := k); [|..|lia|exact Hv].
    + eapply ro_widen; [| |exact Ro3]; lia.
    + intros k' v' Hk' Hv'. unfold holds in Hv'. rewrite (ro_out _ _ _ _ Ro2) in Hv' by lia.
      apply (Hhigh k'); [lia|exact Hv'].
  - apply (sorted_range_out l j i r a2); [done|lia|done].
Qed.

Lemma sorted_range_all arr : sorted_range 0 (Z.of_nat (length arr) - 1) arr -> StronglySorted Z.le arr.
Proof.
  induction arr as [|x arr IH]; intros Hs; constructor.
  - apply IH. intros a b va vb Ha Hab Hb Hva Hvb.
    assert (forall k v, holds arr k v -> holds (x :: arr) (k + 1) v) as Hup.
    { intros k v [Hk Hv]%aget_ok. apply aget_ok. split; [lia|].
      by replace (Z.to_nat (k + 1)) with (S (Z.to_nat k)) by lia. }
    apply (Hs (a + 1) (b + 1) va vb); [lia|lia|cbn [length]; lia|by apply Hup|by apply Hup].
  - apply Forall_lookup. intros k v Hv. apply (Hs 0 (Z.of_nat (S k)) x v); [lia|lia| |done|].
    + apply lookup_lt_Some in Hv. cbn [length]. lia.
    + by apply aget_nat.
Qed.

Lemma quickSort_all arr : arr <> [] -> Z.of_nat (length arr) <= 2 ^ 30 -> exists arr',
  quickSort (length arr) arr 0 (Z.of_nat (length arr) - 1) = Ok arr' /\
  arr' ≡ₚ arr /\ StronglySorted Z.le arr'.
Proof.
  intros Hne Hb. assert (0 < length arr)%nat by (destruct arr; [done|cbn; lia]).
  destruct (quickSort_run (length arr) arr 0 (Z.of_nat (length arr) - 1)) as (a & E & Ro & Hs); [lia..|].
  exists a. split; [done|]. split; [apply Ro|]. apply sorted_range_all.
  by rewrite (ro_length _ _ _ _ Ro).
Qed.

(** C25. quickSort terminates on every range [l .. r] of an array with r below 2^30 -
    as many levels of calls as the range has elements are enough - without an access
    outside the array and without an overflow of its [int] indices; it permutes the
    elements of the range, leaves all others where they are, and the range is sorted
    afterwards. *)
Theorem quickSort_sorts arr l r : 0 <= l <= r -> r < Z.of_nat (length arr) -> r < 2 ^ 30 ->
  exists arr', quickSort (Z.to_nat (r - l + 1)) arr l r = Ok arr' /\ arr' ≡ₚ arr /\
    (forall k, ~ (l <= k <= r) -> aget arr' k = aget arr k) /\ sorted_range l r arr'.
Proof.
  intros Hl Hr Hb. destruct (quickSort_run _ arr l r Hl Hr Hb (le_n _)) as (a & E & [P O _] & Hs).
  by exists a.
Qed.

(** From 2^30 on the bound is needed: the sum of the bounds does not fit an [int]. *)
Theorem quickSort_overflows fuel arr l r : 2 ^ 31 <= l + r -> quickSort (S fuel) arr l r = Fault SignedOverflow.
Proof. intros H. cbn [quickSort]. unfold sint. by rewrite decide_False by lia. Qed.

Lemma quickSort_sorts_witness :
  exists arr', quickSort 6 [9; 5; 3; 5; 8; 1; 5; 0] 1 6 = Ok arr' /\ arr' ≡ₚ [9; 5; 3; 5; 8; 1; 5; 0] /\
    (forall k, ~ (1 <= k <= 6) -> aget arr' k = aget [9; 5; 3; 5; 8; 1; 5; 0] k) /\ sorted_range 1 6 arr'.
Proof. apply (quickSort_sorts [9; 5; 3; 5; 8; 1; 5; 0] 1 6); cbn; lia. Defined.

Lemma quickSort_overflows_witness : quickSort 1 [] (2 ^ 30) (2 ^ 30) = Fault SignedOverflow.
Proof. apply (quickSort_overflows 0 [] (2 ^ 30) (2 ^ 30)). lia. Defined.
