(* ===== verification/BufferPool.v ===== *)
(** * buffer_handler.c, second part: the buffer pools

    The sample application's packet buffers: one aligned allocation cut into
    buffers of a page, sorted by address, the last four of them reserved for the
    gPTP frames.  Two stacks hold the buffers that are free.  Pointers are 64-bit
    integers; the mutexes make each operation one step.

    The theorem follows any run of clients that free what they were given: no
    buffer is lost or given out twice, and nothing is refused that should not be. *)

From S2P Require Import Prelude Sorting.
From stdpp Require Import sorting numbers.
From stdpp Require Import list.

Open Scope Z_scope.

(** ** xdma_common.h *)
Definition MAX_BUFFER_LENGTH : Z := 0x1000.
Definition NUMBER_OF_BUFFER : Z := 2048.
Definition NUMBER_OF_POOL_BUFFER : Z := NUMBER_OF_BUFFER + 1.
Definition NUMBER_OF_RESERVED_BUFFER : Z := 4.
(** [~(MAX_BUFFER_LENGTH - 1)], extended to 64 bits. *)
Definition BUFFER_ADDRESS_MASK : Z := u64 (Z.lnot (MAX_BUFFER_LENGTH - 1)).
Definition EMPTY_ELEMENT : Z := 0.
Definition MAX_BD_NUMBER : nat := 8.

Record buffer_stack := mkStack { elements : list Z; top : Z }.

(** The static objects of the file. *)
Record pool := mkPool {
  g_stackP : buffer_stack; reserved_stack : buffer_stack; RESERVED_BUFFER_BASE : Z;
  buffer_list : list Z; g_buffer : Z }.

(** [struct xdma_multi_read_write_ioctl]: the count and the buffers. *)
Record multi_bd := mkMulti { bd_num : Z; bd : list Z }.

Definition set_stack (v : buffer_stack) (p : pool) : pool :=
  mkPool v (reserved_stack p) (RESERVED_BUFFER_BASE p) (buffer_list p) (g_buffer p).
Definition set_reserved (v : buffer_stack) (p : pool) : pool :=
  mkPool (g_stackP p) v (RESERVED_BUFFER_BASE p) (buffer_list p) (g_buffer p).
Definition set_buffers (l : list Z) (g : Z) (p : pool) : pool :=
  mkPool (g_stackP p) (reserved_stack p) (RESERVED_BUFFER_BASE p) l g.
Definition set_base (b : Z) (p : pool) : pool :=
  mkPool (g_stackP p) (reserved_stack p) b (buffer_list p) (g_buffer p).

(** ** The stacks *)
Definition isStackEmpty (s : buffer_stack) : bool := top s =? -1.
Definition isReservedStackFull (s : buffer_stack) : bool := top s =? NUMBER_OF_RESERVED_BUFFER - 1.
Definition isStackFull (s : buffer_stack) : bool := top s =? NUMBER_OF_POOL_BUFFER - 1.

Definition push_element (e : Z) (s : buffer_stack) : outcome buffer_stack :=
  els ← aset (elements s) (top s + 1) e; Ok (mkStack els (top s + 1)).
Definition pop_element (s : buffer_stack) : outcome (Z * buffer_stack) :=
  e ← aget (elements s) (top s); Ok (e, mkStack (elements s) (top s - 1)).

Definition get_reserved_tx_buffer : cmd pool Z :=
  p ← get;
  if isStackEmpty (reserved_stack p) then mret EMPTY_ELEMENT else
  '(e, s) ← lift (pop_element (reserved_stack p));
  _ ← modify (set_reserved s); mret e.

Definition buffer_pool_alloc : cmd pool Z :=
  p ← get;
  if isStackEmpty (g_stackP p) then mret EMPTY_ELEMENT else
  '(e, s) ← lift (pop_element (g_stackP p));
  _ ← modify (set_stack s); mret e.

(** Back on the stack the address belongs to; [false]: the stack is full. *)
Definition put_reserved (e : Z) : cmd pool bool :=
  p ← get;
  if isReservedStackFull (reserved_stack p) then mret false else
  s ← lift (push_element e (reserved_stack p)); _ ← modify (set_reserved s); mret true.
Definition put_pool (e : Z) : cmd pool bool :=
  p ← get;
  if isStackFull (g_stackP p) then mret false else
  s ← lift (push_element e (g_stackP p)); _ ← modify (set_stack s); mret true.

Definition page (e : Z) : Z := Z.land e BUFFER_ADDRESS_MASK.

Definition buffer_pool_free (element : Z) : cmd pool Z :=
  p ← get;
  ok ← (if decide (RESERVED_BUFFER_BASE p <= element) then put_reserved (page element)
        else put_pool (page element));
  mret (if (ok : bool) then 0 else -1).

(** The loop over [bd[0 .. n)]; a full stack drops the buffer. *)
Fixpoint free_bds (bds : list Z) (cnt : Z) (n : nat) : cmd pool unit :=
  match n with
  | O => mret tt
  | S n' =>
      e ← lift (aget bds cnt);
      let element := page e in
      p ← get;
      _ ← (if decide (RESERVED_BUFFER_BASE p <= element) then put_reserved element else put_pool element);
      free_bds bds (cnt + 1) n'
  end.

Definition multi_buffer_pool_free (b : multi_bd) : cmd pool Z :=
  _ ← free_bds (bd b) 0 (Z.to_nat (bd_num b)); mret 0.

(** The loop that fills [bd[cnt ..]] while buffers and slots are left. *)
Fixpoint alloc_bds (n : nat) (cnt : Z) (bds : list Z) : cmd pool (Z * list Z) :=
  match n with
  | O => mret (cnt, bds)
  | S n' =>
      p ← get;
      if decide (0 <= top (g_stackP p)) then
        '(e, s) ← lift (pop_element (g_stackP p));
        bds ← lift (aset bds cnt e);
        _ ← modify (set_stack s); alloc_bds n' (cnt + 1) bds
      else mret (cnt, bds)
  end.

Definition multi_buffer_pool_alloc (b : multi_bd) : cmd pool (Z * multi_bd) :=
  p ← get;
  if isStackEmpty (g_stackP p) then mret (-1, mkMulti 0 (bd b)) else
  '(cnt, bds) ← alloc_bds MAX_BD_NUMBER 0 (bd b);
  mret (cnt, mkMulti cnt bds).

(** ** Start-up *)
Definition initialize_stacks : cmd pool unit :=
  modify (fun p => set_reserved (mkStack (elements (reserved_stack p)) (-1))
                     (set_stack (mkStack (elements (g_stackP p)) (-1)) p)).

Definition TOTAL_BUFFERS : Z := NUMBER_OF_BUFFER + NUMBER_OF_RESERVED_BUFFER.

(** [mem]: the answer of [posix_memalign]. *)
Definition allocate_buffers (mem : option Z) : cmd pool Z :=
  match mem with
  | None => mret (-1)
  | Some g =>
      p ← get;
      l ← lift (for_loop (Z.to_nat TOTAL_BUFFERS)
            (fun id l => aset l (Z.of_nat id) (g + Z.of_nat id * MAX_BUFFER_LENGTH)) (buffer_list p));
      l ← lift (quickSort (Z.to_nat TOTAL_BUFFERS) l 0 (TOTAL_BUFFERS - 1));
      _ ← modify (set_buffers l g); mret 0
  end.

Fixpoint free_all (l : list Z) : cmd pool Z :=
  match l with
  | [] => mret 0
  | e :: l' => rv ← buffer_pool_free e; if decide (rv <> 0) then mret (-1) else free_all l'
  end.

Definition initialize_buffer_allocation (mem : option Z) : cmd pool Z :=
  _ ← initialize_stacks;
  rv ← allocate_buffers mem;
  if decide (rv <> 0) then mret (-1) else
  p ← get;
  b ← lift (aget (buffer_list p) NUMBER_OF_BUFFER);
  _ ← modify (set_base b);
  free_all (buffer_list p).

(** Static objects start as zeros. *)
Definition pool0 : pool :=
  mkPool (mkStack (replicate (Z.to_nat NUMBER_OF_POOL_BUFFER) 0) 0)
    (mkStack (replicate (Z.to_nat NUMBER_OF_RESERVED_BUFFER) 0) 0) 0
    (replicate (Z.to_nat TOTAL_BUFFERS) 0) 0.

(** ** The elements on a stack *)
Definition live (s : buffer_stack) : list Z := take (Z.to_nat (top s + 1)) (elements s).
Definition stack_ok (n : Z) (s : buffer_stack) : Prop :=
  Z.of_nat (length (elements s)) = n /\ -1 <= top s < n.

Lemma live_top n s : stack_ok n s -> Z.of_nat (length (live s)) = top s + 1.
Proof. intros [Hl Ht]. unfold live. rewrite length_take. lia. Qed.

Lemma push_run n e s : stack_ok n s -> top s + 1 < n ->
  exists s', push_element e s = Ok s' /\ stack_ok n s' /\ live s' = live s ++ [e] /\ top s' = top s + 1.
Proof.
  intros [Hl Ht] Hn. eexists. unfold push_element.
  rewrite (proj2 (aset_ok (elements s) _ (top s + 1) e)) by (split; [lia|reflexivity]).
  split; [reflexivity|]. cbn [elements top]. split; [|split; [|done]].
  - split; cbn [elements top]; [by rewrite length_insert|lia].
  - unfold live. cbn [elements top].
    replace (Z.to_nat (top s + 1 + 1)) with (S (Z.to_nat (top s + 1))) by lia.
    by rewrite (take_S_r _ _ e), take_insert_ge by (lia || by rewrite list_lookup_insert_eq by lia).
Qed.

Lemma pop_run n s : stack_ok n s -> 0 <= top s ->
  exists e s', pop_element s = Ok (e, s') /\ stack_ok n s' /\ live s = live s' ++ [e] /\ top s' = top s - 1.
Proof.
  intros [Hl Ht] Hn. destruct (aget_some (elements s) (top s)) as [e He]; [lia|].
  exists e. eexists. unfold pop_element. rewrite He. split; [reflexivity|]. cbn [elements top].
  split; [split; cbn; lia|split; [|done]]. unfold live. cbn [elements top].
  apply aget_ok in He as [_ He].
  replace (Z.to_nat (top s + 1)) with (S (Z.to_nat (top s))) by lia.
  rewrite (take_S_r _ _ e) by done. by replace (top s - 1 + 1) with (top s) by lia.
Qed.

(** ** The buffers *)
Section buffers.
Context (g : Z).
Definition buffer (k : Z) : Z := g + MAX_BUFFER_LENGTH * k.
Definition buffers : list Z := buffer <$> seqZ 0 TOTAL_BUFFERS.
Definition base_of : Z := buffer NUMBER_OF_BUFFER.

(** What [posix_memalign] promises, and that NULL is not a buffer. *)
Definition aligned : Prop := 0 < g /\ g mod MAX_BUFFER_LENGTH = 0 /\ buffer TOTAL_BUFFERS < 2 ^ 64.

Lemma elem_buffers b : b ∈ buffers <-> exists k, 0 <= k < TOTAL_BUFFERS /\ b = buffer k.
Proof.
  unfold buffers. rewrite list_elem_of_fmap. split.
  - intros (k & -> & Hk%elem_of_seqZ). exists k. split; [lia|done].
  - intros (k & Hk & ->). exists k. split; [done|]. apply elem_of_seqZ. lia.
Qed.

Lemma buffers_nodup : NoDup buffers.
Proof. apply NoDup_fmap_2; [intros a b; unfold buffer, MAX_BUFFER_LENGTH; lia|apply NoDup_seqZ]. Qed.

(** How many buffers each stack owns. *)
Lemma reserved_count : length (filter (fun b => base_of <= b) buffers) = 4%nat.
Proof.
  unfold buffers. rewrite filter_of_fmap, length_fmap.
  rewrite (filter_same (fun k => base_of <= buffer k) (fun k => 2048 <= k)); [by vm_compute|].
  intros k. unfold base_of, buffer, MAX_BUFFER_LENGTH, NUMBER_OF_BUFFER. cbn. lia.
Qed.

Lemma pool_count : length (filter (fun b => ~ base_of <= b) buffers) = Z.to_nat 2048.
Proof.
  unfold buffers. rewrite filter_of_fmap, length_fmap.
  rewrite (filter_same (fun k => ~ base_of <= buffer k) (fun k => ~ 2048 <= k)); [by vm_compute|].
  intros k. unfold base_of, buffer, MAX_BUFFER_LENGTH, NUMBER_OF_BUFFER. cbn. lia.
Qed.

(** An address within a buffer, and the buffer it is in. *)
Lemma page_spec e : 0 <= e < 2 ^ 64 -> page e = e - e mod 4096.
Proof.
  intros He. unfold page.
  change BUFFER_ADDRESS_MASK with (Z.shiftl (Z.ones 52) 12).
  assert (Z.land e (Z.shiftl (Z.ones 52) 12) = Z.shiftl (Z.shiftr e 12) 12) as ->.
  { apply Z.bits_inj'. intros i Hi. rewrite Z.land_spec. destruct (decide (i < 12)).
    - by rewrite !Z.shiftl_spec_low, andb_false_r by lia.
    - rewrite !Z.shiftl_spec, Z.shiftr_spec by lia. replace (i - 12 + 12) with i by lia.
      destruct (decide (i < 64)); [by rewrite Z.ones_spec_low, andb_true_r by lia|].
      rewrite Z.ones_spec_high, andb_false_r by lia. symmetry.
      rewrite <- (Z.mod_small e (2 ^ 64)) by lia. apply Z.mod_pow2_bits_high. lia. }
  rewrite Z.shiftl_mul_pow2, Z.shiftr_div_pow2 by lia. change (2 ^ 12) with 4096.
  pose proof (Z.div_mod e 4096 ltac:(lia)). lia.
Qed.

Lemma page_buffer b : aligned -> b ∈ buffers -> 0 < b < 2 ^ 64 /\ b mod 4096 = 0 /\ page b = b.
Proof.
  intros (Hg & Ha & Ht) (k & Hk & ->)%elem_buffers. unfold buffer, MAX_BUFFER_LENGTH in *.
  assert ((g + 4096 * k) mod 4096 = 0) as Hm
    by (rewrite (Z.mul_comm 4096), Z.mod_add by lia; exact Ha).
  change (2 ^ 64) with 18446744073709551616 in *.
  assert (0 < g + 4096 * k < 18446744073709551616) as Hr by nia.
  split; [done|]. split; [done|]. rewrite page_spec by (change (2 ^ 64) with 18446744073709551616; lia). lia.
Qed.

Lemma page_base e : aligned -> 0 <= e < 2 ^ 64 -> base_of <= e <-> base_of <= page e.
Proof.
  intros Ha He. rewrite page_spec by done.
  destruct (page_buffer base_of Ha) as (_ & Hb & _).
  { apply elem_buffers. by exists NUMBER_OF_BUFFER. }
  pose proof (Z.mod_pos_bound e 4096 ltac:(lia)). split; [|lia]. intros H1.
  pose proof (Z.div_mod e 4096 ltac:(lia)). pose proof (Z.div_mod base_of 4096 ltac:(lia)).
  assert (base_of / 4096 <= e / 4096) by (apply Z.div_le_mono; lia). lia.
Qed.

(** ** The invariant

    [h] lists the buffers that clients hold. *)
Record pool_inv (p : pool) (h : list Z) : Prop := {
  pi_stack : stack_ok NUMBER_OF_POOL_BUFFER (g_stackP p);
  pi_reserved : stack_ok NUMBER_OF_RESERVED_BUFFER (reserved_stack p);
  pi_base : RESERVED_BUFFER_BASE p = base_of;
  pi_pool_low : Forall (fun b => ~ base_of <= b) (live (g_stackP p));
  pi_reserved_high : Forall (fun b => base_of <= b) (live (reserved_stack p));
  pi_all : live (g_stackP p) ++ live (reserved_stack p) ++ h ≡ₚ buffers }.

Lemma inv_member p h b : pool_inv p h ->
  b ∈ live (g_stackP p) \/ b ∈ live (reserved_stack p) \/ b ∈ h -> b ∈ buffers.
Proof. intros [_ _ _ _ _ H] Hb. rewrite <- H, !elem_of_app. done. Qed.

Lemma inv_nodup p h : pool_inv p h -> NoDup (live (g_stackP p) ++ live (reserved_stack p) ++ h).
Proof. intros [_ _ _ _ _ H]. rewrite H. apply buffers_nodup. Qed.

(** A stack has room for every buffer of its own that a client holds. *)
Lemma reserved_room p h b : pool_inv p h -> b ∈ h -> base_of <= b ->
  top (reserved_stack p) + 1 < NUMBER_OF_RESERVED_BUFFER.
Proof.
  intros [_ Hr _ _ Hhigh Hall] Hb Hbase.
  pose proof (live_top _ _ Hr) as Hl.
  assert (filter (fun b => base_of <= b) (live (reserved_stack p)) = live (reserved_stack p)) as Hf
    by (by apply filter_keeps_all).
  pose proof reserved_count as Hc. rewrite <- Hall, !list.filter_app, !length_app, Hf in Hc.
  assert (b ∈ filter (fun b => base_of <= b) h) as Hin by (by apply list_elem_of_filter).
  destruct (filter _ h) as [|x l]; [by apply elem_of_nil in Hin|]. cbn [length] in Hc.
  unfold NUMBER_OF_RESERVED_BUFFER. lia.
Qed.

Lemma pool_room p h : pool_inv p h -> top (g_stackP p) + 1 < NUMBER_OF_POOL_BUFFER.
Proof.
  intros [Hs _ _ Hlow _ Hall]. pose proof (live_top _ _ Hs) as Hl.
  assert (filter (fun b => ~ base_of <= b) (live (g_stackP p)) = live (g_stackP p)) as Hf
    by (by apply filter_keeps_all).
  pose proof pool_count as Hc. rewrite <- Hall, !list.filter_app, !length_app, Hf in Hc.
  unfold NUMBER_OF_POOL_BUFFER, NUMBER_OF_BUFFER. lia.
Qed.

Lemma inv_perm p h h' : h ≡ₚ h' -> pool_inv p h -> pool_inv p h'.
Proof. intros Hh []. split; try done. by rewrite <- Hh. Qed.

(** ** The operations keep it *)

(** A stack's answer to a request for a buffer. *)
Definition taken (s : buffer_stack) (kind : Z -> Prop) (p p' : pool) (e : Z) (h : list Z) : Prop :=
  if isStackEmpty s then e = EMPTY_ELEMENT /\ p' = p
  else e <> EMPTY_ELEMENT /\ kind e /\ pool_inv p' (e :: h).

Lemma not_empty n s : stack_ok n s -> isStackEmpty s = false -> 0 <= top s.
Proof. intros [_ Ht]. unfold isStackEmpty. rewrite Z.eqb_neq. lia. Qed.

Lemma alloc_run p h : aligned -> pool_inv p h -> exists e p',
  buffer_pool_alloc p = Ok (e, p') /\ taken (g_stackP p) (fun e => ~ base_of <= e) p p' e h.
Proof.
  intros Ha Hp. pose proof Hp as [Hs Hr Hb Hlow Hhigh Hall]. unfold buffer_pool_alloc, taken.
  rewrite (cmd_bind_run get _ p p p) by done.
  destruct (isStackEmpty (g_stackP p)) eqn:Ee; [by exists EMPTY_ELEMENT, p|].
  destruct (pop_run _ _ Hs (not_empty _ _ Hs Ee)) as (e & s & Ep & Hs' & Hl & _).
  rewrite (cmd_bind_run _ _ _ _ _ (lift_run _ p _ Ep)). exists e, (set_stack s p). split; [done|].
  rewrite Hl, Forall_app, Forall_singleton in Hlow. destruct Hlow as [Hlow He].
  assert (pool_inv (set_stack s p) (e :: h)) as Hinv.
  { split; try done. cbn [g_stackP reserved_stack set_stack]. rewrite <- Hall, Hl. solve_Permutation. }
  split; [|split; [done|done]].
  destruct (page_buffer e Ha) as [Hpos _]; [|unfold EMPTY_ELEMENT; lia].
  apply (inv_member _ _ _ Hinv). right. right. left.
Qed.

Lemma reserved_run p h : aligned -> pool_inv p h -> exists e p',
  get_reserved_tx_buffer p = Ok (e, p') /\ taken (reserved_stack p) (fun e => base_of <= e) p p' e h.
Proof.
  intros Ha Hp. pose proof Hp as [Hs Hr Hb Hlow Hhigh Hall]. unfold get_reserved_tx_buffer, taken.
  rewrite (cmd_bind_run get _ p p p) by done.
  destruct (isStackEmpty (reserved_stack p)) eqn:Ee; [by exists EMPTY_ELEMENT, p|].
  destruct (pop_run _ _ Hr (not_empty _ _ Hr Ee)) as (e & s & Ep & Hs' & Hl & _).
  rewrite (cmd_bind_run _ _ _ _ _ (lift_run _ p _ Ep)). exists e, (set_reserved s p). split; [done|].
  rewrite Hl, Forall_app, Forall_singleton in Hhigh. destruct Hhigh as [Hhigh He].
  assert (pool_inv (set_reserved s p) (e :: h)) as Hinv.
  { split; try done. cbn [g_stackP reserved_stack set_reserved]. rewrite <- Hall, Hl. solve_Permutation. }
  split; [|split; [done|done]].
  destruct (page_buffer e Ha) as [Hpos _]; [|unfold EMPTY_ELEMENT; lia].
  apply (inv_member _ _ _ Hinv). right. right. left.
Qed.

(** A buffer that a client holds goes back to the stack it belongs to. *)
Lemma put_back p h b : pool_inv p (b :: h) -> exists p',
  (if decide (base_of <= b) then put_reserved b else put_pool b) p = Ok (true, p') /\ pool_inv p' h.
Proof.
  intros Hp. pose proof Hp as [Hs Hr Hb Hlow Hhigh Hall].
  destruct (decide (base_of <= b)) as [Hin|Hin].
  - pose proof (reserved_room _ _ b Hp ltac:(left) Hin) as Hroom.
    destruct (push_run _ b _ Hr Hroom) as (s & E & Hs' & Hl & _).
    unfold put_reserved. rewrite (cmd_bind_run get _ p p p) by done.
    unfold isReservedStackFull. rewrite (proj2 (Z.eqb_neq _ _)) by lia.
    rewrite (cmd_bind_run _ _ _ _ _ (lift_run _ p _ E)). exists (set_reserved s p). split; [done|].
    split; try done; cbn [g_stackP reserved_stack set_reserved]; rewrite Hl.
    + by rewrite Forall_app, Forall_singleton.
    + rewrite <- Hall. solve_Permutation.
  - pose proof (pool_room _ _ Hp) as Hroom.
    destruct (push_run _ b _ Hs Hroom) as (s & E & Hs' & Hl & _).
    unfold put_pool. rewrite (cmd_bind_run get _ p p p) by done.
    unfold isStackFull. rewrite (proj2 (Z.eqb_neq _ _)) by lia.
    rewrite (cmd_bind_run _ _ _ _ _ (lift_run _ p _ E)). exists (set_stack s p). split; [done|].
    split; try done; cbn [g_stackP reserved_stack set_stack]; rewrite Hl.
    + by rewrite Forall_app, Forall_singleton.
    + rewrite <- Hall. solve_Permutation.
Qed.

Lemma free_run p h e : aligned -> 0 <= e < 2 ^ 64 -> pool_inv p (page e :: h) -> exists p',
  buffer_pool_free e p = Ok (0, p') /\ pool_inv p' h.
Proof.
  intros Ha He Hp. destruct (put_back p h (page e) Hp) as (p' & E & Hp'). exists p'. split; [|done].
  unfold buffer_pool_free. rewrite (cmd_bind_run get _ p p p) by done. rewrite (pi_base _ _ Hp).
  assert ((if decide (base_of <= e) then put_reserved (page e) else put_pool (page e)) p = Ok (true, p')) as E'.
  { rewrite <- E. pose proof (page_base e Ha He).
    destruct (decide (base_of <= e)), (decide (base_of <= page e)); tauto || done. }
  by rewrite (cmd_bind_run _ _ _ _ _ E').
Qed.

(** The reserved buffers are a stack: giving back the buffer that was just taken undoes the
    taking, so that the next one to ask gets the same buffer. *)
Lemma reserved_undo p h e p1 : aligned -> pool_inv p h -> get_reserved_tx_buffer p = Ok (e, p1) -> e <> EMPTY_ELEMENT ->
  buffer_pool_free e p1 = Ok (0, p).
Proof.
  intros Ha Hp E He. destruct (reserved_run p h Ha Hp) as (e' & p1' & E' & Ht). rewrite E in E'. injection E' as <- <-.
  unfold taken in Ht. destruct (isStackEmpty (reserved_stack p)) eqn:Ee; [by destruct Ht|]. destruct Ht as (_ & Hbase & Hinv).
  assert (e ∈ buffers) as Hb by (apply (inv_member p1 (e :: h) e Hinv); right; right; left).
  destruct (page_buffer e Ha Hb) as (_ & _ & Hpage).
  unfold get_reserved_tx_buffer in E. rewrite (cmd_bind_run get _ p p p) in E by done. rewrite Ee in E.
  apply cmd_bind_ok in E as ([e' s] & p2 & E1 & E2). apply lift_ok in E1 as [E1 ->].
  rewrite (cmd_bind_run (modify _) _ p tt (set_reserved s p)) in E2 by done. injection E2 as -> <-.
  unfold pop_element in E1. destruct (aget _ _) as [x|] eqn:Eg; cbn [mbind outcome_bind] in E1; [|done]. injection E1 as -> <-.
  apply aget_ok in Eg as [Hr Eg].
  unfold buffer_pool_free. rewrite (cmd_bind_run get _ _ _ _ eq_refl). cbn [RESERVED_BUFFER_BASE set_reserved].
  rewrite (pi_base _ _ Hp), decide_True by done. rewrite Hpage.
  unfold put_reserved. rewrite (cmd_bind_run _ _ _ true p); [done|]. rewrite (cmd_bind_run get _ _ _ _ eq_refl).
  pose proof (reserved_room _ _ e Hinv ltac:(left) Hbase) as Hroom. cbn [reserved_stack set_reserved top] in Hroom |- *.
  unfold isReservedStackFull. cbn [top]. rewrite (proj2 (Z.eqb_neq _ _)) by lia.
  unfold push_element. cbn [elements top]. replace (top (reserved_stack p) - 1 + 1) with (top (reserved_stack p)) by lia.
  assert (aset (elements (reserved_stack p)) (top (reserved_stack p)) e = Ok (elements (reserved_stack p))) as ->
    by (apply aset_ok; split; [apply lookup_lt_Some in Eg; lia|by rewrite list_insert_id]).
  cbn [mbind outcome_bind]. cstep. cstep. unfold mret, cmd_ret. f_equal. f_equal. by destruct p as [? [] ? ? ?].
Qed.

(** What is free, counted from what the clients hold. *)
Definition held_low (h : list Z) : Z := Z.of_nat (length (filter (fun b => ~ base_of <= b) h)).
Definition held_reserved (h : list Z) : Z := Z.of_nat (length (filter (fun b => base_of <= b) h)).

Lemma filter_none {A} (P : A -> Prop) `{!forall x, Decision (P x)} (l : list A) :
  Forall (fun x => ~ P x) l -> filter P l = [].
Proof. induction 1 as [|x l Hx _ IH]; [done|]. by rewrite filter_cons_False. Qed.

Lemma free_low p h : pool_inv p h -> top (g_stackP p) + 1 = NUMBER_OF_BUFFER - held_low h.
Proof.
  intros [Hs _ _ Hlow Hhigh Hall]. pose proof (live_top _ _ Hs) as Hl.
  pose proof pool_count as Hc. rewrite <- Hall, !list.filter_app, !length_app in Hc.
  rewrite (filter_keeps_all _ _ Hlow), (filter_none _ (live (reserved_stack p))) in Hc.
  - unfold held_low, NUMBER_OF_BUFFER. cbn [length] in Hc. lia.
  - eapply Forall_impl; [exact Hhigh|]. cbn. tauto.
Qed.

Lemma free_reserved p h : pool_inv p h -> top (reserved_stack p) + 1 = NUMBER_OF_RESERVED_BUFFER - held_reserved h.
Proof.
  intros [_ Hr _ Hlow Hhigh Hall]. pose proof (live_top _ _ Hr) as Hl.
  pose proof reserved_count as Hc. rewrite <- Hall, !list.filter_app, !length_app in Hc.
  rewrite (filter_keeps_all _ _ Hhigh), (filter_none _ _ Hlow) in Hc.
  unfold held_reserved, NUMBER_OF_RESERVED_BUFFER. cbn [length] in Hc. lia.
Qed.

(** ** The operations on several buffers *)

Lemma alloc_bds_run n p h cnt bds : pool_inv p h -> 0 <= cnt -> cnt + Z.of_nat n <= Z.of_nat (length bds) ->
  exists got bds' p', alloc_bds n cnt bds p = Ok ((cnt + Z.of_nat (length got), bds'), p') /\
    pool_inv p' (got ++ h) /\ Z.of_nat (length got) = Z.min (Z.of_nat n) (top (g_stackP p) + 1) /\
    take (Z.to_nat cnt + length got) bds' = take (Z.to_nat cnt) bds ++ got.
Proof.
  revert p h cnt bds. induction n as [|n IH]; intros p h cnt bds Hp Hc Hn;
    pose proof Hp as [Hs Hr Hb Hlow Hhigh Hall]; pose proof Hs as [_ Htop].
  { exists [], bds, p. cbn [alloc_bds length app]. rewrite Z.add_0_r, Nat.add_0_r, app_nil_r.
    split_and!; [done|done|cbn; lia|done]. }
  cbn [alloc_bds]. rewrite (cmd_bind_run get _ p p p) by done.
  destruct (decide (0 <= top (g_stackP p))) as [Ht|Ht].
  2: { exists [], bds, p. cbn [length app]. rewrite Z.add_0_r, Nat.add_0_r, app_nil_r.
       split_and!; [done|done|cbn; lia|done]. }
  destruct (pop_run _ _ Hs Ht) as (e & s & Ep & Hs' & Hl & Htop').
  rewrite (cmd_bind_run _ _ _ _ _ (lift_run _ p _ Ep)).
  assert (aset bds cnt e = Ok (<[Z.to_nat cnt := e]> bds)) as Ea by (apply aset_ok; split; [lia|done]).
  rewrite (cmd_bind_run _ _ _ _ _ (lift_run _ p _ Ea)).
  rewrite (cmd_bind_run (modify (set_stack s)) _ p tt (set_stack s p)) by done.
  rewrite Hl, Forall_app, Forall_singleton in Hlow. destruct Hlow as [Hlow He].
  assert (pool_inv (set_stack s p) (e :: h)) as Hinv.
  { split; try done. cbn [g_stackP reserved_stack set_stack]. rewrite <- Hall, Hl. solve_Permutation. }
  destruct (IH (set_stack s p) (e :: h) (cnt + 1) (<[Z.to_nat cnt := e]> bds) Hinv)
    as (got & bds' & p' & E & Hp' & Hg & Ht'); [lia|rewrite length_insert; lia|].
  exists (e :: got), bds', p'. cbn [length]. split; [rewrite E; do 3 f_equal; lia|]. split.
  { eapply inv_perm; [|exact Hp']. solve_Permutation. }
  cbn [g_stackP set_stack] in Hg. split; [lia|].
  replace (Z.to_nat (cnt + 1)) with (S (Z.to_nat cnt)) in Ht' by lia.
  replace (Z.to_nat cnt + S (length got))%nat with (S (Z.to_nat cnt) + length got)%nat by lia.
  rewrite Ht', (take_S_r _ _ e) by (apply list_lookup_insert_eq; lia).
  by rewrite take_insert_ge, <- app_assoc by lia.
Qed.

Lemma free_bds_run n p h bds cnt es : 0 <= cnt -> take n (drop (Z.to_nat cnt) bds) = es -> length es = n ->
  pool_inv p ((page <$> es) ++ h) -> exists p', free_bds bds cnt n p = Ok (tt, p') /\ pool_inv p' h.
Proof.
  revert p cnt es. induction n as [|n IH]; intros p cnt es Hc Hes Hn Hp.
  { destruct es; [|done]. by exists p. }
  destruct es as [|e es]; [done|]. cbn [free_bds].
  assert (bds !! Z.to_nat cnt = Some e) as He.
  { rewrite <- (Nat.add_0_r (Z.to_nat cnt)), <- lookup_drop, <- (lookup_take_lt _ (S n)) by lia. by rewrite Hes. }
  rewrite (cmd_bind_run _ _ _ _ _ (lift_run _ p e (proj2 (aget_ok _ _ _) (conj Hc He)))).
  rewrite (cmd_bind_run get _ p p p) by done.
  cbn [fmap list_fmap app] in Hp. destruct (put_back p _ _ Hp) as (p1 & E1 & Hp1).
  rewrite (pi_base _ _ Hp), (cmd_bind_run _ _ _ _ _ E1). apply (IH _ _ es); [lia| |cbn in Hn; lia|done].
  rewrite (drop_S _ e) in Hes by done. cbn in Hes. replace (Z.to_nat (cnt + 1)) with (S (Z.to_nat cnt)) by lia.
  congruence.
Qed.

(** ** Start-up *)
Lemma buffers_sorted : StronglySorted Z.le buffers.
Proof.
  unfold buffers. assert (forall l, StronglySorted Z.lt l -> StronglySorted Z.le (buffer <$> l)) as H.
  { induction 1 as [|x l Hl IH Hx]; constructor; [done|]. apply Forall_fmap.
    eapply Forall_impl; [exact Hx|]. intros y Hy. cbn in Hy |- *. unfold buffer, MAX_BUFFER_LENGTH. lia. }
  apply H. generalize TOTAL_BUFFERS as n, 0 as m. intros n m. unfold seqZ.
  generalize (Z.to_nat n) as k. intros k.
  assert (forall j, StronglySorted Z.lt ((fun i : nat => Z.of_nat i + m) <$> seq j k)) as Hk; [|apply (Hk 0%nat)].
  induction k as [|k IH]; intros j; constructor; [apply IH|]. apply Forall_fmap, Forall_forall.
  intros i Hi%elem_of_seq. cbn. lia.
Qed.

Lemma fill_run l : length l = Z.to_nat TOTAL_BUFFERS ->
  for_loop (Z.to_nat TOTAL_BUFFERS)
    (fun id l => aset l (Z.of_nat id) (g + Z.of_nat id * MAX_BUFFER_LENGTH)) l = Ok buffers.
Proof.
  intros Hl.
  destruct (for_loop_inv
    (fun i l => length l = Z.to_nat TOTAL_BUFFERS /\ forall k, (k < i)%nat -> l !! k = Some (buffer (Z.of_nat k)))
    (Z.to_nat TOTAL_BUFFERS)
    (fun id l => aset l (Z.of_nat id) (g + Z.of_nat id * MAX_BUFFER_LENGTH)) l) as (r & E & Hr & Hk).
  - split; [done|]. lia.
  - intros i s Hi [Hs Hk]. eexists. split; [apply aset_nat; lia|]. split; [by rewrite length_insert|].
    intros k Hki. destruct (decide (k = i)) as [->|].
    + rewrite list_lookup_insert_eq by lia. f_equal. unfold buffer. lia.
    + rewrite list_lookup_insert_ne by done. apply Hk. lia.
  - rewrite E. f_equal. apply list_eq_same_length with (n := Z.to_nat TOTAL_BUFFERS); [|done|].
    + unfold buffers. by rewrite length_fmap, length_seqZ.
    + intros k x y Hlt Hx Hy. rewrite Hk in Hx by done. unfold buffers in Hy.
      rewrite list_lookup_fmap, lookup_seqZ_lt in Hy by lia. cbn in Hy. injection Hx as <-. injection Hy as <-. done.
Qed.

Lemma sort_run : quickSort (Z.to_nat TOTAL_BUFFERS) buffers 0 (TOTAL_BUFFERS - 1) = Ok buffers.
Proof.
  assert (length buffers = Z.to_nat TOTAL_BUFFERS) as Hl by (unfold buffers; by rewrite length_fmap, length_seqZ).
  destruct (quickSort_all buffers) as (r & E & Hp & Hs).
  { intros H. by rewrite H in Hl. }
  { rewrite Hl. by vm_compute. }
  rewrite Hl in E. replace (TOTAL_BUFFERS - 1) with (Z.of_nat (Z.to_nat TOTAL_BUFFERS) - 1) by done.
  rewrite E. f_equal. apply (StronglySorted_unique Z.le); [done|apply buffers_sorted|done].
Qed.

Lemma free_all_run l p : aligned -> l ⊆+ buffers -> pool_inv p l ->
  exists p', free_all l p = Ok (0, p') /\ pool_inv p' [].
Proof.
  intros Ha. revert p. induction l as [|e l IH]; intros p Hl Hp; [by exists p|].
  destruct (page_buffer e Ha) as (Hr & _ & Hpage).
  { eapply elem_of_submseteq; [|exact Hl]. left. }
  destruct (free_run p l e Ha) as (p1 & E & Hp1); [lia|by rewrite Hpage|].
  cbn [free_all]. rewrite (cmd_bind_run _ _ _ _ _ E). rewrite decide_False by lia.
  apply IH; [|done]. etrans; [|exact Hl]. by apply submseteq_cons.
Qed.

(** The static arrays have their declared lengths. *)
Definition pool_shape (p : pool) : Prop :=
  Z.of_nat (length (elements (g_stackP p))) = NUMBER_OF_POOL_BUFFER /\
  Z.of_nat (length (elements (reserved_stack p))) = NUMBER_OF_RESERVED_BUFFER /\
  length (buffer_list p) = Z.to_nat TOTAL_BUFFERS.

Lemma pool0_shape : pool_shape pool0.
Proof. by vm_compute. Qed.

Lemma allocate_run p : length (buffer_list p) = Z.to_nat TOTAL_BUFFERS ->
  allocate_buffers (Some g) p = Ok (0, set_buffers buffers g p).
Proof.
  intros Hl. unfold allocate_buffers. rewrite (cmd_bind_run get _ p p p) by done.
  rewrite (cmd_bind_run _ _ _ _ _ (lift_run _ p _ (fill_run _ Hl))).
  by rewrite (cmd_bind_run _ _ _ _ _ (lift_run _ p _ sort_run)).
Qed.

Lemma initialize_run p0 : aligned -> pool_shape p0 -> exists p,
  initialize_buffer_allocation (Some g) p0 = Ok (0, p) /\ pool_inv p [].
Proof.
  intros Ha (Hs & Hr & Hl). unfold initialize_buffer_allocation, initialize_stacks.
  rewrite (cmd_bind_run _ _ p0 tt _ eq_refl).
  rewrite (cmd_bind_run _ _ _ _ _ (allocate_run (set_reserved _ (set_stack _ p0)) Hl)).
  rewrite decide_False by lia. rewrite (cmd_bind_run get _ _ _ _ eq_refl).
  assert (aget buffers NUMBER_OF_BUFFER = Ok base_of) as Eb.
  { apply aget_ok. split; [done|]. unfold buffers. by rewrite list_lookup_fmap, lookup_seqZ_lt by (by vm_compute). }
  cbn [buffer_list set_buffers]. rewrite (cmd_bind_run _ _ _ _ _ (lift_run _ _ _ Eb)).
  rewrite (cmd_bind_run (modify (set_base base_of)) _ _ tt _ eq_refl). apply free_all_run; [done|done|].
  split; cbn; [done|done|done|by apply Forall_nil|by apply Forall_nil|done].
Qed.

(** ** Clients *)

(** The calls of the module.  A client may free any address inside a buffer. *)
Inductive pool_op :=
| OpAlloc
| OpAllocReserved
| OpFree (e : Z)
| OpMultiAlloc (b : multi_bd)
| OpMultiFree (b : multi_bd).

(** The answer of a call and the buffers it hands out. *)
Definition run_pool_op (op : pool_op) : cmd pool (Z * list Z) :=
  match op with
  | OpAlloc => e ← buffer_pool_alloc; mret (e, if decide (e = EMPTY_ELEMENT) then [] else [e])
  | OpAllocReserved => e ← get_reserved_tx_buffer; mret (e, if decide (e = EMPTY_ELEMENT) then [] else [e])
  | OpFree e => rv ← buffer_pool_free e; mret (rv, [])
  | OpMultiAlloc b => '(rv, b') ← multi_buffer_pool_alloc b; mret (rv, take (Z.to_nat (bd_num b')) (bd b'))
  | OpMultiFree b => rv ← multi_buffer_pool_free b; mret (rv, [])
  end.

(** The buffers a call gives back, and the calls that respect the interface. *)
Definition gives (op : pool_op) : list Z :=
  match op with
  | OpFree e => [page e]
  | OpMultiFree b => page <$> take (Z.to_nat (bd_num b)) (bd b)
  | _ => []
  end.
Definition legit (op : pool_op) : Prop :=
  match op with
  | OpFree e => 0 <= e < 2 ^ 64
  | OpMultiAlloc b => length (bd b) = MAX_BD_NUMBER
  | OpMultiFree b => 0 <= bd_num b <= Z.of_nat (length (bd b))
  | _ => True
  end.

(** What a client that sees only the buffers in use may rely on: a single buffer of
    the wanted kind, or none exactly when all of that kind are in use; as many as are
    free, eight at most; and every return is accepted. *)
Definition promised (op : pool_op) (h : list Z) (rv : Z) (got : list Z) : Prop :=
  match op with
  | OpAlloc =>
      if decide (held_low h = NUMBER_OF_BUFFER) then rv = EMPTY_ELEMENT /\ got = []
      else got = [rv] /\ ~ base_of <= rv
  | OpAllocReserved =>
      if decide (held_reserved h = NUMBER_OF_RESERVED_BUFFER) then rv = EMPTY_ELEMENT /\ got = []
      else got = [rv] /\ base_of <= rv
  | OpMultiAlloc _ =>
      if decide (held_low h = NUMBER_OF_BUFFER) then rv = -1 /\ got = []
      else rv = Z.min (Z.of_nat MAX_BD_NUMBER) (NUMBER_OF_BUFFER - held_low h) /\ Z.of_nat (length got) = rv
  | OpFree _ | OpMultiFree _ => rv = 0 /\ got = []
  end.

(** The states of the module and the buffers in use, from the start on. *)
Inductive reachable : pool -> list Z -> Prop :=
| reach_init p : initialize_buffer_allocation (Some g) pool0 = Ok (0, p) -> reachable p []
| reach_op p h op h' rv got p' : reachable p h -> legit op -> h ≡ₚ gives op ++ h' ->
    run_pool_op op p = Ok ((rv, got), p') -> reachable p' (got ++ h').

Lemma empty_low p h : pool_inv p h -> isStackEmpty (g_stackP p) = bool_decide (held_low h = NUMBER_OF_BUFFER).
Proof.
  intros Hp. pose proof (free_low _ _ Hp). unfold isStackEmpty. apply eq_true_iff_eq.
  rewrite Z.eqb_eq, bool_decide_eq_true. lia.
Qed.

Lemma empty_reserved p h : pool_inv p h ->
  isStackEmpty (reserved_stack p) = bool_decide (held_reserved h = NUMBER_OF_RESERVED_BUFFER).
Proof.
  intros Hp. pose proof (free_reserved _ _ Hp). unfold isStackEmpty. apply eq_true_iff_eq.
  rewrite Z.eqb_eq, bool_decide_eq_true. lia.
Qed.

(** A call of a client is answered as promised and keeps the invariant. *)
Definition answered (op : pool_op) (p : pool) (h : list Z) : Prop := exists rv got p',
  run_pool_op op p = Ok ((rv, got), p') /\ promised op h rv got /\ pool_inv p' (got ++ h).

Lemma alloc_answered p h : aligned -> pool_inv p h -> answered OpAlloc p h.
Proof.
  intros Ha Hp. destruct (alloc_run p h Ha Hp) as (e & p' & E & Ht). unfold taken in Ht.
  rewrite (empty_low p h Hp) in Ht. unfold answered, run_pool_op, promised.
  rewrite (cmd_bind_run _ _ _ _ _ E). destruct (decide (held_low h = NUMBER_OF_BUFFER)) as [Hd|Hd].
  - rewrite bool_decide_eq_true_2 in Ht by done. destruct Ht as [-> ->]. by exists EMPTY_ELEMENT, [], p.
  - rewrite bool_decide_eq_false_2 in Ht by done. destruct Ht as (Hne & Hk & Hp').
    exists e, [e], p'. by rewrite decide_False by done.
Qed.

Lemma reserved_answered p h : aligned -> pool_inv p h -> answered OpAllocReserved p h.
Proof.
  intros Ha Hp. destruct (reserved_run p h Ha Hp) as (e & p' & E & Ht). unfold taken in Ht.
  rewrite (empty_reserved p h Hp) in Ht. unfold answered, run_pool_op, promised.
  rewrite (cmd_bind_run _ _ _ _ _ E).
  destruct (decide (held_reserved h = NUMBER_OF_RESERVED_BUFFER)) as [Hd|Hd].
  - rewrite bool_decide_eq_true_2 in Ht by done. destruct Ht as [-> ->]. by exists EMPTY_ELEMENT, [], p.
  - rewrite bool_decide_eq_false_2 in Ht by done. destruct Ht as (Hne & Hk & Hp').
    exists e, [e], p'. by rewrite decide_False by done.
Qed.

Lemma multi_alloc_answered b p h : pool_inv p h -> length (bd b) = MAX_BD_NUMBER -> answered (OpMultiAlloc b) p h.
Proof.
  intros Hp Hb. pose proof (free_low _ _ Hp) as Hf. pose proof (empty_low _ _ Hp) as He.
  destruct (alloc_bds_run MAX_BD_NUMBER p h 0 (bd b) Hp) as (got & bds & p' & E & Hp' & Hg & Ht); [lia|lia|].
  change (Z.to_nat 0) with 0%nat in Ht. rewrite Nat.add_0_l, take_0, app_nil_l in Ht. rewrite Z.add_0_l in E.
  unfold answered, run_pool_op, promised.
  destruct (decide (held_low h = NUMBER_OF_BUFFER)) as [Hd|Hd].
  - rewrite bool_decide_eq_true_2 in He by done.
    assert (multi_buffer_pool_alloc b p = Ok ((-1, mkMulti 0 (bd b)), p)) as E'
      by (unfold multi_buffer_pool_alloc; rewrite (cmd_bind_run get _ p p p), He by done; done).
    rewrite (cmd_bind_run _ _ _ _ _ E'). by exists (-1), [], p.
  - rewrite bool_decide_eq_false_2 in He by done.
    assert (multi_buffer_pool_alloc b p =
      Ok ((Z.of_nat (length got), mkMulti (Z.of_nat (length got)) bds), p')) as E'.
    { unfold multi_buffer_pool_alloc. rewrite (cmd_bind_run get _ p p p), He by done.
      by rewrite (cmd_bind_run _ _ _ _ _ E). }
    rewrite (cmd_bind_run _ _ _ _ _ E'). cbn [bd bd_num]. rewrite Nat2Z.id, Ht.
    exists (Z.of_nat (length got)), got, p'. split; [done|]. split; [|done]. rewrite Hg, Hf. split; lia.
Qed.

Lemma multi_free_answered b p h : pool_inv p ((page <$> take (Z.to_nat (bd_num b)) (bd b)) ++ h) ->
  0 <= bd_num b <= Z.of_nat (length (bd b)) -> answered (OpMultiFree b) p h.
Proof.
  intros Hp Hb. destruct (free_bds_run (Z.to_nat (bd_num b)) p h (bd b) 0
    (take (Z.to_nat (bd_num b)) (bd b))) as (p' & E & Hp'); [done|done|rewrite length_take; lia|done|].
  unfold answered, run_pool_op, multi_buffer_pool_free. exists 0, [], p'. split; [|done].
  assert ((_ ← free_bds (bd b) 0 (Z.to_nat (bd_num b)); mret 0) p = Ok (0, p')) as E'
    by (by rewrite (cmd_bind_run _ _ _ _ _ E)).
  by rewrite (cmd_bind_run _ _ _ _ _ E').
Qed.

Lemma run_op_inv op p h h' : aligned -> pool_inv p h -> legit op -> h ≡ₚ gives op ++ h' -> answered op p h'.
Proof.
  intros Ha Hp Hl Hh. apply (inv_perm _ _ _ Hh) in Hp. destruct op as [| |e|b|b]; cbn [gives app] in Hp.
  - by apply alloc_answered.
  - by apply reserved_answered.
  - destruct (free_run p h' e Ha Hl Hp) as (p' & E & Hp'). exists 0, [], p'. split; [|done].
    unfold run_pool_op. by rewrite (cmd_bind_run _ _ _ _ _ E).
  - by apply multi_alloc_answered.
  - by apply multi_free_answered.
Qed.

Lemma reachable_inv p h : aligned -> reachable p h -> pool_inv p h.
Proof.
  intros Ha. induction 1 as [p Hp|p h op h' rv got p' _ IH Hl Hh E].
  - destruct (initialize_run pool0 Ha pool0_shape) as (p' & E & Hinv). congruence.
  - destruct (run_op_inv op p h h' Ha IH Hl Hh) as (rv' & got' & p1 & E' & _ & Hinv). congruence.
Qed.
End buffers.

(** C6. The buffer allocator loses and duplicates nothing.  Start-up succeeds.  After
    it, in every state that clients reach who free only what they hold, every call
    runs without an out-of-bounds access and answers as promised - a buffer of the
    right kind, none only when all of the kind are in use, never a refused return -
    and the buffers then in use are distinct and among those allocated. *)
Theorem pool_accounts_buffers g : aligned g ->
  (exists p, initialize_buffer_allocation (Some g) pool0 = Ok (0, p)) /\
  forall p h op h', reachable g p h -> legit op -> h ≡ₚ gives op ++ h' ->
    exists rv got p', run_pool_op op p = Ok ((rv, got), p') /\ promised g op h' rv got /\
      NoDup (got ++ h') /\ got ++ h' ⊆ buffers g.
Proof.
  intros Ha. split.
  { destruct (initialize_run g pool0 Ha pool0_shape) as (p & E & _). by exists p. }
  intros p h op h' Hr Hl Hh. pose proof (reachable_inv g p h Ha Hr) as Hp.
  destruct (run_op_inv g op p h h' Ha Hp Hl Hh) as (rv & got & p' & E & Hprom & Hp').
  exists rv, got, p'. split; [done|]. split; [done|]. split.
  - pose proof (inv_nodup _ _ _ Hp') as Hnd. by apply NoDup_app in Hnd as (_ & _ & (_ & _ & Hnd)%NoDup_app).
  - intros b Hb. apply (inv_member _ _ _ _ Hp'). auto.
Qed.

Lemma pool_accounts_buffers_witness :
  (exists p, initialize_buffer_allocation (Some 0x7f0000000000) pool0 = Ok (0, p)) /\
  forall p h op h', reachable 0x7f0000000000 p h -> legit op -> h ≡ₚ gives op ++ h' ->
    exists rv got p', run_pool_op op p = Ok ((rv, got), p') /\ promised 0x7f0000000000 op h' rv got /\
      NoDup (got ++ h') /\ got ++ h' ⊆ buffers 0x7f0000000000.
Proof. apply (pool_accounts_buffers 0x7f0000000000). by vm_compute. Defined.
