(* ===== verification/GptpClock.v ===== *)
(** * sample/gptp.c, first part: the clock and the state of the protocol

    The clock of the sample application is a scale and an offset on the tick counter
    of the device; the scale is an integer and a fraction of 2^21.  It is set by the
    handlers of the messages of a grandmaster, which is elected by its announcements.
    A received message is the members the handlers read; they are the bytes of one
    buffer, seen as the header of the type of the message.  The tick counter and the
    time stamps of sent frames are read from registers: what is read is an argument.
    [time_t] values are 64 bits wide and wrap around; signed overflow is a fault.

    The theorems: the clock is exact as long as the product with the fraction fits
    64 bits; a follow-up message makes it agree with the grandmaster, but for the link
    delay, which is never stored; a new scale does not move the present; the
    announcements elect the clock of the best priority; time stamps survive their
    representation in a message; statistics without samples have no value. *)

From S2P Require Import Prelude Float64.
From Stdlib Require Import SpecFloat.
From stdpp Require Import sets list.

Open Scope Z_scope.

(** ** Constants: gptp.c, gptp.h, platform_config.h *)
Definition TX_ADJUST_NS : Z := 708 + 60.
Definition RX_ADJUST_NS : Z := 1920 + 240.
Definition TICKS_SCALE : Z := 8.
Definition TICKS_PER_SEC : Z := 1000000000 / TICKS_SCALE.
Definition SERVER_DECAY_TIMEOUT_TICK : Z := 1 * TICKS_PER_SEC.
Definition SYNTONIZE_SIZE : Z := 10.
Definition TIMESTAMP_MAG_RESOLUTION : Z := 0x200000.
Definition myMAC : list Z := [0x00; 0x11; 0x22; 0x33; 0x44; 0x55].
Definition myPriority1 : Z := 248.
Definition myPriority2 : Z := 248.
Definition PTP_FLAG_TIMESCALE : Z := Z.shiftl 1 3.
Definition PTP_FLAG_TWO_STEP : Z := Z.shiftl 1 9.

(** ** Messages *)
Record PtpTimestamp := mkTime { seconds : Z; nanoseconds : Z }.
Record PtpPortIdentity := mkPort { clockIdentity : list Z; portNumber : Z }.
#[global] Instance port_eq_dec : EqDecision PtpPortIdentity.
Proof. solve_decision. Defined.

Record PtpHeader := mkHdr {
  transportSpecific : Z; messageType : Z; minorVersionPTP : Z; versionPTP : Z; messageLength : Z;
  domainNumber : Z; minorSdoId : Z; flags : Z; correctionField : Z; messageTypeSpecific : Z;
  sourcePortIdentity : PtpPortIdentity; sequenceId : Z; control : Z; logMeanMessageInterval : Z }.

(** The metadata's time stamp, the header, the time stamp behind it (origin, precise
    origin, request receipt or response origin), the requesting port of the answers to a
    delay request and the priorities of an announcement. *)
Record rx_frame := mkRx {
  rx_timestamp : Z; hdr : PtpHeader; rx_time : PtpTimestamp; requestingPortIdentity : PtpPortIdentity;
  grandmasterPriority1 : Z; grandmasterPriority2 : Z }.

(** The bytes of a port identity, the number in network order. *)
Definition port_bytes (p : PtpPortIdentity) : list Z :=
  clockIdentity p ++ [portNumber p / 256; portNumber p mod 256].

(** The sign of [memcmp]. *)
Fixpoint memcmp (a b : list Z) : Z :=
  match a, b with
  | x :: a, y :: b => if decide (x = y) then memcmp a b else if decide (x < y) then -1 else 1
  | _, _ => 0
  end.

(** ** The static objects *)
Record statistics := mkStats {
  st_num : Z; st_min : f64; st_max : f64; st_mean : f64; st_sum_sqr : f64; st_sum_diff_sqr : f64 }.
Record master := mkGm {
  portIdentity : PtpPortIdentity; priority1 : Z; priority2 : Z; last_sync : Z; gm_sequenceId : Z }.
Record sync_status := mkStatus {
  master_sequenceId : Z; t1 : Z; t2 : Z; t3 : Z; t4 : Z; c1 : Z; c2 : Z;
  sync_tx : Z; sync_rx : Z; sync_correction : Z; link_delay : Z }.
Record clock := mkClock { timestamp_mag_int : Z; timestamp_mag_fraction : Z; timestamp_offset : Z }.

(** The last two are the statics of [syntonize]. *)
Record gptp := mkGptp {
  myClockId : list Z; my_sequenceId : Z; current_gm : master; has_master : Z; current_status : sync_status;
  the_clock : clock; stats_offset : statistics; stats_freq : statistics; stats_delay : statistics;
  syn_times : list (Z * Z); syn_index : Z }.

Definition set_clock_id (v : list Z) (g : gptp) : gptp :=
  mkGptp v (my_sequenceId g) (current_gm g) (has_master g) (current_status g) (the_clock g) (stats_offset g)
    (stats_freq g) (stats_delay g) (syn_times g) (syn_index g).
Definition set_my_sequence (v : Z) (g : gptp) : gptp :=
  mkGptp (myClockId g) v (current_gm g) (has_master g) (current_status g) (the_clock g) (stats_offset g)
    (stats_freq g) (stats_delay g) (syn_times g) (syn_index g).
Definition set_gm (v : master) (g : gptp) : gptp :=
  mkGptp (myClockId g) (my_sequenceId g) v (has_master g) (current_status g) (the_clock g) (stats_offset g)
    (stats_freq g) (stats_delay g) (syn_times g) (syn_index g).
Definition set_has_master (v : Z) (g : gptp) : gptp :=
  mkGptp (myClockId g) (my_sequenceId g) (current_gm g) v (current_status g) (the_clock g) (stats_offset g)
    (stats_freq g) (stats_delay g) (syn_times g) (syn_index g).
Definition set_status (v : sync_status) (g : gptp) : gptp :=
  mkGptp (myClockId g) (my_sequenceId g) (current_gm g) (has_master g) v (the_clock g) (stats_offset g)
    (stats_freq g) (stats_delay g) (syn_times g) (syn_index g).
Definition set_clock (v : clock) (g : gptp) : gptp :=
  mkGptp (myClockId g) (my_sequenceId g) (current_gm g) (has_master g) (current_status g) v (stats_offset g)
    (stats_freq g) (stats_delay g) (syn_times g) (syn_index g).
Definition set_stats (o f d : statistics) (g : gptp) : gptp :=
  mkGptp (myClockId g) (my_sequenceId g) (current_gm g) (has_master g) (current_status g) (the_clock g) o f d
    (syn_times g) (syn_index g).
Definition set_syn (v : list (Z * Z)) (i : Z) (g : gptp) : gptp :=
  mkGptp (myClockId g) (my_sequenceId g) (current_gm g) (has_master g) (current_status g) (the_clock g)
    (stats_offset g) (stats_freq g) (stats_delay g) v i.
Definition set_last_sync (v : Z) (m : master) : master :=
  mkGm (portIdentity m) (priority1 m) (priority2 m) v (gm_sequenceId m).

Definition zero_stats : statistics :=
  mkStats 0 (f64_of_Z 0) (f64_of_Z 0) (f64_of_Z 0) (f64_of_Z 0) (f64_of_Z 0).
Definition gptp0 : gptp :=
  mkGptp [0x00; 0x11; 0x22; 0x33; 0x44; 0x55; 0x66; 0x77] 0 (mkGm (mkPort (replicate 8 0) 0) 0 0 0 0) 0
    (mkStatus 0 0 0 0 0 0 0 0 0 0 0) (mkClock TICKS_SCALE 0 0) zero_stats zero_stats zero_stats
    (replicate 10 (0, 0)) 0.

Definition gptp_init (now : Z) : cmd gptp unit :=
  let id := [0x00; 0x11; 0x22; 0xff; 0xff; 0x33; 0x44; 0x55] in
  _ ← modify (set_clock_id id);
  modify (fun g => set_gm (mkGm (mkPort id 1) myPriority1 myPriority2 now (gm_sequenceId (current_gm g))) g).

(** ** The clock *)
Definition gptp_get_timestamp (c : clock) (sys_count : Z) : Z :=
  let timestamp := u64 (timestamp_mag_int c * sys_count) in
  let timestamp := u64 (timestamp + u64 (timestamp_mag_fraction c * sys_count) / TIMESTAMP_MAG_RESOLUTION) in
  u64 (timestamp + timestamp_offset c).
Definition gptp_get_tx_timestamp (c : clock) (ts : Z) : Z := u64 (gptp_get_timestamp c ts + TX_ADJUST_NS).
Definition gptp_get_rx_timestamp (c : clock) (rx : rx_frame) : Z :=
  u64 (gptp_get_timestamp c (rx_timestamp rx) - RX_ADJUST_NS).

Definition timestamp_to_ptp_time (timestamp : Z) : PtpTimestamp :=
  mkTime ((timestamp / 1000000000) mod 2 ^ 48) (u32 (timestamp mod 1000000000)).
Definition ptp_time_to_ns (t : PtpTimestamp) : Z := u64 (u64 (seconds t * 1000000000) + nanoseconds t).
Definition ptp_correction_to_ns (correction : Z) : Z := Z.shiftr correction 16.

(** ** Statistics *)
Definition add_statistics (stats : statistics) (value : f64) : outcome statistics :=
  let old_mean := st_mean stats in
  let max := if (st_num stats =? 0) || f64_lt (st_max stats) value then value else st_max stats in
  let min := if (st_num stats =? 0) || f64_lt value (st_min stats) then value else st_min stats in
  num ← sint (st_num stats + 1);
  let mean := f64_add old_mean (f64_div (f64_sub value old_mean) (f64_of_Z num)) in
  Ok (mkStats num min max mean (f64_add (st_sum_sqr stats) (f64_mul value value))
        (f64_add (st_sum_diff_sqr stats) (f64_mul (f64_sub value old_mean) (f64_sub value mean)))).

(** [struct gptp_statistics_result]; each member is converted to [int]. *)
Record statistics_result := mkResult {
  r_num : Z; r_min : Z; r_max : Z; r_max_abs : Z; r_mean : Z; r_rms : Z; r_stdev : Z }.

Definition get_statistics (stats : statistics) : outcome statistics_result :=
  let num := f64_of_Z (st_num stats) in
  min ← f64_to_s32 (st_min stats);
  max ← f64_to_s32 (st_max stats);
  max_abs ← f64_to_s32 (if f64_lt (f64_opp (st_min stats)) (st_max stats) then st_max stats
                         else f64_opp (st_min stats));
  mean ← f64_to_s32 (st_mean stats);
  rms ← f64_to_s32 (f64_sqrt (f64_div (st_sum_sqr stats) num));
  stdev ← f64_to_s32 (f64_sqrt (f64_div (st_sum_diff_sqr stats) num));
  Ok (mkResult (st_num stats) min max max_abs mean rms stdev).

Definition gptp_get_statistics (g : gptp) : outcome (list statistics_result) :=
  offset ← get_statistics (stats_offset g);
  freq ← get_statistics (stats_freq g);
  delay ← get_statistics (stats_delay g);
  Ok [offset; freq; delay].

Definition gptp_reset_statistics : cmd gptp unit := modify (set_stats zero_stats zero_stats zero_stats).

(** ** Adjustment *)
Definition adjust_timestamp_mag (new_mag : f64) (sys_count : Z) (c : clock) : outcome clock :=
  let current_timestamp := gptp_get_timestamp c sys_count in
  mag_int ← f64_to_s64 new_mag;
  mag_fraction ← f64_to_s64 (f64_mul (f64_sub new_mag (f64_of_Z mag_int)) (f64_of_Z TIMESTAMP_MAG_RESOLUTION));
  let c' := mkClock mag_int mag_fraction (timestamp_offset c) in
  Ok (mkClock mag_int mag_fraction
        (u64 (timestamp_offset c + (current_timestamp - gptp_get_timestamp c' sys_count)))).

Definition adjust_clock : cmd gptp unit :=
  g ← get;
  let t1 := s64 (sync_tx (current_status g)) in
  let t2 := s64 (sync_rx (current_status g)) in
  let l1 := link_delay (current_status g) in
  let c1 := s64 (sync_correction (current_status g)) in
  t1c ← lift (slong (t1 + c1));
  d ← lift (slong (t2 - t1c));
  delta ← lift (slong (d - l1));
  let c := the_clock g in
  _ ← modify (set_clock (mkClock (timestamp_mag_int c) (timestamp_mag_fraction c) (u64 (timestamp_offset c - delta))));
  st ← lift (add_statistics (stats_offset g) (f64_of_Z delta));
  modify (fun g => set_stats st (stats_freq g) (stats_delay g) g).

(** The link delay goes to the statistics only. *)
Definition calculate_link_delay : cmd gptp unit :=
  g ← get;
  let s := current_status g in
  let t3c := u64 (t3 s + c1 s + c2 s) in
  let link_delay := s64 (u64 (u64 (t2 s - t1 s) + u64 (t4 s - t3c)) / 2) in
  st ← lift (add_statistics (stats_delay g) (f64_of_Z link_delay));
  modify (fun g => set_stats (stats_offset g) (stats_freq g) st g).

Definition f64_0_9 : f64 := f64_div (f64_of_Z 9) (f64_of_Z 10).
Definition f64_1_1 : f64 := f64_div (f64_of_Z 11) (f64_of_Z 10).

(** [now]: the tick counter, read when the scale is set. *)
Definition syntonize (t1_sysclock t2_ns now : Z) : cmd gptp unit :=
  g ← get;
  l ← lift (aset (syn_times g) (syn_index g) (t1_sysclock, t2_ns));
  let index := Z.rem (syn_index g + 1) SYNTONIZE_SIZE in
  _ ← modify (set_syn l index);
  let newest_index := Z.rem (index + SYNTONIZE_SIZE - 1) SYNTONIZE_SIZE in
  '(t1_oldest, t2_oldest) ← lift (aget l index);
  '(t1_newest, t2_newest) ← lift (aget l newest_index);
  if decide (t1_oldest = 0) then mret tt else
  let t1_diff := u64 (t1_newest - t1_oldest) in
  let t2_diff := u64 (t2_newest - t2_oldest) in
  let neighbor_ratio := f64_div (f64_of_Z t2_diff) (f64_of_Z t1_diff) in
  let scaled_ratio := f64_div neighbor_ratio (f64_of_Z TICKS_SCALE) in
  st ← lift (add_statistics (stats_freq g) (f64_mul (f64_sub (f64_of_Z 1) scaled_ratio) (f64_of_Z 1000000000)));
  _ ← modify (fun g => set_stats (stats_offset g) st (stats_delay g) g);
  if f64_lt f64_0_9 scaled_ratio && f64_lt scaled_ratio f64_1_1 then
    c ← lift (adjust_timestamp_mag neighbor_ratio now (the_clock g));
    modify (set_clock c)
  else mret tt.

(** ** The grandmaster *)
Definition is_decayed (time : Z) (g : gptp) : bool :=
  (has_master g =? 0) || bool_decide (u64 (last_sync (current_gm g) + SERVER_DECAY_TIMEOUT_TICK) < time).

(** Without a grandmaster the clock itself is the one to beat. *)
Definition own_master (g : gptp) : master :=
  mkGm (mkPort (myClockId g) 1) myPriority1 myPriority2 (last_sync (current_gm g)) (gm_sequenceId (current_gm g)).

Definition better (m : master) (rx : rx_frame) : bool :=
  let sender := sourcePortIdentity (hdr rx) in
  if decide (memcmp (port_bytes (portIdentity m)) (port_bytes sender) = 0) then false else
  if decide (priority1 m < grandmasterPriority1 rx) then false else
  if decide (priority1 m > grandmasterPriority1 rx) then true else
  if decide (priority2 m < grandmasterPriority2 rx) then false else
  if decide (priority2 m > grandmasterPriority2 rx) then true else
  if decide (sequenceId (hdr rx) > gm_sequenceId m) then true else
  if decide (sequenceId (hdr rx) < gm_sequenceId m) then false else
  bool_decide (memcmp (port_bytes (portIdentity m)) (port_bytes sender) < 0).

Definition is_new_master (rx : rx_frame) (time : Z) : cmd gptp bool :=
  g ← get;
  _ ← modify (fun g => if is_decayed time g then set_gm (own_master g) g else g);
  m ← gets current_gm;
  mret (better m rx).

(** The announcement branch of [process_gptp_packet]. *)
Definition process_announce (rx : rx_frame) : cmd gptp Z :=
  new ← is_new_master rx (rx_timestamp rx);
  if negb new then mret 0 else
  _ ← modify (set_has_master 1);
  _ ← modify (fun g => set_gm (mkGm (sourcePortIdentity (hdr rx)) (grandmasterPriority1 rx)
        (grandmasterPriority2 rx) (rx_timestamp rx) (gm_sequenceId (current_gm g))) g);
  mret 0.

Definition is_current_master (h : PtpHeader) (g : gptp) : bool :=
  negb (has_master g =? 0) &&
  bool_decide (memcmp (port_bytes (portIdentity (current_gm g))) (port_bytes (sourcePortIdentity h)) = 0).

(** ** The handlers *)
Definition process_sync (rx : rx_frame) : cmd gptp Z :=
  g ← get;
  if negb (is_current_master (hdr rx) g) then mret 0 else
  _ ← modify (fun g => set_gm (set_last_sync (rx_timestamp rx) (current_gm g)) g);
  _ ← modify (fun g => let s := current_status g in
        set_status (mkStatus (sequenceId (hdr rx)) (t1 s) (t2 s) (t3 s) (t4 s) (c1 s) (c2 s) (sync_tx s)
          (gptp_get_rx_timestamp (the_clock g) rx) (sync_correction s) (link_delay s)) g);
  mret 0.

Definition process_followup (rx : rx_frame) : cmd gptp Z :=
  g ← get;
  if negb (is_current_master (hdr rx) g) || negb (sequenceId (hdr rx) =? master_sequenceId (current_status g))
  then mret 0 else
  _ ← modify (fun g => set_gm (set_last_sync (rx_timestamp rx) (current_gm g)) g);
  _ ← modify (fun g => let s := current_status g in
        set_status (mkStatus (master_sequenceId s) (t1 s) (t2 s) (t3 s) (t4 s) (c1 s) (c2 s)
          (ptp_time_to_ns (rx_time rx)) (sync_rx s) (ptp_correction_to_ns (correctionField (hdr rx)))
          (link_delay s)) g);
  _ ← adjust_clock;
  mret 0.

(** The answer is to a request of this clock, the last one it sent. *)
Definition my_answer (rx : rx_frame) (g : gptp) : bool :=
  bool_decide (memcmp (clockIdentity (requestingPortIdentity rx)) (myClockId g) = 0) &&
  (portNumber (requestingPortIdentity rx) =? 1) && (sequenceId (hdr rx) =? my_sequenceId g).

(** [tx_ts], [tx_ts']: the time stamp of the request, read twice. *)
Definition process_pdelay_resp (rx : rx_frame) (tx_ts tx_ts' now : Z) : cmd gptp Z :=
  g ← get;
  if negb (my_answer rx g) then mret 0 else
  let two_step := negb (Z.land (flags (hdr rx)) PTP_FLAG_TWO_STEP =? 0) in
  _ ← modify (fun g => let s := current_status g in
        set_status (mkStatus (master_sequenceId s) (gptp_get_tx_timestamp (the_clock g) tx_ts')
          (if two_step then ptp_time_to_ns (rx_time rx) else 0) (if two_step then t3 s else 0)
          (gptp_get_rx_timestamp (the_clock g) rx) (ptp_correction_to_ns (correctionField (hdr rx))) (c2 s)
          (sync_tx s) (sync_rx s) (sync_correction s) (link_delay s)) g);
  t2_ns ← gets (fun g => t2 (current_status g));
  _ ← syntonize tx_ts t2_ns now;
  mret 0.

Definition process_pdelay_resp_fup (rx : rx_frame) : cmd gptp Z :=
  g ← get;
  if negb (my_answer rx g) then mret 0 else
  _ ← modify (fun g => let s := current_status g in
        set_status (mkStatus (master_sequenceId s) (t1 s) (t2 s) (ptp_time_to_ns (rx_time rx)) (t4 s) (c1 s)
          (ptp_correction_to_ns (correctionField (hdr rx))) (sync_tx s) (sync_rx s) (sync_correction s)
          (link_delay s)) g);
  _ ← calculate_link_delay;
  mret 0.

(** ** The clock *)
Definition scale_ok (c : clock) : Prop := 0 <= timestamp_mag_int c /\ 0 <= timestamp_mag_fraction c.
(** The scale, in units of 2^-21. *)
Definition mag (c : clock) : Z := timestamp_mag_int c * TIMESTAMP_MAG_RESOLUTION + timestamp_mag_fraction c.

(** C40. The clock is exact and runs forward, as long as the tick count times the fraction of
    the scale is below 2^64 and the time fits 64 bits. *)
Theorem clock_is_exact c n n' : scale_ok c -> fits_u64 (timestamp_offset c) -> 0 <= n <= n' ->
  timestamp_mag_fraction c * n' < 2 ^ 64 ->
  mag c * n' / TIMESTAMP_MAG_RESOLUTION + timestamp_offset c < 2 ^ 64 ->
  gptp_get_timestamp c n = mag c * n / TIMESTAMP_MAG_RESOLUTION + timestamp_offset c /\
  gptp_get_timestamp c n <= gptp_get_timestamp c n'.
Proof.
  intros [Hi Hf] Ho Hn Hfit Hsum. unfold fits_u64 in Ho.
  assert (forall k, 0 <= k <= n' ->
    gptp_get_timestamp c k = mag c * k / TIMESTAMP_MAG_RESOLUTION + timestamp_offset c) as H.
  { intros k Hk. unfold gptp_get_timestamp, mag in *. unfold TIMESTAMP_MAG_RESOLUTION in *.
    replace ((timestamp_mag_int c * 0x200000 + timestamp_mag_fraction c) * k)
      with (timestamp_mag_fraction c * k + timestamp_mag_int c * k * 0x200000) by ring.
    replace ((timestamp_mag_int c * 0x200000 + timestamp_mag_fraction c) * n')
      with (timestamp_mag_fraction c * n' + timestamp_mag_int c * n' * 0x200000) in Hsum by ring.
    rewrite Z.div_add in Hsum |- * by done.
    assert (0 <= timestamp_mag_fraction c * k <= timestamp_mag_fraction c * n') by nia.
    assert (0 <= timestamp_mag_int c * k <= timestamp_mag_int c * n') by nia.
    assert (timestamp_mag_fraction c * k / 0x200000 <= timestamp_mag_fraction c * n' / 0x200000)
      by (apply Z.div_le_mono; lia).
    assert (0 <= timestamp_mag_fraction c * k / 0x200000) by (apply Z.div_pos; lia).
    rewrite (u64_small (timestamp_mag_fraction c * k)), (u64_small (timestamp_mag_int c * k)) by (unfold fits_u64; lia).
    rewrite u64_add_l, u64_small by (unfold fits_u64; lia). lia. }
  rewrite !H by lia. split; [done|]. apply Z.add_le_mono_r, Z.div_le_mono; [done|].
  apply Z.mul_le_mono_nonneg_l; [|lia]. unfold mag, TIMESTAMP_MAG_RESOLUTION. lia.
Qed.

(** A new scale does not move the present. *)
Lemma adjust_continuous x now c c' : adjust_timestamp_mag x now c = Ok c' ->
  gptp_get_timestamp c' now = gptp_get_timestamp c now.
Proof.
  unfold adjust_timestamp_mag. destruct (f64_to_s64 x) as [i|]; cbn [mbind outcome_bind]; [|done].
  destruct (f64_to_s64 _) as [f|]; cbn [mbind outcome_bind]; [|done]. intros [= <-].
  set (cur := gptp_get_timestamp c now). unfold gptp_get_timestamp at 1 2.
  cbn [timestamp_mag_int timestamp_mag_fraction timestamp_offset].
  set (a := u64 (u64 (i * now) + _)). rewrite u64_add_r.
  replace (a + (timestamp_offset c + (cur - u64 (a + timestamp_offset c))))
    with (cur + (a + timestamp_offset c) - u64 (a + timestamp_offset c)) by ring.
  rewrite u64_sub_r. replace (cur + (a + timestamp_offset c) - (a + timestamp_offset c)) with cur by ring.
  unfold cur, gptp_get_timestamp. apply u64_idem.
Qed.

(** Moving the offset moves every time stamp. *)
Lemma shift_offset c d n :
  gptp_get_timestamp (mkClock (timestamp_mag_int c) (timestamp_mag_fraction c) (u64 (timestamp_offset c - d))) n =
  u64 (gptp_get_timestamp c n - d).
Proof.
  unfold gptp_get_timestamp. cbn [timestamp_mag_int timestamp_mag_fraction timestamp_offset].
  rewrite u64_add_r, u64_sub_l. f_equal. ring.
Qed.

(** ** Time stamps in messages *)
Lemma ptp_time_roundtrip t : fits_u64 t -> ptp_time_to_ns (timestamp_to_ptp_time t) = t.
Proof.
  intros Ht. unfold fits_u64 in Ht. unfold ptp_time_to_ns, timestamp_to_ptp_time. cbn [seconds nanoseconds].
  rewrite (Z.mod_small (t / 1000000000)) by (Z.div_mod_to_equations; lia).
  unfold u32. rewrite (Z.mod_small (t mod 1000000000)) by (Z.div_mod_to_equations; lia).
  rewrite u64_add_l, u64_small; [|unfold fits_u64]; Z.div_mod_to_equations; lia.
Qed.

(** ** A follow-up sets the clock *)
Lemma add_statistics_run st x : 0 <= st_num st < 2147483647 -> exists st', add_statistics st x = Ok st'.
Proof. intros H. unfold add_statistics, sint. rewrite decide_True by lia. by eexists. Qed.

Lemma slong_ok x : -9223372036854775808 <= x < 9223372036854775808 -> slong x = Ok x.
Proof. intros H. unfold slong. by rewrite decide_True. Qed.

Lemma s64_small x : 0 <= x < 2 ^ 63 -> s64 x = x.
Proof. intros H. unfold s64. rewrite Z.mod_small by lia. lia. Qed.

Lemma adjust_clock_run g : let s := current_status g in
  let d := sync_rx s - (sync_tx s + sync_correction s) - link_delay s in
  0 <= sync_tx s -> 0 <= sync_correction s -> sync_tx s + sync_correction s < 2 ^ 63 -> 0 <= sync_rx s < 2 ^ 63 ->
  - 2 ^ 63 <= d < 2 ^ 63 -> 0 <= st_num (stats_offset g) < 2147483647 ->
  exists st, adjust_clock g = Ok (tt,
    set_stats st (stats_freq g) (stats_delay g)
      (set_clock (mkClock (timestamp_mag_int (the_clock g)) (timestamp_mag_fraction (the_clock g))
                    (u64 (timestamp_offset (the_clock g) - d))) g)).
Proof.
  intros s d H1 H2 H3 H4 Hd Hn. destruct (add_statistics_run (stats_offset g) (f64_of_Z d) Hn) as [st Est]. exists st.
  unfold adjust_clock. rewrite (cmd_bind_run get _ g g g) by done. fold s. rewrite !s64_small by lia.
  rewrite (cmd_bind_run _ _ _ _ _ (lift_run _ g _ (slong_ok (sync_tx s + sync_correction s) ltac:(lia)))).
  rewrite (cmd_bind_run _ _ _ _ _ (lift_run _ g _ (slong_ok (sync_rx s - (sync_tx s + sync_correction s)) ltac:(lia)))).
  rewrite (cmd_bind_run _ _ _ _ _ (lift_run _ g _ (slong_ok d ltac:(lia)))). cstep.
  rewrite (cmd_bind_run _ _ _ _ _ (lift_run _ _ _ Est)). done.
Qed.

Definition after_sync (sync : rx_frame) (g : gptp) : gptp :=
  let s := current_status g in
  set_status (mkStatus (sequenceId (hdr sync)) (t1 s) (t2 s) (t3 s) (t4 s) (c1 s) (c2 s) (sync_tx s)
      (gptp_get_rx_timestamp (the_clock g) sync) (sync_correction s) (link_delay s))
    (set_gm (set_last_sync (rx_timestamp sync) (current_gm g)) g).

Lemma sync_run sync g : process_sync sync g = Ok (0, if is_current_master (hdr sync) g then after_sync sync g else g).
Proof.
  unfold process_sync. rewrite (cmd_bind_run get _ g g g) by done. destruct (is_current_master _ g); cbn [negb]; [|done].
  by repeat cstep.
Qed.

(** C35. A follow-up message sets the clock.  When the current grandmaster sends a Sync and then
    the Follow-Up of the same number, the local time of the reception of the Sync
    becomes the time at which the grandmaster sent it, with the correction and the stored
    link delay.  This is for times below 2^63 ns, a correction that is not negative, a
    difference of less than 2^63 ns and a count of measured offsets below the largest [int].  The sender stays the current grandmaster, last heard of when the Follow-Up
    arrived. *)
Theorem followup_syncs_clock g sync fup : is_current_master (hdr sync) g = true ->
  sourcePortIdentity (hdr fup) = sourcePortIdentity (hdr sync) -> sequenceId (hdr fup) = sequenceId (hdr sync) ->
  let rx := gptp_get_rx_timestamp (the_clock g) sync in
  let sent := ptp_time_to_ns (rx_time fup) + ptp_correction_to_ns (correctionField (hdr fup)) in
  let l := link_delay (current_status g) in
  rx < 2 ^ 63 -> 0 <= ptp_correction_to_ns (correctionField (hdr fup)) -> sent < 2 ^ 63 ->
  - 2 ^ 63 <= rx - sent - l < 2 ^ 63 -> 0 <= st_num (stats_offset g) < 2147483647 ->
  exists g', (_ ← process_sync sync; process_followup fup) g = Ok (0, g') /\
    gptp_get_rx_timestamp (the_clock g') sync = u64 (sent + l) /\
    is_current_master (hdr sync) g' = true /\ last_sync (current_gm g') = rx_timestamp fup.
Proof.
  intros Hm Hp Hseq rx sent l Hrx Hcorr Hsent Hd Hn.
  rewrite (cmd_bind_run _ _ _ _ _ (sync_run sync g)), Hm. set (g1 := after_sync sync g).
  unfold process_followup. rewrite (cmd_bind_run get _ g1 g1 g1) by done.
  assert (is_current_master (hdr fup) g1 = true) as -> by (unfold is_current_master in *; rewrite Hp; exact Hm).
  change (master_sequenceId (current_status g1)) with (sequenceId (hdr sync)). rewrite Hseq, Z.eqb_refl. cbn [negb orb].
  assert (fits_u64 rx) as Hr by apply u64_range. assert (fits_u64 (ptp_time_to_ns (rx_time fup))) as Ht by apply u64_range.
  unfold fits_u64 in Hr, Ht. cstep. cstep. set (g2 := set_status _ _).
  destruct (adjust_clock_run g2 (proj1 Ht) Hcorr Hsent (conj (proj1 Hr) Hrx) Hd Hn) as [st E].
  rewrite (cmd_bind_run _ _ _ _ _ E). eexists. split; [reflexivity|]. split; [|by split].
  unfold gptp_get_rx_timestamp. cbn [the_clock set_stats set_clock].
  change (the_clock g2) with (the_clock g). change (sync_rx (current_status g2)) with rx.
  change (sync_tx (current_status g2) + sync_correction (current_status g2)) with sent.
  change (link_delay (current_status g2)) with l. rewrite shift_offset, u64_sub_l.
  replace (gptp_get_timestamp (the_clock g) (rx_timestamp sync) - (rx - sent - l) - RX_ADJUST_NS)
    with (gptp_get_timestamp (the_clock g) (rx_timestamp sync) - RX_ADJUST_NS + (sent + l) - rx) by ring.
  unfold rx at 1. unfold gptp_get_rx_timestamp. rewrite u64_sub_r. f_equal. ring.
Qed.

(** ** Sequences of messages *)
Inductive gptp_event :=
  | RxSync (rx : rx_frame) | RxFollowUp (rx : rx_frame) | RxPdelayResp (rx : rx_frame) (tx_ts tx_ts' now : Z)
  | RxPdelayRespFup (rx : rx_frame) | RxAnnounce (rx : rx_frame) | ResetStatistics.

Definition run_event (e : gptp_event) : cmd gptp Z :=
  match e with
  | RxSync rx => process_sync rx
  | RxFollowUp rx => process_followup rx
  | RxPdelayResp rx a b now => process_pdelay_resp rx a b now
  | RxPdelayRespFup rx => process_pdelay_resp_fup rx
  | RxAnnounce rx => process_announce rx
  | ResetStatistics => _ ← gptp_reset_statistics; mret 0
  end.
Fixpoint run_events (es : list gptp_event) : cmd gptp unit :=
  match es with [] => mret tt | e :: es => _ ← run_event e; run_events es end.

Definition delay_of (g : gptp) : Z := link_delay (current_status g).
Definition keeps_delay {A} (c : cmd gptp A) : Prop := forall g a g', c g = Ok (a, g') -> delay_of g' = delay_of g.

Lemma keeps_delay_bind {A B} (c : cmd gptp A) (k : A -> cmd gptp B) :
  keeps_delay c -> (forall a, keeps_delay (k a)) -> keeps_delay (c ≫= k).
Proof. intros Hc Hk g b g' (a & g1 & E1 & E2)%cmd_bind_ok. rewrite (Hk _ _ _ _ E2). by eapply Hc. Qed.
Lemma keeps_delay_ret {A} (a : A) : keeps_delay (mret a).
Proof. by intros g b g' [-> ->]%ret_ok. Qed.
Lemma keeps_get : keeps_delay get.
Proof. by intros g b g' [-> ->]%get_ok. Qed.
Lemma keeps_gets {A} (f : gptp -> A) : keeps_delay (gets f).
Proof. by intros g b g' [-> ->]%gets_ok. Qed.
Lemma keeps_lift {A} (x : outcome A) : keeps_delay (lift x).
Proof. by intros g b g' [_ ->]%lift_ok. Qed.
Lemma keeps_modify f : (forall g, delay_of (f g) = delay_of g) -> keeps_delay (modify f).
Proof. by intros Hf g b g' [_ ->]%modify_ok. Qed.

Ltac keeps := repeat first
  [ apply keeps_delay_bind; [|intros ?] | apply keeps_delay_ret | apply keeps_get | apply keeps_gets | apply keeps_lift
  | (apply keeps_modify; intros ?; try case_match; reflexivity)
  | match goal with |- keeps_delay (if ?b then _ else _) => destruct b end
  | match goal with |- keeps_delay (let '(_, _) := ?p in _) => destruct p end ].

Lemma run_event_delay e : keeps_delay (run_event e).
Proof.
  destruct e; cbn [run_event]; unfold process_sync, process_followup, adjust_clock, process_pdelay_resp, syntonize,
    process_pdelay_resp_fup, calculate_link_delay, process_announce, is_new_master, gptp_reset_statistics; keeps.
Qed.

(** The link delay is never stored.  Whatever messages are received, the delay that
    [adjust_clock] takes from the difference is the one of the start, zero: it is measured,
    and goes to the statistics only. *)
Theorem link_delay_never_stored es g g' : run_events es g = Ok (tt, g') ->
  link_delay (current_status g') = link_delay (current_status g).
Proof.
  revert g. induction es as [|e es IH]; intros g; cbn [run_events]; [by intros [_ ->]%ret_ok|].
  intros (a & g1 & E1 & E2)%cmd_bind_ok. rewrite (IH _ E2). by apply run_event_delay in E1.
Qed.

(** ** The election *)

(** A clock and its priority: lower is better, the first priority counts first. *)
Definition contender : Type := list Z * Z.
Definition rank (p1 p2 : Z) : Z := p1 * 256 + p2.
Definition announced (rx : rx_frame) : contender :=
  (port_bytes (sourcePortIdentity (hdr rx)), rank (grandmasterPriority1 rx) (grandmasterPriority2 rx)).
Definition contender_of (m : master) : contender := (port_bytes (portIdentity m), rank (priority1 m) (priority2 m)).
(** The clock an announcement has to beat. *)
Definition incumbent (g : gptp) : contender :=
  contender_of (if has_master g =? 0 then own_master g else current_gm g).

(** Clocks have different priorities, and a clock does not change its priority. *)
Definition same_clock (a b : contender) : Prop := memcmp (fst a) (fst b) = 0.
Definition consistent (l : list contender) : Prop :=
  forall a b, a ∈ l -> b ∈ l -> same_clock a b <-> snd a = snd b.
Definition is_octet (x : Z) : Prop := 0 <= x < 256.
Definition priorities_ok (rx : rx_frame) : Prop := is_octet (grandmasterPriority1 rx) /\ is_octet (grandmasterPriority2 rx).
Definition gm_ok (g : gptp) : Prop := is_octet (priority1 (current_gm g)) /\ is_octet (priority2 (current_gm g)).

(** Heard of within a second of [t]. *)
Definition within_second (t x : Z) : Prop := t <= x <= t + SERVER_DECAY_TIMEOUT_TICK.
Definition in_time (t : Z) (g : gptp) : Prop := has_master g <> 0 -> within_second t (last_sync (current_gm g)).

Lemma better_spec m rx : is_octet (priority1 m) -> is_octet (priority2 m) -> priorities_ok rx ->
  (same_clock (contender_of m) (announced rx) <-> snd (contender_of m) = snd (announced rx)) ->
  better m rx = bool_decide (snd (announced rx) < snd (contender_of m)).
Proof.
  unfold is_octet, better, same_clock, contender_of, announced, rank. cbn [fst snd]. intros H1 H2 [H3 H4] Hsame.
  unfold is_octet in *. destruct (decide (memcmp _ _ = 0)) as [E|E].
  { apply Hsame in E. by rewrite bool_decide_eq_false_2 by lia. }
  assert (priority1 m * 256 + priority2 m <> grandmasterPriority1 rx * 256 + grandmasterPriority2 rx) as Hne by tauto.
  repeat (case_decide; [first [rewrite bool_decide_eq_false_2 by lia|rewrite bool_decide_eq_true_2 by lia]; done|]).
  exfalso. lia.
Qed.

Lemma not_decayed t g x : 0 <= t -> t + 2 * SERVER_DECAY_TIMEOUT_TICK < 2 ^ 64 -> in_time t g -> within_second t x ->
  is_decayed x g = (has_master g =? 0).
Proof.
  intros Ht Hmax Hin Hx. unfold is_decayed. destruct (Z.eqb_spec (has_master g) 0) as [|Hm]; [done|]. cbn [orb].
  specialize (Hin Hm). unfold within_second in *. change SERVER_DECAY_TIMEOUT_TICK with 125000000 in *.
  apply bool_decide_eq_false_2. rewrite u64_small by (unfold fits_u64; lia). lia.
Qed.

Lemma announce_run t g rx : 0 <= t -> t + 2 * SERVER_DECAY_TIMEOUT_TICK < 2 ^ 64 -> in_time t g ->
  within_second t (rx_timestamp rx) -> priorities_ok rx -> gm_ok g -> consistent [incumbent g; announced rx] ->
  exists g', process_announce rx g = Ok (0, g') /\ in_time t g' /\ gm_ok g' /\
    incumbent g' = (if decide (snd (announced rx) < snd (incumbent g)) then announced rx else incumbent g) /\
    (has_master g' = if decide (snd (announced rx) < snd (incumbent g)) then 1 else has_master g).
Proof.
  intros Ht Hmax Hin Hx Hp Hg Hc. set (m := if has_master g =? 0 then own_master g else current_gm g).
  assert (is_octet (priority1 m) /\ is_octet (priority2 m)) as [Hm1 Hm2].
  { unfold m. destruct (_ =? 0); [|exact Hg]. by split. }
  assert (exists g1, is_new_master rx (rx_timestamp rx) g = Ok (better m rx, g1) /\ has_master g1 = has_master g /\
    current_gm g1 = m /\ myClockId g1 = myClockId g) as (g1 & E1 & Hh & Hgm & Hid).
  { unfold is_new_master. rewrite (cmd_bind_run get _ g g g) by done. cstep. cstep.
    rewrite (not_decayed t g) by done. unfold m. by destruct (has_master g =? 0); eexists. }
  rewrite (better_spec m rx Hm1 Hm2 Hp) in E1
    by (apply (Hc (incumbent g) (announced rx)); set_solver).
  change (contender_of m) with (incumbent g) in E1.
  unfold process_announce. rewrite (cmd_bind_run _ _ _ _ _ E1). destruct (decide (_ < _)) as [Hb|Hb].
  - rewrite bool_decide_eq_true_2 by done. cbn [negb]. cstep. cstep. eexists. split; [reflexivity|]. split_and!.
    + intros _. exact Hx.
    + exact Hp.
    + reflexivity.
    + reflexivity.
  - rewrite bool_decide_eq_false_2 by done. cbn [negb]. exists g1. split; [done|]. split_and!; try done.
    + intros Hm'. rewrite Hgm. rewrite Hh in Hm'. unfold m. rewrite (proj2 (Z.eqb_neq _ _)) by done. by apply Hin.
    + unfold gm_ok. by rewrite Hgm.
    + unfold incumbent at 1. rewrite Hh. destruct (has_master g =? 0) eqn:E0; [|by rewrite Hgm; unfold m; rewrite ?E0; unfold incumbent; rewrite E0].
      unfold own_master at 1. rewrite Hid. unfold incumbent. by rewrite E0.
Qed.

(** C37. The announcements elect the best clock.  Of clocks with different priorities, the
    own one among them, that announce themselves within a second, the grandmaster is the one of
    the best priority, in whatever order and however often the announcements come; the clock
    itself stays without grandmaster when none is better. *)
Theorem announces_elect_best t anns g : 0 <= t -> t + 2 * SERVER_DECAY_TIMEOUT_TICK < 2 ^ 64 -> in_time t g -> gm_ok g ->
  Forall (fun rx => within_second t (rx_timestamp rx) /\ priorities_ok rx) anns ->
  consistent (incumbent g :: (announced <$> anns)) ->
  exists g', run_events (RxAnnounce <$> anns) g = Ok (tt, g') /\
    incumbent g' ∈ incumbent g :: (announced <$> anns) /\
    (forall c, c ∈ incumbent g :: (announced <$> anns) -> snd (incumbent g') <= snd c) /\
    (has_master g' = has_master g /\ incumbent g' = incumbent g \/
     has_master g' = 1 /\ snd (incumbent g') < snd (incumbent g)).
Proof.
  intros Ht Hmax Hin Hg Hanns Hc. revert g Hin Hg Hc. induction Hanns as [|rx anns [Hx Hp] _ IH]; intros g Hin Hg Hc.
  { exists g. split; [done|]. split; [by left|]. split; [|by left]. intros c [->|H]%elem_of_cons; [done|]. by apply elem_of_nil in H. }
  rewrite !fmap_cons in *. cbn [run_events run_event].
  destruct (announce_run t g rx Ht Hmax Hin Hx Hp Hg) as (g1 & E1 & Hin1 & Hg1 & Hinc & Hm).
  { intros a b Ha Hb. apply Hc; set_solver. }
  assert (incumbent g1 ∈ incumbent g :: announced rx :: (announced <$> anns)) as Hel
    by (rewrite Hinc; case_decide; set_solver).
  destruct (IH g1 Hin1 Hg1) as (g' & E & Hmem & Hmin & Hm').
  { intros a b Ha Hb. apply Hc; set_solver. }
  exists g'. rewrite (cmd_bind_run _ _ _ _ _ E1). split; [done|].
  assert (snd (incumbent g') <= snd (incumbent g1)) as H1 by (apply Hmin; by left).
  assert (snd (incumbent g1) <= snd (incumbent g) /\ snd (incumbent g1) <= snd (announced rx)) as H2
    by (rewrite Hinc; case_decide; lia).
  clear - H1 H2 Hmem Hmin Hm Hm' Hinc Hel. split; [apply elem_of_cons in Hmem as [->|?]; [done|]; by do 2 right|]. split.
  - intros c [->|[->|H]%elem_of_cons]%elem_of_cons; [lia|lia|]. apply Hmin. by right.
  - destruct (decide (snd (announced rx) < snd (incumbent g))); destruct Hm' as [[E2 E3]|[E2 E3]].
    + right. rewrite E2, Hm, E3, Hinc. by split.
    + right. rewrite Hinc in E3. split; [done|lia].
    + left. by rewrite E2, Hm, E3, Hinc.
    + right. rewrite Hinc in E3. by split.
Qed.

(** ** Statistics without samples *)

(** The quotient 0.0 / 0 is not a number, and has no value as an [int]. *)
Lemma no_samples_no_result : get_statistics zero_stats = Fault BadConversion.
Proof. by vm_compute. Qed.

Lemma reset_then_get g g' : gptp_reset_statistics g = Ok (tt, g') -> gptp_get_statistics g' = Fault BadConversion.
Proof. intros [_ ->]%modify_ok. unfold gptp_get_statistics. cbn [stats_offset set_stats]. by rewrite no_samples_no_result. Qed.

(** ** Witnesses and concrete runs *)

(** A clock that is 0.01 percent slow: 8 + 1678 / 2^21 nanoseconds for a tick. *)
Definition slow_clock : clock := mkClock 8 1678 1700000000000000000.

Lemma clock_is_exact_witness :
  gptp_get_timestamp slow_clock 125000000 =
    mag slow_clock * 125000000 / TIMESTAMP_MAG_RESOLUTION + 1700000000000000000 /\
  gptp_get_timestamp slow_clock 125000000 <= gptp_get_timestamp slow_clock 250000000.
Proof. apply (clock_is_exact slow_clock 125000000 250000000); by vm_compute. Defined.

(** With a fraction near 2^21 - 7.99 nanoseconds for a tick - the product passes 2^64 after less than
    twenty hours, and within a tick the clock falls back by more than two hours. *)
Example clock_falls_back :
  gptp_get_timestamp (mkClock 7 2076000 0) 8885714871730 -
  gptp_get_timestamp (mkClock 7 2076000 0) 8885714871729 = -8796093022200.
Proof. by vm_compute. Qed.

(** A grandmaster and its messages. *)
Definition gm_port : PtpPortIdentity := mkPort [0xaa; 0xbb; 0xcc; 0xff; 0xff; 0xdd; 0xee; 0xff] 1.
Definition message (ty seq corr : Z) (port : PtpPortIdentity) (ts : Z) (time : PtpTimestamp) : rx_frame :=
  mkRx ts (mkHdr 1 ty 1 2 44 0 0 PTP_FLAG_TWO_STEP corr 0 port seq 0 0) time (mkPort [] 0) 100 100.

Definition gptp1 : gptp :=
  match (_ ← gptp_init 1000; process_announce (message 0xb 5 0 gm_port 2000 (mkTime 0 0))) gptp0 with
  | Ok (_, g) => g
  | Fault _ => gptp0
  end.

Lemma followup_syncs_clock_witness :
  let sync := message 0 7 0 gm_port 3000 (mkTime 0 0) in
  let fup := message 8 7 (12 * 65536) gm_port 4000 (mkTime 1700000000 500) in
  exists g', (_ ← process_sync sync; process_followup fup) gptp1 = Ok (0, g') /\
    gptp_get_rx_timestamp (the_clock g') sync = u64 (1700000000000000512 + 0) /\
    is_current_master (hdr sync) g' = true /\ last_sync (current_gm g') = 4000.
Proof.
  intros sync fup. apply (followup_syncs_clock gptp1 sync fup); by vm_compute.
Defined.

Lemma link_delay_never_stored_witness : exists g',
  run_events [RxSync (message 0 7 0 gm_port 3000 (mkTime 0 0))] gptp1 = Ok (tt, g') /\ link_delay (current_status g') = 0.
Proof.
  eexists. assert (forall g', run_events [RxSync (message 0 7 0 gm_port 3000 (mkTime 0 0))] gptp1 = Ok (tt, g') ->
    run_events [RxSync (message 0 7 0 gm_port 3000 (mkTime 0 0))] gptp1 = Ok (tt, g') /\ link_delay (current_status g') = 0) as H
    by (intros g' E; split; [exact E|exact (link_delay_never_stored _ gptp1 g' E)]).
  apply H. by vm_compute.
Defined.

(** Two announcements; the second is the better one. *)
Definition other_port : PtpPortIdentity := mkPort [1; 2; 3; 4; 5; 6; 7; 8] 1.
Definition two_announcements : list rx_frame :=
  [message 0xb 5 0 gm_port 2000 (mkTime 0 0); mkRx 3000 (mkHdr 1 0xb 1 2 64 0 0 8 0 0 other_port 9 5 0) (mkTime 0 0) (mkPort [] 0) 90 200].
Definition gptp_started : gptp := match gptp_init 1000 gptp0 with Ok (_, g) => g | Fault _ => gptp0 end.

Lemma announces_elect_best_witness : exists g',
  run_events (RxAnnounce <$> two_announcements) gptp_started = Ok (tt, g') /\
  incumbent g' ∈ incumbent gptp_started :: (announced <$> two_announcements) /\
  (forall c, c ∈ incumbent gptp_started :: (announced <$> two_announcements) -> snd (incumbent g') <= snd c) /\
  (has_master g' = has_master gptp_started /\ incumbent g' = incumbent gptp_started \/
   has_master g' = 1 /\ snd (incumbent g') < snd (incumbent gptp_started)).
Proof.
  apply (announces_elect_best 1000 two_announcements gptp_started); [done|done| |by vm_compute| |].
  - intros H. by destruct H.
  - repeat (apply Forall_cons; split; [by vm_compute|]). constructor.
  - intros a b Ha Hb. cbn in Ha, Hb.
    apply elem_of_cons in Ha as [->|[->|[->|Ha]%elem_of_cons]%elem_of_cons]; try (by apply elem_of_nil in Ha);
    apply elem_of_cons in Hb as [->|[->|[->|Hb]%elem_of_cons]%elem_of_cons]; try (by apply elem_of_nil in Hb);
    by vm_compute.
Defined.
