(* ===== verification/Gptp.v ===== *)
(** * sample/gptp.c, second part: the messages that are sent

    The state is that of the protocol, the buffer pools, the memory of the buffers and
    what was handed to the device.  A buffer is the members of the metadata, the Ethernet
    header, the header of the message and what comes behind it; the body of an
    announcement and the requesting port of an answer are the same bytes, which no
    message uses both of.  A buffer is found by its address, so that two pointers to it
    are the same buffer.  The answer of the device and the values of its registers are
    arguments.

    The theorem: the two messages that answer a delay request are the right ones.  The
    second is written through the pointer to the first, which is free again by then:
    that it is sent nevertheless is because the reserved buffers are a stack. *)

From S2P Require Import Prelude Float64 Sorting BufferPool GptpClock.
From stdpp Require Import gmap sets list.

Open Scope Z_scope.

(** ** Constants *)
Definition PTP_MESSAGE_SYNC : Z := 0x0.
Definition PTP_MESSAGE_DELAY_REQ : Z := 0x1.
Definition PTP_MESSAGE_PDELAY_REQ : Z := 0x2.
Definition PTP_MESSAGE_PDELAY_RESP : Z := 0x3.
Definition PTP_MESSAGE_FOLLOW_UP : Z := 0x8.
Definition PTP_MESSAGE_DELAY_RESP : Z := 0x9.
Definition PTP_MESSAGE_PDELAY_RESP_FOLLOW_UP : Z := 0xA.
Definition PTP_MESSAGE_ANNOUNCE : Z := 0xB.
Definition PTP_CONTROL_SYNC : Z := 0x0.
Definition PTP_CONTROL_FOLLOW_UP : Z := 0x2.
Definition PTP_CONTROL_ALL_OTHER : Z := 0x5.
Definition PTP_PEER_MAC : list Z := [0x01; 0x80; 0xc2; 0x00; 0x00; 0x0e].
Definition ETH_TYPE_PTPv2 : Z := 0x88F7.
Definition TIMESTAMP_ID_GPTP_RESP : Z := 1.
Definition TIMESTAMP_ID_GPTP_REQ : Z := 2.
Definition XST_SUCCESS : Z := 0.
Definition XST_FAILURE : Z := 1.

(** Sizes of the packed structures, in bytes. *)
Definition sizeof_tx_metadata : Z := 8.
Definition sizeof_ethernet_header : Z := 14.
Definition sizeof_PtpHeader : Z := 34.
Definition sizeof_PtpTimestamp : Z := 10.
Definition sizeof_PtpPortIdentity : Z := 10.
Definition sizeof_PtpSyncHeader : Z := sizeof_PtpHeader + sizeof_PtpTimestamp.
Definition sizeof_PtpFollowUpHeader : Z := sizeof_PtpHeader + sizeof_PtpTimestamp.
Definition sizeof_PtpPdelayReqHeader : Z := sizeof_PtpHeader + sizeof_PtpTimestamp + 10.
Definition sizeof_PtpPdelayRespHeader : Z := sizeof_PtpHeader + sizeof_PtpTimestamp + sizeof_PtpPortIdentity.
Definition sizeof_PtpPdelayRespFollowUpHeader : Z := sizeof_PtpHeader + sizeof_PtpTimestamp + sizeof_PtpPortIdentity.
Definition sizeof_PtpAnnounceHeader : Z := sizeof_PtpHeader + sizeof_PtpTimestamp + 2 + 1 + 1 + 4 + 1 + 8 + 2 + 1.

(** ** Buffers *)
Record announce_body := mkBody {
  currentUtcOffset : Z; a_reserved1 : Z; a_priority1 : Z; clockClass : Z; clockAccuracy : Z; scaledLogVariance : Z;
  a_priority2 : Z; grandmasterIdentity : list Z; stepsRemoved : Z; timeSource : Z }.

Record tx_buffer := mkTx {
  vlan_tag : Z; timestamp_id : Z; frame_length : Z; tx_reserved : Z;
  dmac : list Z; smac : list Z; eth_type : Z;
  tx_hdr : PtpHeader; tx_time : PtpTimestamp; tx_requesting : PtpPortIdentity; tx_body : announce_body }.

(** The first three bits of the tag. *)
Definition vlan_prio (b : tx_buffer) : Z := Z.shiftr (vlan_tag b) 13.

Definition set_metadata (tag id len : Z) (b : tx_buffer) : tx_buffer :=
  mkTx tag id len (tx_reserved b) (dmac b) (smac b) (eth_type b) (tx_hdr b) (tx_time b) (tx_requesting b) (tx_body b).
Definition set_eth (ptp_mac : list Z) (b : tx_buffer) : tx_buffer :=
  mkTx (vlan_tag b) (timestamp_id b) (frame_length b) (tx_reserved b) ptp_mac myMAC ETH_TYPE_PTPv2 (tx_hdr b)
    (tx_time b) (tx_requesting b) (tx_body b).
Definition set_hdr (h : PtpHeader) (b : tx_buffer) : tx_buffer :=
  mkTx (vlan_tag b) (timestamp_id b) (frame_length b) (tx_reserved b) (dmac b) (smac b) (eth_type b) h (tx_time b)
    (tx_requesting b) (tx_body b).
Definition set_time (t : PtpTimestamp) (b : tx_buffer) : tx_buffer :=
  mkTx (vlan_tag b) (timestamp_id b) (frame_length b) (tx_reserved b) (dmac b) (smac b) (eth_type b) (tx_hdr b) t
    (tx_requesting b) (tx_body b).
Definition set_requesting (p : PtpPortIdentity) (b : tx_buffer) : tx_buffer :=
  mkTx (vlan_tag b) (timestamp_id b) (frame_length b) (tx_reserved b) (dmac b) (smac b) (eth_type b) (tx_hdr b)
    (tx_time b) p (tx_body b).
Definition set_body (a : announce_body) (b : tx_buffer) : tx_buffer :=
  mkTx (vlan_tag b) (timestamp_id b) (frame_length b) (tx_reserved b) (dmac b) (smac b) (eth_type b) (tx_hdr b)
    (tx_time b) (tx_requesting b) a.

(** ** The state *)
Record tx_counters := mkCounters { txPackets : Z; txBytes : Z; txErrors : Z; txFiltered : Z }.

Record app := mkApp {
  proto : gptp; bufs : pool; memory : gmap Z tx_buffer; sent : list tx_buffer; tx_stats : tx_counters }.

Definition set_proto (v : gptp) (a : app) : app := mkApp v (bufs a) (memory a) (sent a) (tx_stats a).
Definition set_bufs (v : pool) (a : app) : app := mkApp (proto a) v (memory a) (sent a) (tx_stats a).
Definition set_memory (v : gmap Z tx_buffer) (a : app) : app := mkApp (proto a) (bufs a) v (sent a) (tx_stats a).
Definition set_sent (v : list tx_buffer) (a : app) : app := mkApp (proto a) (bufs a) (memory a) v (tx_stats a).
Definition set_tx_stats (v : tx_counters) (a : app) : app := mkApp (proto a) (bufs a) (memory a) (sent a) v.

Definition on_proto {A} (c : cmd gptp A) : cmd app A := fun a =>
  match c (proto a) with Ok (x, g) => Ok (x, set_proto g a) | Fault f => Fault f end.
Definition on_bufs {A} (c : cmd pool A) : cmd app A := fun a =>
  match c (bufs a) with Ok (x, p) => Ok (x, set_bufs p a) | Fault f => Fault f end.

(** What a pointer points to. *)
Definition deref (p : Z) : cmd app tx_buffer := fun a =>
  match memory a !! p with Some b => Ok (b, a) | None => Fault OutOfBounds end.
Definition update (p : Z) (f : tx_buffer -> tx_buffer) : cmd app unit :=
  b ← deref p; modify (fun a => set_memory (<[p := f b]> (memory a)) a).

(** ** sender_thread.c: a frame is handed to the device *)

(** [status]: the answer of [xdma_api_write_from_buffer_with_fd]. *)
Definition transmit_tsn_packet (packet status : Z) : cmd app Z :=
  b ← deref packet;
  let mem_len := sizeof_tx_metadata + frame_length b in
  if decide (mem_len >= MAX_BUFFER_LENGTH) then
    _ ← on_bufs (buffer_pool_free packet); mret XST_FAILURE
  else
  _ ← modify (fun a => set_sent (sent a ++ [b]) a);
  _ ← modify (fun a => let s := tx_stats a in
        set_tx_stats (if decide (status <> XST_SUCCESS)
                      then mkCounters (txPackets s) (txBytes s) (u64 (txErrors s + 1)) (txFiltered s)
                      else mkCounters (u64 (txPackets s + 1)) (u64 (txBytes s + mem_len)) (txErrors s) (txFiltered s)) a);
  _ ← on_bufs (buffer_pool_free packet);
  mret status.

(** ** The answer to a delay request *)

(** The header of the request with the members that are overwritten. *)
Definition resp_hdr (id : list Z) (h : PtpHeader) : PtpHeader :=
  mkHdr (transportSpecific h) PTP_MESSAGE_PDELAY_RESP 0x1 (versionPTP h) (u16 sizeof_PtpPdelayRespHeader)
    (domainNumber h) (minorSdoId h) PTP_FLAG_TWO_STEP 0 0 (mkPort id 1) (sequenceId h) PTP_CONTROL_ALL_OTHER 127.
Definition fup_hdr (h : PtpHeader) : PtpHeader :=
  mkHdr (transportSpecific h) PTP_MESSAGE_PDELAY_RESP_FOLLOW_UP (minorVersionPTP h) (versionPTP h)
    (u16 sizeof_PtpPdelayRespFollowUpHeader) (domainNumber h) (minorSdoId h) 0 0 0 (sourcePortIdentity h)
    (sequenceId h) (control h) (logMeanMessageInterval h).

(** Up to the transmission of the response; [None]: no buffer. *)
Definition pdelay_resp (rx : rx_frame) (status : Z) : cmd app (option Z) :=
  tx ← on_bufs get_reserved_tx_buffer;
  if decide (tx = 0) then mret None else
  g ← gets proto;
  _ ← update tx (set_eth PTP_PEER_MAC);
  _ ← update tx (set_hdr (resp_hdr (myClockId g) (hdr rx)));
  _ ← update tx (set_time (timestamp_to_ptp_time (gptp_get_rx_timestamp (the_clock g) rx)));
  _ ← update tx (set_requesting (sourcePortIdentity (hdr rx)));
  _ ← update tx (set_metadata 0 TIMESTAMP_ID_GPTP_RESP (sizeof_ethernet_header + sizeof_PtpPdelayRespHeader));
  _ ← transmit_tsn_packet tx status;
  mret (Some tx).

(** The follow-up: the buffer is [fup], but what is written goes to [tx]; the copy is
    from [tx] to itself. *)
Definition pdelay_resp_fup (tx tx_ts status : Z) : cmd app unit :=
  g ← gets proto;
  let pdelay_resp_tx_timestamp := gptp_get_tx_timestamp (the_clock g) tx_ts in
  fup ← on_bufs get_reserved_tx_buffer;
  if decide (fup = 0) then mret tt else
  _ ← update tx (fun b => set_hdr (fup_hdr (tx_hdr b)) b);
  _ ← update tx (set_time (timestamp_to_ptp_time pdelay_resp_tx_timestamp));
  _ ← update fup (set_metadata 0 0 (sizeof_ethernet_header + sizeof_PtpPdelayRespFollowUpHeader));
  _ ← transmit_tsn_packet fup status;
  mret tt.

(** [tx_ts]: the time stamp register of the response. *)
Definition process_pdelay_req (rx : rx_frame) (status tx_ts status' : Z) : cmd app Z :=
  tx ← pdelay_resp rx status;
  match tx with
  | None => mret 0
  | Some tx => _ ← pdelay_resp_fup tx tx_ts status'; mret 0
  end.

(** ** A received message *)

(** What is read from the device while a message is handled. *)
Record reads := mkReads { rd_tx_ts : Z; rd_tx_ts' : Z; rd_now : Z; rd_status : Z; rd_status' : Z }.

Definition process_gptp_packet (rx : rx_frame) (r : reads) : cmd app Z :=
  let ty := messageType (hdr rx) in
  if decide (ty = PTP_MESSAGE_SYNC) then on_proto (process_sync rx) else
  if decide (ty = PTP_MESSAGE_FOLLOW_UP) then on_proto (process_followup rx) else
  if decide (ty = PTP_MESSAGE_DELAY_REQ) then mret 0 else
  if decide (ty = PTP_MESSAGE_DELAY_RESP) then mret 0 else
  if decide (ty = PTP_MESSAGE_PDELAY_REQ) then process_pdelay_req rx (rd_status r) (rd_tx_ts r) (rd_status' r) else
  if decide (ty = PTP_MESSAGE_PDELAY_RESP)
  then on_proto (process_pdelay_resp rx (rd_tx_ts r) (rd_tx_ts' r) (rd_now r)) else
  if decide (ty = PTP_MESSAGE_PDELAY_RESP_FOLLOW_UP) then on_proto (process_pdelay_resp_fup rx) else
  if decide (ty = PTP_MESSAGE_ANNOUNCE) then on_proto (process_announce rx) else
  mret 0.

(** ** The messages of a grandmaster, and the delay request *)

(** A decayed grandmaster is given up; [true]: there is one. *)
Definition check_master (now : Z) : cmd app bool :=
  g ← gets proto;
  if is_decayed now g then _ ← modify (fun a => set_proto (set_has_master 0 (proto a)) a); mret false
  else mret true.

Definition next_sequence : cmd app Z :=
  g ← gets proto;
  let n := u16 (my_sequenceId g + 1) in
  _ ← modify (fun a => set_proto (set_my_sequence n (proto a)) a);
  mret n.

(** The header of a message of this clock; the minor SDO id keeps what the buffer had,
    and so does the type specific member, but in delay requests. *)
Definition my_hdr (id : list Z) (ty minor len fl seq ctl interval : Z) (specific : option Z) (h : PtpHeader) : PtpHeader :=
  mkHdr 0x01 ty minor 2 (u16 len) 0 (minorSdoId h) fl 0 (default (messageTypeSpecific h) specific) (mkPort id 1) seq ctl
    interval.

Definition announcement (id : list Z) (b : announce_body) : announce_body :=
  mkBody 37 (a_reserved1 b) myPriority1 248 0xFE 0xFFFF myPriority2 id 0 0xA0.

Definition gptp_make_announce_packet (tx now : Z) : cmd app Z :=
  has ← check_master now;
  if (has : bool) then mret 0 else
  g ← gets proto;
  _ ← update tx (set_eth PTP_PEER_MAC);
  seq ← next_sequence;
  _ ← update tx (fun b => set_hdr (my_hdr (myClockId g) PTP_MESSAGE_ANNOUNCE 1 sizeof_PtpAnnounceHeader PTP_FLAG_TIMESCALE
        seq PTP_CONTROL_ALL_OTHER 0 None (tx_hdr b)) b);
  _ ← update tx (fun b => set_body (announcement (myClockId g) (tx_body b)) (set_time (mkTime 0 0) b));
  _ ← modify (fun a => set_proto (let m := current_gm (proto a) in
        set_gm (mkGm (portIdentity m) (priority1 m) (priority2 m) (last_sync m) (my_sequenceId (proto a))) (proto a)) a);
  _ ← update tx (fun b => set_metadata (vlan_tag b) 0 (sizeof_ethernet_header + sizeof_PtpAnnounceHeader) b);
  mret sizeof_PtpAnnounceHeader.

Definition gptp_make_sync_packet (tx now : Z) : cmd app Z :=
  has ← check_master now;
  if (has : bool) then mret 0 else
  g ← gets proto;
  _ ← update tx (set_eth PTP_PEER_MAC);
  _ ← update tx (fun b => set_hdr (my_hdr (myClockId g) PTP_MESSAGE_SYNC 1 sizeof_PtpSyncHeader PTP_FLAG_TWO_STEP
        (my_sequenceId g) PTP_CONTROL_SYNC 253 None (tx_hdr b)) b);
  _ ← update tx (set_time (mkTime 0 0));
  _ ← update tx (fun b => set_metadata (vlan_tag b) TIMESTAMP_ID_GPTP_RESP
        (sizeof_ethernet_header + sizeof_PtpSyncHeader) b);
  mret sizeof_PtpSyncHeader.

(** [tx_ts]: the time stamp register of the Sync message. *)
Definition gptp_make_followup_packet (tx tx_ts : Z) : cmd app Z :=
  g ← gets proto;
  _ ← update tx (set_eth PTP_PEER_MAC);
  _ ← update tx (fun b => set_hdr (my_hdr (myClockId g) PTP_MESSAGE_FOLLOW_UP 1 sizeof_PtpFollowUpHeader 0
        (my_sequenceId g) PTP_CONTROL_FOLLOW_UP 253 None (tx_hdr b)) b);
  let sync_time := gptp_get_tx_timestamp (the_clock g) tx_ts in
  _ ← update tx (set_time (timestamp_to_ptp_time sync_time));
  _ ← update tx (fun b => set_metadata (vlan_tag b) 0 (sizeof_ethernet_header + sizeof_PtpFollowUpHeader) b);
  mret sizeof_PtpFollowUpHeader.

Definition gptp_make_pdelay_req_packet (tx : Z) : cmd app Z :=
  g ← gets proto;
  _ ← update tx (set_eth PTP_PEER_MAC);
  seq ← next_sequence;
  _ ← update tx (fun b => set_hdr (my_hdr (myClockId g) PTP_MESSAGE_PDELAY_REQ 0 sizeof_PtpPdelayReqHeader 0
        seq PTP_CONTROL_ALL_OTHER 0 (Some 0) (tx_hdr b)) b);
  _ ← update tx (fun b => set_metadata (vlan_tag b) TIMESTAMP_ID_GPTP_REQ
        (sizeof_ethernet_header + sizeof_PtpPdelayReqHeader) b);
  mret sizeof_PtpPdelayReqHeader.

(** ** The answer to a delay request is right *)
Section answer.
Context (g : Z) (Halign : aligned g).

(** The buffers are in memory, and the pools are in order. *)
Record app_ok (a : app) (h : list Z) : Prop := {
  ao_pool : pool_inv g (bufs a) h;
  ao_memory : forall b, b ∈ buffers g -> is_Some (memory a !! b) }.

Lemma deref_run a p b : memory a !! p = Some b -> deref p a = Ok (b, a).
Proof. unfold deref. by intros ->. Qed.

Lemma update_run a p b f : memory a !! p = Some b ->
  update p f a = Ok (tt, set_memory (<[p := f b]> (memory a)) a).
Proof. intros E. unfold update. by rewrite (cmd_bind_run _ _ _ _ _ (deref_run a p b E)). Qed.

Lemma on_bufs_run {A} (c : cmd pool A) a x p : c (bufs a) = Ok (x, p) -> on_bufs c a = Ok (x, set_bufs p a).
Proof. unfold on_bufs. by intros ->. Qed.

(** Updates of one buffer are one update. *)
Lemma update_again a p b f k {A} (c : unit -> cmd app A) : memory a !! p = Some b ->
  (update p k ≫= c) (set_memory (<[p := f]> (memory a)) a) = c tt (set_memory (<[p := k f]> (memory a)) a).
Proof.
  intros E. erewrite cmd_bind_run by (apply update_run; cbn [memory set_memory]; apply lookup_insert_eq).
  cbn [memory set_memory]. by rewrite insert_insert_eq.
Qed.

Lemma set_memory_twice m m' a : set_memory m (set_memory m' a) = set_memory m a.
Proof. done. Qed.

(** The device's answer, as it is counted. *)
Definition counted (status len : Z) (s : tx_counters) : tx_counters :=
  if decide (status <> XST_SUCCESS) then mkCounters (txPackets s) (txBytes s) (u64 (txErrors s + 1)) (txFiltered s)
  else mkCounters (u64 (txPackets s + 1)) (u64 (txBytes s + len)) (txErrors s) (txFiltered s).

(** A buffer that goes back to its pool is handed to the device first. *)
Lemma transmit_packet_run a e b p status : memory a !! e = Some b -> 0 <= frame_length b < 4000 ->
  buffer_pool_free e (bufs a) = Ok (0, p) ->
  transmit_tsn_packet e status a = Ok (status,
    mkApp (proto a) p (memory a) (sent a ++ [b]) (counted status (sizeof_tx_metadata + frame_length b) (tx_stats a))).
Proof.
  intros Em Hl Ef. unfold transmit_tsn_packet. rewrite (cmd_bind_run _ _ _ _ _ (deref_run a e b Em)).
  unfold sizeof_tx_metadata, MAX_BUFFER_LENGTH. rewrite (decide_False (P := _ >= _)) by lia. cstep. cstep.
  erewrite cmd_bind_run by (apply on_bufs_run; exact Ef). done.
Qed.

(** The response, in a buffer that held [b]. *)
Definition response (p : gptp) (rx : rx_frame) (b : tx_buffer) : tx_buffer :=
  set_metadata 0 TIMESTAMP_ID_GPTP_RESP (sizeof_ethernet_header + sizeof_PtpPdelayRespHeader)
    (set_requesting (sourcePortIdentity (hdr rx))
      (set_time (timestamp_to_ptp_time (gptp_get_rx_timestamp (the_clock p) rx))
        (set_hdr (resp_hdr (myClockId p) (hdr rx)) (set_eth PTP_PEER_MAC b)))).
Definition response_fup (p : gptp) (tx_ts : Z) (b : tx_buffer) : tx_buffer :=
  set_metadata 0 0 (sizeof_ethernet_header + sizeof_PtpPdelayRespFollowUpHeader)
    (set_time (timestamp_to_ptp_time (gptp_get_tx_timestamp (the_clock p) tx_ts)) (set_hdr (fup_hdr (tx_hdr b)) b)).

(** A reserved buffer that is free can be taken, and giving it back undoes that. *)
Lemma take_reserved a h : app_ok a h -> isStackEmpty (reserved_stack (bufs a)) = false -> exists e b p,
  get_reserved_tx_buffer (bufs a) = Ok (e, p) /\ e <> 0 /\ memory a !! e = Some b /\
  buffer_pool_free e p = Ok (0, bufs a).
Proof.
  intros [Hp Hm] He. destruct (reserved_run g (bufs a) h Halign Hp) as (e & p & E & Ht). unfold taken in Ht. rewrite He in Ht.
  destruct Ht as (Hne & _ & Hinv). destruct (Hm e) as [b Hb]; [apply (inv_member g p (e :: h) e Hinv); right; right; left|].
  exists e, b, p. split_and!; try done. by apply (reserved_undo g _ h).
Qed.

Lemma pdelay_resp_run a rx status e b p : get_reserved_tx_buffer (bufs a) = Ok (e, p) -> e <> 0 ->
  memory a !! e = Some b -> buffer_pool_free e p = Ok (0, bufs a) ->
  pdelay_resp rx status a = Ok (Some e,
    mkApp (proto a) (bufs a) (<[e := response (proto a) rx b]> (memory a)) (sent a ++ [response (proto a) rx b])
      (counted status 76 (tx_stats a))).
Proof.
  intros E He Em Ef. unfold pdelay_resp. rewrite (cmd_bind_run _ _ _ _ _ (on_bufs_run _ _ _ _ E)). rewrite decide_False by done.
  rewrite (cmd_bind_run (gets proto) _ _ (proto a) (set_bufs p a)) by done. set (a1 := set_bufs p a).
  rewrite (cmd_bind_run _ _ _ _ _ (update_run a1 e b _ Em)).
  rewrite !(update_again a1 e b) by exact Em. fold (response (proto a) rx b).
  erewrite cmd_bind_run by (apply transmit_packet_run; [apply lookup_insert_eq|done|exact Ef]). done.
Qed.

Lemma pdelay_fup_run a tx_ts status e b p : get_reserved_tx_buffer (bufs a) = Ok (e, p) -> e <> 0 ->
  memory a !! e = Some b -> buffer_pool_free e p = Ok (0, bufs a) ->
  pdelay_resp_fup e tx_ts status a = Ok (tt,
    mkApp (proto a) (bufs a) (<[e := response_fup (proto a) tx_ts b]> (memory a))
      (sent a ++ [response_fup (proto a) tx_ts b]) (counted status 76 (tx_stats a))).
Proof.
  intros E He Em Ef. unfold pdelay_resp_fup. rewrite (cmd_bind_run (gets proto) _ _ (proto a) a) by done.
  rewrite (cmd_bind_run _ _ _ _ _ (on_bufs_run _ _ _ _ E)). rewrite decide_False by done. set (a1 := set_bufs p a).
  rewrite (cmd_bind_run _ _ _ _ _ (update_run a1 e b _ Em)).
  rewrite !(update_again a1 e b) by exact Em. fold (response_fup (proto a) tx_ts b).
  erewrite cmd_bind_run by (apply transmit_packet_run; [apply lookup_insert_eq|done|exact Ef]). done.
Qed.

(** A message of type [ty] of this clock that answers the request, with a time stamp. *)
Definition answers (p : gptp) (rx : rx_frame) (ty time : Z) (b : tx_buffer) : Prop :=
  messageType (tx_hdr b) = ty /\ sequenceId (tx_hdr b) = sequenceId (hdr rx) /\
  sourcePortIdentity (tx_hdr b) = mkPort (myClockId p) 1 /\
  tx_requesting b = sourcePortIdentity (hdr rx) /\ ptp_time_to_ns (tx_time b) = time /\
  eth_type b = ETH_TYPE_PTPv2 /\ vlan_tag b = 0 /\ frame_length b = 68.

(** C34. A delay request is answered.  With a reserved buffer free, two messages of this clock
    go to the device, both with the sequence number and for the port of the request:
    the response, with the time at which the request was received, and the follow-up, with the time
    at which the response was sent.  All buffers are back in the pools, and nothing of the
    protocol's state has changed; without a buffer nothing is sent at all. *)
Theorem delay_request_answered a h rx status tx_ts status' : app_ok a h ->
  let ts := gptp_get_rx_timestamp (the_clock (proto a)) rx in
  let ts' := gptp_get_tx_timestamp (the_clock (proto a)) tx_ts in
  exists a', process_pdelay_req rx status tx_ts status' a = Ok (0, a') /\ proto a' = proto a /\ bufs a' = bufs a /\
    if isStackEmpty (reserved_stack (bufs a)) then a' = a else
    exists b1 b2, sent a' = sent a ++ [b1; b2] /\
      answers (proto a) rx PTP_MESSAGE_PDELAY_RESP ts b1 /\ flags (tx_hdr b1) = PTP_FLAG_TWO_STEP /\
      answers (proto a) rx PTP_MESSAGE_PDELAY_RESP_FOLLOW_UP ts' b2.
Proof.
  intros Ha ts ts'. unfold process_pdelay_req. destruct (isStackEmpty _) eqn:He.
  - exists a. split; [|done]. assert (pdelay_resp rx status a = Ok (None, a)) as E.
    { unfold pdelay_resp. assert (get_reserved_tx_buffer (bufs a) = Ok (0, bufs a)) as E0.
      { unfold get_reserved_tx_buffer. rewrite (cmd_bind_run get _ _ _ _ eq_refl). by rewrite He. }
      rewrite (cmd_bind_run _ _ _ _ _ (on_bufs_run _ _ _ _ E0)). by destruct a. }
    by rewrite (cmd_bind_run _ _ _ _ _ E).
  - destruct (take_reserved a h Ha He) as (e & b & p & E & Hne & Em & Ef).
    rewrite (cmd_bind_run _ _ _ _ _ (pdelay_resp_run a rx status e b p E Hne Em Ef)).
    erewrite cmd_bind_run
      by (eapply pdelay_fup_run; [exact E|exact Hne|apply lookup_insert_eq|exact Ef]).
    eexists. split; [reflexivity|]. split; [done|]. split; [done|].
    exists (response (proto a) rx b), (response_fup (proto a) tx_ts (response (proto a) rx b)).
    split; [cbn [sent]; by rewrite <- app_assoc|]. unfold answers. split_and!; try done; apply ptp_time_roundtrip, u64_range.
Qed.
End answer.

(** ** When another thread takes a buffer in between *)

Definition stale (seq : Z) : tx_buffer :=
  mkTx 0xe000 0 0 0 [] [] 0 (mkHdr 0 0xF 0 0 0 0 0 0 0 0 (mkPort [] 0) seq 0 0) (mkTime 0 0) (mkPort [] 0)
    (mkBody 0 0 0 0 0 0 0 [] 0 0).
Definition request : rx_frame := message PTP_MESSAGE_PDELAY_REQ 77 0 gm_port 5000 (mkTime 0 0).

(** The sender thread takes a reserved buffer between the two messages; the answer is whether that is the one
    of the response, and the types and numbers of what is sent. *)
Definition race : cmd app (bool * list (Z * Z)) :=
  tx ← pdelay_resp request 0;
  other ← on_bufs get_reserved_tx_buffer;
  _ ← pdelay_resp_fup (default 0 tx) 6000 0;
  a ← get;
  mret (bool_decide (tx = Some other), (fun b => (messageType (tx_hdr b), sequenceId (tx_hdr b))) <$> sent a).

(** Two reserved buffers, with old contents. *)
Definition two_buffers : app :=
  mkApp gptp_started (mkPool (mkStack [] (-1)) (mkStack [8192; 12288; 0; 0] 1) 8192 [] 0)
    {[ 8192 := stale 4; 12288 := stale 5 ]} [] (mkCounters 0 0 0 0).

(** It is, so that the sender thread has a message of its own overwritten; and what goes out
    as the follow-up is a buffer with its old contents. *)
Example follow_up_race : fst <$> (match race two_buffers with Ok r => Some r | Fault _ => None end) =
  Some (true, [(PTP_MESSAGE_PDELAY_RESP, 77); (0xF, 4)]).
Proof. by vm_compute. Qed.

(** ** A witness *)
Definition page1 : Z := 4096.
Definition pool_of (r : outcome (Z * pool)) : pool := match r with Ok (_, p) => p | Fault _ => pool0 end.
Definition started_pool : pool := pool_of (initialize_buffer_allocation (Some page1) pool0).
Definition all_buffers : gmap Z tx_buffer := gset_to_gmap (stale 0) (list_to_set (buffers page1)).
Definition app1 : app := mkApp gptp_started started_pool all_buffers [] (mkCounters 0 0 0 0).

Lemma page1_aligned : aligned page1.
Proof. by vm_compute. Qed.

Lemma app1_ok : app_ok page1 app1 [].
Proof.
  split.
  - destruct (initialize_run page1 pool0 page1_aligned pool0_shape) as (p & E & Hp). unfold app1, started_pool.
    cbn [bufs]. by rewrite E.
  - intros b Hb. exists (stale 0). apply lookup_gset_to_gmap_Some. split; [by apply elem_of_list_to_set|done].
Qed.

Lemma app1_reserved : isStackEmpty (reserved_stack (bufs app1)) = false.
Proof.
  pose proof (free_reserved page1 _ _ (ao_pool _ _ _ app1_ok)) as H. change (held_reserved page1 []) with 0 in H.
  unfold NUMBER_OF_RESERVED_BUFFER in H. unfold isStackEmpty. apply Z.eqb_neq. lia.
Qed.

Lemma delay_request_answered_witness : exists a',
  process_pdelay_req request 0 6000 0 app1 = Ok (0, a') /\ proto a' = proto app1 /\ bufs a' = bufs app1 /\
  exists b1 b2, sent a' = [b1; b2] /\ answers gptp_started request PTP_MESSAGE_PDELAY_RESP 37840 b1 /\
    flags (tx_hdr b1) = PTP_FLAG_TWO_STEP /\ answers gptp_started request PTP_MESSAGE_PDELAY_RESP_FOLLOW_UP 48768 b2.
Proof.
  destruct (delay_request_answered page1 page1_aligned app1 [] request 0 6000 0 app1_ok) as (a' & E & Hp & Hb & H).
  rewrite app1_reserved in H. exists a'. exact (conj E (conj Hp (conj Hb H))).
Defined.
