(* ===== verification/Sender.v ===== *)
(** * sample/sender_thread.c, parser_thread.c, receiver_thread.c: the path of a frame

    The frames of the parser come through a circular queue; the sender moves them to the
    rings of the scheduler, by the priority in their metadata, takes from the rings what is to be
    sent, and gives the buffers back to the pool.  The same thread sends the periodic
    messages of the protocol.  The state is that of the protocol and of the buffers, the
    scheduler, and the queue of parsed frames; [pthread] mutexes make the
    operations of a queue one step.  What the device answers is an argument.

    The theorems: a round of the sender loses and duplicates no buffer, if no ring is
    full; when one is, the buffer goes back to the pool twice, and two later allocations
    get the same buffer. *)

From stdpp Require Import gmap sets list.
From S2P Require Import Prelude Float64 Gate Ring UserSched Sorting BufferPool GptpClock Gptp.

Open Scope Z_scope.

(** ** The circular queues *)
Definition NUMBER_OF_QUEUE : Z := NUMBER_OF_BUFFER.

(** An element: a buffer, and a length for the queue of parsed frames. *)
Record cqueue (A : Type) := mkCq { cq_elements : list A; cq_front : Z; cq_rear : Z; cq_count : Z }.
Arguments mkCq {A}. Arguments cq_elements {A}. Arguments cq_front {A}. Arguments cq_rear {A}. Arguments cq_count {A}.

Definition initialize_queue {A} (q : cqueue A) : cqueue A := mkCq (cq_elements q) 0 (-1) 0.
Definition isQueueEmpty {A} (q : cqueue A) : bool := cq_count q =? 0.
Definition isQueueFull {A} (q : cqueue A) : bool := cq_count q =? NUMBER_OF_QUEUE.
Definition getQueueCount {A} (q : cqueue A) : Z := cq_count q.

(** The steps all functions on the queues share. *)
Definition queue_put {A} (e : A) (q : cqueue A) : outcome (cqueue A) :=
  let rear := Z.rem (cq_rear q + 1) NUMBER_OF_QUEUE in
  els ← aset (cq_elements q) rear e;
  Ok (mkCq els (cq_front q) rear (cq_count q + 1)).
Definition queue_take {A} (q : cqueue A) : outcome (A * cqueue A) :=
  e ← aget (cq_elements q) (cq_front q);
  Ok (e, mkCq (cq_elements q) (Z.rem (cq_front q + 1) NUMBER_OF_QUEUE) (cq_rear q) (cq_count q - 1)).

(** Received buffers; a full queue drops the buffer. *)
Definition xbuffer_enqueue (e : Z) : cmd (cqueue Z) unit :=
  q ← get;
  if isQueueFull q then mret tt else q' ← lift (queue_put e q); modify (const q').
Definition xbuffer_dequeue : cmd (cqueue Z) Z :=
  q ← get;
  if isQueueEmpty q then mret EMPTY_ELEMENT else '(e, q') ← lift (queue_take q); _ ← modify (const q'); mret e.
Fixpoint enqueue_bds (bds : list Z) (cnt : Z) (n : nat) : cmd (cqueue Z) unit :=
  match n with
  | O => mret tt
  | S n =>
      q ← get;
      if isQueueFull q then mret tt else
      e ← lift (aget bds cnt);
      q' ← lift (queue_put e q); _ ← modify (const q'); enqueue_bds bds (cnt + 1) n
  end.
Definition xbuffer_multi_enqueue (b : multi_bd) : cmd (cqueue Z) unit := enqueue_bds (bd b) 0 (Z.to_nat (bd_num b)).
Fixpoint dequeue_bds (n : nat) (cnt : Z) (bds : list Z) : cmd (cqueue Z) (Z * list Z) :=
  match n with
  | O => mret (cnt, bds)
  | S n =>
      q ← get;
      if decide (cq_count q > 0) then
        '(e, q') ← lift (queue_take q);
        bds ← lift (aset bds cnt e);
        _ ← modify (const q'); dequeue_bds n (cnt + 1) bds
      else mret (cnt, bds)
  end.
Definition xbuffer_multi_dequeue (b : multi_bd) : cmd (cqueue Z) (Z * multi_bd) :=
  q ← get;
  if isQueueEmpty q then mret (-1, mkMulti 0 (bd b)) else
  '(cnt, bds) ← dequeue_bds MAX_BD_NUMBER 0 (bd b);
  mret (cnt, mkMulti cnt bds).

(** Parsed frames: a buffer and its length. *)
Definition pbuffer_enqueue (e : Z * Z) : cmd (cqueue (Z * Z)) Z :=
  q ← get;
  if isQueueFull q then mret (-1) else q' ← lift (queue_put e q); _ ← modify (const q'); mret 0.
(** The answer, and the descriptor, [bd] when there is none. *)
Definition pbuffer_dequeue (bd : Z * Z) : cmd (cqueue (Z * Z)) (Z * (Z * Z)) :=
  q ← get;
  if isQueueEmpty q then mret (-1, bd) else '(e, q') ← lift (queue_take q); _ ← modify (const q'); mret (0, e).
Fixpoint pdequeue_bds (n : nat) (id : Z) (bds : list (Z * Z)) : cmd (cqueue (Z * Z)) (Z * list (Z * Z)) :=
  match n with
  | O => mret (id, bds)
  | S n =>
      q ← get;
      if isQueueEmpty q then mret (id, bds) else
      '(e, q') ← lift (queue_take q);
      bds ← lift (aset bds id e);
      _ ← modify (const q'); pdequeue_bds n (id + 1) bds
  end.
Definition pbuffer_multi_dequeue (bds : list (Z * Z)) : cmd (cqueue (Z * Z)) (Z * list (Z * Z)) :=
  pdequeue_bds MAX_BD_NUMBER 0 bds.

(** ** The sender *)
Record sender := mkSender { s_app : app; s_sched : sched; s_parsed : cqueue (Z * Z) }.
Definition set_app (v : app) (s : sender) : sender := mkSender v (s_sched s) (s_parsed s).
Definition set_sched (v : sched) (s : sender) : sender := mkSender (s_app s) v (s_parsed s).
Definition set_parsed (v : cqueue (Z * Z)) (s : sender) : sender := mkSender (s_app s) (s_sched s) v.

Definition on_app {A} (c : cmd app A) : cmd sender A := fun s =>
  match c (s_app s) with Ok (x, a) => Ok (x, set_app a s) | Fault f => Fault f end.
Definition on_sched {A} (c : cmd sched A) : cmd sender A := fun s =>
  match c (s_sched s) with Ok (x, d) => Ok (x, set_sched d s) | Fault f => Fault f end.
Definition on_parsed {A} (c : cmd (cqueue (Z * Z)) A) : cmd sender A := fun s =>
  match c (s_parsed s) with Ok (x, q) => Ok (x, set_parsed q s) | Fault f => Fault f end.

Definition enqueue (tx : Z) : cmd sender Z :=
  b ← on_app (deref tx);
  res ← on_sched (tsn_queue_enqueue tx (vlan_prio b));
  if decide (res = 0) then _ ← on_app (on_bufs (buffer_pool_free tx)); mret res else mret res.

(** The lengths in the metadata of the frames. *)
Definition length_at (m : gmap Z tx_buffer) (p : Z) : Z := default 0 (frame_length <$> m !! p).

(** [sys_count]: the tick counter. *)
Definition dequeue (sys_count : Z) : cmd sender Z :=
  a ← gets s_app;
  on_sched (UserSched.dequeue (length_at (memory a)) (gptp_get_timestamp (the_clock (proto a)) sys_count)).

(** [status] and [len]: the answer of [xdma_api_write_to_multi_buffers_with_fd], and the
    length it leaves in the descriptor. *)
Definition send_burst_packet (io : multi_bd) (frame : tx_buffer) (status len : Z) : cmd app unit :=
  _ ← modify (fun a => set_sent (sent a ++ [frame]) a);
  _ ← modify (fun a => let s := tx_stats a in
        set_tx_stats (if decide (status <> 0)
                      then mkCounters (txPackets s) (txBytes s) (u64 (txErrors s + bd_num io)) (txFiltered s)
                      else if decide (len <> 0)
                      then mkCounters (u64 (txPackets s + 1)) (u64 (txBytes s + len)) (txErrors s) (txFiltered s)
                      else mkCounters (txPackets s) (txBytes s) (u64 (txErrors s + 1)) (txFiltered s)) a);
  _ ← on_bufs (multi_buffer_pool_free io);
  mret tt.

(** A parsed frame goes to its ring; one that is refused is freed, after [enqueue] has.
    The queue is not empty: only this thread takes from it. *)
Definition forward : cmd sender unit :=
  '(_, bd) ← on_parsed (pbuffer_dequeue (0, 0));
  if decide (fst bd = 0) then mret tt else
  res ← enqueue (fst bd);
  if decide (res > 0) then mret tt else
  _ ← on_app (modify (fun a => let s := tx_stats a in
        set_tx_stats (mkCounters (txPackets s) (txBytes s) (txErrors s) (u64 (txFiltered s + 1))) a));
  _ ← on_app (on_bufs (buffer_pool_free (fst bd)));
  mret tt.

Fixpoint forwards (n : nat) : cmd sender unit :=
  match n with O => mret tt | S n => _ ← forward; forwards n end.

Definition forward_received : cmd sender unit :=
  q ← gets s_parsed;
  let received := getQueueCount q in
  if decide (received > 0) then forwards (Z.to_nat (Z.min received 16)) else mret tt.

(** The transmit loop, at most [n] frames; [dev]: the tick count and the device's answers. *)
Fixpoint transmit (n : nat) (dev : nat -> Z * Z * Z) : cmd sender unit :=
  match n with
  | O => mret tt
  | S n =>
      let '(count, status, len) := dev n in
      tx ← dequeue count;
      if decide (tx = 0) then mret tt else
      b ← on_app (deref tx);
      _ ← on_app (send_burst_packet (mkMulti 1 (tx :: replicate 7 0)) b status len);
      transmit n dev
  end.

(** A round of the loop of [sender_in_tsn_mode], without the periodic messages. *)
Definition sender_round (dev : nat -> Z * Z * Z) : cmd sender unit :=
  _ ← forward_received; transmit 20 dev.

(** ** The periodic messages *)
Definition send_periodic (make : Z -> cmd app Z) (k : Z -> cmd sender unit) : cmd sender unit :=
  buffer ← on_app (on_bufs get_reserved_tx_buffer);
  if decide (buffer = 0) then mret tt else
  size ← on_app (make buffer);
  if decide (size = 0) then _ ← on_app (on_bufs (buffer_pool_free buffer)); mret tt else k buffer.

Definition gptp_messages (now now' tx_ts status : Z) : cmd sender unit :=
  send_periodic gptp_make_pdelay_req_packet (fun buffer =>
  _ ← enqueue buffer;
  send_periodic (fun b => gptp_make_announce_packet b now) (fun buffer =>
  _ ← enqueue buffer;
  buffer ← on_app (on_bufs get_reserved_tx_buffer);
  if decide (buffer = 0) then mret tt else
  _ ← on_app (gptp_make_sync_packet buffer now');
  _ ← on_app (transmit_tsn_packet buffer status);
  buffer ← on_app (on_bufs get_reserved_tx_buffer);
  if decide (buffer = 0) then mret tt else
  _ ← on_app (gptp_make_followup_packet buffer tx_ts);
  _ ← enqueue buffer;
  mret tt)).

(** The statistics are converted before it is looked at whether there are any. *)
Definition periodic_process_ptp (now now' tx_ts status : Z) : cmd sender unit :=
  a ← gets s_app;
  stats ← lift (gptp_get_statistics (proto a));
  _ ← on_app (on_proto gptp_reset_statistics);
  gptp_messages now now' tx_ts status.

(** [sender_in_tsn_mode]: [now] is the tick count, [last_timer] the one of the last period. *)
Definition sender_in_tsn_mode_round (now last_timer now1 now2 tx_ts status : Z) (dev : nat -> Z * Z * Z) :
    cmd sender Z :=
  last ← (if decide (u64 (now - last_timer) > 1000000000 / 8)
          then _ ← periodic_process_ptp now1 now2 tx_ts status; mret now else mret last_timer);
  _ ← sender_round dev;
  mret last.

(** ** The circular queues are queues *)
Definition cq_contents {A} `{!Inhabited A} (q : cqueue A) : list A :=
  ring NUMBER_OF_QUEUE (cq_elements q) (cq_front q) (cq_count q).
Definition cq_ok {A} (q : cqueue A) : Prop :=
  ring_ok NUMBER_OF_QUEUE (cq_elements q) (cq_front q) (cq_count q) /\
  Z.rem (cq_rear q + 1) NUMBER_OF_QUEUE = (cq_front q + cq_count q) mod NUMBER_OF_QUEUE /\ -1 <= cq_rear q.

Lemma queue_size : 0 < NUMBER_OF_QUEUE.
Proof. reflexivity. Qed.

Lemma queue_put_run {A} `{!Inhabited A} (e : A) q : cq_ok q -> isQueueFull q = false -> exists q',
  queue_put e q = Ok q' /\ cq_ok q' /\ cq_contents q' = cq_contents q ++ [e].
Proof.
  intros (Hr & Hrear & Hlow) Hf. unfold isQueueFull in Hf. apply Z.eqb_neq in Hf. pose proof Hr as (_ & Hc & _).
  destruct (ring_push NUMBER_OF_QUEUE queue_size _ _ _ e Hr) as (els & E & Hr' & Ec); [lia|].
  unfold queue_put. rewrite Hrear, E. eexists. split; [reflexivity|]. split; [|exact Ec].
  pose proof (Z.mod_pos_bound (cq_front q + cq_count q) NUMBER_OF_QUEUE queue_size).
  split; [exact Hr'|]. cbn [cq_rear cq_front cq_count]. split; [|lia].
  rewrite Z.rem_mod_nonneg, Zplus_mod_idemp_l by (unfold NUMBER_OF_QUEUE, NUMBER_OF_BUFFER in *; lia). f_equal. lia.
Qed.

Lemma queue_take_run {A} `{!Inhabited A} (e : A) l q : cq_ok q -> cq_contents q = e :: l ->
  isQueueEmpty q = false /\ exists q', queue_take q = Ok (e, q') /\ cq_ok q' /\ cq_contents q' = l.
Proof.
  intros (Hr & Hrear & Hlow) E.
  destruct (ring_pop NUMBER_OF_QUEUE queue_size _ _ _ e l Hr E) as (Eg & Hn & Hr' & Ec). pose proof Hr as (_ & _ & Ht).
  split; [by apply Z.eqb_neq|]. unfold queue_take. rewrite Eg. eexists. split; [reflexivity|].
  unfold cq_ok, cq_contents. cbn [cq_elements cq_front cq_count cq_rear].
  rewrite Z.rem_mod_nonneg by (unfold NUMBER_OF_QUEUE, NUMBER_OF_BUFFER in *; lia).
  split_and!; [exact Hr'|rewrite Zplus_mod_idemp_l, Hrear; f_equal; lia|done|exact Ec].
Qed.

Lemma queue_count {A} `{!Inhabited A} (q : cqueue A) : cq_ok q -> getQueueCount q = Z.of_nat (length (cq_contents q)).
Proof. intros [H _]. unfold cq_contents. by rewrite ring_length. Qed.

(** ** Where the buffers are *)

(** The frames on their way, as pointers. *)
Definition in_flight (s : sender) : list Z := (fst <$> cq_contents (s_parsed s)) ++ concat (waiting (s_sched s)).

Section accounting.
Context (g : Z) (Halign : aligned g).

Definition pointer_ok (m : gmap Z tx_buffer) (p : Z) : Prop :=
  0 < p < 2 ^ 64 /\ exists b, m !! p = Some b /\ 0 <= vlan_prio b < 8.

(** [h]: the buffers that others hold. *)
Record sender_ok (s : sender) (h : list Z) : Prop := {
  sk_pool : pool_inv g (bufs (s_app s)) ((page <$> in_flight s) ++ h);
  sk_sched : default_config (s_sched s);
  sk_parsed : cq_ok (s_parsed s);
  sk_pointers : Forall (pointer_ok (memory (s_app s))) (in_flight s) }.

Lemma on_app_run {A} (c : cmd app A) s x a : c (s_app s) = Ok (x, a) -> on_app c s = Ok (x, set_app a s).
Proof. unfold on_app. by intros ->. Qed.
Lemma on_sched_run {A} (c : cmd sched A) s x d : c (s_sched s) = Ok (x, d) -> on_sched c s = Ok (x, set_sched d s).
Proof. unfold on_sched. by intros ->. Qed.
Lemma on_parsed_run {A} (c : cmd (cqueue (Z * Z)) A) s x q : c (s_parsed s) = Ok (x, q) ->
  on_parsed c s = Ok (x, set_parsed q s).
Proof. unfold on_parsed. by intros ->. Qed.

Lemma concat_insert {A} (l : list (list A)) i w x : l !! i = Some w -> concat (<[i := w ++ [x]]> l) ≡ₚ x :: concat l.
Proof.
  revert i. induction l as [|y l IH]; intros [|i] H; cbn in *; [done|done|injection H as ->|].
  { rewrite <- app_assoc. cbn [Datatypes.app]. by rewrite <- Permutation_middle. }
  rewrite (IH i H). by rewrite <- Permutation_middle.
Qed.
Lemma concat_tail {A} (l : list (list A)) i w x : l !! i = Some (x :: w) -> concat l ≡ₚ x :: concat (<[i := w]> l).
Proof.
  revert i. induction l as [|y l IH]; intros [|i] H; cbn in *; [done|done|by injection H as ->|].
  rewrite (IH i H). by rewrite <- Permutation_middle.
Qed.

Lemma ok_frames s h : sender_ok s h -> frames_ok (waiting (s_sched s)).
Proof.
  intros [_ _ _ Hp]. apply Forall_app in Hp as [_ Hp]. unfold frames_ok. apply Forall_concat in Hp.
  eapply Forall_impl; [exact Hp|]. intros l Hl. eapply Forall_impl; [exact Hl|]. cbn. intros p [? _]. lia.
Qed.

(** Putting a frame on its ring. *)
Lemma enqueue_ring s p b w : sched_ok (s_sched s) -> memory (s_app s) !! p = Some b -> 0 <= vlan_prio b < 8 ->
  waiting (s_sched s) !! Z.to_nat (vlan_prio b) = Some w ->
  if decide (Z.of_nat (length w) = UserSched.TSN_QUEUE_SIZE) then
    enqueue p s = (_ ← on_app (on_bufs (buffer_pool_free p)); mret 0) s
  else exists d, enqueue p s = Ok (1, set_sched d s) /\ sched_ok d /\ same_but_queues (s_sched s) d /\
    waiting d = <[Z.to_nat (vlan_prio b) := w ++ [p]]> (waiting (s_sched s)).
Proof.
  intros Hs Hb Hp Hw. unfold enqueue.
  rewrite (cmd_bind_run _ _ _ _ _ (on_app_run _ s _ _ (deref_run _ _ _ Hb))).
  replace (set_app (s_app s) s) with s by (by destruct s).
  pose proof (enqueue_run (s_sched s) p (vlan_prio b) w Hs Hp Hw) as H. case_decide.
  - rewrite (cmd_bind_run _ _ _ _ _ (on_sched_run _ s _ _ H)). by replace (set_sched (s_sched s) s) with s by (by destruct s).
  - destruct H as (d & E & Hd & Hsame & Hwait). exists d.
    by rewrite (cmd_bind_run _ _ _ _ _ (on_sched_run _ s _ _ E)).
Qed.

Lemma dequeue_parsed s p len l : cq_ok (s_parsed s) -> cq_contents (s_parsed s) = (p, len) :: l -> exists q,
  on_parsed (pbuffer_dequeue (0, 0)) s = Ok ((0, (p, len)), set_parsed q s) /\ cq_ok q /\ cq_contents q = l.
Proof.
  intros Hq E. destruct (queue_take_run (p, len) l _ Hq E) as (He & q & Et & Hq' & Ec). exists q. split; [|done].
  apply on_parsed_run. unfold pbuffer_dequeue. rewrite (cmd_bind_run get _ _ _ _ eq_refl), He.
  by rewrite (cmd_bind_run _ _ _ _ _ (lift_run _ _ _ Et)).
Qed.

(** A parsed frame moves to a ring with room. *)
Lemma forward_run s h p len l b w : sender_ok s h -> cq_contents (s_parsed s) = (p, len) :: l ->
  memory (s_app s) !! p = Some b -> waiting (s_sched s) !! Z.to_nat (vlan_prio b) = Some w ->
  Z.of_nat (length w) < UserSched.TSN_QUEUE_SIZE -> exists s',
    forward s = Ok (tt, s') /\ sender_ok s' h /\ s_app s' = s_app s /\ cq_contents (s_parsed s') = l /\
    waiting (s_sched s') = <[Z.to_nat (vlan_prio b) := w ++ [p]]> (waiting (s_sched s)) /\
    in_flight s' ≡ₚ in_flight s.
Proof.
  intros Hs El Hb Hw Hroom. pose proof Hs as [Hpool Hd Hq Hp].
  pose proof Hp as Hp0. unfold in_flight in Hp0. rewrite El in Hp0. apply Forall_cons in Hp0 as [(Hpos & b' & Hb' & Hprio) _].
  cbn [fst] in *. rewrite Hb in Hb'. injection Hb' as <-.
  destruct (dequeue_parsed s p len l Hq El) as (q & E & Hq' & Ec).
  unfold forward. rewrite (cmd_bind_run _ _ _ _ _ E). cbn [fst]. rewrite (decide_False (P := p = 0)) by lia.
  pose proof (enqueue_ring (set_parsed q s) p b w (dc_ok _ Hd) Hb Hprio Hw) as H. rewrite decide_False in H by lia.
  destruct H as (d & E' & Hd' & Hsame & Hwait). rewrite (cmd_bind_run _ _ _ _ _ E').
  rewrite (decide_True (P := 1 > 0)) by lia. exists (set_sched d (set_parsed q s)). split; [done|].
  cbn [s_app s_sched s_parsed set_sched set_parsed] in *.
  assert (in_flight (set_sched d (set_parsed q s)) ≡ₚ in_flight s) as Hperm.
  { unfold in_flight. cbn [s_app s_sched s_parsed set_sched set_parsed]. rewrite El, Ec, Hwait.
    rewrite (concat_insert _ _ _ _ Hw). cbn [fmap list_fmap fst Datatypes.app]. by rewrite <- Permutation_middle. }
  split; [|done]. split; cbn [s_app s_sched s_parsed set_sched set_parsed]; [|by eapply same_queues_default|done|].
  - eapply inv_perm; [|exact Hpool]. by rewrite Hperm.
  - by rewrite Hperm.
Qed.

(** Every ring has room for [n] more. *)
Definition room (n : nat) (s : sender) : Prop :=
  forall i w, waiting (s_sched s) !! i = Some w -> Z.of_nat (length w + n) <= UserSched.TSN_QUEUE_SIZE.

Lemma forwards_run n s h : sender_ok s h -> room n s -> (n <= length (cq_contents (s_parsed s)))%nat -> exists s',
  forwards n s = Ok (tt, s') /\ sender_ok s' h /\ s_app s' = s_app s /\ in_flight s' ≡ₚ in_flight s /\
  cq_contents (s_parsed s') = drop n (cq_contents (s_parsed s)).
Proof.
  revert s. induction n as [|n IH]; intros s Hs Hroom Hn; cbn [forwards].
  { exists s. by rewrite drop_0. }
  destruct (cq_contents (s_parsed s)) as [|[p len] l] eqn:El; [cbn in Hn; lia|]. cbn [length] in Hn.
  pose proof Hs as [_ Hd _ Hp]. pose proof Hp as Hp0. unfold in_flight in Hp0. rewrite El in Hp0.
  apply Forall_cons in Hp0 as [(_ & b & Hb & Hprio) _]. cbn [fst] in Hb.
  destruct (waiting_at (s_sched s) (vlan_prio b) (dc_ok _ Hd) Hprio) as [w Hw].
  pose proof (Hroom _ _ Hw) as Hlen.
  destruct (forward_run s h p len l b w Hs El Hb Hw) as (s1 & E1 & Hs1 & Ha1 & Ec1 & Hw1 & Hp1); [lia|].
  rewrite (cmd_bind_run _ _ _ _ _ E1). destruct (IH s1 Hs1) as (s' & E & Hs' & Ha & Hperm & Ec).
  - intros i v Hv. rewrite Hw1 in Hv. apply list_lookup_insert_Some in Hv as [(_ & <- & _)|[_ Hv]].
    + rewrite length_app. cbn [length]. lia.
    + specialize (Hroom _ _ Hv). lia.
  - rewrite Ec1. lia.
  - exists s'. split; [done|]. split; [done|]. split; [congruence|]. split; [by rewrite Hperm|]. by rewrite Ec, Ec1.
Qed.

(** Sending one frame gives its buffer back. *)
Lemma burst_run a p b status len h : pool_inv g (bufs a) (page p :: h) -> exists a',
  send_burst_packet (mkMulti 1 (p :: replicate 7 0)) b status len a = Ok (tt, a') /\
  pool_inv g (bufs a') h /\ memory a' = memory a /\ sent a' = sent a ++ [b] /\ proto a' = proto a.
Proof.
  intros Hp. unfold send_burst_packet. cstep. cstep. set (a1 := set_tx_stats _ _).
  destruct (free_bds_run g 1 (bufs a) h (p :: replicate 7 0) 0 [p] ltac:(done) eq_refl eq_refl Hp) as (q & E & Hq).
  assert (multi_buffer_pool_free (mkMulti 1 (p :: replicate 7 0)) (bufs a1) = Ok (0, q)) as E'
    by (unfold multi_buffer_pool_free; cbn [bd bd_num]; change (Z.to_nat 1) with 1%nat; by rewrite (cmd_bind_run _ _ _ _ _ E)).
  rewrite (cmd_bind_run _ _ _ _ _ (on_bufs_run _ _ _ _ E')). by eexists.
Qed.

Lemma dequeue_run_sender s h count l : sender_ok s h -> waiting (s_sched s) !! 0%nat = Some l ->
  match l with
  | [] => dequeue count s = Ok (0, s)
  | p :: l => exists d, dequeue count s = Ok (p, set_sched d s) /\ default_config d /\
      waiting d = <[0%nat := l]> (waiting (s_sched s))
  end.
Proof.
  intros Hs Hl. pose proof (sk_sched _ _ Hs) as Hd. pose proof (ok_frames _ _ Hs) as Hf.
  destruct l as [|p l].
  - unfold dequeue. rewrite (cmd_bind_run (gets s_app) _ _ _ s eq_refl).
    assert (forall len now, UserSched.dequeue len now (s_sched s) = Ok (0, s_sched s)) as E
      by (intros len now; unfold UserSched.dequeue; by rewrite (cmd_bind_run _ _ _ _ _ (select_default _ _ _ Hd Hl))).
    rewrite (on_sched_run _ _ _ _ (E _ _)). by destruct s.
  - pose proof (frames_ok_at _ _ _ Hf Hl) as [Hp _]%Forall_cons.
    set (len := length_at (memory (s_app s))).
    destruct (dequeue_default len (s_sched s) (gptp_get_timestamp (the_clock (proto (s_app s))) count) p l Hd Hl Hp)
      as (d & E & Hd' & _ & Hw). exists d. split; [|done].
    unfold dequeue. rewrite (cmd_bind_run (gets s_app) _ _ _ s eq_refl). by apply on_sched_run.
Qed.

(** The frames behind pointers. *)
Definition frames_at (m : gmap Z tx_buffer) (ps : list Z) : list tx_buffer := omap (fun p => m !! p) ps.

(** The oldest frames of queue 0 are sent, and their buffers freed. *)
Lemma transmit_loop_run n dev s h l : sender_ok s h -> waiting (s_sched s) !! 0%nat = Some l -> exists s',
  transmit n dev s = Ok (tt, s') /\ sender_ok s' h /\ memory (s_app s') = memory (s_app s) /\
  sent (s_app s') = sent (s_app s) ++ frames_at (memory (s_app s)) (take n l) /\
  waiting (s_sched s') = <[0%nat := drop n l]> (waiting (s_sched s)) /\ s_parsed s' = s_parsed s.
Proof.
  revert s l. induction n as [|n IH]; intros s l Hs Hl; cbn [transmit].
  { exists s. rewrite take_0, drop_0, app_nil_r. by split_and!; rewrite ?list_insert_id. }
  destruct (dev n) as [[count status] len]. pose proof (dequeue_run_sender s h count l Hs Hl) as Hdeq.
  destruct l as [|p l].
  { rewrite (cmd_bind_run _ _ _ _ _ Hdeq). rewrite decide_True by done. exists s.
    rewrite take_nil, drop_nil, app_nil_r. by split_and!; rewrite ?list_insert_id. }
  destruct Hdeq as (d & E & Hd & Hw). pose proof Hs as [Hpool _ Hq Hp].
  assert (in_flight s ≡ₚ p :: in_flight (set_sched d s)) as Hperm.
  { unfold in_flight. cbn [s_parsed s_sched set_sched]. rewrite Hw, (concat_tail _ _ _ _ Hl). by rewrite <- Permutation_middle. }
  rewrite Hperm in Hp. apply Forall_cons in Hp as [(Hpos & b & Hb & _) Hp].
  rewrite (cmd_bind_run _ _ _ _ _ E). rewrite (decide_False (P := p = 0)) by lia.
  rewrite (cmd_bind_run _ _ _ _ _ (on_app_run _ (set_sched d s) _ _ (deref_run _ _ _ Hb))).
  destruct (burst_run (s_app s) p b status len ((page <$> in_flight (set_sched d s)) ++ h)) as (a' & Ea & Hpa & Hm & Hsent & _).
  { eapply inv_perm; [|exact Hpool]. by rewrite Hperm. }
  rewrite (cmd_bind_run _ _ _ _ _ (on_app_run _ (set_app (s_app (set_sched d s)) (set_sched d s)) _ _ Ea)).
  set (s1 := set_app a' _).
  assert (sender_ok s1 h) as Hs1 by (split; [exact Hpa|exact Hd|exact Hq|cbn [s1 s_app set_app]; by rewrite Hm]).
  destruct (IH s1 l Hs1) as (s' & E' & Hs' & Hm' & Hsent' & Hw' & Hq').
  { cbn [s1 s_sched set_app set_sched]. rewrite Hw. apply list_lookup_insert_eq. by eapply lookup_lt_Some. }
  exists s'. cbn [s1 s_app s_sched s_parsed set_app set_sched] in *. split_and!; try done.
  - by rewrite Hm'.
  - rewrite Hsent', Hsent, Hm. cbn [take]. unfold frames_at at 2. cbn [omap list_omap]. rewrite Hb. by rewrite <- app_assoc.
  - rewrite Hw', Hw. apply list_insert_insert_eq.
Qed.

(** C32. A round of the sender loses no buffer.  With gates and shapers off and room for sixteen
    frames on every ring, a round moves parsed frames to the rings, sends the oldest of queue
    0 and frees their buffers: each buffer that was on its way is on its way still or is back
    in its pool, each of these was handed to the device with its contents, and no buffer
    is lost or in two places. *)
Theorem sender_round_conserves dev s h : sender_ok s h -> room 16 s -> exists s' gone,
  sender_round dev s = Ok (tt, s') /\ sender_ok s' h /\
  in_flight s ≡ₚ gone ++ in_flight s' /\ (length gone <= 20)%nat /\
  sent (s_app s') = sent (s_app s) ++ frames_at (memory (s_app s)) gone /\
  cq_contents (s_parsed s') = drop 16 (cq_contents (s_parsed s)).
Proof.
  intros Hs Hroom. unfold sender_round, forward_received. set (c := cq_contents (s_parsed s)).
  set (n := Nat.min (length c) 16).
  destruct (forwards_run n s h Hs) as (s1 & E1 & Hs1 & Ha & Hperm & Ec).
  { intros i w Hw. specialize (Hroom i w Hw). unfold n. lia. }
  { fold c. unfold n. lia. }
  assert ((q ← gets s_parsed; let received := getQueueCount q in
           if decide (received > 0) then forwards (Z.to_nat (Z.min received 16)) else mret tt) s = Ok (tt, s1)) as E.
  { rewrite (cmd_bind_run (gets s_parsed) _ _ _ s eq_refl). cbv zeta. rewrite (queue_count _ (sk_parsed _ _ Hs)). fold c.
    destruct (decide (Z.of_nat (length c) > 0)) as [Hc|Hc].
    - replace (Z.to_nat (Z.min (Z.of_nat (length c)) 16)) with n by (unfold n; lia). exact E1.
    - assert (n = O) as Hz by (unfold n; lia). by rewrite Hz in E1. }
  rewrite (cmd_bind_run _ _ _ _ _ E).
  destruct (waiting_at (s_sched s1) 0 (dc_ok _ (sk_sched _ _ Hs1)) ltac:(done)) as [l Hl]. change (Z.to_nat 0) with 0%nat in Hl.
  destruct (transmit_loop_run 20 dev s1 h l Hs1 Hl) as (s' & E' & Hs' & Hm & Hsent & Hw & Hq).
  exists s', (take 20 l). split; [done|]. split; [done|]. split_and!.
  - rewrite <- Hperm. unfold in_flight. rewrite Hw, Hq.
    assert (concat (waiting (s_sched s1)) ≡ₚ take 20 l ++ concat (<[0%nat := drop 20 l]> (waiting (s_sched s1)))) as ->.
    { destruct (waiting (s_sched s1)) as [|w ws]; [done|]. injection Hl as ->. cbn. by rewrite app_assoc, take_drop. }
    rewrite !app_assoc. apply Permutation_app_tail, Permutation_app_comm.
  - rewrite length_take. lia.
  - by rewrite Hsent, Ha.
  - rewrite Hq, Ec. fold c. unfold n. destruct (Nat.min_spec (length c) 16) as [[Hlt ->]|[_ ->]]; [|done].
    by rewrite !drop_ge by lia.
Qed.

(** A low buffer goes on top of the general pool. *)
Lemma free_low_run e p : RESERVED_BUFFER_BASE p = base_of g -> ~ base_of g <= e ->
  stack_ok NUMBER_OF_POOL_BUFFER (g_stackP p) -> top (g_stackP p) + 1 < NUMBER_OF_POOL_BUFFER -> exists s,
  buffer_pool_free e p = Ok (0, set_stack s p) /\ stack_ok NUMBER_OF_POOL_BUFFER s /\
  live s = live (g_stackP p) ++ [page e] /\ top s = top (g_stackP p) + 1.
Proof.
  intros Hb Hlow Hs Ht. destruct (push_run _ (page e) _ Hs Ht) as (s & E & Hs' & Hl & Htop). exists s. split; [|done].
  unfold buffer_pool_free. rewrite (cmd_bind_run get _ p p p) by done. rewrite Hb, decide_False by done.
  rewrite (cmd_bind_run _ _ p true (set_stack s p)); [done|]. unfold put_pool. rewrite (cmd_bind_run get _ p p p) by done.
  unfold isStackFull. rewrite (proj2 (Z.eqb_neq _ _)) by lia. by rewrite (cmd_bind_run _ _ _ _ _ (lift_run _ p _ E)).
Qed.

(** And comes from there again. *)
Lemma alloc_top p l e : stack_ok NUMBER_OF_POOL_BUFFER (g_stackP p) -> live (g_stackP p) = l ++ [e] -> exists s,
  buffer_pool_alloc p = Ok (e, set_stack s p) /\ stack_ok NUMBER_OF_POOL_BUFFER s /\ live s = l.
Proof.
  intros Hs El. pose proof (live_top _ _ Hs) as Ht. rewrite El, length_app in Ht. cbn [length] in Ht.
  destruct (pop_run _ _ Hs ltac:(lia)) as (e' & s & E & Hs' & Hl & _). rewrite El in Hl. apply app_inj_tail in Hl as [-> <-].
  exists s. split; [|done]. unfold buffer_pool_alloc. rewrite (cmd_bind_run get _ p p p) by done.
  unfold isStackEmpty. rewrite (proj2 (Z.eqb_neq _ _)) by lia. by rewrite (cmd_bind_run _ _ _ _ _ (lift_run _ p _ E)).
Qed.

(** A refused frame is freed twice.  When the ring of a parsed frame is full, its buffer
    goes back to the pool two times: the next two allocations get the same buffer. *)
Theorem refused_frame_freed_twice s h p len l b w : sender_ok s h -> cq_contents (s_parsed s) = (p, len) :: l ->
  memory (s_app s) !! p = Some b -> waiting (s_sched s) !! Z.to_nat (vlan_prio b) = Some w ->
  Z.of_nat (length w) = UserSched.TSN_QUEUE_SIZE -> ~ base_of g <= p -> exists s' q1 q2,
    forward s = Ok (tt, s') /\ buffer_pool_alloc (bufs (s_app s')) = Ok (page p, q1) /\
    buffer_pool_alloc q1 = Ok (page p, q2).
Proof.
  intros Hs El Hb Hw Hfull Hlow. pose proof Hs as [Hpool Hd Hq Hp].
  pose proof Hp as Hp0. unfold in_flight in Hp0. rewrite El in Hp0. apply Forall_cons in Hp0 as [(Hpos & b' & Hb' & Hprio) _].
  cbn [fst] in *. rewrite Hb in Hb'. injection Hb' as <-.
  destruct (dequeue_parsed s p len l Hq El) as (q & E & _ & _).
  unfold forward. rewrite (cmd_bind_run _ _ _ _ _ E). cbn [fst]. rewrite (decide_False (P := p = 0)) by lia.
  pose proof (enqueue_ring (set_parsed q s) p b w (dc_ok _ Hd) Hb Hprio Hw) as H. rewrite decide_True in H by done.
  set (s0 := set_parsed q s) in *.
  (* the first time, in [enqueue] *)
  destruct (free_low_run p (bufs (s_app s)) (pi_base _ _ _ Hpool) Hlow (pi_stack _ _ _ Hpool) (pool_room _ _ _ Hpool))
    as (k1 & E1 & Hk1 & Hl1 & Ht1).
  rewrite (cmd_bind_run _ _ _ 0 (set_app (set_bufs (set_stack k1 (bufs (s_app s))) (s_app s)) s0)) by
    (rewrite H; by rewrite (cmd_bind_run _ _ _ _ _ (on_app_run _ s0 _ _ (on_bufs_run _ _ _ _ E1)))).
  rewrite (decide_False (P := 0 > 0)) by lia. erewrite cmd_bind_run by reflexivity. set (s1 := set_app _ _).
  (* the second time *)
  assert (pool_inv g (set_stack k1 (bufs (s_app s))) (tail (page <$> in_flight s) ++ h)) as Hinv.
  { destruct (free_run g (bufs (s_app s)) (tail (page <$> in_flight s) ++ h) p Halign ltac:(lia)) as (p' & Ep & Hinv).
    - unfold in_flight in *. by rewrite El in *.
    - rewrite E1 in Ep. by injection Ep as ->. }
  pose proof (pool_room _ _ _ Hinv) as Hroom. cbn [g_stackP set_stack] in Hroom.
  destruct (free_low_run p (bufs (s_app s1)) (pi_base _ _ _ Hpool) Hlow Hk1 Hroom) as (k2 & E2 & Hk2 & Hl2 & Ht2).
  erewrite cmd_bind_run by (apply on_app_run, on_bufs_run; exact E2).
  cbn [s1 s_app set_app bufs set_bufs set_tx_stats g_stackP set_stack] in *.
  destruct (alloc_top (set_stack k2 (set_stack k1 (bufs (s_app s)))) _ _ Hk2 Hl2) as (k3 & E3 & Hk3 & Hl3).
  rewrite Hl1 in Hl3. destruct (alloc_top (set_stack k3 (set_stack k2 (set_stack k1 (bufs (s_app s))))) _ _ Hk3 Hl3) as (k4 & E4 & _).
  eexists _, _, _. split; [reflexivity|]. split; [exact E3|exact E4].
Qed.
(** ** The periodic messages *)

(** Nothing but the protocol's state and the contents of buffers is different, and the
    frames keep their tags. *)
Definition tame (a a' : app) : Prop :=
  bufs a' = bufs a /\
  forall p b, memory a !! p = Some b -> exists b', memory a' !! p = Some b' /\ vlan_tag b' = vlan_tag b.
Definition tame_cmd {A} (p : Z) (c : cmd app A) : Prop := forall a, is_Some (memory a !! p) -> exists x a',
  c a = Ok (x, a') /\ tame a a'.

Lemma tame_refl a : tame a a.
Proof. split; [done|]. intros p b E. by exists b. Qed.
Lemma tame_trans a1 a2 a3 : tame a1 a2 -> tame a2 a3 -> tame a1 a3.
Proof.
  intros [B1 M1] [B2 M2]. split; [congruence|]. intros p b E. destruct (M1 p b E) as (b2 & E2 & T2).
  destruct (M2 p b2 E2) as (b3 & E3 & T3). exists b3. split; [done|congruence].
Qed.
Lemma tame_some a a' p : tame a a' -> is_Some (memory a !! p) -> is_Some (memory a' !! p).
Proof. intros [_ M] [b E]. destruct (M p b E) as (b' & E' & _). by exists b'. Qed.

Lemma tame_bind {A B} p (c : cmd app A) (k : A -> cmd app B) : tame_cmd p c -> (forall x, tame_cmd p (k x)) ->
  tame_cmd p (c ≫= k).
Proof.
  intros Hc Hk a Ha. destruct (Hc a Ha) as (x & a1 & E1 & T1).
  destruct (Hk x a1 (tame_some _ _ _ T1 Ha)) as (y & a2 & E2 & T2). exists y, a2.
  rewrite (cmd_bind_run _ _ _ _ _ E1). split; [done|by eapply tame_trans].
Qed.
Lemma tame_ret {A} p (x : A) : tame_cmd p (mret x).
Proof. intros a _. exists x, a. split; [done|apply tame_refl]. Qed.
Lemma tame_gets {A} p (f : app -> A) : tame_cmd p (gets f).
Proof. intros a _. exists (f a), a. split; [done|apply tame_refl]. Qed.
Lemma tame_proto p f : tame_cmd p (modify (fun a => set_proto (f a) a)).
Proof. intros a _. exists tt, (set_proto (f a) a). split; [done|]. split; [done|]. intros q b E. by exists b. Qed.
Lemma tame_update p f : (forall b, vlan_tag (f b) = vlan_tag b) -> tame_cmd p (update p f).
Proof.
  intros Hf a [b Hb]. eexists tt, _. split; [by apply update_run|]. split; [done|]. cbn [memory set_memory].
  intros q c Hc. destruct (decide (p = q)) as [<-|Hne].
  - exists (f b). split; [apply lookup_insert_eq|]. rewrite Hf. congruence.
  - exists c. by rewrite lookup_insert_ne.
Qed.

Ltac tame_tac := repeat first
  [ progress cbv zeta | (apply tame_update; intros ?; reflexivity) | apply tame_proto | apply tame_ret | apply tame_gets
  | apply tame_bind; [|intros ?]
  | match goal with |- tame_cmd _ (if ?b then _ else _) => destruct b end ].

Lemma makers_tame p now now' tx_ts : tame_cmd p (gptp_make_pdelay_req_packet p) /\
  tame_cmd p (gptp_make_announce_packet p now) /\ tame_cmd p (gptp_make_sync_packet p now') /\
  tame_cmd p (gptp_make_followup_packet p tx_ts).
Proof.
  unfold gptp_make_pdelay_req_packet, gptp_make_announce_packet, gptp_make_sync_packet, gptp_make_followup_packet,
    check_master, next_sequence. split_and!; tame_tac.
Qed.

(** All buffers are in memory, with a priority. *)
Definition memory_ok (m : gmap Z tx_buffer) : Prop := forall b, b ∈ buffers g -> pointer_ok m b.
Record system_ok (s : sender) (h : list Z) : Prop := {
  sy_sender : sender_ok s h; sy_memory : memory_ok (memory (s_app s)) }.

Lemma tame_pointer a a' p : tame a a' -> pointer_ok (memory a) p -> pointer_ok (memory a') p.
Proof.
  intros [_ M] (Hp & b & Hb & Hprio). split; [done|]. destruct (M p b Hb) as (b' & Hb' & Ht). exists b'.
  split; [done|]. unfold vlan_prio. by rewrite Ht.
Qed.

Lemma system_tame s h a : system_ok s h -> tame (s_app s) a -> system_ok (set_app a s) h.
Proof.
  intros [[Hpool Hd Hq Hp] Hm] Ht. split; [split|]; try done.
  - cbn [s_app set_app]. destruct Ht as [-> _]. done.
  - eapply Forall_impl; [exact Hp|]. intros p. by apply tame_pointer.
  - intros b Hb. eapply tame_pointer; [exact Ht|by apply Hm].
Qed.

(** Buffers of the pool are their pages. *)
Lemma held_page s h p : sender_ok s (p :: h) -> p ∈ buffers g /\ 0 <= p < 2 ^ 64 /\ page p = p.
Proof.
  intros Hs. assert (p ∈ buffers g) as Hb
    by (apply (inv_member g _ _ _ (sk_pool _ _ Hs)); right; right; apply elem_of_app; right; left).
  destruct (page_buffer g p Halign Hb) as (? & _ & ?). split; [done|]. split; [lia|done].
Qed.

Lemma free_held s h p : system_ok s (p :: h) -> exists q,
  buffer_pool_free p (bufs (s_app s)) = Ok (0, q) /\ pool_inv g q ((page <$> in_flight s) ++ h).
Proof.
  intros [Hs _]. destruct (held_page s h p Hs) as (_ & Hr & Hpage). apply (free_run g); [done|done|].
  eapply inv_perm; [|exact (sk_pool _ _ Hs)]. by rewrite Hpage, <- Permutation_middle.
Qed.

Lemma free_held_run s h p : system_ok s (p :: h) -> exists q,
  on_app (on_bufs (buffer_pool_free p)) s = Ok (0, set_app (set_bufs q (s_app s)) s) /\
  system_ok (set_app (set_bufs q (s_app s)) s) h.
Proof.
  intros Hsy. destruct (free_held s h p Hsy) as (q & E & Hq). exists q.
  split; [by apply on_app_run, on_bufs_run|]. destruct Hsy as [[_ Hd Hc Hp] Hm]. by split.
Qed.

(** A held buffer is put on its ring, or freed when the ring is full. *)
Lemma enqueue_held s h p : system_ok s (p :: h) -> exists r s', enqueue p s = Ok (r, s') /\ system_ok s' h.
Proof.
  intros Hsy. pose proof Hsy as [Hs Hm]. destruct (held_page s h p Hs) as (Hb & Hr & Hpage).
  destruct (Hm p Hb) as (Hpos & b & Eb & Hprio). pose proof Hs as [Hpool Hd Hq Hp].
  destruct (waiting_at (s_sched s) (vlan_prio b) (dc_ok _ Hd) Hprio) as [w Hw].
  pose proof (enqueue_ring s p b w (dc_ok _ Hd) Eb Hprio Hw) as H. destruct (decide _).
  - destruct (free_held_run s h p Hsy) as (q & E & Hok). eexists 0, _. split; [|exact Hok].
    by rewrite H, (cmd_bind_run _ _ _ _ _ E).
  - destruct H as (d & E & Hd' & Hsame & Hwait). exists 1, (set_sched d s). split; [done|].
    assert (in_flight (set_sched d s) ≡ₚ p :: in_flight s) as Hperm.
    { unfold in_flight. cbn [s_sched s_parsed set_sched]. rewrite Hwait, (concat_insert _ _ _ _ Hw). by rewrite <- Permutation_middle. }
    split; [split|done]; cbn [s_app s_sched s_parsed set_sched]; [|by eapply same_queues_default|done|].
    + eapply inv_perm; [|exact Hpool]. rewrite Hperm. cbn [fmap list_fmap Datatypes.app]. by rewrite Hpage, <- Permutation_middle.
    + rewrite Hperm. apply Forall_cons. split; [|done]. split; [done|]. by exists b.
Qed.

(** A held buffer that is handed to the device is freed, whatever its length. *)
Lemma transmit_held s h p status : system_ok s (p :: h) -> exists r s',
  on_app (transmit_tsn_packet p status) s = Ok (r, s') /\ system_ok s' h.
Proof.
  intros Hsy. pose proof Hsy as [Hs Hm]. destruct (held_page s h p Hs) as (Hb & Hr & Hpage).
  destruct (Hm p Hb) as (_ & b & Eb & _). destruct (free_held s h p Hsy) as (q & Ef & Hq).
  assert (exists r a, transmit_tsn_packet p status (s_app s) = Ok (r, a) /\ bufs a = q /\ memory a = memory (s_app s))
    as (r & a & E & Ha & Hmem).
  { unfold transmit_tsn_packet. rewrite (cmd_bind_run _ _ _ _ _ (deref_run _ _ _ Eb)). cbv zeta.
    destruct (decide (_ >= _)).
    - rewrite (cmd_bind_run _ _ _ _ _ (on_bufs_run _ _ _ _ Ef)). by eexists _, _.
    - cstep. cstep. erewrite cmd_bind_run by (apply on_bufs_run; exact Ef). by eexists _, _. }
  exists r, (set_app a s). split; [by apply on_app_run|]. destruct Hs as [Hpool Hd Hc Hp].
  split; [split|]; cbn [s_app s_sched s_parsed set_app]; rewrite ?Hmem, ?Ha; done.
Qed.

(** A reserved buffer, when there is one. *)
Lemma take_held s h : system_ok s h -> exists e s', on_app (on_bufs get_reserved_tx_buffer) s = Ok (e, s') /\
  (e = 0 /\ s' = s \/ e <> 0 /\ system_ok s' (e :: h)).
Proof.
  intros [Hs Hm]. pose proof Hs as [Hpool Hd Hc Hp].
  destruct (reserved_run g _ _ Halign Hpool) as (e & p & E & Ht). exists e, (set_app (set_bufs p (s_app s)) s).
  split; [by apply on_app_run, on_bufs_run|]. unfold taken in Ht. destruct (isStackEmpty _).
  - left. destruct Ht as [-> ->]. split; [done|]. by destruct s as [[] ? ?].
  - right. destruct Ht as (Hne & _ & Hinv). split; [done|]. split; [split|]; try done.
    eapply inv_perm; [|exact Hinv]. by rewrite <- Permutation_middle.
Qed.

Lemma make_held s h p (c : cmd app Z) : system_ok s h -> p ∈ buffers g -> tame_cmd p c -> exists x s',
  on_app c s = Ok (x, s') /\ system_ok s' h.
Proof.
  intros Hsy Hb Hc. destruct (sy_memory _ _ Hsy p Hb) as (_ & b & Eb & _).
  destruct (Hc (s_app s)) as (x & a & E & Ht); [by eexists|]. exists x, (set_app a s).
  split; [by apply on_app_run|by apply system_tame].
Qed.

(** What a command on the sender promises: it runs, and the buffers are accounted for. *)
Definition accounts (h : list Z) (c : cmd sender unit) : Prop :=
  forall s, system_ok s h -> exists s', c s = Ok (tt, s') /\ system_ok s' h.

Lemma send_periodic_accounts h make k : (forall p, tame_cmd p (make p)) ->
  (forall p s, system_ok s (p :: h) -> exists s', k p s = Ok (tt, s') /\ system_ok s' h) ->
  accounts h (send_periodic make k).
Proof.
  intros Hmake Hk s Hs. unfold send_periodic. destruct (take_held s h Hs) as (e & s1 & E1 & [[-> ->]|[Hne Hs1]]);
    rewrite (cmd_bind_run _ _ _ _ _ E1).
  { exists s. by rewrite decide_True. }
  rewrite decide_False by done. destruct (held_page s1 h e (sy_sender _ _ Hs1)) as (Hb & _).
  destruct (make_held s1 _ e _ Hs1 Hb (Hmake e)) as (size & s2 & E2 & Hs2). rewrite (cmd_bind_run _ _ _ _ _ E2).
  destruct (decide (size = 0)); [|by apply Hk].
  destruct (free_held_run s2 h e Hs2) as (q & E3 & Hs3). rewrite (cmd_bind_run _ _ _ _ _ E3). by eexists.
Qed.

(** C39. The periodic messages lose no buffer.  Whether there is a grandmaster or not, however few
    reserved buffers are free and whichever rings are full, each buffer the periodic messages take is
    on its way afterwards or back in its pool, once. *)
Theorem gptp_messages_conserve now now' tx_ts status s h : system_ok s h -> exists s',
  gptp_messages now now' tx_ts status s = Ok (tt, s') /\ system_ok s' h.
Proof.
  revert s. fold (accounts h (gptp_messages now now' tx_ts status)). unfold gptp_messages.
  apply send_periodic_accounts; [intros p; apply (makers_tame p 0 0 0)|]. intros p s Hs.
  destruct (enqueue_held s h p Hs) as (r & s1 & E1 & Hs1). rewrite (cmd_bind_run _ _ _ _ _ E1).
  clear p s r Hs E1. revert s1 Hs1. apply send_periodic_accounts; [intros p; apply (makers_tame p now 0 0)|].
  intros p s Hs. destruct (enqueue_held s h p Hs) as (r & s1 & E1 & Hs1). rewrite (cmd_bind_run _ _ _ _ _ E1).
  destruct (take_held s1 h Hs1) as (e & s2 & E2 & [[-> ->]|[Hne Hs2]]); rewrite (cmd_bind_run _ _ _ _ _ E2).
  { exists s1. by rewrite decide_True. }
  rewrite decide_False by done. destruct (held_page s2 h e (sy_sender _ _ Hs2)) as (Hb & _).
  destruct (make_held s2 _ e _ Hs2 Hb (proj1 (proj2 (proj2 (makers_tame e 0 now' 0))))) as (size & s3 & E3 & Hs3).
  rewrite (cmd_bind_run _ _ _ _ _ E3).
  destruct (transmit_held s3 h e status Hs3) as (r4 & s4 & E4 & Hs4). rewrite (cmd_bind_run _ _ _ _ _ E4).
  destruct (take_held s4 h Hs4) as (f & s5 & E5 & [[-> ->]|[Hne' Hs5]]); rewrite (cmd_bind_run _ _ _ _ _ E5).
  { exists s4. by rewrite decide_True. }
  rewrite decide_False by done. destruct (held_page s5 h f (sy_sender _ _ Hs5)) as (Hb' & _).
  destruct (make_held s5 _ f _ Hs5 Hb' (proj2 (proj2 (proj2 (makers_tame f 0 0 tx_ts))))) as (size' & s6 & E6 & Hs6).
  rewrite (cmd_bind_run _ _ _ _ _ E6).
  destruct (enqueue_held s6 h f Hs6) as (r7 & s7 & E7 & Hs7). rewrite (cmd_bind_run _ _ _ _ _ E7). by exists s7.
Qed.

(** The first period converts statistics of no samples. *)
Lemma first_period_faults now now' tx_ts status s : stats_offset (proto (s_app s)) = zero_stats ->
  periodic_process_ptp now now' tx_ts status s = Fault BadConversion.
Proof.
  intros H. unfold periodic_process_ptp. rewrite (cmd_bind_run (gets s_app) _ _ _ s eq_refl).
  unfold gptp_get_statistics. rewrite H, no_samples_no_result. done.
Qed.
End accounting.

(** ** Witnesses *)

(** The buffers from page 1 on: the first one parsed, [k] more on the ring of queue 0, and the others
    in their pools. *)
Definition on_the_way (k : nat) : list Z := take (S k) (buffers page1).
Definition pool_without (k : nat) : pool :=
  mkPool (mkStack (take (2047 - k) (drop (S k) (buffers page1)) ++ replicate (S (S k)) 0) (2046 - Z.of_nat k))
    (mkStack (drop 2048 (buffers page1)) 3) (base_of page1) (buffers page1) page1.
Definition plain_frame : tx_buffer := set_metadata 0 0 64 (stale 0).
Definition plain_memory : gmap Z tx_buffer := gset_to_gmap plain_frame (list_to_set (buffers page1)).
Definition sched_with (k : nat) : sched :=
  set_tx_queues (mkTxq (Z.of_nat k) (Z.of_nat k mod 40) 0
    (take k (drop 1 (buffers page1)) ++ replicate (40 - k) 0) :: replicate 7 zero_queue) sched1.
Definition sender_with (k : nat) : sender :=
  mkSender (mkApp gptp_started (pool_without k) plain_memory [] (mkCounters 0 0 0 0)) (sched_with k)
    (mkCq ((page1, 72) :: replicate 2047 (0, 0)) 0 0 1).

Lemma plain_memory_ok : memory_ok page1 plain_memory.
Proof.
  intros b Hb. destruct (page_buffer page1 b page1_aligned Hb) as (Hr & _). split; [exact Hr|].
  exists plain_frame. split; [|by vm_compute]. apply lookup_gset_to_gmap_Some. split; [by apply elem_of_list_to_set|done].
Qed.

Lemma pool_split k : (k < 2048)%nat ->
  take (2047 - k) (drop (S k) (buffers page1)) ++ drop 2048 (buffers page1) ++ take (S k) (buffers page1) ≡ₚ buffers page1.
Proof.
  intros Hk. rewrite <- (take_drop (S k) (buffers page1)) at 4.
  rewrite <- (take_drop (2047 - k) (drop (S k) (buffers page1))) at 2. rewrite drop_drop.
  replace (S k + (2047 - k))%nat with 2048%nat by lia. rewrite app_assoc. apply Permutation_app_comm.
Qed.

Ltac all_of := apply (bool_decide_unpack _); vm_compute; exact I.

Ltac sender_with_ok k :=
  assert (in_flight (sender_with k) = on_the_way k) as E by (by vm_compute);
  split; [|split| |];
  [ rewrite E, app_nil_r; assert (page <$> on_the_way k = on_the_way k) as -> by (by vm_compute);
    split; [by vm_compute..|all_of|all_of|exact (pool_split k ltac:(lia))]
  | pose proof sched1_ok as [_ Hc Ht Hw]; split; [split; [done|]|done|exact Ht|exact Hw];
    apply Forall_cons; split; [by vm_compute|apply Forall_replicate, zero_queue_ok]
  | done
  | exact sched1_off
  | done
  | by vm_compute
  | rewrite E; apply Forall_forall; intros p Hp; apply plain_memory_ok;
    by eapply elem_of_take in Hp as (i & Hi%list_elem_of_lookup_2 & _) ].

Lemma sender_3_ok : sender_ok page1 (sender_with 3) [].
Proof. sender_with_ok 3%nat. Qed.
Lemma sender_40_ok : sender_ok page1 (sender_with 40) [].
Proof. sender_with_ok 40%nat. Qed.

Definition quiet_device (n : nat) : Z * Z * Z := (1000, 0, 72).

Lemma sender_round_conserves_witness : exists s' gone,
  sender_round quiet_device (sender_with 3) = Ok (tt, s') /\ sender_ok page1 s' [] /\
  in_flight (sender_with 3) ≡ₚ gone ++ in_flight s' /\ (length gone <= 20)%nat /\
  sent (s_app s') = [] ++ frames_at plain_memory gone /\
  cq_contents (s_parsed s') = drop 16 (cq_contents (s_parsed (sender_with 3))).
Proof.
  apply (sender_round_conserves page1 quiet_device (sender_with 3) [] sender_3_ok).
  intros i w Hw. unfold UserSched.TSN_QUEUE_SIZE.
  do 8 (destruct i as [|i]; [injection Hw as <-; by vm_compute|]). done.
Defined.

Lemma refused_frame_freed_twice_witness : exists s' q1 q2,
  forward (sender_with 40) = Ok (tt, s') /\ buffer_pool_alloc (bufs (s_app s')) = Ok (page1, q1) /\
  buffer_pool_alloc q1 = Ok (page1, q2).
Proof.
  refine (refused_frame_freed_twice page1 page1_aligned (sender_with 40) [] page1 72 [] plain_frame
    (take 40 (drop 1 (buffers page1))) sender_40_ok _ _ _ _ _); try (by vm_compute).
Defined.

Lemma gptp_messages_conserve_witness : exists s',
  gptp_messages 2000 2000 3000 0 (sender_with 3) = Ok (tt, s') /\ system_ok page1 s' [].
Proof.
  apply (gptp_messages_conserve page1 page1_aligned 2000 2000 3000 0 (sender_with 3) []).
  split; [exact sender_3_ok|exact plain_memory_ok].
Defined.
